(* ===== verification/_CoqProject ===== *)
-Q . S2P
Prelude.v
PyStr.v
Hashlib.v
Json.v
Canonical.v
PyObj.v
SdkHashing.v
Bundle.v
TestBundles.v
Builder.v
Steps.v
SdkVerifier.v
VerifierSpec.v
VerifierProps.v
Issuing.v
Standalone.v
VerifierAgree.v
PyDecimal.v
ServerCanonical.v
AuditChain.v
EvidenceLog.v
ChainCheckpoint.v
Guards.v
Sizes.v
Schemas.v
Engine.v
EngineProps.v
CoreVerifier.v
Modular.v
FieldUtils.v
FieldProps.v
FieldPrime.v
RateLimit.v
Backpressure.v
ApiKeys.v
Artifacts.v
ArtifactGraph.v
SharedMemory.v
Tasks.v
Scheduler.v
SchedulerProps.v
StubPipeline.v
StubProps.v
ZkUnit.v
ZkUnitProps.v
Coordinator.v
CoordinatorProps.v
ProofQueue.v
ChainMetrics.v
DecimalText.v
Plonk.v
PlonkProps.v
KeyLog.v
PlonkProof.v
RustBackend.v
PlonkProofProps.v
ProofBundle.v
ProofBundleProps.v
Evidence.v
EvidenceProps.v
Dataset.v
Runtime.v
Persist.v
Routes.v
RoutesProps.v
OtherCircuits.v
Tee.v
Tables.v
TablesProps.v
ServiceProps.v
Deployment.v
Bridge.v
Startup.v
TestVectors.v
Lookup.v
MemoryFiles.v
