(* ===== verification/Prelude.v ===== *)
(** * A verification of the VRL protocol implementation

    ** The program

    A calculation of an import's landed cost is made in such a way that it can
    be recomputed and audited.  A request is validated ([models/schemas.py],
    [security/guards.py]), priced by a deterministic engine over a tariff dataset
    ([core/engine.py], [core/tariffs.py]), and returned with the hashes of its
    canonical texts ([utils/], [core/proof.py]); [core/verifier.py] recomputes
    it.  The service writes every event to an audit log, 64 hash chains in a
    database ([core/audit_chain.py], [core/chain_checkpoint.py],
    [app/services/evidence_service.py], [app/db/repository.py]).  Around it, a
    coordinator ([coordinator/], [orchestrator.py]) schedules ten agents
    ([agents/]) on a graph of typed artifacts ([zk/interfaces.py]) that takes a
    request through circuit, trace, witness, proof and verification
    ([zk/provers/], [zk/verifiers/], [backend/]).  Apart from the service, an SDK
    ([sdk/python/vrl/]) builds and verifies portable proof bundles, and
    [verifier/vrl_verify.py] verifies them with nothing but the standard library.

    A PLONK circuit of eight gates ([zk/compiler/], [zk/witness/]) is proved and
    verified by a native backend behind [zk/rust_bridge.py], with keys in a
    hash-linked log ([zk/keys/]); its proofs are exported in bundles
    ([backend/proof_export.py]), persisted with the calculation, and turned into
    training data ([backend/verified_dataset.py]).  The routes of
    [api/routes.py] are the service's only entrance; [app/main.py] starts it.

    ** The files

    Foundations.
    - Prelude: generic lemmas, errors as [result], notation, tactics.
    - PyStr, PyDecimal, PyObj: Python's strings, the decimal arithmetic the
      engine uses (28 digits, ROUND_HALF_EVEN and ROUND_HALF_UP), and objects.
    - Hashlib: SHA-1 and SHA-256, executable, on machine integers; collisions as
      a relation.
    - Json, Canonical: JSON values, a parser and printers, the canonical text
      and its injectivity.
    - Modular: congruence modulo n as a setoid, and a checked criterion of
      primality.

    The SDK ([sdk/python/vrl/], [verifier/vrl_verify.py]).
    - SdkHashing: hashing.py, identity.py.  Bundle: bundle.py.  Builder:
      builder.py.  SdkVerifier: verifier.py.  Standalone: vrl_verify.py.
    - VerifierSpec, VerifierProps, Steps: the verdict as an abstract
      specification and the refinement; what a VALID bundle commits to.
    - Issuing: bundles issued by the builder verify.  TestBundles: round trips.
      VerifierAgree: the two verifiers agree on the documents that [from_dict]
      accepts with an identifier, a time and edges that are strings.

    The service.
    - ServerCanonical: [utils/].  Guards: [security/guards.py].  Schemas, Sizes:
      [models/schemas.py].  Engine, EngineProps: [core/engine.py],
      [core/tariffs.py], [core/proof.py].  CoreVerifier: [core/verifier.py],
      [core/zk_interface.py].
    - AuditChain, ChainCheckpoint: [core/audit_chain.py],
      [core/chain_checkpoint.py].  EvidenceLog: the interleaved transactions of
      the evidence service over the tables and locks of [app/db/repository.py].
      ChainMetrics: [core/chain_metrics.py], [security/audit_log.py].
    - RateLimit, Backpressure, ApiKeys: the files of [security/].

    The artifact pipeline.
    - FieldUtils, FieldProps, FieldPrime: [zk/field_utils.py].
    - Artifacts: [zk/interfaces.py].  ArtifactGraph:
      [coordinator/artifact_graph.py].  SharedMemory, MemoryFiles:
      [memory/shared_memory.py].
    - StubPipeline, StubProps: [zk/circuits/import_landed_cost_stub.py],
      [zk/provers/stub_prover.py], [zk/verifiers/stub_verifier.py],
      [backend/trace_adapter.py], [backend/zk_pipeline.py].
    - Tasks: [agents/base.py].  ZkUnit, ZkUnitProps: [agents/zk_unit.py].
    - Scheduler, SchedulerProps, Coordinator, CoordinatorProps:
      [coordinator/system.py], [coordinator/performance.py], [orchestrator.py].
    - ProofQueue: [backend/proof_queue.py].

    Proofs, evidence and routes.
    - DecimalText, Plonk, PlonkProps: the circuit, fixed-point values and wire
      assignment of [zk/compiler/plonk_adapter.py], [zk/witness/generator.py].
    - KeyLog: [zk/keys/].  Bridge: [zk/rust_bridge.py].  PlonkProof,
      PlonkProofProps: [zk/provers/plonk_prover.py],
      [zk/verifiers/plonk_verifier.py], over the class [KeyLog.Backend].
    - RustBackend: the three commands of [zk/rust_backend/src/main.rs], over the
      class [Crates] of what they take from halo2, ff, hex, serde and the disk.
    - ProofBundle, ProofBundleProps: [backend/proof_export.py],
      [scripts/verify_proof.py].
    - Evidence, EvidenceProps: phase one of [calculate_and_persist], the records
      and [verify_persisted] of [app/services/evidence_service.py], over the class
      [Evidence.Repository].  Persist: its retry loop.
    - Tables, TablesProps, ServiceProps: the tables and statements of
      [app/db/repository.py], which implement [Evidence.Repository], and whole
      calls of the service over them.
    - Dataset: [backend/verified_dataset.py], [app/services/training_service.py].
    - Runtime: [api/runtime.py].  Routes, RoutesProps: [api/routes.py].
    - Deployment: the routes over the service over its tables, request after
      request.  Startup: [app/main.py], [app/db/connection.py].
    - OtherCircuits, TestVectors: the three other circuits of [zk/circuits/] and
      [zk/witness/], and the vectors shipped for them.  Tee: [zk/tee/].
      Lookup: [registry/tools/lookup.py].

    The same transaction is in three files, each for what it is about: in
    EvidenceLog as statements that interleave under advisory locks, in Persist
    as an attempt among others, in Tables as a function on rows.
    [ServiceProps.service_refines_log] ties the last to the first.

    ** How code becomes definitions

    A Python function that can raise returns a [result]; the exception has its
    class and message.  Dicts are association lists in insertion order.  Objects
    that a method changes are records threaded through.  Threads are step
    relations whose steps are the sections under one lock, or one SQL
    statement.  Floats, which only the metrics and the performance scores use,
    are an interface ([Tasks.PyFloat]), with an instance over rationals.  Agents
    are an interface ([Tasks.AgentTeam]) that the scheduler is proved against
    and that the ten agents of ZkUnit implement.  Clock readings are arguments.
    The native backend and the repository are classes as well: theorems about
    provers and about the service hold for every [KeyLog.Backend], some of them
    for every [RustBackend.complete_backend]: one that compiles the circuit and
    leaves its manifest, and that proves whatever solves the gates over the
    integers and accepts its proof.  [RustBackend.rust_backend_complete] shows
    that the repository's own backend is one, where it can write its key
    directory and when halo2 proves what its mock prover accepts and verifies
    what it proved ([RustBackend.CrateLaws]; [toy_crates] is an instance);
    [PlonkProofProps.digest_backend] is a smaller one that examples evaluate.
    [Tables.tables_repository] is the repository of a state of the tables.  What
    pydantic reads from a stored response is an argument, with the hypothesis
    that it reads back what its own dump wrote.

    Strings are sequences of code points below U+0100, so that NFC leaves them
    alone.  SHA-256 is a function like any other; a theorem about binding ends
    in equality or in an explicit collision.

    ** What the theorems show

    - Canonical text: injective on values; printing and parsing agree.
    - Bundles: exactly which bundles are VALID, by an abstract verdict the
      verifier refines; that VALID bundles bind their contents; that issued
      bundles are VALID, after JSON as well; where both verifiers agree.
    - Engine: equal to exact arithmetic in cents; its responses verify, and only
      recomputed results verify.
    - Audit log: the verifier's verdict is that of linked chains; chains bind
      their history; every reachable state of the concurrent writers has a valid
      log, records requests once, and can be completed.
    - Pipeline: artifacts built are valid and tamper evident; the graph is
      consistent; honest runs are VALID and proofs bind their artifacts; the
      scheduler ends, runs tasks after their dependencies only, and enforces
      constraints; what failures and adversaries lead to.
    - Arithmetic: division, interpolation and openings of polynomials are right
      over a field whose order is proved prime.
    - Guards, limits, queues: their bounds as invariants of all interleavings;
      the events of the proof queue are those of its runs, whichever writes to
      its mirror fail, and a task submitted twice at once is proved twice; files of the shared memory are replaced whole or not at all.
    - PLONK: checking an assignment is evaluating the gates; the wires of honest
      witnesses are the amounts of the calculation and satisfy the gates; what
      the circuit leaves open; when a proof is VALID, and that
      honest proofs are, with any complete backend.
    - Bundles of proofs, persisted evidence, training data: each verdict as an
      equivalence; what was exported or kept verifies; what the checks do not
      bind.
    - The service: every call is a run of the concurrent log; evidence is append
      only; a duplicate is rejected with one event.
    - Routes: what is answered and when; slots are given back and errors
      contained; a calculation answered once is confirmed after any history of
      requests, and the dashboard never shows a broken chain.
    - Start-up and bridge: no connection in the clear by default, a bounded
      number of attempts; how a run of the backend can end.

    ** Fuel

    - The JSON parser takes the length of the text as fuel, and
      [Json.parse_print] shows it is enough; [FieldUtils.divmod_loop] takes the
      length of the dividend ([FieldProps.poly_divmod_terminates]);
      [Scheduler.dag_loop] takes the number of pending tasks and one
      ([SchedulerProps.execute_dag_terminates]).
    - Other loops recurse on what is left to do: the attempts of
      [Persist.attempts] and [Startup.try_pool], the rows of a chain, the
      candidates of an export.

    ** Not modelled

    - The proof system of the native backend, which is halo2's; reading its
      input and printing its answer, which [Bridge] has from the other side.
    - FastAPI, pydantic's own error texts, asyncpg's connections, time-outs and
      statement preparation; the SQL migrations but for the unique constraints
      and the sequence they declare.  A JSONB column is the value written to it:
      PostgreSQL does not keep the order of keys, which no canonical text and no
      look-up sees.  Requests are served one at a time in Deployment; the
      interleavings of their transactions are EvidenceLog's.
    - The text of the proof queue's JSONL mirror, whose failing writes are steps
      of the queue, and logs.  Of the JSON files of the shared memory the text is not modelled: a file holds
      the list written to it, or a part of its text that does not parse.
    - Scripts that measure or drive a running service ([scripts/],
      [.github/scripts/]), and the layout of one circuit by [lookup.py].
    - TypeScript, Go and Rust SDKs, workflow definitions, datasets.
*)
From Stdlib Require Export ZArith Lia Bool.
From stdpp Require Export base tactics sets list sorting strings.

Declare Scope py_scope.
Delimit Scope py_scope with py.
Open Scope stdpp_scope.

(** ** Exceptions and the result monad

    Python code that can raise is modelled by [result]: [Raise] carries the
    exception class and the text of its message with the interpolated values
    left out (each hole is written [{}]). *)

Inductive exn_class :=
  | ValueError | TypeError | KeyError | AttributeError | RuntimeError
  | LookupError | InvalidOperation | SecurityViolation | ValidationError
  | IndexError | OverflowError | BackpressureError
  | DuplicateInputHashError | PersistenceIntegrityError | RepositoryUnavailableError
  | NotImplementedError.

#[global] Instance exn_class_eq_dec : EqDecision exn_class.
Proof. solve_decision. Defined.

Record exn := Exn { exn_cls : exn_class; exn_msg : string }.

#[global] Instance exn_eq_dec : EqDecision exn.
Proof. solve_decision. Defined.

Inductive result (A : Type) :=
  | Ok (a : A)
  | Raise (e : exn).
Arguments Ok {_} _.
Arguments Raise {_} _.

Abbreviation raise c m := (Raise (Exn c m)).

#[global] Instance result_ret : MRet result := fun A a => Ok a.
#[global] Instance result_bind : MBind result := fun A B f m =>
  match m with Ok a => f a | Raise e => Raise e end.
#[global] Instance result_fmap : FMap result := fun A B f m =>
  match m with Ok a => Ok (f a) | Raise e => Raise e end.

#[global] Instance result_eq_dec `{EqDecision A} : EqDecision (result A).
Proof. solve_decision. Defined.

#[global] Instance Ok_inj {A} : Inj (=) (=) (@Ok A).
Proof. by intros ?? [=]. Qed.

Definition ok_default {A} `{Inhabited A} (m : result A) : A :=
  match m with Ok a => a | Raise _ => inhabitant end.

Definition is_ok {A} (m : result A) : bool :=
  match m with Ok _ => true | Raise _ => false end.

Lemma bind_ok {A B} (m : result A) (f : A → result B) b :
  (m ≫= f) = Ok b ↔ ∃ a, m = Ok a ∧ f a = Ok b.
Proof. destruct m; simpl; naive_solver. Qed.

Lemma bind_raise {A B} (m : result A) (f : A → result B) e :
  (m ≫= f) = Raise e ↔ m = Raise e ∨ ∃ a, m = Ok a ∧ f a = Raise e.
Proof. destruct m; simpl; naive_solver. Qed.

Lemma fmap_ok {A B} (m : result A) (f : A → B) b :
  f <$> m = Ok b ↔ ∃ a, m = Ok a ∧ f a = b.
Proof. destruct m; simpl; naive_solver. Qed.

(** A comprehension [[f(x) for x in xs]] whose body can raise. *)
Fixpoint traverse {A B} (f : A → result B) (l : list A) : result (list B) :=
  match l with
  | [] => Ok []
  | x :: l => y ← f x; ys ← traverse f l; Ok (y :: ys)
  end.

Lemma traverse_ok {A B} (f : A → result B) l k :
  traverse f l = Ok k ↔ Forall2 (fun x y => f x = Ok y) l k.
Proof.
  revert k; induction l as [|x l IH]; intros k; simpl.
  - split; [intros [= <-]; constructor|]. by intros ->%Forall2_nil_inv_l.
  - rewrite bind_ok. setoid_rewrite bind_ok. setoid_rewrite IH. split.
    + intros (y & Hy & ys & Hys & [= <-]). by constructor.
    + intros H. inversion H; subst. eauto 6.
Qed.

Lemma traverse_map {A B C} (f : B → result C) (g : A → B) l :
  traverse f (map g l) = traverse (fun x => f (g x)) l.
Proof. induction l as [|x l IH]; simpl; [done|]. by rewrite IH. Qed.

Lemma traverse_raise_inv {A B} (f : A → result B) e l :
  traverse f l = Raise e → ∃ x, x ∈ l ∧ f x = Raise e.
Proof.
  induction l as [|x l IH]; [done|]. cbn [traverse]. destruct (f x) as [y|e'] eqn:E; cbn [mbind result_bind].
  - destruct (traverse f l) as [ys|e']; cbn [mbind result_bind]; [done|]. intros [= ->].
    destruct IH as (z & Hz & Hf); [done|]. exists z. split; [by right|done].
  - intros [= ->]. exists x. split; [by left|done].
Qed.

Lemma traverse_total {A B} (f : A → result B) (g : A → B) l :
  (∀ x, x ∈ l → f x = Ok (g x)) → traverse f l = Ok (map g l).
Proof.
  intros H. apply traverse_ok. induction l; constructor; set_solver.
Qed.

(** A loop [for x in xs: s = f(s, x)] whose body can raise. *)
Fixpoint fold_result {S A} (f : S → A → result S) (l : list A) (s : S) : result S :=
  match l with
  | [] => Ok s
  | x :: l => s' ← f s x; fold_result f l s'
  end.

(** Induction over the iterations, with the elements already visited. *)
Lemma fold_result_ind {S A} (f : S → A → result S) (P : list A → S → Prop) l s s' :
  (∀ pre x post s s', l = pre ++ x :: post → P pre s → f s x = Ok s' → P (pre ++ [x]) s') →
  P [] s → fold_result f l s = Ok s' → P l s'.
Proof.
  intros Hf. assert (∀ post pre s, l = pre ++ post → P pre s → fold_result f post s = Ok s' → P l s') as H.
  { induction post as [|x post IH]; intros pre s0 Hl Hs; simpl.
    - intros [= <-]. by rewrite app_nil_r in Hl; subst.
    - rewrite bind_ok. intros (s1 & H1 & H). apply (IH (pre ++ [x]) s1); [by rewrite <-app_assoc|by eapply Hf|done]. }
  by apply (H l []).
Qed.

Lemma fold_result_inv {S A} (f : S → A → result S) (P : S → Prop) l s s' :
  (∀ s x s', x ∈ l → P s → f s x = Ok s' → P s') →
  P s → fold_result f l s = Ok s' → P s'.
Proof.
  intros Hf. apply (fold_result_ind f (fun _ => P)). intros pre x post s1 s2 -> . apply Hf. set_solver.
Qed.

(** ** Automation shared by the development *)

(** Take a successful computation in the result monad apart. *)
Ltac res_inv :=
  repeat match goal with
  | H : mbind _ _ = Ok _ |- _ => apply bind_ok in H as (? & ? & ?)
  | H : fmap _ _ = Ok _ |- _ => apply fmap_ok in H as (? & ? & ?)
  | H : Ok _ = Ok _ |- _ => injection H as H; try subst
  | H : Raise _ = Ok _ |- _ => discriminate H
  | H : Ok _ = Raise _ |- _ => discriminate H
  end.

(** ... and split the conditionals it went through. *)
Ltac res_cases := repeat (progress res_inv || case_match).

(** Split every conditional and match of the goal. *)
Ltac split_cases := repeat (case_match; simplify_eq/=; try done).

(** ** Lists *)

Lemma last_cons_cons {A} (x y : A) l : last (x :: y :: l) = last (y :: l).
Proof. done. Qed.

Lemma last_default_app {A} (d : A) l k :
  default d (last (l ++ k)) = default (default d (last l)) (last k).
Proof.
  destruct k as [|x k _] using rev_ind; simpl; [by rewrite app_nil_r|].
  by rewrite app_assoc, !last_snoc.
Qed.

Lemma elem_of_map {A B} (f : A → B) l y : y ∈ map f l ↔ ∃ x, y = f x ∧ x ∈ l.
Proof. apply list_elem_of_fmap. Qed.

Lemma filter_all {A} (P : A → Prop) `{!∀ x, Decision (P x)} (l : list A) : (∀ x, x ∈ l → P x) → filter P l = l.
Proof.
  induction l as [|x l IH]; intros Hl; [done|]. rewrite filter_cons_True by (apply Hl; set_solver).
  f_equal. apply IH. set_solver.
Qed.

Lemma filter_none {A} (P : A → Prop) `{!∀ x, Decision (P x)} (l : list A) : (∀ x, x ∈ l → ¬ P x) → filter P l = [].
Proof.
  induction l as [|x l IH]; intros Hl; [done|]. rewrite filter_cons_False by (apply Hl; set_solver).
  apply IH. set_solver.
Qed.

Lemma forallb_Forall {A} (f : A → bool) l :
  forallb f l = true ↔ Forall (fun x => f x = true) l.
Proof. rewrite forallb_forall, Forall_forall. by setoid_rewrite list_elem_of_In. Qed.

(** ** Insertion sort

    Python's [sorted] is a stable sort; it is modelled by a stable insertion
    sort over the comparison of the sort keys. *)
Section isort.
Context {A : Type} (leb : A → A → bool).

Fixpoint insert_sorted (x : A) (l : list A) : list A :=
  match l with
  | [] => [x]
  | y :: l => if leb x y then x :: y :: l else y :: insert_sorted x l
  end.

Fixpoint isort (l : list A) : list A :=
  match l with
  | [] => []
  | x :: l => insert_sorted x (isort l)
  end.

Lemma insert_sorted_perm x l : insert_sorted x l ≡ₚ x :: l.
Proof.
  induction l as [|y l IH]; simpl; [done|].
  case_match; [done|]. rewrite IH. apply Permutation_swap.
Qed.

Lemma isort_perm l : isort l ≡ₚ l.
Proof.
  induction l as [|x l IH]; simpl; [done|]. by rewrite insert_sorted_perm, IH.
Qed.

Lemma length_isort l : length (isort l) = length l.
Proof. by rewrite isort_perm. Qed.

Lemma elem_of_isort x l : x ∈ isort l ↔ x ∈ l.
Proof. by rewrite isort_perm. Qed.

Context (Htrans : ∀ x y z, leb x y = true → leb y z = true → leb x z = true).
Context (Htotal : ∀ x y, leb x y = true ∨ leb y x = true).

Notation R := (fun x y => leb x y = true).

Lemma insert_sorted_sorted x l :
  StronglySorted R l → StronglySorted R (insert_sorted x l).
Proof using Htrans Htotal.
  induction 1 as [|y l Hl IH Hy]; simpl; [repeat constructor|].
  destruct (leb x y) eqn:E.
  - repeat constructor; try done. eapply Forall_impl; [exact Hy|].
    simpl. eauto.
  - constructor; [done|]. rewrite insert_sorted_perm. constructor; [|done].
    destruct (Htotal x y); congruence.
Qed.

Lemma isort_sorted l : StronglySorted R (isort l).
Proof using Htrans Htotal.
  induction l; simpl; [constructor|]. by apply insert_sorted_sorted.
Qed.

Lemma isort_id l : StronglySorted R l → isort l = l.
Proof using.
  induction 1 as [|x l Hl IH Hx]; simpl; [done|]. rewrite IH.
  destruct Hx; simpl; [done|]. by rewrite H.
Qed.

Lemma isort_idemp l : isort (isort l) = isort l.
Proof using Htrans Htotal. apply isort_id, isort_sorted. Qed.

(** Two lists with the same elements sort to the same list when the order
    tells their elements apart. *)
Lemma isort_unique l k :
  l ≡ₚ k →
  (∀ x y, x ∈ l → y ∈ l → leb x y = true → leb y x = true → x = y) →
  isort l = isort k.
Proof using Htrans Htotal.
  intros Hp Hanti.
  assert (Hanti' : ∀ x y, x ∈ isort l → y ∈ isort l →
    leb x y = true → leb y x = true → x = y).
  { intros x y; rewrite !elem_of_isort; auto. }
  assert (Hp' : isort l ≡ₚ isort k) by by rewrite !isort_perm.
  pose proof (isort_sorted l) as Sl. pose proof (isort_sorted k) as Sk.
  revert Hanti' Hp' Sl Sk. generalize (isort l), (isort k). clear.
  intros l; induction l as [|x l IH]; intros k Hanti Hp Sl Sk.
  { by apply Permutation_nil_l in Hp. }
  destruct k as [|y k]; [by apply Permutation_nil_r in Hp|].
  apply StronglySorted_inv in Sl as [Sl Hx].
  apply StronglySorted_inv in Sk as [Sk Hy].
  assert (x = y) as ->.
  { assert (x ∈ y :: k) as Hxk by (rewrite <-Hp; set_solver).
    assert (y ∈ x :: l) as Hyl by (rewrite Hp; set_solver).
    apply elem_of_cons in Hxk as [|Hxk]; [done|].
    apply elem_of_cons in Hyl as [|Hyl]; [done|].
    rewrite Forall_forall in Hx, Hy. apply Hanti; set_solver. }
  f_equal. apply IH; [set_solver| |done..]. by eapply Permutation_cons_inv.
Qed.
End isort.

Lemma insert_sorted_map {A B} (leA : A → A → bool) (leB : B → B → bool) (f : A → B) x l :
  (∀ y, leB (f x) (f y) = leA x y) →
  insert_sorted leB (f x) (map f l) = map f (insert_sorted leA x l).
Proof.
  intros H. induction l as [|y l IH]; simpl; [done|].
  rewrite H. case_match; simpl; congruence.
Qed.

Lemma isort_map {A B} (leA : A → A → bool) (leB : B → B → bool) (f : A → B) l :
  (∀ x y, leB (f x) (f y) = leA x y) →
  isort leB (map f l) = map f (isort leA l).
Proof.
  intros H. induction l as [|x l IH]; simpl; [done|].
  rewrite IH. by apply insert_sorted_map.
Qed.

(** ** Python dictionaries

    A [dict] keeps its keys in insertion order: an association list, where
    assigning to a key that is present replaces the value in place. *)
Section dict.
Context {K V : Type} `{!EqDecision K}.
Implicit Types d : list (K * V).

Fixpoint dict_get (k : K) d : option V :=
  match d with
  | [] => None
  | (k', v) :: d => if decide (k = k') then Some v else dict_get k d
  end.

Fixpoint dict_set (k : K) (v : V) d : list (K * V) :=
  match d with
  | [] => [(k, v)]
  | (k', v') :: d =>
      if decide (k = k') then (k', v) :: d else (k', v') :: dict_set k v d
  end.

Definition dict_mem (k : K) d : bool :=
  match dict_get k d with Some _ => true | None => false end.

Definition dict_keys d : list K := d.*1.
Definition dict_values d : list V := d.*2.

Definition dict_wf d : Prop := NoDup (dict_keys d).

Lemma dict_get_set_eq k v d : dict_get k (dict_set k v d) = Some v.
Proof. induction d as [|[k' v'] d IH]; simpl; repeat (case_decide; simpl); done. Qed.

Lemma dict_get_set_ne k k' v d :
  k ≠ k' → dict_get k (dict_set k' v d) = dict_get k d.
Proof.
  intros. induction d as [|[k'' v''] d IH]; simpl; repeat (case_decide; simpl); congruence.
Qed.

Lemma dict_get_Some_elem k v d : dict_get k d = Some v → (k, v) ∈ d.
Proof.
  induction d as [|[k' v'] d IH]; simpl; [done|]. case_decide; set_solver.
Qed.

Lemma dict_get_elem k v d : dict_wf d → (k, v) ∈ d → dict_get k d = Some v.
Proof.
  unfold dict_wf, dict_keys. induction d as [|[k' v'] d IH]; simpl; [set_solver|].
  rewrite NoDup_cons, elem_of_cons. intros [Hn Hd] [[= -> ->]|H].
  - by rewrite decide_True.
  - rewrite decide_False; [auto|]. intros ->. apply Hn.
    apply list_elem_of_fmap. by exists (k', v).
Qed.

Lemma dict_get_None k d : dict_get k d = None ↔ k ∉ dict_keys d.
Proof.
  unfold dict_keys.
  induction d as [|[k' v'] d IH]; simpl; [set_solver|]. case_decide; set_solver.
Qed.

Lemma dict_mem_spec k d : dict_mem k d = true ↔ k ∈ dict_keys d.
Proof.
  unfold dict_mem. pose proof (dict_get_None k d).
  destruct (dict_get k d) eqn:E; split; try done; intros.
  - destruct (decide (k ∈ dict_keys d)); [done|]. naive_solver.
  - naive_solver.
Qed.

Lemma dict_set_keys_in k v d : k ∈ dict_keys d → dict_keys (dict_set k v d) = dict_keys d.
Proof.
  unfold dict_keys. induction d as [|[k' v'] d IH]; simpl; [set_solver|].
  case_decide; simpl; [done|]. intros Hk. f_equal. set_solver.
Qed.

Lemma dict_set_notin k v d : k ∉ dict_keys d → dict_set k v d = d ++ [(k, v)].
Proof.
  unfold dict_keys. induction d as [|[k' v'] d IH]; simpl; [done|].
  case_decide; [set_solver|]. intros. f_equal. set_solver.
Qed.

Lemma dict_set_wf k v d : dict_wf d → dict_wf (dict_set k v d).
Proof.
  intros Hd. destruct (decide (k ∈ dict_keys d)).
  - unfold dict_wf. by rewrite dict_set_keys_in.
  - rewrite dict_set_notin by done. unfold dict_wf, dict_keys in *.
    rewrite fmap_app. apply NoDup_app. split; [done|]. split; [set_solver|].
    apply NoDup_singleton.
Qed.

Lemma dict_set_elem k v k' v' d :
  (k', v') ∈ dict_set k v d → (k', v') = (k, v) ∨ (k', v') ∈ d.
Proof.
  induction d as [|[k'' v''] d IH]; simpl; [set_solver|].
  case_decide; set_solver.
Qed.
End dict.

(** [dict(pairs)]: later pairs win, a key keeps its first position. *)
Definition dict_of_pairs {K V} `{!EqDecision K} (l : list (K * V)) : list (K * V) :=
  fold_left (fun d p => dict_set p.1 p.2 d) l [].

Lemma dict_of_pairs_acc {K V} `{!EqDecision K} (l d : list (K * V)) :
  dict_wf (d ++ l) → fold_left (fun d p => dict_set p.1 p.2 d) l d = d ++ l.
Proof.
  revert d. induction l as [|[k v] l IH]; intros d Hd; simpl; [by rewrite app_nil_r|].
  rewrite dict_set_notin, IH; rewrite <-?app_assoc; [done..|].
  unfold dict_wf, dict_keys in *. rewrite fmap_app in Hd. simpl in Hd.
  apply NoDup_app in Hd as (_ & Hd & _). intros Hk. apply (Hd k Hk). set_solver.
Qed.

Lemma dict_of_pairs_wf {K V} `{!EqDecision K} (l : list (K * V)) :
  dict_wf l → dict_of_pairs l = l.
Proof. intros. by apply (dict_of_pairs_acc l []). Qed.

(** ** Filters by a boolean test *)

Lemma filter_all_true {A} (p : A → bool) l : (∀ x, x ∈ l → p x = true) → List.filter p l = l.
Proof. induction l as [|x l IH]; intros H; cbn; [done|]. rewrite (H x), IH by set_solver. done. Qed.

Lemma filter_none_false {A} (p : A → bool) l : (∀ x, x ∈ l → p x = false) → List.filter p l = [].
Proof. induction l as [|x l IH]; intros H; cbn; [done|]. rewrite (H x), IH by set_solver. done. Qed.

#[export] Instance list_filter_proper {A} (p : A → bool) :
  Proper (Permutation ==> Permutation) (List.filter p).
Proof.
  intros l k. induction 1; simpl; repeat case_match; try done; [by constructor..|by etrans].
Qed.

(** ** Sort keys that are tuples *)

(** [a < b] or [a = b] and the rest decides: one component of a tuple key *)
Definition then_by {A} (eqb leb : A → A → bool) (x y : A) (rest : bool) : bool :=
  if eqb x y then rest else leb x y.

Lemma then_by_total {A} eqb (leb : A → A → bool) x y r s :
  (∀ a b, eqb a b = true ↔ a = b) → (∀ a b, leb a b = true ∨ leb b a = true) →
  (r = true ∨ s = true) → then_by eqb leb x y r = true ∨ then_by eqb leb y x s = true.
Proof.
  intros He Hl Hr. unfold then_by. destruct (eqb x y) eqn:E.
  - apply He in E as ->. destruct (eqb y y) eqn:E'; [done|]. assert (eqb y y = true) by by apply He. congruence.
  - destruct (eqb y x) eqn:E'; [|apply Hl]. apply He in E' as ->. assert (eqb x x = true) by by apply He. congruence.
Qed.

Lemma then_by_trans {A} eqb (leb : A → A → bool) x y z r s t :
  (∀ a b, eqb a b = true ↔ a = b) →
  (∀ a b c, leb a b = true → leb b c = true → leb a c = true) →
  (∀ a b, leb a b = true → leb b a = true → a = b) →
  (r = true → s = true → t = true) →
  then_by eqb leb x y r = true → then_by eqb leb y z s = true → then_by eqb leb x z t = true.
Proof.
  intros He Ht Ha Hr. unfold then_by.
  destruct (eqb x y) eqn:E1; [apply He in E1 as ->; by destruct (eqb y z); eauto|].
  destruct (eqb y z) eqn:E2; [apply He in E2 as ->; by rewrite E1|].
  intros H1 H2. destruct (eqb x z) eqn:E3; [|eauto]. apply He in E3 as ->.
  rewrite (Ha _ _ H1 H2) in E1. assert (eqb y y = true) by by apply He. congruence.
Qed.

Create HintDb vrl.
#[export] Hint Resolve dict_get_set_eq dict_get_set_ne dict_set_wf : vrl.
#[export] Hint Resolve isort_perm : vrl.
