(* ===== verification/PyStr.v ===== *)
(** * Python strings and integers

    A [str] is a Rocq [string] whose characters are the code points U+0000 to
    U+00FF.  On these strings Unicode NFC normalisation is the identity, and
    the built-ins the program calls ([encode], [lower], [upper], [strip],
    [isdigit], [int(s, 16)], [str(n)], comparison, slicing) are written out. *)
From Stdlib Require Export Ascii.
From Stdlib Require Import DecimalString DecimalFacts DecimalZ.
From S2P Require Export Prelude.

Local Open Scope Z_scope.

(** ** Characters *)

Definition ord (c : ascii) : Z := Z.of_N (N_of_ascii c).
Definition chr (z : Z) : ascii := ascii_of_N (Z.to_N z).

Lemma ord_range c : 0 <= ord c < 256.
Proof. unfold ord. pose proof (N_ascii_bounded c). lia. Qed.

Lemma chr_ord c : chr (ord c) = c.
Proof. unfold chr, ord. rewrite N2Z.id. apply ascii_N_embedding. Qed.

Lemma ord_chr z : 0 <= z < 256 → ord (chr z) = z.
Proof. intros. unfold chr, ord. rewrite N_ascii_embedding by lia. lia. Qed.

Lemma ord_inj c d : ord c = ord d → c = d.
Proof. intros H. by rewrite <-(chr_ord c), H, chr_ord. Qed.

Definition between (lo hi z : Z) : bool := (lo <=? z) && (z <=? hi).

Lemma between_spec lo hi z : between lo hi z = true ↔ lo <= z <= hi.
Proof. unfold between. rewrite andb_true_iff, !Z.leb_le. done. Qed.

(** Quantified statements about all 256 characters are decided by evaluation. *)
Definition all_chars : list ascii := map (fun n => chr (Z.of_nat n)) (seq 0 256).

Lemma all_chars_elem c : c ∈ all_chars.
Proof.
  unfold all_chars. apply list_elem_of_fmap. exists (Z.to_nat (ord c)).
  pose proof (ord_range c). rewrite Z2Nat.id by lia.
  split; [symmetry; apply chr_ord|]. apply elem_of_seq. lia.
Qed.

Lemma forall_chars (f : ascii → bool) : forallb f all_chars = true → ∀ c, f c = true.
Proof.
  rewrite forallb_Forall, Forall_forall. intros H c. apply H, all_chars_elem.
Qed.

(** ** Slicing and searching *)

Fixpoint str_take (n : nat) (s : string) : string :=
  match n, s with
  | S n, String c s => String c (str_take n s)
  | _, _ => ""
  end.

Fixpoint str_drop (n : nat) (s : string) : string :=
  match n, s with
  | S n, String c s => str_drop n s
  | _, _ => s
  end.

Fixpoint str_forall (f : ascii → bool) (s : string) : bool :=
  match s with "" => true | String c s => f c && str_forall f s end.

Fixpoint str_map (f : ascii → ascii) (s : string) : string :=
  match s with "" => "" | String c s => String (f c) (str_map f s) end.

Definition str_contains (c : ascii) (s : string) : bool :=
  negb (str_forall (fun c' => negb (Ascii.eqb c c')) s).

(** [s.split(c, 1)] when [c] occurs in [s]. *)
Fixpoint str_split1 (c : ascii) (s : string) : string * string :=
  match s with
  | "" => ("", "")
  | String c' s => if Ascii.eqb c c' then ("", s)
                   else let '(a, b) := str_split1 c s in (String c' a, b)
  end.

(** [s.split(c)] *)
Fixpoint str_split (c : ascii) (s : string) : list string :=
  match s with
  | "" => [""]
  | String c' s =>
      if Ascii.eqb c c' then "" :: str_split c s
      else match str_split c s with
           | [] => [String c' ""]
           | w :: ws => String c' w :: ws
           end
  end.

Fixpoint str_prefix (p s : string) : bool :=
  match p, s with
  | "", _ => true
  | String a p, String b s => Ascii.eqb a b && str_prefix p s
  | _, _ => false
  end.

(** [s.replace(pat, "")] for a non-empty [pat]; the fuel is the length of [s],
    which each step shortens. *)
Fixpoint str_remove_fuel (fuel : nat) (pat s : string) : string :=
  match fuel, s with
  | S fuel, String c s' =>
      if str_prefix pat s then str_remove_fuel fuel pat (str_drop (String.length pat) s)
      else String c (str_remove_fuel fuel pat s')
  | _, _ => s
  end.
Definition str_remove (pat s : string) : string :=
  str_remove_fuel (String.length s) pat s.

(** [s.replace(pat, sub)] for a non-empty [pat]: left to right. *)
Fixpoint str_replace_fuel (fuel : nat) (pat sub s : string) : string :=
  match fuel, s with
  | S fuel, String c s' =>
      if str_prefix pat s
      then sub +:+ str_replace_fuel fuel pat sub (str_drop (String.length pat) s)
      else String c (str_replace_fuel fuel pat sub s')
  | _, _ => s
  end.
Definition str_replace (pat sub s : string) : string :=
  str_replace_fuel (String.length s) pat sub s.

Lemma str_forall_app f s t : str_forall f (s +:+ t) = str_forall f s && str_forall f t.
Proof.
  induction s as [|c s IH]; [done|].
  change (f c && str_forall f (s +:+ t) = f c && str_forall f s && str_forall f t).
  by rewrite IH, andb_assoc.
Qed.

Lemma str_forall_impl (f g : ascii → bool) s :
  (∀ c, f c = true → g c = true) → str_forall f s = true → str_forall g s = true.
Proof.
  intros H. induction s as [|c s IH]; simpl; [done|].
  rewrite !andb_true_iff. naive_solver.
Qed.

Lemma str_app_cons c s t : String c s +:+ t = String c (s +:+ t).
Proof. done. Qed.

Lemma str_app_nil_l t : "" +:+ t = t.
Proof. done. Qed.

Lemma str_app_nil_r s : s +:+ "" = s.
Proof. induction s as [|c s IH]; [done|]. by rewrite str_app_cons, IH. Qed.

Lemma str_app_assoc s t u : (s +:+ t) +:+ u = s +:+ t +:+ u.
Proof. induction s as [|c s IH]; [done|]. by rewrite !str_app_cons, IH. Qed.

Lemma str_length_app s t :
  String.length (s +:+ t) = (String.length s + String.length t)%nat.
Proof. induction s as [|c s IH]; [done|]. rewrite str_app_cons. simpl. by rewrite IH. Qed.

(** Concatenations whose first parts have equal length split. *)
Lemma str_app_inj_length s1 s2 t1 t2 :
  String.length s1 = String.length s2 →
  s1 +:+ t1 = s2 +:+ t2 → s1 = s2 ∧ t1 = t2.
Proof.
  revert s2. induction s1 as [|c s1 IH]; intros [|d s2]; simpl; try done.
  rewrite !str_app_cons. intros [= Hl] [= -> H]. destruct (IH s2 Hl H). by subst.
Qed.

Lemma str_take_app_length s t : str_take (String.length s) (s +:+ t) = s.
Proof. induction s as [|c s IH]; [done|]. rewrite str_app_cons. simpl. by rewrite IH. Qed.

(** ** Case, whitespace, classes *)

Definition lower_char (c : ascii) : ascii :=
  let z := ord c in
  if between 65 90 z || (between 192 222 z && negb (z =? 215)) then chr (z + 32) else c.
Definition str_lower : string → string := str_map lower_char.

(** [upper()] of the sharp s is two letters; U+00B5 and U+00FF have an
    uppercase outside the modelled range and are left unchanged. *)
Definition upper_char (c : ascii) : string :=
  let z := ord c in
  if z =? 223 then "SS"
  else if between 97 122 z || (between 224 254 z && negb (z =? 247))
       then String (chr (z - 32)) "" else String c "".
Fixpoint str_upper (s : string) : string :=
  match s with "" => "" | String c s => upper_char c +:+ str_upper s end.

Definition is_space (c : ascii) : bool :=
  let z := ord c in
  between 9 13 z || between 28 32 z || (z =? 133) || (z =? 160).

Fixpoint str_lstrip_by (p : ascii → bool) (s : string) : string :=
  match s with
  | "" => ""
  | String c s' => if p c then str_lstrip_by p s' else s
  end.
Fixpoint str_rstrip_by (p : ascii → bool) (s : string) : string :=
  match s with
  | "" => ""
  | String c s' => match str_rstrip_by p s' with
                   | "" => if p c then "" else String c ""
                   | t => String c t
                   end
  end.
Definition str_strip_by p s := str_rstrip_by p (str_lstrip_by p s).
Definition str_strip : string → string := str_strip_by is_space.

Definition is_decimal (c : ascii) : bool := between 48 57 (ord c).
(** [isdigit] also accepts the superscripts two, three and one. *)
Definition is_digit (c : ascii) : bool :=
  is_decimal c || (ord c =? 178) || (ord c =? 179) || (ord c =? 185).
Definition str_isdigit (s : string) : bool :=
  negb (String.eqb s "") && str_forall is_digit s.

(** ** Hexadecimal *)

Definition hex_value (c : ascii) : option Z :=
  let z := ord c in
  if between 48 57 z then Some (z - 48)
  else if between 97 102 z then Some (z - 87)
  else if between 65 70 z then Some (z - 55)
  else None.

Definition hex_digit (d : Z) : ascii :=
  if d <? 10 then chr (48 + d) else chr (87 + d).

Definition is_lower_hex (c : ascii) : bool :=
  between 48 57 (ord c) || between 97 102 (ord c).

(** The digits [d (_? d)*] of an integer literal; [us] is true when a digit
    has to follow. *)
Fixpoint hex_digits (acc : Z) (us : bool) (s : string) : option Z :=
  match s with
  | "" => if us then None else Some acc
  | String c s =>
      if Ascii.eqb c "_" then (if us then None else hex_digits acc true s)
      else match hex_value c with
           | Some d => hex_digits (16 * acc + d) false s
           | None => None
           end
  end.

(** The whitespace [int] skips. *)
Definition is_int_space (c : ascii) : bool :=
  let z := ord c in between 9 13 z || (z =? 32) || (z =? 133) || (z =? 160).

(** After the prefix [0x] one underscore is allowed. *)
Definition hex_body (s : string) : option Z :=
  match s with
  | String "0" (String c s') =>
      if Ascii.eqb c "x" || Ascii.eqb c "X" then
        match s' with
        | String "_" s'' => hex_digits 0 true s''
        | _ => hex_digits 0 true s'
        end
      else hex_digits 0 true s
  | _ => hex_digits 0 true s
  end.

(** [int(s, 16)]; [None] stands for [ValueError]. *)
Definition int_of_hex (s : string) : option Z :=
  match str_strip_by is_int_space s with
  | String "-" s => Z.opp <$> hex_body s
  | String "+" s => hex_body s
  | s => hex_body s
  end.

Fixpoint hex_num (acc : Z) (s : string) : Z :=
  match s with
  | "" => acc
  | String c s => hex_num (16 * acc + default 0 (hex_value c)) s
  end.

Lemma is_lower_hex_facts c :
  is_lower_hex c = true →
  is_int_space c = false ∧ lower_char c = c ∧ Ascii.eqb c "_" = false ∧
  Ascii.eqb c "-" = false ∧ Ascii.eqb c "+" = false ∧
  Ascii.eqb c "x" = false ∧ Ascii.eqb c "X" = false ∧
  hex_value c = Some (default 0 (hex_value c)).
Proof.
  pose proof (forall_chars (fun c => negb (is_lower_hex c) ||
    (negb (is_int_space c) && Ascii.eqb (lower_char c) c &&
     negb (Ascii.eqb c "_") && negb (Ascii.eqb c "-") &&
     negb (Ascii.eqb c "+") && negb (Ascii.eqb c "x") && negb (Ascii.eqb c "X") &&
     match hex_value c with Some _ => true | None => false end)) eq_refl c) as H.
  cbv beta in H. intros E. rewrite E in H. simpl in H.
  rewrite !andb_true_iff, !negb_true_iff in H.
  destruct H as ((((((( ? & ?%Ascii.eqb_eq) & ?) & ?) & ?) & ?) & ?) & Hv).
  destruct (hex_value c); [|done]. repeat split; done.
Qed.

Lemma str_lstrip_by_id p c s : p c = false → str_lstrip_by p (String c s) = String c s.
Proof. simpl. by intros ->. Qed.

Lemma str_rstrip_by_id p s :
  str_forall (fun c => negb (p c)) s = true → str_rstrip_by p s = s.
Proof.
  induction s as [|c s IH]; simpl; [done|].
  rewrite andb_true_iff, negb_true_iff. intros [Hc Hs]. rewrite IH by done.
  destruct s; [by rewrite Hc|done].
Qed.

Lemma str_strip_by_id p s :
  str_forall (fun c => negb (p c)) s = true → str_strip_by p s = s.
Proof.
  intros H. unfold str_strip_by. destruct s as [|c s]; [done|].
  rewrite str_lstrip_by_id; [by apply str_rstrip_by_id|].
  simpl in H. by apply andb_true_iff in H as [?%negb_true_iff ?].
Qed.

Lemma hex_digits_lower acc us s :
  str_forall is_lower_hex s = true → (us = false ∨ s ≠ "") →
  hex_digits acc us s = Some (hex_num acc s).
Proof.
  revert acc us. induction s as [|c s IH]; intros acc us Hs Hus; simpl in *.
  - destruct Hus as [->|]; done.
  - apply andb_true_iff in Hs as [Hc Hs].
    destruct (is_lower_hex_facts c Hc) as (_ & _ & -> & _ & _ & _ & _ & Hv).
    rewrite Hv. simpl. rewrite IH; auto.
Qed.

(** On non-empty strings of lowercase hexadecimal digits [int(s, 16)] reads
    the number they denote. *)
Lemma int_of_hex_lower s :
  s ≠ "" → str_forall is_lower_hex s = true → int_of_hex s = Some (hex_num 0 s).
Proof.
  intros Hne Hs. unfold int_of_hex.
  rewrite str_strip_by_id.
  2: { eapply str_forall_impl; [|exact Hs]. intros c Hc. simpl.
       by rewrite (proj1 (is_lower_hex_facts c Hc)). }
  destruct s as [|c s]; [done|].
  pose proof Hs as Hs'. simpl in Hs'. apply andb_true_iff in Hs' as [Hc Hs'].
  destruct (is_lower_hex_facts c Hc) as (_ & _ & _ & Hm & Hp & _).
  assert (hex_body (String c s) = Some (hex_num 0 (String c s))) as Hb.
  { unfold hex_body.
    assert (hex_digits 0 true (String c s) = Some (hex_num 0 (String c s))) as Hd
      by (apply hex_digits_lower; auto).
    destruct s as [|d s]; [by destruct c as [[] [] [] [] [] [] [] []]|].
    simpl in Hs'. apply andb_true_iff in Hs' as [Hd' _].
    destruct (is_lower_hex_facts d Hd') as (_ & _ & _ & _ & _ & Hx & HX & _).
    rewrite Hx, HX. simpl orb. by destruct c as [[] [] [] [] [] [] [] []]. }
  destruct c as [[] [] [] [] [] [] [] []]; try exact Hb; by vm_compute in Hm, Hp.
Qed.

Lemma str_lower_hex s : str_forall is_lower_hex s = true → str_lower s = s.
Proof.
  unfold str_lower. induction s as [|c s IH]; simpl; [done|].
  rewrite andb_true_iff. intros [Hc Hs].
  destruct (is_lower_hex_facts c Hc) as (_ & -> & _). by rewrite IH.
Qed.

Lemma hex_digit_lower d : 0 <= d < 16 → is_lower_hex (hex_digit d) = true.
Proof.
  intros. unfold hex_digit, is_lower_hex. destruct (Z.ltb_spec d 10).
  - rewrite ord_chr by lia. unfold between. lia.
  - rewrite ord_chr by lia. unfold between. lia.
Qed.

Lemma hex_num_bounds acc s :
  0 <= acc → str_forall is_lower_hex s = true →
  0 <= hex_num acc s < (acc + 1) * 16 ^ Z.of_nat (String.length s).
Proof.
  revert acc. induction s as [|c s IH]; intros acc Ha Hs; simpl hex_num; simpl String.length.
  { lia. }
  simpl in Hs. apply andb_true_iff in Hs as [Hc Hs].
  assert (0 <= default 0 (hex_value c) < 16) as Hd.
  { pose proof (forall_chars (fun c => between 0 15 (default 0 (hex_value c))) eq_refl c) as H.
    apply between_spec in H. lia. }
  specialize (IH (16 * acc + default 0 (hex_value c)) ltac:(lia) Hs).
  rewrite Nat2Z.inj_succ, Z.pow_succ_r by lia.
  pose proof (Z.pow_pos_nonneg 16 (Z.of_nat (String.length s)) ltac:(lia) ltac:(lia)). nia.
Qed.

(** ** Decimal integers *)

(** [str(n)] *)
Definition str_of_Z (n : Z) : string := NilZero.string_of_int (Z.to_int n).

Definition Z_of_dec (s : string) : option Z := Z.of_int <$> NilZero.int_of_string s.

Lemma to_int_nonnil n : Z.to_int n ≠ Decimal.Pos Decimal.Nil ∧ Z.to_int n ≠ Decimal.Neg Decimal.Nil.
Proof.
  destruct n as [|p|p]; simpl; split; try done; intros [= H];
    by apply (DecimalPos.Unsigned.to_uint_nonnil p).
Qed.

Lemma str_of_Z_inv n : Z_of_dec (str_of_Z n) = Some n.
Proof.
  unfold Z_of_dec, str_of_Z. destruct (to_int_nonnil n).
  rewrite NilZero.isi by done. simpl. by rewrite DecimalZ.of_to.
Qed.

Lemma str_of_Z_inj n m : str_of_Z n = str_of_Z m → n = m.
Proof. intros H. apply (inj Some). by rewrite <-!str_of_Z_inv, H. Qed.

(** ** Order and UTF-8 *)

(** [sorted] on strings compares code points: [String.leb]. *)
Lemma str_leb_trans a b c :
  String.leb a b = true → String.leb b c = true → String.leb a c = true.
Proof.
  intros H1%Is_true_true H2%Is_true_true. apply Is_true_true.
  exact (transitivity (R := String.le) H1 H2).
Qed.

#[export] Hint Resolve String.leb_total str_leb_trans : vrl.

(** [s.encode('utf-8')] *)
Fixpoint utf8 (s : string) : list Z :=
  match s with
  | "" => []
  | String c s =>
      let z := ord c in
      if z <? 128 then z :: utf8 s
      else (192 + z / 64) :: (128 + z mod 64) :: utf8 s
  end.

Lemma utf8_inj s t : utf8 s = utf8 t → s = t.
Proof.
  revert t. induction s as [|c s IH]; intros [|d t]; simpl; try done.
  { by case_match. }
  { by case_match. }
  pose proof (ord_range c). pose proof (ord_range d).
  destruct (Z.ltb_spec (ord c) 128), (Z.ltb_spec (ord d) 128).
  - intros [= E1 E2]. f_equal; [by apply ord_inj|auto].
  - intros [= E1 E2]. assert (0 <= ord d / 64) by (apply Z.div_pos; lia). lia.
  - intros [= E1 E2]. assert (0 <= ord c / 64) by (apply Z.div_pos; lia). lia.
  - intros [= E1 E2 E3]. f_equal; [apply ord_inj|auto].
    pose proof (Z.div_mod (ord c) 64). pose proof (Z.div_mod (ord d) 64). lia.
Qed.

Fixpoint str_join (sep : string) (l : list string) : string :=
  match l with
  | [] => ""
  | [s] => s
  | s :: l => s +:+ sep +:+ str_join sep l
  end.
