(* ===== verification/Hashlib.v ===== *)
(** * hashlib and uuid

    The standard-library digests the program relies on, as executable
    functions on byte lists: SHA-256 ([hashlib.sha256]), SHA-1 (inside
    [uuid.uuid5]), [uuid.UUID(hex)] and [str(uuid)].  [utils/hashing.py] and
    the [sha256] helpers of the SDK and the stand-alone verifier are
    [sha256_hex]. *)
From Stdlib Require Import PrimInt63.
From S2P Require Export PyStr.

Local Open Scope Z_scope.

(** ** 32-bit words *)

(** Words are machine integers of 63 bits, cut to 32 where a digest says so. *)
Definition w32 (x : int) : int := land x 0xffffffff.
Definition add32 (x y : int) : int := w32 (add x y).
Definition rotr (n x : int) : int := lor (lsr x n) (w32 (lsl x (sub 32 n))).
Definition rotl (n x : int) : int := rotr (sub 32 n) x.
Definition not32 (x : int) : int := lxor x 0xffffffff.

(** [x.to_bytes(n, 'big')] of the low [8 * n] bits. *)
Definition be_bytes (n : nat) (x : Z) : list Z :=
  map (fun i => Z.land (Z.shiftr x (8 * Z.of_nat (n - 1 - i))) 255) (seq 0 n).

Lemma length_be_bytes n x : length (be_bytes n x) = n.
Proof. unfold be_bytes. by rewrite length_map, length_seq. Qed.

Lemma land_255 x : 0 <= Z.land x 255 < 256.
Proof. change 255 with (Z.ones 8). rewrite Z.land_ones by lia. apply Z.mod_pos_bound. lia. Qed.

Lemma be_bytes_range n x : Forall (fun b => 0 <= b < 256) (be_bytes n x).
Proof.
  unfold be_bytes. rewrite Forall_forall. intros b H.
  apply list_elem_of_fmap in H as (i & -> & _). apply land_255.
Qed.

Fixpoint word_of_pos (p : positive) : int :=
  match p with
  | xH => 1
  | xO p => lsl (word_of_pos p) 1
  | xI p => lor (lsl (word_of_pos p) 1) 1
  end.
Definition word_of_Z (z : Z) : int := match z with Zpos p => word_of_pos p | _ => 0%int63 end.

(** The low [n] bits of a word. *)
Fixpoint low_bits (n : nat) (x : int) : Z :=
  match n with
  | O => 0
  | S n => (if PrimInt63.eqb (land x 1) 1 then 1 else 0) + 2 * low_bits n (lsr x 1)
  end.

Lemma low_bits_range n x : 0 <= low_bits n x < 2 ^ Z.of_nat n.
Proof.
  revert x. induction n as [|n IH]; intros x; cbn [low_bits]; [done|].
  rewrite Nat2Z.inj_succ, Z.pow_succ_r by lia. specialize (IH (lsr x 1)).
  destruct (PrimInt63.eqb (land x 1) 1); lia.
Qed.

(** The four bytes of a word. *)
Definition word_bytes (x : int) : list Z :=
  [low_bits 8 (lsr x 24); low_bits 8 (lsr x 16); low_bits 8 (lsr x 8); low_bits 8 x].

Fixpoint be_words (l : list Z) : list int :=
  match l with
  | a :: b :: c :: d :: l =>
      let w := word_of_Z in
      lor (lsl (w a) 24) (lor (lsl (w b) 16) (lor (lsl (w c) 8) (w d))) :: be_words l
  | _ => []
  end.

(** The padding of a message, shared by both digests: a set bit, zeros up to
    56 modulo 64, the bit length on eight bytes. *)
Definition md_pad (m : list Z) : list Z :=
  let l := Z.of_nat (length m) in
  m ++ [128] ++ repeat 0 (Z.to_nat ((55 - l) mod 64)) ++ be_bytes 8 (8 * l).

(** Blocks of 16 words; the fuel is the number of words. *)
Fixpoint blocks16 (fuel : nat) (l : list int) : list (list int) :=
  match fuel, l with
  | O, _ | _, [] => []
  | S fuel, _ => take 16 l :: blocks16 fuel (drop 16 l)
  end.
Definition md_blocks (m : list Z) : list (list int) :=
  let ws := be_words (md_pad m) in blocks16 (length ws) ws.

(** ** SHA-256 *)

(** The constants of the standard are fractional parts of roots of the first
    primes: 32 bits of the cube roots of 64 primes, and of the square roots of
    the first eight. *)
Definition is_prime (n : nat) : bool :=
  forallb (fun k => negb (n mod k =? 0)%nat) (seq 2 (Nat.sqrt n - 1)).
Definition primes64 : list Z :=
  Eval vm_compute in map Z.of_nat (List.filter is_prime (seq 2 310)).

(** The integer cube root, one bit at a time from bit [n] down. *)
Fixpoint cbrt_bits (n : nat) (acc x : Z) : Z :=
  match n with
  | O => acc
  | S n =>
      let acc' := acc + 2 ^ Z.of_nat n in
      cbrt_bits n (if acc' * acc' * acc' <=? x then acc' else acc) x
  end.

Definition sha256_k : list int :=
  Eval vm_compute in map (fun p => w32 (word_of_Z (Z.land (cbrt_bits 36 0 (p * 2 ^ 96)) 4294967295))) primes64.

Definition sha256_state : Type := int * int * int * int * int * int * int * int.

Definition sha256_init : sha256_state :=
  Eval vm_compute in
  let h p := word_of_Z (Z.land (Z.sqrt (p * 2 ^ 64)) 4294967295) in (h 2, h 3, h 5, h 7, h 11, h 13, h 17, h 19).

Definition sha256_round (s : sha256_state) (kw : int) : sha256_state :=
  let '(a, b, c, d, e, f, g, h) := s in
  let s1 := lxor (rotr 6 e) (lxor (rotr 11 e) (rotr 25 e)) in
  let ch := lxor (land e f) (land (not32 e) g) in
  let t1 := w32 (add (add h s1) (add ch kw)) in
  let s0 := lxor (rotr 2 a) (lxor (rotr 13 a) (rotr 22 a)) in
  let maj := lxor (land a b) (lxor (land a c) (land b c)) in
  (w32 (add t1 (add s0 maj)), a, b, c, add32 d t1, e, f, g).

(** The message schedule, most recent word first. *)
Fixpoint sha256_schedule (n : nat) (w : list int) : list int :=
  match n with
  | O => w
  | S n =>
      let w15 := nth 14 w 0%int63 in
      let w2 := nth 1 w 0%int63 in
      let s0 := lxor (rotr 7 w15) (lxor (rotr 18 w15) (lsr w15 3)) in
      let s1 := lxor (rotr 17 w2) (lxor (rotr 19 w2) (lsr w2 10)) in
      sha256_schedule n (w32 (add (add (nth 15 w 0%int63) s0) (add (nth 6 w 0%int63) s1)) :: w)
  end.

Definition sha256_block (s : sha256_state) (block : list int) : sha256_state :=
  let w := rev (sha256_schedule 48 (rev block)) in
  let '(a', b', c', d', e', f', g', h') :=
    fold_left sha256_round (zip_with add sha256_k w) s in
  let '(a, b, c, d, e, f, g, h) := s in
  (add32 a a', add32 b b', add32 c c', add32 d d',
   add32 e e', add32 f f', add32 g g', add32 h h').

Definition sha256_digest (m : list Z) : list Z :=
  let '(a, b, c, d, e, f, g, h) := fold_left sha256_block (md_blocks m) sha256_init in
  mjoin (map word_bytes [a; b; c; d; e; f; g; h]).

(** ** SHA-1 *)

Definition sha1_state : Type := int * int * int * int * int.

Definition sha1_init : sha1_state :=
  (0x67452301, 0xefcdab89, 0x98badcfe, 0x10325476, 0xc3d2e1f0)%int63.

Definition sha1_f (t : nat) (b c d : int) : int * int :=
  if (t <? 20)%nat then (lor (land b c) (land (not32 b) d), 0x5a827999%int63)
  else if (t <? 40)%nat then (lxor b (lxor c d), 0x6ed9eba1%int63)
  else if (t <? 60)%nat then
    (lor (land b c) (lor (land b d) (land c d)), 0x8f1bbcdc%int63)
  else (lxor b (lxor c d), 0xca62c1d6%int63).

Definition sha1_round (s : sha1_state) (tw : nat * int) : sha1_state :=
  let '(a, b, c, d, e) := s in
  let '(f, k) := sha1_f tw.1 b c d in
  (w32 (add (add (rotl 5 a) f) (add e (add k tw.2))), a, rotl 30 b, c, d).

Fixpoint sha1_schedule (n : nat) (w : list int) : list int :=
  match n with
  | O => w
  | S n =>
      let v i := nth i w 0%int63 in
      let x := lxor (v 2%nat) (lxor (v 7%nat) (lxor (v 13%nat) (v 15%nat))) in
      sha1_schedule n (rotl 1 x :: w)
  end.

Definition sha1_block (s : sha1_state) (block : list int) : sha1_state :=
  let w := rev (sha1_schedule 64 (rev block)) in
  let '(a', b', c', d', e') := fold_left sha1_round (zip (seq 0 80) w) s in
  let '(a, b, c, d, e) := s in
  (add32 a a', add32 b b', add32 c c', add32 d d', add32 e e').

Definition sha1_digest (m : list Z) : list Z :=
  let '(a, b, c, d, e) := fold_left sha1_block (md_blocks m) sha1_init in
  mjoin (map word_bytes [a; b; c; d; e]).

(** ** Hexadecimal digests *)

Fixpoint hex_of_bytes (l : list Z) : string :=
  match l with
  | [] => ""
  | b :: l => String (hex_digit (b / 16)) (String (hex_digit (b mod 16)) (hex_of_bytes l))
  end.

Lemma length_hex_of_bytes l : String.length (hex_of_bytes l) = (2 * length l)%nat.
Proof. induction l as [|b l IH]; simpl; [done|]. rewrite IH. lia. Qed.

Lemma hex_of_bytes_lower l :
  Forall (fun b => 0 <= b < 256) l → str_forall is_lower_hex (hex_of_bytes l) = true.
Proof.
  induction 1 as [|b l Hb Hl IH]; simpl; [done|].
  rewrite !andb_true_iff. repeat split; [| |done]; apply hex_digit_lower.
  - split; [apply Z.div_pos; lia|apply Z.div_lt_upper_bound; lia].
  - apply Z.mod_pos_bound. lia.
Qed.

(** [hashlib.sha256(s.encode('utf-8')).hexdigest()] *)
Definition sha256_hex (s : string) : string := hex_of_bytes (sha256_digest (utf8 s)).

Definition ZERO_HASH : string := "0000000000000000000000000000000000000000000000000000000000000000".

(** A well-formed hash: 64 lowercase hexadecimal digits. *)
Definition hash_wf (s : string) : Prop :=
  String.length s = 64%nat ∧ str_forall is_lower_hex s = true.

Lemma length_sha256_digest m : length (sha256_digest m) = 32%nat.
Proof.
  unfold sha256_digest.
  destruct (fold_left sha256_block (md_blocks m) sha256_init) as [[[[[[[a b] c] d] e] f] g] h].
  done.
Qed.

Lemma word_bytes_range x : Forall (fun b => 0 <= b < 256) (word_bytes x).
Proof. unfold word_bytes. repeat constructor; apply (low_bits_range 8). Qed.

Lemma digest_range (ws : list int) :
  Forall (fun b => 0 <= b < 256) (mjoin (map word_bytes ws)).
Proof.
  rewrite Forall_forall. intros b Hb.
  apply list_elem_of_join in Hb as (l & Hb & Hl).
  apply list_elem_of_fmap in Hl as (w & -> & _).
  pose proof (word_bytes_range w) as Hr. rewrite Forall_forall in Hr. by apply Hr.
Qed.

Lemma sha256_digest_range m : Forall (fun b => 0 <= b < 256) (sha256_digest m).
Proof.
  unfold sha256_digest.
  destruct (fold_left sha256_block (md_blocks m) sha256_init) as [[[[[[[a b] c] d] e] f] g] h].
  apply digest_range.
Qed.

Lemma sha256_hex_wf s : hash_wf (sha256_hex s).
Proof.
  split; unfold sha256_hex.
  - by rewrite length_hex_of_bytes, length_sha256_digest.
  - apply hex_of_bytes_lower, sha256_digest_range.
Qed.

Lemma length_sha256_hex s : String.length (sha256_hex s) = 64%nat.
Proof. apply sha256_hex_wf. Qed.

Lemma hash_wf_nonempty s : hash_wf s → s ≠ "".
Proof. intros [H _] ->. done. Qed.

Lemma ZERO_HASH_wf : hash_wf ZERO_HASH.
Proof. done. Qed.

#[export] Hint Resolve sha256_hex_wf length_sha256_hex ZERO_HASH_wf : vrl.
#[global] Arguments sha256_hex : simpl never.
#[global] Arguments sha256_digest : simpl never.

(** Two strings that witness a SHA-256 collision. *)
Definition collision (x y : string) : Prop := x ≠ y ∧ sha256_hex x = sha256_hex y.

Lemma sha256_hex_inj_or_collision x y :
  sha256_hex x = sha256_hex y → x = y ∨ collision x y.
Proof. intros H. destruct (decide (x = y)); [by left|by right]. Qed.

(** ** UUIDs *)

Definition char_in (cs : string) (c : ascii) : bool := str_contains c cs.

(** [uuid.UUID(hex)]: the 128-bit integer, [None] for [ValueError]. *)
Definition uuid_of_string (s : string) : option Z :=
  let s := str_remove "uuid:" (str_remove "urn:" s) in
  let s := str_remove "-" (str_strip_by (char_in "{}") s) in
  if negb (String.length s =? 32)%nat then None
  else match int_of_hex s with
       | Some n => if (0 <=? n) && (n <? 2 ^ 128) then Some n else None
       | None => None
       end.

(** [str(uuid)]: groups of 8, 4, 4, 4 and 12 digits. *)
Definition uuid_str (bytes : list Z) : string :=
  let h := hex_of_bytes bytes in
  str_join "-" [str_take 8 h; str_take 4 (str_drop 8 h); str_take 4 (str_drop 12 h);
                str_take 4 (str_drop 16 h); str_drop 20 h].

(** [str(uuid.uuid5(namespace, name))]: the first 16 bytes of the SHA-1 digest
    with the version and variant bits set. *)
Definition uuid5_bytes (namespace : Z) (name : string) : list Z :=
  let h := take 16 (sha1_digest (be_bytes 16 namespace ++ utf8 name)) in
  let h := <[6%nat := Z.lor (Z.land (nth 6 h 0) 15) 80]> h in
  <[8%nat := Z.lor (Z.land (nth 8 h 0) 63) 128]> h.

Definition uuid5_str (namespace : Z) (name : string) : string :=
  uuid_str (uuid5_bytes namespace name).

#[global] Arguments uuid5_str : simpl never.

Definition VRL_NAMESPACE_UUID : string := "d9ec1f3e-2d27-45d4-af5f-d8d5efcb7c1e".
Definition vrl_namespace : Z := default 0 (uuid_of_string VRL_NAMESPACE_UUID).

(** ** Test vectors *)

Example sha256_abc :
  sha256_hex "abc" = "ba7816bf8f01cfea414140de5dae2223b00361a396177a9cb410ff61f20015ad".
Proof. vm_compute. reflexivity. Qed.

Example sha256_empty :
  sha256_hex "" = "e3b0c44298fc1c149afbf4c8996fb92427ae41e4649b934ca495991b7852b855".
Proof. vm_compute. reflexivity. Qed.

(** The [bundle_id] of [verifier/test_bundles/valid_tee.json]. *)
Example uuid5_valid_tee :
  uuid5_str vrl_namespace "8ac657c0fcb8f95de25732d5ee9a3653543964f1e1ffd317cf7f4a8d7cf6699d"
  = "af99a6af-f130-5bc9-9608-013a2e29c71e".
Proof. vm_compute. reflexivity. Qed.

(** Proofs treat the hash functions as black boxes; [vm_compute] still runs
    them. *)
#[global] Opaque sha256_hex uuid5_str.
