(* ===== verification/Json.v ===== *)
(** * JSON values, json.dumps and json.loads

    JSON values as Python's [json] module sees them, the compact text
    [json.dumps(.., separators=(',', ':'), ensure_ascii=True)] prints, and
    [json.loads].  A float is carried by its literal.  The main result is that
    [json_loads] inverts [json_print], with any text after the value left
    over; injectivity of the canonical serialisations rests on it. *)
From Stdlib Require Import DecimalString DecimalFacts DecimalZ.
From S2P Require Export PyStr.

Local Open Scope Z_scope.

Inductive json :=
  | JNull
  | JBool (b : bool)
  | JInt (z : Z)
  | JFloat (lit : string)
  | JStr (s : string)
  | JList (l : list json)
  | JObj (l : list (string * json)).

#[global] Instance json_inhabited : Inhabited json := populate JNull.

Section json_induction.
Context (P : json → Prop)
  (Hnull : P JNull) (Hbool : ∀ b, P (JBool b)) (Hint : ∀ z, P (JInt z))
  (Hfloat : ∀ t, P (JFloat t)) (Hstr : ∀ s, P (JStr s))
  (Hlist : ∀ l, Forall P l → P (JList l))
  (Hobj : ∀ l, Forall (fun p => P p.2) l → P (JObj l)).

Fixpoint json_rect_nested (j : json) : P j :=
  match j with
  | JNull => Hnull
  | JBool b => Hbool b
  | JInt z => Hint z
  | JFloat t => Hfloat t
  | JStr s => Hstr s
  | JList l =>
      Hlist l ((fix go l : Forall P l :=
        match l with
        | [] => Forall_nil_2 _
        | x :: l => Forall_cons_2 _ _ _ (json_rect_nested x) (go l)
        end) l)
  | JObj l =>
      Hobj l ((fix go l : Forall (fun p => P p.2) l :=
        match l with
        | [] => Forall_nil_2 _
        | x :: l => Forall_cons_2 _ _ _ (json_rect_nested x.2) (go l)
        end) l)
  end.
End json_induction.

#[global] Instance json_eq_dec : EqDecision json.
Proof.
  refine (fix go (x y : json) {struct x} : Decision (x = y) :=
    let _ : EqDecision json := go in
    match x, y with
    | JNull, JNull => left eq_refl
    | JBool a, JBool b => cast_if (decide (a = b))
    | JInt a, JInt b => cast_if (decide (a = b))
    | JFloat a, JFloat b => cast_if (decide (a = b))
    | JStr a, JStr b => cast_if (decide (a = b))
    | JList a, JList b => cast_if (decide (a = b))
    | JObj a, JObj b => cast_if (decide (a = b))
    | _, _ => right _
    end); congruence.
Defined.

(** ** Printing *)

Definition QUOTE : ascii := "034".
Definition BSLASH : ascii := "\".

(** One character of a string literal, with [ensure_ascii=True]. *)
Definition json_esc_char (c : ascii) : string :=
  let z := ord c in
  if (z =? 34) || (z =? 92) then String BSLASH (String c "")
  else if z =? 10 then "\n" else if z =? 13 then "\r" else if z =? 9 then "\t"
  else if z =? 8 then "\b" else if z =? 12 then "\f"
  else if between 32 126 z then String c ""
  else "\u00" +:+ String (hex_digit (z / 16)) (String (hex_digit (z mod 16)) "").

Fixpoint json_esc (s : string) : string :=
  match s with "" => "" | String c s => json_esc_char c +:+ json_esc s end.

(** [json.dumps(s)] for a string. *)
Definition json_str (s : string) : string :=
  String QUOTE (json_esc s +:+ String QUOTE "").

Fixpoint json_print (j : json) : string :=
  match j with
  | JNull => "null"
  | JBool b => if b then "true" else "false"
  | JInt z => str_of_Z z
  | JFloat t => t
  | JStr s => json_str s
  | JList l => "[" +:+ str_join "," (map json_print l) +:+ "]"
  | JObj l =>
      "{" +:+ str_join "," (map (fun p => json_str p.1 +:+ ":" +:+ json_print p.2) l) +:+ "}"
  end.

(** ** Parsing *)

Definition is_ws (c : ascii) : bool :=
  let z := ord c in (z =? 32) || (z =? 9) || (z =? 10) || (z =? 13).

Fixpoint skip_ws (s : string) : string :=
  match s with
  | "" => ""
  | String c s' => if is_ws c then skip_ws s' else s
  end.

Definition json_unescape (c : ascii) : option ascii :=
  if (ord c =? 34) || (ord c =? 92) || (ord c =? 47) then Some c
  else if Ascii.eqb c "b" then Some (chr 8) else if Ascii.eqb c "f" then Some (chr 12)
  else if Ascii.eqb c "n" then Some (chr 10) else if Ascii.eqb c "r" then Some (chr 13)
  else if Ascii.eqb c "t" then Some (chr 9) else None.

Definition hex4 (a b c d : ascii) : option Z :=
  x ← hex_value a; y ← hex_value b; z ← hex_value c; w ← hex_value d;
  Some (4096 * x + 256 * y + 16 * z + w).

(** The rest of a string literal after its opening quote.  An escape above
    U+00FF is outside the modelled strings and is rejected. *)
Fixpoint scan_str (s : string) : option (string * string) :=
  match s with
  | "" => None
  | String c s1 =>
      if ord c =? 34 then Some ("", s1)
      else if ord c =? 92 then
        match s1 with
        | "" => None
        | String e s2 =>
            if Ascii.eqb e "u" then
              match s2 with
              | String a (String b (String c' (String d s3))) =>
                  match hex4 a b c' d with
                  | Some z =>
                      if z <? 256 then
                        match scan_str s3 with
                        | Some (t, r) => Some (String (chr z) t, r)
                        | None => None
                        end
                      else None
                  | None => None
                  end
              | _ => None
              end
            else match json_unescape e, scan_str s2 with
                 | Some c', Some (t, r) => Some (String c' t, r)
                 | _, _ => None
                 end
        end
      else if ord c <? 32 then None
      else match scan_str s1 with
           | Some (t, r) => Some (String c t, r)
           | None => None
           end
  end.

Fixpoint str_span (p : ascii → bool) (s : string) : string * string :=
  match s with
  | "" => ("", "")
  | String c s' =>
      if p c then let '(a, b) := str_span p s' in (String c a, b) else ("", s)
  end.

(** The text after the character [c], when the string starts with it. *)
Definition eat (c : ascii) (s : string) : option string :=
  match s with
  | "" => None
  | String c' r => if Ascii.eqb c c' then Some r else None
  end.

(** The integer part: an optional sign, then a zero or digits not starting
    with a zero. *)
Definition lex_digits (sg s : string) : option (string * string) :=
  match eat "0" s with
  | Some r => Some (sg +:+ "0", r)
  | None => let '(ds, r) := str_span is_decimal s in
            if String.eqb ds "" then None else Some (sg +:+ ds, r)
  end.
Definition lex_int (s : string) : option (string * string) :=
  match eat "-" s with Some r => lex_digits "-" r | None => lex_digits "" s end.

(** An optional fraction. *)
Definition lex_frac (s : string) : string * string :=
  match eat "." s with
  | Some s' => let '(ds, r) := str_span is_decimal s' in
               if String.eqb ds "" then ("", s) else (String "." ds, r)
  | None => ("", s)
  end.

(** An optional exponent. *)
Definition lex_sign (s : string) : string * string :=
  match eat "-" s with
  | Some r => ("-", r)
  | None => match eat "+" s with Some r => ("+", r) | None => ("", s) end
  end.
Definition lex_exp_digits (e s s' : string) : string * string :=
  let '(sg, s'') := lex_sign s' in
  let '(ds, r) := str_span is_decimal s'' in
  if String.eqb ds "" then ("", s) else (e +:+ sg +:+ ds, r).
Definition lex_exp (s : string) : string * string :=
  match eat "e" s with
  | Some s' => lex_exp_digits "e" s s'
  | None => match eat "E" s with
            | Some s' => lex_exp_digits "E" s s'
            | None => ("", s)
            end
  end.

Definition lex_number (s : string) : option (json * string) :=
  '(i, s) ← lex_int s;
  let '(f, s) := lex_frac s in
  let '(e, s) := lex_exp s in
  if String.eqb (f +:+ e) "" then (fun z => (JInt z, s)) <$> Z_of_dec i
  else Some (JFloat (i +:+ f +:+ e), s).

Definition lex_word (w : string) (v : json) (s : string) : option (json * string) :=
  if str_prefix w s then Some (v, str_drop (String.length w) s) else None.

(** Values, array elements after [\[], and object members after [{]; the last
    two expect at least one item. *)
Fixpoint parse_value (fuel : nat) (s : string) {struct fuel} : option (json * string) :=
  match fuel, s with
  | S fuel, String c s' =>
      if ord c =? 34 then
        '(t, r) ← scan_str s'; Some (JStr t, r)
      else if Ascii.eqb c "[" then
        match eat "]" (skip_ws s') with
        | Some r => Some (JList [], r)
        | None => '(l, r) ← parse_elems fuel (skip_ws s'); Some (JList l, r)
        end
      else if Ascii.eqb c "{" then
        match eat "}" (skip_ws s') with
        | Some r => Some (JObj [], r)
        | None => '(l, r) ← parse_members fuel (skip_ws s'); Some (JObj (dict_of_pairs l), r)
        end
      else if Ascii.eqb c "n" then lex_word "null" JNull s
      else if Ascii.eqb c "t" then lex_word "true" (JBool true) s
      else if Ascii.eqb c "f" then lex_word "false" (JBool false) s
      else if Ascii.eqb c "N" then lex_word "NaN" (JFloat "NaN") s
      else if Ascii.eqb c "I" then lex_word "Infinity" (JFloat "Infinity") s
      else if str_prefix "-Infinity" s then lex_word "-Infinity" (JFloat "-Infinity") s
      else lex_number s
  | _, _ => None
  end
with parse_elems (fuel : nat) (s : string) {struct fuel} : option (list json * string) :=
  match fuel with
  | O => None
  | S fuel =>
      '(v, r) ← parse_value fuel s;
      match eat "]" (skip_ws r), eat "," (skip_ws r) with
      | Some r, _ => Some ([v], r)
      | None, Some r => '(l, r) ← parse_elems fuel (skip_ws r); Some (v :: l, r)
      | None, None => None
      end
  end
with parse_members (fuel : nat) (s : string) {struct fuel}
    : option (list (string * json) * string) :=
  match fuel, s with
  | S fuel, String c s' =>
      if negb (ord c =? 34) then None else
      '(k, r) ← scan_str s';
      match eat ":" (skip_ws r) with
      | Some r =>
          '(v, r) ← parse_value fuel (skip_ws r);
          match eat "}" (skip_ws r), eat "," (skip_ws r) with
          | Some r, _ => Some ([(k, v)], r)
          | None, Some r => '(l, r) ← parse_members fuel (skip_ws r); Some ((k, v) :: l, r)
          | None, None => None
          end
      | None => None
      end
  | _, _ => None
  end.

(** [json.loads(s)]; [None] stands for [JSONDecodeError].  A value of [n]
    characters takes at most [2 * n] unfoldings. *)
Definition json_loads (s : string) : option json :=
  let s := skip_ws s in
  match parse_value (S (2 * String.length s)) s with
  | Some (v, r) => if String.eqb (skip_ws r) "" then Some v else None
  | None => None
  end.

(** ** Well-formed values

    What a Python value guarantees by construction: the keys of a dictionary
    are distinct, and a float literal is one that the lexer reads as a
    float. *)
Definition float_lit_ok (t : string) : bool :=
  match lex_number t with
  | Some (JFloat t', "") => String.eqb t t'
  | _ => false
  end.

Fixpoint json_wf (j : json) : bool :=
  match j with
  | JFloat t => float_lit_ok t
  | JList l => forallb json_wf l
  | JObj l => bool_decide (dict_wf l) && forallb (fun p => json_wf p.2) l
  | _ => true
  end.

(** What may follow a value inside a document. *)
Definition delim (r : string) : bool :=
  match r with
  | "" => true
  | String c _ => Ascii.eqb c "," || Ascii.eqb c "]" || Ascii.eqb c "}"
  end.

(** ** [json_loads] inverts [json_print] *)

Lemma scan_str_esc_char c t :
  scan_str (json_esc_char c +:+ t) =
  match scan_str t with Some (u, r) => Some (String c u, r) | None => None end.
Proof. destruct c as [[] [] [] [] [] [] [] []]; reflexivity. Qed.

Lemma scan_str_esc s r : scan_str (json_esc s +:+ String QUOTE r) = Some (s, r).
Proof.
  induction s as [|c s IH]; [done|].
  change (json_esc (String c s)) with (json_esc_char c +:+ json_esc s).
  by rewrite str_app_assoc, scan_str_esc_char, IH.
Qed.

Definition digit_start (s : string) : bool :=
  match s with "" => false | String c _ => is_decimal c end.

Lemma str_span_uint d r :
  digit_start r = false →
  str_span is_decimal (NilEmpty.string_of_uint d +:+ r) = (NilEmpty.string_of_uint d, r).
Proof.
  intros Hr. induction d; simpl NilEmpty.string_of_uint; rewrite ?str_app_cons; simpl;
    rewrite ?IHd; try done.
  rewrite str_app_nil_l. destruct r; [done|]. simpl in Hr. simpl. by rewrite Hr.
Qed.

(** The digits of an integer: a lone zero, or no leading zero. *)
Lemma to_int_shape n :
  (∃ d, Z.to_int n = Decimal.Pos d ∧ d ≠ Decimal.Nil ∧
        (d = Decimal.D0 Decimal.Nil ∨ ∀ d', d ≠ Decimal.D0 d')) ∨
  (∃ d, Z.to_int n = Decimal.Neg d ∧ d ≠ Decimal.Nil ∧ ∀ d', d ≠ Decimal.D0 d').
Proof.
  destruct (to_int_nonnil n) as [H1 H2].
  assert (Decimal.norm (Z.to_int n) = Z.to_int n) as Hn
    by (by rewrite <-DecimalZ.to_of, DecimalZ.of_to).
  destruct (Z.to_int n) as [d|d]; [left|right]; exists d;
    (split; [done|split; [congruence|]]); simpl in Hn.
  - injection Hn as Hn. unfold Decimal.unorm in Hn.
    destruct (Decimal.nzhead d) eqn:E; [by left|exfalso; by apply (DecimalFacts.nzhead_nonzero d u)|..];
      right; intros d' ->; congruence.
  - intros d' ->. rewrite DecimalFacts.nzhead_D0 in Hn.
    destruct (Decimal.nzhead d') eqn:E; try congruence.
    injection Hn as ->. by apply (DecimalFacts.nzhead_nonzero d' d').
Qed.

Lemma lex_digits_uint d r sg :
  d ≠ Decimal.Nil → (d = Decimal.D0 Decimal.Nil ∨ ∀ d', d ≠ Decimal.D0 d') →
  digit_start r = false →
  lex_digits sg (NilEmpty.string_of_uint d +:+ r) = Some (sg +:+ NilEmpty.string_of_uint d, r).
Proof.
  intros Hne Hd Hr. pose proof (str_span_uint d r Hr) as Hs. unfold lex_digits.
  destruct d; [done|..]; simpl NilEmpty.string_of_uint in *; rewrite !str_app_cons in *.
  1: { destruct Hd as [[= ->]|Hd]; [done|]. by destruct (Hd d). }
  all: simpl eat; by rewrite Hs.
Qed.

Lemma string_of_uint_nonnil d :
  d ≠ Decimal.Nil → NilZero.string_of_uint d = NilEmpty.string_of_uint d.
Proof. by destruct d. Qed.

Lemma lex_int_str_of_Z n r :
  digit_start r = false → lex_int (str_of_Z n +:+ r) = Some (str_of_Z n, r).
Proof.
  intros Hr. unfold str_of_Z, lex_int.
  destruct (to_int_shape n) as [(d & -> & Hne & Hd)|(d & -> & Hne & Hd)];
    simpl NilZero.string_of_int; rewrite string_of_uint_nonnil by done.
  - assert (eat "-" (NilEmpty.string_of_uint d +:+ r) = None) as -> by by destruct d.
    by apply lex_digits_uint.
  - change (String "-" ?s +:+ r) with (String "-" (s +:+ r)). simpl eat. cbv iota.
    rewrite lex_digits_uint; auto.
Qed.

(** The lexer reads the same token when more text follows that cannot
    continue it. *)
Definition no_digit_dot_exp (r : string) : bool :=
  match r with
  | "" => true
  | String c _ => negb (is_decimal c || Ascii.eqb c "." || Ascii.eqb c "e" || Ascii.eqb c "E"
                        || Ascii.eqb c "-" || Ascii.eqb c "+")
  end.

Lemma delim_no_digit r : delim r = true → no_digit_dot_exp r = true.
Proof.
  destruct r as [|c r]; [done|]. simpl.
  pose proof (forall_chars (fun c => negb (Ascii.eqb c "," || Ascii.eqb c "]" || Ascii.eqb c "}") ||
    negb (is_decimal c || Ascii.eqb c "." || Ascii.eqb c "e" || Ascii.eqb c "E"
          || Ascii.eqb c "-" || Ascii.eqb c "+")) eq_refl c) as H.
  cbv beta in H. intros E. by rewrite E in H.
Qed.

Lemma str_span_app p t r a b :
  str_span p t = (a, b) →
  match r with "" => true | String c _ => negb (p c) end = true →
  str_span p (t +:+ r) = (a, b +:+ r).
Proof.
  intros H Hr. revert a b H. induction t as [|c t IH]; intros a b.
  - simpl. intros [= <- <-]. rewrite !str_app_nil_l. destruct r; [done|]. simpl.
    by rewrite (proj1 (negb_true_iff _) Hr).
  - rewrite str_app_cons. simpl. destruct (p c).
    + destruct (str_span p t) as [a' b']. rewrite (IH a' b' eq_refl). by intros [= <- <-].
    + by intros [= <- <-].
Qed.

Lemma eat_app c t r :
  match r with "" => true | String c' _ => negb (Ascii.eqb c c') end = true →
  eat c (t +:+ r) = (fun u => u +:+ r) <$> eat c t.
Proof.
  intros Hr. destruct t as [|d t].
  - rewrite str_app_nil_l. destruct r; [done|]. simpl.
    by rewrite (proj1 (negb_true_iff _) Hr).
  - rewrite str_app_cons. simpl. by destruct (Ascii.eqb c d).
Qed.

Section lex_app.
Context (r : string) (Hr : no_digit_dot_exp r = true).

Lemma no_digit_span : match r with "" => true | String c _ => negb (is_decimal c) end = true.
Proof using Hr. destruct r; [done|]. simpl in Hr. rewrite !negb_orb, !andb_true_iff in Hr. tauto. Qed.

Lemma no_digit_eat c :
  c = "."%char ∨ c = "e"%char ∨ c = "E"%char ∨ c = "-"%char ∨ c = "+"%char ∨ c = "0"%char →
  match r with "" => true | String c' _ => negb (Ascii.eqb c c') end = true.
Proof using Hr.
  destruct r as [|d r']; [done|]. simpl in Hr. rewrite !negb_orb, !andb_true_iff in Hr.
  rewrite Ascii.eqb_sym. intros [->|[->|[->|[->|[->| ->]]]]]; try tauto.
  destruct Hr as [[[[[Hd _] _] _] _] _]. by destruct (Ascii.eqb_spec d "0") as [->|].
Qed.

Lemma lex_digits_app sg t i b :
  lex_digits sg t = Some (i, b) → lex_digits sg (t +:+ r) = Some (i, b +:+ r).
Proof using Hr.
  unfold lex_digits. rewrite eat_app by (apply no_digit_eat; tauto).
  destruct (eat "0" t); simpl; [by intros [= <- <-]|].
  destruct (str_span is_decimal t) as [ds u] eqn:E.
  rewrite (str_span_app _ _ r _ _ E no_digit_span). case_match; [done|]. by intros [= <- <-].
Qed.

Lemma lex_int_app t i b :
  lex_int t = Some (i, b) → lex_int (t +:+ r) = Some (i, b +:+ r).
Proof using Hr.
  unfold lex_int. rewrite eat_app by (apply no_digit_eat; tauto).
  destruct (eat "-" t); simpl; apply lex_digits_app.
Qed.

Lemma lex_frac_app t f b : lex_frac t = (f, b) → lex_frac (t +:+ r) = (f, b +:+ r).
Proof using Hr.
  unfold lex_frac. rewrite eat_app by (apply no_digit_eat; tauto).
  destruct (eat "." t) as [u|]; simpl; [|by intros [= <- <-]].
  destruct (str_span is_decimal u) as [ds v] eqn:E.
  rewrite (str_span_app _ _ r _ _ E no_digit_span). case_match; by intros [= <- <-].
Qed.

Lemma lex_sign_app t f b : lex_sign t = (f, b) → lex_sign (t +:+ r) = (f, b +:+ r).
Proof using Hr.
  unfold lex_sign. rewrite !eat_app by (apply no_digit_eat; tauto).
  destruct (eat "-" t); simpl; [by intros [= <- <-]|].
  destruct (eat "+" t); simpl; by intros [= <- <-].
Qed.

Lemma lex_exp_digits_app e t u f b :
  lex_exp_digits e t u = (f, b) → lex_exp_digits e (t +:+ r) (u +:+ r) = (f, b +:+ r).
Proof using Hr.
  unfold lex_exp_digits. destruct (lex_sign u) as [sg v] eqn:E1.
  rewrite (lex_sign_app _ _ _ E1).
  destruct (str_span is_decimal v) as [ds w] eqn:E2.
  rewrite (str_span_app _ _ r _ _ E2 no_digit_span). case_match; by intros [= <- <-].
Qed.

Lemma lex_exp_app t f b : lex_exp t = (f, b) → lex_exp (t +:+ r) = (f, b +:+ r).
Proof using Hr.
  unfold lex_exp. rewrite !eat_app by (apply no_digit_eat; tauto).
  destruct (eat "e" t); simpl; [apply lex_exp_digits_app|].
  destruct (eat "E" t); simpl; [apply lex_exp_digits_app|by intros [= <- <-]].
Qed.

Lemma lex_number_app t j b : lex_number t = Some (j, b) → lex_number (t +:+ r) = Some (j, b +:+ r).
Proof using Hr.
  unfold lex_number. destruct (lex_int t) as [[i s1]|] eqn:E1; simpl; [|done].
  rewrite (lex_int_app _ _ _ E1). simpl.
  destruct (lex_frac s1) as [f s2] eqn:E2. rewrite (lex_frac_app _ _ _ E2).
  destruct (lex_exp s2) as [e s3] eqn:E3. rewrite (lex_exp_app _ _ _ E3).
  case_match; [|by intros [= <- <-]].
  destruct (Z_of_dec i); simpl; [by intros [= <- <-]|done].
Qed.
End lex_app.

Lemma lex_number_int n : lex_number (str_of_Z n) = Some (JInt n, "").
Proof.
  unfold lex_number. rewrite <-(str_app_nil_r (str_of_Z n)) at 1.
  rewrite lex_int_str_of_Z by done. simpl. by rewrite str_of_Z_inv.
Qed.

(** The first character of a printed value. *)
Definition value_head (s : string) : bool :=
  match s with
  | "" => false
  | String c _ => negb (is_ws c || Ascii.eqb "]" c || Ascii.eqb "}" c)
  end.

Lemma value_head_app s r : value_head s = true → value_head (s +:+ r) = true.
Proof. by destruct s. Qed.

Lemma value_head_skip s : value_head s = true → skip_ws s = s.
Proof.
  destruct s; [done|]. simpl. rewrite !negb_orb, !andb_true_iff, !negb_true_iff.
  by intros [[-> _] _].
Qed.

Lemma value_head_eat s :
  value_head s = true → eat "]" s = None ∧ eat "}" s = None.
Proof.
  destruct s; [done|]. simpl. rewrite !negb_orb, !andb_true_iff, !negb_true_iff.
  by intros [[_ ->] ->].
Qed.

(** What the lexer accepts starts with a digit, or a minus sign and a digit. *)
Lemma lex_digits_head sg s v : lex_digits sg s = Some v → digit_start s = true.
Proof.
  unfold lex_digits. destruct s as [|c s]; [done|]. cbn [eat str_span digit_start].
  destruct (Ascii.eqb_spec "0" c) as [<-|]; [done|]. by destruct (is_decimal c).
Qed.

Lemma lex_int_head s v :
  lex_int s = Some v →
  digit_start s = true ∨ ∃ s', s = String "-" s' ∧ digit_start s' = true.
Proof.
  unfold lex_int. destruct s as [|c s]; [done|]. cbn [eat].
  destruct (Ascii.eqb_spec "-" c) as [<-|].
  - intros H%lex_digits_head. eauto.
  - intros H%lex_digits_head. auto.
Qed.

Lemma lex_number_head s v :
  lex_number s = Some v →
  digit_start s = true ∨ ∃ s', s = String "-" s' ∧ digit_start s' = true.
Proof.
  unfold lex_number. destruct (lex_int s) eqn:E; [|done]. intros _. by eapply lex_int_head.
Qed.

Lemma digit_dispatch c :
  is_decimal c = true →
  (ord c =? 34) = false ∧ Ascii.eqb c "[" = false ∧ Ascii.eqb c "{" = false ∧
  Ascii.eqb c "n" = false ∧ Ascii.eqb c "t" = false ∧ Ascii.eqb c "f" = false ∧
  Ascii.eqb c "N" = false ∧ Ascii.eqb c "I" = false ∧ Ascii.eqb "-" c = false ∧
  is_ws c = false ∧ Ascii.eqb "]" c = false ∧ Ascii.eqb "}" c = false.
Proof.
  pose proof (forall_chars (fun c => negb (is_decimal c) || negb (
    (ord c =? 34) || Ascii.eqb c "[" || Ascii.eqb c "{" || Ascii.eqb c "n" ||
    Ascii.eqb c "t" || Ascii.eqb c "f" || Ascii.eqb c "N" || Ascii.eqb c "I" ||
    Ascii.eqb "-" c || is_ws c || Ascii.eqb "]" c || Ascii.eqb "}" c)) eq_refl c) as H.
  cbv beta in H. intros E. rewrite E in H. simpl in H.
  rewrite !negb_orb, !andb_true_iff, !negb_true_iff in H. tauto.
Qed.

Lemma parse_value_number fuel s v :
  lex_number s = Some v → parse_value (S fuel) s = Some v.
Proof.
  intros H. pose proof (lex_number_head s v H) as [Hd|(s' & -> & Hd)].
  - destruct s as [|c s]; [done|]. simpl in Hd.
    destruct (digit_dispatch c Hd) as (E1 & E2 & E3 & E4 & E5 & E6 & E7 & E8 & E9 & _).
    cbn [parse_value]. rewrite E1, E2, E3, E4, E5, E6, E7, E8.
    replace (str_prefix "-Infinity" (String c s)) with false; [exact H|].
    cbn [str_prefix]. by rewrite E9.
  - destruct s' as [|d s']; [done|]. simpl in Hd. cbn [parse_value].
    replace (str_prefix "-Infinity" (String "-" (String d s'))) with false; [exact H|].
    cbn [str_prefix]. symmetry.
    pose proof (forall_chars (fun d => negb (is_decimal d) || negb (Ascii.eqb "I" d)) eq_refl d) as Hx.
    cbv beta in Hx. rewrite Hd in Hx. cbn [negb orb] in Hx. apply negb_true_iff in Hx.
    by rewrite Hx.
Qed.

Lemma lex_number_value_head s v : lex_number s = Some v → value_head s = true.
Proof.
  intros [Hd|(s' & -> & Hd)]%lex_number_head; [|done].
  destruct s as [|c s]; [done|]. simpl in Hd.
  destruct (digit_dispatch c Hd) as (_ & _ & _ & _ & _ & _ & _ & _ & _ & E1 & E2 & E3).
  cbn [value_head]. by rewrite E1, E2, E3.
Qed.

Lemma float_lit_lex t : float_lit_ok t = true → lex_number t = Some (JFloat t, "").
Proof.
  unfold float_lit_ok. destruct (lex_number t) as [[[] []]|]; try done.
  by intros ->%String.eqb_eq.
Qed.

Lemma json_print_head j : json_wf j = true → value_head (json_print j) = true.
Proof.
  destruct j as [|[]|z|t|s|l|l]; simpl; intros H; try done.
  - eapply lex_number_value_head, lex_number_int.
  - by eapply lex_number_value_head, float_lit_lex.
Qed.

Definition json_member (p : string * json) : string := json_str p.1 +:+ ":" +:+ json_print p.2.

Definition parses (j : json) : Prop :=
  ∀ fuel r, (2 * String.length (json_print j) <= fuel)%nat → delim r = true →
    parse_value fuel (json_print j +:+ r) = Some (j, r).

Lemma value_head_length s : value_head s = true → (1 <= String.length s)%nat.
Proof. destruct s; simpl; [done|lia]. Qed.

Lemma parse_elems_print l fuel r :
  l ≠ [] → forallb json_wf l = true → Forall parses l →
  (2 * String.length (str_join "," (map json_print l)) + 1 <= fuel)%nat →
  parse_elems fuel (str_join "," (map json_print l) +:+ "]" +:+ r) = Some (l, r).
Proof.
  intros Hne Hwf HP. revert fuel Hne. induction HP as [|x l Hx HP IH]; intros fuel Hne Hf; [done|].
  simpl in Hwf. apply andb_true_iff in Hwf as [Hwx Hwl].
  destruct fuel as [|fuel]; [lia|]. cbn [parse_elems]. destruct l as [|y l].
  - simpl str_join in *. rewrite Hx by (done || lia). done.
  - change (str_join "," (map json_print (x :: y :: l)))
      with (json_print x +:+ "," +:+ str_join "," (map json_print (y :: l))) in *.
    rewrite !str_length_app in Hf. simpl (String.length ",") in Hf.
    rewrite !str_app_assoc, Hx by (done || lia).
    rewrite !str_app_cons, !str_app_nil_l. cbn [mbind option_bind].
    change (skip_ws (String "," ?s)) with (String "," s). simpl eat. cbv iota.
    rewrite value_head_skip, IH; [done|done|done|lia|].
    apply value_head_app. simpl map. simpl str_join.
    assert (json_wf y = true) by (simpl in Hwl; by apply andb_true_iff in Hwl as [? _]).
    destruct (map json_print l); [by apply json_print_head|].
    by apply value_head_app, json_print_head.
Qed.

Lemma skip_ws_app_head s r : value_head s = true → skip_ws (s +:+ r) = s +:+ r.
Proof. intros. by apply value_head_skip, value_head_app. Qed.

Lemma json_member_length p : (String.length (json_print p.2) < String.length (json_member p))%nat.
Proof. unfold json_member, json_str. rewrite !str_length_app. simpl. rewrite str_length_app. simpl. lia. Qed.

Lemma parse_members_print l fuel r :
  l ≠ [] → forallb (fun p => json_wf p.2) l = true → Forall (fun p => parses p.2) l →
  (2 * String.length (str_join "," (map json_member l)) + 1 <= fuel)%nat →
  parse_members fuel (str_join "," (map json_member l) +:+ "}" +:+ r) = Some (l, r).
Proof.
  intros Hne Hwf HP. revert fuel Hne.
  induction HP as [|[k x] l Hx HP IH]; intros fuel Hne Hf; [done|].
  simpl in Hwf. apply andb_true_iff in Hwf as [Hwx Hwl].
  destruct fuel as [|fuel]; [lia|].
  assert (∀ t r', (2 * String.length (json_print x) <= fuel)%nat → delim r' = true →
    t = String QUOTE (json_esc k +:+ String QUOTE (String ":" (json_print x +:+ r'))) →
    parse_members (S fuel) t =
      match eat "}" (skip_ws r'), eat "," (skip_ws r') with
      | Some r, _ => Some ([(k, x)], r)
      | None, Some r => '(l, r) ← parse_members fuel (skip_ws r); Some ((k, x) :: l, r)
      | None, None => None
      end) as Hstep.
  { intros t r' Hlen Hr' ->. cbn [parse_members]. simpl negb. cbv iota.
    rewrite scan_str_esc. cbn [mbind option_bind].
    change (skip_ws (String ":" ?s)) with (String ":" s). simpl eat. cbv iota.
    rewrite skip_ws_app_head by by apply json_print_head.
    by rewrite Hx. }
  destruct l as [|y l].
  - simpl str_join in *. pose proof (json_member_length (k, x)) as Hkx. simpl snd in Hkx.
    rewrite (Hstep _ ("}" +:+ r)); [done|lia|done|].
    unfold json_member. simpl fst; simpl snd.
    unfold json_str. rewrite !str_app_assoc, !str_app_cons, !str_app_assoc, !str_app_cons.
    by rewrite !str_app_nil_l.
  - change (str_join "," (map json_member ((k, x) :: y :: l)))
      with (json_member (k, x) +:+ "," +:+ str_join "," (map json_member (y :: l))) in *.
    rewrite !str_length_app in Hf. simpl (String.length ",") in Hf.
    pose proof (json_member_length (k, x)) as Hkx. simpl snd in Hkx.
    rewrite (Hstep _ ("," +:+ str_join "," (map json_member (y :: l)) +:+ "}" +:+ r));
      [|lia|done|].
    + change (skip_ws ("," +:+ ?s)) with (String "," s). simpl eat. cbv iota.
      assert (∀ s, skip_ws (str_join "," (map json_member (y :: l)) +:+ s)
                 = str_join "," (map json_member (y :: l)) +:+ s) as ->.
      { intros. apply skip_ws_app_head. simpl map. simpl str_join.
        by destruct (map json_member l). }
      rewrite IH by (done || lia). done.
    + unfold json_member at 1. simpl fst; simpl snd. unfold json_str at 1.
      rewrite !str_app_assoc, !str_app_cons, !str_app_assoc, !str_app_cons.
      by rewrite !str_app_nil_l.
Qed.

Lemma Forall_parses l : forallb json_wf l = true →
  Forall (fun j => json_wf j = true → parses j) l → Forall parses l.
Proof. rewrite forallb_Forall, !Forall_forall. naive_solver. Qed.

Lemma Forall_parses_snd {A} (l : list (A * json)) :
  forallb (fun p => json_wf p.2) l = true →
  Forall (fun p => json_wf p.2 = true → parses p.2) l → Forall (fun p => parses p.2) l.
Proof. rewrite forallb_Forall, !Forall_forall. naive_solver. Qed.

Lemma json_print_obj l : json_print (JObj l) = "{" +:+ str_join "," (map json_member l) +:+ "}".
Proof. done. Qed.

Lemma join_head {A} (f : A → string) x l r :
  value_head (f x) = true → value_head (str_join "," (map f (x :: l)) +:+ r) = true.
Proof.
  intros. apply value_head_app. simpl. destruct (map f l); [done|]. by apply value_head_app.
Qed.

Lemma parses_lit j :
  lex_number (json_print j) = Some (j, "") → parses j.
Proof.
  intros H fuel r Hf Hr. pose proof (lex_number_value_head _ _ H) as Hh.
  pose proof (value_head_length _ Hh). destruct fuel as [|fuel]; [lia|].
  apply parse_value_number. rewrite (lex_number_app r (delim_no_digit r Hr) _ _ _ H).
  by rewrite str_app_nil_l.
Qed.

Lemma parses_list l :
  forallb json_wf l = true → Forall parses l → parses (JList l).
Proof.
  intros Hwf HP fuel r Hf Hr. simpl json_print in *.
  rewrite !str_length_app in Hf. simpl String.length in Hf.
  destruct fuel as [|fuel]; [lia|]. rewrite !str_app_assoc, str_app_cons, str_app_nil_l.
  cbn [parse_value]. change (Ascii.eqb "[" "[") with true. cbv iota.
  change (ord "[" =? 34) with false. cbv iota.
  destruct l as [|x l]; [done|].
  assert (value_head (json_print x) = true).
  { simpl in Hwf. apply andb_true_iff in Hwf as [Hwf _]. by apply json_print_head. }
  rewrite value_head_skip by by apply join_head.
  destruct (value_head_eat (str_join "," (map json_print (x :: l)) +:+ "]" +:+ r)) as [-> _];
    [by apply join_head|].
  rewrite parse_elems_print; [done|done|done|done|lia].
Qed.

Lemma parses_obj l :
  dict_wf l → forallb (fun p => json_wf p.2) l = true → Forall (fun p => parses p.2) l →
  parses (JObj l).
Proof.
  intros Hd Hwf HP fuel r Hf Hr. rewrite json_print_obj in *.
  rewrite !str_length_app in Hf. simpl String.length in Hf.
  destruct fuel as [|fuel]; [lia|]. rewrite !str_app_assoc, str_app_cons, str_app_nil_l.
  cbn [parse_value]. change (ord "{" =? 34) with false. cbv iota.
  change (Ascii.eqb "{" "[") with false. change (Ascii.eqb "{" "{") with true. cbv iota.
  destruct l as [|x l]; [done|].
  rewrite value_head_skip by by apply join_head.
  destruct (value_head_eat (str_join "," (map json_member (x :: l)) +:+ "}" +:+ r)) as [_ ->];
    [by apply join_head|].
  rewrite parse_members_print by (done || lia). cbn [mbind option_bind].
  by rewrite dict_of_pairs_wf.
Qed.

Lemma parse_print j : json_wf j = true → parses j.
Proof.
  induction j as [|[]|z|t|s|l IH|l IH] using json_rect_nested; intros Hwf.
  1-3: intros [|fuel] r Hf Hr; [simpl in Hf; lia|done].
  - apply parses_lit, lex_number_int.
  - by apply parses_lit, float_lit_lex.
  - intros fuel r Hf Hr. simpl json_print in *. unfold json_str in *.
    simpl in Hf. destruct fuel as [|fuel]; [lia|].
    rewrite str_app_cons, str_app_assoc, str_app_cons, str_app_nil_l.
    cbn [parse_value]. simpl Z.eqb. cbv iota. by rewrite scan_str_esc.
  - simpl in Hwf. by apply parses_list, Forall_parses.
  - simpl in Hwf. apply andb_true_iff in Hwf as [Hd%bool_decide_eq_true Hwf].
    by apply parses_obj, Forall_parses_snd.
Qed.

Lemma json_loads_print j : json_wf j = true → json_loads (json_print j) = Some j.
Proof.
  intros Hwf. unfold json_loads.
  rewrite value_head_skip by by apply json_print_head.
  pose proof (parse_print j Hwf (S (2 * String.length (json_print j))) "" ltac:(lia) eq_refl) as H.
  rewrite str_app_nil_r in H. by rewrite H.
Qed.

Lemma json_print_inj x y :
  json_wf x = true → json_wf y = true → json_print x = json_print y → x = y.
Proof.
  intros Hx Hy E. apply (f_equal json_loads) in E. rewrite !json_loads_print in E by done.
  by injection E.
Qed.
