(* ===== verification/Canonical.v ===== *)
(** * Canonical JSON (sdk/python/vrl/hashing.py, verifier/vrl_verify.py)

    [canonical_json] serialises a value with the keys of every object sorted;
    the SDK and the standalone verifier contain the same function.  Every hash
    of a bundle is the SHA-256 of such a text.  Here: the function, its
    reference definition (print the recursively sorted value), the equality of
    JSON values it decides, and that it can be parsed back. *)
From S2P Require Export Json.

(** The order of [sorted(obj.items())]: keys are distinct, so that pairs are
    compared by their keys alone, code point by code point. *)
Definition key_leb {A} (p q : string * A) : bool := String.leb p.1 q.1.

(** [f'{key_json}:{val_json}'] *)
Definition pair_text (p : string * string) : string := json_str p.1 +:+ ":" +:+ p.2.

Fixpoint canonical_json (j : json) : string :=
  match j with
  | JObj l =>
      "{" +:+ str_join "," (map pair_text
        (isort key_leb (map (fun p => (p.1, canonical_json p.2)) l))) +:+ "}"
  | JList l => "[" +:+ str_join "," (map canonical_json l) +:+ "]"
  | JStr s => json_str s
  | JBool b => if b then "true" else "false"
  | JNull => "null"
  | JInt z => str_of_Z z
  | JFloat t => t
  end.

(** The value with the keys of every object in order. *)
Fixpoint json_sort (j : json) : json :=
  match j with
  | JObj l => JObj (isort key_leb (map (fun p => (p.1, json_sort p.2)) l))
  | JList l => JList (map json_sort l)
  | _ => j
  end.

(** Equality of values as Python compares them, object keys in any order. *)
Fixpoint same_json (x y : json) {struct x} : bool :=
  match x, y with
  | JNull, JNull => true
  | JBool a, JBool b => Bool.eqb a b
  | JInt a, JInt b => (a =? b)%Z
  | JFloat a, JFloat b => String.eqb a b
  | JStr a, JStr b => String.eqb a b
  | JList l, JList k =>
      (fix go l k := match l, k with
       | [], [] => true
       | x :: l, y :: k => same_json x y && go l k
       | _, _ => false
       end) l k
  | JObj l, JObj k =>
      (length l =? length k)%nat &&
      forallb (fun p => match dict_get p.1 k with
                        | Some w => same_json p.2 w
                        | None => false
                        end) l
  | _, _ => false
  end.

(** ** The key order *)

Lemma key_leb_trans {A} (x y z : string * A) :
  key_leb x y = true → key_leb y z = true → key_leb x z = true.
Proof. apply str_leb_trans. Qed.

Lemma key_leb_total {A} (x y : string * A) : key_leb x y = true ∨ key_leb y x = true.
Proof. apply String.leb_total. Qed.

Lemma key_leb_antisym {A} (x y : string * A) :
  key_leb x y = true → key_leb y x = true → x.1 = y.1.
Proof. apply String.leb_antisym. Qed.

(** Dictionaries with the same entries sort to the same list. *)
Lemma isort_dict_unique {A} (l k : list (string * A)) :
  dict_wf l → l ≡ₚ k → isort key_leb l = isort key_leb k.
Proof.
  intros Hl Hp. apply isort_unique; [apply key_leb_trans|apply key_leb_total|done|].
  intros [a x] [b y] Hx Hy H1 H2. pose proof (key_leb_antisym _ _ H1 H2) as Hab.
  simpl in Hab. subst b. apply dict_get_elem in Hx, Hy; try done. congruence.
Qed.

Lemma dict_wf_map_snd {A B} (f : A → B) (l : list (string * A)) :
  dict_wf (map (fun p => (p.1, f p.2)) l) ↔ dict_wf l.
Proof. unfold dict_wf, dict_keys. by rewrite map_map. Qed.

Lemma dict_wf_perm {A} (l k : list (string * A)) : l ≡ₚ k → dict_wf l → dict_wf k.
Proof. unfold dict_wf, dict_keys. by intros ->. Qed.

(** ** The reference definition *)

(** The text of an object is built from its items in key order. *)
Lemma canonical_json_obj l :
  canonical_json (JObj l) =
  "{" +:+ str_join "," (map (fun p => json_str p.1 +:+ ":" +:+ canonical_json p.2)
                            (isort key_leb l)) +:+ "}".
Proof.
  simpl canonical_json. do 3 f_equal.
  rewrite (isort_map key_leb key_leb) by done. by rewrite map_map.
Qed.

Lemma canonical_json_print j : canonical_json j = json_print (json_sort j).
Proof.
  induction j as [|b|z|t|s|l IH|l IH] using json_rect_nested; try done.
  - simpl. do 3 f_equal. rewrite map_map. apply map_ext_in.
    intros x Hx%list_elem_of_In. rewrite Forall_forall in IH. auto.
  - rewrite canonical_json_obj. simpl json_sort. rewrite json_print_obj. do 3 f_equal.
    rewrite (isort_map key_leb key_leb) by done. rewrite map_map. apply map_ext_in.
    intros [k x] Hx%list_elem_of_In. rewrite elem_of_isort in Hx.
    rewrite Forall_forall in IH. unfold json_member. simpl. do 2 f_equal. exact (IH _ Hx).
Qed.

Lemma json_sort_wf j : json_wf j = true → json_wf (json_sort j) = true.
Proof.
  induction j as [|b|z|t|s|l IH|l IH] using json_rect_nested; try done; simpl.
  - rewrite !forallb_Forall, Forall_map, !Forall_forall in *. naive_solver.
  - rewrite !andb_true_iff, !bool_decide_eq_true, !forallb_Forall. intros [Hd Hl]. split.
    + eapply dict_wf_perm; [by rewrite isort_perm|]. by apply dict_wf_map_snd.
    + rewrite isort_perm, Forall_map. rewrite Forall_forall in *. naive_solver.
Qed.

(** ** What the text determines *)

Lemma same_json_list l k :
  same_json (JList l) (JList k) = true ↔ Forall2 (fun x y => same_json x y = true) l k.
Proof.
  simpl. revert k. induction l as [|x l IH]; intros [|y k]; simpl; try done.
  - split; [done|]. by intros ?%Forall2_nil_inv_l.
  - split; [done|]. intros H. inversion H.
  - rewrite andb_true_iff, IH. split; [by intros []; constructor|].
    intros H. by inversion H.
Qed.

Lemma same_json_obj l k :
  same_json (JObj l) (JObj k) = true ↔
  length l = length k ∧
  ∀ a x, (a, x) ∈ l → ∃ y, dict_get a k = Some y ∧ same_json x y = true.
Proof.
  simpl. rewrite andb_true_iff, Nat.eqb_eq, forallb_Forall, Forall_forall.
  apply and_iff_compat_l. split.
  - intros H a x Hx. specialize (H (a, x) Hx). simpl in H. case_match; naive_solver.
  - intros H [a x] Hx. destruct (H _ _ Hx) as (y & E & Hy). simpl. by rewrite E.
Qed.

Lemma sorted_entry (l : list (string * json)) a x :
  (a, x) ∈ l → (a, json_sort x) ∈ map (fun p => (p.1, json_sort p.2)) l.
Proof. intros. rewrite elem_of_map. by exists (a, x). Qed.

#[local] Instance JList_inj : Inj (=) (=) JList.
Proof. by intros ?? [=]. Qed.

Lemma json_sort_same x y :
  json_wf x = true → json_wf y = true → json_sort x = json_sort y ↔ same_json x y = true.
Proof.
  revert y. induction x as [|b|z|t|s|l IH|l IH] using json_rect_nested; intros y Hx Hy;
    [by destruct y|..].
  - destruct y; try done. simpl. rewrite eqb_true_iff. split; congruence.
  - destruct y; try done. simpl. rewrite Z.eqb_eq. split; congruence.
  - destruct y; try done. simpl. rewrite String.eqb_eq. split; congruence.
  - destruct y; try done. simpl. rewrite String.eqb_eq. split; congruence.
  - destruct y as [|?|?|?|?|k|k]; try done. rewrite same_json_list.
    simpl json_sort. rewrite (inj_iff JList).
    simpl in Hx, Hy. rewrite forallb_Forall in Hx, Hy.
    revert k Hy. induction IH as [|x l Hl IHl IH]; intros [|y k] Hy; simpl.
    + split; [constructor|done].
    + split; [done|]. by intros ?%Forall2_nil_inv_l.
    + split; [done|]. intros H; inversion H.
    + inversion Hx; inversion Hy; subst. specialize (IH ltac:(done) k ltac:(done)).
      split.
      * intros [= E1 E2]. constructor; [by apply Hl|by apply IH].
      * intros H; inversion H; subst. f_equal; [by apply Hl|by apply IH].
  - destruct y as [|?|?|?|?|k|k]; try done. rewrite same_json_obj.
    simpl in Hx, Hy. rewrite !andb_true_iff, !bool_decide_eq_true, !forallb_Forall in Hx, Hy.
    destruct Hx as [Hdl Hwl], Hy as [Hdk Hwk]. rewrite Forall_forall in IH, Hwl, Hwk.
    set (f := fun p : string * json => (p.1, json_sort p.2)).
    assert (dict_wf (map f l)) as Hdl' by by apply dict_wf_map_snd.
    assert (dict_wf (map f k)) as Hdk' by by apply dict_wf_map_snd.
    split.
    + simpl. intros [= E]. fold f in E.
      assert (map f l ≡ₚ map f k) as Hp by (by rewrite <-(isort_perm key_leb), E, isort_perm).
      split; [apply Permutation_length in Hp; by rewrite !length_map in Hp|].
      intros a x Hin. pose proof (sorted_entry _ _ _ Hin) as Hin'. fold f in Hin'.
      rewrite Hp in Hin'. apply elem_of_map in Hin' as ([a' y] & [= <- Exy] & Hy).
      exists y. split; [by apply dict_get_elem|].
      apply (IH (a, x) Hin); [exact (Hwl _ Hin)|exact (Hwk _ Hy)|done].
    + intros [Hlen H]. simpl. f_equal. fold f. apply isort_dict_unique; [done|].
      apply submseteq_length_Permutation; [|rewrite !length_map; lia].
      apply NoDup_submseteq; [by apply (NoDup_fmap_1 fst)|].
      intros [a u] Hin. apply elem_of_map in Hin as ([a' x] & [= -> ->] & Hin).
      destruct (H _ _ Hin) as (y & Hy%dict_get_Some_elem & Hs).
      apply (IH (a', x) Hin) in Hs; [|exact (Hwl _ Hin)|exact (Hwk _ Hy)].
      simpl in *. rewrite Hs. by apply sorted_entry.
Qed.

Lemma canonical_json_same x y :
  json_wf x = true → json_wf y = true →
  canonical_json x = canonical_json y ↔ same_json x y = true.
Proof.
  intros Hx Hy. rewrite <-json_sort_same by done. rewrite !canonical_json_print.
  split; [|by intros ->]. intros E. apply json_print_inj; auto using json_sort_wf.
Qed.

Lemma canonical_json_loads x :
  json_wf x = true → json_loads (canonical_json x) = Some (json_sort x).
Proof. intros. rewrite canonical_json_print. by apply json_loads_print, json_sort_wf. Qed.

Lemma json_sort_idemp j : json_sort (json_sort j) = json_sort j.
Proof.
  induction j as [|b|z|t|s|l IH|l IH] using json_rect_nested; try done; simpl; f_equal.
  - rewrite map_map. apply map_ext_in. intros x Hx%list_elem_of_In.
    rewrite Forall_forall in IH. auto.
  - rewrite <-(isort_map key_leb key_leb) by done.
    rewrite (isort_idemp key_leb key_leb_trans key_leb_total), map_map. f_equal.
    apply map_ext_in. intros [k x] Hx%list_elem_of_In. rewrite Forall_forall in IH.
    simpl. f_equal. exact (IH _ Hx).
Qed.

(** Sorting the keys does not change what a value is. *)
Lemma same_json_sort x : json_wf x = true → same_json (json_sort x) x = true.
Proof.
  intros. apply json_sort_same; auto using json_sort_wf, json_sort_idemp.
Qed.

Lemma same_json_refl x : json_wf x = true → same_json x x = true.
Proof. intros. by apply json_sort_same. Qed.

(** ** Texts of hashes are strings of the value space *)
Lemma json_wf_str_list (l : list string) : json_wf (JList (map JStr l)) = true.
Proof. simpl. induction l; done. Qed.

#[export] Hint Resolve json_sort_wf json_wf_str_list : vrl.

(** ** Properties *)

(** C1: canonicalisation is sound and complete.  Two JSON values have the same
    canonical text exactly when they are the same value up to the order of
    object keys: reordering keys never changes a hash pre-image, and any other
    change does. *)
Theorem canonical_json_injective x y :
  json_wf x = true → json_wf y = true →
  canonical_json x = canonical_json y ↔ same_json x y = true.
Proof. apply canonical_json_same. Qed.

Definition sample_x : json :=
  JObj [("b", JInt 1); ("a", JList [JStr "x"; JObj [("d", JNull); ("c", JBool true)]])].
Definition sample_y : json :=
  JObj [("a", JList [JStr "x"; JObj [("c", JBool true); ("d", JNull)]]); ("b", JInt 1)].

Lemma canonical_json_injective_witness :
  canonical_json sample_x = canonical_json sample_y ↔ same_json sample_x sample_y = true.
Proof. apply canonical_json_injective; reflexivity. Defined.

(** The canonical text can be read back: [json.loads] of it is the value
    with its keys sorted, which is the same value. *)
Theorem canonical_json_roundtrip x :
  json_wf x = true →
  ∃ y, json_loads (canonical_json x) = Some y ∧ same_json y x = true ∧
       canonical_json y = canonical_json x.
Proof.
  intros Hx. exists (json_sort x). split; [by apply canonical_json_loads|].
  split; [by apply same_json_sort|]. by rewrite !canonical_json_print, json_sort_idemp.
Qed.

Lemma canonical_json_roundtrip_witness :
  ∃ y, json_loads (canonical_json sample_x) = Some y ∧ same_json y sample_x = true ∧
       canonical_json y = canonical_json sample_x.
Proof. apply canonical_json_roundtrip. reflexivity. Defined.
