(* ===== verification/PyObj.v ===== *)
(** * Operations of Python on JSON values

    What the SDK and the verifiers do with values that come out of
    [json.loads] and whose type they do not check: truth value, [.get],
    membership, concatenation, iteration, each with the exception class that
    the wrong type gives. *)
From S2P Require Export Canonical.

Local Open Scope Z_scope.

(** A float literal that denotes zero. *)
Fixpoint float_zero (s : string) : bool :=
  match s with
  | "" => true
  | String c s =>
      if Ascii.eqb c "e" || Ascii.eqb c "E" then true
      else (Ascii.eqb c "0" || Ascii.eqb c "." || Ascii.eqb c "-") && float_zero s
  end.

(** [bool(x)] *)
Definition truthy (j : json) : bool :=
  match j with
  | JNull => false
  | JBool b => b
  | JInt z => negb (z =? 0)
  | JFloat t => negb (float_zero t)
  | JStr s => negb (String.eqb s "")
  | JList l => negb (length l =? 0)%nat
  | JObj l => negb (length l =? 0)%nat
  end.

Definition is_null (j : json) : bool := match j with JNull => true | _ => false end.

(** [x == s] for a string [s]. *)
Definition is_str (s : string) (j : json) : bool :=
  match j with JStr t => String.eqb t s | _ => false end.

Definition dict := list (string * json).

(** [x.keys()], [x.get(..)], [x.items()]: only dictionaries have them. *)
Definition as_dict (j : json) : result dict :=
  match j with
  | JObj l => Ok l
  | _ => raise AttributeError "object has no attribute"
  end.

(** [d.get(k)] and [d.get(k, dflt)] *)
Definition get (k : string) (d : dict) : json := default JNull (dict_get k d).
Definition get_or (dflt : json) (k : string) (d : dict) : json := default dflt (dict_get k d).

(** [x.get(k)] on a value of unknown type. *)
Definition get_attr (k : string) (j : json) : result json := get k <$> as_dict j.

(** [{...}.issubset(d.keys())] *)
Definition has_all (ks : list string) (d : dict) : bool := forallb (fun k => dict_mem k d) ks.

(** [set(d.keys()) == {...}], what [Cls( **d )] needs when every field of [Cls]
    is required. *)
Definition keys_exactly (ks : list string) (d : dict) : bool :=
  has_all ks d && forallb (fun k => bool_decide (k ∈ ks)) (dict_keys d).

(** [x in {strings}]: the set hashes [x]. *)
Definition in_set (ks : list string) (j : json) : result bool :=
  match j with
  | JStr s => Ok (bool_decide (s ∈ ks))
  | JList _ | JObj _ => raise TypeError "unhashable type"
  | _ => Ok false
  end.

(** [s in x] for a string [s] and a value of unknown type. *)
Fixpoint substring (p s : string) : bool :=
  str_prefix p s || match s with "" => false | String _ s => substring p s end.

Definition py_in (s : string) (j : json) : result bool :=
  match j with
  | JObj d => Ok (dict_mem s d)
  | JList l => Ok (existsb (is_str s) l)
  | JStr t => Ok (substring s t)
  | _ => raise TypeError "argument is not iterable"
  end.

(** [x[k]] for a string [k]. *)
Definition py_index (k : string) (j : json) : result json :=
  match j with
  | JObj d => match dict_get k d with Some v => Ok v | None => raise KeyError "{}" end
  | JStr _ => raise TypeError "string indices must be integers"
  | JList _ => raise TypeError "list indices must be integers or slices, not str"
  | _ => raise TypeError "object is not subscriptable"
  end.

(** [for y in x] *)
Fixpoint str_chars (s : string) : list json :=
  match s with "" => [] | String c s => JStr (String c "") :: str_chars s end.

Definition py_iter (j : json) : result (list json) :=
  match j with
  | JList l => Ok l
  | JObj d => Ok (map JStr (dict_keys d))
  | JStr s => Ok (str_chars s)
  | _ => raise TypeError "object is not iterable"
  end.

(** [len(x)] *)
Definition py_len (j : json) : result Z :=
  match j with
  | JList l => Ok (Z.of_nat (length l))
  | JObj d => Ok (Z.of_nat (length d))
  | JStr s => Ok (Z.of_nat (String.length s))
  | _ => raise TypeError "object has no len()"
  end.

(** [x + y]: what a sum of values is, as far as [sha256] can tell.  Numbers
    add up to a number, whose value is of no interest. *)
Inductive summand := SText (s : string) | SList | SNumber | SOther.

Definition summand_of (j : json) : summand :=
  match j with
  | JStr s => SText s
  | JList _ => SList
  | JBool _ | JInt _ | JFloat _ => SNumber
  | JNull | JObj _ => SOther
  end.

Definition py_add (x y : summand) : result summand :=
  match x, y with
  | SText s, SText t => Ok (SText (s +:+ t))
  | SList, SList => Ok SList
  | SNumber, SNumber => Ok SNumber
  | _, _ => raise TypeError "unsupported operand types for +"
  end.

(** [x.encode('utf-8')] *)
Definition py_encode (x : summand) : result string :=
  match x with SText s => Ok s | _ => raise AttributeError "object has no attribute 'encode'" end.

(** ** Reading a dictionary whose keys have been sorted *)

Lemma dict_get_sort k (d : dict) :
  dict_wf d →
  dict_get k (isort key_leb (map (fun p => (p.1, json_sort p.2)) d)) = json_sort <$> dict_get k d.
Proof.
  intros Hd. set (f := fun p : string * json => (p.1, json_sort p.2)).
  assert (dict_wf (isort key_leb (map f d))) as Hs.
  { eapply dict_wf_perm; [by rewrite isort_perm|]. by apply dict_wf_map_snd. }
  destruct (dict_get k d) as [v|] eqn:E; simpl.
  - apply dict_get_elem; [done|]. rewrite elem_of_isort.
    apply sorted_entry. by apply dict_get_Some_elem.
  - apply dict_get_None. apply dict_get_None in E. contradict E.
    unfold dict_keys in *. rewrite isort_perm in E.
    apply list_elem_of_fmap in E as (p & -> & Hp). apply elem_of_map in Hp as (q & -> & Hq).
    apply list_elem_of_fmap. by exists q.
Qed.

(** The dictionary [json_sort] makes of a dictionary. *)
Definition dict_sort (d : dict) : dict :=
  isort key_leb (map (fun p => (p.1, json_sort p.2)) d).

Lemma get_sort k d : dict_wf d → get k (dict_sort d) = json_sort (get k d).
Proof. intros. unfold get, dict_sort. rewrite dict_get_sort by done. by destruct (dict_get k d). Qed.

Lemma dict_mem_sort k d : dict_wf d → dict_mem k (dict_sort d) = dict_mem k d.
Proof. intros. unfold dict_mem, dict_sort. rewrite dict_get_sort by done. by destruct (dict_get k d). Qed.

Lemma has_all_sort ks d : dict_wf d → has_all ks (dict_sort d) = has_all ks d.
Proof.
  intros. unfold has_all. induction ks as [|k ks IH]; [done|]. simpl.
  by rewrite IH, dict_mem_sort.
Qed.

Lemma dict_keys_sort d : dict_keys (dict_sort d) ≡ₚ dict_keys d.
Proof. unfold dict_keys, dict_sort. rewrite isort_perm, map_map. done. Qed.

Lemma forallb_perm {A} (f : A → bool) l k : l ≡ₚ k → forallb f l = forallb f k.
Proof.
  induction 1; simpl; try congruence. rewrite !andb_assoc. f_equal. apply andb_comm.
Qed.

Lemma keys_exactly_sort ks d : dict_wf d → keys_exactly ks (dict_sort d) = keys_exactly ks d.
Proof.
  intros. unfold keys_exactly. rewrite has_all_sort by done. f_equal.
  apply forallb_perm, dict_keys_sort.
Qed.

Lemma truthy_sort j : truthy (json_sort j) = truthy j.
Proof.
  destruct j; simpl; try done; [by rewrite length_map|].
  by rewrite length_isort, length_map.
Qed.

Lemma is_null_sort j : is_null (json_sort j) = is_null j.
Proof. by destruct j. Qed.

Lemma is_null_spec j : is_null j = true ↔ j = JNull.
Proof. by destruct j. Qed.

Lemma dict_get_wf k (d : dict) v :
  forallb (fun p => json_wf p.2) d = true → dict_get k d = Some v → json_wf v = true.
Proof.
  rewrite forallb_Forall, Forall_forall. intros H Hv%dict_get_Some_elem. exact (H _ Hv).
Qed.

Lemma get_wf k d : json_wf (JObj d) = true → json_wf (get k d) = true.
Proof.
  simpl. rewrite andb_true_iff. intros [_ H]. unfold get.
  destruct (dict_get k d) eqn:E; [|done]. by eapply dict_get_wf.
Qed.

Lemma json_wf_obj d : json_wf (JObj d) = true ↔
  dict_wf d ∧ ∀ k v, (k, v) ∈ d → json_wf v = true.
Proof.
  simpl. rewrite andb_true_iff, bool_decide_eq_true, forallb_Forall, Forall_forall.
  apply and_iff_compat_l. split; [intros H k v Hv; exact (H _ Hv)|intros H [k v] Hv; eauto].
Qed.
