(* ===== verification/SdkHashing.v ===== *)
(** * The hash functions of the SDK (sdk/python/vrl/hashing.py)

    One definition per function of the module, on values of unknown type where
    the callers pass what they parsed. *)
From S2P Require Export PyObj Hashlib.

(** [sha256(data)] for a text. *)
Definition sha256 (data : string) : string := sha256_hex data.

Definition compute_ai_id
    (model_weights_hash runtime_hash config_hash provider_id model_name model_version : json)
    : string :=
  sha256 (canonical_json (JObj [
    ("model_weights_hash", model_weights_hash);
    ("runtime_hash", runtime_hash);
    ("config_hash", config_hash);
    ("provider_id", provider_id);
    ("model_name", model_name);
    ("model_version", model_version);
    ("spec_version", JStr "vrl/ai-id/1.0")])).

(** [(input_hash + output_hash + trace_hash).encode('utf-8')], no separator. *)
Definition integrity_text (input_hash output_hash trace_hash : json) : result string :=
  s ← py_add (summand_of input_hash) (summand_of output_hash);
  s ← py_add s (summand_of trace_hash);
  py_encode s.

Definition compute_integrity_hash (input_hash output_hash trace_hash : json) : result string :=
  sha256 <$> integrity_text input_hash output_hash trace_hash.

Definition compute_proof_hash
    (circuit_hash proof_bytes public_inputs proof_system trace_hash : json) : string :=
  let public_inputs_hash := sha256 (canonical_json public_inputs) in
  sha256 (canonical_json (JObj [
    ("circuit_hash", circuit_hash);
    ("proof_bytes", proof_bytes);
    ("proof_system", proof_system);
    ("public_inputs", public_inputs);
    ("public_inputs_hash", JStr public_inputs_hash);
    ("trace_hash", trace_hash)])).

Definition compute_input_hash (inputs_object : json) : string :=
  sha256 (canonical_json inputs_object).
Definition compute_output_hash (outputs_object : json) : string :=
  sha256 (canonical_json outputs_object).
Definition compute_trace_hash (trace_steps : json) : string :=
  sha256 (canonical_json trace_steps).

Definition compute_commitment_hash
    (dataset_id dataset_version dataset_hash provider_id committed_at : json) : string :=
  sha256 (canonical_json (JObj [
    ("committed_at", committed_at);
    ("dataset_hash", dataset_hash);
    ("dataset_id", dataset_id);
    ("dataset_version", dataset_version);
    ("provider_id", provider_id)])).

(** [str(uuid.uuid5(namespace, integrity_hash))]; a name that is not a string
    has no bytes. *)
Definition compute_bundle_id_from_integrity (integrity_hash : json) : result string :=
  match integrity_hash with
  | JStr s => Ok (uuid5_str vrl_namespace s)
  | _ => raise TypeError "encoding without a string argument"
  end.

(** [_is_valid_hex_hash(value)] *)
Definition is_valid_hex_hash (value : json) : bool :=
  match value with
  | JStr s =>
      (String.length s =? 64)%nat &&
      match int_of_hex s with Some _ => String.eqb s (str_lower s) | None => false end
  | _ => false
  end.

(** ** Hash pre-images *)

Lemma same_json_same_keys (l k : dict) :
  dict_wf k → dict_keys l = dict_keys k → same_json (JObj l) (JObj k) = true →
  Forall2 (fun p q => same_json p.2 q.2 = true) l k.
Proof.
  intros Hk He [Hlen H]%same_json_obj. apply Forall2_same_length_lookup_2; [done|].
  intros i [a x] [b y] Hi Hj.
  assert (a = b) as ->.
  { apply (f_equal (lookup i)) in He. unfold dict_keys in He.
    rewrite !list_lookup_fmap, Hi, Hj in He. by injection He. }
  destruct (H b x) as (y' & Hy & Hs); [by eapply list_elem_of_lookup_2|].
  rewrite (dict_get_elem b y k) in Hy; [by simplify_eq|done|by eapply list_elem_of_lookup_2].
Qed.

(** Two objects with the same keys and the same hash have the same values, or
    their texts are a SHA-256 collision. *)
Lemma hash_obj_binding (l k : dict) :
  json_wf (JObj l) = true → json_wf (JObj k) = true → dict_keys l = dict_keys k →
  sha256 (canonical_json (JObj l)) = sha256 (canonical_json (JObj k)) →
  Forall2 (fun p q => same_json p.2 q.2 = true) l k ∨
  collision (canonical_json (JObj l)) (canonical_json (JObj k)).
Proof.
  intros Hl Hk He [E|]%sha256_hex_inj_or_collision; [left|by right].
  apply same_json_same_keys; [by apply json_wf_obj in Hk as []|done|].
  by apply canonical_json_same.
Qed.

(** Objects built by the functions above: literal distinct keys. *)
Lemma json_wf_lit (l : dict) :
  bool_decide (dict_wf l) = true → Forall (fun p => json_wf p.2 = true) l →
  json_wf (JObj l) = true.
Proof. intros. simpl. by rewrite andb_true_iff, forallb_Forall. Qed.

Ltac hash_binding H :=
  apply hash_obj_binding in H;
  [ destruct H as [H|H];
    [ left; rewrite !Forall2_cons in H; simpl in H; rewrite ?Is_true_true; naive_solver
    | right; exact H ]
  | apply json_wf_lit; [reflexivity|repeat constructor; assumption]
  | apply json_wf_lit; [reflexivity|repeat constructor; assumption]
  | reflexivity ].

Lemma valid_hex_hash_str j :
  is_valid_hex_hash j = true → ∃ s, j = JStr s ∧ String.length s = 64%nat.
Proof.
  destruct j; try done. simpl. rewrite andb_true_iff, Nat.eqb_eq. intros [? _]. eauto.
Qed.

Lemma hash_wf_valid s : hash_wf s → is_valid_hex_hash (JStr s) = true.
Proof.
  intros [Hl Hs]. simpl. rewrite Hl. simpl.
  rewrite (int_of_hex_lower s), str_lower_hex by (done || by intros ->).
  by rewrite String.eqb_refl.
Qed.

Lemma compute_integrity_hash_strs i o t :
  compute_integrity_hash (JStr i) (JStr o) (JStr t) = Ok (sha256 ((i +:+ o) +:+ t)).
Proof. done. Qed.

(** The texts the hashes are the hashes of. *)
Definition ai_id_text
    (model_weights_hash runtime_hash config_hash provider_id model_name model_version : json)
    : string :=
  canonical_json (JObj [
    ("model_weights_hash", model_weights_hash); ("runtime_hash", runtime_hash);
    ("config_hash", config_hash); ("provider_id", provider_id);
    ("model_name", model_name); ("model_version", model_version);
    ("spec_version", JStr "vrl/ai-id/1.0")]).

Definition commitment_text
    (dataset_id dataset_version dataset_hash provider_id committed_at : json) : string :=
  canonical_json (JObj [
    ("committed_at", committed_at); ("dataset_hash", dataset_hash);
    ("dataset_id", dataset_id); ("dataset_version", dataset_version);
    ("provider_id", provider_id)]).

Definition proof_hash_text (circuit_hash proof_bytes public_inputs proof_system trace_hash : json)
    : string :=
  canonical_json (JObj [
    ("circuit_hash", circuit_hash); ("proof_bytes", proof_bytes);
    ("proof_system", proof_system); ("public_inputs", public_inputs);
    ("public_inputs_hash", JStr (sha256 (canonical_json public_inputs)));
    ("trace_hash", trace_hash)]).

Lemma integrity_hash_inj i o t i' o' t' :
  forallb is_valid_hex_hash [i; o; t; i'; o'; t'] = true →
  compute_integrity_hash i o t = compute_integrity_hash i' o' t' →
  (i = i' ∧ o = o' ∧ t = t') ∨
  ∃ x y, integrity_text i o t = Ok x ∧ integrity_text i' o' t' = Ok y ∧ collision x y.
Proof.
  cbn [forallb]. rewrite !andb_true_iff.
  intros ((si & -> & Li)%valid_hex_hash_str & (so & -> & Lo)%valid_hex_hash_str &
          (st & -> & Lt)%valid_hex_hash_str & (si' & -> & Li')%valid_hex_hash_str &
          (so' & -> & Lo')%valid_hex_hash_str & (st' & -> & Lt')%valid_hex_hash_str & _).
  rewrite !compute_integrity_hash_strs.
  intros [= [E|Hc]%sha256_hex_inj_or_collision]; [left|right; by eexists _, _].
  apply str_app_inj_length in E as [E ->]; [|rewrite !str_length_app; congruence].
  by apply str_app_inj_length in E as [-> ->]; [|congruence].
Qed.

Lemma proof_hash_inj c b p s t c' b' p' s' t' :
  forallb json_wf [c; b; p; s; t; c'; b'; p'; s'; t'] = true →
  compute_proof_hash c b p s t = compute_proof_hash c' b' p' s' t' →
  (same_json c c' ∧ same_json b b' ∧ same_json p p' ∧ same_json s s' ∧ same_json t t') ∨
  collision (proof_hash_text c b p s t) (proof_hash_text c' b' p' s' t').
Proof.
  cbn [forallb]. rewrite !andb_true_iff. intros (?&?&?&?&?&?&?&?&?&?&_) Heq.
  unfold compute_proof_hash in Heq. hash_binding Heq.
Qed.

(** Hashing does not see the order of keys inside the values. *)
Lemma canonical_json_sort j : canonical_json (json_sort j) = canonical_json j.
Proof. by rewrite !canonical_json_print, json_sort_idemp. Qed.

Lemma canonical_json_obj_values (l : dict) :
  canonical_json (JObj (map (fun p => (p.1, json_sort p.2)) l)) = canonical_json (JObj l).
Proof.
  simpl. rewrite map_map. simpl. do 5 f_equal. apply map_ext. intros p.
  by rewrite canonical_json_sort.
Qed.

Lemma compute_proof_hash_sort c b p s t :
  compute_proof_hash (json_sort c) (json_sort b) (json_sort p) (json_sort s) (json_sort t) =
  compute_proof_hash c b p s t.
Proof.
  unfold compute_proof_hash. rewrite canonical_json_sort.
  by rewrite <-(canonical_json_obj_values [("circuit_hash", c); _; _; _; _; _]).
Qed.

Lemma compute_commitment_hash_sort i v h p a :
  compute_commitment_hash (json_sort i) (json_sort v) (json_sort h) (json_sort p) (json_sort a) =
  compute_commitment_hash i v h p a.
Proof.
  unfold compute_commitment_hash.
  by rewrite <-(canonical_json_obj_values [("committed_at", a); _; _; _; _]).
Qed.

Lemma summand_of_sort j : summand_of (json_sort j) = summand_of j.
Proof. by destruct j. Qed.

Lemma compute_integrity_hash_sort i o t :
  compute_integrity_hash (json_sort i) (json_sort o) (json_sort t) =
  compute_integrity_hash i o t.
Proof. unfold compute_integrity_hash, integrity_text. by rewrite !summand_of_sort. Qed.

Lemma compute_bundle_id_sort j :
  compute_bundle_id_from_integrity (json_sort j) = compute_bundle_id_from_integrity j.
Proof. by destruct j. Qed.

(** ** Properties *)

(** An integrity hash binds the three hashes under it.  They are concatenated
    without a separator, and need none: each has 64 characters.  Equal
    integrity hashes of accepted fields come from equal fields, or the two
    concatenations are a SHA-256 collision. *)
Theorem integrity_hash_binding i o t i' o' t' :
  forallb is_valid_hex_hash [i; o; t; i'; o'; t'] = true →
  compute_integrity_hash i o t = compute_integrity_hash i' o' t' →
  (i = i' ∧ o = o' ∧ t = t') ∨
  ∃ x y, integrity_text i o t = Ok x ∧ integrity_text i' o' t' = Ok y ∧ collision x y.
Proof. apply integrity_hash_inj. Qed.

Lemma integrity_hash_binding_witness :
  let h := JStr ZERO_HASH in
  (h = h ∧ h = h ∧ h = h) ∨
  ∃ x y, integrity_text h h h = Ok x ∧ integrity_text h h h = Ok y ∧ collision x y.
Proof. apply integrity_hash_binding; reflexivity. Defined.

(** A proof hash binds the circuit, the proof, its public inputs, the proof
    system and the trace: proofs with equal hashes agree on all five (as JSON
    values), or their canonical texts are a SHA-256 collision. *)
Theorem proof_hash_binding c b p s t c' b' p' s' t' :
  forallb json_wf [c; b; p; s; t; c'; b'; p'; s'; t'] = true →
  compute_proof_hash c b p s t = compute_proof_hash c' b' p' s' t' →
  (same_json c c' ∧ same_json b b' ∧ same_json p p' ∧ same_json s s' ∧ same_json t t') ∨
  collision (proof_hash_text c b p s t) (proof_hash_text c' b' p' s' t').
Proof. apply proof_hash_inj. Qed.

Lemma proof_hash_binding_witness :
  let h := JStr ZERO_HASH in let p := JList [JStr "0x1"] in
  (same_json h h ∧ same_json h h ∧ same_json p p ∧ same_json h h ∧ same_json h h) ∨
  collision (proof_hash_text h h p h h) (proof_hash_text h h p h h).
Proof. apply proof_hash_binding; reflexivity. Defined.

(** An AI identity hash binds the six fields it is computed from, up to a
    SHA-256 collision of the two canonical texts. *)
Theorem ai_id_binding w r c p n v w' r' c' p' n' v' :
  forallb json_wf [w; r; c; p; n; v; w'; r'; c'; p'; n'; v'] = true →
  compute_ai_id w r c p n v = compute_ai_id w' r' c' p' n' v' →
  (same_json w w' ∧ same_json r r' ∧ same_json c c' ∧ same_json p p' ∧ same_json n n' ∧
   same_json v v') ∨
  collision (ai_id_text w r c p n v) (ai_id_text w' r' c' p' n' v').
Proof.
  cbn [forallb]. rewrite !andb_true_iff. intros (?&?&?&?&?&?&?&?&?&?&?&?&_) Heq.
  unfold compute_ai_id in Heq. hash_binding Heq.
Qed.

Lemma ai_id_binding_witness :
  let h := JStr ZERO_HASH in
  (same_json h h ∧ same_json h h ∧ same_json h h ∧ same_json h h ∧ same_json h h ∧
   same_json h h) ∨
  collision (ai_id_text h h h h h h) (ai_id_text h h h h h h).
Proof. apply ai_id_binding; reflexivity. Defined.

(** A commitment hash binds the five fields of a data commitment, up to a
    SHA-256 collision of the two canonical texts. *)
Theorem commitment_hash_binding i v h p a i' v' h' p' a' :
  forallb json_wf [i; v; h; p; a; i'; v'; h'; p'; a'] = true →
  compute_commitment_hash i v h p a = compute_commitment_hash i' v' h' p' a' →
  (same_json i i' ∧ same_json v v' ∧ same_json h h' ∧ same_json p p' ∧ same_json a a') ∨
  collision (commitment_text i v h p a) (commitment_text i' v' h' p' a').
Proof.
  cbn [forallb]. rewrite !andb_true_iff. intros (?&?&?&?&?&?&?&?&?&?&_) Heq.
  unfold compute_commitment_hash in Heq. hash_binding Heq.
Qed.

Lemma commitment_hash_binding_witness :
  let h := JStr "2026-01-01" in
  (same_json h h ∧ same_json h h ∧ same_json h h ∧ same_json h h ∧ same_json h h) ∨
  collision (commitment_text h h h h h) (commitment_text h h h h h).
Proof. apply commitment_hash_binding; reflexivity. Defined.

(** The format check of hashes is weaker than 64 hexadecimal digits: [int]
    accepts surrounding white space, a sign, a prefix and underscores. *)
Example hex_check_accepts_spaces :
  let s := " 0000000000000000000000000000000_00000000000000000000000000000+ " in
  let t := "  00000000000000000000000000000_00000000000000000000000000000000" in
  is_valid_hex_hash (JStr t) = true ∧ str_forall is_lower_hex t = false ∧
  is_valid_hex_hash (JStr s) = false.
Proof. vm_compute. done. Qed.
