(* ===== verification/Bundle.v ===== *)
(** * Proof bundles (sdk/python/vrl/identity.py, sdk/python/vrl/bundle.py)

    The dataclasses of a bundle, [from_dict] and [to_dict] of each, and
    [to_json]/[from_json].  [from_dict] does not check the types of most
    fields: a field holds whatever JSON value was parsed.  [None] is [JNull]. *)
From S2P Require Export SdkHashing.

(** ** Data classes *)

Record AIIdentity := mkAIIdentity {
  ai_ai_id : json; ai_model_name : json; ai_model_version : json; ai_provider_id : json;
  ai_execution_environment : json; ai_provider_signature : json;
  ai_tee_attestation_report : json; ai_parent_ai_id : json }.

Record Computation := mkComputation {
  co_circuit_id : json; co_circuit_version : json; co_circuit_hash : json;
  co_input_hash : json; co_output_hash : json; co_trace_hash : json;
  co_integrity_hash : json }.

Record Proof_ := mkProof {
  pr_proof_system : json; pr_proof_bytes : json; pr_public_inputs : json;
  pr_verification_key_id : json; pr_proof_hash : json; pr_commitments : json }.

Record DataCommitment := mkDataCommitment {
  dc_dataset_id : json; dc_dataset_version : json; dc_dataset_hash : json;
  dc_provider_id : json; dc_committed_at : json; dc_commitment_hash : json;
  dc_provider_signature : json }.

Record TimestampAuthority := mkTimestampAuthority {
  ts_tsa_token : json; ts_tsa_provider : json; ts_tsa_hash_algorithm : json }.

Record ImmutableAnchor := mkImmutableAnchor {
  an_chain : json; an_tx_hash : json; an_block_number : json; an_anchored_at : json }.

Record Legal := mkLegal {
  le_jurisdictions : json; le_admissibility_standard : json; le_compliance_flags : json;
  le_timestamp_authority : option TimestampAuthority;
  le_immutable_anchor : option ImmutableAnchor }.

Record ProofGraph := mkProofGraph {
  pg_depends_on : json; pg_produced_by : json; pg_causal_depth : json;
  pg_graph_root_hash : json; pg_privacy_tier : json }.

Record TrustContext := mkTrustContext {
  tc_prover_id : json; tc_prover_version : json; tc_trust_score_at_issuance : json;
  tc_circuit_certification_tier : json; tc_anomaly_flags : json }.

Record ProofBundle := mkProofBundle {
  pb_vrl_version : json; pb_bundle_id : json; pb_issued_at : json;
  pb_ai_identity : AIIdentity; pb_computation : Computation; pb_proof : Proof_;
  pb_data_commitments : option (list DataCommitment); pb_legal : option Legal;
  pb_proof_graph : option ProofGraph; pb_trust_context : option TrustContext }.

(** ** Constants *)

Definition valid_envs : list string :=
  ["deterministic"; "tee"; "zk-ml"; "api-attested"; "unattested"].

Definition valid_systems : list string :=
  ["plonk-halo2-pasta"; "plonk-halo2-bn254"; "groth16-bn254"; "stark"; "zk-ml";
   "tee-intel-tdx"; "tee-amd-sev-snp"; "tee-aws-nitro"; "sha256-deterministic";
   "api-hash-binding"].

Definition ai_required : list string :=
  ["ai_id"; "model_name"; "model_version"; "provider_id"; "execution_environment"].
Definition co_required : list string :=
  ["circuit_id"; "circuit_version"; "circuit_hash"; "input_hash"; "output_hash"; "trace_hash";
   "integrity_hash"].
Definition pr_required : list string :=
  ["proof_system"; "proof_bytes"; "public_inputs"; "verification_key_id"; "proof_hash"].
Definition dc_required : list string :=
  ["dataset_id"; "dataset_version"; "dataset_hash"; "provider_id"; "committed_at";
   "commitment_hash"].
Definition pb_required : list string :=
  ["vrl_version"; "bundle_id"; "issued_at"; "ai_identity"; "computation"; "proof"].

(** ** [to_dict] *)

(** [{k: v for k, v in result.items() if v is not None}] *)
Fixpoint drop_none (d : dict) : dict :=
  match d with
  | [] => []
  | (k, v) :: d => if is_null v then drop_none d else (k, v) :: drop_none d
  end.

(** [asdict(self)] of each dataclass. *)
Definition ai_asdict (x : AIIdentity) : dict :=
  [("ai_id", ai_ai_id x); ("model_name", ai_model_name x); ("model_version", ai_model_version x);
   ("provider_id", ai_provider_id x); ("execution_environment", ai_execution_environment x);
   ("provider_signature", ai_provider_signature x);
   ("tee_attestation_report", ai_tee_attestation_report x); ("parent_ai_id", ai_parent_ai_id x)].
Definition ai_identity_to_dict (x : AIIdentity) : dict := drop_none (ai_asdict x).

Definition computation_to_dict (x : Computation) : dict :=
  [("circuit_id", co_circuit_id x); ("circuit_version", co_circuit_version x);
   ("circuit_hash", co_circuit_hash x); ("input_hash", co_input_hash x);
   ("output_hash", co_output_hash x); ("trace_hash", co_trace_hash x);
   ("integrity_hash", co_integrity_hash x)].

Definition pr_asdict (x : Proof_) : dict :=
  [("proof_system", pr_proof_system x); ("proof_bytes", pr_proof_bytes x);
   ("public_inputs", pr_public_inputs x); ("verification_key_id", pr_verification_key_id x);
   ("proof_hash", pr_proof_hash x); ("commitments", pr_commitments x)].
Definition proof_to_dict (x : Proof_) : dict := drop_none (pr_asdict x).

Definition dc_asdict (x : DataCommitment) : dict :=
  [("dataset_id", dc_dataset_id x); ("dataset_version", dc_dataset_version x);
   ("dataset_hash", dc_dataset_hash x); ("provider_id", dc_provider_id x);
   ("committed_at", dc_committed_at x); ("commitment_hash", dc_commitment_hash x);
   ("provider_signature", dc_provider_signature x)].
Definition data_commitment_to_dict (x : DataCommitment) : dict := drop_none (dc_asdict x).

Definition timestamp_authority_to_dict (x : TimestampAuthority) : dict :=
  [("tsa_token", ts_tsa_token x); ("tsa_provider", ts_tsa_provider x);
   ("tsa_hash_algorithm", ts_tsa_hash_algorithm x)].

Definition immutable_anchor_to_dict (x : ImmutableAnchor) : dict :=
  [("chain", an_chain x); ("tx_hash", an_tx_hash x); ("block_number", an_block_number x);
   ("anchored_at", an_anchored_at x)].

(** [if x: result[k] = x.to_dict()] for an optional dataclass instance. *)
Definition opt_entry {A} (k : string) (f : A → json) (x : option A) : dict :=
  match x with Some x => [(k, f x)] | None => [] end.

Definition le_asdict (x : Legal) : dict :=
  [("jurisdictions", le_jurisdictions x);
   ("admissibility_standard", le_admissibility_standard x);
   ("compliance_flags", le_compliance_flags x)] ++
  opt_entry "timestamp_authority" (fun t => JObj (timestamp_authority_to_dict t))
    (le_timestamp_authority x) ++
  opt_entry "immutable_anchor" (fun t => JObj (immutable_anchor_to_dict t))
    (le_immutable_anchor x).
Definition legal_to_dict (x : Legal) : dict := drop_none (le_asdict x).

Definition pg_asdict (x : ProofGraph) : dict :=
  [("depends_on", pg_depends_on x); ("produced_by", pg_produced_by x);
   ("causal_depth", pg_causal_depth x); ("graph_root_hash", pg_graph_root_hash x);
   ("privacy_tier", pg_privacy_tier x)].
Definition proof_graph_to_dict (x : ProofGraph) : dict := drop_none (pg_asdict x).

Definition tc_asdict (x : TrustContext) : dict :=
  [("prover_id", tc_prover_id x); ("prover_version", tc_prover_version x);
   ("trust_score_at_issuance", tc_trust_score_at_issuance x);
   ("circuit_certification_tier", tc_circuit_certification_tier x);
   ("anomaly_flags", tc_anomaly_flags x)].
Definition trust_context_to_dict (x : TrustContext) : dict := drop_none (tc_asdict x).

(** [if self.data_commitments:], false of [None] and of an empty list. *)
Definition commitments_entry (x : option (list DataCommitment)) : dict :=
  match x with
  | Some (c :: cs) =>
      [("data_commitments", JList (map (fun c => JObj (data_commitment_to_dict c)) (c :: cs)))]
  | _ => []
  end.

Definition bundle_to_dict (b : ProofBundle) : dict :=
  [("vrl_version", pb_vrl_version b); ("bundle_id", pb_bundle_id b);
   ("issued_at", pb_issued_at b);
   ("ai_identity", JObj (ai_identity_to_dict (pb_ai_identity b)));
   ("computation", JObj (computation_to_dict (pb_computation b)));
   ("proof", JObj (proof_to_dict (pb_proof b)))] ++
  commitments_entry (pb_data_commitments b) ++
  opt_entry "legal" (fun x => JObj (legal_to_dict x)) (pb_legal b) ++
  opt_entry "proof_graph" (fun x => JObj (proof_graph_to_dict x)) (pb_proof_graph b) ++
  opt_entry "trust_context" (fun x => JObj (trust_context_to_dict x)) (pb_trust_context b).

(** [to_json(pretty=False)] *)
Definition bundle_to_json (b : ProofBundle) : string := canonical_json (JObj (bundle_to_dict b)).

(** ** [from_dict] *)

Definition ai_identity_from_dict (data : json) : result AIIdentity :=
  d ← as_dict data;
  if negb (has_all ai_required d) then raise ValueError "Missing required fields: {}" else
  if negb (is_valid_hex_hash (get "ai_id" d)) then raise ValueError "Invalid ai_id format: {}" else
  known ← in_set valid_envs (get "execution_environment" d);
  if negb known then raise ValueError "Invalid execution_environment: {}" else
  Ok (mkAIIdentity (get "ai_id" d) (get "model_name" d) (get "model_version" d)
        (get "provider_id" d) (get "execution_environment" d) (get "provider_signature" d)
        (get "tee_attestation_report" d) (get "parent_ai_id" d)).

Definition computation_from_dict (data : json) : result Computation :=
  d ← as_dict data;
  if negb (has_all co_required d) then raise ValueError "Missing required computation fields: {}"
  else
  Ok (mkComputation (get "circuit_id" d) (get "circuit_version" d) (get "circuit_hash" d)
        (get "input_hash" d) (get "output_hash" d) (get "trace_hash" d)
        (get "integrity_hash" d)).

Definition proof_from_dict (data : json) : result Proof_ :=
  d ← as_dict data;
  if negb (has_all pr_required d) then raise ValueError "Missing required proof fields: {}" else
  known ← in_set valid_systems (get "proof_system" d);
  if negb known then raise ValueError "Invalid proof_system: {}" else
  Ok (mkProof (get "proof_system" d) (get "proof_bytes" d) (get "public_inputs" d)
        (get "verification_key_id" d) (get "proof_hash" d) (get "commitments" d)).

Definition data_commitment_from_dict (data : json) : result DataCommitment :=
  d ← as_dict data;
  if negb (has_all dc_required d)
  then raise ValueError "Missing required data commitment fields: {}" else
  Ok (mkDataCommitment (get "dataset_id" d) (get "dataset_version" d) (get "dataset_hash" d)
        (get "provider_id" d) (get "committed_at" d) (get "commitment_hash" d)
        (get "provider_signature" d)).

(** [Cls( **data )] for a dataclass without defaults. *)
Definition kwargs (fields : list string) (data : json) : result dict :=
  match data with
  | JObj d => if keys_exactly fields d then Ok d
              else raise TypeError "__init__() missing or unexpected keyword argument"
  | _ => raise TypeError "argument after ** must be a mapping"
  end.

Definition timestamp_authority_from_dict (data : json) : result TimestampAuthority :=
  d ← kwargs ["tsa_token"; "tsa_provider"; "tsa_hash_algorithm"] data;
  Ok (mkTimestampAuthority (get "tsa_token" d) (get "tsa_provider" d)
        (get "tsa_hash_algorithm" d)).

Definition immutable_anchor_from_dict (data : json) : result ImmutableAnchor :=
  d ← kwargs ["chain"; "tx_hash"; "block_number"; "anchored_at"] data;
  Ok (mkImmutableAnchor (get "chain" d) (get "tx_hash" d) (get "block_number" d)
        (get "anchored_at" d)).

(** [x = None; if k in data and data[k]: x = f(data[k])] *)
Definition opt_section {A} (k : string) (f : json → result A) (data : json) : result (option A) :=
  present ← py_in k data;
  if negb present then Ok None else
  v ← py_index k data;
  if truthy v then Some <$> f v else Ok None.

Definition legal_from_dict (data : json) : result Legal :=
  tsa ← opt_section "timestamp_authority" timestamp_authority_from_dict data;
  anchor ← opt_section "immutable_anchor" immutable_anchor_from_dict data;
  jurisdictions ← get_attr "jurisdictions" data;
  admissibility ← get_attr "admissibility_standard" data;
  flags ← get_attr "compliance_flags" data;
  Ok (mkLegal jurisdictions admissibility flags tsa anchor).

Definition proof_graph_from_dict (data : json) : result ProofGraph :=
  d ← as_dict data;
  Ok (mkProofGraph (get "depends_on" d) (get "produced_by" d) (get "causal_depth" d)
        (get "graph_root_hash" d) (get "privacy_tier" d)).

Definition trust_context_from_dict (data : json) : result TrustContext :=
  d ← as_dict data;
  Ok (mkTrustContext (get "prover_id" d) (get "prover_version" d)
        (get "trust_score_at_issuance" d) (get "circuit_certification_tier" d)
        (get "anomaly_flags" d)).

Definition data_commitments_from (data : json) : result (list DataCommitment) :=
  cs ← py_iter data; traverse data_commitment_from_dict cs.

Definition bundle_from_dict (data : json) : result ProofBundle :=
  d ← as_dict data;
  if negb (has_all pb_required d) then raise ValueError "Missing required bundle fields: {}" else
  if negb (is_str "1.0" (get "vrl_version" d)) then raise ValueError "Unsupported vrl_version: {}"
  else
  ai_identity ← ai_identity_from_dict (get "ai_identity" d);
  computation ← computation_from_dict (get "computation" d);
  proof ← proof_from_dict (get "proof" d);
  data_commitments ← opt_section "data_commitments" data_commitments_from data;
  legal ← opt_section "legal" legal_from_dict data;
  proof_graph ← opt_section "proof_graph" proof_graph_from_dict data;
  trust_context ← opt_section "trust_context" trust_context_from_dict data;
  Ok (mkProofBundle (get "vrl_version" d) (get "bundle_id" d) (get "issued_at" d)
        ai_identity computation proof data_commitments legal proof_graph trust_context).

(** [from_json] *)
Definition bundle_from_json (json_str : string) : result ProofBundle :=
  match json_loads json_str with
  | None => raise ValueError "Invalid JSON: {}"
  | Some data => bundle_from_dict data
  end.

(** ** Reading back a dictionary without its [None] values *)

Lemma drop_none_in k v d : (k, v) ∈ drop_none d ↔ (k, v) ∈ d ∧ v ≠ JNull.
Proof.
  induction d as [|[k' v'] d IH]; simpl; [set_solver|].
  destruct (is_null v') eqn:E; rewrite ?elem_of_cons, IH.
  - apply is_null_spec in E as ->. set_solver.
  - assert (v' ≠ JNull) by by intros ->. set_solver.
Qed.

Lemma drop_none_keys k d : k ∈ dict_keys (drop_none d) → k ∈ dict_keys d.
Proof.
  intros ([k' v] & -> & [H _]%drop_none_in)%list_elem_of_fmap. apply list_elem_of_fmap.
  by exists (k', v).
Qed.

Lemma drop_none_wf d : dict_wf d → dict_wf (drop_none d).
Proof.
  unfold dict_wf. induction d as [|[k v] d IH]; simpl; [done|].
  intros [Hk Hd]%NoDup_cons. destruct (is_null v); [auto|].
  simpl. constructor; [|auto]. contradict Hk. by apply drop_none_keys in Hk.
Qed.

Lemma dict_get_drop_none k d :
  dict_wf d →
  dict_get k (drop_none d) =
  match dict_get k d with Some v => if is_null v then None else Some v | None => None end.
Proof.
  intros Hd. destruct (dict_get k (drop_none d)) as [v|] eqn:E.
  - apply dict_get_Some_elem, drop_none_in in E as [E Hv].
    apply dict_get_elem in E; [|done]. rewrite E. by destruct v.
  - apply dict_get_None in E. destruct (dict_get k d) as [v|] eqn:E'; [|done].
    destruct (is_null v) eqn:Hv; [done|]. destruct E.
    apply list_elem_of_fmap. exists (k, v). split; [done|]. apply drop_none_in.
    split; [by apply dict_get_Some_elem|]. by intros ->.
Qed.

Lemma get_drop_none k d : dict_wf d → get k (drop_none d) = get k d.
Proof.
  intros. unfold get. rewrite dict_get_drop_none by done.
  destruct (dict_get k d) as [[]|]; done.
Qed.

Lemma dict_mem_drop_none k d :
  dict_wf d → dict_mem k (drop_none d) = negb (is_null (get k d)).
Proof.
  intros. unfold dict_mem, get. rewrite dict_get_drop_none by done.
  destruct (dict_get k d) as [[]|]; done.
Qed.

Lemma has_all_drop_none ks d :
  dict_wf d → has_all ks (drop_none d) = forallb (fun k => negb (is_null (get k d))) ks.
Proof.
  intros. unfold has_all. induction ks as [|k ks IH]; [done|].
  simpl. by rewrite IH, dict_mem_drop_none.
Qed.

Lemma dict_wf_dec (d : dict) : bool_decide (dict_wf d) = true → dict_wf d.
Proof. apply bool_decide_eq_true. Qed.

(** ** Bundles that survive serialisation

    [to_dict] drops [None], and [from_dict] refuses a missing required field
    and forgets an empty optional section. *)

Definition non_null (ks : list string) (d : dict) : bool :=
  forallb (fun k => negb (is_null (get k d))) ks.

Definition known (ks : list string) (j : json) : bool :=
  match j with JStr s => bool_decide (s ∈ ks) | _ => false end.

Definition ai_identity_ok (x : AIIdentity) : bool :=
  non_null ai_required (ai_asdict x) && is_valid_hex_hash (ai_ai_id x) &&
  known valid_envs (ai_execution_environment x).
Definition proof_ok (x : Proof_) : bool :=
  non_null pr_required (pr_asdict x) && known valid_systems (pr_proof_system x).
Definition data_commitment_ok (x : DataCommitment) : bool := non_null dc_required (dc_asdict x).
Definition section_ok {A} (f : A → dict) (x : option A) : bool :=
  match x with Some x => negb (length (f x) =? 0)%nat | None => true end.
Definition bundle_ok (b : ProofBundle) : bool :=
  is_str "1.0" (pb_vrl_version b) && ai_identity_ok (pb_ai_identity b) &&
  proof_ok (pb_proof b) &&
  match pb_data_commitments b with
  | Some cs => negb (length cs =? 0)%nat && forallb data_commitment_ok cs
  | None => true
  end &&
  section_ok legal_to_dict (pb_legal b) && section_ok proof_graph_to_dict (pb_proof_graph b) &&
  section_ok trust_context_to_dict (pb_trust_context b).

Lemma in_set_known ks j : known ks j = true → in_set ks j = Ok true.
Proof. destruct j; try done. simpl. by intros ->. Qed.

Lemma known_in_set ks j : in_set ks j = Ok true ↔ known ks j = true.
Proof. destruct j; simpl; try done. split; [by intros [= ->]|by intros ->]. Qed.

(** [from_dict] of each class inverts its [to_dict]. *)
Ltac read_back :=
  rewrite ?has_all_drop_none, ?get_drop_none by by apply dict_wf_dec.

Lemma ai_identity_roundtrip x :
  ai_identity_ok x = true → ai_identity_from_dict (JObj (ai_identity_to_dict x)) = Ok x.
Proof.
  unfold ai_identity_ok. rewrite !andb_true_iff. intros [[H1 H2] H3].
  unfold ai_identity_from_dict, ai_identity_to_dict. cbn [as_dict mbind result_bind].
  read_back. unfold non_null in H1. rewrite H1. unfold get. simpl.
  rewrite H2, in_set_known by done. by destruct x.
Qed.

Lemma computation_roundtrip x : computation_from_dict (JObj (computation_to_dict x)) = Ok x.
Proof. by destruct x. Qed.

Lemma proof_roundtrip x : proof_ok x = true → proof_from_dict (JObj (proof_to_dict x)) = Ok x.
Proof.
  unfold proof_ok. rewrite !andb_true_iff. intros [H1 H2].
  unfold proof_from_dict, proof_to_dict. cbn [as_dict mbind result_bind].
  read_back. unfold non_null in H1. rewrite H1. unfold get. simpl.
  rewrite in_set_known by done. by destruct x.
Qed.

Lemma data_commitment_roundtrip x :
  data_commitment_ok x = true →
  data_commitment_from_dict (JObj (data_commitment_to_dict x)) = Ok x.
Proof.
  unfold data_commitment_ok, non_null. intros H.
  unfold data_commitment_from_dict, data_commitment_to_dict. cbn [as_dict mbind result_bind].
  read_back. rewrite H. by destruct x.
Qed.

Lemma proof_graph_roundtrip x : proof_graph_from_dict (JObj (proof_graph_to_dict x)) = Ok x.
Proof.
  unfold proof_graph_from_dict, proof_graph_to_dict. cbn [as_dict mbind result_bind].
  read_back. by destruct x.
Qed.

Lemma trust_context_roundtrip x :
  trust_context_from_dict (JObj (trust_context_to_dict x)) = Ok x.
Proof.
  unfold trust_context_from_dict, trust_context_to_dict. cbn [as_dict mbind result_bind].
  read_back. by destruct x.
Qed.

Lemma opt_section_obj {A} k (f : json → result A) d :
  opt_section k f (JObj d) =
  match dict_get k d with
  | Some v => if truthy v then Some <$> f v else Ok None
  | None => Ok None
  end.
Proof.
  unfold opt_section, py_in, py_index, dict_mem. simpl. by destruct (dict_get k d).
Qed.

Lemma truthy_obj d : truthy (JObj d) = negb (length d =? 0)%nat.
Proof. done. Qed.

Lemma legal_asdict_wf x : dict_wf (le_asdict x).
Proof. destruct x as [j a c [t|] [i|]]; by apply dict_wf_dec. Qed.

Lemma legal_roundtrip x : legal_from_dict (JObj (legal_to_dict x)) = Ok x.
Proof.
  unfold legal_from_dict, get_attr. rewrite !opt_section_obj. unfold legal_to_dict.
  rewrite !dict_get_drop_none by apply legal_asdict_wf.
  cbn [as_dict fmap result_fmap]. rewrite !get_drop_none by apply legal_asdict_wf.
  by destruct x as [j a c [[]|] [[]|]].
Qed.

Lemma commitments_roundtrip cs :
  forallb data_commitment_ok cs = true →
  data_commitments_from (JList (map (fun c => JObj (data_commitment_to_dict c)) cs)) = Ok cs.
Proof.
  intros H. unfold data_commitments_from. simpl. rewrite traverse_map.
  rewrite forallb_Forall, Forall_forall in H.
  erewrite traverse_total with (g := id); [by rewrite map_id|].
  intros c Hc. by apply data_commitment_roundtrip, H.
Qed.

(** What [bundle_from_dict] sees in the dictionary of a bundle. *)
Lemma bundle_to_dict_sections b :
  dict_get "data_commitments" (bundle_to_dict b) =
    snd <$> head (commitments_entry (pb_data_commitments b)) ∧
  dict_get "legal" (bundle_to_dict b) = (fun x => JObj (legal_to_dict x)) <$> pb_legal b ∧
  dict_get "proof_graph" (bundle_to_dict b) =
    (fun x => JObj (proof_graph_to_dict x)) <$> pb_proof_graph b ∧
  dict_get "trust_context" (bundle_to_dict b) =
    (fun x => JObj (trust_context_to_dict x)) <$> pb_trust_context b.
Proof. by destruct b as [??? ??? [[]|] [] [] []]. Qed.

Lemma opt_section_roundtrip {A} (f : json → result A) (g : A → dict) (x : option A) :
  section_ok g x = true → (∀ y, f (JObj (g y)) = Ok y) →
  match (fun y => JObj (g y)) <$> x with
  | Some v => if truthy v then Some <$> f v else Ok None
  | None => Ok None
  end = Ok x.
Proof.
  intros Hx Hf. destruct x as [y|]; [|done]. cbn [fmap option_fmap option_map].
  rewrite truthy_obj. simpl in Hx. by rewrite Hx, Hf.
Qed.

Lemma bundle_roundtrip b :
  bundle_ok b = true → bundle_from_dict (JObj (bundle_to_dict b)) = Ok b.
Proof.
  unfold bundle_ok. rewrite !andb_true_iff. intros [[[[[[H1 H2] H3] H4] H5] H6] H7].
  unfold bundle_from_dict. rewrite !opt_section_obj.
  destruct (bundle_to_dict_sections b) as (-> & -> & -> & ->).
  rewrite !opt_section_roundtrip
    by auto using legal_roundtrip, proof_graph_roundtrip, trust_context_roundtrip.
  cbn [as_dict mbind result_bind].
  change (has_all pb_required (bundle_to_dict b)) with true. cbn [negb].
  change (get "vrl_version" (bundle_to_dict b)) with (pb_vrl_version b). rewrite H1.
  change (get "ai_identity" (bundle_to_dict b))
    with (JObj (ai_identity_to_dict (pb_ai_identity b))).
  change (get "computation" (bundle_to_dict b))
    with (JObj (computation_to_dict (pb_computation b))).
  change (get "proof" (bundle_to_dict b)) with (JObj (proof_to_dict (pb_proof b))).
  rewrite ai_identity_roundtrip, computation_roundtrip, proof_roundtrip by done.
  cbn [negb].
  destruct b as [v i t ai co pr [[|c cs]|] le pg tc]; try done.
  cbn [pb_data_commitments commitments_entry head fmap option_fmap option_map snd] in *.
  apply andb_true_iff in H4 as [_ H4].
  rewrite commitments_roundtrip by done. done.
Qed.

(** ** Sorting the keys of a document

    [to_json] writes the keys in order; what [from_dict] makes of a document
    whose keys were sorted is what it makes of the document, with the nested
    values sorted. *)

Definition ai_identity_sort (x : AIIdentity) : AIIdentity :=
  mkAIIdentity (json_sort (ai_ai_id x)) (json_sort (ai_model_name x))
    (json_sort (ai_model_version x)) (json_sort (ai_provider_id x))
    (json_sort (ai_execution_environment x)) (json_sort (ai_provider_signature x))
    (json_sort (ai_tee_attestation_report x)) (json_sort (ai_parent_ai_id x)).
Definition computation_sort (x : Computation) : Computation :=
  mkComputation (json_sort (co_circuit_id x)) (json_sort (co_circuit_version x))
    (json_sort (co_circuit_hash x)) (json_sort (co_input_hash x)) (json_sort (co_output_hash x))
    (json_sort (co_trace_hash x)) (json_sort (co_integrity_hash x)).
Definition proof_sort (x : Proof_) : Proof_ :=
  mkProof (json_sort (pr_proof_system x)) (json_sort (pr_proof_bytes x))
    (json_sort (pr_public_inputs x)) (json_sort (pr_verification_key_id x))
    (json_sort (pr_proof_hash x)) (json_sort (pr_commitments x)).
Definition data_commitment_sort (x : DataCommitment) : DataCommitment :=
  mkDataCommitment (json_sort (dc_dataset_id x)) (json_sort (dc_dataset_version x))
    (json_sort (dc_dataset_hash x)) (json_sort (dc_provider_id x))
    (json_sort (dc_committed_at x)) (json_sort (dc_commitment_hash x))
    (json_sort (dc_provider_signature x)).
Definition timestamp_authority_sort (x : TimestampAuthority) : TimestampAuthority :=
  mkTimestampAuthority (json_sort (ts_tsa_token x)) (json_sort (ts_tsa_provider x))
    (json_sort (ts_tsa_hash_algorithm x)).
Definition immutable_anchor_sort (x : ImmutableAnchor) : ImmutableAnchor :=
  mkImmutableAnchor (json_sort (an_chain x)) (json_sort (an_tx_hash x))
    (json_sort (an_block_number x)) (json_sort (an_anchored_at x)).
Definition legal_sort (x : Legal) : Legal :=
  mkLegal (json_sort (le_jurisdictions x)) (json_sort (le_admissibility_standard x))
    (json_sort (le_compliance_flags x)) (timestamp_authority_sort <$> le_timestamp_authority x)
    (immutable_anchor_sort <$> le_immutable_anchor x).
Definition proof_graph_sort (x : ProofGraph) : ProofGraph :=
  mkProofGraph (json_sort (pg_depends_on x)) (json_sort (pg_produced_by x))
    (json_sort (pg_causal_depth x)) (json_sort (pg_graph_root_hash x))
    (json_sort (pg_privacy_tier x)).
Definition trust_context_sort (x : TrustContext) : TrustContext :=
  mkTrustContext (json_sort (tc_prover_id x)) (json_sort (tc_prover_version x))
    (json_sort (tc_trust_score_at_issuance x)) (json_sort (tc_circuit_certification_tier x))
    (json_sort (tc_anomaly_flags x)).
Definition bundle_sort (b : ProofBundle) : ProofBundle :=
  mkProofBundle (json_sort (pb_vrl_version b)) (json_sort (pb_bundle_id b))
    (json_sort (pb_issued_at b)) (ai_identity_sort (pb_ai_identity b))
    (computation_sort (pb_computation b)) (proof_sort (pb_proof b))
    (map data_commitment_sort <$> pb_data_commitments b) (legal_sort <$> pb_legal b)
    (proof_graph_sort <$> pb_proof_graph b) (trust_context_sort <$> pb_trust_context b).

(** [f] gives the same outcome on a document and on the document with its keys
    sorted, up to [g]. *)
Definition commutes {A} (f : json → result A) (g : A → A) : Prop :=
  ∀ j, json_wf j = true → f (json_sort j) = g <$> f j.

Lemma json_sort_obj d : json_sort (JObj d) = JObj (dict_sort d).
Proof. done. Qed.

Lemma is_valid_hex_hash_sort j : is_valid_hex_hash (json_sort j) = is_valid_hex_hash j.
Proof. by destruct j. Qed.
Lemma in_set_sort ks j : in_set ks (json_sort j) = in_set ks j.
Proof. by destruct j. Qed.
Lemma is_str_sort s j : is_str s (json_sort j) = is_str s j.
Proof. by destruct j. Qed.

(** A class reads a dictionary through [has_all] and [get] only. *)
Ltac commute_fields :=
  let d := fresh "d" in
  intros [|?|?|?|?|?|d] Hwf; try done; apply json_wf_obj in Hwf as [Hd _];
  rewrite json_sort_obj; cbn [as_dict mbind result_bind kwargs];
  rewrite ?has_all_sort, ?keys_exactly_sort, ?get_sort, ?is_valid_hex_hash_sort, ?in_set_sort
    by done;
  repeat case_match; try done; cbn [mbind result_bind]; rewrite ?get_sort by done; try done;
  repeat match goal with |- context [in_set ?ks ?j] => destruct (in_set ks j) as [[]|] end; done.

Lemma ai_identity_commutes : commutes ai_identity_from_dict ai_identity_sort.
Proof. unfold ai_identity_from_dict. commute_fields. Qed.
Lemma computation_commutes : commutes computation_from_dict computation_sort.
Proof. unfold computation_from_dict. commute_fields. Qed.
Lemma proof_commutes : commutes proof_from_dict proof_sort.
Proof. unfold proof_from_dict. commute_fields. Qed.
Lemma data_commitment_commutes : commutes data_commitment_from_dict data_commitment_sort.
Proof. unfold data_commitment_from_dict. commute_fields. Qed.
Lemma proof_graph_commutes : commutes proof_graph_from_dict proof_graph_sort.
Proof. unfold proof_graph_from_dict. commute_fields. Qed.
Lemma trust_context_commutes : commutes trust_context_from_dict trust_context_sort.
Proof. unfold trust_context_from_dict. commute_fields. Qed.
Lemma timestamp_authority_commutes :
  commutes timestamp_authority_from_dict timestamp_authority_sort.
Proof. unfold timestamp_authority_from_dict. commute_fields. Qed.
Lemma immutable_anchor_commutes : commutes immutable_anchor_from_dict immutable_anchor_sort.
Proof. unfold immutable_anchor_from_dict. commute_fields. Qed.

Lemma existsb_is_str_sort s l : existsb (is_str s) (map json_sort l) = existsb (is_str s) l.
Proof. induction l as [|x l IH]; [done|]. simpl. by rewrite IH, is_str_sort. Qed.

Lemma opt_section_commutes {A} k (f : json → result A) (g : A → A) j :
  commutes f g → json_wf j = true →
  opt_section k f (json_sort j) = fmap (M:=option) g <$> opt_section k f j.
Proof.
  intros Hf Hwf. destruct j as [|?|?|?|?|l|d]; try done.
  - unfold opt_section. simpl. by case_match.
  - unfold opt_section. simpl py_in. rewrite existsb_is_str_sort. cbn [mbind result_bind].
    by case_match.
  - rewrite json_sort_obj, !opt_section_obj. pose proof Hwf as [Hd Hv]%json_wf_obj.
    unfold dict_sort. rewrite dict_get_sort by done. destruct (dict_get k d) as [v|] eqn:E; [|done].
    simpl. rewrite truthy_sort. case_match; [|done].
    rewrite Hf by (eapply Hv; by apply dict_get_Some_elem). by destruct (f v).
Qed.

Lemma traverse_commutes {A} (f : json → result A) (g : A → A) l :
  commutes f g → forallb json_wf l = true →
  traverse f (map json_sort l) = map g <$> traverse f l.
Proof.
  intros Hf. induction l as [|x l IH]; simpl; [done|].
  rewrite andb_true_iff. intros [Hx Hl]. rewrite Hf, IH by done.
  destruct (f x); simpl; [|done]. by destruct (traverse f l).
Qed.

Lemma data_commitments_commutes :
  commutes data_commitments_from (map data_commitment_sort).
Proof.
  intros [|?|?|?|s|l|d] Hwf; try done; unfold data_commitments_from.
  - simpl. by destruct s.
  - simpl. by apply traverse_commutes, Hwf; apply data_commitment_commutes.
  - rewrite json_sort_obj. cbn [py_iter mbind result_bind].
    pose proof (dict_keys_sort d) as Hp.
    destruct (dict_keys (dict_sort d)); [apply Permutation_nil_l in Hp; by rewrite <-Hp|].
    destruct (dict_keys d); [by apply Permutation_nil_r in Hp|done].
Qed.

Lemma get_attr_commutes k : commutes (get_attr k) json_sort.
Proof.
  intros [|?|?|?|?|?|d] Hwf; try done. rewrite json_sort_obj. unfold get_attr. simpl.
  apply json_wf_obj in Hwf as [Hd _]. by rewrite get_sort.
Qed.

Lemma legal_commutes : commutes legal_from_dict legal_sort.
Proof.
  intros j Hwf. unfold legal_from_dict.
  rewrite (opt_section_commutes _ _ _ j timestamp_authority_commutes Hwf),
    (opt_section_commutes _ _ _ j immutable_anchor_commutes Hwf),
    !(get_attr_commutes _ j Hwf).
  destruct (opt_section "timestamp_authority" _ j); [simpl|done].
  destruct (opt_section "immutable_anchor" _ j); [simpl|done].
  destruct (get_attr "jurisdictions" j); [simpl|done].
  destruct (get_attr "admissibility_standard" j); [simpl|done].
  by destruct (get_attr "compliance_flags" j).
Qed.

Lemma bundle_commutes : commutes bundle_from_dict bundle_sort.
Proof.
  intros j Hwf. unfold bundle_from_dict.
  rewrite (opt_section_commutes _ _ _ j data_commitments_commutes Hwf),
    (opt_section_commutes _ _ _ j legal_commutes Hwf),
    (opt_section_commutes _ _ _ j proof_graph_commutes Hwf),
    (opt_section_commutes _ _ _ j trust_context_commutes Hwf).
  destruct j as [|?|?|?|?|?|d]; try done. pose proof Hwf as [Hd _]%json_wf_obj.
  rewrite json_sort_obj. cbn [as_dict mbind result_bind].
  rewrite has_all_sort, !get_sort, is_str_sort by done.
  rewrite ai_identity_commutes, computation_commutes, proof_commutes by by apply get_wf.
  destruct (negb (has_all pb_required d)); [done|].
  destruct (negb (is_str "1.0" (get "vrl_version" d))); [done|].
  destruct (ai_identity_from_dict _); [|done]. simpl.
  destruct (computation_from_dict _); [|done]. simpl.
  destruct (proof_from_dict _); [|done]. simpl.
  destruct (opt_section "data_commitments" _ _); [simpl|done].
  destruct (opt_section "legal" _ _); [simpl|done].
  destruct (opt_section "proof_graph" _ _); [simpl|done].
  by destruct (opt_section "trust_context" _ _).
Qed.

(** ** What [from_dict] validates *)

Lemma ai_identity_valid j x :
  ai_identity_from_dict j = Ok x →
  is_valid_hex_hash (ai_ai_id x) = true ∧ known valid_envs (ai_execution_environment x) = true.
Proof.
  unfold ai_identity_from_dict. intros H. res_cases;
    cbn [ai_ai_id ai_execution_environment].
  rewrite negb_false_iff in *. subst. split; [done|]. by apply known_in_set.
Qed.

Lemma proof_valid j x :
  proof_from_dict j = Ok x → known valid_systems (pr_proof_system x) = true.
Proof.
  unfold proof_from_dict. intros H. res_cases;
    cbn [pr_proof_system].
  rewrite negb_false_iff in *. subst. by apply known_in_set.
Qed.

Lemma traverse_nil {A B} (f : A → result B) l : traverse f l = Ok [] → l = [].
Proof. rewrite traverse_ok. by intros ?%Forall2_nil_inv_r. Qed.

Lemma opt_section_ok {A} k (f : json → result A) j x :
  opt_section k f j = Ok (Some x) → ∃ v, truthy v = true ∧ f v = Ok x.
Proof.
  unfold opt_section. intros H. res_cases; simplify_eq; eauto.
Qed.

Lemma data_commitments_nonempty j :
  opt_section "data_commitments" data_commitments_from j ≠ Ok (Some []).
Proof.
  intros (v & Hv & H)%opt_section_ok. unfold data_commitments_from in H.
  apply bind_ok in H as (l & Hl & ->%traverse_nil).
  destruct v as [|?|?|?|s|?|d]; simplify_eq/=; [by destruct s|].
  by destruct d.
Qed.

Lemma bundle_from_dict_valid j b :
  bundle_from_dict j = Ok b →
  is_str "1.0" (pb_vrl_version b) = true ∧
  is_valid_hex_hash (ai_ai_id (pb_ai_identity b)) = true ∧
  known valid_envs (ai_execution_environment (pb_ai_identity b)) = true ∧
  known valid_systems (pr_proof_system (pb_proof b)) = true ∧
  pb_data_commitments b ≠ Some [].
Proof.
  unfold bundle_from_dict. intros H. res_cases.
  cbn [pb_vrl_version pb_ai_identity pb_proof pb_data_commitments].
  rewrite negb_false_iff in *.
  split_and!; [done|by eapply ai_identity_valid|by eapply ai_identity_valid|
    by eapply proof_valid|].
  intros ->. by eapply data_commitments_nonempty.
Qed.
