(* ===== verification/TestBundles.v ===== *)
(** * The bundles of verifier/test_bundles

    [valid_trade.json], [valid_tee.json] and [tampered.json] as JSON values:
    the concrete inputs of the witnesses. *)
From S2P Require Export Bundle.

Definition dict_in (k : string) (f : json -> json) (j : json) : json :=
  match j with JObj d => JObj (dict_set k (f (get k d)) d) | _ => j end.

Definition valid_trade : json :=
  JObj [
    ("vrl_version", JStr "1.0");
    ("bundle_id", JStr "e2cad545-1910-5f44-a596-1ccd4591c538");
    ("issued_at", JStr "2026-04-04T12:00:00.000Z");
    ("ai_identity", JObj [
      ("ai_id", JStr "a3f2c1d4e5b6a7f8c9d0e1f2a3b4c5d6e7f8a9b0c1d2e3f4a5b6c7d8e9f0a1b2");
      ("model_name", JStr "vrl-deterministic-engine");
      ("model_version", JStr "1.0.0");
      ("provider_id", JStr "io.vrl");
      ("execution_environment", JStr "deterministic")]);
    ("computation", JObj [
      ("circuit_id", JStr "trade/import-landed-cost@2.0.0");
      ("circuit_version", JStr "2.0.0");
      ("circuit_hash", JStr "14414791513f16066b2288ac9053bba1f5de3f4a53f7cb59f1dd68c6ecba58ad");
      ("input_hash", JStr "ebf1f0aa67d10b8472fd7f1af22fc9370ecb813243f928b4f5528ab27457fea7");
      ("output_hash", JStr "0c866369e1ab87b0d0b624c0fdeb490aa05fa2524e9368a023308a1437ec5b5b");
      ("trace_hash", JStr "e14d0cb8d4a11cf1db1def3942fa7246b72cb6989463e8d379ade6e90a0405e6");
      ("integrity_hash", JStr "7b58cd2c0b85716175e90136d025d8d282abb1b56cb98ffaa33d4cbde3db70a1")]);
    ("proof", JObj [
      ("proof_system", JStr "sha256-deterministic");
      ("proof_bytes", JStr "0a1b2c3d4e5f6a7b8c9d0e1f2a3b4c5d6e7f8a9b0c1d2e3f4a5b6c7d8e9f0a");
      ("public_inputs", JList [JStr "1a2b3c4d5e6f7a8b9c0d1e2f3a4b5c6d7e8f9a0b1c2d3e4f5a6b7c8d9e0f1a2b";
        JStr "2b3c4d5e6f7a8b9c0d1e2f3a4b5c6d7e8f9a0b1c2d3e4f5a6b7c8d9e0f1a2b3c"]);
      ("verification_key_id", JStr "aadfa62983a64cb674b1b9b1c4379d8a01e02948fed731506de4bcf2950012a0");
      ("proof_hash", JStr "4f9d4ea2e0f7eeacf99207348e7e6f4f136ce0afac279f31085274cfa9eb7538")]);
    ("data_commitments", JList [JObj [
        ("dataset_id", JStr "cbp/hts-tariff-rules");
        ("dataset_version", JStr "2026.1.0");
        ("dataset_hash", JStr "d4e5f6a7b8c9d0e1f2a3b4c5d6e7f8a9b0c1d2e3f4a5b6c7d8e9f0a1b2c3d4");
        ("provider_id", JStr "gov.us.cbp");
        ("committed_at", JStr "2026-04-01T00:00:00.000Z");
        ("commitment_hash", JStr "ceeffe6774ca25b9f24b48a8a075c1c45944f2b4afa6751077ae402f79a6aff7")]]);
    ("legal", JObj [
      ("jurisdictions", JList [JStr "US"]);
      ("admissibility_standard", JStr "VRL_v1");
      ("compliance_flags", JList [JStr "CBP_ACE"])])].

Definition valid_tee : json :=
  JObj [
    ("vrl_version", JStr "1.0");
    ("bundle_id", JStr "af99a6af-f130-5bc9-9608-013a2e29c71e");
    ("issued_at", JStr "2026-04-04T14:30:00.000Z");
    ("ai_identity", JObj [
      ("ai_id", JStr "aaaaaaaaaaaaaaaaaaaaaaaaaaaaaaaaaaaaaaaaaaaaaaaaaaaaaaaaaaaaaaaa");
      ("model_name", JStr "llama-3-70b-instruct");
      ("model_version", JStr "1.0.0");
      ("provider_id", JStr "com.meta");
      ("execution_environment", JStr "tee");
      ("tee_attestation_report", JStr "base64encodedattestationreporthere==")]);
    ("computation", JObj [
      ("circuit_id", JStr "ai/inference-llama@3.0.0");
      ("circuit_version", JStr "3.0.0");
      ("circuit_hash", JStr "24a64b8533a2b529cd69c924e561329ce60e3af3c24c4f256fd06ae06e60841f");
      ("input_hash", JStr "bbbbbbbbbbbbbbbbbbbbbbbbbbbbbbbbbbbbbbbbbbbbbbbbbbbbbbbbbbbbbbbb");
      ("output_hash", JStr "cccccccccccccccccccccccccccccccccccccccccccccccccccccccccccccccc");
      ("trace_hash", JStr "dddddddddddddddddddddddddddddddddddddddddddddddddddddddddddddddd");
      ("integrity_hash", JStr "8ac657c0fcb8f95de25732d5ee9a3653543964f1e1ffd317cf7f4a8d7cf6699d")]);
    ("proof", JObj [
      ("proof_system", JStr "tee-intel-tdx");
      ("proof_bytes", JStr "1111111111111111111111111111111111111111111111111111111111111111");
      ("public_inputs", JList [JStr "3333333333333333333333333333333333333333333333333333333333333333"]);
      ("verification_key_id", JStr "4444444444444444444444444444444444444444444444444444444444444444");
      ("proof_hash", JStr "37bd3e4b6813c8fa286d82c8702bf4d84ca1e8aa275ee5d7cd7272147d64750b")])].

(** [tampered.json] differs from [valid_trade.json] in two fields. *)
Definition tampered : json :=
  dict_in "bundle_id" (fun _ => JStr "00000000-0000-0000-0000-000000000000")
    (dict_in "computation"
      (dict_in "integrity_hash" (fun _ => JStr
        "ffffffffffffffffffffffffffffffffffffffffffffffffffffffffffffffff")) valid_trade).

#[global] Instance AIIdentity_inhabited : Inhabited AIIdentity :=
  populate (mkAIIdentity inhabitant inhabitant inhabitant inhabitant inhabitant inhabitant
    inhabitant inhabitant).
#[global] Instance Computation_inhabited : Inhabited Computation :=
  populate (mkComputation inhabitant inhabitant inhabitant inhabitant inhabitant inhabitant
    inhabitant).
#[global] Instance Proof_inhabited : Inhabited Proof_ :=
  populate (mkProof inhabitant inhabitant inhabitant inhabitant inhabitant inhabitant).
#[global] Instance DataCommitment_inhabited : Inhabited DataCommitment :=
  populate (mkDataCommitment inhabitant inhabitant inhabitant inhabitant inhabitant inhabitant
    inhabitant).
#[global] Instance ProofBundle_inhabited : Inhabited ProofBundle :=
  populate (mkProofBundle inhabitant inhabitant inhabitant inhabitant inhabitant inhabitant
    None None None None).

(** The parsed bundles. *)
Definition valid_trade_bundle : ProofBundle := ok_default (bundle_from_dict valid_trade).
Definition valid_tee_bundle : ProofBundle := ok_default (bundle_from_dict valid_tee).
Definition tampered_bundle : ProofBundle := ok_default (bundle_from_dict tampered).

Example valid_trade_parses : bundle_from_dict valid_trade = Ok valid_trade_bundle.
Proof. reflexivity. Qed.
Example valid_tee_parses : bundle_from_dict valid_tee = Ok valid_tee_bundle.
Proof. reflexivity. Qed.
Example tampered_parses : bundle_from_dict tampered = Ok tampered_bundle.
Proof. reflexivity. Qed.

(** ** Properties of bundles *)

(** [to_dict] loses nothing: [from_dict] of the dictionary of a bundle is
    the bundle, for every bundle whose required fields are not null and whose
    optional sections are not empty. *)
Theorem bundle_dict_roundtrip b :
  bundle_ok b = true → bundle_from_dict (JObj (bundle_to_dict b)) = Ok b.
Proof. apply bundle_roundtrip. Qed.

Lemma bundle_dict_roundtrip_witness :
  bundle_from_dict (JObj (bundle_to_dict valid_trade_bundle)) = Ok valid_trade_bundle.
Proof. apply bundle_dict_roundtrip. vm_compute. reflexivity. Defined.

(** C29: [from_json(to_json(b))] is [b] with the keys of nested objects in
    order: canonical serialisation, the JSON parser and [from_dict] compose.
    This holds of the bundles that can survive it ([bundle_ok]): the version is
    1.0, no required field is null, the AI-ID is a hash, environment and proof
    system are known, and no list of commitments and no optional section is
    present but empty, for [to_dict] drops nulls and [from_dict] refuses or
    forgets the rest.  Its dictionary has to be JSON ([json_wf]): keys are
    distinct and floats are literals as the printer writes them. *)
Theorem bundle_json_roundtrip b :
  bundle_ok b = true → json_wf (JObj (bundle_to_dict b)) = true →
  bundle_from_json (bundle_to_json b) = Ok (bundle_sort b).
Proof.
  intros Hok Hwf. unfold bundle_from_json, bundle_to_json.
  by rewrite canonical_json_loads, bundle_commutes, bundle_roundtrip.
Qed.

Lemma bundle_json_roundtrip_witness :
  bundle_from_json (bundle_to_json valid_trade_bundle) = Ok (bundle_sort valid_trade_bundle).
Proof. apply bundle_json_roundtrip; vm_compute; reflexivity. Defined.

(** What [from_dict] validates.  A bundle it returns has version 1.0, an
    accepted AI-ID, a known execution environment and proof system, and never
    an empty list of commitments; parsing depends on the document only up to
    the order of its keys. *)
Theorem bundle_from_dict_validates j b :
  json_wf j = true → bundle_from_dict j = Ok b →
  is_str "1.0" (pb_vrl_version b) = true ∧
  is_valid_hex_hash (ai_ai_id (pb_ai_identity b)) = true ∧
  known valid_envs (ai_execution_environment (pb_ai_identity b)) = true ∧
  known valid_systems (pr_proof_system (pb_proof b)) = true ∧
  pb_data_commitments b ≠ Some [] ∧
  bundle_from_dict (json_sort j) = Ok (bundle_sort b).
Proof.
  intros Hwf Hj. rewrite bundle_commutes, Hj by done.
  apply bundle_from_dict_valid in Hj. tauto.
Qed.

Lemma bundle_from_dict_validates_witness :
  is_str "1.0" (pb_vrl_version valid_trade_bundle) = true ∧
  is_valid_hex_hash (ai_ai_id (pb_ai_identity valid_trade_bundle)) = true ∧
  known valid_envs (ai_execution_environment (pb_ai_identity valid_trade_bundle)) = true ∧
  known valid_systems (pr_proof_system (pb_proof valid_trade_bundle)) = true ∧
  pb_data_commitments valid_trade_bundle ≠ Some [] ∧
  bundle_from_dict (json_sort valid_trade) = Ok (bundle_sort valid_trade_bundle).
Proof. apply bundle_from_dict_validates; [vm_compute; reflexivity|reflexivity]. Defined.
