(* ===== verification/Builder.v ===== *)
(** * Builders (sdk/python/vrl/builder.py, AIIdentityBuilder of identity.py)

    The fluent builders are objects whose methods assign attributes of [self].
    The three builders of flat records are modelled by their attribute
    dictionary; [ProofBundleBuilder] by a record.  [None] is [JNull]. *)
From S2P Require Export TestBundles.

(** [any(x is None ...)] over attributes of [self]. *)
Definition missing (attrs : list string) (self : dict) : list string :=
  filter (fun a => is_null (get a self) = true) attrs.

(** ** AIIdentityBuilder *)

Definition ai_attrs : list string :=
  ["_ai_id"; "_model_name"; "_model_version"; "_provider_id"; "_execution_environment";
   "_provider_signature"; "_tee_attestation_report"; "_parent_ai_id"].

Definition ai_builder_init : dict := map (fun a => (a, JNull)) ai_attrs.

Definition ai_builder_compute_ai_id
    (model_weights_hash runtime_hash config_hash provider_id model_name model_version : json)
    (self : dict) : dict :=
  let ai_id := compute_ai_id model_weights_hash runtime_hash config_hash provider_id model_name
                 model_version in
  dict_set "_model_version" model_version
    (dict_set "_model_name" model_name
      (dict_set "_provider_id" provider_id
        (dict_set "_ai_id" (JStr ai_id) self))).

Definition ai_builder_set_ai_id (ai_id : json) (self : dict) : result dict :=
  if negb (is_valid_hex_hash ai_id) then raise ValueError "Invalid ai_id format: {}"
  else Ok (dict_set "_ai_id" ai_id self).

Definition ai_builder_set_model_name (x : json) : dict → dict := dict_set "_model_name" x.
Definition ai_builder_set_model_version (x : json) : dict → dict := dict_set "_model_version" x.
Definition ai_builder_set_provider_id (x : json) : dict → dict := dict_set "_provider_id" x.

Definition ai_builder_set_execution_environment (env : json) (self : dict) : result dict :=
  known ← in_set valid_envs env;
  if negb known then raise ValueError "Invalid execution_environment: {}"
  else Ok (dict_set "_execution_environment" env self).

Definition ai_builder_set_provider_signature (x : json) : dict → dict :=
  dict_set "_provider_signature" x.
Definition ai_builder_set_tee_attestation_report (x : json) : dict → dict :=
  dict_set "_tee_attestation_report" x.

Definition ai_builder_set_parent_ai_id (x : json) (self : dict) : result dict :=
  if negb (is_valid_hex_hash x) then raise ValueError "Invalid parent_ai_id format: {}"
  else Ok (dict_set "_parent_ai_id" x self).

Definition ai_builder_build (self : dict) : result AIIdentity :=
  match missing ["_ai_id"; "_model_name"; "_model_version"; "_provider_id";
                 "_execution_environment"] self with
  | [] => Ok (mkAIIdentity (get "_ai_id" self) (get "_model_name" self)
                (get "_model_version" self) (get "_provider_id" self)
                (get "_execution_environment" self) (get "_provider_signature" self)
                (get "_tee_attestation_report" self) (get "_parent_ai_id" self))
  | _ => raise ValueError "Missing required fields for AIIdentity"
  end.

(** ** ComputationBuilder *)

Definition co_attrs : list string :=
  ["_circuit_id"; "_circuit_version"; "_circuit_hash"; "_input_hash"; "_output_hash";
   "_trace_hash"; "_integrity_hash"].

Definition co_builder_init : dict := map (fun a => (a, JNull)) co_attrs.
Definition co_builder_set_circuit_id (x : json) : dict → dict := dict_set "_circuit_id" x.
Definition co_builder_set_circuit_version (x : json) : dict → dict :=
  dict_set "_circuit_version" x.
Definition co_builder_set_circuit_hash (x : json) : dict → dict := dict_set "_circuit_hash" x.
Definition co_builder_set_input_hash (x : json) : dict → dict := dict_set "_input_hash" x.
Definition co_builder_set_output_hash (x : json) : dict → dict := dict_set "_output_hash" x.
Definition co_builder_set_trace_hash (x : json) : dict → dict := dict_set "_trace_hash" x.
Definition co_builder_set_integrity_hash (x : json) : dict → dict :=
  dict_set "_integrity_hash" x.

Definition co_builder_compute_integrity_hash (self : dict) : result dict :=
  match missing ["_input_hash"; "_output_hash"; "_trace_hash"] self with
  | [] =>
      h ← compute_integrity_hash (get "_input_hash" self) (get "_output_hash" self)
            (get "_trace_hash" self);
      Ok (dict_set "_integrity_hash" (JStr h) self)
  | _ => raise ValueError "Must set input_hash, output_hash, and trace_hash first"
  end.

Definition co_builder_build (self : dict) : result Computation :=
  match missing co_attrs self with
  | [] => Ok (mkComputation (get "_circuit_id" self) (get "_circuit_version" self)
                (get "_circuit_hash" self) (get "_input_hash" self) (get "_output_hash" self)
                (get "_trace_hash" self) (get "_integrity_hash" self))
  | _ => raise ValueError "Missing required computation fields: {}"
  end.

(** ** ProofBuilder *)

Definition pr_attrs : list string :=
  ["_proof_system"; "_proof_bytes"; "_public_inputs"; "_verification_key_id"; "_proof_hash"].

Definition pr_builder_init : dict := map (fun a => (a, JNull)) (pr_attrs ++ ["_commitments"]).
Definition pr_builder_set_proof_system (x : json) : dict → dict := dict_set "_proof_system" x.
Definition pr_builder_set_proof_bytes (x : json) : dict → dict := dict_set "_proof_bytes" x.
Definition pr_builder_set_public_inputs (x : json) : dict → dict := dict_set "_public_inputs" x.
Definition pr_builder_set_verification_key_id (x : json) : dict → dict :=
  dict_set "_verification_key_id" x.
Definition pr_builder_set_proof_hash (x : json) : dict → dict := dict_set "_proof_hash" x.
Definition pr_builder_set_commitments (x : json) : dict → dict := dict_set "_commitments" x.

Definition pr_builder_build (self : dict) : result Proof_ :=
  match missing pr_attrs self with
  | [] => Ok (mkProof (get "_proof_system" self) (get "_proof_bytes" self)
                (get "_public_inputs" self) (get "_verification_key_id" self)
                (get "_proof_hash" self) (get "_commitments" self))
  | _ => raise ValueError "Missing required proof fields: {}"
  end.

(** ** ProofBundleBuilder *)

Record ProofBundleBuilder := mkProofBundleBuilder {
  bb_vrl_version : json; bb_bundle_id : json; bb_issued_at : json;
  bb_ai_identity : option AIIdentity; bb_computation : option Computation;
  bb_proof : option Proof_; bb_data_commitments : list DataCommitment;
  bb_legal : option Legal; bb_proof_graph : option ProofGraph;
  bb_trust_context : option TrustContext }.

Definition bundle_builder_init : ProofBundleBuilder :=
  mkProofBundleBuilder (JStr "1.0") JNull JNull None None None [] None None None.

Definition set_vrl_version (x : json) (s : ProofBundleBuilder) : ProofBundleBuilder :=
  let 'mkProofBundleBuilder _ i t a c p d l g u := s in mkProofBundleBuilder x i t a c p d l g u.
Definition set_bundle_id (x : json) (s : ProofBundleBuilder) : ProofBundleBuilder :=
  let 'mkProofBundleBuilder v _ t a c p d l g u := s in mkProofBundleBuilder v x t a c p d l g u.
Definition set_issued_at (x : json) (s : ProofBundleBuilder) : ProofBundleBuilder :=
  let 'mkProofBundleBuilder v i _ a c p d l g u := s in mkProofBundleBuilder v i x a c p d l g u.
Definition set_ai_identity (x : AIIdentity) (s : ProofBundleBuilder) : ProofBundleBuilder :=
  let 'mkProofBundleBuilder v i t _ c p d l g u := s in
  mkProofBundleBuilder v i t (Some x) c p d l g u.
Definition set_computation (x : Computation) (s : ProofBundleBuilder) : ProofBundleBuilder :=
  let 'mkProofBundleBuilder v i t a _ p d l g u := s in
  mkProofBundleBuilder v i t a (Some x) p d l g u.
Definition set_proof (x : Proof_) (s : ProofBundleBuilder) : ProofBundleBuilder :=
  let 'mkProofBundleBuilder v i t a c _ d l g u := s in
  mkProofBundleBuilder v i t a c (Some x) d l g u.
Definition add_data_commitment (x : DataCommitment) (s : ProofBundleBuilder)
    : ProofBundleBuilder :=
  let 'mkProofBundleBuilder v i t a c p d l g u := s in
  mkProofBundleBuilder v i t a c p (d ++ [x]) l g u.
Definition set_legal (x : Legal) (s : ProofBundleBuilder) : ProofBundleBuilder :=
  let 'mkProofBundleBuilder v i t a c p d _ g u := s in
  mkProofBundleBuilder v i t a c p d (Some x) g u.
Definition set_proof_graph (x : ProofGraph) (s : ProofBundleBuilder) : ProofBundleBuilder :=
  let 'mkProofBundleBuilder v i t a c p d l _ u := s in
  mkProofBundleBuilder v i t a c p d l (Some x) u.
Definition set_trust_context (x : TrustContext) (s : ProofBundleBuilder) : ProofBundleBuilder :=
  let 'mkProofBundleBuilder v i t a c p d l g _ := s in
  mkProofBundleBuilder v i t a c p d l g (Some x).

Definition set_ai_identity_from_dict (data : json) (s : ProofBundleBuilder)
    : result ProofBundleBuilder :=
  x ← ai_identity_from_dict data; Ok (set_ai_identity x s).
Definition set_computation_from_dict (data : json) (s : ProofBundleBuilder)
    : result ProofBundleBuilder :=
  x ← computation_from_dict data; Ok (set_computation x s).
Definition set_proof_from_dict (data : json) (s : ProofBundleBuilder)
    : result ProofBundleBuilder :=
  x ← proof_from_dict data; Ok (set_proof x s).
Definition add_data_commitment_from_dict (data : json) (s : ProofBundleBuilder)
    : result ProofBundleBuilder :=
  x ← data_commitment_from_dict data; Ok (add_data_commitment x s).
Definition set_legal_from_dict (data : json) (s : ProofBundleBuilder)
    : result ProofBundleBuilder :=
  x ← legal_from_dict data; Ok (set_legal x s).
Definition set_proof_graph_from_dict (data : json) (s : ProofBundleBuilder)
    : result ProofBundleBuilder :=
  x ← proof_graph_from_dict data; Ok (set_proof_graph x s).
Definition set_trust_context_from_dict (data : json) (s : ProofBundleBuilder)
    : result ProofBundleBuilder :=
  x ← trust_context_from_dict data; Ok (set_trust_context x s).

(** [set_issued_at_now]: [now] is the text of
    [datetime.now(timezone.utc).isoformat(timespec='milliseconds')]. *)
Definition set_issued_at_now (now : string) (s : ProofBundleBuilder) : ProofBundleBuilder :=
  set_issued_at (JStr (str_replace "+00:00" "Z" now)) s.

(** [build]: the bundle, and the builder after the call, which keeps the
    [issued_at] and the [bundle_id] it filled in. *)
Definition bundle_builder_build (now : string) (s : ProofBundleBuilder)
    : result (ProofBundle * ProofBundleBuilder) :=
  match bb_ai_identity s, bb_computation s, bb_proof s with
  | None, _, _ => raise ValueError "ai_identity is required"
  | _, None, _ => raise ValueError "computation is required"
  | _, _, None => raise ValueError "proof is required"
  | Some ai, Some co, Some pr =>
      let s := if is_null (bb_issued_at s) then set_issued_at_now now s else s in
      s ← (if is_null (bb_bundle_id s)
           then i ← compute_bundle_id_from_integrity (co_integrity_hash co);
                Ok (set_bundle_id (JStr i) s)
           else Ok s);
      Ok (mkProofBundle (bb_vrl_version s) (bb_bundle_id s) (bb_issued_at s) ai co pr
            (match bb_data_commitments s with [] => None | cs => Some cs end)
            (bb_legal s) (bb_proof_graph s) (bb_trust_context s), s)
  end.

(** ** The list of commitments is shared

    [build] passes [self._data_commitments] to the bundle, not a copy: the
    bundle and the builder hold the same list object, and [add_data_commitment]
    on the builder changes a bundle it built before.  A bundle built from an
    empty list holds [None] instead and is not affected. *)
Record builder_session := mkSession {
  se_builder : ProofBundleBuilder;
  se_bundles : list ProofBundle;  (** in the order they were built *)
}.

(** A bundle holds the builder's list when it was built with commitments. *)
Definition view (s : ProofBundleBuilder) (b : ProofBundle) : ProofBundle :=
  let 'mkProofBundle v i t a c p d l g u := b in
  mkProofBundle v i t a c p
    (match d with Some _ => Some (bb_data_commitments s) | None => None end) l g u.

Definition session_bundles (s : builder_session) : list ProofBundle :=
  map (view (se_builder s)) (se_bundles s).

Definition session_build (now : string) (s : builder_session) : result builder_session :=
  '(b, s') ← bundle_builder_build now (se_builder s);
  Ok (mkSession s' (se_bundles s ++ [b])).

Definition session_add (c : DataCommitment) (s : builder_session) : builder_session :=
  mkSession (add_data_commitment c (se_builder s)) (se_bundles s).
