(* ===== verification/Steps.v ===== *)
(** * Verification steps

    What the two verifiers have in common: the status codes, messages, and the
    scheme of [verify], a chain of steps that stops at the first failure.  A
    step maps the result so far to its outcome and the new result, and may
    raise.  The scheme is generic in the type of results, of which it needs the
    status and the error codes. *)
From S2P Require Export Bundle.

Inductive VerificationStatus :=
  | VALID | VALID_PARTIAL | SCHEMA_INVALID | BUNDLE_ID_MISMATCH | INTEGRITY_MISMATCH
  | CIRCUIT_HASH_MISMATCH | PROOF_INVALID | TEE_ATTESTATION_INVALID | RECOMPUTATION_MISMATCH
  | HASH_BINDING_INVALID | AI_ID_INVALID | DATA_COMMITMENT_INVALID | TIMESTAMP_INVALID
  | GRAPH_EDGE_INVALID | UNSUPPORTED_VERSION.

#[global] Instance VerificationStatus_eq_dec : EqDecision VerificationStatus.
Proof. solve_decision. Defined.

(** [VerificationStatus.X.value] *)
Definition status_value (s : VerificationStatus) : string :=
  match s with
  | VALID => "VALID" | VALID_PARTIAL => "VALID_PARTIAL" | SCHEMA_INVALID => "SCHEMA_INVALID"
  | BUNDLE_ID_MISMATCH => "BUNDLE_ID_MISMATCH" | INTEGRITY_MISMATCH => "INTEGRITY_MISMATCH"
  | CIRCUIT_HASH_MISMATCH => "CIRCUIT_HASH_MISMATCH" | PROOF_INVALID => "PROOF_INVALID"
  | TEE_ATTESTATION_INVALID => "TEE_ATTESTATION_INVALID"
  | RECOMPUTATION_MISMATCH => "RECOMPUTATION_MISMATCH"
  | HASH_BINDING_INVALID => "HASH_BINDING_INVALID" | AI_ID_INVALID => "AI_ID_INVALID"
  | DATA_COMMITMENT_INVALID => "DATA_COMMITMENT_INVALID"
  | TIMESTAMP_INVALID => "TIMESTAMP_INVALID" | GRAPH_EDGE_INVALID => "GRAPH_EDGE_INVALID"
  | UNSUPPORTED_VERSION => "UNSUPPORTED_VERSION"
  end.

(** A fragment of a message. *)
Inductive frag := FText (s : string) | FVal (j : json).

(** [if not step(bundle, result): return result] *)
Definition guard {R} (step : result (bool * R)) (k : R → result R) : result R :=
  match step with Ok (true, r) => k r | Ok (false, r) => Ok r | Raise e => Raise e end.

(** Checks in order, each with the code it fails with: the code of the first
    that fails. *)
Fixpoint first_failure (cs : list (result bool * VerificationStatus))
    : result (option VerificationStatus) :=
  match cs with
  | [] => Ok None
  | (c, code) :: cs => ok ← c; if negb ok then Ok (Some code) else first_failure cs
  end.

(** The contract of a verifier: the checks of [cs] up to the first failure,
    then [v]. *)
Definition outcome_t : Type := VerificationStatus * list VerificationStatus.

Definition run_checks (cs : list (result bool * VerificationStatus)) (v : result outcome_t)
    : result outcome_t :=
  failure ← first_failure cs;
  match failure with Some code => Ok (code, [code]) | None => v end.

Lemma run_checks_cons c code cs v :
  run_checks ((c, code) :: cs) v =
  (ok ← c; if negb ok then Ok (code, [code]) else run_checks cs v).
Proof. unfold run_checks. simpl. by destruct c as [[]|]. Qed.

Lemma check_true {A} (x v : result A) : (ok ← Ok true; if negb ok then x else v) = v.
Proof. done. Qed.

Lemma first_failure_none cs :
  first_failure cs = Ok None ↔ Forall (λ c, c.1 = Ok true) cs.
Proof.
  induction cs as [|[c code] cs IH]; simpl; [done|]. rewrite Forall_cons, <-IH. simpl.
  destruct c as [[]|]; simpl; naive_solver.
Qed.

Lemma first_failure_code cs code : first_failure cs = Ok (Some code) → code ∈ cs.*2.
Proof.
  induction cs as [|[c k] cs IH]; simpl; [done|].
  destruct c as [[]|]; simpl; [|set_solver..]. intros H'. apply IH in H'. set_solver.
Qed.

Section steps.
Context {R : Type} (outcome : R → outcome_t).

(** A step that logs, and fails with [code] exactly when the check fails. *)
Definition step_implements (step : R → result (bool * R)) (check : result bool)
    (code : VerificationStatus) : Prop :=
  ∀ r, match check with
       | Raise e => step r = Raise e
       | Ok true => ∃ r', step r = Ok (true, r') ∧ outcome r' = outcome r
       | Ok false => ∃ r', step r = Ok (false, r') ∧
                           outcome r' = (code, (outcome r).2 ++ [code])
       end.

Lemma guard_implements step check code k r v :
  step_implements step check code → outcome r = (VALID, []) →
  (∀ r', outcome r' = (VALID, []) → outcome <$> k r' = v) →
  outcome <$> guard (step r) k = (ok ← check; if negb ok then Ok (code, [code]) else v).
Proof using.
  intros Hstep Hr Hk. specialize (Hstep r). destruct check as [[]|e]; simpl.
  - destruct Hstep as (r' & -> & Hr'). apply Hk; congruence.
  - destruct Hstep as (r' & -> & Hr'). simpl. by rewrite Hr', Hr.
  - by rewrite Hstep.
Qed.

Lemma guard_skip step code k r v :
  step_implements step (Ok true) code → outcome r = (VALID, []) →
  (∀ r', outcome r' = (VALID, []) → outcome <$> k r' = v) →
  outcome <$> guard (step r) k = v.
Proof using. apply guard_implements. Qed.

Lemma guard_stop step code k r :
  step_implements step (Ok false) code → outcome r = (VALID, []) →
  outcome <$> guard (step r) k = Ok (code, [code]).
Proof using.
  intros Hs Hr. specialize (Hs r) as (r' & -> & Hr'). simpl. by rewrite Hr', Hr.
Qed.
End steps.

Lemma find_forallb {A} (f g : A → bool) l :
  (∀ x, g x = negb (f x)) → forallb f l = match find g l with None => true | Some _ => false end.
Proof.
  intros E. induction l as [|x l IH]; simpl; [done|]. rewrite E. by destruct (f x).
Qed.
