(* ===== verification/SdkVerifier.v ===== *)
(** * The SDK verifier (sdk/python/vrl/verifier.py)

    [Verifier.verify] runs ten steps over a parsed bundle; each step appends a
    detail to the result, and a failing one its error code.  A step is a
    function from the result so far to the outcome of the step and the new
    result; it can raise.  A message is a list of fragments: literal text, and
    the interpolated value where an f-string has a hole. *)
From S2P Require Export Builder Steps.

Record VerificationDetail := mkDetail {
  vd_step : list frag; vd_pass : bool; vd_message : list frag;
  vd_error_code : option VerificationStatus }.

Record VerificationResult := mkResult {
  vr_status : VerificationStatus; vr_bundle_id : json;
  vr_details : list VerificationDetail; vr_errors : list VerificationStatus }.

(** [is_valid] *)
Definition is_valid (r : VerificationResult) : bool :=
  match vr_status r with VALID | VALID_PARTIAL => true | _ => false end.

Definition set_status (s : VerificationStatus) (r : VerificationResult) : VerificationResult :=
  mkResult s (vr_bundle_id r) (vr_details r) (vr_errors r).

(** [result.details.append(detail)] for a PASS detail. *)
Definition pass_detail (step : string) (msg : list frag) (r : VerificationResult)
    : VerificationResult :=
  mkResult (vr_status r) (vr_bundle_id r)
    (vr_details r ++ [mkDetail [FText step] true msg None]) (vr_errors r).

(** ... for a FAIL detail, with [result.errors.append(code)]. *)
Definition fail_detail (step : list frag) (msg : list frag) (code : VerificationStatus)
    (r : VerificationResult) : VerificationResult :=
  mkResult (vr_status r) (vr_bundle_id r)
    (vr_details r ++ [mkDetail step false msg (Some code)]) (vr_errors r ++ [code]).

(** ... and [result.status = code; return False]. *)
Definition fail (step : list frag) (msg : list frag) (code : VerificationStatus)
    (r : VerificationResult) : result (bool * VerificationResult) :=
  Ok (false, set_status code (fail_detail step msg code r)).

Definition pass (step : string) (msg : list frag) (r : VerificationResult)
    : result (bool * VerificationResult) :=
  Ok (true, pass_detail step msg r).

(** ** The circuit registry

    [Verifier] takes any object with a [resolve_circuit] method; the mock of
    the module is the default. *)
Class CircuitRegistry := {
  resolve_circuit : json → json → option dict }.

Definition compute_mock_circuit_hash (circuit_id circuit_version : json) : string :=
  sha256 (canonical_json (JObj [
    ("circuit_id", circuit_id);
    ("circuit_version", circuit_version);
    ("spec_version", JStr "vrl/circuit/1.0")])).

Definition mock_resolve_circuit (circuit_id circuit_version : json) : option dict :=
  Some [("circuit_id", circuit_id); ("circuit_version", circuit_version);
        ("circuit_hash", JStr (compute_mock_circuit_hash circuit_id circuit_version))].

Definition mock_registry : CircuitRegistry := {| resolve_circuit := mock_resolve_circuit |}.

(** ** Steps *)

Section verifier.
Context `{CircuitRegistry}.
Implicit Types (bundle : ProofBundle) (r : VerificationResult).

Definition step1_version_check bundle r : result (bool * VerificationResult) :=
  let v := pb_vrl_version bundle in
  if negb (is_str "1.0" v)
  then fail [FText "Version Check"] [FText "Unsupported vrl_version: "; FVal v]
         UNSUPPORTED_VERSION r
  else pass "Version Check" [FText "vrl_version "; FVal v; FText " is supported"] r.

(** [ai_identity], [computation] and [proof] are dataclass instances and
    never [None]. *)
Definition required_checks bundle : list (string * json) :=
  [("bundle_id", pb_bundle_id bundle); ("issued_at", pb_issued_at bundle)].

Definition hash_fields bundle : list (string * json) :=
  let co := pb_computation bundle in
  [("circuit_hash", co_circuit_hash co); ("input_hash", co_input_hash co);
   ("output_hash", co_output_hash co); ("trace_hash", co_trace_hash co);
   ("integrity_hash", co_integrity_hash co); ("proof_hash", pr_proof_hash (pb_proof bundle))].

Definition step2_schema_validation bundle r : result (bool * VerificationResult) :=
  let step := "Schema Validation" in
  match find (fun f => is_null f.2) (required_checks bundle) with
  | Some (name, _) =>
      fail [FText step] [FText "Required field missing: "; FText name] SCHEMA_INVALID r
  | None =>
      let ai_id := ai_ai_id (pb_ai_identity bundle) in
      if negb (is_valid_hex_hash ai_id)
      then fail [FText step] [FText "Invalid ai_id format: "; FVal ai_id] SCHEMA_INVALID r
      else
      match find (fun f => negb (is_valid_hex_hash f.2)) (hash_fields bundle) with
      | Some (name, value) =>
          fail [FText step] [FText "Invalid "; FText name; FText " format: "; FVal value]
            SCHEMA_INVALID r
      | None => pass step [FText "All required fields present and valid"] r
      end
  end.

Definition step3_bundle_id_check bundle r : result (bool * VerificationResult) :=
  let step := "bundle_id Recomputation" in
  recomputed ← compute_bundle_id_from_integrity (co_integrity_hash (pb_computation bundle));
  if negb (is_str recomputed (pb_bundle_id bundle))
  then fail [FText step] [FText "bundle_id mismatch: expected "; FText recomputed;
                          FText ", got "; FVal (pb_bundle_id bundle)] BUNDLE_ID_MISMATCH r
  else pass step [FText "bundle_id "; FVal (pb_bundle_id bundle); FText " is valid"] r.

Definition step4_integrity_hash_check bundle r : result (bool * VerificationResult) :=
  let step := "Integrity Hash Recomputation" in
  let co := pb_computation bundle in
  recomputed ← compute_integrity_hash (co_input_hash co) (co_output_hash co) (co_trace_hash co);
  if negb (is_str recomputed (co_integrity_hash co))
  then fail [FText step] [FText "integrity_hash mismatch: expected "; FText recomputed;
                          FText ", got "; FVal (co_integrity_hash co)] INTEGRITY_MISMATCH r
  else pass step [FText "integrity_hash "; FVal (co_integrity_hash co); FText " is valid"] r.

(** [x != y] for a value read from the registry's answer. *)
Definition step5_circuit_resolution bundle r : result (bool * VerificationResult) :=
  let step := "Circuit Resolution" in
  let co := pb_computation bundle in
  match resolve_circuit (co_circuit_id co) (co_circuit_version co) with
  | None =>
      fail [FText step] [FText "Circuit not found: "; FVal (co_circuit_id co); FText "@";
                         FVal (co_circuit_version co)] CIRCUIT_HASH_MISMATCH r
  | Some circuit =>
      h ← py_index "circuit_hash" (JObj circuit);
      if negb (same_json h (co_circuit_hash co))
      then fail [FText step] [FText "circuit_hash mismatch: expected "; FVal h;
                              FText ", got "; FVal (co_circuit_hash co)]
             CIRCUIT_HASH_MISMATCH r
      else pass step [FText "Circuit "; FVal (co_circuit_id co);
                      FText " verified with matching hash"] r
  end.

Definition step6_proof_structure_validation bundle r : result (bool * VerificationResult) :=
  let step := "Proof Structure Validation" in
  let proof := pb_proof bundle in
  let co := pb_computation bundle in
  known ← in_set valid_systems (pr_proof_system proof);
  if negb known
  then fail [FText step] [FText "Invalid proof_system: "; FVal (pr_proof_system proof)]
         PROOF_INVALID r
  else
  let recomputed := compute_proof_hash (co_circuit_hash co) (pr_proof_bytes proof)
                      (pr_public_inputs proof) (pr_proof_system proof) (co_trace_hash co) in
  if negb (is_str recomputed (pr_proof_hash proof))
  then fail [FText step] [FText "proof_hash mismatch: expected "; FText recomputed;
                          FText ", got "; FVal (pr_proof_hash proof)] PROOF_INVALID r
  else pass step [FText "Proof structure valid for "; FVal (pr_proof_system proof)] r.

Definition step7_ai_id_verification bundle r : result (bool * VerificationResult) :=
  let step := "AI-ID Verification" in
  let ai := pb_ai_identity bundle in
  if negb (truthy (ai_provider_signature ai))
  then pass step [FText "No provider_signature; AI-ID is advisory only"] r
  else if negb (is_valid_hex_hash (ai_ai_id ai))
  then fail [FText step] [FText "Invalid ai_id format: "; FVal (ai_ai_id ai)] AI_ID_INVALID r
  else pass step [FText "AI-ID "; FVal (ai_ai_id ai);
                  FText " is valid (provider_signature present but not verified)"] r.

Definition commitment_matches (c : DataCommitment) : bool :=
  is_str (compute_commitment_hash (dc_dataset_id c) (dc_dataset_version c) (dc_dataset_hash c)
            (dc_provider_id c) (dc_committed_at c)) (dc_commitment_hash c).

(** [enumerate(commitments)]: the first that does not match, with its index. *)
Fixpoint first_bad_commitment (i : Z) (cs : list DataCommitment)
    : option (Z * DataCommitment) :=
  match cs with
  | [] => None
  | c :: cs => if commitment_matches c then first_bad_commitment (i + 1) cs else Some (i, c)
  end.

Definition step8_data_commitment_verification bundle r
    : result (bool * VerificationResult) :=
  let step := "Data Commitment Verification" in
  match pb_data_commitments bundle with
  | None | Some [] => pass step [FText "No data commitments"] r
  | Some cs =>
      match first_bad_commitment 0 cs with
      | Some (i, c) =>
          fail [FText step; FText " ["; FVal (JInt i); FText "]"]
            [FText "commitment_hash mismatch for "; FVal (dc_dataset_id c)]
            DATA_COMMITMENT_INVALID r
      | None => pass step [FText "All "; FVal (JInt (Z.of_nat (length cs)));
                           FText " data commitments verified"] r
      end
  end.

(** [bundle.legal and bundle.legal.timestamp_authority] *)
Definition timestamp_of bundle : option TimestampAuthority :=
  match pb_legal bundle with Some l => le_timestamp_authority l | None => None end.

Definition step9_timestamp_verification bundle r : result (bool * VerificationResult) :=
  let step := "Timestamp Verification" in
  match timestamp_of bundle with
  | None => Ok (true, r)
  | Some tsa =>
      if negb (truthy (ts_tsa_token tsa)) || negb (truthy (ts_tsa_provider tsa)) ||
         negb (truthy (ts_tsa_hash_algorithm tsa))
      then Ok (false, fail_detail [FText step] [FText "Incomplete timestamp_authority block"]
                        TIMESTAMP_INVALID r)
      else pass step [FText "Timestamp token from "; FVal (ts_tsa_provider tsa);
                      FText " (RFC 3161 verification skipped)"] r
  end.

(** [bundle.proof_graph and bundle.proof_graph.depends_on] *)
Definition depends_of bundle : json :=
  match pb_proof_graph bundle with Some g => pg_depends_on g | None => JNull end.

(** [uuid.UUID(x)]: [Ok false] where it raises [ValueError]. *)
Definition uuid_check (x : json) : result bool :=
  match x with
  | JStr s => Ok (match uuid_of_string s with Some _ => true | None => false end)
  | JNull => raise TypeError "one of the hex, bytes, ... arguments must be given"
  | _ => raise AttributeError "object has no attribute 'replace'"
  end.

(** The first id that is not a UUID; an id that is not a string raises. *)
Fixpoint first_bad_edge (ids : list json) : result (option json) :=
  match ids with
  | [] => Ok None
  | x :: ids => ok ← uuid_check x; if negb ok then Ok (Some x) else first_bad_edge ids
  end.

Definition step10_proof_graph_verification bundle r : result (bool * VerificationResult) :=
  let step := "Proof Graph Verification" in
  if negb (truthy (depends_of bundle)) then Ok (true, r) else
  ids ← py_iter (depends_of bundle);
  bad ← first_bad_edge ids;
  match bad with
  | Some x => Ok (false, fail_detail [FText step]
                           [FText "Invalid bundle_id in depends_on: "; FVal x]
                           GRAPH_EDGE_INVALID r)
  | None => pass step [FText "Proof graph edges valid (recursive verification skipped)"] r
  end.

(** [if condition: if not step(bundle, result): result.status = VALID_PARTIAL] *)
Definition optional (condition : bool) (step : result (bool * VerificationResult))
    (r : VerificationResult) : result VerificationResult :=
  if condition
  then match step with
       | Ok (true, r) => Ok r
       | Ok (false, r) => Ok (set_status VALID_PARTIAL r)
       | Raise e => Raise e
       end
  else Ok r.

Definition verify bundle : result VerificationResult :=
  let r := mkResult VALID (pb_bundle_id bundle) [] [] in
  guard (step1_version_check bundle r) (fun r =>
  guard (step2_schema_validation bundle r) (fun r =>
  guard (step3_bundle_id_check bundle r) (fun r =>
  guard (step4_integrity_hash_check bundle r) (fun r =>
  guard (step5_circuit_resolution bundle r) (fun r =>
  guard (step6_proof_structure_validation bundle r) (fun r =>
  guard (step7_ai_id_verification bundle r) (fun r =>
  guard (step8_data_commitment_verification bundle r) (fun r =>
  r ← optional (match timestamp_of bundle with Some _ => true | None => false end)
        (step9_timestamp_verification bundle r) r;
  optional (truthy (depends_of bundle)) (step10_proof_graph_verification bundle r) r)))))))).
End verifier.

(** [VerificationResult.to_dict] *)
Definition detail_to_dict (d : VerificationDetail)
    : list frag * string * list frag * option string :=
  (vd_step d, (if vd_pass d then "PASS" else "FAIL"), vd_message d,
   status_value <$> vd_error_code d).

Definition result_to_dict (r : VerificationResult) :=
  (status_value (vr_status r), vr_bundle_id r, is_valid r,
   map status_value (vr_errors r), map detail_to_dict (vr_details r)).

(** The outcomes on the bundles of the repository. *)
Definition status_of (r : result VerificationResult) : result VerificationStatus :=
  vr_status <$> r.

Example verify_valid_trade : status_of (@verify mock_registry valid_trade_bundle) = Ok VALID.
Proof. vm_compute. reflexivity. Qed.
Example verify_valid_tee : status_of (@verify mock_registry valid_tee_bundle) = Ok VALID.
Proof. vm_compute. reflexivity. Qed.
Example verify_tampered :
  status_of (@verify mock_registry tampered_bundle) = Ok BUNDLE_ID_MISMATCH.
Proof. vm_compute. reflexivity. Qed.
