(* ===== verification/VerifierSpec.v ===== *)
(** * What the SDK verifier promises

    The contract of [verify] without its log: an ordered list of checks, each
    with the status it fails with, run until the first failure; then the
    optional checks, which only degrade the status.  [verify] refines it.  A
    declarative description of VALID bundles, what the hashes of a VALID bundle
    bind, and bundles made by the builders. *)
From S2P Require Export SdkVerifier.

Section spec.
Context `{CircuitRegistry}.
Implicit Types (b : ProofBundle) (r : VerificationResult).

(** ** Checks *)

Definition schema_ok b : bool :=
  forallb (fun f => negb (is_null f.2)) (required_checks b) &&
  is_valid_hex_hash (ai_ai_id (pb_ai_identity b)) &&
  forallb (fun f => is_valid_hex_hash f.2) (hash_fields b).

Definition bundle_id_ok b : result bool :=
  i ← compute_bundle_id_from_integrity (co_integrity_hash (pb_computation b));
  Ok (is_str i (pb_bundle_id b)).

Definition integrity_ok (co : Computation) : result bool :=
  h ← compute_integrity_hash (co_input_hash co) (co_output_hash co) (co_trace_hash co);
  Ok (is_str h (co_integrity_hash co)).

Definition circuit_ok (co : Computation) : result bool :=
  match resolve_circuit (co_circuit_id co) (co_circuit_version co) with
  | None => Ok false
  | Some circuit => h ← py_index "circuit_hash" (JObj circuit);
                    Ok (same_json h (co_circuit_hash co))
  end.

Definition recomputed_proof_hash b : string :=
  let p := pb_proof b in let co := pb_computation b in
  compute_proof_hash (co_circuit_hash co) (pr_proof_bytes p) (pr_public_inputs p)
    (pr_proof_system p) (co_trace_hash co).

Definition proof_check b : result bool :=
  known ← in_set valid_systems (pr_proof_system (pb_proof b));
  Ok (known && is_str (recomputed_proof_hash b) (pr_proof_hash (pb_proof b))).

Definition commitments_of b : list DataCommitment := default [] (pb_data_commitments b).

(** In the order of the steps; step 7 repeats a check of step 2. *)
Definition core_checks b : list (result bool * VerificationStatus) :=
  [(Ok (is_str "1.0" (pb_vrl_version b)), UNSUPPORTED_VERSION);
   (Ok (schema_ok b), SCHEMA_INVALID);
   (bundle_id_ok b, BUNDLE_ID_MISMATCH);
   (integrity_ok (pb_computation b), INTEGRITY_MISMATCH);
   (circuit_ok (pb_computation b), CIRCUIT_HASH_MISMATCH);
   (proof_check b, PROOF_INVALID);
   (Ok (forallb commitment_matches (commitments_of b)), DATA_COMMITMENT_INVALID)].

Definition timestamp_complete (t : TimestampAuthority) : bool :=
  truthy (ts_tsa_token t) && truthy (ts_tsa_provider t) && truthy (ts_tsa_hash_algorithm t).

Definition timestamp_errors b : list VerificationStatus :=
  match timestamp_of b with
  | Some t => if timestamp_complete t then [] else [TIMESTAMP_INVALID]
  | None => []
  end.

Definition graph_errors b : result (list VerificationStatus) :=
  if truthy (depends_of b) then
    ids ← py_iter (depends_of b); bad ← first_bad_edge ids;
    Ok (match bad with Some _ => [GRAPH_EDGE_INVALID] | None => [] end)
  else Ok [].

(** Status and error codes. *)
Definition optional_verdict b : result outcome_t :=
  graph ← graph_errors b;
  let errors := timestamp_errors b ++ graph in
  Ok (match errors with [] => VALID | _ => VALID_PARTIAL end, errors).

Definition verdict b : result outcome_t := run_checks (core_checks b) (optional_verdict b).

(** ** Each step implements its check *)

Definition outcome r : outcome_t := (vr_status r, vr_errors r).

Lemma fail_implements step msg code r :
  ∃ r', fail step msg code r = Ok (false, r') ∧ outcome r' = (code, (outcome r).2 ++ [code]).
Proof using. by eexists. Qed.

Lemma pass_implements step msg r :
  ∃ r', pass step msg r = Ok (true, r') ∧ outcome r' = outcome r.
Proof using. by eexists. Qed.

#[local] Hint Resolve fail_implements pass_implements : core.

Lemma step1_implements b :
  step_implements outcome (step1_version_check b) (Ok (is_str "1.0" (pb_vrl_version b)))
    UNSUPPORTED_VERSION.
Proof using. intros r. unfold step1_version_check. destruct (is_str "1.0" _); simpl; auto. Qed.

Lemma step2_implements b :
  step_implements outcome (step2_schema_validation b) (Ok (schema_ok b)) SCHEMA_INVALID.
Proof using.
  intros r. unfold schema_ok, step2_schema_validation.
  rewrite (find_forallb (fun f => negb (is_null f.2)) (fun f => is_null f.2) (required_checks b))
    by (intros; by rewrite negb_involutive).
  rewrite (find_forallb (fun f => is_valid_hex_hash f.2)
    (fun f => negb (is_valid_hex_hash f.2)) (hash_fields b)) by done.
  destruct (find (fun f => is_null f.2) (required_checks b)) as [[]|]; cbn [andb negb]; auto.
  destruct (is_valid_hex_hash (ai_ai_id (pb_ai_identity b))); cbn [andb negb]; auto.
  destruct (find (fun f => negb (is_valid_hex_hash f.2)) (hash_fields b)) as [[]|]; cbn [andb negb]; auto.
Qed.

Lemma step3_implements b :
  step_implements outcome (step3_bundle_id_check b) (bundle_id_ok b) BUNDLE_ID_MISMATCH.
Proof using.
  intros r. unfold step3_bundle_id_check, bundle_id_ok.
  destruct (compute_bundle_id_from_integrity _); simpl; [|done].
  destruct (is_str a _); simpl; auto.
Qed.

Lemma step4_implements b :
  step_implements outcome (step4_integrity_hash_check b) (integrity_ok (pb_computation b))
    INTEGRITY_MISMATCH.
Proof using.
  intros r. unfold step4_integrity_hash_check, integrity_ok.
  destruct (compute_integrity_hash _ _ _); simpl; [|done].
  destruct (is_str a _); simpl; auto.
Qed.

Lemma step5_implements b :
  step_implements outcome (step5_circuit_resolution b) (circuit_ok (pb_computation b))
    CIRCUIT_HASH_MISMATCH.
Proof using.
  intros r. unfold step5_circuit_resolution, circuit_ok.
  destruct (resolve_circuit _ _); [|auto].
  destruct (py_index _ _); simpl; [|done].
  destruct (same_json _ _); simpl; auto.
Qed.

Lemma step6_implements b :
  step_implements outcome (step6_proof_structure_validation b) (proof_check b) PROOF_INVALID.
Proof using.
  intros r. unfold step6_proof_structure_validation, proof_check, recomputed_proof_hash.
  destruct (in_set _ _) as [[]|]; simpl; auto.
  destruct (is_str _ _); simpl; auto.
Qed.

Lemma step7_implements b :
  schema_ok b = true → step_implements outcome (step7_ai_id_verification b) (Ok true) AI_ID_INVALID.
Proof using.
  unfold schema_ok. rewrite !andb_true_iff. intros [[_ Hai] _] r.
  unfold step7_ai_id_verification. rewrite Hai. destruct (truthy _); simpl; auto.
Qed.

Lemma first_bad_forallb i cs :
  forallb commitment_matches cs =
  match first_bad_commitment i cs with None => true | Some _ => false end.
Proof using.
  revert i. induction cs as [|c cs IH]; intros i; simpl; [done|].
  destruct (commitment_matches c); [|done]. apply IH.
Qed.

Lemma step8_implements b :
  step_implements outcome (step8_data_commitment_verification b)
    (Ok (forallb commitment_matches (commitments_of b))) DATA_COMMITMENT_INVALID.
Proof using.
  intros r. unfold step8_data_commitment_verification, commitments_of.
  destruct (pb_data_commitments b) as [[|c cs]|]; simpl default; [simpl; auto| |simpl; auto].
  rewrite (first_bad_forallb 0). destruct (first_bad_commitment 0 _) as [[]|]; auto.
Qed.

(** ** [verify] refines the contract *)

Lemma optional_graph b r errors :
  vr_status r = (match errors with [] => VALID | _ => VALID_PARTIAL end) →
  vr_errors r = errors →
  outcome <$> optional (truthy (depends_of b)) (step10_proof_graph_verification b r) r =
  (graph ← graph_errors b;
   let errors := errors ++ graph in
   Ok (match errors with [] => VALID | _ => VALID_PARTIAL end, errors)).
Proof using.
  intros Hs <-. unfold optional, graph_errors, step10_proof_graph_verification.
  destruct (truthy (depends_of b)); simpl;
    [|unfold outcome; by rewrite app_nil_r, Hs].
  destruct (py_iter (depends_of b)); simpl; [|done].
  destruct (first_bad_edge _) as [[]|]; simpl; [| |done]; unfold outcome; simpl.
  - by destruct (vr_errors r).
  - by rewrite app_nil_r, Hs.
Qed.

Lemma optional_steps b r :
  vr_status r = VALID → vr_errors r = [] →
  outcome <$> (r ← optional (match timestamp_of b with Some _ => true | None => false end)
                    (step9_timestamp_verification b r) r;
               optional (truthy (depends_of b)) (step10_proof_graph_verification b r) r) =
  (graph ← graph_errors b;
   let errors := timestamp_errors b ++ graph in
   Ok (match errors with [] => VALID | _ => VALID_PARTIAL end, errors)).
Proof using.
  intros Hs He. unfold timestamp_errors, step9_timestamp_verification.
  destruct (timestamp_of b) as [t|] eqn:Ht; simpl.
  - assert ((negb (truthy (ts_tsa_token t)) || negb (truthy (ts_tsa_provider t)) ||
      negb (truthy (ts_tsa_hash_algorithm t))) = negb (timestamp_complete t)) as ->
      by (unfold timestamp_complete; by rewrite !negb_andb).
    destruct (timestamp_complete t); cbn [negb].
    + by apply (optional_graph b _ []).
    + apply (optional_graph b _ [TIMESTAMP_INVALID]); simpl; by rewrite ?He.
  - by apply (optional_graph b _ []).
Qed.
Lemma verify_verdict b : outcome <$> verify b = verdict b.
Proof using.
  unfold verdict, core_checks, verify. rewrite !run_checks_cons.
  apply guard_implements; [apply step1_implements|done|]. intros r1 H1.
  destruct (schema_ok b) eqn:Hschema.
  2: { apply guard_stop; [rewrite <-Hschema; apply step2_implements|done]. }
  apply (guard_skip _ _ SCHEMA_INVALID); [rewrite <-Hschema; apply step2_implements|done|].
  intros r2 H2. rewrite check_true.
  apply guard_implements; [apply step3_implements|done|]. intros r3 H3.
  apply guard_implements; [apply step4_implements|done|]. intros r4 H4.
  apply guard_implements; [apply step5_implements|done|]. intros r5 H5.
  apply guard_implements; [apply step6_implements|done|]. intros r6 H6.
  apply (guard_skip _ _ AI_ID_INVALID); [by apply step7_implements|done|]. intros r7 H7.
  apply guard_implements; [apply step8_implements|done|]. intros r8 [= Hs8 He8].
  by apply optional_steps.
Qed.

(** ** VALID bundles, declaratively *)

(** The edges of the proof graph are UUIDs. *)
Definition edges_valid b : Prop :=
  truthy (depends_of b) = true →
  ∃ ids, py_iter (depends_of b) = Ok ids ∧
         ∀ x, x ∈ ids → ∃ s n, x = JStr s ∧ uuid_of_string s = Some n.

Record bundle_valid b : Prop := {
  bv_version : pb_vrl_version b = JStr "1.0";
  bv_issued : pb_issued_at b ≠ JNull;
  bv_ai_id : is_valid_hex_hash (ai_ai_id (pb_ai_identity b)) = true;
  bv_hashes : ∀ f, f ∈ hash_fields b → is_valid_hex_hash f.2 = true;
  bv_bundle_id : ∃ i, compute_bundle_id_from_integrity (co_integrity_hash (pb_computation b)) = Ok i
                   ∧ pb_bundle_id b = JStr i;
  bv_integrity : ∃ h, let co := pb_computation b in
    compute_integrity_hash (co_input_hash co) (co_output_hash co) (co_trace_hash co) = Ok h ∧
    co_integrity_hash co = JStr h;
  bv_circuit : ∃ circuit h, let co := pb_computation b in
    resolve_circuit (co_circuit_id co) (co_circuit_version co) = Some circuit ∧
    dict_get "circuit_hash" circuit = Some h ∧ same_json h (co_circuit_hash co) = true;
  bv_system : known valid_systems (pr_proof_system (pb_proof b)) = true;
  bv_proof : pr_proof_hash (pb_proof b) = JStr (recomputed_proof_hash b);
  bv_commitments : ∀ c, c ∈ commitments_of b → dc_commitment_hash c =
    JStr (compute_commitment_hash (dc_dataset_id c) (dc_dataset_version c) (dc_dataset_hash c)
            (dc_provider_id c) (dc_committed_at c));
  bv_timestamp : ∀ t, timestamp_of b = Some t → timestamp_complete t = true;
  bv_edges : edges_valid b }.

Lemma is_str_spec s j : is_str s j = true ↔ j = JStr s.
Proof using. destruct j; simpl; try done. rewrite String.eqb_eq. split; congruence. Qed.

Lemma bundle_id_ok_spec b :
  bundle_id_ok b = Ok true ↔
  ∃ i, compute_bundle_id_from_integrity (co_integrity_hash (pb_computation b)) = Ok i ∧
       pb_bundle_id b = JStr i.
Proof using.
  unfold bundle_id_ok. destruct (compute_bundle_id_from_integrity _) as [i|]; simpl;
    [|naive_solver]. rewrite (inj_iff Ok), is_str_spec. naive_solver.
Qed.

Lemma integrity_ok_spec co :
  integrity_ok co = Ok true ↔
  ∃ h, compute_integrity_hash (co_input_hash co) (co_output_hash co) (co_trace_hash co) = Ok h ∧
       co_integrity_hash co = JStr h.
Proof using.
  unfold integrity_ok. destruct (compute_integrity_hash _ _ _) as [h|]; simpl; [|naive_solver].
  rewrite (inj_iff Ok), is_str_spec. naive_solver.
Qed.

Lemma circuit_ok_spec co :
  circuit_ok co = Ok true ↔
  ∃ circuit h, resolve_circuit (co_circuit_id co) (co_circuit_version co) = Some circuit ∧
    dict_get "circuit_hash" circuit = Some h ∧ same_json h (co_circuit_hash co) = true.
Proof using.
  unfold circuit_ok. destruct (resolve_circuit _ _) as [c|]; [|naive_solver].
  simpl. destruct (dict_get "circuit_hash" c) as [h|] eqn:E; simpl.
  - rewrite (inj_iff Ok). naive_solver.
  - split; [done|]. intros (? & ? & [= <-] & ? & ?). congruence.
Qed.

Lemma proof_check_spec b :
  proof_check b = Ok true ↔
  known valid_systems (pr_proof_system (pb_proof b)) = true ∧
  pr_proof_hash (pb_proof b) = JStr (recomputed_proof_hash b).
Proof using.
  unfold proof_check. rewrite <-known_in_set, <-is_str_spec.
  destruct (in_set _ _) as [[]|]; simpl; [|naive_solver..]. rewrite (inj_iff Ok). naive_solver.
Qed.

Lemma commitment_matches_spec c :
  commitment_matches c = true ↔ dc_commitment_hash c =
    JStr (compute_commitment_hash (dc_dataset_id c) (dc_dataset_version c) (dc_dataset_hash c)
            (dc_provider_id c) (dc_committed_at c)).
Proof using. apply is_str_spec. Qed.

Lemma uuid_check_spec x :
  uuid_check x = Ok true ↔ ∃ s n, x = JStr s ∧ uuid_of_string s = Some n.
Proof using.
  destruct x; simpl; try naive_solver. rewrite (inj_iff Ok).
  destruct (uuid_of_string s) eqn:E; split; try done; [by eauto|naive_solver].
Qed.

Lemma first_bad_edge_none ids :
  first_bad_edge ids = Ok None ↔
  ∀ x, x ∈ ids → ∃ s n, x = JStr s ∧ uuid_of_string s = Some n.
Proof using.
  setoid_rewrite <-uuid_check_spec. rewrite <-Forall_forall.
  induction ids as [|x ids IH]; simpl; [done|]. rewrite Forall_cons, <-IH.
  destruct (uuid_check x) as [[]|]; simpl; naive_solver.
Qed.

Lemma graph_errors_nil b : graph_errors b = Ok [] ↔ edges_valid b.
Proof using.
  unfold graph_errors, edges_valid. destruct (truthy (depends_of b)); [|naive_solver].
  destruct (py_iter (depends_of b)) as [ids|]; simpl; [|naive_solver].
  transitivity (first_bad_edge ids = Ok None); [|rewrite first_bad_edge_none; naive_solver].
  destruct (first_bad_edge ids) as [[]|]; simpl; naive_solver.
Qed.

Lemma timestamp_errors_nil b :
  timestamp_errors b = [] ↔ ∀ t, timestamp_of b = Some t → timestamp_complete t = true.
Proof using.
  unfold timestamp_errors. destruct (timestamp_of b) as [t|]; [|done].
  destruct (timestamp_complete t) eqn:E; split; try done.
  - by intros _ ? [= <-].
  - intros Ht. specialize (Ht t eq_refl). congruence.
Qed.

Lemma schema_ok_spec b :
  schema_ok b = true ↔
  pb_bundle_id b ≠ JNull ∧ pb_issued_at b ≠ JNull ∧
  is_valid_hex_hash (ai_ai_id (pb_ai_identity b)) = true ∧
  ∀ f, f ∈ hash_fields b → is_valid_hex_hash f.2 = true.
Proof using.
  unfold schema_ok. rewrite !andb_true_iff, (forallb_Forall _ (hash_fields b)), Forall_forall.
  simpl forallb. rewrite !andb_true_iff, !negb_true_iff, <-!not_true_iff_false, !is_null_spec.
  tauto.
Qed.

Lemma verdict_valid b :
  (∃ errors, verdict b = Ok (VALID, errors)) ↔
  first_failure (core_checks b) = Ok None ∧ graph_errors b = Ok [] ∧ timestamp_errors b = [].
Proof using.
  unfold verdict, run_checks, optional_verdict. destruct (first_failure (core_checks b)) as [[code|]|e] eqn:E; simpl.
  - apply first_failure_code in E. split; [|naive_solver].
    intros [? [= -> _]]. exfalso. revert E. cbn. rewrite !elem_of_cons, elem_of_nil. naive_solver.
  - destruct (graph_errors b) as [g|]; simpl; [|naive_solver].
    destruct (timestamp_errors b), g; simpl; naive_solver.
  - naive_solver.
Qed.

Lemma verdict_bundle_valid b :
  (∃ errors, verdict b = Ok (VALID, errors)) ↔ bundle_valid b.
Proof using.
  rewrite verdict_valid, first_failure_none, graph_errors_nil, timestamp_errors_nil.
  unfold core_checks. rewrite !Forall_cons. simpl fst.
  rewrite bundle_id_ok_spec, integrity_ok_spec, circuit_ok_spec, proof_check_spec.
  rewrite !(inj_iff Ok), is_str_spec, schema_ok_spec, forallb_Forall, Forall_forall.
  setoid_rewrite commitment_matches_spec. split.
  - intros [(? & (? & ? & ? & ?) & ? & ? & ? & [] & ? & _) []]. by split.
  - intros []. split_and!; try done. destruct bv_bundle_id0 as (? & _ & ->). done.
Qed.

Lemma verify_status b st :
  (∃ r, verify b = Ok r ∧ vr_status r = st) ↔ ∃ errors, verdict b = Ok (st, errors).
Proof using.
  rewrite <-verify_verdict. unfold outcome. destruct (verify b) as [r|]; simpl; naive_solver.
Qed.

Lemma verify_valid b :
  (∃ r, verify b = Ok r ∧ vr_status r = VALID) ↔ bundle_valid b.
Proof using. by rewrite verify_status, verdict_bundle_valid. Qed.
End spec.
