(* ===== verification/VerifierProps.v ===== *)
(** * Properties of the SDK verifier

    The refinement of [verify] to its contract, the exact meaning of VALID,
    the consistency of the log it returns, what a VALID bundle binds, and the
    example program of the SDK, whose bundles verify. *)
From S2P Require Export VerifierSpec.

(** ** The log *)

(** Errors are the codes of the failing details, in order. *)
Definition log_ok (r : VerificationResult) : Prop :=
  vr_errors r = omap vd_error_code (vr_details r) ∧
  Forall (fun d => vd_pass d = match vd_error_code d with None => true | Some _ => false end)
    (vr_details r).

Lemma log_ok_pass step msg r : log_ok r → log_ok (pass_detail step msg r).
Proof.
  intros [He Hd]. split; simpl.
  - rewrite omap_app. simpl. by rewrite app_nil_r.
  - apply Forall_app. split; [done|by constructor].
Qed.

Lemma log_ok_fail step msg code r : log_ok r → log_ok (fail_detail step msg code r).
Proof.
  intros [He Hd]. split; simpl.
  - rewrite omap_app. simpl. by rewrite He.
  - apply Forall_app. split; [done|by constructor].
Qed.

Lemma log_ok_status s r : log_ok (set_status s r) ↔ log_ok r.
Proof. done. Qed.

#[export] Hint Resolve log_ok_pass log_ok_fail : vrl.

(** A step keeps the log consistent. *)
Definition keeps_log (step : VerificationResult → result (bool * VerificationResult)) : Prop :=
  ∀ r ok r', step r = Ok (ok, r') → log_ok r → log_ok r'.

Lemma keeps_log_pass step msg : keeps_log (pass step msg).
Proof. intros r ok r' [= _ <-]. auto with vrl. Qed.
Lemma keeps_log_fail step msg code : keeps_log (fail step msg code).
Proof. intros r ok r' [= _ <-]. rewrite log_ok_status. auto with vrl. Qed.

Ltac keeps_log :=
  let Hs := fresh "Hstep" in let r := fresh "r" in
  intros r ? ? Hs; revert Hs; repeat case_match;
  repeat match goal with
  | |- (mbind _ ?m) = _ → _ => destruct m eqn:?; cbn [mbind result_bind]; repeat case_match
  end; try done;
  try (intros [= <- <-]; auto with vrl; fail);
  try (apply keeps_log_pass); try (apply keeps_log_fail).

Section log.
Context `{CircuitRegistry}.

Lemma step1_log b : keeps_log (step1_version_check b).
Proof using. unfold step1_version_check. keeps_log. Qed.
Lemma step2_log b : keeps_log (step2_schema_validation b).
Proof using. unfold step2_schema_validation. cbv zeta. keeps_log. Qed.
Lemma step3_log b : keeps_log (step3_bundle_id_check b).
Proof using. unfold step3_bundle_id_check. keeps_log. Qed.
Lemma step4_log b : keeps_log (step4_integrity_hash_check b).
Proof using. unfold step4_integrity_hash_check. keeps_log. Qed.
Lemma step5_log b : keeps_log (step5_circuit_resolution b).
Proof using. unfold step5_circuit_resolution. cbv zeta. keeps_log. Qed.
Lemma step6_log b : keeps_log (step6_proof_structure_validation b).
Proof using. unfold step6_proof_structure_validation. keeps_log. Qed.
Lemma step7_log b : keeps_log (step7_ai_id_verification b).
Proof using. unfold step7_ai_id_verification. cbv zeta. keeps_log. Qed.
Lemma step8_log b : keeps_log (step8_data_commitment_verification b).
Proof using. unfold step8_data_commitment_verification. cbv zeta. keeps_log. Qed.
Lemma step9_log b : keeps_log (step9_timestamp_verification b).
Proof using. unfold step9_timestamp_verification. cbv zeta. keeps_log. Qed.
Lemma step10_log b : keeps_log (step10_proof_graph_verification b).
Proof using. unfold step10_proof_graph_verification. cbv zeta. keeps_log. Qed.

Lemma guard_log step r (k : VerificationResult → result VerificationResult) r' :
  keeps_log step → log_ok r → (∀ r1, log_ok r1 → k r1 = Ok r' → log_ok r') →
  guard (step r) k = Ok r' → log_ok r'.
Proof using.
  intros Hs Hr Hk. unfold guard. destruct (step r) as [[[] r1]|] eqn:E; try done.
  - apply Hk. by eapply Hs.
  - intros [= <-]. by eapply Hs.
Qed.

Lemma optional_log c step r r' :
  keeps_log step → log_ok r → optional c (step r) r = Ok r' → log_ok r'.
Proof using.
  intros Hs Hr. unfold optional. destruct c; [|by intros [= <-]].
  destruct (step r) as [[[] r1]|] eqn:E; try done; intros [= <-].
  - by eapply Hs.
  - rewrite log_ok_status. by eapply Hs.
Qed.

Lemma verify_log b r : verify b = Ok r → log_ok r.
Proof using.
  assert (log_ok (mkResult VALID (pb_bundle_id b) [] [])) as H0 by (split; [done|constructor]).
  revert H0. unfold verify. cbv zeta. generalize (mkResult VALID (pb_bundle_id b) [] []).
  intros r0 H0.
  apply (guard_log _ _ _ _ (step1_log b)); [done|]. intros r1 H1.
  apply (guard_log _ _ _ _ (step2_log b)); [done|]. intros r2 H2.
  apply (guard_log _ _ _ _ (step3_log b)); [done|]. intros r3 H3.
  apply (guard_log _ _ _ _ (step4_log b)); [done|]. intros r4 H4.
  apply (guard_log _ _ _ _ (step5_log b)); [done|]. intros r5 H5.
  apply (guard_log _ _ _ _ (step6_log b)); [done|]. intros r6 H6.
  apply (guard_log _ _ _ _ (step7_log b)); [done|]. intros r7 H7.
  apply (guard_log _ _ _ _ (step8_log b)); [done|]. intros r8 H8.
  intros (r9 & H9 & H10)%bind_ok.
  eapply optional_log; [apply (step10_log b)| |exact H10].
  eapply optional_log; [apply (step9_log b)| |exact H9]. done.
Qed.
End log.

(** ** The verdict does not depend on the order of keys *)

Section sorted.
Context `{CircuitRegistry}.

Lemma find_map_sort (f : string * json → bool) l :
  (∀ k v, f (k, json_sort v) = f (k, v)) →
  forallb f (map (fun p => (p.1, json_sort p.2)) l) = forallb f l.
Proof using. intros E. induction l as [|[k v] l IH]; simpl; [done|]. by rewrite E, IH. Qed.

Lemma hash_fields_sort b :
  hash_fields (bundle_sort b) = map (fun p => (p.1, json_sort p.2)) (hash_fields b).
Proof using. done. Qed.

Lemma schema_ok_sort b : schema_ok (bundle_sort b) = schema_ok b.
Proof using.
  unfold schema_ok. rewrite hash_fields_sort, find_map_sort
    by (intros; apply is_valid_hex_hash_sort).
  simpl. by rewrite !is_null_sort, is_valid_hex_hash_sort.
Qed.

Lemma bundle_id_ok_sort b : bundle_id_ok (bundle_sort b) = bundle_id_ok b.
Proof using.
  unfold bundle_id_ok. simpl. rewrite compute_bundle_id_sort.
  destruct (compute_bundle_id_from_integrity _); simpl; [|done]. by rewrite is_str_sort.
Qed.

Lemma integrity_ok_sort co : integrity_ok (computation_sort co) = integrity_ok co.
Proof using.
  unfold integrity_ok. simpl. rewrite compute_integrity_hash_sort.
  destruct (compute_integrity_hash _ _ _); simpl; [|done]. by rewrite is_str_sort.
Qed.

Lemma proof_check_sort b : proof_check (bundle_sort b) = proof_check b.
Proof using.
  unfold proof_check, recomputed_proof_hash. simpl.
  rewrite in_set_sort, compute_proof_hash_sort. by rewrite is_str_sort.
Qed.

Lemma commitment_matches_sort c :
  commitment_matches (data_commitment_sort c) = commitment_matches c.
Proof using.
  unfold commitment_matches. simpl. rewrite compute_commitment_hash_sort. apply is_str_sort.
Qed.

Lemma commitments_sort b :
  forallb commitment_matches (commitments_of (bundle_sort b)) =
  forallb commitment_matches (commitments_of b).
Proof using.
  unfold commitments_of. simpl. destruct (pb_data_commitments b) as [cs|]; [|done]. simpl.
  induction cs as [|c cs IH]; simpl; [done|]. by rewrite IH, commitment_matches_sort.
Qed.

Lemma timestamp_errors_sort b : timestamp_errors (bundle_sort b) = timestamp_errors b.
Proof using.
  unfold timestamp_errors, timestamp_of. simpl. destruct (pb_legal b) as [l|]; [|done]. simpl.
  destruct (le_timestamp_authority l) as [t|]; [|done].
  unfold timestamp_complete. simpl. by rewrite !truthy_sort.
Qed.

Definition is_uuid (s : string) : bool :=
  match uuid_of_string s with Some _ => true | None => false end.

Lemma first_bad_edge_keys ks :
  (bad ← first_bad_edge (map JStr ks);
   Ok (match bad with Some _ => [GRAPH_EDGE_INVALID] | None => [] end)) =
  Ok (if forallb is_uuid ks then [] else [GRAPH_EDGE_INVALID]).
Proof using.
  induction ks as [|k ks IH]; simpl; [done|]. fold (is_uuid k).
  by destruct (is_uuid k).
Qed.

Lemma first_bad_edge_list l :
  (bad ← first_bad_edge (map json_sort l);
   Ok (match bad with Some _ => [GRAPH_EDGE_INVALID] | None => [] end)) =
  (bad ← first_bad_edge l;
   Ok (match bad with Some _ => [GRAPH_EDGE_INVALID] | None => [] end)).
Proof using.
  induction l as [|x l IH]; simpl; [done|].
  assert (uuid_check (json_sort x) = uuid_check x) as -> by by destruct x.
  by destruct (uuid_check x) as [[]|].
Qed.

Lemma depends_of_sort b : depends_of (bundle_sort b) = json_sort (depends_of b).
Proof using. unfold depends_of. simpl. by destruct (pb_proof_graph b). Qed.

Lemma graph_errors_sort b : graph_errors (bundle_sort b) = graph_errors b.
Proof using.
  unfold graph_errors. rewrite depends_of_sort, truthy_sort.
  destruct (truthy (depends_of b)); [|done].
  destruct (depends_of b) as [|?|?|?|s|l|d]; try done.
  - simpl py_iter. apply first_bad_edge_list.
  - rewrite json_sort_obj. cbn [py_iter mbind result_bind]. rewrite !first_bad_edge_keys.
    by rewrite (forallb_perm _ _ _ (dict_keys_sort d)).
Qed.

(** A registry that answers by the value of the circuit id and version. *)
Definition registry_respects : Prop :=
  ∀ i v h, (match resolve_circuit (json_sort i) (json_sort v) with
            | None => Ok false
            | Some c => x ← py_index "circuit_hash" (JObj c); Ok (same_json x (json_sort h))
            end) =
           (match resolve_circuit i v with
            | None => Ok false
            | Some c => x ← py_index "circuit_hash" (JObj c); Ok (same_json x h)
            end).

Lemma verdict_sort b : registry_respects → verdict (bundle_sort b) = verdict b.
Proof using.
  intros Hreg. unfold verdict, core_checks, optional_verdict.
  rewrite schema_ok_sort, bundle_id_ok_sort, proof_check_sort, commitments_sort,
    timestamp_errors_sort, graph_errors_sort.
  assert (circuit_ok (pb_computation (bundle_sort b)) = circuit_ok (pb_computation b)) as ->
    by apply Hreg.
  change (pb_computation (bundle_sort b)) with (computation_sort (pb_computation b)).
  rewrite integrity_ok_sort.
  change (pb_vrl_version (bundle_sort b)) with (json_sort (pb_vrl_version b)).
  by rewrite is_str_sort.
Qed.
End sorted.

Lemma mock_circuit_hash_sort i v :
  compute_mock_circuit_hash (json_sort i) (json_sort v) = compute_mock_circuit_hash i v.
Proof.
  unfold compute_mock_circuit_hash.
  by rewrite <-(canonical_json_obj_values [("circuit_id", i); _; _]).
Qed.

Lemma mock_registry_respects : @registry_respects mock_registry.
Proof.
  intros i v h. simpl. rewrite mock_circuit_hash_sort. by destruct h.
Qed.

(** ** Properties *)

Section properties.
Context `{CircuitRegistry}.

(** C3: refinement.  Status and error codes of [verify] are those of the
    contract: the ordered checks up to the first failure, then the optional
    ones, exceptions included. *)
Theorem verify_refines_verdict b : outcome <$> verify b = verdict b.
Proof using. apply verify_verdict. Qed.

(** C2: what VALID means.  [verify] answers VALID exactly for the bundles
    whose every hash, identifier, commitment, timestamp and edge is right. *)
Theorem verify_valid_iff b :
  (∃ r, verify b = Ok r ∧ vr_status r = VALID) ↔ bundle_valid b.
Proof using. apply verify_valid. Qed.

Lemma verdict_errors b st errors :
  verdict b = Ok (st, errors) →
  (st = VALID ↔ errors = []) ∧ (st ≠ VALID → st ≠ VALID_PARTIAL → errors = [st]).
Proof using.
  unfold verdict, run_checks, optional_verdict. intros ([code|] & Hf & Hv)%bind_ok.
  - injection Hv as <- <-. apply first_failure_code in Hf. split; [|done].
    split; [|done]. intros ->. exfalso. revert Hf. cbn.
    rewrite !elem_of_cons, elem_of_nil. naive_solver.
  - apply bind_ok in Hv as (g & _ & [= <- <-]). destruct (timestamp_errors b ++ g); naive_solver.
Qed.

(** The log of a verification is consistent: the error codes are those
    of the failing details in order, a detail passes exactly when it carries
    no code, VALID means no error, and a status other than VALID and
    VALID_PARTIAL is the one error. *)
Theorem verify_log_consistent b r :
  verify b = Ok r →
  vr_errors r = omap vd_error_code (vr_details r) ∧
  (∀ d, d ∈ vr_details r → vd_pass d = true ↔ vd_error_code d = None) ∧
  (vr_status r = VALID ↔ vr_errors r = []) ∧
  (is_valid r = false → vr_errors r = [vr_status r]).
Proof using.
  intros Hr. pose proof (verify_log b r Hr) as [He Hd]. rewrite Forall_forall in Hd.
  assert (verdict b = Ok (outcome r)) as Hv by by rewrite <-verify_verdict, Hr.
  apply verdict_errors in Hv as [H1 H2]. split_and!; [done| |done|].
  - intros d Hin. rewrite (Hd d Hin). by destruct (vd_error_code d).
  - unfold is_valid. destruct (vr_status r); try done; intros _; by apply H2.
Qed.
End properties.

Lemma verify_log_consistent_witness :
  ∃ r, @verify mock_registry tampered_bundle = Ok r ∧
    vr_errors r = omap vd_error_code (vr_details r) ∧
    (∀ d, d ∈ vr_details r → vd_pass d = true ↔ vd_error_code d = None) ∧
    (vr_status r = VALID ↔ vr_errors r = []) ∧
    (is_valid r = false → vr_errors r = [vr_status r]).
Proof.
  destruct (@verify mock_registry tampered_bundle) as [r|e] eqn:E.
  - exists r. split; [reflexivity|]. by apply (@verify_log_consistent mock_registry tampered_bundle).
  - exfalso. revert E. vm_compute. discriminate.
Defined.

(** Serialisation preserves the verdict: a bundle written by [to_json] and
    read back by [from_json] gets the same status and error codes, exceptions
    included. *)
Theorem verify_after_json b :
  bundle_ok b = true → json_wf (JObj (bundle_to_dict b)) = true →
  ∃ b', bundle_from_json (bundle_to_json b) = Ok b' ∧
        outcome <$> @verify mock_registry b' = outcome <$> @verify mock_registry b.
Proof.
  intros Hok Hwf. exists (bundle_sort b). split.
  - unfold bundle_from_json, bundle_to_json.
    by rewrite canonical_json_loads, bundle_commutes, bundle_roundtrip.
  - rewrite !verify_verdict. apply verdict_sort, mock_registry_respects.
Qed.

Lemma verify_after_json_witness :
  ∃ b', bundle_from_json (bundle_to_json valid_trade_bundle) = Ok b' ∧
        outcome <$> @verify mock_registry b' =
        outcome <$> @verify mock_registry valid_trade_bundle.
Proof. apply verify_after_json; vm_compute; reflexivity. Defined.

(** The text of the mock circuit hash. *)
Definition circuit_text (circuit_id circuit_version : json) : string :=
  canonical_json (JObj [("circuit_id", circuit_id); ("circuit_version", circuit_version);
                        ("spec_version", JStr "vrl/circuit/1.0")]).

Lemma circuit_hash_inj i v i' v' :
  forallb json_wf [i; v; i'; v'] = true →
  compute_mock_circuit_hash i v = compute_mock_circuit_hash i' v' →
  (same_json i i' ∧ same_json v v') ∨ collision (circuit_text i v) (circuit_text i' v').
Proof.
  cbn [forallb]. rewrite !andb_true_iff. intros (?&?&?&?&_) Heq.
  unfold compute_mock_circuit_hash in Heq. hash_binding Heq.
Qed.

Lemma valid_hash_fields `{CircuitRegistry} b :
  bundle_valid b →
  let co := pb_computation b in
  forallb is_valid_hex_hash [co_circuit_hash co; co_input_hash co; co_output_hash co;
    co_trace_hash co; co_integrity_hash co; pr_proof_hash (pb_proof b)] = true.
Proof.
  intros Hv co. pose proof (bv_hashes b Hv) as Hf.
  rewrite <-Forall_forall in Hf. unfold hash_fields in Hf. rewrite !Forall_cons in Hf.
  cbn [forallb snd] in *. rewrite !andb_true_iff. unfold co. tauto.
Qed.

Lemma valid_mock_circuit b :
  @bundle_valid mock_registry b →
  let co := pb_computation b in
  co_circuit_hash co = JStr (compute_mock_circuit_hash (co_circuit_id co) (co_circuit_version co)).
Proof.
  intros Hv co. destruct (bv_circuit b Hv) as (c & h & Hr & Hg & Hs).
  simpl in Hr. injection Hr as <-. simpl in Hg. injection Hg as <-.
  fold co in Hs. destruct (co_circuit_hash co); simpl in Hs; try done.
  apply String.eqb_eq in Hs. by rewrite <-Hs.
Qed.

(** The fields two VALID bundles have in common. *)
Record same_computation (b b' : ProofBundle) : Prop := {
  sc_bundle_id : pb_bundle_id b = pb_bundle_id b';
  sc_input : co_input_hash (pb_computation b) = co_input_hash (pb_computation b');
  sc_output : co_output_hash (pb_computation b) = co_output_hash (pb_computation b');
  sc_trace : co_trace_hash (pb_computation b) = co_trace_hash (pb_computation b');
  sc_circuit_id : same_json (co_circuit_id (pb_computation b)) (co_circuit_id (pb_computation b'));
  sc_circuit_version :
    same_json (co_circuit_version (pb_computation b)) (co_circuit_version (pb_computation b'));
  sc_proof_bytes : same_json (pr_proof_bytes (pb_proof b)) (pr_proof_bytes (pb_proof b'));
  sc_public_inputs : same_json (pr_public_inputs (pb_proof b)) (pr_public_inputs (pb_proof b'));
  sc_proof_system : same_json (pr_proof_system (pb_proof b)) (pr_proof_system (pb_proof b')) }.

Definition binding_fields (b : ProofBundle) : list json :=
  [co_circuit_id (pb_computation b); co_circuit_version (pb_computation b);
   pr_proof_bytes (pb_proof b); pr_public_inputs (pb_proof b)].

Definition bundle_proof_text (b : ProofBundle) : string :=
  proof_hash_text (co_circuit_hash (pb_computation b)) (pr_proof_bytes (pb_proof b))
    (pr_public_inputs (pb_proof b)) (pr_proof_system (pb_proof b))
    (co_trace_hash (pb_computation b)).
Definition bundle_circuit_text (b : ProofBundle) : string :=
  circuit_text (co_circuit_id (pb_computation b)) (co_circuit_version (pb_computation b)).
Definition bundle_integrity_text (b : ProofBundle) : result string :=
  integrity_text (co_input_hash (pb_computation b)) (co_output_hash (pb_computation b))
    (co_trace_hash (pb_computation b)).

Lemma valid_hex_hash_wf j : is_valid_hex_hash j = true → json_wf j = true.
Proof. by destruct j. Qed.

Lemma known_wf ks j : known ks j = true → json_wf j = true.
Proof. by destruct j. Qed.

Lemma valid_same_integrity b b' :
  @bundle_valid mock_registry b → @bundle_valid mock_registry b' →
  co_integrity_hash (pb_computation b) = co_integrity_hash (pb_computation b') →
  (pb_bundle_id b = pb_bundle_id b' ∧
   co_input_hash (pb_computation b) = co_input_hash (pb_computation b') ∧
   co_output_hash (pb_computation b) = co_output_hash (pb_computation b') ∧
   co_trace_hash (pb_computation b) = co_trace_hash (pb_computation b')) ∨
  ∃ x y, bundle_integrity_text b = Ok x ∧ bundle_integrity_text b' = Ok y ∧ collision x y.
Proof.
  intros Hb Hb' Hi.
  destruct (bv_integrity b Hb) as (h & Hh & Eh), (bv_integrity b' Hb') as (h' & Hh' & Eh').
  destruct (bv_bundle_id b Hb) as (i & Ei & ->), (bv_bundle_id b' Hb') as (i' & Ei' & ->).
  assert (i = i') as -> by (rewrite Hi in Ei; congruence).
  assert (h = h') as -> by congruence. rewrite <-Hh' in Hh.
  pose proof (valid_hash_fields b Hb) as V. pose proof (valid_hash_fields b' Hb') as V'.
  cbn [forallb] in V, V'. rewrite !andb_true_iff in V, V'.
  apply integrity_hash_inj in Hh as [(-> & -> & ->)|Hc]; [by left|right; done|].
  cbn [forallb]. rewrite !andb_true_iff. tauto.
Qed.

Lemma same_json_str s t : same_json (JStr s) (JStr t) → s = t.
Proof. intros H%Is_true_true. by apply String.eqb_eq. Qed.

Lemma valid_same_proof b b' :
  @bundle_valid mock_registry b → @bundle_valid mock_registry b' →
  forallb json_wf (binding_fields b ++ binding_fields b') = true →
  pr_proof_hash (pb_proof b) = pr_proof_hash (pb_proof b') →
  (same_json (co_circuit_hash (pb_computation b)) (co_circuit_hash (pb_computation b')) ∧
   same_json (pr_proof_bytes (pb_proof b)) (pr_proof_bytes (pb_proof b')) ∧
   same_json (pr_public_inputs (pb_proof b)) (pr_public_inputs (pb_proof b')) ∧
   same_json (pr_proof_system (pb_proof b)) (pr_proof_system (pb_proof b')) ∧
   same_json (co_trace_hash (pb_computation b)) (co_trace_hash (pb_computation b'))) ∨
  collision (bundle_proof_text b) (bundle_proof_text b').
Proof.
  intros Hb Hb' Hw Hp. rewrite (bv_proof b Hb), (bv_proof b' Hb') in Hp. injection Hp as Hp.
  unfold recomputed_proof_hash in Hp. unfold bundle_proof_text.
  pose proof (valid_hash_fields b Hb) as V. pose proof (valid_hash_fields b' Hb') as V'.
  cbn [forallb binding_fields app] in V, V', Hw. rewrite !andb_true_iff in V, V'.
  repeat rewrite andb_true_iff in Hw.
  apply proof_hash_inj in Hp; [done|].
  cbn [forallb]. rewrite !andb_true_iff.
  pose proof (known_wf _ _ (bv_system b Hb)). pose proof (known_wf _ _ (bv_system b' Hb')).
  split_and!; try tauto; apply valid_hex_hash_wf; tauto.
Qed.

(** C16: tamper evidence.  Two bundles that both verify VALID and share their
    integrity hash and proof hash describe the same computation and the same
    proof: the hashes of input, output and trace, the circuit and its version,
    the proof bytes, public inputs and proof system.  The only way around is a
    SHA-256 collision between two texts that can be read off the bundles. *)
Theorem valid_bundles_binding b b' :
  (∃ r, @verify mock_registry b = Ok r ∧ vr_status r = VALID) →
  (∃ r, @verify mock_registry b' = Ok r ∧ vr_status r = VALID) →
  forallb json_wf (binding_fields b ++ binding_fields b') = true →
  co_integrity_hash (pb_computation b) = co_integrity_hash (pb_computation b') →
  pr_proof_hash (pb_proof b) = pr_proof_hash (pb_proof b') →
  same_computation b b' ∨
  (∃ x y, bundle_integrity_text b = Ok x ∧ bundle_integrity_text b' = Ok y ∧ collision x y) ∨
  collision (bundle_proof_text b) (bundle_proof_text b') ∨
  collision (bundle_circuit_text b) (bundle_circuit_text b').
Proof.
  intros Hb%verify_valid Hb'%verify_valid Hw Hi Hp.
  destruct (valid_same_integrity b b' Hb Hb' Hi) as [(?&?&?&?)|]; [|by auto].
  destruct (valid_same_proof b b' Hb Hb' Hw Hp) as [(Hc&?&?&?&?)|]; [|by auto].
  rewrite (valid_mock_circuit b Hb), (valid_mock_circuit b' Hb') in Hc.
  apply same_json_str, circuit_hash_inj in Hc as [[]|]; [left; by split|by auto|].
  cbn [forallb binding_fields app] in Hw |- *. repeat rewrite andb_true_iff in Hw.
  rewrite !andb_true_iff. tauto.
Qed.

Lemma valid_bundles_binding_witness :
  same_computation valid_tee_bundle valid_tee_bundle ∨
  (∃ x y, bundle_integrity_text valid_tee_bundle = Ok x ∧
          bundle_integrity_text valid_tee_bundle = Ok y ∧ collision x y) ∨
  collision (bundle_proof_text valid_tee_bundle) (bundle_proof_text valid_tee_bundle) ∨
  collision (bundle_circuit_text valid_tee_bundle) (bundle_circuit_text valid_tee_bundle).
Proof.
  assert (∃ r, @verify mock_registry valid_tee_bundle = Ok r ∧ vr_status r = VALID) as V.
  { destruct (@verify mock_registry valid_tee_bundle) as [r|e] eqn:E.
    - exists r. split; [reflexivity|]. apply (f_equal status_of) in E.
      assert (status_of (@verify mock_registry valid_tee_bundle) = Ok VALID) as E'
        by (vm_compute; reflexivity).
      rewrite E' in E. by injection E.
    - exfalso. revert E. vm_compute. discriminate. }
  apply valid_bundles_binding; [exact V|exact V|vm_compute; reflexivity|reflexivity|reflexivity].
Defined.

(** The edges of the proof graph are strings. *)
Definition edges_are_strings (b : ProofBundle) : Prop :=
  truthy (depends_of b) = true →
  ∃ ids, py_iter (depends_of b) = Ok ids ∧ ∀ x, x ∈ ids → ∃ s, x = JStr s.

Lemma first_bad_edge_total ids :
  (∀ x, x ∈ ids → ∃ s, x = JStr s) → ∃ bad, first_bad_edge ids = Ok bad.
Proof.
  rewrite <-Forall_forall. induction 1 as [|x ids [s ->] Hids IH]; simpl; [by eauto|].
  destruct IH as [bad ->]. destruct (uuid_of_string s); simpl; eauto.
Qed.

Lemma graph_errors_total b : edges_are_strings b → ∃ g, graph_errors b = Ok g.
Proof.
  unfold edges_are_strings, graph_errors. intros Hs.
  destruct (truthy (depends_of b)); [|by eauto]. destruct Hs as (ids & -> & Hids); [done|].
  simpl. destruct (first_bad_edge_total ids Hids) as [bad ->]. simpl. eauto.
Qed.

Lemma core_checks_total b :
  known valid_systems (pr_proof_system (pb_proof b)) = true →
  ∃ f, first_failure (@core_checks mock_registry b) = Ok f.
Proof.
  intros Hk. unfold core_checks. cbn [first_failure mbind result_bind].
  destruct (is_str "1.0" _); cbn [negb]; [|by eauto].
  destruct (schema_ok b) eqn:Hs; cbn [negb]; [|by eauto].
  apply schema_ok_spec in Hs as (_ & _ & _ & Hf). rewrite <-Forall_forall in Hf.
  unfold hash_fields in Hf. rewrite !Forall_cons in Hf. cbn [snd] in Hf.
  destruct Hf as (_ & (i & Ei & _)%valid_hex_hash_str & (o & Eo & _)%valid_hex_hash_str &
    (t & Et & _)%valid_hex_hash_str & (h & Eh & _)%valid_hex_hash_str & _).
  unfold bundle_id_ok, integrity_ok, circuit_ok, proof_check. rewrite Ei, Eo, Et, Eh.
  rewrite in_set_known by done. simpl. repeat case_match; eauto.
Qed.

(** [verify] never raises on a parsed bundle, except on a proof graph whose
    [depends_on] is not a collection of strings: every other ill-typed field
    is reported as a status. *)
Theorem verify_parsed_total j b :
  bundle_from_dict j = Ok b → edges_are_strings b →
  ∃ r, @verify mock_registry b = Ok r.
Proof.
  intros Hj Hedges. apply bundle_from_dict_valid in Hj as (_ & _ & _ & Hk & _).
  pose proof (verify_verdict (H := mock_registry) b) as Hv.
  unfold verdict, run_checks, optional_verdict in Hv.
  destruct (core_checks_total b Hk) as [f Hf]. destruct (graph_errors_total b Hedges) as [g Hg].
  rewrite Hf, Hg in Hv. simpl in Hv.
  destruct (@verify mock_registry b) as [r|e]; [by eauto|]. by destruct f.
Qed.

Lemma verify_parsed_total_witness : ∃ r, @verify mock_registry valid_trade_bundle = Ok r.
Proof. apply (verify_parsed_total valid_trade); [reflexivity|]. intros E. discriminate E. Defined.
