(* ===== verification/Issuing.v ===== *)
(** * Issuing bundles with the SDK (sdk/python/examples/build_and_verify.py)

    The example program of the SDK with its literals as parameters: hash the
    inputs, outputs and trace, fill the builders, build.  Every bundle it
    issues verifies.  Also: what the bundle builder keeps from one [build] to
    the next. *)
From S2P Require Export VerifierProps.

(** [json.dumps(obj, sort_keys=True, separators=(',', ':'))] *)
Definition json_dumps_sorted (j : json) : string := json_print (json_sort j).

Record demo_params := mkDemo {
  dm_inputs : json; dm_outputs : json; dm_trace : json;
  dm_circuit_id : json; dm_circuit_version : json;
  dm_weights : json; dm_runtime : json; dm_config : json;
  dm_provider_id : json; dm_model_name : json; dm_model_version : json;
  dm_environment : json; dm_proof_system : json;
  dm_issued_at : json }.

(** [main], up to the verification: the bundle it builds.  [now] is not read,
    since [issued_at] is set. *)
Definition demo (now : string) (p : demo_params) : result ProofBundle :=
  let input_hash := JStr (compute_input_hash (dm_inputs p)) in
  let output_hash := JStr (compute_output_hash (dm_outputs p)) in
  let trace_hash := JStr (compute_trace_hash (dm_trace p)) in
  integrity ← compute_integrity_hash input_hash output_hash trace_hash;
  let integrity_hash := JStr integrity in
  let circuit_hash := sha256 (json_dumps_sorted (JObj [
    ("circuit_id", dm_circuit_id p); ("circuit_version", dm_circuit_version p);
    ("spec_version", JStr "vrl/circuit/1.0")])) in
  ai ← ai_builder_set_execution_environment (dm_environment p)
         (ai_builder_compute_ai_id (dm_weights p) (dm_runtime p) (dm_config p)
            (dm_provider_id p) (dm_model_name p) (dm_model_version p) ai_builder_init);
  ai_identity ← ai_builder_build ai;
  let public_inputs := JList [input_hash; output_hash] in
  let proof_bytes := JStr (sha256 ("demo-proof-bytes:" +:+ integrity)) in
  let verification_key_id := JStr (sha256 ("demo-verification-key:" +:+ circuit_hash)) in
  let proof_hash := compute_proof_hash (JStr circuit_hash) proof_bytes public_inputs
                      (dm_proof_system p) trace_hash in
  computation ← co_builder_build
    (co_builder_set_integrity_hash integrity_hash
      (co_builder_set_trace_hash trace_hash
        (co_builder_set_output_hash output_hash
          (co_builder_set_input_hash input_hash
            (co_builder_set_circuit_hash (JStr circuit_hash)
              (co_builder_set_circuit_version (dm_circuit_version p)
                (co_builder_set_circuit_id (dm_circuit_id p) co_builder_init)))))));
  proof ← pr_builder_build
    (pr_builder_set_proof_hash (JStr proof_hash)
      (pr_builder_set_verification_key_id verification_key_id
        (pr_builder_set_public_inputs public_inputs
          (pr_builder_set_proof_bytes proof_bytes
            (pr_builder_set_proof_system (dm_proof_system p) pr_builder_init)))));
  bundle_id ← compute_bundle_id_from_integrity integrity_hash;
  '(bundle, _) ← bundle_builder_build now
    (set_bundle_id (JStr bundle_id)
      (set_issued_at (dm_issued_at p)
        (set_proof proof (set_computation computation
          (set_ai_identity ai_identity bundle_builder_init)))));
  Ok bundle.

(** What the program must be given: names that are present, an environment and
    a proof system of the specification. *)
Definition demo_ok (p : demo_params) : bool :=
  known valid_envs (dm_environment p) && known valid_systems (dm_proof_system p) &&
  forallb (fun j => negb (is_null j))
    [dm_circuit_id p; dm_circuit_version p; dm_provider_id p; dm_model_name p;
     dm_model_version p; dm_issued_at p].

(** Reading attributes back out of a builder. *)
Lemma get_dict_set_eq k v (d : dict) : get k (dict_set k v d) = v.
Proof. unfold get. by rewrite dict_get_set_eq. Qed.
Lemma get_dict_set_ne k k' v (d : dict) : k ≠ k' → get k (dict_set k' v d) = get k d.
Proof. intros. unfold get. by rewrite dict_get_set_ne. Qed.

Lemma missing_nil attrs self :
  missing attrs self = [] ↔ ∀ a, a ∈ attrs → is_null (get a self) = false.
Proof.
  unfold missing. induction attrs as [|a attrs IH]; [set_solver|].
  rewrite filter_cons. case_decide as E.
  - split; [done|]. intros H. rewrite H in E; set_solver.
  - rewrite IH. destruct (is_null (get a self)) eqn:E'; [done|]. set_solver.
Qed.

Lemma null_false j : is_null j = false ↔ j ≠ JNull.
Proof. by destruct j. Qed.

Lemma mock_circuit_hash_dumps i v :
  sha256 (json_dumps_sorted (JObj [("circuit_id", i); ("circuit_version", v);
                                   ("spec_version", JStr "vrl/circuit/1.0")])) =
  compute_mock_circuit_hash i v.
Proof. unfold compute_mock_circuit_hash, json_dumps_sorted. by rewrite canonical_json_print. Qed.

Lemma known_not_null ks j : known ks j = true → is_null j = false.
Proof. by destruct j. Qed.

Lemma demo_builds now p :
  demo_ok p = true → ∃ b, demo now p = Ok b ∧ @bundle_valid mock_registry b.
Proof.
  unfold demo_ok. rewrite !andb_true_iff. cbn [forallb].
  rewrite !andb_true_iff, !negb_true_iff.
  intros [[Henv Hsys] (Hci & Hcv & Hpi & Hmn & Hmv & Hia & _)].
  pose proof (known_not_null _ _ Henv) as Hen. pose proof (known_not_null _ _ Hsys) as Hsn.
  unfold demo. rewrite compute_integrity_hash_strs, mock_circuit_hash_dumps.
  cbn [mbind result_bind].
  unfold ai_builder_set_execution_environment.
  rewrite in_set_known by done. cbn [mbind result_bind negb].
  unfold ai_builder_build, co_builder_build, pr_builder_build.
  do 3 (rewrite (proj2 (missing_nil _ _)) by (apply Forall_forall; repeat (apply Forall_cons_2; [done|]); apply Forall_nil_2);
        cbn [mbind result_bind]).
  cbn [compute_bundle_id_from_integrity mbind result_bind].
  unfold bundle_builder_build.
  cbn [set_bundle_id set_issued_at set_proof set_computation set_ai_identity bundle_builder_init
    bb_ai_identity bb_computation bb_proof bb_issued_at bb_bundle_id bb_data_commitments
    is_null].
  rewrite Hia. cbn [mbind result_bind].
  eexists. split; [reflexivity|]. split; try done.
  - by apply null_false.
  - apply hash_wf_valid, sha256_hex_wf.
  - rewrite <-Forall_forall. repeat constructor; apply hash_wf_valid, sha256_hex_wf.
  - by eexists.
  - eexists. split; reflexivity.
  - eexists _, _. split_and!; [done|done|]. apply String.eqb_refl.
  - intros c Hc. by apply elem_of_nil in Hc.
Qed.

(** ** What a bundle builder remembers

    [build] stores the [bundle_id] and the [issued_at] it computed in the
    builder, so that a second [build] reuses them, whatever was set since. *)

Lemma build_computation now s b s' :
  bundle_builder_build now s = Ok (b, s') →
  Some (pb_computation b) = bb_computation s ∧
  bb_bundle_id s' = pb_bundle_id b ∧ bb_issued_at s' = pb_issued_at b ∧
  bb_data_commitments s' = bb_data_commitments s ∧
  pb_data_commitments b = (match bb_data_commitments s with [] => None | cs => Some cs end) ∧
  pb_issued_at b ≠ JNull ∧
  (bb_bundle_id s = JNull → ∃ i,
     compute_bundle_id_from_integrity (co_integrity_hash (pb_computation b)) = Ok i ∧
     pb_bundle_id b = JStr i) ∧
  (bb_bundle_id s ≠ JNull → pb_bundle_id b = bb_bundle_id s) ∧
  (bb_issued_at s ≠ JNull → pb_issued_at b = bb_issued_at s).
Proof.
  unfold bundle_builder_build. destruct s as [v i t [a|] [c|] [p|] d l g u]; try done.
  cbn [bb_ai_identity bb_computation bb_proof bb_issued_at bb_data_commitments bb_bundle_id].
  intros (s2 & Hs2 & [= <- <-])%bind_ok. revert Hs2.
  destruct (is_null t) eqn:Ht, (is_null i) eqn:Hi; cbn [set_issued_at_now set_issued_at
    bb_bundle_id]; rewrite Hi; intros Hs2; res_inv; simpl;
    first [apply is_null_spec in Hi as -> | apply null_false in Hi];
    first [apply is_null_spec in Ht as -> | apply null_false in Ht];
    split_and!; try done; eauto.
Qed.

(** The bundles of one builder, as an observer sees them. *)
Lemma view_commitments s b :
  pb_data_commitments (view s b) =
  match pb_data_commitments b with Some _ => Some (bb_data_commitments s) | None => None end.
Proof. by destruct b. Qed.

(** ** Properties *)

(** C5: completeness of the SDK: every bundle the example program issues, from
    any inputs, outputs and trace, any named circuit and model, any known
    environment and proof system, is built without an error and verifies
    VALID. *)
Theorem issued_bundles_verify now p :
  demo_ok p = true →
  ∃ b, demo now p = Ok b ∧ ∃ r, @verify mock_registry b = Ok r ∧ vr_status r = VALID.
Proof.
  intros (b & Hb & Hv)%(demo_builds now). exists b. split; [done|]. by apply verify_valid.
Qed.

(** The literals of the example. *)
Definition demo_literals : demo_params := {|
  dm_inputs := JObj [("hs_code", JStr "8507600000"); ("country_of_origin", JStr "CN");
    ("customs_value", JStr "1200.00"); ("freight", JStr "150.00");
    ("insurance", JStr "25.00"); ("quantity", JStr "2"); ("shipping_mode", JStr "ocean")];
  dm_outputs := JObj [("landed_cost", JStr "2150.12"); ("duty_amount", JStr "735.12");
    ("mpf_amount", JStr "32.71"); ("hmf_amount", JStr "3.00")];
  dm_trace := JList [
    JObj [("step", JInt 1); ("rule_ref", JStr "trade/import-landed-cost@2.0.0");
      ("inputs", JObj [("customs_value", JStr "1200.00"); ("quantity", JStr "2")]);
      ("outputs", JObj [("extended_value", JStr "2400.00")])];
    JObj [("step", JInt 2); ("rule_ref", JStr "trade/import-landed-cost@2.0.0");
      ("inputs", JObj [("extended_value", JStr "2400.00"); ("tariff_rate", JStr "0.3063")]);
      ("outputs", JObj [("duty_amount", JStr "735.12")])]];
  dm_circuit_id := JStr "trade/import-landed-cost@2.0.0";
  dm_circuit_version := JStr "2.0.0";
  dm_weights := JStr (sha256 "demo-model-weights");
  dm_runtime := JStr (sha256 "python-3.11|deterministic-runtime");
  dm_config := JStr (sha256 (String "{" (json_str "temperature" +:+ ": 0, " +:+
                                         json_str "top_p" +:+ ": 1}")));
  dm_provider_id := JStr "io.vrl.demo";
  dm_model_name := JStr "vrl-deterministic-engine";
  dm_model_version := JStr "1.0.0";
  dm_environment := JStr "deterministic";
  dm_proof_system := JStr "sha256-deterministic";
  dm_issued_at := JStr "2026-04-05T00:00:00.000Z" |}.

Lemma issued_bundles_verify_witness :
  ∃ b, demo "" demo_literals = Ok b ∧
    ∃ r, @verify mock_registry b = Ok r ∧ vr_status r = VALID.
Proof. apply issued_bundles_verify. vm_compute. reflexivity. Defined.

(** A builder that is reused keeps the [bundle_id] and the [issued_at] of its
    first bundle: after [set_computation] with another computation, the second
    bundle has the new computation under the old identifier, and it does not
    verify unless the identifiers happen to agree. *)
Theorem rebuilt_bundle_keeps_id now s b s' now' c b' s'' :
  bundle_builder_build now s = Ok (b, s') →
  bundle_builder_build now' (set_computation c s') = Ok (b', s'') →
  pb_bundle_id b' = pb_bundle_id b ∧ pb_issued_at b' = pb_issued_at b ∧
  pb_computation b' = c ∧
  (∀ i, compute_bundle_id_from_integrity (co_integrity_hash c) = Ok i →
        pb_bundle_id b ≠ JStr i → ¬ @bundle_valid mock_registry b').
Proof.
  intros H1%build_computation H2%build_computation.
  destruct H1 as (_ & Hid & Hia & _ & _ & Hn & Hi1 & Hi2 & _).
  destruct H2 as (Hc & _ & _ & _ & _ & _ & _ & Hi & Ht).
  replace (bb_bundle_id (set_computation c s')) with (pb_bundle_id b) in Hi
    by (rewrite <-Hid; by destruct s').
  replace (bb_issued_at (set_computation c s')) with (pb_issued_at b) in Ht
    by (rewrite <-Hia; by destruct s').
  replace (bb_computation (set_computation c s')) with (Some c) in Hc by by destruct s'.
  injection Hc as Hc.
  assert (pb_bundle_id b ≠ JNull) as Hb.
  { destruct (decide (bb_bundle_id s = JNull)) as [E|E].
    - by destruct (Hi1 E) as (? & _ & ->).
    - by rewrite Hi2. }
  split_and!; auto. intros i Hi' Hne Hv. apply Hne. rewrite <-(Hi Hb).
  destruct (bv_bundle_id b' Hv) as (i' & E & ->). rewrite Hc in E. congruence.
Qed.

Definition trade_builder : ProofBundleBuilder :=
  let b := valid_trade_bundle in
  fold_left (fun s c => add_data_commitment c s) (commitments_of b)
    (set_proof (pb_proof b) (set_computation (pb_computation b)
      (set_ai_identity (pb_ai_identity b) bundle_builder_init))).

Definition trade_built : ProofBundle * ProofBundleBuilder :=
  match bundle_builder_build "2026-04-04T12:00:00.000+00:00" trade_builder with
  | Ok r => r | Raise _ => (valid_trade_bundle, trade_builder) end.
Definition trade_rebuilt : ProofBundle * ProofBundleBuilder :=
  match bundle_builder_build "2026-04-05T12:00:00.000+00:00"
          (set_computation (pb_computation valid_tee_bundle) trade_built.2) with
  | Ok r => r | Raise _ => (valid_trade_bundle, trade_builder) end.

Lemma rebuilt_bundle_keeps_id_witness :
  let b := trade_built.1 in let b' := trade_rebuilt.1 in
  let c := pb_computation valid_tee_bundle in
  pb_bundle_id b' = pb_bundle_id b ∧ pb_issued_at b' = pb_issued_at b ∧
  pb_computation b' = c ∧
  (∀ i, compute_bundle_id_from_integrity (co_integrity_hash c) = Ok i →
        pb_bundle_id b ≠ JStr i → ¬ @bundle_valid mock_registry b').
Proof.
  apply (rebuilt_bundle_keeps_id "2026-04-04T12:00:00.000+00:00" trade_builder _ trade_built.2
           "2026-04-05T12:00:00.000+00:00" _ _ trade_rebuilt.2); vm_compute; reflexivity.
Defined.

(** A bundle shares its list of commitments with the builder it came from:
    [add_data_commitment] after [build] adds to the bundle that was built. *)
Theorem built_bundle_shares_commitments now s s1 c :
  session_build now s = Ok s1 → bb_data_commitments (se_builder s) ≠ [] →
  ∃ bs b, session_bundles (session_add c s1) = bs ++ [b] ∧
    pb_data_commitments b = Some (bb_data_commitments (se_builder s) ++ [c]).
Proof.
  unfold session_build. intros ([b s'] & Hb & [= <-])%bind_ok Hne.
  unfold session_bundles, session_add. cbn [se_builder se_bundles]. rewrite map_app. simpl.
  eexists _, _. split; [done|]. rewrite view_commitments.
  apply build_computation in Hb as (_ & _ & _ & Hd & -> & _).
  destruct (bb_data_commitments (se_builder s)) as [|x l] eqn:E; [done|].
  destruct s'; simpl in *. by rewrite Hd.
Qed.

Lemma built_bundle_shares_commitments_witness :
  ∃ s1 bs b, session_build "2026-04-04T12:00:00.000+00:00" (mkSession trade_builder []) = Ok s1 ∧
    session_bundles (session_add inhabitant s1) = bs ++ [b] ∧
    pb_data_commitments b = Some (bb_data_commitments trade_builder ++ [inhabitant]).
Proof.
  destruct (session_build "2026-04-04T12:00:00.000+00:00" (mkSession trade_builder []))
    as [s1|e] eqn:E.
  - destruct (built_bundle_shares_commitments _ _ s1 inhabitant E) as (bs & b & H1 & H2).
    + vm_compute. discriminate.
    + exists s1, bs, b. by split_and!.
  - exfalso. revert E. vm_compute. discriminate.
Defined.
