(* ===== verification/Standalone.v ===== *)
(** * The standalone verifier (verifier/vrl_verify.py)

    The same ten steps as the SDK's verifier, written over the parsed JSON
    document instead of the dataclasses, without dependencies: the hash
    functions are repeated, missing keys give [None], and a detail carries the
    recomputed and the stored value.  Then the report and the exit code. *)
From S2P Require Export Issuing.

Module Standalone.

(** ** Hashing utilities *)

Fixpoint canonical_json (j : json) : string :=
  match j with
  | JObj l =>
      "{" +:+ str_join "," (map pair_text
        (isort key_leb (map (fun p => (p.1, canonical_json p.2)) l))) +:+ "}"
  | JList l => "[" +:+ str_join "," (map canonical_json l) +:+ "]"
  | JStr s => json_str s
  | JBool b => if b then "true" else "false"
  | JNull => "null"
  | JInt z => str_of_Z z
  | JFloat t => t
  end.

Definition sha256 (data : string) : string := sha256_hex data.

Definition compute_integrity_hash (input_hash output_hash trace_hash : json) : result string :=
  s ← py_add (summand_of input_hash) (summand_of output_hash);
  s ← py_add s (summand_of trace_hash);
  sha256 <$> py_encode s.

Definition compute_proof_hash
    (circuit_hash proof_bytes public_inputs proof_system trace_hash : json) : string :=
  let public_inputs_hash := sha256 (canonical_json public_inputs) in
  sha256 (canonical_json (JObj [
    ("circuit_hash", circuit_hash);
    ("proof_bytes", proof_bytes);
    ("proof_system", proof_system);
    ("public_inputs", public_inputs);
    ("public_inputs_hash", JStr public_inputs_hash);
    ("trace_hash", trace_hash)])).

Definition compute_commitment_hash
    (dataset_id dataset_version dataset_hash provider_id committed_at : json) : string :=
  sha256 (canonical_json (JObj [
    ("committed_at", committed_at);
    ("dataset_hash", dataset_hash);
    ("dataset_id", dataset_id);
    ("dataset_version", dataset_version);
    ("provider_id", provider_id)])).

Definition compute_mock_circuit_hash (circuit_id circuit_version : json) : string :=
  sha256 (canonical_json (JObj [
    ("circuit_id", circuit_id);
    ("circuit_version", circuit_version);
    ("spec_version", JStr "vrl/circuit/1.0")])).

Definition mock_resolve_circuit (circuit_id circuit_version : json) : option dict :=
  Some [("circuit_id", circuit_id); ("circuit_version", circuit_version);
        ("circuit_hash", JStr (compute_mock_circuit_hash circuit_id circuit_version))].

Definition mock_registry : CircuitRegistry := {| resolve_circuit := mock_resolve_circuit |}.

Definition is_valid_hex_hash (value : json) : bool :=
  match value with
  | JStr s =>
      (String.length s =? 64)%nat &&
      match int_of_hex s with Some _ => String.eqb s (str_lower s) | None => false end
  | _ => false
  end.

(** ** Results *)

Record VerificationDetail := mkDetail {
  vd_step : list frag; vd_pass : bool; vd_message : list frag;
  vd_error_code : option VerificationStatus;
  vd_computed_value : json; vd_expected_value : json }.

Record VerificationResult := mkResult {
  vr_status : VerificationStatus; vr_bundle_id : json;
  vr_details : list VerificationDetail; vr_errors : list VerificationStatus;
  vr_is_valid : bool }.

Definition add_detail (d : VerificationDetail) (r : VerificationResult) : VerificationResult :=
  mkResult (vr_status r) (vr_bundle_id r) (vr_details r ++ [d]) (vr_errors r) (vr_is_valid r).

(** The section sign, U+00A7, of the step names. *)
Definition para (s : string) : list frag := [FText (String (chr 167) s)].

(** A PASS detail. *)
Definition pass (step : list frag) (msg : list frag) (computed : json) (r : VerificationResult)
    : result (bool * VerificationResult) :=
  Ok (true, add_detail (mkDetail step true msg None computed JNull) r).

(** A FAIL detail and its error code; an optional step leaves it at that. *)
Definition fail_detail (step : list frag) (msg : list frag) (code : VerificationStatus)
    (computed expected : json) (r : VerificationResult) : VerificationResult :=
  let r := add_detail (mkDetail step false msg (Some code) computed expected) r in
  mkResult (vr_status r) (vr_bundle_id r) (vr_details r) (vr_errors r ++ [code]) (vr_is_valid r).

(** ... a required one sets the status and [is_valid = False]. *)
Definition fail (step : list frag) (msg : list frag) (code : VerificationStatus)
    (computed expected : json) (r : VerificationResult) : result (bool * VerificationResult) :=
  let r := fail_detail step msg code computed expected r in
  Ok (false, mkResult code (vr_bundle_id r) (vr_details r) (vr_errors r) false).

(** ** Steps, over the parsed document *)

Section verifier.
Context `{CircuitRegistry}.
Implicit Types (bundle : dict) (r : VerificationResult).

Definition step1_version_check bundle r : result (bool * VerificationResult) :=
  let step := para "12.1 Version Check" in
  let v := get "vrl_version" bundle in
  if negb (is_str "1.0" v)
  then fail step [FText "Unsupported vrl_version: "; FVal v] UNSUPPORTED_VERSION JNull JNull r
  else pass step [FText "vrl_version "; FVal v; FText " is supported"] JNull r.

Definition required_fields : list string :=
  ["bundle_id"; "vrl_version"; "issued_at"; "ai_identity"; "computation"; "proof"].

Definition hash_fields : list string :=
  ["circuit_hash"; "input_hash"; "output_hash"; "trace_hash"; "integrity_hash"].

(** [bundle.get(k, {})] *)
Definition get_obj (k : string) (d : dict) : json := get_or (JObj []) k d.

Definition step2_schema_validation bundle r : result (bool * VerificationResult) :=
  let step := para "12.2 Schema Validation" in
  match find (fun k => negb (dict_mem k bundle)) required_fields with
  | Some k => fail step [FText "Required field missing: "; FText k] SCHEMA_INVALID JNull JNull r
  | None =>
      ai_id ← get_attr "ai_id" (get_obj "ai_identity" bundle);
      if negb (is_valid_hex_hash ai_id)
      then fail step [FText "Invalid ai_id format"] SCHEMA_INVALID JNull JNull r
      else
      computation ← as_dict (get_obj "computation" bundle);
      match find (fun k => negb (is_valid_hex_hash (get k computation))) hash_fields with
      | Some k => fail step [FText "Invalid "; FText k; FText " format"] SCHEMA_INVALID JNull JNull r
      | None =>
          proof_hash ← get_attr "proof_hash" (get_obj "proof" bundle);
          if negb (is_valid_hex_hash proof_hash)
          then fail step [FText "Invalid proof_hash format"] SCHEMA_INVALID JNull JNull r
          else pass step [FText "All required fields present and valid"] JNull r
      end
  end.

(** The [try] around the recomputation turns any exception into a failure. *)
Definition step3_bundle_id_check bundle r : result (bool * VerificationResult) :=
  let step := para "12.3 bundle_id Recomputation" in
  integrity_hash ← get_attr "integrity_hash" (get_obj "computation" bundle);
  match compute_bundle_id_from_integrity integrity_hash with
  | Raise e => fail step [FText "Could not recompute bundle_id: "; FText (exn_msg e)]
                 BUNDLE_ID_MISMATCH JNull JNull r
  | Ok recomputed =>
      let stored := get "bundle_id" bundle in
      if negb (is_str recomputed stored)
      then fail step [FText "bundle_id mismatch"] BUNDLE_ID_MISMATCH (JStr recomputed) stored r
      else pass step [FText "bundle_id "; FVal stored; FText " is valid"] (JStr recomputed) r
  end.

Definition step4_integrity_hash_check bundle r : result (bool * VerificationResult) :=
  let step := para "12.4 Integrity Hash Recomputation" in
  computation ← as_dict (get_obj "computation" bundle);
  let stored := get "integrity_hash" computation in
  recomputed ← compute_integrity_hash (get "input_hash" computation)
                 (get "output_hash" computation) (get "trace_hash" computation);
  if negb (is_str recomputed stored)
  then fail step [FText "integrity_hash mismatch"] INTEGRITY_MISMATCH (JStr recomputed) stored r
  else pass step [FText "integrity_hash verified"] (JStr recomputed) r.

Definition step5_circuit_resolution bundle r : result (bool * VerificationResult) :=
  let step := para "12.5 Circuit Registry Lookup" in
  computation ← as_dict (get_obj "computation" bundle);
  let circuit_id := get "circuit_id" computation in
  let stored := get "circuit_hash" computation in
  let circuit_version := get "circuit_version" computation in
  match resolve_circuit circuit_id circuit_version with
  | None => fail step [FText "Circuit not found: "; FVal circuit_id; FText "@";
                       FVal circuit_version] CIRCUIT_HASH_MISMATCH JNull JNull r
  | Some circuit =>
      let computed := get "circuit_hash" circuit in
      if negb (same_json computed stored)
      then fail step [FText "circuit_hash mismatch"] CIRCUIT_HASH_MISMATCH computed stored r
      else pass step [FText "Circuit "; FVal circuit_id; FText " verified"] computed r
  end.

Definition step6_proof_structure_validation bundle r : result (bool * VerificationResult) :=
  let step := para "12.6 Proof Verification" in
  proof ← as_dict (get_obj "proof" bundle);
  let proof_system := get "proof_system" proof in
  known ← in_set valid_systems proof_system;
  if negb known
  then fail step [FText "Invalid proof_system: "; FVal proof_system] PROOF_INVALID JNull JNull r
  else
  computation ← as_dict (get_obj "computation" bundle);
  let stored := get "proof_hash" proof in
  let recomputed := compute_proof_hash (get "circuit_hash" computation)
    (get_or (JStr "") "proof_bytes" proof) (get_or (JList []) "public_inputs" proof)
    proof_system (get "trace_hash" computation) in
  if negb (is_str recomputed stored)
  then fail step [FText "proof_hash mismatch"] PROOF_INVALID (JStr recomputed) stored r
  else pass step [FText "Proof structure valid for "; FVal proof_system] (JStr recomputed) r.

Definition step7_ai_id_verification bundle r : result (bool * VerificationResult) :=
  let step := para "12.7 AI-ID Verification" in
  ai_identity ← as_dict (get_obj "ai_identity" bundle);
  if negb (is_valid_hex_hash (get "ai_id" ai_identity))
  then fail step [FText "Invalid ai_id format"] AI_ID_INVALID JNull JNull r
  else if negb (truthy (get "provider_signature" ai_identity))
  then pass step
         [FText "AI-ID format valid (no provider_signature; AI-ID is advisory only)"] JNull r
  else pass step [FText ("AI-ID valid (provider_signature present but not verified in " +:+
                         "standalone mode)")] JNull r.

Definition commitment_hash_of (c : dict) : string :=
  compute_commitment_hash (get "dataset_id" c) (get "dataset_version" c) (get "dataset_hash" c)
    (get "provider_id" c) (get "committed_at" c).

(** The first commitment that does not match, its index and its recomputed
    hash; a commitment that is not an object raises. *)
Fixpoint first_bad_commitment (i : Z) (cs : list json) : result (option (Z * dict * string)) :=
  match cs with
  | [] => Ok None
  | c :: cs =>
      c ← as_dict c;
      let recomputed := commitment_hash_of c in
      if negb (is_str recomputed (get "commitment_hash" c)) then Ok (Some (i, c, recomputed))
      else first_bad_commitment (i + 1) cs
  end.

Definition step8_data_commitment_verification bundle r : result (bool * VerificationResult) :=
  let step := para "12.8 Data Commitment Signatures" in
  let commitments := get_or (JList []) "data_commitments" bundle in
  if negb (truthy commitments) then pass step [FText "No data commitments"] JNull r else
  cs ← py_iter commitments;
  bad ← first_bad_commitment 0 cs;
  match bad with
  | Some (i, c, recomputed) =>
      fail (step ++ [FText " ["; FVal (JInt i); FText "]"])
        [FText "commitment_hash mismatch for "; FVal (get "dataset_id" c)]
        DATA_COMMITMENT_INVALID (JStr recomputed) (get "commitment_hash" c) r
  | None =>
      n ← py_len commitments;
      pass step [FText "All "; FVal (JInt n); FText " data commitments verified"] JNull r
  end.

Definition step9_timestamp_verification bundle r : result (bool * VerificationResult) :=
  let step := para "12.9 Timestamp Validation" in
  legal ← as_dict (get_obj "legal" bundle);
  let tsa := get_obj "timestamp_authority" legal in
  if negb (truthy tsa) then Ok (true, r) else
  tsa ← as_dict tsa;
  if negb (truthy (get "tsa_token" tsa) && truthy (get "tsa_provider" tsa) &&
           truthy (get "tsa_hash_algorithm" tsa))
  then Ok (false, fail_detail step [FText "Incomplete timestamp_authority block"]
                    TIMESTAMP_INVALID JNull JNull r)
  else pass step [FText "Timestamp token from "; FVal (get "tsa_provider" tsa);
                  FText " (RFC 3161 verification skipped in standalone mode)"] JNull r.

(** [uuid.UUID(x)] with [except (ValueError, AttributeError)]. *)
Definition uuid_check (x : json) : result bool :=
  match x with
  | JStr s => Ok (match uuid_of_string s with Some _ => true | None => false end)
  | JNull => raise TypeError "one of the hex, bytes, ... arguments must be given"
  | _ => Ok false
  end.

Fixpoint first_bad_edge (ids : list json) : result (option json) :=
  match ids with
  | [] => Ok None
  | x :: ids => ok ← uuid_check x; if negb ok then Ok (Some x) else first_bad_edge ids
  end.

Definition step10_proof_graph_verification bundle r : result (bool * VerificationResult) :=
  let step := para "12.10 Output Envelope Binding" in
  proof_graph ← as_dict (get_obj "proof_graph" bundle);
  let depends_on := get_or (JList []) "depends_on" proof_graph in
  if negb (truthy depends_on) then Ok (true, r) else
  ids ← py_iter depends_on;
  bad ← first_bad_edge ids;
  match bad with
  | Some x => Ok (false, fail_detail step [FText "Invalid bundle_id in depends_on: "; FVal x]
                           GRAPH_EDGE_INVALID JNull JNull r)
  | None => pass step [FText ("Proof graph edges valid (recursive verification skipped in " +:+
                              "standalone mode)")] JNull r
  end.

(** [x = bundle.get(section); if x and x.get(key)] *)
Definition section_present (section key : string) bundle : result bool :=
  let x := get section bundle in
  if truthy x then truthy <$> get_attr key x else Ok false.

Definition set_partial r : VerificationResult :=
  mkResult VALID_PARTIAL (vr_bundle_id r) (vr_details r) (vr_errors r) (vr_is_valid r).

Definition optional (condition : result bool)
    (step : VerificationResult → result (bool * VerificationResult)) (r : VerificationResult)
    : result VerificationResult :=
  present ← condition;
  if negb present then Ok r else
  match step r with
  | Ok (true, r) => Ok r
  | Ok (false, r) => Ok (set_partial r)
  | Raise e => Raise e
  end.

(** [is_valid = status == VALID and not errors] *)
Definition finish r : VerificationResult :=
  mkResult (vr_status r) (vr_bundle_id r) (vr_details r) (vr_errors r)
    (bool_decide (vr_status r = VALID) && (length (vr_errors r) =? 0)%nat).

Definition verify_dict bundle : result VerificationResult :=
  let r := mkResult VALID (get_or (JStr "unknown") "bundle_id" bundle) [] [] true in
  guard (step1_version_check bundle r) (fun r =>
  guard (step2_schema_validation bundle r) (fun r =>
  guard (step3_bundle_id_check bundle r) (fun r =>
  guard (step4_integrity_hash_check bundle r) (fun r =>
  guard (step5_circuit_resolution bundle r) (fun r =>
  guard (step6_proof_structure_validation bundle r) (fun r =>
  guard (step7_ai_id_verification bundle r) (fun r =>
  guard (step8_data_commitment_verification bundle r) (fun r =>
  r ← optional (section_present "legal" "timestamp_authority" bundle)
        (step9_timestamp_verification bundle) r;
  r ← optional (section_present "proof_graph" "depends_on" bundle)
        (step10_proof_graph_verification bundle) r;
  Ok (finish r))))))))).

(** [Verifier.verify(bundle_dict)]: a document that is not an object has no
    [get]. *)
Definition verify (bundle : json) : result VerificationResult :=
  d ← as_dict bundle; verify_dict d.
End verifier.

(** ** Report *)

(** A line of the report: fragments and colour codes.  The check mark and the
    cross of the last lines are outside the modelled strings and stand as their
    code points. *)
Definition lines := list (list frag).

Record palette := mkPalette {
  GREEN : string; RED : string; BOLD : string; DIM : string; RESET : string }.

Definition esc (code : string) : string := String (chr 27) ("[" +:+ code +:+ "m").

(** [_disable_colors_if_needed] *)
Definition colors (isatty : bool) : palette :=
  if isatty then mkPalette (esc "92") (esc "91") (esc "1") (esc "90") (esc "0")
  else mkPalette "" "" "" "" "".

(** [str(value)[:32]] is only taken of what can be sliced. *)
Definition py_slice32 (j : json) : result (list frag) :=
  match j with
  | JStr s => Ok [FText (str_take 32 s)]
  | JList l => Ok [FVal (JList (take 32 l))]
  | JObj _ => raise TypeError "unhashable type: 'slice'"
  | _ => raise TypeError "object is not subscriptable"
  end.

Definition hash_line (p : palette) (verbose : bool) (label : string) (value : json)
    : result lines :=
  if verbose && truthy value then
    v ← py_slice32 value;
    Ok [[FText ("       " +:+ DIM p +:+ label)] ++ v ++ [FText ("..." +:+ RESET p)]]
  else Ok [].

Definition detail_lines (p : palette) (verbose : bool) (d : VerificationDetail) : result lines :=
  let status := if vd_pass d then GREEN p +:+ "[PASS]" +:+ RESET p
                else RED p +:+ "[FAIL]" +:+ RESET p in
  c ← hash_line p verbose "computed: " (vd_computed_value d);
  e ← hash_line p verbose "expected: " (vd_expected_value d);
  Ok ([[FText (status +:+ " ")] ++ vd_step d; [FText "       "] ++ vd_message d] ++ c ++ e).

Fixpoint str_repeat (n : nat) (s : string) : string :=
  match n with O => "" | S n => s +:+ str_repeat n s end.

Definition header_line (p : palette) (label pad : string) (v : json) : list frag :=
  [FText (BOLD p +:+ label +:+ RESET p +:+ pad); FVal v].

Definition format_result (isatty verbose : bool) (r : VerificationResult) (bundle : dict)
    : result lines :=
  let p := colors isatty in
  ai_identity ← as_dict (get_obj "ai_identity" bundle);
  computation ← as_dict (get_obj "computation" bundle);
  proof ← as_dict (get_obj "proof" bundle);
  let unknown := get_or (JStr "unknown") in
  steps ← traverse (detail_lines p verbose) (vr_details r);
  let verdict := if vr_is_valid r
    then [FText (GREEN p +:+ "VALID "); FText "U+2713"; FText (RESET p)]
    else [FText (RED p +:+ "INVALID "); FText "U+2717"; FText (RESET p)] in
  Ok ([[FText ""];
       [FText (BOLD p +:+ "VRL Proof Bundle Verifier v1.0" +:+ RESET p)];
       [FText (str_repeat 50 "=")];
       header_line p "Bundle ID:" "  " (vr_bundle_id r);
       header_line p "AI Model:" "   " (unknown "model_name" ai_identity);
       header_line p "Proof:" "      " (unknown "proof_system" proof);
       header_line p "Circuit:" "    " (unknown "circuit_id" computation);
       [FText ""];
       [FText (BOLD p +:+ "VERIFICATION STEPS" +:+ RESET p)];
       [FText (str_repeat 50 "-")]] ++ mjoin steps ++
      [[FText ""];
       [FText (BOLD p +:+ "RESULT: ")] ++ verdict ++ [FText (RESET p)];
       [FText (str_repeat 50 "=")]]).

(** ** [main]

    The text of the input, or [None] when the file cannot be read.  An
    uncaught exception ends the interpreter with status 1. *)
Definition main (isatty verbose json_output : bool) (input : option string) : Z :=
  match input with
  | None => 2
  | Some text =>
      match json_loads text with
      | None => 2
      | Some bundle =>
          match @verify mock_registry bundle with
          | Raise _ => 1
          | Ok r =>
              let printed := if json_output then Ok []
                             else d ← as_dict bundle; format_result isatty verbose r d in
              match printed with
              | Raise _ => 1
              | Ok _ => if vr_is_valid r then 0 else 1
              end
          end
      end
  end%Z.

End Standalone.
