(* ===== verification/VerifierAgree.v ===== *)
(** * The two verifiers agree

    On every document that [ProofBundle.from_dict] accepts, the standalone
    verifier and the SDK's give the same status and error codes, up to the
    differences stated in the properties: null identifiers, edges that are not
    strings, and what [is_valid] means for VALID_PARTIAL. *)
From S2P Require Export Standalone.

(** ** The hash functions are the SDK's *)

Lemma sa_integrity_hash i o t :
  Standalone.compute_integrity_hash i o t = compute_integrity_hash i o t.
Proof.
  unfold Standalone.compute_integrity_hash, compute_integrity_hash, integrity_text.
  destruct (py_add (summand_of i) (summand_of o)) as [s|]; [simpl|done].
  by destruct (py_add s (summand_of t)).
Qed.
Lemma sa_proof_hash c b p s t :
  Standalone.compute_proof_hash c b p s t = compute_proof_hash c b p s t.
Proof. reflexivity. Qed.
Lemma sa_commitment_hash i v h p a :
  Standalone.compute_commitment_hash i v h p a = compute_commitment_hash i v h p a.
Proof. reflexivity. Qed.
Lemma sa_circuit_hash i v :
  Standalone.compute_mock_circuit_hash i v = compute_mock_circuit_hash i v.
Proof. reflexivity. Qed.
Lemma sa_valid_hex_hash j : Standalone.is_valid_hex_hash j = is_valid_hex_hash j.
Proof. reflexivity. Qed.

(** ** What a parsed document looks like *)

Lemma has_all_get ks k d :
  has_all ks d = true → k ∈ ks → dict_get k d = Some (get k d).
Proof.
  unfold has_all. rewrite forallb_Forall, Forall_forall. intros H Hk. specialize (H k Hk).
  unfold dict_mem, get in *. by destruct (dict_get k d).
Qed.

Lemma ai_identity_inv j x :
  ai_identity_from_dict j = Ok x →
  ∃ d, j = JObj d ∧ ai_ai_id x = get "ai_id" d ∧
       ai_provider_signature x = get "provider_signature" d.
Proof. unfold ai_identity_from_dict. intros H. res_cases. destruct j; simplify_eq/=; eauto. Qed.

Lemma computation_inv j x :
  computation_from_dict j = Ok x →
  ∃ d, j = JObj d ∧
    x = mkComputation (get "circuit_id" d) (get "circuit_version" d) (get "circuit_hash" d)
          (get "input_hash" d) (get "output_hash" d) (get "trace_hash" d)
          (get "integrity_hash" d).
Proof. unfold computation_from_dict. intros H. res_cases. destruct j; simplify_eq/=; eauto. Qed.

Lemma proof_inv j x :
  proof_from_dict j = Ok x →
  ∃ d, j = JObj d ∧ pr_proof_system x = get "proof_system" d ∧
    pr_proof_hash x = get "proof_hash" d ∧
    pr_proof_bytes x = get_or (JStr "") "proof_bytes" d ∧
    pr_public_inputs x = get_or (JList []) "public_inputs" d.
Proof.
  unfold proof_from_dict. intros H. res_cases. destruct j; simplify_eq/=.
  eexists. split; [done|]. rewrite negb_false_iff in *. unfold get_or.
  rewrite !(has_all_get pr_required) by (done || set_solver). simpl. done.
Qed.

Lemma data_commitment_inv j x :
  data_commitment_from_dict j = Ok x →
  ∃ d, j = JObj d ∧ dc_commitment_hash x = get "commitment_hash" d ∧
    compute_commitment_hash (dc_dataset_id x) (dc_dataset_version x) (dc_dataset_hash x)
      (dc_provider_id x) (dc_committed_at x) = Standalone.commitment_hash_of d.
Proof.
  unfold data_commitment_from_dict. intros H. res_cases. destruct j; simplify_eq/=; eauto.
Qed.

Lemma timestamp_authority_inv j x :
  timestamp_authority_from_dict j = Ok x →
  ∃ d, j = JObj d ∧
    x = mkTimestampAuthority (get "tsa_token" d) (get "tsa_provider" d)
          (get "tsa_hash_algorithm" d).
Proof.
  unfold timestamp_authority_from_dict, kwargs. destruct j as [|?|?|?|?|?|d]; try done.
  destruct (keys_exactly _ d); [|done]. intros [= <-]. eauto.
Qed.

(** A section of a parsed object: absent, falsy, or parsed. *)
Lemma opt_section_inv {A} k (f : json → result A) d x :
  opt_section k f (JObj d) = Ok x →
  match x with
  | None => truthy (get k d) = false
  | Some a => truthy (get k d) = true ∧ f (get k d) = Ok a
  end.
Proof.
  rewrite opt_section_obj. unfold get. destruct (dict_get k d) as [v|]; simpl.
  - destruct (truthy v) eqn:E; [|by intros [= <-]].
    intros (a & Ha & <-)%fmap_ok. done.
  - by intros [= <-].
Qed.

Record parsed (d : dict) (b : ProofBundle) (ai co pr : dict) : Prop := {
  ps_ai : get "ai_identity" d = JObj ai;
  ps_co : get "computation" d = JObj co;
  ps_pr : get "proof" d = JObj pr;
  ps_required : has_all pb_required d = true;
  ps_version : pb_vrl_version b = get "vrl_version" d;
  ps_bundle_id : pb_bundle_id b = get "bundle_id" d;
  ps_issued : pb_issued_at b = get "issued_at" d;
  ps_ai_id : ai_ai_id (pb_ai_identity b) = get "ai_id" ai;
  ps_signature : ai_provider_signature (pb_ai_identity b) = get "provider_signature" ai;
  ps_computation : computation_from_dict (JObj co) = Ok (pb_computation b);
  ps_proof : proof_from_dict (JObj pr) = Ok (pb_proof b);
  ps_commitments :
    opt_section "data_commitments" data_commitments_from (JObj d) = Ok (pb_data_commitments b);
  ps_legal : opt_section "legal" legal_from_dict (JObj d) = Ok (pb_legal b);
  ps_graph : opt_section "proof_graph" proof_graph_from_dict (JObj d) = Ok (pb_proof_graph b) }.

Lemma bundle_from_dict_inv j b :
  bundle_from_dict j = Ok b → ∃ d ai co pr, j = JObj d ∧ parsed d b ai co pr.
Proof.
  unfold bundle_from_dict. intros H. apply bind_ok in H as (d & Hd & H).
  destruct j as [|?|?|?|?|?|d']; try done. injection Hd as ->.
  destruct (has_all pb_required d) eqn:Hreq; [|done].
  destruct (is_str "1.0" (get "vrl_version" d)); [|done]. cbn [negb] in H.
  apply bind_ok in H as (ai & Hai & H). apply bind_ok in H as (co & Hco & H).
  apply bind_ok in H as (pr & Hpr & H). apply bind_ok in H as (dc & Hdc & H).
  apply bind_ok in H as (le & Hle & H). apply bind_ok in H as (pg & Hpg & H).
  apply bind_ok in H as (tc & Htc & H). injection H as <-.
  destruct (ai_identity_inv _ _ Hai) as (dai & Eai & ? & ?).
  destruct (computation_inv _ _ Hco) as (dco & Eco & _).
  destruct (proof_inv _ _ Hpr) as (dpr & Epr & _).
  exists d, dai, dco, dpr. split; [done|]. split; simpl; try done; congruence.
Qed.

(** ** Each standalone step implements the SDK's check *)

Definition sa_outcome (r : Standalone.VerificationResult) : outcome_t :=
  (Standalone.vr_status r, Standalone.vr_errors r).

Lemma sa_fail step msg code c e r :
  ∃ r', Standalone.fail step msg code c e r = Ok (false, r') ∧
        sa_outcome r' = (code, (sa_outcome r).2 ++ [code]).
Proof. by eexists. Qed.

Lemma sa_pass step msg c r :
  ∃ r', Standalone.pass step msg c r = Ok (true, r') ∧ sa_outcome r' = sa_outcome r.
Proof. by eexists. Qed.

#[local] Hint Resolve sa_fail sa_pass : core.

Section agree.
Context `{CircuitRegistry} (d ai co pr : dict) (b : ProofBundle) (HP : parsed d b ai co pr).

Lemma get_obj_required k :
  k ∈ pb_required → Standalone.get_obj k d = get k d.
Proof using HP.
  intros Hk. unfold Standalone.get_obj, get_or.
  by rewrite (has_all_get pb_required k d (ps_required _ _ _ _ _ HP) Hk).
Qed.

Lemma sa_ai : Standalone.get_obj "ai_identity" d = JObj ai.
Proof using HP.
  rewrite get_obj_required by (unfold pb_required; set_solver). apply HP.
Qed.
Lemma sa_co : Standalone.get_obj "computation" d = JObj co.
Proof using HP.
  rewrite get_obj_required by (unfold pb_required; set_solver). apply HP.
Qed.
Lemma sa_pr : Standalone.get_obj "proof" d = JObj pr.
Proof using HP.
  rewrite get_obj_required by (unfold pb_required; set_solver). apply HP.
Qed.

Lemma parsed_computation :
  pb_computation b = mkComputation (get "circuit_id" co) (get "circuit_version" co)
    (get "circuit_hash" co) (get "input_hash" co) (get "output_hash" co)
    (get "trace_hash" co) (get "integrity_hash" co).
Proof using HP.
  destruct (computation_inv _ _ (ps_computation _ _ _ _ _ HP)) as (co' & [= <-] & ->). done.
Qed.

Lemma parsed_proof :
  pr_proof_system (pb_proof b) = get "proof_system" pr ∧
  pr_proof_hash (pb_proof b) = get "proof_hash" pr ∧
  pr_proof_bytes (pb_proof b) = get_or (JStr "") "proof_bytes" pr ∧
  pr_public_inputs (pb_proof b) = get_or (JList []) "public_inputs" pr.
Proof using HP.
  destruct (proof_inv _ _ (ps_proof _ _ _ _ _ HP)) as (pr' & [= <-] & ?). done.
Qed.

Lemma sa_step1 :
  step_implements sa_outcome (Standalone.step1_version_check d)
    (Ok (is_str "1.0" (pb_vrl_version b))) UNSUPPORTED_VERSION.
Proof using HP.
  intros r. unfold Standalone.step1_version_check. rewrite (ps_version _ _ _ _ _ HP).
  destruct (is_str "1.0" _); simpl; auto.
Qed.

Lemma sa_required : find (fun k => negb (dict_mem k d)) Standalone.required_fields = None.
Proof using HP.
  pose proof (ps_required _ _ _ _ _ HP) as Hr. unfold has_all, pb_required in Hr.
  cbn [forallb] in Hr. rewrite !andb_true_iff in Hr. destruct Hr as (R1&R2&R3&R4&R5&R6&_).
  unfold Standalone.required_fields. cbn [find]. by rewrite R1, R2, R3, R4, R5, R6.
Qed.

Lemma sa_step2 :
  pb_bundle_id b ≠ JNull → pb_issued_at b ≠ JNull →
  step_implements sa_outcome (Standalone.step2_schema_validation d) (Ok (schema_ok b))
    SCHEMA_INVALID.
Proof using HP.
  intros Hid Hia r. unfold Standalone.step2_schema_validation.
  rewrite sa_required, sa_ai, sa_co, sa_pr. cbn [get_attr as_dict fmap result_fmap mbind result_bind].
  unfold schema_ok. replace (forallb _ (required_checks b)) with true.
  2: { simpl. by rewrite (proj2 (null_false _) Hid), (proj2 (null_false _) Hia). }
  rewrite (ps_ai_id _ _ _ _ _ HP). change Standalone.is_valid_hex_hash with is_valid_hex_hash.
  destruct (is_valid_hex_hash (get "ai_id" ai)); cbn [andb negb]; [|auto].
  unfold hash_fields, Standalone.hash_fields. rewrite parsed_computation.
  destruct parsed_proof as (_ & -> & _). cbn [forallb find snd co_circuit_hash co_input_hash
    co_output_hash co_trace_hash co_integrity_hash].
  destruct (is_valid_hex_hash (get "circuit_hash" co)); cbn [andb negb]; [|auto].
  destruct (is_valid_hex_hash (get "input_hash" co)); cbn [andb negb]; [|auto].
  destruct (is_valid_hex_hash (get "output_hash" co)); cbn [andb negb]; [|auto].
  destruct (is_valid_hex_hash (get "trace_hash" co)); cbn [andb negb]; [|auto].
  destruct (is_valid_hex_hash (get "integrity_hash" co)); cbn [andb negb]; [|auto].
  destruct (is_valid_hex_hash (get "proof_hash" pr)); cbn [andb negb]; auto.
Qed.

Lemma sa_step3 :
  schema_ok b = true →
  step_implements sa_outcome (Standalone.step3_bundle_id_check d) (bundle_id_ok b)
    BUNDLE_ID_MISMATCH.
Proof using HP.
  intros (_ & _ & _ & Hf)%schema_ok_spec r.
  assert (is_valid_hex_hash (co_integrity_hash (pb_computation b)) = true)
    as (s & Es & _)%valid_hex_hash_str by (apply (Hf ("integrity_hash", _)); unfold hash_fields; set_solver).
  unfold Standalone.step3_bundle_id_check, bundle_id_ok. rewrite sa_co, Es.
  rewrite parsed_computation in Es. simpl in Es. unfold get_attr.
  cbn [as_dict fmap result_fmap mbind result_bind]. rewrite Es.
  rewrite (ps_bundle_id _ _ _ _ _ HP). cbn [compute_bundle_id_from_integrity mbind result_bind].
  destruct (is_str _ _); simpl; auto.
Qed.

Lemma sa_step4 :
  step_implements sa_outcome (Standalone.step4_integrity_hash_check d)
    (integrity_ok (pb_computation b)) INTEGRITY_MISMATCH.
Proof using HP.
  intros r. unfold Standalone.step4_integrity_hash_check, integrity_ok.
  rewrite sa_co, parsed_computation. cbn [as_dict mbind result_bind]. rewrite sa_integrity_hash.
  cbn [co_input_hash co_output_hash co_trace_hash co_integrity_hash].
  destruct (compute_integrity_hash _ _ _); simpl; [|done]. destruct (is_str _ _); simpl; auto.
Qed.

(** The registry's answer has the hash. *)
Definition answers_hash : Prop :=
  ∀ i v c, resolve_circuit i v = Some c → dict_mem "circuit_hash" c = true.

Lemma sa_step5 :
  answers_hash →
  step_implements sa_outcome (Standalone.step5_circuit_resolution d)
    (circuit_ok (pb_computation b)) CIRCUIT_HASH_MISMATCH.
Proof using HP.
  intros Hreg r. unfold Standalone.step5_circuit_resolution, circuit_ok.
  rewrite sa_co, parsed_computation. cbn [as_dict mbind result_bind co_circuit_id
    co_circuit_version co_circuit_hash].
  destruct (resolve_circuit _ _) as [c|] eqn:E; [|auto]. apply Hreg in E.
  assert (py_index "circuit_hash" (JObj c) = Ok (get "circuit_hash" c)) as ->
    by (unfold dict_mem, get in *; simpl; by destruct (dict_get "circuit_hash" c)).
  cbn [mbind result_bind]. destruct (same_json _ _); cbn [negb]; auto.
Qed.

Lemma sa_step6 :
  step_implements sa_outcome (Standalone.step6_proof_structure_validation d)
    (proof_check b) PROOF_INVALID.
Proof using HP.
  intros r. unfold Standalone.step6_proof_structure_validation, proof_check,
    recomputed_proof_hash. rewrite sa_pr, sa_co, parsed_computation.
  destruct parsed_proof as (-> & -> & -> & ->). cbn [as_dict mbind result_bind co_circuit_hash
    co_trace_hash].
  destruct (in_set _ _) as [[]|]; cbn [mbind result_bind negb andb]; [|auto|done].
  change Standalone.compute_proof_hash with compute_proof_hash.
  destruct (is_str _ _); simpl; auto.
Qed.

Lemma sa_step7 :
  schema_ok b = true →
  step_implements sa_outcome (Standalone.step7_ai_id_verification d) (Ok true) AI_ID_INVALID.
Proof using HP.
  intros (_ & _ & Hai & _)%schema_ok_spec r. unfold Standalone.step7_ai_id_verification.
  rewrite sa_ai. cbn [as_dict mbind result_bind].
  rewrite (ps_ai_id _ _ _ _ _ HP) in Hai. change Standalone.is_valid_hex_hash with is_valid_hex_hash. rewrite Hai. cbn [negb].
  destruct (truthy _); simpl; auto.
Qed.

Lemma bad_commitment_agree i cs xs :
  Forall2 (fun c x => data_commitment_from_dict c = Ok x) cs xs →
  ∃ bad, Standalone.first_bad_commitment i cs = Ok bad ∧
         (match bad with None => true | Some _ => false end) = forallb commitment_matches xs.
Proof using.
  intros Hcs. revert i. induction Hcs as [|c x cs xs Hc Hcs IH]; intros i; simpl; [by eauto|].
  destruct (data_commitment_inv _ _ Hc) as (dc & -> & Eh & Ec). simpl.
  unfold commitment_matches at 1. rewrite Eh, Ec.
  destruct (is_str _ _); simpl; [apply IH|]. eexists. split; [done|]. done.
Qed.

Lemma commitments_inv :
  match pb_data_commitments b with
  | None => truthy (get "data_commitments" d) = false
  | Some xs => ∃ cs, get "data_commitments" d = JList cs ∧ cs ≠ [] ∧
      Forall2 (fun c x => data_commitment_from_dict c = Ok x) cs xs
  end.
Proof using HP.
  pose proof (opt_section_inv _ _ _ _ (ps_commitments _ _ _ _ _ HP)) as Hc.
  destruct (pb_data_commitments b) as [xs|]; [|done]. destruct Hc as [Ht Hc].
  unfold data_commitments_from in Hc. apply bind_ok in Hc as (cs & Hcs & Hc).
  destruct (get "data_commitments" d) as [|?|?|?|s|l|k]; simplify_eq/=.
  - destruct s; simpl in *; done.
  - rewrite traverse_ok in Hc. exists cs. by destruct cs.
  - destruct k; simpl in *; done.
Qed.

Lemma get_or_truthy dflt k : truthy dflt = false → truthy (get_or dflt k d) = truthy (get k d).
Proof using. intros. unfold get_or, get. by destruct (dict_get k d). Qed.

Lemma get_or_truthy_eq dflt k :
  truthy dflt = false → truthy (get_or dflt k d) = true → get_or dflt k d = get k d.
Proof using. unfold get_or, get. destruct (dict_get k d); simpl; congruence. Qed.

Lemma sa_step8 :
  step_implements sa_outcome (Standalone.step8_data_commitment_verification d)
    (Ok (forallb commitment_matches (commitments_of b))) DATA_COMMITMENT_INVALID.
Proof using HP.
  intros r. unfold Standalone.step8_data_commitment_verification, commitments_of.
  pose proof commitments_inv as Hc. pose proof (get_or_truthy (JList []) "data_commitments" eq_refl) as E.
  destruct (pb_data_commitments b) as [xs|]; cbn [from_option id]; rewrite E.
  - destruct Hc as (cs & Ecs & Hne & Hcs). rewrite Ecs.
    replace (truthy (JList cs)) with true by by destruct cs. cbn [negb].
    rewrite get_or_truthy_eq, Ecs by (done || rewrite E, Ecs; by destruct cs).
    cbn [py_iter mbind result_bind].
    destruct (bad_commitment_agree 0 cs xs Hcs) as (bad & -> & <-).
    cbn [mbind result_bind py_len]. destruct bad as [[[]]|]; auto.
  - rewrite Hc. cbn [negb]. simpl. auto.
Qed.

Lemma legal_inv :
  match pb_legal b with
  | None => truthy (get "legal" d) = false
  | Some l => truthy (get "legal" d) = true ∧ ∃ dl, get "legal" d = JObj dl ∧
      opt_section "timestamp_authority" timestamp_authority_from_dict (JObj dl) =
        Ok (le_timestamp_authority l)
  end.
Proof using HP.
  pose proof (opt_section_inv _ _ _ _ (ps_legal _ _ _ _ _ HP)) as Hl.
  destruct (pb_legal b) as [l|]; [|done]. destruct Hl as [Ht Hl]. split; [done|].
  unfold legal_from_dict in Hl.
  apply bind_ok in Hl as (t & Hts & Hl). apply bind_ok in Hl as (a & _ & Hl).
  apply bind_ok in Hl as (j & Hj & Hl). apply bind_ok in Hl as (? & _ & Hl).
  apply bind_ok in Hl as (? & _ & Hl). injection Hl as <-.
  unfold get_attr in Hj. apply fmap_ok in Hj as (dl & Hdl & _).
  destruct (get "legal" d); simplify_eq/=. eauto.
Qed.

Lemma graph_inv :
  match pb_proof_graph b with
  | None => truthy (get "proof_graph" d) = false
  | Some g => truthy (get "proof_graph" d) = true ∧
      ∃ dg, get "proof_graph" d = JObj dg ∧ pg_depends_on g = get "depends_on" dg
  end.
Proof using HP.
  pose proof (opt_section_inv _ _ _ _ (ps_graph _ _ _ _ _ HP)) as Hg.
  destruct (pb_proof_graph b) as [g|]; [|done]. destruct Hg as [Ht Hg]. split; [done|].
  unfold proof_graph_from_dict in Hg. apply bind_ok in Hg as (dg & Hdg & [= <-]).
  destruct (get "proof_graph" d); simplify_eq/=. eauto.
Qed.

Lemma get_obj_truthy k dl x :
  dict_get k dl = Some x → Standalone.get_obj k dl = x.
Proof using. unfold Standalone.get_obj, get_or. by intros ->. Qed.

Lemma truthy_get_obj k dl :
  truthy (get k dl) = true → Standalone.get_obj k dl = get k dl.
Proof using. unfold Standalone.get_obj, get_or, get. by destruct (dict_get k dl). Qed.

Lemma sa_timestamp r :
  ∃ r', Standalone.optional (Standalone.section_present "legal" "timestamp_authority" d)
          (Standalone.step9_timestamp_verification d) r = Ok r' ∧
        sa_outcome r' = (match timestamp_errors b with [] => Standalone.vr_status r
                         | _ => VALID_PARTIAL end,
                         Standalone.vr_errors r ++ timestamp_errors b).
Proof using HP.
  unfold Standalone.optional, Standalone.section_present, timestamp_errors, timestamp_of.
  pose proof legal_inv as Hl. destruct (pb_legal b) as [l|].
  2: { rewrite Hl. simpl. exists r. split; [done|]. by rewrite app_nil_r. }
  destruct Hl as (Ht & dl & Edl & Hts). rewrite Ht. rewrite Edl.
  apply opt_section_inv in Hts. unfold get_attr. cbn [as_dict fmap result_fmap].
  destruct (le_timestamp_authority l) as [t|].
  2: { rewrite Hts. simpl. exists r. split; [done|]. by rewrite app_nil_r. }
  destruct Hts as [Htt Hts]. rewrite Htt. cbn [mbind result_bind negb].
  unfold Standalone.step9_timestamp_verification.
  rewrite (truthy_get_obj "legal" d Ht), Edl. cbn [as_dict mbind result_bind].
  rewrite (truthy_get_obj _ dl Htt), Htt. cbn [negb].
  apply timestamp_authority_inv in Hts as (dt & -> & ->). cbn [as_dict mbind result_bind].
  unfold timestamp_complete. cbn [ts_tsa_token ts_tsa_provider ts_tsa_hash_algorithm].
  destruct (truthy (get "tsa_token" dt) && _ && _); cbn [negb]; eexists; (split; [done|]).
  - unfold sa_outcome. simpl. by rewrite app_nil_r.
  - done.
Qed.

Lemma first_bad_edge_agree ids :
  (∀ x, x ∈ ids → ∃ s, x = JStr s) → Standalone.first_bad_edge ids = first_bad_edge ids.
Proof using.
  rewrite <-Forall_forall. induction 1 as [|x ids [s ->] Hids IH]; simpl; [done|].
  by rewrite IH.
Qed.

Lemma sa_graph r :
  edges_are_strings b →
  ∃ g r', graph_errors b = Ok g ∧
    Standalone.optional (Standalone.section_present "proof_graph" "depends_on" d)
      (Standalone.step10_proof_graph_verification d) r = Ok r' ∧
    sa_outcome r' = (match g with [] => Standalone.vr_status r | _ => VALID_PARTIAL end,
                     Standalone.vr_errors r ++ g).
Proof using HP.
  unfold edges_are_strings, graph_errors, Standalone.optional, Standalone.section_present,
    depends_of.
  pose proof graph_inv as Hg. destruct (pb_proof_graph b) as [g|]; intros Hs.
  2: { rewrite Hg. simpl. eexists [], r. split_and!; [done..|]. by rewrite app_nil_r. }
  destruct Hg as (Ht & dg & Edg & Ed). rewrite Ed in Hs |- *. rewrite Ht, Edg.
  unfold get_attr. cbn [as_dict fmap result_fmap mbind result_bind].
  destruct (truthy (get "depends_on" dg)) eqn:Htd; cbn [negb].
  2: { eexists [], r. split_and!; [done..|]. by rewrite app_nil_r. }
  destruct (Hs eq_refl) as (ids & Hids & Hstr). rewrite Hids. cbn [mbind result_bind].
  destruct (first_bad_edge_total ids Hstr) as [bad Hbad]. rewrite Hbad.
  unfold Standalone.step10_proof_graph_verification.
  rewrite (truthy_get_obj "proof_graph" d Ht), Edg. cbn [as_dict mbind result_bind].
  assert (get_or (JList []) "depends_on" dg = get "depends_on" dg) as ->
    by (unfold get_or, get in *; by destruct (dict_get "depends_on" dg)).
  rewrite Htd. cbn [negb]. rewrite Hids. cbn [mbind result_bind].
  rewrite first_bad_edge_agree, Hbad by done. cbn [mbind result_bind].
  destruct bad; eexists _, _; (split_and!; [done|done|]); [done|].
  unfold sa_outcome. simpl. by rewrite app_nil_r.
Qed.

Lemma sa_verify :
  answers_hash → pb_bundle_id b ≠ JNull → pb_issued_at b ≠ JNull → edges_are_strings b →
  sa_outcome <$> Standalone.verify_dict d = verdict b.
Proof using HP.
  intros Hreg Hid Hia Hedges. unfold verdict, core_checks, Standalone.verify_dict.
  rewrite !run_checks_cons.
  apply guard_implements; [apply sa_step1|done|]. intros r1 H1.
  destruct (schema_ok b) eqn:Hschema.
  2: { apply guard_stop; [rewrite <-Hschema; by apply sa_step2|done]. }
  apply (guard_skip _ _ SCHEMA_INVALID); [rewrite <-Hschema; by apply sa_step2|done|].
  intros r2 H2. rewrite check_true.
  apply guard_implements; [by apply sa_step3|done|]. intros r3 H3.
  apply guard_implements; [apply sa_step4|done|]. intros r4 H4.
  apply guard_implements; [by apply sa_step5|done|]. intros r5 H5.
  apply guard_implements; [apply sa_step6|done|]. intros r6 H6.
  apply (guard_skip _ _ AI_ID_INVALID); [by apply sa_step7|done|]. intros r7 H7.
  apply guard_implements; [apply sa_step8|done|]. intros r8 [= Hs8 He8].
  destruct (sa_timestamp r8) as (r9 & -> & [= Hs9 He9]). cbn [mbind result_bind].
  destruct (sa_graph r9 Hedges) as (g & r10 & Hg & -> & [= Hs10 He10]).
  unfold run_checks, optional_verdict. cbn [first_failure mbind result_bind]. rewrite Hg.
  cbn [mbind result_bind fmap result_fmap]. unfold sa_outcome. cbn [Standalone.finish
    Standalone.vr_status Standalone.vr_errors].
  rewrite Hs10, He10, Hs9, He9, Hs8, He8. simpl. f_equal.
  by destruct (timestamp_errors b), g.
Qed.
End agree.

Lemma mock_answers_hash : @answers_hash Standalone.mock_registry.
Proof. by intros i v c [= <-]. Qed.

(** ** [is_valid] *)

(** A required step leaves the outcome alone, or makes it final. *)
Definition step_final (step : Standalone.VerificationResult →
    result (bool * Standalone.VerificationResult)) : Prop :=
  ∀ r ok r', step r = Ok (ok, r') →
    if (ok : bool) then sa_outcome r' = sa_outcome r
    else Standalone.vr_is_valid r' = false ∧ Standalone.vr_status r' ≠ VALID.

(** An optional one leaves it alone or appends an error. *)
Definition step_optional (step : Standalone.VerificationResult →
    result (bool * Standalone.VerificationResult)) : Prop :=
  ∀ r r', step r = Ok (true, r') → sa_outcome r' = sa_outcome r.

Ltac step_shape :=
  unfold step_final, step_optional; intros;
  match goal with Hstep : _ = Ok _ |- _ => revert Hstep end; repeat case_match;
  repeat match goal with
  | |- (mbind _ ?m) = _ → _ => destruct m eqn:?; cbn [mbind result_bind]; repeat case_match
  end; try done; first [intros [= <- <-]; by split | by intros [= <-]].

Section shape.
Context `{CircuitRegistry}.
Implicit Types d : dict.

Lemma shape1 d : step_final (Standalone.step1_version_check d).
Proof using. unfold Standalone.step1_version_check. cbv zeta. step_shape. Qed.
Lemma shape2 d : step_final (Standalone.step2_schema_validation d).
Proof using. unfold Standalone.step2_schema_validation. cbv zeta. step_shape. Qed.
Lemma shape3 d : step_final (Standalone.step3_bundle_id_check d).
Proof using. unfold Standalone.step3_bundle_id_check. cbv zeta. step_shape. Qed.
Lemma shape4 d : step_final (Standalone.step4_integrity_hash_check d).
Proof using. unfold Standalone.step4_integrity_hash_check. cbv zeta. step_shape. Qed.
Lemma shape5 d : step_final (Standalone.step5_circuit_resolution d).
Proof using. unfold Standalone.step5_circuit_resolution. cbv zeta. step_shape. Qed.
Lemma shape6 d : step_final (Standalone.step6_proof_structure_validation d).
Proof using. unfold Standalone.step6_proof_structure_validation. cbv zeta. step_shape. Qed.
Lemma shape7 d : step_final (Standalone.step7_ai_id_verification d).
Proof using. unfold Standalone.step7_ai_id_verification. cbv zeta. step_shape. Qed.
Lemma shape8 d : step_final (Standalone.step8_data_commitment_verification d).
Proof using. unfold Standalone.step8_data_commitment_verification. cbv zeta. step_shape. Qed.
Lemma shape9 d : step_optional (Standalone.step9_timestamp_verification d).
Proof using. unfold Standalone.step9_timestamp_verification. cbv zeta. step_shape. Qed.
Lemma shape10 d : step_optional (Standalone.step10_proof_graph_verification d).
Proof using. unfold Standalone.step10_proof_graph_verification. cbv zeta. step_shape. Qed.

Definition is_valid_right (r : Standalone.VerificationResult) : Prop :=
  Standalone.vr_is_valid r = bool_decide (Standalone.vr_status r = VALID).

Lemma guard_valid step (k : Standalone.VerificationResult → _) r r' :
  step_final step → sa_outcome r = (VALID, []) →
  (∀ r1, sa_outcome r1 = (VALID, []) → k r1 = Ok r' → is_valid_right r') →
  guard (step r) k = Ok r' → is_valid_right r'.
Proof using.
  intros Hs Hr Hk. unfold guard. destruct (step r) as [[ok r1]|] eqn:E; [|done].
  apply Hs in E. destruct ok.
  - apply Hk. congruence.
  - intros [= <-]. destruct E as [E1 E2]. unfold is_valid_right.
    by rewrite E1, bool_decide_false.
Qed.

(** VALID comes with no error. *)
Definition clean (r : Standalone.VerificationResult) : Prop :=
  Standalone.vr_status r = VALID → Standalone.vr_errors r = [].

Lemma optional_clean c step r r' :
  step_optional step → clean r → Standalone.optional c step r = Ok r' → clean r'.
Proof using.
  intros Hs Hr. unfold Standalone.optional. destruct c as [[]|]; simpl; [|by intros [= <-]|done].
  destruct (step r) as [[[] r1]|] eqn:E; [|by intros [= <-]|done].
  intros [= <-]. apply Hs in E. injection E as E1 E2. intros Hv. rewrite E2.
  apply Hr. congruence.
Qed.

Lemma sa_is_valid d r : Standalone.verify_dict d = Ok r → is_valid_right r.
Proof using.
  unfold Standalone.verify_dict. cbv zeta.
  apply guard_valid; [apply shape1|done|]. intros r1 H1.
  apply guard_valid; [apply shape2|done|]. intros r2 H2.
  apply guard_valid; [apply shape3|done|]. intros r3 H3.
  apply guard_valid; [apply shape4|done|]. intros r4 H4.
  apply guard_valid; [apply shape5|done|]. intros r5 H5.
  apply guard_valid; [apply shape6|done|]. intros r6 H6.
  apply guard_valid; [apply shape7|done|]. intros r7 H7.
  apply guard_valid; [apply shape8|done|]. intros r8 [= Hs8 He8].
  intros (r9 & H9 & H10)%bind_ok. apply bind_ok in H10 as (r10 & H10 & [= <-]).
  apply optional_clean in H9; [|apply shape9|by intros ?].
  apply optional_clean in H10; [|apply shape10|done].
  unfold is_valid_right. simpl. destruct (decide (Standalone.vr_status r10 = VALID)) as [E|E].
  - rewrite bool_decide_true by done. by rewrite (H10 E).
  - by rewrite bool_decide_false by done.
Qed.
End shape.

(** ** Properties *)

(** C4: the standalone verifier agrees with the SDK's on every document that
    [from_dict] accepts with a [bundle_id] and an [issued_at] that are not null
    and edges that are strings: same status, same error codes, same exceptions.
    Without them they need not: see [null_bundle_id_differs]. *)
Theorem verifiers_agree j b :
  bundle_from_dict j = Ok b →
  pb_bundle_id b ≠ JNull → pb_issued_at b ≠ JNull → edges_are_strings b →
  sa_outcome <$> @Standalone.verify Standalone.mock_registry j =
  outcome <$> @verify mock_registry b.
Proof.
  intros (d & ai & co & pr & -> & HP)%bundle_from_dict_inv Hid Hia Hedges.
  rewrite verify_verdict. unfold Standalone.verify. cbn [as_dict mbind result_bind].
  by rewrite (sa_verify (H := Standalone.mock_registry) d ai co pr b HP mock_answers_hash).
Qed.

Lemma verifiers_agree_witness :
  sa_outcome <$> @Standalone.verify Standalone.mock_registry tampered =
  outcome <$> @verify mock_registry tampered_bundle.
Proof.
  apply verifiers_agree; [reflexivity|discriminate|discriminate|].
  intros E. vm_compute in E. discriminate E.
Defined.

(** The exit status of the command with [--json-output]: 2 for an input
    that cannot be read or is not JSON, 0 exactly for a document that verifies
    VALID, and 1 for everything else, VALID_PARTIAL and exceptions included. *)
Theorem standalone_exit_code isatty verbose input :
  Standalone.main isatty verbose true input =
  match input ≫= json_loads with
  | None => 2
  | Some j =>
      match @Standalone.verify Standalone.mock_registry j with
      | Ok r => if bool_decide (Standalone.vr_status r = VALID) then 0 else 1
      | Raise _ => 1
      end
  end%Z.
Proof.
  unfold Standalone.main. destruct input as [text|]; [|done]. simpl.
  destruct (json_loads text) as [j|]; [|done].
  destruct (@Standalone.verify Standalone.mock_registry j) as [r|] eqn:E; [|done].
  unfold Standalone.verify in E. apply bind_ok in E as (d & _ & E%sa_is_valid). by rewrite E.
Qed.

(** The two verifiers mean different things by [is_valid]: a bundle whose
    status is VALID_PARTIAL is valid for the SDK and not for the standalone
    verifier, whose documentation promises exit status 0 for it. *)
Theorem partial_is_valid_differs j b r r' :
  bundle_from_dict j = Ok b →
  pb_bundle_id b ≠ JNull → pb_issued_at b ≠ JNull → edges_are_strings b →
  @verify mock_registry b = Ok r → vr_status r = VALID_PARTIAL →
  @Standalone.verify Standalone.mock_registry j = Ok r' →
  is_valid r = true ∧ Standalone.vr_is_valid r' = false.
Proof.
  intros (d & ai & co & pr & -> & HP)%bundle_from_dict_inv Hid Hia Hedges Hr Hs Hr'.
  unfold Standalone.verify in Hr'. cbn [as_dict mbind result_bind] in Hr'.
  pose proof (sa_verify (H := Standalone.mock_registry) d ai co pr b HP mock_answers_hash
    Hid Hia Hedges) as Hv.
  pose proof (sa_is_valid d r' Hr') as Hright. rewrite Hr' in Hv.
  change (@verdict Standalone.mock_registry b) with (@verdict mock_registry b) in Hv.
  rewrite <-verify_verdict, Hr in Hv. injection Hv as Hs' _.
  unfold is_valid. rewrite Hs. split; [done|].
  unfold is_valid_right in Hright. by rewrite Hright, Hs', Hs.
Qed.

(** [valid_tee.json] with a timestamp authority that lacks a token. *)
Definition partial_tee : json :=
  dict_in "legal" (fun _ => JObj [("timestamp_authority", JObj [("tsa_token", JStr "");
    ("tsa_provider", JStr "tsa"); ("tsa_hash_algorithm", JStr "sha256")])]) valid_tee.
Definition partial_tee_bundle : ProofBundle := ok_default (bundle_from_dict partial_tee).

Lemma partial_is_valid_differs_witness :
  ∃ r r', @verify mock_registry partial_tee_bundle = Ok r ∧
    @Standalone.verify Standalone.mock_registry partial_tee = Ok r' ∧
    is_valid r = true ∧ Standalone.vr_is_valid r' = false.
Proof.
  destruct (@verify mock_registry partial_tee_bundle) as [r|] eqn:E;
    [|exfalso; revert E; vm_compute; discriminate].
  destruct (@Standalone.verify Standalone.mock_registry partial_tee) as [r'|] eqn:E';
    [|exfalso; revert E'; vm_compute; discriminate].
  exists r, r'. split; [reflexivity|]. split; [reflexivity|].
  apply (partial_is_valid_differs partial_tee partial_tee_bundle);
    [reflexivity|discriminate|discriminate| |exact E| |exact E'].
  - intros Ed. vm_compute in Ed. discriminate Ed.
  - apply (f_equal status_of) in E.
    assert (status_of (@verify mock_registry partial_tee_bundle) = Ok VALID_PARTIAL) as Es
      by (vm_compute; reflexivity).
    rewrite Es in E. by injection E.
Defined.

(** A null [bundle_id]: the statuses differ. *)
Definition null_id : json := dict_in "bundle_id" (fun _ => JNull) valid_tee.

Example null_bundle_id_differs :
  status_of (b ← bundle_from_dict null_id; @verify mock_registry b) = Ok SCHEMA_INVALID ∧
  Standalone.vr_status <$> @Standalone.verify Standalone.mock_registry null_id =
    Ok BUNDLE_ID_MISMATCH.
Proof. vm_compute. done. Qed.
