(* ===== verification/PyDecimal.v ===== *)
(** * decimal.Decimal and utils/decimal.py

    Decimals as triples of sign, coefficient and exponent, with the operations
    the engine uses in the context it sets ([prec = 28], the default rounding
    of results, half even): construction from text, [quantize] with
    ROUND_HALF_UP, [+], [*], comparison, [format(x, 'f')].  Then the money
    helpers of the repository.  Results have exponents near zero, far from the
    context's limits, which are not modelled. *)
From S2P Require Export Json.

Local Open Scope Z_scope.

Inductive decimal :=
  | Fin (neg : bool) (coeff exp : Z)
  | Inf (neg : bool)
  | NaN (neg signaling : bool) (payload : string).

#[global] Instance decimal_eq_dec : EqDecision decimal.
Proof. solve_decision. Defined.

#[global] Instance decimal_inhabited : Inhabited decimal := populate (Fin false 0 0).

Definition PREC : Z := 10 ^ 28.

(** ** Construction *)

Fixpoint dec_value (acc : Z) (s : string) : Z :=
  match s with "" => acc | String c s => dec_value (10 * acc + (ord c - 48)) s end.

(** The number of decimal digits of a positive integer. *)
Fixpoint count_digits (fuel : nat) (c : Z) : Z :=
  match fuel with
  | O => 0
  | S fuel => if c =? 0 then 0 else 1 + count_digits fuel (c / 10)
  end.
Definition ndigits (c : Z) : Z := count_digits (S (Z.to_nat (Z.log2 c))) c.

Definition MAX_EMAX : Z := 999999999999999999.
Definition MIN_ETINY : Z := -1999999999999999997.

(** Exponents the constructor accepts. *)
Definition exp_ok (coeff exp : Z) : bool :=
  (MIN_ETINY <=? exp) && (exp + Z.max 0 (ndigits coeff - 1) <=? MAX_EMAX).

Definition parse_exp (s : string) : option Z :=
  match s with
  | "" => Some 0
  | String c s =>
      if negb (Ascii.eqb c "e") then None else
      let '(neg, s) := match eat "-" s with
                       | Some s => (true, s)
                       | None => (false, default s (eat "+" s))
                       end in
      let '(ds, r) := str_span is_decimal s in
      if String.eqb ds "" || negb (String.eqb r "") then None
      else Some (if neg then - dec_value 0 ds else dec_value 0 ds)
  end.

Definition parse_finite (neg : bool) (s : string) : option decimal :=
  let '(i, r) := str_span is_decimal s in
  let '(f, r) := match eat "." r with
                 | Some r => str_span is_decimal r
                 | None => ("", r)
                 end in
  if String.eqb (i +:+ f) "" then None else
  e ← parse_exp r;
  let c := dec_value 0 (i +:+ f) in
  let e := e - Z.of_nat (String.length f) in
  if exp_ok c e then Some (Fin neg c e) else None.

(** A NaN with its payload: the digits without leading zeros. *)
Definition parse_nan (neg signaling : bool) (s : string) : option decimal :=
  if str_forall is_decimal s then Some (NaN neg signaling (str_lstrip_by (Ascii.eqb "0") s))
  else None.

(** [Decimal(text)]; [None] for [InvalidOperation].  White space around the
    number and underscores anywhere are ignored. *)
Definition decimal_of_string (text : string) : option decimal :=
  let s := str_lower (str_remove "_" (str_strip text)) in
  let '(neg, s) := match eat "-" s with
                   | Some s => (true, s)
                   | None => (false, default s (eat "+" s))
                   end in
  if String.eqb s "inf" || String.eqb s "infinity" then Some (Inf neg)
  else if str_prefix "nan" s then parse_nan neg false (str_drop 3 s)
  else if str_prefix "snan" s then parse_nan neg true (str_drop 4 s)
  else parse_finite neg s.

(** [Decimal(n)] *)
Definition decimal_of_int (n : Z) : decimal := Fin (n <? 0) (Z.abs n) 0.

(** ** Text *)

Fixpoint zeros (n : nat) : string :=
  match n with O => "" | S n => String "0" (zeros n) end.

(** Digits with [k] of them after the point. *)
Definition with_point (digits : string) (k : nat) : string :=
  let n := String.length digits in
  let digits := zeros (S k - n) +:+ digits in
  let n := String.length digits in
  str_take (n - k) digits +:+ "." +:+ str_drop (n - k) digits.

(** [format(x, 'f')] *)
Definition format_f (x : decimal) : string :=
  let sign (neg : bool) := if neg then "-" else "" in
  match x with
  | Fin neg c e =>
      sign neg +:+
      (if e >=? 0
       then (if c =? 0 then "0" else str_of_Z c +:+ zeros (Z.to_nat e))
       else with_point (str_of_Z c) (Z.to_nat (- e)))
  | Inf neg => sign neg +:+ "Infinity"
  | NaN neg sg p => sign neg +:+ (if sg then "s" else "") +:+ "NaN" +:+ p
  end.

(** ** Arithmetic *)

(** Coefficient divided by [10 ^ k], ties away from zero. *)
Definition div_half_up (c k : Z) : Z :=
  let p := 10 ^ k in if 2 * (c mod p) >=? p then c / p + 1 else c / p.

(** ... ties to even. *)
Definition div_half_even (c k : Z) : Z :=
  let p := 10 ^ k in
  let q := c / p in
  if 2 * (c mod p) >? p then q + 1
  else if (2 * (c mod p) =? p) && Z.odd q then q + 1 else q.

(** [x.quantize(Decimal(10) ** e, rounding=ROUND_HALF_UP)]: [InvalidOperation]
    when the result needs more than 28 digits. *)
Definition quantize (e : Z) (x : decimal) : result decimal :=
  match x with
  | Fin neg c x =>
      if c =? 0 then Ok (Fin neg 0 e)
      else if x - e >? 28 then raise InvalidOperation "quantize result has too many digits"
      else
        let c' := if x >=? e then c * 10 ^ (x - e)
                  else if e - x >? ndigits c then 0 else div_half_up c (e - x) in
        if c' <? PREC then Ok (Fin neg c' e)
        else raise InvalidOperation "quantize result has too many digits"
  | Inf _ => raise InvalidOperation "quantize with one INF"
  | NaN neg sg p => if sg then raise InvalidOperation "sNaN" else Ok x
  end.

(** Digits beyond the precision. *)
Definition excess (c : Z) : Z := Z.max 0 (ndigits c - 28).

(** Rounding a result to the context's precision. *)
Definition context_round (neg : bool) (c e : Z) : decimal :=
  if c <? PREC then Fin neg c e
  else
    let k := excess c in
    let q := div_half_even c k in
    if q <? PREC then Fin neg q (e + k) else Fin neg (q / 10) (e + k + 1).

(** [x * y] of finite decimals. *)
Definition dec_mul (x y : decimal) : result decimal :=
  match x, y with
  | Fin s c e, Fin t d f => Ok (context_round (xorb s t) (c * d) (e + f))
  | _, _ => raise InvalidOperation "operand is not finite"
  end.

Definition signed (neg : bool) (c : Z) : Z := if neg then - c else c.

(** [x + y] of finite decimals: a zero sum is negative when both are. *)
Definition dec_add (x y : decimal) : result decimal :=
  match x, y with
  | Fin s c e, Fin t d f =>
      let m := Z.min e f in
      let v := signed s (c * 10 ^ (e - m)) + signed t (d * 10 ^ (f - m)) in
      Ok (context_round (if v =? 0 then s && t else v <? 0) (Z.abs v) m)
  | _, _ => raise InvalidOperation "operand is not finite"
  end.

(** [x < y]; comparing a NaN by order raises. *)
Definition dec_lt (x y : decimal) : result bool :=
  match x, y with
  | Fin s c e, Fin t d f =>
      let m := Z.min e f in
      Ok (signed s (c * 10 ^ (e - m)) <? signed t (d * 10 ^ (f - m)))
  | NaN _ _ _, _ | _, NaN _ _ _ => raise InvalidOperation "comparison involving NaN"
  | Inf s, Inf t => Ok (s && negb t)
  | Inf s, _ => Ok s
  | _, Inf t => Ok (negb t)
  end.

(** ** utils/decimal.py *)

(** What the helpers are given. *)
Inductive pynum :=
  | NDecimal (d : decimal)
  | NBool (b : bool)
  | NInt (z : Z)
  | NStr (s : string)
  | NOther.

Definition to_decimal (value : pynum) : result decimal :=
  match value with
  | NDecimal d => Ok d
  | NBool _ => raise TypeError "Boolean values are not valid decimals"
  | NInt z => Ok (decimal_of_int z)
  | NStr s =>
      let s := str_strip s in
      if String.eqb s "" then raise ValueError "Empty string is not a valid decimal"
      else match decimal_of_string s with
           | Some d => Ok d
           | None => raise ValueError "Invalid decimal value: {}"
           end
  | NOther => raise TypeError "Unsupported decimal type: {}"
  end.

Definition money (value : pynum) : result decimal := d ← to_decimal value; quantize (-2) d.
Definition rate (value : pynum) : result decimal := d ← to_decimal value; quantize (-6) d.

Definition clamp_money (value : pynum) (minimum maximum : option pynum) : result decimal :=
  amount ← money value;
  low ← match minimum with
        | None => Ok None
        | Some m => m ← money m; lt ← dec_lt amount m;
                    Ok (if lt : bool then Some m else None)
        end;
  match low with
  | Some m => Ok m
  | None =>
      match maximum with
      | None => Ok amount
      | Some m => m ← money m; gt ← dec_lt m amount; Ok (if gt : bool then m else amount)
      end
  end.

(** [x.normalize()]: rounded to the context, without trailing zeros. *)
Fixpoint strip_zeros (fuel : nat) (c e : Z) : Z * Z :=
  match fuel with
  | O => (c, e)
  | S fuel => if c mod 10 =? 0 then strip_zeros fuel (c / 10) (e + 1) else (c, e)
  end.
Definition normalize (x : decimal) : result decimal :=
  match x with
  | Fin neg c e =>
      match context_round neg c e with
      | Fin neg c e =>
          if c =? 0 then Ok (Fin neg 0 0)
          else let '(c, e) := strip_zeros (Z.to_nat (ndigits c)) c e in Ok (Fin neg c e)
      | x => Ok x
      end
  | Inf _ => Ok x
  | NaN _ sg _ => if sg then raise InvalidOperation "sNaN" else Ok x
  end.

(** [normalized == normalized.to_integral()] for a normalized decimal. *)
Definition is_integral (x : decimal) : bool :=
  match x with Fin _ _ e => e >=? 0 | Inf _ => true | NaN _ _ _ => false end.

Definition format_decimal (value : pynum) : result string :=
  d ← to_decimal value; n ← normalize d;
  if is_integral n then q ← quantize 0 n; Ok (format_f q) else Ok (format_f n).

(** Checked against the interpreter. *)
Definition dec_text (s : string) : option string := format_f <$> decimal_of_string s.

Example dec_texts :
  map dec_text ["1_0"; "_1"; "+.5e+3"; " 12 "; "12.e3"; "."; "1e"; "1 2"; "0e1000000000000000000";
                "NaN12"; "-inf"; "-0.00"; "123E-5"; "1.20E+1"; "--1"; "0E+3"] =
  [Some "10"; Some "1"; Some "500"; Some "12"; Some "12000"; None; None; None; None;
   Some "NaN12"; Some "-Infinity"; Some "-0.00"; Some "0.00123"; Some "12.0"; None; Some "0"].
Proof. vm_compute. reflexivity. Qed.

Example money_texts :
  map (fun s => format_f <$> money (NStr s))
    ["-0"; "-0.001"; "-0.005"; "0.005"; "1.005"; "99999999999999999999999999.99";
     "99999999999999999999999999.995"; "1e25"; "1e26"; "1e-999999"; "0E+999999999"] =
  [Ok "-0.00"; Ok "-0.00"; Ok "-0.01"; Ok "0.01"; Ok "1.01"; Ok "99999999999999999999999999.99";
   raise InvalidOperation "quantize result has too many digits";
   Ok "10000000000000000000000000.00";
   raise InvalidOperation "quantize result has too many digits"; Ok "0.00"; Ok "0.00"].
Proof. vm_compute. reflexivity. Qed.
