(* ===== verification/ServerCanonical.v ===== *)
(** * Canonical payloads of the server (utils/canonical.py, hashing.py, time.py)

    The values the server hashes are Python objects, not JSON: models,
    decimals, dates, UUIDs, tuples and sets besides the JSON types.
    [canonicalize] turns them into JSON values, refusing floats, and
    [canonical_json] prints the result with sorted keys.  On JSON values
    without floats it gives the text of the SDK's [canonical_json]. *)
From S2P Require Export PyDecimal Canonical Hashlib.

(** ** Dates: the fields of an aware UTC [datetime] *)

Record datetime := mkDatetime {
  dt_year : Z; dt_month : Z; dt_day : Z; dt_hour : Z; dt_minute : Z; dt_second : Z;
  dt_microsecond : Z }.

#[global] Instance datetime_eq_dec : EqDecision datetime.
Proof. solve_decision. Defined.

(** [n] on at least [w] digits. *)
Definition pad (w : nat) (n : Z) : string :=
  let s := str_of_Z n in zeros (w - String.length s) +:+ s.

(** [value.isoformat()] *)
Definition isoformat (t : datetime) : string :=
  pad 4 (dt_year t) +:+ "-" +:+ pad 2 (dt_month t) +:+ "-" +:+ pad 2 (dt_day t) +:+ "T" +:+
  pad 2 (dt_hour t) +:+ ":" +:+ pad 2 (dt_minute t) +:+ ":" +:+ pad 2 (dt_second t) +:+
  (if (dt_microsecond t =? 0)%Z then "" else "." +:+ pad 6 (dt_microsecond t)) +:+ "+00:00".

Definition replace_microsecond (t : datetime) : datetime :=
  mkDatetime (dt_year t) (dt_month t) (dt_day t) (dt_hour t) (dt_minute t) (dt_second t) 0.

(** [utc_isoformat]: [astimezone(utc)] is the identity on UTC values. *)
Definition utc_isoformat (t : datetime) : string :=
  str_replace "+00:00" "Z" (isoformat (replace_microsecond t)).

(** ** Values *)

Inductive pyval :=
  | PNone
  | PBool (b : bool)
  | PInt (z : Z)
  | PFloat (lit : string)
  | PDecimal (d : decimal)
  | PDatetime (t : datetime)
  | PDate (iso : string)          (** [date] and [time], by their [isoformat()] *)
  | PUUID (text : string)         (** by [str(uuid)] *)
  | PStr (s : string)
  | PDict (l : list (string * pyval))
  | PModel (l : list (string * pyval))  (** a pydantic model or a dataclass *)
  | PList (l : list pyval)
  | PTuple (l : list pyval)
  | PSet (l : list string).       (** a set of strings, in any order *)

Section pyval_induction.
Context (P : pyval → Prop)
  (HNone : P PNone) (HBool : ∀ b, P (PBool b)) (HInt : ∀ z, P (PInt z))
  (HFloat : ∀ t, P (PFloat t)) (HDecimal : ∀ d, P (PDecimal d))
  (HDatetime : ∀ t, P (PDatetime t)) (HDate : ∀ t, P (PDate t)) (HUUID : ∀ t, P (PUUID t))
  (HStr : ∀ s, P (PStr s)) (HDict : ∀ l, Forall (fun p => P p.2) l → P (PDict l))
  (HModel : ∀ l, Forall (fun p => P p.2) l → P (PModel l))
  (HList : ∀ l, Forall P l → P (PList l)) (HTuple : ∀ l, Forall P l → P (PTuple l))
  (HSet : ∀ l, P (PSet l)).

Fixpoint pyval_rect_nested (v : pyval) : P v :=
  let fix go l : Forall P l :=
    match l with
    | [] => Forall_nil_2 _
    | x :: l => Forall_cons_2 _ _ _ (pyval_rect_nested x) (go l)
    end in
  let fix god l : Forall (fun p => P p.2) l :=
    match l with
    | [] => Forall_nil_2 _
    | x :: l => Forall_cons_2 _ _ _ (pyval_rect_nested x.2) (god l)
    end in
  match v with
  | PNone => HNone | PBool b => HBool b | PInt z => HInt z | PFloat t => HFloat t
  | PDecimal d => HDecimal d | PDatetime t => HDatetime t | PDate t => HDate t
  | PUUID t => HUUID t | PStr s => HStr s | PDict l => HDict l (god l)
  | PModel l => HModel l (god l) | PList l => HList l (go l) | PTuple l => HTuple l (go l)
  | PSet l => HSet l
  end.
End pyval_induction.

(** ** canonicalize *)

Definition str_leb (s t : string) : bool := String.leb s t.

Definition put_key (k : string) (r : result json) : result (string * json) :=
  (fun j => (k, j)) <$> r.

(** Keys are strings and distinct, so that [str] and the dictionary
    comprehension keep them all; strings are already in normal form C, which
    every string of code points below U+0100 is. *)
Fixpoint canonicalize (value : pyval) : result json :=
  match value with
  | PModel l | PDict l =>
      JObj <$> traverse (fun p => put_key p.1 p.2)
        (isort key_leb (map (fun p => (p.1, canonicalize p.2)) l))
  | PBool b => Ok (JBool b)
  | PFloat _ => raise TypeError "Float values are not allowed in canonical payloads: {}"
  | PDecimal d => Ok (JStr (format_f d))
  | PDatetime t => Ok (JStr (str_replace "+00:00" "Z" (isoformat t)))
  | PDate t => Ok (JStr t)
  | PUUID t => Ok (JStr t)
  | PStr s => Ok (JStr s)
  | PList l | PTuple l => JList <$> traverse id (map canonicalize l)
  | PSet l => Ok (JList (map JStr (isort str_leb l)))
  | PNone => Ok JNull
  | PInt z => Ok (JInt z)
  end.

(** [json.dumps(.., sort_keys=True, separators=(',', ':'), ensure_ascii=True)] *)
Definition json_dumps (j : json) : string := json_print (json_sort j).

Definition canonical_payload (value : pyval) : result string := json_dumps <$> canonicalize value.

(** [sha256_hex(canonical_json(value))] *)
Definition hash_payload (value : pyval) : result string := sha256_hex <$> canonical_payload value.

(** [constant_time_equal]: [hmac.compare_digest] wants ASCII strings. *)
Definition is_ascii (s : string) : bool := str_forall (fun c => (ord c <? 128)%Z) s.
Definition constant_time_equal (left right : string) : result bool :=
  if is_ascii left && is_ascii right then Ok (String.eqb left right)
  else raise TypeError "comparing strings with non-ASCII characters is not supported".

(** ** Values without floats always have a canonical form *)

Fixpoint float_free (v : pyval) : bool :=
  match v with
  | PFloat _ => false
  | PDict l | PModel l => forallb (fun p => float_free p.2) l
  | PList l | PTuple l => forallb float_free l
  | _ => true
  end.

(** The canonical form itself, for values without floats. *)
Fixpoint canonical_form (v : pyval) : json :=
  match v with
  | PModel l | PDict l => JObj (isort key_leb (map (fun p => (p.1, canonical_form p.2)) l))
  | PBool b => JBool b
  | PFloat t => JFloat t
  | PDecimal d => JStr (format_f d)
  | PDatetime t => JStr (str_replace "+00:00" "Z" (isoformat t))
  | PDate t | PUUID t | PStr t => JStr t
  | PList l | PTuple l => JList (map canonical_form l)
  | PSet l => JList (map JStr (isort str_leb l))
  | PNone => JNull
  | PInt z => JInt z
  end.

Definition opt_result {A} (c : bool) (x : A) (e : exn) : result A := if c then Ok x else Raise e.

Lemma traverse_isort_total (l : list (string * pyval)) :
  (∀ p, p ∈ l → canonicalize p.2 = Ok (canonical_form p.2)) →
  traverse (fun p => put_key p.1 p.2)
    (isort key_leb (map (fun p => (p.1, canonicalize p.2)) l)) =
  Ok (isort key_leb (map (fun p => (p.1, canonical_form p.2)) l)).
Proof.
  intros Hl. rewrite !(isort_map key_leb key_leb) by done.
  rewrite traverse_map. apply traverse_total. intros p Hp. rewrite elem_of_isort in Hp.
  simpl. by rewrite (Hl p Hp).
Qed.

Lemma canonicalize_total v : float_free v = true → canonicalize v = Ok (canonical_form v).
Proof.
  induction v as [|b|z|t|d|t|t|t|s|l IH|l IH|l IH|l IH|l] using pyval_rect_nested;
    simpl; try done; rewrite forallb_Forall, Forall_forall in *; intros Hl.
  1,2: rewrite traverse_isort_total; [done|auto].
  all: rewrite traverse_map, (traverse_total _ canonical_form); [done|simpl; auto].
Qed.

Definition float_error : exn :=
  Exn TypeError "Float values are not allowed in canonical payloads: {}".

Lemma traverse_raise {A B} (f : A → result B) l e :
  (∀ x, x ∈ l → f x = Raise e ∨ ∃ y, f x = Ok y) → (∃ x, x ∈ l ∧ f x = Raise e) →
  traverse f l = Raise e.
Proof.
  induction l as [|x l IH]; intros Hl (y & Hy & He); [by apply elem_of_nil in Hy|].
  simpl. destruct (Hl x) as [->|[z Ez]]; [set_solver|done|]. rewrite Ez. simpl.
  rewrite IH; [done|set_solver|]. apply elem_of_cons in Hy as [->|Hy]; [congruence|eauto].
Qed.

Lemma forallb_false {A} (f : A → bool) l : forallb f l = false → ∃ x, x ∈ l ∧ f x = false.
Proof.
  induction l as [|x l IH]; simpl; [done|]. destruct (f x) eqn:E; simpl; [|set_solver].
  intros (y & ? & ?)%IH. set_solver.
Qed.

Lemma canonicalize_cases v :
  canonicalize v = if float_free v then Ok (canonical_form v) else Raise float_error.
Proof.
  destruct (float_free v) eqn:E; [by apply canonicalize_total|].
  induction v as [|b|z|t|d|t|t|t|s|l IH|l IH|l IH|l IH|l] using pyval_rect_nested;
    simpl in E; try done; rewrite Forall_forall in IH;
    apply forallb_false in E as (p & Hp & Ep); simpl.
  1,2: rewrite (isort_map key_leb key_leb), traverse_map by done;
    erewrite traverse_raise; [done| |exists p; rewrite elem_of_isort; split; [done|];
      simpl; by rewrite (IH p Hp Ep)];
    intros q Hq; rewrite elem_of_isort in Hq; simpl; destruct (float_free q.2) eqn:Eq;
    [right; rewrite canonicalize_total by done; by eexists|left; by rewrite (IH q Hq Eq)].
  all: rewrite traverse_map; erewrite traverse_raise; [done| |exists p; split; [done|];
      exact (IH p Hp Ep)];
    intros q Hq; simpl; destruct (float_free q) eqn:Eq;
    [right; rewrite canonicalize_total by done; by eexists|left; exact (IH q Hq Eq)].
Qed.

(** ** JSON values *)

Fixpoint of_json (j : json) : pyval :=
  match j with
  | JNull => PNone
  | JBool b => PBool b
  | JInt z => PInt z
  | JFloat t => PFloat t
  | JStr s => PStr s
  | JList l => PList (map of_json l)
  | JObj l => PDict (map (fun p => (p.1, of_json p.2)) l)
  end.

Lemma canonical_form_of_json j : canonical_form (of_json j) = json_sort j.
Proof.
  induction j as [|b|z|t|s|l IH|l IH] using json_rect_nested; try done; simpl; f_equal.
  - rewrite map_map. apply map_ext_in. intros x Hx%list_elem_of_In.
    rewrite Forall_forall in IH. auto.
  - rewrite map_map. f_equal. apply map_ext_in. intros [k x] Hx%list_elem_of_In.
    rewrite Forall_forall in IH. simpl. f_equal. exact (IH _ Hx).
Qed.

(** ** Canonical texts determine canonical forms *)

(** Distinct keys everywhere, and no float. *)
Fixpoint pyval_wf (v : pyval) : bool :=
  match v with
  | PFloat _ => false
  | PDict l | PModel l => bool_decide (dict_wf l) && forallb (fun p => pyval_wf p.2) l
  | PList l | PTuple l => forallb pyval_wf l
  | _ => true
  end.

Lemma pyval_wf_float_free v : pyval_wf v = true → float_free v = true.
Proof.
  induction v as [|b|z|t|d|t|t|t|s|l IH|l IH|l IH|l IH|l] using pyval_rect_nested; simpl;
    try done; rewrite ?andb_true_iff, !forallb_Forall; rewrite !Forall_forall in *; naive_solver.
Qed.

Lemma canonical_form_wf v : pyval_wf v = true → json_wf (canonical_form v) = true.
Proof.
  induction v as [|b|z|t|d|t|t|t|s|l IH|l IH|l IH|l IH|l] using pyval_rect_nested;
    simpl; try done; rewrite ?andb_true_iff, ?bool_decide_eq_true, !forallb_Forall;
    rewrite !Forall_forall in *.
  1,2: intros [Hd Hl]; split;
    [ apply (dict_wf_perm (map (fun p => (p.1, canonical_form p.2)) l));
      [by rewrite isort_perm|by apply dict_wf_map_snd]
    | intros p; rewrite elem_of_isort; intros (q & -> & Hq)%elem_of_map;
      simpl; eauto ].
  1,2: intros Hl ? (x & -> & Hx)%elem_of_map; auto.
  intros _ j (x & -> & Hx)%elem_of_map. done.
Qed.

Lemma json_sort_canonical_form v : json_sort (canonical_form v) = canonical_form v.
Proof.
  induction v as [|b|z|t|d|t|t|t|s|l IH|l IH|l IH|l IH|l] using pyval_rect_nested;
    try done; simpl; f_equal; try rewrite Forall_forall in IH.
  1,2: rewrite <-(isort_map key_leb key_leb) by done;
    rewrite (isort_idemp key_leb key_leb_trans key_leb_total), map_map; f_equal;
    apply map_ext_in; intros [k x] Hx%list_elem_of_In; simpl; f_equal; exact (IH _ Hx).
  1,2: rewrite map_map; apply map_ext_in; intros x Hx%list_elem_of_In; auto.
  rewrite map_map. by apply map_ext_in.
Qed.

Lemma canonical_payload_free v :
  float_free v = true → canonical_payload v = Ok (json_print (canonical_form v)).
Proof.
  intros Hv. unfold canonical_payload. rewrite canonicalize_total by done. simpl. unfold json_dumps. by rewrite json_sort_canonical_form.
Qed.

(** The hash of a payload without floats. *)
Definition payload_hash (v : pyval) : string := sha256_hex (json_print (canonical_form v)).

Lemma hash_payload_free v :
  float_free v = true → hash_payload v = Ok (payload_hash v).
Proof. intros Hv. unfold hash_payload. by rewrite canonical_payload_free. Qed.

Lemma canonical_payload_inj u v :
  pyval_wf u = true → pyval_wf v = true →
  json_print (canonical_form u) = json_print (canonical_form v) → canonical_form u = canonical_form v.
Proof. intros. apply json_print_inj; auto using canonical_form_wf. Qed.

Lemma constant_time_equal_true x y :
  constant_time_equal x y = Ok true ↔ x = y ∧ is_ascii x = true.
Proof.
  unfold constant_time_equal. destruct (is_ascii x) eqn:Ex, (is_ascii y) eqn:Ey; simpl;
    split; try (by intros [-> ?]; congruence); try done.
  - by intros [= ->%String.eqb_eq].
  - intros [-> _]. by rewrite String.eqb_refl.
Qed.

Lemma hash_wf_ascii s : hash_wf s → is_ascii s = true.
Proof.
  intros [_ Hs]. eapply str_forall_impl; [|exact Hs]. intros c. apply implb_true_iff. revert c.
  apply forall_chars. vm_compute. reflexivity.
Qed.

Lemma constant_time_equal_hash x y :
  is_ascii x = true → hash_wf y → constant_time_equal x y = Ok (String.eqb x y).
Proof.
  intros Hx Hy%hash_wf_ascii. unfold constant_time_equal. by rewrite Hx, Hy.
Qed.

(** ** Properties *)

(** The server and the SDK canonicalise alike.  On a JSON value the server
    prints the SDK's canonical text when the value contains no float, and
    raises [TypeError] when it does. *)
Theorem canonicalisers_agree j :
  canonical_payload (of_json j) =
  if float_free (of_json j) then Ok (canonical_json j) else Raise float_error.
Proof.
  unfold canonical_payload. rewrite canonicalize_cases.
  destruct (float_free (of_json j)); [|done]. simpl. unfold json_dumps.
  by rewrite canonical_form_of_json, json_sort_idemp, canonical_json_print.
Qed.
