(* ===== verification/AuditChain.v ===== *)
(** * The audit chain (core/audit_chain.py)

    Audit events are partitioned over 64 hash chains.  A record carries the
    hash of its predecessor and the hash of that hash followed by the canonical
    text of the event.  [linked] says what a chain is; the verifier decides it,
    and the last hash of a chain binds everything before it. *)
From S2P Require Export ServerCanonical PyObj SdkHashing.

(** ** Data (models/schemas.py) *)

Record AuditEventRecord := mkAuditEvent {
  id : option Z;
  chain_id : Z;
  event_type : string;
  reference_id : option string;            (** [str(uuid)] *)
  event_payload : list (string * pyval);
  prev_hash : string;
  current_hash : string;
  created_at : datetime }.

Inductive audit_status := VALID | INVALID.

#[global] Instance audit_status_eq_dec : EqDecision audit_status.
Proof. solve_decision. Defined.

Record AuditChainVerificationResult := mkChainResult {
  status : audit_status;
  reason : string;
  checked_rows : nat;
  last_hash : option string;
  broken_record_id : option Z }.

(** ** Identifiers *)

Definition EVIDENCE_NAMESPACE : string := "d9ec1f3e-2d27-45d4-af5f-d8d5efcb7c1e".
Definition evidence_namespace : Z := default 0%Z (uuid_of_string EVIDENCE_NAMESPACE).
Definition AUDIT_CHAIN_PARTITIONS : Z := 64.

Definition chain_id_for_input (input_hash : string) : result Z :=
  match int_of_hex input_hash with
  | Some n => Ok (n mod AUDIT_CHAIN_PARTITIONS)%Z
  | None => raise ValueError "invalid literal for int() with base 16: {}"
  end.

Definition deterministic_request_id (input_hash : string) : string :=
  uuid5_str evidence_namespace ("request:" +:+ input_hash).
Definition deterministic_result_id (request_id output_hash : string) : string :=
  uuid5_str evidence_namespace ("result:" +:+ request_id +:+ ":" +:+ output_hash).
Definition deterministic_proof_id (request_id final_proof : string) : string :=
  uuid5_str evidence_namespace ("proof:" +:+ request_id +:+ ":" +:+ final_proof).

(** ** Hashes *)

Definition audit_hash_payload (event_type : string) (reference_id : option string)
    (event_payload : list (string * pyval)) (created_at : datetime) : list (string * pyval) :=
  [("event_type", PStr event_type);
   ("reference_id", match reference_id with Some r => PStr r | None => PNone end);
   ("event_payload", PDict event_payload);
   ("created_at", PStr (utc_isoformat created_at))].

Definition compute_audit_hash (prev_hash event_type : string) (reference_id : option string)
    (event_payload : list (string * pyval)) (created_at : datetime) : result string :=
  payload ← canonical_payload
              (PDict (audit_hash_payload event_type reference_id event_payload created_at));
  Ok (sha256_hex (prev_hash +:+ payload)).

Definition build_audit_event (event_type : string) (reference_id : option string)
    (event_payload : list (string * pyval)) (prev_hash : string) (created_at : datetime)
    (chain_id : Z) (id : option Z) : result AuditEventRecord :=
  current_hash ← compute_audit_hash prev_hash event_type reference_id event_payload created_at;
  Ok (mkAuditEvent id chain_id event_type reference_id event_payload prev_hash current_hash
        created_at).

(** The hash the record should carry. *)
Definition expected_hash (r : AuditEventRecord) : result string :=
  compute_audit_hash (prev_hash r) (event_type r) (reference_id r) (event_payload r) (created_at r).

(** ** Verification *)

Definition broken (reason : string) (index : nat) (previous_hash : string) (r : AuditEventRecord) :=
  mkChainResult INVALID reason index (Some previous_hash) (id r).

Fixpoint verify_records (index : nat) (previous_hash : string) (records : list AuditEventRecord)
    : result AuditChainVerificationResult :=
  match records with
  | [] => Ok (mkChainResult VALID "Audit chain verified successfully" index (Some previous_hash) None)
  | record :: records =>
      same ← constant_time_equal (prev_hash record) previous_hash;
      if negb same then
        Ok (broken "Previous hash mismatch detected in audit chain" index previous_hash record)
      else
        expected ← expected_hash record;
        same ← constant_time_equal (current_hash record) expected;
        if negb same then
          Ok (broken "Current hash mismatch detected in audit chain" index previous_hash record)
        else verify_records (S index) (current_hash record) records
  end.

Definition verify_single_chain (records : list AuditEventRecord)
    : result AuditChainVerificationResult := verify_records 0 ZERO_HASH records.

(** [chains], in insertion order. *)
Definition add_to_chain (chains : list (Z * list AuditEventRecord)) (record : AuditEventRecord) :=
  let cid := chain_id record in
  dict_set cid (default [] (dict_get cid chains) ++ [record]) chains.

Definition group_chains (records : list AuditEventRecord) : list (Z * list AuditEventRecord) :=
  foldl add_to_chain [] records.

(** The loop over [sorted(chains)]: the first result that is not VALID is
    returned, else the number of rows checked. *)
Fixpoint verify_chains (chains : list (list AuditEventRecord)) (total_checked : nat)
    : result (AuditChainVerificationResult + nat) :=
  match chains with
  | [] => Ok (inr total_checked)
  | records :: chains =>
      result ← verify_single_chain records;
      if negb (bool_decide (status result = VALID)) then Ok (inl result)
      else verify_chains chains (total_checked + checked_rows result)
  end.

Definition verify_audit_chain (records : list AuditEventRecord)
    : result AuditChainVerificationResult :=
  match last records with
  | None => Ok (mkChainResult VALID "Audit chain is empty" 0 (Some ZERO_HASH) None)
  | Some final =>
      let chains := group_chains records in
      r ← verify_chains (map (fun cid => default [] (dict_get cid chains))
                           (isort Z.leb (dict_keys chains))) 0;
      match r with
      | inl result => Ok result
      | inr total_checked =>
          Ok (mkChainResult VALID
                ("All " +:+ str_of_Z (Z.of_nat (length chains)) +:+
                 " audit chain partition(s) verified successfully")
                total_checked (Some (current_hash final)) None)
      end
  end.

(** ** What a chain is *)

Definition links_to (prev : string) (r : AuditEventRecord) : Prop :=
  prev_hash r = prev ∧ expected_hash r = Ok (current_hash r).

#[global] Instance links_to_dec prev r : Decision (links_to prev r).
Proof. unfold links_to. apply _. Defined.

Fixpoint linked (prev : string) (l : list AuditEventRecord) : Prop :=
  match l with
  | [] => True
  | r :: l => links_to prev r ∧ linked (current_hash r) l
  end.

(** The hash the next record must carry. *)
Definition tip (prev : string) (l : list AuditEventRecord) : string :=
  foldl (fun _ r => current_hash r) prev l.

Lemma tip_snoc prev l r : tip prev (l ++ [r]) = current_hash r.
Proof. unfold tip. by rewrite foldl_app. Qed.

Lemma tip_last prev l r : last l = Some r → tip prev l = current_hash r.
Proof. intros [k ->]%last_Some. apply tip_snoc. Qed.

Lemma linked_app prev l k : linked prev (l ++ k) ↔ linked prev l ∧ linked (tip prev l) k.
Proof. revert prev. induction l as [|r l IH]; intros prev; simpl; [tauto|]. rewrite IH. tauto. Qed.

Lemma linked_snoc prev l r : linked prev (l ++ [r]) ↔ linked prev l ∧ links_to (tip prev l) r.
Proof. rewrite linked_app. simpl. tauto. Qed.

Lemma expected_hash_wf r h : expected_hash r = Ok h → hash_wf h.
Proof.
  unfold expected_hash, compute_audit_hash. intros (p & _ & [= <-])%bind_ok. auto with vrl.
Qed.

Lemma links_to_wf prev r : links_to prev r → hash_wf (current_hash r).
Proof. intros [_ H]. by eapply expected_hash_wf. Qed.

Lemma tip_wf prev l : hash_wf prev → linked prev l → hash_wf (tip prev l).
Proof.
  revert prev. induction l as [|r l IH]; intros prev Hp; simpl; [done|].
  intros [Hr Hl]. apply (IH (current_hash r)); [by eapply links_to_wf|done].
Qed.

(** Where a chain breaks, if it does. *)
Lemma linked_or_broken prev l :
  linked prev l ∨
  ∃ good bad rest, l = good ++ bad :: rest ∧ linked prev good ∧ ¬ links_to (tip prev good) bad.
Proof.
  revert prev. induction l as [|r l IH]; intros prev; [by left|].
  destruct (decide (links_to prev r)) as [Hr|Hr]; [|right; by exists [], r, l].
  destruct (IH (current_hash r)) as [Hl|(g & b & k & -> & Hg & Hb)]; [by left|].
  right. by exists (r :: g), b, k.
Qed.

(** ** The verifier follows the chain *)

Lemma verify_records_links i prev r l :
  hash_wf prev → links_to prev r →
  verify_records i prev (r :: l) = verify_records (S i) (current_hash r) l.
Proof.
  intros Hp Hr. pose proof (links_to_wf _ _ Hr) as Hc. destruct Hr as [Hr He]. cbn [verify_records].
  rewrite Hr, He, constant_time_equal_hash by auto using hash_wf_ascii. simpl.
  rewrite String.eqb_refl. simpl. rewrite constant_time_equal_hash by auto using hash_wf_ascii.
  simpl. by rewrite String.eqb_refl.
Qed.

Lemma verify_records_app i prev l k :
  hash_wf prev → linked prev l →
  verify_records i prev (l ++ k) = verify_records (i + length l) (tip prev l) k.
Proof.
  revert i prev. induction l as [|r l IH]; intros i prev Hp; simpl (linked _ _).
  - by rewrite Nat.add_0_r.
  - intros [Hr Hl]. rewrite <-app_comm_cons, verify_records_links by done.
    rewrite IH by eauto using links_to_wf. simpl. by rewrite Nat.add_succ_r.
Qed.

Lemma verify_records_linked i prev l :
  hash_wf prev → linked prev l →
  verify_records i prev l =
  Ok (mkChainResult VALID "Audit chain verified successfully" (i + length l) (Some (tip prev l)) None).
Proof. intros. rewrite <-(app_nil_r l) at 1. by rewrite verify_records_app. Qed.

(** A record whose hashes can be compared and whose payload can be hashed. *)
Definition checkable (r : AuditEventRecord) : bool :=
  is_ascii (prev_hash r) && is_ascii (current_hash r) && float_free (PDict (event_payload r)).

Definition audit_text (r : AuditEventRecord) : string :=
  json_print (canonical_form (PDict
    (audit_hash_payload (event_type r) (reference_id r) (event_payload r) (created_at r)))).

Lemma expected_hash_text r :
  float_free (PDict (event_payload r)) = true →
  expected_hash r = Ok (sha256_hex (prev_hash r +:+ audit_text r)).
Proof.
  intros Hf. unfold expected_hash, compute_audit_hash. rewrite canonical_payload_free; [done|].
  simpl in *. by rewrite Hf; destruct (reference_id r).
Qed.

Lemma verify_records_broken i prev r l :
  hash_wf prev → checkable r = true → ¬ links_to prev r →
  ∃ reason, verify_records i prev (r :: l) = Ok (broken reason i prev r).
Proof.
  unfold checkable. rewrite !andb_true_iff. intros Hp [[Ha Hc] Hf] Hr. cbn [verify_records].
  rewrite constant_time_equal_hash by done. simpl (_ ≫= _).
  destruct (String.eqb_spec (prev_hash r) prev) as [E|E]; [|by eexists].
  rewrite expected_hash_text by done. simpl (_ ≫= _).
  rewrite constant_time_equal_hash by auto with vrl. simpl (_ ≫= _).
  destruct (String.eqb_spec (current_hash r) (sha256_hex (prev_hash r +:+ audit_text r))) as [Ec|Ec];
    [|by eexists].
  destruct Hr. split; [done|]. rewrite expected_hash_text by done. by rewrite <-Ec.
Qed.

Lemma verify_records_valid i prev l res :
  hash_wf prev → verify_records i prev l = Ok res → status res = VALID → linked prev l.
Proof.
  revert i prev. induction l as [|r l IH]; intros i prev Hp; [done|]. cbn [verify_records].
  intros (b & Hb & H)%bind_ok Hs. destruct b; [|simpl in H; by simplify_eq].
  apply constant_time_equal_true in Hb as [Hb _].
  apply bind_ok in H as (e & He & H). apply bind_ok in H as (b & Hb' & H).
  destruct b; [|simpl in H; by simplify_eq]. apply constant_time_equal_true in Hb' as [Hb' _].
  assert (links_to prev r) as Hr by by rewrite <-Hb' in He.
  split; [done|]. apply (IH (S i) (current_hash r)); eauto using links_to_wf.
Qed.

Lemma verify_single_chain_valid l res :
  verify_single_chain l = Ok res → status res = VALID → linked ZERO_HASH l.
Proof. apply verify_records_valid. auto with vrl. Qed.

Lemma verify_single_chain_linked l :
  linked ZERO_HASH l →
  verify_single_chain l =
  Ok (mkChainResult VALID "Audit chain verified successfully" (length l) (Some (tip ZERO_HASH l)) None).
Proof. apply (verify_records_linked 0). auto with vrl. Qed.

(** ** Grouping *)

Definition chain_of (cid : Z) (l : list AuditEventRecord) : list AuditEventRecord :=
  filter (fun r => chain_id r = cid) l.

Lemma chain_of_snoc cid l r :
  chain_of cid (l ++ [r]) = chain_of cid l ++ (if decide (chain_id r = cid) then [r] else []).
Proof.
  unfold chain_of. rewrite filter_app.
  by rewrite filter_cons, filter_nil.
Qed.

Lemma group_chains_get cid l : default [] (dict_get cid (group_chains l)) = chain_of cid l.
Proof.
  unfold group_chains. induction l as [|r l IH] using rev_ind; [done|].
  rewrite foldl_app, chain_of_snoc, <-IH. cbn [foldl]. unfold add_to_chain at 1.
  destruct (decide (chain_id r = cid)) as [E|E].
  - subst. by rewrite dict_get_set_eq.
  - by rewrite dict_get_set_ne, app_nil_r by done.
Qed.

Lemma group_chains_wf l : dict_wf (group_chains l).
Proof.
  unfold group_chains. induction l as [|r l IH] using rev_ind; [constructor|].
  rewrite foldl_app. by apply dict_set_wf.
Qed.

Lemma dict_set_keys {K V} `{!EqDecision K} (k k' : K) (v : V) d :
  k' ∈ dict_keys (dict_set k v d) ↔ k' = k ∨ k' ∈ dict_keys d.
Proof.
  destruct (decide (k ∈ dict_keys d)) as [Hk|Hk].
  - rewrite dict_set_keys_in by done. naive_solver.
  - rewrite dict_set_notin by done. unfold dict_keys. rewrite fmap_app. set_solver.
Qed.

Lemma group_chains_keys cid l : cid ∈ dict_keys (group_chains l) ↔ cid ∈ map chain_id l.
Proof.
  unfold group_chains. induction l as [|r l IH] using rev_ind; [done|].
  rewrite foldl_app, map_app. simpl. unfold add_to_chain at 1.
  rewrite dict_set_keys, IH. set_solver.
Qed.

(** The identifiers of the partitions in the order they are checked. *)
Definition sorted_cids (l : list AuditEventRecord) : list Z :=
  isort Z.leb (dict_keys (group_chains l)).

Lemma verify_audit_chain_eq l :
  verify_audit_chain l =
  match last l with
  | None => Ok (mkChainResult VALID "Audit chain is empty" 0 (Some ZERO_HASH) None)
  | Some final =>
      r ← verify_chains (map (fun cid => chain_of cid l) (sorted_cids l)) 0;
      Ok (match r with
          | inl result => result
          | inr total_checked =>
              mkChainResult VALID
                ("All " +:+ str_of_Z (Z.of_nat (length (group_chains l))) +:+
                 " audit chain partition(s) verified successfully")
                total_checked (Some (current_hash final)) None
          end)
  end.
Proof.
  unfold verify_audit_chain, sorted_cids. destruct (last l); [|done].
  erewrite map_ext; [|intros cid; apply group_chains_get].
  destruct (verify_chains _ _) as [[?|?]|?]; done.
Qed.

Lemma verify_chains_valid cs n m :
  verify_chains cs n = Ok (inr m) ↔
  Forall (linked ZERO_HASH) cs ∧ m = (n + sum_list_with length cs)%nat.
Proof.
  revert n. induction cs as [|c cs IH]; intros n; simpl.
  - split; [intros [= <-]; auto with lia|intros [_ ->]; by rewrite Nat.add_0_r].
  - rewrite Forall_cons. split.
    + intros (r & Hr & H)%bind_ok. case_bool_decide as Hs; simpl in H; [|done].
      pose proof (verify_single_chain_valid _ _ Hr Hs) as Hl.
      rewrite verify_single_chain_linked in Hr by done. simplify_eq/=.
      apply IH in H as [? ->]. split; [done|lia].
    + intros [[Hc Hcs] ->]. rewrite verify_single_chain_linked by done. simpl.
      apply IH. split; [done|lia].
Qed.

Lemma verify_chains_invalid cs n res :
  verify_chains cs n = Ok (inl res) → status res = INVALID.
Proof.
  revert n. induction cs as [|c cs IH]; intros n; simpl; [done|].
  intros (r & Hr & H)%bind_ok. case_bool_decide as Hs; simpl in H; [by eapply IH|].
  simplify_eq. by destruct (status res).
Qed.

Lemma sum_chains (ks : list Z) l :
  NoDup ks →
  sum_list_with length (map (fun k => chain_of k l) ks) = length (filter (fun r => chain_id r ∈ ks) l).
Proof.
  induction ks as [|k ks IH]; simpl; intros H.
  - clear. induction l as [|r l IH]; [done|]. rewrite filter_cons_False by set_solver. done.
  - apply NoDup_cons in H as [Hk Hks]. rewrite IH by done. clear -Hk. unfold chain_of.
    induction l as [|r l IH]; [done|]. rewrite !filter_cons.
    repeat case_decide; simpl; set_solver by lia.
Qed.

Lemma sorted_cids_perm l : sorted_cids l ≡ₚ dict_keys (group_chains l).
Proof. apply isort_perm. Qed.

Lemma sum_sorted_chains l :
  sum_list_with length (map (fun cid => chain_of cid l) (sorted_cids l)) = length l.
Proof.
  rewrite sum_chains.
  - f_equal. apply filter_all. intros r Hr.
    rewrite sorted_cids_perm, group_chains_keys. apply elem_of_map. eauto.
  - rewrite sorted_cids_perm. apply group_chains_wf.
Qed.

Lemma all_chains_linked l :
  Forall (linked ZERO_HASH) (map (fun cid => chain_of cid l) (sorted_cids l)) ↔
  ∀ cid, linked ZERO_HASH (chain_of cid l).
Proof.
  rewrite Forall_map, Forall_forall. split; [|auto]. intros H cid.
  destruct (decide (cid ∈ map chain_id l)) as [Hc|Hc].
  - apply H. by rewrite sorted_cids_perm, group_chains_keys.
  - unfold chain_of. replace (filter _ l) with (@nil AuditEventRecord); [done|].
    symmetry. apply filter_none. intros r Hr E. apply Hc.
    apply elem_of_map. eauto.
Qed.

Lemma verify_audit_chain_valid l res :
  (verify_audit_chain l = Ok res ∧ status res = VALID) ↔
  (∀ cid, linked ZERO_HASH (chain_of cid l)) ∧
  res = mkChainResult VALID
          (if decide (l = []) then "Audit chain is empty"
           else "All " +:+ str_of_Z (Z.of_nat (length (group_chains l))) +:+
                " audit chain partition(s) verified successfully")
          (length l) (Some (tip ZERO_HASH l)) None.
Proof.
  rewrite verify_audit_chain_eq, <-all_chains_linked.
  destruct l as [|r l] using rev_ind; [simpl; split; [intros [[= <-] _]|intros [_ ->]]; by repeat constructor|].
  rewrite last_snoc, tip_snoc, decide_False by by destruct l. clear IHl. split.
  - intros [(s & Hs & [= E])%bind_ok Hv]. destruct s as [s|m]; [subst; by apply verify_chains_invalid in Hs; congruence|].
    apply verify_chains_valid in Hs as [Hl ->]. rewrite sum_sorted_chains in E. auto.
  - intros [Hl ->]. split; [|done].
    assert (Hv := conj Hl (eq_refl (0 + sum_list_with length (map (fun cid => chain_of cid (l ++ [r])) (sorted_cids (l ++ [r])))))).
    apply verify_chains_valid in Hv. rewrite Hv, sum_sorted_chains. done.
Qed.

(** ** Binding *)

(** The text whose hash a record carries. *)
Definition preimage (r : AuditEventRecord) : string := prev_hash r +:+ audit_text r.

Definition payload_wf (r : AuditEventRecord) : bool := pyval_wf (PDict (event_payload r)).

(** The same event: everything the hash covers. *)
Definition same_event (r r' : AuditEventRecord) : Prop :=
  event_type r = event_type r' ∧ reference_id r = reference_id r' ∧
  canonical_form (PDict (event_payload r)) = canonical_form (PDict (event_payload r')) ∧
  utc_isoformat (created_at r) = utc_isoformat (created_at r').

Lemma audit_payload_wf r :
  payload_wf r = true →
  pyval_wf (PDict (audit_hash_payload (event_type r) (reference_id r) (event_payload r)
                     (created_at r))) = true.
Proof.
  unfold payload_wf, audit_hash_payload. intros H. cbn [pyval_wf forallb snd].
  cbn [pyval_wf] in H. rewrite H. by destruct (reference_id r).
Qed.

Lemma canonical_form_audit ty ref p t :
  canonical_form (PDict (audit_hash_payload ty ref p t)) =
  JObj [("created_at", JStr (utc_isoformat t)); ("event_payload", canonical_form (PDict p));
        ("event_type", JStr ty);
        ("reference_id", match ref with Some r => JStr r | None => JNull end)].
Proof. by destruct ref. Qed.

Lemma audit_text_inj r r' :
  payload_wf r = true → payload_wf r' = true → audit_text r = audit_text r' → same_event r r'.
Proof.
  intros Hr Hr' E. apply canonical_payload_inj in E; [|by apply audit_payload_wf..].
  unfold same_event. rewrite !canonical_form_audit in E. revert E.
  generalize (canonical_form (PDict (event_payload r))), (canonical_form (PDict (event_payload r'))).
  intros p p' [= ? -> ? ?]. split_and!; [done| |done..].
  destruct (reference_id r), (reference_id r'); congruence.
Qed.

Lemma links_to_preimage prev r :
  payload_wf r = true → links_to prev r → current_hash r = sha256_hex (preimage r).
Proof.
  intros Hr%pyval_wf_float_free [_ H]. rewrite expected_hash_text in H by done.
  by injection H.
Qed.

(** Two linked records with the same hash: the same event after the same
    predecessor, or a collision. *)
Lemma links_to_binding prev prev' r r' :
  hash_wf prev → hash_wf prev' → payload_wf r = true → payload_wf r' = true →
  links_to prev r → links_to prev' r' → current_hash r = current_hash r' →
  (prev = prev' ∧ same_event r r') ∨ collision (preimage r) (preimage r').
Proof.
  intros [Hp _] [Hp' _] Hw Hw' Hr Hr' E.
  rewrite (links_to_preimage prev r), (links_to_preimage prev' r') in E by done.
  apply sha256_hex_inj_or_collision in E as [E|]; [left|by right].
  unfold preimage in E. destruct Hr as [<- _], Hr' as [<- _].
  apply str_app_inj_length in E as [-> E]; [|congruence]. auto using audit_text_inj.
Qed.

(** Two different chains with the same tip exhibit a collision, or a text whose
    hash is sixty-four zeros. *)
Definition chain_forgery (l k : list AuditEventRecord) : Prop :=
  (∃ r r', r ∈ l ∧ r' ∈ k ∧ collision (preimage r) (preimage r')) ∨
  (∃ r, r ∈ l ++ k ∧ sha256_hex (preimage r) = ZERO_HASH).

Lemma chain_forgery_mono l l' k k' :
  l ⊆ l' → k ⊆ k' → chain_forgery l k → chain_forgery l' k'.
Proof.
  intros Hl Hk [(r & r' & ? & ? & ?)|(r & Hr & ?)]; [left; exists r, r'; naive_solver|right].
  exists r. split; [|done]. apply elem_of_app in Hr. apply elem_of_app. naive_solver.
Qed.

Lemma linked_binding l k :
  forallb payload_wf (l ++ k) = true → linked ZERO_HASH l → linked ZERO_HASH k →
  tip ZERO_HASH l = tip ZERO_HASH k → Forall2 same_event l k ∨ chain_forgery l k.
Proof.
  revert k. induction l as [|r l IH] using rev_ind; intros k; destruct k as [|r' k _] using rev_ind;
    rewrite ?linked_snoc, ?tip_snoc; repeat rewrite forallb_app; cbn [forallb];
    repeat rewrite andb_true_iff.
  - by left.
  - intros (_ & _ & Hw & _) _ [_ Hr'] E. right; right. exists r'. split; [set_solver|].
    by rewrite <-(links_to_preimage _ _ Hw Hr').
  - intros ((_ & Hw & _) & _) [_ Hr] _ E. right; right. exists r. split; [set_solver|].
    by rewrite <-(links_to_preimage _ _ Hw Hr).
  - intros ((Hl & Hr & _) & Hk & Hr' & _) [Ll Lr] [Lk Lr'] E.
    pose proof (tip_wf _ _ ZERO_HASH_wf Ll) as H. pose proof (tip_wf _ _ ZERO_HASH_wf Lk) as H0.
    destruct (links_to_binding _ _ _ _ H H0 Hr Hr' Lr Lr' E) as [[Et Hs]|Hc].
    + destruct (IH k) as [Hf|Hf]; [by rewrite forallb_app, Hl, Hk|done..| |].
      * left. apply Forall2_app; [done|]. apply Forall2_cons. split; [done|apply Forall2_nil_2].
      * right. eapply chain_forgery_mono; [..|exact Hf]; set_solver.
    + right; left. exists r, r'. set_solver.
Qed.

(** ** Appending *)

Lemma build_audit_event_links ty ref p prev t cid i r :
  build_audit_event ty ref p prev t cid i = Ok r → links_to prev r ∧ chain_id r = cid ∧ id r = i.
Proof.
  unfold build_audit_event. intros (h & Hh & [= <-])%bind_ok. done.
Qed.

(** A linked extension of its own chain keeps every chain linked. *)
Lemma all_linked_snoc l r :
  (∀ cid, linked ZERO_HASH (chain_of cid l)) → links_to (tip ZERO_HASH (chain_of (chain_id r) l)) r →
  ∀ cid, linked ZERO_HASH (chain_of cid (l ++ [r])).
Proof.
  intros Hl Hr cid. rewrite chain_of_snoc. destruct (decide (chain_id r = cid)) as [<-|].
  - by rewrite linked_snoc.
  - by rewrite app_nil_r.
Qed.

(** ** Samples *)

Definition sample_time : datetime := mkDatetime 2026 3 1 12 0 5 0.

Definition sample_event (ty prev : string) (cid i : Z) : AuditEventRecord :=
  match build_audit_event ty (Some (deterministic_request_id ZERO_HASH))
          [("input_hash", PStr ZERO_HASH); ("reason", PStr ty)] prev sample_time cid (Some i) with
  | Ok r => r
  | Raise _ => mkAuditEvent None 0 "" None [] "" "" sample_time
  end.

(** Two partitions, interleaved. *)
Definition sample_1 : AuditEventRecord :=
  Eval vm_compute in sample_event "calculation_persisted" ZERO_HASH 7 1.
Definition sample_2 : AuditEventRecord :=
  Eval vm_compute in sample_event "calculation_persisted" ZERO_HASH 3 2.
Definition sample_3 : AuditEventRecord :=
  Eval vm_compute in sample_event "calculation_rejected_duplicate" (current_hash sample_1) 7 3.
Definition sample_records : list AuditEventRecord := [sample_2; sample_1; sample_3].

Definition sample_altered : AuditEventRecord :=
  mkAuditEvent (id sample_3) 7 "calculation_persisted" (reference_id sample_3)
    (event_payload sample_3) (prev_hash sample_3) (current_hash sample_3) sample_time.

(** ** Properties *)

(** C20: the audit log is VALID exactly when every partition is a hash chain from
    [ZERO_HASH], whatever the interleaving of the partitions in the log; then
    every row is counted, and the last hash is the last row's. *)
Theorem audit_chain_valid_iff records res :
  (verify_audit_chain records = Ok res ∧ status res = VALID) ↔
  (∀ cid, linked ZERO_HASH (chain_of cid records)) ∧
  res = mkChainResult VALID
          (if decide (records = []) then "Audit chain is empty"
           else "All " +:+ str_of_Z (Z.of_nat (length (group_chains records))) +:+
                " audit chain partition(s) verified successfully")
          (length records) (Some (tip ZERO_HASH records)) None.
Proof. apply verify_audit_chain_valid. Qed.

(** Tampering is localised.  On rows that can be checked (ASCII hashes, no
    floats) the verifier of one chain always answers: VALID on a chain, and
    otherwise INVALID with the number of rows before the first one that does
    not follow, the hash it should have followed, and its identifier. *)
Theorem single_chain_verdict l :
  forallb checkable l = true →
  (linked ZERO_HASH l ∧
   verify_single_chain l =
   Ok (mkChainResult VALID "Audit chain verified successfully" (length l)
         (Some (tip ZERO_HASH l)) None)) ∨
  (∃ good bad rest reason,
     l = good ++ bad :: rest ∧ linked ZERO_HASH good ∧ ¬ links_to (tip ZERO_HASH good) bad ∧
     verify_single_chain l =
     Ok (mkChainResult INVALID reason (length good) (Some (tip ZERO_HASH good)) (id bad))).
Proof.
  intros Hl. destruct (linked_or_broken ZERO_HASH l) as [H|(g & b & k & -> & Hg & Hb)].
  - left. split; [done|]. by apply verify_single_chain_linked.
  - right. rewrite forallb_app in Hl. apply andb_true_iff in Hl as [_ [Hc _]%andb_true_iff].
    destruct (verify_records_broken (length g) (tip ZERO_HASH g) b k) as [reason E];
      [by apply tip_wf|done..|].
    exists g, b, k, reason. split_and!; [done..|]. unfold verify_single_chain.
    by rewrite verify_records_app.
Qed.

Lemma single_chain_verdict_witness :
  let l := [sample_1; sample_altered] in
  (linked ZERO_HASH l ∧
   verify_single_chain l =
   Ok (mkChainResult VALID "Audit chain verified successfully" (length l)
         (Some (tip ZERO_HASH l)) None)) ∨
  (∃ good bad rest reason,
     l = good ++ bad :: rest ∧ linked ZERO_HASH good ∧ ¬ links_to (tip ZERO_HASH good) bad ∧
     verify_single_chain l =
     Ok (mkChainResult INVALID reason (length good) (Some (tip ZERO_HASH good)) (id bad))).
Proof. apply single_chain_verdict. vm_compute. reflexivity. Defined.

Example single_chain_altered :
  verify_single_chain [sample_1; sample_altered] =
  Ok (mkChainResult INVALID "Current hash mismatch detected in audit chain" 1
        (Some (current_hash sample_1)) (Some 3%Z)).
Proof. vm_compute. reflexivity. Qed.

(** C21: the last hash of a chain binds its whole history.  Two VALID chains with
    the same last hash record the same events in the same order, or two of
    their rows exhibit a SHA-256 collision, or one exhibits a text whose hash
    is sixty-four zeros. *)
Theorem audit_chain_binding l k res res' :
  forallb payload_wf (l ++ k) = true →
  verify_single_chain l = Ok res → status res = VALID →
  verify_single_chain k = Ok res' → status res' = VALID →
  last_hash res = last_hash res' →
  Forall2 same_event l k ∨ chain_forgery l k.
Proof.
  intros Hw Hl Sl Hk Sk E.
  pose proof (verify_single_chain_valid _ _ Hl Sl) as Ll.
  pose proof (verify_single_chain_valid _ _ Hk Sk) as Lk.
  rewrite verify_single_chain_linked in Hl, Hk by done. simplify_eq/=.
  by apply linked_binding.
Qed.

Lemma audit_chain_binding_witness :
  let l := [sample_1; sample_3] in Forall2 same_event l l ∨ chain_forgery l l.
Proof.
  eapply audit_chain_binding; [vm_compute; reflexivity..|reflexivity].
Defined.

(** What verification cannot see.  If the log is VALID, so is every log whose
    partitions are prefixes of its partitions: removing the last rows of
    partitions, or whole partitions, goes unnoticed unless the last hashes are
    kept elsewhere. *)
Theorem truncated_audit_chain_valid records shorter res :
  verify_audit_chain records = Ok res → status res = VALID →
  (∀ cid, chain_of cid shorter `prefix_of` chain_of cid records) →
  ∃ res', verify_audit_chain shorter = Ok res' ∧ status res' = VALID.
Proof.
  intros Hv Hs Hp. destruct (verify_audit_chain_valid records res) as [[Hl _] _]; [done|].
  eexists. apply verify_audit_chain_valid. split; [|reflexivity]. intros cid.
  destruct (Hp cid) as [k Hk]. specialize (Hl cid). rewrite Hk, linked_app in Hl. tauto.
Qed.

Lemma truncated_audit_chain_valid_witness :
  ∃ res', verify_audit_chain [sample_1] = Ok res' ∧ status res' = VALID.
Proof.
  eapply (truncated_audit_chain_valid sample_records); [vm_compute; reflexivity|reflexivity|].
  intros cid. unfold chain_of, sample_records. simpl.
  destruct (decide (cid = 7%Z)) as [->|H7]; [by exists [sample_3]|].
  rewrite !filter_cons. repeat (case_decide; simplify_eq/=); apply prefix_nil.
Defined.
