(* ===== verification/EvidenceLog.v ===== *)
(** * Concurrent writers of the audit log (app/services/evidence_service.py,
      app/db/repository.py)

    Each transaction of the evidence service is a state machine over the
    database: it takes the advisory lock of its partition, reads the last hash
    of the partition and whether the input hash is known, inserts its rows and
    commits.  Any number of them run interleaved, statement by statement, with
    isolation READ COMMITTED: a statement sees what is committed when it runs.
    Row identifiers come from a sequence that rollbacks do not reset.  A
    transaction may be rolled back at any point. *)
From stdpp Require Export gmap.
From S2P Require Export AuditChain.

Local Open Scope Z_scope.

(** ** Requests of the service *)

Inductive job_kind := Persist | LogFailure (reason : string).

(** What a transaction is given: the fields of the three records it writes. *)
Record job := mkJob {
  j_kind : job_kind;
  j_input_hash : string;
  j_request_id : string;
  j_result_id : string;
  j_proof_id : string;
  j_output_hash : string;
  j_trace_hash : string;
  j_integrity_hash : string;
  j_created_at : datetime }.

Definition AUDIT_CHAIN_LOCK_BASE : Z := 4283911000.
Definition chain_id_to_lock_key (chain_id : Z) : Z := AUDIT_CHAIN_LOCK_BASE + chain_id.

(** ** The database *)

(** Where a transaction is. *)
Inductive phase :=
  | Started
  | Locked
  | Fetched (prev : string)
  | Checked (prev : string) (is_duplicate : bool)
  | Batched (prev : string)
  | Audited (row : AuditEventRecord) (request : option string).

#[global] Instance phase_started_dec p : Decision (p = Started).
Proof. destruct p; first [by left | by right]. Defined.

Record session := mkSession { s_job : job; s_chain : Z; s_phase : phase }.

Record system := mkSystem {
  requests : list string;              (** input hashes, committed *)
  audit_log : list AuditEventRecord;   (** committed rows, in the order of the commits *)
  next_id : Z;                         (** the sequence of row identifiers *)
  locks : gmap Z nat;                  (** advisory locks: key to session *)
  sessions : gmap nat session;
  failures : list exn }.               (** exceptions the transactions ended with *)

Definition initial : system := mkSystem [] [] 1 ∅ ∅ [].

(** ** Statements *)

Definition row_id (r : AuditEventRecord) : Z := default 0 (id r).
Definition id_leb (r r' : AuditEventRecord) : bool := row_id r <=? row_id r'.

(** [SELECT current_hash .. WHERE chain_id = $1 ORDER BY id DESC LIMIT 1] *)
Definition fetch_latest_audit_hash_for_chain (chain_id : Z) (rows : list AuditEventRecord) : string :=
  match last (isort id_leb (chain_of chain_id rows)) with
  | Some r => current_hash r
  | None => ZERO_HASH
  end.

(** [ORDER BY chain_id ASC, id ASC] *)
Definition chain_id_leb (r r' : AuditEventRecord) : bool :=
  (chain_id r <? chain_id r') || ((chain_id r =? chain_id r') && id_leb r r').
Definition fetch_audit_chain (s : system) : list AuditEventRecord :=
  isort chain_id_leb (audit_log s).

(** [SELECT 1 FROM requests WHERE input_hash = $1] *)
Definition check_duplicate (input_hash : string) (s : system) : bool :=
  bool_decide (input_hash ∈ requests s).

(** ** Events *)

Definition persisted_payload (j : job) : list (string * pyval) :=
  [("request_id", PStr (j_request_id j)); ("result_id", PStr (j_result_id j));
   ("proof_id", PStr (j_proof_id j)); ("input_hash", PStr (j_input_hash j));
   ("output_hash", PStr (j_output_hash j)); ("trace_hash", PStr (j_trace_hash j));
   ("integrity_hash", PStr (j_integrity_hash j))].

Definition duplicate_payload (j : job) : list (string * pyval) :=
  [("input_hash", PStr (j_input_hash j)); ("reason", PStr "duplicate_input_hash")].

Definition failure_payload (j : job) (reason : string) : list (string * pyval) :=
  [("input_hash", PStr (j_input_hash j)); ("reason", PStr reason)].

(** The event a transaction writes, the hash it follows, and the request it
    commits with it, if it is ready to write one. *)
Definition event_of (x : session)
    : option (string * list (string * pyval) * string * option string) :=
  let j := s_job x in
  match j_kind j, s_phase x with
  | Persist, Checked prev true => Some ("calculation_rejected_duplicate", duplicate_payload j, prev, None)
  | Persist, Batched prev =>
      Some ("calculation_persisted", persisted_payload j, prev, Some (j_input_hash j))
  | LogFailure reason, Fetched prev =>
      Some ("calculation_persist_failed", failure_payload j reason, prev, None)
  | _, _ => None
  end.

(** ** Transactions *)

Inductive action :=
  | Begin (j : job)
  | AcquireLock
  | FetchLatest
  | CheckDuplicate
  | InsertBatch
  | InsertAudit
  | Commit
  | Rollback.

Definition set_phase (w : nat) (x : session) (p : phase) (s : system) : system :=
  mkSystem (requests s) (audit_log s) (next_id s) (locks s)
    (<[w := mkSession (s_job x) (s_chain x) p]> (sessions s)) (failures s).

(** The end of a transaction releases its lock. *)
Definition release (w : nat) (x : session) (s : system) : gmap Z nat :=
  if decide (locks s !! chain_id_to_lock_key (s_chain x) = Some w)
  then delete (chain_id_to_lock_key (s_chain x)) (locks s) else locks s.

Definition close (w : nat) (x : session) (rs : list string) (rows : list AuditEventRecord)
    (es : list exn) (s : system) : system :=
  mkSystem (requests s ++ rs) (audit_log s ++ rows) (next_id s) (release w x s)
    (delete w (sessions s)) (failures s ++ es).

Definition rollback (w : nat) (x : session) (es : list exn) (s : system) : system :=
  close w x [] [] es s.

Definition take_id (s : system) : system :=
  mkSystem (requests s) (audit_log s) (next_id s + 1) (locks s) (sessions s) (failures s).

Definition integrity_error : exn :=
  Exn PersistenceIntegrityError "Audit event current_hash does not match recomputed audit hash".
Definition duplicate_error : exn := Exn DuplicateInputHashError "Duplicate input hash detected: {}".

(** The row with its identifier; persisted rows are checked again in memory. *)
Definition insert_audit_event (w : nat) (x : session) (s : system) : option system :=
  '(ty, payload, prev, request) ← event_of x;
  let j := s_job x in
  let built := build_audit_event ty (Some (j_request_id j)) payload prev (j_created_at j) (s_chain x)
                 (Some (next_id s)) in
  match built with
  | Raise e => Some (rollback w x [e] (take_id s))
  | Ok row =>
      let same := match request with
                  | None => Ok true
                  | Some _ => expected_hash row ≫= constant_time_equal (current_hash row)
                  end in
      match same with
      | Ok true => Some (set_phase w x (Audited row request) (take_id s))
      | Ok false => Some (rollback w x [integrity_error] (take_id s))
      | Raise e => Some (rollback w x [e] (take_id s))
      end
  end.

(** One statement of session [w]; [None] when it cannot run: the session is
    not there yet, or waits for a lock. *)
Definition run (w : nat) (a : action) (s : system) : option system :=
  match a, sessions s !! w with
  | Begin j, None =>
      match chain_id_for_input (j_input_hash j) with
      | Ok c => Some (mkSystem (requests s) (audit_log s) (next_id s) (locks s)
                        (<[w := mkSession j c Started]> (sessions s)) (failures s))
      | Raise _ => None
      end
  | AcquireLock, Some x =>
      match s_phase x, locks s !! chain_id_to_lock_key (s_chain x) with
      | Started, None =>
          let s := set_phase w x Locked s in
          Some (mkSystem (requests s) (audit_log s) (next_id s)
                  (<[chain_id_to_lock_key (s_chain x) := w]> (locks s)) (sessions s) (failures s))
      | _, _ => None
      end
  | FetchLatest, Some x =>
      match s_phase x with
      | Locked =>
          Some (set_phase w x (Fetched (fetch_latest_audit_hash_for_chain (s_chain x) (audit_log s))) s)
      | _ => None
      end
  | CheckDuplicate, Some x =>
      match j_kind (s_job x), s_phase x with
      | Persist, Fetched prev =>
          Some (set_phase w x (Checked prev (check_duplicate (j_input_hash (s_job x)) s)) s)
      | _, _ => None
      end
  | InsertBatch, Some x =>
      match s_phase x with
      | Checked prev false =>
          (* the unique index on requests.input_hash *)
          if bool_decide (j_input_hash (s_job x) ∈ requests s)
          then Some (rollback w x [duplicate_error] s)
          else Some (set_phase w x (Batched prev) s)
      | _ => None
      end
  | InsertAudit, Some x => insert_audit_event w x s
  | Commit, Some x =>
      match s_phase x with
      | Audited row request => Some (close w x (match request with Some h => [h] | None => [] end) [row] [] s)
      | _ => None
      end
  | Rollback, Some x => Some (rollback w x [] s)
  | _, _ => None
  end.

Inductive reachable : system → Prop :=
  | reach_initial : reachable initial
  | reach_step w a s s' : reachable s → run w a s = Some s' → reachable s'.

Fixpoint run_all (l : list (nat * action)) (s : system) : option system :=
  match l with
  | [] => Some s
  | (w, a) :: l => s ← run w a s; run_all l s
  end.

Lemma run_all_reachable l s s' : reachable s → run_all l s = Some s' → reachable s'.
Proof.
  revert s. induction l as [|[w a] l IH]; intros s Hs; simpl; [by intros [= <-]|].
  intros (t & Ht & H)%bind_Some. eapply IH; [|exact H]. by eapply reach_step.
Qed.

(** ** The invariant *)

(** The request a row records as persisted. *)
Definition persisted_hash (r : AuditEventRecord) : option string :=
  if String.eqb (event_type r) "calculation_persisted" then
    match dict_get "input_hash" (event_payload r) with Some (PStr h) => Some h | _ => None end
  else None.

Definition tip_of (c : Z) (s : system) : string := tip ZERO_HASH (chain_of c (audit_log s)).

(** What a transaction knows stays true while it holds its lock. *)
Definition session_ok (s : system) (x : session) : Prop :=
  chain_id_for_input (j_input_hash (s_job x)) = Ok (s_chain x) ∧
  match s_phase x with
  | Started | Locked => True
  | Fetched prev => prev = tip_of (s_chain x) s
  | Checked prev dup =>
      prev = tip_of (s_chain x) s ∧ dup = check_duplicate (j_input_hash (s_job x)) s ∧
      j_kind (s_job x) = Persist
  | Batched prev =>
      prev = tip_of (s_chain x) s ∧ j_input_hash (s_job x) ∉ requests s ∧
      j_kind (s_job x) = Persist
  | Audited row request =>
      links_to (tip_of (s_chain x) s) row ∧ chain_id row = s_chain x ∧ row_id row < next_id s ∧
      (∀ r, r ∈ chain_of (s_chain x) (audit_log s) → row_id r < row_id row) ∧
      (∀ h, request = Some h → h = j_input_hash (s_job x) ∧ h ∉ requests s) ∧
      persisted_hash row = request
  end.

Definition holds_lock (w : nat) (k : Z) (s : system) : Prop :=
  ∃ x, sessions s !! w = Some x ∧ s_phase x ≠ Started ∧ k = chain_id_to_lock_key (s_chain x).

Record inv (s : system) : Prop := mkInv {
  inv_locks : ∀ k w, locks s !! k = Some w ↔ holds_lock w k s;
  inv_linked : ∀ c, linked ZERO_HASH (chain_of c (audit_log s));
  inv_ids : ∀ c, StronglySorted (fun r r' => row_id r < row_id r') (chain_of c (audit_log s));
  inv_next : ∀ r, r ∈ audit_log s → row_id r < next_id s;
  inv_requests : NoDup (requests s);
  inv_persisted : omap persisted_hash (audit_log s) = requests s;
  inv_sessions : ∀ w x, sessions s !! w = Some x → session_ok s x;
  inv_failures : failures s = [] }.

#[export] Hint Resolve inv_locks inv_linked inv_ids inv_next inv_requests inv_sessions : evidence.

Lemma inv_initial : inv initial.
Proof.
  split; simpl; try done; try (intros; constructor).
  - intros H. by rewrite lookup_empty in H.
  - intros (x & H & _). simpl in H. by rewrite lookup_empty in H.
  - intros r Hr. by apply elem_of_nil in Hr.
Qed.

Lemma lock_key_inj c c' : chain_id_to_lock_key c = chain_id_to_lock_key c' → c = c'.
Proof. unfold chain_id_to_lock_key. lia. Qed.

(** One transaction per partition holds the lock. *)
Lemma lock_unique s w w' x x' :
  inv s → sessions s !! w = Some x → sessions s !! w' = Some x' →
  s_phase x ≠ Started → s_phase x' ≠ Started → s_chain x = s_chain x' → w = w'.
Proof.
  intros Hi Hx Hx' Hp Hp' Hc.
  assert (locks s !! chain_id_to_lock_key (s_chain x) = Some w) as E by (apply inv_locks; [done|by exists x]).
  assert (locks s !! chain_id_to_lock_key (s_chain x) = Some w') as E'
    by (apply inv_locks; [done|exists x'; rewrite Hc; done]).
  congruence.
Qed.

Lemma sessions_insert_ok s s' w x :
  sessions s' = <[w := x]> (sessions s) → session_ok s' x →
  (∀ w' x', w' ≠ w → sessions s !! w' = Some x' → session_ok s' x') →
  ∀ w' x', sessions s' !! w' = Some x' → session_ok s' x'.
Proof.
  intros -> Hx Hr w' x'. destruct (decide (w' = w)) as [->|Hn].
  - rewrite lookup_insert_eq. by intros [= <-].
  - rewrite lookup_insert_ne by done. by apply Hr.
Qed.

(** A session that holds its lock moves on. *)
Lemma inv_set_phase s w x p :
  inv s → sessions s !! w = Some x → s_phase x ≠ Started → p ≠ Started →
  session_ok s (mkSession (s_job x) (s_chain x) p) → inv (set_phase w x p s).
Proof.
  intros Hi Hx Hp Hp' Hok. destruct Hi as [HL HC HI HN HR HO HS HF].
  split; simpl; try done.
  - intros k w'. rewrite HL. unfold holds_lock. simpl. destruct (decide (w' = w)) as [->|Hn].
    + rewrite lookup_insert_eq, Hx. split; intros (y & [= <-] & ? & ?); eexists; (split; [done|]); done.
    + by rewrite lookup_insert_ne.
  - apply (sessions_insert_ok s (set_phase w x p s) w (mkSession (s_job x) (s_chain x) p));
      [reflexivity|exact Hok|]. intros w' x' _ H. exact (HS w' x' H).
Qed.

(** What a session knows depends on its partition and its input hash only. *)
Lemma session_ok_frame s s' x :
  session_ok s x → chain_of (s_chain x) (audit_log s') = chain_of (s_chain x) (audit_log s) →
  next_id s <= next_id s' →
  (j_input_hash (s_job x) ∈ requests s' ↔ j_input_hash (s_job x) ∈ requests s) → session_ok s' x.
Proof.
  intros [Hc Hp] Ha Hn Hr. split; [done|].
  destruct (s_phase x) as [| |prev|prev d|prev|row request]; try done;
    unfold tip_of, check_duplicate in *; rewrite ?Ha; try done.
  - destruct Hp as (? & -> & ?). split; [done|]. split; [|done]. by apply bool_decide_ext.
  - by rewrite Hr.
  - destruct Hp as (? & ? & ? & ? & Hq & ?). split; [done|]. split; [done|]. split; [lia|].
    split; [done|]. split; [|done]. intros h Hh. destruct (Hq h Hh) as [-> ?]. by rewrite Hr.
Qed.

Lemma close_locks s w x rs rows es :
  inv s → sessions s !! w = Some x → ∀ k w',
  locks (close w x rs rows es s) !! k = Some w' ↔ holds_lock w' k (close w x rs rows es s).
Proof.
  intros Hi Hx k w'. unfold holds_lock. simpl. unfold release.
  destruct (decide (w' = w)) as [->|Hn].
  - rewrite lookup_delete_eq. split; [|by intros (? & ? & _)]. case_decide as E.
    + destruct (decide (k = chain_id_to_lock_key (s_chain x))) as [->|Hk];
        [by rewrite lookup_delete_eq|rewrite lookup_delete_ne by done].
      intros (y & Hy & _ & ->)%inv_locks; [|done]. by simplify_eq.
    + intros Hk. pose proof Hk as (y & Hy & _ & ->)%inv_locks; [|done]. by simplify_eq.
  - rewrite lookup_delete_ne by done. case_decide as E; [|by apply inv_locks].
    destruct (decide (k = chain_id_to_lock_key (s_chain x))) as [->|Hk].
    + rewrite lookup_delete_eq. split; [done|]. intros (y & Hy & Hp & Hk).
      assert (locks s !! chain_id_to_lock_key (s_chain x) = Some w') by (apply inv_locks; [done|by exists y]).
      congruence.
    + rewrite lookup_delete_ne by done. by apply inv_locks.
Qed.

Lemma inv_rollback s w x : inv s → sessions s !! w = Some x → inv (rollback w x [] s).
Proof.
  intros Hi Hx. pose proof (close_locks s w x [] [] [] Hi Hx) as HL'.
  destruct Hi as [HL HC HI HN HR HO HS HF]. unfold rollback, close in *.
  split; simpl; rewrite ?app_nil_r in *; try done.
  intros w' x' [_ H]%lookup_delete_Some.
  apply (session_ok_frame s); simpl; rewrite ?app_nil_r; [by eapply HS|done|lia|done].
Qed.

Lemma inv_take_id s : inv s → inv (take_id s).
Proof.
  intros [HL HC HI HN HR HO HS HF]. split; simpl; try done.
  - intros r Hr. specialize (HN r Hr). lia.
  - intros w x H. apply (session_ok_frame s); simpl; [by eapply HS|done|lia|done].
Qed.

(** ** Commit *)

Lemma chain_of_other c l r : chain_id r ≠ c → chain_of c (l ++ [r]) = chain_of c l.
Proof. intros. rewrite chain_of_snoc, decide_False by done. apply app_nil_r. Qed.

Lemma chain_of_same c l r : chain_id r = c → chain_of c (l ++ [r]) = chain_of c l ++ [r].
Proof. intros. by rewrite chain_of_snoc, decide_True. Qed.

Section commit.
Context (s : system) (w : nat) (x : session) (row : AuditEventRecord) (request : option string).
Context (Hi : inv s) (Hx : sessions s !! w = Some x) (Hp : s_phase x = Audited row request).

Notation new := (match request with Some h => [h] | None => [] end).

Lemma commit_facts :
  links_to (tip_of (s_chain x) s) row ∧ chain_id row = s_chain x ∧ row_id row < next_id s ∧
  (∀ r, r ∈ chain_of (s_chain x) (audit_log s) → row_id r < row_id row) ∧
  (∀ h, request = Some h → h = j_input_hash (s_job x) ∧ h ∉ requests s) ∧
  persisted_hash row = request ∧
  chain_id_for_input (j_input_hash (s_job x)) = Ok (s_chain x).
Proof using Hi Hx Hp.
  destruct (inv_sessions s Hi w x Hx) as [Hc H]. rewrite Hp in H. naive_solver.
Qed.

(** Another session is either not locked, or in another partition. *)
Lemma commit_frame w' x' :
  w' ≠ w → sessions s !! w' = Some x' → session_ok (close w x new [row] [] s) x'.
Proof using Hi Hx Hp.
  intros Hn Hx'. destruct commit_facts as (_ & Hrow & _ & _ & Hreq & _ & Hch).
  pose proof (inv_sessions s Hi w' x' Hx') as Hok.
  destruct (decide (s_phase x' = Started)) as [E|E].
  { destruct Hok as [Hc _]. split; [done|]. by rewrite E. }
  assert (s_chain x ≠ s_chain x') as Hd.
  { intros Hd. apply Hn. symmetry. eapply (lock_unique s w w' x x'); [done..| |done|done].
    by rewrite Hp. }
  apply (session_ok_frame s); simpl; [done| |lia|].
  - apply chain_of_other. congruence.
  - rewrite elem_of_app. split; [|by left]. intros [H|H]; [done|].
    destruct request as [h|]; [|by apply elem_of_nil in H]. apply list_elem_of_singleton in H.
    destruct (Hreq h eq_refl) as [-> _]. destruct Hok as [Hc _]. rewrite H, Hch in Hc. congruence.
Qed.

Lemma inv_commit : inv (close w x new [row] [] s).
Proof using Hi Hx Hp.
  destruct commit_facts as (Hl & Hrow & Hid & Hlt & Hreq & Hper & _).
  pose proof (close_locks s w x new [row] [] Hi Hx) as HL'.
  pose proof commit_frame as HF'. destruct Hi as [HL HC HI HN HR HO HS HF].
  split; simpl; try done.
  - intros c. destruct (decide (chain_id row = c)) as [<-|Hn]; [|by rewrite chain_of_other].
    rewrite chain_of_same, linked_snoc by done. split; [done|]. by rewrite Hrow.
  - intros c. destruct (decide (chain_id row = c)) as [<-|Hn]; [|by rewrite chain_of_other].
    rewrite chain_of_same by done. apply StronglySorted_app_2; [|done|by repeat constructor].
    intros r r' Hr ->%list_elem_of_singleton. rewrite Hrow in Hr. by apply Hlt.
  - intros r [Hr| ->%list_elem_of_singleton]%elem_of_app; auto.
  - destruct request as [h|]; [|by rewrite app_nil_r]. destruct (Hreq h eq_refl) as [_ Hh].
    apply NoDup_app. split; [done|]. split; [set_solver|apply NoDup_singleton].
  - rewrite omap_app, HO. f_equal. simpl. rewrite Hper. by destruct request.
  - intros w' x' [Hn H]%lookup_delete_Some. exact (HF' w' x' (not_eq_sym Hn) H).
  - by rewrite HF.
Qed.
End commit.

(** ** Reading the last hash and writing the event *)

Lemma latest_is_tip c rows :
  StronglySorted (fun r r' => row_id r < row_id r') (chain_of c rows) →
  fetch_latest_audit_hash_for_chain c rows = tip ZERO_HASH (chain_of c rows).
Proof.
  intros Hs. unfold fetch_latest_audit_hash_for_chain. rewrite isort_id.
  - destruct (last (chain_of c rows)) as [r|] eqn:E.
    + by rewrite (tip_last _ _ r).
    + by apply last_None in E as ->.
  - clear -Hs. induction Hs as [|r l Hl IH Hr]; constructor; [done|].
    eapply Forall_impl; [exact Hr|]. intros r' H. cbv beta in H |- *. unfold id_leb. apply Z.leb_le. lia.
Qed.

Lemma build_total ty ref payload prev t c i :
  float_free (PDict payload) = true →
  ∃ row, build_audit_event ty ref payload prev t c i = Ok row ∧ links_to prev row ∧
         chain_id row = c ∧ id row = i ∧ event_type row = ty ∧ event_payload row = payload.
Proof.
  intros Hf. pose (r := mkAuditEvent i c ty ref payload prev "" t).
  pose proof (expected_hash_text r Hf) as E. unfold expected_hash in E. simpl in E.
  unfold build_audit_event. rewrite E. eexists. split; [done|]. unfold links_to, expected_hash. done.
Qed.

Lemma links_to_checked prev row :
  links_to prev row → expected_hash row ≫= constant_time_equal (current_hash row) = Ok true.
Proof.
  intros Hl. pose proof (links_to_wf _ _ Hl) as Hw. destruct Hl as [_ ->].
  cbn [mbind result_bind]. apply constant_time_equal_true. auto using hash_wf_ascii.
Qed.

(** An event that is ready follows the last row of its partition. *)
Lemma event_of_ok s x ty payload prev request :
  session_ok s x → event_of x = Some (ty, payload, prev, request) →
  prev = tip_of (s_chain x) s ∧ s_phase x ≠ Started ∧ float_free (PDict payload) = true ∧
  (∀ h, request = Some h → h = j_input_hash (s_job x) ∧ h ∉ requests s) ∧
  (∀ r, event_type r = ty → event_payload r = payload → persisted_hash r = request).
Proof.
  unfold event_of. intros [_ Hp] He.
  destruct (j_kind (s_job x)), (s_phase x) as [| |p|p []|p|]; try done; simplify_eq.
  - destruct Hp as (? & _). do 4 (split; [done|]). intros r E _. unfold persisted_hash. by rewrite E.
  - destruct Hp as (? & ? & _). do 3 (split; [done|]). split; [by intros h [= <-]|].
    intros r E E'. unfold persisted_hash. by rewrite E, E'.
  - do 4 (split; [done|]). intros r E _. unfold persisted_hash. by rewrite E.
Qed.

Lemma insert_audit_event_ok w x s s' :
  inv s → sessions s !! w = Some x → insert_audit_event w x s = Some s' →
  inv s' ∧ ∃ row request, sessions s' !! w = Some (mkSession (s_job x) (s_chain x) (Audited row request)).
Proof.
  intros Hi Hx. unfold insert_audit_event. intros ([[[ty payload] prev] request] & He & H)%bind_Some.
  destruct (event_of_ok s x ty payload prev request) as (Hprev & Hp & Hf & Hreq & Hper); [by eapply inv_sessions|done|].
  destruct (build_total ty (Some (j_request_id (s_job x))) payload prev (j_created_at (s_job x))
    (s_chain x) (Some (next_id s)) Hf) as (row & Hb & Hl & Hc & Hid & Hty & Hpay).
  rewrite Hb in H. rewrite (links_to_checked _ _ Hl) in H.
  assert (s' = set_phase w x (Audited row request) (take_id s)) as ->
    by (destruct request; by injection H).
  split; [|exists row, request; apply lookup_insert_eq].
  assert (row_id row = next_id s) as Hrid by (unfold row_id; by rewrite Hid).
  apply inv_set_phase; [by apply inv_take_id|done|done|done|].
  destruct (inv_sessions s Hi w x Hx) as [Hch _]. split; [done|]. simpl.
  rewrite Hrid. split_and!; [change (links_to (tip_of (s_chain x) s) row); by rewrite <-Hprev|done|lia| |done|by apply Hper].
  intros r Hr. apply (inv_next s Hi). unfold chain_of in Hr.
  by apply list_elem_of_filter in Hr as [_ ?].
Qed.

(** ** Every statement preserves the invariant *)

Lemma inv_begin s w j c :
  inv s → sessions s !! w = None → chain_id_for_input (j_input_hash j) = Ok c →
  inv (mkSystem (requests s) (audit_log s) (next_id s) (locks s)
         (<[w := mkSession j c Started]> (sessions s)) (failures s)).
Proof.
  intros [HL HC HI HN HR HO HS HF] Hw Hc. split; simpl; try done.
  - intros k w'. rewrite HL. unfold holds_lock. simpl. destruct (decide (w' = w)) as [->|].
    + rewrite lookup_insert_eq, Hw. split; [by intros (? & ? & _)|].
      intros (y & [= <-] & Hy & _). by destruct Hy.
    + by rewrite lookup_insert_ne.
  - intros w' x'. destruct (decide (w' = w)) as [->|].
    + rewrite lookup_insert_eq. by intros [= <-].
    + rewrite lookup_insert_ne by done. apply HS.
Qed.

Lemma inv_acquire s w x :
  inv s → sessions s !! w = Some x → s_phase x = Started →
  locks s !! chain_id_to_lock_key (s_chain x) = None →
  inv (mkSystem (requests s) (audit_log s) (next_id s)
         (<[chain_id_to_lock_key (s_chain x) := w]> (locks s))
         (<[w := mkSession (s_job x) (s_chain x) Locked]> (sessions s)) (failures s)).
Proof.
  intros [HL HC HI HN HR HO HS HF] Hx Hp Hk. split; simpl; try done.
  - intros k w'. unfold holds_lock. simpl. destruct (decide (w' = w)) as [->|Hw].
    + rewrite lookup_insert_eq. destruct (decide (k = chain_id_to_lock_key (s_chain x))) as [->|Hn].
      * rewrite lookup_insert_eq. split; [intros _|done].
        exists (mkSession (s_job x) (s_chain x) Locked). by split_and!.
      * rewrite lookup_insert_ne by done. split; [|intros (y & [= <-] & _ & ->); done].
        intros (y & Hy & Hy' & _)%HL. congruence.
    + rewrite (lookup_insert_ne (sessions s)) by done. rewrite <-(HL k w').
      destruct (decide (k = chain_id_to_lock_key (s_chain x))) as [->|Hn].
      * rewrite lookup_insert_eq, Hk. split; congruence.
      * by rewrite lookup_insert_ne.
  - intros w' x'. destruct (decide (w' = w)) as [->|].
    + rewrite lookup_insert_eq. intros [= <-]. destruct (HS w x Hx). done.
    + rewrite lookup_insert_ne by done. apply HS.
Qed.

Lemma inv_step w a s s' : inv s → run w a s = Some s' → inv s'.
Proof.
  intros Hi. unfold run.
  destruct (sessions s !! w) as [x|] eqn:Hx; destruct a; try done.
  - destruct (s_phase x) eqn:Hp; try done.
    destruct (locks s !! _) eqn:Hk; [done|]. intros [= <-]. by apply inv_acquire.
  - destruct (s_phase x) eqn:Hp; try done. intros [= <-].
    apply inv_set_phase; [done|done|by rewrite Hp|done|].
    destruct (inv_sessions s Hi w x Hx) as [Hc _]. split; [done|].
    apply latest_is_tip, inv_ids, Hi.
  - destruct (j_kind (s_job x)) eqn:Hk, (s_phase x) eqn:Hp; try done. intros [= <-].
    apply inv_set_phase; [done|done|by rewrite Hp|done|].
    destruct (inv_sessions s Hi w x Hx) as [Hc H]. rewrite Hp in H. by split_and!.
  - destruct (s_phase x) as [| |p|p []|p|] eqn:Hp; try done.
    destruct (inv_sessions s Hi w x Hx) as [Hc H]. rewrite Hp in H. destruct H as (Ht & Hd & Hk).
    unfold check_duplicate in Hd. rewrite <-Hd. intros [= <-].
    apply inv_set_phase; [done|done|by rewrite Hp|done|]. split; [done|]. split; [done|].
    split; [|done]. symmetry in Hd. by apply bool_decide_eq_false in Hd.
  - intros H. by eapply insert_audit_event_ok.
  - destruct (s_phase x) eqn:Hp; try done. intros [= <-]. by apply inv_commit.
  - intros [= <-]. by apply inv_rollback.
  - destruct (chain_id_for_input _) eqn:Hc; [|done]. intros [= <-]. by apply inv_begin.
Qed.

Lemma reachable_inv s : reachable s → inv s.
Proof. induction 1 as [|w a s s' _ IH H]; [apply inv_initial|by eapply inv_step]. Qed.

(** ** The log as it is read back *)

Lemma sorted_ids_inj l r r' :
  StronglySorted (fun r r' => row_id r < row_id r') l → r ∈ l → r' ∈ l → row_id r = row_id r' → r = r'.
Proof.
  induction 1 as [|x l Hl IH Hx]; [by intros ?%elem_of_nil|]. rewrite Forall_forall in Hx.
  rewrite !elem_of_cons. intros [->|Hr] [->|Hr'] E; [done| | |by apply IH].
  - specialize (Hx r' Hr'). lia.
  - specialize (Hx r Hr). lia.
Qed.

Lemma StronglySorted_filter {A} (R : A → A → Prop) (P : A → Prop) `{!∀ x, Decision (P x)} (l : list A) :
  StronglySorted R l → StronglySorted R (filter P l).
Proof.
  induction 1 as [|x l Hl IH Hx]; [constructor|]. rewrite filter_cons. case_decide; [|done].
  constructor; [done|]. rewrite Forall_forall in *. intros y [_ Hy]%list_elem_of_filter. auto.
Qed.

Lemma chain_id_leb_trans x y z :
  chain_id_leb x y = true → chain_id_leb y z = true → chain_id_leb x z = true.
Proof. unfold chain_id_leb, id_leb. lia. Qed.

Lemma chain_id_leb_total x y : chain_id_leb x y = true ∨ chain_id_leb y x = true.
Proof. unfold chain_id_leb, id_leb. lia. Qed.

Lemma sorted_ids_leb c l :
  StronglySorted (fun r r' => row_id r < row_id r') l → Forall (fun r => chain_id r = c) l →
  StronglySorted (fun r r' => chain_id_leb r r' = true) l.
Proof.
  induction 1 as [|r l Hl IH Hr]; [by constructor|]. intros [Hc Hcl]%Forall_cons.
  constructor; [by apply IH|]. rewrite Forall_forall in *. intros y Hy.
  specialize (Hr y Hy). specialize (Hcl y Hy). cbv beta in *. unfold chain_id_leb, id_leb. lia.
Qed.

Lemma chain_of_id c l : Forall (fun r => chain_id r = c) (chain_of c l).
Proof.
  apply Forall_forall. intros r Hr. unfold chain_of in Hr. by apply list_elem_of_filter in Hr as [? _].
Qed.

(** Sorting by partition and identifier keeps each partition as it is. *)
Lemma chain_of_fetched s c :
  inv s → chain_of c (fetch_audit_chain s) = chain_of c (audit_log s).
Proof.
  intros Hi. pose proof (inv_ids s Hi c) as Hs.
  assert (chain_of c (fetch_audit_chain s) ≡ₚ chain_of c (audit_log s)) as Hp.
  { unfold chain_of, fetch_audit_chain. by rewrite isort_perm. }
  apply (StronglySorted_unique_strong (fun r r' => chain_id_leb r r' = true)); [..|exact Hp].
  - intros r r' Hr Hr' H1 H2. rewrite Hp in Hr. eapply sorted_ids_inj; [exact Hs|done|done|].
    unfold chain_of in Hr, Hr'. apply list_elem_of_filter in Hr as [Ec _], Hr' as [Ec' _].
    unfold chain_id_leb, id_leb in H1, H2. lia.
  - apply StronglySorted_filter, isort_sorted; [apply chain_id_leb_trans|apply chain_id_leb_total].
  - eapply sorted_ids_leb; [exact Hs|apply chain_of_id].
Qed.

(** ** Progress *)

Definition rank (p : phase) : nat :=
  match p with
  | Started => 0 | Locked => 1 | Fetched _ => 2 | Checked _ _ => 3 | Batched _ => 4 | Audited _ _ => 5
  end.

(** Statements that move a transaction on: neither a new one nor a rollback. *)
Definition progress (a : action) : bool :=
  match a with Begin _ | Rollback => false | _ => true end.

(** A session that holds its lock can always run its next statement. *)
Lemma session_advance s w x :
  inv s → sessions s !! w = Some x → (1 <= rank (s_phase x) < 5)%nat →
  ∃ a s' x', progress a = true ∧ run w a s = Some s' ∧ sessions s' = <[w := x']> (sessions s) ∧
             (rank (s_phase x) < rank (s_phase x'))%nat ∧ audit_log s' = audit_log s.
Proof.
  intros Hi Hx Hr. destruct (inv_sessions s Hi w x Hx) as [Hc Hok].
  destruct (event_of x) as [[[[ty payload] prev] request]|] eqn:He.
  - destruct (event_of_ok s x ty payload prev request) as (_ & _ & Hf & _); [by split|done|].
    destruct (build_total ty (Some (j_request_id (s_job x))) payload prev (j_created_at (s_job x))
      (s_chain x) (Some (next_id s)) Hf) as (row & Hb & Hl & _).
    exists InsertAudit. eexists. exists (mkSession (s_job x) (s_chain x) (Audited row request)).
    split; [done|]. split.
    + unfold run, insert_audit_event. rewrite Hx, He. cbn [mbind option_bind]. rewrite Hb.
      rewrite (links_to_checked _ _ Hl). by destruct request.
    + split; [reflexivity|]. split; [simpl; lia|reflexivity].
  - unfold event_of in He.
    destruct (s_phase x) as [| |p|p d|p|] eqn:Hp; simpl in Hr; try lia.
    + exists FetchLatest. do 2 eexists. unfold run. rewrite Hx, Hp.
      split_and!; [done|reflexivity|reflexivity|simpl; lia|done].
    + destruct (j_kind (s_job x)) eqn:Hk; [|done].
      exists CheckDuplicate. do 2 eexists. unfold run. rewrite Hx, Hk, Hp.
      split_and!; [done|reflexivity|reflexivity|simpl; lia|done].
    + destruct Hok as (_ & Hd & Hk). rewrite Hk in He. destruct d; [done|].
      exists InsertBatch. do 2 eexists. unfold run. rewrite Hx, Hp.
      unfold check_duplicate in Hd. rewrite <-Hd.
      split_and!; [done|reflexivity|reflexivity|simpl; lia|done].
    + destruct Hok as (_ & _ & Hk). by rewrite Hk in He.
Qed.

(** ... and so it can commit. *)
Lemma session_finish n s w x :
  reachable s → sessions s !! w = Some x → (1 <= rank (s_phase x))%nat →
  (5 - rank (s_phase x) <= n)%nat →
  ∃ l s', Forall (fun p => progress p.2 = true) l ∧ run_all l s = Some s' ∧
          sessions s' = delete w (sessions s) ∧ length (audit_log s') = S (length (audit_log s)).
Proof.
  revert s x. induction n as [|n IH]; intros s x Hs Hx H1 Hn.
  - destruct (s_phase x) as [| |p|p d|p|row request] eqn:Hp; simpl in *; try lia.
    exists [(w, Commit)]. eexists. split; [by repeat constructor|]. split.
    + cbn [run_all]. unfold run. rewrite Hx, Hp. reflexivity.
    + split; [reflexivity|]. simpl. rewrite length_app. simpl. lia.
  - destruct (decide (rank (s_phase x) < 5)%nat) as [Hr|Hr]; [|by apply (IH s x); [done..|lia]].
    destruct (session_advance s w x (reachable_inv s Hs) Hx ltac:(lia))
      as (a & s' & x' & Ha & Hrun & Hss & Hlt & Hlog).
    destruct (IH s' x') as (l & s'' & Hl & Hall & Hd & Hlen);
      [by eapply reach_step|by rewrite Hss, lookup_insert_eq|lia|lia|].
    exists ((w, a) :: l), s''. split; [by constructor|]. split; [simpl; by rewrite Hrun|].
    rewrite Hd, Hss, delete_insert_eq, Hlen, Hlog. done.
Qed.

Lemma run_all_app l k s : run_all (l ++ k) s = run_all l s ≫= run_all k.
Proof.
  revert s. induction l as [|[w a] l IH]; intros s; [done|]. simpl.
  destruct (run w a s); [|done]. simpl. apply IH.
Qed.

(** Some open transaction can commit: one that waits for a lock, or the one
    that holds it. *)
Lemma some_finish s w x :
  reachable s → sessions s !! w = Some x →
  ∃ w' x' l s', sessions s !! w' = Some x' ∧ Forall (fun p => progress p.2 = true) l ∧
                run_all l s = Some s' ∧ sessions s' = delete w' (sessions s) ∧
                length (audit_log s') = S (length (audit_log s)).
Proof.
  intros Hs Hx. pose proof (reachable_inv s Hs) as Hi.
  destruct (decide (s_phase x = Started)) as [E|E].
  - destruct (locks s !! chain_id_to_lock_key (s_chain x)) as [w'|] eqn:Hk.
    + pose proof Hk as (x' & Hx' & Hp' & _)%inv_locks; [|done].
      destruct (session_finish 5 s w' x') as (l & s' & ? & ? & ? & ?);
        [done..|destruct (s_phase x'); simpl; done || lia|lia|].
      by exists w', x', l, s'.
    + assert (∃ s', run w AcquireLock s = Some s' ∧ audit_log s' = audit_log s ∧
                sessions s' = <[w := mkSession (s_job x) (s_chain x) Locked]> (sessions s)) as
        (s' & Hrun & Hlog & Hss).
      { eexists. unfold run. rewrite Hx, E, Hk. split; [reflexivity|done]. }
      destruct (session_finish 5 s' w (mkSession (s_job x) (s_chain x) Locked))
        as (l & s'' & Hl & Hall & Hd & Hlen);
        [by eapply reach_step|by rewrite Hss, lookup_insert_eq|simpl; lia|simpl; lia|].
      exists w, x, ((w, AcquireLock) :: l), s''. split; [done|]. split; [by constructor|].
      split; [cbn [run_all]; by rewrite Hrun|]. by rewrite Hd, Hss, delete_insert_eq, Hlen, Hlog.
  - destruct (session_finish 5 s w x) as (l & s' & ? & ? & ? & ?);
      [done..|destruct (s_phase x); simpl; done || lia|lia|].
    by exists w, x, l, s'.
Qed.

Lemma drain n s :
  reachable s → size (sessions s) = n →
  ∃ l s', Forall (fun p => progress p.2 = true) l ∧ run_all l s = Some s' ∧ sessions s' = ∅ ∧
          length (audit_log s') = (length (audit_log s) + n)%nat.
Proof.
  revert s. induction n as [|n IH]; intros s Hs Hn.
  - exists [], s. apply map_size_empty_inv in Hn. split_and!; [constructor|done|done|lia].
  - assert (sessions s ≠ ∅) as (w & x & Hx)%map_choose by (intros E; by rewrite E, map_size_empty in Hn).
    destruct (some_finish s w x Hs Hx) as (w' & x' & l & s' & Hx' & Hl & Hrun & Hd & Hlen).
    destruct (IH s') as (k & s'' & Hk & Hrun' & He & Hlen').
    + by eapply run_all_reachable.
    + rewrite Hd, map_size_delete, Hx'. simpl. lia.
    + exists (l ++ k), s''. split; [by apply Forall_app|]. rewrite run_all_app, Hrun. simpl.
      split_and!; [done|done|lia].
Qed.

(** ** Samples: two writers in the same partition, one of them a duplicate *)

Definition sample_job (h : string) : job :=
  mkJob Persist h (deterministic_request_id h) (deterministic_result_id h ZERO_HASH)
    (deterministic_proof_id h ZERO_HASH) ZERO_HASH ZERO_HASH ZERO_HASH sample_time.

(** Worker 2 waits for the lock of worker 1; worker 3 reports a failure in another
    partition meanwhile. *)
Definition sample_run : list (nat * action) :=
  let j := sample_job ZERO_HASH in
  let f := mkJob (LogFailure "timeout") "0f" "" "" "" "" "" "" sample_time in
  [(1, Begin j); (2, Begin j); (1, AcquireLock); (3, Begin f); (1, FetchLatest); (3, AcquireLock);
   (1, CheckDuplicate); (3, FetchLatest); (1, InsertBatch); (3, InsertAudit); (1, InsertAudit);
   (1, Commit); (2, AcquireLock); (3, Commit); (2, FetchLatest); (2, CheckDuplicate);
   (2, InsertAudit)]%nat.

Definition sample_system : system := default initial (run_all sample_run initial).

Lemma sample_reachable : reachable sample_system.
Proof.
  destruct (run_all sample_run initial) as [s|] eqn:E.
  - unfold sample_system. rewrite E. eapply run_all_reachable; [apply reach_initial|exact E].
  - unfold sample_system. rewrite E. apply reach_initial.
Qed.

Example sample_run_log :
  (map event_type (audit_log sample_system), map chain_id (audit_log sample_system),
   map id (audit_log sample_system), requests sample_system) =
  (["calculation_persisted"; "calculation_persist_failed"], [0; 15], [Some 2; Some 1], [ZERO_HASH]).
Proof. vm_compute. reflexivity. Qed.

Example sample_run_waits :
  (run_all (take 11 sample_run ++ [(2%nat, AcquireLock)]) initial = None).
Proof. vm_compute. reflexivity. Qed.

(** ** Properties *)

(** C6: the audit log stays VALID under any interleaving.  However the
    transactions of concurrent writers are interleaved statement by statement,
    and whichever of them are rolled back, the log as it is read back verifies
    VALID, with every committed row counted. *)
Theorem audit_log_stays_valid s :
  reachable s →
  ∃ res, verify_audit_chain (fetch_audit_chain s) = Ok res ∧ status res = VALID ∧
         checked_rows res = length (audit_log s).
Proof.
  intros Hi%reachable_inv. set (l := fetch_audit_chain s).
  assert (∀ c, linked ZERO_HASH (chain_of c l)) as Hl.
  { intros c. unfold l. rewrite chain_of_fetched by done. apply Hi. }
  epose proof (proj2 (verify_audit_chain_valid l _) (conj Hl eq_refl)) as [Hv Hs].
  eexists. split; [exact Hv|]. split; [exact Hs|]. apply length_isort.
Qed.

Lemma audit_log_stays_valid_witness :
  ∃ res, verify_audit_chain (fetch_audit_chain sample_system) = Ok res ∧ status res = VALID ∧
         checked_rows res = length (audit_log sample_system).
Proof. apply audit_log_stays_valid, sample_reachable. Defined.

(** C22: a request is persisted once, together with its event.  In every reachable
    state the committed requests are distinct, they are exactly the requests of
    the committed [calculation_persisted] events, in order; and no transaction
    ever ended with an exception of its own: neither the unique index nor the
    check of the inserted hash is ever violated, because the lock of a
    partition covers the duplicate check. *)
Theorem requests_recorded_once s :
  reachable s →
  NoDup (requests s) ∧ omap persisted_hash (audit_log s) = requests s ∧ failures s = [].
Proof. intros Hi%reachable_inv. split_and!; apply Hi. Qed.

Lemma requests_recorded_once_witness :
  NoDup (requests sample_system) ∧
  omap persisted_hash (audit_log sample_system) = requests sample_system ∧
  failures sample_system = [].
Proof. apply requests_recorded_once, sample_reachable. Defined.

(** C34: writers never deadlock.  From every reachable state there is an order of
    statements, without a new transaction and without a rollback, in which all
    the open transactions commit, each adding one row to the log. *)
Theorem writers_can_finish s :
  reachable s →
  ∃ l s', Forall (fun p => progress p.2 = true) l ∧ run_all l s = Some s' ∧ sessions s' = ∅ ∧
          length (audit_log s') = (length (audit_log s) + size (sessions s))%nat.
Proof. intros Hs. by apply drain. Qed.

Lemma writers_can_finish_witness :
  ∃ l s', Forall (fun p => progress p.2 = true) l ∧ run_all l sample_system = Some s' ∧
          sessions s' = ∅ ∧
          length (audit_log s') = (length (audit_log sample_system) + size (sessions sample_system))%nat.
Proof. apply writers_can_finish, sample_reachable. Defined.
