(* ===== verification/ChainCheckpoint.v ===== *)
(** * Checkpoints of audit chains (core/chain_checkpoint.py)

    A checkpoint summarises a complete segment of [CHECKPOINT_INTERVAL] rows.
    Without checkpoints the verifier is that of AuditChain.v; with a stored
    checkpoint whose own hash is right, it skips the rows of the segment.  The
    functions take the interval as an argument: the theorems hold for every
    positive one. *)
From S2P Require Export AuditChain.

Definition CHECKPOINT_INTERVAL : nat := 1000.

Record ChainCheckpoint := mkCheckpoint {
  cp_chain_id : Z;
  cp_segment_index : nat;
  cp_last_record_id : option Z;
  cp_last_current_hash : string;
  cp_checkpoint_hash : string;
  cp_record_count : nat }.

Record SegmentVerificationResult := mkSegmentResult {
  sg_status : audit_status;
  sg_reason : string;
  sg_chain_id : Z;
  sg_segment_index : nat;
  sg_checked_rows : nat;
  sg_broken_record_id : option Z }.

(** [str(n)] of an [int | None] *)
Definition str_of_opt (z : option Z) : string :=
  match z with Some z => str_of_Z z | None => "None" end.

Definition compute_checkpoint_hash (chain_id : Z) (segment_index : nat)
    (last_record_id : option Z) (last_current_hash : string) : string :=
  sha256_hex ("checkpoint:" +:+ str_of_Z chain_id +:+ ":" +:+ str_of_Z (Z.of_nat segment_index) +:+
              ":" +:+ str_of_opt last_record_id +:+ ":" +:+ last_current_hash).

(** [records[seg * n : (seg + 1) * n]] *)
Definition segment_of {A} (interval seg : nat) (records : list A) : list A :=
  take interval (drop (seg * interval) records).

Definition build_checkpoints_for_chain (interval : nat) (chain_id : Z)
    (records : list AuditEventRecord) : list ChainCheckpoint :=
  let n_complete := (length records / interval)%nat in
  omap (fun seg =>
    let segs := segment_of interval seg records in
    last ← last segs;
    Some (mkCheckpoint chain_id seg (id last) (current_hash last)
            (compute_checkpoint_hash chain_id seg (id last) (current_hash last)) (length segs)))
    (seq 0 n_complete).

(** The loop of [verify_segment]: [None] when it runs to its end. *)
Fixpoint segment_loop (chain_id : Z) (segment_index index : nat) (current : string)
    (records : list AuditEventRecord) : result (option SegmentVerificationResult) :=
  match records with
  | [] => Ok None
  | record :: records =>
      same ← constant_time_equal (prev_hash record) current;
      if negb same then
        Ok (Some (mkSegmentResult INVALID "Previous hash mismatch in segment" chain_id
                    segment_index index (id record)))
      else
        expected ← expected_hash record;
        same ← constant_time_equal (current_hash record) expected;
        if negb same then
          Ok (Some (mkSegmentResult INVALID "Current hash mismatch in segment" chain_id
                      segment_index index (id record)))
        else segment_loop chain_id segment_index (S index) (current_hash record) records
  end.

Definition verify_segment (chain_id : Z) (segment_index : nat) (records : list AuditEventRecord)
    (prev_hash : string) (expected_checkpoint : option ChainCheckpoint)
    : result SegmentVerificationResult :=
  r ← segment_loop chain_id segment_index 0 prev_hash records;
  let verified :=
    mkSegmentResult VALID "Segment verified" chain_id segment_index (length records) None in
  match r, expected_checkpoint, last records with
  | Some r, _, _ => Ok r
  | None, Some cp, Some last =>
      same ← constant_time_equal
               (compute_checkpoint_hash chain_id segment_index (id last) (current_hash last))
               (cp_checkpoint_hash cp);
      if negb same then
        Ok (mkSegmentResult INVALID "Checkpoint hash mismatch at segment boundary" chain_id
              segment_index (length records) (id last))
      else Ok verified
  | None, _, _ => Ok verified
  end.

(** The INVALID result made of a segment's. *)
Definition invalid_chain (r : SegmentVerificationResult) (total_checked : nat) (prev_hash : string) :=
  mkChainResult INVALID (sg_reason r) (total_checked + sg_checked_rows r) (Some prev_hash)
    (sg_broken_record_id r).

(** The checkpoint's own hash is right, so that the segment is skipped. *)
Definition checkpoint_accepted (chain_id : Z) (seg : nat) (stored : option ChainCheckpoint)
    : result (option ChainCheckpoint) :=
  match stored with
  | None => Ok None
  | Some cp =>
      same ← constant_time_equal
               (compute_checkpoint_hash chain_id seg (cp_last_record_id cp) (cp_last_current_hash cp))
               (cp_checkpoint_hash cp);
      Ok (if same : bool then Some cp else None)
  end.

(** Verification of a segment, and the state after it: [prev_hash] and
    [total_checked]. *)
Definition step_segment (chain_id : Z) (seg : nat) (segment : list AuditEventRecord)
    (stored : option ChainCheckpoint) (prev_hash : string) (total_checked : nat)
    : result (AuditChainVerificationResult + string * nat) :=
  r ← verify_segment chain_id seg segment prev_hash stored;
  Ok (if decide (sg_status r = VALID)
      then inr (tip prev_hash segment, (total_checked + sg_checked_rows r)%nat)
      else inl (invalid_chain r total_checked prev_hash)).

Fixpoint segments_loop (interval : nat) (chain_id : Z) (records : list AuditEventRecord)
    (cp_by_seg : list (nat * ChainCheckpoint)) (segs : list nat) (prev_hash : string)
    (total_checked : nat) : result (AuditChainVerificationResult + string * nat) :=
  match segs with
  | [] => Ok (inr (prev_hash, total_checked))
  | seg :: segs =>
      let segment := segment_of interval seg records in
      let stored := dict_get seg cp_by_seg in
      accepted ← checkpoint_accepted chain_id seg stored;
      match accepted with
      | Some cp =>
          segments_loop interval chain_id records cp_by_seg segs (cp_last_current_hash cp)
            (total_checked + length segment)
      | None =>
          r ← step_segment chain_id seg segment stored prev_hash total_checked;
          match r with
          | inl res => Ok (inl res)
          | inr (prev_hash, total_checked) =>
              segments_loop interval chain_id records cp_by_seg segs prev_hash total_checked
          end
      end
  end.

Definition checkpoints_by_segment (known : option (list ChainCheckpoint))
    : list (nat * ChainCheckpoint) :=
  dict_of_pairs (map (fun cp => (cp_segment_index cp, cp)) (default [] known)).

Definition verify_chain_with_checkpoints (interval : nat) (chain_id : Z)
    (records : list AuditEventRecord) (known_checkpoints : option (list ChainCheckpoint))
    : result AuditChainVerificationResult :=
  match records with
  | [] => Ok (mkChainResult VALID "Chain is empty" 0 (Some ZERO_HASH) None)
  | _ =>
      let cp_by_seg := checkpoints_by_segment known_checkpoints in
      let n_complete := (length records / interval)%nat in
      let valid s :=
        mkChainResult VALID
          ("Chain verified with checkpoints (" +:+ str_of_Z (Z.of_nat n_complete) +:+
           " complete segment(s))") s.2 (Some s.1) None in
      r ← segments_loop interval chain_id records cp_by_seg (seq 0 n_complete) ZERO_HASH 0;
      match r with
      | inl res => Ok res
      | inr (prev_hash, total_checked) =>
          match drop (n_complete * interval) records with
          | [] => Ok (valid (prev_hash, total_checked))
          | tail =>
              r ← step_segment chain_id n_complete tail None prev_hash total_checked;
              Ok (match r with inl res => res | inr s => valid s end)
          end
      end
  end.

(** ** Verification in pieces *)

Definition shift (k : nat) (r : AuditChainVerificationResult) : AuditChainVerificationResult :=
  mkChainResult (status r) (reason r) (k + checked_rows r) (last_hash r) (broken_record_id r).

Lemma verify_records_shift k i prev l :
  verify_records (k + i) prev l = shift k <$> verify_records i prev l.
Proof.
  revert i prev. induction l as [|r l IH]; intros i prev; [done|]. cbn [verify_records].
  destruct (constant_time_equal (prev_hash r) prev) as [[]|]; simpl; [|done..].
  destruct (expected_hash r) as [e|]; simpl; [|done].
  destruct (constant_time_equal (current_hash r) e) as [[]|]; simpl; [|done..].
  by rewrite plus_n_Sm, IH.
Qed.

Lemma verify_records_split i prev s l :
  verify_records i prev (s ++ l) =
  r ← verify_records i prev s;
  if decide (status r = VALID) then verify_records (i + length s) (tip prev s) l else Ok r.
Proof.
  revert i prev. induction s as [|r s IH]; intros i prev; [by rewrite Nat.add_0_r|].
  cbn [verify_records app].
  destruct (constant_time_equal (prev_hash r) prev) as [[]|]; simpl; [|done..].
  destruct (expected_hash r) as [e|]; simpl; [|done].
  destruct (constant_time_equal (current_hash r) e) as [[]|]; simpl; [|done..].
  by rewrite IH, Nat.add_succ_r.
Qed.

Lemma verify_records_valid_shape i prev l r :
  verify_records i prev l = Ok r → status r = VALID →
  r = mkChainResult VALID "Audit chain verified successfully" (i + length l) (Some (tip prev l)) None.
Proof.
  revert i prev. induction l as [|x l IH]; intros i prev; cbn [verify_records].
  - intros [= <-] _. by rewrite Nat.add_0_r.
  - intros (b & Hb & H)%bind_ok Hs. destruct b; [|simpl in H; by simplify_eq].
    apply bind_ok in H as (e & He & H). apply bind_ok in H as (b & Hb' & H).
    destruct b; [|simpl in H; by simplify_eq]. simpl. rewrite Nat.add_succ_r. by apply (IH (S i)).
Qed.

(** The texts of a segment's results. *)
Definition segment_reason (reason : string) : string :=
  if String.eqb reason "Previous hash mismatch detected in audit chain"
  then "Previous hash mismatch in segment" else "Current hash mismatch in segment".

Lemma segment_loop_records c s i prev l :
  segment_loop c s i prev l =
  (fun r => if decide (status r = VALID) then None
            else Some (mkSegmentResult INVALID (segment_reason (reason r)) c s (checked_rows r)
                         (broken_record_id r))) <$> verify_records i prev l.
Proof.
  revert i prev. induction l as [|r l IH]; intros i prev; [done|].
  cbn [verify_records segment_loop].
  destruct (constant_time_equal (prev_hash r) prev) as [[]|]; simpl; [|done..].
  destruct (expected_hash r) as [e|]; simpl; [|done].
  destruct (constant_time_equal (current_hash r) e) as [[]|]; simpl; [|done..]. by rewrite IH.
Qed.

(** Without a checkpoint a segment is verified as a chain is. *)
Lemma step_segment_records c s l prev n :
  step_segment c s l None prev n =
  (fun r => if decide (status r = VALID) then inr (tip prev l, (n + length l)%nat)
            else inl (mkChainResult INVALID (segment_reason (reason r)) (n + checked_rows r)
                        (Some prev) (broken_record_id r))) <$> verify_records 0 prev l.
Proof.
  unfold step_segment, verify_segment. rewrite segment_loop_records.
  destruct (verify_records 0 prev l) as [r|] eqn:E; [|done]. simpl.
  by destruct (decide (status r = VALID)).
Qed.

(** What the loop over segments and the verification of the same rows say. *)
Definition agrees (r : result (AuditChainVerificationResult + string * nat))
    (v : result AuditChainVerificationResult) : Prop :=
  match r, v with
  | Raise e, Raise e' => e = e'
  | Ok (inr (h, n)), Ok v => status v = VALID ∧ last_hash v = Some h ∧ checked_rows v = n ∧
                            broken_record_id v = None
  | Ok (inl r), Ok v => status r = INVALID ∧ status v = INVALID ∧
                        checked_rows r = checked_rows v ∧ broken_record_id r = broken_record_id v
  | _, _ => False
  end.

Lemma status_INVALID r : status r ≠ VALID → status r = INVALID.
Proof. by destruct (status r). Qed.

Lemma step_segment_agrees c s l prev n :
  agrees (step_segment c s l None prev n) (verify_records n prev l).
Proof.
  rewrite step_segment_records.
  replace (verify_records n prev l) with (verify_records (n + 0) prev l) by (f_equal; lia).
  rewrite verify_records_shift.
  destruct (verify_records 0 prev l) as [r|] eqn:E; [|done]. simpl.
  destruct (decide (status r = VALID)) as [Hs|Hs]; simpl; [|auto using status_INVALID].
  apply verify_records_valid_shape in E as ->; [|done]. done.
Qed.

Lemma segments_loop_agrees interval c records segs j prev n :
  segs = seq j (length segs) → (j + length segs) * interval <= length records →
  agrees (segments_loop interval c records [] segs prev n)
    (verify_records n prev (take (length segs * interval) (drop (j * interval) records))).
Proof.
  revert j prev n. induction segs as [|s segs IH]; intros j prev n Hs Hl; [done|].
  injection Hs as -> Hs. simpl in Hl. cbn [segments_loop dict_get checkpoint_accepted].
  cbn [mbind result_bind]. simpl (take _ _).
  rewrite (Nat.add_comm interval), Nat.add_comm, <-take_take_drop.
  rewrite drop_drop, verify_records_split. fold (segment_of interval j records).
  pose proof (step_segment_agrees c j (segment_of interval j records) prev n) as Ha.
  destruct (step_segment _ _ _ _ _ _) as [[r|[h m]]|e], (verify_records _ _ _) as [v|e'] eqn:Ev;
    simpl in Ha |- *; try done.
  - destruct Ha as (? & Hv & ? & ?). by rewrite decide_False by congruence.
  - destruct Ha as (Hv & Hh & Hc & _). rewrite decide_True by done.
    apply verify_records_valid_shape in Ev as ->; [|done]. simplify_eq/=.
    replace (j * interval + interval) with (S j * interval) by lia. apply IH; [done|lia].
Qed.

(** ** Stored checkpoints *)

(** A stored checkpoint that the verifier accepts. *)
Definition self_consistent (c : Z) (seg : nat) (cp : ChainCheckpoint) : Prop :=
  cp_checkpoint_hash cp = compute_checkpoint_hash c seg (cp_last_record_id cp) (cp_last_current_hash cp).

Lemma checkpoint_accepted_consistent c seg cp :
  self_consistent c seg cp → checkpoint_accepted c seg (Some cp) = Ok (Some cp).
Proof.
  unfold self_consistent. intros E. simpl. rewrite <-E, constant_time_equal_hash.
  - simpl. by rewrite String.eqb_refl.
  - rewrite E. apply hash_wf_ascii, sha256_hex_wf.
  - rewrite E. apply sha256_hex_wf.
Qed.

Lemma length_segment_of {A} interval seg (l : list A) :
  S seg * interval <= length l → length (segment_of interval seg l) = interval.
Proof. intros. unfold segment_of. rewrite length_take, length_drop. lia. Qed.

(** With an accepted checkpoint for every segment no row is read. *)
Lemma segments_loop_skips interval c l cps segs prev n :
  (∀ seg, seg ∈ segs → S seg * interval <= length l) →
  (∀ seg, seg ∈ segs → ∃ cp, dict_get seg cps = Some cp ∧ self_consistent c seg cp) →
  segments_loop interval c l cps segs prev n =
  Ok (inr (foldl (fun h seg => default h (cp_last_current_hash <$> dict_get seg cps)) prev segs,
           (n + length segs * interval)%nat)).
Proof.
  revert prev n. induction segs as [|seg segs IH]; intros prev n Hl Hc.
  - simpl. by rewrite Nat.add_0_r.
  - destruct (Hc seg) as (cp & Hg & Hs); [set_solver|]. cbn [segments_loop foldl]. rewrite Hg.
    rewrite checkpoint_accepted_consistent by done. cbn [mbind result_bind].
    rewrite length_segment_of by (apply Hl; set_solver).
    rewrite IH by set_solver. simpl. do 3 f_equal. lia.
Qed.

(** Checkpoints that say what the rows of [l] say. *)
Definition faithful (interval : nat) (c : Z) (l : list AuditEventRecord)
    (cps : list (nat * ChainCheckpoint)) : Prop :=
  ∀ seg cp, dict_get seg cps = Some cp →
    self_consistent c seg cp ∧ cp_last_current_hash cp = tip ZERO_HASH (take (S seg * interval) l).

Lemma tip_app prev l k : tip prev (l ++ k) = tip (tip prev l) k.
Proof. unfold tip. by rewrite foldl_app. Qed.

Lemma take_segment {A} interval j (l : list A) :
  take (S j * interval) l = take (j * interval) l ++ segment_of interval j l.
Proof. unfold segment_of. rewrite take_take_drop. f_equal. lia. Qed.

Lemma linked_segment interval j l :
  linked ZERO_HASH l → linked (tip ZERO_HASH (take (j * interval) l)) (segment_of interval j l).
Proof.
  intros Hl. rewrite <-(take_drop (S j * interval) l), linked_app, take_segment, linked_app in Hl.
  tauto.
Qed.

Lemma step_segment_linked c s l prev n :
  hash_wf prev → linked prev l →
  step_segment c s l None prev n = Ok (inr (tip prev l, (n + length l)%nat)).
Proof. intros. rewrite step_segment_records, verify_records_linked by done. done. Qed.

Lemma segments_loop_faithful interval c l cps m :
  linked ZERO_HASH l → faithful interval c l cps → m * interval <= length l →
  ∀ j, j <= m →
  segments_loop interval c l cps (seq j (m - j)) (tip ZERO_HASH (take (j * interval) l)) (j * interval) =
  Ok (inr (tip ZERO_HASH (take (m * interval) l), (m * interval)%nat)).
Proof.
  intros Hl Hc Hm j Hj. remember (m - j) as k eqn:Hk. revert j Hj Hk.
  induction k as [|k IH]; intros j Hj Hk; [by replace j with m by lia|].
  assert (length (segment_of interval j l) = interval) as Hlen.
  { apply length_segment_of. transitivity (m * interval); [|done]. apply Nat.mul_le_mono_r. lia. }
  specialize (IH (S j) ltac:(lia) ltac:(lia)). cbn [seq segments_loop].
  assert (j * interval + interval = S j * interval) as Hn by lia.
  destruct (dict_get j cps) as [cp|] eqn:Hg.
  - destruct (Hc j cp Hg) as [Hs Ht]. rewrite checkpoint_accepted_consistent by done.
    cbn [mbind result_bind]. by rewrite Ht, Hlen, Hn.
  - cbn [checkpoint_accepted mbind result_bind].
    rewrite step_segment_linked; [|apply tip_wf; [apply ZERO_HASH_wf|]|by apply linked_segment].
    + cbn [mbind result_bind]. by rewrite <-tip_app, <-take_segment, Hlen, Hn.
    + rewrite <-(take_drop (j * interval) l), linked_app in Hl. tauto.
Qed.

Lemma div_mul_le n k : 0 < k → n / k * k <= n.
Proof. intros. rewrite Nat.mul_comm. apply Nat.Div0.mul_div_le. Qed.

Lemma checkpointed_chain_valid interval c l known :
  0 < interval → linked ZERO_HASH l → faithful interval c l (checkpoints_by_segment known) →
  ∃ reason, verify_chain_with_checkpoints interval c l known =
            Ok (mkChainResult VALID reason (length l) (Some (tip ZERO_HASH l)) None).
Proof.
  intros Hi Hl Hc. destruct l as [|r0 l0] eqn:El; [by eexists|]. unfold verify_chain_with_checkpoints. rewrite <-El in *.
  pose proof (div_mul_le (length l) interval Hi) as Hd. set (m := length l / interval) in *.
  pose proof (segments_loop_faithful interval c l _ m Hl Hc Hd 0 ltac:(lia)) as E.
  rewrite Nat.sub_0_r in E. cbn [Nat.mul take] in E. unfold tip in E at 1. simpl in E. rewrite E.
  cbn [mbind result_bind].
  rewrite <-(take_drop (m * interval) l), linked_app in Hl. destruct Hl as [Hh Ht].
  destruct (drop (m * interval) l) as [|x k] eqn:Ed.
  - apply (f_equal length) in Ed. rewrite length_drop in Ed. simpl in Ed.
    eexists. rewrite (take_ge l) by lia. do 2 f_equal; simpl. lia.
  - rewrite <-Ed in *. rewrite step_segment_linked; [|by apply tip_wf|done]. eexists.
    cbn [mbind result_bind]. do 2 f_equal; simpl.
    + rewrite length_drop. lia.
    + by rewrite <-tip_app, take_drop.
Qed.

Lemma dict_of_pairs_elem {K V} `{!EqDecision K} (l : list (K * V)) p :
  p ∈ dict_of_pairs l → p ∈ l.
Proof.
  unfold dict_of_pairs. induction l as [|q l IH] using rev_ind; [done|].
  rewrite fold_left_app. simpl. destruct p as [k v]. intros [E|H]%dict_set_elem; [|set_solver].
  rewrite E. destruct q. set_solver.
Qed.

Lemma segment_end n k j : 0 < k → j < n / k → S j * k <= n.
Proof.
  intros Hk Hj. transitivity (n / k * k); [|by apply div_mul_le]. apply Nat.mul_le_mono_r. lia.
Qed.

(** Checkpoints built on an earlier log are faithful to every extension of it. *)
Lemma built_checkpoints_faithful interval c l k :
  0 < interval →
  faithful interval c (l ++ k) (checkpoints_by_segment (Some (build_checkpoints_for_chain interval c l))).
Proof.
  intros Hi seg cp (cp' & [= Hseg ->] & Hcp)%dict_get_Some_elem%dict_of_pairs_elem%elem_of_map.
  simpl in Hcp. unfold build_checkpoints_for_chain in Hcp.
  apply list_elem_of_omap in Hcp as (j & Hj%elem_of_seq & Hcp).
  destruct (last (segment_of interval j l)) as [r|] eqn:Hr; [|done]. injection Hcp as <-.
  cbn [cp_segment_index] in Hseg. subst. split; [done|]. cbn [cp_last_current_hash].
  rewrite take_app_le, take_segment, tip_app by (apply segment_end; lia).
  by rewrite (tip_last _ _ r).
Qed.

(** ** Properties *)

(** Checkpoints are optional.  Without any, verification in segments gives
    what [_verify_single_chain] gives: the same status, number of rows and
    broken row, and on VALID the same last hash; and it raises the same errors. *)
Theorem checkpoints_optional interval c l known :
  0 < interval → default [] known = [] →
  match verify_chain_with_checkpoints interval c l known, verify_single_chain l with
  | Ok r, Ok s =>
      status r = status s ∧ checked_rows r = checked_rows s ∧
      broken_record_id r = broken_record_id s ∧ (status s = VALID → last_hash r = last_hash s)
  | Raise e, Raise e' => e = e'
  | _, _ => False
  end.
Proof.
  intros Hi Hk. unfold verify_chain_with_checkpoints, checkpoints_by_segment. rewrite Hk.
  destruct l as [|x0 l0] eqn:El; [done|]. rewrite <-El. clear El x0 l0.
  cbn [map]. change (dict_of_pairs []) with (@nil (nat * ChainCheckpoint)).
  pose proof (div_mul_le (length l) interval Hi) as Hd. set (m := length l / interval) in *.
  pose proof (segments_loop_agrees interval c l (seq 0 m) 0 ZERO_HASH 0) as Ha.
  rewrite length_seq in Ha. specialize (Ha eq_refl Hd). cbn [Nat.mul drop] in Ha.
  assert (verify_single_chain l =
          verify_records 0 ZERO_HASH (take (m * interval) l ++ drop (m * interval) l)) as ->
    by by rewrite take_drop.
  rewrite verify_records_split.
  destruct (segments_loop _ _ _ _ _ _ _) as [[r|[h n]]|e], (verify_records _ _ _) as [v|e'] eqn:Ev;
    simpl in Ha |- *; try done.
  - destruct Ha as (Hr & Hv & ? & ?). rewrite decide_False by congruence.
    by rewrite Hr, Hv.
  - destruct Ha as (Hv & Hh & Hn & _). rewrite decide_True by done.
    pose proof (verify_records_valid_shape _ _ _ _ Ev Hv) as ->. simpl in Hh, Hn. simplify_eq.
    pose proof (step_segment_agrees c m (drop (m * interval) l) (tip ZERO_HASH (take (m * interval) l))
      (length (take (m * interval) l))) as Hs.
    destruct (drop (m * interval) l) as [|y k]; [done|].
    destruct (step_segment _ _ _ _ _ _) as [[r|[h n]]|e], (verify_records _ _ (y :: k)) as [v|e'];
      simpl in Hs |- *; try done; destruct_and!; split_and!; intros; congruence.
Qed.

Lemma checkpoints_optional_witness :
  match verify_chain_with_checkpoints 1 7 [sample_1; sample_3] None,
        verify_single_chain [sample_1; sample_3] with
  | Ok r, Ok s =>
      status r = status s ∧ checked_rows r = checked_rows s ∧
      broken_record_id r = broken_record_id s ∧ (status s = VALID → last_hash r = last_hash s)
  | Raise e, Raise e' => e = e'
  | _, _ => False
  end.
Proof. apply checkpoints_optional; [lia|reflexivity]. Defined.

(** Genuine checkpoints are accepted.  With the checkpoints built on the first
    rows of a chain, the whole chain is VALID, with all its rows counted and
    its own last hash. *)
Theorem built_checkpoints_accepted interval c l k :
  0 < interval → linked ZERO_HASH (l ++ k) →
  ∃ reason,
    verify_chain_with_checkpoints interval c (l ++ k) (Some (build_checkpoints_for_chain interval c l)) =
    Ok (mkChainResult VALID reason (length (l ++ k)) (Some (tip ZERO_HASH (l ++ k))) None).
Proof. intros. by apply checkpointed_chain_valid, built_checkpoints_faithful. Qed.

Lemma built_checkpoints_accepted_witness :
  let l := [sample_1] in let k := [sample_3] in
  linked ZERO_HASH (l ++ k) ∧
  ∃ reason,
    verify_chain_with_checkpoints 1 7 (l ++ k) (Some (build_checkpoints_for_chain 1 7 l)) =
    Ok (mkChainResult VALID reason (length (l ++ k)) (Some (tip ZERO_HASH (l ++ k))) None).
Proof.
  assert (linked ZERO_HASH ([sample_1] ++ [sample_3])) as H by (vm_compute; done).
  split; [exact H|]. apply built_checkpoints_accepted; [lia|exact H].
Defined.

(** Rows under an accepted checkpoint are not read.  A checkpoint is accepted
    on its own hash, which anyone can compute.  With one for every complete
    segment, two logs of the same length with the same tail get the same
    result, whatever the rows of their segments are. *)
Theorem checkpointed_rows_unread interval c l l' known :
  0 < interval → length l = length l' →
  drop (length l / interval * interval) l = drop (length l / interval * interval) l' →
  (∀ seg, seg < length l / interval →
     ∃ cp, dict_get seg (checkpoints_by_segment known) = Some cp ∧ self_consistent c seg cp) →
  verify_chain_with_checkpoints interval c l known =
  verify_chain_with_checkpoints interval c l' known.
Proof.
  intros Hi Hlen Hd Hc. unfold verify_chain_with_checkpoints.
  destruct l as [|x0 l0] eqn:El, l' as [|x1 l1] eqn:El'; [done..|]. rewrite <-El, <-El' in *.
  assert (∀ seg, seg ∈ seq 0 (length l / interval) → S seg * interval <= length l) as Hs.
  { intros seg ?%elem_of_seq. apply segment_end; lia. }
  rewrite <-Hlen, !segments_loop_skips; [cbn [mbind result_bind]; by rewrite Hd|..];
    rewrite <-?Hlen; try done; intros seg ?%elem_of_seq; apply Hc; lia.
Qed.

Lemma checkpointed_rows_unread_witness :
  let known := Some (build_checkpoints_for_chain 1 7 [sample_1; sample_3]) in
  verify_chain_with_checkpoints 1 7 [sample_1; sample_3] known =
  verify_chain_with_checkpoints 1 7 [sample_altered; sample_2] known.
Proof.
  apply checkpointed_rows_unread; [lia|reflexivity..|]. intros seg Hseg.
  destruct seg as [|[|]]; [| |simpl in Hseg; lia];
    (eexists; split; [vm_compute; reflexivity|vm_compute; reflexivity]).
Defined.

Example checkpointed_rows_altered :
  let known := Some (build_checkpoints_for_chain 1 7 [sample_1; sample_3]) in
  (status <$> verify_single_chain [sample_altered; sample_2],
   status <$> verify_chain_with_checkpoints 1 7 [sample_altered; sample_2] known) =
  (Ok INVALID, Ok VALID).
Proof. vm_compute. reflexivity. Qed.
