(* ===== verification/Guards.v ===== *)
(** * Payload guards (security/guards.py)

    Size limits and the three injection patterns, with the regular expressions
    written as searches for a position where a matcher succeeds. *)
From S2P Require Export ServerCanonical.

Local Open Scope Z_scope.

Definition MAX_REQUEST_BYTES : Z := 8192.
Definition MAX_STRING_BYTES : Z := 256.
Definition MAX_COLLECTION_ITEMS : Z := 256.

(** ** Regular expressions *)

(** [\w] on code points below U+0100: letters, digits, the three superscript
    digits, the three fractions, the ordinal indicators, micro, underscore. *)
Definition is_word (c : ascii) : bool :=
  let z := ord c in
  is_digit c || between 65 90 z || between 97 122 z || (z =? 95) || (z =? 170) || (z =? 181) ||
  (z =? 186) || between 188 190 z ||
  (between 192 255 z && negb (z =? 215) && negb (z =? 247)).

Definition starts_word (s : string) : bool :=
  match s with "" => false | String c _ => is_word c end.

(** [pattern.search(s)]: the matcher is told whether the character before is a
    word character, for [\b]. *)
Fixpoint re_search (at_ : bool → string → bool) (prev : bool) (s : string) : bool :=
  at_ prev s || match s with "" => false | String c s => re_search at_ (is_word c) s end.

(** [(--|/\*|\*/|;)] *)
Definition comment_at (prev : bool) (s : string) : bool :=
  existsb (fun p => str_prefix p s) ["--"; "/*"; "*" +:+ "/"; ";"].

(** [\b(select|insert|...)\b] without case *)
Definition KEYWORDS : list string :=
  ["select"; "insert"; "update"; "delete"; "drop"; "union"; "alter"; "create"; "truncate"; "xp_"].

Definition word_at (kw : string) (s : string) : bool :=
  str_prefix kw (str_lower s) && negb (starts_word (str_drop (String.length kw) s)).
Definition keyword_at (prev : bool) (s : string) : bool :=
  negb prev && existsb (fun kw => word_at kw s) KEYWORDS.

(** [<\s*script\b] without case *)
Definition script_at (prev : bool) (s : string) : bool :=
  match eat "<" s with
  | Some s => word_at "script" (str_lstrip_by is_space s)
  | None => false
  end.

Definition INJECTION_PATTERNS : list (bool → string → bool) := [comment_at; keyword_at; script_at].

Definition injection (s : string) : bool :=
  existsb (fun pattern => re_search pattern false s) INJECTION_PATTERNS.

(** ** Guards *)

Definition guard_str (s : string) : result unit :=
  if Z.of_nat (length (utf8 s)) >? MAX_STRING_BYTES then
    raise SecurityViolation "String value exceeds size limit"
  else if injection s then raise SecurityViolation "Potential injection pattern detected"
  else Ok tt.

Definition each {A} (f : A → result unit) (l : list A) : result unit := (fun _ => tt) <$> traverse f l.

(** [_walk] *)
Fixpoint walk (value : pyval) : result unit :=
  let items n l : result unit :=
    if Z.of_nat n >? MAX_COLLECTION_ITEMS then
      raise SecurityViolation "Payload contains too many items"
    else (fun _ => tt) <$> traverse id l in
  match value with
  | PDict l =>
      if Z.of_nat (length l) >? MAX_COLLECTION_ITEMS then
        raise SecurityViolation "Payload contains too many keys"
      else (fun _ => tt) <$> traverse id (map (fun p => _ ← guard_str p.1; walk p.2) l)
  | PList l | PTuple l => items (length l) (map walk l)
  | PSet l => items (length l) (map guard_str l)
  | PStr s => guard_str s
  | PFloat _ => raise SecurityViolation "Floating point values are not allowed"
  | PInt _ | PBool _ | PNone | PDecimal _ => Ok tt
  | PDatetime _ | PDate _ | PUUID _ | PModel _ =>
      raise SecurityViolation "Unsupported payload type: {}"
  end.

Definition enforce_payload_guards (payload : pyval) : result unit :=
  raw ← canonical_payload payload;
  if Z.of_nat (length (utf8 raw)) >? MAX_REQUEST_BYTES then
    raise SecurityViolation "Payload exceeds maximum request size"
  else walk payload.

(** ** Strings without patterns *)

Lemma re_search_none at_ prev s (P : ascii → bool) :
  (∀ prev s, (match s with "" => true | String c _ => P c end) = true → at_ prev s = false) →
  str_forall P s = true → re_search at_ prev s = false.
Proof.
  intros Hat. revert prev. induction s as [|c s IH]; intros prev; simpl.
  - intros _. by rewrite Hat.
  - intros [Hc Hs]%andb_true_iff. by rewrite Hat, IH.
Qed.

(** The characters patterns start with. *)
Definition PATTERN_HEADS : list ascii :=
  ["-"%char; "/"%char; "*"%char; ";"%char; "<"%char; "s"%char; "i"%char; "u"%char; "d"%char;
   "a"%char; "c"%char; "t"%char; "x"%char].
Definition quiet (c : ascii) : bool :=
  negb (existsb (Ascii.eqb c) PATTERN_HEADS) &&
  negb (existsb (Ascii.eqb (lower_char c)) PATTERN_HEADS).

Lemma quiet_heads c : quiet c = true →
  ∀ d, d ∈ PATTERN_HEADS → Ascii.eqb d c = false ∧ Ascii.eqb d (lower_char c) = false.
Proof.
  unfold quiet. rewrite andb_true_iff, !negb_true_iff. intros [H1 H2] d Hd.
  split; apply Ascii.eqb_neq; intros ->; [rename H1 into H|rename H2 into H];
    apply not_true_iff_false in H; apply H, existsb_exists;
    eexists; (split; [by apply list_elem_of_In|apply Ascii.eqb_refl]).
Qed.

Lemma str_prefix_head d p c s : Ascii.eqb d c = false → str_prefix (String d p) (String c s) = false.
Proof. simpl. by intros ->. Qed.

Ltac quiet_head Hq :=
  first [ rewrite str_prefix_head by (apply Hq; unfold PATTERN_HEADS; set_solver)
        | cbn [negb andb orb existsb] ].

Lemma quiet_patterns (pattern : bool → string → bool) prev c s :
  pattern ∈ INJECTION_PATTERNS → quiet c = true → pattern prev (String c s) = false.
Proof.
  intros Hp Hq. pose proof (quiet_heads c Hq) as Hh.
  unfold INJECTION_PATTERNS in Hp. rewrite !elem_of_cons, elem_of_nil in Hp.
  destruct Hp as [->|[->|[->|[]]]].
  - unfold comment_at. cbn [existsb]. change ("*" +:+ "/") with "*/". repeat quiet_head Hh. done.
  - unfold keyword_at, KEYWORDS, word_at. cbn [existsb].
    change (str_lower (String c s)) with (String (lower_char c) (str_lower s)).
    repeat quiet_head Hh. apply andb_false_r.
  - unfold script_at. cbn [eat].
    by rewrite (proj1 (Hh "<"%char ltac:(unfold PATTERN_HEADS; set_solver))).
Qed.

Lemma quiet_injection s : str_forall quiet s = true → injection s = false.
Proof.
  intros Hs. unfold injection. apply not_true_iff_false. rewrite existsb_exists.
  intros (pattern & Hp%list_elem_of_In & H). apply not_false_iff_true in H. apply H.
  apply (re_search_none _ _ s quiet); [|done]. intros prev [|c t] Hc; [|by apply quiet_patterns].
  unfold INJECTION_PATTERNS in Hp. rewrite !elem_of_cons, elem_of_nil in Hp.
  destruct Hp as [->|[->|[->|[]]]]; by destruct prev.
Qed.

Lemma decimal_quiet s : str_forall is_decimal s = true → injection s = false.
Proof.
  intros Hs. apply quiet_injection. eapply str_forall_impl; [|exact Hs].
  intros c. apply implb_true_iff. revert c. apply forall_chars. vm_compute. reflexivity.
Qed.

Definition is_upper (c : ascii) : bool := between 65 90 (ord c).

Lemma two_letters_quiet c d :
  is_upper c = true → is_upper d = true → injection (String c (String d "")) = false.
Proof.
  intros Hc Hd.
  assert (forallb (fun c => if is_upper c then
            forallb (fun d => if is_upper d then negb (injection (String c (String d ""))) else true)
              all_chars else true) all_chars = true) as H by (vm_compute; reflexivity).
  pose proof (forall_chars _ H c) as H'. cbv beta in H'. rewrite Hc in H'.
  pose proof (forall_chars _ H' d) as H''. cbv beta in H''. rewrite Hd in H''.
  by apply negb_true_iff in H''.
Qed.

(** ** Examples *)

(** The patterns as the tests use them. *)
Example injection_examples :
  map injection ["1; drop table calculations"; "8507600000"; "CN"; "DELETE"; "deleted"; "a--b";
                 "<  ScRiPt>"; "scripts"; "backdrop"; "drop"] =
  [true; false; false; true; false; true; true; false; false; true].
Proof. vm_compute. reflexivity. Qed.

(** [xp_] must be followed by a word boundary, so that the procedures it is
    meant for, like [xp_cmdshell], are not matched. *)
Example xp_cmdshell_passes : injection "exec xp_cmdshell" = false ∧ injection "exec xp_ dir" = true.
Proof. vm_compute. done. Qed.
