(* ===== verification/Sizes.v ===== *)
(** * Sizes of texts

    Bounds on the length of numerals, JSON strings and UTF-8, enough to show
    that a validated request never exceeds the size limits of its guards. *)
From Stdlib Require Import DecimalString DecimalFacts DecimalPos.
From S2P Require Export PyDecimal.

Local Open Scope Z_scope.

Lemma little_double_digits d :
  (Decimal.nb_digits (Decimal.Little.double d) <= S (Decimal.nb_digits d))%nat ∧
  (Decimal.nb_digits (Decimal.Little.succ_double d) <= S (Decimal.nb_digits d))%nat.
Proof. induction d; simpl; lia. Qed.

Lemma pos_digits p : (Decimal.nb_digits (Pos.to_little_uint p) <= Pos.size_nat p)%nat.
Proof.
  induction p as [p IH|p IH|]; simpl; [..|lia];
    pose proof (little_double_digits (Pos.to_little_uint p)); lia.
Qed.

Lemma length_string_of_uint d : String.length (NilEmpty.string_of_uint d) = Decimal.nb_digits d.
Proof. induction d; simpl; congruence. Qed.

(** At most as many decimal digits as binary ones. *)
Lemma length_str_of_Z n q :
  0 <= n < Zpos q → (String.length (str_of_Z n) <= Pos.size_nat q)%nat.
Proof.
  intros Hn. assert (1 <= Pos.size_nat q)%nat by (destruct q; simpl; lia).
  unfold str_of_Z. destruct n as [|p|p]; [simpl; lia| |lia].
  simpl Z.to_int. simpl NilZero.string_of_int.
  rewrite string_of_uint_nonnil by apply DecimalPos.Unsigned.to_uint_nonnil.
  rewrite length_string_of_uint. unfold Pos.to_uint. rewrite DecimalFacts.nb_digits_rev.
  etrans; [apply pos_digits|]. apply Pos.size_nat_monotone. lia.
Qed.

Lemma length_utf8 s : (length (utf8 s) <= 2 * String.length s)%nat.
Proof. induction s as [|c s IH]; simpl; [lia|]. case_match; simpl; lia. Qed.

Lemma length_json_esc_char c : (String.length (json_esc_char c) <= 6)%nat.
Proof.
  apply Nat.leb_le. revert c. apply forall_chars. vm_compute. reflexivity.
Qed.

Lemma length_json_esc s : (String.length (json_esc s) <= 6 * String.length s)%nat.
Proof.
  induction s as [|c s IH]; simpl (json_esc _); [simpl; lia|].
  rewrite str_length_app. pose proof (length_json_esc_char c). cbn [String.length]. lia.
Qed.

Lemma length_json_str s : (String.length (json_str s) <= 6 * String.length s + 2)%nat.
Proof.
  unfold json_str. cbn [String.length]. rewrite str_length_app. pose proof (length_json_esc s).
  simpl. lia.
Qed.

Lemma length_zeros n : String.length (zeros n) = n.
Proof. induction n; simpl; congruence. Qed.

Lemma length_str_take_drop n s :
  (String.length (str_take n s) + String.length (str_drop n s) = String.length s)%nat.
Proof. revert n. induction s as [|c s IH]; intros [|n]; simpl; [lia..|]. specialize (IH n). lia. Qed.

Lemma length_with_point ds k :
  (String.length (with_point ds k) <= String.length ds + S k + 1)%nat.
Proof.
  unfold with_point. set (t := zeros _ +:+ ds). rewrite !str_length_app.
  assert (String.length t <= String.length ds + S k)%nat.
  { unfold t. rewrite str_length_app, length_zeros. lia. }
  pose proof (length_str_take_drop (String.length t - k) t). simpl. lia.
Qed.

(** An amount of money has a short text. *)
Lemma length_money_text neg c :
  0 <= c < PREC → (String.length (format_f (Fin neg c (-2))) <= 100)%nat.
Proof.
  intros Hc. unfold format_f. change (-2 >=? 0) with false. cbv iota.
  rewrite str_length_app. pose proof (length_with_point (str_of_Z c) (Z.to_nat (- -2))) as H.
  assert (String.length (str_of_Z c) <= 94)%nat.
  { change PREC with (Zpos 10000000000000000000000000000) in Hc.
    apply length_str_of_Z in Hc. exact Hc. }
  change (Z.to_nat (- -2)) with 2%nat in *. destruct neg; simpl String.length at 1; lia.
Qed.
