(* ===== verification/Schemas.v ===== *)
(** * Requests and responses (models/schemas.py)

    [ImportCalculationRequest] and its validators.  pydantic runs the
    validators field by field: a [ValueError] is collected and becomes a
    [ValidationError] at the end, any other exception escapes at once.  Its
    coercion of [quantity] to an integer is a parameter. *)
From S2P Require Export Guards PyObj Sizes.

Local Open Scope Z_scope.

(** ** [str(value)]

    [None] for a value whose text starts with a bracket or is not modelled:
    no validator below accepts such a text. *)

(** [str(d)]: scientific notation for positive exponents and small values. *)
Definition decimal_str (d : decimal) : string :=
  let sign (neg : bool) := if neg then "-" else "" in
  match d with
  | Fin neg c e =>
      let ds := str_of_Z c in
      let adj := e + Z.of_nat (String.length ds) - 1 in
      sign neg +:+
      (if (e <=? 0) && (-6 <=? adj)
       then (if e =? 0 then ds else with_point ds (Z.to_nat (- e)))
       else str_take 1 ds +:+
            (if (String.length ds =? 1)%nat then "" else "." +:+ str_drop 1 ds) +:+
            "E" +:+ (if adj <? 0 then "-" else "+") +:+ str_of_Z (Z.abs adj))
  | _ => format_f d
  end.

Definition py_str (v : pyval) : option string :=
  match v with
  | PStr s => Some s
  | PInt z => Some (str_of_Z z)
  | PBool b => Some (if b then "True" else "False")
  | PNone => Some "None"
  | PDecimal d => Some (decimal_str d)
  | _ => None
  end.

(** ** The request *)

Record ImportCalculationRequest := mkRequest {
  hs_code : string;
  country_of_origin : string;
  customs_value : decimal;
  freight : decimal;
  insurance : decimal;
  quantity : Z;
  shipping_mode : string }.

Definition REQUEST_FIELDS : list string :=
  ["hs_code"; "country_of_origin"; "customs_value"; "freight"; "insurance"; "quantity";
   "shipping_mode"].

(** The outcome of a field: a value, or [None] for a collected error; [Raise]
    for an exception that is not a [ValueError]. *)
Abbreviation field A := (result (option A)).

(** [^\d{10}$] *)
Definition matches_hs (s : string) : bool :=
  (String.length s =? 10)%nat && str_forall is_decimal s.
(** [^[A-Z]{2}$] *)
Definition matches_country (s : string) : bool :=
  (String.length s =? 2)%nat && str_forall is_upper s.

Definition normalize_hs_code (value : pyval) : option string :=
  s ← py_str value;
  let text := str_strip s in if str_isdigit text then Some text else None.

Definition normalize_country (value : pyval) : option string :=
  (fun s => str_upper (str_strip s)) <$> py_str value.

Definition normalize_shipping_mode (value : pyval) : option string :=
  (fun s => str_lower (str_strip s)) <$> py_str value.

(** The argument of [money]. *)
Definition to_pynum (v : pyval) : pynum :=
  match v with
  | PDecimal d => NDecimal d
  | PBool b => NBool b
  | PInt z => NInt z
  | PStr s => NStr s
  | _ => NOther
  end.

(** A [ValueError] of a validator is collected. *)
Definition collect {A} (r : result A) : field A :=
  match r with
  | Ok a => Ok (Some a)
  | Raise e => if decide (exn_cls e = ValueError ∨ exn_cls e = SecurityViolation)
               then Ok None else Raise e
  end.

Definition keep {A} (p : A → bool) (x : option A) : option A :=
  match x with Some a => if p a then Some a else None | None => None end.

(** Finite, and greater than (at least, unless [strict]) zero. *)
Definition positive_decimal (strict : bool) (d : decimal) : bool :=
  match d with
  | Fin neg c _ => if strict then negb neg && (0 <? c) else negb neg || (c =? 0)
  | _ => false
  end.

Definition normalize_money (strict : bool) (value : pyval) : field decimal :=
  keep (positive_decimal strict) <$> collect (money (to_pynum value)).

Section validation.
(** pydantic's conversion to [int]: the integer it finds, if any. *)
Context (coerce_int : pyval → option Z).

Definition validate_hs_code (v : pyval) : field string := Ok (keep matches_hs (normalize_hs_code v)).
Definition validate_country (v : pyval) : field string :=
  Ok (keep matches_country (normalize_country v)).
Definition validate_quantity (v : pyval) : field Z := Ok (keep (between 1 1000000) (coerce_int v)).
Definition validate_shipping_mode (v : pyval) : field string :=
  Ok (keep (fun s => bool_decide (s ∈ ["ocean"; "air"; "truck"])) (normalize_shipping_mode v)).

(** A missing key is a collected error. *)
Definition on_key {A} (f : pyval → field A) (k : string) (d : list (string * pyval)) : field A :=
  match dict_get k d with Some v => f v | None => Ok None end.

Definition validation_error : exn := Exn ValidationError "{} validation errors for ImportCalculationRequest".

(** [ImportCalculationRequest.model_validate(value)] on a dictionary. *)
Definition model_validate (value : list (string * pyval)) : result ImportCalculationRequest :=
  guard ← collect (enforce_payload_guards (PDict value));
  match guard with
  | None => Raise validation_error
  | Some _ =>
      hs ← on_key validate_hs_code "hs_code" value;
      country ← on_key validate_country "country_of_origin" value;
      customs ← on_key (normalize_money true) "customs_value" value;
      freight ← on_key (normalize_money false) "freight" value;
      insurance ← on_key (normalize_money false) "insurance" value;
      quantity ← on_key validate_quantity "quantity" value;
      mode ← on_key validate_shipping_mode "shipping_mode" value;
      match hs, country, customs, freight, insurance, quantity, mode with
      | Some hs, Some country, Some customs, Some freight, Some insurance, Some quantity, Some mode =>
          if forallb (fun k => bool_decide (k ∈ REQUEST_FIELDS)) (dict_keys value)
          then Ok (mkRequest hs country customs freight insurance quantity mode)
          else Raise validation_error
      | _, _, _, _, _, _, _ => Raise validation_error
      end
  end.
End validation.

(** [request.model_dump(mode='python')] *)
Definition model_dump (r : ImportCalculationRequest) : list (string * pyval) :=
  [("hs_code", PStr (hs_code r)); ("country_of_origin", PStr (country_of_origin r));
   ("customs_value", PDecimal (customs_value r)); ("freight", PDecimal (freight r));
   ("insurance", PDecimal (insurance r)); ("quantity", PInt (quantity r));
   ("shipping_mode", PStr (shipping_mode r))].

(** ** The response *)

Record TraceStep := mkTraceStep {
  step : string;
  rule_ref : string;
  inputs : list (string * string);
  outputs : list (string * string) }.

Record IntegrityArtifact := mkIntegrity {
  input_hash : string;
  output_hash : string;
  trace_hash : string;
  integrity_hash : string }.

Record CalculationResult := mkCalculation {
  dataset_version : string;
  dataset_hash : string;
  r_hs_code : string;
  r_country_of_origin : string;
  r_quantity : Z;
  tariff_rule_ref : string;
  tariff_description : string;
  unit_customs_value : decimal;
  extended_customs_value : decimal;
  r_freight : decimal;
  r_insurance : decimal;
  duty_rate : decimal;
  section_301_rate : decimal;
  duty_amount : decimal;
  section_301_amount : decimal;
  mpf_amount : decimal;
  hmf_amount : decimal;
  landed_cost : decimal }.

Record CalculationResponse := mkResponse {
  calculation : CalculationResult;
  trace : list TraceStep;
  integrity : IntegrityArtifact }.

Definition str_dict (l : list (string * string)) : pyval := PDict (map (fun p => (p.1, PStr p.2)) l).

Definition dump_step (s : TraceStep) : pyval :=
  PDict [("step", PStr (step s)); ("rule_ref", PStr (rule_ref s)); ("inputs", str_dict (inputs s));
         ("outputs", str_dict (outputs s))].

Definition dump_trace (l : list TraceStep) : pyval := PList (map dump_step l).

Definition dump_result (r : CalculationResult) : pyval :=
  PDict [("dataset_version", PStr (dataset_version r)); ("dataset_hash", PStr (dataset_hash r));
         ("hs_code", PStr (r_hs_code r)); ("country_of_origin", PStr (r_country_of_origin r));
         ("quantity", PInt (r_quantity r)); ("tariff_rule_ref", PStr (tariff_rule_ref r));
         ("tariff_description", PStr (tariff_description r));
         ("unit_customs_value", PDecimal (unit_customs_value r));
         ("extended_customs_value", PDecimal (extended_customs_value r));
         ("freight", PDecimal (r_freight r)); ("insurance", PDecimal (r_insurance r));
         ("duty_rate", PDecimal (duty_rate r)); ("section_301_rate", PDecimal (section_301_rate r));
         ("duty_amount", PDecimal (duty_amount r));
         ("section_301_amount", PDecimal (section_301_amount r));
         ("mpf_amount", PDecimal (mpf_amount r)); ("hmf_amount", PDecimal (hmf_amount r));
         ("landed_cost", PDecimal (landed_cost r))].

Definition dump_integrity (i : IntegrityArtifact) : pyval :=
  PDict [("input_hash", PStr (input_hash i)); ("output_hash", PStr (output_hash i));
         ("trace_hash", PStr (trace_hash i)); ("integrity_hash", PStr (integrity_hash i))].

Definition dump_response (r : CalculationResponse) : pyval :=
  PDict [("result", dump_result (calculation r)); ("trace", dump_trace (trace r));
         ("integrity", dump_integrity (integrity r))].

(** ** Validated requests *)

Lemma str_dict_free l : float_free (str_dict l) = true.
Proof. simpl. rewrite forallb_Forall, Forall_map. by apply Forall_true. Qed.

Lemma dump_trace_free l : float_free (dump_trace l) = true.
Proof.
  simpl. rewrite forallb_Forall, Forall_map. apply Forall_true. intros s.
  change (float_free (str_dict (inputs s)) && (float_free (str_dict (outputs s)) && true) = true).
  by rewrite !str_dict_free.
Qed.

(** An amount of money: cents below the precision. *)
Definition money_ok (d : decimal) : bool :=
  match d with Fin _ c e => (e =? -2) && between 0 (PREC - 1) c | _ => false end.

Definition valid_request (r : ImportCalculationRequest) : bool :=
  matches_hs (hs_code r) && matches_country (country_of_origin r) &&
  forallb money_ok [customs_value r; freight r; insurance r] &&
  positive_decimal true (customs_value r) && positive_decimal false (freight r) &&
  positive_decimal false (insurance r) && between 1 1000000 (quantity r) &&
  bool_decide (shipping_mode r ∈ ["ocean"; "air"; "truck"]).

Lemma money_ok_shape d : money_ok d = true → ∃ neg c, d = Fin neg c (-2) ∧ 0 <= c < PREC.
Proof.
  destruct d as [neg c e| |]; try done. simpl. rewrite andb_true_iff, Z.eqb_eq, between_spec.
  intros [-> ?]. exists neg, c. split; [done|lia].
Qed.

Lemma quantize_money_id neg c : 0 <= c < PREC → quantize (-2) (Fin neg c (-2)) = Ok (Fin neg c (-2)).
Proof.
  intros Hc. unfold quantize. destruct (Z.eqb_spec c 0) as [->|]; [done|]. simpl.
  rewrite Z.mul_1_r. destruct (Z.ltb_spec c PREC); [done|lia].
Qed.

Lemma money_id d : money_ok d = true → money (NDecimal d) = Ok d.
Proof. intros (neg & c & -> & Hc)%money_ok_shape. by apply quantize_money_id. Qed.

(** Strings a validator leaves alone. *)
Lemma decimal_not_space c : is_decimal c = true → is_space c = false ∧ is_digit c = true.
Proof.
  intros H.
  assert (forallb (fun c => implb (is_decimal c) (negb (is_space c) && is_digit c)) all_chars = true)
    as Hall by (vm_compute; reflexivity).
  pose proof (forall_chars _ Hall c) as Hc. cbv beta in Hc. rewrite H in Hc.
  apply andb_true_iff in Hc as [Hc ?]. by apply negb_true_iff in Hc.
Qed.

Lemma str_strip_id s : str_forall (fun c => negb (is_space c)) s = true → str_strip s = s.
Proof.
  intros Hs. unfold str_strip. apply str_strip_by_id. exact Hs.
Qed.

Lemma str_forall_chars (f g : ascii → bool) s :
  forallb (fun c => implb (f c) (g c)) all_chars = true → str_forall f s = true → str_forall g s = true.
Proof.
  intros H. apply str_forall_impl. intros c. apply implb_true_iff. revert c. by apply forall_chars.
Qed.

Lemma normalize_hs_id s : matches_hs s = true → normalize_hs_code (PStr s) = Some s.
Proof.
  unfold matches_hs, normalize_hs_code. rewrite andb_true_iff, Nat.eqb_eq. intros [Hl Hs]. simpl.
  rewrite str_strip_id by (eapply str_forall_chars; [|exact Hs]; vm_compute; reflexivity).
  unfold str_isdigit.
  rewrite (str_forall_chars is_decimal is_digit) by (done || (vm_compute; reflexivity)).
  by destruct s.
Qed.

Lemma upper_id c : is_upper c = true → upper_char c = String c "" ∧ is_space c = false.
Proof.
  intros H.
  assert (forallb (fun c => implb (is_upper c) (String.eqb (upper_char c) (String c "") &&
            negb (is_space c))) all_chars = true) as Hall by (vm_compute; reflexivity).
  pose proof (forall_chars _ Hall c) as Hc. cbv beta in Hc. rewrite H in Hc.
  apply andb_true_iff in Hc as [?%String.eqb_eq ?%negb_true_iff]. done.
Qed.

Lemma matches_country_shape s :
  matches_country s = true →
  ∃ c d, s = String c (String d "") ∧ is_upper c = true ∧ is_upper d = true.
Proof.
  unfold matches_country. rewrite andb_true_iff, Nat.eqb_eq. intros [Hl Hs].
  destruct s as [|c [|d [|]]]; try done. simpl in Hs. rewrite !andb_true_iff in Hs.
  destruct Hs as (? & ? & _). by exists c, d.
Qed.

Lemma normalize_country_id s : matches_country s = true → normalize_country (PStr s) = Some s.
Proof.
  intros (c & d & -> & Hc & Hd)%matches_country_shape.
  destruct (upper_id c Hc) as [Uc Sc], (upper_id d Hd) as [Ud Sd].
  unfold normalize_country. cbn [py_str option_fmap fmap option_map].
  rewrite str_strip_id by (cbn [str_forall]; by rewrite Sc, Sd).
  cbn [str_upper]. by rewrite Uc, Ud.
Qed.

Lemma guard_str_ok s :
  (String.length s <= 128)%nat → injection s = false → guard_str s = Ok tt.
Proof.
  intros Hl Hi. unfold guard_str, MAX_STRING_BYTES. pose proof (length_utf8 s).
  destruct (Z.gtb_spec (Z.of_nat (length (utf8 s))) 256); [lia|]. by rewrite Hi.
Qed.

(** The strings of a valid request pass the guard. *)
Lemma guard_hs s : matches_hs s = true → guard_str s = Ok tt.
Proof.
  unfold matches_hs. rewrite andb_true_iff, Nat.eqb_eq. intros [Hl Hs].
  apply guard_str_ok; [lia|by apply decimal_quiet].
Qed.

Lemma guard_country s : matches_country s = true → guard_str s = Ok tt.
Proof.
  intros (c & d & -> & Hc & Hd)%matches_country_shape.
  apply guard_str_ok; [simpl; lia|by apply two_letters_quiet].
Qed.

Lemma guard_mode s : s ∈ ["ocean"; "air"; "truck"] → guard_str s = Ok tt.
Proof.
  rewrite !elem_of_cons, elem_of_nil. intros [->|[->|[->|[]]]]; vm_compute; reflexivity.
Qed.

Lemma walk_dump r :
  valid_request r = true → walk (PDict (model_dump r)) = Ok tt.
Proof.
  unfold valid_request. rewrite !andb_true_iff, bool_decide_eq_true.
  intros [[[[[[[Hh Hc] _] _] _] _] _] Hm].
  unfold model_dump. cbn [walk map fst snd traverse id length].
  rewrite (guard_hs _ Hh), (guard_country _ Hc), (guard_mode _ Hm). vm_compute. reflexivity.
Qed.

Lemma canonical_form_dump r :
  canonical_form (PDict (model_dump r)) =
  JObj [("country_of_origin", JStr (country_of_origin r));
        ("customs_value", JStr (format_f (customs_value r))); ("freight", JStr (format_f (freight r)));
        ("hs_code", JStr (hs_code r)); ("insurance", JStr (format_f (insurance r)));
        ("quantity", JInt (quantity r)); ("shipping_mode", JStr (shipping_mode r))].
Proof. reflexivity. Qed.

Lemma length_dump r :
  valid_request r = true →
  (String.length (json_print (canonical_form (PDict (model_dump r)))) <= 4096)%nat.
Proof.
  unfold valid_request. rewrite !andb_true_iff, bool_decide_eq_true, between_spec.
  intros [[[[[[[Hh Hc] Hm] _] _] _] Hq] Hs]. cbn [forallb] in Hm. rewrite !andb_true_iff in Hm.
  destruct Hm as ((n1 & c1 & E1 & B1)%money_ok_shape & (n2 & c2 & E2 & B2)%money_ok_shape &
                  (n3 & c3 & E3 & B3)%money_ok_shape & _).
  unfold matches_hs in Hh. apply andb_true_iff in Hh as [Hh%Nat.eqb_eq _].
  apply matches_country_shape in Hc as (x & y & Hc & _).
  rewrite canonical_form_dump, json_print_obj. cbn [map str_join]. unfold json_member. cbn [fst snd].
  rewrite E1, E2, E3, Hc.
  pose proof (length_money_text n1 c1 B1). pose proof (length_money_text n2 c2 B2).
  pose proof (length_money_text n3 c3 B3).
  assert (String.length (str_of_Z (quantity r)) <= 30)%nat.
  { etrans; [apply (length_str_of_Z _ 1073741823); lia|]. simpl. lia. }
  assert (String.length (shipping_mode r) <= 5)%nat.
  { revert Hs. rewrite !elem_of_cons, elem_of_nil. intros [->|[->|[->|[]]]]; simpl; lia. }
  cbn [json_print]. repeat rewrite str_length_app.
  repeat match goal with
  | |- context [String.length (json_str ?s)] =>
      let H := fresh in pose proof (length_json_str s) as H;
      generalize dependent (String.length (json_str s)); intros
  end.
  simpl String.length in *. lia.
Qed.

Lemma guards_dump r :
  valid_request r = true → enforce_payload_guards (PDict (model_dump r)) = Ok tt.
Proof.
  intros Hr. unfold enforce_payload_guards. rewrite canonical_payload_free by done.
  cbn [mbind result_bind]. pose proof (length_dump r Hr) as Hl.
  pose proof (length_utf8 (json_print (canonical_form (PDict (model_dump r))))) as Hu.
  unfold MAX_REQUEST_BYTES. destruct (Z.gtb_spec
    (Z.of_nat (length (utf8 (json_print (canonical_form (PDict (model_dump r))))))) 8192); [lia|].
  by apply walk_dump.
Qed.

Lemma normalize_money_id strict d :
  money_ok d = true → positive_decimal strict d = true → normalize_money strict (PDecimal d) = Ok (Some d).
Proof. intros Hd Hp. unfold normalize_money. simpl. rewrite money_id by done. simpl. by rewrite Hp. Qed.

Lemma normalize_mode_id s :
  s ∈ ["ocean"; "air"; "truck"] → normalize_shipping_mode (PStr s) = Some s.
Proof.
  rewrite !elem_of_cons, elem_of_nil. intros [->|[->|[->|[]]]]; vm_compute; reflexivity.
Qed.

(** Validation of the dump of a valid request gives it back. *)
Lemma revalidate coerce_int r :
  (∀ z, coerce_int (PInt z) = Some z) → valid_request r = true →
  model_validate coerce_int (model_dump r) = Ok r.
Proof.
  intros Hz Hr. unfold model_validate. rewrite guards_dump by done. cbn [collect mbind result_bind].
  unfold valid_request in Hr. rewrite !andb_true_iff, bool_decide_eq_true in Hr.
  destruct Hr as [[[[[[[Hh Hc] Hm] Pc] Pf] Pi] Hq] Hs]. cbn [forallb] in Hm.
  rewrite !andb_true_iff in Hm. destruct Hm as (M1 & M2 & M3 & _).
  assert (forallb (fun k => bool_decide (k ∈ REQUEST_FIELDS)) (dict_keys (model_dump r)) = true)
    as Hk by reflexivity.
  rewrite Hk. clear Hk.
  change (on_key validate_hs_code "hs_code" (model_dump r)) with (validate_hs_code (PStr (hs_code r))).
  change (on_key validate_country "country_of_origin" (model_dump r))
    with (validate_country (PStr (country_of_origin r))).
  change (on_key (normalize_money true) "customs_value" (model_dump r))
    with (normalize_money true (PDecimal (customs_value r))).
  change (on_key (normalize_money false) "freight" (model_dump r))
    with (normalize_money false (PDecimal (freight r))).
  change (on_key (normalize_money false) "insurance" (model_dump r))
    with (normalize_money false (PDecimal (insurance r))).
  change (on_key (validate_quantity coerce_int) "quantity" (model_dump r))
    with (validate_quantity coerce_int (PInt (quantity r))).
  change (on_key validate_shipping_mode "shipping_mode" (model_dump r))
    with (validate_shipping_mode (PStr (shipping_mode r))).
  unfold validate_hs_code, validate_country, validate_quantity, validate_shipping_mode.
  rewrite normalize_hs_id, normalize_country_id, normalize_mode_id, !normalize_money_id, Hz by done.
  cbn [keep]. rewrite Hh, Hc, Hq, bool_decide_true by done.
  cbn [mbind result_bind]. by destruct r.
Qed.

(** ** What validation accepts *)

(** Decimals of a payload have natural coefficients. *)
Definition decimal_wf (d : decimal) : bool := match d with Fin _ c _ => 0 <=? c | _ => true end.

Lemma div_half_up_nonneg c k : 0 <= c → 0 <= k → 0 <= div_half_up c k.
Proof.
  intros Hc Hk. unfold div_half_up. pose proof (Z.pow_pos_nonneg 10 k ltac:(lia) Hk).
  pose proof (Z.div_pos c (10 ^ k) Hc ltac:(lia)). case_match; lia.
Qed.

Lemma quantize_money_ok d d' :
  decimal_wf d = true → quantize (-2) d = Ok d' → money_ok d' = true ∨ ∃ neg sg p, d' = NaN neg sg p.
Proof.
  destruct d as [neg c e| |neg sg p]; simpl; [|done|destruct sg; [done|]; intros _ [= <-]; eauto].
  rewrite Z.leb_le. intros Hc H. left.
  destruct (Z.eqb_spec c 0) as [->|]; [by injection H as <-|].
  destruct (e - -2 >? 28) eqn:Ee; [done|].
  match type of H with (if ?w <? _ then _ else _) = _ => set (v := w) in H end.
  destruct (Z.ltb_spec v PREC) as [Hv|]; [|done]. injection H as <-. simpl.
  rewrite between_spec. split; [|lia]. unfold v.
  destruct (Z.geb_spec e (-2)); [pose proof (Z.pow_nonneg 10 (e - -2)); nia|].
  case_match; [lia|]. apply div_half_up_nonneg; lia.
Qed.

Lemma dec_value_nonneg acc s : 0 <= acc → str_forall is_decimal s = true → 0 <= dec_value acc s.
Proof.
  revert acc. induction s as [|c s IH]; simpl; intros acc Ha; [done|].
  rewrite andb_true_iff. unfold is_decimal at 1. rewrite between_spec. intros [Hc Hs].
  apply IH; [lia|done].
Qed.

Lemma str_span_forall p s a b : str_span p s = (a, b) → str_forall p a = true.
Proof.
  revert a b. induction s as [|c s IH]; simpl; intros a b; [by intros [= <- <-]|].
  destruct (p c) eqn:Ec; [|by intros [= <- <-]]. destruct (str_span p s) as [a' b'] eqn:E.
  intros [= <- <-]. simpl. rewrite Ec. by eapply IH.
Qed.

Lemma parse_finite_wf neg s d : parse_finite neg s = Some d → decimal_wf d = true.
Proof.
  unfold parse_finite. destruct (str_span is_decimal s) as [i r] eqn:Ei.
  apply str_span_forall in Ei.
  destruct (match eat "." r with Some r => str_span is_decimal r | None => ("", r) end)
    as [f r'] eqn:Ef.
  assert (str_forall is_decimal f = true) as Hf.
  { destruct (eat "." r); [by apply str_span_forall in Ef|by injection Ef as <- <-]. }
  destruct (String.eqb (i +:+ f) ""); [done|]. intros (e & _ & H)%bind_Some.
  destruct (exp_ok _ _); [|done]. injection H as <-. simpl. apply Z.leb_le, dec_value_nonneg; [done|].
  by rewrite str_forall_app, Ei.
Qed.

Lemma decimal_of_string_wf s d : decimal_of_string s = Some d → decimal_wf d = true.
Proof.
  unfold decimal_of_string, parse_nan.
  destruct (match eat "-" _ with Some s0 => (true, s0) | None => _ end) as [neg t].
  repeat (case_match; try (by intros [= <-]); try done). apply parse_finite_wf.
Qed.

Definition payload_decimals_wf (value : list (string * pyval)) : Prop :=
  ∀ k d, dict_get k value = Some (PDecimal d) → decimal_wf d = true.

Lemma money_shape x d :
  (∀ d, x = NDecimal d → decimal_wf d = true) → money x = Ok d →
  money_ok d = true ∨ ∃ neg sg p, d = NaN neg sg p.
Proof.
  intros Hx (d0 & H0 & Hd)%bind_ok. revert Hd. apply quantize_money_ok.
  destruct x as [d1|b|z|s|]; simpl in H0; try done.
  - injection H0 as <-. by apply Hx.
  - injection H0 as <-. simpl. apply Z.leb_le. lia.
  - destruct (String.eqb (str_strip s) ""); [done|].
    destruct (decimal_of_string (str_strip s)) eqn:E; [|done]. injection H0 as <-.
    by eapply decimal_of_string_wf.
Qed.

Lemma collect_some {A} (r : result A) a : collect r = Ok (Some a) → r = Ok a.
Proof. destruct r as [b|e]; simpl; [naive_solver|by case_decide]. Qed.

Lemma keep_some {A} (p : A → bool) x a : keep p x = Some a → x = Some a ∧ p a = true.
Proof. destruct x as [b|]; simpl; [|done]. destruct (p b) eqn:E; naive_solver. Qed.

Lemma on_key_money strict k value d :
  payload_decimals_wf value → on_key (normalize_money strict) k value = Ok (Some d) →
  money_ok d = true ∧ positive_decimal strict d = true.
Proof.
  unfold on_key. intros Hw. destruct (dict_get k value) as [v|] eqn:E; [|done].
  unfold normalize_money. intros (x & Hx & [H Hp]%keep_some)%fmap_ok. subst. split; [|done].
  apply collect_some, money_shape in Hx as [|(? & ? & ? & ->)]; [done|done|].
  intros d0 Hd. apply (Hw k). rewrite E. destruct v; simpl in Hd; try done. congruence.
Qed.

Lemma on_key_keep {A} (p : A → bool) (f : pyval → option A) k value a :
  on_key (fun v => Ok (keep p (f v))) k value = Ok (Some a) → p a = true.
Proof.
  unfold on_key. destruct (dict_get k value); [|done]. by intros [= [_ ?]%keep_some].
Qed.

Lemma validated_valid coerce_int value r :
  payload_decimals_wf value → model_validate coerce_int value = Ok r →
  valid_request r = true ∧ dict_keys value ⊆ REQUEST_FIELDS.
Proof.
  intros Hw. unfold model_validate. intros (g & _ & H)%bind_ok. destruct g; [|done].
  apply bind_ok in H as (hs & H1 & H). apply bind_ok in H as (co & H2 & H).
  apply bind_ok in H as (cu & H3 & H). apply bind_ok in H as (fr & H4 & H).
  apply bind_ok in H as (ins & H5 & H). apply bind_ok in H as (q & H6 & H).
  apply bind_ok in H as (m & H7 & H).
  destruct hs as [hs|], co as [co|], cu as [cu|], fr as [fr|], ins as [ins|], q as [q|], m as [m|];
    try done.
  destruct (forallb _ (dict_keys value)) eqn:Hk; [|done]. injection H as <-. split.
  - apply on_key_keep in H1, H2, H6, H7. apply on_key_money in H3 as [], H4 as [], H5 as []; try done.
    unfold valid_request. cbn [forallb hs_code country_of_origin customs_value freight insurance
      quantity shipping_mode]. by rewrite !andb_true_iff.
  - intros k Hk'. rewrite forallb_Forall, Forall_forall in Hk. specialize (Hk k Hk').
    by apply bool_decide_eq_true in Hk.
Qed.
