(* ===== verification/Engine.v ===== *)
(** * The tariff engine (core/tariffs.py, core/engine.py, core/proof.py)

    The calculation of a landed cost: tariff lookup, duties and fees in decimal
    arithmetic, the trace of the steps, and the four hashes.  The last section
    relates it to integer arithmetic in cents. *)
From S2P Require Export Schemas Hashlib SdkHashing.

Local Open Scope Z_scope.

(** ** core/tariffs.py *)

Definition DATASET_VERSION : string := "2026.03.28".

Record TariffRule := mkRule {
  hs_prefix : string;
  rule_ref_ : string;
  description : string;
  rule_duty_rate : decimal;
  rule_section_301_rate : decimal;
  section_301_origin_countries : list string }.

(** [Decimal(text)] of a literal. *)
Definition dec_lit (s : string) : decimal := default (Fin false 0 0) (decimal_of_string s).

Definition TARIFF_RULES : list TariffRule := [
  mkRule "8471300100" "HTS-8471300100" "Portable digital processing machines"
    (dec_lit "0.0000") (dec_lit "0.0000") [];
  mkRule "8507600000" "HTS-8507600000" "Lithium-ion accumulators"
    (dec_lit "0.0340") (dec_lit "0.2500") ["CN"];
  mkRule "6110200000" "HTS-6110200000" "Sweaters, pullovers, cardigans"
    (dec_lit "0.1650") (dec_lit "0.0000") [];
  mkRule "6403990000" "HTS-6403990000" "Footwear with outer soles of rubber/plastics"
    (dec_lit "0.3750") (dec_lit "0.0000") [];
  mkRule "8703220000" "HTS-8703220000" "Motor cars" (dec_lit "0.0250") (dec_lit "0.0000") [];
  mkRule "9403600000" "HTS-9403600000" "Other wooden furniture"
    (dec_lit "0.0000") (dec_lit "0.0000") []].

Definition rule_payload (r : TariffRule) : pyval :=
  PDict [("hs_prefix", PStr (hs_prefix r)); ("rule_ref", PStr (rule_ref_ r));
         ("description", PStr (description r)); ("duty_rate", PDecimal (rule_duty_rate r));
         ("section_301_rate", PDecimal (rule_section_301_rate r));
         ("section_301_origin_countries", PTuple (map PStr (section_301_origin_countries r)))].

Definition dataset_payload (rules : list TariffRule) : pyval :=
  PDict [("dataset_version", PStr DATASET_VERSION); ("rules", PList (map rule_payload rules))].

(** Evaluated when the module is loaded. *)
Definition DATASET_HASH : string :=
  Eval vm_compute in ok_default (hash_payload (dataset_payload TARIFF_RULES)).
Definition EXPECTED_DATASET_HASH : string := DATASET_HASH.

Definition validate_dataset_integrity (rules : list TariffRule) : result unit :=
  current ← hash_payload (dataset_payload rules);
  same ← constant_time_equal current EXPECTED_DATASET_HASH;
  if (same : bool) then Ok tt else raise RuntimeError "Tariff dataset integrity check failed".

(** [lookup_tariff_rule], on the rules in memory. *)
Definition lookup_tariff_rule (rules : list TariffRule) (code : string) : result TariffRule :=
  _ ← validate_dataset_integrity rules;
  match find (fun r => String.eqb code (hs_prefix r)) rules with
  | Some rule => Ok rule
  | None => raise LookupError "No tariff rule found for HS code {}"
  end.

Definition tariff_catalog (rules : list TariffRule) : list (list (string * pyval)) :=
  map (fun rule =>
    [("hs_prefix", PStr (hs_prefix rule)); ("rule_ref", PStr (rule_ref_ rule));
     ("description", PStr (description rule));
     ("duty_rate", PStr (format_f (rule_duty_rate rule)));
     ("section_301_rate", PStr (format_f (rule_section_301_rate rule)));
     ("section_301_origin_countries", PList (map PStr (section_301_origin_countries rule)))]) rules.

(** ** core/proof.py *)

Definition build_integrity_artifact (request_payload result_payload trace_payload : pyval)
    : result IntegrityArtifact :=
  input_hash ← hash_payload request_payload;
  output_hash ← hash_payload result_payload;
  trace_hash ← hash_payload trace_payload;
  Ok (mkIntegrity input_hash output_hash trace_hash
        (sha256_hex (input_hash +:+ output_hash +:+ trace_hash))).

(** ** core/engine.py *)

Definition MPF_RATE : decimal := Eval vm_compute in ok_default (rate (NStr "0.003464")).
Definition MPF_MIN : decimal := Eval vm_compute in ok_default (money (NStr "32.71")).
Definition MPF_MAX : decimal := Eval vm_compute in ok_default (money (NStr "634.62")).
Definition HMF_RATE : decimal := Eval vm_compute in ok_default (rate (NStr "0.00125")).

(** What a step shows: decimals by [format(.., 'f')], the rest by [str]. *)
Definition shown (v : pyval) : string :=
  match v with PDecimal d => format_f d | v => default "" (py_str v) end.

Definition make_step (step rule_ref : string) (inputs outputs : list (string * pyval)) : TraceStep :=
  mkTraceStep step rule_ref (map (fun p => (p.1, shown p.2)) inputs)
    (map (fun p => (p.1, shown p.2)) outputs).

Section engine.
Context (coerce_int : pyval → option Z) (rules : list TariffRule).

(** The amounts, in the order they are computed. *)
Record amounts := mkAmounts {
  a_extended : decimal; a_duty : decimal; a_section_301 : decimal; a_mpf : decimal;
  a_hmf : decimal; a_landed : decimal }.

(** [money(x * y)] *)
Definition money_mul (x y : decimal) : result decimal := p ← dec_mul x y; money (NDecimal p).

Definition compute_amounts (q : ImportCalculationRequest) (rule : TariffRule) : result amounts :=
  extended ← money_mul (customs_value q) (decimal_of_int (quantity q));
  duty ← money_mul extended (rule_duty_rate rule);
  section_301 ←
    (if bool_decide (country_of_origin q ∈ section_301_origin_countries rule)
     then money_mul extended (rule_section_301_rate rule)
     else money (NStr "0"));
  fee ← dec_mul extended MPF_RATE;
  mpf ← clamp_money (NDecimal fee) (Some (NDecimal MPF_MIN)) (Some (NDecimal MPF_MAX));
  hmf ← (if String.eqb (shipping_mode q) "ocean" then money_mul extended HMF_RATE
         else money (NStr "0"));
  total ← dec_add extended (freight q);
  total ← dec_add total (insurance q);
  total ← dec_add total duty;
  total ← dec_add total section_301;
  total ← dec_add total mpf;
  total ← dec_add total hmf;
  landed ← money (NDecimal total);
  Ok (mkAmounts extended duty section_301 mpf hmf landed).

Definition build_trace (q : ImportCalculationRequest) (request_hash : string) (rule : TariffRule)
    (a : amounts) : list TraceStep :=
  let ref := rule_ref_ rule in
  let extended := ("extended_customs_value", PDecimal (a_extended a)) in
  let duty := ("duty_amount", PDecimal (a_duty a)) in
  let section_301 := ("section_301_amount", PDecimal (a_section_301 a)) in
  let mpf := ("mpf_amount", PDecimal (a_mpf a)) in
  let hmf := ("hmf_amount", PDecimal (a_hmf a)) in
  [ make_step "canonical_input" "INPUT-CANON" (model_dump q)
      [("input_hash", PStr request_hash); ("dataset_version", PStr DATASET_VERSION);
       ("dataset_hash", PStr DATASET_HASH)];
    make_step "tariff_lookup" ref
      [("hs_code", PStr (hs_code q)); ("country_of_origin", PStr (country_of_origin q))]
      [("rule_ref", PStr ref); ("description", PStr (description rule));
       ("duty_rate", PDecimal (rule_duty_rate rule));
       ("section_301_rate", PDecimal (rule_section_301_rate rule))];
    make_step "extended_customs_value" ref
      [("unit_customs_value", PDecimal (customs_value q)); ("quantity", PInt (quantity q))] [extended];
    make_step "base_duty" ref [extended; ("duty_rate", PDecimal (rule_duty_rate rule))] [duty];
    make_step "section_301" ref [extended; ("country_of_origin", PStr (country_of_origin q))]
      [section_301];
    make_step "mpf" "MPF-2026"
      [extended; ("mpf_rate", PDecimal MPF_RATE); ("minimum", PDecimal MPF_MIN);
       ("maximum", PDecimal MPF_MAX)] [mpf];
    make_step "hmf" "HMF-2026" [extended; ("shipping_mode", PStr (shipping_mode q))] [hmf];
    make_step "landed_cost" "LC-2026"
      [extended; ("freight", PDecimal (freight q)); ("insurance", PDecimal (insurance q)); duty;
       section_301; mpf; hmf]
      [("landed_cost", PDecimal (a_landed a))] ].

Definition build_result (q : ImportCalculationRequest) (rule : TariffRule) (a : amounts)
    : result CalculationResult :=
  unit_value ← money (NDecimal (customs_value q));
  freight ← money (NDecimal (freight q));
  insurance ← money (NDecimal (insurance q));
  duty_rate ← rate (NDecimal (rule_duty_rate rule));
  section_301_rate ← rate (NDecimal (rule_section_301_rate rule));
  Ok (mkCalculation DATASET_VERSION DATASET_HASH (hs_code q) (country_of_origin q) (quantity q)
        (rule_ref_ rule) (description rule) unit_value (a_extended a) freight insurance duty_rate
        section_301_rate (a_duty a) (a_section_301 a) (a_mpf a) (a_hmf a) (a_landed a)).

Definition calculate_import_landed_cost (request : ImportCalculationRequest)
    : result CalculationResponse :=
  validated_request ← model_validate coerce_int (model_dump request);
  let request_payload := PDict (model_dump validated_request) in
  request_hash ← hash_payload request_payload;
  tariff_rule ← lookup_tariff_rule rules (hs_code validated_request);
  a ← compute_amounts validated_request tariff_rule;
  let trace := build_trace validated_request request_hash tariff_rule a in
  result ← build_result validated_request tariff_rule a;
  integrity ← build_integrity_artifact request_payload (dump_result result) (dump_trace trace);
  Ok (mkResponse result trace integrity).
End engine.

(** ** The reference request (core/sample.py, tests/reference_vector.json) *)

Definition REFERENCE_REQUEST : list (string * pyval) :=
  [("hs_code", PStr "8507600000"); ("country_of_origin", PStr "CN");
   ("customs_value", PDecimal (dec_lit "1200.00")); ("freight", PDecimal (dec_lit "150.00"));
   ("insurance", PDecimal (dec_lit "25.00")); ("quantity", PInt 2); ("shipping_mode", PStr "ocean")].

(** An instance of pydantic's conversion: integers and booleans. *)
Definition coerce_plain (v : pyval) : option Z :=
  match v with PInt z => Some z | PBool b => Some (if b then 1 else 0) | _ => None end.

Example reference_vector :
  (fun r => (input_hash (integrity r), output_hash (integrity r), trace_hash (integrity r),
             integrity_hash (integrity r), format_f (landed_cost (calculation r)))) <$>
    (q ← model_validate coerce_plain REFERENCE_REQUEST;
     calculate_import_landed_cost coerce_plain TARIFF_RULES q) =
  Ok ("ebf1f0aa67d10b8472fd7f1af22fc9370ecb813243f928b4f5528ab27457fea7",
      "0c866369e1ab87b0d0b624c0fdeb490aa05fa2524e9368a023308a1437ec5b5b",
      "e14d0cb8d4a11cf1db1def3942fa7246b72cb6989463e8d379ade6e90a0405e6",
      "7b58cd2c0b85716175e90136d025d8d282abb1b56cb98ffaa33d4cbde3db70a1", "3292.31").
Proof. vm_compute. reflexivity. Qed.
