(* ===== verification/EngineProps.v ===== *)
(** * The engine in cents

    On requests whose amounts stay below ten to the twenty-second cents the
    decimal context never rounds, and the engine computes in whole cents:
    exact sums, and products with a rate rounded half up. *)
From S2P Require Export Engine.

Local Open Scope Z_scope.

(** ** Decimal operations without loss *)

Lemma count_digits_bound fuel c :
  0 <= c < 2 ^ Z.of_nat fuel → 0 <= count_digits fuel c ∧ c < 10 ^ count_digits fuel c.
Proof.
  revert c. induction fuel as [|fuel IH]; intros c Hc; [simpl in *; lia|].
  cbn [count_digits]. destruct (Z.eqb_spec c 0) as [->|Hn]; [lia|].
  rewrite Nat2Z.inj_succ, Z.pow_succ_r in Hc by lia.
  pose proof (Z.div_mod c 10 ltac:(lia)) as Hd. pose proof (Z.mod_pos_bound c 10 ltac:(lia)).
  destruct (IH (c / 10)) as [H0 H1]; [lia|].
  rewrite (Z.add_comm 1), Z.pow_add_r by lia. lia.
Qed.

Lemma ndigits_bound c : 0 <= c → 0 <= ndigits c ∧ c < 10 ^ ndigits c.
Proof.
  intros Hc. apply count_digits_bound. split; [done|]. rewrite Nat2Z.inj_succ, Z2Nat.id by apply Z.log2_nonneg.
  destruct (Z.eq_dec c 0) as [->|]; [done|]. apply Z.log2_spec. lia.
Qed.

Lemma div_half_up_small c k : 0 <= c → ndigits c < k → div_half_up c k = 0.
Proof.
  intros Hc Hk. destruct (ndigits_bound c Hc) as [Hn Hb]. unfold div_half_up.
  assert (10 * 10 ^ ndigits c <= 10 ^ k) as Hp.
  { rewrite <-Z.pow_succ_r by done. apply Z.pow_le_mono_r; lia. }
  rewrite Z.mod_small, Z.div_small by lia. destruct (Z.geb_spec (2 * c) (10 ^ k)); lia.
Qed.

Lemma div_half_up_0 k : 0 <= k → div_half_up 0 k = 0.
Proof.
  intros Hk. unfold div_half_up. pose proof (Z.pow_pos_nonneg 10 k).
  rewrite Z.mod_0_l, Z.div_0_l by lia. destruct (Z.geb_spec (2 * 0) (10 ^ k)); lia.
Qed.

Lemma div_half_up_bounds c k :
  0 <= k → c / 10 ^ k <= div_half_up c k <= c / 10 ^ k + 1.
Proof. intros Hk. unfold div_half_up. case_match; lia. Qed.

(** Rounding half up is monotone. *)
Lemma div_half_up_mono c d k : 0 <= k → c <= d → div_half_up c k <= div_half_up d k.
Proof.
  intros Hk Hcd. unfold div_half_up. set (p := 10 ^ k).
  assert (0 < p) as Hp by (apply Z.pow_pos_nonneg; lia).
  pose proof (Z.div_le_mono c d p Hp Hcd) as Hq.
  pose proof (Z.div_mod c p ltac:(lia)). pose proof (Z.div_mod d p ltac:(lia)).
  destruct (Z.geb_spec (2 * (c mod p)) p), (Z.geb_spec (2 * (d mod p)) p); try lia.
  destruct (Z.eq_dec (c / p) (d / p)) as [E|]; [|lia]. rewrite E in *. lia.
Qed.

(** A non-negative amount of money. *)
Definition cents (z : Z) : decimal := Fin false z (-2).

Lemma money_cents z : 0 <= z < PREC → money (NDecimal (cents z)) = Ok (cents z).
Proof. apply quantize_money_id. Qed.

Lemma money_round c k :
  0 <= c → 0 < k → c / 10 ^ k + 1 < PREC →
  money (NDecimal (Fin false c (-2 - k))) = Ok (cents (div_half_up c k)).
Proof.
  intros Hc Hk Hb. unfold money, quantize. cbn [to_decimal mbind result_bind].
  destruct (Z.eqb_spec c 0) as [->|]; [by rewrite div_half_up_0 by lia|].
  destruct (Z.gtb_spec (-2 - k - -2) 28); [lia|]. destruct (Z.geb_spec (-2 - k) (-2)); [lia|].
  replace (-2 - (-2 - k)) with k by lia. pose proof (div_half_up_bounds c k ltac:(lia)).
  destruct (Z.gtb_spec k (ndigits c)).
  - by rewrite div_half_up_small by lia.
  - destruct (Z.ltb_spec (div_half_up c k) PREC); [done|lia].
Qed.

Lemma dec_mul_exact c e d f :
  c * d < PREC → dec_mul (Fin false c e) (Fin false d f) = Ok (Fin false (c * d) (e + f)).
Proof. intros H. unfold dec_mul, context_round. destruct (Z.ltb_spec (c * d) PREC); [done|lia]. Qed.

(** Money times a rate with [k] decimal places. *)
Lemma money_times_rate z d k :
  0 <= z → 0 <= d → 0 < k → z * d < PREC - 1 →
  money_mul (cents z) (Fin false d (- k)) = Ok (cents (div_half_up (z * d) k)).
Proof.
  intros Hz Hd Hk Hb. unfold money_mul, cents at 1. rewrite dec_mul_exact by lia. cbn [mbind result_bind].
  change (-2 + - k) with (-2 - k). apply money_round; [nia|done|].
  pose proof (Z.pow_pos_nonneg 10 k). assert (z * d / 10 ^ k <= z * d); [|lia].
  apply Z.div_le_upper_bound; nia.
Qed.

Lemma dec_add_cents a neg f :
  0 <= a → 0 <= f → (neg = true → f = 0) → a + f < PREC →
  dec_add (cents a) (Fin neg f (-2)) = Ok (cents (a + f)).
Proof.
  intros Ha Hf Hn Hb. unfold dec_add, cents. rewrite Z.min_id, Z.sub_diag, !Z.mul_1_r.
  assert (signed false a + signed neg f = a + f) as ->.
  { unfold signed. destruct neg; [rewrite Hn by done; lia|done]. }
  rewrite Z.abs_eq by lia. unfold context_round. destruct (Z.ltb_spec (a + f) PREC); [|lia].
  destruct (Z.eqb_spec (a + f) 0), (Z.ltb_spec (a + f) 0); done || lia.
Qed.

Lemma dec_add_cents_pos a b :
  0 <= a → 0 <= b → a + b < PREC → dec_add (cents a) (cents b) = Ok (cents (a + b)).
Proof. intros. by apply dec_add_cents. Qed.

Lemma dec_lt_cents (a b : Z) : PyDecimal.dec_lt (cents a) (cents b) = Ok (a <? b).
Proof. unfold PyDecimal.dec_lt, cents, signed. by rewrite Z.min_id, Z.sub_diag, !Z.mul_1_r. Qed.

Lemma clamp_cents z lo hi :
  0 <= z < PREC → 0 <= lo < PREC → 0 <= hi < PREC → lo <= hi →
  clamp_money (NDecimal (cents z)) (Some (NDecimal (cents lo))) (Some (NDecimal (cents hi))) =
  Ok (cents (Z.min hi (Z.max lo z))).
Proof.
  intros Hz Hl Hh Hlh. unfold clamp_money. rewrite !money_cents by done. cbn [mbind result_bind].
  rewrite !dec_lt_cents. cbn [mbind result_bind].
  destruct (Z.ltb_spec z lo) as [H|H]; [do 2 f_equal; lia|].
  destruct (Z.ltb_spec hi z); do 2 f_equal; lia.
Qed.

(** ** Rules *)

(** Rates are between 0 and 1 with four decimal places. *)
Definition rate_ok (d : decimal) : bool :=
  match d with Fin neg c e => negb neg && between 0 10000 c && (e =? -4) | _ => false end.

Lemma rules_ok rule :
  rule ∈ TARIFF_RULES →
  rate_ok (rule_duty_rate rule) = true ∧ rate_ok (rule_section_301_rate rule) = true.
Proof.
  assert (forallb (fun r => rate_ok (rule_duty_rate r) && rate_ok (rule_section_301_rate r))
            TARIFF_RULES = true) as H by (vm_compute; reflexivity).
  rewrite forallb_Forall, Forall_forall in H. intros Hr. by apply andb_true_iff, H.
Qed.

(** Ten-thousandths of a rate. *)
Definition basis_points (d : decimal) : Z := match d with Fin _ c _ => c | _ => 0 end.

Lemma rate_ok_shape d :
  rate_ok d = true → d = Fin false (basis_points d) (-4) ∧ 0 <= basis_points d <= 10000.
Proof.
  destruct d as [neg c e| |]; try done. simpl. rewrite !andb_true_iff, between_spec, negb_true_iff, Z.eqb_eq.
  by intros [[-> ?] ->].
Qed.

Lemma rate_exact d : rate_ok d = true → rate (NDecimal d) = Ok (Fin false (basis_points d * 100) (-6)).
Proof.
  intros [E Hb]%rate_ok_shape. rewrite E. cbn [basis_points]. revert Hb. generalize (basis_points d).
  clear E. intros b Hb. unfold rate, quantize. cbn [to_decimal mbind result_bind].
  destruct (Z.eqb_spec b 0) as [Eb|]; [by rewrite Eb|]. change (-4 - -6 >? 28) with false.
  change (-4 >=? -6) with true. cbv iota. change (10 ^ (-4 - -6)) with 100.
  destruct (Z.ltb_spec (b * 100) PREC) as [|H]; [done|]. unfold PREC in H. lia.
Qed.

(** ** The calculation in cents *)

Definition CENTS_LIMIT : Z := 10 ^ 22.

Definition spec_extended (customs quantity : Z) : Z := customs * quantity.
Definition spec_duty (ext bp : Z) : Z := div_half_up (ext * bp) 4.
Definition spec_mpf (ext : Z) : Z := Z.min 63462 (Z.max 3271 (div_half_up (ext * 3464) 6)).
Definition spec_hmf (ocean : bool) (ext : Z) : Z :=
  if ocean then div_half_up (ext * 1250) 6 else 0.
Definition spec_section_301 (listed : bool) (ext bp : Z) : Z :=
  if listed then div_half_up (ext * bp) 4 else 0.

(** The integers of a request and a rule. *)
Definition cents_of (d : decimal) : Z := match d with Fin _ c _ => c | _ => 0 end.
Definition ext_of (q : ImportCalculationRequest) : Z :=
  spec_extended (cents_of (customs_value q)) (quantity q).
Definition duty_of (q : ImportCalculationRequest) (rule : TariffRule) : Z :=
  spec_duty (ext_of q) (basis_points (rule_duty_rate rule)).
Definition section_301_of (q : ImportCalculationRequest) (rule : TariffRule) : Z :=
  spec_section_301 (bool_decide (country_of_origin q ∈ section_301_origin_countries rule)) (ext_of q)
    (basis_points (rule_section_301_rate rule)).
Definition mpf_of (q : ImportCalculationRequest) : Z := spec_mpf (ext_of q).
Definition hmf_of (q : ImportCalculationRequest) : Z :=
  spec_hmf (String.eqb (shipping_mode q) "ocean") (ext_of q).
Definition landed_of (q : ImportCalculationRequest) (rule : TariffRule) : Z :=
  ext_of q + cents_of (freight q) + cents_of (insurance q) + duty_of q rule + section_301_of q rule +
  mpf_of q + hmf_of q.

Definition in_range (q : ImportCalculationRequest) : Prop :=
  ext_of q <= CENTS_LIMIT ∧ cents_of (freight q) <= CENTS_LIMIT ∧ cents_of (insurance q) <= CENTS_LIMIT.

Lemma money_fields d strict :
  money_ok d = true → positive_decimal strict d = true →
  ∃ neg, d = Fin neg (cents_of d) (-2) ∧ 0 <= cents_of d < PREC ∧ (neg = true → cents_of d = 0) ∧
         (strict = true → neg = false).
Proof.
  intros (neg & c & -> & Hc)%money_ok_shape. cbn [positive_decimal cents_of]. intros Hp.
  exists neg. split_and!; [done|lia|lia|..]; destruct strict, neg; simpl in *; try done; lia.
Qed.

Lemma spec_duty_bounds ext bp : 0 <= ext → 0 <= bp <= 10000 → 0 <= spec_duty ext bp <= ext + 1.
Proof.
  intros He Hb. unfold spec_duty. pose proof (div_half_up_bounds (ext * bp) 4 ltac:(lia)) as H.
  change (10 ^ 4) with 10000 in H. assert (0 <= ext * bp) by nia.
  assert (0 <= ext * bp / 10000) by (apply Z.div_pos; lia).
  assert (ext * bp / 10000 <= ext) by (apply Z.div_le_upper_bound; nia). lia.
Qed.

Lemma spec_fee_bounds ext r : 0 <= ext → 0 <= r <= 10000 → 0 <= div_half_up (ext * r) 6 <= ext + 1.
Proof.
  intros He Hb. pose proof (div_half_up_bounds (ext * r) 6 ltac:(lia)) as H.
  change (10 ^ 6) with 1000000 in H. assert (0 <= ext * r) by nia.
  assert (0 <= ext * r / 1000000) by (apply Z.div_pos; lia).
  assert (ext * r / 1000000 <= ext) by (apply Z.div_le_upper_bound; nia). lia.
Qed.

Lemma spec_mpf_bounds ext : 3271 <= spec_mpf ext <= 63462.
Proof. unfold spec_mpf. lia. Qed.

(** ** The amounts of a valid request *)

Section amounts.
Context (q : ImportCalculationRequest) (rule : TariffRule).
Context (Hq : valid_request q = true) (Hr : rule ∈ TARIFF_RULES) (Hb : in_range q).

Lemma request_money :
  (∃ c, customs_value q = cents c ∧ 0 <= c) ∧
  (∃ n f, freight q = Fin n f (-2) ∧ 0 <= f < PREC ∧ (n = true → f = 0)) ∧
  (∃ n i, insurance q = Fin n i (-2) ∧ 0 <= i < PREC ∧ (n = true → i = 0)) ∧
  1 <= quantity q <= 1000000.
Proof using Hq.
  unfold valid_request in Hq. rewrite !andb_true_iff, between_spec in Hq.
  destruct Hq as [[[[[[[_ _] Hm] Pc] Pf] Pi] Hn] _]. cbn [forallb] in Hm.
  rewrite !andb_true_iff in Hm. destruct Hm as (M1 & M2 & M3 & _).
  destruct (money_fields _ _ M1 Pc) as (n1 & E1 & B1 & _ & S1).
  destruct (money_fields _ _ M2 Pf) as (n2 & E2 & B2 & S2 & _).
  destruct (money_fields _ _ M3 Pi) as (n3 & E3 & B3 & S3 & _).
  rewrite S1 in E1 by done. unfold cents. naive_solver.
Qed.

Lemma amounts_bounds :
  0 <= ext_of q <= CENTS_LIMIT ∧ 0 <= duty_of q rule <= CENTS_LIMIT + 1 ∧
  0 <= section_301_of q rule <= CENTS_LIMIT + 1 ∧ 3271 <= mpf_of q <= 63462 ∧
  0 <= hmf_of q <= CENTS_LIMIT + 1 ∧ 0 <= cents_of (freight q) <= CENTS_LIMIT ∧
  0 <= cents_of (insurance q) <= CENTS_LIMIT.
Proof using Hq Hr Hb.
  destruct request_money as ((c & Ec & Hc) & (nf & f & Ef & Hf & _) & (ni & i & Ei & Hi & _) & Hn).
  destruct Hb as (B1 & B2 & B3). destruct (rules_ok rule Hr) as [R1%rate_ok_shape R2%rate_ok_shape].
  destruct R1 as [_ R1], R2 as [_ R2].
  assert (0 <= ext_of q) as He.
  { unfold ext_of, spec_extended. rewrite Ec. simpl. nia. }
  pose proof (spec_duty_bounds (ext_of q) _ He R1). pose proof (spec_mpf_bounds (ext_of q)).
  unfold duty_of, section_301_of, mpf_of, hmf_of, spec_section_301, spec_hmf. rewrite Ef, Ei in *.
  cbn [cents_of] in *.
  pose proof (spec_duty_bounds (ext_of q) _ He R2). pose proof (spec_fee_bounds (ext_of q) 1250 He).
  unfold spec_duty in *. split_and!; try lia; case_match; lia.
Qed.

Lemma extended_cents :
  money_mul (customs_value q) (decimal_of_int (quantity q)) = Ok (cents (ext_of q)).
Proof using Hq Hr Hb.
  pose proof amounts_bounds as (Be & _). destruct request_money as ((c & Ec & Hc) & _ & _ & Hn).
  unfold money_mul, decimal_of_int, ext_of, spec_extended in *. rewrite Ec in Be |- *.
  cbn [cents_of cents] in *. destruct (Z.ltb_spec (quantity q) 0); [lia|].
  rewrite Z.abs_eq by lia. unfold cents at 1. unfold CENTS_LIMIT in Be.
  rewrite dec_mul_exact by (unfold PREC; lia). cbn [mbind result_bind].
  apply money_cents. unfold PREC. lia.
Qed.

Lemma rate_cents d :
  rate_ok d = true → money_mul (cents (ext_of q)) d = Ok (cents (spec_duty (ext_of q) (basis_points d))).
Proof using Hq Hr Hb.
  intros [D R]%rate_ok_shape. rewrite D at 1. pose proof amounts_bounds as (Be & _).
  apply (money_times_rate _ _ 4); [lia..|]. unfold PREC, CENTS_LIMIT in *. nia.
Qed.

Lemma section_301_cents :
  (if bool_decide (country_of_origin q ∈ section_301_origin_countries rule)
   then money_mul (cents (ext_of q)) (rule_section_301_rate rule) else money (NStr "0")) =
  Ok (cents (section_301_of q rule)).
Proof using Hq Hr Hb.
  unfold section_301_of, spec_section_301. case_bool_decide; [|reflexivity].
  apply rate_cents. by apply rules_ok.
Qed.

Lemma hmf_cents :
  (if String.eqb (shipping_mode q) "ocean" then money_mul (cents (ext_of q)) HMF_RATE
   else money (NStr "0")) = Ok (cents (hmf_of q)).
Proof using Hq Hr Hb.
  unfold hmf_of, spec_hmf. destruct (String.eqb (shipping_mode q) "ocean"); [|reflexivity].
  pose proof amounts_bounds as (Be & _). unfold CENTS_LIMIT in Be.
  apply (money_times_rate _ _ 6); unfold PREC; lia.
Qed.

Lemma fee_cents : dec_mul (cents (ext_of q)) MPF_RATE = Ok (Fin false (ext_of q * 3464) (-2 - 6)).
Proof using Hq Hr Hb.
  pose proof amounts_bounds as (Be & _). unfold CENTS_LIMIT in Be. unfold MPF_RATE, cents.
  by rewrite dec_mul_exact by (unfold PREC; lia).
Qed.

Lemma mpf_cents :
  clamp_money (NDecimal (Fin false (ext_of q * 3464) (-2 - 6))) (Some (NDecimal MPF_MIN))
    (Some (NDecimal MPF_MAX)) = Ok (cents (mpf_of q)).
Proof using Hq Hr Hb.
  pose proof amounts_bounds as (Be & _). unfold CENTS_LIMIT in Be.
  pose proof (spec_fee_bounds (ext_of q) 3464 ltac:(lia) ltac:(lia)).
  pose proof (Z.div_le_upper_bound (ext_of q * 3464) (10 ^ 6) (ext_of q) ltac:(lia) ltac:(lia)).
  assert (HP : PREC = 10 ^ 28) by done.
  pose proof (money_round (ext_of q * 3464) 6 ltac:(lia) ltac:(lia) ltac:(lia)) as Hm.
  change MPF_MIN with (cents 3271). change MPF_MAX with (cents 63462).
  unfold mpf_of, spec_mpf. rewrite <-clamp_cents by lia.
  unfold clamp_money at 1. rewrite Hm. unfold clamp_money.
  rewrite (money_cents (div_half_up _ _)) by lia. reflexivity.
Qed.

Lemma compute_amounts_cents :
  compute_amounts q rule =
  Ok (mkAmounts (cents (ext_of q)) (cents (duty_of q rule)) (cents (section_301_of q rule))
        (cents (mpf_of q)) (cents (hmf_of q)) (cents (landed_of q rule))).
Proof using Hq Hr Hb.
  pose proof amounts_bounds as (Be & Bd & Bs & Bm & Bh & Bf & Bi).
  destruct request_money as (_ & (nf & f & Ef & Hf & Sf) & (ni & i & Ei & Hi & Si) & _).
  unfold compute_amounts.
  rewrite extended_cents. cbn [mbind result_bind].
  rewrite (rate_cents (rule_duty_rate rule)) by by apply rules_ok. cbn [mbind result_bind].
  rewrite section_301_cents. cbn [mbind result_bind].
  rewrite fee_cents. cbn [mbind result_bind]. rewrite mpf_cents. cbn [mbind result_bind].
  rewrite hmf_cents. cbn [mbind result_bind].
  assert (HP : PREC = 10 ^ 28) by done. assert (HL : CENTS_LIMIT = 10 ^ 22) by done.
  unfold landed_of. rewrite Ef, Ei in *. cbn [cents_of] in *.
  fold (duty_of q rule). rewrite HL in *. clear HL.
  rewrite (dec_add_cents _ nf f) by (assumption || lia). cbn [mbind result_bind].
  rewrite (dec_add_cents _ ni i) by (assumption || lia). cbn [mbind result_bind].
  do 4 (rewrite dec_add_cents_pos by lia; cbn [mbind result_bind]).
  rewrite money_cents by lia. reflexivity.
Qed.
End amounts.

(** ** The whole calculation *)

Lemma lookup_rule rule :
  rule ∈ TARIFF_RULES → lookup_tariff_rule TARIFF_RULES (hs_prefix rule) = Ok rule.
Proof.
  intros Hr. unfold lookup_tariff_rule.
  assert (validate_dataset_integrity TARIFF_RULES = Ok tt) as -> by (vm_compute; reflexivity).
  cbn [mbind result_bind].
  assert (find (fun r => String.eqb (hs_prefix rule) (hs_prefix r)) TARIFF_RULES = Some rule) as ->;
    [|done].
  unfold TARIFF_RULES in Hr. rewrite !elem_of_cons, elem_of_nil in Hr.
  destruct Hr as [->|[->|[->|[->|[->|[->|[]]]]]]]; reflexivity.
Qed.

Definition artifact (request_payload result_payload trace_payload : pyval) : IntegrityArtifact :=
  let i := payload_hash request_payload in
  let o := payload_hash result_payload in
  let t := payload_hash trace_payload in
  mkIntegrity i o t (sha256_hex (i +:+ o +:+ t)).

Lemma build_integrity_artifact_free p r t :
  float_free p = true → float_free r = true → float_free t = true →
  build_integrity_artifact p r t = Ok (artifact p r t).
Proof. intros. unfold build_integrity_artifact. by rewrite !hash_payload_free. Qed.

(** The response to a valid request in range. *)
Definition expected_result (q : ImportCalculationRequest) (rule : TariffRule) : CalculationResult :=
  mkCalculation DATASET_VERSION DATASET_HASH (hs_code q) (country_of_origin q) (quantity q)
    (rule_ref_ rule) (description rule) (customs_value q) (cents (ext_of q)) (freight q) (insurance q)
    (Fin false (basis_points (rule_duty_rate rule) * 100) (-6))
    (Fin false (basis_points (rule_section_301_rate rule) * 100) (-6))
    (cents (duty_of q rule)) (cents (section_301_of q rule)) (cents (mpf_of q)) (cents (hmf_of q))
    (cents (landed_of q rule)).

Definition expected_amounts (q : ImportCalculationRequest) (rule : TariffRule) : amounts :=
  mkAmounts (cents (ext_of q)) (cents (duty_of q rule)) (cents (section_301_of q rule))
    (cents (mpf_of q)) (cents (hmf_of q)) (cents (landed_of q rule)).

Definition expected_trace (q : ImportCalculationRequest) (rule : TariffRule) : list TraceStep :=
  build_trace q (payload_hash (PDict (model_dump q))) rule (expected_amounts q rule).

Definition expected_response (q : ImportCalculationRequest) (rule : TariffRule) : CalculationResponse :=
  mkResponse (expected_result q rule) (expected_trace q rule)
    (artifact (PDict (model_dump q)) (dump_result (expected_result q rule))
       (dump_trace (expected_trace q rule))).

Lemma valid_money q :
  valid_request q = true →
  money_ok (customs_value q) = true ∧ money_ok (freight q) = true ∧ money_ok (insurance q) = true.
Proof.
  unfold valid_request. rewrite !andb_true_iff. intros [[[[[[_ Hm] _] _] _] _] _].
  cbn [forallb] in Hm. rewrite !andb_true_iff in Hm. naive_solver.
Qed.

Lemma calculate_expected coerce_int q rule :
  (∀ z, coerce_int (PInt z) = Some z) → valid_request q = true → rule ∈ TARIFF_RULES →
  hs_code q = hs_prefix rule → in_range q →
  calculate_import_landed_cost coerce_int TARIFF_RULES q = Ok (expected_response q rule).
Proof.
  intros Hz Hq Hr Hhs Hb. unfold calculate_import_landed_cost. rewrite revalidate by done.
  cbn [mbind result_bind]. rewrite hash_payload_free by done. cbn [mbind result_bind].
  rewrite Hhs, lookup_rule by done. cbn [mbind result_bind].
  rewrite (compute_amounts_cents q rule) by done. cbn [mbind result_bind].
  destruct (valid_money q Hq) as (M1 & M2 & M3), (rules_ok rule Hr) as [R1 R2].
  assert (build_result q rule (expected_amounts q rule) = Ok (expected_result q rule)) as E.
  { unfold build_result. by rewrite !money_id, !rate_exact by done. }
  unfold expected_amounts in E. rewrite E. cbn [mbind result_bind].
  rewrite build_integrity_artifact_free; [done|done|done|apply dump_trace_free].
Qed.

Lemma dataset_payload_wf rules : pyval_wf (dataset_payload rules) = true.
Proof.
  unfold dataset_payload. cbn [pyval_wf forallb snd].
  assert (forallb pyval_wf (map rule_payload rules) = true) as ->; [|reflexivity].
  rewrite forallb_Forall, Forall_map. apply Forall_true. intros r. unfold rule_payload.
  cbn [pyval_wf forallb snd].
  assert (forallb pyval_wf (map PStr (section_301_origin_countries r)) = true) as ->; [|reflexivity].
  rewrite forallb_Forall, Forall_map. by apply Forall_true.
Qed.

Lemma dataset_hash_text : DATASET_HASH = payload_hash (dataset_payload TARIFF_RULES).
Proof. vm_compute. reflexivity. Qed.

Definition dataset_text (rules : list TariffRule) : string :=
  json_print (canonical_form (dataset_payload rules)).

(** ** Monotonicity of the fees *)

Lemma spec_mono ext ext' bp bp3 listed ocean :
  0 <= bp → 0 <= bp3 → ext <= ext' →
  spec_duty ext bp <= spec_duty ext' bp ∧ spec_section_301 listed ext bp3 <= spec_section_301 listed ext' bp3 ∧
  spec_mpf ext <= spec_mpf ext' ∧ spec_hmf ocean ext <= spec_hmf ocean ext'.
Proof.
  intros H1 H2 He. unfold spec_duty, spec_section_301, spec_mpf, spec_hmf.
  pose proof (div_half_up_mono (ext * bp) (ext' * bp) 4 ltac:(lia) ltac:(nia)).
  pose proof (div_half_up_mono (ext * bp3) (ext' * bp3) 4 ltac:(lia) ltac:(nia)).
  pose proof (div_half_up_mono (ext * 3464) (ext' * 3464) 6 ltac:(lia) ltac:(lia)).
  pose proof (div_half_up_mono (ext * 1250) (ext' * 1250) 6 ltac:(lia) ltac:(lia)).
  split_and!; try lia; case_match; lia.
Qed.

(** ** Sample requests *)

Definition sample_request : ImportCalculationRequest :=
  mkRequest "8507600000" "CN" (cents 120000) (cents 15000) (cents 2500) 2 "ocean".
Definition sample_larger : ImportCalculationRequest :=
  mkRequest "8507600000" "CN" (cents 120001) (cents 15000) (Fin false 2600 (-2)) 3 "ocean".
Definition sample_rule : TariffRule := nth 1 TARIFF_RULES (mkRule "" "" "" (Fin false 0 0) (Fin false 0 0) []).

Lemma sample_rule_in : sample_rule ∈ TARIFF_RULES.
Proof. by right; left. Qed.

Lemma reference_decimals_wf : payload_decimals_wf REFERENCE_REQUEST.
Proof.
  intros k d H. apply dict_get_Some_elem in H. revert H. unfold REFERENCE_REQUEST.
  rewrite !elem_of_cons, elem_of_nil.
  intros [H|[H|[H|[H|[H|[H|[H|[]]]]]]]]; try discriminate H; by injection H as -> ->.
Qed.

(** ** Properties *)

(** C35: validation is sound and stable.  An accepted request has ten digits, two
    capital letters, amounts in whole cents with a positive customs value, a
    quantity from 1 to 1,000,000 and a known shipping mode, and no key beyond
    these; and validating its own dump, as the engine does, gives it back. *)
Theorem validated_requests coerce_int value q :
  (∀ z, coerce_int (PInt z) = Some z) → payload_decimals_wf value →
  model_validate coerce_int value = Ok q →
  valid_request q = true ∧ dict_keys value ⊆ REQUEST_FIELDS ∧
  model_validate coerce_int (model_dump q) = Ok q.
Proof.
  intros Hz Hw Hv. destruct (validated_valid _ _ _ Hw Hv) as [Hq Hk]. auto using revalidate.
Qed.

Lemma validated_requests_witness :
  valid_request sample_request = true ∧ dict_keys REFERENCE_REQUEST ⊆ REQUEST_FIELDS ∧
  model_validate coerce_plain (model_dump sample_request) = Ok sample_request.
Proof.
  apply validated_requests; [reflexivity|exact reference_decimals_wf|vm_compute; reflexivity].
Defined.

(** C7: the engine computes the landed cost in exact cents.  For a valid request
    for a listed code with amounts up to 10^22 cents, the calculation returns:
    the extended value is the customs value times the quantity; the duty and
    the section 301 amount (only for the listed countries of origin) are that
    value times the rate, rounded half up; the processing fee is 0.3464% of it
    kept between 32.71 and 634.62, the harbor fee 0.125% of it for ocean
    freight only; the landed cost is the exact sum of everything; and the
    hashes are those of the canonical request, result and trace. *)
Theorem landed_cost_correct coerce_int q rule :
  (∀ z, coerce_int (PInt z) = Some z) → valid_request q = true → rule ∈ TARIFF_RULES →
  hs_code q = hs_prefix rule → in_range q →
  ∃ resp, calculate_import_landed_cost coerce_int TARIFF_RULES q = Ok resp ∧
    let c := calculation resp in let i := integrity resp in
    extended_customs_value c = cents (cents_of (customs_value q) * quantity q) ∧
    duty_amount c = cents (duty_of q rule) ∧ section_301_amount c = cents (section_301_of q rule) ∧
    mpf_amount c = cents (mpf_of q) ∧ hmf_amount c = cents (hmf_of q) ∧
    landed_cost c = cents (landed_of q rule) ∧
    hash_payload (PDict (model_dump q)) = Ok (input_hash i) ∧
    hash_payload (dump_result c) = Ok (output_hash i) ∧
    hash_payload (dump_trace (trace resp)) = Ok (trace_hash i) ∧
    integrity_hash i = sha256_hex (input_hash i +:+ output_hash i +:+ trace_hash i).
Proof.
  intros. eexists. split; [by apply calculate_expected|]. simpl.
  do 6 (split; [reflexivity|]). split_and!; [..|reflexivity];
    apply hash_payload_free; [done|done|apply dump_trace_free].
Qed.

Lemma landed_cost_correct_witness :
  ∃ resp, calculate_import_landed_cost coerce_plain TARIFF_RULES sample_request = Ok resp ∧
    let c := calculation resp in let i := integrity resp in
    extended_customs_value c = cents (120000 * 2) ∧
    duty_amount c = cents 8160 ∧ section_301_amount c = cents 60000 ∧
    mpf_amount c = cents 3271 ∧ hmf_amount c = cents 300 ∧
    landed_cost c = cents 329231 ∧
    hash_payload (PDict (model_dump sample_request)) = Ok (input_hash i) ∧
    hash_payload (dump_result c) = Ok (output_hash i) ∧
    hash_payload (dump_trace (trace resp)) = Ok (trace_hash i) ∧
    integrity_hash i = sha256_hex (input_hash i +:+ output_hash i +:+ trace_hash i).
Proof.
  apply (landed_cost_correct coerce_plain sample_request sample_rule);
    [reflexivity|reflexivity|apply sample_rule_in|reflexivity|].
  unfold in_range, CENTS_LIMIT. vm_compute. done.
Defined.

(** A larger import never costs less.  With the same code, origin and shipping
    mode, raising the extended value, the freight or the insurance does not
    lower the landed cost. *)
Theorem landed_cost_monotone coerce_int q q' rule r r' :
  (∀ z, coerce_int (PInt z) = Some z) → valid_request q = true → valid_request q' = true →
  rule ∈ TARIFF_RULES → hs_code q = hs_prefix rule → hs_code q' = hs_prefix rule →
  in_range q → in_range q' →
  country_of_origin q = country_of_origin q' → shipping_mode q = shipping_mode q' →
  ext_of q <= ext_of q' → cents_of (freight q) <= cents_of (freight q') →
  cents_of (insurance q) <= cents_of (insurance q') →
  calculate_import_landed_cost coerce_int TARIFF_RULES q = Ok r →
  calculate_import_landed_cost coerce_int TARIFF_RULES q' = Ok r' →
  PyDecimal.dec_lt (landed_cost (calculation r')) (landed_cost (calculation r)) = Ok false.
Proof.
  intros Hz Hq Hq' Hr E E' Hb Hb' Hc Hm He Hf Hi.
  rewrite (calculate_expected _ q rule), (calculate_expected _ q' rule) by done. intros [= <-] [= <-].
  change (PyDecimal.dec_lt (cents (landed_of q' rule)) (cents (landed_of q rule)) = Ok false).
  rewrite dec_lt_cents. f_equal. apply Z.ltb_ge.
  destruct (rules_ok rule Hr) as [[_ R1]%rate_ok_shape [_ R2]%rate_ok_shape].
  unfold landed_of, duty_of, section_301_of, mpf_of, hmf_of. rewrite Hc, Hm.
  pose proof (spec_mono (ext_of q) (ext_of q') (basis_points (rule_duty_rate rule))
    (basis_points (rule_section_301_rate rule))
    (bool_decide (country_of_origin q' ∈ section_301_origin_countries rule))
    (String.eqb (shipping_mode q') "ocean") ltac:(lia) ltac:(lia) He). lia.
Qed.

Lemma landed_cost_monotone_witness :
  PyDecimal.dec_lt
    (landed_cost (calculation (expected_response sample_larger sample_rule)))
    (landed_cost (calculation (expected_response sample_request sample_rule))) = Ok false.
Proof.
  apply (landed_cost_monotone coerce_plain sample_request sample_larger sample_rule);
    first [apply sample_rule_in | vm_compute; done].
Defined.

(** A modified dataset is refused.  A lookup succeeds only if the rules in
    memory have the canonical text of the rules the program was loaded with,
    or the two texts are a SHA-256 collision; and it returns a rule of the
    dataset for exactly the code asked for. *)
Theorem tariff_lookup_integrity rules code rule :
  lookup_tariff_rule rules code = Ok rule →
  (rule ∈ rules ∧ hs_prefix rule = code) ∧
  (canonical_form (dataset_payload rules) = canonical_form (dataset_payload TARIFF_RULES) ∨
   collision (dataset_text rules) (dataset_text TARIFF_RULES)).
Proof.
  unfold lookup_tariff_rule. intros (u & Hu & H)%bind_ok. split.
  - destruct (find _ rules) as [r|] eqn:E; [|done]. injection H as ->.
    apply find_some in E as [E%list_elem_of_In ->%String.eqb_eq]. done.
  - clear H. unfold validate_dataset_integrity in Hu.
    rewrite hash_payload_free in Hu by apply pyval_wf_float_free, dataset_payload_wf.
    apply bind_ok in Hu as (h & [= <-] & Hu). apply bind_ok in Hu as (same & Hs & Hu).
    destruct same; [|done]. apply constant_time_equal_true in Hs as [Hs _].
    unfold EXPECTED_DATASET_HASH in Hs. rewrite dataset_hash_text in Hs.
    apply sha256_hex_inj_or_collision in Hs as [Hs|]; [left|by right].
    apply canonical_payload_inj; [apply dataset_payload_wf..|done].
Qed.

Lemma tariff_lookup_integrity_witness :
  (sample_rule ∈ TARIFF_RULES ∧ hs_prefix sample_rule = "8507600000") ∧
  (canonical_form (dataset_payload TARIFF_RULES) = canonical_form (dataset_payload TARIFF_RULES) ∨
   collision (dataset_text TARIFF_RULES) (dataset_text TARIFF_RULES)).
Proof. apply tariff_lookup_integrity. vm_compute. reflexivity. Defined.
