(* ===== verification/CoreVerifier.v ===== *)
(** * Verification by recomputation (core/verifier.py, core/zk_interface.py)

    [verify_proof] recomputes a calculation and compares hashes and canonical
    texts.  [verify_zk_proof] does the same for the fast-path proof bytes.
    pydantic's validation of responses is a parameter. *)
From Stdlib Require Import DecimalString.
From S2P Require Export EngineProps AuditChain.

(** ** core/verifier.py *)

Record VerificationResult := mkVerification {
  v_status : audit_status;
  v_reason : string;
  recomputed_input_hash : string;
  recomputed_output_hash : string;
  recomputed_trace_hash : string;
  recomputed_integrity_hash : string }.

Section verifier.
Context (coerce_int : pyval → option Z) (rules : list TariffRule).
(** [CalculationResponse.model_validate] *)
Context (validate_response : pyval → result CalculationResponse).

Definition is_validation_error (e : exn) : bool := bool_decide (exn_cls e = ValidationError).

(** The comparison of a validated response with the recomputed one. *)
Definition compare_response (request : ImportCalculationRequest)
    (recomputed response : CalculationResponse) : result VerificationResult :=
  input ← hash_payload (PDict (model_dump request));
  output ← hash_payload (dump_result (calculation recomputed));
  trace_ ← hash_payload (dump_trace (trace recomputed));
  let integrity_ := sha256_hex (input +:+ output +:+ trace_) in
  claimed_result ← canonical_payload (dump_result (calculation response));
  actual_result ← canonical_payload (dump_result (calculation recomputed));
  claimed_trace ← canonical_payload (dump_trace (trace response));
  actual_trace ← canonical_payload (dump_trace (trace recomputed));
  checks ← traverse Datatypes.id [
    constant_time_equal (input_hash (integrity response)) input;
    constant_time_equal (output_hash (integrity response)) output;
    constant_time_equal (trace_hash (integrity response)) trace_;
    constant_time_equal claimed_result actual_result;
    constant_time_equal claimed_trace actual_trace ];
  Ok (if forallb Datatypes.id checks
      then mkVerification VALID "Proof recomputed successfully" input output trace_ integrity_
      else mkVerification INVALID "Recomputed proof or payload mismatch detected" input output trace_
             integrity_).

(** The body of the outer [try]. *)
Definition verify_body (request_payload : list (string * pyval)) (response_payload : pyval)
    : result VerificationResult :=
  match model_validate coerce_int request_payload with
  | Raise e =>
      if is_validation_error e
      then Ok (mkVerification INVALID "Invalid verification request payload: {}" "" "" "" "")
      else Raise e
  | Ok request =>
      recomputed ← calculate_import_landed_cost coerce_int rules request;
      match validate_response response_payload with
      | Raise e =>
          let i := integrity recomputed in
          if is_validation_error e
          then Ok (mkVerification INVALID "Invalid calculation response payload: {}" (input_hash i)
                     (output_hash i) (trace_hash i) (integrity_hash i))
          else Raise e
      | Ok response => compare_response request recomputed response
      end
  end.

Definition verify_proof (request_payload : list (string * pyval)) (response_payload : pyval)
    : VerificationResult :=
  match verify_body request_payload response_payload with
  | Ok r => r
  | Raise e => mkVerification INVALID "Verification failed safely: {}" "" "" "" ""
  end.
End verifier.

(** ** core/zk_interface.py *)

Record ZKWitness := mkWitness {
  public_inputs : list (string * string);
  private_inputs : list (string * pyval);
  trace_steps : list TraceStep;
  w_input_hash : string;
  w_output_hash : string;
  w_trace_hash : string }.

Record ZKProof := mkZKProof {
  proof_bytes : list Z;
  p_public_inputs : list (string * string);
  verification_key_id : string }.

Definition extract_witness (request : ImportCalculationRequest) (response : CalculationResponse)
    : ZKWitness :=
  mkWitness
    [("hs_code", hs_code request); ("country_of_origin", country_of_origin request);
     ("shipping_mode", shipping_mode request);
     ("landed_cost", decimal_str (landed_cost (calculation response)))]
    (model_dump request) (trace response) (input_hash (integrity response))
    (output_hash (integrity response)) (trace_hash (integrity response)).

(** White space of C, which [bytes.fromhex] skips between bytes. *)
Definition is_c_space (c : ascii) : bool := between 9 13 (ord c) || (ord c =? 32)%Z.

(** [bytes.fromhex(s)]; [None] is its [ValueError] *)
Fixpoint bytes_fromhex (s : string) : option (list Z) :=
  match s with
  | "" => Some []
  | String a s =>
      if is_c_space a then bytes_fromhex s
      else
        match s with
        | "" => None
        | String b s => x ← hex_value a; y ← hex_value b; l ← bytes_fromhex s; Some ((16 * x + y)%Z :: l)
        end
  end.

(** The witness as it is hashed. *)
Definition witness_payload (w : ZKWitness) : pyval :=
  PDict [("public_inputs", str_dict (isort key_leb (public_inputs w)));
         ("private_inputs", PDict (isort key_leb (private_inputs w)));
         ("trace_steps", dump_trace (trace_steps w));
         ("input_hash", PStr (w_input_hash w)); ("output_hash", PStr (w_output_hash w));
         ("trace_hash", PStr (w_trace_hash w))].

(** The eight hashes of a text. *)
Definition expand_hex (canonical_witness : string) : string :=
  str_join "" (map (fun index => sha256_hex (canonical_witness +:+ ":" +:+ str_of_Z (Z.of_nat index)))
                 (seq 0 8)).

Definition generate_zk_proof (w : ZKWitness) : result ZKProof :=
  canonical_witness ← canonical_payload (witness_payload w);
  match bytes_fromhex (expand_hex canonical_witness) with
  | Some bytes =>
      Ok (mkZKProof bytes (isort key_leb (public_inputs w))
            (sha256_hex ("fast-path-vk:" +:+ w_trace_hash w)))
  | None => raise ValueError "non-hexadecimal number found in fromhex() arg at position {}"
  end.

Definition verify_zk_proof (proof : ZKProof) (witness : ZKWitness) : result bool :=
  match proof_bytes proof with
  | [] => raise ValueError "verify_zk_proof: proof_bytes is empty - refusing to verify"
  | _ =>
      recomputed ← generate_zk_proof witness;
      constant_time_equal (hex_of_bytes (proof_bytes proof)) (hex_of_bytes (proof_bytes recomputed))
  end.

(** ** Canonical texts are ASCII *)

Lemma is_ascii_app s t : is_ascii (s +:+ t) = is_ascii s && is_ascii t.
Proof. apply str_forall_app. Qed.

Lemma is_ascii_json_str s : is_ascii (json_str s) = true.
Proof.
  unfold json_str.
  change (is_ascii (json_esc s +:+ String QUOTE "") = true). rewrite is_ascii_app, andb_true_r.
  induction s as [|c s IH]; [done|]. cbn [json_esc]. rewrite is_ascii_app, IH, andb_true_r.
  revert c. apply forall_chars. vm_compute. reflexivity.
Qed.

Lemma is_ascii_join sep l :
  is_ascii sep = true → Forall (fun s => is_ascii s = true) l → is_ascii (str_join sep l) = true.
Proof.
  intros Hs. induction 1 as [|s [|t l] Hx Hl IH]; [done|done|].
  change (str_join sep (s :: t :: l)) with (s +:+ sep +:+ str_join sep (t :: l)).
  by rewrite !is_ascii_app, Hx, Hs, IH.
Qed.

Lemma is_ascii_str_of_Z n : is_ascii (str_of_Z n) = true.
Proof.
  unfold str_of_Z. assert (∀ d, is_ascii (NilEmpty.string_of_uint d) = true) as H
    by (by induction d).
  destruct (to_int_nonnil n) as [H1 H2]. destruct (Z.to_int n) as [d|d]; simpl;
    rewrite string_of_uint_nonnil by congruence; [apply H|].
  change (is_ascii (NilEmpty.string_of_uint d) = true). apply H.
Qed.

Lemma is_ascii_list l :
  Forall (fun j => is_ascii (json_print j) = true) l → is_ascii (json_print (JList l)) = true.
Proof.
  intros Hl. change (is_ascii (str_join "," (map json_print l) +:+ "]") = true).
  rewrite is_ascii_app, is_ascii_join; [done|done|]. by rewrite Forall_map.
Qed.

Lemma is_ascii_obj (l : list (string * json)) :
  Forall (fun p => is_ascii (json_print p.2) = true) l → is_ascii (json_print (JObj l)) = true.
Proof.
  intros Hl. rewrite json_print_obj. change (is_ascii (str_join "," (map json_member l) +:+ "}") = true).
  rewrite is_ascii_app, is_ascii_join; [done|done|]. rewrite Forall_map. eapply Forall_impl; [exact Hl|].
  intros p Hp. unfold json_member. rewrite !is_ascii_app, is_ascii_json_str. by rewrite Hp.
Qed.

Lemma canonical_text_ascii v : float_free v = true → is_ascii (json_print (canonical_form v)) = true.
Proof.
  induction v as [|[]|z|t|d|t|t|t|s|l IH|l IH|l IH|l IH|l] using pyval_rect_nested;
    cbn [canonical_form float_free]; try done; try (intros _; apply is_ascii_json_str);
    try (intros _; apply is_ascii_str_of_Z); rewrite ?forallb_Forall; try rewrite Forall_forall in IH.
  1,2: rewrite Forall_forall; intros Hl; apply is_ascii_obj, Forall_forall; intros p;
    rewrite elem_of_isort; intros (q & -> & Hq)%elem_of_map; simpl; auto.
  1,2: rewrite Forall_forall; intros Hl; apply is_ascii_list, Forall_forall;
    intros j (q & -> & Hq)%elem_of_map; auto.
  intros _. apply is_ascii_list, Forall_forall. intros j (q & -> & _)%elem_of_map.
  apply is_ascii_json_str.
Qed.

(** ** What VALID means *)

Definition text_of (v : pyval) : string := json_print (canonical_form v).

Lemma traverse_all_true (l : list (result bool)) checks :
  traverse Datatypes.id l = Ok checks → forallb Datatypes.id checks = true →
  Forall (fun c => c = Ok true) l.
Proof.
  revert checks. induction l as [|c l IH]; intros checks; cbn [traverse]; [by constructor|].
  intros (b & Hb & H)%bind_ok. apply bind_ok in H as (bs & Hbs & [= <-]).
  cbn [forallb]. intros [H1 H2]%andb_true_iff. constructor; [|by eapply IH].
  destruct b; [exact Hb|done].
Qed.

Lemma constant_time_equal_refl x : is_ascii x = true → constant_time_equal x x = Ok true.
Proof. intros. by apply constant_time_equal_true. Qed.

(** The response agrees with the recomputed calculation. *)
Definition agrees_with (request : ImportCalculationRequest) (recomputed response : CalculationResponse)
    : Prop :=
  input_hash (integrity response) = payload_hash (PDict (model_dump request)) ∧
  output_hash (integrity response) = payload_hash (dump_result (calculation recomputed)) ∧
  trace_hash (integrity response) = payload_hash (dump_trace (trace recomputed)) ∧
  text_of (dump_result (calculation response)) = text_of (dump_result (calculation recomputed)) ∧
  text_of (dump_trace (trace response)) = text_of (dump_trace (trace recomputed)).

Definition valid_verification (request : ImportCalculationRequest) (recomputed : CalculationResponse)
    : VerificationResult :=
  let a := artifact (PDict (model_dump request)) (dump_result (calculation recomputed))
             (dump_trace (trace recomputed)) in
  mkVerification VALID "Proof recomputed successfully" (input_hash a) (output_hash a) (trace_hash a)
    (integrity_hash a).

Lemma compare_response_spec request recomputed response r :
  (compare_response request recomputed response = Ok r ∧ v_status r = VALID) ↔
  agrees_with request recomputed response ∧ r = valid_verification request recomputed.
Proof.
  unfold compare_response. rewrite !hash_payload_free, !canonical_payload_free by (done || apply dump_trace_free).
  cbn [mbind result_bind]. unfold agrees_with, valid_verification. split.
  - intros [H Hs]. apply bind_ok in H as (checks & Hc & [= <-]).
    destruct (forallb Datatypes.id checks) eqn:E; [|done].
    pose proof (traverse_all_true _ _ Hc E) as Hall. rewrite !Forall_cons in Hall.
    rewrite !constant_time_equal_true in Hall.
    destruct Hall as ([E1 _] & [E2 _] & [E3 _] & [E4 _] & [E5 _] & _).
    split; [|reflexivity]. split_and!; assumption.
  - intros [(E1 & E2 & E3 & E4 & E5) ->]. unfold text_of in *. rewrite E1, E2, E3, E4, E5.
    cbn [traverse Datatypes.id].
    rewrite !constant_time_equal_refl by (apply hash_wf_ascii, sha256_hex_wf || apply canonical_text_ascii;
      done || apply dump_trace_free). done.
Qed.

Section verify_props.
Context (coerce_int : pyval → option Z) (rules : list TariffRule).
Context (validate_response : pyval → result CalculationResponse).

Lemma verify_proof_valid request_payload response_payload :
  v_status (verify_proof coerce_int rules validate_response request_payload response_payload) = VALID ↔
  ∃ request recomputed response,
    model_validate coerce_int request_payload = Ok request ∧
    calculate_import_landed_cost coerce_int rules request = Ok recomputed ∧
    validate_response response_payload = Ok response ∧ agrees_with request recomputed response.
Proof.
  unfold verify_proof, verify_body. split.
  - destruct (model_validate coerce_int request_payload) as [q|e]; [|by destruct (is_validation_error e)].
    destruct (calculate_import_landed_cost coerce_int rules q) as [rec|e] eqn:Ec; [|done].
    cbn [mbind result_bind].
    destruct (validate_response response_payload) as [resp|e]; [|by destruct (is_validation_error e)].
    destruct (compare_response q rec resp) as [r|e] eqn:Er; [|done]. intros Hs.
    destruct (proj1 (compare_response_spec q rec resp r) (conj Er Hs)) as [Ha _]. by exists q, rec, resp.
  - intros (q & rec & resp & -> & -> & -> & Ha). cbn [mbind result_bind].
    destruct (proj2 (compare_response_spec q rec resp _) (conj Ha eq_refl)) as [-> Hs]. done.
Qed.
End verify_props.

(** ** The engine's responses *)

Lemma calculate_integrity coerce_int rules q r :
  (∀ z, coerce_int (PInt z) = Some z) → valid_request q = true →
  calculate_import_landed_cost coerce_int rules q = Ok r →
  integrity r = artifact (PDict (model_dump q)) (dump_result (calculation r)) (dump_trace (trace r)).
Proof.
  intros Hz Hq. unfold calculate_import_landed_cost. rewrite revalidate by done.
  cbn [mbind result_bind]. intros H.
  apply bind_ok in H as (h & Hh & H). apply bind_ok in H as (rule & Hr & H).
  apply bind_ok in H as (a & Ha & H). apply bind_ok in H as (res & Hres & H).
  apply bind_ok in H as (i & Hi & [= <-]). simpl.
  rewrite build_integrity_artifact_free in Hi by (done || apply dump_trace_free). by injection Hi.
Qed.

Lemma own_response_agrees coerce_int rules q r :
  (∀ z, coerce_int (PInt z) = Some z) → valid_request q = true →
  calculate_import_landed_cost coerce_int rules q = Ok r → agrees_with q r r.
Proof.
  intros Hz Hq Hc. pose proof (calculate_integrity _ _ _ _ Hz Hq Hc) as E. unfold agrees_with.
  rewrite E. split_and!; reflexivity.
Qed.

Lemma dump_result_wf r : pyval_wf (dump_result r) = true.
Proof. reflexivity. Qed.

(** The fields of a step are dictionaries. *)
Definition step_wf (s : TraceStep) : bool := pyval_wf (dump_step s).

Lemma dump_trace_wf l : forallb step_wf l = true → pyval_wf (dump_trace l) = true.
Proof. unfold step_wf. cbn [dump_trace pyval_wf]. rewrite !forallb_Forall, Forall_map. done. Qed.

Lemma build_trace_wf q h rule a : forallb step_wf (build_trace q h rule a) = true.
Proof. reflexivity. Qed.

Lemma calculate_trace_wf coerce_int rules q r :
  calculate_import_landed_cost coerce_int rules q = Ok r → forallb step_wf (trace r) = true.
Proof.
  unfold calculate_import_landed_cost. intros H.
  apply bind_ok in H as (v & Hv & H). apply bind_ok in H as (h & Hh & H).
  apply bind_ok in H as (rule & Hr & H). apply bind_ok in H as (a & Ha & H).
  apply bind_ok in H as (res & Hres & H). apply bind_ok in H as (i & Hi & [= <-]).
  apply build_trace_wf.
Qed.

(** A field of a canonical result. *)
Definition field_of (k : string) (v : pyval) : option json :=
  match canonical_form v with JObj l => dict_get k l | _ => None end.

(** ** Hexadecimal bytes *)

Lemma hex_value_lower c :
  is_lower_hex c = true →
  is_c_space c = false ∧ ∃ x, hex_value c = Some x ∧ (0 <= x < 16)%Z ∧ hex_digit x = c.
Proof.
  intros H.
  assert (forallb (fun c => implb (is_lower_hex c) (match hex_value c with
            | Some x => negb (is_c_space c) && (between 0 15 x && Ascii.eqb (hex_digit x) c)
            | None => false end)) all_chars = true)
    as Hall by (vm_compute; reflexivity).
  pose proof (forall_chars _ Hall c) as Hc. cbv beta in Hc. rewrite H in Hc.
  destruct (hex_value c) as [x|]; [|done]. cbn [implb] in Hc.
  apply andb_true_iff in Hc as [Hsp%negb_true_iff Hc].
  apply andb_true_iff in Hc as [Hx%between_spec Hd%Ascii.eqb_eq]. split; [done|].
  exists x. split_and!; [done|lia|lia|done].
Qed.

Lemma bytes_fromhex_lower n s :
  String.length s = (2 * n)%nat → str_forall is_lower_hex s = true →
  ∃ l, bytes_fromhex s = Some l ∧ hex_of_bytes l = s ∧ length l = n.
Proof.
  revert s. induction n as [|n IH]; intros s Hl Hs.
  { destruct s; [|done]. by exists []. }
  destruct s as [|a [|b s]]; simpl in Hl; try lia. cbn [str_forall] in Hs.
  rewrite !andb_true_iff in Hs. destruct Hs as (Ha & Hb & Hs).
  destruct (hex_value_lower a Ha) as (Sa & x & Ex & Bx & Dx), (hex_value_lower b Hb) as (_ & y & Ey & By & Dy).
  destruct (IH s ltac:(lia) Hs) as (l & El & Hl' & Hn). exists ((16 * x + y)%Z :: l).
  cbn [bytes_fromhex]. rewrite Sa, Ex, Ey, El. split; [done|]. split; [|simpl; congruence].
  cbn [hex_of_bytes]. rewrite Hl'.
  replace ((16 * x + y) / 16)%Z with x by (apply Z.div_unique with y; lia).
  replace ((16 * x + y) mod 16)%Z with y by (apply Z.mod_unique with x; lia).
  by rewrite Dx, Dy.
Qed.

Lemma expand_hex_shape t :
  expand_hex t = sha256_hex (t +:+ ":0") +:+ str_join "" (map (fun index =>
    sha256_hex (t +:+ ":" +:+ str_of_Z (Z.of_nat index))) (seq 1 7)).
Proof. reflexivity. Qed.

Lemma hash_join_lower (l : list string) :
  Forall hash_wf l →
  String.length (str_join "" l) = (64 * length l)%nat ∧ str_forall is_lower_hex (str_join "" l) = true.
Proof.
  induction 1 as [|s [|u l] Hs Hl IH]; [done|exact Hs|].
  change (str_join "" (s :: u :: l)) with (s +:+ "" +:+ str_join "" (u :: l)).
  rewrite str_app_nil_l, str_length_app, str_forall_app. destruct Hs as [Hn ->], IH as [IHn ->].
  split; [rewrite Hn, IHn; simpl; lia|done].
Qed.

Lemma expand_hex_lower t :
  String.length (expand_hex t) = 512%nat ∧ str_forall is_lower_hex (expand_hex t) = true.
Proof.
  unfold expand_hex. destruct (hash_join_lower (map (fun index =>
    sha256_hex (t +:+ ":" +:+ str_of_Z (Z.of_nat index))) (seq 0 8))) as [Hl Hs]; [|done].
  rewrite Forall_map, Forall_forall. intros. apply sha256_hex_wf.
Qed.

(** The proof of a witness. *)
Definition witness_free (w : ZKWitness) : bool :=
  forallb (fun p => float_free p.2) (private_inputs w).

Lemma witness_payload_free w : witness_free w = true → float_free (witness_payload w) = true.
Proof.
  unfold witness_free, witness_payload. intros H. cbn [float_free forallb snd].
  rewrite dump_trace_free. cbn [andb]. rewrite str_dict_free. cbn [andb].
  rewrite andb_true_r. rewrite (forallb_perm _ _ (private_inputs w)); [done|]. apply isort_perm.
Qed.

Lemma generate_zk_proof_free w :
  witness_free w = true →
  ∃ p, generate_zk_proof w = Ok p ∧
       hex_of_bytes (proof_bytes p) = expand_hex (text_of (witness_payload w)) ∧ proof_bytes p ≠ [].
Proof.
  intros Hw. unfold generate_zk_proof. rewrite canonical_payload_free by by apply witness_payload_free.
  cbn [mbind result_bind].
  destruct (expand_hex_lower (text_of (witness_payload w))) as [Hl Hs].
  destruct (bytes_fromhex_lower 256 _ Hl Hs) as (l & El & Hh & Hn).
  unfold text_of in El. rewrite El. eexists. split; [done|]. split; [exact Hh|].
  simpl. by intros ->.
Qed.

Lemma hex_ascii s : str_forall is_lower_hex s = true → is_ascii s = true.
Proof. intros. eapply (str_forall_chars is_lower_hex); [vm_compute; reflexivity|done]. Qed.

(** A proof is accepted when its bytes are those of the witness. *)
Lemma verify_zk_proof_spec p w :
  witness_free w = true →
  verify_zk_proof p w = Ok true ↔
  proof_bytes p ≠ [] ∧ hex_of_bytes (proof_bytes p) = expand_hex (text_of (witness_payload w)).
Proof.
  intros Hw. destruct (generate_zk_proof_free w Hw) as (p' & Hp & Hh & _). unfold verify_zk_proof.
  rewrite Hp. cbn [mbind result_bind]. rewrite Hh. destruct (expand_hex_lower (text_of (witness_payload w))).
  destruct (proof_bytes p) as [|b l]; [naive_solver|]. rewrite constant_time_equal_true. split.
  - intros [E _]. done.
  - intros [_ E]. split; [done|]. rewrite E. by apply hex_ascii.
Qed.

Lemma expand_hex_binding t u :
  expand_hex t = expand_hex u → t = u ∨ collision (t +:+ ":0") (u +:+ ":0").
Proof.
  rewrite !expand_hex_shape. intros [E _]%str_app_inj_length; [|by rewrite !length_sha256_hex].
  apply sha256_hex_inj_or_collision in E as [E|]; [left|by right].
  apply (f_equal String.length) in E as El. rewrite !str_length_app in El.
  apply str_app_inj_length in E as [-> _]; [done|lia].
Qed.

(** ** Properties *)

(** A validation of responses for the samples: it accepts the dump of one
    response. *)
Definition accept_one (r : CalculationResponse) (v : pyval) : result CalculationResponse :=
  if String.eqb (text_of v) (text_of (dump_response r)) then Ok r
  else raise ValidationError "{} validation errors for CalculationResponse".

Definition sample_response : CalculationResponse :=
  Eval vm_compute in expected_response sample_request sample_rule.

(** The verdict on the engine's own response. *)
Lemma own_response_verdict coerce_int rules validate_response value q r :
  (∀ z, coerce_int (PInt z) = Some z) → payload_decimals_wf value →
  model_validate coerce_int value = Ok q →
  calculate_import_landed_cost coerce_int rules q = Ok r →
  validate_response (dump_response r) = Ok r →
  verify_proof coerce_int rules validate_response value (dump_response r) =
  mkVerification VALID "Proof recomputed successfully" (input_hash (integrity r))
    (output_hash (integrity r)) (trace_hash (integrity r)) (integrity_hash (integrity r)).
Proof.
  intros Hz Hw Hv Hc Hresp. destruct (validated_valid _ _ _ Hw Hv) as [Hq _].
  pose proof (calculate_integrity _ _ _ _ Hz Hq Hc) as Ei.
  unfold verify_proof, verify_body. rewrite Hv, Hc. cbn [mbind result_bind]. rewrite Hresp.
  destruct (proj2 (compare_response_spec q r r _)
    (conj (own_response_agrees _ _ _ _ Hz Hq Hc) eq_refl)) as [-> _].
  unfold valid_verification. by rewrite Ei.
Qed.

(** The engine's responses verify.  For every payload the schema accepts, the
    response the engine computes for it, dumped and validated again, is VALID,
    with the hashes of the response as the recomputed ones. *)
Theorem engine_responses_verify coerce_int rules validate_response value q r :
  (∀ z, coerce_int (PInt z) = Some z) → payload_decimals_wf value →
  model_validate coerce_int value = Ok q →
  calculate_import_landed_cost coerce_int rules q = Ok r →
  validate_response (dump_response r) = Ok r →
  verify_proof coerce_int rules validate_response value (dump_response r) =
  mkVerification VALID "Proof recomputed successfully" (input_hash (integrity r))
    (output_hash (integrity r)) (trace_hash (integrity r)) (integrity_hash (integrity r)).
Proof. apply own_response_verdict. Qed.

Lemma engine_responses_verify_witness :
  verify_proof coerce_plain TARIFF_RULES (accept_one sample_response) REFERENCE_REQUEST
    (dump_response sample_response) =
  mkVerification VALID "Proof recomputed successfully" (input_hash (integrity sample_response))
    (output_hash (integrity sample_response)) (trace_hash (integrity sample_response))
    (integrity_hash (integrity sample_response)).
Proof.
  apply (engine_responses_verify _ _ _ _ sample_request);
    [reflexivity|exact reference_decimals_wf|vm_compute; reflexivity..].
Defined.

(** C17: a VALID response is the recomputed one.  If verification says VALID, the
    request is valid, the calculation succeeds on it, and the claimed result
    and trace are those of the calculation, canonical field by canonical field
    (in particular the landed cost shown), with the hashes of the request, the
    result and the trace. *)
Theorem verified_response_is_recomputed coerce_int rules validate_response value payload :
  (∀ v r, validate_response v = Ok r → forallb step_wf (trace r) = true) →
  v_status (verify_proof coerce_int rules validate_response value payload) = VALID →
  ∃ q recomputed r,
    model_validate coerce_int value = Ok q ∧
    calculate_import_landed_cost coerce_int rules q = Ok recomputed ∧
    validate_response payload = Ok r ∧
    canonical_form (dump_result (calculation r)) = canonical_form (dump_result (calculation recomputed)) ∧
    canonical_form (dump_trace (trace r)) = canonical_form (dump_trace (trace recomputed)) ∧
    format_f (landed_cost (calculation r)) = format_f (landed_cost (calculation recomputed)) ∧
    Ok (input_hash (integrity r)) = hash_payload (PDict (model_dump q)) ∧
    Ok (output_hash (integrity r)) = hash_payload (dump_result (calculation r)) ∧
    Ok (trace_hash (integrity r)) = hash_payload (dump_trace (trace r)).
Proof.
  intros Hwf (q & rec & r & Hq & Hc & Hr & E1 & E2 & E3 & E4 & E5)%verify_proof_valid.
  exists q, rec, r.
  pose proof (canonical_payload_inj _ _ (dump_result_wf _) (dump_result_wf _) E4) as F4.
  pose proof (canonical_payload_inj _ _ (dump_trace_wf _ (Hwf _ _ Hr))
    (dump_trace_wf _ (calculate_trace_wf _ _ _ _ Hc)) E5) as F5.
  rewrite !hash_payload_free by (done || apply dump_trace_free). unfold text_of, payload_hash in *.
  rewrite E1, E2, E3, E4, E5. split_and!; try done.
  assert (field_of "landed_cost" (dump_result (calculation r)) =
          field_of "landed_cost" (dump_result (calculation rec))) as Ef
    by (unfold field_of; by rewrite F4).
  by injection Ef.
Qed.

Lemma verified_response_is_recomputed_witness :
  ∃ q recomputed r,
    model_validate coerce_plain REFERENCE_REQUEST = Ok q ∧
    calculate_import_landed_cost coerce_plain TARIFF_RULES q = Ok recomputed ∧
    accept_one sample_response (dump_response sample_response) = Ok r ∧
    canonical_form (dump_result (calculation r)) = canonical_form (dump_result (calculation recomputed)) ∧
    canonical_form (dump_trace (trace r)) = canonical_form (dump_trace (trace recomputed)) ∧
    format_f (landed_cost (calculation r)) = format_f (landed_cost (calculation recomputed)) ∧
    Ok (input_hash (integrity r)) = hash_payload (PDict (model_dump q)) ∧
    Ok (output_hash (integrity r)) = hash_payload (dump_result (calculation r)) ∧
    Ok (trace_hash (integrity r)) = hash_payload (dump_trace (trace r)).
Proof.
  apply verified_response_is_recomputed; [|vm_compute; reflexivity].
  intros v r. unfold accept_one. destruct (String.eqb _ _); [|done]. by intros [= <-].
Defined.

(** A response with another integrity hash. *)
Definition with_integrity_hash (h : string) (r : CalculationResponse) : CalculationResponse :=
  mkResponse (calculation r) (trace r)
    (mkIntegrity (input_hash (integrity r)) (output_hash (integrity r)) (trace_hash (integrity r)) h).

(** The integrity hash of a response is never checked.  Two responses that
    differ only in it get the same verdict, so that a VALID response may carry
    any integrity hash. *)
Theorem integrity_hash_unchecked coerce_int rules validate_response value payload payload' r h :
  validate_response payload = Ok r → validate_response payload' = Ok (with_integrity_hash h r) →
  verify_proof coerce_int rules validate_response value payload =
  verify_proof coerce_int rules validate_response value payload'.
Proof. intros E E'. unfold verify_proof, verify_body. by rewrite E, E'. Qed.

Lemma integrity_hash_unchecked_witness :
  let validate v := match v with PNone => Ok (with_integrity_hash "" sample_response)
                    | _ => accept_one sample_response v end in
  verify_proof coerce_plain TARIFF_RULES validate REFERENCE_REQUEST (dump_response sample_response) =
  verify_proof coerce_plain TARIFF_RULES validate REFERENCE_REQUEST PNone.
Proof.
  apply (integrity_hash_unchecked _ _ _ _ _ _ sample_response ""); vm_compute; reflexivity.
Defined.

(** Fast-path proofs are complete and bind the witness.  A generated proof is
    accepted for its witness, whatever public inputs and key it is made to
    carry; and if it is accepted for another witness, the two witnesses have
    the same canonical text (inputs, trace and hashes) or exhibit a SHA-256
    collision. *)
Theorem zk_proof_binding w w' p inputs_ key :
  witness_free w = true → witness_free w' = true → generate_zk_proof w = Ok p →
  verify_zk_proof (mkZKProof (proof_bytes p) inputs_ key) w = Ok true ∧
  (verify_zk_proof p w' = Ok true →
   text_of (witness_payload w) = text_of (witness_payload w') ∨
   collision (text_of (witness_payload w) +:+ ":0") (text_of (witness_payload w') +:+ ":0")).
Proof.
  intros Hw Hw' Hp. destruct (generate_zk_proof_free w Hw) as (p0 & Hp0 & Hh & Hne).
  assert (p0 = p) as -> by congruence. split; [by apply verify_zk_proof_spec|].
  intros [_ E]%verify_zk_proof_spec; [|done]. apply expand_hex_binding. congruence.
Qed.

Definition sample_witness : ZKWitness := extract_witness sample_request sample_response.

Lemma zk_proof_binding_witness :
  let p := ok_default ((fun p => proof_bytes p) <$> generate_zk_proof sample_witness) in
  let proof := mkZKProof p (isort key_leb (public_inputs sample_witness))
    (sha256_hex ("fast-path-vk:" +:+ w_trace_hash sample_witness)) in
  verify_zk_proof (mkZKProof p [] "") sample_witness = Ok true ∧
  (verify_zk_proof proof sample_witness = Ok true →
   text_of (witness_payload sample_witness) = text_of (witness_payload sample_witness) ∨
   collision (text_of (witness_payload sample_witness) +:+ ":0")
     (text_of (witness_payload sample_witness) +:+ ":0")).
Proof.
  intros p proof. apply (zk_proof_binding sample_witness sample_witness proof [] "");
    vm_compute; reflexivity.
Defined.
