(* ===== verification/Modular.v ===== *)
(** * Arithmetic modulo an integer

    What the field arithmetic of zk/field_utils.py needs of number theory:
    Python's [pow] with three arguments, congruence as a setoid, the little
    theorem of Fermat, and a criterion by which the field's order is shown to
    be prime. *)
From Stdlib Require Export Znumtheory Zpow_facts.
From S2P Require Export Prelude.

#[local] Open Scope Z_scope.

(** [pow(b, e, n)] for [e >= 0], by repeated squaring. *)
Definition pow_mod (b e n : Z) : Z := Zpow_mod b e n.

(** ** Congruence *)

Definition mod_eq (n a b : Z) : Prop := (n | a - b).
Notation "a ≡ b [mod n ]" := (mod_eq n a b) (at level 70, b at next level) : Z_scope.

#[export] Instance mod_eq_dec n a b : Decision (mod_eq n a b) := Zdivide_dec n (a - b).

Lemma mod_eq_intro n a b k : a = b + k * n → a ≡ b [mod n].
Proof. intros ->. exists k. lia. Qed.

Lemma mod_eq_refl_eq n a b : a = b → a ≡ b [mod n].
Proof. intros ->. apply (mod_eq_intro _ _ _ 0). lia. Qed.

#[export] Instance mod_eq_equiv n : Equivalence (mod_eq n).
Proof.
  split.
  - intros a. apply (mod_eq_intro _ _ _ 0). lia.
  - intros a b [k H]. apply (mod_eq_intro _ _ _ (- k)). lia.
  - intros a b c [k H] [j K]. apply (mod_eq_intro _ _ _ (k + j)). lia.
Qed.

#[export] Instance mod_eq_add n : Proper (mod_eq n ==> mod_eq n ==> mod_eq n) Z.add.
Proof. intros a b [k H] c d [j K]. apply (mod_eq_intro _ _ _ (k + j)). lia. Qed.

#[export] Instance mod_eq_sub n : Proper (mod_eq n ==> mod_eq n ==> mod_eq n) Z.sub.
Proof. intros a b [k H] c d [j K]. apply (mod_eq_intro _ _ _ (k - j)). lia. Qed.

#[export] Instance mod_eq_mul n : Proper (mod_eq n ==> mod_eq n ==> mod_eq n) Z.mul.
Proof. intros a b [k H] c d [j K]. apply (mod_eq_intro _ _ _ (k * c + b * j)). nia. Qed.

#[export] Instance mod_eq_opp n : Proper (mod_eq n ==> mod_eq n) Z.opp.
Proof. intros a b [k H]. apply (mod_eq_intro _ _ _ (- k)). lia. Qed.

Lemma mod_eq_iff n a b : n ≠ 0 → a ≡ b [mod n] ↔ a mod n = b mod n.
Proof. intros. unfold mod_eq. by rewrite Z.cong_iff_0, Z.mod_divide. Qed.

Lemma mod_eq_mod n a : a mod n ≡ a [mod n].
Proof.
  destruct (decide (n = 0)) as [->|Hn]; [by rewrite Z.mod_0_r|].
  by rewrite mod_eq_iff, Z.mod_mod.
Qed.

Lemma mod_eq_0 n a : a ≡ 0 [mod n] ↔ (n | a).
Proof. unfold mod_eq. by rewrite Z.sub_0_r. Qed.

(** A congruence modulo a multiple of [r] holds modulo [r]. *)
Lemma mod_eq_weaken r n a b : (r | n) → a ≡ b [mod n] → a ≡ b [mod r].
Proof. apply Z.divide_trans. Qed.

Lemma mod_eq_pow n a b e : 0 ≤ e → a ≡ b [mod n] → a ^ e ≡ b ^ e [mod n].
Proof.
  intros He Hab. revert e He. apply natlike_ind; [reflexivity|].
  intros e He IH. rewrite !Z.pow_succ_r by done. by apply mod_eq_mul.
Qed.

Lemma pow_mod_spec n b e : 0 < n → 0 ≤ e → pow_mod b e n = (b ^ e) mod n.
Proof. intros. apply Zpow_mod_correct. lia. Qed.

(** ** Products *)

Definition product (l : list Z) : Z := foldr Z.mul 1 l.

Lemma product_perm l k : l ≡ₚ k → product l = product k.
Proof. unfold product. induction 1; simpl; lia. Qed.

Lemma product_map_mod n a l :
  product (map (fun i => a * i mod n) l) ≡ a ^ Z.of_nat (length l) * product l [mod n].
Proof.
  unfold product. induction l as [|x l IH]; cbn [map foldr length]; [reflexivity|].
  rewrite IH, mod_eq_mod, Nat2Z.inj_succ, Z.pow_succ_r by lia.
  apply mod_eq_refl_eq. lia.
Qed.

Lemma prime_divide_product p l : prime p → (p | product l) → ∃ x, x ∈ l ∧ (p | x).
Proof.
  intros Hp. unfold product. induction l as [|x l IH]; cbn [foldr].
  - intros H. apply Z.divide_1_r in H. destruct Hp. lia.
  - intros [H|H]%prime_mult; [exists x; set_solver| |done]. destruct (IH H) as (y & ? & ?). exists y. set_solver.
Qed.

(** Distinct primes that divide [m] divide it together. *)
Lemma product_divide l m : Forall prime l → NoDup l → Forall (fun q => (q | m)) l → (product l | m).
Proof.
  unfold product. induction l as [|q l IH]; intros Hl Hn Hm; cbn [foldr]; [apply Z.divide_1_l|].
  inversion_clear Hl as [|?? Hq Hl']. apply NoDup_cons in Hn as [Hn Hn'].
  inversion_clear Hm as [|?? Hqm Hm'].
  destruct (IH Hl' Hn' Hm') as [k Hk]. rewrite Hk in Hqm.
  assert ((q | k)) as [k' ->]; [|exists k'; rewrite Hk; lia].
  apply prime_mult in Hqm as [|Hd]; [done| |done].
  apply prime_divide_product in Hd as (x & Hx & Hqx); [|done].
  rewrite Forall_forall in Hl'. by rewrite (prime_div_prime q x) in Hn by auto.
Qed.

(** ** Fermat's little theorem *)

Lemma mod_eq_cancel p k x y :
  prime p → ¬ (p | k) → k * x ≡ k * y [mod p] → x ≡ y [mod p].
Proof.
  intros Hp Hk. pose proof (prime_ge_2 _ Hp).
  unfold mod_eq. rewrite <-Z.mul_sub_distr_l. by intros [|]%prime_mult.
Qed.

Lemma fermat p a : prime p → ¬ (p | a) → a ^ (p - 1) ≡ 1 [mod p].
Proof.
  intros Hp Ha. pose proof (prime_ge_2 _ Hp) as Hp2.
  set (l := seqZ 1 (p - 1)). set (k := map (fun i => a * i mod p) l).
  assert (Hl : ∀ x, x ∈ l ↔ 1 ≤ x < p) by (intros; unfold l; rewrite elem_of_seqZ; lia).
  assert (Hnot : ∀ x, 1 ≤ x < p → ¬ (p | x)) by (intros x ? ?%Z.divide_pos_le; lia).
  assert (k ≡ₚ l) as Hperm.
  { apply NoDup_Permutation_bis.
    - apply NoDup_ListNoDup, NoDup_fmap_2_strong; [|apply NoDup_seqZ].
      intros x y Hx%Hl Hy%Hl Hxy%mod_eq_iff; [|lia].
      apply (mod_eq_cancel p a x y Hp Ha) in Hxy.
      apply mod_eq_iff in Hxy; [|lia]. by rewrite !Z.mod_small in Hxy by lia.
    - unfold k. by rewrite length_map.
    - intros x Hx%list_elem_of_In%elem_of_map. apply list_elem_of_In, Hl.
      destruct Hx as (y & -> & Hy%Hl).
      pose proof (Z.mod_pos_bound (a * y) p ltac:(lia)).
      assert (a * y mod p ≠ 0); [|lia]. intros Hd%Z.mod_divide; [|lia].
      apply prime_mult in Hd as [?|?]; [done| |done]. by apply (Hnot y). }
  pose proof (product_map_mod p a l) as H. fold k in H.
  rewrite (product_perm _ _ Hperm) in H.
  assert (Z.of_nat (length l) = p - 1) as Hlen by (unfold l; rewrite length_seqZ; lia).
  rewrite Hlen in H. apply (mod_eq_cancel p (product l)); [done| |].
  - intros (x & Hx%Hl & Hd)%prime_divide_product; [|done]. by apply (Hnot x).
  - by rewrite Z.mul_1_r, Z.mul_comm, <-H.
Qed.

(** ** A primality criterion

    Pocklington: when enough of [n - 1] factors into known primes, a single
    base witnesses that [n] is prime. *)

Lemma prime_divisor n : 1 < n → ∃ r, prime r ∧ (r | n).
Proof.
  intros Hn. assert (0 ≤ n) as H0 by lia. revert Hn. pattern n.
  apply Z_lt_induction; [|exact H0]. clear n H0. intros n IH Hn.
  destruct (prime_dec n) as [|Hp]; [by exists n|].
  apply not_prime_divide in Hp as (m & Hm & Hd); [|lia].
  destruct (IH m ltac:(lia) ltac:(lia)) as (r & ? & ?). exists r. split; [done|].
  by apply (Z.divide_trans _ m).
Qed.

Lemma prime_by_divisors n :
  1 < n → (∀ r, prime r → (r | n) → n < r * r) → prime n.
Proof.
  intros Hn H. destruct (prime_dec n) as [|Hp]; [done|exfalso].
  apply not_prime_divide in Hp as (m & Hm & [k Hk]); [|lia].
  assert (1 < k) as Hk1 by nia.
  destruct (prime_divisor m ltac:(lia)) as (r & Hr & Hrm).
  destruct (prime_divisor k Hk1) as (s & Hs & Hsk).
  assert (n < r * r) by (apply H; [done|]; rewrite Hk; by apply Z.divide_mul_r).
  assert (n < s * s) by (apply H; [done|]; rewrite Hk; by apply Z.divide_mul_l).
  apply Z.divide_pos_le in Hrm, Hsk; [|lia..].
  pose proof (prime_ge_2 _ Hr). pose proof (prime_ge_2 _ Hs).
  assert (r * s ≤ n) by nia. nia.
Qed.

(** [u * q] is one more than a multiple of [m], with both factors counted up. *)
Lemma inverse_nonneg q m :
  0 < q → 0 < m → rel_prime q m → ∃ u w, 0 ≤ u ∧ 0 ≤ w ∧ u * q = 1 + w * m.
Proof.
  intros Hq Hm [u v H]%rel_prime_bezout.
  pose proof (Z.mod_pos_bound u m Hm). pose proof (Z.div_mod u m ltac:(lia)).
  exists (u mod m + m), (q - v - q * (u / m)). nia.
Qed.

Section pocklington.
Context (n a : Z) (pw : Z → Z) (Hn : 1 < n) (Hpw : ∀ e, 0 ≤ e → pw e ≡ a ^ e [mod n]).

(** The base shows that a prime factor [q] of [n - 1] also divides [r - 1]
    for every prime factor [r] of [n]. *)
Lemma pocklington_factor q r :
  prime q → (q | n - 1) → pw (n - 1) ≡ 1 [mod n] → Z.gcd (pw ((n - 1) / q) - 1) n = 1 →
  prime r → (r | n) → (q | r - 1).
Proof using Hn Hpw.
  intros Hq [k Hk] H1 Hgcd Hr Hrn. destruct (Zdivide_dec q (r - 1)) as [|Hnd]; [done|exfalso].
  pose proof (prime_ge_2 _ Hq). pose proof (prime_ge_2 _ Hr).
  rewrite Hk, Z.div_mul in Hgcd by lia. assert (0 ≤ k) by nia.
  rewrite Hpw in H1 by lia. apply (mod_eq_weaken r) in H1; [|done].
  assert (¬ (r | a)) as Hra.
  { intros Ha%mod_eq_0. apply (mod_eq_pow _ _ _ (n - 1)) in Ha; [|lia].
    rewrite Ha, Z.pow_0_l in H1 by lia. apply mod_eq_0 in H1.
    symmetry in H1. apply mod_eq_0, Z.divide_pos_le in H1; lia. }
  destruct (inverse_nonneg q (r - 1)) as (u & w & Hu & Hw & Huw); [lia..|by apply prime_rel_prime|].
  assert (a ^ k ≡ 1 [mod r]) as Hone.
  { trans (a ^ (k * (u * q))).
    - rewrite Huw, Z.mul_add_distr_l, Z.mul_1_r, Z.pow_add_r by nia.
      replace (k * (w * (r - 1))) with ((r - 1) * (k * w)) by lia.
      rewrite Z.pow_mul_r by nia.
      rewrite (mod_eq_pow _ _ _ (k * w) ltac:(nia) (fermat r a Hr Hra)).
      by rewrite Z.pow_1_l, Z.mul_1_r by nia.
    - replace (k * (u * q)) with ((n - 1) * u) by lia. rewrite Z.pow_mul_r by lia.
      rewrite (mod_eq_pow _ _ _ u Hu H1). by rewrite Z.pow_1_l. }
  assert ((r | Z.gcd (pw k - 1) n)) as Hd.
  { apply Z.gcd_greatest; [|done]. change (pw k ≡ 1 [mod r]). trans (a ^ k); [|done].
    apply (mod_eq_weaken r n); auto. }
  rewrite Hgcd in Hd. apply Z.divide_1_r in Hd. lia.
Qed.

Definition pocklington_check (qs : list Z) : bool :=
  bool_decide (NoDup qs) && (pw (n - 1) mod n =? 1) &&
  forallb (fun q => ((n - 1) mod q =? 0) && (Z.gcd (pw ((n - 1) / q) - 1) n =? 1)) qs &&
  (n <? product qs * product qs).

Lemma pocklington qs : Forall prime qs → pocklington_check qs = true → prime n.
Proof using Hn Hpw.
  unfold pocklington_check. intros Hqs. rewrite !andb_true_iff, bool_decide_eq_true, forallb_Forall.
  intros [[[Hnd H1%Z.eqb_eq] Hall] Hlt%Z.ltb_lt].
  apply prime_by_divisors; [done|]. intros r Hr Hrn.
  assert ((product qs | r - 1)) as Hd.
  { apply product_divide; [done..|]. rewrite Forall_forall in Hqs, Hall |- *. intros q Hq.
    specialize (Hall q Hq). apply andb_true_iff in Hall as [Hd%Z.eqb_eq Hg%Z.eqb_eq].
    pose proof (prime_ge_2 _ (Hqs q Hq)).
    apply pocklington_factor; [auto..| |done|done|done]; [apply Z.mod_divide; lia|].
    apply mod_eq_iff; [lia|]. by rewrite H1, Z.mod_1_l. }
  pose proof (prime_ge_2 _ Hr). apply Z.divide_pos_le in Hd; [|lia].
  assert (0 ≤ product qs) by (clear -Hqs; unfold product; induction Hqs as [|q qs Hq];
    cbn [foldr]; [lia|]; pose proof (prime_ge_2 _ Hq); nia).
  nia.
Qed.
End pocklington.

(** Trial division, for the small primes the criterion ends with. *)
Definition trial_division (n : Z) : bool :=
  (1 <? n) && forallb (fun d => negb (n mod d =? 0)) (seqZ 2 (Z.sqrt n - 1)).

Lemma trial_division_prime n : trial_division n = true → prime n.
Proof.
  unfold trial_division. rewrite andb_true_iff, Z.ltb_lt, forallb_Forall, Forall_forall.
  intros [Hn H]. apply prime_by_divisors; [done|]. intros r Hr Hrn.
  destruct (decide (n < r * r)) as [|Hle]; [done|exfalso].
  pose proof (prime_ge_2 _ Hr). apply Z.mod_divide in Hrn; [|lia].
  assert (r ≤ Z.sqrt n) by (apply Z.sqrt_le_square; lia).
  specialize (H r ltac:(apply elem_of_seqZ; lia)). by rewrite Hrn in H.
Qed.
