(* ===== verification/FieldUtils.v ===== *)
(** * Field and polynomial arithmetic (zk/field_utils.py)

    Polynomials are lists of coefficients, lowest degree first, over the
    integers modulo [FIELD_ORDER].  The loops that update a list by index are
    modelled as folds that update it by index; [peval] is the polynomial
    function they are specified against. *)
From S2P Require Export Modular Hashlib.

#[local] Open Scope Z_scope.

Definition FIELD_ORDER : Z :=
  28948022309329048855892746252171976963363056481941647379679742748393362948097.
Definition N : nat := 8.

Lemma FIELD_ORDER_big : 1 < FIELD_ORDER.
Proof. reflexivity. Qed.

Lemma FIELD_ORDER_bits : FIELD_ORDER < 2 ^ 255.
Proof. reflexivity. Qed.


(** ** The root of unity *)

(** The candidates of the loop of [_find_omega]. *)
Fixpoint try_candidates (exponent : Z) (candidates : list Z) : result Z :=
  match candidates with
  | [] => raise RuntimeError "Unable to derive a primitive 8th root of unity for Pasta Fp"
  | candidate :: candidates =>
      let omega := pow_mod candidate exponent FIELD_ORDER in
      if (pow_mod omega (Z.of_nat N) FIELD_ORDER =? 1) &&
         negb (pow_mod omega (Z.of_nat (N / 2)) FIELD_ORDER =? 1)
      then Ok omega
      else try_candidates exponent candidates
  end.

Definition _find_omega : result Z :=
  try_candidates ((FIELD_ORDER - 1) / Z.of_nat N) (seqZ 2 510).

Definition OMEGA : Z := ok_default _find_omega.

(** ** Field and polynomial operations *)

Definition field_inv (x : Z) : Z := pow_mod x (FIELD_ORDER - 2) FIELD_ORDER.

(** [enumerate(l)] *)
Definition enumerate {A} (l : list A) : list (nat * A) := zip (seq 0 (length l)) l.

(** [result[k] = (result[k] + d) % FIELD_ORDER] *)
Definition bump (k : nat) (d : Z) (result : list Z) : list Z :=
  <[k := (result !!! k + d) mod FIELD_ORDER]> result.

Definition poly_eval (coeffs : list Z) (x : Z) : Z :=
  (foldl (fun '(result, x_pow) c =>
     ((result + c * x_pow) mod FIELD_ORDER, x_pow * x mod FIELD_ORDER)) (0, 1) coeffs).1.

Definition intt (values : list Z) : list Z :=
  let n := length values in
  let omega_inv := field_inv OMEGA in
  let n_inv := field_inv (Z.of_nat n) in
  map (fun k =>
    let s := foldl (fun s j =>
      (s + values !!! j * pow_mod omega_inv (Z.of_nat (j * k)) FIELD_ORDER) mod FIELD_ORDER)
      0 (seq 0 n) in
    s * n_inv mod FIELD_ORDER) (seq 0 n).

Definition poly_divmod_linear (poly : list Z) (z : Z) : result (list Z * Z) :=
  let n := length poly in
  let '(q, running) :=
    foldl (fun '(q, running) i =>
      let running := (poly !!! i + running) mod FIELD_ORDER in
      (<[(i - 1)%nat := running]> q, running * z mod FIELD_ORDER))
      (replicate (n - 1) 0, 0) (reverse (seq 1 (n - 1))) in
  match poly with
  | [] => raise IndexError "list index out of range"
  | p0 :: _ => Ok (q, (p0 + running) mod FIELD_ORDER)
  end.

Definition kzg_open_coeffs (poly_coeffs : list Z) (z v : Z) : result (list Z) :=
  match poly_coeffs with
  | [] => raise IndexError "list index out of range"
  | p0 :: p =>
      '(q, _) ← poly_divmod_linear ((p0 - v) mod FIELD_ORDER :: p) z; Ok q
  end.

Definition poly_mul (a b : list Z) : list Z :=
  match a, b with
  | [], _ | _, [] => [0]
  | _, _ =>
      foldl (fun result '(i, ai) =>
        if ai =? 0 then result
        else foldl (fun result '(j, bj) => bump (i + j) (ai * bj) result) result (enumerate b))
        (replicate (length a + length b - 1) 0) (enumerate a)
  end.

Definition poly_add (a b : list Z) : list Z :=
  let result := replicate (Nat.max (length a) (length b)) 0 in
  let result := foldl (fun result '(i, v) => bump i v result) result (enumerate a) in
  foldl (fun result '(i, v) => bump i v result) result (enumerate b).

Definition poly_scalar_mul (p : list Z) (scalar : Z) : list Z :=
  map (fun c => (c * scalar) mod FIELD_ORDER) p.

(** The body of the loop of [poly_divmod]. *)
Definition divmod_body (divisor : list Z) (lead_inv : Z) (s : list Z * list Z)
    : list Z * list Z :=
  let '(quotient, remainder) := s in
  let coeff := default 0 (last remainder) * lead_inv mod FIELD_ORDER in
  let remainder := foldl (fun remainder i =>
    bump (length remainder - length divisor + i) (- (coeff * divisor !!! i)) remainder)
    remainder (seq 0 (length divisor)) in
  (quotient ++ [coeff], removelast remainder).

(** [while len(remainder) > deg_div]: [None] when the fuel runs out. *)
Fixpoint divmod_loop (fuel : nat) (divisor : list Z) (lead_inv : Z) (s : list Z * list Z)
    : option (list Z * list Z) :=
  if decide (length divisor - 1 < length s.2)%nat then
    match fuel with
    | O => None
    | S fuel => divmod_loop fuel divisor lead_inv (divmod_body divisor lead_inv s)
    end
  else Some s.

Definition poly_divmod (fuel : nat) (dividend divisor : list Z)
    : option (result (list Z * list Z)) :=
  match last divisor with
  | None => Some (raise IndexError "list index out of range")
  | Some lead =>
      let lead_inv := pow_mod lead (FIELD_ORDER - 2) FIELD_ORDER in
      '(quotient, remainder) ← divmod_loop fuel divisor lead_inv ([], dividend);
      Some (Ok (reverse quotient, remainder))
  end.

Definition vanishing_poly (n : nat) : list Z :=
  <[n := 1]> (<[0%nat := FIELD_ORDER - 1]> (replicate (n + 1) 0)).

(** [v.to_bytes(32, 'big')] and [int.from_bytes(b, 'big')] *)
Definition fr_to_bytes (v : Z) : result (list Z) :=
  if v <? 0 then raise OverflowError "can't convert negative int to unsigned"
  else if 2 ^ 256 <=? v then raise OverflowError "int too big to convert"
  else Ok (be_bytes 32 v).

Definition fr_from_bytes (b : list Z) : Z := foldl (fun acc x => 256 * acc + x) 0 b.
