(* ===== verification/FieldProps.v ===== *)
(** * Correctness of the polynomial operations

    Every operation of FieldUtils.v against evaluation: for all arguments the
    polynomial function of the result is, modulo [FIELD_ORDER], the
    corresponding combination of those of the operands.  The order's being
    prime, which division and inversion rely on, is shown in FieldPrime.v. *)
From S2P Require Export FieldUtils.

#[local] Open Scope Z_scope.

Notation "a ≡F b" := (mod_eq FIELD_ORDER a b) (at level 70) : Z_scope.

Lemma mod_F a : a mod FIELD_ORDER ≡F a.
Proof. apply mod_eq_mod. Qed.

Lemma mod_F_eq a b : a ≡F b ↔ a mod FIELD_ORDER = b mod FIELD_ORDER.
Proof. by apply mod_eq_iff. Qed.

(** Close a congruence whose two sides are equal polynomials. *)
Ltac mring := apply mod_eq_refl_eq; ring.

(** ** Polynomial functions *)

Definition peval (l : list Z) (x : Z) : Z := foldr (fun c acc => c + x * acc) 0 l.

Lemma peval_nil x : peval [] x = 0.
Proof. done. Qed.

Lemma peval_cons c l x : peval (c :: l) x = c + x * peval l x.
Proof. done. Qed.

Lemma peval_app l k x : peval (l ++ k) x = peval l x + x ^ Z.of_nat (length l) * peval k x.
Proof.
  induction l as [|c l IH]; cbn [app length]; [unfold peval at 2; simpl foldr; lia|].
  rewrite !peval_cons, IH, Nat2Z.inj_succ, Z.pow_succ_r by lia. ring.
Qed.

Lemma peval_replicate n x : peval (replicate n 0) x = 0.
Proof. induction n; cbn [replicate]; [done|]. rewrite peval_cons. lia. Qed.

Lemma peval_insert l k v x :
  (k < length l)%nat →
  peval (<[k := v]> l) x = peval l x + (v - l !!! k) * x ^ Z.of_nat k.
Proof.
  revert k. induction l as [|c l IH]; intros [|k] Hk; simpl in Hk; try lia.
  - simpl. lia.
  - change (<[S k := v]> (c :: l)) with (c :: <[k := v]> l).
    change ((c :: l) !!! S k) with (l !!! k).
    rewrite !peval_cons, IH, Nat2Z.inj_succ, Z.pow_succ_r by lia. ring.
Qed.

Lemma peval_map_scale s l x :
  peval (map (fun c => (c * s) mod FIELD_ORDER) l) x ≡F s * peval l x.
Proof.
  induction l as [|c l IH]; cbn [map]; [unfold peval; simpl; mring|].
  rewrite !peval_cons, IH, mod_F. mring.
Qed.

(** ** Updates by index *)

Lemma length_bump k d l : length (bump k d l) = length l.
Proof. apply length_insert. Qed.

Lemma peval_bump k d l x :
  (k < length l)%nat → peval (bump k d l) x ≡F peval l x + d * x ^ Z.of_nat k.
Proof. intros. unfold bump. rewrite peval_insert, mod_F by done. mring. Qed.

Lemma enumerate_cons_from {A} j (v : A) l :
  zip (seq j (length (v :: l))) (v :: l) = (j, v) :: zip (seq (S j) (length l)) l.
Proof. done. Qed.

Lemma length_foldl_bump {A} (f : list Z → A → list Z) l r :
  (∀ r a, length (f r a) = length r) → length (foldl f r l) = length r.
Proof. intros H. revert r. induction l as [|a l IH]; intros; simpl; [done|]. by rewrite IH, H. Qed.

(** Adding the multiples [f v] of a coefficient list at an offset, by its
    indices. *)
Lemma peval_foldl_bump s k j l r x :
  (k + j + length l ≤ length r)%nat →
  peval (foldl (fun r '(i, v) => bump (k + i) (s * v) r) r (zip (seq j (length l)) l)) x
    ≡F peval r x + s * x ^ Z.of_nat (k + j) * peval l x.
Proof.
  revert j r. induction l as [|v l IH]; intros j r Hr; [cbn [length seq zip_with foldl]; rewrite peval_nil; mring|].
  rewrite enumerate_cons_from. cbn [foldl]. rewrite IH; simpl in Hr.
  - rewrite peval_bump, peval_cons by lia.
    replace (Z.of_nat (k + S j)) with (Z.succ (Z.of_nat (k + j))) by lia.
    rewrite Z.pow_succ_r by lia. mring.
  - rewrite length_bump. lia.
Qed.

Lemma enumerate_map {A B} (f : A → B) l : enumerate (map f l) = map (fun p => (p.1, f p.2)) (enumerate l).
Proof.
  unfold enumerate. rewrite length_map. generalize 0%nat.
  induction l as [|a l IH]; intros j; simpl; [done|]. by rewrite IH.
Qed.

Lemma lookup_total_seq (l : list Z) : map (fun i => l !!! i) (seq 0 (length l)) = l.
Proof.
  induction l as [|v l IH]; simpl; [done|]. f_equal. rewrite <-seq_shift, map_map. apply IH.
Qed.

Lemma enumerate_lookup (l : list Z) : enumerate l = map (fun i => (i, l !!! i)) (seq 0 (length l)).
Proof.
  rewrite <-(lookup_total_seq l) at 1. rewrite enumerate_map.
  assert (enumerate (seq 0 (length l)) = map (fun i => (i, i)) (seq 0 (length l))) as ->.
  { unfold enumerate. rewrite length_seq. generalize 0%nat. generalize (length l).
    intros n; induction n as [|n IH]; intros j; simpl; [done|]. by rewrite IH. }
  by rewrite map_map.
Qed.

(** The loops over [range(len(l))] are those over [enumerate(l)]. *)
Lemma foldl_range {A} (f : A → nat → Z → A) (l : list Z) a :
  foldl (fun a i => f a i (l !!! i)) a (seq 0 (length l)) =
  foldl (fun a '(i, v) => f a i v) a (enumerate l).
Proof.
  rewrite enumerate_lookup. generalize (seq 0 (length l)). intros ks. revert a.
  induction ks as [|k ks IH]; intros a; simpl; [done|]. apply IH.
Qed.

(** ** Evaluation, addition, scaling, multiplication *)

Lemma poly_eval_fold l x r xp :
  r mod FIELD_ORDER = r →
  let s := foldl (fun '(result, x_pow) c =>
     ((result + c * x_pow) mod FIELD_ORDER, x_pow * x mod FIELD_ORDER)) (r, xp) l in
  s.1 = (r + xp * peval l x) mod FIELD_ORDER.
Proof.
  revert r xp. induction l as [|c l IH]; intros r xp Hr; cbn [foldl].
  - cbn [fst]. unfold peval; simpl foldr. by rewrite Z.mul_0_r, Z.add_0_r.
  - rewrite IH by (by apply Z.mod_mod).
    apply mod_F_eq. rewrite peval_cons, !mod_F. mring.
Qed.

(** [poly_eval] is the value of the polynomial, reduced modulo the field's
    order: the running powers and reductions of the loop compute Horner's
    sum. *)
Theorem poly_eval_correct (coeffs : list Z) (x : Z) :
  poly_eval coeffs x = peval coeffs x mod FIELD_ORDER.
Proof.
  unfold poly_eval. rewrite poly_eval_fold by done. f_equal. lia.
Qed.

Lemma length_poly_add a b : length (poly_add a b) = Nat.max (length a) (length b).
Proof.
  unfold poly_add. rewrite !length_foldl_bump; [apply length_replicate|..];
    intros ? []; apply length_bump.
Qed.

Lemma foldl_bump_1 l r :
  foldl (fun r '(i, v) => bump i v r) r (enumerate l) =
  foldl (fun r '(i, v) => bump (0 + i) (1 * v) r) r (zip (seq 0 (length l)) l).
Proof.
  unfold enumerate. generalize 0%nat at 1 3. revert r. induction l as [|v l IH]; intros r j; [done|].
  cbn [length seq zip zip_with foldl]. by rewrite IH, Z.mul_1_l.
Qed.

Lemma poly_add_eval a b x : peval (poly_add a b) x ≡F peval a x + peval b x.
Proof.
  unfold poly_add. rewrite !foldl_bump_1.
  rewrite peval_foldl_bump by (rewrite length_foldl_bump, length_replicate;
    [lia|intros ? []; apply length_bump]).
  rewrite peval_foldl_bump by (rewrite length_replicate; lia).
  rewrite peval_replicate. simpl Z.of_nat. rewrite Z.pow_0_r. mring.
Qed.

Lemma poly_scalar_mul_eval p s x : peval (poly_scalar_mul p s) x ≡F s * peval p x.
Proof. apply peval_map_scale. Qed.

Lemma length_mul_row i ai b (r : list Z) :
  length (if ai =? 0 then r else
    foldl (fun r '(j, bj) => bump (i + j) (ai * bj) r) r (enumerate b)) = length r.
Proof. case_match; [done|]. apply length_foldl_bump. intros ? []. apply length_bump. Qed.

Lemma peval_mul_row i ai b r x :
  (i + length b ≤ length r)%nat →
  peval (if ai =? 0 then r else
    foldl (fun r '(j, bj) => bump (i + j) (ai * bj) r) r (enumerate b)) x
    ≡F peval r x + ai * x ^ Z.of_nat i * peval b x.
Proof.
  intros Hr. destruct (Z.eqb_spec ai 0) as [->|]; [mring|].
  unfold enumerate. rewrite peval_foldl_bump by lia. by rewrite Nat.add_0_r.
Qed.

Lemma peval_mul_rows i a b r x :
  (i + length a + length b ≤ S (length r))%nat →
  peval (foldl (fun r '(i, ai) =>
      if ai =? 0 then r
      else foldl (fun r '(j, bj) => bump (i + j) (ai * bj) r) r (enumerate b))
    r (zip (seq i (length a)) a)) x
    ≡F peval r x + x ^ Z.of_nat i * peval a x * peval b x.
Proof.
  revert i r. induction a as [|ai a IH]; intros i r Hr; [cbn [length seq zip_with foldl]; rewrite peval_nil; mring|].
  rewrite enumerate_cons_from. cbn [foldl]. simpl in Hr.
  rewrite IH by (rewrite length_mul_row; lia). rewrite peval_mul_row by lia.
  rewrite peval_cons, Nat2Z.inj_succ, Z.pow_succ_r by lia. mring.
Qed.

Lemma length_poly_mul a b :
  a ≠ [] → b ≠ [] → length (poly_mul a b) = (length a + length b - 1)%nat.
Proof.
  intros. destruct a as [|a0 a]; [done|]. destruct b as [|b0 b]; [done|]. unfold poly_mul.
  rewrite length_foldl_bump; [apply length_replicate|]. intros r [i ai]. apply length_mul_row.
Qed.

Lemma poly_mul_eval a b x : peval (poly_mul a b) x ≡F peval a x * peval b x.
Proof.
  destruct a as [|a0 a]; [unfold peval; simpl; mring|].
  destruct b as [|b0 b]; [unfold peval; simpl; mring|].
  unfold poly_mul. change (enumerate (a0 :: a)) with (zip (seq 0 (length (a0 :: a))) (a0 :: a)).
  rewrite (peval_mul_rows 0) by (rewrite length_replicate; simpl; lia).
  rewrite peval_replicate. change (Z.of_nat 0) with 0. rewrite Z.pow_0_r. mring.
Qed.

(** ** Division by a linear factor *)

Notation linear_step poly z := (fun '(q, running) i =>
  let running := (poly !!! i + running) mod FIELD_ORDER in
  (<[(i - 1)%nat := running]> q, running * z mod FIELD_ORDER)).

Lemma peval_take_S l m x :
  (m < length l)%nat → peval (take (S m) l) x = peval (take m l) x + l !!! m * x ^ Z.of_nat m.
Proof.
  intros Hm. destruct (lookup_lt_is_Some_2 l m Hm) as [v Hv].
  rewrite (take_S_r _ _ v), peval_app, length_take_le by (done || lia).
  rewrite (list_lookup_total_correct _ _ _ Hv), peval_cons, peval_nil. ring.
Qed.

Lemma linear_loop poly z x m q running :
  (m < length poly)%nat → (m ≤ length q)%nat → (∀ k, (k < m)%nat → q !!! k = 0) →
  let s := foldl (linear_step poly z) (q, running) (reverse (seq 1 m)) in
  length s.1 = length q ∧
  peval s.1 x * (x - z) + s.2 ≡F
    peval q x * (x - z) + running * x ^ Z.of_nat m +
    (peval (take (S m) poly) x - poly !!! 0%nat).
Proof.
  revert q running. induction m as [|m IH]; intros q running Hm Hq H0.
  - simpl seq. split; [done|]. cbn [foldl reverse rev_append fst snd].
    rewrite peval_take_S by done. change (take 0 poly) with (@nil Z). rewrite peval_nil.
    change (Z.of_nat 0) with 0. rewrite Z.pow_0_r. mring.
  - rewrite seq_S, reverse_snoc. cbn [foldl]. change (1 + m)%nat with (S m).
    replace (S m - 1)%nat with m by lia.
    set (b := (poly !!! S m + running) mod FIELD_ORDER).
    destruct (IH (<[m := b]> q) (b * z mod FIELD_ORDER)) as [Hlen Heq]; [lia|..].
    + rewrite length_insert. lia.
    + intros k Hk. rewrite list_lookup_total_insert_ne by lia. apply H0. lia.
    + rewrite length_insert in Hlen. split; [done|]. rewrite Heq.
      rewrite peval_insert, H0, mod_F, (peval_take_S poly (S m)) by lia.
      assert (b ≡F poly !!! S m + running) as -> by apply mod_F.
      rewrite Nat2Z.inj_succ, Z.pow_succ_r by lia. mring.
Qed.

Lemma poly_divmod_linear_total poly z :
  poly ≠ [] → ∃ q r, poly_divmod_linear poly z = Ok (q, r) ∧ length q = (length poly - 1)%nat ∧
    r mod FIELD_ORDER = r ∧ ∀ x, peval poly x ≡F peval q x * (x - z) + r.
Proof.
  intros Hp. destruct poly as [|p0 p]; [done|]. unfold poly_divmod_linear.
  pose proof (fun x => linear_loop (p0 :: p) z x (length p) (replicate (length p) 0) 0) as H.
  replace (length (p0 :: p) - 1)%nat with (length p) by (simpl; lia).
  destruct (foldl _ _ _) as [q running] eqn:E. eexists q, _. split; [done|].
  cbn [fst snd] in H. rewrite length_replicate in H.
  assert (∀ k, (k < length p)%nat → replicate (length p) 0 !!! k = 0) as H0.
  { intros k Hk. by apply lookup_total_replicate_2. }
  split; [by apply (H 0); [simpl; lia|..]|]. split; [by apply Z.mod_mod|].
  intros x. destruct (H x) as [_ Hx]; [simpl; lia|done..|].
  rewrite mod_F. replace (peval q x * (x - z) + (p0 + running))
    with (peval q x * (x - z) + running + p0) by ring.
  rewrite Hx, peval_replicate, take_ge by (simpl; lia).
  change ((p0 :: p) !!! 0%nat) with p0. mring.
Qed.

(** Synthetic division by [X - z] returns: a quotient one shorter than the
    polynomial and the remainder, which is the value at [z], with
    [p(x) = q(x) (x - z) + p(z)] for every [x]; only the empty list raises. *)
Theorem poly_divmod_linear_correct (poly : list Z) (z : Z) :
  if decide (poly = []) then poly_divmod_linear poly z = raise IndexError "list index out of range"
  else ∃ q, poly_divmod_linear poly z = Ok (q, poly_eval poly z) ∧
    length q = (length poly - 1)%nat ∧
    ∀ x, peval poly x ≡F peval q x * (x - z) + poly_eval poly z.
Proof.
  case_decide as Hp; [by subst|].
  destruct (poly_divmod_linear_total poly z Hp) as (q & r & Hq & Hlen & Hr & H).
  assert (poly_eval poly z = r) as <-; [|by exists q].
  rewrite poly_eval_correct, <-Hr. apply mod_F_eq. rewrite H. mring.
Qed.

(** The opening quotient of a polynomial whose value at [z] is [v]
    satisfies the identity the opening check is about:
    [p(x) - v = q(x) (x - z)]. *)
Theorem kzg_opening_identity (poly : list Z) (z v : Z) :
  poly ≠ [] → poly_eval poly z = v mod FIELD_ORDER →
  ∃ q, kzg_open_coeffs poly z v = Ok q ∧ length q = (length poly - 1)%nat ∧
    ∀ x, peval poly x - v ≡F peval q x * (x - z).
Proof.
  intros Hp Hv. destruct poly as [|p0 p]; [done|]. unfold kzg_open_coeffs.
  destruct (poly_divmod_linear_total ((p0 - v) mod FIELD_ORDER :: p) z)
    as (q & r & -> & Hlen & Hr & H); [done|].
  exists q. split; [done|]. split; [done|]. intros x.
  assert (∀ x, peval (p0 :: p) x - v ≡F peval q x * (x - z) + r) as Hx.
  { intros y. rewrite <-H, !peval_cons, mod_F. mring. }
  assert (r ≡F 0) as Hr0.
  { rewrite poly_eval_correct in Hv. apply mod_F_eq in Hv.
    specialize (Hx z). rewrite Hv in Hx.
    trans (peval q z * (z - z) + r); [mring|]. rewrite <-Hx. mring. }
  rewrite Hx, Hr0. mring.
Qed.

(** ** Long division *)

Lemma last_lookup_total (l : list Z) v : last l = Some v → l !!! (length l - 1)%nat = v.
Proof.
  intros H. rewrite last_lookup in H. replace (length l - 1)%nat with (pred (length l)) by lia.
  by apply list_lookup_total_correct.
Qed.

Lemma removelast_snoc_last (l : list Z) v : last l = Some v → l = removelast l ++ [v].
Proof.
  intros H. destruct l as [|a l] using rev_ind; [done|]. rewrite last_snoc in H.
  injection H as <-. by rewrite removelast_last.
Qed.

Lemma length_removelast (l : list Z) : length (removelast l) = (length l - 1)%nat.
Proof.
  destruct l as [|a l] using rev_ind; [done|]. rewrite removelast_last, length_app. simpl. lia.
Qed.

(** The inner loop of the body. *)
Notation subtract_row divisor coeff remainder := (foldl (fun remainder i =>
    bump (length remainder - length divisor + i) (- (coeff * divisor !!! i)) remainder)
    remainder (seq 0 (length divisor))).

Lemma subtract_row_bump divisor coeff r :
  subtract_row divisor coeff r =
  foldl (fun r '(i, v) => bump (length r - length divisor + i) (- (coeff * v)) r) r
    (enumerate divisor).
Proof.
  by rewrite (foldl_range (fun r i v => bump (length r - length divisor + i) (- (coeff * v)) r)).
Qed.

Lemma length_subtract_row divisor coeff r : length (subtract_row divisor coeff r) = length r.
Proof. apply length_foldl_bump. intros. apply length_bump. Qed.

Lemma subtract_row_offset {A} n (d : list A) coeff ks r :
  length r = n →
  foldl (fun r '(i, v) => bump (length r - length d + i) (- (coeff * v)) r) r ks =
  foldl (fun r '(i, v) => bump ((n - length d) + i) (- coeff * v) r) r ks.
Proof.
  revert r. induction ks as [|[i v] ks IH]; intros r <-; [done|]. cbn [foldl].
  rewrite IH by apply length_bump. by rewrite Z.mul_opp_l.
Qed.

Lemma peval_subtract_row divisor coeff r x :
  (length divisor ≤ length r)%nat →
  peval (subtract_row divisor coeff r) x
    ≡F peval r x - coeff * x ^ Z.of_nat (length r - length divisor) * peval divisor x.
Proof.
  intros. rewrite subtract_row_bump, (subtract_row_offset (length r)) by done.
  unfold enumerate. rewrite peval_foldl_bump by lia. rewrite Nat.add_0_r. mring.
Qed.

Lemma bump_lookup_ne k j d l : k ≠ j → bump k d l !!! j = l !!! j.
Proof. intros. unfold bump. by rewrite list_lookup_total_insert_ne. Qed.

Lemma bump_lookup k d l : (k < length l)%nat → bump k d l !!! k ≡F l !!! k + d.
Proof. intros. unfold bump. rewrite list_lookup_total_insert_eq by done. apply mod_F. Qed.

Lemma foldl_bump_lookup_lt s k j l r m :
  (m < k + j)%nat →
  foldl (fun r '(i, v) => bump (k + i) (s * v) r) r (zip (seq j (length l)) l) !!! m = r !!! m.
Proof.
  revert j r. induction l as [|v l IH]; intros j r Hm; [done|].
  rewrite enumerate_cons_from. cbn [foldl]. rewrite IH by lia. apply bump_lookup_ne. lia.
Qed.

Lemma foldl_bump_lookup s k j l r m :
  (k + j + length l ≤ length r)%nat → (m < length l)%nat →
  foldl (fun r '(i, v) => bump (k + i) (s * v) r) r (zip (seq j (length l)) l) !!! (k + j + m)%nat
    ≡F r !!! (k + j + m)%nat + s * l !!! m.
Proof.
  revert j r m. induction l as [|v l IH]; intros j r m Hr Hm; simpl in Hr, Hm; [lia|].
  rewrite enumerate_cons_from. cbn [foldl]. destruct m as [|m].
  - rewrite foldl_bump_lookup_lt by lia. rewrite Nat.add_0_r. by rewrite bump_lookup by lia.
  - replace (k + j + S m)%nat with (k + S j + m)%nat by lia.
    rewrite IH by (rewrite ?length_bump; lia). by rewrite bump_lookup_ne by lia.
Qed.

(** One iteration: the remainder gets one shorter, and loses the multiple of
    the divisor that the new coefficient stands for. *)
Section divmod.
Context (divisor : list Z) (lead lead_inv : Z).
Context (Hlead : last divisor = Some lead).

Lemma divisor_length : (0 < length divisor)%nat.
Proof using Hlead. destruct divisor; [done|simpl; lia]. Qed.

Lemma divmod_body_step quotient remainder :
  (length divisor - 1 < length remainder)%nat →
  ∃ coeff r, divmod_body divisor lead_inv (quotient, remainder) = (quotient ++ [coeff], r) ∧
    length r = (length remainder - 1)%nat ∧
    (lead * lead_inv ≡F 1 → ∀ x,
      peval remainder x ≡F
      peval r x + coeff * x ^ Z.of_nat (length remainder - length divisor) * peval divisor x).
Proof using Hlead.
  intros Hlen. pose proof divisor_length as Hd. unfold divmod_body.
  set (coeff := default 0 (last remainder) * lead_inv mod FIELD_ORDER).
  eexists _, _. split; [done|]. split; [by rewrite length_removelast, length_subtract_row|].
  intros Hinv x. set (r := subtract_row divisor coeff remainder).
  assert (length r = length remainder) as Hr by apply length_subtract_row.
  destruct (last r) as [v|] eqn:Hv; [|apply last_None in Hv; rewrite Hv in Hr; simpl in Hr; lia].
  destruct (last remainder) as [top|] eqn:Htop;
    [|apply last_None in Htop; rewrite Htop in Hlen; simpl in Hlen; lia].
  assert (v ≡F 0) as Hv0.
  { apply last_lookup_total in Hv, Htop. rewrite Hr in Hv. rewrite <-Hv. unfold r.
    rewrite subtract_row_bump, (subtract_row_offset (length remainder)) by done.
    unfold enumerate.
    pose proof (foldl_bump_lookup (- coeff) (length remainder - length divisor) 0 divisor
      remainder (length divisor - 1)) as H.
    replace (length remainder - length divisor + 0 + (length divisor - 1))%nat
      with (length remainder - 1)%nat in H by lia.
    rewrite H by lia. rewrite Htop, (last_lookup_total _ _ Hlead). unfold coeff.
    change (default 0 (Some top)) with top. rewrite mod_F. trans (top - top * (lead * lead_inv)); [mring|]. rewrite Hinv. mring. }
  assert (peval (removelast r) x ≡F peval r x) as ->.
  { rewrite (removelast_snoc_last r v Hv) at 2. rewrite peval_app, peval_cons, Hv0, peval_nil. mring. }
  unfold r. rewrite peval_subtract_row by lia. mring.
Qed.

(** The loop ends after one iteration for each coefficient of the dividend
    that is not one of the remainder's. *)
Lemma divmod_loop_runs fuel quotient remainder :
  (length remainder - (length divisor - 1) ≤ fuel)%nat →
  ∃ q r, divmod_loop fuel divisor lead_inv (quotient, remainder) = Some (quotient ++ q, r) ∧
    length q = (length remainder - (length divisor - 1))%nat ∧
    length r = Nat.min (length remainder) (length divisor - 1) ∧
    (lead * lead_inv ≡F 1 → ∀ x,
      peval remainder x ≡F peval (reverse q) x * peval divisor x + peval r x).
Proof using Hlead.
  revert quotient remainder. induction fuel as [|fuel IH]; intros quotient remainder Hf;
    cbn [divmod_loop snd]; case_decide as Hlen; try lia;
    try (exists [], remainder; rewrite app_nil_r; split; [done|]; simpl length;
      split; [lia|]; split; [lia|]; intros _ x; cbn [reverse rev_append]; rewrite peval_nil; mring).
  destruct (divmod_body_step quotient remainder Hlen) as (c & r & -> & Hr & Hstep).
  destruct (IH (quotient ++ [c]) r) as (q & r' & -> & Hq & Hr' & H); [lia|].
  exists (c :: q), r'. rewrite <-app_assoc. split; [done|]. simpl length.
  split; [lia|]. split; [lia|]. intros Hinv x.
  rewrite (Hstep Hinv x), (H Hinv x), reverse_cons, peval_app, length_reverse.
  rewrite peval_cons, peval_nil, Hq, Hr.
  replace (length remainder - 1 - (length divisor - 1))%nat
    with (length remainder - length divisor)%nat by (pose proof divisor_length; lia).
  mring.
Qed.
End divmod.

(** Long division by a list that is not empty ends: as much fuel as the
    dividend has coefficients is enough, more changes nothing, and quotient and
    remainder have the lengths of a division; an empty divisor raises. *)
Theorem poly_divmod_terminates (dividend divisor : list Z) :
  if decide (divisor = []) then
    ∀ fuel, poly_divmod fuel dividend divisor = Some (raise IndexError "list index out of range")
  else ∃ q r, (∀ fuel, (length dividend ≤ fuel)%nat →
      poly_divmod fuel dividend divisor = Some (Ok (q, r))) ∧
    length q = (length dividend - (length divisor - 1))%nat ∧
    length r = Nat.min (length dividend) (length divisor - 1).
Proof.
  case_decide as Hd; [by subst|].
  destruct (last divisor) as [lead|] eqn:Hlead; [|by apply last_None in Hlead].
  set (li := pow_mod lead (FIELD_ORDER - 2) FIELD_ORDER).
  assert (∀ fuel, (length dividend ≤ fuel)%nat →
    divmod_loop fuel divisor li ([], dividend) =
    divmod_loop (length dividend) divisor li ([], dividend)) as Hfuel.
  { intros fuel Hf. generalize (@nil Z) as qs. revert dividend Hf.
    induction fuel as [|fuel IH]; intros dividend Hf qs.
    - by assert (length dividend = 0%nat) as -> by lia.
    - destruct (length dividend) as [|n] eqn:El; cbn [divmod_loop snd]; case_decide as Hlt; try done; [lia|].
      destruct (divmod_body_step divisor lead li Hlead qs dividend Hlt) as (c & r & -> & Hr & _).
      replace n with (length r) by lia. apply IH. lia. }
  destruct (divmod_loop_runs divisor lead li Hlead (length dividend) [] dividend)
    as (q & r & Hrun & Hq & Hr & _); [lia|].
  exists (reverse q), r. split; [|by rewrite length_reverse].
  intros fuel Hf. unfold poly_divmod. rewrite Hlead. fold li. by rewrite Hfuel, Hrun.
Qed.

(** ** The vanishing polynomial *)

Lemma peval_vanishing n x : (0 < n)%nat → peval (vanishing_poly n) x ≡F x ^ Z.of_nat n - 1.
Proof.
  intros Hn. unfold vanishing_poly.
  rewrite !peval_insert by (rewrite ?length_insert, length_replicate; lia).
  rewrite peval_replicate, list_lookup_total_insert_ne, !lookup_total_replicate_2 by lia.
  change (Z.of_nat 0) with 0. rewrite Z.pow_0_r.
  apply (mod_eq_intro _ _ _ 1). ring.
Qed.

(** For [n = 0] the two assignments hit the same index, and the result is the
    constant 1 instead of [X ^ 0 - 1 = 0]. *)
Lemma vanishing_poly_0 : vanishing_poly 0 = [1].
Proof. reflexivity. Qed.

(** The arithmetic of polynomials agrees with that of their values: sums,
    products, scalar multiples and [Z_H] are what their names say, for all
    coefficient lists, lengths that differ and leading zeros included. *)
Theorem poly_operations_correct (a b : list Z) (s : Z) (n : nat) (x : Z) :
  poly_eval (poly_add a b) x = (peval a x + peval b x) mod FIELD_ORDER ∧
  poly_eval (poly_mul a b) x = (peval a x * peval b x) mod FIELD_ORDER ∧
  poly_eval (poly_scalar_mul a s) x = (s * peval a x) mod FIELD_ORDER ∧
  poly_eval (vanishing_poly (S n)) x = (x ^ Z.of_nat (S n) - 1) mod FIELD_ORDER.
Proof.
  assert (∀ l v, peval l x ≡F v → poly_eval l x = v mod FIELD_ORDER) as H.
  { intros l v Hl. unfold poly_eval. rewrite poly_eval_fold by done. apply mod_F_eq.
    rewrite Hl. mring. }
  repeat split; apply H;
    [apply poly_add_eval|apply poly_mul_eval|apply poly_scalar_mul_eval|apply peval_vanishing; lia].
Qed.

(** ** Field elements as bytes *)

Lemma be_bytes_S n x :
  be_bytes (S n) x = Z.land (Z.shiftr x (8 * Z.of_nat n)) 255 :: be_bytes n x.
Proof.
  unfold be_bytes. cbn [seq map]. f_equal; [by rewrite Nat.sub_0_r, Nat.sub_1_r|].
  rewrite <-seq_shift, map_map. apply map_ext. intros i. do 3 f_equal. lia.
Qed.

Lemma foldl_bytes_acc l acc :
  foldl (fun acc b => 256 * acc + b) acc l =
  acc * 256 ^ Z.of_nat (length l) + fr_from_bytes l.
Proof.
  unfold fr_from_bytes. revert acc. induction l as [|b l IH]; intros acc; cbn [foldl length]; [lia|].
  rewrite (IH (256 * acc + b)), (IH (256 * 0 + b)), Nat2Z.inj_succ, Z.pow_succ_r by lia. ring.
Qed.

Lemma fr_from_bytes_cons b l :
  fr_from_bytes (b :: l) = b * 256 ^ Z.of_nat (length l) + fr_from_bytes l.
Proof. unfold fr_from_bytes at 1. cbn [foldl]. rewrite foldl_bytes_acc. f_equal. Qed.

Lemma fr_from_bytes_bound l :
  Forall (fun b => 0 <= b < 256) l → 0 ≤ fr_from_bytes l < 256 ^ Z.of_nat (length l).
Proof.
  induction 1 as [|b l Hb Hl IH]; [done|].
  rewrite fr_from_bytes_cons. cbn [length]. rewrite Nat2Z.inj_succ, Z.pow_succ_r by lia. nia.
Qed.

Lemma fr_from_bytes_inj l k :
  Forall (fun b => 0 <= b < 256) l → Forall (fun b => 0 <= b < 256) k →
  length l = length k → fr_from_bytes l = fr_from_bytes k → l = k.
Proof.
  intros Hl. revert k. induction Hl as [|b l Hb Hl IH]; intros k Hk Hlen Heq; [by destruct k|].
  destruct Hk as [|c k Hc Hk]; [done|]. injection Hlen as Hlen.
  rewrite !fr_from_bytes_cons, Hlen in Heq.
  pose proof (fr_from_bytes_bound l Hl). pose proof (fr_from_bytes_bound k Hk).
  rewrite Hlen in *. assert (b = c) as -> by nia. f_equal. apply IH; [done..|lia].
Qed.

Lemma fr_from_be_bytes n x : fr_from_bytes (be_bytes n x) = x mod 256 ^ Z.of_nat n.
Proof.
  induction n as [|n IH]; [by rewrite Z.mod_1_r|].
  rewrite be_bytes_S, fr_from_bytes_cons, IH, length_be_bytes.
  change 255 with (Z.ones 8). rewrite Z.land_ones, Z.shiftr_div_pow2 by lia.
  rewrite Z.pow_mul_r by lia. change (2 ^ 8) with 256.
  rewrite Nat2Z.inj_succ, Z.pow_succ_r, Z.mul_comm, (Z.mul_comm 256) by lia.
  rewrite Z.rem_mul_r; lia.
Qed.

(** Field elements survive the trip through 32 bytes, and 32 bytes the trip
    through an integer: [fr_to_bytes] raises exactly outside [0, 2 ^ 256), every
    element of the field is inside. *)
Theorem fr_bytes_roundtrip (v : Z) (b : list Z) :
  (if decide (0 ≤ v < 2 ^ 256)
   then ∃ l, fr_to_bytes v = Ok l ∧ length l = 32%nat ∧ fr_from_bytes l = v
   else ∃ m, fr_to_bytes v = raise OverflowError m) ∧
  (length b = 32%nat → Forall (fun x => 0 <= x < 256) b → fr_to_bytes (fr_from_bytes b) = Ok b) ∧
  FIELD_ORDER < 2 ^ 256.
Proof.
  assert (∀ v, 0 ≤ v < 2 ^ 256 → fr_to_bytes v = Ok (be_bytes 32 v)) as Hok.
  { intros x Hx. unfold fr_to_bytes. destruct (Z.ltb_spec x 0); [lia|].
    by destruct (Z.leb_spec (2 ^ 256) x); [lia|]. }
  assert (∀ v, 0 ≤ v < 2 ^ 256 → fr_from_bytes (be_bytes 32 v) = v) as Hinv.
  { intros x Hx. rewrite fr_from_be_bytes. by apply Z.mod_small. }
  split; [|split; [|done]].
  - case_decide as Hv.
    + exists (be_bytes 32 v). by rewrite Hok, length_be_bytes, Hinv by done.
    + unfold fr_to_bytes. destruct (Z.ltb_spec v 0); [by eexists|].
      destruct (Z.leb_spec (2 ^ 256) v); [by eexists|lia].
  - intros Hlen Hb. pose proof (fr_from_bytes_bound b Hb) as Hbound. rewrite Hlen in Hbound.
    rewrite Hok by done. f_equal. apply fr_from_bytes_inj; [apply be_bytes_range|done|by rewrite length_be_bytes|].
    by apply Hinv.
Qed.

Example kzg_opening_identity_witness :
  [1; 2; 3] ≠ [] ∧ poly_eval [1; 2; 3] 4 = 57 mod FIELD_ORDER ∧
  ∃ q, kzg_open_coeffs [1; 2; 3] 4 57 = Ok q ∧ length q = 2%nat ∧
    ∀ x, peval [1; 2; 3] x - 57 ≡F peval q x * (x - 4).
Proof.
  split; [done|]. split; [reflexivity|].
  apply (kzg_opening_identity [1; 2; 3] 4 57); [done|reflexivity].
Defined.
