(* ===== verification/FieldPrime.v ===== *)
(** * The order of the field is prime

    A certificate for [FIELD_ORDER], and what follows from it: inverses and
    long division are right, [_find_omega] finds an eighth root of unity, and
    the inverse transform over it interpolates.  The powers modulo the order
    are evaluated by a reduction that uses its shape, [2 ^ 254] plus a number
    of half its length. *)
From S2P Require Export FieldProps.

#[local] Open Scope Z_scope.

(** ** Powers modulo the order, evaluated *)

Definition field_excess : Z := FIELD_ORDER - 2 ^ 254.

Definition fold_once (x : Z) : Z :=
  Z.land x (Z.ones 254) - Z.shiftr x 254 * field_excess.

Lemma fold_once_eq x : fold_once x ≡F x.
Proof.
  unfold fold_once, field_excess. rewrite Z.land_ones, Z.shiftr_div_pow2 by lia.
  pose proof (Z.div_mod x (2 ^ 254) ltac:(lia)).
  apply (mod_eq_intro _ _ _ (- (x / 2 ^ 254))). lia.
Qed.

Definition fold_mul (x y : Z) : Z := fold_once (fold_once (x * y)).

Lemma fold_mul_eq x y : fold_mul x y ≡F x * y.
Proof. unfold fold_mul. by rewrite !fold_once_eq. Qed.

Fixpoint fast_pow (b : Z) (e : positive) : Z :=
  match e with
  | xH => b
  | xO e => let s := fast_pow b e in fold_mul s s
  | xI e => let s := fast_pow b e in fold_mul (fold_mul s s) b
  end.

Lemma fast_pow_eq b e : fast_pow b e ≡F b ^ Zpos e.
Proof.
  induction e as [e IH|e IH|]; cbn [fast_pow]; rewrite ?fold_mul_eq, ?IH.
  - rewrite Pos2Z.inj_xI, Z.pow_add_r, Z.pow_mul_r, Z.pow_2_r, Z.pow_1_r by lia.
    apply mod_eq_refl_eq. rewrite <-Z.pow_mul_l. ring.
  - rewrite Pos2Z.inj_xO, Z.pow_mul_r, Z.pow_2_r by lia.
    apply mod_eq_refl_eq. rewrite <-Z.pow_mul_l. ring.
  - by rewrite Z.pow_1_r.
Qed.

Definition field_pow (b e : Z) : Z :=
  match e with Zpos e => fast_pow b e mod FIELD_ORDER | _ => 1 end.

Lemma field_pow_eq b e : 0 ≤ e → field_pow b e ≡F b ^ e.
Proof.
  intros He. destruct e as [|e|e]; [done| |lia]. cbn [field_pow]. by rewrite mod_F, fast_pow_eq.
Qed.

Lemma pow_mod_field b e : 0 < e → pow_mod b e FIELD_ORDER = field_pow b e.
Proof.
  intros He. rewrite pow_mod_spec by (done || lia). destruct e as [|e|e]; [lia| |lia].
  cbn [field_pow]. apply mod_F_eq. by rewrite fast_pow_eq.
Qed.

(** ** The certificate *)

Lemma pocklington_plain n a qs :
  1 < n → Forall prime qs → pocklington_check n (fun e => pow_mod a e n) qs = true → prime n.
Proof.
  intros Hn Hqs H. eapply (pocklington n a (fun e => pow_mod a e n)); [done| |exact Hqs|exact H].
  intros e He. cbn beta. rewrite pow_mod_spec by lia. apply mod_eq_mod.
Qed.

Ltac prime_by a qs :=
  apply (pocklington_plain _ a qs);
  [done|repeat (apply Forall_cons_2; [trivial|]); apply Forall_nil_2|vm_compute; reflexivity].
Ltac prime_small := apply trial_division_prime; vm_compute; reflexivity.

Lemma prime_29 : prime 29. Proof. prime_small. Qed.
Lemma prime_241 : prime 241. Proof. prime_small. Qed.
Lemma prime_6091 : prime 6091. Proof. prime_small. Qed.
Lemma prime_12149 : prime 12149. Proof. prime_small. Qed.
Lemma prime_31649 : prime 31649. Proof. prime_small. Qed.

#[local] Hint Resolve prime_29 prime_241 prime_6091 prime_12149 prime_31649 : core.

Lemma prime_125803 : prime 125803. Proof. prime_by 2 [241; 29]. Qed.
#[local] Hint Resolve prime_125803 : core.
Lemma prime_2012849 : prime 2012849. Proof. prime_by 2 [125803]. Qed.
#[local] Hint Resolve prime_2012849 : core.
Lemma prime_4025699 : prime 4025699. Proof. prime_by 2 [2012849]. Qed.
#[local] Hint Resolve prime_4025699 : core.
Lemma prime_80513981 : prime 80513981. Proof. prime_by 2 [4025699]. Qed.
#[local] Hint Resolve prime_80513981 : core.
Lemma prime_5247740253619 : prime 5247740253619. Proof. prime_by 2 [80513981]. Qed.
#[local] Hint Resolve prime_5247740253619 : core.
Lemma prime_5701177 : prime 5701177. Proof. prime_by 2 [6091]. Qed.
#[local] Hint Resolve prime_5701177 : core.
Lemma prime_399082391 : prime 399082391. Proof. prime_by 2 [5701177]. Qed.
Lemma prime_5239247429827 : prime 5239247429827. Proof. prime_by 2 [31649; 12149]. Qed.
#[local] Hint Resolve prime_399082391 prime_5239247429827 : core.

(** The two large factors of [FIELD_ORDER - 1]. *)
Definition factor_81 : Z := 1690502597179744445941507.
Definition factor_114 : Z := 10427374428728808478656897599072717.

Lemma prime_factor_81 : prime factor_81. Proof. prime_by 2 [5247740253619]. Qed.
Lemma prime_factor_114 : prime factor_114. Proof. prime_by 2 [5239247429827; 399082391]. Qed.

Lemma FIELD_ORDER_prime : prime FIELD_ORDER.
Proof.
  apply (pocklington FIELD_ORDER 5 (field_pow 5) FIELD_ORDER_big (field_pow_eq 5)
    [factor_81; factor_114]).
  - constructor; [apply prime_factor_81|]. constructor; [apply prime_factor_114|constructor].
  - vm_compute. reflexivity.
Qed.

(** ** Inverses and division *)

Lemma field_inv_eq x : pow_mod x (FIELD_ORDER - 2) FIELD_ORDER = field_inv x.
Proof. unfold field_inv. reflexivity. Qed.

Lemma field_power_inverse x : ¬ (FIELD_ORDER | x) → x * field_inv x ≡F 1.
Proof.
  intros Hx. unfold field_inv. rewrite pow_mod_spec, mod_F by done.
  rewrite <-(fermat FIELD_ORDER x FIELD_ORDER_prime Hx).
  replace (FIELD_ORDER - 1) with (Z.succ (FIELD_ORDER - 2)) by lia.
  by rewrite Z.pow_succ_r by done.
Qed.

(** [field_inv] inverts every element of the field but zero, and the order
    it relies on is prime. *)
Theorem field_inv_correct (x : Z) :
  prime FIELD_ORDER ∧ 0 ≤ field_inv x < FIELD_ORDER ∧
  (x mod FIELD_ORDER ≠ 0 → (x * field_inv x) mod FIELD_ORDER = 1) ∧
  (x mod FIELD_ORDER = 0 → field_inv x = 0).
Proof.
  split; [apply FIELD_ORDER_prime|]. split.
  { unfold field_inv. rewrite pow_mod_spec by done. by apply Z.mod_pos_bound. }
  split; intros Hx.
  - change 1 with (1 mod FIELD_ORDER). apply mod_F_eq, field_power_inverse.
    by rewrite <-Z.mod_divide.
  - unfold field_inv. rewrite pow_mod_spec by done.
    change 0 with (0 mod FIELD_ORDER). apply mod_F_eq.
    assert (x ≡F 0) as Hx0 by by apply mod_F_eq.
    rewrite (mod_eq_pow _ _ _ (FIELD_ORDER - 2) ltac:(done) Hx0). by rewrite Z.pow_0_l.
Qed.

(** C32: long division satisfies the division identity whenever the leading
    coefficient of the divisor is not zero in the field, and the remainder is
    shorter than the divisor. *)
Theorem poly_divmod_correct (dividend divisor : list Z) (lead : Z) :
  last divisor = Some lead → lead mod FIELD_ORDER ≠ 0 →
  ∃ q r, poly_divmod (length dividend) dividend divisor = Some (Ok (q, r)) ∧
    (length r < length divisor)%nat ∧
    ∀ x, peval dividend x ≡F peval q x * peval divisor x + peval r x.
Proof.
  intros Hlead Hnz.
  destruct (divmod_loop_runs divisor lead (field_inv lead) Hlead (length dividend) [] dividend)
    as (q & r & Hrun & _ & Hr & H); [lia|].
  exists (reverse q), r. unfold poly_divmod. rewrite Hlead, field_inv_eq, Hrun.
  split; [reflexivity|]. pose proof (divisor_length divisor lead Hlead). split; [lia|].
  apply H. apply field_power_inverse. by rewrite <-Z.mod_divide.
Qed.

Example poly_divmod_correct_witness :
  ∃ q r, poly_divmod 3 [1; 2; 3] [1; 2] = Some (Ok (q, r)) ∧ (length r < 2)%nat ∧
    ∀ x, peval [1; 2; 3] x ≡F peval q x * peval [1; 2] x + peval r x.
Proof. apply (poly_divmod_correct [1; 2; 3] [1; 2] 2); [reflexivity|vm_compute; discriminate]. Defined.

(** The hypothesis is needed: with a zero leading coefficient the loop drops
    coefficients of the dividend without cancelling them. *)
Lemma poly_divmod_zero_lead : poly_divmod 3 [5; 0; 7] [1; 0] = Some (Ok ([0; 0], [5])).
Proof.
  unfold poly_divmod. cbn [last]. rewrite pow_mod_field by done. vm_compute. reflexivity.
Qed.

(** ** The root of unity *)

Definition is_root (omega : Z) : bool :=
  (field_pow omega 8 =? 1) && negb (field_pow omega 4 =? 1).

Lemma try_candidates_cons exponent c cs :
  0 < exponent →
  try_candidates exponent (c :: cs) =
  let omega := field_pow c exponent in
  if is_root omega then Ok omega else try_candidates exponent cs.
Proof.
  intros. cbn [try_candidates]. change (Z.of_nat N) with 8. change (Z.of_nat (N / 2)) with 4.
  rewrite !pow_mod_field by lia. unfold is_root. cbv zeta. reflexivity.
Qed.

Definition omega_value : Z :=
  26389178552394651245246837090492411671330744266237564696174733440959711379620.
Definition omega_exponent : Z := (FIELD_ORDER - 1) / 8.

Lemma omega_of_2 : field_pow 2 omega_exponent =
  24682508875525884897641270952488416149830453149035712389703207095981135804695.
Proof. vm_compute. reflexivity. Qed.
Lemma omega_of_3 : field_pow 3 omega_exponent = FIELD_ORDER - 1.
Proof. vm_compute. reflexivity. Qed.
Lemma omega_of_5 : field_pow 5 omega_exponent = omega_value.
Proof. vm_compute. reflexivity. Qed.

Lemma field_pow_square b e :
  0 < e → field_pow (b * b) e = (field_pow b e * field_pow b e) mod FIELD_ORDER.
Proof.
  intros He. rewrite <-!pow_mod_field, !pow_mod_spec by (done || lia).
  apply mod_F_eq. rewrite !mod_F, Z.pow_mul_l. reflexivity.
Qed.

Lemma omega_of_4 : field_pow 4 omega_exponent = FIELD_ORDER - 1.
Proof.
  change 4 with (2 * 2). rewrite field_pow_square by reflexivity. rewrite omega_of_2.
  vm_compute. reflexivity.
Qed.

Lemma root_candidates :
  is_root 24682508875525884897641270952488416149830453149035712389703207095981135804695 = false ∧
  is_root (FIELD_ORDER - 1) = false ∧ is_root omega_value = true.
Proof. vm_compute. repeat split. Qed.

(** The candidates 2, 3 and 4 give no root; 5 does. *)
Lemma find_omega_value : _find_omega = Ok omega_value.
Proof.
  unfold _find_omega. change (Z.of_nat N) with 8. fold omega_exponent.
  change (seqZ 2 510) with ([2; 3; 4; 5] ++ seqZ 6 506). generalize (seqZ 6 506). intros cs.
  cbn [app]. destruct root_candidates as (R2 & R34 & R5).
  rewrite !try_candidates_cons by reflexivity. cbv zeta.
  rewrite omega_of_2, omega_of_3, omega_of_4, omega_of_5, R2, !R34, R5. reflexivity.
Qed.

Lemma OMEGA_value : OMEGA = omega_value.
Proof. unfold OMEGA. by rewrite find_omega_value. Qed.

Lemma OMEGA_half : OMEGA ^ 4 ≡F -1.
Proof.
  rewrite OMEGA_value, <-field_pow_eq by done. apply mod_F_eq. vm_compute. reflexivity.
Qed.

(** [_find_omega] does not raise, and what it finds is a primitive eighth
    root of unity of the field. *)
Theorem find_omega_correct :
  _find_omega = Ok OMEGA ∧ 0 < OMEGA < FIELD_ORDER ∧
  OMEGA ^ 8 ≡F 1 ∧ ∀ k, 0 < k < 8 → ¬ OMEGA ^ k ≡F 1.
Proof.
  rewrite find_omega_value, OMEGA_value. split; [reflexivity|]. split; [done|].
  assert (∀ k, 0 ≤ k → omega_value ^ k ≡F field_pow omega_value k) as Hp
    by (intros; by rewrite field_pow_eq).
  split; [rewrite Hp by lia; vm_compute; by exists 0|]. intros k Hk. rewrite Hp by lia. intros Heq%mod_F_eq.
  assert (k = 1 ∨ k = 2 ∨ k = 3 ∨ k = 4 ∨ k = 5 ∨ k = 6 ∨ k = 7) as Hc by lia.
  repeat destruct Hc as [->|Hc]; try subst k; vm_compute in Heq; discriminate.
Qed.

(** ** Interpolation *)

Definition sum (f : nat → Z) (n : nat) : Z := foldr (fun i acc => f i + acc) 0 (seq 0 n).

Lemma foldr_sum_eq (f g : nat → Z) ks :
  (∀ i, i ∈ ks → f i ≡F g i) →
  foldr (fun i acc => f i + acc) 0 ks ≡F foldr (fun i acc => g i + acc) 0 ks.
Proof.
  intros H. induction ks as [|k ks IH]; simpl; [reflexivity|].
  rewrite IH by set_solver. rewrite (H k) by set_solver. reflexivity.
Qed.

Lemma sum_scale f c n : c * sum f n = sum (fun i => c * f i) n.
Proof. unfold sum. induction (seq 0 n) as [|k ks IH]; simpl; [lia|]. rewrite <-IH. ring. Qed.

Lemma sum_swap (f : nat → nat → Z) n m :
  sum (fun i => sum (f i) m) n = sum (fun j => sum (fun i => f i j) n) m.
Proof.
  unfold sum. generalize (seq 0 n) as ks, (seq 0 m) as js.
  induction ks as [|k ks IH]; intros js; cbn [foldr].
  - induction js as [|j js IH]; simpl; [done|]. by rewrite <-IH.
  - rewrite IH. clear IH. induction js as [|j js IH]; cbn [foldr]; [done|]. rewrite <-IH. ring.
Qed.

Lemma foldl_mod_sum (f : nat → Z) ks s :
  foldl (fun s j => (s + f j) mod FIELD_ORDER) s ks ≡F s + foldr (fun i acc => f i + acc) 0 ks.
Proof.
  revert s. induction ks as [|k ks IH]; intros s; cbn [foldl foldr]; [mring|].
  rewrite IH, mod_F. mring.
Qed.


Lemma sum_S f n : sum f (S n) = f 0%nat + sum (fun k => f (S k)) n.
Proof.
  unfold sum. cbn [seq foldr]. f_equal. rewrite <-seq_shift.
  induction (seq 0 n) as [|k ks IH]; cbn [map foldr]; [done|]. by rewrite IH.
Qed.

Lemma sum_ext f g n : (∀ k, f k = g k) → sum f n = sum g n.
Proof. intros H. unfold sum. induction (seq 0 n) as [|k ks IH]; simpl; [done|]. by rewrite H, IH. Qed.

Lemma sum_mod_eq f g n : (∀ k, (k < n)%nat → f k ≡F g k) → sum f n ≡F sum g n.
Proof. intros H. apply foldr_sum_eq. intros k Hk%elem_of_seq. apply H. lia. Qed.

Lemma peval_map_seq (f : nat → Z) n x :
  peval (map f (seq 0 n)) x = sum (fun k => f k * x ^ Z.of_nat k) n.
Proof.
  revert f. induction n as [|n IH]; intros f; [done|].
  cbn [seq map]. rewrite peval_cons, <-seq_shift, map_map, IH, sum_S, sum_scale.
  change (Z.of_nat 0) with 0. rewrite Z.pow_0_r, Z.mul_1_r. f_equal. apply sum_ext. intros k.
  rewrite Nat2Z.inj_succ, Z.pow_succ_r by lia. ring.
Qed.

(** The powers of a root of order dividing eight other than 1 sum to zero. *)
Lemma geometric_sum t :
  sum (fun k => t ^ Z.of_nat k) 8 = (1 + t) * (1 + t ^ 2) * (1 + t ^ 4).
Proof.
  change (sum (fun k => t ^ Z.of_nat k) 8)
    with (t ^ 0 + (t ^ 1 + (t ^ 2 + (t ^ 3 + (t ^ 4 + (t ^ 5 + (t ^ 6 + (t ^ 7 + 0)))))))).
  ring.
Qed.

Lemma sum_delta (f : nat → Z) n m :
  (m < n)%nat → sum (fun j => f j * if decide (j = m) then 8 else 0) n = 8 * f m.
Proof.
  revert f m. induction n as [|n IH]; intros f m Hm; [lia|]. rewrite sum_S. destruct m as [|m].
  - rewrite decide_True by done.
    rewrite (sum_ext _ (fun _ => 0)) by (intros; rewrite decide_False by done; lia).
    unfold sum. induction (seq 0 n) as [|k ks IHk]; cbn [foldr]; lia.
  - rewrite decide_False by done.
    rewrite (sum_ext _ (fun j => f (S j) * if decide (j = m) then 8 else 0)).
    + rewrite (IH (fun j => f (S j))) by lia. lia.
    + intros k. by repeat case_decide; try lia.
Qed.

(** Powers of a number whose fourth power is -1, and of its inverse. *)
Section root.
Context (w winv : Z) (Hw : w ^ 4 ≡F -1) (Hinv : winv ≡F w ^ 7).

Lemma root_pow_4_mul n : 0 ≤ n → w ^ (4 * n) ≡F (-1) ^ n.
Proof using Hw. intros. rewrite Z.pow_mul_r by lia. by apply mod_eq_pow, Hw. Qed.

Lemma root_sum_zero e :
  0 < e < 8 → (1 + w ^ e) * (1 + (w ^ e) ^ 2) * (1 + (w ^ e) ^ 4) ≡F 0.
Proof using Hw Hinv.
  intros He. rewrite <-!Z.pow_mul_r by lia.
  assert (∀ n, 0 ≤ n → (-1) ^ n = -1 → 1 + w ^ (4 * n) ≡F 0) as H.
  { intros n Hn Hodd. rewrite root_pow_4_mul, Hodd by done. reflexivity. }
  assert (e = 4 ∨ e = 2 ∨ e = 6 ∨ e = 1 ∨ e = 3 ∨ e = 5 ∨ e = 7) as Hc by lia.
  destruct Hc as [->|Hc].
  { change (w ^ 4) with (w ^ (4 * 1)). rewrite (H 1) by done. by rewrite ?Z.mul_0_r, ?Z.mul_0_l. }
  destruct Hc as [->|[->|Hc]].
  { change (2 * 2) with (4 * 1). rewrite (H 1) by done. by rewrite ?Z.mul_0_r, ?Z.mul_0_l. }
  { change (6 * 2) with (4 * 3). rewrite (H 3) by done. by rewrite ?Z.mul_0_r, ?Z.mul_0_l. }
  rewrite (Z.mul_comm e 4). rewrite (H e); [by rewrite Z.mul_0_r|lia|].
  by repeat destruct Hc as [->|Hc]; try subst e.
Qed.

Lemma root_power j m :
  (j < N)%nat → (m < N)%nat →
  ∃ e, winv ^ Z.of_nat j * w ^ Z.of_nat m ≡F w ^ e ∧
    0 ≤ e < 8 ∧ (e = 0 ↔ j = m).
Proof using Hw Hinv.
  unfold N. intros Hj Hm.
  assert (winv ^ Z.of_nat j * w ^ Z.of_nat m ≡F w ^ (7 * Z.of_nat j + Z.of_nat m)) as Hd.
  { rewrite (mod_eq_pow _ _ _ (Z.of_nat j) ltac:(lia) Hinv).
    by rewrite Z.pow_add_r, Z.pow_mul_r by lia. }
  assert (∀ e n, 0 ≤ e → 0 ≤ n → w ^ (4 * (2 * n) + e) ≡F w ^ e) as Hred.
  { intros e n He Hn. rewrite Z.pow_add_r, root_pow_4_mul, Z.pow_mul_r by lia.
    change ((-1) ^ 2) with 1. rewrite Z.pow_1_l by lia. mring. }
  destruct (decide (j ≤ m)%nat).
  - exists (Z.of_nat m - Z.of_nat j). split; [|lia]. rewrite Hd.
    replace (7 * Z.of_nat j + Z.of_nat m) with (4 * (2 * Z.of_nat j) + (Z.of_nat m - Z.of_nat j)) by lia.
    apply Hred; lia.
  - exists (8 + Z.of_nat m - Z.of_nat j). split; [|lia]. rewrite Hd.
    replace (7 * Z.of_nat j + Z.of_nat m)
      with (4 * (2 * (Z.of_nat j - 1)) + (8 + Z.of_nat m - Z.of_nat j)) by lia.
    apply Hred; lia.
Qed.

(** Orthogonality of the powers of the root. *)
Lemma root_orthogonal j m :
  (j < N)%nat → (m < N)%nat →
  sum (fun k => (winv ^ Z.of_nat j * w ^ Z.of_nat m) ^ Z.of_nat k) 8
    ≡F if decide (j = m) then 8 else 0.
Proof using Hw Hinv.
  intros Hj Hm. destruct (root_power j m Hj Hm) as (e & Ht & He & Heq).
  rewrite (sum_mod_eq _ (fun k => (w ^ e) ^ Z.of_nat k))
    by (intros; apply mod_eq_pow; [lia|done]).
  rewrite geometric_sum. case_decide as Hjm.
  - apply Heq in Hjm as ->. reflexivity.
  - apply root_sum_zero. naive_solver lia.
Qed.

Lemma transform_coefficient (values : list Z) k :
  foldl (fun s j => (s + values !!! j * pow_mod winv (Z.of_nat (j * k)) FIELD_ORDER) mod FIELD_ORDER)
    0 (seq 0 N)
  ≡F sum (fun j => values !!! j * (winv ^ Z.of_nat j) ^ Z.of_nat k) N.
Proof using Hw Hinv.
  rewrite (foldl_mod_sum (fun j => values !!! j * pow_mod winv (Z.of_nat (j * k)) FIELD_ORDER)).
  rewrite Z.add_0_l. apply foldr_sum_eq. intros j _. rewrite pow_mod_spec, mod_F by (reflexivity || lia).
  by rewrite Nat2Z.inj_mul, Z.pow_mul_r by lia.
Qed.

Lemma interpolation ninv (values : list Z) m :
  8 * ninv ≡F 1 → (m < N)%nat →
  peval (map (fun k =>
    foldl (fun s j => (s + values !!! j * pow_mod winv (Z.of_nat (j * k)) FIELD_ORDER) mod FIELD_ORDER)
      0 (seq 0 N) * ninv mod FIELD_ORDER) (seq 0 N)) (w ^ Z.of_nat m)
  ≡F values !!! m.
Proof using Hw Hinv.
  intros Hn Hm. rewrite peval_map_seq.
  rewrite (sum_mod_eq _ (fun k => sum (fun j => ninv * values !!! j *
    (winv ^ Z.of_nat j * w ^ Z.of_nat m) ^ Z.of_nat k) N)).
  2: { intros k _. rewrite mod_F, transform_coefficient.
    rewrite Z.mul_comm, (Z.mul_comm _ ninv), !sum_scale.
    apply foldr_sum_eq. intros j _. rewrite Z.pow_mul_l. mring. }
  rewrite sum_swap.
  rewrite (sum_mod_eq _ (fun j => ninv * values !!! j * if decide (j = m) then 8 else 0)).
  2: { intros j Hj. rewrite <-sum_scale. by rewrite root_orthogonal. }
  rewrite (sum_delta (fun j => ninv * values !!! j)) by done.
  trans (values !!! m * (8 * ninv)); [mring|]. rewrite Hn. mring.
Qed.
End root.

Lemma eight_unit : ¬ (FIELD_ORDER | 8).
Proof. intros H%Z.divide_pos_le; [|lia]. by vm_compute in H. Qed.

Lemma OMEGA_unit : ¬ (FIELD_ORDER | OMEGA).
Proof. rewrite OMEGA_value. intros H%Z.mod_divide; [|done]. vm_compute in H. discriminate. Qed.

(** The inverse of the root, as one of its powers. *)
Lemma OMEGA_inverse : field_inv OMEGA ≡F OMEGA ^ 7.
Proof.
  apply (mod_eq_cancel _ OMEGA _ _ FIELD_ORDER_prime OMEGA_unit).
  rewrite field_power_inverse by apply OMEGA_unit.
  rewrite <-Z.pow_succ_r by lia. change (Z.succ 7) with (4 * 2).
  by rewrite (root_pow_4_mul OMEGA OMEGA_half).
Qed.

(** The inverse transform interpolates: the polynomial it returns for
    [N] values takes each of them at the corresponding power of the root of
    unity. *)
Theorem intt_interpolates (values : list Z) (m : nat) :
  length values = N → (m < N)%nat →
  length (intt values) = N ∧
  poly_eval (intt values) (OMEGA ^ Z.of_nat m) = values !!! m mod FIELD_ORDER.
Proof.
  intros Hlen Hm. unfold intt. rewrite length_map, length_seq. split; [done|].
  rewrite poly_eval_correct, Hlen. apply mod_F_eq.
  apply (interpolation OMEGA (field_inv OMEGA) OMEGA_half OMEGA_inverse); [|done].
  apply field_power_inverse, eight_unit.
Qed.

Example intt_interpolates_witness :
  length [3; 1; 4; 1; 5; 9; 2; 6] = N ∧
  length (intt [3; 1; 4; 1; 5; 9; 2; 6]) = N ∧
  poly_eval (intt [3; 1; 4; 1; 5; 9; 2; 6]) (OMEGA ^ Z.of_nat 5) =
    [3; 1; 4; 1; 5; 9; 2; 6] !!! 5%nat mod FIELD_ORDER.
Proof.
  split; [reflexivity|].
  apply (intt_interpolates [3; 1; 4; 1; 5; 9; 2; 6] 5); [reflexivity|unfold N; lia].
Defined.
