(* ===== verification/RateLimit.v ===== *)
(** * The rate limiter (security/rate_limit.py)

    A sliding window of the last hits of every key.  The clock is an argument
    of [allow]; [time()] returns a double of the range [2 ^ 30, 2 ^ 31), so
    that times are multiples of [2 ^ -22] seconds and differences of two of
    them are exact: times are integers here, in that unit. *)
From stdpp Require Export gmap.
From S2P Require Export Prelude.

#[local] Open Scope Z_scope.

(** Clock ticks of a second. *)
Definition SECOND : Z := 2 ^ 22.

Record RateLimitResult := mkRateLimitResult {
  allowed : bool;
  remaining : Z;
  reset_after_seconds : Z }.

Record RateLimiter := mkRateLimiter {
  _limit : Z;
  _window_seconds : Z;
  _hits : gmap string (list Z) }.

Definition RateLimiter_init (limit window_seconds : Z) : result RateLimiter :=
  if limit <=? 0 then raise ValueError "limit must be positive"
  else if window_seconds <=? 0 then raise ValueError "window_seconds must be positive"
  else Ok (mkRateLimiter limit window_seconds ∅).

(** [while hits and now - hits[0] >= window: hits.popleft()] *)
Fixpoint popleft_expired (window now : Z) (hits : list Z) : list Z :=
  match hits with
  | [] => []
  | h :: rest => if window <=? now - h then popleft_expired window now rest else hits
  end.

Definition hits_of (l : RateLimiter) (key : string) : list Z := default [] (_hits l !! key).

Definition allow (now : Z) (key : string) (l : RateLimiter) : RateLimitResult * RateLimiter :=
  let store hits := mkRateLimiter (_limit l) (_window_seconds l) (<[key := hits]> (_hits l)) in
  let hits := popleft_expired (_window_seconds l * SECOND) now (hits_of l key) in
  if _limit l <=? Z.of_nat (length hits) then
    let reset_after :=
      match hits with
      | h :: _ => Z.quot (_window_seconds l * SECOND - (now - h)) SECOND
      | [] => _window_seconds l
      end in
    (mkRateLimitResult false 0 (Z.max reset_after 0), store hits)
  else
    let hits := hits ++ [now] in
    (mkRateLimitResult true (Z.max (_limit l - Z.of_nat (length hits)) 0) (_window_seconds l),
     store hits).

(** ** Histories *)

Record request := mkRequest { rq_key : string; rq_time : Z }.

(** A run of the limiter, with the results in the order of the requests. *)
Fixpoint serve (l : RateLimiter) (rs : list request) : list (request * RateLimitResult) * RateLimiter :=
  match rs with
  | [] => ([], l)
  | r :: rs =>
      let '(res, l) := allow (rq_time r) (rq_key r) l in
      let '(log, l) := serve l rs in ((r, res) :: log, l)
  end.

(** The times at which [key] was let through. *)
Definition accepted (key : string) (log : list (request * RateLimitResult)) : list Z :=
  omap (fun '(r, res) => if bool_decide (rq_key r = key) && allowed res then Some (rq_time r) else None) log.

(** The hits of a window that ends at [now]. *)
Definition recent (window now : Z) (hits : list Z) : list Z :=
  filter (fun h => now - h < window) hits.

Definition in_order (rs : list request) : Prop := StronglySorted (fun r r' => rq_time r ≤ rq_time r') rs.

(** ** The window *)

Lemma popleft_expired_recent window now hits :
  StronglySorted Z.le hits → popleft_expired window now hits = recent window now hits.
Proof.
  unfold recent. induction 1 as [|h hits Hs IH Hh]; [done|]. cbn [popleft_expired].
  destruct (Z.leb_spec window (now - h)).
  - by rewrite filter_cons_False by lia.
  - symmetry. apply filter_all. intros x [->|Hx]%elem_of_cons; [lia|].
    rewrite Forall_forall in Hh. specialize (Hh x Hx). lia.
Qed.

Lemma recent_recent window now now' hits :
  now ≤ now' → recent window now' (recent window now hits) = recent window now' hits.
Proof. intros. unfold recent. rewrite list_filter_filter_l; [done|]. lia. Qed.

Lemma recent_app window now hits hits' :
  recent window now (hits ++ hits') = recent window now hits ++ recent window now hits'.
Proof. apply filter_app. Qed.

Lemma sorted_filter_snoc window now hits :
  StronglySorted Z.le hits → (∀ h, h ∈ hits → h ≤ now) →
  StronglySorted Z.le (recent window now hits) ∧ StronglySorted Z.le (recent window now hits ++ [now]).
Proof.
  intros Hs Hle. assert (StronglySorted Z.le (recent window now hits)) as H.
  { unfold recent. clear Hle. induction Hs as [|h hits Hs IH Hh]; [constructor|].
    rewrite filter_cons. case_decide; [|done]. constructor; [done|].
    rewrite Forall_forall in Hh |- *. intros x [_ Hx]%list_elem_of_filter. auto. }
  split; [done|]. apply StronglySorted_app_2; [|done|repeat constructor].
  intros x y [_ Hx]%list_elem_of_filter ->%list_elem_of_singleton. by apply Hle.
Qed.

(** ** The invariant of a run

    What the deque of a key has lost of the accepted hits can no longer fall
    in a window, the clock not going back. *)

Definition limiter_inv (last : Z) (log : list (request * RateLimitResult)) (l : RateLimiter) : Prop :=
  ∀ key, StronglySorted Z.le (hits_of l key) ∧ (∀ h, h ∈ hits_of l key → h ≤ last) ∧
    ∀ now, last ≤ now →
      recent (_window_seconds l * SECOND) now (hits_of l key) =
      recent (_window_seconds l * SECOND) now (accepted key log).

Lemma hits_of_store l key key' hits :
  hits_of (mkRateLimiter (_limit l) (_window_seconds l) (<[key := hits]> (_hits l))) key' =
  if decide (key = key') then hits else hits_of l key'.
Proof.
  unfold hits_of. cbn [_hits]. case_decide; subst;
    [by rewrite lookup_insert_eq|by rewrite lookup_insert_ne].
Qed.

Lemma allow_limits now key l :
  let l' := (allow now key l).2 in _limit l' = _limit l ∧ _window_seconds l' = _window_seconds l.
Proof. unfold allow. by case_match. Qed.

Lemma accepted_snoc key log r res :
  accepted key (log ++ [(r, res)]) =
  accepted key log ++ (if bool_decide (rq_key r = key) && allowed res then [rq_time r] else []).
Proof. unfold accepted. rewrite omap_app. f_equal. simpl. by destruct (_ && _). Qed.

(** What a request must be answered, from the accepted requests of its window:
    let through with one less remaining, or told how long the oldest of them
    stays in the window. *)
Definition answer (limit window now : Z) (hits : list Z) : RateLimitResult :=
  if Z.of_nat (length hits) <? limit
  then mkRateLimitResult true (limit - (Z.of_nat (length hits) + 1)) window
  else mkRateLimitResult false 0 (from_option (fun h => (window * SECOND - (now - h)) / SECOND) window (head hits)).

(** The wait told to a refused request is at most the window. *)
Lemma wait_bounds w now h :
  h ≤ now → now - h < w * SECOND →
  Z.quot (w * SECOND - (now - h)) SECOND = (w * SECOND - (now - h)) / SECOND ∧
  0 ≤ (w * SECOND - (now - h)) / SECOND ≤ w.
Proof.
  intros. unfold SECOND in *. rewrite Z.quot_div_nonneg by lia. split; [done|]. split; [apply Z.div_pos; lia|].
  apply Z.div_le_upper_bound; lia.
Qed.

(** The request's own answer, and the state it leaves for its key. *)
Lemma allow_decision last log l key now :
  limiter_inv last log l → last ≤ now → 0 < _limit l →
  let '(res, l') := allow now key l in
  let window := recent (_window_seconds l * SECOND) now (accepted key log) in
  res = answer (_limit l) (_window_seconds l) now window ∧
  ∀ key', hits_of l' key' =
    if decide (key = key') then window ++ (if allowed res then [now] else []) else hits_of l key'.
Proof.
  intros Hinv Hnow Hlim. destruct (Hinv key) as (Hs & Hle & Heq). unfold allow, answer.
  rewrite popleft_expired_recent by done.
  assert (∀ h, h ∈ recent (_window_seconds l * SECOND) now (hits_of l key) →
    h ≤ now ∧ now - h < _window_seconds l * SECOND) as Hin.
  { intros h [? ?%Hle]%list_elem_of_filter. lia. }
  revert Hin. rewrite Heq by done. set (window := recent _ _ (accepted _ _)). intros Hin.
  destruct (Z.leb_spec (_limit l) (Z.of_nat (length window))) as [Hfull|Hroom].
  - assert (Z.of_nat (length window) <? _limit l = false) as -> by (apply Z.ltb_ge; lia). split.
    + f_equal. destruct window as [|h window]; [simpl in Hfull; lia|]. cbn [head from_option].
      destruct (Hin h ltac:(set_solver)) as [H1 H2].
      destruct (wait_bounds (_window_seconds l) now h H1 H2) as [-> ?]. lia.
    + intros key'. rewrite hits_of_store. cbn [allowed]. by rewrite app_nil_r.
  - assert (Z.of_nat (length window) <? _limit l = true) as -> by (apply Z.ltb_lt; lia). split.
    + f_equal. rewrite length_app. simpl length. lia.
    + intros key'. by rewrite hits_of_store.
Qed.

Lemma allow_inv last log l r :
  limiter_inv last log l → last ≤ rq_time r → 0 < _limit l →
  let '(res, l') := allow (rq_time r) (rq_key r) l in
  limiter_inv (rq_time r) (log ++ [(r, res)]) l'.
Proof.
  intros Hinv Hnow Hpos. pose proof (allow_decision last log l (rq_key r) (rq_time r) Hinv Hnow Hpos) as H.
  pose proof (allow_limits (rq_time r) (rq_key r) l) as Hlim.
  destruct (allow _ _ l) as [res l']. cbn [snd] in Hlim. destruct Hlim as [_ Hw], H as [_ Hhits].
  intros key. rewrite Hhits, accepted_snoc, Hw. destruct (Hinv key) as (Hs & Hle & Heq).
  destruct (decide (rq_key r = key)) as [->|Hne].
  - rewrite <-Heq by done.
    destruct (sorted_filter_snoc (_window_seconds l * SECOND) (rq_time r) (hits_of l key) Hs) as [S1 S2];
      [intros h Hh; specialize (Hle h Hh); lia|].
    rewrite bool_decide_eq_true_2 by done. cbn [andb]. split; [by destruct (allowed res); rewrite ?app_nil_r|].
    split.
    + intros h [[_ Hh%Hle]%list_elem_of_filter|Hh]%elem_of_app; [lia|].
      destruct (allowed res); set_solver.
    + intros now Hle'. rewrite !recent_app, recent_recent, Heq by lia. done.
  - rewrite bool_decide_eq_false_2 by done. cbn [andb]. rewrite app_nil_r.
    split; [done|]. split; [intros h Hh; specialize (Hle h Hh); lia|].
    intros now Hle'. apply Heq. lia.
Qed.

(** Every decision of a run, against the hits accepted before it. *)
Lemma serve_decisions last log l rs :
  limiter_inv last log l → 0 < _limit l → in_order rs → (∀ r, r ∈ rs → last ≤ rq_time r) →
  ∀ i r res, (serve l rs).1 !! i = Some (r, res) →
    res = answer (_limit l) (_window_seconds l) (rq_time r)
      (recent (_window_seconds l * SECOND) (rq_time r) (accepted (rq_key r) (log ++ take i (serve l rs).1))).
Proof.
  revert last log l. induction rs as [|r rs IH]; intros last log l Hinv Hpos Ho Hlast i r' res' Hi; [done|].
  inversion_clear Ho as [|?? Ho' Hr]. rewrite Forall_forall in Hr.
  specialize (Hlast r ltac:(set_solver)) as Hr0.
  pose proof (allow_decision last log l (rq_key r) (rq_time r) Hinv Hr0 Hpos) as Hd.
  pose proof (allow_inv last log l r Hinv Hr0 Hpos) as Hi'.
  pose proof (allow_limits (rq_time r) (rq_key r) l) as Hlim.
  cbn [serve] in Hi |- *. destruct (allow _ _ l) as [res l'] eqn:Ea. cbn [snd] in Hlim.
  destruct (serve l' rs) as [log' l''] eqn:Es. cbn [fst] in Hi |- *.
  destruct i as [|i]; cbn in Hi.
  - injection Hi as <- <-. rewrite app_nil_r. apply Hd.
  - destruct Hlim as [Hlimit Hwindow]. rewrite <-Hlimit in Hpos.
    cbn [take]. specialize (IH (rq_time r) (log ++ [(r, res)]) l' Hi' Hpos Ho' Hr i r' res').
    rewrite Es in IH. cbn [fst] in IH.
    rewrite <-Hlimit, <-Hwindow, (IH Hi), <-app_assoc. done.
Qed.

(** The requests of a log are those that were served, in order. *)
Lemma serve_requests l rs : map fst (serve l rs).1 = rs.
Proof.
  revert l. induction rs as [|r rs IH]; intros l; [done|]. cbn [serve].
  destruct (allow _ _ l) as [res l']. specialize (IH l'). destruct (serve l' rs) as [log l''].
  cbn [fst map] in *. by rewrite IH.
Qed.

Lemma serve_in_order l rs i r res r' res' :
  in_order rs → (serve l rs).1 !! i = Some (r, res) → (r', res') ∈ take i (serve l rs).1 →
  rq_time r' ≤ rq_time r.
Proof.
  intros Ho Hi Hin. unfold in_order in Ho. rewrite <-(serve_requests l rs) in Ho.
  rewrite <-(take_drop_middle _ _ _ Hi), map_app in Ho. apply StronglySorted_app in Ho as (Hs & _).
  apply Hs; [by apply (list_elem_of_fmap_2' fst (take i (serve l rs).1) (r', res'))|by left].
Qed.

Lemma init_inv limit w l : RateLimiter_init limit w = Ok l →
  0 < limit ∧ 0 < w ∧ _limit l = limit ∧ _window_seconds l = w ∧ ∀ t, limiter_inv t [] l.
Proof.
  unfold RateLimiter_init. destruct (Z.leb_spec limit 0); [done|].
  destruct (Z.leb_spec w 0); [done|]. intros [= <-]. repeat split; try done.
  - constructor.
  - intros h Hh. cbn in Hh. set_solver.
Qed.

(** C39: in a run whose clock does not go back, every result follows from the
    requests of its key that were let through in the window that ends with it:
    with fewer than [limit] of them the request is let through, with the number
    remaining after it and the whole window as the time to the reset; otherwise
    it is refused with none remaining and the whole seconds until the oldest of
    them leaves the window, which are between zero and the window.  The deque,
    from which expired hits are dropped, decides as the full log would. *)
Theorem rate_limit_window (limit window : Z) (l : RateLimiter) (rs : list request)
    (i : nat) (r : request) (res : RateLimitResult) :
  RateLimiter_init limit window = Ok l → in_order rs →
  (serve l rs).1 !! i = Some (r, res) →
  let hits := recent (window * SECOND) (rq_time r) (accepted (rq_key r) (take i (serve l rs).1)) in
  if Z.of_nat (length hits) <? limit
  then allowed res = true ∧ remaining res = limit - (Z.of_nat (length hits) + 1) ∧
       reset_after_seconds res = window
  else allowed res = false ∧ remaining res = 0 ∧
       ∃ h, head hits = Some h ∧ reset_after_seconds res = (window * SECOND - (rq_time r - h)) / SECOND ∧
         0 ≤ reset_after_seconds res ≤ window.
Proof.
  intros Hl Ho Hi hits. apply init_inv in Hl as (Hpos & _ & <- & <- & Hinv).
  destruct rs as [|r0 rs]; [done|].
  assert (∀ r', r' ∈ r0 :: rs → rq_time r0 ≤ rq_time r') as Hlast.
  { inversion_clear Ho as [|?? _ Hr]. rewrite Forall_forall in Hr. intros r' [->|?]%elem_of_cons; [done|auto]. }
  pose proof (serve_decisions (rq_time r0) [] l (r0 :: rs) (Hinv _) Hpos Ho Hlast i r res Hi) as E.
  cbn [app] in E. fold hits in E. subst res. unfold answer.
  destruct (Z.ltb_spec (Z.of_nat (length hits)) (_limit l)); [done|]. do 2 (split; [done|]).
  cbn [reset_after_seconds]. assert (∃ h, head hits = Some h) as [h Hh].
  { destruct hits as [|h ?]; [simpl in *; lia|by exists h]. }
  exists h. rewrite Hh. split; [done|]. split; [done|]. cbn [from_option].
  apply head_Some_elem_of, list_elem_of_filter in Hh as [Hh1 Hh2]. apply wait_bounds; [|done].
  apply list_elem_of_omap in Hh2 as ([r' res'] & Hin & E).
  destruct (bool_decide _ && _); [|done]. injection E as <-.
  eapply serve_in_order; eassumption.
Qed.

Example rate_limit_window_witness :
  let rs := [mkRequest "a" 0; mkRequest "a" 1; mkRequest "b" 2; mkRequest "a" 3] in
  let l := mkRateLimiter 2 60 ∅ in
  RateLimiter_init 2 60 = Ok l ∧ in_order rs ∧
  (serve l rs).1 !! 3%nat = Some (mkRequest "a" 3, mkRateLimitResult false 0 59) ∧
  false = false ∧ 0 = 0 ∧
  ∃ h, head (recent (60 * SECOND) 3 (accepted "a" (take 3 (serve l rs).1))) = Some h ∧
    59 = (60 * SECOND - (3 - h)) / SECOND ∧ 0 ≤ 59 ≤ 60.
Proof.
  split; [reflexivity|]. split; [repeat constructor; simpl; lia|]. split; [reflexivity|].
  pose proof (rate_limit_window 2 60 (mkRateLimiter 2 60 ∅)
    [mkRequest "a" 0; mkRequest "a" 1; mkRequest "b" 2; mkRequest "a" 3] 3 (mkRequest "a" 3)
    (mkRateLimitResult false 0 59) eq_refl ltac:(repeat constructor; simpl; lia) ltac:(reflexivity)) as H.
  cbn [rq_time rq_key] in H.
  replace (recent (60 * SECOND) 3 _) with [0; 1] in H by (vm_compute; reflexivity).
  replace (recent (60 * SECOND) 3 _) with [0; 1] by (vm_compute; reflexivity). exact H.
Defined.

(** No window of the length, wherever it ends, holds more accepted requests of
    a key than the limit. *)
Lemma accepted_in_window last l rs key t i :
  limiter_inv last [] l → 0 < _limit l → in_order rs → (∀ r, r ∈ rs → last ≤ rq_time r) →
  Z.of_nat (length (filter (fun h => t - _window_seconds l * SECOND < h ≤ t)
    (accepted key (take i (serve l rs).1)))) ≤ _limit l.
Proof.
  intros Hinv Hlim Ho Hlast. induction i as [|i IH]; [simpl; lia|].
  destruct ((serve l rs).1 !! i) as [[r res]|] eqn:Hi.
  2: { apply lookup_ge_None in Hi. rewrite take_ge in IH |- * by lia. done. }
  rewrite (take_S_r _ _ _ Hi), accepted_snoc, filter_app, length_app.
  destruct (decide (rq_key r = key ∧ allowed res = true ∧ rq_time r ≤ t)) as [(<- & Ha & Ht)|Hno].
  - rewrite Ha, bool_decide_eq_true_2 by done. cbn [andb].
    pose proof (serve_decisions last [] l rs Hinv Hlim Ho Hlast i r res Hi) as Hd.
    cbn [app] in Hd. unfold answer in Hd. destruct (Z.ltb_spec (Z.of_nat (length (recent
      (_window_seconds l * SECOND) (rq_time r) (accepted (rq_key r) (take i (serve l rs).1))))) (_limit l)) as [Hlt|];
      [|by subst res]. clear Hd.
    set (acc := accepted (rq_key r) (take i (serve l rs).1)) in *.
    pose proof (length_filter (fun h => t - _window_seconds l * SECOND < h ≤ t) [rq_time r]).
    assert (length (filter (fun h => (t - _window_seconds l * SECOND < h ≤ t)%Z) acc) ≤
            length (recent (_window_seconds l * SECOND) (rq_time r) acc))%nat; [|simpl in *; lia].
    unfold recent. clear -Ht. induction acc as [|h acc IH]; [done|].
    rewrite !filter_cons. repeat case_decide; simpl; lia.
  - assert (filter (fun h => t - _window_seconds l * SECOND < h ≤ t)
      (if bool_decide (rq_key r = key) && allowed res then [rq_time r] else []) = []) as ->;
      [|simpl; lia].
    case_bool_decide; [|done]. destruct (allowed res); [|done]. cbn [andb].
    apply filter_none. intros h ->%list_elem_of_singleton [_ Ht]. by apply Hno.
Qed.
