(* ===== verification/Backpressure.v ===== *)
(** * The in-flight limit (security/backpressure.py)

    [QueueDepthGuard] counts the calls in progress.  Its methods run under a
    lock, so that concurrent callers are interleavings of whole calls: a
    caller of [guarded] acquires, runs its body, and releases when the body
    ends, by returning or by raising.  The invariant of the interleavings ties
    the counter to the callers that are inside. *)
From stdpp Require Export gmap.
From S2P Require Export Prelude.

#[local] Open Scope Z_scope.

Record QueueDepthGuard := mkGuard {
  _max : Z;
  _current : Z;
  _rejected_total : Z;
  _peak : Z }.

Definition QueueDepthGuard_init (max_in_flight : Z) : result QueueDepthGuard :=
  if max_in_flight <=? 0 then raise ValueError "max_in_flight must be positive"
  else Ok (mkGuard max_in_flight 0 0 0).

Definition current_depth (g : QueueDepthGuard) : Z := _current g.
Definition rejected_total (g : QueueDepthGuard) : Z := _rejected_total g.
Definition peak_depth (g : QueueDepthGuard) : Z := _peak g.

(** [acquire] raises after it has counted the rejection, so that it returns
    the state in both cases. *)
Definition acquire (g : QueueDepthGuard) : result unit * QueueDepthGuard :=
  if _max g <=? _current g then
    (raise BackpressureError "Server overloaded: {}/{} in-flight requests. Retry after a short delay.",
     mkGuard (_max g) (_current g) (_rejected_total g + 1) (_peak g))
  else
    let current := _current g + 1 in
    (Ok tt, mkGuard (_max g) current (_rejected_total g)
              (if _peak g <? current then current else _peak g)).

Definition release (g : QueueDepthGuard) : QueueDepthGuard :=
  mkGuard (_max g) (Z.max 0 (_current g - 1)) (_rejected_total g) (_peak g).

Definition snapshot (g : QueueDepthGuard) : list (string * Z) :=
  [("in_flight", _current g); ("max_in_flight", _max g);
   ("peak_in_flight", _peak g); ("rejected_total", _rejected_total g)].

(** ** Callers of [guarded] *)

(** A caller is in its body, or its body has ended, or it was not let in. *)
Inductive caller :=
  | Inside
  | Finished (outcome : result unit)
  | Rejected (e : exn).

Record world := mkWorld { guard : QueueDepthGuard; callers : list caller }.

(** A new caller is let in or rejected by [acquire]; one that is inside leaves
    when its body returns or raises, through the [finally]. *)
Inductive guarded_step : world → world → Prop :=
  | step_enter w g :
      acquire (guard w) = (Ok tt, g) → guarded_step w (mkWorld g (callers w ++ [Inside]))
  | step_reject w g e :
      acquire (guard w) = (Raise e, g) → guarded_step w (mkWorld g (callers w ++ [Rejected e]))
  | step_leave w i outcome :
      callers w !! i = Some Inside →
      guarded_step w (mkWorld (release (guard w)) (<[i := Finished outcome]> (callers w))).

Definition start (g : QueueDepthGuard) : world := mkWorld g [].

Definition is_inside (c : caller) : bool := match c with Inside => true | _ => false end.
Definition is_rejected (c : caller) : bool := match c with Rejected _ => true | _ => false end.
Definition count (p : caller → bool) (l : list caller) : Z := Z.of_nat (length (List.filter p l)).

(** ** The methods *)

Lemma acquire_spec g :
  acquire g =
  if decide (_current g < _max g)
  then (Ok tt, mkGuard (_max g) (_current g + 1) (_rejected_total g) (Z.max (_peak g) (_current g + 1)))
  else (raise BackpressureError "Server overloaded: {}/{} in-flight requests. Retry after a short delay.",
        mkGuard (_max g) (_current g) (_rejected_total g + 1) (_peak g)).
Proof.
  unfold acquire. destruct (Z.leb_spec (_max g) (_current g)); case_decide; try lia; [done|].
  do 2 f_equal. destruct (Z.ltb_spec (_peak g) (_current g + 1)); lia.
Qed.

(** An [acquire] that succeeds is undone by a [release], but for the peak. *)
Lemma release_acquire g g' :
  0 ≤ _current g → acquire g = (Ok tt, g') →
  _current (release g') = _current g ∧ _max (release g') = _max g.
Proof. intros Hc. rewrite acquire_spec. case_decide; intros [= <-]. simpl. lia. Qed.

(** ** The invariant *)

Lemma count_app p l k : count p (l ++ k) = count p l + count p k.
Proof. unfold count. rewrite List.filter_app, length_app. lia. Qed.

Lemma count_insert p l i x y :
  l !! i = Some x → count p (<[i := y]> l) = count p l - Z.b2z (p x) + Z.b2z (p y).
Proof.
  unfold count. revert i. induction l as [|z l IH]; intros [|i]; simpl; intros H; try done.
  - injection H as ->. destruct (p x), (p y); simpl; lia.
  - specialize (IH i H). destruct (p z); simpl; lia.
Qed.

Definition world_inv (m : Z) (w : world) : Prop :=
  _max (guard w) = m ∧ _current (guard w) = count is_inside (callers w) ∧
  _current (guard w) ≤ _peak (guard w) ≤ m ∧
  _rejected_total (guard w) = count is_rejected (callers w).

Lemma count_nonneg p l : 0 ≤ count p l.
Proof. unfold count. lia. Qed.

Lemma step_inv m w w' : guarded_step w w' → world_inv m w → world_inv m w'.
Proof.
  intros Hstep (Hm & Hc & Hp & Hr). pose proof (count_nonneg is_inside (callers w)).
  destruct Hstep as [w g Ha|w g e Ha|w i o Hi]; try (rewrite acquire_spec in Ha; case_decide; simplify_eq);
    unfold world_inv; cbn [guard callers _max _current _peak _rejected_total release];
    rewrite ?count_app, ?(count_insert _ _ _ _ _ Hi); cbn [is_inside is_rejected Z.b2z];
    try change (count is_inside [Inside]) with 1; try change (count is_rejected [Inside]) with 0;
    try change (count is_inside [Rejected _]) with 0; try change (count is_rejected [Rejected _]) with 1;
    try lia.
  unfold release. cbn [_current _max _peak _rejected_total].
  assert (0 < count is_inside (callers w)); [|lia].
  pose proof (count_insert is_inside (callers w) i _ (Finished o) Hi) as Hk. simpl in Hk.
  pose proof (count_nonneg is_inside (<[i := Finished o]> (callers w))). lia.
Qed.

Lemma start_inv m g : QueueDepthGuard_init m = Ok g → 0 < m ∧ world_inv m (start g).
Proof. unfold QueueDepthGuard_init. destruct (Z.leb_spec m 0); [done|]. intros [= <-]. split; [done|]. unfold world_inv, count; simpl; lia. Qed.

Lemma guard_reachable_inv m g w :
  QueueDepthGuard_init m = Ok g → rtc guarded_step (start g) w → world_inv m w.
Proof.
  intros [_ Hinv]%start_inv. induction 1; eauto using step_inv.
Qed.

(** However callers interleave, the number inside is what the counter says
    and never exceeds the limit; the peak lies between the two; rejections are
    counted exactly; a caller is rejected only when the limit is reached; and
    when no caller is inside the counter is back at zero, whether the bodies
    returned or raised. *)
Theorem guarded_depth_bounded (max_in_flight : Z) (g : QueueDepthGuard) (w : world) :
  QueueDepthGuard_init max_in_flight = Ok g → rtc guarded_step (start g) w →
  current_depth (guard w) = count is_inside (callers w) ∧
  count is_inside (callers w) ≤ peak_depth (guard w) ≤ max_in_flight ∧
  rejected_total (guard w) = count is_rejected (callers w) ∧
  ((∃ e, (acquire (guard w)).1 = Raise e) ↔ count is_inside (callers w) = max_in_flight).
Proof.
  intros Hg Hw. destruct (guard_reachable_inv _ _ _ Hg Hw) as (Hm & Hc & Hp & Hr).
  unfold current_depth, peak_depth, rejected_total. split; [done|]. split; [lia|]. split; [done|].
  rewrite acquire_spec. case_decide; cbn [fst]; split; [by intros []|lia|lia|by eexists].
Qed.

Example guarded_depth_bounded_witness :
  let g := mkGuard 1 0 0 0 in
  let g' := mkGuard 1 1 1 1 in
  let w := mkWorld g' [Inside; Rejected (Exn BackpressureError
    "Server overloaded: {}/{} in-flight requests. Retry after a short delay.")] in
  QueueDepthGuard_init 1 = Ok g ∧ rtc guarded_step (start g) w ∧
  current_depth (guard w) = count is_inside (callers w) ∧
  count is_inside (callers w) ≤ peak_depth (guard w) ≤ 1 ∧
  rejected_total (guard w) = count is_rejected (callers w) ∧
  ((∃ e, (acquire (guard w)).1 = Raise e) ↔ count is_inside (callers w) = 1).
Proof.
  intros g g' w.
  assert (rtc guarded_step (start g) w) as Hw.
  { eapply rtc_l; [by eapply step_enter|]. eapply rtc_l; [by eapply step_reject|]. apply rtc_refl. }
  split; [reflexivity|]. split; [exact Hw|].
  apply (guarded_depth_bounded 1 g w); [reflexivity|exact Hw].
Defined.
