(* ===== verification/ApiKeys.v ===== *)
(** * API keys (security/api_keys.py)

    The store maps the SHA-256 of a key to its record; raw keys are arguments
    of its methods and in no part of its state.  [time.strftime] is an
    argument of the methods that read the date.  Each method holds the store's
    lock, so that concurrent calls are interleavings of whole calls. *)
From S2P Require Export Hashlib.

#[local] Open Scope Z_scope.

Record ApiKeyRecord := mkApiKey {
  key_id : string;
  key_hash : string;
  label : string;
  requests_total : Z;
  requests_today : Z;
  _day_bucket : string }.

(** [_keys], in the order of the first registrations *)
Definition ApiKeyStore : Type := list (string * ApiKeyRecord).

Definition tick (today : string) (r : ApiKeyRecord) : ApiKeyRecord :=
  let '(today_count, bucket) :=
    if decide (today = _day_bucket r) then (requests_today r, _day_bucket r) else (0, today) in
  mkApiKey (key_id r) (key_hash r) (label r) (requests_total r + 1) (today_count + 1) bucket.

Definition register (today label raw_key : string) (keys : ApiKeyStore) : string * ApiKeyStore :=
  let key_hash := sha256_hex raw_key in
  let key_id := str_take 8 key_hash in
  (key_id, dict_set key_hash (mkApiKey key_id key_hash label 0 0 today) keys).

(** The body of the loop of [_load_from_env]. *)
Definition load_entry (today : string) (keys : ApiKeyStore) (entry : string) : ApiKeyStore :=
  let entry := str_strip entry in
  if negb (str_contains ":" entry) then keys
  else
    let '(label, key) := str_split1 ":" entry in
    (register today (str_strip label) (str_strip key) keys).2.

Definition _load_from_env (today raw : string) (keys : ApiKeyStore) : ApiKeyStore :=
  if decide (raw = "") then keys
  else foldl (load_entry today) keys (str_split "," raw).

Definition ApiKeyStore_init (today vrl_api_keys : string) : ApiKeyStore :=
  _load_from_env today vrl_api_keys [].

Definition authenticate (today raw_key : string) (keys : ApiKeyStore)
    : option ApiKeyRecord * ApiKeyStore :=
  let key_hash := sha256_hex raw_key in
  match dict_get key_hash keys with
  | None => (None, keys)
  | Some record =>
      let record := tick today record in
      (Some record, dict_set key_hash record keys)
  end.

Definition is_enabled (keys : ApiKeyStore) : bool := (0 <? length keys)%nat.

Record ApiKeySnapshot := mkApiKeySnapshot {
  sn_key_id : string; sn_label : string; sn_requests_total : Z; sn_requests_today : Z }.

Definition snapshot (keys : ApiKeyStore) : list ApiKeySnapshot :=
  map (fun r => mkApiKeySnapshot (key_id r) (label r) (requests_total r) (requests_today r))
    (dict_values keys).

(** ** Histories *)

Inductive call :=
  | Register (label raw_key : string)
  | Authenticate (raw_key : string).

Definition run_call (c : string * call) (keys : ApiKeyStore) : ApiKeyStore :=
  match c.2 with
  | Register label raw_key => (register c.1 label raw_key keys).2
  | Authenticate raw_key => (authenticate c.1 raw_key keys).2
  end.

(** The calls of a history, the first one first, each with its date. *)
Definition run_calls (cs : list (string * call)) (keys : ApiKeyStore) : ApiKeyStore :=
  foldl (fun keys c => run_call c keys) keys cs.

(** What a history says of a key: the label and date of its last
    registration, and the dates of the authentications since. *)
Definition account (h : string) (cs : list (string * call)) : option (string * string * list string) :=
  foldl (fun acc c =>
    match c.2 with
    | Register label raw_key =>
        if decide (sha256_hex raw_key = h) then Some (label, c.1, []) else acc
    | Authenticate raw_key =>
        if decide (sha256_hex raw_key = h)
        then (fun '(l, d, uses) => (l, d, uses ++ [c.1])) <$> acc else acc
    end) None cs.

(** How many of the last of a list of dates are the last date. *)
Definition last_run (d : string) (uses : list string) : string * Z :=
  foldl (fun '(bucket, n) today => if decide (today = bucket) then (bucket, n + 1) else (today, 1))
    (d, 0) uses.

Definition record_of (h : string) (a : string * string * list string) : ApiKeyRecord :=
  let '(l, d, uses) := a in
  mkApiKey (str_take 8 h) h l (Z.of_nat (length uses)) (last_run d uses).2 (last_run d uses).1.

(** ** Properties *)

Lemma run_calls_snoc cs c keys : run_calls (cs ++ [c]) keys = run_call c (run_calls cs keys).
Proof. unfold run_calls. by rewrite foldl_app. Qed.

Lemma last_run_snoc d uses today :
  last_run d (uses ++ [today]) =
  (let '(bucket, n) := last_run d uses in
   if decide (today = bucket) then (bucket, n + 1) else (today, 1)).
Proof. unfold last_run. rewrite foldl_app. simpl. by destruct (foldl _ _ uses). Qed.

Lemma tick_record h l d uses today :
  tick today (record_of h (l, d, uses)) = record_of h (l, d, uses ++ [today]).
Proof.
  unfold tick, record_of. cbn [_day_bucket requests_today requests_total key_id key_hash label].
  rewrite last_run_snoc, length_app. destruct (last_run d uses) as [bucket n]. cbn [fst snd].
  case_decide; subst; cbn [fst snd length]; f_equal; lia.
Qed.

(** The store is the account of its history. *)
Lemma run_calls_account h cs : dict_get h (run_calls cs []) = record_of h <$> account h cs.
Proof.
  induction cs as [|[today c] cs IH] using rev_ind; [done|].
  rewrite run_calls_snoc. unfold account. rewrite foldl_app. fold (account h cs). cbn [foldl snd fst].
  unfold run_call. cbn [fst snd]. destruct c as [l raw|raw].
  - unfold register. cbn [snd]. destruct (decide (sha256_hex raw = h)) as [<-|Hne].
    + by rewrite dict_get_set_eq.
    + by rewrite dict_get_set_ne.
  - unfold authenticate. destruct (decide (sha256_hex raw = h)) as [<-|Hne].
    + rewrite IH. destruct (account (sha256_hex raw) cs) as [[[l d] uses]|].
      * simpl. rewrite dict_get_set_eq. f_equal. apply tick_record.
      * done.
    + destruct (dict_get (sha256_hex raw) (run_calls cs [])); cbn [snd];
        [by rewrite dict_get_set_ne|done].
Qed.

Lemma run_calls_wf cs : dict_wf (run_calls cs []).
Proof.
  induction cs as [|[today c] cs IH] using rev_ind; [constructor|].
  rewrite run_calls_snoc. unfold run_call. destruct c as [l raw|raw]; cbn [snd]; [apply dict_set_wf, IH|].
  unfold authenticate. case_match; [apply dict_set_wf, IH|exact IH].
Qed.

(** A key is accepted exactly when it has been registered, whatever was
    registered and authenticated before; the record returned carries the label
    of the key's last registration, the number of its authentications since,
    this one included, and how many of these fall on the last date in a row. *)
Theorem authenticate_account (cs : list (string * call)) (today raw_key : string) :
  (authenticate today raw_key (run_calls cs [])).1 =
  record_of (sha256_hex raw_key) <$>
    ((fun '(l, d, uses) => (l, d, uses ++ [today])) <$> account (sha256_hex raw_key) cs).
Proof.
  unfold authenticate. rewrite run_calls_account.
  destruct (account _ cs) as [[[l d] uses]|]; [|done]. simpl. f_equal. apply tick_record.
Qed.

(** The account of a key that was registered is there. *)
Lemma account_registered h cs :
  is_Some (account h cs) ↔ ∃ d l raw, (d, Register l raw) ∈ cs ∧ sha256_hex raw = h.
Proof.
  induction cs as [|[today c] cs IH] using rev_ind.
  { split; [by intros []|]. intros (? & ? & ? & ? & _). set_solver. }
  unfold account. rewrite foldl_app. fold (account h cs). cbn [foldl snd fst].
  setoid_rewrite elem_of_app. destruct c as [l raw|raw]; (destruct (decide (sha256_hex raw = h)) as [E|E]).
  - split; [|by eexists]. intros _. exists today, l, raw. set_solver.
  - rewrite IH. split; intros (d & l' & raw' & H & E'); exists d, l', raw'; set_solver.
  - rewrite fmap_is_Some, IH. split; intros (d & l' & raw' & H & E'); exists d, l', raw'; set_solver.
  - rewrite IH. split; intros (d & l' & raw' & H & E'); exists d, l', raw'; set_solver.
Qed.

(** A refused key leaves the store as it is. *)
Lemma authenticate_refused today raw keys :
  (authenticate today raw keys).1 = None → (authenticate today raw keys).2 = keys.
Proof. unfold authenticate. by case_match. Qed.

(** Registering a key again restarts its counts. *)
Lemma register_again today l raw keys :
  dict_get (sha256_hex raw) (register today l raw keys).2 =
  Some (mkApiKey (str_take 8 (sha256_hex raw)) (sha256_hex raw) l 0 0 today).
Proof. apply dict_get_set_eq. Qed.

(** The environment variable registers its well-formed entries in order. *)
Definition env_entries (raw : string) : list call :=
  omap (fun entry =>
    let entry := str_strip entry in
    if str_contains ":" entry then
      let '(label, key) := str_split1 ":" entry in Some (Register (str_strip label) (str_strip key))
    else None)
  (if decide (raw = "") then [] else str_split "," raw).

Lemma load_from_env_calls today raw :
  ApiKeyStore_init today raw = run_calls (map (pair today) (env_entries raw)) [].
Proof.
  unfold ApiKeyStore_init, _load_from_env, env_entries, run_calls. case_decide; [done|].
  generalize (@nil (string * ApiKeyRecord)) as keys. induction (str_split "," raw) as [|e es IH];
    intros keys; [done|]. cbn [foldl]. rewrite IH. unfold load_entry. cbn [omap list_omap].
  destruct (str_contains ":" (str_strip e)); cbn [negb]; [|done].
  by destruct (str_split1 ":" (str_strip e)).
Qed.

Example env_example :
  map sn_label (snapshot (ApiKeyStore_init "2026-01-01" " service-a : sk1 ,broken,service-b:sk:2")) =
  ["service-a"; "service-b"].
Proof. vm_compute. reflexivity. Qed.
