(* ===== verification/Artifacts.v ===== *)
(** * Typed artifacts of the proof pipeline (zk/interfaces.py)

    The five kinds of artifact as records over a common header, their dumps,
    the validators that run when one is built, and the builders.  A validator
    raises [ValueError], which pydantic turns into [ValidationError]; the
    [TypeError] of a float in a payload passes through. *)
From S2P Require Export Schemas AuditChain.

#[local] Open Scope Z_scope.

(** ** Kinds and headers *)

Inductive ArtifactType := CIRCUIT | TRACE | WITNESS | PROOF | VERIFICATION_RESULT.

#[global] Instance artifact_type_eq_dec : EqDecision ArtifactType.
Proof. solve_decision. Defined.

Definition type_value (t : ArtifactType) : string :=
  match t with
  | CIRCUIT => "circuit"
  | TRACE => "trace"
  | WITNESS => "witness"
  | PROOF => "proof"
  | VERIFICATION_RESULT => "verification_result"
  end.

(** [ArtifactType(value)] *)
Definition type_of_value (s : string) : result ArtifactType :=
  match list_find (fun t => type_value t = s) [CIRCUIT; TRACE; WITNESS; PROOF; VERIFICATION_RESULT] with
  | Some (_, t) => Ok t
  | None => raise ValueError "{} is not a valid ArtifactType"
  end.

(** The fields of [DeterministicArtifact] but the type, which is the
    constructor of [artifact]. *)
Record header := mkHeader { artifact_id : string; produced_by : string; cycle : Z }.

#[global] Instance header_eq_dec : EqDecision header.
Proof. solve_decision. Defined.

Record CircuitConstraint := mkConstraint {
  cc_name : string; cc_purpose : string; cc_inputs : list string; cc_outputs : list string }.

Record Circuit := mkCircuit {
  c_header : header;
  c_name : string;
  c_description : string;
  c_framework : string;
  c_public_inputs : list string;
  c_private_inputs : list string;
  c_constraints : list CircuitConstraint;
  c_constraint_count : Z;
  c_complexity_budget : Z }.

Record Trace := mkTrace {
  t_header : header;
  t_input_hash : string;
  t_steps : list TraceStep;
  t_canonical_trace : string;
  t_trace_hash : string }.

Record Witness := mkWitnessArtifact {
  w_header : header;
  w_trace_artifact_id : string;
  w_input : string;
  w_output : string;
  w_trace : string;
  w_public_inputs : list (string * string);
  w_private_inputs : list (string * pyval);
  w_canonical_witness : string;
  w_witness_hash : string }.

Record Proof_ := mkProof {
  p_header : header;
  p_proof_system : string;
  p_circuit_artifact_id : string;
  p_witness_artifact_id : string;
  p_commitments : list string;
  p_public_inputs : list string;
  p_metadata : list (string * string);
  p_proof_blob_hex : string;
  p_proof_hash : string;
  p_input_hash : string;
  p_output_hash : string;
  p_trace_hash : string;
  p_final_proof : string }.

Record VerificationResult := mkVerificationResult {
  v_header : header;
  v_subject_artifact_id : string;
  v_verifier_backend : string;
  v_status : audit_status;
  v_reason : string;
  v_checks : list string;
  v_metadata : list (string * string);
  v_verification_hash : string }.

Inductive artifact :=
  | ACircuit (c : Circuit)
  | ATrace (t : Trace)
  | AWitness (w : Witness)
  | AProof (p : Proof_)
  | AVerification (v : VerificationResult).

Definition artifact_type (a : artifact) : ArtifactType :=
  match a with
  | ACircuit _ => CIRCUIT | ATrace _ => TRACE | AWitness _ => WITNESS | AProof _ => PROOF
  | AVerification _ => VERIFICATION_RESULT
  end.

Definition header_of (a : artifact) : header :=
  match a with
  | ACircuit c => c_header c | ATrace t => t_header t | AWitness w => w_header w
  | AProof p => p_header p | AVerification v => v_header v
  end.

(** ** Dumps *)

Definition strs (l : list string) : pyval := PList (map PStr l).

Definition dump_header (t : ArtifactType) (h : header) : list (string * pyval) :=
  [("artifact_type", PStr (type_value t)); ("artifact_id", PStr (artifact_id h));
   ("produced_by", PStr (produced_by h)); ("cycle", PInt (cycle h))].

Definition dump_constraint (c : CircuitConstraint) : pyval :=
  PDict [("name", PStr (cc_name c)); ("purpose", PStr (cc_purpose c));
         ("inputs", strs (cc_inputs c)); ("outputs", strs (cc_outputs c))].

Definition status_text (s : audit_status) : string :=
  match s with VALID => "VALID" | INVALID => "INVALID" end.

(** [metadata.get('circuit_hash', '')], dumped with the other computed fields *)
Definition circuit_hash (p : Proof_) : string := default "" (dict_get "circuit_hash" (p_metadata p)).

Definition dump_fields (a : artifact) : list (string * pyval) :=
  match a with
  | ACircuit c =>
      [("name", PStr (c_name c)); ("description", PStr (c_description c));
       ("framework", PStr (c_framework c)); ("public_inputs", strs (c_public_inputs c));
       ("private_inputs", strs (c_private_inputs c));
       ("constraints", PList (map dump_constraint (c_constraints c)));
       ("constraint_count", PInt (c_constraint_count c));
       ("complexity_budget", PInt (c_complexity_budget c))]
  | ATrace t =>
      [("input_hash", PStr (t_input_hash t)); ("steps", dump_trace (t_steps t));
       ("canonical_trace", PStr (t_canonical_trace t)); ("trace_hash", PStr (t_trace_hash t))]
  | AWitness w =>
      [("trace_artifact_id", PStr (w_trace_artifact_id w)); ("input_hash", PStr (w_input w));
       ("output_hash", PStr (w_output w)); ("trace_hash", PStr (w_trace w));
       ("public_inputs", str_dict (w_public_inputs w)); ("private_inputs", PDict (w_private_inputs w));
       ("canonical_witness", PStr (w_canonical_witness w)); ("witness_hash", PStr (w_witness_hash w))]
  | AProof p =>
      [("proof_system", PStr (p_proof_system p)); ("circuit_artifact_id", PStr (p_circuit_artifact_id p));
       ("witness_artifact_id", PStr (p_witness_artifact_id p)); ("commitments", strs (p_commitments p));
       ("public_inputs", strs (p_public_inputs p)); ("metadata", str_dict (p_metadata p));
       ("proof_blob_hex", PStr (p_proof_blob_hex p)); ("proof_hash", PStr (p_proof_hash p));
       ("input_hash", PStr (p_input_hash p)); ("output_hash", PStr (p_output_hash p));
       ("trace_hash", PStr (p_trace_hash p)); ("final_proof", PStr (p_final_proof p));
       ("proof_bytes", PStr (p_proof_blob_hex p)); ("proving_system", PStr (p_proof_system p));
       ("circuit_hash", PStr (circuit_hash p))]
  | AVerification v =>
      [("subject_artifact_id", PStr (v_subject_artifact_id v));
       ("verifier_backend", PStr (v_verifier_backend v)); ("status", PStr (status_text (v_status v)));
       ("reason", PStr (v_reason v)); ("checks", strs (v_checks v));
       ("metadata", str_dict (v_metadata v)); ("verification_hash", PStr (v_verification_hash v))]
  end.

(** [model_dump(mode='python')] *)
Definition dump_artifact (a : artifact) : list (string * pyval) :=
  dump_header (artifact_type a) (header_of a) ++ dump_fields a.

Definition artifact_payload (a : artifact) : result string := canonical_payload (PDict (dump_artifact a)).

Definition content_hash (a : artifact) : result string := sha256_hex <$> artifact_payload a.

Definition artifact_size_bytes (a : artifact) : result Z :=
  (fun s => Z.of_nat (length (utf8 s))) <$> artifact_payload a.

Definition summarize_artifact (a : artifact) : result (list (string * pyval)) :=
  h ← content_hash a;
  Ok [("artifact_id", PStr (artifact_id (header_of a)));
      ("artifact_type", PStr (type_value (artifact_type a)));
      ("produced_by", PStr (produced_by (header_of a)));
      ("cycle", PInt (cycle (header_of a))); ("content_hash", PStr h)].

(** ** Validators *)

(** What pydantic makes of the exceptions of a validator. *)
Definition as_validation {A} (r : result A) : result A :=
  match r with
  | Raise (Exn ValueError m) => Raise (Exn ValidationError m)
  | r => r
  end.

(** Both checks of the validators that keep a canonical text and its hash. *)
Definition check_text {A} (text_error hash_error : string) (payload : pyval) (text hash : string)
    (a : A) : result A :=
  expected_canonical ← canonical_payload payload;
  if negb (bool_decide (text = expected_canonical)) then raise ValueError text_error
  else if negb (bool_decide (hash = sha256_hex expected_canonical)) then raise ValueError hash_error
  else Ok a.

(** ... and of those that keep the hash only. *)
Definition check_hash {A} (error : string) (payload : pyval) (hash : string) (a : A) : result A :=
  expected_hash ← hash_payload payload;
  if negb (bool_decide (hash = expected_hash)) then raise ValueError error else Ok a.

Definition validate_constraint_count (c : Circuit) : result Circuit :=
  if negb (c_constraint_count c =? Z.of_nat (length (c_constraints c)))
  then raise ValueError "constraint_count must match the number of constraints" else Ok c.

Definition validate_trace_hash (t : Trace) : result Trace :=
  check_text "canonical_trace does not match the canonicalized trace steps"
    "trace_hash does not match canonical_trace"
    (dump_trace (t_steps t)) (t_canonical_trace t) (t_trace_hash t) t.

Definition witness_fields (trace_artifact_id input_hash output_hash trace_hash : string)
    (public_inputs : list (string * string)) (private_inputs : list (string * pyval))
    : list (string * pyval) :=
  [("trace_artifact_id", PStr trace_artifact_id); ("input_hash", PStr input_hash);
   ("output_hash", PStr output_hash); ("trace_hash", PStr trace_hash);
   ("public_inputs", str_dict public_inputs); ("private_inputs", PDict private_inputs)].

Definition witness_fields_of (w : Witness) : list (string * pyval) :=
  witness_fields (w_trace_artifact_id w) (w_input w) (w_output w) (w_trace w) (w_public_inputs w)
    (w_private_inputs w).

Definition validate_witness_hash (w : Witness) : result Witness :=
  check_text "canonical_witness does not match the witness payload"
    "witness_hash does not match canonical_witness"
    (PDict (witness_fields_of w)) (w_canonical_witness w) (w_witness_hash w) w.

Definition proof_fields (proof_system circuit_artifact_id witness_artifact_id : string)
    (commitments public_inputs : list string) (metadata : list (string * string))
    (proof_blob_hex input_hash output_hash trace_hash final_proof : string) : list (string * pyval) :=
  [("proof_system", PStr proof_system); ("circuit_artifact_id", PStr circuit_artifact_id);
   ("witness_artifact_id", PStr witness_artifact_id); ("commitments", strs commitments);
   ("public_inputs", strs public_inputs); ("metadata", str_dict metadata);
   ("proof_blob_hex", PStr proof_blob_hex); ("input_hash", PStr input_hash);
   ("output_hash", PStr output_hash); ("trace_hash", PStr trace_hash);
   ("final_proof", PStr final_proof)].

Definition proof_fields_of (p : Proof_) : list (string * pyval) :=
  proof_fields (p_proof_system p) (p_circuit_artifact_id p) (p_witness_artifact_id p)
    (p_commitments p) (p_public_inputs p) (p_metadata p) (p_proof_blob_hex p) (p_input_hash p)
    (p_output_hash p) (p_trace_hash p) (p_final_proof p).

Definition validate_proof_hash (p : Proof_) : result Proof_ :=
  check_hash "proof_hash does not match the canonical proof payload"
    (PDict (proof_fields_of p)) (p_proof_hash p) p.

Definition verification_fields (subject_artifact_id verifier_backend : string) (status : audit_status)
    (reason : string) (checks : list string) (metadata : list (string * string))
    : list (string * pyval) :=
  [("subject_artifact_id", PStr subject_artifact_id); ("verifier_backend", PStr verifier_backend);
   ("status", PStr (status_text status)); ("reason", PStr reason); ("checks", strs checks);
   ("metadata", str_dict metadata)].

Definition verification_fields_of (v : VerificationResult) : list (string * pyval) :=
  verification_fields (v_subject_artifact_id v) (v_verifier_backend v) (v_status v) (v_reason v)
    (v_checks v) (v_metadata v).

Definition validate_verification_hash (v : VerificationResult) : result VerificationResult :=
  check_hash "verification_hash does not match the canonical verification payload"
    (PDict (verification_fields_of v)) (v_verification_hash v) v.

(** The validator of an artifact's class. *)
Definition validate_artifact (a : artifact) : result artifact :=
  match a with
  | ACircuit c => ACircuit <$> validate_constraint_count c
  | ATrace t => ATrace <$> validate_trace_hash t
  | AWitness w => AWitness <$> validate_witness_hash w
  | AProof p => AProof <$> validate_proof_hash p
  | AVerification v => AVerification <$> validate_verification_hash v
  end.

(** ** Builders *)

Definition artifact_id_for (artifact_type : ArtifactType) (payload : list (string * pyval))
    : result string :=
  h ← hash_payload (PDict payload);
  Ok (type_value artifact_type +:+ "_" +:+ str_take 24 h).

Definition origin (produced_by : string) (cycle : Z) : list (string * pyval) :=
  [("produced_by", PStr produced_by); ("cycle", PInt cycle)].

(** A constraint given as a dictionary: strings and lists of strings under the
    four names, and nothing else. *)
Definition as_str (v : pyval) : option string := match v with PStr s => Some s | _ => None end.
Definition as_strs (v : pyval) : option (list string) :=
  match v with PList l | PTuple l => mapM as_str l | PSet l => Some l | _ => None end.

Definition validate_constraint (d : list (string * pyval)) : result CircuitConstraint :=
  let built :=
    name ← dict_get "name" d ≫= as_str;
    purpose ← dict_get "purpose" d ≫= as_str;
    inputs ← dict_get "inputs" d ≫= as_strs;
    outputs ← dict_get "outputs" d ≫= as_strs;
    if decide (dict_keys d ⊆ ["name"; "purpose"; "inputs"; "outputs"])
    then Some (mkConstraint name purpose inputs outputs) else None in
  match built with
  | Some c => Ok c
  | None => raise ValidationError "{} validation errors for CircuitConstraint"
  end.

Definition build_circuit_artifact (name description framework : string)
    (public_inputs private_inputs : list string) (constraints : list (list (string * pyval)))
    (produced_by : string) (cycle complexity_budget : Z) : result Circuit :=
  let count := Z.of_nat (length constraints) in
  id ← artifact_id_for CIRCUIT
    ([("name", PStr name); ("description", PStr description); ("framework", PStr framework);
      ("public_inputs", strs public_inputs); ("private_inputs", strs private_inputs);
      ("constraints", PList (map PDict constraints)); ("constraint_count", PInt count);
      ("complexity_budget", PInt complexity_budget)] ++ origin produced_by cycle);
  cs ← traverse validate_constraint constraints;
  as_validation (validate_constraint_count
    (mkCircuit (mkHeader id produced_by cycle) name description framework public_inputs
       private_inputs cs count complexity_budget)).

Definition build_trace_artifact (input_hash : string) (steps : list TraceStep) (produced_by : string)
    (cycle : Z) : result Trace :=
  canonical_trace ← canonical_payload (dump_trace steps);
  let trace_hash := sha256_hex canonical_trace in
  id ← artifact_id_for TRACE
    ([("input_hash", PStr input_hash); ("canonical_trace", PStr canonical_trace);
      ("trace_hash", PStr trace_hash)] ++ origin produced_by cycle);
  as_validation (validate_trace_hash
    (mkTrace (mkHeader id produced_by cycle) input_hash steps canonical_trace trace_hash)).

Definition build_witness_artifact (trace_artifact_id input_hash output_hash trace_hash : string)
    (public_inputs : list (string * string)) (private_inputs : list (string * pyval))
    (produced_by : string) (cycle : Z) : result Witness :=
  let witness_payload := witness_fields trace_artifact_id input_hash output_hash trace_hash
                           public_inputs private_inputs in
  canonical_witness ← canonical_payload (PDict witness_payload);
  let witness_hash := sha256_hex canonical_witness in
  id ← artifact_id_for WITNESS
    (witness_payload ++ [("witness_hash", PStr witness_hash)] ++ origin produced_by cycle);
  as_validation (validate_witness_hash
    (mkWitnessArtifact (mkHeader id produced_by cycle) trace_artifact_id input_hash output_hash trace_hash
       public_inputs private_inputs canonical_witness witness_hash)).

Definition build_proof_artifact (proof_system circuit_artifact_id witness_artifact_id : string)
    (commitments public_inputs : list string) (metadata : list (string * string))
    (proof_blob_hex input_hash output_hash trace_hash final_proof produced_by : string) (cycle : Z)
    : result Proof_ :=
  let payload := proof_fields proof_system circuit_artifact_id witness_artifact_id commitments
                   public_inputs metadata proof_blob_hex input_hash output_hash trace_hash final_proof in
  proof_hash ← hash_payload (PDict payload);
  id ← artifact_id_for PROOF (payload ++ [("proof_hash", PStr proof_hash)] ++ origin produced_by cycle);
  as_validation (validate_proof_hash
    (mkProof (mkHeader id produced_by cycle) proof_system circuit_artifact_id witness_artifact_id
       commitments public_inputs metadata proof_blob_hex proof_hash input_hash output_hash trace_hash
       final_proof)).

Definition build_verification_artifact (subject_artifact_id verifier_backend : string)
    (status : audit_status) (reason : string) (checks : list string)
    (metadata : list (string * string)) (produced_by : string) (cycle : Z)
    : result VerificationResult :=
  let payload := verification_fields subject_artifact_id verifier_backend status reason checks metadata in
  verification_hash ← hash_payload (PDict payload);
  id ← artifact_id_for VERIFICATION_RESULT
    (payload ++ [("verification_hash", PStr verification_hash)] ++ origin produced_by cycle);
  as_validation (validate_verification_hash
    (mkVerificationResult (mkHeader id produced_by cycle) subject_artifact_id verifier_backend status
       reason checks metadata verification_hash)).

(** ** Properties *)

Lemma strs_free l : float_free (strs l) = true.
Proof. simpl. rewrite forallb_Forall, Forall_map. by apply Forall_true. Qed.

Lemma as_strs_free v l : as_strs v = Some l → float_free v = true.
Proof.
  assert (∀ vs, mapM as_str vs = Some l → forallb float_free vs = true) as H.
  { intros vs Hvs%mapM_Some. rewrite forallb_Forall.
    induction Hvs as [|v' s vs ss Hv Hvs IH]; constructor; [by destruct v'|done]. }
  destruct v; simpl; try done; apply H.
Qed.

Lemma validate_constraint_free d c :
  dict_wf d → validate_constraint d = Ok c → float_free (PDict d) = true.
Proof.
  unfold validate_constraint. intros Hd Hc. case_match eqn:E; [|done]. clear Hc.
  apply bind_Some in E as (name & Hn & E). apply bind_Some in E as (purpose & Hp & E).
  apply bind_Some in E as (ins & Hi & E). apply bind_Some in E as (outs & Ho & E).
  case_decide as Hk; [|done]. clear E.
  cbn [float_free]. rewrite forallb_Forall, Forall_forall. intros [k v] Hkv. cbn [snd].
  assert (k ∈ ["name"; "purpose"; "inputs"; "outputs"]) as Hk'.
  { apply Hk. unfold dict_keys. apply list_elem_of_fmap. by exists (k, v). }
  apply dict_get_elem in Hkv; [|done].
  rewrite !elem_of_cons, elem_of_nil in Hk'. destruct Hk' as [->|[->|[->|[->|[]]]]].
  - rewrite Hkv in Hn. by destruct v.
  - rewrite Hkv in Hp. by destruct v.
  - rewrite Hkv in Hi. by eapply as_strs_free.
  - rewrite Hkv in Ho. by eapply as_strs_free.
Qed.

Definition valid_artifact (a : artifact) : Prop := validate_artifact a = Ok a.

Lemma check_text_ok {A} e1 e2 v text hash (a : A) :
  float_free v = true → text = json_print (canonical_form v) → hash = sha256_hex text →
  check_text e1 e2 v text hash a = Ok a.
Proof.
  intros Hv -> ->. unfold check_text. rewrite canonical_payload_free by done. cbn [mbind result_bind].
  by rewrite !bool_decide_eq_true_2.
Qed.

Lemma check_hash_ok {A} e v hash (a : A) :
  float_free v = true → hash = payload_hash v → check_hash e v hash a = Ok a.
Proof.
  intros Hv ->. unfold check_hash. rewrite hash_payload_free by done. cbn [mbind result_bind].
  by rewrite bool_decide_eq_true_2.
Qed.

Lemma artifact_id_for_free t l :
  forallb (fun p => float_free p.2) l = true →
  artifact_id_for t l = Ok (type_value t +:+ "_" +:+ str_take 24 (payload_hash (PDict l))).
Proof. intros Hl. unfold artifact_id_for. by rewrite hash_payload_free. Qed.

Lemma origin_free p c : forallb (fun p => float_free p.2) (origin p c) = true.
Proof. done. Qed.

Lemma witness_fields_free t i o h pub priv :
  forallb (fun p => float_free p.2) (witness_fields t i o h pub priv) = float_free (PDict priv).
Proof.
  unfold witness_fields. cbn [forallb snd]. rewrite str_dict_free. cbn [float_free andb].
  by rewrite andb_true_r.
Qed.

Lemma proof_fields_free s c w cs pub meta blob i o t f :
  forallb (fun p => float_free p.2) (proof_fields s c w cs pub meta blob i o t f) = true.
Proof. unfold proof_fields. cbn [forallb snd]. by rewrite !strs_free, str_dict_free. Qed.

Lemma verification_fields_free s b st r cs meta :
  forallb (fun p => float_free p.2) (verification_fields s b st r cs meta) = true.
Proof. unfold verification_fields. cbn [forallb snd]. by rewrite strs_free, str_dict_free. Qed.

Lemma build_trace_total input_hash steps produced_by cycle :
  ∃ t, build_trace_artifact input_hash steps produced_by cycle = Ok t ∧ valid_artifact (ATrace t) ∧
    t_steps t = steps ∧ t_trace_hash t = payload_hash (dump_trace steps).
Proof.
  unfold build_trace_artifact. rewrite canonical_payload_free by apply dump_trace_free.
  cbn [mbind result_bind]. rewrite artifact_id_for_free by done. cbn [mbind result_bind].
  unfold validate_trace_hash at 1. rewrite check_text_ok by (done || apply dump_trace_free).
  eexists. split; [done|]. split; [|done]. unfold valid_artifact, validate_artifact, validate_trace_hash.
  by rewrite check_text_ok by (done || apply dump_trace_free).
Qed.

Lemma build_witness_total t i o h pub priv produced_by cycle :
  float_free (PDict priv) = true →
  ∃ w, build_witness_artifact t i o h pub priv produced_by cycle = Ok w ∧ valid_artifact (AWitness w) ∧
    witness_fields_of w = witness_fields t i o h pub priv.
Proof.
  intros Hp. pose proof (witness_fields_free t i o h pub priv) as Hf. rewrite Hp in Hf.
  unfold build_witness_artifact. rewrite canonical_payload_free by done.
  cbn [mbind result_bind]. rewrite artifact_id_for_free by by rewrite forallb_app, Hf.
  cbn [mbind result_bind]. unfold validate_witness_hash at 1. rewrite check_text_ok by done.
  eexists. split; [done|]. split; [|done]. unfold valid_artifact, validate_artifact, validate_witness_hash.
  by rewrite check_text_ok.
Qed.

Lemma build_witness_float t i o h pub priv produced_by cycle :
  float_free (PDict priv) = false →
  build_witness_artifact t i o h pub priv produced_by cycle = Raise float_error.
Proof.
  intros Hp. pose proof (witness_fields_free t i o h pub priv) as Hf. rewrite Hp in Hf.
  unfold build_witness_artifact, canonical_payload. rewrite canonicalize_cases.
  change (float_free (PDict (witness_fields t i o h pub priv)))
    with (forallb (fun p => float_free p.2) (witness_fields t i o h pub priv)). by rewrite Hf.
Qed.

Lemma build_witness_producer t i o h pub priv by_ cycle w :
  build_witness_artifact t i o h pub priv by_ cycle = Ok w → produced_by (w_header w) = by_.
Proof.
  unfold build_witness_artifact. intros H. apply bind_ok in H as (cw & _ & H).
  apply bind_ok in H as (id & _ & H). unfold validate_witness_hash, check_text, as_validation in H.
  repeat case_match; simplify_eq; res_inv; repeat case_match; simplify_eq; done.
Qed.

Lemma build_proof_total s c w cs pub meta blob i o t f produced_by cycle :
  ∃ p, build_proof_artifact s c w cs pub meta blob i o t f produced_by cycle = Ok p ∧
    valid_artifact (AProof p) ∧ proof_fields_of p = proof_fields s c w cs pub meta blob i o t f.
Proof.
  pose proof (proof_fields_free s c w cs pub meta blob i o t f) as Hf.
  unfold build_proof_artifact. rewrite hash_payload_free by done. cbn [mbind result_bind].
  rewrite artifact_id_for_free by by rewrite forallb_app, Hf. cbn [mbind result_bind].
  unfold validate_proof_hash at 1. rewrite check_hash_ok by done.
  eexists. split; [done|]. split; [|done]. unfold valid_artifact, validate_artifact, validate_proof_hash.
  by rewrite check_hash_ok.
Qed.

Lemma build_verification_total s b st r cs meta produced_by cycle :
  ∃ v, build_verification_artifact s b st r cs meta produced_by cycle = Ok v ∧
    valid_artifact (AVerification v) ∧ verification_fields_of v = verification_fields s b st r cs meta.
Proof.
  pose proof (verification_fields_free s b st r cs meta) as Hf.
  unfold build_verification_artifact. rewrite hash_payload_free by done. cbn [mbind result_bind].
  rewrite artifact_id_for_free by by rewrite forallb_app, Hf. cbn [mbind result_bind].
  unfold validate_verification_hash at 1. rewrite check_hash_ok by done.
  eexists. split; [done|]. split; [|done].
  unfold valid_artifact, validate_artifact, validate_verification_hash. by rewrite check_hash_ok.
Qed.

Lemma build_circuit_total name description framework pub priv ds produced_by cycle budget :
  Forall dict_wf ds → Forall (fun d => is_ok (validate_constraint d) = true) ds →
  ∃ c, build_circuit_artifact name description framework pub priv ds produced_by cycle budget = Ok c ∧
    valid_artifact (ACircuit c) ∧ Forall2 (fun d k => validate_constraint d = Ok k) ds (c_constraints c).
Proof.
  intros Hwf Hds.
  assert (∃ ks, Forall2 (fun d k => validate_constraint d = Ok k) ds ks) as [ks Hks].
  { clear Hwf. induction Hds as [|d ds Hd _ [ks IH]]; [by exists []|].
    destruct (validate_constraint d) as [c|] eqn:E; [|done]. exists (c :: ks). by constructor. }
  assert (forallb float_free (map PDict ds) = true) as Hf.
  { rewrite forallb_Forall, Forall_map. clear Hds. induction Hks as [|d k ds ks Hd Hks IH]; [constructor|].
    inversion_clear Hwf. constructor; [by eapply validate_constraint_free|auto]. }
  unfold build_circuit_artifact. rewrite artifact_id_for_free.
  2: { cbn [app forallb snd]. rewrite !strs_free. cbn [float_free]. by rewrite Hf. }
  cbn [mbind result_bind]. rewrite (proj2 (traverse_ok _ _ _) Hks). cbn [mbind result_bind].
  pose proof (Forall2_length _ _ _ Hks) as Hlen.
  unfold validate_constraint_count at 1. cbn [c_constraint_count c_constraints].
  rewrite Hlen, Z.eqb_refl. cbn [negb as_validation]. eexists. split; [done|]. split; [|done].
  unfold valid_artifact, validate_artifact, validate_constraint_count.
  cbn [c_constraint_count c_constraints]. by rewrite Z.eqb_refl.
Qed.

(** Every artifact a builder returns passes the validator of its class, with
    the fields it was built from; the builders of traces, proofs and
    verification results never raise, that of witnesses raises [TypeError]
    exactly when a private input contains a float, and that of circuits returns
    whenever its constraints are well formed. *)
Theorem built_artifacts_validate :
  (∀ input_hash steps by_ cycle, ∃ t,
     build_trace_artifact input_hash steps by_ cycle = Ok t ∧ valid_artifact (ATrace t) ∧
     t_steps t = steps ∧ t_trace_hash t = payload_hash (dump_trace steps)) ∧
  (∀ t i o h pub priv by_ cycle,
     if float_free (PDict priv)
     then ∃ w, build_witness_artifact t i o h pub priv by_ cycle = Ok w ∧ valid_artifact (AWitness w) ∧
            witness_fields_of w = witness_fields t i o h pub priv
     else build_witness_artifact t i o h pub priv by_ cycle = Raise float_error) ∧
  (∀ s c w cs pub meta blob i o t f by_ cycle, ∃ p,
     build_proof_artifact s c w cs pub meta blob i o t f by_ cycle = Ok p ∧ valid_artifact (AProof p) ∧
     proof_fields_of p = proof_fields s c w cs pub meta blob i o t f) ∧
  (∀ s b st r cs meta by_ cycle, ∃ v,
     build_verification_artifact s b st r cs meta by_ cycle = Ok v ∧ valid_artifact (AVerification v) ∧
     verification_fields_of v = verification_fields s b st r cs meta) ∧
  (∀ name description framework pub priv ds by_ cycle budget,
     Forall dict_wf ds → Forall (fun d => is_ok (validate_constraint d) = true) ds → ∃ c,
     build_circuit_artifact name description framework pub priv ds by_ cycle budget = Ok c ∧
     valid_artifact (ACircuit c) ∧ Forall2 (fun d k => validate_constraint d = Ok k) ds (c_constraints c)).
Proof.
  split; [intros; apply build_trace_total|]. split.
  { intros. destruct (float_free (PDict priv)) eqn:E;
      [by apply build_witness_total|by apply build_witness_float]. }
  split; [intros; apply build_proof_total|]. split; [intros; apply build_verification_total|].
  intros. by apply build_circuit_total.
Qed.

(** ** Tampering *)

Lemma check_hash_inv {A} e v hash (a b : A) :
  float_free v = true → check_hash e v hash a = Ok b → hash = payload_hash v.
Proof.
  intros Hv. unfold check_hash. rewrite hash_payload_free by done. cbn [mbind result_bind].
  by case_bool_decide.
Qed.

(** Payloads with the same hash have the same canonical form, or exhibit a
    collision. *)
Lemma payload_hash_binding u v :
  pyval_wf u = true → pyval_wf v = true → payload_hash u = payload_hash v →
  canonical_form u = canonical_form v ∨
  collision (json_print (canonical_form u)) (json_print (canonical_form v)).
Proof.
  intros Hu Hv [E|E]%sha256_hex_inj_or_collision; [left|by right]. by apply canonical_payload_inj.
Qed.

Lemma strs_wf l : pyval_wf (strs l) = true.
Proof. simpl. rewrite forallb_Forall, Forall_map. by apply Forall_true. Qed.

Lemma str_dict_wf l : dict_wf l → pyval_wf (str_dict l) = true.
Proof.
  intros Hl. unfold str_dict. cbn [pyval_wf]. apply andb_true_iff. split.
  - apply bool_decide_eq_true. by apply dict_wf_map_snd.
  - rewrite forallb_Forall, Forall_map. by apply Forall_true.
Qed.

Lemma proof_fields_wf p : dict_wf (p_metadata p) → pyval_wf (PDict (proof_fields_of p)) = true.
Proof.
  intros Hm. cbn [pyval_wf]. apply andb_true_iff. split; [by apply bool_decide_eq_true; vm_compute; repeat constructor; set_solver|].
  unfold proof_fields_of, proof_fields. cbn [forallb snd pyval_wf].
  by rewrite !strs_wf, str_dict_wf.
Qed.

Lemma strs_inj l k : canonical_form (strs l) = canonical_form (strs k) → l = k.
Proof.
  simpl. rewrite !map_map. intros [= H]. revert k H.
  induction l as [|s l IH]; intros [|t k] [=]; f_equal; auto.
Qed.

Lemma str_dict_inj l k :
  canonical_form (str_dict l) = canonical_form (str_dict k) → isort key_leb l = isort key_leb k.
Proof.
  unfold str_dict. cbn [canonical_form]. rewrite !map_map. cbn [fst snd canonical_form].
  intros [= H]. rewrite !(isort_map key_leb key_leb) in H by done. revert H.
  generalize (isort key_leb l), (isort key_leb k). clear.
  intros l; induction l as [|[s v] l IH]; intros [|[t w] k] [=]; subst; f_equal; auto.
Qed.

(** The fields a proof artifact's hash covers, with the metadata as a
    dictionary: in the order of its keys. *)
Definition covered_fields (p : Proof_) :=
  ((p_proof_system p, p_circuit_artifact_id p, p_witness_artifact_id p, p_commitments p,
    p_public_inputs p, isort key_leb (p_metadata p)),
   (p_proof_blob_hex p, p_input_hash p, p_output_hash p, p_trace_hash p, p_final_proof p)).

Lemma canonical_proof_fields p :
  canonical_form (PDict (proof_fields_of p)) =
  JObj [("circuit_artifact_id", JStr (p_circuit_artifact_id p));
        ("commitments", canonical_form (strs (p_commitments p)));
        ("final_proof", JStr (p_final_proof p)); ("input_hash", JStr (p_input_hash p));
        ("metadata", canonical_form (str_dict (p_metadata p)));
        ("output_hash", JStr (p_output_hash p)); ("proof_blob_hex", JStr (p_proof_blob_hex p));
        ("proof_system", JStr (p_proof_system p));
        ("public_inputs", canonical_form (strs (p_public_inputs p)));
        ("trace_hash", JStr (p_trace_hash p));
        ("witness_artifact_id", JStr (p_witness_artifact_id p))].
Proof. reflexivity. Qed.

Lemma covered_fields_eq p q :
  canonical_form (PDict (proof_fields_of p)) = canonical_form (PDict (proof_fields_of q)) →
  covered_fields p = covered_fields q.
Proof.
  rewrite !canonical_proof_fields. generalize (strs_inj (p_commitments p) (p_commitments q)),
    (strs_inj (p_public_inputs p) (p_public_inputs q)), (str_dict_inj (p_metadata p) (p_metadata q)).
  generalize (canonical_form (strs (p_commitments p))), (canonical_form (strs (p_commitments q))),
    (canonical_form (strs (p_public_inputs p))), (canonical_form (strs (p_public_inputs q))),
    (canonical_form (str_dict (p_metadata p))), (canonical_form (str_dict (p_metadata q))).
  intros a a' b b' c c' Hc Hi Hm [=]. unfold covered_fields. rewrite Hc, Hi, Hm by done. congruence.
Qed.

(** A proof artifact cannot be altered under its hash.  Two that both pass
    their validator and carry the same [proof_hash] agree on every field the
    hash covers, or their texts are a SHA-256 collision. *)
Theorem proof_artifact_tamper_evident (p q : Proof_) :
  dict_wf (p_metadata p) → dict_wf (p_metadata q) →
  valid_artifact (AProof p) → valid_artifact (AProof q) → p_proof_hash p = p_proof_hash q →
  covered_fields p = covered_fields q ∨
  collision (json_print (canonical_form (PDict (proof_fields_of p))))
            (json_print (canonical_form (PDict (proof_fields_of q)))).
Proof.
  intros Hp Hq Vp Vq E. unfold valid_artifact, validate_artifact, validate_proof_hash in Vp, Vq.
  apply fmap_ok in Vp as (p' & Vp & _), Vq as (q' & Vq & _).
  apply check_hash_inv in Vp, Vq; [|apply pyval_wf_float_free, proof_fields_wf; done..].
  rewrite Vp, Vq in E. apply payload_hash_binding in E as [E|E]; [|by right|by apply proof_fields_wf..].
  left. by apply covered_fields_eq.
Qed.

#[export] Instance proof_inhabited : Inhabited Proof_ :=
  populate (mkProof (mkHeader "" "" 0) "" "" "" [] [] [] "" "" "" "" "" "").

Definition sample_proof : Proof_ :=
  ok_default (build_proof_artifact "stub" "circuit_1" "witness_1" ["a"; "b"] ["x"]
    [("circuit_hash", "h")] "00ff" "i" "o" "t" "f" "prover" 1).

Example proof_artifact_tamper_evident_witness :
  let q := sample_proof in
  valid_artifact (AProof q) ∧
  (covered_fields q = covered_fields q ∨
   collision (json_print (canonical_form (PDict (proof_fields_of q))))
             (json_print (canonical_form (PDict (proof_fields_of q))))).
Proof.
  intros q. assert (valid_artifact (AProof q)) as Hv by (vm_compute; reflexivity).
  assert (dict_wf (p_metadata q)) as Hm by (vm_compute; repeat constructor; set_solver).
  split; [exact Hv|]. apply (proof_artifact_tamper_evident q q); [exact Hm|exact Hm|exact Hv|exact Hv|reflexivity].
Defined.
