(* ===== verification/ArtifactGraph.v ===== *)
(** * The artifact graph (coordinator/artifact_graph.py)

    Artifacts by identifier, dependency edges, and the two indexes the
    coordinator looks artifacts up by.  [add_artifact] returns the graph it
    leaves also when it raises: the artifact and its index entries are in
    before the parents are looked at. *)
From stdpp Require Export relations.
From S2P Require Export Artifacts.

Record ArtifactEdge := mkEdge {
  parent_artifact_id : string; child_artifact_id : string; relationship : string }.

#[global] Instance edge_eq_dec : EqDecision ArtifactEdge.
Proof. solve_decision. Defined.

Definition edge_dict (e : ArtifactEdge) : list (string * string) :=
  [("parent_artifact_id", parent_artifact_id e); ("child_artifact_id", child_artifact_id e);
   ("relationship", relationship e)].

Record ArtifactGraph := mkGraph {
  _artifacts : list (string * artifact);
  _edges : list ArtifactEdge;
  _by_type : list (ArtifactType * list string);
  _by_producer : list (string * list string) }.

Definition ArtifactGraph_init : ArtifactGraph :=
  mkGraph [] [] (map (fun t => (t, [])) [CIRCUIT; TRACE; WITNESS; PROOF; VERIFICATION_RESULT]) [].

Definition id_of (a : artifact) : string := artifact_id (header_of a).

(** [sorted(set(l))] *)
Definition sorted_set (l : list string) : list string := isort str_leb (remove_dups l).

Definition edge_leb (e f : ArtifactEdge) : bool :=
  then_by String.eqb str_leb (parent_artifact_id e) (parent_artifact_id f)
    (then_by String.eqb str_leb (child_artifact_id e) (child_artifact_id f)
      (str_leb (relationship e) (relationship f))).

(** [d[k].append(x)] of a dictionary of lists, and with [setdefault] *)
Definition append_at {K V} `{!EqDecision K} (k : K) (x : V) (d : list (K * list V)) :=
  dict_set k (default [] (dict_get k d) ++ [x]) d.

(** The loop over the parents: the edges it appended, and whether it raised. *)
Fixpoint add_edges (known : string → bool) (child : string) (parents : list string)
    (edges : list ArtifactEdge) : result unit * list ArtifactEdge :=
  match parents with
  | [] => (Ok tt, edges)
  | p :: parents =>
      if negb (known p) then (raise KeyError "Unknown parent artifact {}", edges)
      else add_edges known child parents (edges ++ [mkEdge p child "depends_on"])
  end.

Definition add_artifact (a : artifact) (depends_on : list string) (g : ArtifactGraph)
    : result artifact * ArtifactGraph :=
  match dict_get (id_of a) (_artifacts g) with
  | Some existing =>
      (h ← content_hash existing;
       h' ← content_hash a;
       if negb (bool_decide (h = h')) then raise ValueError "Artifact collision detected for {}"
       else Ok existing, g)
  | None =>
      let artifacts := dict_set (id_of a) a (_artifacts g) in
      let by_type := append_at (artifact_type a) (id_of a) (_by_type g) in
      let by_producer := append_at (produced_by (header_of a)) (id_of a) (_by_producer g) in
      match add_edges (fun p => dict_mem p artifacts) (id_of a) (sorted_set depends_on) (_edges g) with
      | (Raise e, edges) => (Raise e, mkGraph artifacts edges by_type by_producer)
      | (Ok _, edges) => (Ok a, mkGraph artifacts (isort edge_leb edges) by_type by_producer)
      end
  end.

Definition get (artifact_id : string) (g : ArtifactGraph) : result artifact :=
  match dict_get artifact_id (_artifacts g) with
  | Some a => Ok a
  | None => raise KeyError "Artifact not found: {}"
  end.

(** [self._artifacts[artifact_id]] *)
Definition subscript (g : ArtifactGraph) (artifact_id : string) : result artifact :=
  match dict_get artifact_id (_artifacts g) with Some a => Ok a | None => raise KeyError "{}" end.

(** A type, or its value as a string. *)
Definition normalize (artifact_type : ArtifactType + string) : result ArtifactType :=
  match artifact_type with inl t => Ok t | inr s => type_of_value s end.

Definition artifacts_by_type (artifact_type : ArtifactType + string) (g : ArtifactGraph)
    : result (list artifact) :=
  normalized ← normalize artifact_type;
  match dict_get normalized (_by_type g) with
  | Some ids => traverse (subscript g) ids
  | None => raise KeyError "{}"
  end.

(** The sort key of artifacts. *)
Definition artifact_leb (a b : artifact) : bool :=
  then_by Z.eqb Z.leb (cycle (header_of a)) (cycle (header_of b)) (str_leb (id_of a) (id_of b)).

Definition in_cycle (cycle_ : option Z) (a : artifact) : bool :=
  match cycle_ with Some c => (cycle (header_of a) =? c)%Z | None => true end.
Definition made_by (by_ : option string) (a : artifact) : bool :=
  match by_ with Some p => String.eqb (produced_by (header_of a)) p | None => true end.

Definition artifacts_by_producer (produced_by : string) (of_type : option (ArtifactType + string))
    (cycle_ : option Z) (g : ArtifactGraph) : result (list artifact) :=
  artifacts ← traverse (subscript g) (default [] (dict_get produced_by (_by_producer g)));
  artifacts ← match of_type with
              | None => Ok artifacts
              | Some t => n ← normalize t;
                          Ok (List.filter (fun a => bool_decide (artifact_type a = n)) artifacts)
              end;
  Ok (isort artifact_leb (List.filter (in_cycle cycle_) artifacts)).

Definition latest (of_type : ArtifactType + string) (produced_by : option string) (cycle_ : option Z)
    (g : ArtifactGraph) : result artifact :=
  candidates ← artifacts_by_type of_type g;
  let candidates := List.filter (in_cycle cycle_) (List.filter (made_by produced_by) candidates) in
  match last (isort artifact_leb candidates) with
  | Some a => Ok a
  | None => raise KeyError "No artifact available for type={}, produced_by={}, cycle={}"
  end.

Definition require (of_type : ArtifactType + string) (produced_by : option string) (cycle_ : option Z)
    (artifact_id : option string) (g : ArtifactGraph) : result artifact :=
  match artifact_id with
  | Some i =>
      a ← get i g;
      n ← normalize of_type;
      if negb (bool_decide (artifact_type a = n))
      then raise TypeError "Artifact {} has type {}, expected {}" else Ok a
  | None => latest of_type produced_by cycle_ g
  end.

Definition dependencies_for (artifact_id : string) (g : ArtifactGraph) : list string :=
  isort str_leb (map parent_artifact_id
    (List.filter (fun e => String.eqb (child_artifact_id e) artifact_id) (_edges g))).

Definition dependents_for (artifact_id : string) (g : ArtifactGraph) : list string :=
  isort str_leb (map child_artifact_id
    (List.filter (fun e => String.eqb (parent_artifact_id e) artifact_id) (_edges g))).

Definition node_count (g : ArtifactGraph) : nat := length (_artifacts g).
Definition edge_count (g : ArtifactGraph) : nat := length (_edges g).

Definition node_dict (a : artifact) : result (list (string * pyval)) :=
  h ← content_hash a;
  Ok [("artifact_id", PStr (id_of a)); ("artifact_type", PStr (type_value (artifact_type a)));
      ("produced_by", PStr (produced_by (header_of a))); ("cycle", PInt (cycle (header_of a)));
      ("content_hash", PStr h); ("payload", PDict (dump_artifact a))].

Definition to_dict (g : ArtifactGraph) : result (list (string * pyval)) :=
  nodes ← traverse node_dict (isort (fun a b => str_leb (id_of a) (id_of b)) (dict_values (_artifacts g)));
  Ok [("nodes", PList (map PDict nodes)); ("edges", PList (map (fun e => str_dict (edge_dict e)) (_edges g)));
      ("node_count", PInt (Z.of_nat (length nodes))); ("edge_count", PInt (Z.of_nat (edge_count g)))].

(** ** Histories *)

(** The graph after a list of calls, of which some may have raised. *)
Definition add_all (calls : list (artifact * list string)) (g : ArtifactGraph) : ArtifactGraph :=
  foldl (fun g c => (add_artifact c.1 c.2 g).2) g calls.

(** ** The invariant *)

Definition nodes (g : ArtifactGraph) : list artifact := dict_values (_artifacts g).
Definition ids (l : list artifact) : list string := map id_of l.

(** [p] was added before [c], or is [c]. *)
Definition not_after (g : ArtifactGraph) (p c : string) : Prop :=
  ∃ i j, dict_keys (_artifacts g) !! i = Some p ∧ dict_keys (_artifacts g) !! j = Some c ∧ i ≤ j.

Record graph_wf (g : ArtifactGraph) : Prop := {
  wf_keys : NoDup (dict_keys (_artifacts g));
  wf_ids : dict_keys (_artifacts g) = ids (nodes g);
  wf_by_type : ∀ t, dict_get t (_by_type g) =
    Some (ids (List.filter (fun a => bool_decide (artifact_type a = t)) (nodes g)));
  wf_by_producer : ∀ p, default [] (dict_get p (_by_producer g)) =
    ids (List.filter (fun a => String.eqb (produced_by (header_of a)) p) (nodes g));
  wf_edges : ∀ e, e ∈ _edges g →
    relationship e = "depends_on" ∧ not_after g (parent_artifact_id e) (child_artifact_id e);
  wf_once : NoDup (_edges g) }.

Lemma append_at_eq {K V} `{!EqDecision K} (k : K) (x : V) d :
  dict_get k (append_at k x d) = Some (default [] (dict_get k d) ++ [x]).
Proof. apply dict_get_set_eq. Qed.

Lemma append_at_ne {K V} `{!EqDecision K} (k k' : K) (x : V) d :
  k ≠ k' → dict_get k (append_at k' x d) = dict_get k d.
Proof. apply dict_get_set_ne. Qed.

Lemma add_edges_spec known c ps es :
  ∃ qs, (add_edges known c ps es).2 = es ++ map (fun p => mkEdge p c "depends_on") qs ∧
    qs ⊆ ps ∧ qs `sublist_of` ps ∧ Forall (fun p => known p = true) qs ∧
    if forallb known ps then (add_edges known c ps es).1 = Ok tt ∧ qs = ps
    else (add_edges known c ps es).1 = raise KeyError "Unknown parent artifact {}".
Proof.
  revert es. induction ps as [|p ps IH]; intros es; cbn [add_edges forallb].
  { exists []. rewrite app_nil_r. by repeat split. }
  destruct (known p) eqn:E; cbn [negb andb].
  - destruct (IH (es ++ [mkEdge p c "depends_on"])) as (qs & H1 & H2 & H3 & H4 & H5).
    exists (p :: qs). rewrite H1, <-app_assoc. split; [done|]. split; [set_solver|].
    split; [by constructor|]. split; [by constructor|].
    destruct (forallb known ps); [|done]. destruct H5 as [-> ->]. done.
  - exists []. rewrite app_nil_r. split; [done|]. split; [set_solver|].
    split; [apply sublist_nil_l|]. by split.
Qed.

Lemma not_after_snoc g a edges bt bp p c :
  not_after g p c → id_of a ∉ dict_keys (_artifacts g) →
  not_after (mkGraph (dict_set (id_of a) a (_artifacts g)) edges bt bp) p c.
Proof.
  intros (i & j & Hi & Hj & Hij) Hn. exists i, j. cbn [_artifacts].
  rewrite dict_set_notin by done. unfold dict_keys. rewrite fmap_app.
  split; [by apply lookup_app_l_Some|]. split; [by apply lookup_app_l_Some|done].
Qed.

Lemma not_after_new g a edges bt bp p :
  id_of a ∉ dict_keys (_artifacts g) →
  p ∈ dict_keys (dict_set (id_of a) a (_artifacts g)) →
  not_after (mkGraph (dict_set (id_of a) a (_artifacts g)) edges bt bp) p (id_of a).
Proof.
  intros Hn [i Hi]%list_elem_of_lookup. exists i, (length (dict_keys (_artifacts g))).
  split; [done|]. cbn [_artifacts]. rewrite dict_set_notin in Hi |- * by done.
  unfold dict_keys in *. rewrite fmap_app in Hi |- *. split.
  - rewrite lookup_app_r, Nat.sub_diag by done. done.
  - apply lookup_lt_Some in Hi. rewrite length_app in Hi. simpl in Hi. lia.
Qed.

Lemma filter_snoc_ids (p : artifact → bool) l a :
  ids (List.filter p (l ++ [a])) = ids (List.filter p l) ++ (if p a then [id_of a] else []).
Proof. unfold ids. rewrite List.filter_app, map_app. simpl. by destruct (p a). Qed.

(** The part of the invariant that does not mention edges, for an artifact
    that is added. *)
Lemma add_new_indexes g a edges :
  graph_wf g → id_of a ∉ dict_keys (_artifacts g) →
  let g' := mkGraph (dict_set (id_of a) a (_artifacts g)) edges
              (append_at (artifact_type a) (id_of a) (_by_type g))
              (append_at (produced_by (header_of a)) (id_of a) (_by_producer g)) in
  (∀ e, e ∈ edges → relationship e = "depends_on" ∧ not_after g' (parent_artifact_id e) (child_artifact_id e)) →
  NoDup edges → graph_wf g'.
Proof.
  intros Hg Hn g' He Hnd.
  assert (nodes g' = nodes g ++ [a]) as Hnodes.
  { unfold nodes, g', dict_values. cbn [_artifacts]. by rewrite dict_set_notin, fmap_app. }
  split; [..|exact He|exact Hnd].
  - apply dict_set_wf, (wf_keys g Hg).
  - rewrite Hnodes. unfold g', ids. cbn [_artifacts]. rewrite dict_set_notin by done.
    unfold dict_keys at 1. rewrite fmap_app, map_app. f_equal. apply (wf_ids g Hg).
  - intros t. rewrite Hnodes, filter_snoc_ids. unfold g'. cbn [_by_type].
    case_bool_decide as E; [subst; rewrite append_at_eq|rewrite append_at_ne by done];
      rewrite (wf_by_type g Hg); [done|by rewrite app_nil_r].
  - intros p. rewrite Hnodes, filter_snoc_ids. unfold g'. cbn [_by_producer].
    destruct (String.eqb_spec (produced_by (header_of a)) p) as [<-|E];
      [rewrite append_at_eq|rewrite append_at_ne by done; rewrite app_nil_r];
      [|apply (wf_by_producer g Hg)].
    simpl. by rewrite (wf_by_producer g Hg).
Qed.

Lemma elem_of_sorted_set x l : x ∈ sorted_set l ↔ x ∈ l.
Proof. unfold sorted_set. by rewrite elem_of_isort, elem_of_remove_dups. Qed.

Lemma NoDup_sorted_set l : NoDup (sorted_set l).
Proof. unfold sorted_set. rewrite isort_perm. apply NoDup_remove_dups. Qed.

Lemma add_artifact_wf a deps g : graph_wf g → graph_wf (add_artifact a deps g).2.
Proof.
  intros Hg. unfold add_artifact. destruct (dict_get (id_of a) (_artifacts g)) eqn:Hget; [done|].
  apply dict_get_None in Hget.
  destruct (add_edges_spec (fun p => dict_mem p (dict_set (id_of a) a (_artifacts g))) (id_of a)
    (sorted_set deps) (_edges g)) as (qs & Hes & Hsub & Hsl & Hk & _).
  destruct (add_edges _ _ _ _) as [r es]. cbn [snd] in Hes. subst es.
  set (new := map (fun p => mkEdge p (id_of a) "depends_on") qs) in *.
  assert (∀ edges, edges ≡ₚ _edges g ++ new →
    graph_wf (mkGraph (dict_set (id_of a) a (_artifacts g)) edges
      (append_at (artifact_type a) (id_of a) (_by_type g))
      (append_at (produced_by (header_of a)) (id_of a) (_by_producer g)))) as Hwf.
  { intros edges Hp. apply add_new_indexes; [done..| |].
    - intros e He. rewrite Hp, elem_of_app in He. destruct He as [He|He].
      + destruct (wf_edges g Hg e He) as [Hr Hb]. split; [done|]. by apply not_after_snoc.
      + apply elem_of_map in He as (p & -> & Hq). split; [done|]. apply not_after_new; [done|].
        rewrite Forall_forall in Hk. by apply dict_mem_spec, Hk.
    - rewrite Hp. apply NoDup_app. split; [apply (wf_once g Hg)|]. split.
      + intros e He (p & -> & _)%elem_of_map. destruct (wf_edges g Hg _ He) as (_ & i & j & _ & Hj & _).
        apply Hget. by eapply list_elem_of_lookup_2.
      + apply NoDup_fmap_2; [by intros ?? [=]|]. eapply sublist_NoDup; [|exact Hsl].
        apply NoDup_sorted_set. }
  destruct r; cbn [snd]; apply Hwf; [apply isort_perm|done].
Qed.

Lemma init_wf : graph_wf ArtifactGraph_init.
Proof.
  split; try done; try constructor.
  - intros []; reflexivity.
  - cbn in *. set_solver.
  - cbn in *. set_solver.
Qed.

Lemma add_all_wf calls g : graph_wf g → graph_wf (add_all calls g).
Proof. revert g. induction calls as [|c calls IH]; intros g Hg; simpl; auto using add_artifact_wf. Qed.

(** ** Properties *)

(** [c] has an edge from [p]; an artifact that lists itself has one from itself. *)
Definition depends (g : ArtifactGraph) (c p : string) : Prop :=
  ∃ e, e ∈ _edges g ∧ parent_artifact_id e = p ∧ child_artifact_id e = c.

Lemma tc_depends_not_after g c p : graph_wf g → tc (depends g) c p → not_after g p c.
Proof.
  intros Hg. assert (∀ c p, depends g c p → not_after g p c) as H1.
  { intros c' p' (e & He & <- & <-). apply (wf_edges g Hg e He). }
  induction 1 as [c p H|c m p H _ (i & j & Hi & Hj & Hij)]; [by apply H1|].
  destruct (H1 _ _ H) as (i' & j' & Hi' & Hj' & Hij').
  exists i, j'. split; [done|]. split; [done|].
  rewrite (NoDup_lookup _ _ _ _ (wf_keys g Hg) Hj Hi') in Hij. lia.
Qed.

Lemma not_after_antisym g p c : graph_wf g → not_after g p c → not_after g c p → p = c.
Proof.
  intros Hg (i & j & Hi & Hj & Hij) (i' & j' & Hi' & Hj' & Hij').
  pose proof (NoDup_lookup _ _ _ _ (wf_keys g Hg) Hi Hj').
  pose proof (NoDup_lookup _ _ _ _ (wf_keys g Hg) Hj Hi').
  assert (i = j) as -> by lia. congruence.
Qed.

Lemma subscript_ids g l : graph_wf g → l ⊆ nodes g → traverse (subscript g) (ids l) = Ok l.
Proof.
  intros Hg Hl. unfold ids. rewrite traverse_map, (traverse_total _ Datatypes.id), map_id; [done|].
  intros a Ha. unfold subscript. specialize (Hl a Ha).
  unfold nodes, dict_values in Hl. apply list_elem_of_fmap in Hl as ([k a'] & -> & Hka).
  cbn [snd]. assert (k = id_of a') as ->.
  { pose proof (wf_ids g Hg) as Hids. apply list_elem_of_lookup in Hka as [i Hi].
    assert (dict_keys (_artifacts g) !! i = Some k) as H1
      by (unfold dict_keys; by rewrite list_lookup_fmap, Hi).
    rewrite Hids in H1. unfold ids, nodes, dict_values in H1.
    change (map id_of (_artifacts g).*2 !! i) with ((id_of <$> (snd <$> _artifacts g)) !! i) in H1.
    rewrite !list_lookup_fmap, Hi in H1. by injection H1 as <-. }
  by rewrite (dict_get_elem _ a' _ (wf_keys g Hg) Hka).
Qed.

Lemma filter_subset {A} (p : A → bool) (l : list A) : List.filter p l ⊆ l.
Proof. intros x Hx%list_elem_of_In%List.filter_In. apply list_elem_of_In. by destruct Hx. Qed.

Lemma artifacts_by_type_wf t g :
  graph_wf g →
  artifacts_by_type (inl t) g = Ok (List.filter (fun a => bool_decide (artifact_type a = t)) (nodes g)).
Proof.
  intros Hg. unfold artifacts_by_type. cbn [normalize mbind result_bind]. rewrite (wf_by_type g Hg).
  apply subscript_ids; [done|]. apply filter_subset.
Qed.

Lemma dependencies_for_elem p c g :
  p ∈ dependencies_for c g ↔ ∃ e, e ∈ _edges g ∧ parent_artifact_id e = p ∧ child_artifact_id e = c.
Proof.
  unfold dependencies_for. rewrite elem_of_isort, elem_of_map. split.
  - intros (e & -> & He%list_elem_of_In%List.filter_In). destruct He as [He%list_elem_of_In E%String.eqb_eq].
    by exists e.
  - intros (e & He & <- & <-). exists e. split; [done|]. apply list_elem_of_In, List.filter_In.
    split; [by apply list_elem_of_In|by apply String.eqb_eq].
Qed.

Lemma dependents_for_elem p c g :
  c ∈ dependents_for p g ↔ ∃ e, e ∈ _edges g ∧ parent_artifact_id e = p ∧ child_artifact_id e = c.
Proof.
  unfold dependents_for. rewrite elem_of_isort, elem_of_map. split.
  - intros (e & -> & He%list_elem_of_In%List.filter_In). destruct He as [He%list_elem_of_In E%String.eqb_eq].
    by exists e.
  - intros (e & He & <- & <-). exists e. split; [done|]. apply list_elem_of_In, List.filter_In.
    split; [by apply list_elem_of_In|by apply String.eqb_eq].
Qed.

Lemma artifacts_by_producer_wf by_ g :
  graph_wf g →
  artifacts_by_producer by_ None None g =
    Ok (isort artifact_leb (List.filter (fun a => String.eqb (produced_by (header_of a)) by_) (nodes g))).
Proof.
  intros Hg. unfold artifacts_by_producer. rewrite (wf_by_producer g Hg), subscript_ids;
    [|done|apply filter_subset]. cbn [mbind result_bind]. do 2 f_equal. apply filter_all_true. done.
Qed.

Lemma edge_leb_total e f : edge_leb e f = true ∨ edge_leb f e = true.
Proof.
  unfold edge_leb. apply then_by_total; [apply String.eqb_eq|apply String.leb_total|].
  apply then_by_total; [apply String.eqb_eq|apply String.leb_total|apply String.leb_total].
Qed.

Lemma edge_leb_trans e f h : edge_leb e f = true → edge_leb f h = true → edge_leb e h = true.
Proof.
  unfold edge_leb. apply then_by_trans; [apply String.eqb_eq|apply str_leb_trans|apply String.leb_antisym|].
  apply then_by_trans; [apply String.eqb_eq|apply str_leb_trans|apply String.leb_antisym|apply str_leb_trans].
Qed.

(** Adding an artifact whose parents are in the graph, or are the artifact
    itself. *)
Lemma add_artifact_new a deps g :
  graph_wf g → id_of a ∉ ids (nodes g) → (∀ p, p ∈ deps → p = id_of a ∨ p ∈ ids (nodes g)) →
  ∃ g', add_artifact a deps g = (Ok a, g') ∧ nodes g' = nodes g ++ [a] ∧
    _edges g' = isort edge_leb (_edges g ++ map (fun p => mkEdge p (id_of a) "depends_on") (sorted_set deps)).
Proof.
  intros Hg Hn Hd. rewrite <-(wf_ids g Hg) in Hn, Hd. unfold add_artifact.
  assert (dict_get (id_of a) (_artifacts g) = None) as -> by by apply dict_get_None.
  set (known := fun p => dict_mem p (dict_set (id_of a) a (_artifacts g))).
  destruct (add_edges_spec known (id_of a) (sorted_set deps) (_edges g)) as (qs & Hes & _ & _ & _ & Hr).
  assert (forallb known (sorted_set deps) = true) as Hf.
  { apply forallb_Forall, Forall_forall. intros p [->|Hp]%elem_of_sorted_set%Hd; apply dict_mem_spec;
      rewrite dict_set_notin by done; unfold dict_keys in *; rewrite fmap_app; set_solver. }
  rewrite Hf in Hr. destruct Hr as [Hr ->], (add_edges _ _ _ _) as [r es]. cbn [fst snd] in Hr, Hes. subst r es.
  eexists. split; [reflexivity|]. split; [|reflexivity].
  unfold nodes, dict_values. cbn [_artifacts]. by rewrite dict_set_notin, fmap_app.
Qed.

Lemma dependencies_for_new g a deps edges arts bt bp :
  graph_wf g → id_of a ∉ ids (nodes g) →
  edges ≡ₚ _edges g ++ map (fun p => mkEdge p (id_of a) "depends_on") (sorted_set deps) →
  dependencies_for (id_of a) (mkGraph arts edges bt bp) = sorted_set deps.
Proof.
  intros Hg Hn Hp. unfold dependencies_for. cbn [_edges].
  set (own := fun e => String.eqb (child_artifact_id e) (id_of a)).
  assert (List.filter own (_edges g) = []) as Hold.
  { apply filter_none_false. intros e He. apply String.eqb_neq. intros E.
    destruct (wf_edges g Hg e He) as (_ & i & j & _ & Hj%list_elem_of_lookup_2 & _).
    rewrite E, (wf_ids g Hg) in Hj. done. }
  assert (List.filter own edges ≡ₚ map (fun p => mkEdge p (id_of a) "depends_on") (sorted_set deps)) as Hown.
  { rewrite Hp, List.filter_app, Hold, filter_all_true; [done|].
    intros e (p & -> & _)%elem_of_map. apply String.eqb_refl. }
  rewrite (isort_unique str_leb str_leb_trans String.leb_total _ (sorted_set deps)).
  - unfold sorted_set. apply isort_idemp; [apply str_leb_trans|apply String.leb_total].
  - rewrite (Permutation_map parent_artifact_id Hown), map_map. cbn [parent_artifact_id]. by rewrite map_id.
  - intros x y _ _. apply String.leb_antisym.
Qed.

(** C40: whatever calls of [add_artifact] built a graph, including calls that
    raised, its indexes and edges agree.  Looking artifacts up by type gives
    those of the type in the order they were added, looking them up by producer
    gives those of the producer sorted by cycle and identifier, and neither
    raises; parents and children mirror each other, both ends of an edge are in
    the graph and no edge is there twice.  Dependencies are acyclic except for
    edges from an artifact to itself, which are stored when an artifact lists
    its own identifier.  Adding a new artifact whose parents are known or are
    itself returns it, puts it last, records exactly its parents, and leaves
    the edges sorted. *)
Theorem graph_consistent (calls : list (artifact * list string)) (t : ArtifactType) (by_ p c : string)
    (a : artifact) (deps : list string) :
  let g := add_all calls ArtifactGraph_init in
  artifacts_by_type (inl t) g =
    Ok (List.filter (fun a => bool_decide (artifact_type a = t)) (nodes g)) ∧
  artifacts_by_producer by_ None None g =
    Ok (isort artifact_leb (List.filter (fun a => String.eqb (produced_by (header_of a)) by_) (nodes g))) ∧
  NoDup (ids (nodes g)) ∧ NoDup (_edges g) ∧
  (p ∈ dependencies_for c g ↔ c ∈ dependents_for p g) ∧
  (p ∈ dependencies_for c g → is_ok (get p g) = true ∧ is_ok (get c g) = true) ∧
  (tc (depends g) c p → tc (depends g) p c → p = c) ∧
  (id_of a ∉ ids (nodes g) → (∀ p, p ∈ deps → p = id_of a ∨ p ∈ ids (nodes g)) →
   ∃ g', add_artifact a deps g = (Ok a, g') ∧ nodes g' = nodes g ++ [a] ∧
     _edges g' ≡ₚ _edges g ++ map (fun p => mkEdge p (id_of a) "depends_on") (sorted_set deps) ∧
     dependencies_for (id_of a) g' = sorted_set deps ∧
     StronglySorted (fun e f => edge_leb e f = true) (_edges g')).
Proof.
  intros g. assert (graph_wf g) as Hg by apply add_all_wf, init_wf.
  split; [by apply artifacts_by_type_wf|]. split; [by apply artifacts_by_producer_wf|].
  split; [rewrite <-(wf_ids g Hg); apply (wf_keys g Hg)|]. split; [apply (wf_once g Hg)|].
  split; [by rewrite dependencies_for_elem, dependents_for_elem|]. split; [|split].
  - rewrite dependencies_for_elem. intros (e & He & <- & <-).
    destruct (wf_edges g Hg e He) as (_ & i & j & Hi%list_elem_of_lookup_2 & Hj%list_elem_of_lookup_2 & _).
    unfold get. split; (case_match eqn:E; [done|by apply dict_get_None in E]).
  - intros H1 H2. apply (not_after_antisym g); [done|by apply tc_depends_not_after..].
  - intros Hn Hd. destruct (add_artifact_new a deps g Hg Hn Hd) as (g' & -> & Hnodes & He).
    exists g'. split; [done|]. split; [done|]. rewrite He. split; [apply isort_perm|].
    split; [|apply isort_sorted; eauto using edge_leb_trans, edge_leb_total].
    destruct g' as [arts es bt bp]. cbn [_edges] in He. subst es.
    apply (dependencies_for_new g); [done..|]. apply isort_perm.
Qed.

Example graph_consistent_witness :
  let a := AProof sample_proof in
  ∃ g', add_artifact a [id_of a] ArtifactGraph_init = (Ok a, g') ∧ nodes g' = [a] ∧
    dependencies_for (id_of a) g' = sorted_set [id_of a] ∧ depends g' (id_of a) (id_of a).
Proof.
  intros a.
  destruct (graph_consistent [] PROOF "" "" "" a [id_of a]) as (_ & _ & _ & _ & _ & _ & _ & Hnew).
  destruct Hnew as (g' & Hg & Hn & _ & Hd & _).
  - apply not_elem_of_nil.
  - intros p ->%list_elem_of_singleton. by left.
  - exists g'. split; [exact Hg|]. split; [exact Hn|]. split; [exact Hd|].
    apply dependencies_for_elem. rewrite Hd. apply elem_of_sorted_set. by left.
Defined.

(** ** Looking up the latest *)

Lemma artifact_leb_total a b : artifact_leb a b = true ∨ artifact_leb b a = true.
Proof.
  apply then_by_total; [apply Z.eqb_eq|intros x y; rewrite !Z.leb_le; lia|].
  unfold str_leb. destruct (String.leb_total (id_of a) (id_of b)); auto.
Qed.

Lemma artifact_leb_trans a b c :
  artifact_leb a b = true → artifact_leb b c = true → artifact_leb a c = true.
Proof.
  unfold artifact_leb, then_by.
  destruct (Z.eqb_spec (cycle (header_of a)) (cycle (header_of b))) as [E1|E1],
    (Z.eqb_spec (cycle (header_of b)) (cycle (header_of c))) as [E2|E2],
    (Z.eqb_spec (cycle (header_of a)) (cycle (header_of c))) as [E3|E3];
    rewrite ?Z.leb_le; try lia; unfold str_leb; eauto using str_leb_trans.
Qed.

(** What [latest] returns meets the criteria, and no other artifact that does
    comes after it. *)
Lemma latest_spec t by_ cyc g a :
  graph_wf g → latest (inl t) by_ cyc g = Ok a →
  a ∈ nodes g ∧ artifact_type a = t ∧ made_by by_ a = true ∧ in_cycle cyc a = true ∧
  ∀ b, b ∈ nodes g → artifact_type b = t → made_by by_ b = true → in_cycle cyc b = true →
    artifact_leb b a = true.
Proof.
  intros Hg. unfold latest. rewrite artifacts_by_type_wf by done. cbn [mbind result_bind].
  set (l := List.filter _ (List.filter _ _)).
  assert (∀ b, b ∈ l ↔ b ∈ nodes g ∧ artifact_type b = t ∧ made_by by_ b = true ∧ in_cycle cyc b = true) as Hl.
  { intros b. unfold l. rewrite !list_elem_of_In, !List.filter_In, bool_decide_eq_true. tauto. }
  destruct (last (isort artifact_leb l)) as [a'|] eqn:E; [|done]. intros [= <-].
  assert (a' ∈ l) as Ha by (rewrite <-(elem_of_isort artifact_leb); by apply last_Some_elem_of).
  apply Hl in Ha as (H1 & H2 & H3 & H4). do 4 (split; [done|]).
  intros b Hb1 Hb2 Hb3 Hb4. assert (b ∈ isort artifact_leb l) as Hb by (apply elem_of_isort, Hl; done).
  pose proof (isort_sorted artifact_leb artifact_leb_trans artifact_leb_total l) as Hs.
  apply last_Some in E as [l' E]. rewrite E in Hs, Hb.
  apply elem_of_app in Hb as [Hb|Hb%list_elem_of_singleton].
  - apply StronglySorted_app in Hs as (Hs & _). apply Hs; [done|by apply list_elem_of_singleton].
  - subst b. by destruct (artifact_leb_total a' a').
Qed.

Lemma add_artifact_unknown a deps g :
  id_of a ∉ dict_keys (_artifacts g) →
  (∃ p, p ∈ deps ∧ p ≠ id_of a ∧ p ∉ dict_keys (_artifacts g)) →
  (add_artifact a deps g).1 = raise KeyError "Unknown parent artifact {}" ∧
  _artifacts (add_artifact a deps g).2 = dict_set (id_of a) a (_artifacts g).
Proof.
  intros Hn (p & Hp & Hne & Hunk). unfold add_artifact.
  assert (dict_get (id_of a) (_artifacts g) = None) as -> by by apply dict_get_None.
  set (known := fun p => dict_mem p (dict_set (id_of a) a (_artifacts g))).
  destruct (add_edges_spec known (id_of a) (sorted_set deps) (_edges g)) as (qs & _ & _ & _ & _ & Hr).
  assert (forallb known (sorted_set deps) = false) as Hf.
  { apply not_true_is_false. rewrite forallb_Forall, Forall_forall. intros Hall.
    specialize (Hall p). rewrite elem_of_sorted_set in Hall. specialize (Hall Hp).
    apply dict_mem_spec in Hall. rewrite dict_set_notin in Hall by done.
    unfold dict_keys in Hall. rewrite fmap_app in Hall. set_solver. }
  rewrite Hf in Hr. destruct (add_edges _ _ _ _) as [r es]. cbn [fst] in Hr. by subst r.
Qed.

(** A call of [add_artifact] with an unknown parent raises [KeyError] and
    leaves the artifact in the graph all the same; adding it again, with
    whatever parents, then returns it without an edge: the dependencies the
    failing call did not record never are. *)
Theorem failed_add_not_undone (g : ArtifactGraph) (a : artifact) (deps deps' : list string) (h : string) :
  id_of a ∉ dict_keys (_artifacts g) → content_hash a = Ok h →
  (∃ p, p ∈ deps ∧ p ≠ id_of a ∧ p ∉ dict_keys (_artifacts g)) →
  let g' := (add_artifact a deps g).2 in
  (add_artifact a deps g).1 = raise KeyError "Unknown parent artifact {}" ∧
  get (id_of a) g' = Ok a ∧ add_artifact a deps' g' = (Ok a, g').
Proof.
  intros Hn Hh Hp g'. destruct (add_artifact_unknown a deps g Hn Hp) as [Hr Ha]. fold g' in Ha.
  split; [done|]. unfold get, add_artifact. rewrite Ha, dict_get_set_eq. split; [done|].
  rewrite Hh. cbn [mbind result_bind]. by rewrite bool_decide_eq_true_2.
Qed.

Definition sample_trace (by_ : string) : artifact :=
  match build_trace_artifact "i" [] by_ 1 with
  | Ok t => ATrace t
  | Raise _ => AProof sample_proof
  end.

Example failed_add_not_undone_witness :
  let a := sample_trace "x" in
  let g' := (add_artifact a ["nowhere"] ArtifactGraph_init).2 in
  (add_artifact a ["nowhere"] ArtifactGraph_init).1 = raise KeyError "Unknown parent artifact {}" ∧
  get (id_of a) g' = Ok a ∧ add_artifact a [] g' = (Ok a, g').
Proof.
  assert (∃ h, content_hash (sample_trace "x") = Ok h) as [h Hh] by (vm_compute; by eexists).
  apply (failed_add_not_undone ArtifactGraph_init (sample_trace "x") ["nowhere"] [] h).
  - apply not_elem_of_nil.
  - exact Hh.
  - exists "nowhere". split; [by apply list_elem_of_singleton|].
    split; [vm_compute; discriminate|apply not_elem_of_nil].
Defined.
