(* ===== verification/SharedMemory.v ===== *)
(** * The shared memory of the agents (memory/shared_memory.py)

    Four append-only lists of entries and the queries the coordinator steers
    by.  [time.time()] is an argument wherever it is called, once for the
    identifier (in milliseconds) and once for the timestamp of an entry;
    numbers that are only stored, and are floats in the code, are kept as their
    literals.  The files the lists are loaded from and
    saved to are MemoryFiles's. *)
From stdpp Require Export relations.
From S2P Require Export PyStr.

#[local] Open Scope Z_scope.

Record StrategyEntry := mkStrategy {
  s_entry_id : string;
  s_domain : string;
  s_outcome : string;
  s_pattern : string;
  s_detail : string;
  s_cycle : Z;
  s_agent_id : string;
  s_timestamp : Z;
  s_tags : list string }.

Record CircuitEntry := mkCircuitEntry {
  ce_entry_id : string;
  ce_circuit_name : string;
  ce_constraint_count : Z;
  ce_proving_system : string;
  ce_proving_time_ms : string;
  ce_description : string;
  ce_code_snippet : string;
  ce_cycle : Z;
  ce_timestamp : Z }.

Record VulnerabilityEntry := mkVulnerability {
  ve_entry_id : string;
  ve_name : string;
  ve_description : string;
  ve_severity : string;
  ve_mitigation : string;
  ve_affected_domains : list string;
  ve_cycle : Z;
  ve_timestamp : Z }.

Record PerformanceEntry := mkPerformance {
  pe_entry_id : string;
  pe_agent_id : string;
  pe_cycle : Z;
  pe_tasks_completed : Z;
  pe_tasks_failed : Z;
  pe_avg_duration_ms : string;
  pe_score : string;
  pe_timestamp : Z }.

Record SharedMemory := mkMemory {
  _strategy : list StrategyEntry;
  _circuits : list CircuitEntry;
  _vulns : list VulnerabilityEntry;
  _performance : list PerformanceEntry }.

(** What the calls of [time.time()] in one [record_*] return. *)
Record clock := mkClock { millis : Z; stamp : Z }.

(** [f"{tag}_{millis}_{n}"] *)
Definition entry_id_of (tag : string) (millis : Z) (n : nat) : string :=
  tag +:+ "_" +:+ str_of_Z millis +:+ "_" +:+ str_of_Z (Z.of_nat n).

(** ** Recording *)

Definition record_strategy (now : clock) (domain outcome pattern detail : string) (cycle : Z)
    (agent_id : string) (tags : list string) (m : SharedMemory) : string * SharedMemory :=
  let entry_id := entry_id_of "s" (millis now) (length (_strategy m)) in
  let entry := mkStrategy entry_id domain outcome pattern detail cycle agent_id (stamp now) tags in
  (entry_id, mkMemory (_strategy m ++ [entry]) (_circuits m) (_vulns m) (_performance m)).

Definition record_circuit (now : clock) (circuit_name : string) (constraint_count : Z)
    (proving_system proving_time_ms description code_snippet : string) (cycle : Z)
    (m : SharedMemory) : string * SharedMemory :=
  let entry_id := entry_id_of "c" (millis now) (length (_circuits m)) in
  let entry := mkCircuitEntry entry_id circuit_name constraint_count proving_system proving_time_ms
                 description code_snippet cycle (stamp now) in
  (entry_id, mkMemory (_strategy m) (_circuits m ++ [entry]) (_vulns m) (_performance m)).

Definition record_vulnerability (now : clock) (name description severity mitigation : string)
    (affected_domains : list string) (cycle : Z) (m : SharedMemory) : string * SharedMemory :=
  let entry_id := entry_id_of "v" (millis now) (length (_vulns m)) in
  let entry := mkVulnerability entry_id name description severity mitigation affected_domains cycle
                 (stamp now) in
  (entry_id, mkMemory (_strategy m) (_circuits m) (_vulns m ++ [entry]) (_performance m)).

Definition same_run (agent_id : string) (cycle : Z) (e : PerformanceEntry) : bool :=
  String.eqb (pe_agent_id e) agent_id && (pe_cycle e =? cycle).

Definition record_performance (now : clock) (agent_id : string) (cycle tasks_completed tasks_failed : Z)
    (avg_duration_ms score : string) (m : SharedMemory) : string * SharedMemory :=
  let entry_id := "p_" +:+ agent_id +:+ "_" +:+ str_of_Z cycle in
  let entry := mkPerformance entry_id agent_id cycle tasks_completed tasks_failed avg_duration_ms score
                 (stamp now) in
  (entry_id, mkMemory (_strategy m) (_circuits m) (_vulns m)
     (List.filter (fun e => negb (same_run agent_id cycle e)) (_performance m) ++ [entry])).

(** ** Queries *)

(** The key [(cycle, timestamp, entry_id)]. *)
Definition key_leb3 (c t : Z) (i : string) (c' t' : Z) (i' : string) : bool :=
  then_by Z.eqb Z.leb c c' (then_by Z.eqb Z.leb t t' (String.leb i i')).

Definition strategy_leb (x y : StrategyEntry) : bool :=
  key_leb3 (s_cycle x) (s_timestamp x) (s_entry_id x) (s_cycle y) (s_timestamp y) (s_entry_id y).

(** [sorted(.., reverse=True)] keeps equal entries in their order. *)
Definition query_domain (domain : string) (m : SharedMemory) : list StrategyEntry :=
  isort (fun x y => strategy_leb y x)
    (List.filter (fun e => String.eqb (s_domain e) domain) (_strategy m)).

Definition query_failed_patterns (domain : string) (m : SharedMemory) : list string :=
  foldl (fun seen e =>
    if String.eqb (s_outcome e) "failure" && negb (bool_decide (s_pattern e ∈ seen))
    then seen ++ [s_pattern e] else seen) [] (query_domain domain m).

Definition latest_strategy (domain pattern : string) (m : SharedMemory) : option StrategyEntry :=
  List.find (fun e => String.eqb (s_pattern e) pattern) (query_domain domain m).

Definition is_strategy_blocked (domain pattern : string) (m : SharedMemory) : bool :=
  if String.eqb pattern "" then false
  else match latest_strategy domain pattern m with
       | Some latest => String.eqb (s_outcome latest) "failure"
       | None => false
       end.

(** Successes and failures of a pattern. *)
Record counts := mkCounts { success : Z; failure : Z }.

Definition count_entry (scores : list (string * counts)) (e : StrategyEntry) : list (string * counts) :=
  let pattern := s_pattern e in
  if String.eqb pattern "" then scores
  else
    let bucket := default (mkCounts 0 0) (dict_get pattern scores) in
    dict_set pattern
      (if String.eqb (s_outcome e) "success" then mkCounts (success bucket + 1) (failure bucket)
       else mkCounts (success bucket) (failure bucket + 1)) scores.

(** The key [(-success, failure, pattern)]. *)
Definition rank_leb (x y : string * counts) : bool :=
  then_by Z.eqb Z.leb (- success x.2) (- success y.2)
    (then_by Z.eqb Z.leb (failure x.2) (failure y.2) (String.leb x.1 y.1)).

Definition preferred_patterns (domain : string) (limit : nat) (m : SharedMemory) : list string :=
  let scores := foldl count_entry [] (query_domain domain m) in
  let ranked := isort rank_leb (List.filter (fun p => failure p.2 <? success p.2) scores) in
  map fst (take limit ranked).

Record decision := mkDecision {
  d_blocked : bool;
  d_pattern : string;
  d_preferred_patterns : list string;
  d_failed_patterns : list string;
  d_latest_entry : option StrategyEntry }.

Definition control_decision (domain : string) (pattern : option string) (m : SharedMemory) : decision :=
  let normalized_pattern := default "" pattern in
  mkDecision (is_strategy_blocked domain normalized_pattern m) normalized_pattern
    (preferred_patterns domain 3 m) (query_failed_patterns domain m)
    (if String.eqb normalized_pattern "" then None else latest_strategy domain normalized_pattern m).

Definition query_circuits (proving_system : option string) (m : SharedMemory) : list CircuitEntry :=
  isort (fun x y => then_by Z.eqb Z.leb (ce_constraint_count x) (ce_constraint_count y)
           (String.leb (ce_circuit_name x) (ce_circuit_name y)))
    (match proving_system with
     | None | Some "" => _circuits m
     | Some s => List.filter (fun e => String.eqb (ce_proving_system e) s) (_circuits m)
     end).

Definition get_vulnerabilities (severity : option string) (m : SharedMemory) : list VulnerabilityEntry :=
  isort (fun x y => key_leb3 (ve_cycle y) (ve_timestamp y) (ve_entry_id y)
                      (ve_cycle x) (ve_timestamp x) (ve_entry_id x))
    (match severity with
     | None | Some "" => _vulns m
     | Some s => List.filter (fun e => String.eqb (ve_severity e) s) (_vulns m)
     end).

Definition get_agent_performance (agent_id : string) (m : SharedMemory) : list PerformanceEntry :=
  isort (fun x y => pe_cycle x <=? pe_cycle y)
    (List.filter (fun e => String.eqb (pe_agent_id e) agent_id) (_performance m)).

(** ** Entries reported by agents *)

(** A dictionary of one of the known types, with the keys it may lack; any
    other type is skipped. *)
Inductive memory_entry :=
  | MStrategy (domain outcome pattern detail : option string) (tags : option (list string))
  | MCircuit (circuit_name : option string) (constraint_count : option Z)
      (proving_system proving_time_ms description code_snippet : option string)
  | MVulnerability (name description severity mitigation : option string)
      (affected_domains : option (list string))
  | MOther.

Definition apply_entry (cycle : Z) (agent_id : string) (m : SharedMemory) (e : clock * memory_entry)
    : SharedMemory :=
  match e.2 with
  | MStrategy domain outcome pattern detail tags =>
      (record_strategy e.1 (default "unknown" domain) (default "success" outcome) (default "" pattern)
         (default "" detail) cycle agent_id (default [] tags) m).2
  | MCircuit name count system time description snippet =>
      (record_circuit e.1 (default "unknown" name) (default 0 count) (default "stub" system)
         (default "0.0" time) (default "" description) (default "" snippet) cycle m).2
  | MVulnerability name description severity mitigation domains =>
      (record_vulnerability e.1 (default "unknown" name) (default "" description)
         (default "low" severity) (default "" mitigation) (default [] domains) cycle m).2
  | MOther => m
  end.

Definition apply_entries (entries : list (clock * memory_entry)) (cycle : Z) (agent_id : string)
    (m : SharedMemory) : SharedMemory :=
  foldl (apply_entry cycle agent_id) m entries.

Record memory_snapshot := mkMemorySnapshot {
  strategy_entries : nat;
  circuit_entries : nat;
  vulnerability_entries : nat;
  performance_entries : nat;
  failed_patterns_by_domain : list (string * nat);
  preferred_patterns_by_domain : list (string * list string) }.

Definition snapshot (m : SharedMemory) : memory_snapshot :=
  let domains := isort String.leb (remove_dups (map s_domain (_strategy m))) in
  mkMemorySnapshot (length (_strategy m)) (length (_circuits m)) (length (_vulns m))
    (length (_performance m))
    (map (fun d => (d, length (List.filter (fun e => String.eqb (s_domain e) d &&
                                 String.eqb (s_outcome e) "failure") (_strategy m)))) domains)
    (map (fun d => (d, preferred_patterns d 3 m)) domains).

Definition summary (m : SharedMemory) : memory_snapshot := snapshot m.

(** ** The order of entries *)

Lemma string_leb_antisym s t : String.leb s t = true → String.leb t s = true → s = t.
Proof. apply String.leb_antisym. Qed.

Lemma key_leb3_total c t i c' t' i' :
  key_leb3 c t i c' t' i' = true ∨ key_leb3 c' t' i' c t i = true.
Proof.
  apply then_by_total; [apply Z.eqb_eq|intros; rewrite !Z.leb_le; lia|].
  apply then_by_total; [apply Z.eqb_eq|intros; rewrite !Z.leb_le; lia|].
  destruct (String.leb_total i i'); auto.
Qed.

Lemma key_leb3_trans c t i c' t' i' c'' t'' i'' :
  key_leb3 c t i c' t' i' = true → key_leb3 c' t' i' c'' t'' i'' = true →
  key_leb3 c t i c'' t'' i'' = true.
Proof.
  apply then_by_trans; [apply Z.eqb_eq|intros ???; rewrite !Z.leb_le; lia|intros ??; rewrite !Z.leb_le; lia|].
  apply then_by_trans; [apply Z.eqb_eq|intros ???; rewrite !Z.leb_le; lia|intros ??; rewrite !Z.leb_le; lia|].
  apply str_leb_trans.
Qed.

Lemma elem_of_filter {A} (p : A → bool) l x : x ∈ List.filter p l ↔ x ∈ l ∧ p x = true.
Proof. by rewrite !list_elem_of_In, List.filter_In. Qed.

Lemma query_domain_elem domain m e :
  e ∈ query_domain domain m ↔ e ∈ _strategy m ∧ s_domain e = domain.
Proof. unfold query_domain. by rewrite elem_of_isort, elem_of_filter, String.eqb_eq. Qed.

Lemma query_domain_sorted domain m :
  StronglySorted (fun x y => strategy_leb y x = true) (query_domain domain m).
Proof.
  apply isort_sorted.
  - intros x y z H1 H2. exact (key_leb3_trans _ _ _ _ _ _ _ _ _ H2 H1).
  - intros x y. destruct (key_leb3_total (s_cycle x) (s_timestamp x) (s_entry_id x)
      (s_cycle y) (s_timestamp y) (s_entry_id y)); auto.
Qed.

(** The first element of a sorted list that satisfies a test comes before all
    that do. *)
Lemma find_sorted {A} (R : A → A → Prop) (p : A → bool) l x :
  StronglySorted R l → List.find p l = Some x →
  x ∈ l ∧ p x = true ∧ ∀ y, y ∈ l → p y = true → y = x ∨ R x y.
Proof.
  induction 1 as [|z l Hs IH Hz]; cbn [List.find]; [done|]. rewrite Forall_forall in Hz.
  destruct (p z) eqn:E.
  - intros [= <-]. split; [set_solver|]. split; [done|].
    intros y [->|Hy]%elem_of_cons _; [by left|right; auto].
  - intros (Hx & Hp & H)%IH. split; [set_solver|]. split; [done|].
    intros y [->|Hy]%elem_of_cons Hpy; [congruence|auto].
Qed.

Lemma latest_strategy_spec domain pattern m e :
  latest_strategy domain pattern m = Some e →
  e ∈ _strategy m ∧ s_domain e = domain ∧ s_pattern e = pattern ∧
  ∀ x, x ∈ _strategy m → s_domain x = domain → s_pattern x = pattern → strategy_leb x e = true.
Proof.
  intros H. apply (find_sorted _ _ _ _ (query_domain_sorted domain m)) in H as (He & Hp & H).
  apply query_domain_elem in He as [He Hd]. apply String.eqb_eq in Hp.
  split; [done|]. split; [done|]. split; [done|]. intros x Hx Hxd Hxp.
  destruct (H x) as [->|]; [by apply query_domain_elem|by apply String.eqb_eq| |done].
  unfold strategy_leb. by destruct (key_leb3_total (s_cycle e) (s_timestamp e) (s_entry_id e)
    (s_cycle e) (s_timestamp e) (s_entry_id e)).
Qed.

Lemma latest_strategy_none domain pattern m :
  latest_strategy domain pattern m = None →
  ∀ x, x ∈ _strategy m → s_domain x = domain → s_pattern x ≠ pattern.
Proof.
  unfold latest_strategy. intros H x Hx Hd Hp.
  assert (x ∈ query_domain domain m) as Hq by by apply query_domain_elem.
  apply list_elem_of_In in Hq. pose proof (List.find_none _ _ H x Hq) as Hf.
  apply String.eqb_eq in Hp. cbn in Hf. congruence.
Qed.

(** ** Counting *)

Definition entries_of (pattern : string) (success_ : bool) (l : list StrategyEntry) : Z :=
  Z.of_nat (length (List.filter (fun e => String.eqb (s_pattern e) pattern &&
    Bool.eqb (String.eqb (s_outcome e) "success") success_) l)).

Lemma entries_of_cons pattern b e l :
  entries_of pattern b (l ++ [e]) = entries_of pattern b l +
    (if String.eqb (s_pattern e) pattern && Bool.eqb (String.eqb (s_outcome e) "success") b then 1 else 0).
Proof.
  unfold entries_of. rewrite List.filter_app, length_app. simpl.
  case_match; simpl; lia.
Qed.

Lemma entries_of_zero pattern b l : (∀ e, e ∈ l → s_pattern e ≠ pattern) → entries_of pattern b l = 0.
Proof.
  intros H. unfold entries_of. induction l as [|e l IH]; [done|]. cbn [List.filter].
  destruct (String.eqb_spec (s_pattern e) pattern) as [E|E]; [by destruct (H e ltac:(set_solver))|].
  apply IH. set_solver.
Qed.

(** The scores hold the counts of the patterns that occur. *)
Lemma scores_spec l :
  dict_wf (foldl count_entry [] l) ∧
  ∀ pattern, pattern ≠ "" →
    default (mkCounts 0 0) (dict_get pattern (foldl count_entry [] l)) =
    mkCounts (entries_of pattern true l) (entries_of pattern false l).
Proof.
  induction l as [|e l [IHw IH]] using rev_ind; [split; [constructor|done]|].
  rewrite foldl_app. cbn [foldl]. unfold count_entry at 1 3.
  destruct (String.eqb_spec (s_pattern e) "") as [E|E].
  { split; [done|]. intros pattern Hp. rewrite IH, !entries_of_cons by done.
    destruct (String.eqb_spec (s_pattern e) pattern); [congruence|]. simpl. f_equal; lia. }
  split; [by apply dict_set_wf|]. intros pattern Hp. rewrite !entries_of_cons.
  destruct (String.eqb_spec (s_pattern e) pattern) as [<-|Hne].
  - rewrite dict_get_set_eq, IH by done. cbn [default from_option success failure andb].
    destruct (String.eqb (s_outcome e) "success"); simpl; unfold Datatypes.id; f_equal; lia.
  - rewrite dict_get_set_ne, IH by done. simpl. f_equal; lia.
Qed.

Lemma scores_keys l p : p ∈ (foldl count_entry [] l).*1 → p ≠ "".
Proof.
  induction l as [|e l IH] using rev_ind; [set_solver|]. rewrite foldl_app. cbn [foldl].
  unfold count_entry at 1. destruct (String.eqb_spec (s_pattern e) "") as [E|E]; [done|].
  intros Hp. apply dict_mem_spec in Hp. destruct (decide (p = s_pattern e)) as [->|Hne]; [done|].
  unfold dict_mem in Hp. rewrite dict_get_set_ne in Hp by done. by apply IH, dict_mem_spec.
Qed.

Lemma rank_leb_total x y : rank_leb x y = true ∨ rank_leb y x = true.
Proof.
  apply then_by_total; [apply Z.eqb_eq|intros; rewrite !Z.leb_le; lia|].
  apply then_by_total; [apply Z.eqb_eq|intros; rewrite !Z.leb_le; lia|].
  destruct (String.leb_total x.1 y.1); auto.
Qed.

Lemma rank_leb_trans x y z : rank_leb x y = true → rank_leb y z = true → rank_leb x z = true.
Proof.
  apply then_by_trans; [apply Z.eqb_eq|intros ???; rewrite !Z.leb_le; lia|intros ??; rewrite !Z.leb_le; lia|].
  apply then_by_trans; [apply Z.eqb_eq|intros ???; rewrite !Z.leb_le; lia|intros ??; rewrite !Z.leb_le; lia|].
  apply str_leb_trans.
Qed.

(** How often a pattern succeeded and failed in a domain. *)
Definition successes (domain pattern : string) (m : SharedMemory) : Z :=
  entries_of pattern true (query_domain domain m).
Definition failures (domain pattern : string) (m : SharedMemory) : Z :=
  entries_of pattern false (query_domain domain m).

Lemma ranked_elem domain m p c :
  (p, c) ∈ List.filter (fun p => failure p.2 <? success p.2)
    (foldl count_entry [] (query_domain domain m)) ↔
  p ≠ "" ∧ failures domain p m < successes domain p m ∧
  c = mkCounts (successes domain p m) (failures domain p m).
Proof.
  destruct (scores_spec (query_domain domain m)) as [Hw Hs].
  rewrite elem_of_filter, Z.ltb_lt. unfold successes, failures. cbn [snd]. split.
  - intros [Hpc Hlt]. assert (p ≠ "") as Hp.
    { apply (scores_keys (query_domain domain m)). apply list_elem_of_fmap. by exists (p, c). }
    specialize (Hs p Hp). rewrite (dict_get_elem _ _ _ Hw Hpc) in Hs. cbn in Hs.
    unfold Datatypes.id in Hs. by subst c.
  - intros (Hp & Hlt & ->). specialize (Hs p Hp). split; [|done].
    destruct (dict_get p _) as [c|] eqn:E; cbn in Hs; unfold Datatypes.id in Hs.
    + subst c. by apply dict_get_Some_elem.
    + injection Hs as Hs1 Hs2. lia.
Qed.

Lemma preferred_patterns_spec domain limit m :
  let l := preferred_patterns domain limit m in
  (length l ≤ limit)%nat ∧ NoDup l ∧
  (∀ p, p ∈ l → p ≠ "" ∧ failures domain p m < successes domain p m) ∧
  (∀ p, p ≠ "" → failures domain p m < successes domain p m → p ∉ l →
     length l = limit ∧ ∀ q, q ∈ l → successes domain p m ≤ successes domain q m).
Proof.
  unfold preferred_patterns. set (scores := foldl count_entry [] (query_domain domain m)).
  set (ranked := isort rank_leb (List.filter (fun p => failure p.2 <? success p.2) scores)).
  assert (∀ p c, (p, c) ∈ ranked ↔ p ≠ "" ∧ failures domain p m < successes domain p m ∧
    c = mkCounts (successes domain p m) (failures domain p m)) as Hr
    by (intros; unfold ranked; rewrite elem_of_isort; apply ranked_elem).
  assert (StronglySorted (fun x y => rank_leb x y = true) ranked) as Hsort
    by (apply isort_sorted; [apply rank_leb_trans|apply rank_leb_total]).
  assert (NoDup ranked.*1) as Hnd.
  { unfold ranked. rewrite isort_perm. destruct (scores_spec (query_domain domain m)) as [Hw _].
    fold scores in Hw. unfold dict_wf, dict_keys in Hw. clear -Hw.
    induction scores as [|x scores IH]; [done|]. cbn in Hw |- *. apply NoDup_cons in Hw as [Hx Hw].
    destruct (failure x.2 <? success x.2); [|auto]. cbn. apply NoDup_cons. split; [|auto].
    intros (y & Hy & H)%list_elem_of_fmap. apply elem_of_filter in H as [H _]. apply Hx.
    rewrite Hy. apply list_elem_of_fmap. by exists y. }
  change (map fst (take limit ranked)) with ((take limit ranked).*1).
  split; [rewrite length_fmap, length_take; lia|].
  split; [rewrite <-(take_drop limit ranked), fmap_app in Hnd; apply NoDup_app in Hnd as [Hnd _]; exact Hnd|]. split.
  - intros p ([p' c] & -> & H%elem_of_take)%list_elem_of_fmap. destruct H as (i & Hi & _).
    apply list_elem_of_lookup_2, Hr in Hi. simpl. tauto.
  - intros p Hp Hlt Hn.
    assert ((p, mkCounts (successes domain p m) (failures domain p m)) ∈ ranked) as Hin by by apply Hr.
    rewrite <-(take_drop limit ranked) in Hin, Hsort. apply elem_of_app in Hin as [Hin|Hin].
    { destruct Hn. apply list_elem_of_fmap. by eexists (p, _). }
    split.
    { rewrite length_fmap, length_take. destruct (decide (limit ≤ length ranked)%nat); [lia|].
      rewrite drop_ge in Hin by lia. by apply elem_of_nil in Hin. }
    intros q ([q' c] & -> & Hq)%list_elem_of_fmap. cbn [fst].
    apply StronglySorted_app in Hsort as (Hsort & _). specialize (Hsort _ _ Hq Hin).
    apply elem_of_take in Hq as (i & Hi & _). apply list_elem_of_lookup_2, Hr in Hi as (_ & _ & ->).
    unfold rank_leb, then_by in Hsort. cbn [fst snd success failure] in Hsort.
    destruct (Z.eqb_spec (- successes domain q' m) (- successes domain p m)); [lia|].
    apply Z.leb_le in Hsort. lia.
Qed.

Lemma query_failed_patterns_spec domain m :
  NoDup (query_failed_patterns domain m) ∧
  ∀ p, p ∈ query_failed_patterns domain m ↔
    ∃ e, e ∈ _strategy m ∧ s_domain e = domain ∧ s_pattern e = p ∧ s_outcome e = "failure".
Proof.
  unfold query_failed_patterns.
  assert (∀ l, let r := foldl (fun seen e =>
      if String.eqb (s_outcome e) "failure" && negb (bool_decide (s_pattern e ∈ seen))
      then seen ++ [s_pattern e] else seen) [] l in
    NoDup r ∧ ∀ p, p ∈ r ↔ ∃ e, e ∈ l ∧ s_pattern e = p ∧ s_outcome e = "failure") as H.
  { intros l. induction l as [|e l [IHn IH]] using rev_ind; [split; [constructor|set_solver]|].
    rewrite foldl_app. cbn [foldl]. set (r := foldl _ [] l) in *.
    destruct (String.eqb_spec (s_outcome e) "failure") as [E|E]; cbn [andb];
      [case_bool_decide as Hin; cbn [negb]|].
    - split; [done|]. intros p. rewrite IH. split; [set_solver|].
      intros (x & [Hx| ->%list_elem_of_singleton]%elem_of_app & <- & Ho); [by exists x|by apply IH].
    - split; [apply NoDup_app; split; [done|]; split; [set_solver|apply NoDup_singleton]|].
      intros p. rewrite elem_of_app, IH, list_elem_of_singleton. split.
      + intros [(x & ? & ? & ?)| ->]; [exists x|exists e]; set_solver.
      + intros (x & [Hx| ->%list_elem_of_singleton]%elem_of_app & <- & Ho); [left; by exists x|by right].
    - split; [done|]. intros p. rewrite IH. split; [set_solver|].
      intros (x & [Hx| ->%list_elem_of_singleton]%elem_of_app & <- & Ho); [by exists x|done]. }
  destruct (H (query_domain domain m)) as [Hn Hp]. split; [done|]. intros p. rewrite Hp.
  setoid_rewrite query_domain_elem. naive_solver.
Qed.

(** What the memory tells the coordinator about a pattern.  It is blocked
    exactly when the entry that comes last in the order of cycle, timestamp and
    identifier is a failure, not blocked when there is none; the preferred
    patterns are at most three, distinct, succeeded more often than they failed,
    and no pattern left out succeeded more often than one that is in; the failed
    patterns are those with a failure, each once. *)
Theorem control_decision_spec (domain pattern : string) (m : SharedMemory) :
  let d := control_decision domain (Some pattern) m in
  (match latest_strategy domain pattern m with
   | Some e => pattern ≠ "" → d_blocked d = String.eqb (s_outcome e) "failure" ∧
       d_latest_entry d = Some e ∧ e ∈ _strategy m ∧ s_domain e = domain ∧ s_pattern e = pattern ∧
       ∀ x, x ∈ _strategy m → s_domain x = domain → s_pattern x = pattern → strategy_leb x e = true
   | None => d_blocked d = false ∧
       ∀ x, x ∈ _strategy m → s_domain x = domain → s_pattern x ≠ pattern
   end) ∧
  (length (d_preferred_patterns d) ≤ 3)%nat ∧ NoDup (d_preferred_patterns d) ∧
  (∀ p, p ∈ d_preferred_patterns d → p ≠ "" ∧ failures domain p m < successes domain p m) ∧
  (∀ p, p ≠ "" → failures domain p m < successes domain p m → p ∉ d_preferred_patterns d →
     length (d_preferred_patterns d) = 3%nat ∧
     ∀ q, q ∈ d_preferred_patterns d → successes domain p m ≤ successes domain q m) ∧
  NoDup (d_failed_patterns d) ∧
  ∀ p, p ∈ d_failed_patterns d ↔
    ∃ e, e ∈ _strategy m ∧ s_domain e = domain ∧ s_pattern e = p ∧ s_outcome e = "failure".
Proof.
  intros d. destruct (preferred_patterns_spec domain 3 m) as (H1 & H2 & H3 & H4).
  destruct (query_failed_patterns_spec domain m) as [H5 H6].
  split; [|by split_and!].
  unfold d, control_decision. cbn [d_blocked d_latest_entry default from_option Datatypes.id].
  unfold is_strategy_blocked. unfold Datatypes.id.
  destruct (latest_strategy domain pattern m) as [e|] eqn:E.
  - intros Hp. apply String.eqb_neq in Hp as Hp'. rewrite Hp'. split; [done|]. split; [done|].
    by apply latest_strategy_spec.
  - split; [by destruct (String.eqb pattern "")|]. by apply latest_strategy_none.
Qed.

(** A run of an agent has one performance entry: the last one recorded. *)
Lemma record_performance_once now agent_id cycle c f avg score m :
  List.filter (same_run agent_id cycle)
    (_performance (record_performance now agent_id cycle c f avg score m).2) =
  [mkPerformance ("p_" +:+ agent_id +:+ "_" +:+ str_of_Z cycle) agent_id cycle c f avg score (stamp now)].
Proof.
  unfold record_performance. cbn [snd _performance]. rewrite List.filter_app. cbn [List.filter].
  assert (∀ e, pe_agent_id e = agent_id → pe_cycle e = cycle → same_run agent_id cycle e = true) as H.
  { intros e <- <-. unfold same_run. by rewrite String.eqb_refl, Z.eqb_refl. }
  rewrite H by done. induction (_performance m) as [|e l IH]; [done|]. cbn [List.filter].
  destruct (same_run agent_id cycle e) eqn:E; cbn [negb List.filter]; [done|]. by rewrite E.
Qed.

(** An outcome recorded after all others of its pattern decides whether the
    pattern is blocked. *)
Lemma recorded_outcome_decides now domain outcome pattern detail cycle agent tags m :
  pattern ≠ "" →
  (∀ x, x ∈ _strategy m → s_domain x = domain → s_pattern x = pattern →
     s_cycle x ≤ cycle ∧ s_timestamp x < stamp now) →
  is_strategy_blocked domain pattern
    (record_strategy now domain outcome pattern detail cycle agent tags m).2 =
  String.eqb outcome "failure".
Proof.
  intros Hp Hlast. set (m' := (record_strategy _ _ _ _ _ _ _ _ m).2).
  set (new := mkStrategy (entry_id_of "s" (millis now) (length (_strategy m))) domain outcome pattern
                detail cycle agent (stamp now) tags).
  assert (_strategy m' = _strategy m ++ [new]) as Hm by done.
  unfold is_strategy_blocked. apply String.eqb_neq in Hp as ->.
  destruct (latest_strategy domain pattern m') as [e|] eqn:E.
  - apply latest_strategy_spec in E as (He & Hd & Hpat & Hmax).
    specialize (Hmax new). rewrite Hm in Hmax, He.
    specialize (Hmax ltac:(set_solver) eq_refl eq_refl).
    apply elem_of_app in He as [He| ->%list_elem_of_singleton]; [|done].
    destruct (Hlast e He Hd Hpat) as [Hc Ht]. unfold strategy_leb, key_leb3, then_by in Hmax.
    cbn [s_cycle s_timestamp s_entry_id new] in Hmax.
    destruct (Z.eqb_spec cycle (s_cycle e)) as [Hceq|Hcne]; [|apply Z.leb_le in Hmax; lia].
    destruct (Z.eqb_spec (stamp now) (s_timestamp e)); [lia|]. apply Z.leb_le in Hmax. lia.
  - destruct (latest_strategy_none _ _ _ E new); [rewrite Hm; set_solver|done..].
Qed.
