(* ===== verification/Tasks.v ===== *)
(** * Tasks and agents (agents/base.py)

    The tasks the coordinator hands out, the results agents return, and what
    all agents share.  Durations and scores are floats: their type and the
    operations the code applies to them are the interface [PyFloat], so that
    nothing proved about tasks depends on rounding.  The times
    [created_at] and [completed_at] are never read and are left out. *)
From S2P Require Export ArtifactGraph SharedMemory.

(** What the code does with floats.  [flit m e] is the literal [m / 10^e],
    [fsum] the built-in [sum], [frepr] the text JSON writes. *)
Class PyFloat (F : Type) := {
  flit : Z → nat → F;
  fadd : F → F → F;
  fmul : F → F → F;
  fdiv : F → F → F;
  fltb : F → F → bool;
  fsum : list F → F;
  fround : nat → F → F;
  frepr : F → string }.

Module AgentStatus.
Inductive t := IDLE | RUNNING | DONE | FAILED | REPLACED.

Definition value (s : t) : string :=
  match s with
  | IDLE => "idle" | RUNNING => "running" | DONE => "done" | FAILED => "failed"
  | REPLACED => "replaced"
  end.
End AgentStatus.

Module TaskPriority.
Inductive t := LOW | NORMAL | HIGH | CRITICAL.

Definition value (p : t) : Z :=
  match p with LOW => 0 | NORMAL => 1 | HIGH => 2 | CRITICAL => 3 end.
End TaskPriority.

Module TaskDomain.
Inductive t :=
  | ARCHITECTURE | CIRCUIT | BACKEND | VERIFICATION | PERFORMANCE | SECURITY
  | DATA_INTEGRITY | DEVOPS | TESTING | RESEARCH | COORDINATION.

#[global] Instance domain_eq_dec : EqDecision t.
Proof. solve_decision. Defined.

Definition value (d : t) : string :=
  match d with
  | ARCHITECTURE => "architecture" | CIRCUIT => "circuit" | BACKEND => "backend"
  | VERIFICATION => "verification" | PERFORMANCE => "performance" | SECURITY => "security"
  | DATA_INTEGRITY => "data_integrity" | DEVOPS => "devops" | TESTING => "testing"
  | RESEARCH => "research" | COORDINATION => "coordination"
  end.
End TaskDomain.

(** An entry of [inputs['artifact_requirements']]. *)
Record requirement := mkRequirement {
  r_artifact_type : string; r_produced_by : option string; r_artifact_id : option string }.

(** The keys of [inputs] that are read; all are read with [.get(key, <empty>)],
    so that an absent key is an empty value. *)
Record task_inputs := mkInputs {
  artifact_requirements : list requirement;
  artifact_inputs : list (string * list artifact);
  in_preferred_patterns : list string;
  in_failed_patterns : list string;
  in_consumed_artifact_ids : list string }.

Definition no_inputs : task_inputs := mkInputs [] [] [] [] [].

Section tasks.
Context {F : Type} `{!PyFloat F}.

Record Task := mkTask {
  task_id : string;
  domain : TaskDomain.t;
  description : string;
  inputs : task_inputs;
  priority : TaskPriority.t;
  tk_cycle : Z;
  depends_on : list string;
  strategy_key : string;
  consumes : list ArtifactType;
  produces : list ArtifactType;
  max_execution_ms : option F;
  max_artifact_bytes : option Z;
  max_circuit_constraints : option Z }.

Record TaskResult := mkResult {
  r_task_id : string;
  r_agent_id : string;
  r_status : string;
  outputs : list (string * pyval);
  produced_artifacts : list artifact;
  consumed_artifact_ids : list string;
  errors : list string;
  constraint_violations : list string;
  duration_ms : F;
  memory_entries : list memory_entry }.

Record BaseAgent := mkAgent {
  agent_id : string;
  a_domain : TaskDomain.t;
  version : string;
  performance_score : F;
  status : AgentStatus.t }.

Definition accepts (a : BaseAgent) (t : Task) : bool := bool_decide (domain t = a_domain a).

Definition describe (a : BaseAgent) : string :=
  "[" +:+ agent_id a +:+ " v" +:+ version a +:+ "] domain=" +:+ TaskDomain.value (a_domain a).

(** [duration] is what the two calls of the clock give, 0.0 without a start. *)
Definition _make_result (id : string) (t : Task) (status : string) (outputs : list (string * pyval))
    (errors : list string) (memory_entries : list memory_entry) (produced : list artifact)
    (consumed violations : list string) (duration : F) : TaskResult :=
  mkResult (task_id t) id status outputs produced consumed errors violations duration memory_entries.

(** [replace(task, inputs=..)] *)
Definition with_inputs (i : task_inputs) (t : Task) : Task :=
  mkTask (task_id t) (domain t) (description t) i (priority t) (tk_cycle t) (depends_on t)
    (strategy_key t) (consumes t) (produces t) (max_execution_ms t) (max_artifact_bytes t)
    (max_circuit_constraints t).

Definition with_status (s : AgentStatus.t) (a : BaseAgent) : BaseAgent :=
  mkAgent (agent_id a) (a_domain a) (version a) (performance_score a) s.
End tasks.

Arguments Task : clear implicits.
Arguments TaskResult : clear implicits.
Arguments BaseAgent : clear implicits.

(** What the coordinator relies on in a team of agents: running a task returns
    a result for that task, or raises.  The clock is part of the team. *)
Class AgentTeam (F : Type) := {
  team_run : BaseAgent F → Task F → SharedMemory → result (TaskResult F);
  team_run_task_id a t m r : team_run a t m = Ok r → r_task_id r = task_id t }.

(** ** A float instance to evaluate with: rational numbers, exactly *)

Definition q_add (x y : Z * positive) : Z * positive :=
  (x.1 * Zpos y.2 + y.1 * Zpos x.2, (x.2 * y.2)%positive)%Z.

Definition q_round (n : nat) (x : Z * positive) : Z * positive :=
  let s := Pos.pow 10 (Pos.of_nat n) in ((2 * x.1 * Zpos s + Zpos x.2) `div` (2 * Zpos x.2), s)%Z.

#[export] Instance rational_float : PyFloat (Z * positive) := {
  flit m e := (m, Pos.of_nat (10 ^ e));
  fadd := q_add;
  fmul x y := (x.1 * y.1, (x.2 * y.2)%positive)%Z;
  fdiv x y := (x.1 * Zpos y.2 * Z.sgn y.1, (x.2 * Z.to_pos (Z.abs y.1))%positive)%Z;
  fltb x y := (x.1 * Zpos y.2 <? y.1 * Zpos x.2)%Z;
  fsum := foldl q_add (0%Z, 1%positive);
  fround := q_round;
  frepr x := str_of_Z x.1 }.
