(* ===== verification/Scheduler.v ===== *)
(** * The coordinator's scheduler (coordinator/system.py)

    [_execute_dag] runs the tasks of a cycle in rounds: a round scans what is
    pending in the order of the task names, blocks tasks whose dependencies
    failed or whose strategy the memory blocks, prepares and assigns those whose
    dependencies are complete, runs these together and settles their results in
    the order they complete.  The team of agents and that order are
    parameters.  Every round that does not end the loop removes a task, so
    that as many rounds as there are tasks are enough fuel. *)
From stdpp Require Export gmap.
From S2P Require Export Tasks.

(** The tasks a cycle could not run. *)
Inductive blocked_task :=
  | DependencyFailed (id : string) (d : TaskDomain.t) (failed_dependencies : list string)
  | MemoryBlocked (id : string) (d : TaskDomain.t) (strategy : string)
      (latest_entry : option StrategyEntry).

Definition blocked_id (b : blocked_task) : string :=
  match b with DependencyFailed i _ _ => i | MemoryBlocked i _ _ _ => i end.

(** An agent of the team, by its position, with the task it is to run. *)
Record assignment (F : Type) := mkAssignment {
  as_index : nat; as_agent : BaseAgent F; as_task : Task F }.
Arguments mkAssignment {_} _ _ _.
Arguments as_index {_} _.
Arguments as_agent {_} _.
Arguments as_task {_} _.

(** A member of [Counter(l) == Counter(k)]: every type is counted. *)
Definition all_types : list ArtifactType := [CIRCUIT; TRACE; WITNESS; PROOF; VERIFICATION_RESULT].
Definition count_type (t : ArtifactType) (l : list ArtifactType) : nat :=
  length (List.filter (fun t' => bool_decide (t' = t)) l).
Definition counter_eq (l k : list ArtifactType) : bool :=
  forallb (fun t => count_type t l =? count_type t k) all_types.

Definition circuit_count (a : artifact) : Z :=
  match a with ACircuit c => c_constraint_count c | _ => 0%Z end.

Section scheduler.
Context {F : Type} `{!PyFloat F} (team : AgentTeam F).
(** [concurrent.futures.as_completed] *)
Context (as_completed : list (assignment F) → list (assignment F)).
Context (max_workers : Z) (memory : SharedMemory).

(** ** Constraints on results *)

Definition type_violations (t : Task F) (r : TaskResult F) : list string :=
  if counter_eq (produces t) (map artifact_type (produced_artifacts r)) then []
  else ["Produced artifact types {} do not match expected {}"].

Definition time_violations (t : Task F) (r : TaskResult F) : list string :=
  match max_execution_ms t with
  | Some limit => if fltb limit (duration_ms r) then ["Execution exceeded limit: {}ms > {}ms"] else []
  | None => []
  end.

Definition size_violations (t : Task F) (r : TaskResult F) : result (list string) :=
  match max_artifact_bytes t with
  | Some limit =>
      @List.concat _ <$> traverse (fun a => size ← artifact_size_bytes a;
        Ok (if (limit <? size)%Z then ["Artifact {} exceeded size limit: {} > {}"] else []))
        (produced_artifacts r)
  | None => Ok []
  end.

Definition complexity_violations (t : Task F) (r : TaskResult F) : list string :=
  match max_circuit_constraints t with
  | Some limit =>
      @List.concat _ (map (fun a =>
        if bool_decide (artifact_type a = CIRCUIT) && (limit <? circuit_count a)%Z
        then ["CIRCUIT {} exceeded complexity limit: {} > {}"] else []) (produced_artifacts r))
  | None => []
  end.

Definition _enforce_task_constraints (t : Task F) (r : TaskResult F) : result (TaskResult F) :=
  sizes ← size_violations t r;
  let violations := constraint_violations r ++ type_violations t r ++ time_violations t r ++ sizes ++
                      complexity_violations t r in
  let consumed := match consumed_artifact_ids r with
                  | [] => in_consumed_artifact_ids (inputs t) | ids => ids end in
  Ok match violations with
     | [] => mkResult (r_task_id r) (r_agent_id r) (r_status r) (outputs r) (produced_artifacts r)
               consumed (errors r) [] (duration_ms r) (memory_entries r)
     | _ => mkResult (r_task_id r) (r_agent_id r) "failure" (outputs r) [] consumed
              (errors r ++ violations) violations (duration_ms r) (memory_entries r)
     end.

(** ** Preparing and assigning a task *)

Definition resolve_requirement (t : Task F) (g : ArtifactGraph)
    (acc : list (string * list artifact) * list string) (q : requirement)
    : result (list (string * list artifact) * list string) :=
  a ← require (inr (r_artifact_type q)) (r_produced_by q) (Some (tk_cycle t)) (r_artifact_id q) g;
  Ok (append_at (type_value (artifact_type a)) a acc.1, acc.2 ++ [id_of a]).

Definition _resolve_artifact_inputs (t : Task F) (g : ArtifactGraph)
    : result (list (string * list artifact) * list string) :=
  acc ← fold_result (resolve_requirement t g) (artifact_requirements (inputs t)) ([], []);
  Ok (acc.1, sorted_set acc.2).

Definition _prepare_task (t : Task F) (g : ArtifactGraph) (d : decision) : result (Task F) :=
  resolved ← _resolve_artifact_inputs t g;
  Ok (with_inputs (mkInputs (artifact_requirements (inputs t)) resolved.1 (d_preferred_patterns d)
                     (d_failed_patterns d) resolved.2) t).

Definition _assign (agents : list (BaseAgent F)) (t : Task F) : result (nat * BaseAgent F) :=
  match list_find (fun a => accepts a t = true) agents with
  | Some found => Ok found
  | None => raise RuntimeError "No agent available for task {} ({})"
  end.

(** ** Running a set of tasks *)

Definition set_status (s : AgentStatus.t) (i : nat) (agents : list (BaseAgent F)) : list (BaseAgent F) :=
  alter (with_status s) i agents.

(** The result of a future that raised. *)
Definition exception_result (a : BaseAgent F) (t : Task F) (e : exn) : TaskResult F :=
  _make_result (agent_id a) t "failure" [] [exn_msg e]
    [MStrategy (Some (TaskDomain.value (a_domain a))) (Some "failure")
       (Some (if String.eqb (strategy_key t) "" then "agent_execution_exception" else strategy_key t))
       (Some (exn_msg e)) (Some ["coordinator"; "exception"])] [] [] [] (flit 0 1).

(** One iteration over the completed futures. *)
Definition collect (acc : list (TaskResult F) * list (BaseAgent F)) (x : assignment F)
    : result (list (TaskResult F) * list (BaseAgent F)) :=
  match team_run (with_status AgentStatus.RUNNING (as_agent x)) (as_task x) memory with
  | Raise e =>
      Ok (acc.1 ++ [exception_result (as_agent x) (as_task x) e],
          set_status AgentStatus.FAILED (as_index x) acc.2)
  | Ok r =>
      validated ← _enforce_task_constraints (as_task x) r;
      Ok (acc.1 ++ [validated],
          set_status (if String.eqb (r_status validated) "success" then AgentStatus.DONE
                      else AgentStatus.FAILED) (as_index x) acc.2)
  end.

Definition _execute_ready_set (assignments : list (assignment F)) (agents : list (BaseAgent F))
    : result (list (TaskResult F) * list (BaseAgent F)) :=
  if (max_workers <=? 0)%Z then raise ValueError "max_workers must be greater than 0"
  else
    fold_result collect (as_completed assignments)
      ([], foldl (fun agents x => set_status AgentStatus.RUNNING (as_index x) agents) agents assignments).

(** ** Rounds *)

Record sched := mkSched {
  pending : list (string * Task F);
  completed : list (string * TaskResult F);
  terminal_failures : gset string;
  results : list (TaskResult F);
  blocked_tasks : list blocked_task;
  graph : ArtifactGraph;
  agents : list (BaseAgent F) }.

(** What a scan of the pending tasks builds. *)
Record scan := mkScan {
  ready_assignments : list (assignment F);
  to_remove : list string;
  sc_failures : gset string;
  sc_blocked : list blocked_task }.

Definition scan_task (s : sched) (sc : scan) (item : string * Task F) : result scan :=
  let '(id, t) := item in
  let failed_dependencies :=
    List.filter (fun d => bool_decide (d ∈ sc_failures sc)) (depends_on t) in
  match failed_dependencies with
  | _ :: _ =>
      Ok (mkScan (ready_assignments sc) (to_remove sc ++ [id]) (sc_failures sc)
            (sc_blocked sc ++ [DependencyFailed (task_id t) (domain t) failed_dependencies]))
  | [] =>
      if negb (forallb (fun d => dict_mem d (completed s)) (depends_on t)) then Ok sc
      else
        let d := control_decision (TaskDomain.value (domain t)) (Some (strategy_key t)) memory in
        if d_blocked d
        then Ok (mkScan (ready_assignments sc) (to_remove sc ++ [id])
                   ({[ task_id t ]} ∪ sc_failures sc)
                   (sc_blocked sc ++ [MemoryBlocked (task_id t) (domain t) (strategy_key t)
                                        (d_latest_entry d)]))
        else
          prepared ← _prepare_task t (graph s) d;
          found ← _assign (agents s) prepared;
          Ok (mkScan (ready_assignments sc ++ [mkAssignment found.1 found.2 prepared])
                (to_remove sc ++ [id]) (sc_failures sc) (sc_blocked sc))
  end.

Definition scan_pending (s : sched) : result scan :=
  fold_result (scan_task s) (isort key_leb (pending s))
    (mkScan [] [] (terminal_failures s) (blocked_tasks s)).

(** [add_artifact] of everything a result produced. *)
Definition add_produced (r : TaskResult F) (g : ArtifactGraph) : result ArtifactGraph :=
  fold_result (fun g a =>
    match add_artifact a (consumed_artifact_ids r) g with
    | (Ok _, g') => Ok g'
    | (Raise e, _) => Raise e
    end) (produced_artifacts r) g.

Definition settle (s : sched) (r : TaskResult F) : result sched :=
  if String.eqb (r_status r) "success"
  then
    g ← add_produced r (graph s);
    Ok (mkSched (pending s) (dict_set (r_task_id r) r (completed s)) (terminal_failures s)
          (results s ++ [r]) (blocked_tasks s) g (agents s))
  else
    Ok (mkSched (pending s) (completed s) ({[ r_task_id r ]} ∪ terminal_failures s)
          (results s ++ [r]) (blocked_tasks s) (graph s) (agents s)).

Definition remove_scanned (sc : scan) (s : sched) : sched :=
  mkSched (List.filter (fun p => negb (bool_decide (p.1 ∈ to_remove sc))) (pending s)) (completed s)
    (sc_failures sc) (results s) (sc_blocked sc) (graph s) (agents s).

(** One iteration of the loop: whether it goes on, and the state it leaves. *)
Definition dag_round (s : sched) : result (bool * sched) :=
  sc ← scan_pending s;
  let s := remove_scanned sc s in
  match ready_assignments sc with
  | [] =>
      match pending s with
      | [] => Ok (false, s)
      | _ => raise RuntimeError "Artifact DAG stalled with unresolved tasks: {}"
      end
  | assignments =>
      ready ← _execute_ready_set assignments (agents s);
      s' ← fold_result settle ready.1
             (mkSched (pending s) (completed s) (terminal_failures s) (results s) (blocked_tasks s)
                (graph s) ready.2);
      Ok (true, s')
  end.

(** [while pending:]; [None] when the fuel runs out *)
Fixpoint dag_loop (fuel : nat) (s : sched) : option (result sched) :=
  match pending s with
  | [] => Some (Ok s)
  | _ =>
      match fuel with
      | O => None
      | S fuel =>
          match dag_round s with
          | Raise e => Some (Raise e)
          | Ok (true, s') => dag_loop fuel s'
          | Ok (false, s') => Some (Ok s')
          end
      end
  end.

Definition pending_of (tasks : list (Task F)) : list (string * Task F) :=
  dict_of_pairs (map (fun t => (task_id t, t)) tasks).

Definition initial_sched (tasks : list (Task F)) (g : ArtifactGraph) (agents : list (BaseAgent F)) : sched :=
  mkSched (pending_of tasks) [] ∅ [] [] g agents.

Definition _execute_dag (tasks : list (Task F)) (g : ArtifactGraph) (agents : list (BaseAgent F))
    : option (result sched) :=
  dag_loop (length tasks) (initial_sched tasks g agents).
End scheduler.

Arguments sched : clear implicits.
Arguments scan : clear implicits.
