(* ===== verification/SchedulerProps.v ===== *)
(** * What the scheduler guarantees (coordinator/system.py)

    The loop ends; when it returns, every task of the cycle has exactly one
    outcome, ran only after all its dependencies succeeded, and was blocked
    only because a dependency failed or the memory said so. *)
From S2P Require Export Scheduler.

Section props.
Context {F : Type} `{!PyFloat F} (team : AgentTeam F).
Context (as_completed : list (assignment F) → list (assignment F)).
Context (max_workers : Z) (memory : SharedMemory).

#[local] Abbreviation round := (dag_round team as_completed max_workers memory).
#[local] Abbreviation loop := (dag_loop team as_completed max_workers memory).

(** ** Termination *)

Lemma scan_task_removes (s : sched F) sc item sc' :
  scan_task memory s sc item = Ok sc' →
  sc' = sc ∨ to_remove sc' = to_remove sc ++ [item.1].
Proof.
  unfold scan_task. destruct item as [id t]. destruct (List.filter _ _).
  - destruct (negb _); [intros [= <-]; by left|]. destruct (d_blocked _); [intros [= <-]; by right|].
    intros (p & _ & H)%bind_ok. apply bind_ok in H as (f & _ & [= <-]). by right.
  - intros [= <-]. by right.
Qed.

Lemma scan_pending_removes (s : sched F) sc :
  scan_pending memory s = Ok sc →
  to_remove sc ⊆ dict_keys (pending s) ∧ (ready_assignments sc ≠ [] → to_remove sc ≠ []).
Proof.
  apply (fold_result_inv _ (fun sc => to_remove sc ⊆ dict_keys (pending s) ∧
    (ready_assignments sc ≠ [] → to_remove sc ≠ []))); [|by split; [set_solver|]].
  intros sc1 item sc2 Hitem [Hs Hr] [->|E]%scan_task_removes; [done|]. rewrite E. split.
  - intros x [Hx| ->%list_elem_of_singleton]%elem_of_app; [by apply Hs|].
    apply list_elem_of_fmap. exists item. split; [done|]. by apply elem_of_isort in Hitem.
  - intros _. by destruct (to_remove sc1).
Qed.

Lemma settle_pending (s : sched F) r s' : settle s r = Ok s' → pending s' = pending s.
Proof.
  unfold settle. destruct (String.eqb _ _); [intros (g & _ & [= <-])%bind_ok|intros [= <-]]; done.
Qed.

Lemma filter_shorter {A} (p : A → bool) l x :
  x ∈ l → p x = false → length (List.filter p l) < length l.
Proof.
  induction l as [|y l IH]; [set_solver|]. intros [->|Hx]%elem_of_cons Hp; cbn [List.filter length].
  - rewrite Hp. pose proof (List.filter_length_le p l). lia.
  - specialize (IH Hx Hp). destruct (p y); cbn [length]; lia.
Qed.

Lemma dag_round_shrinks (s s' : sched F) :
  round s = Ok (true, s') → length (pending s') < length (pending s).
Proof.
  unfold dag_round. intros (sc & Hsc & H)%bind_ok.
  destruct (scan_pending_removes s sc Hsc) as [Hsub Hne].
  destruct (ready_assignments sc) as [|x l]; [destruct (pending _); done|].
  apply bind_ok in H as (ready & _ & H). apply bind_ok in H as (s1 & H1 & [= <-]).
  assert (pending s1 = pending (remove_scanned sc s)) as ->.
  { revert H1. apply (fold_result_inv settle (fun s2 => pending s2 = pending (remove_scanned sc s))); [|done].
    intros ? ? ? _ <- ?%settle_pending. done. }
  destruct (to_remove sc) as [|id ids] eqn:E; [by destruct Hne|].
  assert (id ∈ dict_keys (pending s)) as ((k & t) & Hk & Hin)%list_elem_of_fmap by (apply Hsub; set_solver).
  apply (filter_shorter _ _ (k, t)); [done|]. simpl in Hk |- *. subst k.
  rewrite E. by rewrite bool_decide_eq_true_2 by set_solver.
Qed.

Lemma dag_loop_enough fuel (s : sched F) :
  length (pending s) ≤ fuel → ∃ r, ∀ fuel', length (pending s) ≤ fuel' → loop fuel' s = Some r.
Proof.
  revert s. induction fuel as [|fuel IH]; intros s Hf.
  { exists (Ok s). intros f' _. destruct f'; simpl; destruct (pending s); (done || simpl in Hf; lia). }
  destruct (pending s) as [|p l] eqn:Ep.
  { exists (Ok s). intros f' _. destruct f'; simpl; by rewrite Ep. }
  destruct (round s) as [[[] s']|e] eqn:E.
  - pose proof (dag_round_shrinks _ _ E) as Hlt. rewrite Ep in Hlt.
    destruct (IH s') as [r Hr]; [simpl in *; lia|]. exists r. intros [|f'] Hf'; [simpl in Hf'; lia|].
    simpl. rewrite Ep, E. apply Hr. simpl in *; lia.
  - exists (Ok s'). intros [|f'] Hf'; [simpl in Hf'; lia|]. simpl. by rewrite Ep, E.
  - exists (Raise e). intros [|f'] Hf'; [simpl in Hf'; lia|]. simpl. by rewrite Ep, E.
Qed.

Lemma length_dict_of_pairs_le {K V} `{!EqDecision K} (l : list (K * V)) :
  length (dict_of_pairs l) ≤ length l.
Proof.
  unfold dict_of_pairs. assert (∀ d, length (fold_left (fun d p => dict_set p.1 p.2 d) l d) ≤ length d + length l) as H.
  { induction l as [|[k v] l IH]; intros d; cbn [fold_left length fst snd]; [lia|]. rewrite IH.
    assert (length (dict_set k v d) ≤ S (length d)); [|lia].
    clear. induction d as [|[k' v'] d IH]; simpl; [lia|]. case_decide; simpl; lia. }
  apply (H []).
Qed.

Lemma execute_dag_enough tasks g agents :
  ∃ r, ∀ fuel, length tasks ≤ fuel → loop fuel (initial_sched tasks g agents) = Some r.
Proof.
  pose proof (length_dict_of_pairs_le (map (fun t => (task_id t, t)) tasks)) as Hle.
  rewrite length_map in Hle. destruct (dag_loop_enough (length tasks) (initial_sched tasks g agents)) as [r Hr];
    [exact Hle|]. exists r. intros fuel Hf. apply Hr. simpl. unfold pending_of. lia.
Qed.

Lemma execute_dag_some tasks g agents :
  ∃ r, _execute_dag team as_completed max_workers memory tasks g agents = Some r.
Proof. destruct (execute_dag_enough tasks g agents) as [r Hr]. exists r. by apply Hr. Qed.

(** C19: the scheduler's loop always ends: whatever the tasks, their
    dependencies (also circular or unknown ones), the memory, the agents and
    the order they finish in, as many rounds as there are tasks are enough for
    it to return or raise, and more change nothing. *)
Theorem execute_dag_terminates (tasks : list (Task F)) (g : ArtifactGraph) (agents : list (BaseAgent F)) :
  ∃ r, _execute_dag team as_completed max_workers memory tasks g agents = Some r ∧
    ∀ fuel, length tasks ≤ fuel → loop fuel (initial_sched tasks g agents) = Some r.
Proof.
  destruct (execute_dag_enough tasks g agents) as [r Hr]. exists r. split; [by apply Hr|exact Hr].
Qed.

(** ** Safety *)

Definition succeeded (r : TaskResult F) : Prop := r_status r = "success".

(** A result of [rs] that is the success of task [id]. *)
Definition has_success (rs : list (TaskResult F)) (id : string) : Prop :=
  ∃ r, r ∈ rs ∧ r_task_id r = id ∧ succeeded r.

(** Task [id] failed for good: it ran and failed, or the memory blocked it. *)
Definition failed_for_good (rs : list (TaskResult F)) (bs : list blocked_task) (id : string) : Prop :=
  (∃ r, r ∈ rs ∧ r_task_id r = id ∧ ¬ succeeded r) ∨
  ∃ d strategy latest, MemoryBlocked id d strategy latest ∈ bs.

(** Every result follows the successes of all dependencies of its task. *)
Definition runs_in_order (tasks : list (string * Task F)) (rs : list (TaskResult F)) : Prop :=
  ∀ pre r post, rs = pre ++ r :: post →
    ∃ t, (r_task_id r, t) ∈ tasks ∧ ∀ d, d ∈ depends_on t → has_success pre d.

(** Why a task is blocked. *)
Definition blocked_for_a_reason (tasks : list (string * Task F)) (rs : list (TaskResult F))
    (bs : list blocked_task) (b : blocked_task) : Prop :=
  ∃ t, (blocked_id b, t) ∈ tasks ∧
  match b with
  | DependencyFailed _ _ failed =>
      failed ≠ [] ∧ ∀ d, d ∈ failed → d ∈ depends_on t ∧ failed_for_good rs bs d
  | MemoryBlocked _ _ _ _ =>
      (∀ d, d ∈ depends_on t → has_success rs d) ∧
      is_strategy_blocked (TaskDomain.value (domain t)) (strategy_key t) memory = true
  end.

(** [r] is what came of running a task of [tasks] once it was prepared. *)
Inductive from_team (tasks : list (string * Task F)) : TaskResult F → Prop :=
  | from_run a k t i r r' :
      (k, t) ∈ tasks → team_run a (with_inputs i t) memory = Ok r →
      _enforce_task_constraints (with_inputs i t) r = Ok r' → from_team tasks r'
  | from_exception a t e : from_team tasks (exception_result a t e).

Record sched_inv (tasks : list (string * Task F)) (s : sched F) : Prop := {
  inv_pending : pending s ⊆ tasks;
  inv_ids : map r_task_id (results s) ++ map blocked_id (blocked_tasks s) ++ dict_keys (pending s)
              ≡ₚ dict_keys tasks;
  inv_completed : ∀ k, k ∈ dict_keys (completed s) → has_success (results s) k;
  inv_failures : ∀ k, k ∈ terminal_failures s → failed_for_good (results s) (blocked_tasks s) k;
  inv_order : runs_in_order tasks (results s);
  inv_blocked : ∀ b, b ∈ blocked_tasks s → blocked_for_a_reason tasks (results s) (blocked_tasks s) b;
  inv_runs : ∀ r, r ∈ results s → from_team tasks r;
  inv_graph : graph_wf (graph s) }.

Definition keyed (tasks : list (string * Task F)) : Prop := ∀ k t, (k, t) ∈ tasks → task_id t = k.

Lemma NoDup_map_inj {A B} (f : A → B) l x y :
  NoDup (map f l) → x ∈ l → y ∈ l → f x = f y → x = y.
Proof.
  intros Hn [i Hi]%list_elem_of_lookup [j Hj]%list_elem_of_lookup E.
  assert (i = j) as ->; [|congruence].
  apply (NoDup_lookup (map f l) i j (f x)); [done| |]; change (map f l) with (f <$> l);
    rewrite list_lookup_fmap; [by rewrite Hi|by rewrite Hj, E].
Qed.

Lemma has_success_mono rs rs' id : has_success rs id → has_success (rs ++ rs') id.
Proof. intros (r & Hr & H). exists r. split; [apply elem_of_app; by left|done]. Qed.

Lemma failed_mono rs rs' bs bs' id :
  failed_for_good rs bs id → failed_for_good (rs ++ rs') (bs ++ bs') id.
Proof.
  intros [(r & Hr & H)|(d & st & l & H)]; [left; exists r|right; exists d, st, l];
    [split; [|done]|]; apply elem_of_app; by left.
Qed.

Lemma reason_mono tasks rs rs' bs bs' b :
  blocked_for_a_reason tasks rs bs b → blocked_for_a_reason tasks (rs ++ rs') (bs ++ bs') b.
Proof.
  intros (t & Ht & H). exists t. split; [done|]. destruct b.
  - destruct H as [Hne H]. split; [done|]. intros d' Hd. destruct (H d' Hd). eauto using failed_mono.
  - destruct H as [H Hb]. split; [|done]. eauto using has_success_mono.
Qed.

(** What a scan has done after the tasks [seen]. *)
Record scan_inv (s : sched F) (seen : list (string * Task F)) (sc : scan F) : Prop := {
  sc_new : ∃ new, sc_blocked sc = blocked_tasks s ++ new ∧
    to_remove sc ≡ₚ map (fun x => task_id (as_task x)) (ready_assignments sc) ++ map blocked_id new;
  sc_sub : to_remove sc `sublist_of` dict_keys seen;
  sc_ready : ∀ x, x ∈ ready_assignments sc → ∃ t i, (task_id (as_task x), t) ∈ seen ∧
    as_task x = with_inputs i t ∧ ∀ d, d ∈ depends_on t → d ∈ dict_keys (completed s);
  sc_fail : ∀ k, k ∈ sc_failures sc → failed_for_good (results s) (sc_blocked sc) k;
  sc_reason : ∀ b, b ∈ sc_blocked sc → b ∈ blocked_tasks s ∨
    blocked_for_a_reason seen (results s) (sc_blocked sc) b }.

Lemma reason_weaken tasks tasks' rs bs b :
  tasks ⊆ tasks' → blocked_for_a_reason tasks rs bs b → blocked_for_a_reason tasks' rs bs b.
Proof. intros Hs (t & Ht & H). exists t. auto. Qed.

Lemma prepare_task_inputs t g d p : _prepare_task t g d = Ok p → ∃ i, p = @with_inputs F i t.
Proof. unfold _prepare_task. intros (r & _ & [= <-])%bind_ok. by eexists. Qed.

(** A scan step that blocks or readies the task at hand. *)
Lemma scan_inv_block s seen sc k t b :
  blocked_id b = k →
  scan_inv s seen sc →
  blocked_for_a_reason (seen ++ [(k, t)]) (results s) (sc_blocked sc ++ [b]) b →
  ∀ fs, (∀ x, x ∈ fs → x ∈ sc_failures sc ∨ ∃ d st l, b = MemoryBlocked x d st l) →
  scan_inv s (seen ++ [(k, t)])
    (mkScan (ready_assignments sc) (to_remove sc ++ [k]) fs (sc_blocked sc ++ [b])).
Proof.
  intros Hid [(new & Hnew & Hp) Hsub Hready Hfail Hreason] Hb fs Hfs. split; cbn.
  - exists (new ++ [b]). rewrite Hnew, map_app, <-app_assoc. split; [done|]. simpl. rewrite Hid.
    by rewrite Hp, <-app_assoc.
  - unfold dict_keys. rewrite fmap_app. by apply sublist_app.
  - intros x Hx. destruct (Hready x Hx) as (u & i & Hu & H). exists u, i. split; [|done]. apply elem_of_app; by left.
  - intros x [Hx|(d & st & l & ->)]%Hfs.
    + rewrite <-(app_nil_r (results s)). by apply failed_mono, Hfail.
    + right. exists d, st, l. set_solver.
  - intros b' [Hb'| ->%list_elem_of_singleton]%elem_of_app; [|by right].
    destruct (Hreason b' Hb') as [|Hr]; [by left|right].
    apply (reason_weaken seen); [set_solver|]. rewrite <-(app_nil_r (results s)). by apply reason_mono.
Qed.

Lemma scan_inv_skip s seen sc x : scan_inv s seen sc → scan_inv s (seen ++ [x]) sc.
Proof.
  intros [Hnew Hsub Hready Hfail Hreason]. split; [done| |..].
  - unfold dict_keys. rewrite fmap_app. by apply sublist_inserts_r.
  - intros y Hy. destruct (Hready y Hy) as (u & i & Hu & H). exists u, i. split; [|done]. apply elem_of_app; by left.
  - done.
  - intros b Hb. destruct (Hreason b Hb) as [|Hr]; [by left|right].
    apply (reason_weaken seen); [set_solver|done].
Qed.

Lemma scan_task_inv s seen sc k t sc' :
  task_id t = k → (∀ d, d ∈ dict_keys (completed s) → has_success (results s) d) →
  scan_inv s seen sc → scan_task memory s sc (k, t) = Ok sc' → scan_inv s (seen ++ [(k, t)]) sc'.
Proof.
  intros Hk Hc Hinv. unfold scan_task.
  destruct (List.filter _ (depends_on t)) as [|f fs] eqn:Ef.
  - destruct (forallb _ _) eqn:Ec; cbn [negb]; [|intros [= <-]; by apply scan_inv_skip].
    assert (∀ d, d ∈ depends_on t → d ∈ dict_keys (completed s)) as Hdeps.
    { rewrite forallb_Forall, Forall_forall in Ec. intros d Hd. by apply dict_mem_spec, Ec. }
    destruct (d_blocked _) eqn:Eb.
    + intros [= <-]. rewrite Hk. apply scan_inv_block; [done|done| |].
      * exists t. cbn. split; [set_solver|]. split; [auto|]. exact Eb.
      * intros x [->%elem_of_singleton|Hx]%elem_of_union; [right; eauto|by left].
    + intros (p & Hp & H)%bind_ok. apply bind_ok in H as (found & _ & [= <-]).
      apply prepare_task_inputs in Hp as [pi ->]. destruct Hinv as [(new & Hnew & Hperm) Hsub Hready Hfail Hreason]. split; cbn.
      * exists new. split; [done|]. rewrite map_app, Hperm. simpl. rewrite Hk. solve_Permutation.
      * unfold dict_keys. rewrite fmap_app. by apply sublist_app.
      * intros x [Hx| ->%list_elem_of_singleton]%elem_of_app.
        -- destruct (Hready x Hx) as (u & i & Hu & H). exists u, i. split; [|done]. apply elem_of_app; by left.
        -- exists t, pi. cbn. rewrite Hk. split; [set_solver|done].
      * done.
      * intros b Hb. destruct (Hreason b Hb) as [|Hr]; [by left|right].
        apply (reason_weaken seen); [set_solver|done].
  - intros [= <-]. rewrite Hk. apply scan_inv_block; [done|done| |by left].
    exists t. cbn. split; [set_solver|]. split; [done|]. intros d Hd. rewrite <-Ef in Hd.
    apply elem_of_filter in Hd as [Hd Hin]. apply bool_decide_eq_true in Hin. split; [done|].
    rewrite <-(app_nil_r (results s)). apply failed_mono. by destruct Hinv; auto.
Qed.

Lemma scan_pending_inv (s : sched F) sc tasks :
  keyed tasks → sched_inv tasks s → scan_pending memory s = Ok sc →
  scan_inv s (isort key_leb (pending s)) sc.
Proof.
  intros Hk Hs. apply fold_result_ind.
  - intros pre [k t] post sc1 sc2 Hl H1. apply scan_task_inv; [|apply (inv_completed _ _ Hs)|done].
    apply Hk, (inv_pending _ _ Hs). rewrite <-(elem_of_isort key_leb), Hl. set_solver.
  - split; cbn; [exists []; by rewrite app_nil_r|by apply sublist_nil_l|set_solver| |by left].
    apply (inv_failures _ _ Hs).
Qed.

Lemma enforce_task_id t r r' : _enforce_task_constraints t r = Ok r' → r_task_id r' = @r_task_id F r.
Proof. unfold _enforce_task_constraints. intros (z & _ & [= <-])%bind_ok. by case_match. Qed.

Lemma execute_ready_set_ids l ags ready :
  (∀ l, as_completed l ≡ₚ l) →
  _execute_ready_set team as_completed max_workers memory l ags = Ok ready →
  map r_task_id ready.1 ≡ₚ map (fun x => task_id (as_task x)) l.
Proof.
  intros Hac. unfold _execute_ready_set. destruct (max_workers <=? 0)%Z; [done|]. intros H.
  trans (map (fun x => task_id (as_task x)) (as_completed l)); [|by rewrite Hac].
  revert H. apply (fold_result_ind _ (fun seen acc =>
    map r_task_id acc.1 ≡ₚ map (fun x => task_id (as_task x)) seen)); [|done].
  intros pre x post acc acc' _ IH Hx. rewrite map_app. cbn [map]. unfold collect in Hx.
  destruct (team_run _ _ _) as [r|e] eqn:Er.
  - apply bind_ok in Hx as (v & Hv & [= <-]). cbn [fst]. rewrite map_app, IH. cbn [map].
    by rewrite (enforce_task_id _ _ _ Hv), (team_run_task_id _ _ _ _ Er).
  - injection Hx as <-. cbn [fst]. by rewrite map_app, IH.
Qed.

Lemma execute_ready_set_runs tasks l ags ready :
  (∀ l, as_completed l ≡ₚ l) →
  (∀ x, x ∈ l → ∃ k t i, (k, t) ∈ tasks ∧ as_task x = with_inputs i t) →
  _execute_ready_set team as_completed max_workers memory l ags = Ok ready →
  ∀ r, r ∈ ready.1 → from_team tasks r.
Proof.
  intros Hac Hl. unfold _execute_ready_set. destruct (max_workers <=? 0)%Z; [done|].
  apply (fold_result_inv _ (fun acc => ∀ r, r ∈ acc.1 → from_team tasks r)); [|set_solver].
  intros acc x acc' Hxl IH Hx r. unfold collect in Hx. rewrite Hac in Hxl.
  destruct (Hl x Hxl) as (k & t & i & Hk & Hxt). rewrite Hxt in Hx.
  destruct (team_run _ _ _) as [r0|e] eqn:Er.
  - apply bind_ok in Hx as (v & Hv & [= <-]). cbn [fst].
    intros [Hr| ->%list_elem_of_singleton]%elem_of_app; [by apply IH|by econstructor].
  - injection Hx as <-. cbn [fst].
    intros [Hr| ->%list_elem_of_singleton]%elem_of_app; [by apply IH|constructor].
Qed.

(** What settling the results [rs] changes. *)
Record settled (s : sched F) (rs : list (TaskResult F)) (s' : sched F) : Prop := {
  set_pending : pending s' = pending s;
  set_blocked : blocked_tasks s' = blocked_tasks s;
  set_results : results s' = results s ++ rs;
  set_completed : ∀ k, k ∈ dict_keys (completed s') → k ∈ dict_keys (completed s) ∨ has_success rs k;
  set_failures : ∀ k, k ∈ terminal_failures s' → k ∈ terminal_failures s ∨
    ∃ r, r ∈ rs ∧ r_task_id r = k ∧ ¬ succeeded r;
  set_graph : graph_wf (graph s) → graph_wf (graph s') }.

Lemma dict_keys_set_elem {K V} `{!EqDecision K} (k k' : K) (v : V) d :
  k ∈ dict_keys (dict_set k' v d) → k = k' ∨ k ∈ dict_keys d.
Proof.
  intros ((k1 & v1) & -> & H)%list_elem_of_fmap. apply dict_set_elem in H as [[= -> ->]|H]; [by left|right].
  apply list_elem_of_fmap. by exists (k1, v1).
Qed.

Lemma add_produced_wf r g g' : graph_wf g → @add_produced F r g = Ok g' → graph_wf g'.
Proof.
  intros Hg. apply fold_result_inv; [|done]. intros g1 a g2 _ H1 H2.
  pose proof (add_artifact_wf a (consumed_artifact_ids r) g1 H1) as Hw.
  destruct (add_artifact a _ g1) as [[] g3]; [|done]. injection H2 as <-. exact Hw.
Qed.

Lemma settle_all s rs s' : fold_result settle rs s = Ok s' → settled s rs s'.
Proof.
  apply (fold_result_ind settle (settled s)).
  - intros pre r post s1 s2 _ [Hp Hb Hr Hc Hf Hg] H. unfold settle in H.
    destruct (String.eqb_spec (r_status r) "success") as [E|E].
    + apply bind_ok in H as (g & Hadd & [= <-]). split; cbn; [done|done| | |set_solver|].
      * by rewrite Hr, app_assoc.
      * intros k [->|[Hk|Hk]%Hc]%dict_keys_set_elem; [right|by left|right; by apply has_success_mono].
        exists r. split; [set_solver|done].
      * intros Hw. apply (add_produced_wf r (graph s1)); auto.
    + injection H as <-. split; cbn; [done|done|by rewrite Hr, app_assoc| | |done].
      * intros k [Hk|Hk]%Hc; [by left|right; by apply has_success_mono].
      * intros k [->%elem_of_singleton|Hk]%elem_of_union; [right; exists r; set_solver|].
        destruct (Hf k Hk) as [|(r' & H1 & H2)]; [by left|right; exists r'; set_solver].
  - split; try done; [by rewrite app_nil_r|by left|by left].
Qed.

Lemma runs_in_order_app tasks rs rs' :
  runs_in_order tasks rs →
  (∀ r, r ∈ rs' → ∃ t, (r_task_id r, t) ∈ tasks ∧ ∀ d, d ∈ depends_on t → has_success rs d) →
  runs_in_order tasks (rs ++ rs').
Proof.
  intros H1 H2 pre r post H. apply app_eq_inv in H as [(k & -> & Hk)|(k & -> & Hk)].
  - destruct k as [|x k].
    + simpl in Hk. rewrite app_nil_r in H2. destruct (H2 r) as (t & Ht & Hd); [set_solver|]. by exists t.
    + injection Hk as <- ->. by eapply H1.
  - destruct (H2 r) as (t & Ht & Hd); [set_solver|]. exists t. split; [done|].
    intros d Hdd. by apply has_success_mono, Hd.
Qed.

Lemma removed_keys s sc :
  dict_wf (pending s) → to_remove sc `sublist_of` dict_keys (isort key_leb (pending s)) →
  dict_keys (pending s) ≡ₚ to_remove sc ++ dict_keys (pending (remove_scanned (F:=F) sc s)).
Proof.
  intros Hw Hsub. assert (NoDup (to_remove sc)) as Hnd.
  { eapply sublist_NoDup; [|exact Hsub]. unfold dict_keys. rewrite isort_perm. exact Hw. }
  assert (to_remove sc ⊆ dict_keys (pending s)) as Hin.
  { intros k Hk. eapply elem_of_sublist in Hsub; [|exact Hk]. unfold dict_keys in *.
    by rewrite isort_perm in Hsub. }
  apply NoDup_Permutation; [done| |].
  - apply NoDup_app. split; [done|]. split.
    + intros k Hk ((k' & t) & -> & Hkt)%list_elem_of_fmap. apply elem_of_filter in Hkt as [_ Hkt].
      apply negb_true_iff, bool_decide_eq_false in Hkt. done.
    + unfold dict_wf, dict_keys in Hw |- *. cbn. revert Hw. clear. generalize (pending s).
      induction l as [|x l IH]; [done|]. cbn [fmap list_fmap List.filter]. intros [Hx Hl]%NoDup_cons.
      destruct (negb _); [|auto]. cbn. apply NoDup_cons. split; [|auto].
      intros (y & Hy & H)%list_elem_of_fmap. apply elem_of_filter in H as [H _]. apply Hx. rewrite Hy.
      apply list_elem_of_fmap. by exists y.
  - intros k. rewrite elem_of_app. cbn. split.
    + intros ((k' & t) & -> & Hkt)%list_elem_of_fmap. cbn [fst].
      destruct (decide (k' ∈ to_remove sc)) as [|Hn]; [by left|right].
      apply list_elem_of_fmap. exists (k', t). split; [done|]. apply elem_of_filter. split; [done|].
      cbn. by rewrite bool_decide_eq_false_2.
    + intros [Hk|((k' & t) & -> & Hkt)%list_elem_of_fmap]; [by apply Hin|].
      apply elem_of_filter in Hkt as [Hkt _]. apply list_elem_of_fmap. by exists (k', t).
Qed.

Lemma after_round tasks s sc rs s' :
  dict_wf tasks → sched_inv tasks s → scan_inv s (isort key_leb (pending s)) sc →
  map r_task_id rs ≡ₚ map (fun x => task_id (as_task x)) (ready_assignments sc) →
  (∀ r, r ∈ rs → from_team tasks r) → settled (remove_scanned sc s) rs s' → sched_inv tasks s'.
Proof.
  intros Hwf Hs [(new & Hnew & Hperm) Hsub Hready Hfail Hreason] Hids Hruns [Hp Hb Hr Hc Hf Hg]. cbn in *.
  assert (dict_wf (pending s)) as Hw.
  { pose proof (inv_ids _ _ Hs) as H. unfold dict_wf in *. rewrite <-H in Hwf.
    apply NoDup_app in Hwf as (_ & _ & Hwf). by apply NoDup_app in Hwf as (_ & _ & Hwf). }
  assert (isort key_leb (pending s) ⊆ tasks) as Hseen.
  { intros x Hx%elem_of_isort. by apply (inv_pending _ _ Hs). }
  split.
  - rewrite Hp. cbn. intros x [Hx _]%elem_of_filter. by apply (inv_pending _ _ Hs).
  - rewrite Hr, Hb, Hp, Hnew, !map_app, Hids, <-(inv_ids _ _ Hs), (removed_keys s sc Hw Hsub), Hperm.
    cbn. solve_Permutation.
  - rewrite Hr. intros k [Hk|(r & Hin & H)]%Hc; [by apply has_success_mono, (inv_completed _ _ Hs)|].
    exists r. split; [set_solver|done].
  - rewrite Hr, Hb. intros k [Hk|(r & Hin & H)]%Hf.
    + rewrite <-(app_nil_r (sc_blocked sc)). by apply failed_mono, Hfail.
    + left. exists r. set_solver.
  - rewrite Hr. apply runs_in_order_app; [apply (inv_order _ _ Hs)|]. intros r Hin.
    assert (r_task_id r ∈ map (fun x => task_id (as_task x)) (ready_assignments sc)) as Hid
      by (rewrite <-Hids; apply elem_of_map; by exists r).
    apply elem_of_map in Hid as (x & Hx & Hxr). destruct (Hready x Hxr) as (t & i & Ht & _ & Hd).
    exists t. rewrite Hx. split; [by apply Hseen|]. intros d Hdd. by apply (inv_completed _ _ Hs), Hd.
  - rewrite Hr, Hb. intros b Hb'. destruct (Hreason b Hb') as [H|H].
    + rewrite Hnew. apply reason_mono, (inv_blocked _ _ Hs b H).
    + rewrite <-(app_nil_r (sc_blocked sc)). apply reason_mono. by eapply reason_weaken.
  - rewrite Hr. intros r [Hin|Hin]%elem_of_app; [by apply (inv_runs _ _ Hs)|by apply Hruns].
  - apply Hg, (inv_graph _ _ Hs).
Qed.

(** ** Constraints *)

Lemma counter_eq_perm l k : counter_eq l k = true ↔ l ≡ₚ k.
Proof using.
  assert (∀ t l, count_type t l = count_occ artifact_type_eq_dec l t) as Hc.
  { clear. intros t l. induction l as [|t' l IH]; [done|]. unfold count_type in *. cbn [List.filter count_occ].
    rewrite <-IH. destruct (artifact_type_eq_dec t' t) as [->|Hn];
      [by rewrite bool_decide_eq_true_2|by rewrite bool_decide_eq_false_2]. }
  unfold counter_eq. rewrite forallb_Forall, Forall_forall, (Permutation_count_occ artifact_type_eq_dec).
  split; intros H t.
  - rewrite <-!Hc. apply Nat.eqb_eq, H. destruct t; unfold all_types; set_solver.
  - intros _. apply Nat.eqb_eq. by rewrite !Hc.
Qed.

Lemma concat_flags {A B} (f : A → bool) (x : B) l :
  List.concat (map (fun a => if f a then [x] else []) l) = [] ↔ ∀ a, a ∈ l → f a = false.
Proof using.
  induction l as [|a l IH]; simpl; [set_solver|]. destruct (f a) eqn:E; simpl.
  - split; [done|]. intros H. rewrite (H a) in E; [done|set_solver].
  - rewrite IH. split; [intros H b [->|Hb]%elem_of_cons; auto|intros H b Hb; apply H; set_solver].
Qed.

(** The task's limits on what a result produced. *)
Definition within_limits (t : Task F) (r : TaskResult F) : Prop :=
  produces t ≡ₚ map artifact_type (produced_artifacts r) ∧
  (∀ limit, max_execution_ms t = Some limit → fltb limit (duration_ms r) = false) ∧
  (∀ limit a size, max_artifact_bytes t = Some limit → a ∈ produced_artifacts r →
     artifact_size_bytes a = Ok size → (size <= limit)%Z) ∧
  (∀ limit c, max_circuit_constraints t = Some limit → ACircuit c ∈ produced_artifacts r →
     (c_constraint_count c <= limit)%Z).

Lemma size_violations_nil t r v :
  size_violations t r = Ok v →
  v = [] ↔ ∀ limit a size, max_artifact_bytes t = Some limit → a ∈ @produced_artifacts F r →
    artifact_size_bytes a = Ok size → (size <= limit)%Z.
Proof using.
  unfold size_violations. destruct (max_artifact_bytes t) as [limit|]; [|by intros [= <-]].
  intros (vs & Hvs & <-)%fmap_ok. apply traverse_ok in Hvs.
  trans (∀ a size, a ∈ produced_artifacts r → artifact_size_bytes a = Ok size → (size <= limit)%Z);
    [|naive_solver].
  induction Hvs as [|a v l vs Ha _ IH]; simpl; [set_solver|].
  apply bind_ok in Ha as (size & Hs & [= <-]). destruct (Z.ltb_spec limit size) as [Hlt|Hle]; simpl.
  - split; [done|]. intros H. specialize (H a size). assert (size <= limit)%Z by (apply H; set_solver). lia.
  - rewrite IH. split; intros H b z Hb Hz; [|by apply (H b z); [set_solver|]].
    apply elem_of_cons in Hb as [->|Hb]; [congruence|by apply (H b z)].
Qed.

(** A result counts as a success exactly when the agent said so, reported
    no violation, produced precisely the types of artifact the task asks for
    and kept every limit of the task; a result that breaks one is a failure
    that produced nothing. *)
Theorem enforced_constraints (t : Task F) (r r' : TaskResult F) :
  _enforce_task_constraints t r = Ok r' →
  (succeeded r' ↔ succeeded r ∧ constraint_violations r = [] ∧ within_limits t r) ∧
  (succeeded r' → produced_artifacts r' = produced_artifacts r) ∧
  (¬ (constraint_violations r = [] ∧ within_limits t r) → produced_artifacts r' = []).
Proof using.
  unfold _enforce_task_constraints. intros (sizes & Hs & H)%bind_ok. apply size_violations_nil in Hs.
  assert (type_violations t r = [] ↔ produces t ≡ₚ map artifact_type (produced_artifacts r)) as Ht.
  { rewrite <-counter_eq_perm. unfold type_violations. by destruct (counter_eq _ _). }
  assert (time_violations t r = [] ↔ ∀ limit, max_execution_ms t = Some limit →
    fltb limit (duration_ms r) = false) as Htime.
  { unfold time_violations. destruct (max_execution_ms t) as [l|]; [|done].
    destruct (fltb l (duration_ms r)) eqn:E; split; try done; [|by intros _ ? [= <-]].
    intros H'. by rewrite (H' l eq_refl) in E. }
  assert (complexity_violations t r = [] ↔ ∀ limit c, max_circuit_constraints t = Some limit →
    ACircuit c ∈ produced_artifacts r → (c_constraint_count c <= limit)%Z) as Hc.
  { unfold complexity_violations. destruct (max_circuit_constraints t) as [l|]; [|done].
    rewrite concat_flags. split.
    - intros H' limit c [= <-] Hin. specialize (H' _ Hin).
      rewrite bool_decide_eq_true_2 in H' by done. by apply Z.ltb_ge in H'.
    - intros H' a Ha. destruct a; try done. rewrite bool_decide_eq_true_2 by done.
      apply Z.ltb_ge. by apply (H' l _ eq_refl). }
  set (vs := constraint_violations r ++ _) in H.
  assert (vs = [] ↔ constraint_violations r = [] ∧ within_limits t r) as Hv.
  { unfold vs, within_limits. rewrite <-Ht, <-Htime, <-Hs, <-Hc, !app_nil. tauto. }
  injection H as <-. unfold succeeded. destruct vs as [|v vs'] eqn:E; cbn; [|naive_solver].
  destruct Hv as [Hv _]. destruct (Hv eq_refl). naive_solver.
Qed.

Lemma enforced_success t r r' :
  _enforce_task_constraints t r = Ok r' → succeeded r' → @succeeded r.
Proof using. unfold _enforce_task_constraints. intros (z & _ & [= <-])%bind_ok. by case_match. Qed.

Context (Hcompleted : ∀ l, as_completed l ≡ₚ l).

Lemma dag_round_inv tasks s b s' :
  dict_wf tasks → keyed tasks → sched_inv tasks s → round s = Ok (b, s') →
  sched_inv tasks s' ∧ (b = false → pending s' = []).
Proof using Hcompleted.
  intros Hwf Hk Hs. unfold dag_round. intros (sc & Hsc & H)%bind_ok.
  pose proof (scan_pending_inv s sc tasks Hk Hs Hsc) as Hscan.
  destruct (ready_assignments sc) as [|x l] eqn:El.
  - destruct (pending (remove_scanned sc s)) eqn:Ep; [|done]. injection H as <- <-. split; [|done].
    apply (after_round tasks s sc []); [done..|by rewrite El|set_solver|].
    split; cbn; try done; [by rewrite app_nil_r|by left|by left].
  - rewrite <-El in H. apply bind_ok in H as (ready & Hready & H).
    apply bind_ok in H as (s1 & H1 & [= <- <-]). split; [|done].
    apply (after_round tasks s sc ready.1); [done..| | |].
    + by apply (execute_ready_set_ids _ _ _ Hcompleted Hready).
    + eapply execute_ready_set_runs; [exact Hcompleted| |exact Hready].
      intros y Hy. destruct Hscan as [_ _ Hr _ _]. destruct (Hr y Hy) as (t & i & Ht & Hyt & _).
      exists (task_id (as_task y)), t, i. split; [|done]. apply (inv_pending _ _ Hs). by apply elem_of_isort in Ht.
    + apply settle_all in H1. by destruct H1; split.
Qed.

Lemma dag_loop_inv tasks fuel s s' :
  dict_wf tasks → keyed tasks → sched_inv tasks s → loop fuel s = Some (Ok s') →
  sched_inv tasks s' ∧ pending s' = [].
Proof using Hcompleted.
  intros Hwf Hk. revert s. induction fuel as [|fuel IH]; intros s Hs; simpl.
  - destruct (pending s) eqn:E; [|done]. by intros [= <-].
  - destruct (pending s) eqn:E; [by intros [= <-]|].
    destruct (round s) as [[b s1]|e] eqn:Er; [|done].
    destruct (dag_round_inv tasks s b s1 Hwf Hk Hs Er) as [H1 Hp].
    destruct b; [by apply IH|]. intros [= <-]. auto.
Qed.

Lemma pending_of_wf (tasks : list (Task F)) : dict_wf (pending_of tasks).
Proof.
  unfold pending_of, dict_of_pairs.
  assert (∀ (l d : list (string * Task F)), dict_wf d → dict_wf (fold_left (fun d p => dict_set p.1 p.2 d) l d)) as H.
  { induction l as [|[k t] l IH]; intros d Hd; simpl; auto using dict_set_wf. }
  apply H. constructor.
Qed.

Lemma pending_of_elem (tasks : list (Task F)) k t :
  (k, t) ∈ pending_of tasks → task_id t = k ∧ t ∈ tasks.
Proof.
  unfold pending_of, dict_of_pairs.
  assert (∀ (l d : list (string * Task F)), (∀ k t, (k, t) ∈ l ∨ (k, t) ∈ d → @task_id F t = k ∧ t ∈ tasks) →
    (k, t) ∈ fold_left (fun d p => dict_set p.1 p.2 d) l d → task_id t = k ∧ t ∈ tasks) as H.
  { induction l as [|[k' t'] l IH]; intros d Hd; simpl; [by intros; apply Hd; right|]. apply IH.
    intros k1 t1 [H|H]; [apply Hd; left; set_solver|].
    apply dict_set_elem in H as [[= -> ->]|H]; apply Hd; set_solver. }
  apply H. intros k1 t1 [(t2 & [= -> ->] & Ht)%elem_of_map|Ht]; [done|set_solver].
Qed.

Lemma pending_of_keys (tasks : list (Task F)) k :
  k ∈ dict_keys (pending_of tasks) ↔ ∃ t, t ∈ tasks ∧ task_id t = k.
Proof.
  split; [intros ((k' & t) & -> & [<- Ht]%pending_of_elem)%list_elem_of_fmap; by exists t|].
  intros (t & Ht & <-). unfold pending_of, dict_of_pairs.
  assert (∀ (l d : list (string * Task F)), task_id t ∈ dict_keys l ∨ task_id t ∈ dict_keys d →
    task_id t ∈ dict_keys (fold_left (fun d p => dict_set p.1 p.2 d) l d)) as H.
  { induction l as [|[k' t'] l IH]; intros d; simpl; [by intros [?%elem_of_nil|]|].
    intros H. apply IH. unfold dict_keys in H at 1. cbn [fmap list_fmap fst] in H.
    rewrite elem_of_cons in H. destruct H as [[->|H]|H]; [right|by left|right].
    - apply dict_mem_spec. unfold dict_mem. by rewrite dict_get_set_eq.
    - apply dict_mem_spec in H. apply dict_mem_spec. unfold dict_mem in *.
      destruct (decide (task_id t = k')) as [->|Hn]; [by rewrite dict_get_set_eq|].
      by rewrite dict_get_set_ne. }
  apply H. left. apply list_elem_of_fmap. exists (task_id t, t). split; [done|].
  apply elem_of_map. by exists t.
Qed.

Lemma execute_dag_inv tasks g agents s :
  graph_wf g → _execute_dag team as_completed max_workers memory tasks g agents = Some (Ok s) →
  sched_inv (pending_of tasks) s ∧ pending s = [].
Proof using Hcompleted.
  intros Hg. apply dag_loop_inv; [apply pending_of_wf|by intros k t [Ht _]%pending_of_elem|].
  split; cbn; try done; try set_solver. by intros [] ?? [=].
Qed.

(** ** Properties *)

(** C18: when a cycle returns, every task has exactly one outcome, a result or a
    block; each result comes after the successes of all the dependencies of its
    task; a task is blocked only because a dependency failed for good or, with
    all dependencies successful, because the memory's last word on its strategy
    is a failure; and the artifact graph is consistent. *)
Theorem execute_dag_safe (tasks : list (Task F)) (g : ArtifactGraph) (agents : list (BaseAgent F))
    (s : sched F) :
  graph_wf g → _execute_dag team as_completed max_workers memory tasks g agents = Some (Ok s) →
  NoDup (map r_task_id (results s) ++ map blocked_id (blocked_tasks s)) ∧
  (∀ k, k ∈ map r_task_id (results s) ++ map blocked_id (blocked_tasks s) ↔
     ∃ t, t ∈ tasks ∧ task_id t = k) ∧
  runs_in_order (pending_of tasks) (results s) ∧
  (∀ b, b ∈ blocked_tasks s →
     blocked_for_a_reason (pending_of tasks) (results s) (blocked_tasks s) b) ∧
  graph_wf (graph s).
Proof using Hcompleted.
  intros Hg Hs. destruct (execute_dag_inv _ _ _ _ Hg Hs) as [Hinv Hp].
  pose proof (inv_ids _ _ Hinv) as Hids. rewrite Hp in Hids. cbn in Hids. rewrite app_nil_r in Hids.
  split; [rewrite Hids; apply pending_of_wf|]. split.
  { intros k. rewrite Hids. apply pending_of_keys. }
  split; [apply (inv_order _ _ Hinv)|]. split; [apply (inv_blocked _ _ Hinv)|apply (inv_graph _ _ Hinv)].
Qed.

Lemma one_outcome tasks s :
  dict_wf tasks → sched_inv tasks s →
  NoDup (map r_task_id (results s)) ∧ NoDup (map blocked_id (blocked_tasks s)) ∧
  ∀ r b, r ∈ results s → b ∈ blocked_tasks s → r_task_id r ≠ blocked_id b.
Proof.
  intros Hwf Hs. pose proof (inv_ids _ _ Hs) as H. unfold dict_wf in Hwf. rewrite <-H in Hwf.
  apply NoDup_app in Hwf as (H1 & H2 & H3). apply NoDup_app in H3 as (H3 & _ & _).
  split; [done|]. split; [done|]. intros r b Hr Hb E.
  apply (H2 (r_task_id r)); [apply elem_of_map; by exists r|].
  apply elem_of_app. left. apply elem_of_map. by exists b.
Qed.

Lemma result_succeeds_deps tasks s k t r :
  dict_wf tasks → sched_inv tasks s → (k, t) ∈ tasks → r ∈ results s → r_task_id r = k →
  ∀ d, d ∈ depends_on t → has_success (results s) d.
Proof.
  intros Hwf Hs Ht Hr <- d Hd. apply list_elem_of_split in Hr as (pre & post & Hl).
  destruct (inv_order _ _ Hs pre r post Hl) as (t' & Ht' & H).
  assert (t' = t) as -> by (apply dict_get_elem in Ht', Ht; [congruence|done..]).
  rewrite Hl. by apply has_success_mono, H.
Qed.

(** A task one of whose dependencies has no success is blocked or pending. *)
Lemma blocked_by_dependency tasks s k t d :
  dict_wf tasks → sched_inv tasks s → pending s = [] → (k, t) ∈ tasks → d ∈ depends_on t →
  ¬ has_success (results s) d →
  ∃ dom failed, DependencyFailed k dom failed ∈ blocked_tasks s.
Proof.
  intros Hwf Hs Hp Ht Hd Hn. pose proof (inv_ids _ _ Hs) as Hids. rewrite Hp in Hids. cbn in Hids.
  rewrite app_nil_r in Hids.
  assert (k ∈ dict_keys tasks) as Hk by (apply list_elem_of_fmap; by exists (k, t)).
  rewrite <-Hids in Hk. apply elem_of_app in Hk as [(r & -> & Hr)%elem_of_map|(b & -> & Hb)%elem_of_map].
  - destruct Hn. by eapply result_succeeds_deps.
  - destruct (inv_blocked _ _ Hs b Hb) as (t' & Ht' & H).
    assert (t' = t) as -> by (apply dict_get_elem in Ht', Ht; [congruence|done..]).
    destruct b as [i dom failed|i dom st l]; cbn; [by exists dom, failed|].
    destruct H as [H _]. destruct Hn. auto.
Qed.

Lemma deep_failure_raises (tasks : list (Task F)) (g : ArtifactGraph)
    (agents : list (BaseAgent F)) (a b c : Task F) :
  graph_wf g →
  (task_id a, a) ∈ pending_of tasks →
  (∀ ag i r r', team_run ag (with_inputs i a) memory = Ok r →
     _enforce_task_constraints (with_inputs i a) r = Ok r' → r_status r' ≠ "success") →
  (task_id b, b) ∈ pending_of tasks → task_id a ∈ depends_on b →
  (task_id c, c) ∈ pending_of tasks → depends_on c = [task_id b] →
  ∃ e, _execute_dag team as_completed max_workers memory tasks g agents = Some (Raise e).
Proof using Hcompleted.
  intros Hg Hin_a Ha Hb Hba Hc Hcb.
  destruct (execute_dag_some tasks g agents) as [r Hex].
  destruct r as [s|e]; [exfalso|by exists e].
  destruct (execute_dag_inv _ _ _ _ Hg Hex) as [Hs Hp]. pose proof (pending_of_wf tasks) as Hwf.
  destruct (one_outcome _ _ Hwf Hs) as (_ & Hbs & Hdis).
  assert (¬ has_success (results s) (task_id a)) as Hna.
  { intros (r & Hin & Hid & Hok). destruct (inv_runs _ _ Hs r Hin) as [ag k t i r0 r1 Hk Hrun Henf|]; [|done].
    rewrite (enforce_task_id _ _ _ Henf), (team_run_task_id _ _ _ _ Hrun) in Hid. cbn in Hid.
    destruct (pending_of_elem tasks k t Hk) as [<- _]. rewrite Hid in Hk.
    assert (t = a) as -> by (apply dict_get_elem in Hk, Hin_a; [congruence|done..]).
    by apply (Ha ag i r0 r1). }
  destruct (blocked_by_dependency _ _ _ _ _ Hwf Hs Hp Hb Hba Hna) as (db & fb & Hbb).
  assert (¬ has_success (results s) (task_id b)) as Hnb
    by (intros (r & Hin & Hid & _); by apply (Hdis r _ Hin Hbb)).
  destruct (blocked_by_dependency _ _ _ _ (task_id b) Hwf Hs Hp Hc) as (dc & fc & Hbc);
    [rewrite Hcb; set_solver|done|].
  destruct (inv_blocked _ _ Hs _ Hbc) as (t & Ht & Hne & Hf). cbn in Ht.
  assert (t = c) as -> by (apply dict_get_elem in Ht, Hc; [congruence|done..]).
  destruct fc as [|d fc]; [done|]. destruct (Hf d) as [Hd Hfg]; [set_solver|].
  rewrite Hcb in Hd. apply list_elem_of_singleton in Hd as ->.
  destruct Hfg as [(r & Hin & Hid & _)|(d' & st & l & Hm)]; [by apply (Hdis r _ Hin Hbb)|].
  by pose proof (NoDup_map_inj _ _ _ _ Hbs Hbb Hm eq_refl).
Qed.

(** A task that cannot succeed takes the whole cycle down as soon as two
    tasks hang below it.  When task [a], prepared with whatever inputs, never
    ends in a success, [b] depends on [a], and [c] on [b] alone, the call
    raises: [b] is blocked, but is not among the failures that would block [c],
    which can then neither run nor be blocked. *)
Theorem failure_stalls_the_cycle (tasks : list (Task F)) (g : ArtifactGraph)
    (agents : list (BaseAgent F)) (a b c : Task F) :
  graph_wf g →
  (task_id a, a) ∈ pending_of tasks →
  (∀ ag i r r', team_run ag (with_inputs i a) memory = Ok r →
     _enforce_task_constraints (with_inputs i a) r = Ok r' → r_status r' ≠ "success") →
  (task_id b, b) ∈ pending_of tasks → task_id a ∈ depends_on b →
  (task_id c, c) ∈ pending_of tasks → depends_on c = [task_id b] →
  ∃ e, _execute_dag team as_completed max_workers memory tasks g agents = Some (Raise e).
Proof using Hcompleted. apply deep_failure_raises. Qed.
End props.

(** ** An instance *)

(** Agents that succeed without artifacts, except for tasks named [bad]. *)
Definition demo_run {F} `{!PyFloat F} (a : BaseAgent F) (t : Task F) (m : SharedMemory)
    : result (TaskResult F) :=
  if String.eqb (task_id t) "bad" then raise RuntimeError "boom"
  else Ok (_make_result (agent_id a) t "success" [] [] [] [] [] [] (flit 0 1)).

#[refine] Definition demo_team {F} `{!PyFloat F} : AgentTeam F := {| team_run := demo_run |}.
Proof. intros a t m r. unfold demo_run. destruct (String.eqb _ _); [done|]. by intros [= <-]. Defined.

Definition demo_task (id : string) (deps : list string) : Task (Z * positive) :=
  mkTask id TaskDomain.TESTING "" no_inputs TaskPriority.NORMAL 1 deps "" [] [] None None None.

Definition demo_agents : list (BaseAgent (Z * positive)) :=
  [mkAgent "tester" TaskDomain.TESTING "1.0.0" (flit 1 0) AgentStatus.IDLE].

Definition no_memory : SharedMemory := mkMemory [] [] [] [].

#[local] Abbreviation demo_dag tasks :=
  (_execute_dag demo_team reverse 10 no_memory tasks ArtifactGraph_init demo_agents).

Example execute_dag_safe_witness :
  let tasks := [demo_task "c" ["b"; "a"]; demo_task "b" ["a"]; demo_task "a" [];
                demo_task "bad" ["a"]; demo_task "z" ["bad"]] in
  ∃ s, demo_dag tasks = Some (Ok s) ∧ map r_task_id (results s) = ["a"; "bad"; "b"; "c"] ∧
  map blocked_id (blocked_tasks s) = ["z"] ∧
  NoDup (map r_task_id (results s) ++ map blocked_id (blocked_tasks s)).
Proof.
  intros tasks. destruct (demo_dag tasks) as [[s|e]|] eqn:E; [|vm_compute in E; discriminate E..].
  exists s. split; [reflexivity|].
  destruct (execute_dag_safe demo_team reverse 10 no_memory reverse_Permutation tasks
    ArtifactGraph_init demo_agents s init_wf E) as (H & _).
  split; [|split; [|exact H]]; vm_compute in E; injection E as <-; reflexivity.
Defined.

Example failure_stalls_the_cycle_witness :
  let tasks := [demo_task "bad" []; demo_task "b" ["bad"]; demo_task "c" ["b"]] in
  demo_dag tasks = Some (raise RuntimeError "Artifact DAG stalled with unresolved tasks: {}") ∧
  ∃ e, demo_dag tasks = Some (Raise e).
Proof.
  intros tasks. split; [vm_compute; reflexivity|].
  apply (failure_stalls_the_cycle demo_team reverse 10 no_memory reverse_Permutation tasks
    ArtifactGraph_init demo_agents (demo_task "bad" []) (demo_task "b" ["bad"]) (demo_task "c" ["b"])).
  - exact init_wf.
  - apply dict_get_Some_elem. reflexivity.
  - intros ag i r r' H. vm_compute in H. discriminate H.
  - apply dict_get_Some_elem. reflexivity.
  - apply list_elem_of_here.
  - apply dict_get_Some_elem. reflexivity.
  - reflexivity.
Defined.

Example enforced_constraints_witness :
  let t := demo_task "a" [] in
  let r : TaskResult (Z * positive) :=
    _make_result "x" t "success" [] [] [] [] [] ["late"] (flit 0 1) in
  ∃ r', _enforce_task_constraints t r = Ok r' ∧ ¬ succeeded r'.
Proof.
  intros t r. destruct (_enforce_task_constraints t r) as [r'|e] eqn:E; [|vm_compute in E; discriminate E].
  exists r'. split; [reflexivity|]. destruct (enforced_constraints t r r' E) as [H _].
  intros Hs. apply H in Hs as (_ & Hv & _). discriminate Hv.
Defined.
