(* ===== verification/StubPipeline.v ===== *)
(** * The stub proof pipeline (zk/circuits/import_landed_cost_stub.py,
    zk/provers/stub_prover.py, zk/verifiers/stub_verifier.py,
    backend/trace_adapter.py, backend/zk_pipeline.py)

    From a request to artifacts: the engine's trace and witness, the default
    circuit, a proof made of hashes, and the verification of all four.  The
    timings of the benchmark are not modelled. *)
From S2P Require Export CoreVerifier.
From S2P Require Export Artifacts.

(** ** The circuit *)

Record CircuitBlueprint := mkBlueprint {
  b_name : string;
  b_description : string;
  b_public_inputs : list string;
  b_private_inputs : list string;
  recommended_framework : string;
  b_constraints : list (list (string * pyval)) }.

(** [asdict(ConstraintSpec(..))] *)
Definition constraint_spec (name purpose : string) (inputs outputs : list string)
    : list (string * pyval) :=
  [("name", PStr name); ("purpose", PStr purpose); ("inputs", strs inputs); ("outputs", strs outputs)].

Definition blueprint_constraint_count (b : CircuitBlueprint) : Z := Z.of_nat (length (b_constraints b)).

Definition blueprint_dict (b : CircuitBlueprint) : list (string * pyval) :=
  [("name", PStr (b_name b)); ("description", PStr (b_description b));
   ("public_inputs", strs (b_public_inputs b)); ("private_inputs", strs (b_private_inputs b));
   ("recommended_framework", PStr (recommended_framework b));
   ("constraints", PList (map PDict (b_constraints b)));
   ("constraint_count", PInt (blueprint_constraint_count b))].

Definition build_circuit_blueprint : CircuitBlueprint :=
  mkBlueprint "import_landed_cost_stub_v1"
    "Circuit-oriented decomposition of the deterministic U.S. import landed-cost engine."
    ["hs_code"; "country_of_origin"; "shipping_mode"; "landed_cost"]
    ["customs_value"; "freight"; "insurance"; "quantity"] "Plonk"
    [constraint_spec "canonical_input_hash" "Bind private request inputs to a deterministic input hash."
       ["hs_code"; "country_of_origin"; "shipping_mode"; "customs_value"; "freight"; "insurance";
        "quantity"] ["input_hash"];
     constraint_spec "tariff_lookup_commitment"
       "Commit to the tariff row and rates used by the calculation."
       ["hs_code"; "country_of_origin"] ["duty_rate"; "section_301_rate"];
     constraint_spec "extended_value" "Compute customs_value * quantity."
       ["customs_value"; "quantity"] ["extended_customs_value"];
     constraint_spec "base_duty" "Apply the duty rate to extended customs value."
       ["extended_customs_value"; "duty_rate"] ["duty_amount"];
     constraint_spec "section_301" "Apply section 301 surcharge conditionally by origin."
       ["extended_customs_value"; "country_of_origin"; "section_301_rate"] ["section_301_amount"];
     constraint_spec "mpf_clamp" "Apply the minimum/maximum clamped MPF rule."
       ["extended_customs_value"] ["mpf_amount"];
     constraint_spec "hmf_rule" "Apply HMF only when shipping mode is ocean."
       ["extended_customs_value"; "shipping_mode"] ["hmf_amount"];
     constraint_spec "landed_cost_sum" "Aggregate all cost components into the final landed cost."
       ["extended_customs_value"; "freight"; "insurance"; "duty_amount"; "section_301_amount";
        "mpf_amount"; "hmf_amount"] ["landed_cost"]].

Definition build_default_circuit_artifact (produced_by : string) (cycle : Z) : result Circuit :=
  let blueprint := build_circuit_blueprint in
  build_circuit_artifact (b_name blueprint) (b_description blueprint) (recommended_framework blueprint)
    (b_public_inputs blueprint) (b_private_inputs blueprint) (b_constraints blueprint) produced_by cycle
    (Z.max 32 (blueprint_constraint_count blueprint * 4)).

(** ** The prover *)

(** ["key=value"] in the order of the keys *)
Definition serialize_public_inputs (public_inputs : list (string * string)) : list string :=
  map (fun p => p.1 +:+ "=" +:+ p.2) (isort key_leb public_inputs).

Definition commitment_source (kind artifact_id content_hash : string) : pyval :=
  PDict [("kind", PStr kind); ("artifact_id", PStr artifact_id); ("content_hash", PStr content_hash)].

Definition deterministic_commitments (circuit : Circuit) (trace : Trace) (witness : Witness)
    : result (list string) :=
  circuit_ ← content_hash (ACircuit circuit);
  trace_ ← content_hash (ATrace trace);
  witness_ ← content_hash (AWitness witness);
  traverse hash_payload
    [commitment_source "circuit" (artifact_id (c_header circuit)) circuit_;
     commitment_source "trace" (artifact_id (t_header trace)) trace_;
     commitment_source "witness" (artifact_id (w_header witness)) witness_].

Definition _to_zk_witness (trace : Trace) (witness : Witness) : ZKWitness :=
  mkWitness (w_public_inputs witness) (w_private_inputs witness) (t_steps trace) (w_input witness)
    (w_output witness) (w_trace witness).

Definition prove_artifacts (circuit : Circuit) (trace : Trace) (witness : Witness)
    (produced_by : string) (cycle : Z) : result Proof_ :=
  zk_proof ← generate_zk_proof (_to_zk_witness trace witness);
  let metadata :=
    [("verification_key_id", verification_key_id zk_proof);
     ("backend", "sha256-deterministic-proof-stub"); ("compatibility", "plonk,groth16,stark");
     ("trace_artifact_id", artifact_id (t_header trace))] in
  commitments ← deterministic_commitments circuit trace witness;
  let blob := hex_of_bytes (proof_bytes zk_proof) in
  build_proof_artifact "sha256-structured-stub" (artifact_id (c_header circuit))
    (artifact_id (w_header witness)) commitments (serialize_public_inputs (w_public_inputs witness))
    metadata blob (w_input witness) (w_output witness) (w_trace witness) blob produced_by cycle.

(** ** The verifier *)

Definition metadata_key (proof : Proof_) : string :=
  default "" (dict_get "verification_key_id" (p_metadata proof)).

(** The proof as [verify_zk_proof] takes it; [bytes.fromhex] can raise. *)
Definition zk_proof_of (witness : Witness) (proof : Proof_) : result ZKProof :=
  match bytes_fromhex (p_final_proof proof) with
  | Some bytes => Ok (mkZKProof bytes (w_public_inputs witness) (metadata_key proof))
  | None => raise ValueError "non-hexadecimal number found in fromhex() arg at position {}"
  end.

(** The five checks, each with its two outcomes. *)
Definition artifact_checks (circuit : Circuit) (trace : Trace) (witness : Witness) (proof : Proof_)
    : result (list (bool * string)) :=
  zk_proof ← zk_proof_of witness proof;
  final ← verify_zk_proof zk_proof (_to_zk_witness trace witness);
  let blob := bool_decide (p_proof_blob_hex proof = p_final_proof proof) in
  expected_commitments ← deterministic_commitments circuit trace witness;
  let commitments := bool_decide (p_commitments proof = expected_commitments) in
  let inputs :=
    bool_decide (p_public_inputs proof = serialize_public_inputs (w_public_inputs witness)) in
  let bindings := bool_decide (p_circuit_artifact_id proof = artifact_id (c_header circuit)) &&
                  bool_decide (p_witness_artifact_id proof = artifact_id (w_header witness)) in
  let say (b : bool) (yes no : string) := (b, if b then yes else no) in
  Ok [say final "final_proof_matches_trace_hashes" "final_proof_mismatch";
      say blob "proof_blob_matches_stub_backend" "proof_blob_mismatch";
      say commitments "commitments_match_artifact_hashes" "commitments_mismatch";
      say inputs "public_inputs_match_witness" "public_inputs_mismatch";
      say bindings "proof_bindings_match_dependency_artifacts" "proof_bindings_mismatch"].

Definition verify_artifacts (circuit : Circuit) (trace : Trace) (witness : Witness) (proof : Proof_)
    (produced_by : string) (cycle : Z) : result VerificationResult :=
  checks ← artifact_checks circuit trace witness proof;
  let valid := forallb fst checks in
  build_verification_artifact (artifact_id (p_header proof)) "sha256-structured-stub-verifier"
    (if valid then VALID else INVALID)
    (if valid then "all structured proof checks passed" else "structured proof verification failed")
    (map snd checks)
    [("proof_system", p_proof_system proof); ("verification_key_id", metadata_key proof);
     ("trace_artifact_id", artifact_id (t_header trace))] produced_by cycle.

(** ** From a request *)

Record DeterministicTracePacket := mkPacket {
  pk_request : ImportCalculationRequest;
  pk_response : CalculationResponse;
  pk_witness : ZKWitness;
  trace_artifact : Trace;
  witness_artifact : Witness }.

Section pipeline.
Context (coerce_int : pyval → option Z) (rules : list TariffRule).

Definition build_trace_packet (request_payload : list (string * pyval)) (produced_by : string) (cycle : Z)
    : result DeterministicTracePacket :=
  request ← model_validate coerce_int request_payload;
  response ← calculate_import_landed_cost coerce_int rules request;
  let i := integrity response in
  let witness := extract_witness request response in
  t ← build_trace_artifact (input_hash i) (trace response) produced_by cycle;
  w ← build_witness_artifact (artifact_id (t_header t)) (input_hash i) (output_hash i) (t_trace_hash t)
        (isort key_leb (public_inputs witness)) (model_dump request) produced_by cycle;
  if negb (bool_decide (trace_hash i = t_trace_hash t))
  then raise RuntimeError "Trace artifact hash diverged from deterministic engine proof trace hash"
  else if negb (bool_decide (input_hash i = w_input w) && bool_decide (output_hash i = w_output w))
  then raise RuntimeError "Witness artifact hashes diverged from deterministic engine proof hashes"
  else Ok (mkPacket request response witness t w).

Definition prove_request (request_payload : list (string * pyval)) (circuit : option Circuit)
    (produced_by : string) (cycle : Z) : result Proof_ :=
  packet ← build_trace_packet request_payload "backend_integration" cycle;
  selected ← match circuit with
             | Some c => Ok c
             | None => build_default_circuit_artifact "circuit_engineer" cycle
             end;
  prove_artifacts selected (trace_artifact packet) (witness_artifact packet) produced_by cycle.

Definition verify_request (request_payload : list (string * pyval)) (expected_proof_hex : option string)
    : result bool :=
  packet ← build_trace_packet request_payload "backend_integration" 1;
  circuit ← build_default_circuit_artifact "circuit_engineer" 1;
  proof ← prove_artifacts circuit (trace_artifact packet) (witness_artifact packet)
            "performance_optimization" 1;
  let mismatch := match expected_proof_hex with
                  | Some h => negb (bool_decide (h = p_proof_blob_hex proof)) | None => false end in
  if mismatch then Ok false
  else
    r ← verify_artifacts circuit (trace_artifact packet) (witness_artifact packet) proof
          "verifier_agent" 1;
    Ok (bool_decide (v_status r = VALID)).

Record ZKPipelineBundle := mkPipelineBundle {
  pb_circuit : Circuit;
  pb_trace : Trace;
  pb_witness : Witness;
  pb_proof : Proof_;
  pb_result : VerificationResult;
  pb_artifacts : list (string * string) }.

Definition verified (b : ZKPipelineBundle) : bool := bool_decide (v_status (pb_result b) = VALID).

(** [summarize_artifact(a)['artifact_id']], which computes the content hash and
    so can raise *)
Definition summarized_id (a : artifact) : result string :=
  _ ← summarize_artifact a; Ok (artifact_id (header_of a)).

Definition build_stub_pipeline_bundle (request_payload : list (string * pyval)) (cycle : Z)
    : result ZKPipelineBundle :=
  circuit ← build_default_circuit_artifact "circuit_engineer" cycle;
  packet ← build_trace_packet request_payload "backend_integration" cycle;
  let t := trace_artifact packet in
  let w := witness_artifact packet in
  proof ← prove_artifacts circuit t w "performance_optimization" cycle;
  verification_result ← verify_artifacts circuit t w proof "verifier_agent" cycle;
  circuit_id ← summarized_id (ACircuit circuit);
  trace_id ← summarized_id (ATrace t);
  witness_id ← summarized_id (AWitness w);
  proof_id ← summarized_id (AProof proof);
  result_id ← summarized_id (AVerification verification_result);
  Ok (mkPipelineBundle circuit t w proof verification_result
    [("trace_adapter", "backend/trace_adapter.py"); ("stub_prover", "zk/provers/stub_prover.py");
     ("stub_verifier", "zk/verifiers/stub_verifier.py"); ("circuit", circuit_id); ("trace", trace_id);
     ("witness", witness_id); ("proof", proof_id); ("verification_result", result_id)]).

(** [summary()], with the dictionary of artifact identifiers as its values. *)
Record bundle_summary := mkSummary {
  sm_hashes : string * string * string;
  sm_final_proof : string;
  sm_proof_hex : string;
  sm_verified : bool;
  sm_verification_key_id : string;
  sm_public_inputs : list (string * string);
  sm_trace_length : nat;
  sm_artifacts : list (string * string);
  sm_artifact_ids : list string }.

#[global] Instance summary_eq_dec : EqDecision bundle_summary.
Proof. solve_decision. Defined.

Definition pipeline_summary (b : ZKPipelineBundle) : result bundle_summary :=
  let p := pb_proof b in
  match dict_get "verification_key_id" (p_metadata p) with
  | None => raise KeyError "{}"
  | Some key =>
      Ok (mkSummary (p_input_hash p, p_output_hash p, p_trace_hash p) (p_final_proof p)
        (p_proof_blob_hex p) (verified b) key (w_public_inputs (pb_witness b))
        (length (t_steps (pb_trace b))) (pb_artifacts b)
        [artifact_id (c_header (pb_circuit b)); artifact_id (t_header (pb_trace b));
         artifact_id (w_header (pb_witness b)); artifact_id (p_header p);
         artifact_id (v_header (pb_result b))])
  end.

(** Whether [iterations] runs agree; [bundles[0]] raises when there is none. *)
Definition compare_repeated_runs (request_payload : list (string * pyval)) (iterations : nat)
    : result (bool * list bundle_summary) :=
  bundles ← traverse (fun _ => build_stub_pipeline_bundle request_payload 1) (seq 0 iterations);
  runs ← traverse pipeline_summary bundles;
  match runs with
  | [] => raise IndexError "list index out of range"
  | first :: rest => Ok (forallb (fun r => bool_decide (r = first)) rest, runs)
  end.

(** What [benchmark_stub_prover] returns besides timings. *)
Record benchmark := mkBenchmark {
  bm_iterations : nat;
  bm_verification_key_id : string;
  bm_proof_system : string;
  bm_commitment_count : nat }.

Definition benchmark_stub_prover (iterations : nat) : result benchmark :=
  circuit ← build_default_circuit_artifact "circuit_engineer" 1;
  packet ← build_trace_packet REFERENCE_REQUEST "backend_integration" 1;
  proofs ← traverse (fun _ => prove_artifacts circuit (trace_artifact packet) (witness_artifact packet)
                                "performance_optimization" 1) (seq 0 iterations);
  match last proofs with
  | None => raise RuntimeError "Stub prover benchmark did not produce a proof"
  | Some proof =>
      match dict_get "verification_key_id" (p_metadata proof) with
      | None => raise KeyError "{}"
      | Some key => Ok (mkBenchmark iterations key (p_proof_system proof) (length (p_commitments proof)))
      end
  end.

(** [variant_payload['quantity'] += 1] on the reference request *)
Definition VARIANT_REQUEST : list (string * pyval) := dict_set "quantity" (PInt 3) REFERENCE_REQUEST.

Record input_variants := mkVariants {
  same_input_consistent : bool;
  baseline_input_hash : string;
  variant_input_hash : string;
  hashes_differ_for_variant : bool;
  baseline_final_proof : string;
  variant_final_proof : string;
  variants_benchmark : benchmark }.

Definition simulate_input_variants : result input_variants :=
  same_input ← compare_repeated_runs REFERENCE_REQUEST 3;
  variant ← build_stub_pipeline_bundle VARIANT_REQUEST 1;
  baseline ← build_stub_pipeline_bundle REFERENCE_REQUEST 1;
  let h := p_input_hash (pb_proof baseline) in
  let h' := p_input_hash (pb_proof variant) in
  b ← benchmark_stub_prover 3;
  Ok (mkVariants same_input.1 h h' (negb (bool_decide (h = h')))
        (p_final_proof (pb_proof baseline)) (p_final_proof (pb_proof variant)) b).
End pipeline.
