(* ===== verification/StubProps.v ===== *)
(** * What the stub pipeline guarantees (zk/provers/stub_prover.py,
    zk/verifiers/stub_verifier.py, backend/zk_pipeline.py)

    A bundle built from a request the engine can price is VALID, and a proof is
    VALID for one circuit, trace and witness only, hash collisions apart. *)
From S2P Require Export StubPipeline.

(** ** What cannot raise *)

Lemma dump_artifact_free a :
  float_free (PDict (dump_artifact a)) =
  match a with AWitness w => float_free (PDict (w_private_inputs w)) | _ => true end.
Proof.
  assert (∀ l, forallb float_free (map dump_constraint l) = true) as Hc.
  { intros l. rewrite forallb_Forall, Forall_map. apply Forall_true. intros c.
    cbn [dump_constraint float_free forallb snd]. by rewrite !strs_free. }
  unfold dump_artifact. cbn [float_free]. rewrite forallb_app. cbn [dump_header forallb snd float_free andb].
  destruct a as [c|t|w|p|v]; cbn [dump_fields forallb snd];
    rewrite ?strs_free, ?str_dict_free, ?dump_trace_free; cbn [float_free andb].
  - by rewrite Hc.
  - done.
  - by rewrite andb_true_r.
  - done.
  - done.
Qed.

(** The text an artifact is hashed as. *)
Definition artifact_text (a : artifact) : string := text_of (PDict (dump_artifact a)).

Lemma content_hash_free a :
  float_free (PDict (dump_artifact a)) = true → content_hash a = Ok (sha256_hex (artifact_text a)).
Proof. intros Ha. unfold content_hash, artifact_payload. by rewrite canonical_payload_free. Qed.

Definition private_free (w : Witness) : Prop := float_free (PDict (w_private_inputs w)) = true.

(** The commitments to three artifacts. *)
Definition commitment_sources (c : Circuit) (t : Trace) (w : Witness) : list pyval :=
  [commitment_source "circuit" (artifact_id (c_header c)) (sha256_hex (artifact_text (ACircuit c)));
   commitment_source "trace" (artifact_id (t_header t)) (sha256_hex (artifact_text (ATrace t)));
   commitment_source "witness" (artifact_id (w_header w)) (sha256_hex (artifact_text (AWitness w)))].

Definition commitments_to (c : Circuit) (t : Trace) (w : Witness) : list string :=
  map payload_hash (commitment_sources c t w).

Lemma commitment_sources_free c t w v : v ∈ commitment_sources c t w → float_free v = true.
Proof.
  unfold commitment_sources. rewrite !elem_of_cons, elem_of_nil. by intros [->|[->|[->|[]]]].
Qed.

Lemma commitments_total c t w :
  private_free w → deterministic_commitments c t w = Ok (commitments_to c t w).
Proof.
  intros Hw. trans (traverse hash_payload (commitment_sources c t w)).
  - unfold deterministic_commitments.
    by rewrite !content_hash_free by (rewrite dump_artifact_free; done).
  - apply traverse_total. intros v Hv. by apply hash_payload_free, (commitment_sources_free c t w).
Qed.

Lemma to_zk_witness_free t w : private_free w → witness_free (_to_zk_witness t w) = true.
Proof. done. Qed.

(** The bytes of an honest proof, in hexadecimal. *)
Definition honest_blob (t : Trace) (w : Witness) : string :=
  expand_hex (text_of (witness_payload (_to_zk_witness t w))).

Lemma prove_total c t w by_ cyc :
  private_free w → ∃ key p, prove_artifacts c t w by_ cyc = Ok p ∧ valid_artifact (AProof p) ∧
    proof_fields_of p = proof_fields "sha256-structured-stub" (artifact_id (c_header c))
      (artifact_id (w_header w)) (commitments_to c t w) (serialize_public_inputs (w_public_inputs w))
      [("verification_key_id", key); ("backend", "sha256-deterministic-proof-stub");
       ("compatibility", "plonk,groth16,stark"); ("trace_artifact_id", artifact_id (t_header t))]
      (honest_blob t w) (w_input w) (w_output w) (w_trace w) (honest_blob t w).
Proof.
  intros Hw. unfold prove_artifacts.
  destruct (generate_zk_proof_free (_to_zk_witness t w) (to_zk_witness_free t w Hw)) as (z & -> & Hh & _).
  cbn [mbind result_bind]. rewrite commitments_total by done. cbn [mbind result_bind]. rewrite Hh.
  edestruct build_proof_total as (p & Hp & Hv & Hf). exists (verification_key_id z), p.
  split; [exact Hp|]. split; [exact Hv|exact Hf].
Qed.

Lemma expand_hex_bytes x :
  ∃ l, bytes_fromhex (expand_hex x) = Some l ∧ hex_of_bytes l = expand_hex x ∧ l ≠ [].
Proof.
  destruct (expand_hex_lower x) as [Hl Hs]. destruct (bytes_fromhex_lower 256 _ Hl Hs) as (l & El & Hh & Hn).
  exists l. split; [done|]. split; [done|]. by intros ->.
Qed.

(** What the five checks compare. *)
Definition proof_matches (c : Circuit) (t : Trace) (w : Witness) (p : Proof_) : Prop :=
  (∃ bytes, bytes_fromhex (p_final_proof p) = Some bytes ∧ bytes ≠ [] ∧
     hex_of_bytes bytes = honest_blob t w) ∧
  p_proof_blob_hex p = p_final_proof p ∧ p_commitments p = commitments_to c t w ∧
  p_public_inputs p = serialize_public_inputs (w_public_inputs w) ∧
  p_circuit_artifact_id p = artifact_id (c_header c) ∧ p_witness_artifact_id p = artifact_id (w_header w).

Lemma verify_artifacts_valid c t w p by_ cyc :
  private_free w →
  (∃ v, verify_artifacts c t w p by_ cyc = Ok v ∧ v_status v = VALID) ↔ proof_matches c t w p.
Proof.
  intros Hw. unfold verify_artifacts, artifact_checks, zk_proof_of, proof_matches.
  destruct (bytes_fromhex (p_final_proof p)) as [bytes|] eqn:Eb; cbn [mbind result_bind].
  2: { split; [by intros (v & [=] & _)|by intros [(b & [=] & _) _]]. }
  pose proof (verify_zk_proof_spec (mkZKProof bytes (w_public_inputs w) (metadata_key p))
    (_to_zk_witness t w) (to_zk_witness_free t w Hw)) as Hspec. cbn [proof_bytes] in Hspec.
  destruct (verify_zk_proof _ _) as [final|e] eqn:Ez; cbn [mbind result_bind].
  2: { split; [by intros (v & [=] & _)|]. intros [(b & [= <-] & Hb) _]. by apply Hspec in Hb. }
  rewrite commitments_total by done. cbn [mbind result_bind].
  edestruct build_verification_total as (v & Hv & _ & Hf).
  split.
  - intros (v' & Hv' & Hs). rewrite Hv in Hv'. injection Hv' as <-.
    unfold verification_fields_of, verification_fields in Hf. injection Hf as _ _ Hst _ _ _.
    cbn [map fst forallb] in Hst. rewrite Hs in Hst. rewrite !andb_true_r in Hst.
    destruct (final && _) eqn:E; [|done]. rewrite !andb_true_iff, !bool_decide_eq_true in E.
    destruct E as (Hfin & E2 & E3 & E4 & E5 & E6). subst final.
    destruct Hspec as [Hspec _]. destruct (Hspec eq_refl) as [Hne Hh]. eauto 10.
  - intros ((b & [= <-] & Hne & Hh) & E2 & E3 & E4 & E5 & E6). exists v. split; [exact Hv|].
    destruct Hspec as [_ Hspec]. assert (Ok final = Ok true) as [= ->] by by apply Hspec.
    unfold verification_fields_of, verification_fields in Hf. injection Hf as _ _ Hst _ _ _.
    cbn [map fst forallb] in Hst. rewrite !bool_decide_eq_true_2 in Hst by done. cbn [andb] in Hst.
    by destruct (v_status v).
Qed.

(** ** Honest runs *)

Lemma blueprint_constraints_ok :
  Forall dict_wf (b_constraints build_circuit_blueprint) ∧
  Forall (fun d => is_ok (validate_constraint d) = true) (b_constraints build_circuit_blueprint).
Proof.
  split; [|repeat constructor].
  cbn [build_circuit_blueprint b_constraints]. repeat (apply Forall_cons; split);
    [(unfold dict_wf; apply (bool_decide_unpack _); vm_compute; exact I)..|constructor].
Qed.

Lemma default_circuit_total by_ cyc :
  ∃ c, build_default_circuit_artifact by_ cyc = Ok c ∧ valid_artifact (ACircuit c) ∧
    artifact_type (ACircuit c) = CIRCUIT.
Proof.
  destruct blueprint_constraints_ok as [H1 H2].
  destruct (build_circuit_total (b_name build_circuit_blueprint) (b_description build_circuit_blueprint)
    (recommended_framework build_circuit_blueprint) (b_public_inputs build_circuit_blueprint)
    (b_private_inputs build_circuit_blueprint) _ by_ cyc
    (Z.max 32 (blueprint_constraint_count build_circuit_blueprint * 4)) H1 H2) as (c & Hc & Hv & _).
  exists c. split; [exact Hc|]. by split.
Qed.

Lemma map_inj {A B} (f : A → B) l k : (∀ x y, f x = f y → x = y) → map f l = map f k → l = k.
Proof.
  intros Hf. revert k. induction l as [|x l IH]; intros [|y k] [=]; [done|]. f_equal; auto.
Qed.

Lemma strs_eq l k : map PStr l = map PStr k → l = k.
Proof. apply map_inj. by intros ?? [=]. Qed.

Lemma str_pairs_eq (l k : list (string * string)) :
  map (fun p => (p.1, PStr p.2)) l = map (fun p => (p.1, PStr p.2)) k → l = k.
Proof. apply map_inj. by intros [] [] [= -> ->]. Qed.

Lemma witness_artifact_fields w t i o h pub priv :
  witness_fields_of w = witness_fields t i o h pub priv →
  w_trace_artifact_id w = t ∧ w_input w = i ∧ w_output w = o ∧ w_trace w = h ∧
  w_public_inputs w = pub ∧ w_private_inputs w = priv.
Proof.
  unfold witness_fields_of, witness_fields, str_dict. intros [=]. split_and!; auto using str_pairs_eq.
Qed.

Section honest.
Context (coerce_int : pyval → option Z) (rules : list TariffRule).
Context (Hcoerce : ∀ z, coerce_int (PInt z) = Some z).
Context (value : list (string * pyval)) (q : ImportCalculationRequest) (r : CalculationResponse).
Context (Hwf : payload_decimals_wf value) (Hq : model_validate coerce_int value = Ok q).
Context (Hr : calculate_import_landed_cost coerce_int rules q = Ok r).

Lemma packet_total by_ cyc :
  ∃ pk, build_trace_packet coerce_int rules value by_ cyc = Ok pk ∧
    valid_artifact (ATrace (trace_artifact pk)) ∧ valid_artifact (AWitness (witness_artifact pk)) ∧
    t_steps (trace_artifact pk) = trace r ∧ produced_by (w_header (witness_artifact pk)) = by_ ∧
    private_free (witness_artifact pk) ∧
    _to_zk_witness (trace_artifact pk) (witness_artifact pk) =
      mkWitness (isort key_leb (public_inputs (extract_witness q r))) (model_dump q) (trace r)
        (input_hash (integrity r)) (output_hash (integrity r)) (trace_hash (integrity r)).
Proof using All.
  destruct (validated_valid _ _ _ Hwf Hq) as [Hv _].
  destruct (own_response_agrees _ _ _ _ Hcoerce Hv Hr) as (_ & _ & Et & _).
  unfold build_trace_packet. rewrite Hq. cbn [mbind result_bind]. rewrite Hr. cbn [mbind result_bind].
  assert (float_free (PDict (model_dump q)) = true) as Hfree by reflexivity.
  revert Hfree. generalize (isort key_leb (public_inputs (extract_witness q r))) (model_dump q).
  intros pub priv Hfree.
  destruct (build_trace_total (input_hash (integrity r)) (trace r) by_ cyc) as (t & -> & Ht & Hs & Hh).
  cbn [mbind result_bind].
  destruct (build_witness_total (artifact_id (t_header t)) (input_hash (integrity r))
    (output_hash (integrity r)) (t_trace_hash t) pub priv by_ cyc Hfree) as (w & Ew & Hw & Hf).
  pose proof (build_witness_producer _ _ _ _ _ _ _ _ _ Ew) as Hby. rewrite Ew.
  cbn [mbind result_bind].
  destruct (witness_artifact_fields _ _ _ _ _ _ _ Hf) as (F1 & F2 & F3 & F4 & F5 & F6).
  assert (trace_hash (integrity r) = t_trace_hash t) as E by (rewrite Hh; exact Et).
  rewrite bool_decide_eq_true_2 by exact E. cbn [negb].
  rewrite (bool_decide_eq_true_2 (input_hash _ = _)) by (symmetry; exact F2).
  rewrite (bool_decide_eq_true_2 (output_hash _ = _)) by (symmetry; exact F3). cbn [negb andb].
  eexists. split; [reflexivity|]. cbn [trace_artifact witness_artifact].
  split; [exact Ht|]. split; [exact Hw|]. split; [exact Hs|]. split; [exact Hby|]. split.
  - unfold private_free. by rewrite F6.
  - unfold _to_zk_witness. by rewrite F2, F3, F4, F5, F6, Hs, E.
Qed.

Lemma proof_artifact_fields p s c w cs pub m blob i o h f :
  proof_fields_of p = proof_fields s c w cs pub m blob i o h f →
  p_proof_system p = s ∧ p_circuit_artifact_id p = c ∧ p_witness_artifact_id p = w ∧
  p_commitments p = cs ∧ p_public_inputs p = pub ∧ p_metadata p = m ∧ p_proof_blob_hex p = blob ∧
  p_input_hash p = i ∧ p_output_hash p = o ∧ p_trace_hash p = h ∧ p_final_proof p = f.
Proof using.
  unfold proof_fields_of, proof_fields, strs, str_dict. intros [=].
  split_and!; auto using strs_eq, str_pairs_eq.
Qed.

(** A proof made for artifacts matches them. *)
Lemma proved_matches c t w by_ cyc p :
  private_free w → prove_artifacts c t w by_ cyc = Ok p → proof_matches c t w p.
Proof using.
  intros Hw Hp. destruct (prove_total c t w by_ cyc Hw) as (key & p' & Hp' & _ & Hf).
  assert (p' = p) as -> by congruence.
  destruct (proof_artifact_fields _ _ _ _ _ _ _ _ _ _ _ _ Hf)
    as (_ & F2 & F3 & F4 & F5 & _ & F7 & _ & _ & _ & F11).
  unfold proof_matches. rewrite F7, F11, F4, F5, F2, F3. split; [|done].
  destruct (expand_hex_bytes (text_of (witness_payload (_to_zk_witness t w)))) as (l & E & Hh & Hne).
  exists l. by split.
Qed.

Lemma proved_valid c t w p by_ cyc by' cyc' :
  private_free w → prove_artifacts c t w by_ cyc = Ok p →
  ∃ v, verify_artifacts c t w p by' cyc' = Ok v ∧ v_status v = VALID ∧ valid_artifact (AVerification v).
Proof using.
  intros Hw Hp. pose proof (proved_matches _ _ _ _ _ _ Hw Hp) as Hm.
  destruct (proj2 (verify_artifacts_valid c t w p by' cyc' Hw) Hm) as (v & Hv & Hs).
  exists v. split; [done|]. split; [done|]. revert Hv. unfold verify_artifacts.
  intros (checks & _ & Hb)%bind_ok. revert Hb. edestruct build_verification_total as (v' & -> & H & _).
  by intros [= <-].
Qed.

Lemma summarized_id_total a :
  float_free (PDict (dump_artifact a)) = true → summarized_id a = Ok (artifact_id (header_of a)).
Proof using. intros Ha. unfold summarized_id, summarize_artifact. by rewrite content_hash_free. Qed.

(** The artifacts of a bundle. *)
Definition bundle_artifacts (b : ZKPipelineBundle) : list artifact :=
  [ACircuit (pb_circuit b); ATrace (pb_trace b); AWitness (pb_witness b); AProof (pb_proof b);
   AVerification (pb_result b)].

(** The witness every run of the pipeline on this request hands to the prover. *)
Definition pipeline_witness : ZKWitness :=
  mkWitness (isort key_leb (public_inputs (extract_witness q r))) (model_dump q) (trace r)
    (input_hash (integrity r)) (output_hash (integrity r)) (trace_hash (integrity r)).

Lemma bundle_total cyc :
  ∃ b, build_stub_pipeline_bundle coerce_int rules value cyc = Ok b ∧ verified b = true ∧
    Forall valid_artifact (bundle_artifacts b) ∧ private_free (pb_witness b) ∧
    proof_matches (pb_circuit b) (pb_trace b) (pb_witness b) (pb_proof b) ∧
    _to_zk_witness (pb_trace b) (pb_witness b) = pipeline_witness ∧
    p_proof_blob_hex (pb_proof b) = expand_hex (text_of (witness_payload pipeline_witness)) ∧
    (p_input_hash (pb_proof b), p_output_hash (pb_proof b), p_trace_hash (pb_proof b)) =
      (input_hash (integrity r), output_hash (integrity r), trace_hash (integrity r)).
Proof using All.
  unfold build_stub_pipeline_bundle.
  destruct (default_circuit_total "circuit_engineer" cyc) as (c & -> & Hc & _). cbn [mbind result_bind].
  destruct (packet_total "backend_integration" cyc) as (pk & -> & Ht & Hw & Hs & _ & Hf & Hz).
  cbn [mbind result_bind]. fold pipeline_witness in Hz.
  set (t := trace_artifact pk) in *. set (w := witness_artifact pk) in *. clearbody t w.
  destruct (prove_total c t w "performance_optimization" cyc Hf) as (key & p & Hp & Hvp & Hpf).
  rewrite Hp. cbn [mbind result_bind].
  destruct (proved_valid c t w p _ _ "verifier_agent" cyc Hf Hp) as (v & -> & Hst & Hvv).
  cbn [mbind result_bind].
  rewrite !summarized_id_total by (rewrite dump_artifact_free; done || exact Hf). cbn [mbind result_bind].
  eexists. split; [reflexivity|]. cbn [pb_circuit pb_trace pb_witness pb_proof pb_result].
  destruct (proof_artifact_fields _ _ _ _ _ _ _ _ _ _ _ _ Hpf)
    as (_ & _ & _ & _ & _ & _ & F7 & F8 & F9 & F10 & _).
  split; [unfold verified; cbn; by rewrite Hst|].
  split; [by repeat constructor|]. split; [exact Hf|].
  split; [by apply (proved_matches _ _ _ _ _ _ Hf Hp)|]. split; [exact Hz|].
  split; [rewrite F7; unfold honest_blob; by rewrite Hz|].
  rewrite F8, F9, F10. unfold _to_zk_witness, pipeline_witness in Hz. by injection Hz as _ _ _ -> -> ->.
Qed.
End honest.

(** ** Properties *)

(** An honest run of the pipeline ends VALID.  For every payload that
    validates and that the engine prices, and every cycle, the bundle is built;
    all its artifacts pass their validators; the verifier says VALID; the proof
    carries the hashes of the engine's response; and [verify_request] accepts
    the payload, with an expected proof exactly when it is the bundle's. *)
Theorem honest_pipeline_valid coerce_int rules value q r cyc expected :
  (∀ z, coerce_int (PInt z) = Some z) → payload_decimals_wf value →
  model_validate coerce_int value = Ok q → calculate_import_landed_cost coerce_int rules q = Ok r →
  ∃ b, build_stub_pipeline_bundle coerce_int rules value cyc = Ok b ∧ verified b = true ∧
    Forall valid_artifact (bundle_artifacts b) ∧
    (p_input_hash (pb_proof b), p_output_hash (pb_proof b), p_trace_hash (pb_proof b)) =
      (input_hash (integrity r), output_hash (integrity r), trace_hash (integrity r)) ∧
    verify_request coerce_int rules value expected =
      Ok match expected with Some h => bool_decide (h = p_proof_blob_hex (pb_proof b)) | None => true end.
Proof.
  intros Hz Hwf Hq Hr.
  destruct (bundle_total _ _ Hz _ _ _ Hwf Hq Hr cyc) as (b & Hb & Hv & Ha & _ & _ & _ & Hblob & Hh).
  exists b. do 4 (split; [assumption|]). unfold verify_request.
  destruct (packet_total _ _ Hz _ _ _ Hwf Hq Hr "backend_integration" 1)
    as (pk & -> & _ & _ & _ & _ & Hf & Hw).
  cbn [mbind result_bind]. destruct (default_circuit_total "circuit_engineer" 1) as (c & -> & _).
  cbn [mbind result_bind]. set (t := trace_artifact pk) in *. set (w := witness_artifact pk) in *.
  clearbody t w. destruct (prove_total c t w "performance_optimization" 1 Hf) as (key & p & Hp & _ & Hpf).
  rewrite Hp. cbn [mbind result_bind].
  destruct (proof_artifact_fields _ _ _ _ _ _ _ _ _ _ _ _ Hpf) as (_ & _ & _ & _ & _ & _ & F7 & _).
  assert (p_proof_blob_hex p = p_proof_blob_hex (pb_proof b)) as ->
    by (rewrite F7, Hblob; unfold honest_blob, pipeline_witness; by rewrite Hw).
  destruct (proved_valid c t w p _ _ "verifier_agent" 1 Hf Hp) as (v & -> & Hst & _).
  cbn [mbind result_bind]. rewrite Hst.
  destruct expected as [h|]; [|done]. by case_bool_decide.
Qed.

Example honest_pipeline_valid_witness :
  ∃ b, build_stub_pipeline_bundle coerce_plain TARIFF_RULES REFERENCE_REQUEST 1 = Ok b ∧
    verified b = true ∧ verify_request coerce_plain TARIFF_RULES REFERENCE_REQUEST None = Ok true.
Proof.
  destruct (honest_pipeline_valid coerce_plain TARIFF_RULES REFERENCE_REQUEST sample_request
    sample_response 1 None) as (b & Hb & Hv & _ & _ & Hr);
    [reflexivity|exact reference_decimals_wf|vm_compute; reflexivity..|].
  exists b. split; [exact Hb|]. split; [exact Hv|exact Hr].
Defined.

(** ** One proof, one set of artifacts *)

(** Two artifacts committed to under the same hash have the same canonical
    text, or a collision is at hand: of their texts or of the sources of their
    commitments. *)
Definition same_or_forged (kind : string) (a a' : artifact) : Prop :=
  artifact_text a = artifact_text a' ∨ collision (artifact_text a) (artifact_text a') ∨
  collision (text_of (commitment_source kind (artifact_id (header_of a)) (sha256_hex (artifact_text a))))
    (text_of (commitment_source kind (artifact_id (header_of a')) (sha256_hex (artifact_text a')))).

Lemma commitment_source_wf k i h : pyval_wf (commitment_source k i h) = true.
Proof. reflexivity. Qed.

Lemma commitment_binding k a a' :
  payload_hash (commitment_source k (artifact_id (header_of a)) (sha256_hex (artifact_text a))) =
  payload_hash (commitment_source k (artifact_id (header_of a')) (sha256_hex (artifact_text a'))) →
  same_or_forged k a a'.
Proof.
  unfold same_or_forged.
  generalize (sha256_hex_inj_or_collision (artifact_text a) (artifact_text a')).
  generalize (artifact_text a), (artifact_text a'). intros x x'.
  generalize (sha256_hex x), (sha256_hex x'). intros h h' Hx E.
  apply payload_hash_binding in E as [E|E]; [|by right; right|apply commitment_source_wf..].
  assert (h = h') as Hh.
  { apply (f_equal (fun j => match j with JObj l => dict_get "content_hash" l | _ => None end)) in E.
    cbn in E. by injection E. }
  destruct (Hx Hh); [by left|by right; left].
Qed.

(** A proof is VALID for one circuit, trace and witness.  If the verifier
    accepts a proof for two sets of artifacts, corresponding artifacts have the
    same canonical text, or their texts are a SHA-256 collision; and so do
    the witnesses it was recomputed from.  In particular an altered witness,
    with a replayed proof or a fresh envelope around it, is INVALID. *)
Theorem valid_proof_binds_artifacts c t w c' t' w' p by_ cyc by' cyc' v v' :
  private_free w → private_free w' →
  verify_artifacts c t w p by_ cyc = Ok v → v_status v = VALID →
  verify_artifacts c' t' w' p by' cyc' = Ok v' → v_status v' = VALID →
  same_or_forged "circuit" (ACircuit c) (ACircuit c') ∧ same_or_forged "trace" (ATrace t) (ATrace t') ∧
  same_or_forged "witness" (AWitness w) (AWitness w') ∧
  (let u := text_of (witness_payload (_to_zk_witness t w)) in
   let u' := text_of (witness_payload (_to_zk_witness t' w')) in
   u = u' ∨ collision (u +:+ ":0") (u' +:+ ":0")) ∧
  artifact_id (c_header c) = artifact_id (c_header c') ∧
  artifact_id (w_header w) = artifact_id (w_header w').
Proof.
  intros Hw Hw' Hv Hs Hv' Hs'.
  destruct (proj1 (verify_artifacts_valid c t w p by_ cyc Hw)) as ((b & Eb & _ & Hb) & _ & Hc & _ & Hci & Hwi);
    [by exists v|].
  destruct (proj1 (verify_artifacts_valid c' t' w' p by' cyc' Hw'))
    as ((b' & Eb' & _ & Hb') & _ & Hc' & _ & Hci' & Hwi'); [by exists v'|].
  rewrite Hc in Hc'. unfold commitments_to, commitment_sources in Hc'. cbn [map] in Hc'.
  injection Hc' as E1 E2 E3. split; [by apply commitment_binding|].
  split; [by apply commitment_binding|]. split; [by apply commitment_binding|].
  split; [|by rewrite <-Hci, <-Hwi]. apply expand_hex_binding.
  rewrite Eb in Eb'. injection Eb' as <-. unfold honest_blob in Hb, Hb'. congruence.
Qed.

Example valid_proof_binds_artifacts_witness :
  ∃ c t w p v v',
    verify_artifacts c t w p "verifier_agent" 1 = Ok v ∧ v_status v = VALID ∧
    verify_artifacts c t w p "security_audit" 2 = Ok v' ∧ v_status v' = VALID ∧
    same_or_forged "witness" (AWitness w) (AWitness w).
Proof.
  assert (model_validate coerce_plain REFERENCE_REQUEST = Ok sample_request) as Hq by (vm_compute; reflexivity).
  assert (calculate_import_landed_cost coerce_plain TARIFF_RULES sample_request = Ok sample_response) as Hr
    by (vm_compute; reflexivity).
  destruct (packet_total coerce_plain TARIFF_RULES (fun z => eq_refl) REFERENCE_REQUEST sample_request
    sample_response reference_decimals_wf Hq Hr "backend_integration" 1)
    as (pk & _ & _ & _ & _ & _ & Hf & _).
  destruct (default_circuit_total "circuit_engineer" 1) as (c & _).
  destruct (prove_total c (trace_artifact pk) (witness_artifact pk) "performance_optimization" 1 Hf)
    as (key & p & Hp & _).
  destruct (proved_valid _ _ _ _ _ _ "verifier_agent" 1 Hf Hp) as (v & Hv & Hs & _).
  destruct (proved_valid _ _ _ _ _ _ "security_audit" 2 Hf Hp) as (v' & Hv' & Hs' & _).
  exists c, (trace_artifact pk), (witness_artifact pk), p, v, v'.
  split; [exact Hv|]. split; [exact Hs|]. split; [exact Hv'|]. split; [exact Hs'|].
  apply (valid_proof_binds_artifacts _ _ _ _ _ _ _ _ _ _ _ _ _ Hf Hf Hv Hs Hv' Hs').
Defined.
