(* ===== verification/ZkUnit.v ===== *)
(** * The ten agents (agents/zk_unit.py, zk/architecture.py, infra/environment.py)

    Every agent's [run] over typed artifacts.  How long a run takes is a
    parameter; the root directory in the environment manifest and the timings of
    the benchmark are left out of the outputs, which nothing reads back. *)
From S2P Require Export StubPipeline.
From S2P Require Export Scheduler.

(** ** Constant reports *)

Definition get_architecture_blueprint : list (string * pyval) :=
  [("target_framework", PStr "plonkish-stub-ready");
   ("stub_framework", PStr "sha256-deterministic-proof-stub");
   ("framework_candidates", strs ["Groth16"; "Plonk"; "STARK"]);
   ("selected_reasoning", str_dict
      [("Groth16", "small proofs but rigid trusted setup per circuit");
       ("Plonk", "good fit for evolving circuits and universal setup goals");
       ("STARK", "strong transparency story but larger proofs and higher verifier cost")]);
   ("delivery_phases", strs ["phase_1_stub_pipeline"; "phase_2_constraint_stabilization";
      "phase_3_real_prover_backend"; "phase_4_verifier_hardening"]);
   ("audit_chain_partitions", PInt AUDIT_CHAIN_PARTITIONS);
   ("migration_path", strs ["keep deterministic witness extraction stable";
      "freeze circuit public inputs"; "swap stub prover for plonk-compatible backend";
      "record verification key rotations in audit evidence"]);
   ("recommended_next_steps", strs ["stabilize landed-cost circuit boundaries";
      "introduce constraint-count budgeting"; "benchmark a plonkish backend prototype"])].

(** [blueprint[key]] *)
Definition blueprint_field (key : string) : pyval :=
  default PNone (dict_get key get_architecture_blueprint).

Definition build_environment_manifest (root : string) : list (string * pyval) :=
  [("root", PStr root); ("execution_mode", PStr "local_or_vm_ready"); ("shared_repository", PBool true);
   ("folders", str_dict
      [("agents", "agent specializations and foundations");
       ("coordinator", "task assignment, performance tracking, agent lifecycle");
       ("zk", "architecture, circuits, provers, verifiers");
       ("backend", "trace extraction and proof integration pipeline");
       ("infra", "environment topology and deployment manifests");
       ("tests", "system, determinism, and hardening validation");
       ("memory", "persistent shared memory and performance history")]);
   ("services", strs ["coordinator.loop"; "agent.workers"; "shared_memory"; "deterministic_engine";
                      "zk_stub_pipeline"])].

(** [len(manifest.get('components', {}))] *)
Definition component_count (manifest : list (string * pyval)) : nat :=
  match dict_get "components" manifest with Some (PDict l) => length l | _ => 0 end.

Section agents.
Context {F : Type} `{!PyFloat F}.
Context (coerce_int : pyval → option Z) (root : string).

(** ** What the agents read off a task *)

Definition _artifacts (t : Task F) (ty : ArtifactType) : list artifact :=
  default [] (dict_get (type_value ty) (artifact_inputs (inputs t))).

Definition _require_artifact (t : Task F) (ty : ArtifactType) : result artifact :=
  match last (_artifacts t ty) with
  | Some a => Ok a
  | None => raise RuntimeError "Missing required artifact {} for task {}"
  end.

Definition _consumed_ids (t : Task F) : list string :=
  sorted_set (map id_of (concat (dict_values (artifact_inputs (inputs t))))).

(** The attributes an agent goes on to read are those of one class. *)
Definition no_attribute {A} : result A := raise AttributeError "object has no attribute".
Definition as_circuit (a : artifact) : result Circuit :=
  match a with ACircuit c => Ok c | _ => no_attribute end.
Definition as_trace (a : artifact) : result Trace :=
  match a with ATrace t => Ok t | _ => no_attribute end.
Definition as_witness (a : artifact) : result Witness :=
  match a with AWitness w => Ok w | _ => no_attribute end.
Definition as_proof (a : artifact) : result Proof_ :=
  match a with AProof p => Ok p | _ => no_attribute end.
Definition as_verification (a : artifact) : result VerificationResult :=
  match a with AVerification v => Ok v | _ => no_attribute end.

Definition require_circuit (t : Task F) : result Circuit := _require_artifact t CIRCUIT ≫= as_circuit.
Definition require_trace (t : Task F) : result Trace := _require_artifact t TRACE ≫= as_trace.
Definition require_witness (t : Task F) : result Witness := _require_artifact t WITNESS ≫= as_witness.
Definition require_proof (t : Task F) : result Proof_ := _require_artifact t PROOF ≫= as_proof.
Definition require_verification (t : Task F) : result VerificationResult :=
  _require_artifact t VERIFICATION_RESULT ≫= as_verification.

(** A strategy entry as the agents report it. *)
Definition strategy_report (d : TaskDomain.t) (success : bool) (pattern detail : string)
    (tags : list string) : memory_entry :=
  MStrategy (Some (TaskDomain.value d)) (Some (if success then "success" else "failure"))
    (Some pattern) (Some detail) (Some tags).

Definition summary_of (a : artifact) : result pyval := PDict <$> summarize_artifact a.

Definition is_valid (v : VerificationResult) : bool := bool_decide (v_status v = VALID).
Definition status_of (b : bool) : audit_status := if b then VALID else INVALID.
Definition task_status (b : bool) : string := if b then "success" else "failure".

(** ** The agents *)

Definition run_architect (t : Task F) (duration : F) : result (TaskResult F) :=
  circuit ← build_default_circuit_artifact "zk_architect" (tk_cycle t);
  summary ← summary_of (ACircuit circuit);
  Ok (_make_result "zk_architect" t "success"
    [("selected_target_framework", blueprint_field "target_framework");
     ("stub_framework", blueprint_field "stub_framework");
     ("phases", blueprint_field "delivery_phases");
     ("preferred_patterns", strs (in_preferred_patterns (inputs t))); ("artifact", summary)] []
    [strategy_report TaskDomain.ARCHITECTURE true "layered_proof_architecture"
       "Selected a layered architecture that keeps deterministic VRL computation separate from future prover backends."
       ["architecture"; "zk"; "success"]]
    [ACircuit circuit] (_consumed_ids t) [] duration).

(** [constraint.model_dump(mode='python')] *)
Definition constraint_fields (c : CircuitConstraint) : list (string * pyval) :=
  constraint_spec (cc_name c) (cc_purpose c) (cc_inputs c) (cc_outputs c).

Definition LF : string := String (ascii_of_nat 10) "".

Definition run_circuit_engineer (t : Task F) (duration : F) : result (TaskResult F) :=
  seed ← require_circuit t;
  let blueprint := build_circuit_blueprint in
  refined ← build_circuit_artifact (b_name blueprint +:+ "_refined")
    (b_description blueprint +:+ " Refined for artifact-driven DAG execution.") (c_framework seed)
    (c_public_inputs seed) (c_private_inputs seed) (map constraint_fields (c_constraints seed))
    "circuit_engineer" (tk_cycle t) (c_complexity_budget seed);
  summary ← summary_of (ACircuit refined);
  Ok (_make_result "circuit_engineer" t "success"
    [("circuit_name", PStr (c_name refined)); ("constraint_count", PInt (c_constraint_count refined));
     ("public_inputs", strs (c_public_inputs refined));
     ("private_inputs", strs (c_private_inputs refined)); ("artifact", summary)] []
    [strategy_report TaskDomain.CIRCUIT true "trace_to_constraints_mapping"
       "Mapped each deterministic landed-cost trace step into a typed artifact-compatible circuit constraint family."
       ["circuits"; "constraints"];
     MCircuit (Some (c_name refined)) (Some (c_constraint_count refined)) (Some (c_framework refined))
       (Some "0.0") (Some (c_description refined))
       (Some (str_join LF (map cc_name (c_constraints refined))))]
    [ACircuit refined] (_consumed_ids t) [] duration).

Definition run_backend (t : Task F) (duration : F) : result (TaskResult F) :=
  circuit ← require_circuit t;
  packet ← build_trace_packet coerce_int TARIFF_RULES REFERENCE_REQUEST "backend_integration" (tk_cycle t);
  trace_summary ← summary_of (ATrace (trace_artifact packet));
  witness_summary ← summary_of (AWitness (witness_artifact packet));
  Ok (_make_result "backend_integration" t "success"
    [("circuit_artifact_id", PStr (artifact_id (c_header circuit))); ("trace", trace_summary);
     ("witness", witness_summary);
     ("trace_length", PInt (Z.of_nat (length (trace (pk_response packet)))));
     ("artifact_paths", str_dict [("trace_adapter", "backend/trace_adapter.py")])] []
    [strategy_report TaskDomain.BACKEND true "deterministic_trace_extraction"
       "Connected the deterministic VRL trace to typed trace and witness artifacts without introducing network calls or hidden state."
       ["backend"; "integration"]]
    [ATrace (trace_artifact packet); AWitness (witness_artifact packet)] (_consumed_ids t) [] duration).

Definition run_verifier (t : Task F) (duration : F) : result (TaskResult F) :=
  circuit ← require_circuit t;
  trace ← require_trace t;
  witness ← require_witness t;
  proof ← require_proof t;
  verification ← verify_artifacts circuit trace witness proof "verifier_agent" (tk_cycle t);
  summary ← summary_of (AVerification verification);
  Ok (_make_result "verifier_agent" t "success"
    [("verified", PBool (is_valid verification)); ("reason", PStr (v_reason verification));
     ("checks", strs (v_checks verification)); ("artifact", summary)] []
    [strategy_report TaskDomain.VERIFICATION (is_valid verification) "structured_stub_verifier"
       "Validated a structured verifier path that can later be replaced by a real on-chain or off-chain verifier backend."
       ["verification"; "compatibility"]]
    [AVerification verification] (_consumed_ids t) [] duration).

Definition benchmark_dict (b : benchmark) : pyval :=
  PDict [("iterations", PInt (Z.of_nat (bm_iterations b)));
         ("verification_key_id", PStr (bm_verification_key_id b));
         ("proof_system", PStr (bm_proof_system b));
         ("commitment_count", PInt (Z.of_nat (bm_commitment_count b)))].

Definition run_performance (t : Task F) (duration : F) : result (TaskResult F) :=
  circuit ← require_circuit t;
  trace ← require_trace t;
  witness ← require_witness t;
  proof ← prove_artifacts circuit trace witness "performance_optimization" (tk_cycle t);
  b ← benchmark_stub_prover coerce_int TARIFF_RULES 3;
  summary ← summary_of (AProof proof);
  Ok (_make_result "performance_optimization" t "success"
    [("proof", summary); ("benchmark", benchmark_dict b);
     ("preferred_patterns", strs (in_preferred_patterns (inputs t)))] []
    [strategy_report TaskDomain.PERFORMANCE true "structured_stub_proof"
       "Produced a structured deterministic proof envelope with commitments, public inputs, and prover metadata."
       ["performance"; "prover"; "structured-proof"]]
    [AProof proof] (_consumed_ids t) [] duration).

(** [Trace(..)] with a canonical text that is not that of the steps: whether
    building it raises [ValueError], of which [ValidationError] is a subclass. *)
Definition malformed_trace_rejected (tr : Trace) (produced_by : string) (cycle : Z) : result bool :=
  match as_validation (validate_trace_hash
          (mkTrace (mkHeader (artifact_id (t_header tr)) produced_by cycle) (t_input_hash tr) (t_steps tr)
             "[]" (t_trace_hash tr))) with
  | Ok _ => Ok false
  | Raise e => if bool_decide (exn_cls e ∈ [ValueError; ValidationError]) then Ok true else Raise e
  end.

Definition zeros64 : string := str_join "" (repeat "0" 64).

(** The witness with another output hash, under the auditor's name. *)
Definition corrupt_witness (tr : Trace) (w : Witness) (cycle : Z) : result Witness :=
  build_witness_artifact (artifact_id (t_header tr)) (w_input w) zeros64 (w_trace w) (w_public_inputs w)
    (w_private_inputs w) "security_audit" cycle.

(** The envelope of a proof around another witness. *)
Definition replay (circuit : Circuit) (w : Witness) (p : Proof_) (cycle : Z) : result Proof_ :=
  build_proof_artifact (p_proof_system p) (artifact_id (c_header circuit)) (artifact_id (w_header w))
    (p_commitments p) (p_public_inputs p) (p_metadata p) (p_proof_blob_hex p) (w_input w) (w_output w)
    (w_trace w) (p_final_proof p) "security_audit" cycle.

Definition security_checks (rejected corrupted_valid replay_valid : bool) : list string :=
  [if rejected then "malformed_trace_rejected" else "malformed_trace_accepted";
   if corrupted_valid then "corrupted_witness_accepted" else "corrupted_witness_invalid";
   if replay_valid then "replayed_proof_accepted" else "replayed_proof_invalid"].

(** The report on the three mutations. *)
Definition security_report (t : Task F) (duration : F) (proof replay_proof : Proof_)
    (rejected corrupted_valid replay_valid : bool) : result (TaskResult F) :=
  let checks := security_checks rejected corrupted_valid replay_valid in
  let status := rejected && negb corrupted_valid && negb replay_valid in
  verification ← build_verification_artifact (artifact_id (p_header proof)) "continuous-adversarial-audit"
    (status_of status)
    (if status then "adversarial mutations rejected" else "adversarial mutation bypass detected") checks
    [("replay_subject", artifact_id (p_header replay_proof))] "security_audit" (tk_cycle t);
  summary ← summary_of (AVerification verification);
  Ok (_make_result "security_audit" t (task_status status)
    [("status", PStr (status_text (status_of status))); ("checks", strs checks); ("artifact", summary)] []
    ([strategy_report TaskDomain.SECURITY status "continuous_adversarial_checks"
        "Injected malformed traces, corrupted witnesses, and replayed proofs to ensure invalid artifact states are rejected."
        ["security"; "adversarial"]] ++
     if status then []
     else [MVulnerability (Some "artifact-pipeline-adversarial-bypass")
             (Some "One or more adversarial artifact mutations passed validation in the Stage 4 pipeline.")
             (Some "high")
             (Some "Halt the pipeline and tighten typed artifact validation before continuing.")
             (Some (map TaskDomain.value
                      [TaskDomain.SECURITY; TaskDomain.VERIFICATION; TaskDomain.DATA_INTEGRITY]))])
    [AVerification verification] (_consumed_ids t) [] duration).

Definition run_security (t : Task F) (duration : F) : result (TaskResult F) :=
  circuit ← require_circuit t;
  trace ← require_trace t;
  witness ← require_witness t;
  proof ← require_proof t;
  malformed ← malformed_trace_rejected trace "security_audit" (tk_cycle t);
  corrupted ← corrupt_witness trace witness (tk_cycle t);
  corrupted_verification ← verify_artifacts circuit trace corrupted proof "security_audit" (tk_cycle t);
  replay_proof ← replay circuit corrupted proof (tk_cycle t);
  replay_verification ← verify_artifacts circuit trace corrupted replay_proof "security_audit" (tk_cycle t);
  security_report t duration proof replay_proof malformed (is_valid corrupted_verification)
    (is_valid replay_verification).

(** [response.proof.integrity_hash]: responses have no attribute [proof]. *)
Definition response_proof_integrity_hash (r : CalculationResponse) : result string :=
  raise AttributeError "'CalculationResponse' object has no attribute 'proof'".

Definition integrity_checks (all_equal same_trace same_witness same_proof : bool) : list string :=
  [if all_equal then "repeated_bundle_equal" else "repeated_bundle_diverged";
   if same_trace then "trace_hash_replayed" else "trace_hash_mismatch";
   if same_witness then "witness_hash_replayed" else "witness_hash_mismatch";
   if same_proof then "final_proof_replayed" else "final_proof_mismatch"].
Definition integrity_reason (consistent : bool) : string :=
  if consistent then "deterministic replay matches stored artifacts"
  else "deterministic replay diverged from stored artifacts".

Definition run_data_integrity (t : Task F) (duration : F) : result (TaskResult F) :=
  trace ← require_trace t;
  witness ← require_witness t;
  proof ← require_proof t;
  comparison ← compare_repeated_runs coerce_int TARIFF_RULES REFERENCE_REQUEST 3;
  packet ← build_trace_packet coerce_int TARIFF_RULES REFERENCE_REQUEST "backend_integration" (tk_cycle t);
  let same_trace := bool_decide (t_trace_hash (trace_artifact packet) = t_trace_hash trace) in
  let same_witness := bool_decide (w_witness_hash (witness_artifact packet) = w_witness_hash witness) in
  replay_consistent ←
    (if same_trace && same_witness
     then h ← response_proof_integrity_hash (pk_response packet);
          Ok (bool_decide (p_final_proof proof = h) && comparison.1)
     else Ok false);
  h ← response_proof_integrity_hash (pk_response packet);
  verification ← build_verification_artifact (artifact_id (p_header proof)) "data-integrity-replay-check"
    (status_of replay_consistent)
    (integrity_reason replay_consistent)
    (integrity_checks comparison.1 same_trace same_witness (bool_decide (p_final_proof proof = h)))
    [("reference_input_hash", p_input_hash proof)] "data_integrity" (tk_cycle t);
  summary ← summary_of (AVerification verification);
  Ok (_make_result "data_integrity" t (task_status (is_valid verification))
    [("all_equal", PBool comparison.1); ("artifact", summary)] []
    [strategy_report TaskDomain.DATA_INTEGRITY (is_valid verification) "repeatable_trace_bundle"
       "Confirmed that repeated executions produce the same trace, witness, and final proof artifacts."
       ["integrity"; "determinism"]]
    [AVerification verification] (_consumed_ids t) [] duration).

Definition run_devops (t : Task F) (duration : F) : result (TaskResult F) :=
  verification ← require_verification t;
  let manifest := build_environment_manifest root in
  let ok := is_valid verification in
  readiness ← build_verification_artifact (artifact_id (v_header verification)) "devops-readiness-audit"
    (status_of ok)
    (if ok then "deployment topology remains aligned with the verified proof pipeline"
     else "verification gate failed before deployment topology sign-off")
    ["environment_manifest_loaded"; "verifier_gate_checked"]
    [("component_count", str_of_Z (Z.of_nat (component_count manifest)))] "devops_infrastructure"
    (tk_cycle t);
  summary ← summary_of (AVerification readiness);
  Ok (_make_result "devops_infrastructure" t (task_status (is_valid readiness))
    [("environment", PDict manifest); ("artifact", summary)] []
    [strategy_report TaskDomain.DEVOPS (is_valid readiness) "service_per_folder_topology"
       "Documented the shared repository topology and verified it against the current proof pipeline state."
       ["devops"; "topology"]]
    [AVerification readiness] (_consumed_ids t) [] duration).

Definition variants_dict (v : input_variants) : pyval :=
  PDict [("same_input_consistent", PBool (same_input_consistent v));
         ("baseline_input_hash", PStr (baseline_input_hash v));
         ("variant_input_hash", PStr (variant_input_hash v));
         ("hashes_differ_for_variant", PBool (hashes_differ_for_variant v));
         ("baseline_final_proof", PStr (baseline_final_proof v));
         ("variant_final_proof", PStr (variant_final_proof v));
         ("benchmark", benchmark_dict (variants_benchmark v))].

Definition run_testing (t : Task F) (duration : F) : result (TaskResult F) :=
  proof ← require_proof t;
  verification ← require_verification t;
  variants ← simulate_input_variants coerce_int TARIFF_RULES;
  let ok := is_valid verification && same_input_consistent variants && hashes_differ_for_variant variants in
  testing_result ← build_verification_artifact (artifact_id (p_header proof)) "testing-simulation"
    (status_of ok)
    (if ok then "artifact pipeline smoke tests passed" else "artifact pipeline smoke tests failed")
    [if is_valid verification then "verifier_status_valid" else "verifier_status_invalid";
     if same_input_consistent variants then "same_input_consistent" else "same_input_inconsistent";
     if hashes_differ_for_variant variants then "variant_hashes_differ" else "variant_hashes_same"]
    [("baseline_input_hash", baseline_input_hash variants);
     ("variant_input_hash", variant_input_hash variants)] "testing_simulation" (tk_cycle t);
  summary ← summary_of (AVerification testing_result);
  Ok (_make_result "testing_simulation" t (task_status ok)
    [("variants", variants_dict variants); ("artifact", summary)] []
    [strategy_report TaskDomain.TESTING ok "artifact_pipeline_smoke"
       "Executed deterministic same-input and varied-input pipeline simulations against the typed artifact flow."
       ["testing"; "simulation"]]
    [AVerification testing_result] (_consumed_ids t) [] duration).

Definition run_research (t : Task F) (duration : F) : result (TaskResult F) :=
  circuit ← require_circuit t;
  proof ← require_proof t;
  verification ← require_verification t;
  let ok := is_valid verification && String.eqb (p_proof_system proof) "sha256-structured-stub" in
  roadmap ← build_verification_artifact (artifact_id (p_header proof)) "research-roadmap-evaluator"
    (status_of ok)
    (if is_valid verification then "migration path remains compatible with a future plonkish backend"
     else "verification gate failed before roadmap sign-off")
    ["verification_gate_checked"; "structured_stub_confirmed"; "circuit_framework_reviewed"]
    [("recommended_framework", c_framework circuit); ("target_framework", "plonkish-stub-ready")]
    "research_agent" (tk_cycle t);
  summary ← summary_of (AVerification roadmap);
  Ok (_make_result "research_agent" t (task_status (is_valid roadmap))
    [("near_term", blueprint_field "recommended_next_steps");
     ("frameworks_reviewed", blueprint_field "framework_candidates");
     ("migration_path", blueprint_field "migration_path"); ("artifact", summary)] []
    [strategy_report TaskDomain.RESEARCH (is_valid roadmap) "plonk_first_migration_path"
       "Recommended a plonkish proving path first, while preserving compatibility with future verifier upgrades."
       ["research"; "roadmap"]]
    [AVerification roadmap] (_consumed_ids t) [] duration).

(** ** The team *)

(** [agent.run(task, memory)] by the class of the agent; none reads the memory. *)
Definition run_agent (durations : Task F → F) (a : BaseAgent F) (t : Task F) (m : SharedMemory)
    : result (TaskResult F) :=
  let go (run : Task F → F → result (TaskResult F)) := run t (durations t) in
  if String.eqb (agent_id a) "zk_architect" then go run_architect
  else if String.eqb (agent_id a) "circuit_engineer" then go run_circuit_engineer
  else if String.eqb (agent_id a) "backend_integration" then go run_backend
  else if String.eqb (agent_id a) "verifier_agent" then go run_verifier
  else if String.eqb (agent_id a) "performance_optimization" then go run_performance
  else if String.eqb (agent_id a) "security_audit" then go run_security
  else if String.eqb (agent_id a) "data_integrity" then go run_data_integrity
  else if String.eqb (agent_id a) "devops_infrastructure" then go run_devops
  else if String.eqb (agent_id a) "testing_simulation" then go run_testing
  else if String.eqb (agent_id a) "research_agent" then go run_research
  else raise AttributeError "not an agent of the team".

Definition new_agent (id : string) (d : TaskDomain.t) : BaseAgent F :=
  mkAgent id d "1.0.0" (flit 1 0) AgentStatus.IDLE.

Definition build_agent_team : list (BaseAgent F) :=
  [new_agent "zk_architect" TaskDomain.ARCHITECTURE; new_agent "circuit_engineer" TaskDomain.CIRCUIT;
   new_agent "backend_integration" TaskDomain.BACKEND; new_agent "verifier_agent" TaskDomain.VERIFICATION;
   new_agent "performance_optimization" TaskDomain.PERFORMANCE;
   new_agent "security_audit" TaskDomain.SECURITY;
   new_agent "data_integrity" TaskDomain.DATA_INTEGRITY;
   new_agent "devops_infrastructure" TaskDomain.DEVOPS;
   new_agent "testing_simulation" TaskDomain.TESTING; new_agent "research_agent" TaskDomain.RESEARCH].
End agents.
