(* ===== verification/ZkUnitProps.v ===== *)
(** * What the agents guarantee (agents/zk_unit.py)

    The ten agents form a team the scheduler can use.  The auditor's
    adversarial mutations are rejected unless SHA-256 collides; the data
    integrity check raises on every input. *)
From S2P Require Export StubProps.
From S2P Require Export ZkUnit SchedulerProps.

Section team.
Context {F : Type} `{!PyFloat F}.
Context (coerce_int : pyval → option Z) (root : string).

(** Every agent answers for the task it was given. *)
Ltac own_task := intros; res_inv; done.

Lemma run_agent_task_id (durations : Task F → F) a t m r :
  run_agent coerce_int root durations a t m = Ok r → r_task_id r = task_id t.
Proof.
  unfold run_agent. repeat (destruct (String.eqb _ _)); [..|done].
  - unfold run_architect. own_task.
  - unfold run_circuit_engineer. own_task.
  - unfold run_backend. own_task.
  - unfold run_verifier. own_task.
  - unfold run_performance. own_task.
  - unfold run_security, security_report. own_task.
  - unfold run_data_integrity. own_task.
  - unfold run_devops. own_task.
  - unfold run_testing. own_task.
  - unfold run_research. own_task.
Qed.

#[global] Instance zk_team (durations : Task F → F) : AgentTeam F := {|
  team_run := run_agent coerce_int root durations;
  team_run_task_id := run_agent_task_id durations |}.

(** ** The data integrity check *)

Lemma data_integrity_raises t d (r : TaskResult F) : run_data_integrity coerce_int t d ≠ Ok r.
Proof. unfold run_data_integrity, response_proof_integrity_hash. intros H. by res_inv. Qed.

Lemma traverse_const_total {A B} (x : result B) (l : list A) (b : B) :
  x = Ok b → traverse (fun _ => x) l = Ok (map (fun _ => b) l).
Proof. intros ->. by apply traverse_total. Qed.

(** ** The security audit *)

(** The text of a witness with another author is another text. *)
Lemma artifact_text_producer w w' :
  pyval_wf (PDict (dump_artifact (AWitness w))) = true →
  pyval_wf (PDict (dump_artifact (AWitness w'))) = true →
  artifact_text (AWitness w) = artifact_text (AWitness w') →
  produced_by (w_header w) = produced_by (w_header w').
Proof.
  intros Hw Hw' E. apply canonical_payload_inj in E; [|done..].
  apply (f_equal (fun j => match j with JObj l => dict_get "produced_by" l | _ => None end)) in E.
  cbn in E. by injection E.
Qed.

Lemma dump_witness_wf w :
  dict_wf (w_public_inputs w) → pyval_wf (PDict (w_private_inputs w)) = true →
  pyval_wf (PDict (dump_artifact (AWitness w))) = true.
Proof.
  intros Hp Hq. unfold dump_artifact. cbn [artifact_type header_of dump_header dump_fields app].
  cbn [pyval_wf]. apply andb_true_iff. split.
  - apply bool_decide_eq_true. vm_compute. repeat constructor; set_solver.
  - cbn [pyval_wf] in Hq. cbn [forallb snd pyval_wf]. rewrite str_dict_wf by done. cbn [andb]. by rewrite Hq.
Qed.

Lemma malformed_rejected tr by_ cyc :
  valid_artifact (ATrace tr) → t_steps tr ≠ [] → malformed_trace_rejected tr by_ cyc = Ok true.
Proof.
  intros Hv Hne. unfold malformed_trace_rejected, validate_trace_hash, check_text.
  rewrite canonical_payload_free by apply dump_trace_free. cbn [t_steps t_canonical_trace mbind result_bind].
  rewrite bool_decide_eq_false_2; [reflexivity|].
  intros E. assert ("[]" = json_print (JList [])) as E' by reflexivity. rewrite E' in E.
  destruct (t_steps tr) as [|s l]; [done|].
  assert (∃ o, canonical_form (dump_step s) = JObj o) as [o Ho] by by eexists.
  cbn [dump_trace map canonical_form] in E. rewrite Ho in E. revert E.
  generalize (map canonical_form (map dump_step l)). intros k E.
  change (json_print (JList (JObj o :: k)))
    with ("[" +:+ (str_join "," (json_print (JObj o) :: map json_print k) +:+ "]")) in E.
  rewrite json_print_obj in E. by destruct (map json_print k).
Qed.

(** A VALID verification of another witness under the same commitments. *)
Lemma witness_swap_forged c t w w' p p' by_ cyc v :
  private_free w' → proof_matches c t w p → p_commitments p' = p_commitments p →
  verify_artifacts c t w' p' by_ cyc = Ok v → v_status v = VALID →
  same_or_forged "witness" (AWitness w) (AWitness w').
Proof.
  intros Hw' (_ & _ & Hc & _) Hp Hv Hs.
  destruct (proj1 (verify_artifacts_valid c t w' p' by_ cyc Hw')) as (_ & _ & Hc' & _); [by exists v|].
  rewrite Hp, Hc in Hc'. unfold commitments_to, commitment_sources in Hc'. cbn [map] in Hc'.
  injection Hc' as E. by apply commitment_binding.
Qed.

(** The verifier returns when the proof decodes to bytes. *)
Lemma verify_artifacts_total c t w p by_ cyc bytes :
  private_free w → bytes_fromhex (p_final_proof p) = Some bytes → bytes ≠ [] →
  is_ascii (hex_of_bytes bytes) = true → ∃ v, verify_artifacts c t w p by_ cyc = Ok v.
Proof.
  intros Hw Hb Hne Hasc. unfold verify_artifacts, artifact_checks, zk_proof_of. rewrite Hb. cbn [mbind result_bind].
  unfold verify_zk_proof. cbn [proof_bytes]. destruct bytes as [|b0 bs]; [done|].
  destruct (generate_zk_proof_free (_to_zk_witness t w) (to_zk_witness_free t w Hw)) as (z & -> & Hh & _).
  cbn [mbind result_bind]. rewrite Hh. unfold constant_time_equal. rewrite Hasc.
  rewrite (hex_ascii (expand_hex _)) by apply expand_hex_lower. cbn [andb mbind result_bind].
  rewrite commitments_total by done. cbn [mbind result_bind].
  edestruct build_verification_total as (v & Hv & _). exists v. exact Hv.
Qed.

Lemma proof_fields_kept p s c w cs pub m blob i o h f :
  proof_fields_of p = proof_fields s c w cs pub m blob i o h f →
  p_commitments p = cs ∧ p_final_proof p = f.
Proof. intros H. apply proof_artifact_fields in H. tauto. Qed.

Lemma replay_total c w p cyc :
  ∃ p', replay c w p cyc = Ok p' ∧ p_commitments p' = p_commitments p ∧ p_final_proof p' = p_final_proof p.
Proof.
  unfold replay. edestruct build_proof_total as (p' & Hp' & _ & Hf). exists p'. split; [exact Hp'|].
  by apply (proof_fields_kept _ _ _ _ _ _ _ _ _ _ _ _ Hf).
Qed.

Lemma corrupt_total tr w cyc :
  private_free w →
  ∃ w', corrupt_witness tr w cyc = Ok w' ∧ w_public_inputs w' = w_public_inputs w ∧
    w_private_inputs w' = w_private_inputs w ∧ produced_by (w_header w') = "security_audit".
Proof.
  intros Hfree. unfold corrupt_witness.
  destruct (build_witness_total (artifact_id (t_header tr)) (w_input w) zeros64 (w_trace w) (w_public_inputs w)
    (w_private_inputs w) "security_audit" cyc Hfree) as (w' & Hw' & _ & Hf).
  destruct (witness_artifact_fields _ _ _ _ _ _ _ Hf) as (_ & _ & _ & _ & F5 & F6).
  exists w'. split; [exact Hw'|]. split; [exact F5|]. split; [exact F6|].
  by eapply build_witness_producer.
Qed.

Lemma security_report_total t d p p' b1 b2 b3 :
  ∃ r, @security_report F t d p p' b1 b2 b3 = Ok r ∧ r_task_id r = task_id t ∧
    (succeeded r ↔ b1 && negb b2 && negb b3 = true).
Proof.
  unfold security_report. edestruct build_verification_total as (v & Hv & _ & _). rewrite Hv.
  cbn [mbind result_bind]. unfold summary_of, summarize_artifact.
  rewrite content_hash_free by by rewrite dump_artifact_free.
  eexists. split; [reflexivity|]. split; [reflexivity|]. unfold succeeded. cbn [_make_result r_status].
  by destruct (b1 && negb b2 && negb b3).
Qed.

Lemma is_valid_spec v : is_valid v = true ↔ v_status v = VALID.
Proof. apply bool_decide_eq_true. Qed.

(** The adversarial audit rejects what it should.  Handed a circuit, a trace
    with steps, a witness by another author and a proof that matches them, the
    auditor finds the malformed trace rejected, and the corrupted witness and
    the replayed proof INVALID, and succeeds; the only way to another outcome is
    a SHA-256 collision between the texts of the two witnesses or of the
    sources of their commitments. *)
Theorem security_audit_detects (t : Task F) (d : F) c tr w p :
  require_circuit t = Ok c → require_trace t = Ok tr → require_witness t = Ok w →
  require_proof t = Ok p →
  valid_artifact (ATrace tr) → t_steps tr ≠ [] → proof_matches c tr w p →
  dict_wf (w_public_inputs w) → pyval_wf (PDict (w_private_inputs w)) = true →
  produced_by (w_header w) ≠ "security_audit" →
  ∃ r, run_security t d = Ok r ∧ r_task_id r = task_id t ∧
    (succeeded r ∨
     ∃ w', corrupt_witness tr w (tk_cycle t) = Ok w' ∧ artifact_text (AWitness w) ≠ artifact_text (AWitness w') ∧
       same_or_forged "witness" (AWitness w) (AWitness w')).
Proof.
  intros Hc Ht Hw Hp Hv Hne Hm Hpub Hpriv Hby. unfold run_security.
  rewrite Hc, Ht, Hw, Hp. cbn [mbind result_bind].
  rewrite malformed_rejected by done. cbn [mbind result_bind].
  destruct (corrupt_total tr w (tk_cycle t) (pyval_wf_float_free _ Hpriv)) as (w' & Hw' & F5 & F6 & Hby').
  rewrite Hw'. cbn [mbind result_bind].
  assert (private_free w') as Hfree'
    by (unfold private_free; rewrite F6; exact (pyval_wf_float_free _ Hpriv)).
  destruct Hm as ((bytes & Hb & Hbne & Hbh) & Hm).
  assert (is_ascii (hex_of_bytes bytes) = true) as Hasc
    by (rewrite Hbh; apply hex_ascii, expand_hex_lower).
  destruct (verify_artifacts_total c tr w' p "security_audit" (tk_cycle t) bytes Hfree' Hb Hbne Hasc) as [v1 Hv1].
  rewrite Hv1. cbn [mbind result_bind].
  destruct (replay_total c w' p (tk_cycle t)) as (p' & Hp' & Hcs & Hfin). rewrite Hp'. cbn [mbind result_bind].
  rewrite <-Hfin in Hb.
  destruct (verify_artifacts_total c tr w' p' "security_audit" (tk_cycle t) bytes Hfree' Hb Hbne Hasc) as [v2 Hv2].
  rewrite Hfin in Hb. rewrite Hv2. cbn [mbind result_bind].
  destruct (security_report_total t d p p' true (is_valid v1) (is_valid v2)) as (r & Hr & Hid & Hs).
  exists r. split; [exact Hr|]. split; [exact Hid|].
  assert (artifact_text (AWitness w) ≠ artifact_text (AWitness w')) as Htext.
  { intros E. apply artifact_text_producer in E; [congruence|by apply dump_witness_wf|].
    apply dump_witness_wf; [by rewrite F5|by rewrite F6]. }
  assert (proof_matches c tr w p) as Hm' by (split; [by exists bytes|exact Hm]).
  destruct (is_valid v1) eqn:E1; [right|].
  { apply is_valid_spec in E1. exists w'. split; [done|]. split; [done|].
    by eapply (witness_swap_forged c tr w w' p p). }
  destruct (is_valid v2) eqn:E2; [right|left; by apply Hs].
  apply is_valid_spec in E2. exists w'. split; [done|]. split; [done|].
  by eapply (witness_swap_forged c tr w w' p p').
Qed.
End team.

(** ** The data integrity check *)

Section integrity.
Context {F : Type} `{!PyFloat F}.
Context (coerce_int : pyval → option Z) (root : string).

(** The data integrity agent never succeeds: it reads an attribute that
    responses do not have.  Whatever its task and its artifacts, the
    coordinator records a failure by exception and marks the agent failed; and
    once the report of that failure is in the shared memory, later than what is
    known of the strategy, the memory blocks the strategy. *)
Theorem data_integrity_always_fails (durations : Task F → F) (m : SharedMemory) (a : BaseAgent F)
    (t : Task F) (i : nat) (acc : list (TaskResult F) * list (BaseAgent F)) (now : clock) (cycle : Z) :
  agent_id a = "data_integrity" →
  ∃ e, collect (zk_team coerce_int root durations) m acc (mkAssignment i a t) =
         Ok (acc.1 ++ [exception_result a t e], set_status AgentStatus.FAILED i acc.2) ∧
    ¬ succeeded (exception_result a t e) ∧
    ∃ entry, memory_entries (exception_result a t e) = [entry] ∧
    (strategy_key t ≠ "" →
     (∀ x, x ∈ _strategy m → s_domain x = TaskDomain.value (a_domain a) → s_pattern x = strategy_key t →
        (s_cycle x <= cycle ∧ s_timestamp x < stamp now)%Z) →
     is_strategy_blocked (TaskDomain.value (a_domain a)) (strategy_key t)
       (apply_entries [(now, entry)] cycle "data_integrity" m) = true).
Proof.
  intros Ha. unfold collect. cbn [as_agent as_task as_index team_run zk_team].
  unfold run_agent. cbn [agent_id with_status]. rewrite Ha. cbn [String.eqb Ascii.eqb Bool.eqb].
  destruct (run_data_integrity coerce_int t (durations t)) as [r|e] eqn:E;
    [by apply data_integrity_raises in E|].
  exists e. split; [reflexivity|]. split; [done|]. eexists. split; [reflexivity|].
  intros Hk Hlast. cbn [apply_entries foldl apply_entry fst snd default from_option Datatypes.id].
  apply String.eqb_neq in Hk as Hk'. rewrite Hk'.
  rewrite recorded_outcome_decides; [done|done|exact Hlast].
Qed.
End integrity.

Definition integrity_task : Task (Z * positive) :=
  mkTask "cycle01_data_integrity" TaskDomain.DATA_INTEGRITY "" no_inputs TaskPriority.CRITICAL 1 []
    "repeatable_trace_bundle" [] [VERIFICATION_RESULT] None None None.

Example data_integrity_always_fails_witness :
  let a := new_agent "data_integrity" TaskDomain.DATA_INTEGRITY in
  ∃ e entry,
    collect (zk_team coerce_plain "/" (fun _ => flit 1 0)) no_memory ([], []) (mkAssignment 0 a integrity_task) =
      Ok ([exception_result a integrity_task e], []) ∧
    is_strategy_blocked "data_integrity" "repeatable_trace_bundle"
      (apply_entries [(mkClock 5 5, entry)] 1 "data_integrity" no_memory) = true.
Proof.
  intros a.
  destruct (data_integrity_always_fails coerce_plain "/" (fun _ => flit 1 0) no_memory a integrity_task 0
    ([], []) (mkClock 5 5) 1 eq_refl) as (e & He & _ & entry & _ & Hb).
  exists e, entry. split; [exact He|]. apply Hb; [discriminate|].
  intros x Hx. apply not_elem_of_nil in Hx. destruct Hx.
Defined.

(** A task with the four artifacts of a proof in its inputs. *)
Definition audit_task (c : Circuit) (t : Trace) (w : Witness) (p : Proof_) : Task (Z * positive) :=
  mkTask "cycle01_security" TaskDomain.SECURITY ""
    (mkInputs [] [("circuit", [ACircuit c]); ("trace", [ATrace t]); ("witness", [AWitness w]);
                  ("proof", [AProof p])] [] [] []) TaskPriority.CRITICAL 1 []
    "continuous_adversarial_checks" [] [VERIFICATION_RESULT] None None None.

Example security_audit_detects_witness :
  ∃ c t w p, proof_matches c t w p ∧
  ∃ r, run_security (audit_task c t w p) (flit 1 0) = Ok r ∧ r_task_id r = "cycle01_security" ∧
    (succeeded r ∨
     ∃ w', corrupt_witness t w 1 = Ok w' ∧ artifact_text (AWitness w) ≠ artifact_text (AWitness w') ∧
       same_or_forged "witness" (AWitness w) (AWitness w')).
Proof.
  assert (model_validate coerce_plain REFERENCE_REQUEST = Ok sample_request) as Hq by (vm_compute; reflexivity).
  assert (calculate_import_landed_cost coerce_plain TARIFF_RULES sample_request = Ok sample_response) as Hr
    by (vm_compute; reflexivity).
  destruct (packet_total coerce_plain TARIFF_RULES (fun z => eq_refl) REFERENCE_REQUEST sample_request
    sample_response reference_decimals_wf Hq Hr "backend_integration" 1)
    as (pk & _ & Ht & _ & Hs & Hby & Hf & Hz).
  destruct (default_circuit_total "circuit_engineer" 1) as (c & _).
  destruct (prove_total c (trace_artifact pk) (witness_artifact pk) "performance_optimization" 1 Hf)
    as (key & p & Hp & _).
  pose proof (proved_matches _ _ _ _ _ _ Hf Hp) as Hm.
  exists c, (trace_artifact pk), (witness_artifact pk), p. split; [exact Hm|].
  apply (security_audit_detects (audit_task c (trace_artifact pk) (witness_artifact pk) p) (flit 1 0) c
    (trace_artifact pk) (witness_artifact pk) p); try reflexivity; try assumption.
  - rewrite Hs. discriminate.
  - apply (f_equal CoreVerifier.public_inputs) in Hz. cbn [_to_zk_witness CoreVerifier.public_inputs] in Hz.
    rewrite Hz. unfold dict_wf. apply (bool_decide_unpack _). vm_compute. exact I.
  - apply (f_equal CoreVerifier.private_inputs) in Hz. cbn [_to_zk_witness CoreVerifier.private_inputs] in Hz.
    rewrite Hz. vm_compute. reflexivity.
  - rewrite Hby. discriminate.
Defined.
