(* ===== verification/Coordinator.v ===== *)
(** * The coordinator (coordinator/system.py, coordinator/performance.py)

    The tasks of a cycle, the running of a cycle with what it leaves in the
    shared memory and in the performance records, and the replacement of agents
    that underperform.  The log file, and the parts of the report that only
    repeat state, are not modelled. *)
From S2P Require Export Scheduler.

#[local] Open Scope Z_scope.

(** ** coordinator/performance.py *)

Section performance.
Context {F : Type} `{!PyFloat F}.

Record AgentPerformance := mkPerf {
  pf_agent_id : string;
  pf_score : F;
  consecutive_failures : Z;
  tasks_completed : Z;
  tasks_failed : Z;
  avg_duration_ms : F;
  history : list F }.

Definition new_record (id : string) : AgentPerformance :=
  mkPerf id (flit 1 0) 0 0 0 (flit 0 1) [].

Definition update_record (p : AgentPerformance) (r : TaskResult F) : AgentPerformance :=
  let success := String.eqb (r_status r) "success" in
  let history := history p ++ [duration_ms r] in
  let success_component := if success then flit 10 1 else flit 25 2 in
  let duration_component :=
    fdiv (flit 10 1) (fadd (flit 10 1) (fdiv (duration_ms r) (flit 5000 1))) in
  let candidate_score :=
    fround 4 (fadd (fmul (flit 7 1) success_component) (fmul (flit 3 1) duration_component)) in
  mkPerf (pf_agent_id p)
    (fround 4 (fadd (fmul (pf_score p) (flit 6 1)) (fmul candidate_score (flit 4 1))))
    (if success then 0 else consecutive_failures p + 1)
    (tasks_completed p + if success then 1 else 0)
    (tasks_failed p + if success then 0 else 1)
    (fround 2 (fdiv (fsum history) (flit (Z.of_nat (length history)) 0)))
    history.

Definition tracker : Type := list (string * AgentPerformance).

Definition record (r : TaskResult F) (t : tracker) : AgentPerformance * tracker :=
  let p := update_record (default (new_record (r_agent_id r)) (dict_get (r_agent_id r) t)) r in
  (p, dict_set (r_agent_id r) p t).

(** The rows of the snapshot, in the order of the agents' names. *)
Definition performance_snapshot (t : tracker) : tracker := isort key_leb t.

Definition underperformers (min_score : F) (min_failures : Z) (t : tracker) : list string :=
  map fst (List.filter (fun p => fltb (pf_score p.2) min_score &&
                                 (min_failures <=? consecutive_failures p.2)) t).
End performance.

Arguments AgentPerformance : clear implicits.
Arguments tracker : clear implicits.

(** ** The tasks of a cycle *)

(** [f'cycle{cycle:02d}'] *)
Definition cycle_prefix (cycle : Z) : string :=
  let s := str_of_Z cycle in "cycle" +:+ if (String.length s <? 2)%nat then "0" +:+ s else s.

Section tasks_of_cycle.
Context {F : Type} `{!PyFloat F}.

(** A requirement as [build_initial_tasks] writes them. *)
Definition from_agent (t : ArtifactType) (produced_by : string) : requirement :=
  mkRequirement (type_value t) (Some produced_by) None.

Definition requires (l : list requirement) : task_inputs := mkInputs l [] [] [] [].

Definition circuit_in := from_agent CIRCUIT "circuit_engineer".
Definition trace_in := from_agent TRACE "backend_integration".
Definition witness_in := from_agent WITNESS "backend_integration".
Definition proof_in := from_agent PROOF "performance_optimization".
Definition verdict_in := from_agent VERIFICATION_RESULT "verifier_agent".

Definition build_initial_tasks (cycle : Z) : list (Task F) :=
  let name s := cycle_prefix cycle +:+ s in
  let ms z := Some (flit (z * 10) 1) in
  [mkTask (name "_zk_architecture") TaskDomain.ARCHITECTURE
     "Define the ZK proof system architecture and produce the initial circuit artifact."
     no_inputs TaskPriority.CRITICAL cycle [] "layered_proof_architecture" [] [CIRCUIT]
     (ms 750) (Some 32768) (Some 64);
   mkTask (name "_circuit_design") TaskDomain.CIRCUIT
     "Refine the circuit artifact for deterministic constraint execution."
     (requires [from_agent CIRCUIT "zk_architect"]) TaskPriority.CRITICAL cycle [name "_zk_architecture"]
     "trace_to_constraints_mapping" [CIRCUIT] [CIRCUIT] (ms 750) (Some 32768) (Some 64);
   mkTask (name "_backend_integration") TaskDomain.BACKEND
     "Extract deterministic trace and witness artifacts from the VRL engine."
     (requires [circuit_in]) TaskPriority.HIGH cycle [name "_circuit_design"]
     "deterministic_trace_extraction" [CIRCUIT] [TRACE; WITNESS] (ms 1000) (Some 65536) None;
   mkTask (name "_prove_bundle") TaskDomain.PERFORMANCE
     "Produce a structured deterministic proof artifact and benchmark the stub prover."
     (requires [circuit_in; trace_in; witness_in]) TaskPriority.CRITICAL cycle
     [name "_backend_integration"] "structured_stub_proof" [CIRCUIT; TRACE; WITNESS] [PROOF]
     (ms 1000) (Some 32768) None;
   mkTask (name "_verifier") TaskDomain.VERIFICATION
     "Verify the structured proof artifact against its circuit, trace, and witness."
     (requires [circuit_in; trace_in; witness_in; proof_in]) TaskPriority.CRITICAL cycle
     [name "_prove_bundle"] "structured_stub_verifier" [CIRCUIT; TRACE; WITNESS; PROOF]
     [VERIFICATION_RESULT] (ms 1000) (Some 32768) None;
   mkTask (name "_testing") TaskDomain.TESTING
     "Run deterministic pipeline smoke tests against the typed artifacts."
     (requires [proof_in; verdict_in]) TaskPriority.HIGH cycle [name "_verifier"]
     "artifact_pipeline_smoke" [PROOF; VERIFICATION_RESULT] [VERIFICATION_RESULT] (ms 1200) (Some 32768) None;
   mkTask (name "_security") TaskDomain.SECURITY
     "Inject malformed artifacts and ensure the pipeline rejects invalid states."
     (requires [circuit_in; trace_in; witness_in; proof_in]) TaskPriority.CRITICAL cycle
     [name "_testing"] "continuous_adversarial_checks" [CIRCUIT; TRACE; WITNESS; PROOF]
     [VERIFICATION_RESULT] (ms 1500) (Some 32768) None;
   mkTask (name "_data_integrity") TaskDomain.DATA_INTEGRITY
     "Recompute the deterministic pipeline and confirm artifact replay matches exactly."
     (requires [trace_in; witness_in; proof_in]) TaskPriority.CRITICAL cycle [name "_verifier"]
     "repeatable_trace_bundle" [TRACE; WITNESS; PROOF] [VERIFICATION_RESULT] (ms 1200) (Some 32768) None;
   mkTask (name "_devops") TaskDomain.DEVOPS
     "Bind the verified pipeline state to the deployment topology."
     (requires [verdict_in]) TaskPriority.NORMAL cycle [name "_verifier"]
     "service_per_folder_topology" [VERIFICATION_RESULT] [VERIFICATION_RESULT] (ms 750) (Some 32768) None;
   mkTask (name "_research") TaskDomain.RESEARCH
     "Evaluate the verified artifact pipeline for future proving-system upgrades."
     (requires [circuit_in; proof_in; verdict_in]) TaskPriority.NORMAL cycle [name "_verifier"]
     "plonk_first_migration_path" [CIRCUIT; PROOF; VERIFICATION_RESULT] [VERIFICATION_RESULT]
     (ms 750) (Some 32768) None].
End tasks_of_cycle.

(** ** A cycle *)

Section coordinator.
Context {F : Type} `{!PyFloat F} (team : AgentTeam F).
Context (as_completed : list (assignment F) → list (assignment F)) (max_workers : Z).
(** [build_agent_team()] *)
Context (fresh_team : list (BaseAgent F)).
(** The clock while a result is entered in the memory: before its [n]th entry. *)
Context (now : TaskResult F → nat → clock).

Record ZKCoordinator := mkCoordinator {
  co_memory : SharedMemory;
  co_performance : tracker F;
  co_agents : list (BaseAgent F) }.

Record replacement := mkReplacement {
  rp_agent_id : string; old_version : string; new_version : string }.

Record CycleExecution := mkExecution {
  x_cycle : Z;
  x_results : list (TaskResult F);
  x_replacements : list replacement;
  x_memory_summary : memory_snapshot;
  x_performance : tracker F;
  x_artifact_graph : list (string * pyval);
  x_blocked_tasks : list blocked_task }.

(** What one result leaves in the memory and in the performance records. *)
Definition account (cycle : Z) (s : SharedMemory * tracker F) (r : TaskResult F)
    : SharedMemory * tracker F :=
  let entries := imap (fun n e => (now r n, e)) (memory_entries r) in
  let memory := apply_entries entries cycle (r_agent_id r) s.1 in
  let '(metrics, performance) := record r s.2 in
  ((record_performance (now r (length (memory_entries r))) (r_agent_id r) cycle (tasks_completed metrics)
      (tasks_failed metrics) (frepr (avg_duration_ms metrics)) (frepr (pf_score metrics)) memory).2,
   performance).

(** An agent that underperforms gives way to a fresh one of the same name;
    [fresh_map[..]] raises when the team has none. *)
Definition replace_agent (cycle : Z) (under : list string)
    (acc : list (BaseAgent F) * list replacement) (a : BaseAgent F)
    : result (list (BaseAgent F) * list replacement) :=
  if negb (bool_decide (agent_id a ∈ under)) then Ok (acc.1 ++ [a], acc.2)
  else
    match dict_get (agent_id a) (dict_of_pairs (map (fun b => (agent_id b, b)) fresh_team)) with
    | None => raise KeyError "{}"
    | Some fresh =>
        let v := version a +:+ "-r" +:+ str_of_Z cycle in
        Ok (acc.1 ++ [mkAgent (agent_id fresh) (a_domain fresh) v (flit 10 1) (status fresh)],
            acc.2 ++ [mkReplacement (agent_id a) (version a) v])
    end.

Definition _replace_underperformers (cycle : Z) (c : ZKCoordinator)
    : result (ZKCoordinator * list replacement) :=
  match underperformers (flit 45 2) 2 (co_performance c) with
  | [] => Ok (c, [])
  | under =>
      r ← fold_result (replace_agent cycle under) (co_agents c) ([], []);
      Ok (mkCoordinator (co_memory c) (co_performance c) r.1, r.2)
  end.

Definition result_leb (r r' : TaskResult F) : bool := str_leb (r_task_id r) (r_task_id r').

(** What follows the running of the tasks. *)
Definition finish_cycle (cycle : Z) (c : ZKCoordinator) (s : sched F)
    : result (CycleExecution * ZKCoordinator) :=
  let executed := isort result_leb (results s) in
  let '(memory, performance) := foldl (account cycle) (co_memory c, co_performance c) executed in
  replaced ← _replace_underperformers cycle (mkCoordinator memory performance (agents s));
  g ← to_dict (graph s);
  Ok (mkExecution cycle executed replaced.2 (summary (co_memory replaced.1))
        (performance_snapshot (co_performance replaced.1)) g (blocked_tasks s), replaced.1).

Definition run_cycle (cycle : Z) (c : ZKCoordinator) : option (result (CycleExecution * ZKCoordinator)) :=
  match _execute_dag team as_completed max_workers (co_memory c) (build_initial_tasks cycle)
          ArtifactGraph_init (co_agents c) with
  | None => None
  | Some (Raise e) => Some (Raise e)
  | Some (Ok s) => Some (finish_cycle cycle c s)
  end.

(** [[coordinator.run_cycle(cycle) for cycle in ..]] of the orchestrator *)
Fixpoint run_cycles (cycles : list Z) (c : ZKCoordinator)
    : option (result (list CycleExecution * ZKCoordinator)) :=
  match cycles with
  | [] => Some (Ok ([], c))
  | cycle :: cycles =>
      match run_cycle cycle c with
      | Some (Ok (x, c)) =>
          match run_cycles cycles c with
          | Some (Ok (xs, c)) => Some (Ok (x :: xs, c))
          | r => r
          end
      | Some (Raise e) => Some (Raise e)
      | None => None
      end
  end.
End coordinator.
