(* ===== verification/CoordinatorProps.v ===== *)
(** * What a cycle guarantees (coordinator/system.py, coordinator/performance.py)

    The tasks of a cycle are well formed for the team that runs them; running
    cycles ends; a cycle does not survive a failure among its first five tasks;
    and the performance records count what was recorded. *)
From S2P Require Export ZkUnitProps Coordinator.

(** ** The tasks of a cycle *)

(** The agents of the team that accept a task. *)
Definition accepted_by {F} `{!PyFloat F} (t : Task F) : list string :=
  map agent_id (List.filter (fun a => accepts a t) build_agent_team).

(** [q] is met by a task of [before]: its one agent produces that type. *)
Definition requirement_met {F} `{!PyFloat F} (before : list (Task F)) (q : requirement) : Prop :=
  ∃ u by_, u ∈ before ∧ r_produced_by q = Some by_ ∧ accepted_by u = [by_] ∧
    ∃ ty, ty ∈ produces u ∧ type_value ty = r_artifact_type q ∧ r_artifact_id q = None.

(** [P] holds of every element of [l] and the list of those before it. *)
Fixpoint each_after {A} (P : list A → A → Prop) (before l : list A) : Prop :=
  match l with
  | [] => True
  | x :: l => P before x ∧ each_after P (before ++ [x]) l
  end.

Section wf.
Context {F : Type} `{!PyFloat F}.

Lemma prefix_inj (p a b : string) : p +:+ a = p +:+ b → a = b.
Proof. induction p; simpl; [done|]. intros [=]. auto. Qed.

(** Look for the task that meets a requirement, and the type it produces. *)
Ltac in_list := repeat first [apply list_elem_of_here|apply list_elem_of_further].
Ltac of_type ty := exists ty; split; [cbn [produces]; in_list|split; reflexivity].
Ltac meet u :=
  exists u; eexists; split; [in_list|];
  split; [reflexivity|]; split; [reflexivity|];
  first [of_type CIRCUIT|of_type TRACE|of_type WITNESS|of_type PROOF|of_type VERIFICATION_RESULT].
Ltac meet_among l :=
  match l with ?u :: ?l' => first [meet u|meet_among l'] end.
Ltac named_among l :=
  match l with
  | ?u :: ?l' => first [exists u; split; [in_list|reflexivity]|named_among l']
  end.

Lemma cycle_names cycle : NoDup (map task_id (build_initial_tasks (F:=F) cycle)).
Proof.
  unfold build_initial_tasks. cbn [map task_id]. generalize (cycle_prefix cycle). intros p.
  change (NoDup (map (fun s => p +:+ s) ["_zk_architecture"; "_circuit_design"; "_backend_integration";
    "_prove_bundle"; "_verifier"; "_testing"; "_security"; "_data_integrity"; "_devops"; "_research"])).
  apply NoDup_fmap_2; [intros a b; apply prefix_inj|].
  apply (bool_decide_unpack _). vm_compute. exact I.
Qed.

(** The tasks of every cycle fit together: ten distinct names; whatever a
    task depends on comes before it; exactly one agent of the team accepts it;
    and for every artifact it requires, a task before it, of the agent named,
    produces one of that type. *)
Theorem cycle_tasks_wf (cycle : Z) :
  let tasks := build_initial_tasks (F:=F) cycle in
  length tasks = 10 ∧ NoDup (map task_id tasks) ∧
  each_after (fun before t =>
    (∀ d, d ∈ depends_on t → ∃ u, u ∈ before ∧ task_id u = d) ∧
    (∃ agent, accepted_by t = [agent]) ∧ tk_cycle t = cycle ∧
    ∀ q, q ∈ artifact_requirements (inputs t) → requirement_met before q) [] tasks.
Proof.
  intros tasks. split; [done|]. split; [apply cycle_names|].
  unfold tasks, build_initial_tasks.
  cbn [each_after depends_on inputs artifact_requirements requires no_inputs tk_cycle app].
  repeat match goal with
  | |- _ ∧ _ => split
  | |- True => exact I
  | |- _ = cycle => reflexivity
  | |- ∃ agent, accepted_by _ = _ => eexists; reflexivity
  end.
  all: intros x; rewrite ?elem_of_cons, elem_of_nil; intros Hx; repeat destruct Hx as [->|Hx]; try done.
  all: match goal with
    | |- ∃ u, u ∈ ?before ∧ task_id u = _ => named_among before
    | |- requirement_met ?before _ => unfold requirement_met; meet_among before
    end.
Qed.
End wf.

(** ** Running cycles *)

Section cycles.
Context {F : Type} `{!PyFloat F} (team : AgentTeam F).
Context (as_completed : list (assignment F) → list (assignment F)) (max_workers : Z).
Context (fresh_team : list (BaseAgent F)) (now : TaskResult F → nat → clock).

#[local] Abbreviation cycle_of := (run_cycle team as_completed max_workers fresh_team now).

(** The coordinator always gives back control: whatever the agents do, in
    whatever order they complete, a cycle returns or raises, and so does any
    sequence of cycles of the orchestrator, which raises at the first cycle that
    does and otherwise reports one execution per cycle. *)
Theorem run_cycles_terminate (cycles : list Z) (c : ZKCoordinator) :
  (∀ cycle, cycle_of cycle c ≠ None) ∧
  ∃ r, run_cycles team as_completed max_workers fresh_team now cycles c = Some r ∧
    match r with
    | Ok (xs, _) => map x_cycle xs = cycles
    | Raise e => ∃ cycle c', cycle ∈ cycles ∧ cycle_of cycle c' = Some (Raise e)
    end.
Proof.
  assert (∀ cycle c, cycle_of cycle c ≠ None) as Hn.
  { intros cycle c'. unfold run_cycle.
    destruct (execute_dag_some team as_completed max_workers (co_memory c') (build_initial_tasks cycle)
      ArtifactGraph_init (co_agents c')) as [r ->]. by destruct r. }
  split; [intros; apply Hn|]. revert c. induction cycles as [|cycle cycles IH]; intros c; cbn [run_cycles].
  { by exists (Ok ([], c)). }
  destruct (cycle_of cycle c) as [[[x c']|e]|] eqn:E; [|exists (Raise e)|by apply Hn in E].
  - destruct (IH c') as (r & Hr & H). rewrite Hr.
    assert (x_cycle x = cycle) as Hx.
    { unfold run_cycle in E. destruct (_execute_dag _ _ _ _ _ _ _) as [[s|]|]; [|done..].
      injection E as E. unfold finish_cycle in E. destruct (foldl _ _ _) as [m p].
      apply bind_ok in E as (rep & _ & E). by apply bind_ok in E as (g & _ & [= <- _]). }
    destruct r as [[xs c'']|e]; eexists; (split; [reflexivity|]).
    + cbn [map]. by rewrite Hx, H.
    + destruct H as (y & c1 & Hy & H). exists y, c1. split; [by right|done].
  - split; [done|]. exists cycle, c. split; [by left|done].
Qed.

Lemma each_after_split {A} (P : list A → A → Prop) before l :
  each_after P before l → ∀ pre x post, l = pre ++ x :: post → P (before ++ pre) x.
Proof.
  revert before. induction l as [|y l IH]; intros before H pre x post E; [by destruct pre|].
  destruct H as [Hy Hl]. destruct pre as [|z pre]; injection E as <- E.
  - by rewrite app_nil_r.
  - specialize (IH _ Hl pre x post E). by rewrite <-app_assoc in IH.
Qed.

(** The chain the first seven tasks form. *)
Lemma cycle_chain cycle a :
  a ∈ take 5 (build_initial_tasks (F:=F) cycle) →
  ∃ b c, b ∈ build_initial_tasks cycle ∧ c ∈ build_initial_tasks cycle ∧
    task_id a ∈ depends_on b ∧ depends_on c = [task_id b].
Proof.
  unfold build_initial_tasks. cbn [take]. intros Ha.
  assert (∀ (ts : list (Task F)) i b j c, ts !! i = Some b → ts !! j = Some c →
    task_id a ∈ depends_on b → depends_on c = [task_id b] →
    ∃ b c, b ∈ ts ∧ c ∈ ts ∧ task_id a ∈ depends_on b ∧ depends_on c = [task_id b]) as H.
  { intros ts i b j c Hb%list_elem_of_lookup_2 Hc%list_elem_of_lookup_2 H1 H2. by exists b, c. }
  rewrite !elem_of_cons, elem_of_nil in Ha. destruct Ha as [->|[->|[->|[->|[->|[]]]]]].
  - by eapply (H _ 1 _ 2); [reflexivity|reflexivity|apply list_elem_of_here|].
  - by eapply (H _ 2 _ 3); [reflexivity|reflexivity|apply list_elem_of_here|].
  - by eapply (H _ 3 _ 4); [reflexivity|reflexivity|apply list_elem_of_here|].
  - by eapply (H _ 4 _ 5); [reflexivity|reflexivity|apply list_elem_of_here|].
  - by eapply (H _ 5 _ 6); [reflexivity|reflexivity|apply list_elem_of_here|].
Qed.

Lemma elem_of_take_inv {A} (x : A) n l : x ∈ take n l → x ∈ l.
Proof. intros (i & Hi & _)%elem_of_take. by eapply list_elem_of_lookup_2. Qed.

Lemma pending_of_in (tasks : list (Task F)) t :
  NoDup (map task_id tasks) → t ∈ tasks → (task_id t, t) ∈ pending_of tasks.
Proof.
  intros Hn Ht. unfold pending_of. rewrite dict_of_pairs_wf; [apply elem_of_map; by exists t|].
  unfold dict_wf, dict_keys. change (NoDup (map fst (map (fun t => (task_id t, t)) tasks))).
  by rewrite map_map.
Qed.

(** A cycle does not survive a failure among its first five tasks.  If one
    of architecture, circuit design, backend integration, proving and
    verification, prepared with whatever inputs, never ends in a success (the
    agent raises or fails, or the result breaks a limit of the task such as its
    750 ms), [run_cycle] raises instead of reporting blocked tasks. *)
Theorem early_failure_aborts_cycle (cycle : Z) (c : ZKCoordinator) (a : Task F) :
  (∀ l, as_completed l ≡ₚ l) →
  a ∈ take 5 (build_initial_tasks cycle) →
  (∀ ag i r r', team_run ag (with_inputs i a) (co_memory c) = Ok r →
     _enforce_task_constraints (with_inputs i a) r = Ok r' → r_status r' ≠ "success") →
  ∃ e, cycle_of cycle c = Some (Raise e).
Proof.
  intros Hac Ha Hfail. destruct (cycle_chain cycle a Ha) as (b & d & Hb & Hd & Hba & Hdb).
  assert (a ∈ build_initial_tasks cycle) as Hin by (eapply elem_of_take_inv; exact Ha).
  pose proof (cycle_names cycle) as Hn.
  destruct (deep_failure_raises team as_completed max_workers (co_memory c) Hac (build_initial_tasks cycle)
    ArtifactGraph_init (co_agents c) a b d init_wf) as [e He]; auto using pending_of_in.
  exists e. unfold run_cycle. by rewrite He.
Qed.
End cycles.

(** A team whose agents always raise. *)
#[refine] Definition broken_team {F} `{!PyFloat F} : AgentTeam F :=
  {| team_run _ _ _ := raise RuntimeError "boom" |}.
Proof. discriminate. Defined.

Example early_failure_aborts_cycle_witness :
  ∃ e, run_cycle broken_team reverse 10 build_agent_team (fun _ _ => mkClock 0 0) 1
         (mkCoordinator no_memory [] (build_agent_team (F:=Z * positive))) = Some (Raise e).
Proof.
  apply (early_failure_aborts_cycle broken_team reverse 10 build_agent_team (fun _ _ => mkClock 0 0) 1
    (mkCoordinator no_memory [] build_agent_team)
    (nth 0 (build_initial_tasks 1) (demo_task "" [])) reverse_Permutation).
  - apply list_elem_of_here.
  - intros ag i r r' H. discriminate H.
Defined.

(** ** The performance records *)

Section tracker.
Context {F : Type} `{!PyFloat F}.

Definition results_of (id : string) (rs : list (TaskResult F)) : list (TaskResult F) :=
  List.filter (fun r => String.eqb (r_agent_id r) id) rs.

Definition success_of (r : TaskResult F) : bool := String.eqb (r_status r) "success".

(** How many results at the end of the list are failures. *)
Fixpoint trailing_failures (rs : list (TaskResult F)) : Z :=
  match rs with
  | [] => 0
  | r :: rs =>
      if forallb (fun r => negb (success_of r)) (r :: rs) then Z.of_nat (length (r :: rs))
      else trailing_failures rs
  end.

Definition record_all (rs : list (TaskResult F)) (t : tracker F) : tracker F :=
  foldl (fun t r => (record r t).2) t rs.

Definition counts_of (p : AgentPerformance F) :=
  (pf_agent_id p, consecutive_failures p, tasks_completed p, tasks_failed p, history p).

Lemma trailing_failures_snoc rs r :
  trailing_failures (rs ++ [r]) = (if success_of r then 0 else trailing_failures rs + 1)%Z.
Proof.
  induction rs as [|x rs IH]; cbn [app trailing_failures forallb].
  - rewrite andb_true_r. by destruct (success_of r).
  - rewrite forallb_app, IH. cbn [forallb]. rewrite andb_true_r.
    destruct (negb (success_of x)), (forallb _ rs), (success_of r); cbn [andb negb]; try done.
    cbn [length]. rewrite length_app. simpl. lia.
Qed.

Lemma update_counts p r :
  counts_of (update_record p r) =
  (pf_agent_id p, if success_of r then 0 else consecutive_failures p + 1,
   tasks_completed p + (if success_of r then 1 else 0),
   tasks_failed p + (if success_of r then 0 else 1), history p ++ [duration_ms r])%Z.
Proof. done. Qed.

(** The performance records are exact.  After any sequence of results the
    record of an agent counts its successes and failures, the failures since
    its last success, and the durations in order; an agent without results has
    no record; and the agents to replace are those whose record shows at least
    so many failures in a row and a score under the limit. *)
Theorem performance_counts (rs : list (TaskResult F)) (id : string) :
  let t := record_all rs [] in
  let mine := results_of id rs in
  match dict_get id t with
  | None => mine = []
  | Some p => mine ≠ [] ∧
      counts_of p =
        (id, trailing_failures mine, Z.of_nat (length (List.filter success_of mine)),
         Z.of_nat (length (List.filter (fun r => negb (success_of r)) mine)), map duration_ms mine) ∧
      ∀ min_score min_failures, id ∈ underperformers min_score min_failures t ↔
        fltb (pf_score p) min_score = true ∧ (min_failures <= trailing_failures mine)%Z
  end ∧ dict_wf t.
Proof.
  intros t mine. assert (dict_wf t ∧ match dict_get id t with
    | None => mine = []
    | Some p => mine ≠ [] ∧ counts_of p =
        (id, trailing_failures mine, Z.of_nat (length (List.filter success_of mine)),
         Z.of_nat (length (List.filter (fun r => negb (success_of r)) mine)), map duration_ms mine)
    end) as [Hw H].
  { unfold t, mine. clear. induction rs as [|r rs [Hw IH]] using rev_ind; [by split; [constructor|]|].
    unfold record_all, results_of in *. rewrite foldl_app, List.filter_app. cbn [foldl List.filter].
    set (t := foldl (fun t r => (record r t).2) [] rs) in *. unfold record. cbn [snd]. split; [by apply dict_set_wf|].
    destruct (String.eqb_spec (r_agent_id r) id) as [<-|Hne];
      [rewrite dict_get_set_eq|rewrite dict_get_set_ne, app_nil_r by done; exact IH].
    split; [by destruct (List.filter _ rs)|]. rewrite update_counts, trailing_failures_snoc.
    rewrite !List.filter_app, !length_app, map_app. cbn [List.filter map].
    destruct (dict_get (r_agent_id r) t) as [p|]; cbn [default from_option].
    - destruct IH as [_ IH]. unfold Datatypes.id. unfold counts_of in IH. injection IH as -> -> -> -> ->.
      by destruct (success_of r); cbn [negb length]; rewrite !Nat2Z.inj_add, ?Z.add_0_r.
    - rewrite IH. by destruct (success_of r). }
  split; [|done]. destruct (dict_get id t) as [p|] eqn:E; [|done]. destruct H as [Hm Hc].
  split; [done|]. split; [done|]. intros ms mf. unfold underperformers. rewrite elem_of_map.
  unfold counts_of in Hc. injection Hc as _ Hcf _ _ _. rewrite <-Hcf. split.
  - intros ([k p'] & -> & Hin%elem_of_filter). destruct Hin as [Hin Ht]. cbn [fst snd] in *.
    apply dict_get_elem in Hin; [|done]. assert (p' = p) as -> by congruence.
    by rewrite andb_true_iff, Z.leb_le in Ht.
  - intros [H1 H2]. exists (id, p). split; [done|]. apply elem_of_filter. cbn [fst snd].
    split; [by apply dict_get_Some_elem|]. by rewrite H1, (proj2 (Z.leb_le _ _) H2).
Qed.
End tracker.
