(* ===== verification/ProofQueue.v ===== *)
(** * The proof queue (backend/proof_queue.py)

    An append-only list of immutable snapshots of tasks, with one worker, and
    the JSONL file that mirrors it.  The queue's threads are a step relation: a
    submitter looks for an earlier task without the lock, then appends its own,
    writes it to the mirror and hands the job to the executor; the worker
    appends [processing], writes it, proves, appends the outcome and writes it.
    A write happens after its append and may raise: then a submission is never
    handed over, a started job is given up before it proves anything, and a
    completed one is recorded as failed too.  A write that raises is taken to
    leave no line.  The circuit's hash and what
    proving and verifying return are parameters; shutting down is not modelled. *)
From stdpp Require Export relations.
From AAC_tactics Require Import AAC.
From AAC_tactics Require Instances.
From S2P Require Export Artifacts.
Import Instances.Lists.

#[local] Instance lift_perm A : AAC_lift (@Permutation A) (@Permutation A).
Proof. split; apply _. Qed.

Inductive task_state := Pending | Processing | Completed | Failed.

#[global] Instance task_state_eq_dec : EqDecision task_state.
Proof. solve_decision. Defined.

Record ProofTask := mkProofTask {
  pt_task_id : string;
  pt_witness_artifact_id : string;
  pt_circuit_artifact_id : string;
  pt_trace_hash : string;
  pt_input_hash : string;
  pt_created_at : Z;
  pt_status : task_state;
  pt_result : option Proof_;
  pt_verification : option VerificationResult;
  pt_error : option string;
  pt_elapsed_ms : option Z }.

(** A call of [_run_task]: its arguments. *)
Record job := mkJob {
  jb_task : ProofTask;
  jb_witness : Witness;
  jb_produced_by : string;
  jb_cycle : Z;
  jb_auto_verify : bool }.

Section queue.
(** [compile_circuit().circuit_hash] *)
Context (circuit_hash : string).
(** [build_plonk_proof] and, when asked for, [verify_plonk_proof] *)
Context (build_plonk_proof : Witness → string → string → Z → result Proof_).
Context (verify_plonk_proof : Proof_ → string → Z → result VerificationResult).

Definition _latest_for (task_id : string) (events : list ProofTask) : option ProofTask :=
  List.find (fun t => String.eqb (pt_task_id t) task_id) (reverse events).

Definition proof_task_id (w : Witness) (trace_hash produced_by : string) (cycle : Z) : result string :=
  h ← hash_payload (PDict [("witness_artifact_id", PStr (artifact_id (w_header w)));
        ("trace_hash", PStr trace_hash); ("produced_by", PStr produced_by); ("cycle", PInt cycle);
        ("circuit_hash", PStr circuit_hash)]);
  Ok ("proofjob_" +:+ str_take 24 h).

Definition pending_task (task_id : string) (w : Witness) (trace_hash : string) (now : Z) : ProofTask :=
  mkProofTask task_id (artifact_id (w_header w)) ("circuit_" +:+ str_take 24 circuit_hash) trace_hash
    (w_input w) now Pending None None None None.

(** Whether an earlier task makes a new one unnecessary. *)
Definition is_active (existing : option ProofTask) : bool :=
  match existing with
  | Some t => negb (bool_decide (pt_status t = Failed))
  | None => false
  end.

(** The first half of [submit]: the task's name, and the job to append unless an
    earlier one is active. *)
Definition submit_check (w : Witness) (trace_hash produced_by : string) (cycle : Z) (auto_verify : bool)
    (now : Z) (events : list ProofTask) : result (string * option job) :=
  id ← proof_task_id w trace_hash produced_by cycle;
  Ok (id, if is_active (_latest_for id events) then None
          else Some (mkJob (pending_task id w trace_hash now) w produced_by cycle auto_verify)).

(** The snapshots of the later states. *)
Definition with_outcome (t : ProofTask) (s : task_state) (result : option Proof_)
    (verification : option VerificationResult) (error : option string) (elapsed : option Z) : ProofTask :=
  mkProofTask (pt_task_id t) (pt_witness_artifact_id t) (pt_circuit_artifact_id t) (pt_trace_hash t)
    (pt_input_hash t) (pt_created_at t) s result verification error elapsed.

Definition processing_task (j : job) : ProofTask :=
  with_outcome (jb_task j) Processing None None None None.

(** The body of the [try]. *)
Definition prove_job (j : job) : result (Proof_ * option VerificationResult) :=
  proof ← build_plonk_proof (jb_witness j) (pt_trace_hash (jb_task j)) (jb_produced_by j) (jb_cycle j);
  if jb_auto_verify j
  then v ← verify_plonk_proof proof (jb_produced_by j +:+ "_verifier") (jb_cycle j); Ok (proof, Some v)
  else Ok (proof, None).

Definition completed_task (j : job) (proved : Proof_ * option VerificationResult) (elapsed : Z) : ProofTask :=
  with_outcome (jb_task j) Completed (Some proved.1) proved.2 None (Some elapsed).

(** What the [except] records. *)
Definition failed_task (j : job) (e : exn) (elapsed : Z) : ProofTask :=
  with_outcome (jb_task j) Failed None None (Some (exn_msg e)) (Some elapsed).

Definition get_task (task_id : string) (events : list ProofTask) : option ProofTask :=
  _latest_for task_id events.

Record queue_counts := mkCounts_ { total : nat; pending_ : nat; processing : nat; completed : nat; failed : nat }.

Definition count_status (s : task_state) (l : list ProofTask) : nat :=
  length (List.filter (fun t => bool_decide (pt_status t = s)) l).

Definition snapshot (events : list ProofTask) : queue_counts :=
  let latest := foldl (fun d t => dict_set (pt_task_id t) t d) [] events in
  let tasks := dict_values latest in
  mkCounts_ (length tasks) (count_status Pending tasks) (count_status Processing tasks)
    (count_status Completed tasks) (count_status Failed tasks).

(** ** The threads *)

(** How far the worker is with its job: [processing] appended but not written,
    in the [try], [completed] appended but not written, [failed] appended but
    not written. *)
Inductive stage :=
  | Starting
  | Proving
  | Completing (t : ProofTask)
  | Failing (t : ProofTask).

Record queue := mkQueue {
  _events : list ProofTask;
  mirror : list ProofTask;          (** the lines of the JSONL file *)
  deciding : list job;              (** submitters past the check that have not appended *)
  appended : list job;              (** ... that have not written their line *)
  entered : list job;                (** ... that have not handed the job over *)
  dropped : list job;               (** ... whose write raised *)
  waiting : list job;               (** the executor's queue *)
  running : option (job * stage) }. (** what its one worker runs *)

Definition empty_queue : queue := mkQueue [] [] [] [] [] [] [] None.

(** A step of one of the threads; [fails] says whether writes to the mirror may
    raise. *)
Inductive qstep (fails : bool) : queue → queue → Prop :=
  | step_check ev mi de ap lo dr wa ru w th by_ cyc verify now id j :
      submit_check w th by_ cyc verify now ev = Ok (id, Some j) →
      qstep fails (mkQueue ev mi de ap lo dr wa ru) (mkQueue ev mi (de ++ [j]) ap lo dr wa ru)
  | step_append ev mi pre j post ap lo dr wa ru :
      qstep fails (mkQueue ev mi (pre ++ j :: post) ap lo dr wa ru)
        (mkQueue (ev ++ [jb_task j]) mi (pre ++ post) (ap ++ [j]) lo dr wa ru)
  | step_write ev mi de pre j post lo dr wa ru :
      qstep fails (mkQueue ev mi de (pre ++ j :: post) lo dr wa ru)
        (mkQueue ev (mi ++ [jb_task j]) de (pre ++ post) (lo ++ [j]) dr wa ru)
  | step_write_raises ev mi de pre j post lo dr wa ru :
      fails = true →
      qstep fails (mkQueue ev mi de (pre ++ j :: post) lo dr wa ru)
        (mkQueue ev mi de (pre ++ post) lo (dr ++ [j]) wa ru)
  | step_hand_over ev mi de ap pre j post dr wa ru :
      qstep fails (mkQueue ev mi de ap (pre ++ j :: post) dr wa ru)
        (mkQueue ev mi de ap (pre ++ post) dr (wa ++ [j]) ru)
  | step_start ev mi de ap lo dr j wa :
      qstep fails (mkQueue ev mi de ap lo dr (j :: wa) None)
        (mkQueue (ev ++ [processing_task j]) mi de ap lo dr wa (Some (j, Starting)))
  | step_started ev mi de ap lo dr wa j :
      qstep fails (mkQueue ev mi de ap lo dr wa (Some (j, Starting)))
        (mkQueue ev (mi ++ [processing_task j]) de ap lo dr wa (Some (j, Proving)))
  | step_start_raises ev mi de ap lo dr wa j :
      fails = true →
      qstep fails (mkQueue ev mi de ap lo dr wa (Some (j, Starting))) (mkQueue ev mi de ap lo dr wa None)
  | step_proved ev mi de ap lo dr wa j proved elapsed :
      prove_job j = Ok proved →
      let t := completed_task j proved elapsed in
      qstep fails (mkQueue ev mi de ap lo dr wa (Some (j, Proving)))
        (mkQueue (ev ++ [t]) mi de ap lo dr wa (Some (j, Completing t)))
  | step_not_proved ev mi de ap lo dr wa j e elapsed :
      prove_job j = Raise e →
      let t := failed_task j e elapsed in
      qstep fails (mkQueue ev mi de ap lo dr wa (Some (j, Proving)))
        (mkQueue (ev ++ [t]) mi de ap lo dr wa (Some (j, Failing t)))
  | step_completed ev mi de ap lo dr wa j t :
      qstep fails (mkQueue ev mi de ap lo dr wa (Some (j, Completing t)))
        (mkQueue ev (mi ++ [t]) de ap lo dr wa None)
  | step_completed_raises ev mi de ap lo dr wa j t e elapsed :
      fails = true →
      let t' := failed_task j e elapsed in
      qstep fails (mkQueue ev mi de ap lo dr wa (Some (j, Completing t)))
        (mkQueue (ev ++ [t']) mi de ap lo dr wa (Some (j, Failing t')))
  | step_failed ev mi de ap lo dr wa j t :
      qstep fails (mkQueue ev mi de ap lo dr wa (Some (j, Failing t)))
        (mkQueue ev (mi ++ [t]) de ap lo dr wa None)
  | step_failed_raises ev mi de ap lo dr wa j t :
      fails = true →
      qstep fails (mkQueue ev mi de ap lo dr wa (Some (j, Failing t))) (mkQueue ev mi de ap lo dr wa None).

Definition reachable (fails : bool) (q : queue) : Prop := rtc (qstep fails) empty_queue q.

(** ** The protocol of a run

    What one run of a job appends: [processing], and when it comes so far one
    outcome, or [completed] and then [failed]. *)

Inductive run_events (j : job) : list ProofTask → Prop :=
  | run_started : run_events j [processing_task j]
  | run_proved proved n :
      prove_job j = Ok proved → run_events j [processing_task j; completed_task j proved n]
  | run_not_proved e n :
      prove_job j = Raise e → run_events j [processing_task j; failed_task j e n]
  | run_unmirrored proved n e n' :
      prove_job j = Ok proved →
      run_events j [processing_task j; completed_task j proved n; failed_task j e n'].

(** The events so far of a run that is in a stage. *)
Inductive stage_events (fails : bool) (j : job) : stage → list ProofTask → Prop :=
  | in_starting : stage_events fails j Starting [processing_task j]
  | in_proving : stage_events fails j Proving [processing_task j]
  | in_completing proved n :
      prove_job j = Ok proved →
      stage_events fails j (Completing (completed_task j proved n)) [processing_task j; completed_task j proved n]
  | in_failing e n :
      prove_job j = Raise e →
      stage_events fails j (Failing (failed_task j e n)) [processing_task j; failed_task j e n]
  | in_unmirrored proved n e n' :
      fails = true → prove_job j = Ok proved →
      stage_events fails j (Failing (failed_task j e n'))
        [processing_task j; completed_task j proved n; failed_task j e n'].

(** A run with exactly one outcome. *)
Definition settled (r : job * list ProofTask) : Prop := length r.2 = 2.

Definition is_pending (t : ProofTask) : bool := bool_decide (pt_status t = Pending).
Definition pendings (l : list ProofTask) : list ProofTask := List.filter is_pending l.
Definition later (l : list ProofTask) : list ProofTask := List.filter (fun t => negb (is_pending t)) l.

(** The event the worker has appended and not written. *)
Definition unwritten (r : option (job * stage)) : list ProofTask :=
  match r with
  | Some (j, Starting) => [processing_task j]
  | Some (_, Completing t) | Some (_, Failing t) => [t]
  | _ => []
  end.

(** The run of the worker, with its events so far. *)
Definition current (fails : bool) (r : option (job * stage)) (cur : list (job * list ProofTask)) : Prop :=
  match r with
  | None => cur = []
  | Some (j, ph) => ∃ es, cur = [(j, es)] ∧ stage_events fails j ph es
  end.

Definition submitted (q : queue) : list job := waiting q ++ entered q ++ appended q ++ dropped q.

Record queue_inv (fails : bool) (q : queue) (past cur : list (job * list ProofTask)) (lost : list ProofTask) : Prop := {
  qi_jobs : ∀ j, j ∈ deciding q ++ map fst (past ++ cur) ++ submitted q → pt_status (jb_task j) = Pending;
  qi_past : Forall (fun r => run_events r.1 r.2) past;
  qi_current : current fails (running q) cur;
  qi_later : later (_events q) = concat (map snd (past ++ cur));
  qi_pending : pendings (_events q) ≡ₚ map jb_task (map fst (past ++ cur) ++ submitted q);
  qi_mirror : _events q ≡ₚ mirror q ++ map jb_task (appended q) ++ unwritten (running q) ++ lost;
  qi_settled : fails = false → dropped q = [] ∧ lost = [] ∧ Forall settled past }.

Lemma submit_check_job w th by_ cyc verify now events id j :
  submit_check w th by_ cyc verify now events = Ok (id, Some j) →
  pt_status (jb_task j) = Pending ∧ pt_task_id (jb_task j) = id ∧ is_active (_latest_for id events) = false.
Proof.
  unfold submit_check. intros (id' & _ & H)%bind_ok. destruct (is_active _) eqn:E; [done|].
  by injection H as <- <-.
Qed.

Lemma later_snoc l t : later (l ++ [t]) = later l ++ (if is_pending t then [] else [t]).
Proof. unfold later. rewrite List.filter_app. simpl. by destruct (is_pending t). Qed.

Lemma pendings_snoc l t : pendings (l ++ [t]) = pendings l ++ (if is_pending t then [t] else []).
Proof. unfold pendings. rewrite List.filter_app. simpl. by destruct (is_pending t). Qed.

Lemma phase_run fails j ph es : stage_events fails j ph es → run_events j es.
Proof. destruct 1; eauto using run_events. Qed.

Lemma phase_settled j ph es : stage_events false j ph es → unwritten (Some (j, ph)) ≠ [] → ph ≠ Starting → settled (j, es).
Proof. by destruct 1. Qed.

Lemma pending_job j : pt_status (jb_task j) = Pending → is_pending (jb_task j) = true.
Proof. intros H. unfold is_pending. by rewrite H. Qed.

Lemma current_jobs fails r cur : current fails r cur → map fst cur = option_list (fst <$> r).
Proof. destruct r as [[j ph]|]; [by intros (es & -> & _)|by intros ->]. Qed.

(** Permutations of concatenations *)
Ltac perm :=
  repeat (rewrite ?map_app, ?app_nil_r; cbn [map app fst snd]);
  repeat match goal with |- context [?x :: ?l] => lazymatch l with [] => fail | _ => change (x :: l) with ([x] ++ l) end end;
  aac_reflexivity.

(** The jobs after a step are among those before. *)
Ltac same_jobs Hj :=
  let j := fresh "j" in let H := fresh in
  intros j H; apply Hj; revert H; rewrite ?map_app; cbn [map fst]; repeat (rewrite ?elem_of_app, ?elem_of_cons, ?elem_of_nil); tauto.

(** The steps of the submitters. *)
Lemma qstep_inv_submit fails q q' past cur lost :
  queue_inv fails q past cur lost → qstep fails q q' → running q' = running q →
  ∃ lost', queue_inv fails q' past cur lost'.
Proof.
  intros [Hj Hpast Hcur Hl Hp Hm Hs] Hq Hrun. unfold submitted in *.
  set (runs := past ++ cur) in *.
  destruct Hq; cbn [_events mirror deciding appended entered dropped waiting running] in *; try done.
  - exists lost. split; cbn; try done. fold runs. apply submit_check_job in H as (Hst & _ & _).
    intros j'. specialize (Hj j'). revert Hj. rewrite !elem_of_app, list_elem_of_singleton.
    intros Hj [[?| ->]|?]; tauto.
  - exists lost. assert (pt_status (jb_task j) = Pending) as Hst.
    { apply Hj. rewrite !elem_of_app, elem_of_cons. tauto. }
    split; cbn; try done; fold runs.
    + same_jobs Hj.
    + by rewrite later_snoc, (pending_job j), app_nil_r.
    + rewrite pendings_snoc, (pending_job j), Hp by done. perm.
    + rewrite Hm. perm.
  - exists lost. split; cbn; try done; fold runs; [same_jobs Hj|rewrite Hp; perm|rewrite Hm; perm].
  - exists (lost ++ [jb_task j]).
    split; cbn; try done; fold runs; [same_jobs Hj|rewrite Hp; perm|rewrite Hm; perm|congruence].
  - exists lost. split; cbn; try done; fold runs; [same_jobs Hj|rewrite Hp; perm].
Qed.

(** The worker takes a job. *)
Lemma started_inv fails ev mi de ap lo dr j wa past cur lost :
  queue_inv fails (mkQueue ev mi de ap lo dr (j :: wa) None) past cur lost →
  queue_inv fails (mkQueue (ev ++ [processing_task j]) mi de ap lo dr wa (Some (j, Starting)))
    past (cur ++ [(j, [processing_task j])]) lost.
Proof.
  intros [Hj Hpast Hcur Hl Hp Hm Hs]. cbn [running current] in Hcur. subst cur. rewrite app_nil_r in *. unfold submitted in *.
  cbn [_events mirror deciding appended entered dropped waiting running unwritten app] in *.
  split; unfold submitted; cbn [_events mirror deciding appended entered dropped waiting running unwritten app current].
  - same_jobs Hj.
  - done.
  - exists [processing_task j]. split; [done|constructor].
  - rewrite later_snoc, Hl, map_app, concat_app. done.
  - rewrite pendings_snoc, Hp. cbn [is_pending]. perm.
  - rewrite Hm. perm.
  - done.
Qed.

(** The worker appends an outcome of its job. *)
Lemma outcome_inv fails ev mi mi' de ap lo dr wa j ph es ph' t past cur lost :
  queue_inv fails (mkQueue ev mi de ap lo dr wa (Some (j, ph))) past cur lost → stage_events fails j ph es →
  cur = [(j, es)] → is_pending t = false → stage_events fails j ph' (es ++ [t]) →
  unwritten (Some (j, ph')) = [t] → mi' = mi → (unwritten (Some (j, ph)) ≠ [] → fails = true) →
  ∃ lost', queue_inv fails (mkQueue (ev ++ [t]) mi' de ap lo dr wa (Some (j, ph'))) past [(j, es ++ [t])] lost'.
Proof.
  intros [Hj Hpast _ Hl Hp Hm Hs] Hes -> Ht Hes' Hw -> Hf. unfold submitted in *.
  cbn [_events mirror deciding appended entered dropped waiting running] in *.
  exists (lost ++ unwritten (Some (j, ph))). split; unfold submitted; cbn [_events mirror deciding appended entered dropped waiting running current] in *.
  - same_jobs Hj.
  - done.
  - by exists (es ++ [t]).
  - rewrite later_snoc, Hl, Ht, !map_app, !concat_app. cbn [map concat snd]. by rewrite !app_nil_r, <-app_assoc.
  - rewrite pendings_snoc, Ht, Hp, !map_app. perm.
  - rewrite Hw, Hm. perm.
  - intros E. destruct (Hs E) as (-> & -> & ?). destruct (unwritten (Some (j, ph))) eqn:Eu; [done|].
    by rewrite Hf in E.
Qed.

(** The worker ends its run. *)
Lemma end_inv fails ev mi mi' de ap lo dr wa j ph past cur lost lost' :
  queue_inv fails (mkQueue ev mi de ap lo dr wa (Some (j, ph))) past cur lost →
  mi ++ unwritten (Some (j, ph)) ++ lost ≡ₚ mi' ++ lost' →
  (fails = false → lost' = [] ∧ Forall settled cur) →
  queue_inv fails (mkQueue ev mi' de ap lo dr wa None) (past ++ cur) [] lost'.
Proof.
  intros [Hj Hpast (es & -> & Hes) Hl Hp Hm Hs] Hmi Hf. unfold submitted in *.
  cbn [_events mirror deciding appended entered dropped waiting running] in *.
  split; unfold submitted; cbn [_events mirror deciding appended entered dropped waiting running unwritten app current];
    rewrite ?app_nil_r.
  - exact Hj.
  - apply Forall_app. split; [done|]. constructor; [|done]. by eapply phase_run.
  - done.
  - done.
  - done.
  - rewrite Hm, (Permutation_app_comm (map jb_task ap)), <-app_assoc, (app_assoc mi), app_assoc.
    rewrite <-(app_assoc mi), <-app_assoc.
    transitivity (map jb_task ap ++ mi ++ unwritten (Some (j, ph)) ++ lost); [perm|]. rewrite Hmi. perm.
  - intros E. destruct (Hs E) as (-> & _ & H1), (Hf E) as [-> H2]. repeat split; [done..|].
    by apply Forall_app.
Qed.

Lemma qstep_inv fails q q' past cur lost :
  queue_inv fails q past cur lost → qstep fails q q' → ∃ past' cur' lost', queue_inv fails q' past' cur' lost'.
Proof.
  intros H Hq.
  assert (running q' = running q → ∃ past' cur' lost', queue_inv fails q' past' cur' lost') as Hsub.
  { intros E. destruct (qstep_inv_submit _ _ _ _ _ _ H Hq E) as [lost' H']. by exists past, cur, lost'. }
  pose proof (qi_current _ _ _ _ _ H) as Hcur. pose proof (qi_settled _ _ _ _ _ H) as Hs.
  destruct Hq as [| | | | |ev mi de ap lo dr j wa|ev mi de ap lo dr wa j|ev mi de ap lo dr wa j Hf
    |ev mi de ap lo dr wa j pv n Hpv t|ev mi de ap lo dr wa j e n He t|ev mi de ap lo dr wa j t
    |ev mi de ap lo dr wa j t e n Hf t'|ev mi de ap lo dr wa j t|ev mi de ap lo dr wa j t Hf];
    try (by apply Hsub); clear Hsub.
  - eauto using started_inv.
  - exists past, cur, lost. destruct H as [Hj Hpast (es & -> & Hes) Hl Hp Hm _]. split; try done.
    + exists es. split; [done|]. inversion_clear Hes. constructor.
    + cbn [_events mirror appended running unwritten] in *. rewrite Hm. perm.
  - eexists _, _, (unwritten (Some (j, Starting)) ++ lost). eapply end_inv; [exact H|done|congruence].
  - destruct Hcur as (es & Ec & Hes). eapply (outcome_inv _ _ _ _ _ _ _ _ _ j Proving es) in H as [lost' H'];
      [by eexists _, _, _|done|done|done|inversion_clear Hes; by constructor|done..].
  - destruct Hcur as (es & Ec & Hes). eapply (outcome_inv _ _ _ _ _ _ _ _ _ j Proving es) in H as [lost' H'];
      [by eexists _, _, _|done|done|done|inversion_clear Hes; by constructor|done..].
  - eexists _, _, lost. eapply end_inv; [exact H|cbn [unwritten]; perm|]. intros E.
    destruct (Hs E) as (_ & -> & _), Hcur as (es & -> & Hes). split; [done|].
    constructor; [|done]. by inversion_clear Hes.
  - destruct Hcur as (es & Ec & Hes). eapply (outcome_inv _ _ _ _ _ _ _ _ _ j (Completing t) es) in H as [lost' H'];
      [by eexists _, _, _|done|done|done|inversion_clear Hes; by constructor|done..].
  - eexists _, _, lost. eapply end_inv; [exact H|cbn [unwritten]; perm|]. intros E.
    destruct (Hs E) as (_ & -> & _), Hcur as (es & -> & Hes). split; [done|].
    constructor; [|done]. subst fails. by inversion_clear Hes.
  - eexists _, _, (unwritten (Some (j, Failing t)) ++ lost). eapply end_inv; [exact H|done|congruence].
Qed.

Lemma empty_inv fails : queue_inv fails empty_queue [] [] [].
Proof. split; try done. intros j. cbn. set_solver. Qed.

(** What every step keeps holds of every reachable queue. *)
Lemma reachable_ind fails (P : queue → Prop) q :
  P empty_queue → (∀ q q', P q → qstep fails q q' → P q') → reachable fails q → P q.
Proof. intros H0 Hs. unfold reachable. generalize empty_queue H0. intros q0 H. induction 1; eauto. Qed.

Lemma queue_reachable_inv fails q : reachable fails q → ∃ past cur lost, queue_inv fails q past cur lost.
Proof.
  apply (reachable_ind fails (fun q => ∃ past cur lost, queue_inv fails q past cur lost)).
  - exists [], [], []. apply empty_inv.
  - intros q1 q2 (past & cur & lost & H) Hs. by eapply qstep_inv.
Qed.

(** ** Counting events *)

(** How many events of a task are in one of the states. *)
Definition events_of (id : string) (ss : list task_state) (l : list ProofTask) : nat :=
  length (List.filter (fun t => String.eqb (pt_task_id t) id && bool_decide (pt_status t ∈ ss)) l).

Lemma events_of_app id ss l k : events_of id ss (l ++ k) = events_of id ss l + events_of id ss k.
Proof. unfold events_of. by rewrite List.filter_app, length_app. Qed.

Lemma events_of_one id s t :
  events_of id [s] [t] = if String.eqb (pt_task_id t) id && bool_decide (pt_status t = s) then 1 else 0.
Proof.
  unfold events_of. cbn [List.filter]. rewrite (bool_decide_ext _ (pt_status t = s)) by set_solver.
  by destruct (_ && _).
Qed.

Lemma events_of_cons id ss t l : events_of id ss (t :: l) = events_of id ss [t] + events_of id ss l.
Proof. apply (events_of_app id ss [t] l). Qed.

Definition jobs_of (id : string) (l : list job) : nat :=
  length (List.filter (fun j => String.eqb (pt_task_id (jb_task j)) id) l).

Lemma jobs_of_app id l k : jobs_of id (l ++ k) = jobs_of id l + jobs_of id k.
Proof. unfold jobs_of. by rewrite List.filter_app, length_app. Qed.

Lemma jobs_of_cons id j l :
  jobs_of id (j :: l) = (if String.eqb (pt_task_id (jb_task j)) id then 1 else 0) + jobs_of id l.
Proof. unfold jobs_of. cbn [List.filter]. by destruct (String.eqb _ _). Qed.

Lemma events_of_pendings id l : events_of id [Pending] l = events_of id [Pending] (pendings l).
Proof.
  induction l as [|t l IH]; [done|]. rewrite events_of_cons, events_of_one, IH.
  unfold pendings, is_pending. cbn [List.filter]. case_bool_decide as E; [|by rewrite andb_false_r].
  rewrite (events_of_cons _ _ t), events_of_one, E. done.
Qed.

Lemma events_of_later id l : events_of id [Processing] l = events_of id [Processing] (later l).
Proof.
  induction l as [|t l IH]; [done|]. rewrite events_of_cons, IH.
  unfold later, is_pending. cbn [List.filter]. case_bool_decide as E; cbn [negb].
  - rewrite events_of_one, E. cbn. by rewrite andb_false_r.
  - symmetry. apply events_of_cons.
Qed.

Lemma run_processing id j es : run_events j es → events_of id [Processing] es = jobs_of id [j].
Proof.
  destruct 1; unfold events_of, jobs_of; cbn; rewrite ?andb_false_r, ?andb_true_r; by destruct (String.eqb _ _).
Qed.

Lemma jobs_pending_events id js :
  (∀ j, j ∈ js → pt_status (jb_task j) = Pending) → events_of id [Pending] (map jb_task js) = jobs_of id js.
Proof.
  induction js as [|j js IH]; intros H; [done|]. cbn [map].
  rewrite events_of_cons, jobs_of_cons, events_of_one, H, IH by set_solver.
  rewrite bool_decide_eq_true_2, andb_true_r by done. done.
Qed.

(** As many runs as [processing] events, and a submission for each. *)
Lemma started_submitted fails q past cur lost id :
  queue_inv fails q past cur lost →
  events_of id [Processing] (_events q) ≤ events_of id [Pending] (_events q).
Proof.
  intros H. pose proof (qi_current _ _ _ _ _ H) as Hcur. destruct H as [Hj Hpast _ Hl Hp _ _].
  assert (Forall (fun r => run_events r.1 r.2) (past ++ cur)) as Hruns.
  { apply Forall_app. split; [done|]. destruct (running q) as [[j ph]|];
      [destruct Hcur as (es & -> & Hes); constructor; [by eapply phase_run|done]|by rewrite Hcur]. }
  rewrite events_of_pendings, events_of_later, Hl. revert Hp. generalize (pendings (_events q)). intros ps Hp.
  assert (events_of id [Pending] ps = jobs_of id (map fst (past ++ cur) ++ submitted q)) as ->.
  { rewrite <-jobs_pending_events; [unfold events_of; by rewrite Hp|]. intros j Hin. apply Hj. set_solver. }
  rewrite jobs_of_app. assert (events_of id [Processing] (concat (map snd (past ++ cur))) =
    jobs_of id (map fst (past ++ cur))); [|lia].
  clear -Hruns. induction Hruns as [|[j es] rs Hr Hrs IH]; [done|]. cbn [map concat fst snd].
  cbn [fst snd] in Hr. rewrite events_of_app, (jobs_of_cons _ j), IH, (run_processing id j es Hr), jobs_of_cons.
  unfold jobs_of at 1. cbn. lia.
Qed.

(** A step appends at most one event. *)
Lemma qstep_events fails q q' : qstep fails q q' → _events q' = _events q ∨ ∃ t, _events q' = _events q ++ [t].
Proof. destruct 1; cbn [_events]; eauto. Qed.

(** At every moment a task had been submitted at least as often as started. *)
Lemma submitted_before_started fails q id k :
  reachable fails q →
  events_of id [Processing] (take k (_events q)) ≤ events_of id [Pending] (take k (_events q)).
Proof.
  intros H. enough ((∃ past cur lost, queue_inv fails q past cur lost) ∧
    ∀ k, events_of id [Processing] (take k (_events q)) ≤ events_of id [Pending] (take k (_events q))) as [_ Hk]
    by apply Hk.
  clear k. revert H. apply (reachable_ind fails (fun q => (∃ past cur lost, queue_inv fails q past cur lost) ∧
    ∀ k, events_of id [Processing] (take k (_events q)) ≤ events_of id [Pending] (take k (_events q)))).
  { split; [exists [], [], []; apply empty_inv|]. intros k. by destruct k. }
  intros q1 q2 ((past & cur & lost & Hi) & Hk) Hs.
  destruct (qstep_inv _ _ _ _ _ _ Hi Hs) as (past' & cur' & lost' & Hi').
  split; [by exists past', cur', lost'|]. intros k.
  pose proof (started_submitted _ _ _ _ _ id Hi') as Hall.
  destruct (qstep_events _ _ _ Hs) as [E|[t E]]; [rewrite E; apply Hk|].
  destruct (decide (k ≤ length (_events q1))).
  - rewrite E, take_app_le by done. apply Hk.
  - by rewrite take_ge by (rewrite E, length_app; simpl; lia).
Qed.

(** C30: however submitters and the worker interleave and whichever writes to
    the mirror raise, the log is one of the protocol.  Its events other than
    submissions are a sequence of runs, the last of them that of the running
    job if there is one; a run appends [processing], and no more when that
    could not be written, else the outcome of proving, or [completed] and after
    it [failed] when the completion could not be written.  The submissions are
    those of the jobs run, those on their way to the worker, and those whose
    write raised and which are never run; at every moment a task had been
    submitted at least as often as started.  The mirror has every event except
    those still to be written and those whose write raised.  When no write
    raises, nothing is dropped or lost, and every run that is over has exactly
    one outcome. *)
Theorem queue_protocol (fails : bool) (q : queue) :
  reachable fails q →
  ∃ (past cur : list (job * list ProofTask)) (lost : list ProofTask),
    Forall (fun r => run_events r.1 r.2) (past ++ cur) ∧ map fst cur = option_list (fst <$> running q) ∧
    later (_events q) = concat (map snd (past ++ cur)) ∧
    pendings (_events q) ≡ₚ
      map jb_task (map fst (past ++ cur) ++ waiting q ++ entered q ++ appended q ++ dropped q) ∧
    (∀ id k, events_of id [Processing] (take k (_events q)) ≤ events_of id [Pending] (take k (_events q))) ∧
    _events q ≡ₚ mirror q ++ map jb_task (appended q) ++ unwritten (running q) ++ lost ∧
    (fails = false → dropped q = [] ∧ lost = [] ∧ Forall settled past).
Proof.
  intros H. destruct (queue_reachable_inv fails q H) as (past & cur & lost & [_ Hpast Hcur Hl Hp Hm Hs]).
  exists past, cur, lost. split; [|split; [by apply (current_jobs fails)|]].
  - apply Forall_app. split; [done|]. destruct (running q) as [[j ph]|];
      [destruct Hcur as (es & -> & Hes); constructor; [by eapply phase_run|done]|by rewrite Hcur].
  - repeat (split; [done|]). split; [|done]. intros id k. by apply (submitted_before_started fails).
Qed.

(** ** Two runs of the queue

    Both begin with a submission that is appended, written and taken by the
    worker. *)

Lemma latest_snoc id l t :
  _latest_for id (l ++ [t]) = if String.eqb (pt_task_id t) id then Some t else _latest_for id l.
Proof. unfold _latest_for. rewrite reverse_snoc. reflexivity. Qed.

Lemma submit_first w th by_ cyc now id :
  proof_task_id w th by_ cyc = Ok id →
  submit_check w th by_ cyc false now [] = Ok (id, Some (mkJob (pending_task id w th now) w by_ cyc false)).
Proof. intros H. unfold submit_check. by rewrite H. Qed.

Lemma prove_unverified t w by_ cyc p :
  build_plonk_proof w (pt_trace_hash t) by_ cyc = Ok p → prove_job (mkJob t w by_ cyc false) = Ok (p, None).
Proof. intros H. unfold prove_job. cbn [jb_task jb_witness jb_produced_by jb_cycle jb_auto_verify]. by rewrite H. Qed.

(** [submit] looks for an earlier task before it takes the lock.  Two
    submitters of the same artifact that both look before either appends have
    it proved twice: for every witness that can be proved there is a run of
    the queue, without any failing write, with two completed events of one
    task. *)
Theorem racing_submits_prove_twice (w : Witness) (th by_ : string) (cyc now : Z) (id : string) (p : Proof_) :
  proof_task_id w th by_ cyc = Ok id → build_plonk_proof w th by_ cyc = Ok p →
  ∃ q, reachable false q ∧ events_of id [Completed] (_events q) = 2 ∧
    get_task id (_events q) = Some (with_outcome (pending_task id w th now) Completed (Some p) None None (Some 1%Z)).
Proof.
  intros Hid Hp. set (t := pending_task id w th now). set (j := mkJob t w by_ cyc false).
  pose proof (submit_first w th by_ cyc now id Hid : submit_check w th by_ cyc false now [] = Ok (id, Some j)) as Hc.
  assert (prove_job j = Ok (p, None)) as Hj by by apply prove_unverified.
  set (done_ := completed_task j (p, None) 1).
  exists (mkQueue [t; t; processing_task j; done_; processing_task j; done_]
    [t; t; processing_task j; done_; processing_task j; done_] [] [] [] [] [] None). split; [|split].
  - eapply rtc_l; [exact (step_check false [] [] [] [] [] [] [] None _ _ _ _ _ _ _ _ Hc)|].
    eapply rtc_l; [exact (step_check false [] [] [j] [] [] [] [] None _ _ _ _ _ _ _ _ Hc)|].
    eapply rtc_l; [exact (step_append false [] [] [] j [j] [] [] [] [] None)|].
    eapply rtc_l; [exact (step_append false [t] [] [] j [] [j] [] [] [] None)|].
    eapply rtc_l; [exact (step_write false _ _ _ [] j [j] _ _ _ _)|].
    eapply rtc_l; [exact (step_write false _ _ _ [] j [] _ _ _ _)|].
    eapply rtc_l; [exact (step_hand_over false _ _ _ _ [] j [j] _ _ _)|].
    eapply rtc_l; [exact (step_hand_over false _ _ _ _ [] j [] _ _ _)|].
    eapply rtc_l; [exact (step_start false _ _ _ _ _ _ j [j])|].
    eapply rtc_l; [exact (step_started false _ _ _ _ _ _ _ j)|].
    eapply rtc_l; [exact (step_proved false _ _ _ _ _ _ _ j _ 1 Hj)|].
    eapply rtc_l; [exact (step_completed false _ _ _ _ _ _ _ j _)|].
    eapply rtc_l; [exact (step_start false _ _ _ _ _ _ j [])|].
    eapply rtc_l; [exact (step_started false _ _ _ _ _ _ _ j)|].
    eapply rtc_l; [exact (step_proved false _ _ _ _ _ _ _ j _ 1 Hj)|].
    eapply rtc_l; [exact (step_completed false _ _ _ _ _ _ _ j _)|]. apply rtc_refl.
  - unfold events_of. cbn. by rewrite String.eqb_refl.
  - unfold get_task, _latest_for. cbn. by rewrite String.eqb_refl.
Qed.

(** A completion that cannot be written is recorded as failed as well: the task
    was proved, its latest event says it failed, and the same submission is
    accepted again. *)
Theorem unwritten_completion_fails (w : Witness) (th by_ : string) (cyc now : Z) (id : string) (p : Proof_) (e : exn) :
  proof_task_id w th by_ cyc = Ok id → build_plonk_proof w th by_ cyc = Ok p →
  ∃ q j, reachable true q ∧
    _events q = [jb_task j; processing_task j; completed_task j (p, None) 1; failed_task j e 2] ∧
    mirror q = [jb_task j; processing_task j; failed_task j e 2] ∧ running q = None ∧ pt_task_id (jb_task j) = id ∧
    get_task id (_events q) = Some (failed_task j e 2) ∧
    submit_check w th by_ cyc false now (_events q) = Ok (id, Some j).
Proof.
  intros Hid Hp. set (t := pending_task id w th now). set (j := mkJob t w by_ cyc false).
  pose proof (submit_first w th by_ cyc now id Hid : submit_check w th by_ cyc false now [] = Ok (id, Some j)) as Hc.
  assert (prove_job j = Ok (p, None)) as Hj by by apply prove_unverified.
  set (done_ := completed_task j (p, None) 1). set (undone := failed_task j e 2).
  exists (mkQueue [t; processing_task j; done_; undone] [t; processing_task j; undone] [] [] [] [] [] None), j.
  split; [|split; [done|split; [done|split; [done|split; [done|split]]]]].
  - eapply rtc_l; [exact (step_check true [] [] [] [] [] [] [] None _ _ _ _ _ _ _ _ Hc)|].
    eapply rtc_l; [exact (step_append true [] [] [] j [] [] [] [] [] None)|].
    eapply rtc_l; [exact (step_write true _ _ _ [] j [] _ _ _ _)|].
    eapply rtc_l; [exact (step_hand_over true _ _ _ _ [] j [] _ _ _)|].
    eapply rtc_l; [exact (step_start true _ _ _ _ _ _ j [])|].
    eapply rtc_l; [exact (step_started true _ _ _ _ _ _ _ j)|].
    eapply rtc_l; [exact (step_proved true _ _ _ _ _ _ _ j _ 1 Hj)|].
    eapply rtc_l; [exact (step_completed_raises true _ _ _ _ _ _ _ j _ e 2 eq_refl)|].
    eapply rtc_l; [exact (step_failed true _ _ _ _ _ _ _ j _)|]. apply rtc_refl.
  - unfold get_task, _latest_for. cbn. by rewrite String.eqb_refl.
  - unfold submit_check. rewrite Hid. cbn [mbind result_bind]. unfold _latest_for. cbn. by rewrite String.eqb_refl.
Qed.

(** ** Snapshots *)

Definition latest_tasks (events : list ProofTask) : list (string * ProofTask) :=
  foldl (fun d t => dict_set (pt_task_id t) t d) [] events.

(** A snapshot looks at the last event of every task: it agrees with
    [get_task], and every task is counted in exactly one state. *)
Lemma snapshot_latest events id : dict_get id (latest_tasks events) = get_task id events.
Proof.
  unfold latest_tasks, get_task. induction events as [|t l IH] using rev_ind; [done|].
  rewrite foldl_app, latest_snoc. cbn [foldl]. destruct (String.eqb_spec (pt_task_id t) id) as [<-|Hn].
  - apply dict_get_set_eq.
  - by rewrite dict_get_set_ne.
Qed.

Lemma snapshot_total events :
  let c := snapshot events in
  total c = pending_ c + processing c + completed c + failed c ∧
  NoDup (dict_keys (latest_tasks events)) ∧ total c = length (dict_keys (latest_tasks events)).
Proof.
  assert (dict_wf (latest_tasks events)) as Hw.
  { unfold latest_tasks. induction events as [|t l IH] using rev_ind; [constructor|].
    rewrite foldl_app. by apply dict_set_wf. }
  unfold snapshot. fold (latest_tasks events). cbn [total pending_ processing completed failed].
  split; [|split; [exact Hw|unfold dict_values, dict_keys; by rewrite !length_fmap]].
  unfold count_status. induction (dict_values (latest_tasks events)) as [|t l IH]; [done|].
  assert (∀ (b : bool) k, length (if b then t :: k else k) = (if b then 1 else 0) + length k) as Hif
    by by intros [].
  cbn [length List.filter]. rewrite !Hif, IH.
  assert (∀ s, (if bool_decide (s = Pending) then 1 else 0) + (if bool_decide (s = Processing) then 1 else 0) +
    (if bool_decide (s = Completed) then 1 else 0) + (if bool_decide (s = Failed) then 1 else 0) = 1) as H
    by by intros [].
  specialize (H (pt_status t)).
  lia.
Qed.
End queue.

(** ** An instance *)

Definition sample_witness_artifact : Witness :=
  mkWitnessArtifact (mkHeader "witness_1" "x" 1) "trace_1" "i" "o" "t" [] [] "" "".

Definition prove_sample (w : Witness) (th by_ : string) (cyc : Z) : result Proof_ := Ok sample_proof.
Definition verify_nothing (p : Proof_) (by_ : string) (cyc : Z) : result VerificationResult :=
  raise RuntimeError "no verifier".

Example racing_submits_prove_twice_witness :
  ∃ id q, proof_task_id "h" sample_witness_artifact "t" "x" 1 = Ok id ∧
    reachable "h" prove_sample verify_nothing false q ∧ events_of id [Completed] (_events q) = 2.
Proof.
  destruct (proof_task_id "h" sample_witness_artifact "t" "x" 1) as [id|e] eqn:E;
    [|vm_compute in E; discriminate E].
  destruct (racing_submits_prove_twice "h" prove_sample verify_nothing sample_witness_artifact "t" "x" 1 7 id
    sample_proof E eq_refl) as (q & Hq & Hc & _).
  exists id, q. split; [reflexivity|]. split; [exact Hq|exact Hc].
Defined.

(** A state that a failing write leads to: the job waits for nothing, and its
    one run has both outcomes. *)
Lemma unwritten_sample :
  ∃ j q, reachable "h" prove_sample verify_nothing true q ∧
    _events q = [jb_task j; processing_task j; completed_task j (sample_proof, None) 1;
                 failed_task j (Exn RuntimeError "disk full") 2] ∧
    mirror q = [jb_task j; processing_task j; failed_task j (Exn RuntimeError "disk full") 2] ∧ running q = None.
Proof.
  destruct (proof_task_id "h" sample_witness_artifact "t" "x" 1) as [id|e] eqn:E;
    [|vm_compute in E; discriminate E].
  destruct (unwritten_completion_fails "h" prove_sample verify_nothing sample_witness_artifact "t" "x" 1 7 id
    sample_proof (Exn RuntimeError "disk full") E eq_refl) as (q & j & Hq & He & Hm & Hr & _).
  by exists j, q.
Qed.

Example queue_protocol_witness :
  ∃ j q past cur lost, reachable "h" prove_sample verify_nothing true q ∧
    _events q = [jb_task j; processing_task j; completed_task j (sample_proof, None) 1;
                 failed_task j (Exn RuntimeError "disk full") 2] ∧
    later (_events q) = concat (map snd (past ++ cur)) ∧
    Forall (fun r => run_events prove_sample verify_nothing r.1 r.2) (past ++ cur) ∧ cur = [] ∧
    _events q ≡ₚ mirror q ++ map jb_task (appended q) ++ lost.
Proof.
  destruct unwritten_sample as (j & q & Hq & He & _ & Hr).
  destruct (queue_protocol "h" prove_sample verify_nothing true q Hq)
    as (past & cur & lost & Hruns & Hc & Hl & _ & _ & Hm & _).
  exists j, q, past, cur, lost. rewrite Hr in Hc, Hm. split; [exact Hq|]. split; [exact He|].
  split; [exact Hl|]. split; [exact Hruns|]. split; [|exact Hm].
  destruct cur; [reflexivity|discriminate Hc].
Defined.

Example unwritten_completion_fails_witness :
  ∃ id q j, proof_task_id "h" sample_witness_artifact "t" "x" 1 = Ok id ∧
    reachable "h" prove_sample verify_nothing true q ∧
    get_task id (_events q) = Some (failed_task j (Exn RuntimeError "disk full") 2).
Proof.
  destruct (proof_task_id "h" sample_witness_artifact "t" "x" 1) as [id|e] eqn:E;
    [|vm_compute in E; discriminate E].
  destruct (unwritten_completion_fails "h" prove_sample verify_nothing sample_witness_artifact "t" "x" 1 7 id
    sample_proof (Exn RuntimeError "disk full") E eq_refl) as (q & j & Hq & _ & _ & _ & _ & Hg & _).
  exists id, q, j. split; [reflexivity|]. split; [exact Hq|exact Hg].
Defined.
