(* ===== verification/ChainMetrics.v ===== *)
(** * Per-chain metrics (core/chain_metrics.py) and the disabled file log
    (security/audit_log.py)

    Five counters per chain, indexed as Python indexes a list, and the chains
    whose share of the traffic is too large.  Floats are the interface
    [PyFloat]; the timing of a lock wait is its argument. *)
From S2P Require Export Tasks AuditChain.

#[local] Open Scope Z_scope.

Definition PARTITIONS : nat := Z.to_nat AUDIT_CHAIN_PARTITIONS.

(** The position [l[i]] reads in a list of [n] elements. *)
Definition py_position (n : nat) (i : Z) : option nat :=
  if (0 <=? i) && (i <? Z.of_nat n) then Some (Z.to_nat i)
  else if (- Z.of_nat n <=? i) && (i <? 0) then Some (Z.to_nat (Z.of_nat n + i))
  else None.

(** [l[i] = f(l[i])] *)
Definition py_update {A} (f : A → A) (i : Z) (l : list A) : result (list A) :=
  match py_position (length l) i with
  | Some k => Ok (alter f k l)
  | None => raise IndexError "list index out of range"
  end.

Section metrics.
Context {F : Type} `{!PyFloat F}.

Record ChainMetrics := mkMetrics {
  _requests : list Z;
  _successes : list Z;
  _duplicates : list Z;
  _errors : list Z;
  _lock_wait_ms : list F }.

Definition reset : ChainMetrics :=
  mkMetrics (replicate PARTITIONS 0) (replicate PARTITIONS 0) (replicate PARTITIONS 0)
    (replicate PARTITIONS 0) (replicate PARTITIONS (flit 0 1)).

Definition record_request (chain_id : Z) (m : ChainMetrics) : result ChainMetrics :=
  l ← py_update (fun n => n + 1) chain_id (_requests m);
  Ok (mkMetrics l (_successes m) (_duplicates m) (_errors m) (_lock_wait_ms m)).

Definition record_success (chain_id : Z) (m : ChainMetrics) : result ChainMetrics :=
  l ← py_update (fun n => n + 1) chain_id (_successes m);
  Ok (mkMetrics (_requests m) l (_duplicates m) (_errors m) (_lock_wait_ms m)).

Definition record_duplicate (chain_id : Z) (m : ChainMetrics) : result ChainMetrics :=
  l ← py_update (fun n => n + 1) chain_id (_duplicates m);
  Ok (mkMetrics (_requests m) (_successes m) l (_errors m) (_lock_wait_ms m)).

Definition record_error (chain_id : Z) (m : ChainMetrics) : result ChainMetrics :=
  l ← py_update (fun n => n + 1) chain_id (_errors m);
  Ok (mkMetrics (_requests m) (_successes m) (_duplicates m) l (_lock_wait_ms m)).

Definition record_lock_wait_ms (chain_id : Z) (ms : F) (m : ChainMetrics) : result ChainMetrics :=
  l ← py_update (fun x => fadd x ms) chain_id (_lock_wait_ms m);
  Ok (mkMetrics (_requests m) (_successes m) (_duplicates m) (_errors m) l).

Definition int_float (z : Z) : F := flit z 0.
Definition EXPECTED_SHARE : F := fdiv (flit 10 1) (int_float AUDIT_CHAIN_PARTITIONS).
Definition DEFAULT_HOTSPOT_FACTOR : F := flit 30 1.

Definition sum_Z (l : list Z) : Z := foldr Z.add 0 l.

Definition chains_above_threshold (hotspot_factor : F) (m : ChainMetrics) : list Z :=
  let total := sum_Z (_requests m) in
  if total =? 0 then []
  else
    let threshold := fmul EXPECTED_SHARE hotspot_factor in
    map fst (List.filter (fun p => fltb threshold (fdiv (int_float p.2) (int_float total)))
               (imap (fun cid count => (Z.of_nat cid, count)) (_requests m))).

Record chain_row := mkRow {
  row_chain_id : Z;
  row_requests : Z;
  row_successes : Z;
  row_duplicates : Z;
  row_errors : Z;
  row_lock_wait_ms_total : F;
  row_share_pct : F }.

Record metrics_snapshot := mkMetricsSnapshot {
  total_requests : Z;
  partitions : Z;
  expected_share_pct : F;
  hotspot_chains : list Z;
  chain_rows : list chain_row }.

(** The counters of one chain; the lists have one entry per chain. *)
Definition row_of (m : ChainMetrics) (total : Z) (cid : nat) : chain_row :=
  let at_ (l : list Z) := default 0 (l !! cid) in
  mkRow (Z.of_nat cid) (at_ (_requests m)) (at_ (_successes m)) (at_ (_duplicates m)) (at_ (_errors m))
    (fround 3 (default (flit 0 1) (_lock_wait_ms m !! cid)))
    (if total =? 0 then flit 0 1
     else fround 2 (fdiv (fmul (flit 1000 1) (int_float (at_ (_requests m)))) (int_float total))).

Definition metrics_report (m : ChainMetrics) : metrics_snapshot :=
  let total := sum_Z (_requests m) in
  mkMetricsSnapshot total AUDIT_CHAIN_PARTITIONS (fround 2 (fmul (flit 1000 1) EXPECTED_SHARE))
    (chains_above_threshold DEFAULT_HOTSPOT_FACTOR m) (map (row_of m total) (seq 0 PARTITIONS)).

(** ** Histories *)

Inductive metric_event :=
  | ERequest (cid : Z) | ESuccess (cid : Z) | EDuplicate (cid : Z) | EError (cid : Z)
  | ELockWait (cid : Z) (ms : F).

Definition apply_event (m : ChainMetrics) (e : metric_event) : result ChainMetrics :=
  match e with
  | ERequest c => record_request c m
  | ESuccess c => record_success c m
  | EDuplicate c => record_duplicate c m
  | EError c => record_error c m
  | ELockWait c ms => record_lock_wait_ms c ms m
  end.

Definition event_chain (e : metric_event) : Z :=
  match e with ERequest c | ESuccess c | EDuplicate c | EError c | ELockWait c _ => c end.

Definition is_request (cid : nat) (e : metric_event) : bool :=
  match e with ERequest c => bool_decide (py_position PARTITIONS c = Some cid) | _ => false end.

(** What the counters are after some events, and that there is one per chain. *)
Record counted (es : list metric_event) (m : ChainMetrics) : Prop := {
  ct_length : length (_requests m) = PARTITIONS ∧ length (_successes m) = PARTITIONS ∧
    length (_duplicates m) = PARTITIONS ∧ length (_errors m) = PARTITIONS ∧
    length (_lock_wait_ms m) = PARTITIONS;
  ct_requests : ∀ cid, (cid < PARTITIONS)%nat →
    _requests m !! cid = Some (Z.of_nat (length (List.filter (is_request cid) es)));
  ct_total : sum_Z (_requests m) =
    Z.of_nat (length (List.filter (fun e => match e with ERequest _ => true | _ => false end) es)) }.

Ltac positions :=
  unfold py_position;
  repeat match goal with
  | |- context [(?a <=? ?b)] => destruct (Z.leb_spec a b)
  | |- context [(?a <? ?b)] => destruct (Z.ltb_spec a b)
  end; cbn [andb].

Lemma py_position_lt n i k : py_position n i = Some k → (k < n)%nat.
Proof. positions; intros H'; simplify_eq; lia. Qed.

Lemma py_position_None n i : py_position n i = None ↔ (i < - Z.of_nat n ∨ Z.of_nat n <= i).
Proof. positions; split; (done || lia). Qed.

Lemma py_update_ok {A} (f : A → A) i l l' :
  py_update f i l = Ok l' → ∃ k, py_position (length l) i = Some k ∧ l' = alter f k l ∧ (k < length l)%nat.
Proof.
  unfold py_update. destruct (py_position _ _) as [k|] eqn:E; [|done]. intros [= <-].
  exists k. eauto using py_position_lt.
Qed.

Lemma sum_alter k (l : list Z) : (k < length l)%nat → sum_Z (alter (fun n => n + 1) k l) = sum_Z l + 1.
Proof.
  revert k. induction l as [|x l IH]; intros [|k] Hk; cbn in *; try lia.
  specialize (IH k ltac:(lia)). unfold sum_Z in IH. lia.
Qed.

Lemma reset_counted : counted [] reset.
Proof.
  split.
  - cbn. by rewrite !length_replicate.
  - intros cid Hc. cbn. by apply lookup_replicate.
  - cbn. generalize PARTITIONS. intros n. induction n; simpl; lia.
Qed.

Lemma apply_counted es m e m' : counted es m → apply_event m e = Ok m' → counted (es ++ [e]) m'.
Proof.
  intros [(L1 & L2 & L3 & L4 & L5) Hr Ht] H. destruct e as [c|c|c|c|c ms]; cbn in H;
    apply bind_ok in H as (l & Hl & [= <-]); apply py_update_ok in Hl as (k & Hk & -> & Hlt).
  all: split; cbn [_requests _successes _duplicates _errors _lock_wait_ms];
    [rewrite ?length_alter; done|..].
  all: try (intros cid Hc; rewrite List.filter_app; cbn [List.filter is_request]; rewrite app_nil_r; by apply Hr).
  all: try (rewrite List.filter_app; cbn [List.filter]; rewrite app_nil_r; exact Ht).
  - intros cid Hc. rewrite List.filter_app, length_app, Nat2Z.inj_add. cbn [List.filter is_request].
    rewrite L1 in Hk. rewrite Hk. case_bool_decide as E; cbn [length].
    + injection E as ->. rewrite list_lookup_alter, (Hr cid Hc). cbn [fmap option_fmap option_map].
      rewrite decide_True by done. f_equal; lia.
    + rewrite list_lookup_alter_ne by congruence. rewrite (Hr cid Hc). f_equal. lia.
  - rewrite List.filter_app, length_app, Nat2Z.inj_add. cbn [List.filter length].
    rewrite sum_alter by done. rewrite Ht. lia.
Qed.

(** The request counters are exact.  From a reset, a sequence of records
    raises exactly when one names a chain outside -64 .. 63; otherwise every
    chain's counter is the number of requests recorded for it (a negative
    number counting from the end), the counters add up to the number of
    requests, and the report has one row per chain with these numbers. *)
Theorem chain_metrics_exact (es : list metric_event) :
  match fold_result apply_event es reset with
  | Ok m => (∀ e, e ∈ es → -64 <= event_chain e < 64) ∧ counted es m ∧
      total_requests (metrics_report m) = sum_Z (map row_requests (chain_rows (metrics_report m)))
  | Raise e => e = Exn IndexError "list index out of range" ∧ ∃ e, e ∈ es ∧ ¬ (-64 <= event_chain e < 64)
  end.
Proof.
  assert (∀ post pre m, counted pre m → es = pre ++ post → (∀ e, e ∈ pre → -64 <= event_chain e < 64) →
    match fold_result apply_event post m with
    | Ok m => (∀ e, e ∈ es → -64 <= event_chain e < 64) ∧ counted es m
    | Raise e => e = Exn IndexError "list index out of range" ∧ ∃ e, e ∈ es ∧ ¬ (-64 <= event_chain e < 64)
    end) as H.
  { induction post as [|e post IH]; intros pre m Hm Hes Hpre; cbn [fold_result].
    { rewrite app_nil_r in Hes. by subst. }
    pose proof (apply_counted pre m e) as Hstep. destruct Hm as [(L1 & L2 & L3 & L4 & L5) Hr Ht].
    assert (match apply_event m e with
      | Ok _ => -64 <= event_chain e < 64
      | Raise x => x = Exn IndexError "list index out of range" ∧ ¬ (-64 <= event_chain e < 64) end) as He.
    { destruct e as [c|c|c|c|c ms]; cbn; unfold record_request, record_success, record_duplicate, record_error,
        record_lock_wait_ms, py_update; rewrite ?L1, ?L2, ?L3, ?L4, ?L5;
        destruct (py_position PARTITIONS c) as [k|] eqn:E; cbn;
        try (apply py_position_None in E; split; [done|]; change (Z.of_nat PARTITIONS) with 64 in E; lia);
        (destruct (decide (-64 <= c < 64)) as [|Hn]; [done|];
         assert (py_position PARTITIONS c = None) as E'; [|congruence];
         apply py_position_None; change (Z.of_nat PARTITIONS) with 64; lia). }
    destruct (apply_event m e) as [m'|x]; cbn [mbind result_bind].
    - apply (IH (pre ++ [e])); [apply Hstep; [by split|done]|by rewrite <-app_assoc|].
      intros e' [He'| ->%list_elem_of_singleton]%elem_of_app; auto.
    - destruct He as [-> He]. split; [done|]. exists e. rewrite Hes. split; [set_solver|done]. }
  specialize (H es [] reset reset_counted eq_refl ltac:(set_solver)).
  destruct (fold_result apply_event es reset) as [m|x]; [|exact H]. destruct H as [H1 H2]. split; [done|].
  split; [done|]. destruct H2 as [(L1 & _) _ _]. cbn [metrics_report total_requests chain_rows].
  rewrite map_map. cbn [row_of row_requests]. rewrite <-L1. clear.
  generalize (_requests m). intros l. unfold sum_Z. induction l as [|x l IH]; [done|].
  cbn [length seq map foldr]. rewrite <-seq_shift, map_map. f_equal. exact IH.
Qed.
End metrics.

(** ** security/audit_log.py *)

(** Both functions raise, [LegacyAuditLogDisabledError] being a [RuntimeError]. *)
Definition AUDIT_LOG_ERROR : exn :=
  Exn RuntimeError "File-based audit logging is disabled. Use the PostgreSQL append-only audit_log table and the database-backed verification flow instead.".

Definition ensure_audit_log : result unit := Raise AUDIT_LOG_ERROR.
Definition append_audit_record (input_hash output_hash result_hash final_proof : string) : result unit :=
  Raise AUDIT_LOG_ERROR.
