(* ===== verification/DecimalText.v ===== *)
(** * The text of decimals

    [Decimal(str(d)) == d], which Python documents, for amounts in cents: what
    goes from the engine into a witness as text comes back as the same number. *)
From Stdlib Require Import DecimalString DecimalPos.
From S2P Require Export EngineProps.

Local Open Scope Z_scope.

(** ** Digits *)

Lemma dec_value_acc d p :
  dec_value (Zpos p) (NilEmpty.string_of_uint d) = Zpos (Pos.of_uint_acc d p).
Proof.
  revert p. induction d as [|d IH|d IH|d IH|d IH|d IH|d IH|d IH|d IH|d IH|d IH]; intros p; [done|..];
    cbn [NilEmpty.string_of_uint dec_value Pos.of_uint_acc]; rewrite <-IH; f_equal; vm_compute (ord _); lia.
Qed.

Lemma dec_value_uint d : dec_value 0 (NilEmpty.string_of_uint d) = Z.of_N (Pos.of_uint d).
Proof. induction d; [done|exact IHd|apply dec_value_acc..]. Qed.

Lemma string_of_uint_digits d : str_forall is_decimal (NilEmpty.string_of_uint d) = true.
Proof. by induction d. Qed.

Lemma str_of_nonneg z :
  0 <= z → ∃ d, str_of_Z z = NilEmpty.string_of_uint d ∧ str_of_Z z ≠ "" ∧ Z.of_N (Pos.of_uint d) = z.
Proof.
  intros Hz. destruct z as [|p|p]; [|exists (Pos.to_uint p)|lia].
  { by exists (Decimal.D0 Decimal.Nil). }
  unfold str_of_Z. cbn [Z.to_int NilZero.string_of_int]. unfold NilZero.string_of_uint.
  rewrite DecimalPos.Unsigned.of_to. pose proof (DecimalPos.Unsigned.to_uint_nonnil p) as Hn.
  split_and!; [by destruct (Pos.to_uint p)..|done].
Qed.

Lemma dec_value_str z : 0 <= z → dec_value 0 (str_of_Z z) = z.
Proof. intros (d & -> & _ & <-)%str_of_nonneg. apply dec_value_uint. Qed.

Lemma str_of_Z_digits z : 0 <= z → str_forall is_decimal (str_of_Z z) = true.
Proof. intros (d & -> & _)%str_of_nonneg. apply string_of_uint_digits. Qed.

Lemma str_of_Z_length z : 0 <= z → (0 < String.length (str_of_Z z))%nat.
Proof. intros (d & _ & H & _)%str_of_nonneg. destruct (str_of_Z z); simpl; [done|lia]. Qed.

(** ** Reading a plain number *)

Lemma digit_facts c :
  is_decimal c || Ascii.eqb c "." = true →
  is_space c = false ∧ lower_char c = c ∧ Ascii.eqb c "_" = false ∧ Ascii.eqb c "-" = false ∧
  Ascii.eqb c "+" = false ∧ Ascii.eqb c "i" = false ∧ Ascii.eqb c "n" = false ∧ Ascii.eqb c "s" = false.
Proof.
  pose proof (forall_chars (fun c => negb (is_decimal c || Ascii.eqb c ".") ||
    (negb (is_space c) && Ascii.eqb (lower_char c) c && negb (Ascii.eqb c "_") && negb (Ascii.eqb c "-") &&
     negb (Ascii.eqb c "+") && negb (Ascii.eqb c "i") && negb (Ascii.eqb c "n") && negb (Ascii.eqb c "s")))
    eq_refl c) as H.
  cbv beta in H. intros E. rewrite E in H. simpl in H.
  rewrite !andb_true_iff, !negb_true_iff in H.
  destruct H as ((((((( ? & ?%Ascii.eqb_eq) & ?) & ?) & ?) & ?) & ?) & ?). done.
Qed.

Definition plain (s : string) : bool := str_forall (fun c => is_decimal c || Ascii.eqb c ".") s.

Lemma plain_remove s : plain s = true → str_remove "_" s = s.
Proof.
  unfold str_remove. intros Hs. assert (∀ n, str_remove_fuel n "_" s = s) as H; [|apply H].
  induction s as [|c s IH]; intros [|n]; try done.
  unfold plain in Hs. cbn [str_forall] in Hs. apply andb_true_iff in Hs as [Hc Hs].
  destruct (digit_facts c Hc) as (_ & _ & Hu & _). cbn [str_remove_fuel str_prefix].
  assert (Ascii.eqb "_" c = false) as -> by (rewrite Ascii.eqb_sym; exact Hu). cbn [andb].
  f_equal. by apply IH.
Qed.

Lemma plain_lower s : plain s = true → str_lower s = s.
Proof.
  unfold str_lower. induction s as [|c s IH]; [done|]. unfold plain. cbn [str_forall str_map].
  intros [Hc Hs]%andb_true_iff. destruct (digit_facts c Hc) as (_ & -> & _). f_equal. by apply IH.
Qed.

Lemma plain_no_space s : plain s = true → str_forall (fun c => negb (is_space c)) s = true.
Proof.
  apply str_forall_impl. intros c Hc. by destruct (digit_facts c Hc) as (-> & _).
Qed.

Lemma str_span_all p s r :
  str_forall p s = true → match r with "" => true | String c _ => negb (p c) end = true →
  str_span p (s +:+ r) = (s, r).
Proof.
  intros Hs Hr. rewrite (str_span_app p s r s ""); [by rewrite str_app_nil_l| |done].
  induction s as [|c s IH]; [done|]. cbn [str_forall] in Hs. apply andb_true_iff in Hs as [Hc Hs].
  cbn [str_span]. by rewrite Hc, IH.
Qed.

(** The sign of a number. *)
Definition sign_text (neg : bool) : string := if neg then "-" else "".

Lemma signed_text neg t :
  plain t = true → str_lower (str_remove "_" (str_strip (sign_text neg +:+ t))) = sign_text neg +:+ t.
Proof.
  intros Ht. assert (str_strip (sign_text neg +:+ t) = sign_text neg +:+ t) as ->.
  { apply str_strip_by_id. destruct neg; exact (plain_no_space t Ht). }
  destruct neg; [|change (sign_text false +:+ t) with t; by rewrite plain_remove, plain_lower].
  change (sign_text true +:+ t) with (String "-" t).
  assert (str_remove "_" (String "-" t) = String "-" (str_remove "_" t)) as -> by reflexivity.
  rewrite plain_remove by done. unfold str_lower. cbn [str_map]. f_equal. by apply plain_lower.
Qed.

(** A number that starts with a digit or a point is read as a finite one. *)
Lemma decimal_of_plain neg c u :
  plain (String c u) = true →
  decimal_of_string (sign_text neg +:+ String c u) = parse_finite neg (String c u).
Proof.
  intros Ht. pose proof Ht as Hc. unfold plain in Hc. cbn [str_forall] in Hc. apply andb_true_iff in Hc as [Hc _].
  destruct (digit_facts c Hc) as (_ & _ & _ & Hm & Hp & Hin & Hnn & Hss).
  unfold decimal_of_string. rewrite signed_text by done.
  assert (match eat "-" (sign_text neg +:+ String c u) with
          | Some s => (true, s)
          | None => (false, default (sign_text neg +:+ String c u) (eat "+" (sign_text neg +:+ String c u)))
          end = (neg, String c u)) as ->.
  { destruct neg; [done|]. cbn [sign_text]. rewrite str_app_nil_l. cbn [eat].
    rewrite (Ascii.eqb_sym "-"), Hm, (Ascii.eqb_sym "+"), Hp. done. }
  assert (∀ v, String.eqb (String c u) (String "i" v) = false) as E1 by (intros v; cbn [String.eqb]; by rewrite Hin).
  assert (∀ p v, Ascii.eqb c p = false → str_prefix (String p v) (String c u) = false) as E2
    by (intros p v H; cbn [str_prefix]; by rewrite Ascii.eqb_sym, H).
  rewrite !E1, !E2 by done. reflexivity.
Qed.

(** A number with a point, as [Decimal] reads it. *)
Lemma decimal_of_point (neg : bool) i f :
  str_forall is_decimal i = true → str_forall is_decimal f = true → i ≠ "" →
  exp_ok (dec_value 0 (i +:+ f)) (- Z.of_nat (String.length f)) = true →
  decimal_of_string ((if neg then "-" else "") +:+ i +:+ "." +:+ f) =
  Some (Fin neg (dec_value 0 (i +:+ f)) (- Z.of_nat (String.length f))).
Proof.
  intros Hi Hf Hne He. destruct i as [|c s] eqn:Es; [done|]. rewrite <-Es in *.
  assert (plain (i +:+ "." +:+ f) = true) as Ht.
  { unfold plain. rewrite !str_forall_app, !andb_true_iff.
    split_and!; [eapply str_forall_impl; [|exact Hi]|done|eapply str_forall_impl; [|exact Hf]];
      by intros d ->. }
  fold (sign_text neg). rewrite Es in Ht |- *. rewrite str_app_cons in Ht |- *. rewrite decimal_of_plain by done.
  rewrite <-str_app_cons, <-Es.
  unfold parse_finite. rewrite (str_span_all is_decimal i ("." +:+ f)) by done.
  change (eat "." ("." +:+ f)) with (Some f). cbv iota beta.
  assert (str_span is_decimal f = (f, "")) as ->.
  { rewrite <-(str_app_nil_r f) at 1. by apply str_span_all. }
  destruct (String.eqb_spec (i +:+ f) "") as [E|_]; [by rewrite Es in E|].
  cbn [parse_exp mbind option_bind]. rewrite Z.sub_0_l, He. done.
Qed.

(** An integer, as [Decimal] reads it. *)
Lemma decimal_of_int_text z :
  0 <= z → exp_ok z 0 = true → decimal_of_string (str_of_Z z) = Some (Fin false z 0).
Proof.
  intros Hz He. pose proof (str_of_Z_digits z Hz) as Hd. pose proof (dec_value_str z Hz) as Hv.
  pose proof (str_of_Z_length z Hz) as Hl. destruct (str_of_Z z) as [|c s] eqn:Es; [simpl in Hl; lia|].
  change (String c s) with (sign_text false +:+ String c s). rewrite decimal_of_plain.
  2: { eapply str_forall_impl; [|exact Hd]. by intros d ->. }
  unfold parse_finite. pose proof (str_span_all is_decimal (String c s) "" Hd eq_refl) as Hs.
  rewrite str_app_nil_r in Hs. rewrite Hs. cbn [eat].
  rewrite str_app_nil_r. destruct (String.eqb_spec (String c s) "") as [E|_]; [done|].
  cbn [parse_exp mbind option_bind String.length]. change (0 - Z.of_nat 0) with 0. rewrite Hv, He. done.
Qed.

(** ** Amounts *)

Lemma count_digits_fuel fuel c : count_digits fuel c <= Z.of_nat fuel.
Proof.
  revert c. induction fuel as [|fuel IH]; intros c; [done|]. cbn [count_digits].
  destruct (c =? 0); [lia|]. specialize (IH (c / 10)). lia.
Qed.

Lemma small_exp_ok c e : 0 <= c < PREC → -2 <= e <= 0 → exp_ok c e = true.
Proof.
  intros Hc Hr. unfold exp_ok, ndigits. pose proof (count_digits_fuel (S (Z.to_nat (Z.log2 c))) c) as H.
  pose proof (Z.log2_nonneg c). pose proof (Z.log2_le_mono c PREC ltac:(lia)) as Hl.
  assert (Z.log2 PREC = 93) as HP by (vm_compute; reflexivity). rewrite HP in Hl. clear HP.
  rewrite Nat2Z.inj_succ, Z2Nat.id in H by lia.
  apply andb_true_iff. split; apply Z.leb_le; [unfold MIN_ETINY|unfold MAX_EMAX]; lia.
Qed.

Lemma zeros_digits n : str_forall is_decimal (zeros n) = true.
Proof. by induction n. Qed.

Lemma dec_value_zeros n s : dec_value 0 (zeros n +:+ s) = dec_value 0 s.
Proof. induction n; [done|exact IHn]. Qed.

Lemma zeros_length n : String.length (zeros n) = n.
Proof. induction n; simpl; congruence. Qed.

Lemma str_take_drop_id n s : str_take n s +:+ str_drop n s = s.
Proof.
  revert s. induction n as [|n IH]; intros [|c s]; try done.
  cbn [str_take str_drop]. by rewrite str_app_cons, IH.
Qed.

Lemma str_take_forall p n s : str_forall p s = true → str_forall p (str_take n s) = true.
Proof.
  revert s. induction n as [|n IH]; intros [|c s]; try done. cbn [str_forall str_take].
  rewrite !andb_true_iff. intros [? ?]. auto.
Qed.

Lemma str_drop_forall p n s : str_forall p s = true → str_forall p (str_drop n s) = true.
Proof.
  revert s. induction n as [|n IH]; intros [|c s]; try done. cbn [str_forall str_drop].
  rewrite !andb_true_iff. intros [? ?]. auto.
Qed.

Lemma str_drop_length n s : String.length (str_drop n s) = (String.length s - n)%nat.
Proof. revert s. induction n as [|n IH]; intros [|c s]; simpl; auto. Qed.

(** [Decimal(str(d))] gives back an amount in cents. *)
Lemma decimal_str_cents neg c :
  0 <= c < PREC → decimal_of_string (decimal_str (Fin neg c (-2))) = Some (Fin neg c (-2)).
Proof.
  intros Hc. unfold decimal_str. pose proof (str_of_Z_length c ltac:(lia)) as Hlen.
  change (-2 <=? 0) with true. change (-2 =? 0) with false. cbn [andb].
  destruct (Z.leb_spec (-6) (-2 + Z.of_nat (String.length (str_of_Z c)) - 1)); [|lia].
  change (Z.to_nat (- -2)) with 2%nat. unfold with_point.
  set (ds := zeros (3 - String.length (str_of_Z c)) +:+ str_of_Z c).
  assert (3 <= String.length ds)%nat as Hl3.
  { unfold ds. rewrite str_length_app, zeros_length. lia. }
  assert (str_forall is_decimal ds = true) as Hds.
  { unfold ds. rewrite str_forall_app, zeros_digits. apply str_of_Z_digits. lia. }
  assert (dec_value 0 ds = c) as Hv by (unfold ds; rewrite dec_value_zeros; apply dec_value_str; lia).
  set (k := (String.length ds - 2)%nat).
  assert (Z.of_nat (String.length (str_drop k ds)) = 2) as Hd by (rewrite str_drop_length; lia).
  rewrite (decimal_of_point neg (str_take k ds) (str_drop k ds)).
  - rewrite str_take_drop_id, Hv, Hd. done.
  - by apply str_take_forall.
  - by apply str_drop_forall.
  - intros E. pose proof (str_take_drop_id k ds) as Ht. rewrite E, str_app_nil_l in Ht.
    rewrite Ht in Hd. lia.
  - rewrite str_take_drop_id, Hv, Hd. by apply small_exp_ok; [|lia].
Qed.

Corollary decimal_str_money d :
  money_ok d = true → decimal_of_string (decimal_str d) = Some d.
Proof. intros (neg & c & -> & H)%money_ok_shape. by apply decimal_str_cents. Qed.
