(* ===== verification/Plonk.v ===== *)
(** * The PLONK circuit and its witness (zk/compiler/plonk_adapter.py,
    zk/witness/generator.py)

    The eight gates of the landed cost, the columns a request fills them with,
    and the public values a proof is bound to. *)
From S2P Require Export DecimalText FieldUtils Artifacts.

Local Open Scope Z_scope.

(** ** zk/compiler/plonk_adapter.py *)

Definition MINUS_ONE : Z := FIELD_ORDER - 1.
Definition CIRCUIT_VERSION : string := "import-landed-cost-plonk-v2-halo2".
Definition BACKEND_FRAMEWORK : string := "halo2".

Definition PUBLIC_BINDING_TARGETS : list string :=
  ["landed_cost_fp"; "trace_hash_limb_0"; "trace_hash_limb_1"; "trace_hash_limb_2"; "trace_hash_limb_3";
   "circuit_hash_limb_0"; "circuit_hash_limb_1"; "circuit_hash_limb_2"; "circuit_hash_limb_3";
   "public_inputs_hash_limb_0"; "public_inputs_hash_limb_1"; "public_inputs_hash_limb_2";
   "public_inputs_hash_limb_3"].

Record PlonkGate := mkGate {
  gate_id : Z;
  g_description : string;
  wire_a : string;
  wire_b : string;
  wire_c : string;
  q_L : Z;
  q_R : Z;
  q_M : Z;
  q_O : Z;
  q_C : Z }.

Record PlonkCircuit := mkPlonkCircuit {
  pc_version : string;
  n_gates : nat;
  gates : list PlonkGate;
  selector_q_L : list Z;
  selector_q_R : list Z;
  selector_q_M : list Z;
  selector_q_O : list Z;
  selector_q_C : list Z;
  public_binding_targets : list string;
  pc_circuit_hash : string }.

Definition _GATES : list PlonkGate := [
  mkGate 0 "extended_value" "customs_value_fp" "quantity_fp" "extended_value_fp" 0 0 1 MINUS_ONE 0;
  mkGate 1 "base_duty_copy" "duty_amount_fp" "one_fp" "duty_amount_fp" 0 0 1 MINUS_ONE 0;
  mkGate 2 "section_301_copy" "s301_amount_fp" "one_fp" "s301_amount_fp" 0 0 1 MINUS_ONE 0;
  mkGate 3 "mpf_amount_copy" "mpf_amount_fp" "one_fp" "mpf_amount_fp" 0 0 1 MINUS_ONE 0;
  mkGate 4 "hmf_amount_copy" "hmf_amount_fp" "one_fp" "hmf_amount_fp" 0 0 1 MINUS_ONE 0;
  mkGate 5 "fee_partial" "duty_amount_fp" "s301_amount_fp" "fee_partial_fp" 1 1 0 MINUS_ONE 0;
  mkGate 6 "fee_full" "fee_partial_fp" "mpf_hmf_sum_fp" "fee_full_fp" 1 1 0 MINUS_ONE 0;
  mkGate 7 "landed_cost" "base_sum_fp" "fee_full_fp" "landed_cost_fp" 1 1 0 MINUS_ONE 0].

Definition gate_payload (g : PlonkGate) : pyval :=
  PDict [("gate_id", PInt (gate_id g)); ("description", PStr (g_description g)); ("q_L", PInt (q_L g));
         ("q_R", PInt (q_R g)); ("q_M", PInt (q_M g)); ("q_O", PInt (q_O g)); ("q_C", PInt (q_C g))].

Definition circuit_payload (gates : list PlonkGate) : pyval :=
  PDict [("version", PStr CIRCUIT_VERSION); ("framework", PStr BACKEND_FRAMEWORK);
         ("gates", PList (map gate_payload gates));
         ("public_binding_targets", strs PUBLIC_BINDING_TARGETS)].

Definition _compute_circuit_hash (gates : list PlonkGate) : result string := hash_payload (circuit_payload gates).

Definition compile_circuit : result PlonkCircuit :=
  let gates := _GATES in
  h ← _compute_circuit_hash gates;
  Ok (mkPlonkCircuit CIRCUIT_VERSION (length gates) gates (map q_L gates) (map q_R gates) (map q_M gates)
        (map q_O gates) (map q_C gates) PUBLIC_BINDING_TARGETS h).

Definition selectors_dict (c : PlonkCircuit) : list (string * list Z) :=
  [("q_L", selector_q_L c); ("q_R", selector_q_R c); ("q_M", selector_q_M c); ("q_O", selector_q_O c);
   ("q_C", selector_q_C c)].

(** ** Conversions of Python *)

(** The digits [d (_? d)*] of a decimal literal. *)
Fixpoint int_digits (acc : Z) (us : bool) (s : string) : option Z :=
  match s with
  | "" => if us then None else Some acc
  | String c s =>
      if Ascii.eqb c "_" then (if us then None else int_digits acc true s)
      else if is_decimal c then int_digits (10 * acc + (ord c - 48)) false s
      else None
  end.

(** [int(s)] *)
Definition int_of_text (s : string) : option Z :=
  match str_strip_by is_int_space s with
  | String "-" s => Z.opp <$> int_digits 0 true s
  | String "+" s => int_digits 0 true s
  | s => int_digits 0 true s
  end.

(** [int(d)]: towards zero. *)
Definition int_of_decimal (d : decimal) : result Z :=
  match d with
  | Fin neg c e => Ok (signed neg (if e >=? 0 then c * 10 ^ e else c / 10 ^ (- e)))
  | Inf _ => raise OverflowError "cannot convert Infinity to integer"
  | NaN _ _ _ => raise ValueError "cannot convert NaN to integer"
  end.

(** [int(x)] *)
Definition py_int (v : pyval) : result Z :=
  match v with
  | PInt z => Ok z
  | PBool b => Ok (if b then 1 else 0)
  | PDecimal d => int_of_decimal d
  | PStr s =>
      match int_of_text s with
      | Some z => Ok z
      | None => raise ValueError "invalid literal for int() with base 10: {}"
      end
  | _ => raise TypeError "int() argument must be a string, a bytes-like object or a real number, not {}"
  end.

(** [d[k]] *)
Definition subscript_dict {A} (k : string) (d : list (string * A)) : result A :=
  match dict_get k d with Some v => Ok v | None => raise KeyError "{}" end.

(** ** zk/witness/generator.py *)

Definition FIXED_POINT_SCALE : Z := 10 ^ 6.

(** [d.to_integral_value(rounding=ROUND_HALF_UP)] *)
Definition to_integral_half_up (d : decimal) : decimal :=
  match d with
  | Fin neg c e => if e >=? 0 then d else Fin neg (div_half_up c (- e)) 0
  | _ => d
  end.

(** [d * n] for an integer [n] above zero. *)
Definition scale_decimal (d : decimal) (n : Z) : result decimal :=
  match d with
  | Fin _ _ _ => dec_mul d (decimal_of_int n)
  | Inf _ => Ok d
  | NaN _ sg _ => if sg then raise InvalidOperation "sNaN" else Ok d
  end.

Definition fixed_point_of (d : decimal) : result Z :=
  scaled ← scale_decimal d FIXED_POINT_SCALE;
  z ← int_of_decimal (to_integral_half_up scaled);
  Ok (z mod FIELD_ORDER).

(** [Decimal(str(value))]: the text of a list or of a dictionary is no number. *)
Definition to_fixed_point (value : pyval) : result Z :=
  match py_str value ≫= decimal_of_string with
  | Some d => fixed_point_of d
  | None => raise InvalidOperation "[<class 'decimal.ConversionSyntax'>]"
  end.

Definition limb_at (hex_value : string) (index : nat) : result Z :=
  match int_of_hex (str_take 16 (str_drop index hex_value)) with
  | Some z => Ok z
  | None => raise ValueError "invalid literal for int() with base 16: {}"
  end.

Definition hash_hex_to_limbs (hex_value : string) : result (list Z) :=
  if negb (String.length hex_value =? 64)%nat then raise ValueError "Expected 64 hex chars, got {}"
  else traverse (limb_at hex_value) [0; 16; 32; 48]%nat.

Definition canonical_public_inputs_hash (public_inputs : list (string * string)) : result string :=
  hash_payload (str_dict (isort key_leb public_inputs)).

Definition build_instance_values (landed_cost_fp : Z) (trace_hash circuit_hash public_inputs_hash : string)
    : result (list Z) :=
  t ← hash_hex_to_limbs trace_hash;
  c ← hash_hex_to_limbs circuit_hash;
  p ← hash_hex_to_limbs public_inputs_hash;
  Ok (landed_cost_fp :: t ++ c ++ p).

Record PlonkAssignment := mkAssignmentCols {
  a_col : list Z;
  b_col : list Z;
  c_col : list Z;
  wire_map : list (string * Z);
  public_inputs_hash : string }.

(** [col[index]] of a tuple. *)
Definition col_at (col : list Z) (index : nat) : result Z :=
  match col !! index with Some z => Ok z | None => raise IndexError "tuple index out of range" end.

(** Whether a gate that multiplies, or one that adds, holds. *)
Definition check_gate (mult : bool) (a : PlonkAssignment) (index : nat) : result bool :=
  x ← col_at (a_col a) index;
  y ← col_at (b_col a) index;
  z ← col_at (c_col a) index;
  Ok (((if mult then x * y else x + y) - z) mod FIELD_ORDER =? 0).

Definition verify_gate_constraints (a : PlonkAssignment) : result (list bool) :=
  m ← traverse (check_gate true a) (seq 0 5);
  s ← traverse (check_gate false a) (seq 5 3);
  Ok (m ++ s).

Section generator.
Context (coerce_int : pyval → option Z) (rules : list TariffRule).

Definition _derive_fee_components (private_inputs : list (string * pyval)) : result (Z * Z * Z * Z) :=
  request ← model_validate coerce_int private_inputs;
  result ← calculate_import_landed_cost coerce_int rules request;
  duty ← to_fixed_point (PDecimal (duty_amount (calculation result)));
  s301 ← to_fixed_point (PDecimal (section_301_amount (calculation result)));
  mpf ← to_fixed_point (PDecimal (mpf_amount (calculation result)));
  hmf ← to_fixed_point (PDecimal (hmf_amount (calculation result)));
  Ok (duty, s301, mpf, hmf).

(** The wires as functions of the twelve numbers they are computed from. *)
Definition wires (customs quantity freight insurance landed duty s301 mpf hmf : Z) : list (string * Z) :=
  let extended := (customs * quantity) mod FIELD_ORDER in
  let fee_partial := (duty + s301) mod FIELD_ORDER in
  let mpf_hmf_sum := (mpf + hmf) mod FIELD_ORDER in
  let fee_full := (fee_partial + mpf_hmf_sum) mod FIELD_ORDER in
  let base_sum := (extended + freight + insurance) mod FIELD_ORDER in
  [("customs_value_fp", customs); ("quantity_fp", quantity); ("extended_value_fp", extended); ("one_fp", 1);
   ("duty_amount_fp", duty); ("s301_amount_fp", s301); ("mpf_amount_fp", mpf); ("hmf_amount_fp", hmf);
   ("fee_partial_fp", fee_partial); ("mpf_hmf_sum_fp", mpf_hmf_sum); ("fee_full_fp", fee_full);
   ("base_sum_fp", base_sum); ("landed_cost_fp", landed); ("freight_fp", freight);
   ("insurance_fp", insurance)].

(** The columns and the map of the wires. *)
Definition assign (customs quantity freight insurance landed duty s301 mpf hmf : Z) (pih : string)
    : PlonkAssignment :=
  let extended := (customs * quantity) mod FIELD_ORDER in
  let fee_partial := (duty + s301) mod FIELD_ORDER in
  let mpf_hmf_sum := (mpf + hmf) mod FIELD_ORDER in
  let fee_full := (fee_partial + mpf_hmf_sum) mod FIELD_ORDER in
  let base_sum := (extended + freight + insurance) mod FIELD_ORDER in
  mkAssignmentCols
    [customs; duty; s301; mpf; hmf; duty; fee_partial; base_sum]
    [quantity; 1; 1; 1; 1; s301; mpf_hmf_sum; fee_full]
    [extended; duty; s301; mpf; hmf; fee_partial; fee_full; landed]
    (wires customs quantity freight insurance landed duty s301 mpf hmf) pih.

Definition generate_assignment (w : Witness) : result PlonkAssignment :=
  let public_inputs := w_public_inputs w in
  let private_inputs := w_private_inputs w in
  customs ← subscript_dict "customs_value" private_inputs ≫= to_fixed_point;
  freight ← subscript_dict "freight" private_inputs ≫= to_fixed_point;
  insurance ← subscript_dict "insurance" private_inputs ≫= to_fixed_point;
  n ← subscript_dict "quantity" private_inputs ≫= py_int;
  let quantity := n mod FIELD_ORDER in
  landed ← subscript_dict "landed_cost" public_inputs ≫= (fun s => to_fixed_point (PStr s));
  '(duty, s301, mpf, hmf) ← _derive_fee_components private_inputs;
  pih ← canonical_public_inputs_hash public_inputs;
  Ok (assign customs quantity freight insurance landed duty s301 mpf hmf pih).
End generator.
