(* ===== verification/PlonkProps.v ===== *)
(** * What the circuit says about a calculation (zk/compiler/plonk_adapter.py,
    zk/witness/generator.py)

    The witness of an honest calculation satisfies the circuit and is bound to
    its public values; the circuit alone does not determine the landed cost. *)
From S2P Require Export Plonk Modular StubProps.

Local Open Scope Z_scope.

#[local] Notation P := FIELD_ORDER.

Lemma order_nonzero : P ≠ 0.
Proof. done. Qed.

Lemma mod_zero_iff a : (a mod P =? 0) = true ↔ mod_eq P a 0.
Proof. rewrite Z.eqb_eq, (mod_eq_iff P a 0 order_nonzero). by rewrite Z.mod_0_l by done. Qed.

Lemma mod_zero_eq a b : mod_eq P a b → (a mod P =? 0) = (b mod P =? 0).
Proof. intros H%mod_eq_iff; [|done]. by rewrite H. Qed.

(** ** The circuit *)

(** [(q_L a + q_R b + q_M a b + q_O c + q_C) % FIELD_ORDER == 0] *)
Definition gate_holds (g : PlonkGate) (x y z : Z) : bool :=
  (q_L g * x + q_R g * y + q_M g * (x * y) + q_O g * z + q_C g) mod P =? 0.

Definition compiled : PlonkCircuit :=
  mkPlonkCircuit CIRCUIT_VERSION 8 _GATES (map q_L _GATES) (map q_R _GATES) (map q_M _GATES)
    (map q_O _GATES) (map q_C _GATES) PUBLIC_BINDING_TARGETS (payload_hash (circuit_payload _GATES)).

Lemma compile_total : compile_circuit = Ok compiled.
Proof.
  assert (float_free (circuit_payload _GATES) = true) as Hf by reflexivity.
  unfold compile_circuit, _compute_circuit_hash. rewrite hash_payload_free by exact Hf. reflexivity.
Qed.

Lemma mult_gate_holds g x y z :
  q_L g = 0 → q_R g = 0 → q_M g = 1 → q_O g = MINUS_ONE → q_C g = 0 →
  gate_holds g x y z = ((x * y - z) mod P =? 0).
Proof.
  intros E1 E2 E3 E4 E5. unfold gate_holds. rewrite E1, E2, E3, E4, E5. apply mod_zero_eq.
  apply (mod_eq_intro _ _ _ z). unfold MINUS_ONE. lia.
Qed.

Lemma add_gate_holds g x y z :
  q_L g = 1 → q_R g = 1 → q_M g = 0 → q_O g = MINUS_ONE → q_C g = 0 →
  gate_holds g x y z = ((x + y - z) mod P =? 0).
Proof.
  intros E1 E2 E3 E4 E5. unfold gate_holds. rewrite E1, E2, E3, E4, E5. apply mod_zero_eq.
  apply (mod_eq_intro _ _ _ z). unfold MINUS_ONE. lia.
Qed.

(** The gates on the rows of an assignment. *)
Definition gates_hold (a : PlonkAssignment) : list bool :=
  zip_with (fun g (r : Z * Z * Z) => gate_holds g r.1.1 r.1.2 r.2) _GATES
    (zip (zip (a_col a) (b_col a)) (c_col a)).

(** The gates on wires, each under its name. *)
Definition circuit_holds (wire : string → Z) : bool :=
  forallb (fun g => gate_holds g (wire (wire_a g)) (wire (wire_b g)) (wire (wire_c g))) _GATES.

Lemma traverse_raise_at {A B} (f : A → result B) e l :
  (∀ x, x ∈ l → (∃ y, f x = Ok y) ∨ f x = Raise e) → (∃ x, x ∈ l ∧ f x = Raise e) → traverse f l = Raise e.
Proof.
  induction l as [|x l IH]; intros Hall (y & Hy & Hf); [by apply not_elem_of_nil in Hy|].
  cbn [traverse]. destruct (Hall x (list_elem_of_here _ _)) as [[z Hz]| ->]; [|done].
  rewrite Hz. cbn [mbind result_bind]. rewrite IH; [done|set_solver|].
  apply elem_of_cons in Hy as [->|Hy]; [congruence|eauto].
Qed.

Definition no_row : exn := Exn IndexError "tuple index out of range".

Lemma check_gate_raises m a i : (∃ b, check_gate m a i = Ok b) ∨ check_gate m a i = Raise no_row.
Proof.
  unfold check_gate, col_at. destruct (a_col a !! i), (b_col a !! i), (c_col a !! i); cbn; eauto.
Qed.

(** The first eight rows. *)
Lemma eight_rows (l : list Z) :
  (8 <= length l)%nat → ∃ a b c d e f g h t, l = a :: b :: c :: d :: e :: f :: g :: h :: t.
Proof. intros H. do 8 (destruct l as [|? l]; [simpl in H; lia|]). eauto 10. Qed.

(** Whether all three columns have a row for every gate. *)
Definition complete (a : PlonkAssignment) : bool :=
  forallb (fun l => (8 <=? length l)%nat) [a_col a; b_col a; c_col a].

Lemma constraints_hold a : complete a = true → verify_gate_constraints a = Ok (gates_hold a).
Proof.
  unfold complete. cbn [forallb]. rewrite !andb_true_iff, !Nat.leb_le. intros (H1 & H2 & H3 & _).
  apply eight_rows in H1 as (x0&x1&x2&x3&x4&x5&x6&x7&xs&Ea).
  apply eight_rows in H2 as (y0&y1&y2&y3&y4&y5&y6&y7&ys&Eb).
  apply eight_rows in H3 as (z0&z1&z2&z3&z4&z5&z6&z7&zs&Ec).
  unfold gates_hold. rewrite Ea, Eb, Ec.
  cbn [_GATES zip zip_with fst snd]. rewrite !mult_gate_holds, !add_gate_holds by reflexivity.
  unfold verify_gate_constraints, check_gate, col_at. rewrite Ea, Eb, Ec. reflexivity.
Qed.

Lemma check_gate_short m a i :
  (length (a_col a) <= i ∨ length (b_col a) <= i ∨ length (c_col a) <= i)%nat →
  check_gate m a i = Raise no_row.
Proof.
  intros H. unfold check_gate, col_at. destruct H as [H|[H|H]]; rewrite (lookup_ge_None_2 _ _ H);
    destruct (a_col a !! i), (b_col a !! i); reflexivity.
Qed.

Lemma constraints_short a : complete a = false → verify_gate_constraints a = Raise no_row.
Proof.
  intros Hl. unfold verify_gate_constraints.
  assert (traverse (check_gate false a) (seq 5 3) = Raise no_row) as Hs.
  { apply traverse_raise_at; [intros; apply check_gate_raises|]. exists 7%nat. split; [by do 2 right; left|].
    apply check_gate_short. unfold complete in Hl. cbn [forallb] in Hl.
    rewrite !andb_false_iff, !Nat.leb_gt in Hl. destruct Hl as [|[|[|]]]; [lia..|done]. }
  destruct (traverse (check_gate true a) (seq 0 5)) as [m|e] eqn:E; cbn [mbind result_bind]; [by rewrite Hs|].
  apply traverse_raise_inv in E as (i & _ & Hi).
  destruct (check_gate_raises true a i) as [[b Hb]|Hb]; [congruence|]. rewrite Hb in Hi. by injection Hi as <-.
Qed.

(** ** Fixed point *)

Lemma div_half_up_exact d k : 0 <= d → 0 < k → div_half_up (d * 10 ^ k) k = d.
Proof.
  intros Hd Hk. unfold div_half_up. pose proof (Z.pow_pos_nonneg 10 k).
  rewrite Z_mod_mult, Z.div_mul by lia. destruct (Z.geb_spec (2 * 0) (10 ^ k)); lia.
Qed.

(** An amount of [c] cents is [c * 10^4] in fixed point. *)
Lemma fixed_point_cents neg c :
  0 <= c < CENTS_LIMIT → (neg = true → c = 0) → fixed_point_of (Fin neg c (-2)) = Ok ((c * 10 ^ 4) mod P).
Proof.
  intros Hc Hn. assert (CENTS_LIMIT * 10 ^ 6 = PREC) as HL by reflexivity.
  unfold fixed_point_of, scale_decimal, dec_mul, decimal_of_int.
  change (FIXED_POINT_SCALE <? 0) with false. change (Z.abs FIXED_POINT_SCALE) with (10 ^ 6).
  unfold context_round. destruct (Z.ltb_spec (c * 10 ^ 6) PREC); [|lia]. cbn [mbind result_bind].
  unfold to_integral_half_up. change (-2 + 0 >=? 0) with false. cbn iota. change (- (-2 + 0)) with 2.
  replace (c * 10 ^ 6) with (c * 10 ^ 4 * 10 ^ 2) by lia. rewrite div_half_up_exact by lia.
  unfold int_of_decimal. change (0 >=? 0) with true. cbn iota. cbn [mbind result_bind].
  rewrite Z.pow_0_r, Z.mul_1_r, xorb_false_r. unfold signed. destruct neg; [|done].
  by rewrite Hn by done.
Qed.

Lemma to_fixed_point_cents neg c :
  0 <= c < CENTS_LIMIT → (neg = true → c = 0) →
  to_fixed_point (PDecimal (Fin neg c (-2))) = Ok ((c * 10 ^ 4) mod P).
Proof.
  intros Hc Hn. unfold to_fixed_point. cbn [py_str mbind option_bind].
  rewrite decimal_str_cents by (unfold PREC, CENTS_LIMIT in *; lia). by apply fixed_point_cents.
Qed.

Lemma to_fixed_point_text c :
  0 <= c < CENTS_LIMIT → to_fixed_point (PStr (decimal_str (Fin false c (-2)))) = Ok ((c * 10 ^ 4) mod P).
Proof.
  intros Hc. unfold to_fixed_point. cbn [py_str mbind option_bind].
  rewrite decimal_str_cents by (unfold PREC, CENTS_LIMIT in *; lia). by apply fixed_point_cents.
Qed.

(** ** Columns *)

(** The sum an assignment has to balance. *)
Lemma assign_satisfies customs quantity freight insurance landed duty s301 mpf hmf pih :
  mod_eq P (customs * quantity + freight + insurance + (duty + s301 + (mpf + hmf))) landed →
  verify_gate_constraints (assign customs quantity freight insurance landed duty s301 mpf hmf pih) =
  Ok (repeat true 8).
Proof.
  intros H.
  assert (∀ x, (x * 1 - x) mod P =? 0 = true) as E1 by (intros x; apply mod_zero_iff, mod_eq_refl_eq; lia).
  assert (∀ x, (x - x mod P) mod P =? 0 = true) as E2.
  { intros x. apply mod_zero_iff. rewrite mod_eq_mod. apply mod_eq_refl_eq. lia. }
  unfold verify_gate_constraints, check_gate, col_at, assign.
  cbn [seq traverse a_col b_col c_col lookup list_lookup mbind result_bind app].
  rewrite !E1, !E2.
  assert ((((customs * quantity) mod P + freight + insurance) mod P +
    ((duty + s301) mod P + (mpf + hmf) mod P) mod P - landed) mod P =? 0 = true) as ->; [|done].
  apply mod_zero_iff. rewrite !mod_eq_mod, <-H. apply mod_eq_refl_eq. lia.
Qed.

(** The columns carry the wires the gates name. *)
Lemma assign_wired customs quantity freight insurance landed duty s301 mpf hmf pih :
  let a := assign customs quantity freight insurance landed duty s301 mpf hmf pih in
  let wire k := default 0 (dict_get k (wire_map a)) in
  a_col a = map (fun g => wire (wire_a g)) _GATES ∧ b_col a = map (fun g => wire (wire_b g)) _GATES ∧
  c_col a = map (fun g => wire (wire_c g)) _GATES.
Proof. cbn [assign a_col b_col c_col wire_map]. split_and!; reflexivity. Qed.

(** So the gates hold on the wires when they hold on the columns. *)
Lemma wired_circuit_holds a customs quantity freight insurance landed duty s301 mpf hmf pih :
  a = assign customs quantity freight insurance landed duty s301 mpf hmf pih →
  verify_gate_constraints a = Ok (repeat true 8) →
  circuit_holds (fun k => default 0 (dict_get k (wire_map a))) = true.
Proof.
  intros Ha H. pose proof (assign_wired customs quantity freight insurance landed duty s301 mpf hmf pih) as Hw.
  cbv zeta in Hw. rewrite <-Ha in Hw. destruct Hw as (Ea & Eb & Ec).
  rewrite constraints_hold in H by by rewrite Ha. injection H as H. clear Ha. unfold gates_hold in H.
  rewrite Ea, Eb, Ec in H. unfold circuit_holds.
  revert H. cbn [_GATES map zip zip_with fst snd forallb repeat wire_a wire_b wire_c]. intros H. injection H as H0 H1 H2 H3 H4 H5 H6 H7.
  by rewrite H0, H1, H2, H3, H4, H5, H6, H7.
Qed.

(** ** An honest witness *)

Section honest.
Context (coerce_int : pyval → option Z) (q : ImportCalculationRequest) (rule : TariffRule).
Context (Hcoerce : ∀ z, coerce_int (PInt z) = Some z).
Context (Hq : valid_request q = true) (Hr : rule ∈ TARIFF_RULES) (Hhs : hs_code q = hs_prefix rule).
Context (Hb : in_range q) (Hl : landed_of q rule < CENTS_LIMIT).

(** The eight amounts in fixed point: ten thousand times their cents. *)
Definition fp (c : Z) : Z := (c * 10 ^ 4) mod P.

Definition honest_assignment (pih : string) : PlonkAssignment :=
  assign (fp (cents_of (customs_value q))) (quantity q mod P) (fp (cents_of (freight q)))
    (fp (cents_of (insurance q))) (fp (landed_of q rule)) (fp (duty_of q rule)) (fp (section_301_of q rule))
    (fp (mpf_of q)) (fp (hmf_of q)) pih.

Lemma fees_derived :
  _derive_fee_components coerce_int TARIFF_RULES (model_dump q) =
  Ok (fp (duty_of q rule), fp (section_301_of q rule), fp (mpf_of q), fp (hmf_of q)).
Proof using All.
  pose proof (amounts_bounds q rule Hq Hr Hb) as (Be & Bd & Bs & Bm & Bh & Bf & Bi).
  unfold _derive_fee_components. rewrite revalidate by done. cbn [mbind result_bind].
  rewrite (calculate_expected _ q rule) by done. cbn [mbind result_bind].
  unfold expected_response, expected_result. cbn [calculation duty_amount section_301_amount mpf_amount hmf_amount].
  unfold landed_of in Hl. unfold cents.
  rewrite !to_fixed_point_cents by (done || lia). reflexivity.
Qed.

Lemma honest_satisfies pih : verify_gate_constraints (honest_assignment pih) = Ok (repeat true 8).
Proof using All.
  apply assign_satisfies. unfold fp. rewrite !mod_eq_mod. apply mod_eq_refl_eq.
  unfold landed_of, ext_of, spec_extended. lia.
Qed.

(** The same assignment over the integers: the amounts are so far below the
    field's order that nothing wraps around. *)
Definition exact_wires : list (string * Z) :=
  let fixed c := c * 10 ^ 4 in
  let fees := duty_of q rule + section_301_of q rule in
  let fees' := mpf_of q + hmf_of q in
  [("customs_value_fp", fixed (cents_of (customs_value q))); ("quantity_fp", quantity q);
   ("extended_value_fp", fixed (ext_of q)); ("one_fp", 1); ("duty_amount_fp", fixed (duty_of q rule));
   ("s301_amount_fp", fixed (section_301_of q rule)); ("mpf_amount_fp", fixed (mpf_of q));
   ("hmf_amount_fp", fixed (hmf_of q)); ("fee_partial_fp", fixed fees); ("mpf_hmf_sum_fp", fixed fees');
   ("fee_full_fp", fixed (fees + fees'));
   ("base_sum_fp", fixed (ext_of q + cents_of (freight q) + cents_of (insurance q)));
   ("landed_cost_fp", fixed (landed_of q rule)); ("freight_fp", fixed (cents_of (freight q)));
   ("insurance_fp", fixed (cents_of (insurance q)))].

(** All of an assignment from its wires. *)
Definition wired (m : list (string * Z)) (pih : string) : PlonkAssignment :=
  let wire k := default 0 (dict_get k m) in
  mkAssignmentCols (map (fun g => wire (wire_a g)) _GATES) (map (fun g => wire (wire_b g)) _GATES)
    (map (fun g => wire (wire_c g)) _GATES) m pih.

Lemma assign_wired_eq customs quantity freight insurance landed duty s301 mpf hmf pih :
  assign customs quantity freight insurance landed duty s301 mpf hmf pih =
  wired (wires customs quantity freight insurance landed duty s301 mpf hmf) pih.
Proof. reflexivity. Qed.

Lemma small_mod z : 0 <= z < 10 ^ 40 → z mod P = z.
Proof. intros. apply Z.mod_small. unfold P. lia. Qed.

(** The bounds under which nothing wraps around. *)
Lemma honest_bounds :
  0 <= cents_of (customs_value q) <= CENTS_LIMIT ∧ ext_of q = cents_of (customs_value q) * quantity q ∧
  1 <= quantity q <= 1000000.
Proof using Hb Hq.
  destruct (request_money q Hq) as ((c & Ec & Hc) & _ & _ & Hn). destruct Hb as [He _].
  unfold ext_of, spec_extended in *. rewrite Ec in *. cbn [cents cents_of] in *. split; [nia|done].
Qed.

Lemma honest_exact pih : honest_assignment pih = wired exact_wires pih.
Proof using All.
  pose proof (amounts_bounds q rule Hq Hr Hb) as (Be & Bd & Bs & Bm & Bh & Bf & Bi).
  destruct honest_bounds as (Bc & Ee & Bn). unfold honest_assignment. rewrite assign_wired_eq. f_equal.
  unfold landed_of in Hl. unfold wires, exact_wires, landed_of, fp. revert Be Bd Bs Bm Bh Bf Bi Bc Ee Bn Hl.
  unfold CENTS_LIMIT.
  generalize (ext_of q), (duty_of q rule), (section_301_of q rule), (mpf_of q), (hmf_of q), (cents_of (freight q)),
    (cents_of (insurance q)), (cents_of (customs_value q)), (quantity q).
  clear. intros e d s m h f i c n Be Bd Bs Bm Bh Bf Bi Bc -> Bn Hl.
  rewrite (small_mod n), !(small_mod (_ * 10 ^ 4)) by lia.
  rewrite (small_mod (c * 10 ^ 4 * n)) by nia.
  repeat (rewrite small_mod by nia).
  repeat (apply (f_equal2 cons); [apply (f_equal2 pair); [reflexivity|lia]|]). reflexivity.
Qed.

Lemma exact_wires_small : Forall (fun w => 0 <= w.2 < 10 ^ 40) exact_wires.
Proof using All.
  pose proof (amounts_bounds q rule Hq Hr Hb) as (Be & Bd & Bs & Bm & Bh & Bf & Bi).
  destruct honest_bounds as (Bc & _ & Bn). unfold landed_of in Hl. unfold exact_wires, landed_of, CENTS_LIMIT in *.
  repeat constructor; cbn [snd]; lia.
Qed.

Lemma generate_honest w r :
  w_public_inputs w = isort key_leb (public_inputs (extract_witness q r)) →
  w_private_inputs w = model_dump q → r = expected_response q rule →
  generate_assignment coerce_int TARIFF_RULES w =
  Ok (honest_assignment (payload_hash (str_dict (isort key_leb (w_public_inputs w))))).
Proof using All.
  intros Hpub Hpriv Hresp. pose proof (amounts_bounds q rule Hq Hr Hb) as (Be & Bd & Bs & Bm & Bh & Bf & Bi).
  destruct (request_money q Hq) as ((c & Ec & Hc) & (nf & f & Ef & Hf & Sf) & (ni & i & Ei & Hi & Si) & Hn).
  assert (dict_get "landed_cost" (w_public_inputs w) = Some (decimal_str (cents (landed_of q rule)))) as Hlc
    by (rewrite Hpub, Hresp; reflexivity).
  unfold landed_of in Hlc, Hl.
  assert (ext_of q = c * quantity q) as Ee by (unfold ext_of, spec_extended; by rewrite Ec).
  unfold generate_assignment. rewrite Hpriv, fees_derived. unfold subscript_dict. rewrite Hlc.
  change (dict_get "customs_value" (model_dump q)) with (Some (PDecimal (customs_value q))).
  change (dict_get "freight" (model_dump q)) with (Some (PDecimal (freight q))).
  change (dict_get "insurance" (model_dump q)) with (Some (PDecimal (insurance q))).
  change (dict_get "quantity" (model_dump q)) with (Some (PInt (quantity q))).
  cbn [mbind result_bind py_int].
  unfold honest_assignment, landed_of. rewrite Ec, Ef, Ei in *. cbn [cents_of cents] in *. unfold cents.
  assert (c < CENTS_LIMIT) as Hcl by nia.
  rewrite (to_fixed_point_cents false c) by done. cbn [mbind result_bind].
  rewrite (to_fixed_point_cents nf f) by (done || lia). cbn [mbind result_bind].
  rewrite (to_fixed_point_cents ni i) by (done || lia). cbn [mbind result_bind].
  rewrite to_fixed_point_text by lia. cbn [mbind result_bind].
  unfold canonical_public_inputs_hash. rewrite hash_payload_free by apply str_dict_free. reflexivity.
Qed.
End honest.

(** ** Properties *)

(** C24: an honest calculation satisfies the circuit.  For a payload that
    validates to a request for a listed code whose landed cost is below 10^22
    cents, the witness of its trace packet is assigned.  Its fifteen wires are
    the amounts of the calculation, ten thousand times their cents, with the
    quantity and one, none of them wrapped around; its columns are the wires
    the gates name; its hash is that of the public inputs; and every gate of
    the compiled circuit holds on the columns and on the wires. *)
Theorem honest_witness_satisfies_circuit coerce_int value q rule by_ cyc :
  (∀ z, coerce_int (PInt z) = Some z) → payload_decimals_wf value →
  model_validate coerce_int value = Ok q → rule ∈ TARIFF_RULES → hs_code q = hs_prefix rule →
  in_range q → landed_of q rule < CENTS_LIMIT →
  ∃ pk a, build_trace_packet coerce_int TARIFF_RULES value by_ cyc = Ok pk ∧
    generate_assignment coerce_int TARIFF_RULES (witness_artifact pk) = Ok a ∧
    (let fixed c := c * 10 ^ 4 in
     let customs := cents_of (customs_value q) in
     let freight := cents_of (freight q) in
     let insurance := cents_of (insurance q) in
     let duty := duty_of q rule in
     let s301 := section_301_of q rule in
     let mpf := mpf_of q in
     let hmf := hmf_of q in
     wire_map a =
       [("customs_value_fp", fixed customs); ("quantity_fp", quantity q);
        ("extended_value_fp", fixed (customs * quantity q)); ("one_fp", 1); ("duty_amount_fp", fixed duty);
        ("s301_amount_fp", fixed s301); ("mpf_amount_fp", fixed mpf); ("hmf_amount_fp", fixed hmf);
        ("fee_partial_fp", fixed (duty + s301)); ("mpf_hmf_sum_fp", fixed (mpf + hmf));
        ("fee_full_fp", fixed (duty + s301 + (mpf + hmf)));
        ("base_sum_fp", fixed (customs * quantity q + freight + insurance));
        ("landed_cost_fp", fixed (landed_of q rule)); ("freight_fp", fixed freight);
        ("insurance_fp", fixed insurance)]) ∧
    Forall (fun w => 0 <= w.2 < 10 ^ 40) (wire_map a) ∧
    (let wire k := default 0 (dict_get k (wire_map a)) in
     a_col a = map (fun g => wire (wire_a g)) _GATES ∧ b_col a = map (fun g => wire (wire_b g)) _GATES ∧
     c_col a = map (fun g => wire (wire_c g)) _GATES ∧ circuit_holds wire = true) ∧
    public_inputs_hash a = payload_hash (str_dict (isort key_leb (w_public_inputs (witness_artifact pk)))) ∧
    verify_gate_constraints a = Ok (repeat true 8).
Proof.
  intros Hz Hwf Hq Hr Hhs Hb Hl. destruct (validated_valid _ _ _ Hwf Hq) as [Hv _].
  pose proof (calculate_expected coerce_int q rule Hz Hv Hr Hhs Hb) as Hresp.
  destruct (packet_total _ _ Hz _ _ _ Hwf Hq Hresp by_ cyc) as (pk & Hpk & _ & _ & _ & _ & _ & Hw).
  assert (w_public_inputs (witness_artifact pk) =
    isort key_leb (public_inputs (extract_witness q (expected_response q rule)))) as Hpub
    by exact (f_equal CoreVerifier.public_inputs Hw).
  assert (w_private_inputs (witness_artifact pk) = model_dump q) as Hpriv
    by exact (f_equal CoreVerifier.private_inputs Hw).
  pose proof (generate_honest coerce_int q rule Hz Hv Hr Hhs Hb Hl _ _ Hpub Hpriv eq_refl) as Ha.
  set (pih := payload_hash (str_dict (isort key_leb (w_public_inputs (witness_artifact pk))))) in *.
  assert (honest_assignment q rule pih = wired (exact_wires q rule) pih) as Ex
    by (by apply (honest_exact coerce_int q rule)).
  assert (verify_gate_constraints (honest_assignment q rule pih) = Ok (repeat true 8)) as Hg
    by (by apply (honest_satisfies coerce_int q rule)).
  assert (Forall (fun w => 0 <= w.2 < 10 ^ 40) (exact_wires q rule)) as Hw40
    by (by apply (exact_wires_small coerce_int)).
  destruct (honest_bounds q Hv Hb) as (_ & Ee & _).
  exists pk, (honest_assignment q rule pih). split; [exact Hpk|]. split; [exact Ha|].
  assert (wire_map (honest_assignment q rule pih) = exact_wires q rule) as -> by by rewrite Ex.
  split; [unfold exact_wires; by rewrite Ee|]. split; [exact Hw40|].
  split; [|split; [by rewrite Ex|exact Hg]].
  rewrite Ex. split; [reflexivity|]. split; [reflexivity|]. split; [reflexivity|].
  assert (circuit_holds (fun k => default 0 (dict_get k (wire_map (honest_assignment q rule pih)))) = true) as Hc
    by (eapply wired_circuit_holds; [reflexivity|exact Hg]).
  rewrite Ex in Hc. exact Hc.
Qed.

(** [verify_gate_constraints] checks the compiled circuit: on columns with a
    row for every gate it returns, row by row, whether the gate with its
    selectors holds, and it raises when a column is shorter. *)
Theorem constraints_are_the_gates (a : PlonkAssignment) :
  (∃ c, compile_circuit = Ok c ∧ gates c = _GATES ∧ n_gates c = 8%nat) ∧
  verify_gate_constraints a =
    if complete a then Ok (gates_hold a) else raise IndexError "tuple index out of range".
Proof.
  split; [exists compiled; by rewrite compile_total|].
  destruct (complete a) eqn:E; auto using constraints_hold, constraints_short.
Qed.

Example honest_witness_satisfies_circuit_witness :
  ∃ pk a, build_trace_packet coerce_plain TARIFF_RULES REFERENCE_REQUEST "backend_integration" 1 = Ok pk ∧
    generate_assignment coerce_plain TARIFF_RULES (witness_artifact pk) = Ok a ∧
    dict_get "landed_cost_fp" (wire_map a) = Some 3292310000 ∧
    verify_gate_constraints a = Ok (repeat true 8).
Proof.
  destruct (honest_witness_satisfies_circuit coerce_plain REFERENCE_REQUEST sample_request sample_rule
    "backend_integration" 1) as (pk & a & H1 & H2 & H3 & _ & _ & _ & H4);
    [reflexivity|exact reference_decimals_wf|vm_compute; reflexivity|apply sample_rule_in|reflexivity| |
     |exists pk, a; split; [exact H1|]; split; [exact H2|]; split; [|exact H4]].
  - unfold in_range, CENTS_LIMIT. vm_compute. done.
  - vm_compute. reflexivity.
  - rewrite H3. vm_compute. reflexivity.
Defined.

(** ** What the circuit leaves open *)

(** C25: the circuit does not determine the landed cost.  Whatever the customs
    value, the quantity and the four fees, and whatever landed cost is claimed,
    there are wires with these values on which every gate holds: the sum of
    the values and the freight is a wire that no gate computes. *)
Theorem circuit_leaves_cost_open (customs quantity duty s301 mpf hmf landed : Z) :
  ∃ wire : string → Z, circuit_holds wire = true ∧
    wire "customs_value_fp" = customs ∧ wire "quantity_fp" = quantity ∧ wire "duty_amount_fp" = duty ∧
    wire "s301_amount_fp" = s301 ∧ wire "mpf_amount_fp" = mpf ∧ wire "hmf_amount_fp" = hmf ∧
    wire "landed_cost_fp" = landed.
Proof.
  set (free := landed - (customs * quantity) mod P - (duty + s301 + (mpf + hmf))).
  set (a := assign customs quantity free 0 landed duty s301 mpf hmf "").
  exists (fun k => default 0 (dict_get k (wire_map a))). split; [|by split_and!].
  apply (wired_circuit_holds a _ _ _ _ _ _ _ _ _ _ eq_refl), assign_satisfies.
  unfold free. rewrite mod_eq_mod. apply mod_eq_refl_eq. lia.
Qed.

(** ** The public values *)

Lemma hash_length_ok s : hash_wf s → (String.length s =? 64)%nat = true.
Proof. intros [-> _]. reflexivity. Qed.

Lemma hex_digit_value c : 0 <= default 0 (hex_value c) < 16.
Proof.
  pose proof (forall_chars (fun c => between 0 15 (default 0 (hex_value c))) eq_refl c) as H.
  apply between_spec in H. lia.
Qed.

Lemma hex_value_inj c d :
  is_lower_hex c = true → is_lower_hex d = true →
  default 0 (hex_value c) = default 0 (hex_value d) → c = d.
Proof.
  intros Hc Hd. destruct (hex_value_lower c Hc) as (_ & x & -> & _ & <-).
  destruct (hex_value_lower d Hd) as (_ & y & -> & _ & <-). cbn.
  by intros ->.
Qed.

Lemma hex_num_lower a s : 0 <= a → a * 16 ^ Z.of_nat (String.length s) <= hex_num a s.
Proof.
  revert a. induction s as [|c s IH]; intros a Ha; cbn [hex_num String.length]; [lia|].
  pose proof (hex_digit_value c). specialize (IH (16 * a + default 0 (hex_value c)) ltac:(lia)).
  rewrite Nat2Z.inj_succ, Z.pow_succ_r by lia.
  pose proof (Z.pow_pos_nonneg 16 (Z.of_nat (String.length s)) ltac:(lia) ltac:(lia)). nia.
Qed.

Lemma hex_num_inj a b s t :
  0 <= a → 0 <= b → String.length s = String.length t →
  str_forall is_lower_hex s = true → str_forall is_lower_hex t = true →
  hex_num a s = hex_num b t → a = b ∧ s = t.
Proof.
  revert a b t. induction s as [|c s IH]; intros a b [|d t] Ha Hb Hl Hs Ht H; try done.
  cbn [String.length str_forall hex_num] in *. apply andb_true_iff in Hs as [Hc Hs], Ht as [Hd Ht].
  pose proof (hex_digit_value c). pose proof (hex_digit_value d).
  destruct (IH (16 * a + default 0 (hex_value c)) (16 * b + default 0 (hex_value d)) t) as [E ->];
    [lia|lia|lia|done|done|done|].
  assert (a = b) as -> by lia. split; [done|]. f_equal. apply hex_value_inj; [done..|lia].
Qed.

Lemma limb_value s i :
  hash_wf s → (i <= 48)%nat →
  limb_at s i = Ok (hex_num 0 (str_take 16 (str_drop i s))) ∧
  String.length (str_take 16 (str_drop i s)) = 16%nat ∧
  str_forall is_lower_hex (str_take 16 (str_drop i s)) = true.
Proof.
  intros [Hl Hs] Hi.
  assert (String.length (str_take 16 (str_drop i s)) = 16%nat) as Hlen.
  { pose proof (length_str_take_drop 16 (str_drop i s)). rewrite !str_drop_length in *. lia. }
  assert (str_forall is_lower_hex (str_take 16 (str_drop i s)) = true) as Hlow
    by by apply str_take_forall, str_drop_forall.
  split; [|done]. unfold limb_at. rewrite int_of_hex_lower; [done| |done].
  intros E. by rewrite E in Hlen.
Qed.

Lemma limbs_total s :
  hash_wf s → ∃ l, hash_hex_to_limbs s = Ok l ∧ length l = 4%nat.
Proof.
  intros Hs. unfold hash_hex_to_limbs. rewrite hash_length_ok by done. cbn [negb traverse].
  rewrite !(fun i Hi => proj1 (limb_value s i Hs Hi)) by lia. cbn [mbind result_bind]. eauto.
Qed.

Lemma digest_split s :
  s = str_take 16 (str_drop 0 s) +:+ str_take 16 (str_drop 16 s) +:+ str_take 16 (str_drop 32 s) +:+ str_drop 48 s.
Proof.
  rewrite <-(str_take_drop_id 16 s) at 1. f_equal.
  assert (∀ n m u, str_drop n (str_drop m u) = str_drop (m + n) u) as Hdd.
  { intros n m. induction m as [|m IH]; intros [|c u]; try done; [by destruct n|]. apply IH. }
  rewrite <-(str_take_drop_id 16 (str_drop 16 s)) at 1. f_equal.
  rewrite (Hdd 16%nat 16%nat s). change (16 + 16)%nat with 32%nat.
  rewrite <-(str_take_drop_id 16 (str_drop 32 s)) at 1. f_equal. apply (Hdd 16%nat 32%nat s).
Qed.

Lemma limbs_inj s t l :
  hash_wf s → hash_wf t → hash_hex_to_limbs s = Ok l → hash_hex_to_limbs t = Ok l → s = t.
Proof.
  intros Hs Ht. unfold hash_hex_to_limbs. rewrite !hash_length_ok by done. cbn [negb traverse].
  assert (∀ i, (i <= 48)%nat → limb_at s i = limb_at t i → str_take 16 (str_drop i s) = str_take 16 (str_drop i t))
    as Hi.
  { intros i Hi. destruct (limb_value s i Hs Hi) as (-> & L1 & F1), (limb_value t i Ht Hi) as (-> & L2 & F2).
    intros [= E]. refine (proj2 (hex_num_inj 0 0 _ _ _ _ _ F1 F2 E)); [lia|lia|congruence]. }
  pose proof (Hi 0%nat ltac:(lia)) as H0. pose proof (Hi 16%nat ltac:(lia)) as H1.
  pose proof (Hi 32%nat ltac:(lia)) as H2. pose proof (Hi 48%nat ltac:(lia)) as H3. clear Hi.
  destruct (limb_at s 0), (limb_at s 16), (limb_at s 32), (limb_at s 48); try done.
  cbn [mbind result_bind]. intros [= <-].
  destruct (limb_at t 0), (limb_at t 16), (limb_at t 32), (limb_at t 48); try done.
  cbn [mbind result_bind]. intros [= -> -> -> ->].
  assert (∀ u, hash_wf u → str_drop 48 u = str_take 16 (str_drop 48 u)) as Hall.
  { intros u [Hl _]. rewrite <-(str_take_drop_id 16 (str_drop 48 u)) at 1.
    assert (String.length (str_drop 16 (str_drop 48 u)) = 0%nat) as E by (rewrite !str_drop_length; lia).
    destruct (str_drop 16 (str_drop 48 u)); [by rewrite str_app_nil_r|done]. }
  rewrite (digest_split s), (digest_split t), H0, H1, H2 by done. by rewrite (Hall s Hs), (Hall t Ht), H3.
Qed.

(** The public values of a proof determine what it is about.  For hashes
    as [sha256_hex] prints them there are thirteen values, in the order of the
    circuit's binding targets, and they determine the landed cost and the
    three hashes. *)
Theorem instance_values_binding landed t c p landed' t' c' p' :
  Forall hash_wf [t; c; p; t'; c'; p'] →
  ∃ v, build_instance_values landed t c p = Ok v ∧ length v = length PUBLIC_BINDING_TARGETS ∧
    (build_instance_values landed' t' c' p' = Ok v → (landed, t, c, p) = (landed', t', c', p')).
Proof.
  rewrite !Forall_cons. intros (Ht & Hc & Hp & Ht' & Hc' & Hp' & _). unfold build_instance_values.
  destruct (limbs_total t Ht) as (lt & Et & Lt), (limbs_total c Hc) as (lc & Ec & Lc),
    (limbs_total p Hp) as (lp & Ep & Lp).
  destruct (limbs_total t' Ht') as (lt' & Et' & Lt'), (limbs_total c' Hc') as (lc' & Ec' & Lc'),
    (limbs_total p' Hp') as (lp' & Ep' & Lp').
  rewrite Et, Ec, Ep, Et', Ec', Ep'. cbn [mbind result_bind]. eexists. split; [reflexivity|]. split.
  { cbn [length]. rewrite !length_app, Lt, Lc, Lp. reflexivity. }
  intros [= <- E]. apply app_inj_1 in E as [<- E]; [|congruence]. apply app_inj_1 in E as [<- <-]; [|congruence].
  by rewrite (limbs_inj t t' lt'), (limbs_inj c c' lc'), (limbs_inj p p' lp').
Qed.

Example instance_values_binding_witness :
  let h := sha256_hex "abc" in let k := sha256_hex "" in
  ∃ v, build_instance_values 7 h k h = Ok v ∧ length v = length PUBLIC_BINDING_TARGETS ∧
    (build_instance_values 7 h k k = Ok v → (7, h, k, h) = (7, h, k, k)).
Proof.
  intros h k. apply (instance_values_binding 7 h k h 7 h k k).
  repeat (apply Forall_cons; split; [apply sha256_hex_wf|]). apply Forall_nil. exact I.
Defined.
