(* ===== verification/KeyLog.v ===== *)
(** * Keys and their log (zk/keys/lifecycle.py, zk/keys/manager.py)

    The key manager asks the native backend for the keys of a circuit and
    writes an event for each answer to a log in which every record carries the
    hash of the one before.  The backend is an interface; the file of the log
    is the list of the records written to it, and the time of an event is an
    argument. *)
From S2P Require Export Plonk.

Local Open Scope Z_scope.

(** ** zk/keys/lifecycle.py *)

Definition _ZERO_HASH : string := str_join "" (repeat "0" 64).

Record key_event := mkKeyEvent {
  ke_event_type : string;
  ke_recorded_at : string;
  ke_payload : list (string * pyval);
  ke_prev_hash : string;
  ke_current_hash : string }.

(** The module's [_prev_hash] and the lines of the file. *)
Record key_log := mkKeyLog { _prev_hash : string; key_records : list key_event }.

(** What is hashed after the previous hash. *)
Definition event_fields (event_type recorded_at : string) (payload : list (string * pyval)) : pyval :=
  PDict [("event_type", PStr event_type); ("recorded_at", PStr recorded_at); ("payload", PDict payload)].

Definition _append_event (now event_type : string) (payload : list (string * pyval)) (st : key_log)
    : result (string * key_log) :=
  text ← canonical_payload (event_fields event_type now payload);
  let current_hash := sha256_hex (_prev_hash st +:+ text) in
  Ok (current_hash, mkKeyLog current_hash
        (key_records st ++ [mkKeyEvent event_type now payload (_prev_hash st) current_hash])).

Definition log_key_generation (now circuit_hash proving_key_id verification_key_id : string) (params_k : Z)
    (backend_version : string) (st : key_log) : result (string * key_log) :=
  _append_event now "key_generation"
    [("circuit_hash", PStr circuit_hash); ("proving_key_id", PStr proving_key_id);
     ("verification_key_id", PStr verification_key_id); ("params_k", PInt params_k);
     ("backend_version", PStr backend_version)] st.

Definition log_key_rotation (now old_circuit_hash new_circuit_hash proving_key_id verification_key_id
    reason : string) (st : key_log) : result (string * key_log) :=
  _append_event now "key_rotation"
    [("old_circuit_hash", PStr old_circuit_hash); ("new_circuit_hash", PStr new_circuit_hash);
     ("proving_key_id", PStr proving_key_id); ("verification_key_id", PStr verification_key_id);
     ("reason", PStr reason)] st.

(** A new process: the module starts from the zero hash, the file is kept. *)
Definition load_module (file : list key_event) : key_log := mkKeyLog _ZERO_HASH file.

(** ** The native backend *)

Definition BACKEND_VERSION : string := "halo2-plonk-pasta-v1".

(** What the backend prints for each of its commands. *)
Record compile_output := mkCompileOutput {
  co_circuit_hash : string;
  co_proving_key_id : string;
  co_verification_key_id : string;
  co_params_k : Z;
  co_backend_version : option string;
  co_proving_manifest_path : string;
  co_verification_manifest_path : string }.

Record prove_output := mkProveOutput {
  po_proof_bytes_hex : string;
  po_commitments : list string;
  po_metadata : list (string * string) }.

Record verify_output := mkVerifyOutput {
  vo_valid : bool;
  vo_reason : option string;
  vo_checks : list string;
  vo_metadata : list (string * string) }.

(** [run_backend] with a command and its payload, and the bytes of a manifest. *)
Class Backend := {
  run_compile : list (string * pyval) → result compile_output;
  run_prove : list (string * pyval) → result prove_output;
  run_verify : list (string * pyval) → result verify_output;
  manifest_text : string → result string;
  key_root : string }.

(** ** zk/keys/manager.py *)

Record KeyMaterial := mkKeyMaterial {
  km_circuit_hash : string;
  km_proving_key_id : string;
  km_verification_key_id : string;
  km_params_k : Z;
  km_proving_manifest_path : string;
  km_verification_manifest_path : string;
  km_version : string }.

(** [ProvingKey] and [VerificationKey] *)
Record derived_key := mkDerivedKey {
  dk_circuit_hash : string;
  dk_key_id : string;
  dk_manifest_path : string;
  dk_version : string;
  dk_params_k : Z }.

Section manager.
Context `{!Backend}.

Definition compile_request (c : PlonkCircuit) : list (string * pyval) :=
  [("circuit_hash", PStr (pc_circuit_hash c)); ("version", PStr (pc_version c));
   ("binding_targets", strs (public_binding_targets c)); ("constraint_count", PInt (Z.of_nat (n_gates c)));
   ("key_root", PStr key_root)].

Definition key_material (r : compile_output) : KeyMaterial :=
  mkKeyMaterial (co_circuit_hash r) (co_proving_key_id r) (co_verification_key_id r) (co_params_k r)
    (co_proving_manifest_path r) (co_verification_manifest_path r)
    (default BACKEND_VERSION (co_backend_version r)).

Definition resolve_circuit (circuit : option PlonkCircuit) : result PlonkCircuit :=
  match circuit with Some c => Ok c | None => compile_circuit end.

Definition ensure_compiled (now : string) (circuit : option PlonkCircuit) (st : key_log)
    : result (KeyMaterial * key_log) :=
  c ← resolve_circuit circuit;
  r ← run_compile (compile_request c);
  logged ← log_key_generation now (co_circuit_hash r) (co_proving_key_id r) (co_verification_key_id r)
             (co_params_k r) (default BACKEND_VERSION (co_backend_version r)) st;
  Ok (key_material r, logged.2).

(** The check both derivations begin with. *)
Definition checked_circuit (circuit_hash : string) (circuit : option PlonkCircuit) : result PlonkCircuit :=
  c ← resolve_circuit circuit;
  if String.eqb (pc_circuit_hash c) circuit_hash then Ok c
  else raise ValueError "Circuit hash mismatch: expected {}, got {}".

Definition derive_proving_key (now circuit_hash : string) (circuit : option PlonkCircuit) (st : key_log)
    : result (derived_key * key_log) :=
  c ← checked_circuit circuit_hash circuit;
  '(m, st) ← ensure_compiled now (Some c) st;
  Ok (mkDerivedKey (km_circuit_hash m) (km_proving_key_id m) (km_proving_manifest_path m) (km_version m)
        (km_params_k m), st).

Definition derive_verification_key (now circuit_hash : string) (circuit : option PlonkCircuit)
    (st : key_log) : result (derived_key * key_log) :=
  c ← checked_circuit circuit_hash circuit;
  '(m, st) ← ensure_compiled now (Some c) st;
  Ok (mkDerivedKey (km_circuit_hash m) (km_verification_key_id m) (km_verification_manifest_path m)
        (km_version m) (km_params_k m), st).
End manager.

(** ** The chain *)

Definition event_text (e : key_event) : string :=
  json_print (canonical_form (event_fields (ke_event_type e) (ke_recorded_at e) (ke_payload e))).

(** [e] follows [prev], and its hash is that of its contents. *)
Definition follows (prev : string) (e : key_event) : Prop :=
  ke_prev_hash e = prev ∧ ke_current_hash e = sha256_hex (prev +:+ event_text e).

Fixpoint key_chain (prev : string) (l : list key_event) : Prop :=
  match l with [] => True | e :: l => follows prev e ∧ key_chain (ke_current_hash e) l end.

Fixpoint key_tip (prev : string) (l : list key_event) : string :=
  match l with [] => prev | e :: l => key_tip (ke_current_hash e) l end.

(** A payload the log accepts and can be told from others. *)
Definition loggable (e : key_event) : bool := pyval_wf (PDict (ke_payload e)).

(** A process: what it appends, in order. *)
Record log_call := mkLogCall { lc_now : string; lc_type : string; lc_payload : list (string * pyval) }.

Definition call_loggable (c : log_call) : Prop := pyval_wf (PDict (lc_payload c)) = true.

Definition append_all (calls : list log_call) (st : key_log) : result key_log :=
  fold_result (fun st c => snd <$> _append_event (lc_now c) (lc_type c) (lc_payload c) st) calls st.

(** Processes one after the other, on one file. *)
Definition processes (sessions : list (list log_call)) (file : list key_event) : result (list key_event) :=
  fold_result (fun file calls => key_records <$> append_all calls (load_module file)) sessions file.

Lemma key_chain_app prev l k : key_chain prev (l ++ k) ↔ key_chain prev l ∧ key_chain (key_tip prev l) k.
Proof. revert prev. induction l as [|e l IH]; intros prev; cbn; [tauto|]. rewrite IH. tauto. Qed.

Lemma key_tip_app prev l k : key_tip prev (l ++ k) = key_tip (key_tip prev l) k.
Proof. revert prev. induction l as [|e l IH]; intros prev; [done|]. apply IH. Qed.

Lemma key_tip_wf prev l : hash_wf prev → key_chain prev l → hash_wf (key_tip prev l).
Proof.
  revert prev. induction l as [|e l IH]; intros prev Hp; [done|]. cbn. intros [[_ He] Hl].
  apply IH; [|done]. rewrite He. apply sha256_hex_wf.
Qed.

Lemma zero_hash_wf : hash_wf _ZERO_HASH.
Proof. by split. Qed.

Lemma event_fields_wf ty now p :
  pyval_wf (PDict p) = true → pyval_wf (event_fields ty now p) = true.
Proof. intros H. unfold event_fields. cbn [pyval_wf forallb snd] in *. by rewrite H. Qed.

Lemma append_event_ok now ty p st :
  pyval_wf (PDict p) = true →
  ∃ e, _append_event now ty p st = Ok (ke_current_hash e, mkKeyLog (ke_current_hash e) (key_records st ++ [e])) ∧
    follows (_prev_hash st) e ∧ ke_event_type e = ty ∧ ke_recorded_at e = now ∧ ke_payload e = p.
Proof.
  intros Hp. unfold _append_event.
  rewrite canonical_payload_free by by apply pyval_wf_float_free, event_fields_wf.
  cbn [mbind result_bind]. eexists (mkKeyEvent ty now p (_prev_hash st) _). split; [reflexivity|]. done.
Qed.

(** What a process appends. *)
Lemma append_all_ok calls st :
  Forall call_loggable calls →
  ∃ l, append_all calls st = Ok (mkKeyLog (key_tip (_prev_hash st) l) (key_records st ++ l)) ∧
    key_chain (_prev_hash st) l ∧
    Forall2 (fun c e => ke_event_type e = lc_type c ∧ ke_recorded_at e = lc_now c ∧ ke_payload e = lc_payload c)
      calls l.
Proof.
  intros Hc. revert st. induction Hc as [|c calls Hc Hcs IH]; intros st.
  { exists []. rewrite app_nil_r. by destruct st. }
  unfold append_all. cbn [fold_result].
  destruct (append_event_ok (lc_now c) (lc_type c) (lc_payload c) st Hc) as (e & -> & Hf & E).
  cbn [fmap result_fmap mbind result_bind snd].
  destruct (IH (mkKeyLog (ke_current_hash e) (key_records st ++ [e]))) as (l & Hl & Hch & H2).
  unfold append_all in Hl. rewrite Hl. exists (e :: l). cbn [_prev_hash key_records].
  rewrite <-app_assoc. split; [done|]. split; [done|]. by constructor.
Qed.

Lemma key_tip_last prev l : key_tip prev l = from_option ke_current_hash prev (last l).
Proof. induction l as [|e l _] using rev_ind; [done|]. by rewrite key_tip_app, last_snoc. Qed.

(** ** Tampering *)

Definition same_key_event (e e' : key_event) : Prop :=
  ke_event_type e = ke_event_type e' ∧ ke_recorded_at e = ke_recorded_at e' ∧
  canonical_form (PDict (ke_payload e)) = canonical_form (PDict (ke_payload e')).

Definition key_preimage (e : key_event) : string := ke_prev_hash e +:+ event_text e.

(** A collision between two records, or a record that hashes to sixty-four
    zeros. *)
Definition key_forgery (l k : list key_event) : Prop :=
  (∃ e e', e ∈ l ∧ e' ∈ k ∧ collision (key_preimage e) (key_preimage e')) ∨
  (∃ e, e ∈ l ++ k ∧ sha256_hex (key_preimage e) = _ZERO_HASH).

Lemma event_text_inj e e' :
  loggable e = true → loggable e' = true → event_text e = event_text e' → same_key_event e e'.
Proof.
  intros He He' H. apply canonical_payload_inj in H; [|by apply event_fields_wf..]. unfold same_key_event.
  change (JObj [("event_type", JStr (ke_event_type e)); ("payload", canonical_form (PDict (ke_payload e)));
                ("recorded_at", JStr (ke_recorded_at e))] =
          JObj [("event_type", JStr (ke_event_type e')); ("payload", canonical_form (PDict (ke_payload e')));
                ("recorded_at", JStr (ke_recorded_at e'))]) in H.
  revert H. generalize (canonical_form (PDict (ke_payload e))), (canonical_form (PDict (ke_payload e'))).
  by intros p p' [= -> -> ->].
Qed.

Lemma key_tip_snoc prev l e : key_tip prev (l ++ [e]) = ke_current_hash e.
Proof. by rewrite key_tip_app. Qed.

Lemma follows_preimage prev e : follows prev e → ke_current_hash e = sha256_hex (key_preimage e).
Proof. unfold key_preimage. intros [<- H]. exact H. Qed.

(** The record at a place in a chain. *)
Lemma key_chain_lookup l i e :
  key_chain _ZERO_HASH l → l !! i = Some e →
  ke_prev_hash e = (if i is S j then from_option ke_current_hash "" (l !! j) else _ZERO_HASH) ∧
  ke_current_hash e = sha256_hex (key_preimage e).
Proof.
  intros Hl Hi. rewrite <-(take_drop_middle _ _ _ Hi) in Hl. apply key_chain_app in Hl as [_ [He _]].
  rewrite key_tip_last in He. split; [|by apply (follows_preimage (key_tip _ZERO_HASH (take i l)));
    rewrite key_tip_last]. destruct He as [-> _]. destruct i as [|j]; [done|].
  destruct (lookup_lt_is_Some_2 l j) as [e' Hj]; [apply lookup_lt_Some in Hi; lia|].
  by rewrite (take_S_r _ _ _ Hj), last_snoc, Hj.
Qed.

Lemma follows_binding prev prev' e e' :
  hash_wf prev → hash_wf prev' → loggable e = true → loggable e' = true →
  follows prev e → follows prev' e' → ke_current_hash e = ke_current_hash e' →
  (prev = prev' ∧ same_key_event e e') ∨ collision (key_preimage e) (key_preimage e').
Proof.
  intros [Hp _] [Hp' _] Hl Hl' He He' E.
  rewrite (follows_preimage prev e), (follows_preimage prev' e') in E by done.
  apply sha256_hex_inj_or_collision in E as [E|]; [left|by right].
  unfold key_preimage in E. destruct He as [<- _], He' as [<- _].
  apply str_app_inj_length in E as [-> E]; [|congruence]. auto using event_text_inj.
Qed.

Lemma key_forgery_mono l l' k k' : l ⊆ l' → k ⊆ k' → key_forgery l k → key_forgery l' k'.
Proof.
  intros Hl Hk [(r & r' & ? & ? & ?)|(r & Hr & ?)]; [left; exists r, r'; naive_solver|right].
  exists r. split; [|done]. apply elem_of_app in Hr. apply elem_of_app. naive_solver.
Qed.

(** Two chains from the zero hash that end in the same hash. *)
Lemma key_chain_binding (l k : list key_event) :
  forallb loggable (l ++ k) = true → key_chain _ZERO_HASH l → key_chain _ZERO_HASH k →
  key_tip _ZERO_HASH l = key_tip _ZERO_HASH k → Forall2 same_key_event l k ∨ key_forgery l k.
Proof.
  revert k. induction l as [|r l IH] using rev_ind; intros k; destruct k as [|r' k _] using rev_ind;
    rewrite ?key_chain_app, ?key_tip_snoc; repeat rewrite forallb_app; cbn [forallb key_chain];
    repeat rewrite andb_true_iff.
  - by left.
  - intros _ _ (_ & Hr' & _) E. right; right. exists r'. split; [set_solver|].
    by rewrite <-(follows_preimage _ _ Hr').
  - intros _ (_ & Hr & _) _ E. right; right. exists r. split; [set_solver|].
    by rewrite <-(follows_preimage _ _ Hr).
  - intros ((Hl & Hr & _) & Hk & Hr' & _) (Ll & Lr & _) (Lk & Lr' & _) E.
    pose proof (key_tip_wf _ _ zero_hash_wf Ll) as H. pose proof (key_tip_wf _ _ zero_hash_wf Lk) as H0.
    destruct (follows_binding _ _ _ _ H H0 Hr Hr' Lr Lr' E) as [[Et Hs]|Hc].
    + destruct (IH k) as [Hf|Hf]; [by rewrite forallb_app, Hl, Hk|done..| |].
      * left. apply Forall2_app; [done|]. by constructor.
      * right. eapply key_forgery_mono; [..|exact Hf]; set_solver.
    + right; left. exists r, r'. set_solver.
Qed.

(** Two calls that log the same event, up to the order of keys. *)
Definition same_call (c c' : log_call) : Prop :=
  lc_type c = lc_type c' ∧ lc_now c = lc_now c' ∧
  canonical_form (PDict (lc_payload c)) = canonical_form (PDict (lc_payload c')).

(** The record is that of the call. *)
Definition recorded (c : log_call) (e : key_event) : Prop :=
  ke_event_type e = lc_type c ∧ ke_recorded_at e = lc_now c ∧ ke_payload e = lc_payload c.

Lemma recorded_loggable calls l :
  Forall call_loggable calls → Forall2 recorded calls l → forallb loggable l = true.
Proof.
  intros Hc. induction 1 as [|c e calls l (_ & _ & E) Hl IH]; [done|].
  inversion_clear Hc as [|?? H1 H2]. cbn [forallb]. rewrite IH by done. unfold loggable. by rewrite E, H1.
Qed.

Lemma recorded_same calls calls' l l' :
  Forall2 recorded calls l → Forall2 recorded calls' l' → Forall2 same_key_event l l' → Forall2 same_call calls calls'.
Proof.
  intros H. revert calls' l'. induction H as [|c e calls l (E1 & E2 & E3) H IH]; intros calls' l' H' Hs.
  { apply Forall2_nil_inv_l in Hs as ->. by apply Forall2_nil_inv_r in H' as ->. }
  apply Forall2_cons_inv_l in Hs as (e' & k & (S1 & S2 & S3) & Hs & ->).
  apply Forall2_cons_inv_r in H' as (c' & calls2 & (E1' & E2' & E3') & H' & ->).
  constructor; [|by eapply IH]. unfold same_call. rewrite <-E1, <-E2, <-E3, <-E1', <-E2', <-E3'. done.
Qed.

(** C33: the hash a process logs last binds everything it logged.  A process
    that starts on any file and appends events, one [_append_event] after the
    other, succeeds and adds one record per call to the end of the file, each
    with the hash of the one before as its previous hash, from the zero hash
    on; [_prev_hash] is the hash of the last.  If two processes end with the
    same [_prev_hash], they logged the same events at the same times in the
    same order, unless two of their records are a SHA-256 collision or one of
    them hashes to sixty-four zeros. *)
Theorem key_log_binding (calls calls' : list log_call) (file file' : list key_event) :
  Forall call_loggable calls → Forall call_loggable calls' →
  ∃ st st' l l',
    append_all calls (load_module file) = Ok st ∧ append_all calls' (load_module file') = Ok st' ∧
    key_records st = file ++ l ∧ key_records st' = file' ++ l' ∧
    Forall2 recorded calls l ∧ Forall2 recorded calls' l' ∧
    (∀ i e, l !! i = Some e →
       ke_prev_hash e = (if i is S j then from_option ke_current_hash "" (l !! j) else _ZERO_HASH) ∧
       ke_current_hash e = sha256_hex (key_preimage e)) ∧
    _prev_hash st = from_option ke_current_hash _ZERO_HASH (last l) ∧
    (_prev_hash st = _prev_hash st' → Forall2 same_call calls calls' ∨ key_forgery l l').
Proof.
  intros Hc Hc'. destruct (append_all_ok calls (load_module file) Hc) as (l & E & Ch & R).
  destruct (append_all_ok calls' (load_module file') Hc') as (l' & E' & Ch' & R').
  cbn [_prev_hash key_records load_module] in *.
  exists (mkKeyLog (key_tip _ZERO_HASH l) (file ++ l)), (mkKeyLog (key_tip _ZERO_HASH l') (file' ++ l')), l, l'.
  do 6 (split; [done|]). split; [|split].
  - intros i e Hi. by apply key_chain_lookup.
  - cbn [_prev_hash]. apply key_tip_last.
  - cbn [_prev_hash]. intros Et. destruct (key_chain_binding l l') as [Hs|Hf]; [|done..| |by right].
    + by rewrite forallb_app, (recorded_loggable calls l), (recorded_loggable calls' l').
    + left. by eapply recorded_same.
Qed.

(** ** Restarts *)

Lemma processes_ok sessions file :
  Forall (Forall call_loggable) sessions →
  ∃ parts, processes sessions file = Ok (file ++ concat parts) ∧ Forall (key_chain _ZERO_HASH) parts ∧
    Forall2 (fun calls part => length part = length calls) sessions parts.
Proof.
  intros H. revert file. induction H as [|calls sessions Hc Hs IH]; intros file.
  { exists []. cbn. by rewrite app_nil_r. }
  unfold processes. cbn [fold_result].
  destruct (append_all_ok calls (load_module file) Hc) as (l & -> & Hch & H2).
  cbn [fmap result_fmap mbind result_bind key_records load_module].
  destruct (IH (file ++ l)) as (parts & Hp & Hall & H3). unfold processes in Hp. rewrite Hp.
  exists (l :: parts). cbn [concat]. rewrite app_assoc. split; [done|].
  split; [by constructor|]. constructor; [|done]. by rewrite (Forall2_length _ _ _ H2).
Qed.

(** A restart breaks the key log.  What each process appends is a chain, so
    one process leaves a chain; but every process starts from the zero hash, so
    after two processes that both append the file is no chain, unless a record
    hashes to zero. *)
Theorem key_log_restarts (first second : list log_call) :
  Forall call_loggable (first ++ second) → first ≠ [] → second ≠ [] →
  ∃ l k, processes [first] [] = Ok l ∧ processes [first; second] [] = Ok (l ++ k) ∧
    key_chain _ZERO_HASH l ∧ key_chain _ZERO_HASH k ∧
    (key_chain _ZERO_HASH (l ++ k) → ∃ e, e ∈ l ∧ sha256_hex (key_preimage e) = _ZERO_HASH).
Proof.
  intros [H1 H2]%Forall_app Hf Hs.
  destruct (append_all_ok first (load_module []) H1) as (l & El & Cl & Fl).
  destruct (append_all_ok second (load_module l) H2) as (k & Ek & Ck & Fk).
  cbn [_prev_hash key_records load_module app] in El, Ek, Cl, Ck. exists l, k.
  unfold processes. cbn [fold_result fmap result_fmap mbind result_bind].
  rewrite El. cbn [fmap result_fmap mbind result_bind key_records]. rewrite Ek.
  do 4 (split; [done|]). intros [_ Hk]%key_chain_app.
  destruct k as [|e k]; [by apply Forall2_nil_inv_r in Fk|]. destruct Ck as [[Hz _] _], Hk as [[Ht _] _].
  destruct l as [|e' l _] using rev_ind; [by apply Forall2_nil_inv_r in Fl|].
  apply key_chain_app in Cl as [_ [He' _]]. exists e'. split; [set_solver|].
  rewrite <-(follows_preimage _ _ He'). rewrite key_tip_snoc in Ht. congruence.
Qed.

Definition sample_call (now : string) : log_call := mkLogCall now "key_generation" [("params_k", PInt 6)].

Example key_log_restarts_witness :
  ∃ l k, processes [[sample_call "t0"]] [] = Ok l ∧
    processes [[sample_call "t0"]; [sample_call "t1"]] [] = Ok (l ++ k) ∧
    key_chain _ZERO_HASH l ∧ key_chain _ZERO_HASH k ∧
    (key_chain _ZERO_HASH (l ++ k) → ∃ e, e ∈ l ∧ sha256_hex (key_preimage e) = _ZERO_HASH).
Proof.
  apply (key_log_restarts [sample_call "t0"] [sample_call "t1"]); [|discriminate..].
  repeat (apply Forall_cons; split; [vm_compute; reflexivity|]). apply Forall_nil. exact I.
Defined.

Example key_log_binding_witness :
  ∃ st st' l l',
    append_all [sample_call "t0"] (load_module []) = Ok st ∧ append_all [sample_call "t1"] (load_module []) = Ok st' ∧
    key_records st = l ∧ key_records st' = l' ∧
    (_prev_hash st = _prev_hash st' → Forall2 same_call [sample_call "t0"] [sample_call "t1"] ∨ key_forgery l l').
Proof.
  destruct (key_log_binding [sample_call "t0"] [sample_call "t1"] [] [])
    as (st & st' & l & l' & E & E' & Hl & Hl' & _ & _ & _ & _ & H).
  - apply Forall_cons_2; [vm_compute; reflexivity|apply Forall_nil_2].
  - apply Forall_cons_2; [vm_compute; reflexivity|apply Forall_nil_2].
  - exists st, st', l, l'. split; [exact E|]. split; [exact E'|]. split; [exact Hl|]. split; [exact Hl'|exact H].
Defined.
