(* ===== verification/PlonkProof.v ===== *)
(** * PLONK proofs (zk/provers/plonk_prover.py, zk/verifiers/plonk_verifier.py)

    The prover and the verifier around the native backend.  Both write to the
    key log, also when they fail afterwards, so they pass it along.  What the
    backend accepts is its own affair; what these modules add to it is that a
    proof is bound to its circuit, trace and public inputs. *)
From S2P Require Export KeyLog StubPipeline.

Local Open Scope Z_scope.

(** ** Strings of Python *)

(** The characters [repr] escapes: the controls, U+007F to U+00A0 and the soft
    hyphen. *)
Definition unprintable (c : ascii) : bool :=
  (ord c <? 32) || ((127 <=? ord c) && (ord c <=? 160)) || (ord c =? 173).

Definition repr_char (quote c : ascii) : string :=
  if Ascii.eqb c quote || Ascii.eqb c "\" then String "\" (String c "")
  else if ord c =? 10 then "\n"
  else if ord c =? 13 then "\r"
  else if ord c =? 9 then "\t"
  else if unprintable c then "\x" +:+ hex_of_bytes [ord c]
  else String c "".

(** [f'{s!r}'] *)
Definition py_repr (s : string) : string :=
  let quote := if str_contains "'" s && negb (str_contains "034" s) then "034"%char else "'"%char in
  String quote (str_join "" (map (repr_char quote) (String.list_ascii_of_string s)) +:+ String quote "").

(** ** The prover *)

Definition _PROOF_SYSTEM : string := "plonk".

Definition _assert_witness_trace_match (w : Witness) (expected_trace_hash : string) : result unit :=
  if negb (bool_decide (w_trace w = expected_trace_hash))
  then raise ValueError "witness_artifact.trace_hash {} != expected trace_hash {}" else Ok tt.

Definition final_proof_payload (proof_blob_hex : string) (commitments public_inputs : list string)
    (proving_system circuit_hash trace_hash public_inputs_hash : string) : pyval :=
  PDict [("proof_bytes", PStr proof_blob_hex); ("commitments", strs commitments);
         ("public_inputs", strs public_inputs); ("proving_system", PStr proving_system);
         ("circuit_hash", PStr circuit_hash); ("trace_hash", PStr trace_hash);
         ("public_inputs_hash", PStr public_inputs_hash)].

Definition _final_proof_hash (proof_blob_hex : string) (commitments public_inputs : list string)
    (circuit_hash trace_hash public_inputs_hash : string) : result string :=
  hash_payload (final_proof_payload proof_blob_hex commitments public_inputs _PROOF_SYSTEM circuit_hash
                  trace_hash public_inputs_hash).

(** [str(value)] for the field elements of a column. *)
Definition column (l : list Z) : pyval := strs (map str_of_Z l).

(** A computation that writes to the key log. *)
Definition logged (A : Type) : Type := key_log → result A * key_log.

#[global] Instance logged_ret : MRet logged := fun A a st => (Ok a, st).
#[global] Instance logged_bind : MBind logged := fun A B f m st =>
  match m st with (Ok a, st) => f a st | (Raise e, st) => (Raise e, st) end.

(** One that does not, and one that writes when it succeeds. *)
Definition silent {A} (r : result A) : logged A := fun st => (r, st).
Definition logging {A} (f : key_log → result (A * key_log)) : logged A := fun st =>
  match f st with Ok (a, st) => (Ok a, st) | Raise e => (Raise e, st) end.

Section plonk.
Context `{!Backend} (coerce_int : pyval → option Z) (rules : list TariffRule).

Definition prove_payload (w : Witness) (c : PlonkCircuit) (trace_hash : string) (a : PlonkAssignment)
    (instance_values : list Z) : list (string * pyval) :=
  [("input_hash", PStr (w_input w)); ("output_hash", PStr (w_output w));
   ("circuit_hash", PStr (pc_circuit_hash c)); ("trace_hash", PStr trace_hash);
   ("public_inputs_hash", PStr (public_inputs_hash a)); ("witness_hash", PStr (w_witness_hash w));
   ("a_col", column (a_col a)); ("b_col", column (b_col a)); ("c_col", column (c_col a));
   ("instance_values", column instance_values); ("key_root", PStr key_root)].

Definition proof_metadata (w : Witness) (c : PlonkCircuit) (trace_hash pih : string) (m : KeyMaterial)
    (backend_metadata : list (string * string)) : list (string * string) :=
  let get k d := default d (dict_get k backend_metadata) in
  [("backend_version", get "backend_version" BACKEND_VERSION); ("backend", "halo2-rust-subprocess");
   ("circuit", pc_version c); ("circuit_hash", pc_circuit_hash c); ("trace_hash", trace_hash);
   ("public_inputs_hash", pih); ("params_k", get "params_k" (str_of_Z (km_params_k m)));
   ("proving_key_id", get "proving_key_id" (km_proving_key_id m));
   ("verification_key_id", get "verification_key_id" (km_verification_key_id m));
   ("trace_artifact_id", w_trace_artifact_id w); ("witness_hash", w_witness_hash w)].

Definition build_plonk_proof (now : string) (w : Witness) (trace_hash produced_by : string) (cycle : Z)
    : logged Proof_ :=
  _ ← silent (_assert_witness_trace_match w trace_hash);
  c ← silent compile_circuit;
  m ← logging (ensure_compiled now (Some c));
  a ← silent (generate_assignment coerce_int rules w);
  landed_cost_fp ← silent (subscript_dict "landed_cost_fp" (wire_map a));
  instance_values ← silent (build_instance_values landed_cost_fp trace_hash (pc_circuit_hash c)
                              (public_inputs_hash a));
  r ← silent (run_prove (prove_payload w c trace_hash a instance_values));
  let public_inputs_list := serialize_public_inputs (w_public_inputs w) in
  final_proof ← silent (_final_proof_hash (po_proof_bytes_hex r) (po_commitments r) public_inputs_list
                          (pc_circuit_hash c) trace_hash (public_inputs_hash a));
  silent (build_proof_artifact _PROOF_SYSTEM ("circuit_" +:+ str_take 24 (pc_circuit_hash c))
    (artifact_id (w_header w)) (po_commitments r) public_inputs_list
    (proof_metadata w c trace_hash (public_inputs_hash a) m (po_metadata r))
    (po_proof_bytes_hex r) (w_input w) (w_output w) trace_hash final_proof produced_by cycle).

(** ** The verifier *)

Definition _SUPPORTED_PROOF_SYSTEM : string := "plonk".
Definition _VERIFIER_BACKEND : string := "halo2-plonk-pasta-v1-verifier".

(** One ['key=value'] entry into the dictionary. *)
Definition parse_entry (public_inputs : list (string * string)) (entry : string)
    : result (list (string * string)) :=
  if negb (str_contains "=" entry) then raise ValueError "invalid public input entry: {}"
  else
    let '(key, value) := str_split1 "=" entry in
    if bool_decide (key = "") then raise ValueError "invalid public input key: {}"
    else Ok (dict_set key value public_inputs).

Definition _parse_public_inputs (entries : list string) : result (list (string * string)) :=
  isort key_leb <$> fold_result parse_entry entries [].

Definition verifier_final_proof_hash (proof_blob_hex : string) (commitments public_inputs : list string)
    (circuit_hash trace_hash public_inputs_hash : string) : result string :=
  hash_payload (final_proof_payload proof_blob_hex commitments public_inputs _SUPPORTED_PROOF_SYSTEM
                  circuit_hash trace_hash public_inputs_hash).

Definition verify_payload (c : PlonkCircuit) (proof : Proof_) (pih : string) (instance_values : list Z)
    : list (string * pyval) :=
  [("circuit_hash", PStr (pc_circuit_hash c)); ("trace_hash", PStr (p_trace_hash proof));
   ("public_inputs_hash", PStr pih); ("proof_bytes_hex", PStr (p_proof_blob_hex proof));
   ("instance_values", column instance_values); ("key_root", PStr key_root)].

(** The checks made so far, and the key log. *)
Record progress := mkProgress { pr_checks : list string; pr_keys : key_log }.

Definition checking (A : Type) : Type := progress → result A * progress.

#[global] Instance checking_ret : MRet checking := fun A a s => (Ok a, s).
#[global] Instance checking_bind : MBind checking := fun A B f m s =>
  match m s with (Ok a, s) => f a s | (Raise e, s) => (Raise e, s) end.

Definition attempt {A} (r : result A) : checking A := fun s => (r, s).
Definition passed (checks : list string) : checking unit := fun s =>
  (Ok tt, mkProgress (pr_checks s ++ checks) (pr_keys s)).
Definition with_keys {A} (f : key_log → result (A * key_log)) : checking A := fun s =>
  match f (pr_keys s) with
  | Ok (a, k) => (Ok a, mkProgress (pr_checks s) k)
  | Raise e => (Raise e, s)
  end.

Section verifier.
Context (now produced_by : string) (cycle : Z) (proof : Proof_).

Definition _invalid_result (reason : string) (checks : list string) (metadata : list (string * string))
    : result VerificationResult :=
  build_verification_artifact (artifact_id (p_header proof)) _VERIFIER_BACKEND INVALID reason checks metadata
    produced_by cycle.

(** An early return: the checks so far and the one that failed. *)
Definition refuse (reason failed : string) (metadata : list (string * string)) : checking VerificationResult :=
  fun s => (_invalid_result reason (pr_checks s ++ [failed]) metadata, s).

(** The one return that is not an [_invalid_result]. *)
Definition accept (reason : string) (metadata : list (string * string)) : checking VerificationResult :=
  fun s => (build_verification_artifact (artifact_id (p_header proof)) _VERIFIER_BACKEND VALID reason
              (pr_checks s) metadata produced_by cycle, s).

Definition metadata_get (k d : string) : string := default d (dict_get k (p_metadata proof)).

Definition result_metadata : list (string * string) :=
  [("proof_system", p_proof_system proof); ("circuit_hash", metadata_get "circuit_hash" "")].

(** [{**d, **e}] *)
Definition merged (d e : list (string * string)) : list (string * string) :=
  fold_left (fun d p => dict_set p.1 p.2 d) e d.

(** After the key: the backend has the last word. *)
Definition ask_backend (c : PlonkCircuit) (landed_cost pih : string) : checking VerificationResult :=
  landed_cost_fp ← attempt (to_fixed_point (PStr landed_cost));
  instance_values ← attempt (build_instance_values landed_cost_fp (p_trace_hash proof) (pc_circuit_hash c) pih);
  response ← attempt (run_verify (verify_payload c proof pih instance_values));
  _ ← passed (vo_checks response);
  if negb (vo_valid response)
  then refuse (default "Halo2 verification failed" (vo_reason response)) "halo2_verification_failed"
         (merged result_metadata (vo_metadata response))
  else
    _ ← passed ["halo2_verification_ok"];
    accept (default "Halo2 proof verified" (vo_reason response)) (merged result_metadata (vo_metadata response)).

Definition check_key (c : PlonkCircuit) (landed_cost pih : string) : checking VerificationResult :=
  vk ← with_keys (derive_verification_key now (pc_circuit_hash c) (Some c));
  let claimed := metadata_get "verification_key_id" "" in
  if negb (bool_decide (claimed = "")) && negb (bool_decide (claimed = dk_key_id vk))
  then refuse "verification_key binding mismatch" "verification_key_binding_mismatch"
         (result_metadata ++ [("expected_verification_key_id", dk_key_id vk)])
  else
    _ ← passed ["verification_key_binding_ok"];
    ask_backend c landed_cost pih.

Definition check_hashes (c : PlonkCircuit) (public_inputs : list (string * string)) (landed_cost : string)
    : checking VerificationResult :=
  pih ← attempt (canonical_public_inputs_hash public_inputs);
  same ← attempt (constant_time_equal pih (metadata_get "public_inputs_hash" ""));
  if negb same
  then refuse "public_inputs_hash binding mismatch" "public_inputs_hash_binding_mismatch"
         (result_metadata ++ [("expected_public_inputs_hash", pih)])
  else
    _ ← passed ["public_inputs_hash_binding_ok"];
    expected_final_proof ← attempt (verifier_final_proof_hash (p_proof_blob_hex proof) (p_commitments proof)
      (p_public_inputs proof) (pc_circuit_hash c) (p_trace_hash proof) pih);
    same ← attempt (constant_time_equal expected_final_proof (p_final_proof proof));
    if negb same
    then refuse "final_proof binding mismatch" "final_proof_binding_mismatch" result_metadata
    else
      _ ← passed ["final_proof_binding_ok"];
      check_key c landed_cost pih.

(** The body of the [try]. *)
Definition verify_body : checking VerificationResult :=
  public_inputs ← attempt (_parse_public_inputs (p_public_inputs proof));
  _ ← passed ["public_inputs_parse_ok"];
  match dict_get "landed_cost" public_inputs with
  | None => refuse "missing landed_cost public input" "landed_cost_public_input_missing" result_metadata
  | Some landed_cost =>
      c ← attempt compile_circuit;
      _ ← passed ["circuit_compile_ok"];
      if negb (bool_decide (metadata_get "circuit_hash" "" = pc_circuit_hash c)) ||
         negb (bool_decide (circuit_hash proof = pc_circuit_hash c))
      then refuse "circuit_hash binding mismatch" "circuit_hash_binding_mismatch"
             (result_metadata ++ [("expected_circuit_hash", pc_circuit_hash c)])
      else
        _ ← passed ["circuit_hash_binding_ok"];
        if negb (bool_decide (metadata_get "trace_hash" (p_trace_hash proof) = p_trace_hash proof))
        then refuse "trace_hash metadata mismatch" "trace_hash_binding_mismatch" result_metadata
        else
          _ ← passed ["trace_hash_binding_ok"];
          check_hashes c public_inputs landed_cost
  end.

Definition verify_plonk_proof : logged VerificationResult := fun st =>
  if negb (bool_decide (p_proof_system proof = _SUPPORTED_PROOF_SYSTEM))
  then (_invalid_result ("unsupported proof_system: " +:+ py_repr (p_proof_system proof))
          ["proof_system_check_failed"] result_metadata, st)
  else
    match verify_body (mkProgress [] st) with
    | (Ok r, s) => (Ok r, pr_keys s)
    | (Raise e, s) =>
        (_invalid_result ("verification backend error: " +:+ exn_msg e)
           (pr_checks s ++ ["verification_backend_error"]) result_metadata, pr_keys s)
    end.
End verifier.
End plonk.
