(* ===== verification/RustBackend.v ===== *)
(** * The native backend (zk/rust_backend/src/main.rs)

    The program behind [run_backend]: its three commands over the interface
    [Crates] of what it takes from elsewhere, the halo2 and ff crates, hex and
    serde, and the file system.  An [Err] is printed and exits with status 1,
    which the Python side raises as [RuntimeError].  The program is proved to be
    a [complete_backend], what the Python side needs of a backend, when halo2
    proves what its mock prover accepts and verifies what it proved. *)
From S2P Require Export PlonkProps PlonkProof.

Local Open Scope Z_scope.

(** ** What the Python side needs of a backend *)

(** Columns of eight rows on which the gates hold over the integers, and so in
    every field, with the landed cost in the last row. *)
Definition integer_solution (a : PlonkAssignment) (landed : Z) : Prop :=
  (length (a_col a) = 8 ∧ length (b_col a) = 8 ∧ length (c_col a) = 8)%nat ∧
  Forall (fun z => 0 <= z) (a_col a ++ b_col a ++ c_col a) ∧
  (∀ i x y z, a_col a !! i = Some x → b_col a !! i = Some y → c_col a !! i = Some z →
     z = if (i <? 5)%nat then x * y else x + y) ∧
  c_col a !! 7%nat = Some landed.

(** It compiles the circuit and leaves a readable manifest of the verification
    key, proves every integer solution for the hashes at hand with the key it
    compiled, in ASCII, and accepts what it proved. *)
Record complete_backend (BK : Backend) : Prop := {
  compiles : ∃ r m, run_compile (compile_request compiled) = Ok r ∧
    manifest_text (co_verification_manifest_path r) = Ok m;
  proves r w t a fp iv :
    run_compile (compile_request compiled) = Ok r → hash_wf t → hash_wf (public_inputs_hash a) →
    integer_solution a fp →
    build_instance_values fp t (pc_circuit_hash compiled) (public_inputs_hash a) = Ok iv →
    ∃ o, run_prove (prove_payload w compiled t a iv) = Ok o ∧ is_ascii (po_proof_bytes_hex o) = true ∧
      default (co_verification_key_id r) (dict_get "verification_key_id" (po_metadata o)) =
        co_verification_key_id r ∧
      ∀ p, p_proof_blob_hex p = po_proof_bytes_hex o → p_trace_hash p = t →
        ∃ v, run_verify (verify_payload compiled p (public_inputs_hash a) iv) = Ok v ∧ vo_valid v = true }.

(** ** Data *)

Definition RUST_BACKEND_VERSION : string := "halo2-plonk-pasta-v1".
Definition PARAMS_K : Z := 6.
Definition EXPECTED_GATE_COUNT : nat := 8.
Definition EXPECTED_BINDINGS : nat := 12.
Definition EXPECTED_INSTANCE_VALUES : nat := 13.

(** The order of [pasta::Fp]; an element is its representative below it. *)
Definition PASTA_FP : Z := 0x40000000000000000000000000000000224698fc094cf91b992d30ed00000001.

Record CompileInput := mkCompileInput {
  ci_circuit_hash : string;
  ci_version : string;
  ci_binding_targets : list string;
  ci_constraint_count : Z;
  ci_key_root : string }.

Record ProveInput := mkProveInput {
  pi_circuit_hash : string;
  pi_trace_hash : string;
  pi_public_inputs_hash : string;
  pi_witness_hash : string;
  pi_a_col : list string;
  pi_b_col : list string;
  pi_c_col : list string;
  pi_instance_values : list string;
  pi_key_root : string }.

Record VerifyInput := mkVerifyInput {
  vi_circuit_hash : string;
  vi_trace_hash : string;
  vi_public_inputs_hash : string;
  vi_proof_bytes_hex : string;
  vi_instance_values : list string;
  vi_key_root : string }.

Record KeyManifest := mkKeyManifest {
  mf_backend_version : string;
  mf_circuit_hash : string;
  mf_role : string;
  mf_key_id : string;
  mf_params_k : Z;
  mf_cache_mode : string }.

Record ImportCircuit := mkImportCircuit {
  ic_a_col : list Z;
  ic_b_col : list Z;
  ic_c_col : list Z;
  ic_public_bindings : list Z }.

Definition empty_circuit (binding_count : nat) : ImportCircuit :=
  mkImportCircuit (repeat 0 EXPECTED_GATE_COUNT) (repeat 0 EXPECTED_GATE_COUNT) (repeat 0 EXPECTED_GATE_COUNT)
    (repeat 0 binding_count).

(** The constraints [configure] and [synthesize] lay down: the multiplication
    gate on the first five rows and the addition gate on the next three, the
    last [c] cell bound to the first public value, and the bindings to the
    following ones. *)
Definition mul_gate (a b c : Z) : bool := (a * b - c) mod PASTA_FP =? 0.
Definition add_gate (a b c : Z) : bool := (a + b - c) mod PASTA_FP =? 0.

Definition row_holds (c : ImportCircuit) (row : nat) : bool :=
  match ic_a_col c !! row, ic_b_col c !! row, ic_c_col c !! row with
  | Some x, Some y, Some z => if (row <? 5)%nat then mul_gate x y z else add_gate x y z
  | _, _, _ => false
  end.

Definition satisfied (c : ImportCircuit) (instance_values : list Z) : bool :=
  forallb (row_holds c) (seq 0 EXPECTED_GATE_COUNT) &&
  bool_decide (ic_c_col c !! 7%nat = instance_values !! 0%nat) &&
  bool_decide (ic_public_bindings c = take (length (ic_public_bindings c)) (drop 1 instance_values)).

(** ** What comes from elsewhere *)

Class Crates := {
  VerifyingKey : Type;
  ProvingKey : Type;
  from_str_vartime : string → option Z;                       (* ff *)
  mock_prover : ImportCircuit → list Z → result unit;         (* halo2 *)
  keygen_vk : ImportCircuit → result VerifyingKey;
  keygen_pk : VerifyingKey → ImportCircuit → result ProvingKey;
  create_proof : ProvingKey → ImportCircuit → list Z → string → result (list Z);
  halo2_verify : VerifyingKey → list Z → list Z → result unit;
  hex_encode : list Z → string;                               (* hex *)
  hex_decode : string → option (list Z);
  to_string_pretty : KeyManifest → string;                    (* serde_json *)
  create_dir_all : string → result unit;                      (* the file system *)
  write_file : string → string → result unit;
  read_file : string → result string }.

(** What is documented of it and used. *)
Class CrateLaws `{Crates} : Prop := {
  from_str_digits z : 0 <= z → from_str_vartime (str_of_Z z) = Some (z mod PASTA_FP);
  mock_prover_accepts c iv : satisfied c iv = true → mock_prover c iv = Ok tt;
  proves_satisfied : ∃ vk pk,
    keygen_vk (empty_circuit EXPECTED_BINDINGS) = Ok vk ∧ keygen_pk vk (empty_circuit EXPECTED_BINDINGS) = Ok pk ∧
    ∀ c iv seed, satisfied c iv = true →
      ∃ bytes, create_proof pk c iv seed = Ok bytes ∧ is_ascii (hex_encode bytes) = true ∧
        hex_decode (hex_encode bytes) = Some bytes ∧ halo2_verify vk iv bytes = Ok tt }.

(** ** The commands *)

Section rust.
Context `{Crates}.

(** [Path::join] to a path that does not end in a slash *)
Definition path_join (root name : string) : string := root +:+ "/" +:+ name.

Definition fp_from_decimal (value : string) : result Z :=
  match from_str_vartime value with Some z => Ok z | None => raise RuntimeError "invalid field element: {}" end.

Definition parse_fp_vec (values : list string) : result (list Z) := traverse fp_from_decimal values.

(** Its hexadecimal text; the seed is the 32 bytes. *)
Definition deterministic_rng_seed (circuit_hash trace_hash public_inputs_hash witness_hash : string) : string :=
  sha256_hex (circuit_hash +:+ trace_hash +:+ public_inputs_hash +:+ witness_hash).

Definition ensure_key_root (path : string) : result (string * string) :=
  let proving := path_join path "proving_key" in
  let verifying := path_join path "verification_key" in
  _ ← create_dir_all proving;
  _ ← create_dir_all verifying;
  Ok (proving, verifying).

Definition key_ids (circuit_hash : string) : string * string :=
  (sha256_hex (RUST_BACKEND_VERSION +:+ ":proving:" +:+ str_of_Z PARAMS_K +:+ ":" +:+ circuit_hash),
   sha256_hex (RUST_BACKEND_VERSION +:+ ":verification:" +:+ str_of_Z PARAMS_K +:+ ":" +:+ circuit_hash)).

Definition write_manifest (path : string) (manifest : KeyManifest) : result unit :=
  write_file path (to_string_pretty manifest).

Definition manifest_of (role key_id circuit_hash : string) : KeyManifest :=
  mkKeyManifest RUST_BACKEND_VERSION circuit_hash role key_id PARAMS_K "deterministic-regeneration".

Definition manifest_path (dir version circuit_hash : string) : string :=
  path_join dir (version +:+ "_" +:+ circuit_hash +:+ ".json").

Definition compile_keys (input : CompileInput) : result compile_output :=
  if negb (ci_constraint_count input =? Z.of_nat EXPECTED_GATE_COUNT)
  then raise RuntimeError "unexpected gate count: {}"
  else if negb (length (ci_binding_targets input) =? EXPECTED_INSTANCE_VALUES)%nat
  then raise RuntimeError "unexpected binding target count: {}"
  else
    '(proving_dir, verifying_dir) ← ensure_key_root (ci_key_root input);
    let '(proving_key_id, verification_key_id) := key_ids (ci_circuit_hash input) in
    let proving_manifest_path := manifest_path proving_dir (ci_version input) (ci_circuit_hash input) in
    let verification_manifest_path := manifest_path verifying_dir (ci_version input) (ci_circuit_hash input) in
    _ ← write_manifest proving_manifest_path (manifest_of "proving" proving_key_id (ci_circuit_hash input));
    _ ← write_manifest verification_manifest_path
          (manifest_of "verification" verification_key_id (ci_circuit_hash input));
    Ok (mkCompileOutput (ci_circuit_hash input) proving_key_id verification_key_id PARAMS_K
          (Some RUST_BACKEND_VERSION) proving_manifest_path verification_manifest_path).

(** The call [prove] and [verify] begin with. *)
Definition compile_for (circuit_hash key_root : string) : result compile_output :=
  compile_keys (mkCompileInput circuit_hash "import-landed-cost-plonk-v2-halo2"
    (repeat "landed_cost_fp" EXPECTED_INSTANCE_VALUES) (Z.of_nat EXPECTED_GATE_COUNT) key_root).

Definition build_circuit (input : ProveInput) : result (ImportCircuit * list Z) :=
  if negb (length (pi_a_col input) =? EXPECTED_GATE_COUNT)%nat ||
     negb (length (pi_b_col input) =? EXPECTED_GATE_COUNT)%nat ||
     negb (length (pi_c_col input) =? EXPECTED_GATE_COUNT)%nat
  then raise RuntimeError "unexpected wire column length"
  else if negb (length (pi_instance_values input) =? EXPECTED_INSTANCE_VALUES)%nat
  then raise RuntimeError "unexpected instance value length: {}"
  else
    instance_values ← parse_fp_vec (pi_instance_values input);
    a ← parse_fp_vec (pi_a_col input);
    b ← parse_fp_vec (pi_b_col input);
    c ← parse_fp_vec (pi_c_col input);
    Ok (mkImportCircuit a b c (drop 1 instance_values), instance_values).

(** A [BTreeMap]: its entries by key. *)
Definition rust_metadata (circuit_hash trace_hash public_inputs_hash : string) : list (string * string) :=
  let '(proving_key_id, verification_key_id) := key_ids circuit_hash in
  [("backend_version", RUST_BACKEND_VERSION); ("circuit_hash", circuit_hash);
   ("params_k", str_of_Z PARAMS_K); ("proving_key_id", proving_key_id);
   ("public_inputs_hash", public_inputs_hash); ("trace_hash", trace_hash);
   ("verification_key_id", verification_key_id)].

Definition prove (input : ProveInput) : result prove_output :=
  _ ← compile_for (pi_circuit_hash input) (pi_key_root input);
  '(circuit, instance_values) ← build_circuit input;
  _ ← mock_prover circuit instance_values;
  vk ← keygen_vk (empty_circuit EXPECTED_BINDINGS);
  pk ← keygen_pk vk (empty_circuit EXPECTED_BINDINGS);
  proof ← create_proof pk circuit instance_values
    (deterministic_rng_seed (pi_circuit_hash input) (pi_trace_hash input) (pi_public_inputs_hash input)
       (pi_witness_hash input));
  Ok (mkProveOutput (hex_encode proof) []
        (rust_metadata (pi_circuit_hash input) (pi_trace_hash input) (pi_public_inputs_hash input))).

Definition rust_verify (input : VerifyInput) : result verify_output :=
  _ ← compile_for (vi_circuit_hash input) (vi_key_root input);
  if negb (length (vi_instance_values input) =? EXPECTED_INSTANCE_VALUES)%nat
  then raise RuntimeError "unexpected instance value length: {}"
  else
    vk ← keygen_vk (empty_circuit EXPECTED_BINDINGS);
    instance_values ← parse_fp_vec (vi_instance_values input);
    proof_bytes ← match hex_decode (vi_proof_bytes_hex input) with
                  | Some b => Ok b
                  | None => raise RuntimeError "invalid proof hex: {}"
                  end;
    let verified := is_ok (halo2_verify vk instance_values proof_bytes) in
    Ok (mkVerifyOutput verified
          (Some (if verified then "Halo2 proof verified" else "Halo2 proof verification failed: {}"))
          (if verified then ["public_instance_binding_ok"; "proof_bytes_valid"; "halo2_verification_ok"]
           else ["halo2_verification_failed"])
          (rust_metadata (vi_circuit_hash input) (vi_trace_hash input) (vi_public_inputs_hash input))).

(** ** From the JSON the bridge sends

    [serde_json::from_str]: every field of the struct has to be there with its
    type; other keys are ignored. *)

Definition str_field (k : string) (payload : list (string * pyval)) : result string :=
  match dict_get k payload with
  | Some (PStr s) => Ok s
  | Some _ => raise RuntimeError "invalid type: {}, expected a string"
  | None => raise RuntimeError "missing field `{}`"
  end.

Definition strs_field (k : string) (payload : list (string * pyval)) : result (list string) :=
  match dict_get k payload with
  | Some (PList l) =>
      traverse (fun v => match v with PStr s => Ok s | _ => raise RuntimeError "invalid type: {}, expected a string" end) l
  | Some _ => raise RuntimeError "invalid type: {}, expected a sequence"
  | None => raise RuntimeError "missing field `{}`"
  end.

Definition usize_field (k : string) (payload : list (string * pyval)) : result Z :=
  match dict_get k payload with
  | Some (PInt z) => if between 0 (2 ^ 64 - 1) z then Ok z else raise RuntimeError "invalid value: {}, expected usize"
  | Some _ => raise RuntimeError "invalid type: {}, expected usize"
  | None => raise RuntimeError "missing field `{}`"
  end.

Definition compile_command (payload : list (string * pyval)) : result compile_output :=
  circuit_hash ← str_field "circuit_hash" payload;
  version ← str_field "version" payload;
  binding_targets ← strs_field "binding_targets" payload;
  constraint_count ← usize_field "constraint_count" payload;
  root ← str_field "key_root" payload;
  compile_keys (mkCompileInput circuit_hash version binding_targets constraint_count root).

Definition prove_command (payload : list (string * pyval)) : result prove_output :=
  circuit_hash ← str_field "circuit_hash" payload;
  trace_hash ← str_field "trace_hash" payload;
  public_inputs_hash ← str_field "public_inputs_hash" payload;
  witness_hash ← str_field "witness_hash" payload;
  a ← strs_field "a_col" payload;
  b ← strs_field "b_col" payload;
  c ← strs_field "c_col" payload;
  instance_values ← strs_field "instance_values" payload;
  root ← str_field "key_root" payload;
  prove (mkProveInput circuit_hash trace_hash public_inputs_hash witness_hash a b c instance_values root).

Definition verify_command (payload : list (string * pyval)) : result verify_output :=
  circuit_hash ← str_field "circuit_hash" payload;
  trace_hash ← str_field "trace_hash" payload;
  public_inputs_hash ← str_field "public_inputs_hash" payload;
  proof_bytes_hex ← str_field "proof_bytes_hex" payload;
  instance_values ← strs_field "instance_values" payload;
  root ← str_field "key_root" payload;
  rust_verify (mkVerifyInput circuit_hash trace_hash public_inputs_hash proof_bytes_hex instance_values root).

(** The backend at a key root.  A manifest of the program's circuit is read
    after [compile_keys] has written it, and always with the same text. *)
Definition rust_backend (root : string) : Backend :=
  let h := pc_circuit_hash compiled in
  let verification_manifest := manifest_path (path_join root "verification_key") CIRCUIT_VERSION h in
  {| run_compile := compile_command;
     run_prove := prove_command;
     run_verify := verify_command;
     manifest_text path :=
       if bool_decide (path = verification_manifest)
       then Ok (to_string_pretty (manifest_of "verification" (key_ids h).2 h)) else read_file path;
     key_root := root |}.
End rust.

(** ** The backend is complete *)

Section complete.
Context `{!Crates} `{!CrateLaws}.

Lemma parse_column l :
  Forall (fun z => 0 <= z) l → parse_fp_vec (map str_of_Z l) = Ok (map (fun z => z mod PASTA_FP) l).
Proof using All.
  intros Hl. unfold parse_fp_vec. rewrite traverse_map. apply traverse_total. intros z Hz. unfold fp_from_decimal.
  rewrite Forall_forall in Hl. by rewrite from_str_digits by auto.
Qed.

Lemma gate_mod (op : Z → Z → Z) x y :
  (∀ x y, op (x mod PASTA_FP) (y mod PASTA_FP) mod PASTA_FP = op x y mod PASTA_FP) →
  (op (x mod PASTA_FP) (y mod PASTA_FP) - op x y mod PASTA_FP) mod PASTA_FP =? 0 = true.
Proof using. clear. intros H. apply Z.eqb_eq. rewrite Zminus_mod, H, Zmod_mod, Z.sub_diag. reflexivity. Qed.

(** An integer solution satisfies the circuit of the backend. *)
Lemma solution_satisfied a landed rest :
  integer_solution a landed →
  let fp := map (fun z => z mod PASTA_FP) in
  satisfied (mkImportCircuit (fp (a_col a)) (fp (b_col a)) (fp (c_col a)) (fp rest)) (fp (landed :: rest)) = true.
Proof using.
  clear. intros ((Ha & Hb & Hc) & _ & Hg & Hl). cbv zeta. unfold satisfied. rewrite !andb_true_iff. repeat split.
  - apply forallb_forall. intros i [_ Hi]%in_seq. unfold row_holds. cbn [ic_a_col ic_b_col ic_c_col].
    destruct (lookup_lt_is_Some_2 (a_col a) i) as [x Hx]; [unfold EXPECTED_GATE_COUNT in Hi; lia|].
    destruct (lookup_lt_is_Some_2 (b_col a) i) as [y Hy]; [unfold EXPECTED_GATE_COUNT in Hi; lia|].
    destruct (lookup_lt_is_Some_2 (c_col a) i) as [z Hz]; [unfold EXPECTED_GATE_COUNT in Hi; lia|].
    change (map ?f ?l) with (f <$> l). rewrite !list_lookup_fmap, Hx, Hy, Hz. cbn [fmap option_fmap option_map].
    rewrite (Hg i x y z Hx Hy Hz). destruct (i <? 5)%nat.
    + apply (gate_mod Z.mul). intros. by rewrite <-Z.mul_mod.
    + apply (gate_mod Z.add). intros. by rewrite <-Z.add_mod.
  - apply bool_decide_eq_true. cbn [ic_c_col map]. change (map ?f ?l) with (f <$> l).
    rewrite list_lookup_fmap, Hl. reflexivity.
  - apply bool_decide_eq_true. cbn [ic_public_bindings map drop]. by rewrite drop_0, take_ge.
Qed.

(** The public values are not negative. *)
Lemma limbs_nonneg s l : hash_wf s → hash_hex_to_limbs s = Ok l → Forall (fun z => 0 <= z) l.
Proof using.
  clear. intros Hs. unfold hash_hex_to_limbs. rewrite hash_length_ok by done. cbn [negb traverse].
  rewrite !(fun i Hi => proj1 (limb_value s i Hs Hi)) by lia. cbn [mbind result_bind]. intros [= <-].
  repeat constructor; (pose proof (fun a t Ha => hex_num_lower a t Ha) as H;
    match goal with |- 0 <= hex_num 0 ?t => specialize (H 0 t ltac:(lia)); lia end).
Qed.

Lemma instance_values_ok fp t c p iv :
  0 <= fp → hash_wf t → hash_wf c → hash_wf p → build_instance_values fp t c p = Ok iv →
  ∃ rest, iv = fp :: rest ∧ length rest = 12%nat ∧ Forall (fun z => 0 <= z) iv.
Proof using.
  clear. intros Hfp Ht Hc Hp. unfold build_instance_values.
  destruct (limbs_total t Ht) as (lt & Et & Lt), (limbs_total c Hc) as (lc & Ec & Lc), (limbs_total p Hp) as (lp & Ep & Lp).
  rewrite Et, Ec, Ep. cbn [mbind result_bind]. intros [= <-]. exists (lt ++ lc ++ lp). split; [done|].
  split; [rewrite !length_app; lia|]. constructor; [done|].
  rewrite !Forall_app. split; [exact (limbs_nonneg t lt Ht Et)|].
  split; [exact (limbs_nonneg c lc Hc Ec)|exact (limbs_nonneg p lp Hp Ep)].
Qed.

(** Reading back the fields of the payloads. *)
Lemma strs_field_strs k payload l : dict_get k payload = Some (strs l) → strs_field k payload = Ok l.
Proof using.
  clear. unfold strs_field. intros ->. unfold strs. rewrite traverse_map. rewrite (traverse_total _ Datatypes.id);
    [by rewrite map_id|done].
Qed.

Lemma compile_request_read root c :
  n_gates c = 8%nat →
  compile_command (@compile_request (rust_backend root) c) =
  compile_keys (mkCompileInput (pc_circuit_hash c) (pc_version c) (public_binding_targets c) 8 root).
Proof using.
  clear. intros Hn. unfold compile_command.
  rewrite (strs_field_strs "binding_targets" (@compile_request (rust_backend root) c) (public_binding_targets c) eq_refl).
  unfold str_field, usize_field, compile_request. rewrite Hn. reflexivity.
Qed.

Lemma prove_payload_read root w c t a iv :
  prove_command (@prove_payload (rust_backend root) w c t a iv) =
  prove (mkProveInput (pc_circuit_hash c) t (public_inputs_hash a) (w_witness_hash w) (map str_of_Z (a_col a))
           (map str_of_Z (b_col a)) (map str_of_Z (c_col a)) (map str_of_Z iv) root).
Proof using.
  clear. unfold prove_command.
  rewrite (strs_field_strs "a_col" (@prove_payload (rust_backend root) w c t a iv) (map str_of_Z (a_col a)) eq_refl),
    (strs_field_strs "b_col" (@prove_payload (rust_backend root) w c t a iv) (map str_of_Z (b_col a)) eq_refl),
    (strs_field_strs "c_col" (@prove_payload (rust_backend root) w c t a iv) (map str_of_Z (c_col a)) eq_refl),
    (strs_field_strs "instance_values" (@prove_payload (rust_backend root) w c t a iv) (map str_of_Z iv) eq_refl).
  reflexivity.
Qed.

Lemma verify_payload_read root c p pih iv :
  verify_command (@verify_payload (rust_backend root) c p pih iv) =
  rust_verify (mkVerifyInput (pc_circuit_hash c) (p_trace_hash p) pih (p_proof_blob_hex p) (map str_of_Z iv) root).
Proof using.
  clear. unfold verify_command. rewrite (strs_field_strs "instance_values" (@verify_payload (rust_backend root) c p pih iv) (map str_of_Z iv)
    eq_refl). reflexivity.
Qed.

(** The backend can write its manifests. *)
Definition disk_ready (root : string) : Prop :=
  ∃ r, compile_keys (mkCompileInput (pc_circuit_hash compiled) CIRCUIT_VERSION PUBLIC_BINDING_TARGETS 8 root) = Ok r.

Lemma compile_keys_fields h v ts root r :
  compile_keys (mkCompileInput h v ts 8 root) = Ok r →
  co_verification_key_id r = (key_ids h).2 ∧
  co_verification_manifest_path r = manifest_path (path_join root "verification_key") v h.
Proof using.
  clear. unfold compile_keys. cbn [ci_constraint_count]. change (negb (8 =? Z.of_nat EXPECTED_GATE_COUNT)) with false.
  cbn iota. destruct (negb _); [done|]. intros ([d e] & Hd & Hk)%bind_ok.
  unfold ensure_key_root in Hd. apply bind_ok in Hd as (u1 & _ & Hd). apply bind_ok in Hd as (u2 & _ & Hd).
  injection Hd as <- <-. unfold key_ids in Hk |- *. cbn [ci_circuit_hash ci_version ci_key_root fst snd] in *.
  apply bind_ok in Hk as (u3 & _ & Hk). apply bind_ok in Hk as (u4 & _ & Hk). injection Hk as <-. done.
Qed.

(** The version and the number of targets are those of the program's circuit. *)
Lemma compile_for_ready root : disk_ready root → ∃ r, compile_for (pc_circuit_hash compiled) root = Ok r.
Proof using.
  clear. intros [r Hr]. exists r. unfold compile_for. rewrite <-Hr. generalize (pc_circuit_hash compiled).
  intros h. reflexivity.
Qed.

Lemma prove_complete root w t a landed iv :
  disk_ready root → hash_wf t → hash_wf (public_inputs_hash a) → integer_solution a landed →
  build_instance_values landed t (pc_circuit_hash compiled) (public_inputs_hash a) = Ok iv →
  ∃ o bytes, prove_command (@prove_payload (rust_backend root) w compiled t a iv) = Ok o ∧
    is_ascii (po_proof_bytes_hex o) = true ∧ dict_get "verification_key_id" (po_metadata o) =
      Some (key_ids (pc_circuit_hash compiled)).2 ∧
    hex_decode (po_proof_bytes_hex o) = Some bytes ∧
    ∃ vk, keygen_vk (empty_circuit EXPECTED_BINDINGS) = Ok vk ∧
      halo2_verify vk (map (fun z => z mod PASTA_FP) iv) bytes = Ok tt.
Proof using All.
  intros Hd Ht Hp Hs Hiv. destruct (compile_for_ready root Hd) as [r Hr]. rewrite prove_payload_read.
  assert (hash_wf (pc_circuit_hash compiled)) as Hc by apply sha256_hex_wf.
  destruct Hs as ((Ha & Hb & Hcl) & Hpos & Hg & Hl) eqn:Es. clear Es.
  assert (integer_solution a landed) as Hsol by done.
  rewrite !Forall_app in Hpos. destruct Hpos as (Pa & Pb & Pc).
  assert (0 <= landed) as Hland by (rewrite Forall_forall in Pc; eapply Pc, list_elem_of_lookup_2, Hl).
  destruct (instance_values_ok _ _ _ _ _ Hland Ht Hc Hp Hiv) as (rest & -> & Hrest & Piv).
  revert Hr Hc. generalize (pc_circuit_hash compiled). intros h Hr Hc. unfold prove.
  cbn [pi_circuit_hash pi_key_root]. rewrite Hr. cbn [mbind result_bind]. unfold build_circuit.
  cbn [pi_a_col pi_b_col pi_c_col pi_instance_values]. rewrite !length_map, Ha, Hb, Hcl. cbn [length]. rewrite Hrest.
  cbn [Nat.eqb negb orb EXPECTED_GATE_COUNT EXPECTED_INSTANCE_VALUES]. rewrite !parse_column by done.
  cbn [mbind result_bind map drop]. rewrite drop_0.
  pose proof (solution_satisfied a landed rest Hsol) as Hsat. cbv zeta in Hsat. cbn [map] in Hsat.
  rewrite (mock_prover_accepts _ _ Hsat). destruct proves_satisfied as (vk & pk & Hvk & Hpk & Hprove).
  cbn [mbind result_bind]. rewrite Hvk. cbn [mbind result_bind]. rewrite Hpk. cbn [mbind result_bind].
  destruct (Hprove _ _ (deterministic_rng_seed h t (public_inputs_hash a) (w_witness_hash w)) Hsat)
    as (bytes & Hcreate & Hasc & Hdec & Hver).
  cbn [pi_trace_hash pi_public_inputs_hash pi_witness_hash]. rewrite Hcreate. cbn [mbind result_bind].
  eexists _, bytes. split; [reflexivity|]. split; [exact Hasc|]. split; [reflexivity|]. split; [exact Hdec|].
  exists vk. split; [done|exact Hver].
Qed.

Lemma verify_complete root p pih iv bytes vk :
  disk_ready root → length iv = 13%nat → Forall (fun z => 0 <= z) iv →
  hex_decode (p_proof_blob_hex p) = Some bytes → keygen_vk (empty_circuit EXPECTED_BINDINGS) = Ok vk →
  halo2_verify vk (map (fun z => z mod PASTA_FP) iv) bytes = Ok tt →
  ∃ v, verify_command (@verify_payload (rust_backend root) compiled p pih iv) = Ok v ∧ vo_valid v = true.
Proof using All.
  intros Hd Hlen Hpos Hdec Hvk Hver. destruct (compile_for_ready root Hd) as [r Hr]. rewrite verify_payload_read.
  revert Hr. generalize (pc_circuit_hash compiled). intros h Hr. unfold rust_verify.
  cbn [vi_circuit_hash vi_key_root vi_instance_values vi_proof_bytes_hex]. rewrite Hr. cbn [mbind result_bind].
  rewrite length_map, Hlen. change (negb (13 =? EXPECTED_INSTANCE_VALUES)%nat) with false. cbn iota.
  rewrite Hvk. cbn [mbind result_bind]. rewrite parse_column by done. cbn [mbind result_bind].
  rewrite Hdec. cbn [mbind result_bind]. rewrite Hver. cbn [is_ok]. eexists. split; [reflexivity|reflexivity].
Qed.

(** The backend of the repository is complete.  Where it can write its
    manifests, it compiles the program's circuit, its manifest can be read, and
    it proves every integer solution and accepts the proof, under the key it
    compiled. *)
Theorem rust_backend_complete root : disk_ready root → complete_backend (rust_backend root).
Proof using All.
  intros Hd. destruct Hd as [r Hr] eqn:Ed. clear Ed.
  assert (@run_compile (rust_backend root) (@compile_request (rust_backend root) compiled) = Ok r) as Hrun.
  { cbn [run_compile rust_backend]. rewrite compile_request_read by reflexivity. exact Hr. }
  destruct (compile_keys_fields _ _ _ _ _ Hr) as [Hid Hpath]. split.
  - exists r, (to_string_pretty (manifest_of "verification" (key_ids (pc_circuit_hash compiled)).2
      (pc_circuit_hash compiled))). split; [exact Hrun|].
    cbn [manifest_text rust_backend]. rewrite bool_decide_eq_true_2; [reflexivity|exact Hpath].
  - intros r' w t a fp iv Hr' Ht Hp Hs Hiv. rewrite Hrun in Hr'. injection Hr' as <-.
    destruct (prove_complete root w t a fp iv Hd Ht Hp Hs Hiv)
      as (o & bytes & Ho & Hasc & Hmeta & Hdec & vk & Hvk & Hver).
    exists o. split; [exact Ho|]. split; [exact Hasc|].
    split; [rewrite Hid, Hmeta; reflexivity|]. intros p Hblob _.
    assert (0 <= fp) as Hfp.
    { destruct Hs as (_ & Hpos & _ & Hl). rewrite !Forall_app, !Forall_forall in Hpos.
      destruct Hpos as (_ & _ & Pc). by eapply Pc, list_elem_of_lookup_2. }
    destruct (instance_values_ok fp t _ _ iv Hfp Ht (sha256_hex_wf _) Hp Hiv) as (rest & E & Hrest & Hpos).
    apply (verify_complete root p _ iv bytes vk Hd); [rewrite E; cbn [length]; by rewrite Hrest|exact Hpos| |exact Hvk|exact Hver].
    rewrite Hblob. exact Hdec.
Qed.
End complete.

(** ** Honest assignments

    Their wires are integers that do not wrap around, so they are integer
    solutions. *)
Lemma wired_columns customs quantity ext one duty s301 mpf hmf partial sum full base landed freight insurance pih :
  let m := [("customs_value_fp", customs); ("quantity_fp", quantity); ("extended_value_fp", ext); ("one_fp", one);
            ("duty_amount_fp", duty); ("s301_amount_fp", s301); ("mpf_amount_fp", mpf); ("hmf_amount_fp", hmf);
            ("fee_partial_fp", partial); ("mpf_hmf_sum_fp", sum); ("fee_full_fp", full); ("base_sum_fp", base);
            ("landed_cost_fp", landed); ("freight_fp", freight); ("insurance_fp", insurance)] in
  wired m pih =
  mkAssignmentCols [customs; duty; s301; mpf; hmf; duty; partial; base] [quantity; one; one; one; one; s301; sum; full]
    [ext; duty; s301; mpf; hmf; partial; full; landed] m pih.
Proof. reflexivity. Qed.

Lemma honest_solution coerce_int q rule pih :
  (∀ z, coerce_int (PInt z) = Some z) → valid_request q = true → rule ∈ TARIFF_RULES → hs_code q = hs_prefix rule →
  in_range q → landed_of q rule < CENTS_LIMIT →
  integer_solution (honest_assignment q rule pih) (fp (landed_of q rule)).
Proof.
  intros Hz Hv Hr Hhs Hb Hl. rewrite (honest_exact coerce_int q rule Hz Hv Hr Hhs Hb Hl).
  pose proof (exact_wires_small coerce_int q rule Hz Hv Hr Hhs Hb Hl) as Hw.
  destruct (honest_bounds q Hv Hb) as (Bc & Ee & Bn).
  assert (0 <= landed_of q rule * 10 ^ 4 < 10 ^ 40) as Hland.
  { rewrite Forall_forall in Hw. apply (Hw ("landed_cost_fp", landed_of q rule * 10 ^ 4)).
    unfold exact_wires. do 12 right. by left. }
  unfold fp. rewrite small_mod by exact Hland.
  assert (landed_of q rule = ext_of q + cents_of (freight q) + cents_of (insurance q) +
    (duty_of q rule + section_301_of q rule + (mpf_of q + hmf_of q))) as Elanded by (unfold landed_of; lia).
  revert Hw Ee Elanded. unfold exact_wires.
  generalize (ext_of q), (duty_of q rule), (section_301_of q rule), (mpf_of q), (hmf_of q), (cents_of (freight q)),
    (cents_of (insurance q)), (cents_of (customs_value q)), (quantity q), (landed_of q rule).
  clear. intros e d s m h f i c n l Hw Ee ->. subst e. rewrite !Forall_cons in Hw. cbn [snd] in Hw.
  rewrite (wired_columns (c * 10 ^ 4) n). unfold integer_solution. cbn [a_col b_col c_col app].
  split; [done|]. split; [|split; [|reflexivity]].
  - repeat (apply Forall_cons_2; [lia|]). apply Forall_nil_2.
  - intros j x y z. do 8 (destruct j as [|j]; [cbn; intros [= <-] [= <-] [= <-]; lia|]). done.
Qed.

(** ** An instance

    Proofs that are digests of the public values, and a disk that takes
    everything. *)

Definition toy_digest (iv : list Z) : list Z :=
  default [] (bytes_fromhex (sha256_hex (str_join "," (map str_of_Z iv)))).

#[export] Instance toy_crates : Crates := {|
  VerifyingKey := unit;
  ProvingKey := unit;
  from_str_vartime s :=
    if str_forall is_decimal s && negb (bool_decide (s = "")) then Some (dec_value 0 s mod PASTA_FP) else None;
  mock_prover c iv := if satisfied c iv then Ok tt else raise RuntimeError "constraint not satisfied";
  keygen_vk _ := Ok tt;
  keygen_pk _ _ := Ok tt;
  create_proof _ _ iv _ := Ok (toy_digest iv);
  halo2_verify _ iv bytes := if bool_decide (bytes = toy_digest iv) then Ok tt else raise RuntimeError "opening error";
  hex_encode := hex_of_bytes;
  hex_decode := bytes_fromhex;
  to_string_pretty m := mf_key_id m;
  create_dir_all _ := Ok tt;
  write_file _ _ := Ok tt;
  read_file _ := raise RuntimeError "No such file or directory" |}.

Lemma toy_digest_hex iv :
  ∃ s, hash_wf s ∧ hex_of_bytes (toy_digest iv) = s ∧ bytes_fromhex s = Some (toy_digest iv).
Proof.
  pose proof (sha256_hex_wf (str_join "," (map str_of_Z iv))) as [Hl Hs].
  destruct (bytes_fromhex_lower 32 _ Hl Hs) as (l & El & Hh & _). unfold toy_digest. rewrite El.
  exists (sha256_hex (str_join "," (map str_of_Z iv))). split; [by split|]. by split.
Qed.

#[export] Instance toy_laws : CrateLaws.
Proof.
  split.
  - intros z Hz. cbn [from_str_vartime toy_crates]. rewrite str_of_Z_digits, dec_value_str by done.
    rewrite bool_decide_eq_false_2; [reflexivity|]. intros E. pose proof (str_of_Z_length z Hz) as H.
    rewrite E in H. cbn in H. lia.
  - intros c iv H. cbn [mock_prover toy_crates]. by rewrite H.
  - exists tt, tt. do 2 (split; [reflexivity|]). intros c iv seed _. exists (toy_digest iv).
    destruct (toy_digest_hex iv) as (s & Hs & Hh & Hb). cbn [create_proof hex_encode hex_decode halo2_verify toy_crates].
    split; [reflexivity|]. rewrite Hh. split; [by apply hash_wf_ascii|]. split; [exact Hb|].
    by rewrite bool_decide_eq_true_2.
Qed.

Definition toy_backend : Backend := rust_backend "keys".

Lemma toy_disk : disk_ready "keys".
Proof. unfold disk_ready. generalize (pc_circuit_hash compiled). intros h. eexists. reflexivity. Qed.

Example rust_backend_complete_witness : complete_backend (rust_backend "keys").
Proof. exact (rust_backend_complete "keys" toy_disk). Defined.
