(* ===== verification/PlonkProofProps.v ===== *)
(** * What PLONK verification decides (zk/provers/plonk_prover.py,
    zk/verifiers/plonk_verifier.py)

    The verifier against its specification, the binding of a final proof, and
    the prover's proofs through the verifier, for a backend that is complete. *)
From S2P Require Export RustBackend.

Local Open Scope Z_scope.

(** ** The log of a computation *)

(** [k'] is [k], or [k] with one record that follows it. *)
Definition one_event (k k' : key_log) : Prop :=
  k' = k ∨ ∃ e, follows (_prev_hash k) e ∧ k' = mkKeyLog (ke_current_hash e) (key_records k ++ [e]).

Lemma one_event_chain k k' :
  key_chain _ZERO_HASH (key_records k) → _prev_hash k = key_tip _ZERO_HASH (key_records k) → one_event k k' →
  key_chain _ZERO_HASH (key_records k') ∧ _prev_hash k' = key_tip _ZERO_HASH (key_records k').
Proof.
  intros Hc Ht [->|(e & He & ->)]; [done|]. cbn [_prev_hash key_records].
  rewrite key_chain_app, key_tip_snoc, <-Ht. done.
Qed.

Section props.
Context `{BK : Backend}.

Lemma ensure_compiled_spec now c st :
  match run_compile (compile_request c) with
  | Ok r => ∃ st', ensure_compiled now (Some c) st = Ok (key_material r, st') ∧ one_event st st'
  | Raise x => ensure_compiled now (Some c) st = Raise x
  end.
Proof.
  unfold ensure_compiled, resolve_circuit. cbn [mbind result_bind].
  destruct (run_compile (compile_request c)) as [r|x]; cbn [mbind result_bind]; [|done].
  unfold log_key_generation. edestruct append_event_ok as (e & -> & Hf & _); [reflexivity|].
  cbn [mbind result_bind snd]. eexists. split; [reflexivity|]. right. eauto.
Qed.

Lemma derive_vk_spec now c st :
  match run_compile (compile_request c) with
  | Ok r => ∃ k st', derive_verification_key now (pc_circuit_hash c) (Some c) st = Ok (k, st') ∧
              dk_key_id k = co_verification_key_id r ∧ one_event st st'
  | Raise x => derive_verification_key now (pc_circuit_hash c) (Some c) st = Raise x
  end.
Proof.
  pose proof (ensure_compiled_spec now c st) as H.
  unfold derive_verification_key, checked_circuit. cbn [resolve_circuit mbind result_bind].
  rewrite String.eqb_refl. cbn [mbind result_bind].
  destruct (run_compile (compile_request c)) as [r|x].
  - destruct H as (st' & -> & He). cbn [mbind result_bind]. eauto.
  - by rewrite H.
Qed.

(** ** The specification *)

Section spec.
Context (proof : Proof_).

(** The backend accepts the proof for this cost and these public inputs. *)
Definition backend_accepts (landed_cost pih : string) : Prop :=
  ∃ fp iv r, to_fixed_point (PStr landed_cost) = Ok fp ∧
    build_instance_values fp (p_trace_hash proof) (pc_circuit_hash compiled) pih = Ok iv ∧
    run_verify (verify_payload compiled proof pih iv) = Ok r ∧ vo_valid r = true.

(** The key the proof names, if it names one, is the circuit's. *)
Definition key_accepts : Prop :=
  ∃ r, run_compile (compile_request compiled) = Ok r ∧
    (metadata_get proof "verification_key_id" "" = "" ∨
     metadata_get proof "verification_key_id" "" = co_verification_key_id r).

(** The final proof is the hash of the parts it binds. *)
Definition final_proof_bound (pih : string) : Prop :=
  p_final_proof proof =
    payload_hash (final_proof_payload (p_proof_blob_hex proof) (p_commitments proof) (p_public_inputs proof)
                    _SUPPORTED_PROOF_SYSTEM (pc_circuit_hash compiled) (p_trace_hash proof) pih).

Definition plonk_accepts : Prop :=
  p_proof_system proof = "plonk" ∧
  ∃ public_inputs landed_cost,
    _parse_public_inputs (p_public_inputs proof) = Ok public_inputs ∧
    dict_get "landed_cost" public_inputs = Some landed_cost ∧
    circuit_hash proof = pc_circuit_hash compiled ∧
    metadata_get proof "trace_hash" (p_trace_hash proof) = p_trace_hash proof ∧
    let pih := payload_hash (str_dict (isort key_leb public_inputs)) in
    metadata_get proof "public_inputs_hash" "" = pih ∧
    final_proof_bound pih ∧ key_accepts ∧ backend_accepts landed_cost pih.
End spec.

(** ** Computations that judge *)

Definition verdict_of (r : result VerificationResult) (Q : Prop) : Prop :=
  match r with Ok v => v_status v = VALID ↔ Q | Raise _ => ¬ Q end.

(** [m] returns a valid result exactly when [Q], and moves the key log by [K]. *)
Definition judges (K : key_log → key_log → Prop) (Q : Prop) (m : checking VerificationResult) : Prop :=
  ∀ s, verdict_of (m s).1 Q ∧ K (pr_keys s) (pr_keys (m s).2).

Lemma verdict_of_iff r Q Q' : (Q ↔ Q') → verdict_of r Q → verdict_of r Q'.
Proof. destruct r; cbn; tauto. Qed.

Lemma judges_iff K Q Q' m : (Q ↔ Q') → judges K Q m → judges K Q' m.
Proof. intros H Hm s. destruct (Hm s) as [Hv Hk]. split; [|done]. by eapply verdict_of_iff. Qed.

Lemma judges_mono (K K' : key_log → key_log → Prop) Q m :
  (∀ k k', K k k' → K' k k') → judges K Q m → judges K' Q m.
Proof. intros H Hm s. destruct (Hm s) as [Hv Hk]. split; [exact Hv|by apply H]. Qed.

Lemma judges_attempt {A} K `{!Reflexive K} (r : result A) Q f :
  (∀ a, judges K (Q a) (f a)) → judges K (∃ a, r = Ok a ∧ Q a) (attempt r ≫= f).
Proof.
  intros Hf s. destruct r as [a|x].
  - destruct (Hf a s) as [Hv Hk]. split; [|exact Hk]. eapply verdict_of_iff, Hv. naive_solver.
  - split; [|reflexivity]. by intros (a & E & _).
Qed.

Lemma judges_passed K Q l m : judges K Q m → judges K Q (passed l ≫= fun _ => m).
Proof. intros Hm s. apply (Hm (mkProgress (pr_checks s ++ l) (pr_keys s))). Qed.

Lemma build_verification_status s b st r cs meta by_ cyc v :
  build_verification_artifact s b st r cs meta by_ cyc = Ok v → v_status v = st.
Proof.
  destruct (build_verification_total s b st r cs meta by_ cyc) as (v' & -> & _ & E). intros [= <-].
  assert (status_text (v_status v') = status_text st) as H; [|destruct (v_status v'), st; done].
  unfold verification_fields_of, verification_fields in E.
  pose proof (f_equal (dict_get "status") E) as H. cbn in H. by injection H.
Qed.

Lemma judges_refuse by_ cyc proof K `{!Reflexive K} reason failed meta :
  judges K False (refuse by_ cyc proof reason failed meta).
Proof.
  intros st. split; [|reflexivity]. unfold refuse, _invalid_result. cbn [fst].
  destruct (build_verification_artifact _ _ _ _ _ _ _ _) as [v|] eqn:E; cbn [verdict_of]; [|tauto].
  by rewrite (build_verification_status _ _ _ _ _ _ _ _ _ E).
Qed.

Lemma judges_accept by_ cyc proof K `{!Reflexive K} reason meta :
  judges K True (accept by_ cyc proof reason meta).
Proof.
  intros st. split; [|reflexivity]. unfold accept. cbn [fst].
  edestruct build_verification_total as (v & E & _). rewrite E. cbn [verdict_of].
  by rewrite (build_verification_status _ _ _ _ _ _ _ _ _ E).
Qed.

Lemma judges_guard by_ cyc proof K `{!Reflexive K} (b : bool) reason failed meta Q m :
  judges K Q m → judges K (b = false ∧ Q) (if b then refuse by_ cyc proof reason failed meta else m).
Proof.
  intros Hm. destruct b; [|eapply judges_iff; [|done]; tauto].
  eapply judges_iff; [|by apply judges_refuse]. split; [done|]. by intros [? _].
Qed.

Lemma judges_check by_ cyc proof K `{!Reflexive K} (P : Prop) `{!Decision P} reason failed meta Q m :
  judges K Q m → judges K (P ∧ Q) (if negb (bool_decide P) then refuse by_ cyc proof reason failed meta else m).
Proof.
  intros Hm. eapply judges_iff; [|by apply judges_guard]. by rewrite negb_false_iff, bool_decide_eq_true.
Qed.

#[local] Instance one_event_reflexive : Reflexive one_event.
Proof. by left. Qed.

Lemma judges_derive now c Q (f : derived_key → checking VerificationResult) :
  (∀ k, judges eq (Q (dk_key_id k)) (f k)) →
  judges one_event (∃ r, run_compile (compile_request c) = Ok r ∧ Q (co_verification_key_id r))
    (with_keys (derive_verification_key now (pc_circuit_hash c) (Some c)) ≫= f).
Proof.
  intros Hf s. pose proof (derive_vk_spec now c (pr_keys s)) as H.
  unfold mbind, checking_bind, with_keys. destruct (run_compile (compile_request c)) as [r|x].
  - destruct H as (k & st & -> & Hk & He). destruct (Hf k (mkProgress (pr_checks s) st)) as [Hv E].
    rewrite <-E. split; [|exact He]. rewrite Hk in Hv. eapply verdict_of_iff, Hv. naive_solver.
  - rewrite H. split; [|by left]. by intros (r & E & _).
Qed.

(** ** The stages *)

Section stages.
Context (now by_ : string) (cyc : Z) (proof : Proof_).

Lemma ask_backend_judges cost pih :
  judges eq (backend_accepts proof cost pih) (ask_backend by_ cyc proof compiled cost pih).
Proof.
  eapply judges_iff; [|apply judges_attempt; [apply _|]; intros fp; apply judges_attempt; [apply _|]; intros iv;
    apply judges_attempt; [apply _|]; intros r; apply judges_passed, judges_guard; [apply _|];
    apply judges_passed, judges_accept; apply _].
  unfold backend_accepts. cbn. setoid_rewrite negb_false_iff. naive_solver.
Qed.

Lemma check_key_judges cost pih :
  judges one_event (key_accepts proof ∧ backend_accepts proof cost pih)
    (check_key now by_ cyc proof compiled cost pih).
Proof.
  eapply judges_iff; [|apply (judges_derive now compiled (fun id =>
    negb (bool_decide (metadata_get proof "verification_key_id" "" = "")) &&
    negb (bool_decide (metadata_get proof "verification_key_id" "" = id)) = false ∧
    backend_accepts proof cost pih)); intros k; apply judges_guard; [apply _|]; apply judges_passed, ask_backend_judges].
  unfold key_accepts. setoid_rewrite andb_false_iff. setoid_rewrite negb_false_iff.
  setoid_rewrite bool_decide_eq_true. naive_solver.
Qed.

(** A payload is hashed and compared: the two outcomes in one. *)
Lemma hash_checked v x (Q : string → Prop) :
  float_free v = true →
  (∃ h, hash_payload v = Ok h ∧ ∃ b, constant_time_equal h x = Ok b ∧ negb b = false ∧ Q h) ↔
  x = payload_hash v ∧ Q (payload_hash v).
Proof.
  intros Hv. rewrite hash_payload_free by done.
  assert (hash_wf (payload_hash v)) as Hh by apply sha256_hex_wf. generalize dependent (payload_hash v).
  intros h Hh. setoid_rewrite negb_false_iff. split.
  - intros (h' & E & b & Hb & -> & HQ). injection E as <-. by apply constant_time_equal_true in Hb as [-> _].
  - intros [-> HQ]. exists h. split; [done|]. exists true. rewrite constant_time_equal_true.
    auto using hash_wf_ascii.
Qed.

Lemma final_payload_free blob cs ins system c t pih :
  float_free (final_proof_payload blob cs ins system c t pih) = true.
Proof. unfold final_proof_payload. cbn [float_free forallb snd]. by rewrite !strs_free. Qed.

Lemma check_hashes_judges public_inputs cost :
  let pih := payload_hash (str_dict (isort key_leb public_inputs)) in
  judges one_event
    (metadata_get proof "public_inputs_hash" "" = pih ∧ final_proof_bound proof pih ∧ key_accepts proof ∧
     backend_accepts proof cost pih)
    (check_hashes now by_ cyc proof compiled public_inputs cost).
Proof.
  intros pih.
  eapply judges_iff; [|apply judges_attempt; [apply _|]; intros h; apply judges_attempt; [apply _|]; intros b;
    apply judges_guard; [apply _|]; apply judges_passed, judges_attempt; [apply _|]; intros f;
    apply judges_attempt; [apply _|]; intros b'; apply judges_guard; [apply _|];
    apply judges_passed, check_key_judges].
  cbn beta. unfold canonical_public_inputs_hash. rewrite hash_checked by apply str_dict_free.
  unfold verifier_final_proof_hash. rewrite hash_checked by apply final_payload_free. reflexivity.
Qed.

(** What is asked after the proof system. *)
Definition body_accepts : Prop :=
  ∃ public_inputs landed_cost,
    _parse_public_inputs (p_public_inputs proof) = Ok public_inputs ∧
    dict_get "landed_cost" public_inputs = Some landed_cost ∧
    circuit_hash proof = pc_circuit_hash compiled ∧
    metadata_get proof "trace_hash" (p_trace_hash proof) = p_trace_hash proof ∧
    let pih := payload_hash (str_dict (isort key_leb public_inputs)) in
    metadata_get proof "public_inputs_hash" "" = pih ∧
    final_proof_bound proof pih ∧ key_accepts proof ∧ backend_accepts proof landed_cost pih.

Lemma ex_assoc {A B} (P : A → Prop) (Q : A → B → Prop) :
  (∃ a, P a ∧ ∃ b, Q a b) ↔ ∃ a b, P a ∧ Q a b.
Proof. naive_solver. Qed.

Lemma attempt_ok {A} (a : A) (f : A → checking VerificationResult) : (attempt (Ok a) ≫= f) = f a.
Proof. reflexivity. Qed.

(** The branch on an optional value. *)
Lemma judges_option {A} K (o : option A) (Q : A → Prop) m f :
  judges K False m → (∀ a, judges K (Q a) (f a)) →
  judges K (∃ a, o = Some a ∧ Q a) (match o with None => m | Some a => f a end).
Proof.
  intros Hm Hf. destruct o as [a|].
  - eapply judges_iff; [|apply Hf]. naive_solver.
  - eapply judges_iff; [|apply Hm]. naive_solver.
Qed.

Lemma hash_guard (Q : Prop) :
  negb (bool_decide (metadata_get proof "circuit_hash" "" = pc_circuit_hash compiled)) ||
    negb (bool_decide (circuit_hash proof = pc_circuit_hash compiled)) = false ∧ Q ↔
  circuit_hash proof = pc_circuit_hash compiled ∧ Q.
Proof.
  change (metadata_get proof "circuit_hash" "") with (circuit_hash proof).
  rewrite orb_diag, negb_false_iff, bool_decide_eq_true. done.
Qed.

Lemma verify_body_judges : judges one_event body_accepts (verify_body now by_ cyc proof).
Proof.
  unfold verify_body. rewrite compile_total.
  eapply judges_iff; [|apply judges_attempt; [apply _|]; intros pi; apply judges_passed, judges_option;
    [apply judges_refuse, _|]; intros cost; rewrite attempt_ok; apply judges_passed; eapply judges_iff; [apply hash_guard|];
    apply judges_guard; [apply _|]; apply judges_passed, judges_check; [apply _|];
    apply judges_passed, check_hashes_judges].
  apply ex_assoc.
Qed.
End stages.

Lemma plonk_accepts_body proof : plonk_accepts proof ↔ p_proof_system proof = "plonk" ∧ body_accepts proof.
Proof. reflexivity. Qed.

Lemma invalid_total by_ cyc proof reason checks meta :
  ∃ v, _invalid_result by_ cyc proof reason checks meta = Ok v ∧ v_status v = INVALID.
Proof.
  unfold _invalid_result. edestruct build_verification_total as (v & E & _). rewrite E.
  exists v. split; [done|]. by apply (build_verification_status _ _ _ _ _ _ _ _ _ E).
Qed.

Lemma verify_plonk_spec now by_ cyc proof st :
  ∃ v st', verify_plonk_proof now by_ cyc proof st = (Ok v, st') ∧
    (v_status v = VALID ↔ plonk_accepts proof) ∧ one_event st st'.
Proof.
  setoid_rewrite plonk_accepts_body. unfold verify_plonk_proof, _SUPPORTED_PROOF_SYSTEM. case_bool_decide as Hs; cbn [negb].
  2: { edestruct invalid_total as (v & -> & Hv). exists v, st. rewrite Hv.
       split; [done|]. split; [|by left]. split; [done|tauto]. }
  destruct (verify_body_judges now by_ cyc proof (mkProgress [] st)) as [Hv Hk].
  destruct (verify_body now by_ cyc proof _) as [[v|x] s].
  - exists v, (pr_keys s). cbn [verdict_of fst] in Hv. split; [done|]. split; [tauto|exact Hk].
  - edestruct invalid_total as (v & -> & Hi). exists v, (pr_keys s). rewrite Hi.
    split; [done|]. split; [|exact Hk]. cbn [verdict_of fst] in Hv. split; [done|tauto].
Qed.
End props.

(** C12: the PLONK verifier never raises and decides its specification.  Whatever
    the backend, the proof and the key log, it returns a result, which is VALID
    exactly when the system is PLONK, the public inputs parse and name a landed
    cost, the circuit, the trace, the public inputs and the final proof are
    bound, the key is the circuit's, and the backend accepts.  The key log is
    left as it was or gains one record at its end, which carries the last hash
    and becomes the last hash; so a log that is a chain stays one. *)
Theorem plonk_verdict `{Backend} now by_ cyc proof st :
  ∃ v st', verify_plonk_proof now by_ cyc proof st = (Ok v, st') ∧
    (v_status v = VALID ↔ plonk_accepts proof) ∧
    (st' = st ∨ ∃ e, st' = mkKeyLog (ke_current_hash e) (key_records st ++ [e]) ∧ ke_prev_hash e = _prev_hash st ∧
       ke_current_hash e = sha256_hex (_prev_hash st +:+ event_text e)) ∧
    (key_chain _ZERO_HASH (key_records st) → _prev_hash st = key_tip _ZERO_HASH (key_records st) →
     key_chain _ZERO_HASH (key_records st') ∧ _prev_hash st' = key_tip _ZERO_HASH (key_records st')).
Proof.
  destruct (verify_plonk_spec now by_ cyc proof st) as (v & st' & E & Hv & Hk). exists v, st'.
  split; [exact E|]. split; [exact Hv|].
  split; [destruct Hk as [->|(e & [H1 H2] & ->)]; [by left|right; by exists e]|]. intros Hc Ht. by apply (one_event_chain st).
Qed.

(** ** What a final proof binds *)

(** The fields under the final proof's hash. *)
Definition bound_fields (p : Proof_) :=
  (p_proof_blob_hex p, p_commitments p, p_public_inputs p, p_trace_hash p).

Definition final_text (p : Proof_) : string :=
  json_print (canonical_form (final_proof_payload (p_proof_blob_hex p) (p_commitments p) (p_public_inputs p)
    _SUPPORTED_PROOF_SYSTEM (pc_circuit_hash compiled) (p_trace_hash p) (metadata_get p "public_inputs_hash" ""))).

Lemma final_payload_wf blob cs ins system c t pih :
  pyval_wf (final_proof_payload blob cs ins system c t pih) = true.
Proof.
  unfold final_proof_payload. cbn [pyval_wf]. apply andb_true_iff.
  split; [by apply bool_decide_eq_true; vm_compute; repeat constructor; set_solver|].
  cbn [forallb snd]. by rewrite !strs_wf.
Qed.

Lemma final_payload_inj blob cs ins system c t pih blob' cs' ins' system' c' t' pih' :
  canonical_form (final_proof_payload blob cs ins system c t pih) =
  canonical_form (final_proof_payload blob' cs' ins' system' c' t' pih') →
  (blob, cs, ins, t) = (blob', cs', ins', t').
Proof.
  assert (∀ b x y z u v w, canonical_form (final_proof_payload b x y z u v w) =
    JObj [("circuit_hash", JStr u); ("commitments", canonical_form (strs x)); ("proof_bytes", JStr b);
          ("proving_system", JStr z); ("public_inputs", canonical_form (strs y));
          ("public_inputs_hash", JStr w); ("trace_hash", JStr v)]) as E by reflexivity.
  rewrite !E. generalize (strs_inj cs cs'), (strs_inj ins ins').
  generalize (canonical_form (strs cs)), (canonical_form (strs cs')), (canonical_form (strs ins)),
    (canonical_form (strs ins')).
  intros a a' b b' Ha Hb [=]. rewrite Ha, Hb by done. congruence.
Qed.

Lemma accepted_final `{Backend} p : plonk_accepts p → p_final_proof p = sha256_hex (final_text p).
Proof. intros (_ & pi & cost & _ & _ & _ & _ & Hpih & Hf & _). unfold final_text. rewrite Hpih. exact Hf. Qed.

(** A final proof binds a PLONK proof.  Two proofs the verifier accepts,
    with the same final proof, have the same proof bytes, commitments, public
    inputs and trace hash, and so the same verdict of the backend, or exhibit a
    SHA-256 collision. *)
Theorem final_proof_binding `{Backend} now by_ cyc st v1 v2 st1 st2 p q :
  verify_plonk_proof now by_ cyc p st = (Ok v1, st1) → v_status v1 = VALID →
  verify_plonk_proof now by_ cyc q st = (Ok v2, st2) → v_status v2 = VALID →
  p_final_proof p = p_final_proof q →
  bound_fields p = bound_fields q ∨ collision (final_text p) (final_text q).
Proof.
  intros E1 V1 E2 V2 E.
  destruct (verify_plonk_spec now by_ cyc p st) as (w1 & s1 & F1 & A1 & _).
  destruct (verify_plonk_spec now by_ cyc q st) as (w2 & s2 & F2 & A2 & _).
  rewrite E1 in F1. rewrite E2 in F2. simplify_eq. rewrite (accepted_final p), (accepted_final q) in E by tauto.
  apply sha256_hex_inj_or_collision in E as [E|E]; [left|by right].
  apply canonical_payload_inj in E; [|apply final_payload_wf..].
  by apply final_payload_inj in E.
Qed.

(** ** What it does not *)

Definition with_io_hashes (input output : string) (p : Proof_) : result Proof_ :=
  build_proof_artifact (p_proof_system p) (p_circuit_artifact_id p) (p_witness_artifact_id p) (p_commitments p)
    (p_public_inputs p) (p_metadata p) (p_proof_blob_hex p) input output (p_trace_hash p) (p_final_proof p)
    (produced_by (p_header p)) (cycle (p_header p)).

(** The verifier does not look at the input and output hashes of a proof.
    With any others in their place a proof is still a valid artifact, and is
    accepted exactly when it was before. *)
Theorem io_hashes_unchecked `{Backend} (p : Proof_) (input output : string) :
  ∃ q, with_io_hashes input output p = Ok q ∧ valid_artifact (AProof q) ∧
    p_input_hash q = input ∧ p_output_hash q = output ∧ (plonk_accepts q ↔ plonk_accepts p).
Proof.
  unfold with_io_hashes. edestruct build_proof_total as (q & Hq & Hv & Hf). exists q.
  destruct (proof_artifact_fields _ _ _ _ _ _ _ _ _ _ _ _ Hf) as (F1&F2&F3&F4&F5&F6&F7&F8&F9&F10&F11).
  split; [exact Hq|]. split; [exact Hv|]. split; [done|]. split; [done|].
  destruct p as [h1 s1 c1 w1 cs1 i1 m1 b1 ph1 in1 out1 t1 f1], q as [h2 s2 c2 w2 cs2 i2 m2 b2 ph2 in2 out2 t2 f2].
  cbn in F1, F2, F3, F4, F5, F6, F7, F8, F9, F10, F11. subst. reflexivity.
Qed.

(** ** Public inputs *)

Lemma str_split1_app c k v : str_contains c k = false → str_split1 c (k +:+ String c v) = (k, v).
Proof.
  unfold str_contains. rewrite negb_false_iff. induction k as [|d k IH]; cbn [str_forall].
  - change ("" +:+ String c v) with (String c v). cbn [str_split1]. by rewrite Ascii.eqb_refl.
  - rewrite andb_true_iff, negb_true_iff. intros [E Hk]. change (String d k +:+ String c v) with (String d (k +:+ String c v)).
    cbn [str_split1]. by rewrite E, IH.
Qed.

Lemma str_contains_app c k v : str_contains c (k +:+ String c v) = true.
Proof.
  unfold str_contains. induction k as [|d k IH]; cbn [str_forall].
  - change ("" +:+ String c v) with (String c v). cbn [str_forall]. by rewrite Ascii.eqb_refl.
  - change (String d k +:+ String c v) with (String d (k +:+ String c v)). cbn [str_forall].
    by rewrite negb_andb, IH, orb_true_r.
Qed.

(** A name a public input can have. *)
Definition input_name (k : string) : Prop := str_contains "=" k = false ∧ k ≠ "".

Lemma parse_entry_ok k v d :
  input_name k → k ∉ dict_keys d → parse_entry d (k +:+ "=" +:+ v) = Ok (d ++ [(k, v)]).
Proof.
  intros [Hk Hne] Hd. unfold parse_entry. change ("=" +:+ v) with (String "=" v).
  rewrite str_contains_app, str_split1_app by done. cbn [negb]. rewrite bool_decide_eq_false_2 by done.
  by rewrite dict_set_notin.
Qed.

Lemma dict_get_isort {A} k (d : list (string * A)) : dict_wf d → dict_get k (isort key_leb d) = dict_get k d.
Proof.
  intros Hd. assert (dict_wf (isort key_leb d)) as Hs by (eapply dict_wf_perm; [by rewrite isort_perm|done]).
  destruct (dict_get k d) as [v|] eqn:E.
  - apply dict_get_elem; [done|]. rewrite elem_of_isort. by apply dict_get_Some_elem.
  - apply dict_get_None. apply dict_get_None in E. contradict E. unfold dict_keys in *. by rewrite isort_perm in E.
Qed.

Lemma parse_serialized (l d : list (string * string)) :
  Forall (fun p => input_name p.1) l → dict_wf (d ++ l) →
  fold_result parse_entry (map (fun p => p.1 +:+ "=" +:+ p.2) l) d = Ok (d ++ l).
Proof.
  intros Hl. revert d. induction Hl as [|[k v] l Hk Hl IH]; intros d Hd; cbn [map fold_result];
    [by rewrite app_nil_r|].
  cbn [fst snd] in *. rewrite parse_entry_ok; [cbn [mbind result_bind]; rewrite IH; rewrite <-?app_assoc; done|done|].
  unfold dict_wf, dict_keys in Hd. rewrite fmap_app in Hd. apply NoDup_app in Hd as (_ & Hd & _).
  unfold dict_keys. intros Hin. apply (Hd k Hin). set_solver.
Qed.

(** What the prover writes the verifier reads. *)
Lemma public_inputs_roundtrip l :
  Forall (fun p => input_name p.1) l → dict_wf l →
  _parse_public_inputs (serialize_public_inputs l) = Ok (isort key_leb l).
Proof.
  intros Hl Hd. unfold _parse_public_inputs, serialize_public_inputs.
  assert (dict_wf (isort key_leb l)) as Hw.
  { unfold dict_wf, dict_keys in *. by rewrite (isort_perm key_leb l). }
  rewrite parse_serialized; [|by rewrite isort_perm|done]. cbn [app fmap result_fmap].
  by rewrite (isort_idemp key_leb key_leb_trans key_leb_total).
Qed.

(** ** Proofs of honest calculations *)

(** What an assignment was made from. *)
Lemma generate_inv coerce_int rules w a :
  generate_assignment coerce_int rules w = Ok a →
  ∃ cost fp, dict_get "landed_cost" (w_public_inputs w) = Some cost ∧ to_fixed_point (PStr cost) = Ok fp ∧
    dict_get "landed_cost_fp" (wire_map a) = Some fp ∧
    public_inputs_hash a = payload_hash (str_dict (isort key_leb (w_public_inputs w))).
Proof.
  unfold generate_assignment. intros H.
  apply bind_ok in H as (customs & _ & H). apply bind_ok in H as (freight & _ & H).
  apply bind_ok in H as (insurance & _ & H). apply bind_ok in H as (n & _ & H).
  apply bind_ok in H as (landed & Hl & H). apply bind_ok in H as ([[[duty s301] mpf] hmf] & _ & H).
  apply bind_ok in Hl as (cost & Hc & Hfp). unfold subscript_dict in Hc.
  destruct (dict_get "landed_cost" (w_public_inputs w)) as [c|] eqn:E; [|done]. injection Hc as <-.
  unfold canonical_public_inputs_hash in H. rewrite hash_payload_free in H by apply str_dict_free.
  revert H. generalize (payload_hash (str_dict (isort key_leb (w_public_inputs w)))). cbn [mbind result_bind].
  intros h [= <-]. exists c, landed. split_and!; done.
Qed.

Lemma proof_metadata_get w c t pih m bm :
  let d := proof_metadata w c t pih m bm in
  dict_get "circuit_hash" d = Some (pc_circuit_hash c) ∧ dict_get "trace_hash" d = Some t ∧
  dict_get "public_inputs_hash" d = Some pih ∧
  dict_get "verification_key_id" d =
    Some (default (km_verification_key_id m) (dict_get "verification_key_id" bm)).
Proof. split_and!; reflexivity. Qed.

Lemma proof_metadata_wf w c t pih m bm : dict_wf (proof_metadata w c t pih m bm).
Proof. apply (bool_decide_unpack _). vm_compute. exact I. Qed.

Section complete.
Context `{BK : Backend} (HB : complete_backend BK) (coerce_int : pyval → option Z) (rules : list TariffRule).

(** A proof of a witness whose assignment is an integer solution is built, and
    accepted. *)
Lemma built_accepted now w t by_ cyc a st :
  w_trace w = t → hash_wf t → dict_wf (w_public_inputs w) →
  Forall (fun p => input_name p.1) (w_public_inputs w) →
  generate_assignment coerce_int rules w = Ok a →
  (∀ fp, dict_get "landed_cost_fp" (wire_map a) = Some fp → integer_solution a fp) →
  ∃ p st', build_plonk_proof coerce_int rules now w t by_ cyc st = (Ok p, st') ∧
    valid_artifact (AProof p) ∧ plonk_accepts p ∧ is_ascii (p_proof_blob_hex p) = true ∧ dict_wf (p_metadata p).
Proof using HB.
  intros Ht Hwf Hd Hn Ha Hg. destruct (generate_inv _ _ _ _ Ha) as (cost & fp & Hcost & Hfp & Hwire & Hpih).
  assert (hash_wf (pc_circuit_hash compiled)) as Hc by apply sha256_hex_wf.
  assert (hash_wf (public_inputs_hash a)) as Hp by (rewrite Hpih; apply sha256_hex_wf).
  assert (∃ iv, build_instance_values fp t (pc_circuit_hash compiled) (public_inputs_hash a) = Ok iv) as [iv Hiv].
  { unfold build_instance_values. destruct (limbs_total t Hwf) as (lt & -> & _), (limbs_total _ Hc) as (lc & -> & _),
      (limbs_total _ Hp) as (lp & -> & _). cbn [mbind result_bind]. eauto. }
  destruct (compiles _ HB) as (k & mtext & Hk & _).
  destruct (proves _ HB k w t a fp iv Hk Hwf Hp (Hg fp Hwire) Hiv) as (r & Hr & Hascii & Hid & Hver).
  pose proof (ensure_compiled_spec now compiled st) as He. rewrite Hk in He. destruct He as (st' & He & _).
  unfold build_plonk_proof, _assert_witness_trace_match. rewrite bool_decide_eq_true_2 by done.
  rewrite compile_total, Ha. unfold mbind, logged_bind, silent, logging. cbn [negb]. rewrite He.
  unfold subscript_dict. rewrite Hwire, Hiv, Hr.
  unfold _final_proof_hash. rewrite hash_payload_free by apply final_payload_free.
  edestruct build_proof_total as (p & Ep & Hvp & Hf). rewrite Ep. exists p, st'. split; [reflexivity|]. split; [exact Hvp|].
  destruct (proof_artifact_fields _ _ _ _ _ _ _ _ _ _ _ _ Hf) as (F1&_&_&F4&F5&F6&F7&_&_&F10&F11).
  split; [|split; [rewrite F7; exact Hascii|rewrite F6; apply proof_metadata_wf]]. split; [exact F1|]. exists (isort key_leb (w_public_inputs w)), cost.
  split; [rewrite F5; by apply public_inputs_roundtrip|].
  split; [rewrite dict_get_isort by done; exact Hcost|].
  destruct (proof_metadata_get w compiled t (public_inputs_hash a) (key_material k) (po_metadata r))
    as (M1 & M2 & M3 & M4). rewrite <-F6 in M1, M2, M3, M4.
  change (km_verification_key_id (key_material k)) with (co_verification_key_id k) in M4. rewrite Hid in M4.
  split; [unfold circuit_hash; rewrite M1; reflexivity|]. unfold metadata_get. rewrite M2, M3, F10.
  rewrite (isort_idemp key_leb key_leb_trans key_leb_total), <-Hpih.
  split; [reflexivity|]. split; [reflexivity|].
  split; [unfold final_proof_bound; change _SUPPORTED_PROOF_SYSTEM with _PROOF_SYSTEM;
          rewrite F7, F4, F5, F10; exact F11|].
  split; [exists k; split; [exact Hk|right]; unfold metadata_get; rewrite M4; reflexivity|].
  destruct (Hver p F7 F10) as (v & Hv & Hval). exists fp, iv, v.
  split; [exact Hfp|]. split; [rewrite F10; exact Hiv|]. split; [exact Hv|exact Hval].
Qed.
End complete.

Definition request_input_names : list string := ["hs_code"; "country_of_origin"; "shipping_mode"; "landed_cost"].

Lemma public_names q r :
  let l := isort key_leb (public_inputs (extract_witness q r)) in
  dict_wf l ∧ Forall (fun p => input_name p.1) l.
Proof.
  cbv zeta. assert (dict_keys (public_inputs (extract_witness q r)) = request_input_names) as Hk by reflexivity.
  assert (Forall input_name request_input_names) as Hn by (repeat (constructor; [by split|]); constructor).
  split.
  - eapply dict_wf_perm; [by rewrite isort_perm|]. unfold dict_wf. rewrite Hk.
    apply (bool_decide_unpack _). vm_compute. exact I.
  - apply Forall_forall. intros p Hp. rewrite elem_of_isort in Hp. rewrite <-Hk in Hn. unfold dict_keys in Hn.
    rewrite Forall_fmap in Hn. by eapply Forall_forall in Hn.
Qed.

Lemma valid_trace_hash t : valid_artifact (ATrace t) → t_trace_hash t = payload_hash (dump_trace (t_steps t)).
Proof.
  unfold valid_artifact, validate_artifact, validate_trace_hash, check_text. intros (t' & H & _)%fmap_ok.
  rewrite canonical_payload_free in H by apply dump_trace_free. cbn [mbind result_bind] in H.
  by repeat case_bool_decide.
Qed.

(** The proof of an honest calculation is accepted. *)
Lemma honest_proof_accepted `{BK : Backend} coerce_int value q rule now by_ cyc st :
  complete_backend BK → (∀ z, coerce_int (PInt z) = Some z) → payload_decimals_wf value →
  model_validate coerce_int value = Ok q → rule ∈ TARIFF_RULES → hs_code q = hs_prefix rule →
  in_range q → landed_of q rule < CENTS_LIMIT →
  ∃ pk p st', build_trace_packet coerce_int TARIFF_RULES value by_ cyc = Ok pk ∧
    build_plonk_proof coerce_int TARIFF_RULES now (witness_artifact pk) (t_trace_hash (trace_artifact pk)) by_ cyc st =
      (Ok p, st') ∧ valid_artifact (AProof p) ∧ plonk_accepts p ∧ is_ascii (p_proof_blob_hex p) = true ∧
    dict_wf (p_metadata p).
Proof.
  intros HB Hz Hwf Hq Hr Hhs Hb Hl. destruct (validated_valid _ _ _ Hwf Hq) as [Hv _].
  pose proof (calculate_expected coerce_int q rule Hz Hv Hr Hhs Hb) as Hresp.
  destruct (own_response_agrees _ _ _ _ Hz Hv Hresp) as (_ & _ & Et & _).
  destruct (packet_total _ _ Hz _ _ _ Hwf Hq Hresp by_ cyc) as (pk & Hpk & Vt & _ & Hst & _ & _ & Hw).
  assert (w_public_inputs (witness_artifact pk) =
    isort key_leb (public_inputs (extract_witness q (expected_response q rule)))) as Hpub
    by exact (f_equal CoreVerifier.public_inputs Hw).
  assert (w_private_inputs (witness_artifact pk) = model_dump q) as Hpriv
    by exact (f_equal CoreVerifier.private_inputs Hw).
  assert (w_trace (witness_artifact pk) = t_trace_hash (trace_artifact pk)) as Htr.
  { rewrite (valid_trace_hash _ Vt), Hst.
    transitivity (trace_hash (integrity (expected_response q rule)));
      [exact (f_equal CoreVerifier.w_trace_hash Hw)|exact Et]. }
  pose proof (generate_honest coerce_int q rule Hz Hv Hr Hhs Hb Hl _ _ Hpub Hpriv eq_refl) as Ha.
  destruct (public_names q (expected_response q rule)) as [Hd Hn]. rewrite <-Hpub in Hd, Hn.
  assert (hash_wf (t_trace_hash (trace_artifact pk))) as Hh
    by (rewrite (valid_trace_hash _ Vt); apply sha256_hex_wf).
  edestruct (built_accepted HB coerce_int TARIFF_RULES now (witness_artifact pk)) as (p & st' & Hp & Hvp & Hacc & Hasc & Hmeta);
    [exact Htr|exact Hh|exact Hd|exact Hn|exact Ha| |].
  { intros fp' Hfp'. change (Some (fp (landed_of q rule)) = Some fp') in Hfp'. injection Hfp' as <-.
    by apply (honest_solution coerce_int). }
  exists pk, p, st'. split; [exact Hpk|]. split; [exact Hp|]. split; [exact Hvp|]. split; [exact Hacc|].
  split; [exact Hasc|exact Hmeta].
Qed.

(** C15: PLONK proofs of honest calculations verify.  With a complete backend,
    which the repository's own is ([RustBackend.rust_backend_complete]), for
    every payload that validates to a request for a listed code, with an extended
    value, freight and insurance of at most 10^22 cents and a landed cost below
    that, the witness of its trace packet is proved, the artifact is valid, and
    the verifier accepts it whatever the key log has become. *)
Theorem plonk_proofs_verify `{BK : Backend} coerce_int value q rule now by_ cyc st :
  complete_backend BK → (∀ z, coerce_int (PInt z) = Some z) → payload_decimals_wf value →
  model_validate coerce_int value = Ok q → rule ∈ TARIFF_RULES → hs_code q = hs_prefix rule →
  in_range q → landed_of q rule < CENTS_LIMIT →
  ∃ pk p st', build_trace_packet coerce_int TARIFF_RULES value by_ cyc = Ok pk ∧
    build_plonk_proof coerce_int TARIFF_RULES now (witness_artifact pk) (t_trace_hash (trace_artifact pk)) by_ cyc st =
      (Ok p, st') ∧ valid_artifact (AProof p) ∧
    ∀ now' by' cyc' st2, ∃ v st3, verify_plonk_proof now' by' cyc' p st2 = (Ok v, st3) ∧ v_status v = VALID.
Proof.
  intros HB Hz Hwf Hq Hr Hhs Hb Hl.
  destruct (honest_proof_accepted coerce_int value q rule now by_ cyc st HB Hz Hwf Hq Hr Hhs Hb Hl)
    as (pk & p & st' & Hpk & Hp & Hvp & Hacc & _).
  exists pk, p, st'. split; [exact Hpk|]. split; [exact Hp|]. split; [exact Hvp|].
  intros now' by' cyc' st2. destruct (verify_plonk_spec now' by' cyc' p st2) as (v & st3 & Ev & Hiff & _).
  exists v, st3. split; [exact Ev|]. by apply Hiff.
Qed.

(** ** A concrete backend *)

(** It proves with the hash of the public values. *)
Definition digest_backend : Backend := {|
  run_compile _ := Ok (mkCompileOutput "" "pk" "vk" 6 None "pk.json" "vk.json");
  run_prove payload :=
    iv ← subscript_dict "instance_values" payload;
    h ← hash_payload iv;
    Ok (mkProveOutput h [h] []);
  run_verify payload :=
    iv ← subscript_dict "instance_values" payload;
    h ← hash_payload iv;
    blob ← subscript_dict "proof_bytes_hex" payload;
    Ok (mkVerifyOutput (bool_decide (as_str blob = Some h)) None ["digest"] []);
  manifest_text path := Ok path;
  key_root := "keys" |}.

Lemma column_free l : float_free (column l) = true.
Proof. apply strs_free. Qed.

Lemma digest_backend_complete : complete_backend digest_backend.
Proof.
  split; [eexists _, _; split; reflexivity|]. intros r w t a fp iv Hr _ _ _ _. injection Hr as <-.
  cbn [run_prove digest_backend co_verification_key_id].
  change (subscript_dict "instance_values" (@prove_payload digest_backend w compiled t a iv)) with (Ok (column iv)).
  cbn [mbind result_bind]. rewrite hash_payload_free by apply column_free. cbn [mbind result_bind].
  eexists. split; [reflexivity|]. split; [apply hash_wf_ascii, sha256_hex_wf|]. split; [reflexivity|].
  cbn [po_proof_bytes_hex]. intros p Hp _.
  cbn [run_verify digest_backend].
  change (subscript_dict "instance_values" (@verify_payload digest_backend compiled p (public_inputs_hash a) iv))
    with (Ok (column iv)).
  change (subscript_dict "proof_bytes_hex" (@verify_payload digest_backend compiled p (public_inputs_hash a) iv))
    with (Ok (PStr (p_proof_blob_hex p))).
  cbn [mbind result_bind]. rewrite hash_payload_free by apply column_free. cbn [mbind result_bind].
  eexists. split; [reflexivity|]. cbn [vo_valid]. cbn [as_str]. rewrite Hp. by apply bool_decide_eq_true_2.
Qed.

Definition empty_log : key_log := load_module [].

Example plonk_proofs_verify_witness :
  ∃ pk p st', build_trace_packet coerce_plain TARIFF_RULES REFERENCE_REQUEST "prover" 1 = Ok pk ∧
    @build_plonk_proof toy_backend coerce_plain TARIFF_RULES "t0" (witness_artifact pk)
      (t_trace_hash (trace_artifact pk)) "prover" 1 empty_log = (Ok p, st') ∧ valid_artifact (AProof p) ∧
    ∀ now' by' cyc' st2, ∃ v st3,
      @verify_plonk_proof toy_backend now' by' cyc' p st2 = (Ok v, st3) ∧ v_status v = VALID.
Proof.
  apply (plonk_proofs_verify (BK:=toy_backend) coerce_plain REFERENCE_REQUEST sample_request sample_rule);
    [exact (rust_backend_complete "keys" toy_disk)|reflexivity|exact reference_decimals_wf|vm_compute; reflexivity
    |apply sample_rule_in|reflexivity| |].
  - unfold in_range, CENTS_LIMIT. vm_compute. done.
  - vm_compute. reflexivity.
Defined.

Definition sample_plonk_proof : Proof_ :=
  ok_default
    (pk ← build_trace_packet coerce_plain TARIFF_RULES REFERENCE_REQUEST "prover" 1;
     (@build_plonk_proof digest_backend coerce_plain TARIFF_RULES "t0" (witness_artifact pk)
        (t_trace_hash (trace_artifact pk)) "prover" 1 empty_log).1).

#[export] Instance verification_inhabited : Inhabited VerificationResult :=
  populate (mkVerificationResult (mkHeader "" "" 0) "" "" INVALID "" [] [] "").

Example final_proof_binding_witness :
  let r := @verify_plonk_proof digest_backend "t1" "verifier" 1 sample_plonk_proof empty_log in
  r = (Ok (ok_default r.1), r.2) ∧ v_status (ok_default r.1) = VALID ∧
  (bound_fields sample_plonk_proof = bound_fields sample_plonk_proof ∨
   collision (final_text sample_plonk_proof) (final_text sample_plonk_proof)).
Proof.
  intros r. assert (r = (Ok (ok_default r.1), r.2)) as E by (vm_compute; reflexivity).
  assert (v_status (ok_default r.1) = VALID) as V by (vm_compute; reflexivity).
  split; [exact E|]. split; [exact V|].
  exact (@final_proof_binding digest_backend "t1" "verifier" 1 empty_log _ _ _ _ _ _ E V E V eq_refl).
Defined.
