(* ===== verification/ProofBundle.v ===== *)
(** * Proof bundles (backend/proof_export.py)

    A calculation, its hashes and its PLONK proof as one dictionary, and the
    check of such a dictionary by whoever receives it.  Reading a proof back
    from a dictionary is [Proof.model_validate] of zk/interfaces.py. *)
From S2P Require Export PlonkProof.

Local Open Scope Z_scope.

(** ** Dictionaries *)

(** [d.pop(k, None)] *)
Definition dict_pop {A} (k : string) (d : list (string * A)) : list (string * A) :=
  filter (fun p => p.1 ≠ k) d.

Definition as_str_dict (v : pyval) : option (list (string * string)) :=
  match v with
  | PDict l => mapM (fun p : string * pyval => pair p.1 <$> as_str p.2) l
  | _ => None
  end.

(** ** zk/interfaces.py: a proof from its fields *)

Definition PROOF_FIELDS : list string :=
  ["artifact_type"; "artifact_id"; "produced_by"; "cycle"; "proof_system"; "circuit_artifact_id";
   "witness_artifact_id"; "commitments"; "public_inputs"; "metadata"; "proof_blob_hex"; "proof_hash";
   "input_hash"; "output_hash"; "trace_hash"; "final_proof"].

(** [artifact_type] has a default, and one value. *)
Definition proof_type_ok (d : list (string * pyval)) : bool :=
  match dict_get "artifact_type" d with
  | None => true
  | Some v => bool_decide (as_str v = Some (type_value PROOF))
  end.

Section validate.
Context (coerce_int : pyval → option Z).

(** The fields, each of its type. *)
Definition proof_of_fields (d : list (string * pyval)) : option Proof_ :=
  let text k := dict_get k d ≫= as_str in
  id ← text "artifact_id";
  by_ ← text "produced_by";
  cycle ← dict_get "cycle" d ≫= coerce_int;
  system ← text "proof_system";
  circuit ← text "circuit_artifact_id";
  witness ← text "witness_artifact_id";
  commitments ← dict_get "commitments" d ≫= as_strs;
  inputs ← dict_get "public_inputs" d ≫= as_strs;
  metadata ← dict_get "metadata" d ≫= as_str_dict;
  blob ← text "proof_blob_hex";
  hash ← text "proof_hash";
  input ← text "input_hash";
  output ← text "output_hash";
  trace ← text "trace_hash";
  final ← text "final_proof";
  if proof_type_ok d && forallb (fun k => bool_decide (k ∈ PROOF_FIELDS)) (dict_keys d)
  then Some (mkProof (mkHeader id by_ cycle) system circuit witness commitments inputs metadata blob hash input
               output trace final)
  else None.

(** [Proof.model_validate(payload)] *)
Definition proof_model_validate (payload : pyval) : result Proof_ :=
  match payload with
  | PDict d =>
      match proof_of_fields d with
      | Some p => as_validation (validate_proof_hash p)
      | None => raise ValidationError "{} validation errors for Proof"
      end
  | _ => raise ValidationError "{} validation errors for Proof"
  end.
End validate.

(** [request.model_dump(mode='json')] *)
Definition model_dump_json (r : ImportCalculationRequest) : list (string * pyval) :=
  [("hs_code", PStr (hs_code r)); ("country_of_origin", PStr (country_of_origin r));
   ("customs_value", PStr (decimal_str (customs_value r))); ("freight", PStr (decimal_str (freight r)));
   ("insurance", PStr (decimal_str (insurance r))); ("quantity", PInt (quantity r));
   ("shipping_mode", PStr (shipping_mode r))].

(** ** Exporting *)

Definition COMPUTED_FIELDS : list string := ["proof_bytes"; "proving_system"; "circuit_hash"].

(** Without the computed fields. *)
Definition without_computed (d : list (string * pyval)) : list (string * pyval) :=
  fold_left (fun d k => dict_pop k d) COMPUTED_FIELDS d.

Definition _canonical_proof_payload (p : Proof_) : list (string * pyval) :=
  without_computed (dump_artifact (AProof p)).

Section bundle.
Context `{!Backend} (coerce_int : pyval → option Z) (rules : list TariffRule).

Definition _verification_key_hash (now circuit_hash : string) : logged string :=
  verification_key ← logging (derive_verification_key now circuit_hash None);
  manifest_bytes ← silent (manifest_text (dk_manifest_path verification_key));
  silent (Ok (sha256_hex manifest_bytes)).

Definition resolve_proof (now : string) (packet : DeterministicTracePacket) (proof : option Proof_) : logged Proof_ :=
  match proof with
  | Some p => silent (Ok p)
  | None => build_plonk_proof coerce_int rules now (witness_artifact packet)
              (t_trace_hash (trace_artifact packet)) "proof_export" 1
  end.

Definition export_proof_bundle (now : string) (input_payload : list (string * pyval))
    (packet : option DeterministicTracePacket) (proof : option Proof_) : logged (list (string * pyval)) :=
  packet ← silent (match packet with
                   | Some pk => Ok pk
                   | None => build_trace_packet coerce_int rules input_payload "proof_export" 1
                   end);
  proof ← resolve_proof now packet proof;
  circuit ← silent compile_circuit;
  vk_hash ← _verification_key_hash now (pc_circuit_hash circuit);
  let i := integrity (pk_response packet) in
  silent (Ok [("input", PDict (model_dump_json (pk_request packet)));
        ("input_hash", PStr (input_hash i)); ("output_hash", PStr (output_hash i));
        ("trace_hash", PStr (t_trace_hash (trace_artifact packet)));
        ("circuit_hash", PStr (pc_circuit_hash circuit)); ("verification_key_hash", PStr vk_hash);
        ("proof", PDict (_canonical_proof_payload proof))]).

(** The text of the file. *)
Definition write_proof_bundle (bundle : list (string * pyval)) : result string := canonical_payload (PDict bundle).

Definition export_and_write_proof_bundle (now : string) (input_payload : list (string * pyval)) : logged string :=
  bundle ← export_proof_bundle now input_payload None None;
  silent (write_proof_bundle bundle).

(** ** Verifying *)

Record bundle_verdict := mkBundleVerdict {
  bv_valid : bool;
  bv_reason : string;
  bv_checks : list string;
  bv_input_hash : string;
  bv_trace_hash : string;
  bv_circuit_hash : string;
  bv_verification_key_hash : string }.

(** [constant_time_equal(value, expected)] of a value from the bundle. *)
Definition equal_to (expected : string) (v : pyval) : result bool :=
  match v with
  | PStr s => constant_time_equal s expected
  | _ => raise TypeError "unsupported operand types(s) or combination of types: {} and {}"
  end.

(** [build_trace_packet] of a value from the bundle. *)
Definition packet_of (v : pyval) : result DeterministicTracePacket :=
  match v with
  | PDict d => build_trace_packet coerce_int rules d "proof_bundle_verify" 1
  | _ => Raise validation_error
  end.

(** [deepcopy(bundle['proof'])] without the computed fields. *)
Definition proof_payload_of (v : pyval) : result pyval :=
  match v with
  | PDict d => Ok (PDict (without_computed d))
  | _ => raise AttributeError "{} object has no attribute 'pop'"
  end.

(** One comparison: whether it holds and the check it leaves. *)
Definition hash_check (bundle : list (string * pyval)) (field expected : string) : result (bool * string) :=
  v ← subscript_dict field bundle;
  same ← equal_to expected v;
  Ok (same, field +:+ (if same : bool then "_ok" else "_mismatch")).

(** The body of the [try]. *)
Definition verify_bundle_body (now : string) (bundle : list (string * pyval)) : logged bundle_verdict :=
  packet ← silent (subscript_dict "input" bundle ≫= packet_of);
  circuit ← silent compile_circuit;
  let i := integrity (pk_response packet) in
  let expected_trace_hash := t_trace_hash (trace_artifact packet) in
  expected_vk_hash ← _verification_key_hash now (pc_circuit_hash circuit);
  payload ← silent (subscript_dict "proof" bundle ≫= proof_payload_of);
  proof ← silent (proof_model_validate coerce_int payload);
  checks ← silent (traverse (fun p : string * string => hash_check bundle p.1 p.2)
    [("input_hash", input_hash i); ("output_hash", output_hash i); ("trace_hash", expected_trace_hash);
     ("circuit_hash", pc_circuit_hash circuit); ("verification_key_hash", expected_vk_hash)]);
  let verdict valid reason checks :=
    mkBundleVerdict valid reason checks (input_hash i) expected_trace_hash (pc_circuit_hash circuit)
      expected_vk_hash in
  if forallb fst checks
  then
    verification ← verify_plonk_proof now "proof_bundle_verify" 1 proof;
    let valid := bool_decide (v_status verification = VALID) in
    silent (Ok (verdict valid (if valid then "bundle verified successfully" else v_reason verification)
                  (map snd checks ++ v_checks verification)))
  else silent (Ok (verdict false "bundle hash binding mismatch" (map snd checks))).

Definition failed_verdict (e : exn) : bundle_verdict :=
  mkBundleVerdict false ("bundle verification failed: " +:+ exn_msg e) ["bundle_validation_error"] "" "" "" "".

Definition verify_proof_bundle (now : string) (bundle : list (string * pyval)) (st : key_log)
    : bundle_verdict * key_log :=
  match verify_bundle_body now bundle st with
  | (Ok r, st) => (r, st)
  | (Raise e, st) => (failed_verdict e, st)
  end.

(** ** scripts/verify_proof.py *)

(** [bundle['input']] of a document that is not an object. *)
Definition subscript_error (v : pyval) : exn :=
  match v with
  | PStr _ => Exn TypeError "string indices must be integers, not 'str'"
  | PList _ => Exn TypeError "list indices must be integers or slices, not str"
  | _ => Exn TypeError "'{}' object is not subscriptable"
  end.

(** From the text of the file, if it is there, the [valid] and [reason] that
    are printed, and the exit status. *)
Definition verify_proof_main (now : string) (file : option string) (st : key_log) : (bool * string * Z) * key_log :=
  match file with
  | None => ((false, "proof bundle not found: {}", 1), st)
  | Some text =>
      match json_loads text with
      | None => ((false, "invalid bundle json: {}", 1), st)
      | Some bundle =>
          let '(result, st) :=
            match of_json bundle with
            | PDict d => verify_proof_bundle now d st
            | v => (failed_verdict (subscript_error v), st)
            end in
          ((bv_valid result, bv_reason result, if bv_valid result then 0 else 1), st)
      end
  end.
End bundle.
