(* ===== verification/ProofBundleProps.v ===== *)
(** * What a proof bundle shows (backend/proof_export.py)

    An exported bundle verifies; a bundle that verifies recomputes; and the
    proof in it need not be the proof of its calculation. *)
From S2P Require Export PlonkProofProps ProofBundle.

Local Open Scope Z_scope.

(** ** The request as JSON *)

Lemma decimal_str_format d : money_ok d = true → decimal_str d = format_f d.
Proof.
  intros (neg & c & -> & Hc)%money_ok_shape. unfold decimal_str, format_f.
  pose proof (str_of_Z_length c ltac:(lia)). change (-2 <=? 0) with true. change (-2 =? 0) with false.
  change (-2 >=? 0) with false. cbn [andb]. by destruct (Z.leb_spec (-6) (-2 + Z.of_nat (String.length (str_of_Z c)) - 1)); [|lia].
Qed.

Lemma request_money_ok r :
  valid_request r = true →
  money_ok (customs_value r) = true ∧ money_ok (freight r) = true ∧ money_ok (insurance r) = true ∧
  positive_decimal true (customs_value r) = true ∧ positive_decimal false (freight r) = true ∧
  positive_decimal false (insurance r) = true.
Proof.
  unfold valid_request. rewrite !andb_true_iff. cbn [forallb]. rewrite !andb_true_iff. tauto.
Qed.

(** The two dumps have one canonical form, and so one hash. *)
Lemma canonical_dump_json r :
  valid_request r = true → canonical_form (PDict (model_dump_json r)) = canonical_form (PDict (model_dump r)).
Proof.
  intros (M1 & M2 & M3 & _)%request_money_ok. rewrite canonical_form_dump. unfold model_dump_json.
  by rewrite !decimal_str_format.
Qed.

Definition money_char (c : ascii) : bool := is_decimal c || Ascii.eqb c ".".

Lemma money_text_chars c : 0 <= c → str_forall money_char (format_f (Fin false c (-2))) = true.
Proof.
  intros Hc. unfold format_f. change (-2 >=? 0) with false. cbn iota. unfold with_point.
  change (Z.to_nat (- -2)) with 2%nat. set (ds := zeros _ +:+ str_of_Z c).
  assert (str_forall money_char ds = true) as Hds.
  { eapply (str_forall_chars is_decimal); [vm_compute; reflexivity|].
    unfold ds. rewrite str_forall_app, zeros_digits. by apply str_of_Z_digits. }
  rewrite str_app_nil_l. rewrite !str_forall_app. rewrite str_take_forall, str_drop_forall by done. reflexivity.
Qed.

Lemma guard_money d strict : money_ok d = true → positive_decimal strict d = true → guard_str (decimal_str d) = Ok tt.
Proof.
  intros Hm Hp. rewrite decimal_str_format by done.
  destruct (money_fields _ _ Hm Hp) as (neg & E & B & Hs & _).
  rewrite E. apply guard_str_ok; [pose proof (length_money_text neg (cents_of d) B); lia|].
  destruct neg; [rewrite Hs by done; vm_compute; reflexivity|].
  apply quiet_injection. eapply (str_forall_chars money_char); [vm_compute; reflexivity|].
  apply money_text_chars. lia.
Qed.

Lemma walk_dump_json r : valid_request r = true → walk (PDict (model_dump_json r)) = Ok tt.
Proof.
  intros Hr. destruct (request_money_ok r Hr) as (M1 & M2 & M3 & P1 & P2 & P3). revert Hr.
  unfold valid_request. rewrite !andb_true_iff, bool_decide_eq_true. intros [[[[[[[Hh Hc] _] _] _] _] _] Hm].
  unfold model_dump_json. cbn [walk map fst snd traverse id length].
  rewrite (guard_hs _ Hh), (guard_country _ Hc), (guard_mode _ Hm).
  rewrite (guard_money _ _ M1 P1), (guard_money _ _ M2 P2), (guard_money _ _ M3 P3). vm_compute. reflexivity.
Qed.

Lemma guards_dump_json r :
  valid_request r = true → enforce_payload_guards (PDict (model_dump_json r)) = Ok tt.
Proof.
  intros Hr. unfold enforce_payload_guards. rewrite canonical_payload_free by done.
  rewrite canonical_dump_json by done.
  cbn [mbind result_bind]. pose proof (length_dump r Hr) as Hl.
  pose proof (length_utf8 (json_print (canonical_form (PDict (model_dump r))))) as Hu.
  unfold MAX_REQUEST_BYTES. destruct (Z.gtb_spec
    (Z.of_nat (length (utf8 (json_print (canonical_form (PDict (model_dump r))))))) 8192); [lia|].
  by apply walk_dump_json.
Qed.

(** Digits have no white space around them. *)
Lemma money_text_strip d strict :
  money_ok d = true → positive_decimal strict d = true → str_strip (decimal_str d) = decimal_str d.
Proof.
  intros Hm Hp. rewrite decimal_str_format by done.
  destruct (money_fields _ _ Hm Hp) as (neg & E & B & Hs & _). rewrite E.
  destruct neg; [rewrite Hs by done; vm_compute; reflexivity|].
  apply str_strip_id. eapply (str_forall_chars money_char); [vm_compute; reflexivity|].
  apply money_text_chars. lia.
Qed.

Lemma normalize_money_text strict d :
  money_ok d = true → positive_decimal strict d = true →
  normalize_money strict (PStr (decimal_str d)) = Ok (Some d).
Proof.
  intros Hd Hp. unfold normalize_money, money, to_decimal. cbn [to_pynum]. rewrite (money_text_strip d strict) by done.
  rewrite decimal_str_money by done. pose proof (money_id d Hd) as Hq. unfold money, to_decimal in Hq.
  cbn [mbind result_bind] in Hq. assert (String.eqb (decimal_str d) "" = false) as ->.
  { apply String.eqb_neq. intros E. pose proof (decimal_str_money d Hd) as H. rewrite E in H.
    vm_compute in H. done. }
  cbn [mbind result_bind]. rewrite Hq. cbn [collect fmap result_fmap keep]. by rewrite Hp.
Qed.

(** What a bundle carries is read as the request it was made from. *)
Lemma revalidate_json coerce_int r :
  (∀ z, coerce_int (PInt z) = Some z) → valid_request r = true →
  model_validate coerce_int (model_dump_json r) = Ok r.
Proof.
  intros Hz Hr. unfold model_validate. rewrite guards_dump_json by done. cbn [collect mbind result_bind].
  destruct (request_money_ok r Hr) as (M1 & M2 & M3 & P1 & P2 & P3).
  unfold valid_request in Hr. rewrite !andb_true_iff, bool_decide_eq_true in Hr.
  destruct Hr as [[[[[[[Hh Hc] _] _] _] _] Hq] Hs].
  assert (forallb (fun k => bool_decide (k ∈ REQUEST_FIELDS)) (dict_keys (model_dump_json r)) = true)
    as Hk by reflexivity.
  rewrite Hk. clear Hk.
  change (on_key validate_hs_code "hs_code" (model_dump_json r)) with (validate_hs_code (PStr (hs_code r))).
  change (on_key validate_country "country_of_origin" (model_dump_json r))
    with (validate_country (PStr (country_of_origin r))).
  change (on_key (normalize_money true) "customs_value" (model_dump_json r))
    with (normalize_money true (PStr (decimal_str (customs_value r)))).
  change (on_key (normalize_money false) "freight" (model_dump_json r))
    with (normalize_money false (PStr (decimal_str (freight r)))).
  change (on_key (normalize_money false) "insurance" (model_dump_json r))
    with (normalize_money false (PStr (decimal_str (insurance r)))).
  change (on_key (validate_quantity coerce_int) "quantity" (model_dump_json r))
    with (validate_quantity coerce_int (PInt (quantity r))).
  change (on_key validate_shipping_mode "shipping_mode" (model_dump_json r))
    with (validate_shipping_mode (PStr (shipping_mode r))).
  unfold validate_hs_code, validate_country, validate_quantity, validate_shipping_mode.
  rewrite normalize_hs_id, normalize_country_id, normalize_mode_id, !normalize_money_text, Hz by done.
  cbn [keep]. rewrite Hh, Hc, Hq, bool_decide_true by done.
  cbn [mbind result_bind]. by destruct r.
Qed.

(** ** The proof as a dictionary *)

Lemma as_strs_strs l : as_strs (strs l) = Some l.
Proof. unfold strs, as_strs. induction l as [|s l IH]; [done|]. cbn [map mapM as_str mbind option_bind]. by rewrite IH. Qed.

Lemma as_str_dict_dict l : as_str_dict (str_dict l) = Some l.
Proof.
  unfold str_dict, as_str_dict. induction l as [|[k s] l IH]; [done|].
  cbn [map mapM fst snd as_str fmap option_fmap option_map mbind option_bind]. by rewrite IH.
Qed.

Lemma without_computed_idemp p :
  without_computed (_canonical_proof_payload p) = _canonical_proof_payload p.
Proof. reflexivity. Qed.

(** Reading a proof back. *)
Lemma proof_payload_roundtrip coerce_int p :
  (∀ z, coerce_int (PInt z) = Some z) → valid_artifact (AProof p) →
  proof_model_validate coerce_int (PDict (_canonical_proof_payload p)) = Ok p.
Proof.
  intros Hz Hv. unfold proof_model_validate.
  assert (proof_of_fields coerce_int (_canonical_proof_payload p) = Some p) as ->.
  { unfold proof_of_fields. change (dict_get "commitments" (_canonical_proof_payload p)) with (Some (strs (p_commitments p))).
    change (dict_get "public_inputs" (_canonical_proof_payload p)) with (Some (strs (p_public_inputs p))).
    change (dict_get "metadata" (_canonical_proof_payload p)) with (Some (str_dict (p_metadata p))).
    change (dict_get "cycle" (_canonical_proof_payload p)) with (Some (PInt (cycle (p_header p)))).
    assert (proof_type_ok (_canonical_proof_payload p) &&
      forallb (fun k => bool_decide (k ∈ PROOF_FIELDS)) (dict_keys (_canonical_proof_payload p)) = true) as E
      by reflexivity.
    rewrite E. clear E. cbn [mbind option_bind]. rewrite !as_strs_strs, as_str_dict_dict, Hz.
    destruct p as [[]]. reflexivity. }
  unfold valid_artifact, validate_artifact in Hv. apply fmap_ok in Hv as (p' & Hv & [= ->]). by rewrite Hv.
Qed.

(** ** The verdict *)

(** A key log that is a chain, with its hash at the tip. *)
Definition log_ok (st : key_log) : Prop :=
  key_chain _ZERO_HASH (key_records st) ∧ _prev_hash st = key_tip _ZERO_HASH (key_records st).

Lemma one_event_ok k k' : one_event k k' → log_ok k → log_ok k'.
Proof. intros H [Hc Ht]. by apply (one_event_chain k). Qed.

Section verdict.
Context `{BK : Backend} (coerce_int : pyval → option Z) (rules : list TariffRule).

(** The hash of the circuit's verification key. *)
Definition key_hash_of : result string :=
  k ← run_compile (compile_request compiled);
  m ← manifest_text (co_verification_manifest_path k);
  Ok (sha256_hex m).

Lemma derive_vk_none now st :
  derive_verification_key now (pc_circuit_hash compiled) None st =
  derive_verification_key now (pc_circuit_hash compiled) (Some compiled) st.
Proof. unfold derive_verification_key, checked_circuit, resolve_circuit. by rewrite compile_total. Qed.

Lemma verification_key_hash_spec now st :
  ∃ st', _verification_key_hash now (pc_circuit_hash compiled) st = (key_hash_of, st') ∧ one_event st st'.
Proof.
  pose proof (ensure_compiled_spec now compiled st) as He.
  unfold _verification_key_hash, mbind at 1, logged_bind at 1, logging at 1. rewrite derive_vk_none.
  unfold derive_verification_key, checked_circuit, key_hash_of. cbn [resolve_circuit mbind result_bind].
  rewrite String.eqb_refl. cbn [mbind result_bind].
  destruct (run_compile (compile_request compiled)) as [k|x].
  - destruct He as (st' & He & Hone). rewrite He. cbn [mbind result_bind].
    unfold mbind, logged_bind, silent. cbn [dk_manifest_path]. exists st'.
    cbn [km_verification_manifest_path key_material]. split; [|exact Hone].
    destruct (manifest_text (co_verification_manifest_path k)) as [m|x]; reflexivity.
  - rewrite He. exists st. split; [reflexivity|by left].
Qed.

Definition packet_in (d : list (string * pyval)) : result DeterministicTracePacket :=
  subscript_dict "input" d ≫= packet_of coerce_int rules.

Definition proof_in (d : list (string * pyval)) : result Proof_ :=
  payload ← subscript_dict "proof" d ≫= proof_payload_of;
  proof_model_validate coerce_int payload.

(** What a bundle has to hold: a request that is priced, and its hashes; the
    hashes of the circuit and of its key; and a proof the verifier accepts. *)
Definition bundle_accepts (d : list (string * pyval)) : Prop :=
  ∃ pk vk p,
    packet_in d = Ok pk ∧ key_hash_of = Ok vk ∧ proof_in d = Ok p ∧
    dict_get "input_hash" d = Some (PStr (input_hash (integrity (pk_response pk)))) ∧
    dict_get "output_hash" d = Some (PStr (output_hash (integrity (pk_response pk)))) ∧
    dict_get "trace_hash" d = Some (PStr (t_trace_hash (trace_artifact pk))) ∧
    dict_get "circuit_hash" d = Some (PStr (pc_circuit_hash compiled)) ∧
    dict_get "verification_key_hash" d = Some (PStr vk) ∧ plonk_accepts p.

Lemma hash_check_spec d field expected :
  hash_wf expected →
  match hash_check d field expected with
  | Ok c => c.1 = true ↔ dict_get field d = Some (PStr expected)
  | Raise _ => dict_get field d ≠ Some (PStr expected)
  end.
Proof.
  intros He%hash_wf_ascii. unfold hash_check, subscript_dict. destruct (dict_get field d) as [v|]; cbn [mbind result_bind]; [|done].
  destruct v as [| | | | | | | |s| | | | |]; cbn [equal_to mbind result_bind]; try (by intros [=]).
  destruct (constant_time_equal s expected) as [b|x] eqn:E; cbn [mbind result_bind fst].
  - unfold constant_time_equal in E. rewrite He, andb_true_r in E. destruct (is_ascii s); [|done].
    injection E as <-. rewrite String.eqb_eq. naive_solver.
  - intros [= ->]. unfold constant_time_equal in E. by rewrite He in E.
Qed.

(** All of some fields at once. *)
Lemma hash_checks_spec d l :
  Forall (fun p => hash_wf p.2) l →
  match traverse (fun p : string * string => hash_check d p.1 p.2) l with
  | Ok cs => forallb fst cs = true ↔ Forall (fun p => dict_get p.1 d = Some (PStr p.2)) l
  | Raise _ => ¬ Forall (fun p => dict_get p.1 d = Some (PStr p.2)) l
  end.
Proof.
  induction 1 as [|[field expected] l He Hl IH]; [done|]. cbn [traverse fst snd] in *.
  pose proof (hash_check_spec d field expected He) as Hc.
  destruct (hash_check d field expected) as [c|x]; cbn [mbind result_bind].
  2: { intros Hf. by apply Forall_cons in Hf as [Hf _]. }
  destruct (traverse _ l) as [cs|x]; cbn [mbind result_bind].
  - cbn [forallb]. rewrite andb_true_iff, Forall_cons. cbn [fst snd]. tauto.
  - intros Hf. apply Forall_cons in Hf as [_ Hf]. done.
Qed.

(** The hashes of a packet are digests. *)
Lemma hash_payload_wf v h : hash_payload v = Ok h → hash_wf h.
Proof. unfold hash_payload. intros (t & _ & <-)%fmap_ok. apply sha256_hex_wf. Qed.

Lemma response_hashes_wf q r :
  calculate_import_landed_cost coerce_int rules q = Ok r →
  hash_wf (input_hash (integrity r)) ∧ hash_wf (output_hash (integrity r)) ∧ hash_wf (trace_hash (integrity r)).
Proof.
  unfold calculate_import_landed_cost. intros H.
  apply bind_ok in H as (v & _ & H). apply bind_ok in H as (h & _ & H). apply bind_ok in H as (rule & _ & H).
  apply bind_ok in H as (a & _ & H). apply bind_ok in H as (res & _ & H). apply bind_ok in H as (i & Hi & [= <-]).
  unfold build_integrity_artifact in Hi. apply bind_ok in Hi as (h1 & H1 & Hi). apply bind_ok in Hi as (h2 & H2 & Hi).
  apply bind_ok in Hi as (h3 & H3 & [= <-]). cbn [integrity input_hash output_hash trace_hash].
  split_and!; by eapply hash_payload_wf.
Qed.

Lemma packet_inv value by_ cyc pk :
  build_trace_packet coerce_int rules value by_ cyc = Ok pk →
  model_validate coerce_int value = Ok (pk_request pk) ∧
  calculate_import_landed_cost coerce_int rules (pk_request pk) = Ok (pk_response pk) ∧
  t_trace_hash (trace_artifact pk) = trace_hash (integrity (pk_response pk)).
Proof.
  unfold build_trace_packet. intros H. apply bind_ok in H as (q & Hq & H). apply bind_ok in H as (r & Hr & H).
  apply bind_ok in H as (t & Ht & H). apply bind_ok in H as (w & Hw & H).
  case_bool_decide as E; cbn [negb] in H; [|done]. destruct (negb _) in H; [done|]. injection H as <-.
  cbn [pk_request pk_response trace_artifact]. split; [exact Hq|]. split; [exact Hr|]. symmetry. exact E.
Qed.

Lemma packet_hashes_wf d pk :
  packet_in d = Ok pk →
  hash_wf (input_hash (integrity (pk_response pk))) ∧ hash_wf (output_hash (integrity (pk_response pk))) ∧
  hash_wf (t_trace_hash (trace_artifact pk)).
Proof.
  unfold packet_in. intros (v & _ & H)%bind_ok. destruct v; try done. cbn [packet_of] in H.
  apply packet_inv in H as (_ & Hr & ->). by apply response_hashes_wf in Hr.
Qed.

(** [m] ends in a valid verdict exactly when [Q], and keeps the log a chain. *)
Definition concludes (Q : Prop) (m : logged bundle_verdict) : Prop :=
  ∀ st, (match (m st).1 with Ok r => bv_valid r = true ↔ Q | Raise _ => ¬ Q end) ∧
        (log_ok st → log_ok (m st).2).

Lemma concludes_iff Q Q' m : (Q ↔ Q') → concludes Q m → concludes Q' m.
Proof. intros E H st. destruct (H st) as [Hr Hl]. split; [|exact Hl]. destruct (m st).1; tauto. Qed.

Lemma ex_ok {A} (a : A) (Q : A → Prop) : (∃ a', Ok a = Ok a' ∧ Q a') ↔ Q a.
Proof. naive_solver. Qed.

Lemma silent_ok {A B} (a : A) (f : A → logged B) : (silent (Ok a) ≫= f) = f a.
Proof. reflexivity. Qed.

Lemma concludes_silent {A} (r : result A) (Q : A → Prop) f :
  (∀ a, r = Ok a → concludes (Q a) (f a)) → concludes (∃ a, r = Ok a ∧ Q a) (silent r ≫= f).
Proof.
  intros H. destruct r as [a|x].
  - eapply concludes_iff; [|exact (H a eq_refl)]. by rewrite ex_ok.
  - intros st. split; [by intros (a & E & _)|]. intros Hl. exact Hl.
Qed.

Lemma concludes_key now (Q : string → Prop) f :
  (∀ vk, key_hash_of = Ok vk → concludes (Q vk) (f vk)) →
  concludes (∃ vk, key_hash_of = Ok vk ∧ Q vk) (_verification_key_hash now (pc_circuit_hash compiled) ≫= f).
Proof.
  intros H st. destruct (verification_key_hash_spec now st) as (st' & E & Hone).
  unfold mbind, logged_bind. rewrite E. destruct key_hash_of as [vk|x].
  - destruct (H vk eq_refl st') as [Hr Hl]. split; [|eauto using one_event_ok].
    destruct (f vk st').1; by rewrite ex_ok.
  - split; [by intros (vk & F & _)|by apply one_event_ok].
Qed.

Lemma concludes_verify now by_ cyc p (f : VerificationResult → bundle_verdict) :
  (∀ v, bv_valid (f v) = bool_decide (v_status v = VALID)) →
  concludes (plonk_accepts p) (v ← verify_plonk_proof now by_ cyc p; silent (Ok (f v))).
Proof.
  intros Hf st. destruct (verify_plonk_spec now by_ cyc p st) as (v & st' & E & Hv & Hone).
  unfold mbind, logged_bind. rewrite E. cbn [silent fst snd]. split; [|by apply one_event_ok].
  by rewrite Hf, bool_decide_eq_true.
Qed.

Lemma concludes_invalid r : bv_valid r = false → concludes False (silent (Ok r)).
Proof. intros Hr st. split; [cbn [silent fst]; by rewrite Hr|]. intros Hl. exact Hl. Qed.

Lemma concludes_branch (b : bool) Q r m :
  bv_valid r = false → concludes Q m → concludes (b = true ∧ Q) (if b then m else silent (Ok r)).
Proof.
  intros Hr Hm. destruct b; [eapply concludes_iff; [|exact Hm]; tauto|].
  eapply concludes_iff; [|by apply concludes_invalid]. naive_solver.
Qed.

(** The five comparisons. *)
Definition expected_hashes (pk : DeterministicTracePacket) (circuit vk : string) : list (string * string) :=
  [("input_hash", input_hash (integrity (pk_response pk))); ("output_hash", output_hash (integrity (pk_response pk)));
   ("trace_hash", t_trace_hash (trace_artifact pk)); ("circuit_hash", circuit); ("verification_key_hash", vk)].

Lemma expected_hashes_wf d pk circuit vk :
  packet_in d = Ok pk → hash_wf circuit → hash_wf vk → Forall (fun p => hash_wf p.2) (expected_hashes pk circuit vk).
Proof.
  intros (H1 & H2 & H3)%packet_hashes_wf Hc Hv. unfold expected_hashes.
  repeat (apply Forall_cons; split; [assumption|]). by apply Forall_nil.
Qed.

Lemma key_hash_wf vk : key_hash_of = Ok vk → hash_wf vk.
Proof.
  unfold key_hash_of. intros H. apply bind_ok in H as (k & _ & H). apply bind_ok in H as (m & _ & H).
  injection H as <-. apply sha256_hex_wf.
Qed.

Lemma compiled_hash_wf : hash_wf (pc_circuit_hash compiled).
Proof. apply sha256_hex_wf. Qed.

Lemma expected_iff d pk circuit vk :
  Forall (fun p => dict_get p.1 d = Some (PStr p.2)) (expected_hashes pk circuit vk) ↔
  dict_get "input_hash" d = Some (PStr (input_hash (integrity (pk_response pk)))) ∧
  dict_get "output_hash" d = Some (PStr (output_hash (integrity (pk_response pk)))) ∧
  dict_get "trace_hash" d = Some (PStr (t_trace_hash (trace_artifact pk))) ∧
  dict_get "circuit_hash" d = Some (PStr circuit) ∧ dict_get "verification_key_hash" d = Some (PStr vk).
Proof. unfold expected_hashes. rewrite !Forall_cons, Forall_nil. cbn [fst snd]. tauto. Qed.

Lemma checked_iff d pk circuit vk (Q : Prop) :
  packet_in d = Ok pk → hash_wf circuit → hash_wf vk →
  (∃ cs, traverse (fun p : string * string => hash_check d p.1 p.2) (expected_hashes pk circuit vk) = Ok cs ∧
         forallb fst cs = true ∧ Q) ↔
  Forall (fun p => dict_get p.1 d = Some (PStr p.2)) (expected_hashes pk circuit vk) ∧ Q.
Proof.
  intros Hpk Hc Hv. pose proof (hash_checks_spec d _ (expected_hashes_wf d pk circuit vk Hpk Hc Hv)) as H.
  destruct (traverse _ _) as [cs|x].
  - rewrite ex_ok, H. done.
  - split; [by intros (cs & E & _)|]. by intros [Hf _].
Qed.

Lemma proof_in_iff d (Q : Proof_ → Prop) :
  (∃ v, (subscript_dict "proof" d ≫= proof_payload_of) = Ok v ∧ ∃ p, proof_model_validate coerce_int v = Ok p ∧ Q p) ↔
  ∃ p, proof_in d = Ok p ∧ Q p.
Proof.
  unfold proof_in. split.
  - intros (v & Hv & p & Hp & HQ). exists p. rewrite Hv. done.
  - intros (p & Hp & HQ). apply bind_ok in Hp as (v & Hv & Hp). eauto.
Qed.

Lemma bundle_body_concludes now d : concludes (bundle_accepts d) (verify_bundle_body coerce_int rules now d).
Proof.
  unfold verify_bundle_body. fold (packet_in d). rewrite compile_total.
  eapply concludes_iff; [|apply concludes_silent; intros pk Hpk; rewrite silent_ok; apply concludes_key; intros vk Hvk;
    apply concludes_silent; intros payload _; apply concludes_silent; intros p _;
    apply concludes_silent; intros cs Hcs; apply concludes_branch; [reflexivity|];
    apply concludes_verify; intros v; reflexivity].
  cbn beta. unfold bundle_accepts. split.
  - intros (pk & Hpk & vk & Hvk & H). exists pk, vk.
    apply (proof_in_iff d (fun p => ∃ cs, traverse (fun p : string * string => hash_check d p.1 p.2)
      (expected_hashes pk (pc_circuit_hash compiled) vk) = Ok cs ∧ forallb fst cs = true ∧ plonk_accepts p))
      in H as (p & Hp & H).
    apply checked_iff in H as [Hf Hacc]; [|exact Hpk|exact compiled_hash_wf|by apply key_hash_wf].
    apply expected_iff in Hf. exists p. tauto.
  - intros (pk & vk & p & Hpk & Hvk & Hp & H1 & H2 & H3 & H4 & H5 & Hacc).
    exists pk. split; [exact Hpk|]. exists vk. split; [exact Hvk|].
    apply (proof_in_iff d (fun p => ∃ cs, traverse (fun p : string * string => hash_check d p.1 p.2)
      (expected_hashes pk (pc_circuit_hash compiled) vk) = Ok cs ∧ forallb fst cs = true ∧ plonk_accepts p)).
    exists p. split; [exact Hp|].
    apply checked_iff; [exact Hpk|exact compiled_hash_wf|by apply key_hash_wf|].
    split; [|exact Hacc]. apply expected_iff. tauto.
Qed.
End verdict.

Lemma verify_bundle_spec `{BK : Backend} coerce_int rules now d st :
  ∃ r st', verify_proof_bundle coerce_int rules now d st = (r, st') ∧
    (bv_valid r = true ↔ bundle_accepts coerce_int rules d) ∧ (log_ok st → log_ok st').
Proof.
  unfold verify_proof_bundle. destruct (bundle_body_concludes coerce_int rules now d st) as [Hr Hl].
  destruct (verify_bundle_body coerce_int rules now d st) as [[r|x] st']; cbn [fst snd] in *; [by eexists _, _|].
  eexists _, _. split; [reflexivity|]. split; [|exact Hl]. cbn [bv_valid failed_verdict]. by split.
Qed.

(** Verification of a proof bundle is total and decides its specification.
    Whatever the dictionary, a verdict comes back; it is valid exactly when the
    input is a request the engine prices, the five hashes are those of the
    recomputed calculation, of the circuit and of its key, and the proof is an
    artifact the PLONK verifier accepts; and the key log stays a chain. *)
Theorem proof_bundle_verdict `{BK : Backend} coerce_int rules now d st :
  ∃ r st', verify_proof_bundle coerce_int rules now d st = (r, st') ∧
    (bv_valid r = true ↔ bundle_accepts coerce_int rules d) ∧ (log_ok st → log_ok st').
Proof. apply verify_bundle_spec. Qed.

(** ** Swapped proofs *)

Lemma accepts_swap `{BK : Backend} coerce_int rules d p :
  (∀ z, coerce_int (PInt z) = Some z) → valid_artifact (AProof p) → plonk_accepts p →
  bundle_accepts coerce_int rules d →
  bundle_accepts coerce_int rules (dict_set "proof" (PDict (_canonical_proof_payload p)) d).
Proof.
  intros Hz Hv Hp (pk & vk & p' & Hpk & Hvk & _ & H1 & H2 & H3 & H4 & H5 & _). exists pk, vk, p.
  set (d' := dict_set "proof" (PDict (_canonical_proof_payload p)) d).
  assert (∀ k, k ≠ "proof" → dict_get k d' = dict_get k d) as Hk by (intros k Hk; by apply dict_get_set_ne).
  split; [unfold packet_in, subscript_dict in *; by rewrite Hk|]. split; [exact Hvk|].
  split.
  { unfold proof_in, subscript_dict, d'. rewrite dict_get_set_eq. cbn [mbind result_bind proof_payload_of].
    rewrite without_computed_idemp. by apply proof_payload_roundtrip. }
  rewrite !Hk by done. do 5 (split; [assumption|]). exact Hp.
Qed.

(** A valid proof bundle need not hold the proof of its calculation.  Take
    any bundle that verifies, and the proof of any other calculation, as long
    as the PLONK verifier accepts it by itself: the bundle with that proof in
    the place of its own verifies too, with the same hashes. *)
Theorem bundle_proof_unbound `{BK : Backend} coerce_int rules now by_ cyc st d p v st1 :
  (∀ z, coerce_int (PInt z) = Some z) → valid_artifact (AProof p) →
  verify_plonk_proof now by_ cyc p st = (Ok v, st1) → v_status v = VALID →
  bv_valid (verify_proof_bundle coerce_int rules now d st).1 = true →
  bv_valid (verify_proof_bundle coerce_int rules now
              (dict_set "proof" (PDict (_canonical_proof_payload p)) d) st).1 = true.
Proof.
  intros Hz Hv Ep Vp Hd. destruct (verify_plonk_spec now by_ cyc p st) as (w & s & Ew & Hw & _).
  rewrite Ep in Ew. injection Ew as <- _. apply Hw in Vp.
  destruct (verify_bundle_spec coerce_int rules now d st) as (r & s1 & Er & Hr & _). rewrite Er in Hd.
  destruct (verify_bundle_spec coerce_int rules now (dict_set "proof" (PDict (_canonical_proof_payload p)) d) st)
    as (r' & s2 & Er' & Hr' & _). rewrite Er'. apply Hr', accepts_swap; [done..|by apply Hr].
Qed.

(** ** Dictionaries in the order of their keys

    What is written has its keys in order, and so has what is read back. *)

Lemma canonicalize_sorted d : canonicalize (PDict (isort key_leb d)) = canonicalize (PDict d).
Proof.
  cbn [canonicalize]. rewrite !(isort_map key_leb key_leb) by done.
  by rewrite (isort_idemp key_leb key_leb_trans key_leb_total).
Qed.

Lemma traverse_elem {A B} (f : A → result B) l ys x : traverse f l = Ok ys → x ∈ l → ∃ y, f x = Ok y.
Proof.
  intros H%traverse_ok Hx. induction H as [|x' y l ys E _ IH]; [by apply elem_of_nil in Hx|].
  apply elem_of_cons in Hx as [->|Hx]; eauto.
Qed.

Lemma walk_sorted d : walk (PDict d) = Ok tt → walk (PDict (isort key_leb d)) = Ok tt.
Proof.
  cbn [walk]. rewrite length_isort. destruct (Z.of_nat (length d) >? MAX_COLLECTION_ITEMS); [done|].
  rewrite !traverse_map. intros (ys & Hys & _)%fmap_ok.
  destruct (traverse _ (isort key_leb d)) as [zs|e] eqn:E; [reflexivity|].
  apply traverse_raise_inv in E as (p & Hp & Ep). rewrite elem_of_isort in Hp.
  destruct (traverse_elem _ _ _ _ Hys Hp) as [y Hy]. by rewrite Hy in Ep.
Qed.

Lemma guards_sorted d :
  enforce_payload_guards (PDict d) = Ok tt → enforce_payload_guards (PDict (isort key_leb d)) = Ok tt.
Proof.
  unfold enforce_payload_guards, canonical_payload. rewrite canonicalize_sorted.
  destruct (canonicalize (PDict d)) as [j|]; [|done]. cbn [fmap result_fmap mbind result_bind].
  destruct (_ >? _); [done|]. apply walk_sorted.
Qed.

Lemma forallb_sorted (f : string → bool) {A} (d : list (string * A)) :
  forallb f (dict_keys (isort key_leb d)) = forallb f (dict_keys d).
Proof.
  unfold dict_keys. apply eq_true_iff_eq. rewrite !forallb_Forall. by rewrite isort_perm.
Qed.

(** A request is read from its fields in any order. *)
Lemma model_validate_sorted coerce_int d r :
  dict_wf d → model_validate coerce_int d = Ok r → model_validate coerce_int (isort key_leb d) = Ok r.
Proof.
  intros Hd. unfold model_validate, on_key. rewrite !dict_get_isort by done. rewrite forallb_sorted.
  intros H. apply bind_ok in H as ([u|] & Hg & H); [|done].
  destruct (enforce_payload_guards (PDict d)) as [[]|[[] m]] eqn:E; try done.
  rewrite (guards_sorted _ E). exact H.
Qed.

Lemma proof_model_sorted coerce_int d :
  dict_wf d → proof_model_validate coerce_int (PDict (isort key_leb d)) = proof_model_validate coerce_int (PDict d).
Proof.
  intros Hd. unfold proof_model_validate, proof_of_fields, proof_type_ok.
  by rewrite !dict_get_isort, forallb_sorted by done.
Qed.

(** The proof that is read back from the text of a proof. *)
Definition with_sorted_metadata (p : Proof_) : Proof_ :=
  mkProof (p_header p) (p_proof_system p) (p_circuit_artifact_id p) (p_witness_artifact_id p) (p_commitments p)
    (p_public_inputs p) (isort key_leb (p_metadata p)) (p_proof_blob_hex p) (p_proof_hash p) (p_input_hash p)
    (p_output_hash p) (p_trace_hash p) (p_final_proof p).

Lemma canonical_sorted_metadata p :
  canonical_form (PDict (proof_fields_of (with_sorted_metadata p))) = canonical_form (PDict (proof_fields_of p)).
Proof.
  rewrite !canonical_proof_fields. cbn [with_sorted_metadata p_proof_system p_circuit_artifact_id
    p_witness_artifact_id p_commitments p_public_inputs p_metadata p_proof_blob_hex p_input_hash p_output_hash
    p_trace_hash p_final_proof].
  assert (canonical_form (str_dict (isort key_leb (p_metadata p))) = canonical_form (str_dict (p_metadata p))) as ->;
    [|done].
  unfold str_dict. cbn [canonical_form]. rewrite !map_map. cbn [fst snd canonical_form].
  rewrite !(isort_map key_leb key_leb) by done. by rewrite (isort_idemp key_leb key_leb_trans key_leb_total).
Qed.

Lemma valid_sorted_metadata p :
  dict_wf (p_metadata p) → valid_artifact (AProof p) → valid_artifact (AProof (with_sorted_metadata p)).
Proof.
  intros Hm. unfold valid_artifact, validate_artifact. intros (q & Hq & [= ->])%fmap_ok.
  unfold validate_proof_hash in *. apply check_hash_inv in Hq; [|by apply pyval_wf_float_free, proof_fields_wf].
  rewrite check_hash_ok; [done|apply pyval_wf_float_free, proof_fields_wf|].
  - eapply dict_wf_perm; [|exact Hm]. cbn [with_sorted_metadata p_metadata]. by rewrite isort_perm.
  - transitivity (payload_hash (PDict (proof_fields_of p))); [exact Hq|].
    exact (f_equal (fun c => sha256_hex (json_print c)) (eq_sym (canonical_sorted_metadata p))).
Qed.

Lemma accepts_sorted_metadata `{Backend} p :
  dict_wf (p_metadata p) → plonk_accepts p → plonk_accepts (with_sorted_metadata p).
Proof.
  intros Hm. unfold plonk_accepts, key_accepts, backend_accepts, final_proof_bound, metadata_get, circuit_hash.
  cbn [with_sorted_metadata p_metadata]. rewrite !dict_get_isort by done. destruct p. intros H'. exact H'.
Qed.

(** ** Exported bundles *)

(** What is exported, and what is read back from its text. *)
Definition exported (pk : DeterministicTracePacket) (p : Proof_) (vk : string) : list (string * pyval) :=
  let i := integrity (pk_response pk) in
  [("input", PDict (model_dump_json (pk_request pk)));
   ("input_hash", PStr (input_hash i)); ("output_hash", PStr (output_hash i));
   ("trace_hash", PStr (t_trace_hash (trace_artifact pk)));
   ("circuit_hash", PStr (pc_circuit_hash compiled)); ("verification_key_hash", PStr vk);
   ("proof", PDict (_canonical_proof_payload p))].

Definition read_back (pk : DeterministicTracePacket) (p : Proof_) (vk : string) : list (string * pyval) :=
  let i := integrity (pk_response pk) in
  [("circuit_hash", PStr (pc_circuit_hash compiled));
   ("input", PDict (isort key_leb (model_dump_json (pk_request pk))));
   ("input_hash", PStr (input_hash i)); ("output_hash", PStr (output_hash i));
   ("proof", PDict (isort key_leb (_canonical_proof_payload (with_sorted_metadata p))));
   ("trace_hash", PStr (t_trace_hash (trace_artifact pk))); ("verification_key_hash", PStr vk)].

Lemma of_json_strs l : of_json (canonical_form (strs l)) = strs l.
Proof. unfold strs. cbn [canonical_form of_json]. by rewrite !map_map. Qed.

Lemma of_json_str_dict l : of_json (canonical_form (str_dict l)) = str_dict (isort key_leb l).
Proof.
  unfold str_dict. cbn [canonical_form]. rewrite map_map. cbn [fst snd canonical_form].
  rewrite (isort_map key_leb key_leb) by done. cbn [of_json]. by rewrite map_map.
Qed.

Lemma read_back_proof p :
  of_json (canonical_form (PDict (_canonical_proof_payload p))) =
  PDict (isort key_leb (_canonical_proof_payload (with_sorted_metadata p))).
Proof.
  transitivity (PDict
    [("artifact_id", PStr (artifact_id (p_header p))); ("artifact_type", PStr (type_value PROOF));
     ("circuit_artifact_id", PStr (p_circuit_artifact_id p));
     ("commitments", of_json (canonical_form (strs (p_commitments p)))); ("cycle", PInt (cycle (p_header p)));
     ("final_proof", PStr (p_final_proof p)); ("input_hash", PStr (p_input_hash p));
     ("metadata", of_json (canonical_form (str_dict (p_metadata p)))); ("output_hash", PStr (p_output_hash p));
     ("produced_by", PStr (produced_by (p_header p))); ("proof_blob_hex", PStr (p_proof_blob_hex p));
     ("proof_hash", PStr (p_proof_hash p)); ("proof_system", PStr (p_proof_system p));
     ("public_inputs", of_json (canonical_form (strs (p_public_inputs p)))); ("trace_hash", PStr (p_trace_hash p));
     ("witness_artifact_id", PStr (p_witness_artifact_id p))]); [reflexivity|].
  rewrite !of_json_strs, of_json_str_dict. reflexivity.
Qed.

Lemma read_back_exported pk p vk :
  of_json (canonical_form (PDict (exported pk p vk))) = PDict (read_back pk p vk).
Proof.
  transitivity (PDict
    [("circuit_hash", PStr (pc_circuit_hash compiled));
     ("input", of_json (canonical_form (PDict (model_dump_json (pk_request pk)))));
     ("input_hash", PStr (input_hash (integrity (pk_response pk))));
     ("output_hash", PStr (output_hash (integrity (pk_response pk))));
     ("proof", of_json (canonical_form (PDict (_canonical_proof_payload p))));
     ("trace_hash", PStr (t_trace_hash (trace_artifact pk))); ("verification_key_hash", PStr vk)]);
    [unfold exported; generalize (pc_circuit_hash compiled); reflexivity|].
  rewrite read_back_proof. reflexivity.
Qed.

(** Distinct names, decided. *)
#[local] Ltac distinct_keys := apply (bool_decide_unpack _); vm_compute; exact I.

Lemma proof_payload_keys p : dict_wf (_canonical_proof_payload p).
Proof. distinct_keys. Qed.

Lemma dump_json_keys q : dict_wf (model_dump_json q).
Proof. distinct_keys. Qed.

Lemma proof_payload_wf p : dict_wf (p_metadata p) → pyval_wf (PDict (_canonical_proof_payload p)) = true.
Proof.
  intros Hm. cbn [pyval_wf]. rewrite (bool_decide_eq_true_2 _ (proof_payload_keys p)). cbn [andb].
  change (pyval_wf (strs (p_commitments p)) && (pyval_wf (strs (p_public_inputs p)) &&
    (pyval_wf (str_dict (p_metadata p)) && true)) = true).
  by rewrite !strs_wf, str_dict_wf.
Qed.

Lemma exported_wf pk p vk : dict_wf (p_metadata p) → pyval_wf (PDict (exported pk p vk)) = true.
Proof.
  intros Hm. assert (dict_wf (exported pk p vk)) as Hk by distinct_keys.
  cbn [pyval_wf]. rewrite (bool_decide_eq_true_2 _ Hk). cbn [andb].
  change (pyval_wf (PDict (model_dump_json (pk_request pk))) &&
    (pyval_wf (PDict (_canonical_proof_payload p)) && true) = true).
  rewrite proof_payload_wf by done. cbn [pyval_wf]. rewrite (bool_decide_eq_true_2 _ (dump_json_keys _)). reflexivity.
Qed.

(** The fields [value] have the packet's calculation. *)
Definition repriced (coerce_int : pyval → option Z) (rules : list TariffRule) (pk : DeterministicTracePacket)
    (value : list (string * pyval)) : Prop :=
  ∀ by_ cyc, ∃ pk', build_trace_packet coerce_int rules value by_ cyc = Ok pk' ∧
    pk_response pk' = pk_response pk ∧ t_trace_hash (trace_artifact pk') = t_trace_hash (trace_artifact pk).

Lemma json_decimals_wf q : payload_decimals_wf (model_dump_json q).
Proof.
  intros k d H. apply dict_get_Some_elem in H. unfold model_dump_json in H.
  repeat (apply elem_of_cons in H as [H|H]; [by inversion H|]). by apply not_elem_of_nil in H.
Qed.

Lemma sorted_decimals_wf d : dict_wf d → payload_decimals_wf d → payload_decimals_wf (isort key_leb d).
Proof. intros Hd H k x. rewrite dict_get_isort by done. apply H. Qed.

Lemma repriced_validated coerce_int rules value by_ cyc pk value' :
  (∀ z, coerce_int (PInt z) = Some z) →
  build_trace_packet coerce_int rules value by_ cyc = Ok pk →
  payload_decimals_wf value' → model_validate coerce_int value' = Ok (pk_request pk) →
  repriced coerce_int rules pk value'.
Proof.
  intros Hz Hpk Hwf Hj by' cyc'. destruct (packet_inv _ _ _ _ _ _ Hpk) as (Hq & Hr & Ht).
  destruct (packet_total _ _ Hz _ _ _ Hwf Hj Hr by' cyc') as (pk' & Hpk' & _).
  exists pk'. split; [exact Hpk'|]. destruct (packet_inv _ _ _ _ _ _ Hpk') as (Hq' & Hr' & Ht').
  assert (pk_request pk' = pk_request pk) as Eq by (rewrite Hj in Hq'; by injection Hq').
  assert (pk_response pk' = pk_response pk) as Er.
  { rewrite Eq in Hr'. rewrite Hr in Hr'. by injection Hr'. }
  split; [exact Er|]. by rewrite Ht', Ht, Er.
Qed.

(** The packet of the JSON dump, in any order, has the same calculation. *)
Lemma packet_again coerce_int rules value by_ cyc pk :
  (∀ z, coerce_int (PInt z) = Some z) → payload_decimals_wf value →
  build_trace_packet coerce_int rules value by_ cyc = Ok pk →
  valid_request (pk_request pk) = true ∧ repriced coerce_int rules pk (model_dump_json (pk_request pk)) ∧
  repriced coerce_int rules pk (isort key_leb (model_dump_json (pk_request pk))).
Proof.
  intros Hz Hwf Hpk. destruct (packet_inv _ _ _ _ _ _ Hpk) as (Hq & _).
  destruct (validated_valid _ _ _ Hwf Hq) as [Hv _]. pose proof (revalidate_json coerce_int _ Hz Hv) as Hj.
  split; [exact Hv|]. split; eapply repriced_validated; try done.
  - apply json_decimals_wf.
  - apply sorted_decimals_wf; [apply dump_json_keys|apply json_decimals_wf].
  - apply model_validate_sorted; [apply dump_json_keys|exact Hj].
Qed.

Section export.
Context `{BK : Backend} (HB : complete_backend BK).
Context (coerce_int : pyval → option Z) (rules : list TariffRule) (Hz : ∀ z, coerce_int (PInt z) = Some z).

Lemma key_hash_total : ∃ vk, key_hash_of = Ok vk.
Proof using HB.
  destruct (compiles _ HB) as (k & m & Hk & Hm). unfold key_hash_of. rewrite Hk. cbn [mbind result_bind].
  rewrite Hm. cbn [mbind result_bind]. eauto.
Qed.

(** A bundle of a packet and an accepted proof. *)
Lemma exported_accepts now input pk p st :
  valid_request (pk_request pk) = true → repriced coerce_int rules pk (model_dump_json (pk_request pk)) →
  valid_artifact (AProof p) → plonk_accepts p →
  ∃ vk st', export_proof_bundle coerce_int rules now input (Some pk) (Some p) st = (Ok (exported pk p vk), st') ∧
    key_hash_of = Ok vk ∧ bundle_accepts coerce_int rules (exported pk p vk).
Proof using HB Hz.
  intros Hv Hpk Hvp Hp. destruct key_hash_total as [vk Hvk].
  destruct (verification_key_hash_spec now st) as (st' & E & _). rewrite Hvk in E.
  unfold export_proof_bundle, resolve_proof. rewrite !silent_ok. rewrite compile_total, silent_ok.
  unfold mbind, logged_bind. rewrite E. exists vk, st'. split; [reflexivity|]. split; [exact Hvk|].
  destruct (Hpk "proof_bundle_verify" 1) as (pk' & Hb & Er & Et). exists pk', vk, p.
  split; [unfold packet_in, subscript_dict; exact Hb|]. split; [exact Hvk|].
  split; [unfold proof_in, subscript_dict; cbn [mbind result_bind]; by apply proof_payload_roundtrip|].
  rewrite Er, Et. split_and!; try reflexivity. exact Hp.
Qed.

(** What is read back from its text is accepted too. *)
Lemma read_back_accepts pk p vk :
  repriced coerce_int rules pk (isort key_leb (model_dump_json (pk_request pk))) →
  key_hash_of = Ok vk → dict_wf (p_metadata p) → valid_artifact (AProof p) → plonk_accepts p →
  bundle_accepts coerce_int rules (read_back pk p vk).
Proof using Hz.
  intros Hpk Hvk Hm Hvp Hp. destruct (Hpk "proof_bundle_verify" 1) as (pk' & Hb & Er & Et).
  exists pk', vk, (with_sorted_metadata p).
  split; [unfold packet_in, subscript_dict; exact Hb|]. split; [exact Hvk|]. split.
  { unfold proof_in. change (subscript_dict "proof" (read_back pk p vk) ≫= proof_payload_of)
      with (Ok (PDict (isort key_leb (_canonical_proof_payload (with_sorted_metadata p))))).
    cbn [mbind result_bind]. rewrite proof_model_sorted by apply proof_payload_keys.
    apply proof_payload_roundtrip; [exact Hz|by apply valid_sorted_metadata]. }
  rewrite Er, Et. split_and!; try reflexivity. by apply accepts_sorted_metadata.
Qed.
End export.

(** C14: an exported bundle verifies, also as a file.  With a complete backend,
    for every payload that validates to a request for a listed code, with an
    extended value, freight and insurance of at most 10^22 cents and a landed
    cost below that, the bundle is exported; it verifies in every later state of the key log; it is written as
    a text; and scripts/verify_proof.py reads that text back, finds it valid and
    exits with status 0, whatever the key log has become. *)
Theorem exported_bundles_verify `{BK : Backend} coerce_int value q rule now st :
  complete_backend BK → (∀ z, coerce_int (PInt z) = Some z) → payload_decimals_wf value →
  model_validate coerce_int value = Ok q → rule ∈ TARIFF_RULES → hs_code q = hs_prefix rule →
  in_range q → landed_of q rule < CENTS_LIMIT →
  ∃ d text st', export_proof_bundle coerce_int TARIFF_RULES now value None None st = (Ok d, st') ∧
    export_and_write_proof_bundle coerce_int TARIFF_RULES now value st = (Ok text, st') ∧
    ∀ now' st2,
      bv_valid (verify_proof_bundle coerce_int TARIFF_RULES now' d st2).1 = true ∧
      let '(valid, _, status) := (verify_proof_main coerce_int TARIFF_RULES now' (Some text) st2).1 in
      valid = true ∧ status = 0.
Proof.
  intros HB Hz Hwf Hq Hr Hhs Hb Hl.
  destruct (honest_proof_accepted coerce_int value q rule now "proof_export" 1 st HB Hz Hwf Hq Hr Hhs Hb Hl)
    as (pk & p & st1 & Hpk & Hp & Hvp & Hacc & _ & Hm).
  destruct (packet_again _ _ _ _ _ _ Hz Hwf Hpk) as (Hv & Hdump & Hsorted).
  destruct (exported_accepts HB coerce_int TARIFF_RULES Hz now value pk p st1 Hv Hdump Hvp Hacc)
    as (vk & st' & Hd & Hvk & Hda).
  pose proof (read_back_accepts coerce_int TARIFF_RULES Hz pk p vk Hsorted Hvk Hm Hvp Hacc) as Hba.
  assert (export_proof_bundle coerce_int TARIFF_RULES now value None None st = (Ok (exported pk p vk), st')) as He.
  { unfold export_proof_bundle, resolve_proof in *. rewrite !silent_ok in Hd. rewrite Hpk, silent_ok.
    unfold mbind at 1, logged_bind at 1. rewrite Hp. exact Hd. }
  exists (exported pk p vk), (json_print (canonical_form (PDict (exported pk p vk)))), st'. split; [exact He|]. split.
  { unfold export_and_write_proof_bundle, mbind, logged_bind, silent, write_proof_bundle. rewrite He.
    by rewrite canonical_payload_free by by apply pyval_wf_float_free, exported_wf. }
  intros now' st2. split.
  - destruct (verify_bundle_spec coerce_int TARIFF_RULES now' (exported pk p vk) st2) as (r & st3 & -> & Hiff & _).
    by apply Hiff.
  - unfold verify_proof_main. rewrite json_loads_print by by apply canonical_form_wf, exported_wf.
    rewrite read_back_exported.
    destruct (verify_bundle_spec coerce_int TARIFF_RULES now' (read_back pk p vk) st2) as (r & st3 & -> & Hiff & _).
    cbn [fst]. rewrite (proj2 Hiff Hba). exact (conj eq_refl eq_refl).
Qed.

(** ** Examples *)

(** The repository's backend, over the toy crates. *)
Example exported_bundles_verify_witness :
  ∃ d text st', @export_proof_bundle toy_backend coerce_plain TARIFF_RULES "t0" REFERENCE_REQUEST None None empty_log =
      (Ok d, st') ∧
    @export_and_write_proof_bundle toy_backend coerce_plain TARIFF_RULES "t0" REFERENCE_REQUEST empty_log =
      (Ok text, st') ∧
    ∀ now' st2,
      bv_valid (@verify_proof_bundle toy_backend coerce_plain TARIFF_RULES now' d st2).1 = true ∧
      let '(valid, _, status) := (@verify_proof_main toy_backend coerce_plain TARIFF_RULES now' (Some text) st2).1 in
      valid = true ∧ status = 0.
Proof.
  apply (exported_bundles_verify (BK := toy_backend) coerce_plain REFERENCE_REQUEST sample_request sample_rule);
    [exact (rust_backend_complete "keys" toy_disk)|reflexivity|exact reference_decimals_wf
    |vm_compute; reflexivity|apply sample_rule_in|reflexivity| |].
  - unfold in_range, CENTS_LIMIT. vm_compute. done.
  - vm_compute. reflexivity.
Defined.

Definition sample_exported : list (string * pyval) :=
  ok_default (@export_proof_bundle digest_backend coerce_plain TARIFF_RULES "t0" REFERENCE_REQUEST None None empty_log).1.

(** The proof of another request. *)
Definition foreign_proof : Proof_ :=
  ok_default
    (pk ← build_trace_packet coerce_plain TARIFF_RULES VARIANT_REQUEST "prover" 1;
     (@build_plonk_proof digest_backend coerce_plain TARIFF_RULES "t0" (witness_artifact pk)
        (t_trace_hash (trace_artifact pk)) "prover" 1 empty_log).1).

Example bundle_proof_unbound_witness :
  dict_get "trace_hash" sample_exported ≠ Some (PStr (p_trace_hash foreign_proof)) ∧
  bv_valid (@verify_proof_bundle digest_backend coerce_plain TARIFF_RULES "t1"
              (dict_set "proof" (PDict (_canonical_proof_payload foreign_proof)) sample_exported) empty_log).1 = true.
Proof.
  split; [vm_compute; intros E; discriminate E|].
  refine (@bundle_proof_unbound digest_backend coerce_plain TARIFF_RULES "t1" "verifier" 1 empty_log
    sample_exported foreign_proof
    (ok_default (@verify_plonk_proof digest_backend "t1" "verifier" 1 foreign_proof empty_log).1)
    (@verify_plonk_proof digest_backend "t1" "verifier" 1 foreign_proof empty_log).2 _ _ _ _ _);
    [reflexivity|vm_compute; reflexivity..].
Defined.
