(* ===== verification/Evidence.v ===== *)
(** * Persisted evidence (app/services/evidence_service.py, models/schemas.py)

    The records of a calculation that is kept, how the service builds them
    before its transaction, and how it verifies them later.  The database is an
    interface with the two queries verification makes; the transaction itself
    is the subject of EvidenceLog.  pydantic's reading of a stored response is
    the parameter it is in CoreVerifier. *)
From S2P Require Export ProofBundle.

Local Open Scope Z_scope.

(** ** Records *)

Record RequestRecord := mkRequestRecord {
  rq_id : string;
  rq_input_hash : string;
  rq_raw_input : list (string * pyval);
  rq_created_at : datetime }.

Record ResultRecord := mkResultRecord {
  rs_id : string;
  rs_request_id : string;
  rs_output_hash : string;
  rs_raw_output : list (string * pyval);
  rs_created_at : datetime }.

Record ProofRecord := mkProofRecord {
  pf_id : string;
  pf_request_id : string;
  pf_trace_hash : string;
  pf_final_proof : string;
  pf_integrity_hash : string;
  pf_proof_system : string;
  pf_circuit_hash : string;
  pf_verification_key_hash : string;
  pf_proof_bundle : list (string * pyval);
  pf_proof_verified : bool;
  pf_created_at : datetime }.

Record PersistedEvidenceBundle := mkEvidence {
  ev_request : RequestRecord;
  ev_result : ResultRecord;
  ev_proof : ProofRecord;
  ev_audit_log : option AuditEventRecord }.

(** [response.model_dump(mode='json')]: decimals by their text. *)
Definition dump_result_json (r : CalculationResult) : pyval :=
  let money d := PStr (decimal_str d) in
  PDict [("dataset_version", PStr (dataset_version r)); ("dataset_hash", PStr (dataset_hash r));
         ("hs_code", PStr (r_hs_code r)); ("country_of_origin", PStr (r_country_of_origin r));
         ("quantity", PInt (r_quantity r)); ("tariff_rule_ref", PStr (tariff_rule_ref r));
         ("tariff_description", PStr (tariff_description r));
         ("unit_customs_value", money (unit_customs_value r));
         ("extended_customs_value", money (extended_customs_value r));
         ("freight", money (r_freight r)); ("insurance", money (r_insurance r));
         ("duty_rate", money (duty_rate r)); ("section_301_rate", money (section_301_rate r));
         ("duty_amount", money (duty_amount r)); ("section_301_amount", money (section_301_amount r));
         ("mpf_amount", money (mpf_amount r)); ("hmf_amount", money (hmf_amount r));
         ("landed_cost", money (landed_cost r))].

Definition dump_response_json (r : CalculationResponse) : list (string * pyval) :=
  [("result", dump_result_json (calculation r)); ("trace", dump_trace (trace r));
   ("integrity", dump_integrity (integrity r))].

(** ** The service *)

Class Repository := {
  fetch_by_input_hash : string → result (option PersistedEvidenceBundle);
  fetch_audit_chain : result (list AuditEventRecord) }.

Section service.
Context `{!Backend} (coerce_int : pyval → option Z) (rules : list TariffRule)
  (validate_response : pyval → result CalculationResponse).

Definition _build_records (request : ImportCalculationRequest) (response : CalculationResponse)
    (created_at : datetime) (zk_proof : Proof_) (proof_bundle : list (string * pyval))
    (verification_key_hash : string) : RequestRecord * ResultRecord * ProofRecord :=
  let i := integrity response in
  let request_id := deterministic_request_id (input_hash i) in
  (mkRequestRecord request_id (input_hash i) (model_dump_json request) created_at,
   mkResultRecord (deterministic_result_id request_id (output_hash i)) request_id (output_hash i)
     (dump_response_json response) created_at,
   mkProofRecord (deterministic_proof_id request_id (p_final_proof zk_proof)) request_id (trace_hash i)
     (p_final_proof zk_proof) (integrity_hash i) (p_proof_system zk_proof) (circuit_hash zk_proof)
     verification_key_hash proof_bundle true created_at).

(** [verify_proof_bundle], which never raises, among computations that log. *)
Definition bundle_verdict_of (now : string) (bundle : list (string * pyval)) : logged bundle_verdict := fun st =>
  let '(r, st) := verify_proof_bundle coerce_int rules now bundle st in (Ok r, st).

(** What the first phase of [calculate_and_persist] computes. *)
Record computed := mkComputed {
  cm_request : ImportCalculationRequest;
  cm_response : CalculationResponse;
  cm_packet : DeterministicTracePacket;
  cm_proof : Proof_;
  cm_bundle : list (string * pyval);
  cm_verification_key_hash : string }.

(** That phase: before the transaction, without a lock. *)
Definition compute_phase (now : string) (request_payload : list (string * pyval)) : logged computed :=
  request ← silent (model_validate coerce_int request_payload);
  response ← silent (calculate_import_landed_cost coerce_int rules request);
  trace_packet ← silent (build_trace_packet coerce_int rules (model_dump request) "evidence_service" 1);
  zk_proof ← build_plonk_proof coerce_int rules now (witness_artifact trace_packet)
               (t_trace_hash (trace_artifact trace_packet)) "evidence_service" 1;
  zk_verification ← verify_plonk_proof now "evidence_service" 1 zk_proof;
  if negb (bool_decide (v_status zk_verification = VALID))
  then silent (raise PersistenceIntegrityError "ZK proof verification failed before persistence: {}")
  else
    proof_bundle ← export_proof_bundle coerce_int rules now (model_dump request) (Some trace_packet) (Some zk_proof);
    bundle_verification ← bundle_verdict_of now proof_bundle;
    if negb (bv_valid bundle_verification)
    then silent (raise PersistenceIntegrityError "Exported proof bundle failed offline verification: {}")
    else silent (Ok (mkComputed request response trace_packet zk_proof proof_bundle
                       (bv_verification_key_hash bundle_verification))).

Definition computed_records (created_at : datetime) (x : computed) : RequestRecord * ResultRecord * ProofRecord :=
  _build_records (cm_request x) (cm_response x) created_at (cm_proof x) (cm_bundle x) (cm_verification_key_hash x).

(** The records, and the partition that the transaction will lock. *)
Definition compute_evidence (now : string) (created_at : datetime) (request_payload : list (string * pyval))
    : logged (RequestRecord * ResultRecord * ProofRecord * Z) :=
  x ← compute_phase now request_payload;
  let records := computed_records created_at x in
  chain_id ← silent (chain_id_for_input (rq_input_hash records.1.1));
  silent (Ok (records, chain_id)).

(** ** Verification of what was kept *)

Section check.
Context (now : string) (request : ImportCalculationRequest) (evidence : PersistedEvidenceBundle).

Definition _invalid_verification (reason : string) : logged CoreVerifier.VerificationResult :=
  recomputed ← silent (calculate_import_landed_cost coerce_int rules request);
  let i := integrity recomputed in
  silent (Ok (mkVerification INVALID reason (input_hash i) (output_hash i) (trace_hash i) (integrity_hash i))).

(** [if not constant_time_equal(left, right): return invalid] *)
Definition require_equal (left right reason : string) (k : logged CoreVerifier.VerificationResult)
    : logged CoreVerifier.VerificationResult :=
  same ← silent (constant_time_equal left right);
  if negb same then _invalid_verification reason else k.

(** [str(proof_bundle.get('proof', {}).get('proof_blob_hex', ''))] *)
Definition bundled_blob : string :=
  match dict_get "proof" (pf_proof_bundle (ev_proof evidence)) with
  | Some (PDict d) =>
      match dict_get "proof_blob_hex" d with Some v => default "" (py_str v) | None => "" end
  | _ => ""
  end.

(** The audit event the evidence came with. *)
Definition check_audit_event (verification : CoreVerifier.VerificationResult)
    : logged CoreVerifier.VerificationResult :=
  match ev_audit_log evidence with
  | None => silent (Ok verification)
  | Some a =>
      expected_audit_hash ← silent (expected_hash a);
      require_equal (current_hash a) expected_audit_hash
        "Stored audit event hash does not match recomputed audit hash" (silent (Ok verification))
  end.

(** The bundled proof against the columns of the proof record. *)
Definition check_bundled_proof (stored_response : CalculationResponse)
    (verification : CoreVerifier.VerificationResult) : logged CoreVerifier.VerificationResult :=
  let proof := ev_proof evidence in
  match proof_model_validate coerce_int (default PNone (dict_get "proof" (pf_proof_bundle proof))) with
  | Raise e =>
      if is_validation_error e then _invalid_verification "Invalid stored proof bundle: {}" else silent (Raise e)
  | Ok bundled_proof =>
      require_equal (output_hash (integrity stored_response)) (rs_output_hash (ev_result evidence))
        "Stored response integrity does not match persisted result hash"
      (require_equal (trace_hash (integrity stored_response)) (pf_trace_hash proof)
        "Stored response integrity does not match persisted trace hash"
      (require_equal (p_final_proof bundled_proof) (pf_final_proof proof)
        "Stored ZK proof does not match bundled final proof"
      (require_equal (circuit_hash bundled_proof) (pf_circuit_hash proof)
        "Stored circuit hash does not match bundled circuit hash"
      (require_equal (p_proof_blob_hex bundled_proof) bundled_blob
        "Stored proof bundle proof bytes are invalid"
      (check_audit_event verification)))))
  end.

(** The stored hashes, the flag and the bundle. *)
Definition check_stored (stored_response : CalculationResponse)
    (verification : CoreVerifier.VerificationResult) : logged CoreVerifier.VerificationResult :=
  require_equal (rq_input_hash (ev_request evidence)) (recomputed_input_hash verification)
    "Stored request hash does not match recomputed input hash"
  (require_equal (rs_output_hash (ev_result evidence)) (recomputed_output_hash verification)
    "Stored result hash does not match recomputed output hash"
  (require_equal (pf_trace_hash (ev_proof evidence)) (recomputed_trace_hash verification)
    "Stored trace hash does not match recomputed trace hash"
  (if negb (pf_proof_verified (ev_proof evidence))
   then _invalid_verification "Stored proof is not marked as verified"
   else
     bundle_verification ← bundle_verdict_of now (pf_proof_bundle (ev_proof evidence));
     if negb (bv_valid bundle_verification)
     then _invalid_verification "Stored proof bundle failed offline verification: {}"
     else check_bundled_proof stored_response verification))).

Definition _verify_bundle : logged CoreVerifier.VerificationResult :=
  expected_text ← silent (canonical_payload (PDict (model_dump_json request)));
  stored_text ← silent (canonical_payload (PDict (rq_raw_input (ev_request evidence))));
  require_equal expected_text stored_text "Stored request payload does not match canonical request data"
  (if negb (bool_decide (pf_proof_system (ev_proof evidence) = "plonk"))
   then _invalid_verification "legacy record"
   else
     match validate_response (PDict (rs_raw_output (ev_result evidence))) with
     | Raise e =>
         if is_validation_error e
         then _invalid_verification "Invalid stored calculation response: {}" else silent (Raise e)
     | Ok stored_response =>
         let verification :=
           verify_proof coerce_int rules validate_response (model_dump request) (dump_response stored_response) in
         if negb (bool_decide (CoreVerifier.v_status verification = VALID))
         then silent (Ok verification)
         else check_stored stored_response verification
     end).
End check.

Record PersistedVerificationResponse := mkPersistedVerification {
  pv_verification : CoreVerifier.VerificationResult;
  pv_evidence : option PersistedEvidenceBundle;
  pv_audit_chain : AuditChainVerificationResult }.

Definition _require_repository (repository : option Repository) : result Repository :=
  match repository with
  | Some r => Ok r
  | None => raise RepositoryUnavailableError "Database evidence repository is not configured"
  end.

Definition service_audit_chain (repository : option Repository) : result AuditChainVerificationResult :=
  repository ← _require_repository repository;
  records ← @fetch_audit_chain repository;
  verify_audit_chain records.

(** The same verification with another verdict. *)
Definition overruled (reason : string) (v : CoreVerifier.VerificationResult) : CoreVerifier.VerificationResult :=
  mkVerification INVALID reason (recomputed_input_hash v) (recomputed_output_hash v) (recomputed_trace_hash v)
    (recomputed_integrity_hash v).

Definition verify_persisted (now : string) (repository : option Repository)
    (request_payload : list (string * pyval)) : logged PersistedVerificationResponse :=
  repo ← silent (_require_repository repository);
  request ← silent (model_validate coerce_int request_payload);
  recomputed ← silent (calculate_import_landed_cost coerce_int rules request);
  let i := integrity recomputed in
  stored ← silent (@fetch_by_input_hash repo (input_hash i));
  audit_chain ← silent (service_audit_chain repository);
  match stored with
  | None =>
      silent (Ok (mkPersistedVerification
        (mkVerification INVALID "No persisted evidence found for the supplied input hash" (input_hash i)
           (output_hash i) (trace_hash i) (integrity_hash i)) None audit_chain))
  | Some evidence =>
      verification ← _verify_bundle now request evidence;
      let verification :=
        if negb (bool_decide (status audit_chain = VALID)) &&
           bool_decide (CoreVerifier.v_status verification = VALID)
        then overruled "Audit chain integrity check failed" verification else verification in
      silent (Ok (mkPersistedVerification verification (Some evidence) audit_chain))
  end.
End service.
