(* ===== verification/EvidenceProps.v ===== *)
(** * What persisted evidence shows (app/services/evidence_service.py)

    The verdict of the service on stored evidence, evidence it stored itself,
    and what the stored records are not checked for. *)
From S2P Require Export ProofBundleProps Evidence.

Local Open Scope Z_scope.

#[local] Notation verification := CoreVerifier.VerificationResult.

(** [constant_time_equal] returns [True]. *)
Definition matches (x y : string) : Prop := constant_time_equal x y = Ok true.

Lemma matches_wf x y : hash_wf y → x = y → matches x y.
Proof. intros H ->. apply constant_time_equal_true. auto using hash_wf_ascii. Qed.

Lemma matches_eq x y : matches x y → x = y.
Proof. by intros [? _]%constant_time_equal_true. Qed.

Section evidence.
Context `{BK : Backend} (coerce_int : pyval → option Z) (rules : list TariffRule)
  (validate_response : pyval → result CalculationResponse).

(** [m] returns the valid [v] exactly when [Q v], and keeps the log a chain. *)
Definition validates (Q : verification → Prop) (m : logged verification) : Prop :=
  ∀ st, (∀ v, (m st).1 = Ok v ∧ CoreVerifier.v_status v = VALID ↔ Q v) ∧ (log_ok st → log_ok (m st).2).

Lemma validates_iff Q Q' m : (∀ v, Q v ↔ Q' v) → validates Q m → validates Q' m.
Proof. intros E H st. destruct (H st) as [Hv Hl]. split; [|exact Hl]. intros v. by rewrite <-E. Qed.

Lemma validates_silent {A} (r : result A) (Q : A → verification → Prop) f :
  (∀ a, r = Ok a → validates (Q a) (f a)) → validates (fun v => ∃ a, r = Ok a ∧ Q a v) (silent r ≫= f).
Proof.
  intros H. destruct r as [a|x].
  - eapply validates_iff; [|exact (H a eq_refl)]. intros v. cbn beta. by rewrite ex_ok.
  - intros st. split; [|intros Hl; exact Hl]. intros v. split; [by intros [E _]|by intros (a & E & _)].
Qed.

Lemma validates_invalid request reason :
  validates (fun _ => False) (_invalid_verification coerce_int rules request reason).
Proof.
  intros st. unfold _invalid_verification.
  destruct (calculate_import_landed_cost coerce_int rules request) as [r|x]; cbn;
    (split; [|intros Hl; exact Hl]); intros v; split; try done; intros [E Hv]; [|done].
  by injection E as <-.
Qed.

Lemma validates_require request l r reason Q k :
  validates Q k →
  validates (fun v => matches l r ∧ Q v) (require_equal coerce_int rules request l r reason k).
Proof.
  intros Hk. unfold require_equal, matches.
  destruct (constant_time_equal l r) as [[]|x].
  - eapply validates_iff; [|exact Hk]. intros v. split; [by split|by intros [_ ?]].
  - eapply validates_iff; [|apply validates_invalid]. intros v. split; [done|by intros [? _]].
  - intros st. split; [|intros Hl; exact Hl]. intros v. split; [by intros [E _]|by intros [? _]].
Qed.

Lemma validates_guard request (b : bool) reason Q k :
  validates Q k →
  validates (fun v => b = false ∧ Q v) (if b then _invalid_verification coerce_int rules request reason else k).
Proof.
  intros Hk. destruct b; [eapply validates_iff; [|apply validates_invalid]|eapply validates_iff; [|exact Hk]];
    intros v; (split; [done|]); by intros [? ?].
Qed.

(** A [try] around a validation. *)
Lemma validates_try {A} request (r : result A) reason Q f :
  (∀ a, r = Ok a → validates (Q a) (f a)) →
  validates (fun v => ∃ a, r = Ok a ∧ Q a v)
    (match r with
     | Raise e => if is_validation_error e then _invalid_verification coerce_int rules request reason
                  else silent (Raise e)
     | Ok a => f a
     end).
Proof.
  intros H. destruct r as [a|e].
  - eapply validates_iff; [|exact (H a eq_refl)]. intros v. cbn beta. by rewrite ex_ok.
  - destruct (is_validation_error e).
    + eapply validates_iff; [|apply validates_invalid]. intros v. split; [done|by intros (a & E & _)].
    + intros st. split; [|intros Hl; exact Hl]. intros v. split; [by intros [E _]|by intros (a & E & _)].
Qed.

Lemma validates_return v0 :
  validates (fun v => v = v0 ∧ CoreVerifier.v_status v0 = VALID) (silent (Ok v0)).
Proof.
  intros st. split; [|intros Hl; exact Hl]. intros v. cbn [silent fst]. split.
  - intros [E Hv]. injection E as <-. done.
  - intros [-> Hv]. done.
Qed.

Lemma validates_bundle request now d reason Q k :
  validates Q k →
  validates (fun v => bundle_accepts coerce_int rules d ∧ Q v)
    (b ← bundle_verdict_of coerce_int rules now d;
     if negb (bv_valid b) then _invalid_verification coerce_int rules request reason else k).
Proof.
  intros Hk st. unfold mbind, logged_bind, bundle_verdict_of.
  destruct (verify_bundle_spec coerce_int rules now d st) as (r & st' & -> & Hr & Hl).
  destruct (bv_valid r); cbn [negb].
  - destruct (Hk st') as [Hv Hl']. split; [|auto]. intros v. rewrite Hv. split; [|by intros [_ ?]].
    intros HQ. split; [by apply Hr|done].
  - destruct (validates_invalid request reason st') as [Hv Hl']. split; [|auto]. intros v. rewrite Hv.
    split; [done|]. intros [Hb _]. by apply Hr in Hb.
Qed.

Section verdict.
Context (now : string) (request : ImportCalculationRequest) (e : PersistedEvidenceBundle).

Definition audit_accepts : Prop :=
  match ev_audit_log e with
  | None => True
  | Some a => ∃ h, expected_hash a = Ok h ∧ matches (current_hash a) h
  end.

(** The bundled proof is the one the proof record names. *)
Definition proof_columns_accept : Prop :=
  ∃ p, proof_model_validate coerce_int (default PNone (dict_get "proof" (pf_proof_bundle (ev_proof e)))) = Ok p ∧
    matches (p_final_proof p) (pf_final_proof (ev_proof e)) ∧
    matches (circuit_hash p) (pf_circuit_hash (ev_proof e)) ∧
    matches (p_proof_blob_hex p) (bundled_blob e).

(** The stored request is this request, and the stored response the engine's,
    with the stored hashes. *)
Definition response_accepts (v : verification) : Prop :=
  ∃ r, validate_response (PDict (rs_raw_output (ev_result e))) = Ok r ∧
    verify_proof coerce_int rules validate_response (model_dump request) (dump_response r) = v ∧
    CoreVerifier.v_status v = VALID ∧
    matches (rq_input_hash (ev_request e)) (recomputed_input_hash v) ∧
    matches (rs_output_hash (ev_result e)) (recomputed_output_hash v) ∧
    matches (pf_trace_hash (ev_proof e)) (recomputed_trace_hash v) ∧
    matches (output_hash (integrity r)) (rs_output_hash (ev_result e)) ∧
    matches (trace_hash (integrity r)) (pf_trace_hash (ev_proof e)).

Definition request_accepts : Prop :=
  ∃ t t', canonical_payload (PDict (model_dump_json request)) = Ok t ∧
    canonical_payload (PDict (rq_raw_input (ev_request e))) = Ok t' ∧ matches t t'.

Definition evidence_accepts (v : verification) : Prop :=
  request_accepts ∧ pf_proof_system (ev_proof e) = "plonk" ∧ response_accepts v ∧
  pf_proof_verified (ev_proof e) = true ∧ bundle_accepts coerce_int rules (pf_proof_bundle (ev_proof e)) ∧
  proof_columns_accept ∧ audit_accepts.

Lemma audit_validates v0 :
  CoreVerifier.v_status v0 = VALID →
  validates (fun v => audit_accepts ∧ v = v0) (check_audit_event coerce_int rules request e v0).
Proof.
  intros Hv0. unfold check_audit_event, audit_accepts. destruct (ev_audit_log e) as [a|].
  - eapply validates_iff; [|apply validates_silent; intros h _; apply validates_require, validates_return].
    intros v. cbn beta. split; [intros (h & E & M & -> & _); eauto|]. intros [(h & E & M) ->]. eauto.
  - eapply validates_iff; [|apply validates_return]. intros v. split; [by intros [-> _]|by intros [_ ->]].
Qed.

Lemma columns_validate r v0 :
  CoreVerifier.v_status v0 = VALID →
  validates (fun v => matches (output_hash (integrity r)) (rs_output_hash (ev_result e)) ∧
                      matches (trace_hash (integrity r)) (pf_trace_hash (ev_proof e)) ∧
                      proof_columns_accept ∧ audit_accepts ∧ v = v0)
    (check_bundled_proof coerce_int rules request e r v0).
Proof.
  intros Hv0. unfold check_bundled_proof.
  eapply validates_iff; [|apply validates_try; intros p _; do 5 apply validates_require; by apply audit_validates].
  intros v. cbn beta. unfold proof_columns_accept. naive_solver.
Qed.

Lemma stored_validates r v0 :
  CoreVerifier.v_status v0 = VALID →
  validates (fun v => matches (rq_input_hash (ev_request e)) (recomputed_input_hash v0) ∧
                      matches (rs_output_hash (ev_result e)) (recomputed_output_hash v0) ∧
                      matches (pf_trace_hash (ev_proof e)) (recomputed_trace_hash v0) ∧
                      pf_proof_verified (ev_proof e) = true ∧
                      bundle_accepts coerce_int rules (pf_proof_bundle (ev_proof e)) ∧
                      matches (output_hash (integrity r)) (rs_output_hash (ev_result e)) ∧
                      matches (trace_hash (integrity r)) (pf_trace_hash (ev_proof e)) ∧
                      proof_columns_accept ∧ audit_accepts ∧ v = v0)
    (check_stored coerce_int rules now request e r v0).
Proof.
  intros Hv0. unfold check_stored.
  eapply validates_iff; [|do 3 apply validates_require; apply validates_guard, validates_bundle;
                          by apply columns_validate].
  intros v. cbn beta. by rewrite negb_false_iff.
Qed.

Lemma validates_verified v0 Q k :
  (CoreVerifier.v_status v0 = VALID → validates Q k) →
  validates (fun v => CoreVerifier.v_status v0 = VALID ∧ Q v)
    (if negb (bool_decide (CoreVerifier.v_status v0 = VALID)) then silent (Ok v0) else k).
Proof.
  intros Hk. case_bool_decide as Hv; cbn [negb].
  - eapply validates_iff; [|by apply Hk]. intros v. split; [by split|by intros [_ ?]].
  - eapply validates_iff; [|apply validates_return]. intros v. split; [by intros [_ ?]|by intros [? _]].
Qed.

Lemma bundle_validates :
  validates evidence_accepts (_verify_bundle coerce_int rules validate_response now request e).
Proof.
  unfold _verify_bundle.
  eapply validates_iff; [|apply validates_silent; intros t _; apply validates_silent; intros t' _;
    apply validates_require, validates_guard, validates_try; intros r _; cbv zeta;
    apply validates_verified; intros Hv; by apply stored_validates].
  intros v. cbn beta. unfold evidence_accepts, request_accepts, response_accepts.
  setoid_rewrite negb_false_iff. setoid_rewrite bool_decide_eq_true. split.
  - intros (t & Ht & t' & Ht' & Hm & Hs & r & Hr & Hv & M1 & M2 & M3 & Hf & Hb & M4 & M5 & Hp & Ha & ->).
    split; [eauto|]. split; [exact Hs|]. split; [exists r; auto 12|]. auto 12.
  - intros ((t & t' & Ht & Ht' & Hm) & Hs & (r & Hr & Hv0 & Hv & M1 & M2 & M3 & M4 & M5) & Hf & Hb & Hp & Ha).
    exists t. split; [exact Ht|]. exists t'. split; [exact Ht'|]. split; [exact Hm|]. split; [exact Hs|].
    exists r. rewrite Hv0. auto 12.
Qed.
End verdict.
End evidence.

Lemma verify_bundle_verdict `{BK : Backend} coerce_int rules validate_response now q e st :
  ∃ r st', _verify_bundle coerce_int rules validate_response now q e st = (r, st') ∧
    (∀ v, r = Ok v ∧ CoreVerifier.v_status v = VALID ↔ evidence_accepts coerce_int rules validate_response q e v) ∧
    (log_ok st → log_ok st').
Proof.
  destruct (bundle_validates coerce_int rules validate_response now q e st) as [Hv Hl].
  destruct (_verify_bundle coerce_int rules validate_response now q e st) as [r st']. by exists r, st'.
Qed.

Lemma accepted_verifies `{BK : Backend} coerce_int rules validate_response now (repo : Repository) value st v q r e
    records c :
  model_validate coerce_int value = Ok q → calculate_import_landed_cost coerce_int rules q = Ok r →
  @fetch_by_input_hash repo (input_hash (integrity r)) = Ok (Some e) →
  @fetch_audit_chain repo = Ok records → verify_audit_chain records = Ok c → status c = VALID →
  evidence_accepts coerce_int rules validate_response q e v →
  ∃ st', verify_persisted coerce_int rules validate_response now (Some repo) value st =
    (Ok (mkPersistedVerification v (Some e) c), st') ∧ CoreVerifier.v_status v = VALID.
Proof.
  intros Eq Er Ef Ec Ea Hc He.
  destruct (verify_bundle_verdict coerce_int rules validate_response now q e st) as (w & st1 & E & Hw & _).
  destruct (proj2 (Hw v) He) as [Ew Hv]. rewrite Ew in E. exists st1. split; [|exact Hv].
  assert (service_audit_chain (Some repo) = Ok c) as Ech
    by (change (service_audit_chain (Some repo)) with (records ← @fetch_audit_chain repo; verify_audit_chain records);
        by rewrite Ec).
  unfold verify_persisted. change (_require_repository (Some repo)) with (Ok repo).
  rewrite silent_ok, Eq, silent_ok, Er, silent_ok, Ef, silent_ok, Ech, silent_ok.
  unfold mbind, logged_bind. rewrite E. rewrite (bool_decide_eq_true_2 (status c = VALID)) by done. reflexivity.
Qed.

(** C13: the verdict on a request against the database.  The service answers
    VALID exactly when the request validates and is priced, evidence is stored
    under its input hash, the audit chain is intact, and the evidence passes
    every check; the verification is then the recomputed one. *)
Theorem persisted_verdict `{BK : Backend} coerce_int rules validate_response now (repo : Repository) value st v :
  (∃ e c st', verify_persisted coerce_int rules validate_response now (Some repo) value st =
      (Ok (mkPersistedVerification v (Some e) c), st') ∧ CoreVerifier.v_status v = VALID) ↔
  ∃ q r e records c,
    model_validate coerce_int value = Ok q ∧ calculate_import_landed_cost coerce_int rules q = Ok r ∧
    @fetch_by_input_hash repo (input_hash (integrity r)) = Ok (Some e) ∧
    @fetch_audit_chain repo = Ok records ∧ verify_audit_chain records = Ok c ∧ status c = VALID ∧
    evidence_accepts coerce_int rules validate_response q e v.
Proof.
  assert (service_audit_chain (Some repo) = (records ← @fetch_audit_chain repo; verify_audit_chain records)) as Es
    by reflexivity.
  unfold verify_persisted. change (_require_repository (Some repo)) with (Ok repo). rewrite silent_ok, Es. split.
  - intros (e & c & st' & H & Hv). revert H. unfold mbind, logged_bind, silent.
    destruct (model_validate coerce_int value) as [q|x]; [|done].
    destruct (calculate_import_landed_cost coerce_int rules q) as [r|x] eqn:Er; [|done].
    destruct (fetch_by_input_hash (input_hash (integrity r))) as [stored|x] eqn:Ef; [|done].
    destruct fetch_audit_chain as [records|x] eqn:Ec; cbn [result_bind]; [|done].
    destruct (verify_audit_chain records) as [c'|x] eqn:Ea; [|done].
    destruct stored as [e'|]; [|intros [= <- _]; done].
    destruct (verify_bundle_verdict coerce_int rules validate_response now q e' st) as (w & st1 & -> & Hw & _).
    destruct w as [w|x]; [|done]. intros H.
    assert (Some e' = Some e) as [= ->] by exact (f_equal (fun z => match z.1 with Ok y => pv_evidence y | _ => None end) H).
    assert (c' = c) as -> by exact (f_equal (fun z => match z.1 with Ok y => pv_audit_chain y | _ => c' end) H).
    pose proof (f_equal (fun z => match z.1 with Ok y => pv_verification y | _ => v end) H) as E. cbn in E.
    exists q, r, e, records, c. destruct (bool_decide_reflect (status c = VALID)) as [Hc|Hc]; cbn in E.
    + subst w. rewrite <-Hw. done.
    + case_bool_decide as Hw'; cbn in E; [subst v; done|]. by subst w.
  - intros (q & r & e & records & c & Eq & Er & Ef & Ec & Ea & Hc & He).
    destruct (accepted_verifies coerce_int rules validate_response now repo value st v q r e records c
      Eq Er Ef Ec Ea Hc He) as (st' & E & Hv).
    exists e, c, st'. split; [|exact Hv]. rewrite <-E. unfold verify_persisted.
    change (_require_repository (Some repo)) with (Ok repo). by rewrite silent_ok, Es.
Qed.

(** ** Evidence of one request under the proof of another *)

Definition with_bundle (d : list (string * pyval)) (p : Proof_) (e : PersistedEvidenceBundle)
    : PersistedEvidenceBundle :=
  let r := ev_proof e in
  mkEvidence (ev_request e) (ev_result e)
    (mkProofRecord (pf_id r) (pf_request_id r) (pf_trace_hash r) (p_final_proof p) (pf_integrity_hash r)
       (pf_proof_system r) (circuit_hash p) (pf_verification_key_hash r) d (pf_proof_verified r)
       (pf_created_at r))
    (ev_audit_log e).

(** C23: valid evidence need not hold the proof of its request.  Replace the
    bundle of valid evidence by any other bundle that verifies, of whatever
    request, with its final proof and circuit hash in their columns: the
    evidence is valid as before. *)
Theorem evidence_proof_unbound `{BK : Backend} coerce_int rules validate_response now st q e v d p :
  (∀ z, coerce_int (PInt z) = Some z) → valid_artifact (AProof p) → plonk_accepts p →
  is_ascii (p_proof_blob_hex p) = true →
  (_verify_bundle coerce_int rules validate_response now q e st).1 = Ok v → CoreVerifier.v_status v = VALID →
  bv_valid (verify_proof_bundle coerce_int rules now d st).1 = true →
  dict_get "proof" d = Some (PDict (_canonical_proof_payload p)) →
  (_verify_bundle coerce_int rules validate_response now q (with_bundle d p e) st).1 = Ok v.
Proof.
  intros Hz Hvp Hp Hasc E Hv Hd Hpd.
  destruct (verify_bundle_verdict coerce_int rules validate_response now q e st) as (w & s1 & E1 & H1 & _).
  rewrite E1 in E. cbn [fst] in E. destruct (proj1 (H1 v) (conj E Hv)) as (A1 & A2 & A3 & A4 & A5 & A6 & A7).
  destruct (verify_bundle_spec coerce_int rules now d st) as (b & s2 & E2 & H2 & _). rewrite E2 in Hd. apply H2 in Hd.
  destruct (verify_bundle_verdict coerce_int rules validate_response now q (with_bundle d p e) st)
    as (w' & s3 & E3 & H3 & _). rewrite E3. cbn [fst]. apply (proj2 (H3 v)).
  split; [exact A1|]. split; [exact A2|]. split; [exact A3|]. split; [exact A4|]. split; [exact Hd|].
  split; [|exact A7]. exists p. unfold bundled_blob, with_bundle.
  cbn [ev_proof pf_proof_bundle pf_final_proof pf_circuit_hash]. rewrite Hpd. cbn [default from_option].
  split; [by apply proof_payload_roundtrip|].
  pose proof (accepted_final p Hp) as Ef. destruct Hp as (_ & pi & cost & _ & _ & Ec & _).
  split; [apply constant_time_equal_refl; rewrite Ef; apply hash_wf_ascii, sha256_hex_wf|].
  split; [apply constant_time_equal_refl; rewrite Ec; apply hash_wf_ascii, compiled_hash_wf|].
  apply constant_time_equal_refl. exact Hasc.
Qed.

(** ** What the service keeps *)

Lemma dump_decimals_wf q : valid_request q = true → payload_decimals_wf (model_dump q).
Proof.
  intros (M1 & M2 & M3 & _)%request_money_ok k d H. apply dict_get_Some_elem in H. unfold model_dump in H.
  assert (∀ x, money_ok x = true → decimal_wf x = true) as Hm.
  { intros x (n & c & -> & Hc)%money_ok_shape. cbn. lia. }
  repeat (apply elem_of_cons in H as [H|H]; [first [by inversion H|injection H as _ ->; auto]|]).
  by apply not_elem_of_nil in H.
Qed.

Lemma chain_id_total h : hash_wf h → ∃ c, chain_id_for_input h = Ok c.
Proof.
  intros [Hl Hh]. unfold chain_id_for_input. rewrite int_of_hex_lower; [eauto| |done]. by intros ->.
Qed.

(** The evidence of an honest calculation, with any audit event that is hashed
    as it should be. *)
Section kept.
Context `{BK : Backend} (HB : complete_backend BK).
Context (coerce_int : pyval → option Z) (validate_response : pyval → result CalculationResponse).
Context (Hz : ∀ z, coerce_int (PInt z) = Some z).
Context (q : ImportCalculationRequest) (rule : TariffRule) (created_at : datetime).
Context (Hq : valid_request q = true) (Hr : rule ∈ TARIFF_RULES) (Hhs : hs_code q = hs_prefix rule).
Context (Hb : in_range q) (Hl : landed_of q rule < CENTS_LIMIT).

#[local] Notation response := (expected_response q rule).

(** pydantic reads back what it dumped. *)
Context (Hjson : validate_response (PDict (dump_response_json response)) = Ok response).
Context (Hpy : validate_response (dump_response response) = Ok response).

Lemma kept_accepted p d vk a :
  valid_artifact (AProof p) → plonk_accepts p → is_ascii (p_proof_blob_hex p) = true →
  bundle_accepts coerce_int TARIFF_RULES d → dict_get "proof" d = Some (PDict (_canonical_proof_payload p)) →
  match a with None => True | Some a => expected_hash a = Ok (current_hash a) end →
  let '(r1, r2, r3) := _build_records q response created_at p d vk in
  evidence_accepts coerce_int TARIFF_RULES validate_response q (mkEvidence r1 r2 r3 a)
    (mkVerification VALID "Proof recomputed successfully" (input_hash (integrity response))
       (output_hash (integrity response)) (trace_hash (integrity response)) (integrity_hash (integrity response))).
Proof using Hz Hq Hr Hhs Hb Hjson Hpy.
  intros Hvp Hp Hasc Hd Hpd Ha.
  pose proof (calculate_expected coerce_int q rule Hz Hq Hr Hhs Hb) as Hresp.
  destruct (response_hashes_wf coerce_int TARIFF_RULES q _ Hresp) as (W1 & W2 & W3).
  unfold _build_records. set (i := integrity response) in *.
  split_and!; cbn [ev_request ev_result ev_proof ev_audit_log rq_raw_input rq_input_hash rs_output_hash rs_raw_output
    pf_trace_hash pf_final_proof pf_circuit_hash pf_proof_bundle pf_proof_verified pf_proof_system].
  - eexists _, _. split; [by apply canonical_payload_free|]. split; [by apply canonical_payload_free|].
    apply constant_time_equal_refl, canonical_text_ascii. reflexivity.
  - by destruct Hp as [-> _].
  - exists response. split; [exact Hjson|]. split.
    { apply (own_response_verdict _ _ _ _ q); [exact Hz|by apply dump_decimals_wf|by apply revalidate|exact Hresp|exact Hpy]. }
    split; [reflexivity|]. cbn [recomputed_input_hash recomputed_output_hash recomputed_trace_hash].
    split_and!; apply matches_wf; [exact W1|reflexivity|exact W2|reflexivity|exact W3|reflexivity|exact W2|reflexivity|
      exact W3|reflexivity].
  - reflexivity.
  - exact Hd.
  - exists p. cbn [ev_proof pf_proof_bundle]. rewrite Hpd. cbn [default from_option].
    split; [by apply proof_payload_roundtrip|].
    pose proof (accepted_final p Hp) as Ef. destruct Hp as (_ & pi & cost & _ & _ & Ec & _).
    split; [apply constant_time_equal_refl; rewrite Ef; apply hash_wf_ascii, sha256_hex_wf|].
    split; [apply constant_time_equal_refl; rewrite Ec; apply hash_wf_ascii, compiled_hash_wf|].
    unfold bundled_blob. cbn [ev_proof pf_proof_bundle]. rewrite Hpd.
    apply constant_time_equal_refl. exact Hasc.
  - unfold audit_accepts. cbn [ev_audit_log]. destruct a as [a|]; [|exact I].
    exists (current_hash a). split; [exact Ha|]. apply constant_time_equal_refl, hash_wf_ascii.
    unfold expected_hash, compute_audit_hash in Ha. apply bind_ok in Ha as (t & _ & E). injection E as <-.
    apply sha256_hex_wf.
Qed.

Lemma phase_computed now value st :
  payload_decimals_wf value → model_validate coerce_int value = Ok q →
  ∃ pk p d vk st', compute_phase coerce_int TARIFF_RULES now value st =
      (Ok (mkComputed q response pk p d vk), st') ∧
    valid_artifact (AProof p) ∧ plonk_accepts p ∧ is_ascii (p_proof_blob_hex p) = true ∧
    bundle_accepts coerce_int TARIFF_RULES d ∧ dict_get "proof" d = Some (PDict (_canonical_proof_payload p)).
Proof using All.
  intros Hwf Hval. pose proof (calculate_expected coerce_int q rule Hz Hq Hr Hhs Hb) as Hresp.
  pose proof (dump_decimals_wf q Hq) as Hdw. pose proof (revalidate coerce_int q Hz Hq) as Hre.
  destruct (honest_proof_accepted coerce_int (model_dump q) q rule now "evidence_service" 1 st HB Hz Hdw Hre Hr Hhs Hb Hl)
    as (pk & p & st1 & Hpk & Hp & Hvp & Hacc & Hasc & _).
  destruct (packet_again _ _ _ _ _ _ Hz Hdw Hpk) as (Hv & Hagain & _).
  destruct (verify_plonk_spec now "evidence_service" 1 p st1) as (v & st2 & Ev & Hiff & _).
  destruct (exported_accepts HB coerce_int TARIFF_RULES Hz now (model_dump q) pk p st2 Hv Hagain Hvp Hacc)
    as (vk & st3 & Hd & _ & Hda). set (d := exported pk p vk) in *.
  destruct (verify_bundle_spec coerce_int TARIFF_RULES now d st3) as (b & st4 & Eb & Hbv & _).
  exists pk, p, d, (bv_verification_key_hash b), st4. split; [|split_and!; try assumption; reflexivity].
  unfold compute_phase. rewrite Hval, silent_ok, Hresp, silent_ok, Hpk, silent_ok.
  unfold mbind, logged_bind. rewrite Hp, Ev, (bool_decide_eq_true_2 (v_status v = VALID)) by by apply Hiff.
  cbn [negb]. rewrite Hd. unfold bundle_verdict_of. rewrite Eb.
  assert (bv_valid b = true) as -> by by apply Hbv. reflexivity.
Qed.

Lemma partition_total : ∃ c, chain_id_for_input (input_hash (integrity response)) = Ok c.
Proof using Hz Hq Hr Hhs Hb.
  pose proof (calculate_expected coerce_int q rule Hz Hq Hr Hhs Hb) as Hresp.
  destruct (response_hashes_wf coerce_int TARIFF_RULES q _ Hresp) as (W1 & _). by apply chain_id_total.
Qed.

Lemma evidence_computed now value st :
  payload_decimals_wf value → model_validate coerce_int value = Ok q →
  ∃ p d vk c st', compute_evidence coerce_int TARIFF_RULES now created_at value st =
      (Ok (_build_records q response created_at p d vk, c), st') ∧
    chain_id_for_input (input_hash (integrity response)) = Ok c ∧
    valid_artifact (AProof p) ∧ plonk_accepts p ∧ is_ascii (p_proof_blob_hex p) = true ∧
    bundle_accepts coerce_int TARIFF_RULES d ∧ dict_get "proof" d = Some (PDict (_canonical_proof_payload p)).
Proof using All.
  intros Hwf Hval. destruct (phase_computed now value st Hwf Hval) as (pk & p & d & vk & st' & E & Hrest).
  destruct partition_total as [c Hc]. exists p, d, vk, c, st'. split; [|split; [exact Hc|exact Hrest]].
  unfold compute_evidence, mbind, logged_bind. rewrite E. unfold computed_records.
  cbn [cm_request cm_response cm_proof cm_bundle cm_verification_key_hash].
  change (rq_input_hash (_build_records q response created_at p d vk).1.1) with (input_hash (integrity response)).
  unfold silent. rewrite Hc. reflexivity.
Qed.
End kept.

(** What the service keeps verifies.  With a complete backend
    and a validation of responses that reads back their dumps, every
    honest calculation is turned into records and a partition; and with the
    audit event of its transaction, hashed as [build_audit_event] does, the
    evidence is VALID under verification, whatever the key log by then, with
    the hashes of the engine's response. *)
Theorem kept_evidence_verifies `{BK : Backend} coerce_int validate_response value q rule now created_at st :
  complete_backend BK →
  (∀ z, coerce_int (PInt z) = Some z) → payload_decimals_wf value →
  model_validate coerce_int value = Ok q → rule ∈ TARIFF_RULES → hs_code q = hs_prefix rule →
  in_range q → landed_of q rule < CENTS_LIMIT →
  let response := expected_response q rule in
  validate_response (PDict (dump_response_json response)) = Ok response →
  validate_response (dump_response response) = Ok response →
  ∃ r1 r2 r3 c st', compute_evidence coerce_int TARIFF_RULES now created_at value st = (Ok ((r1, r2, r3), c), st') ∧
    ∀ a now' st2, match a with None => True | Some a => expected_hash a = Ok (current_hash a) end →
      (_verify_bundle coerce_int TARIFF_RULES validate_response now' q (mkEvidence r1 r2 r3 a) st2).1 =
      Ok (mkVerification VALID "Proof recomputed successfully" (input_hash (integrity response))
            (output_hash (integrity response)) (trace_hash (integrity response))
            (integrity_hash (integrity response))).
Proof.
  intros HB Hz Hwf Hval Hr Hhs Hb Hl response Hjson Hpy.
  destruct (validated_valid _ _ _ Hwf Hval) as [Hq _].
  destruct (evidence_computed HB coerce_int validate_response Hz q rule created_at Hq Hr Hhs Hb Hl Hjson Hpy
    now value st Hwf Hval) as (p & d & vk & c & st' & E & _ & Hvp & Hp & Hasc & Hd & Hpd).
  destruct (_build_records q response created_at p d vk) as [[r1 r2] r3] eqn:Er.
  exists r1, r2, r3, c, st'. split; [rewrite E; fold response; by rewrite Er|]. intros a now' st2 Ha.
  pose proof (kept_accepted coerce_int validate_response Hz q rule created_at Hq Hr Hhs Hb Hjson Hpy
    p d vk a Hvp Hp Hasc Hd Hpd Ha) as Hacc. fold response in Hacc. rewrite Er in Hacc.
  destruct (verify_bundle_verdict coerce_int TARIFF_RULES validate_response now' q (mkEvidence r1 r2 r3 a) st2)
    as (w & st3 & Ew & Hw & _). rewrite Ew. cbn [fst]. exact (proj1 (proj2 (Hw _) Hacc)).
Qed.

(** ** Examples *)

(** The audit event of a transaction. *)
Definition sample_event (created_at : datetime) : option AuditEventRecord :=
  match build_audit_event "calculation_persisted" None [("reason", PStr "sample")] ZERO_HASH created_at 0 (Some 1) with
  | Ok a => Some a
  | Raise _ => None
  end.

Definition sample_time : datetime := mkDatetime 2026 3 28 12 0 0 0.

Example kept_evidence_verifies_witness :
  let response := expected_response sample_request sample_rule in
  ∃ r1 r2 r3 c st',
    @compute_evidence digest_backend coerce_plain TARIFF_RULES "t0" sample_time REFERENCE_REQUEST empty_log =
      (Ok ((r1, r2, r3), c), st') ∧
    ∀ a now' st2, match a with None => True | Some a => expected_hash a = Ok (current_hash a) end →
      (@_verify_bundle digest_backend coerce_plain TARIFF_RULES (accept_one sample_response) now' sample_request
         (mkEvidence r1 r2 r3 a) st2).1 =
      Ok (mkVerification VALID "Proof recomputed successfully" (input_hash (integrity response))
            (output_hash (integrity response)) (trace_hash (integrity response))
            (integrity_hash (integrity response))).
Proof.
  apply (kept_evidence_verifies coerce_plain (accept_one sample_response) REFERENCE_REQUEST sample_request sample_rule);
    [exact digest_backend_complete|reflexivity|exact reference_decimals_wf
    |vm_compute; reflexivity|apply sample_rule_in|reflexivity| |vm_compute; reflexivity..].
  unfold in_range, CENTS_LIMIT. vm_compute. done.
Defined.

Definition no_evidence : PersistedEvidenceBundle :=
  mkEvidence (mkRequestRecord "" "" [] sample_time) (mkResultRecord "" "" "" [] sample_time)
    (mkProofRecord "" "" "" "" "" "" "" "" [] false sample_time) None.

Definition evidence_of (a : option AuditEventRecord)
    (r : result (RequestRecord * ResultRecord * ProofRecord * Z)) : PersistedEvidenceBundle :=
  match r with Ok (r1, r2, r3, _) => mkEvidence r1 r2 r3 a | Raise _ => no_evidence end.

(** Stored evidence of the reference request. *)
Definition sample_evidence : PersistedEvidenceBundle :=
  evidence_of (sample_event sample_time)
    (@compute_evidence digest_backend coerce_plain TARIFF_RULES "t0" sample_time REFERENCE_REQUEST empty_log).1.

(** The bundle of another request, with its proof. *)
Definition foreign_bundle : list (string * pyval) :=
  ok_default
    (pk ← build_trace_packet coerce_plain TARIFF_RULES VARIANT_REQUEST "prover" 1;
     (@export_proof_bundle digest_backend coerce_plain TARIFF_RULES "t0" VARIANT_REQUEST (Some pk)
        (Some foreign_proof) empty_log).1).

#[export] Instance core_verification_inhabited : Inhabited CoreVerifier.VerificationResult :=
  populate (mkVerification INVALID "" "" "" "" "").

Definition sample_verified (e : PersistedEvidenceBundle) : result CoreVerifier.VerificationResult :=
  (@_verify_bundle digest_backend coerce_plain TARIFF_RULES (accept_one sample_response) "t1" sample_request e
     empty_log).1.

Example evidence_proof_unbound_witness :
  String.eqb (pf_final_proof (ev_proof sample_evidence)) (p_final_proof foreign_proof) = false ∧
  CoreVerifier.v_status (ok_default (sample_verified sample_evidence)) = VALID ∧
  sample_verified (with_bundle foreign_bundle foreign_proof sample_evidence) =
    Ok (ok_default (sample_verified sample_evidence)).
Proof.
  assert (CoreVerifier.v_status (ok_default (sample_verified sample_evidence)) = VALID) as Hv
    by (vm_compute; reflexivity).
  split; [vm_compute; reflexivity|]. split; [exact Hv|].
  refine (@evidence_proof_unbound digest_backend coerce_plain TARIFF_RULES (accept_one sample_response) "t1" empty_log
    sample_request sample_evidence _ foreign_bundle foreign_proof _ _ _ _ _ Hv _ _);
    [reflexivity|vm_compute; reflexivity| |vm_compute; reflexivity..].
  destruct (@verify_plonk_spec digest_backend "t1" "v" 1 foreign_proof empty_log) as (v & st' & Ev & Hiff & _).
  apply Hiff. assert (v_status (ok_default (@verify_plonk_proof digest_backend "t1" "v" 1 foreign_proof empty_log).1) = VALID)
    as Hs by (vm_compute; reflexivity).
  rewrite Ev in Hs. exact Hs.
Defined.
