(* ===== verification/Dataset.v ===== *)
(** * The verified training dataset (backend/verified_dataset.py,
    models/verified_dataset.py, app/services/training_service.py)

    Evidence whose proof verifies becomes a training record; evidence that does
    not is skipped.  The metrics count distinct values; their one float is the
    interface [PyFloat]. *)
From S2P Require Export Tasks EvidenceProps.

Local Open Scope Z_scope.

Definition VERIFIED_DATASET_VERSION : string := "verified-training-record-v1".

Record VerifiedTrainingRecord := mkTrainingRecord {
  tr_dataset_version : string;
  tr_record_id : string;
  tr_request_id : string;
  tr_proof_id : string;
  tr_created_at : datetime;
  tr_verification_status : string;
  tr_input_hash : string;
  tr_output_hash : string;
  tr_trace_hash : string;
  tr_witness_hash : string;
  tr_integrity_hash : string;
  tr_final_proof : string;
  tr_circuit_hash : string;
  tr_verification_key_hash : string;
  tr_proof_system : string;
  tr_input_payload : list (string * pyval);
  tr_result_payload : CalculationResult;
  tr_trace : list TraceStep;
  tr_proof_bundle : list (string * pyval) }.

Record VerifiedDatasetExport := mkDatasetExport {
  ds_dataset_version : string;
  ds_exported_at : datetime;
  ds_total_candidates : nat;
  ds_exportable_records : nat;
  ds_skipped_records : nat;
  ds_records : list VerifiedTrainingRecord }.

(** What a record's identifier is the hash of. *)
Definition record_payload (request_id proof_id input output trace_ witness integrity_ final circuit vk system : string)
    : pyval :=
  PDict [("dataset_version", PStr VERIFIED_DATASET_VERSION); ("request_id", PStr request_id);
         ("proof_id", PStr proof_id); ("input_hash", PStr input); ("output_hash", PStr output);
         ("trace_hash", PStr trace_); ("witness_hash", PStr witness); ("integrity_hash", PStr integrity_);
         ("final_proof", PStr final); ("circuit_hash", PStr circuit); ("verification_key_hash", PStr vk);
         ("proof_system", PStr system)].

(** [PersistedCalculationResponse]: a response and its evidence. *)
Definition build_verified_training_record (response : CalculationResponse) (evidence : PersistedEvidenceBundle)
    (zk_proof : Proof_) (witness_hash verification_key_hash : string) (proof_bundle : list (string * pyval))
    : result VerifiedTrainingRecord :=
  match dict_get "proof" proof_bundle with
  | None | Some PNone => raise ValueError "proof_bundle must include a proof payload"
  | Some _ =>
      let i := integrity response in
      record_id ← hash_payload (record_payload (rq_id (ev_request evidence)) (pf_id (ev_proof evidence))
        (input_hash i) (output_hash i) (trace_hash i) witness_hash (integrity_hash i) (p_final_proof zk_proof)
        (circuit_hash zk_proof) verification_key_hash (p_proof_system zk_proof));
      Ok (mkTrainingRecord VERIFIED_DATASET_VERSION record_id (rq_id (ev_request evidence)) (pf_id (ev_proof evidence))
            (pf_created_at (ev_proof evidence)) "VERIFIED" (input_hash i) (output_hash i) (trace_hash i) witness_hash
            (integrity_hash i) (p_final_proof zk_proof) (circuit_hash zk_proof) verification_key_hash
            (p_proof_system zk_proof) (rq_raw_input (ev_request evidence)) (calculation response) (trace response)
            proof_bundle)
  end.

(** An [except ValueError]. *)
Definition is_value_error (e : exn) : bool :=
  bool_decide (exn_cls e ∈ [ValueError; ValidationError; SecurityViolation]).

Section export.
Context `{!Backend} (coerce_int : pyval → option Z) (rules : list TariffRule)
  (validate_response : pyval → result CalculationResponse).

(** [if not constant_time_equal(left, right): raise ValueError] *)
Definition expect_equal (left right message : string) : result unit :=
  same ← constant_time_equal left right;
  if negb same then raise ValueError message else Ok tt.

(** After the bundle: the calculation again, and the stored columns. *)
Definition record_of_evidence (evidence : PersistedEvidenceBundle) : result VerifiedTrainingRecord :=
  let proof := ev_proof evidence in
  response ← validate_response (PDict (rs_raw_output (ev_result evidence)));
  trace_packet ← build_trace_packet coerce_int rules (rq_raw_input (ev_request evidence)) "verified_dataset_export" 1;
  payload ← subscript_dict "proof" (pf_proof_bundle proof);
  zk_proof ← proof_model_validate coerce_int payload;
  let i := integrity (pk_response trace_packet) in
  _ ← expect_equal (input_hash i) (rq_input_hash (ev_request evidence))
        "Persisted request hash does not match recomputed deterministic input hash";
  _ ← expect_equal (output_hash i) (rs_output_hash (ev_result evidence))
        "Persisted result hash does not match recomputed deterministic output hash";
  _ ← expect_equal (trace_hash i) (pf_trace_hash proof)
        "Persisted trace hash does not match recomputed deterministic trace hash";
  _ ← expect_equal (p_final_proof zk_proof) (pf_final_proof proof)
        "Persisted final proof does not match bundled proof payload";
  _ ← expect_equal (circuit_hash zk_proof) (pf_circuit_hash proof)
        "Persisted circuit hash does not match bundled proof payload";
  build_verified_training_record response evidence zk_proof (w_witness_hash (witness_artifact trace_packet))
    (pf_verification_key_hash proof) (pf_proof_bundle proof).

Definition build_verified_training_record_from_evidence (now : string) (evidence : PersistedEvidenceBundle)
    : logged VerifiedTrainingRecord :=
  let proof := ev_proof evidence in
  if negb (pf_proof_verified proof)
  then silent (raise ValueError "Only proof-verified evidence may be exported into the training dataset")
  else if negb (bool_decide (pf_proof_system proof = "plonk")) then silent (raise ValueError "legacy record")
  else
    bundle_verification ← bundle_verdict_of coerce_int rules now (pf_proof_bundle proof);
    if negb (bv_valid bundle_verification)
    then silent (raise ValueError "Persisted proof bundle is not externally valid: {}")
    else silent (record_of_evidence evidence).

(** The loop: records so far and how many were skipped. *)
Fixpoint export_loop (now : string) (bundles : list PersistedEvidenceBundle)
    (records : list VerifiedTrainingRecord) (skipped : nat) : logged (list VerifiedTrainingRecord * nat) := fun st =>
  match bundles with
  | [] => (Ok (records, skipped), st)
  | bundle :: bundles =>
      match build_verified_training_record_from_evidence now bundle st with
      | (Ok r, st) => export_loop now bundles (records ++ [r]) skipped st
      | (Raise e, st) =>
          if is_value_error e then export_loop now bundles records (S skipped) st else (Raise e, st)
      end
  end.

Definition export_verified_dataset (now : string) (exported_at : datetime) (bundles : list PersistedEvidenceBundle)
    : logged VerifiedDatasetExport :=
  '(records, skipped) ← export_loop now bundles [] 0;
  silent (Ok (mkDatasetExport VERIFIED_DATASET_VERSION exported_at (length bundles) (length records) skipped records)).

(** The service: the query is [fetch_training_candidates(limit)]. *)
Definition export_dataset (now : string) (exported_at : datetime)
    (fetch_training_candidates : option (Z → result (list PersistedEvidenceBundle))) (limit : Z)
    : logged VerifiedDatasetExport :=
  match fetch_training_candidates with
  | None => silent (raise RepositoryUnavailableError "Database evidence repository is not configured")
  | Some fetch =>
      bundles ← silent (fetch limit);
      export_verified_dataset now exported_at bundles
  end.
End export.

(** ** Metrics *)

Section metrics.
Context {F : Type} `{!PyFloat F}.

Record VerifiedDatasetMoatMetrics := mkMoatMetrics {
  mm_dataset_version : string;
  mm_measured_at : datetime;
  mm_total_candidates : nat;
  mm_exportable_records : nat;
  mm_skipped_records : nat;
  mm_unique_input_hashes : nat;
  mm_unique_output_hashes : nat;
  mm_unique_trace_hashes : nat;
  mm_unique_circuit_hashes : nat;
  mm_unique_verification_keys : nat;
  mm_unique_hs_codes : nat;
  mm_unique_origin_countries : nat;
  mm_proof_systems : list string;
  mm_exportability_ratio : F }.

(** [len({f(record) for record in records})] *)
Definition distinct (f : VerifiedTrainingRecord → string) (records : list VerifiedTrainingRecord) : nat :=
  length (remove_dups (map f records)).

Definition compute_moat_metrics (measured_at : datetime) (dataset : VerifiedDatasetExport)
    : VerifiedDatasetMoatMetrics :=
  let records := ds_records dataset in
  mkMoatMetrics (ds_dataset_version dataset) measured_at (ds_total_candidates dataset)
    (ds_exportable_records dataset) (ds_skipped_records dataset)
    (distinct tr_input_hash records) (distinct tr_output_hash records) (distinct tr_trace_hash records)
    (distinct tr_circuit_hash records) (distinct tr_verification_key_hash records)
    (distinct (fun r => r_hs_code (tr_result_payload r)) records)
    (distinct (fun r => r_country_of_origin (tr_result_payload r)) records)
    (sorted_set (map tr_proof_system records))
    (if (0 <? Z.of_nat (ds_total_candidates dataset))
     then fdiv (flit (Z.of_nat (length records)) 0) (flit (Z.of_nat (ds_total_candidates dataset)) 0)
     else flit 0 0).
End metrics.

(** ** What is exported *)

Section props.
Context `{BK : Backend} (coerce_int : pyval → option Z) (rules : list TariffRule)
  (validate_response : pyval → result CalculationResponse).

(** [r] is a training record of the evidence [e]: the bundle verifies, and the
    calculation of the stored request has the stored hashes. *)
Definition training_record_of (e : PersistedEvidenceBundle) (r : VerifiedTrainingRecord) : Prop :=
  pf_proof_verified (ev_proof e) = true ∧ pf_proof_system (ev_proof e) = "plonk" ∧
  bundle_accepts coerce_int rules (pf_proof_bundle (ev_proof e)) ∧
  ∃ q c, model_validate coerce_int (rq_raw_input (ev_request e)) = Ok q ∧
    calculate_import_landed_cost coerce_int rules q = Ok c ∧
    input_hash (integrity c) = rq_input_hash (ev_request e) ∧
    output_hash (integrity c) = rs_output_hash (ev_result e) ∧
    trace_hash (integrity c) = pf_trace_hash (ev_proof e) ∧
    tr_final_proof r = pf_final_proof (ev_proof e) ∧ tr_circuit_hash r = pf_circuit_hash (ev_proof e) ∧
    tr_input_payload r = rq_raw_input (ev_request e) ∧ tr_proof_bundle r = pf_proof_bundle (ev_proof e).

Lemma expect_equal_ok l r m u : expect_equal l r m = Ok u → l = r.
Proof.
  unfold expect_equal. intros (b & Hb & H)%bind_ok. destruct b; [|done].
  by apply constant_time_equal_true in Hb as [-> _].
Qed.

Lemma training_record_fields response e p wh vk d r :
  build_verified_training_record response e p wh vk d = Ok r →
  tr_final_proof r = p_final_proof p ∧ tr_circuit_hash r = circuit_hash p ∧
  tr_input_payload r = rq_raw_input (ev_request e) ∧ tr_proof_bundle r = d.
Proof.
  unfold build_verified_training_record. generalize (circuit_hash p). intros c H.
  case_match; [|done]. case_match; try done; apply bind_ok in H as (id & _ & H); injection H as <-; done.
Qed.

Lemma record_of_evidence_ok e r :
  record_of_evidence coerce_int rules validate_response e = Ok r →
  ∃ q c, model_validate coerce_int (rq_raw_input (ev_request e)) = Ok q ∧
    calculate_import_landed_cost coerce_int rules q = Ok c ∧
    input_hash (integrity c) = rq_input_hash (ev_request e) ∧
    output_hash (integrity c) = rs_output_hash (ev_result e) ∧
    trace_hash (integrity c) = pf_trace_hash (ev_proof e) ∧
    tr_final_proof r = pf_final_proof (ev_proof e) ∧ tr_circuit_hash r = pf_circuit_hash (ev_proof e) ∧
    tr_input_payload r = rq_raw_input (ev_request e) ∧ tr_proof_bundle r = pf_proof_bundle (ev_proof e).
Proof.
  unfold record_of_evidence. intros H. apply bind_ok in H as (resp & _ & H). apply bind_ok in H as (pk & Hpk & H).
  apply bind_ok in H as (payload & _ & H). apply bind_ok in H as (p & _ & H).
  apply bind_ok in H as (u1 & E1 & H). apply bind_ok in H as (u2 & E2 & H). apply bind_ok in H as (u3 & E3 & H).
  apply bind_ok in H as (u4 & E4 & H). apply bind_ok in H as (u5 & E5 & H).
  apply expect_equal_ok in E1, E2, E3, E4, E5. apply packet_inv in Hpk as (Hq & Hc & _).
  exists (pk_request pk), (pk_response pk). rewrite <-E4, <-E5.
  apply training_record_fields in H as (F1 & F2 & F3 & F4).
  split; [exact Hq|]. split; [exact Hc|]. split; [exact E1|]. split; [exact E2|]. split; [exact E3|].
  split; [exact F1|]. split; [exact F2|]. split; [exact F3|exact F4].
Qed.

Lemma from_evidence_ok now e r st st' :
  build_verified_training_record_from_evidence coerce_int rules validate_response now e st = (Ok r, st') →
  training_record_of e r.
Proof.
  unfold build_verified_training_record_from_evidence.
  destruct (pf_proof_verified (ev_proof e)) eqn:Ev; cbn [negb]; [|done].
  case_bool_decide as Es; cbn [negb]; [|done].
  unfold mbind, logged_bind, bundle_verdict_of.
  destruct (verify_bundle_spec coerce_int rules now (pf_proof_bundle (ev_proof e)) st) as (b & st1 & -> & Hb & _).
  destruct (bv_valid b) eqn:Eb; cbn [negb]; [|done]. unfold silent. intros H.
  assert (record_of_evidence coerce_int rules validate_response e = Ok r) as Hr by exact (f_equal fst H).
  split; [exact Ev|]. split; [exact Es|]. split; [by apply Hb|]. by apply record_of_evidence_ok.
Qed.

(** The checks a candidate must pass, and the record it then gives: it is
    marked verified, its proof is of the right system and its bundle verifies;
    its output and its proof can be read and its request calculated again; the
    five stored columns are, in ASCII, what the calculation and the bundled
    proof say. *)
Definition exported_from (e : PersistedEvidenceBundle) (r : VerifiedTrainingRecord) : Prop :=
  pf_proof_verified (ev_proof e) = true ∧ pf_proof_system (ev_proof e) = "plonk" ∧
  bundle_accepts coerce_int rules (pf_proof_bundle (ev_proof e)) ∧
  ∃ response packet payload p,
    validate_response (PDict (rs_raw_output (ev_result e))) = Ok response ∧
    build_trace_packet coerce_int rules (rq_raw_input (ev_request e)) "verified_dataset_export" 1 = Ok packet ∧
    subscript_dict "proof" (pf_proof_bundle (ev_proof e)) = Ok payload ∧ proof_model_validate coerce_int payload = Ok p ∧
    Forall (fun c => c.1 = c.2 ∧ is_ascii c.1 = true)
      [(input_hash (integrity (pk_response packet)), rq_input_hash (ev_request e));
       (output_hash (integrity (pk_response packet)), rs_output_hash (ev_result e));
       (trace_hash (integrity (pk_response packet)), pf_trace_hash (ev_proof e));
       (p_final_proof p, pf_final_proof (ev_proof e)); (circuit_hash p, pf_circuit_hash (ev_proof e))] ∧
    build_verified_training_record response e p (w_witness_hash (witness_artifact packet))
      (pf_verification_key_hash (ev_proof e)) (pf_proof_bundle (ev_proof e)) = Ok r.

Lemma expect_equal_iff l r m : expect_equal l r m = Ok tt ↔ l = r ∧ is_ascii l = true.
Proof.
  unfold expect_equal. rewrite <-constant_time_equal_true.
  destruct (constant_time_equal l r) as [[]|e]; cbn [mbind result_bind negb]; by split.
Qed.

Lemma expect_equal_bind {B} l r m (k : result B) y :
  (_ ← expect_equal l r m; k) = Ok y ↔ (l = r ∧ is_ascii l = true) ∧ k = Ok y.
Proof.
  rewrite <-(expect_equal_iff l r m). destruct (expect_equal l r m) as [[]|e]; cbn [mbind result_bind];
    [tauto|]. by split; [|intros [? _]].
Qed.

Lemma record_of_evidence_iff e r :
  record_of_evidence coerce_int rules validate_response e = Ok r ↔
  ∃ response packet payload p,
    validate_response (PDict (rs_raw_output (ev_result e))) = Ok response ∧
    build_trace_packet coerce_int rules (rq_raw_input (ev_request e)) "verified_dataset_export" 1 = Ok packet ∧
    subscript_dict "proof" (pf_proof_bundle (ev_proof e)) = Ok payload ∧ proof_model_validate coerce_int payload = Ok p ∧
    Forall (fun c => c.1 = c.2 ∧ is_ascii c.1 = true)
      [(input_hash (integrity (pk_response packet)), rq_input_hash (ev_request e));
       (output_hash (integrity (pk_response packet)), rs_output_hash (ev_result e));
       (trace_hash (integrity (pk_response packet)), pf_trace_hash (ev_proof e));
       (p_final_proof p, pf_final_proof (ev_proof e)); (circuit_hash p, pf_circuit_hash (ev_proof e))] ∧
    build_verified_training_record response e p (w_witness_hash (witness_artifact packet))
      (pf_verification_key_hash (ev_proof e)) (pf_proof_bundle (ev_proof e)) = Ok r.
Proof.
  unfold record_of_evidence. split.
  - intros (response & H1 & H)%bind_ok. apply bind_ok in H as (packet & H2 & H).
    apply bind_ok in H as (payload & H3 & H). apply bind_ok in H as (p & H4 & H).
    apply expect_equal_bind in H as [E1 H]. apply expect_equal_bind in H as [E2 H].
    apply expect_equal_bind in H as [E3 H]. apply expect_equal_bind in H as [E4 H].
    apply expect_equal_bind in H as [E5 H]. exists response, packet, payload, p.
    split; [exact H1|]. split; [exact H2|]. split; [exact H3|]. split; [exact H4|]. split; [|exact H].
    repeat apply Forall_cons_2; [exact E1|exact E2|exact E3|exact E4|exact E5|apply Forall_nil_2].
  - intros (response & packet & payload & p & H1 & H2 & H3 & H4 & Hf & H). rewrite H1. cbn [mbind result_bind].
    rewrite H2. cbn [mbind result_bind]. rewrite H3. cbn [mbind result_bind]. rewrite H4. cbn [mbind result_bind].
    rewrite !Forall_cons in Hf. destruct Hf as (E1 & E2 & E3 & E4 & E5 & _).
    rewrite !expect_equal_bind. split; [exact E1|]. split; [exact E2|]. split; [exact E3|].
    split; [exact E4|]. split; [exact E5|exact H].
Qed.

(** One candidate: it gives a record exactly when it passes the checks. *)
Lemma from_evidence_iff now e st r :
  (build_verified_training_record_from_evidence coerce_int rules validate_response now e st).1 = Ok r ↔
  exported_from e r.
Proof.
  unfold exported_from. rewrite <-record_of_evidence_iff. unfold build_verified_training_record_from_evidence.
  destruct (pf_proof_verified (ev_proof e)); cbn [negb]; [|by split; [|intros [? _]]].
  case_bool_decide as Es; cbn [negb]; [|split; [done|by intros (_ & ? & _)]].
  unfold mbind, logged_bind, bundle_verdict_of.
  destruct (verify_bundle_spec coerce_int rules now (pf_proof_bundle (ev_proof e)) st) as (b & st1 & -> & Hb & _).
  destruct (bv_valid b); cbn [negb]; unfold silent; cbn [fst].
  - split; [intros H; do 2 (split; [done|]); split; [by apply Hb|exact H]|by intros (_ & _ & _ & H)].
  - split; [done|]. intros (_ & _ & H & _). by apply Hb in H.
Qed.

(** What a candidate becomes: its record, or nothing when it fails a check. *)
Definition outcome_of (e : PersistedEvidenceBundle) (o : option VerifiedTrainingRecord) : Prop :=
  match o with
  | Some r => exported_from e r ∧ training_record_of e r
  | None => ∀ r, ¬ exported_from e r
  end.

Lemma export_loop_ok now bundles records skipped st :
  match (export_loop coerce_int rules validate_response now bundles records skipped st).1 with
  | Ok (rs, k) => ∃ outcomes, Forall2 outcome_of bundles outcomes ∧ rs = records ++ omap Datatypes.id outcomes ∧
      (k = skipped + (length bundles - length (omap Datatypes.id outcomes)))%nat
  | Raise x => is_value_error x = false ∧ ∃ e st1 st2, e ∈ bundles ∧
      build_verified_training_record_from_evidence coerce_int rules validate_response now e st1 = (Raise x, st2)
  end.
Proof.
  revert records skipped st. induction bundles as [|e l IH]; intros records skipped st; cbn [export_loop].
  { cbn [fst]. exists []. split; [constructor|]. cbn. rewrite app_nil_r. split; [done|lia]. }
  pose proof (from_evidence_iff now e st) as He.
  destruct (build_verified_training_record_from_evidence _ _ _ _ _ _) as [[r|x] st1] eqn:E; cbn [fst] in He.
  - assert (exported_from e r) as Hr by by apply He. apply from_evidence_ok in E. clear He.
    specialize (IH (records ++ [r]) skipped st1). destruct (export_loop _ _ _ _ _ _ _ _) as [[[rs k]|x] st2];
      cbn [fst] in *; [|destruct IH as [? (e' & s1 & s2 & Hin & ?)]; split; [done|]; exists e', s1, s2; split;
        [by right|done]].
    destruct IH as (os & Hos & -> & ->). exists (Some r :: os). split; [by constructor|].
    split; [by rewrite <-app_assoc|done].
  - destruct (is_value_error x) eqn:Ex; [|cbn [fst]; split; [done|]; exists e, st, st1; by split; [left|]].
    specialize (IH records (S skipped) st1). destruct (export_loop _ _ _ _ _ _ _ _) as [[[rs k]|x'] st2];
      cbn [fst] in *; [|destruct IH as [? (e' & s1 & s2 & Hin & ?)]; split; [done|]; exists e', s1, s2; split;
        [by right|done]].
    destruct IH as (os & Hos & -> & ->). exists (None :: os).
    split; [constructor; [|done]; intros r Hr; by apply He in Hr|]. split; [done|].
    assert (length (omap Datatypes.id os) <= length l)%nat; [|cbn [omap list_omap Datatypes.id length]; lia].
    rewrite (Forall2_length _ _ _ Hos). clear. induction os as [|[]]; cbn; lia.
Qed.
End props.

(** C31: the dataset holds exactly the evidence that passes every check.  When
    the export returns, its records are, in the order of the candidates, the
    one record of each candidate that passes the checks, and the candidates
    that fail one are those skipped and counted as such.  A candidate that
    passes is marked verified, of the right proof system, with a bundle that
    verifies, and its request calculated again has the stored hashes.  The
    export raises only what is no [ValueError], when a check of some candidate
    raised it. *)
Theorem dataset_export_sound `{BK : Backend} coerce_int rules validate_response now exported_at bundles st :
  match (export_verified_dataset coerce_int rules validate_response now exported_at bundles st).1 with
  | Ok ds => ∃ outcomes,
      Forall2 (fun e o => match o with
                          | Some r => exported_from coerce_int rules validate_response e r ∧
                                      training_record_of coerce_int rules e r
                          | None => ∀ r, ¬ exported_from coerce_int rules validate_response e r
                          end) bundles outcomes ∧
      ds_records ds = omap Datatypes.id outcomes ∧ ds_total_candidates ds = length bundles ∧
      ds_exportable_records ds = length (ds_records ds) ∧
      ds_skipped_records ds = (length bundles - length (ds_records ds))%nat
  | Raise x => is_value_error x = false ∧ ∃ e st1 st2, e ∈ bundles ∧
      build_verified_training_record_from_evidence coerce_int rules validate_response now e st1 = (Raise x, st2)
  end.
Proof.
  unfold export_verified_dataset, mbind, logged_bind.
  pose proof (export_loop_ok coerce_int rules validate_response now bundles [] 0 st) as H.
  destruct (export_loop _ _ _ _ _ _ _ _) as [[[rs k]|x] st1]; cbn [fst] in H |- *; [|exact H].
  unfold silent. cbn [fst]. destruct H as (os & Hos & -> & ->). exists os. split; [exact Hos|]. by repeat split.
Qed.

#[export] Instance dataset_export_inhabited : Inhabited VerifiedDatasetExport :=
  populate (mkDatasetExport "" sample_time 0 0 0 []).

(** The dataset of stored evidence and of evidence that is none. *)
Definition sample_dataset : result VerifiedDatasetExport * key_log :=
  @export_verified_dataset digest_backend coerce_plain TARIFF_RULES (accept_one sample_response) "t" sample_time
    [sample_evidence; no_evidence] empty_log.

(** What a successful computation over a state returned. *)
Definition succeeds {A S} (p : A → bool) (x : result A * S) : bool :=
  match x.1 with Ok a => p a | Raise _ => false end.

Lemma succeeds_ok {A S} `{!Inhabited A} p (x : result A * S) :
  succeeds p x = true → x = (Ok (ok_default x.1), x.2) ∧ p (ok_default x.1) = true.
Proof. by destruct x as [[a|e] s]. Qed.

Definition one_of_two (d : VerifiedDatasetExport) : bool :=
  (ds_exportable_records d =? 1)%nat && (ds_skipped_records d =? 1)%nat.

Lemma sample_dataset_ok : succeeds one_of_two sample_dataset = true.
Proof. vm_compute. reflexivity. Qed.

Example dataset_export_sound_witness :
  let d := ok_default sample_dataset.1 in
  one_of_two d = true ∧
  ∃ outcomes, Forall2 (@outcome_of digest_backend coerce_plain TARIFF_RULES (accept_one sample_response))
      [sample_evidence; no_evidence] outcomes ∧
    ds_records d = omap Datatypes.id outcomes ∧ ds_total_candidates d = 2%nat ∧
    ds_exportable_records d = length (ds_records d) ∧ ds_skipped_records d = (2 - length (ds_records d))%nat.
Proof.
  intros d. destruct (succeeds_ok _ _ sample_dataset_ok) as [E Hd]. split; [exact Hd|].
  pose proof (@dataset_export_sound digest_backend coerce_plain TARIFF_RULES (accept_one sample_response) "t" sample_time
    [sample_evidence; no_evidence] empty_log) as H.
  fold sample_dataset in H. rewrite E in H. exact H.
Defined.

(** ** Identifiers of records *)

(** The fields under a record's identifier. *)
Definition identified (r : VerifiedTrainingRecord) :=
  ((tr_request_id r, tr_proof_id r, tr_input_hash r, tr_output_hash r, tr_trace_hash r, tr_witness_hash r),
   (tr_integrity_hash r, tr_final_proof r, tr_circuit_hash r, tr_verification_key_hash r, tr_proof_system r)).

Definition payload_of_record (r : VerifiedTrainingRecord) : pyval :=
  record_payload (tr_request_id r) (tr_proof_id r) (tr_input_hash r) (tr_output_hash r) (tr_trace_hash r)
    (tr_witness_hash r) (tr_integrity_hash r) (tr_final_proof r) (tr_circuit_hash r) (tr_verification_key_hash r)
    (tr_proof_system r).

Lemma built_record_id response e p wh vk d r :
  build_verified_training_record response e p wh vk d = Ok r → tr_record_id r = payload_hash (payload_of_record r).
Proof.
  unfold build_verified_training_record. intros H. case_match; [|done].
  case_match; try done; rewrite hash_payload_free in H by done; cbn [mbind result_bind] in H; injection H as <-;
    reflexivity.
Qed.

Lemma canonical_record_payload request proof input output trace_ witness integrity_ final circuit vk system :
  canonical_form (record_payload request proof input output trace_ witness integrity_ final circuit vk system) =
  JObj [("circuit_hash", JStr circuit); ("dataset_version", JStr VERIFIED_DATASET_VERSION);
        ("final_proof", JStr final); ("input_hash", JStr input); ("integrity_hash", JStr integrity_);
        ("output_hash", JStr output); ("proof_id", JStr proof); ("proof_system", JStr system);
        ("request_id", JStr request); ("trace_hash", JStr trace_); ("verification_key_hash", JStr vk);
        ("witness_hash", JStr witness)].
Proof. reflexivity. Qed.

(** The identifier of a training record binds it.  Two records the service
    builds with the same identifier have the same request, proof, hashes, final
    proof and keys, or exhibit a SHA-256 collision. *)
Theorem training_record_binding response e p wh vk d r response' e' p' wh' vk' d' r' :
  build_verified_training_record response e p wh vk d = Ok r →
  build_verified_training_record response' e' p' wh' vk' d' = Ok r' → tr_record_id r = tr_record_id r' →
  identified r = identified r' ∨
  collision (json_print (canonical_form (payload_of_record r))) (json_print (canonical_form (payload_of_record r'))).
Proof.
  intros H H' E. rewrite (built_record_id _ _ _ _ _ _ _ H), (built_record_id _ _ _ _ _ _ _ H') in E.
  apply payload_hash_binding in E as [E|E]; [left|by right|reflexivity..].
  revert E. unfold identified, payload_of_record. rewrite !canonical_record_payload. clear. congruence.
Qed.

#[export] Instance training_record_inhabited : Inhabited VerifiedTrainingRecord :=
  populate (mkTrainingRecord "" "" "" "" sample_time "" "" "" "" "" "" "" "" "" "" [] (calculation sample_response) [] []).

Example training_record_binding_witness :
  let r := ok_default (build_verified_training_record sample_response no_evidence sample_plonk_proof "w" "vk"
                         [("proof", PStr "p")]) in
  identified r = identified r ∨
  collision (json_print (canonical_form (payload_of_record r))) (json_print (canonical_form (payload_of_record r))).
Proof.
  intros r. assert (build_verified_training_record sample_response no_evidence sample_plonk_proof "w" "vk"
    [("proof", PStr "p")] = Ok r) as H by (vm_compute; reflexivity).
  exact (training_record_binding _ _ _ _ _ _ _ _ _ _ _ _ _ _ H H eq_refl).
Defined.
