(* ===== verification/Runtime.v ===== *)
(** * The runtime loop (api/runtime.py)

    One controller keeps a snapshot of the last calculation and at most one
    background thread that calculates the reference request.  [start] and
    [stop] come from HTTP threads; the loop is a thread of its own: the steps
    below are theirs, in any order.  Everything under the lock is one step. *)
From stdpp Require Export relations.
From S2P Require Export Evidence.

Local Open Scope Z_scope.

Record RuntimeSnapshot := mkRuntimeSnapshot {
  started : bool;
  iteration_count : Z;
  last_run_at : option string;
  last_input_hash : option string;
  last_output_hash : option string;
  last_integrity_hash : option string;
  last_audit_hash : option string;
  last_status : option string;
  last_error : option string;
  last_result : option pyval;
  last_trace : option (list pyval) }.

Definition empty_snapshot : RuntimeSnapshot :=
  mkRuntimeSnapshot false 0 None None None None None None None None None.

(** The controller: whether the stop event is set, and the threads started, each
    with whether it is alive; the last one is [_thread]. *)
Record RuntimeController := mkController {
  _stop_event : bool;
  _threads : list bool;
  _snapshot : RuntimeSnapshot }.

Definition new_controller : RuntimeController := mkController false [] empty_snapshot.

Definition with_started (b : bool) (s : RuntimeSnapshot) : RuntimeSnapshot :=
  mkRuntimeSnapshot b (iteration_count s) (last_run_at s) (last_input_hash s) (last_output_hash s)
    (last_integrity_hash s) (last_audit_hash s) (last_status s) (last_error s) (last_result s) (last_trace s).

Definition record_response (now : string) (response : CalculationResponse) (audit_hash : option string)
    (status : string) (c : RuntimeController) : RuntimeController :=
  let s := _snapshot c in
  let i := integrity response in
  mkController (_stop_event c) (_threads c)
    (mkRuntimeSnapshot (started s) (iteration_count s + 1) (Some now) (Some (input_hash i)) (Some (output_hash i))
       (Some (integrity_hash i)) audit_hash (Some status) None (Some (dump_result_json (calculation response)))
       (Some (map dump_step (trace response)))).

Definition record_error (message : string) (c : RuntimeController) : RuntimeController :=
  let s := _snapshot c in
  mkController (_stop_event c) (_threads c)
    (mkRuntimeSnapshot (started s) (iteration_count s) (last_run_at s) (last_input_hash s) (last_output_hash s)
       (last_integrity_hash s) (last_audit_hash s) (Some "error") (Some message) (last_result s) (last_trace s)).

(** [self._thread and self._thread.is_alive()] *)
Definition thread_alive (c : RuntimeController) : bool := default false (last (_threads c)).

Definition start (c : RuntimeController) : RuntimeController :=
  if thread_alive c then mkController (_stop_event c) (_threads c) (with_started true (_snapshot c))
  else mkController false (_threads c ++ [true]) (with_started true (_snapshot c)).

Definition stop (c : RuntimeController) : RuntimeController :=
  mkController true (_threads c) (with_started false (_snapshot c)).

Definition dashboard (c : RuntimeController) : string * string * RuntimeSnapshot :=
  (DATASET_VERSION, DATASET_HASH, _snapshot c).

Section loop.
Context (coerce_int : pyval → option Z) (rules : list TariffRule).

(** [run_once]: the response, or the exception, and the controller. *)
Definition run_once (now : string) (request_payload : list (string * pyval)) (c : RuntimeController)
    : result CalculationResponse * RuntimeController :=
  match (request ← model_validate coerce_int request_payload; calculate_import_landed_cost coerce_int rules request) with
  | Ok response => (Ok response, record_response now response None "ephemeral" c)
  | Raise e => (Raise e, c)
  end.

(** The body of the loop. *)
Definition loop_body (now : string) (c : RuntimeController) : RuntimeController :=
  match run_once now REFERENCE_REQUEST c with
  | (Ok _, c) => c
  | (Raise e, c) => record_error (exn_msg e) c
  end.

Inductive rt_step : RuntimeController → RuntimeController → Prop :=
  | rt_start c : rt_step c (start c)
  | rt_stop c : rt_step c (stop c)
  | rt_record now r audit status c : rt_step c (record_response now r audit status c)
  | rt_iterate i now c :
      _threads c !! i = Some true → _stop_event c = false → rt_step c (loop_body now c)
  | rt_exit i c :
      _threads c !! i = Some true → _stop_event c = true →
      rt_step c (mkController (_stop_event c) (<[i := false]> (_threads c)) (_snapshot c)).

Definition rt_reachable (c : RuntimeController) : Prop := rtc rt_step new_controller c.

(** ** One thread at a time *)

(** Only the last thread can be alive. *)
Definition one_thread (c : RuntimeController) : Prop :=
  ∀ i, _threads c !! i = Some true → S i = length (_threads c).

Lemma loop_body_threads now c :
  _threads (loop_body now c) = _threads c ∧ _stop_event (loop_body now c) = _stop_event c ∧
  started (_snapshot (loop_body now c)) = started (_snapshot c).
Proof. unfold loop_body, run_once. destruct (model_validate coerce_int REFERENCE_REQUEST ≫= _); done. Qed.

Lemma step_one_thread c c' : rt_step c c' → one_thread c → one_thread c'.
Proof.
  intros [c1|c1|now r audit status c1|i now c1 Hi Hs|i c1 Hi Hs] H; try exact H.
  - unfold start. destruct (thread_alive c1) eqn:E; [exact H|]. intros j Hj. cbn [_threads] in *.
    rewrite length_app. cbn [length].
    apply lookup_app_Some in Hj as [Hj|[Hl Hj]]; [|apply list_lookup_singleton_Some in Hj as [Hj _]; lia].
    exfalso. pose proof (H j Hj) as Hlen. unfold thread_alive in E. rewrite last_lookup, <-Hlen in E.
    cbn [Nat.pred] in E. by rewrite Hj in E.
  - unfold one_thread. by destruct (loop_body_threads now c1) as (-> & _).
  - intros j Hj. cbn [_threads] in *. rewrite length_insert. destruct (decide (i = j)) as [->|Hne].
    + rewrite list_lookup_insert_eq in Hj by (by eapply lookup_lt_Some). done.
    + rewrite list_lookup_insert_ne in Hj by done. auto.
Qed.

Lemma steps_one_thread c c' : rtc rt_step c c' → one_thread c → one_thread c'.
Proof. induction 1; eauto using step_one_thread. Qed.
End loop.

(** There is at most one loop.  However starts, stops, iterations and thread
    exits interleave, only the thread started last can be alive; and an
    iteration that succeeds counts once and records the calculation's hashes. *)
Theorem one_loop_at_a_time coerce_int rules c :
  rt_reachable coerce_int rules c →
  one_thread c ∧
  ∀ now q r, model_validate coerce_int REFERENCE_REQUEST = Ok q →
    calculate_import_landed_cost coerce_int rules q = Ok r →
    let s := _snapshot (loop_body coerce_int rules now c) in
    iteration_count s = iteration_count (_snapshot c) + 1 ∧ last_output_hash s = Some (output_hash (integrity r)) ∧
    last_error s = None.
Proof.
  intros H. split.
  - apply (steps_one_thread coerce_int rules new_controller c H). intros i Hi. done.
  - intros now q r Hq Hr. unfold loop_body, run_once. rewrite Hq. cbn [mbind result_bind]. rewrite Hr.
    cbn [record_response _snapshot iteration_count last_output_hash last_error]. split; [reflexivity|]. split; reflexivity.
Qed.

(** A start can be lost.  After a start, a stop and a start before the
    thread has seen the stop, the thread still exits: the controller says it is
    started while no thread is alive, and nothing but another start changes
    that. *)
Theorem start_is_lost coerce_int rules :
  ∃ c, rt_reachable coerce_int rules c ∧ started (_snapshot c) = true ∧ thread_alive c = false ∧
    Forall (fun b => b = false) (_threads c) ∧
    ∀ now, ¬ ∃ i c', _threads c !! i = Some true ∧ _stop_event c = false ∧ c' = loop_body coerce_int rules now c.
Proof.
  set (c1 := start new_controller). set (c2 := start (stop c1)).
  exists (mkController true [false] (_snapshot c2)).
  split.
  { eapply rtc_l; [apply rt_start|]. fold c1. eapply rtc_l; [apply rt_stop|]. eapply rtc_l; [apply rt_start|].
    fold c2. eapply rtc_l; [|apply rtc_refl]. exact (rt_exit _ _ 0 c2 eq_refl eq_refl). }
  split; [done|]. split; [done|]. split; [by repeat constructor|]. intros now (i & c' & Hi & Hs & _). discriminate Hs.
Qed.

Example one_loop_at_a_time_witness :
  let c := start new_controller in
  one_thread c ∧
  ∀ now q r, model_validate coerce_plain REFERENCE_REQUEST = Ok q →
    calculate_import_landed_cost coerce_plain TARIFF_RULES q = Ok r →
    let s := _snapshot (loop_body coerce_plain TARIFF_RULES now c) in
    iteration_count s = iteration_count (_snapshot c) + 1 ∧ last_output_hash s = Some (output_hash (integrity r)) ∧
    last_error s = None.
Proof.
  apply (one_loop_at_a_time coerce_plain TARIFF_RULES). apply rtc_once. apply rt_start.
Defined.
