(* ===== verification/Persist.v ===== *)
(** * The retry loop of a transaction (app/services/evidence_service.py)

    [calculate_and_persist] runs its transaction up to five times.  How an
    attempt ends is given: EvidenceLog says what the attempts do to the
    database.  The loop's own effects are the sleeps, the counters of
    chain_metrics and the failure events it writes. *)
From S2P Require Export Evidence ChainMetrics.

Local Open Scope Z_scope.

Definition MAX_TRANSACTION_RETRIES : nat := 5.

(** How the body of the [try] ends. *)
Inductive attempt_end :=
  | Stored                    (** the response was built *)
  | KnownDuplicate            (** the duplicate check found the input hash *)
  | RacedDuplicate            (** the insert raised [DuplicateInputHashError] *)
  | Conflict (e : exn)        (** [RETRYABLE_DB_ERRORS] *)
  | Broken (e : exn).         (** any other exception *)

Inductive effect :=
  | Attempt (n : nat)
  | RecordSuccess
  | RecordDuplicate
  | RecordError
  | LogFailureEvent (reason : string)
  | Sleep (n : nat).          (** [RETRY_BACKOFF_SECONDS * n] *)

(** What [_log_failure_event] does: it can raise in its turn. *)
Definition log_failure (failing : option exn) (reason : string) (e : exn) : list effect * result unit :=
  ([LogFailureEvent reason], Raise (match failing with Some f => f | None => e end)).

Definition duplicate_input : exn := Exn DuplicateInputHashError "Duplicate input hash detected: {}".

Section loop.
(** The end of every attempt, and the exception of the failure log. *)
Context (ends : nat → attempt_end) (failing : option exn).

(** The rest of the loop, from attempt [n] of [n + more - 1]. *)
Fixpoint attempts (n more : nat) : list effect * result unit :=
  match more with
  | O => ([], raise PersistenceIntegrityError "Transaction retries exhausted without a terminal outcome")
  | S more =>
      let '(effects, r) :=
        match ends n with
        | Stored => ([RecordSuccess], Ok tt)
        | KnownDuplicate => ([RecordDuplicate], Raise duplicate_input)
        | RacedDuplicate => ([], Raise duplicate_input)
        | Conflict e =>
            if (n =? MAX_TRANSACTION_RETRIES)%nat
            then log_failure failing ("retry_exhausted:{}:" +:+ exn_msg e) e
            else let '(effects, r) := attempts (S n) more in (Sleep n :: effects, r)
        | Broken e =>
            let '(effects, r) := log_failure failing (exn_msg e) e in (RecordError :: effects, r)
        end in
      (Attempt n :: effects, r)
  end.

Definition persist_loop : list effect * result unit := attempts 1 MAX_TRANSACTION_RETRIES.

(** ** The end of the loop *)

Definition is_conflict (a : attempt_end) : bool := match a with Conflict _ => true | _ => false end.

(** The attempt the loop ends with: the first that is no conflict, or the
    last. *)
Fixpoint last_attempt (n more : nat) : nat :=
  match more with
  | O | S O => n
  | S more => if is_conflict (ends n) then last_attempt (S n) more else n
  end.

Lemma last_attempt_spec n more :
  let k := last_attempt n (S more) in
  (n <= k <= n + more)%nat ∧ (∀ m, (n <= m < k)%nat → is_conflict (ends m) = true) ∧
  ((k < n + more)%nat → is_conflict (ends k) = false).
Proof.
  revert n. induction more as [|more IH]; intros n.
  { cbn [last_attempt]. split; [lia|]. split; [lia|]. lia. }
  change (last_attempt n (S (S more))) with (if is_conflict (ends n) then last_attempt (S n) (S more) else n).
  destruct (is_conflict (ends n)) eqn:E; cbv zeta.
  - destruct (IH (S n)) as (H1 & H2 & H3). split; [lia|]. split; [|intros; apply H3; lia].
    intros m Hm. destruct (decide (m = n)) as [->|]; [exact E|]. apply H2. lia.
  - split; [lia|]. split; [lia|]. by intros _.
Qed.

(** What the last attempt does once its transaction is over. *)
Definition last_effects (a : attempt_end) : list effect :=
  match a with
  | Stored => [RecordSuccess]
  | KnownDuplicate => [RecordDuplicate]
  | RacedDuplicate => []
  | Conflict e => [LogFailureEvent ("retry_exhausted:{}:" +:+ exn_msg e)]
  | Broken e => [RecordError; LogFailureEvent (exn_msg e)]
  end.

(** The result of the loop, from the end of its last attempt. *)
Definition loop_result (a : attempt_end) : result unit :=
  match a with
  | Stored => Ok tt
  | KnownDuplicate | RacedDuplicate => Raise duplicate_input
  | Conflict e | Broken e => Raise (match failing with Some f => f | None => e end)
  end.

Definition retries (n k : nat) : list effect := concat (map (fun m => [Attempt m; Sleep m]) (seq n (k - n))).

Lemma retries_cons n k : (n < k)%nat → retries n k = Attempt n :: Sleep n :: retries (S n) k.
Proof. intros H. unfold retries. replace (k - n)%nat with (S (k - S n)) by lia. reflexivity. Qed.

Lemma attempts_spec n more :
  (n + S more = S MAX_TRANSACTION_RETRIES)%nat →
  let k := last_attempt n (S more) in
  attempts n (S more) = (retries n k ++ Attempt k :: last_effects (ends k), loop_result (ends k)).
Proof.
  revert n. induction more as [|more IH]; intros n Hn.
  - assert (n = 5)%nat as -> by (unfold MAX_TRANSACTION_RETRIES in Hn; lia).
    cbn [last_attempt attempts]. destruct (ends 5); reflexivity.
  - specialize (IH (S n) ltac:(lia)). pose proof (last_attempt_spec (S n) more) as (Hk & _). cbv zeta in *.
    change (last_attempt n (S (S more))) with
      (if is_conflict (ends n) then last_attempt (S n) (S more) else n).
    destruct (is_conflict (ends n)) eqn:E.
    + destruct (ends n) as [| | |e|e] eqn:En; try done. rewrite retries_cons by lia.
      revert IH. generalize (last_attempt (S n) (S more)) as k. intros k IH.
      change (attempts n (S (S more))) with
        (let '(effects, r) :=
          match ends n with
          | Stored => ([RecordSuccess], Ok tt)
          | KnownDuplicate => ([RecordDuplicate], Raise duplicate_input)
          | RacedDuplicate => ([], Raise duplicate_input)
          | Conflict e =>
              if (n =? MAX_TRANSACTION_RETRIES)%nat
              then log_failure failing ("retry_exhausted:{}:" +:+ exn_msg e) e
              else let '(effects, r) := attempts (S n) (S more) in (Sleep n :: effects, r)
          | Broken e =>
              let '(effects, r) := log_failure failing (exn_msg e) e in (RecordError :: effects, r)
          end in
        (Attempt n :: effects, r)).
      rewrite En, IH. destruct (Nat.eqb_spec n MAX_TRANSACTION_RETRIES); [lia|]. reflexivity.
    + unfold retries. rewrite Nat.sub_diag. cbn [seq map concat app attempts].
      destruct (ends n); try done.
Qed.
End loop.

(** C28: the transaction is tried at most five times, and what the loop does is
    fixed by how its attempts end.  It ends with attempt [n], the first that is
    no conflict, or the fifth; before it, attempts 1 to [n - 1] conflict and
    each is followed by its sleep.  Then a stored transaction records success
    and returns; a known duplicate records a duplicate and raises
    [DuplicateInputHashError]; a duplicate that raced another writer raises the
    same and records nothing; a fifth conflict writes the failure event
    [retry_exhausted], is in no counter, and raises the conflict; any other
    exception records an error, writes a failure event with its message, and is
    raised.  An exception of writing the failure event replaces the one it was
    written for. *)
Theorem persist_loop_ends ends failing :
  ∃ n, (1 <= n <= 5)%nat ∧ (∀ m, (1 <= m < n)%nat → is_conflict (ends m) = true) ∧
    ((n < 5)%nat → is_conflict (ends n) = false) ∧
    let before := concat (map (fun m => [Attempt m; Sleep m]) (seq 1 (n - 1))) in
    let raised e := Raise (match failing with Some f => f | None => e end) in
    persist_loop ends failing =
      match ends n with
      | Stored => (before ++ [Attempt n; RecordSuccess], Ok tt)
      | KnownDuplicate => (before ++ [Attempt n; RecordDuplicate], Raise duplicate_input)
      | RacedDuplicate => (before ++ [Attempt n], Raise duplicate_input)
      | Conflict e => (before ++ [Attempt n; LogFailureEvent ("retry_exhausted:{}:" +:+ exn_msg e)], raised e)
      | Broken e => (before ++ [Attempt n; RecordError; LogFailureEvent (exn_msg e)], raised e)
      end.
Proof.
  pose proof (attempts_spec ends failing 1 4 eq_refl) as H. pose proof (last_attempt_spec ends 1 4) as (H1 & H2 & H3).
  cbv zeta in *. exists (last_attempt ends 1 5). split; [lia|]. split; [exact H2|]. split; [exact H3|].
  unfold persist_loop, MAX_TRANSACTION_RETRIES in *. rewrite H. unfold retries. by destruct (ends _).
Qed.
