(* ===== verification/Routes.v ===== *)
(** * The HTTP routes (api/routes.py)

    A handler takes a request and the state of the application: the rate
    limiter, the in-flight guard, the API keys, the runtime controller and the
    proof queue.  It ends in a reply, an [HTTPException], or another exception,
    which leaves the handler.  The services are parameters over a state of
    their own; a reply's body is the model whose JSON is sent.  FastAPI's own
    conversion of query parameters is done before a handler runs. *)
From S2P Require Export Runtime Dataset RateLimit Backpressure ApiKeys ProofQueue ChainMetrics.

Local Open Scope Z_scope.

Inductive outcome :=
  | HttpException (status : Z) (detail : string)
  | Escaped (e : exn).

Record http_request := mkHttpRequest {
  hr_client : option string;       (** [request.client.host] *)
  hr_api_key : option string;      (** the X-Api-Key header *)
  hr_body_bytes : Z;               (** [len(body)] *)
  hr_body_text : option string;    (** [body.decode('utf-8')], [None] if it raises *)
  hr_ticks : Z;                    (** the clock of the rate limiter *)
  hr_today : string;
  hr_now : string }.

Record PersistedCalculationResponse := mkPersisted {
  pc_response : CalculationResponse;
  pc_evidence : PersistedEvidenceBundle }.

(** ** JSON bodies *)

(** [json.loads(.., parse_float=Decimal)]: the constants stay floats. *)
Definition float_payload (lit : string) : result pyval :=
  if bool_decide (lit ∈ ["NaN"; "Infinity"; "-Infinity"]) then Ok (PFloat lit)
  else match decimal_of_string lit with
       | Some d => Ok (PDecimal d)
       | None => raise InvalidOperation "[<class 'decimal.ConversionSyntax'>]"
       end.

Fixpoint to_payload (j : json) : result pyval :=
  match j with
  | JNull => Ok PNone
  | JBool b => Ok (PBool b)
  | JInt z => Ok (PInt z)
  | JFloat lit => float_payload lit
  | JStr s => Ok (PStr s)
  | JList l => PList <$> traverse Datatypes.id (map to_payload l)
  | JObj l => PDict <$> traverse Datatypes.id (map (fun p => v ← to_payload p.2; Ok (p.1, v)) l)
  end.

Definition unicode_error : exn := Exn ValueError "'utf-8' codec can't decode byte {} in position {}: {}".

(** The payload, or what is raised. *)
Definition _load_json_payload (r : http_request) : list (string * pyval) + outcome :=
  if hr_body_bytes r >? MAX_REQUEST_BYTES then inr (HttpException 413 "Request body too large")
  else if hr_body_bytes r =? 0 then inl []
  else
    match hr_body_text r with
    | None => inr (Escaped unicode_error)
    | Some text =>
        match json_loads text with
        | None => inr (HttpException 400 "Invalid JSON payload")
        | Some j =>
            match to_payload j with
            | Raise e => inr (Escaped e)
            | Ok (PDict payload) =>
                match enforce_payload_guards (PDict payload) with
                | Ok _ => inl payload
                | Raise e =>
                    if bool_decide (exn_cls e = SecurityViolation) then inr (HttpException 400 (exn_msg e))
                    else inr (Escaped e)
                end
            | Ok _ => inr (HttpException 400 "JSON body must be an object")
            end
        end
    end.

Section routes.
Context {W : Type} (coerce_int : pyval → option Z) (rules : list TariffRule) (circuit_hash_ : string).

(** The application.  The services are there when a database is configured. *)
Record application := mkApplication {
  ap_limiter : RateLimiter;
  ap_queue : QueueDepthGuard;
  ap_keys : ApiKeyStore;
  ap_runtime : RuntimeController;
  ap_tasks : list ProofTask;
  ap_jobs : list job;
  ap_service : bool;
  ap_training : bool;
  ap_world : W }.

Definition handler (A : Type) : Type := application → (A + outcome) * application.

#[global] Instance handler_ret : MRet handler := fun A a s => (inl a, s).
#[global] Instance handler_bind : MBind handler := fun A B f m s =>
  match m s with (inl a, s) => f a s | (inr o, s) => (inr o, s) end.

Definition http_raise {A} (status : Z) (detail : string) : handler A := fun s => (inr (HttpException status detail), s).
Definition lift_result {A} (r : result A) : handler A := fun s =>
  match r with Ok a => (inl a, s) | Raise e => (inr (Escaped e), s) end.
Definition ends {A} (x : A + outcome) : handler A := fun s => (x, s).

(** [except ..: raise HTTPException(..)]; an [HTTPException] goes through when
    it is named, and otherwise falls to the last clause. *)
Definition try_except {A} (http_through : bool) (on_exn : option exn → Z * string) (m : handler A) : handler A := fun s =>
  match m s with
  | (inr (HttpException st d), s) =>
      if http_through then (inr (HttpException st d), s)
      else let '(st, d) := on_exn None in (inr (HttpException st d), s)
  | (inr (Escaped e), s) => let '(st, d) := on_exn (Some e) in (inr (HttpException st d), s)
  | x => x
  end.

(** [async with queue_guard.guarded()] *)
Definition guarded {A} (m : handler A) : handler A := fun s =>
  let with_queue g s := mkApplication (ap_limiter s) g (ap_keys s) (ap_runtime s) (ap_tasks s) (ap_jobs s)
                          (ap_service s) (ap_training s) (ap_world s) in
  match acquire (ap_queue s) with
  | (Raise e, g) => (inr (Escaped e), with_queue g s)
  | (Ok _, g) => let '(x, s) := m (with_queue g s) in (x, with_queue (release (ap_queue s)) s)
  end.

Definition _client_key (r : http_request) : string := default "unknown" (hr_client r).

Definition _service_or_503 : handler unit := fun s =>
  if ap_service s then (inl tt, s)
  else (inr (HttpException 503 "Database evidence repository is not configured"), s).

Definition _training_service_or_503 : handler unit := fun s =>
  if ap_training s then (inl tt, s)
  else (inr (HttpException 503 "Database training repository is not configured"), s).

Definition with_keys (k : ApiKeyStore) (s : application) : application :=
  mkApplication (ap_limiter s) (ap_queue s) k (ap_runtime s) (ap_tasks s) (ap_jobs s) (ap_service s) (ap_training s)
    (ap_world s).

Definition _require_api_key (r : http_request) : handler unit := fun s =>
  if negb (is_enabled (ap_keys s)) then (inl tt, s)
  else
    match hr_api_key r with
    | None | Some "" => (inr (HttpException 401 "X-Api-Key header is required"), s)
    | Some key =>
        match authenticate (hr_today r) key (ap_keys s) with
        | (None, k) => (inr (HttpException 401 "Invalid API key"), with_keys k s)
        | (Some _, k) => (inl tt, with_keys k s)
        end
    end.

Definition check_rate (r : http_request) : handler unit := fun s =>
  let '(res, l) := allow (hr_ticks r) (_client_key r) (ap_limiter s) in
  let s := mkApplication l (ap_queue s) (ap_keys s) (ap_runtime s) (ap_tasks s) (ap_jobs s) (ap_service s)
             (ap_training s) (ap_world s) in
  if allowed res then (inl tt, s) else (inr (HttpException 429 "Rate limit exceeded"), s).

(** What the POST routes start with. *)
Definition admitted (r : http_request) : handler (list (string * pyval)) :=
  _ ← _require_api_key r;
  _ ← check_rate r;
  ends (_load_json_payload r).

(** ** The services *)

Context (calculate_and_persist : list (string * pyval) → W → result PersistedCalculationResponse * W).
Context (verify_persisted_ : list (string * pyval) → W → result PersistedVerificationResponse * W).
Context (verify_chain_ : W → result AuditChainVerificationResult).
Context (export_dataset_ : Z → W → result VerifiedDatasetExport * W).

Definition in_world {A} (f : W → result A * W) : handler A := fun s =>
  let '(r, w) := f (ap_world s) in
  let s := mkApplication (ap_limiter s) (ap_queue s) (ap_keys s) (ap_runtime s) (ap_tasks s) (ap_jobs s)
             (ap_service s) (ap_training s) w in
  match r with Ok a => (inl a, s) | Raise e => (inr (Escaped e), s) end.

Definition on_runtime (f : RuntimeController → RuntimeController) : handler unit := fun s =>
  (inl tt, mkApplication (ap_limiter s) (ap_queue s) (ap_keys s) (f (ap_runtime s)) (ap_tasks s) (ap_jobs s)
             (ap_service s) (ap_training s) (ap_world s)).

Definition audit_hash_of (p : PersistedCalculationResponse) : option string :=
  current_hash <$> ev_audit_log (pc_evidence p).

Definition record_persisted (r : http_request) (p : PersistedCalculationResponse) : handler unit :=
  on_runtime (record_response (hr_now r) (pc_response p) (audit_hash_of p) "ok").

(** The clauses of [calculate] and of [run], which differ in the last. *)
Definition persist_errors (fallback : string) (e : option exn) : Z * string :=
  match e with
  | None => (500, fallback)
  | Some e =>
      match exn_cls e with
      | BackpressureError => (503, exn_msg e)
      | DuplicateInputHashError => (409, exn_msg e)
      | RepositoryUnavailableError => (503, exn_msg e)
      | SecurityViolation => (400, exn_msg e)
      | ValidationError => (400, "Input validation failed")
      | PersistenceIntegrityError => (500, "Persistence integrity check failed")
      | _ => (500, fallback)
      end
  end.

(** A reply of [calculate]: the response, and the two fields added to it. *)
Record calculate_reply := mkCalculateReply {
  cr_persisted : PersistedCalculationResponse;
  cr_integrity_hash : string;
  cr_proof_status : string }.

Definition calculate (r : http_request) : handler calculate_reply :=
  payload ← admitted r;
  try_except true (persist_errors "Unable to calculate landed cost")
    (guarded
      (model ← lift_result (model_validate coerce_int payload);
       _ ← _service_or_503;
       persisted ← in_world (calculate_and_persist (model_dump model));
       _ ← record_persisted r persisted;
       ends (inl (mkCalculateReply persisted (integrity_hash (integrity (pc_response persisted))) "persisted")))).

Definition run (r : http_request) : handler PersistedCalculationResponse :=
  payload ← admitted r;
  match payload with
  | [] => http_raise 400 "Explicit input payload is required for deterministic execution"
  | _ =>
      try_except false (persist_errors "Unable to run deterministic calculation")
        (persisted ← guarded (_ ← _service_or_503; in_world (calculate_and_persist payload));
         _ ← record_persisted r persisted;
         ends (inl persisted))
  end.

(** ** Proving *)

Record prove_reply := mkProveReply {
  pr_task_id : string; pr_status : string; pr_trace_hash : string; pr_circuit_hash : string }.

Definition prove_errors (e : option exn) : Z * string :=
  match e with
  | None => (500, "Unable to enqueue proof")
  | Some e =>
      match exn_cls e with
      | BackpressureError => (503, exn_msg e)
      | RepositoryUnavailableError => (503, exn_msg e)
      | SecurityViolation => (400, exn_msg e)
      | ValidationError => (400, "Input validation failed")
      | _ => (500, "Unable to enqueue proof")
      end
  end.

(** [proof_queue.submit(..)] *)
Definition submit (r : http_request) (w : Witness) (trace_hash : string) : handler string := fun s =>
  match submit_check circuit_hash_ w trace_hash "api_prove" 1 true (hr_ticks r) (ap_tasks s) with
  | Raise e => (inr (Escaped e), s)
  | Ok (id, None) => (inl id, s)
  | Ok (id, Some j) =>
      (inl id, mkApplication (ap_limiter s) (ap_queue s) (ap_keys s) (ap_runtime s) (ap_tasks s ++ [jb_task j])
                 (ap_jobs s ++ [j]) (ap_service s) (ap_training s) (ap_world s))
  end.

Definition prove (r : http_request) : handler prove_reply :=
  payload ← admitted r;
  try_except true prove_errors
    (guarded
      (_ ← _service_or_503;
       packet ← lift_result (build_trace_packet coerce_int rules payload "backend_integration" 1);
       let trace_hash := t_trace_hash (trace_artifact packet) in
       task_id ← submit r (witness_artifact packet) trace_hash;
       ends (inl (mkProveReply task_id "pending" trace_hash (artifact_id (w_header (witness_artifact packet))))))).

Record proof_reply := mkProofReply {
  pp_task_id : string;
  pp_status : task_state;
  pp_zk_proof : option Proof_;
  pp_verification : option Artifacts.VerificationResult;
  pp_error : option (option string) }.

Definition reply_of_task (task_id : string) (task : ProofTask) : proof_reply :=
  let reply := mkProofReply task_id (pt_status task) in
  match pt_status task, pt_result task with
  | Completed, Some p => reply (Some p) (pt_verification task) None
  | Failed, _ => reply None None (Some (pt_error task))
  | _, _ => reply None None None
  end.

Definition read_task (task_id : string) : handler proof_reply := fun s =>
  match get_task task_id (ap_tasks s) with
  | None => (inr (HttpException 404 "Proof task not found"), s)
  | Some task => (inl (reply_of_task task_id task), s)
  end.

Definition get_proof (task_id : string) (r : http_request) : handler proof_reply :=
  _ ← _require_api_key r;
  read_task task_id.

(** ** Verifying *)

(** A reply of [verify]: the service's, or [{'valid': False, 'reason': ..}]. *)
Definition verify_reply : Type := PersistedVerificationResponse + string.

(** [PersistedVerificationRequest.model_validate(payload)] *)
Definition verification_request (payload : list (string * pyval)) : result ImportCalculationRequest :=
  match dict_get "request" payload with
  | Some (PDict d) =>
      if forallb (fun k => bool_decide (k = "request")) (dict_keys payload) then model_validate coerce_int d
      else raise ValidationError "{} validation errors for PersistedVerificationRequest"
  | _ => raise ValidationError "{} validation errors for PersistedVerificationRequest"
  end.

Definition invalid_reason (o : outcome) : string :=
  match o with
  | HttpException st d => "Unable to verify persisted evidence: " +:+ str_of_Z st +:+ ": " +:+ d
  | Escaped e =>
      match exn_cls e with
      | RepositoryUnavailableError | SecurityViolation => exn_msg e
      | ValidationError => "Input validation failed: " +:+ exn_msg e
      | _ => "Unable to verify persisted evidence: " +:+ exn_msg e
      end
  end.

Definition check_persisted (payload : list (string * pyval)) : handler PersistedVerificationResponse :=
  model ← lift_result (verification_request payload);
  _ ← _service_or_503;
  in_world (verify_persisted_ (model_dump model)).

(** Every exception becomes a reply. *)
Definition verify_body_ (payload : list (string * pyval)) : handler verify_reply := fun s =>
  match check_persisted payload s with
  | (inl v, s) => (inl (inl v), s)
  | (inr o, s) => (inl (inr (invalid_reason o)), s)
  end.

Definition verify (r : http_request) : handler verify_reply :=
  payload ← admitted r;
  verify_body_ payload.

(** ** Training data *)

Definition training_errors (fallback : string) (e : option exn) : Z * string :=
  match e with
  | Some e => if bool_decide (exn_cls e = RepositoryUnavailableError) then (503, exn_msg e) else (500, fallback)
  | None => (500, fallback)
  end.

Definition check_limit (limit : Z) : handler unit :=
  if (limit <? 1) || (limit >? 10000) then http_raise 400 "limit must be between 1 and 10000" else ends (inl tt).

Definition training_dataset (limit : Z) (r : http_request) : handler VerifiedDatasetExport :=
  _ ← _require_api_key r;
  _ ← check_limit limit;
  try_except false (training_errors "Unable to export verified training dataset")
    (_ ← _training_service_or_503; in_world (export_dataset_ limit)).

Definition training_moat {F} `{!PyFloat F} (measured_at : datetime) (limit : Z) (r : http_request)
    : handler (VerifiedDatasetMoatMetrics (F:=F)) :=
  _ ← _require_api_key r;
  _ ← check_limit limit;
  try_except false (training_errors "Unable to compute moat metrics")
    (_ ← _training_service_or_503;
     dataset ← in_world (export_dataset_ limit);
     ends (inl (compute_moat_metrics measured_at dataset))).

(** ** Status *)

Definition healthz : handler (string * bool) := fun s => (inl ("ok", ap_service s), s).

Definition status_route : handler (string * string * RuntimeSnapshot * bool) := fun s =>
  (inl (Runtime.dashboard (ap_runtime s), ap_service s), s).

Definition dashboard_route
    : handler (string * string * RuntimeSnapshot * bool * option AuditChainVerificationResult) := fun s =>
  let d := (Runtime.dashboard (ap_runtime s), ap_service s) in
  if ap_service s then
    match verify_chain_ (ap_world s) with
    | Ok chain => (inl (d, Some chain), s)
    | Raise e => (inr (Escaped e), s)
    end
  else (inl (d, None), s).

(** The chain metrics are the module's singleton, [cm]. *)
Definition metrics_route {F} `{!PyFloat F} (cm : ChainMetrics (F:=F))
    : handler (metrics_snapshot (F:=F) * list (string * Z) * list ApiKeySnapshot) := fun s =>
  (inl (metrics_report cm, Backpressure.snapshot (ap_queue s), ApiKeys.snapshot (ap_keys s)), s).

Definition runtime_reply (status : string) : handler (string * RuntimeSnapshot) := fun s =>
  (inl (status, _snapshot (ap_runtime s)), s).

Definition start_route : handler (string * RuntimeSnapshot) :=
  _ ← _service_or_503;
  _ ← on_runtime Runtime.start;
  runtime_reply "started".

Definition stop_route : handler (string * RuntimeSnapshot) :=
  _ ← on_runtime Runtime.stop;
  runtime_reply "stopped".
End routes.
