(* ===== verification/RoutesProps.v ===== *)
(** * The HTTP routes: the theorems

    What a request must have been through when it is answered, what a failed
    one leaves behind, and which errors reach the client as what. *)
From S2P Require Export Routes.

Local Open Scope Z_scope.

(** ** Running a handler *)

Section handlers.
Context {W : Type}.

Lemma handler_bind_ok {A B} (m : handler (W:=W) A) (f : A → handler B) s b s' :
  (m ≫= f) s = (inl b, s') ↔ ∃ a s1, m s = (inl a, s1) ∧ f a s1 = (inl b, s').
Proof.
  unfold mbind, handler_bind. destruct (m s) as [[a|o] s1]; split.
  - eauto.
  - by intros (? & ? & [= <- <-] & ?).
  - done.
  - by intros (? & ? & ? & ?).
Qed.

Lemma try_except_ok {A} thr f (m : handler (W:=W) A) s a s' :
  try_except thr f m s = (inl a, s') ↔ m s = (inl a, s').
Proof.
  unfold try_except. destruct (m s) as [[a'|[st d|e]] s1]; [done| |]; (split; [|done]).
  - destruct thr; [done|]. by destruct (f None).
  - by destruct (f (Some e)).
Qed.

(** [m] ends with the in-flight guard it found. *)
Definition keeps_queue {A} (m : handler (W:=W) A) : Prop := ∀ s, ap_queue (m s).2 = ap_queue s.

Lemma keeps_bind {A B} (m : handler (W:=W) A) (f : A → handler B) :
  keeps_queue m → (∀ a, keeps_queue (f a)) → keeps_queue (m ≫= f).
Proof.
  intros Hm Hf s. unfold mbind, handler_bind. specialize (Hm s). destruct (m s) as [[a|o] s1]; [|exact Hm].
  rewrite (Hf a s1). exact Hm.
Qed.

Lemma keeps_ends {A} (x : A + outcome) : keeps_queue (ends x).
Proof. done. Qed.
Lemma keeps_raise {A} st d : keeps_queue (http_raise (A:=A) st d).
Proof. done. Qed.
Lemma keeps_lift {A} (r : result A) : keeps_queue (lift_result r).
Proof. by intros s; destruct r. Qed.
Lemma keeps_service : keeps_queue _service_or_503.
Proof. intros s. unfold _service_or_503. by destruct (ap_service s). Qed.
Lemma keeps_in_world {A} (f : W → result A * W) : keeps_queue (in_world f).
Proof. intros s. unfold in_world. by destruct (f (ap_world s)) as [[a|e] w]. Qed.
Lemma keeps_runtime f : keeps_queue (on_runtime f).
Proof. done. Qed.
Lemma keeps_submit ch r w th : keeps_queue (submit ch r w th).
Proof. intros s. unfold submit. by destruct (submit_check _ _ _ _ _ _ _ _) as [[id [j|]]|e]. Qed.

Lemma keeps_api_key r : keeps_queue (_require_api_key r).
Proof.
  intros s. unfold _require_api_key. destruct (negb _); [done|]. destruct (hr_api_key r) as [[|c k]|]; [done| |done].
  by destruct (authenticate (hr_today r) (String c k) (ap_keys s)) as [[rec|] ks].
Qed.

Lemma keeps_rate r : keeps_queue (check_rate r).
Proof. intros s. unfold check_rate. destruct (allow _ _ _) as [res l]. by destruct (allowed res). Qed.

Lemma keeps_try {A} thr f (m : handler (W:=W) A) : keeps_queue m → keeps_queue (try_except thr f m).
Proof.
  intros Hm s. specialize (Hm s). unfold try_except. destruct (m s) as [[a|[st d|e]] s1]; [exact Hm| |].
  - destruct thr; [exact Hm|]. by destruct (f None).
  - by destruct (f (Some e)).
Qed.
End handlers.

#[local] Hint Resolve keeps_bind keeps_ends keeps_raise keeps_lift keeps_service keeps_in_world keeps_runtime
  keeps_submit keeps_api_key keeps_rate keeps_try : keeps.

Section handlers.
Context {W : Type}.

Lemma keeps_admitted r : keeps_queue (W:=W) (admitted r).
Proof. unfold admitted. auto 8 with keeps. Qed.

(** A guarded body gives its slot back, whatever it ends with. *)
Lemma guarded_depth {A} (m : handler (W:=W) A) s :
  keeps_queue m → 0 ≤ _current (ap_queue s) → _current (ap_queue (guarded m s).2) = _current (ap_queue s).
Proof.
  intros Hm H0. unfold guarded, acquire. destruct (Z.leb_spec (_max (ap_queue s)) (_current (ap_queue s))); [done|].
  match goal with |- context [m ?s0] => pose proof (Hm s0) as Hq; destruct (m s0) as [x s1] end.
  cbn [snd ap_queue] in Hq |- *. rewrite Hq. unfold release. cbn [_current]. lia.
Qed.

Lemma guarded_ok {A} (m : handler (W:=W) A) s a s' :
  guarded m s = (inl a, s') →
  ∃ s0 s1, (acquire (ap_queue s)).1 = Ok tt ∧ m s0 = (inl a, s1) ∧
    s0 = mkApplication (ap_limiter s) (acquire (ap_queue s)).2 (ap_keys s) (ap_runtime s) (ap_tasks s) (ap_jobs s)
           (ap_service s) (ap_training s) (ap_world s) ∧
    s' = mkApplication (ap_limiter s1) (release (ap_queue s1)) (ap_keys s1) (ap_runtime s1) (ap_tasks s1) (ap_jobs s1)
           (ap_service s1) (ap_training s1) (ap_world s1).
Proof.
  unfold guarded. destruct (acquire (ap_queue s)) as [[[]|e] g]; [|done].
  match goal with |- context [m ?s0] => destruct (m s0) as [x s1] eqn:E end.
  intros [= -> <-]. eauto 8.
Qed.

(** ** Admission *)

(** The key of a request is registered, or none is. *)
Definition authenticated (r : http_request) (keys : ApiKeyStore) : Prop :=
  is_enabled keys = true → ∃ key rec, hr_api_key r = Some key ∧ key ≠ "" ∧ dict_get (sha256_hex key) keys = Some rec.

Lemma admitted_ok r (s : application (W:=W)) payload s' :
  admitted r s = (inl payload, s') →
  authenticated r (ap_keys s) ∧ allowed (allow (hr_ticks r) (_client_key r) (ap_limiter s)).1 = true ∧
  _load_json_payload r = inl payload ∧ ap_queue s' = ap_queue s ∧ ap_world s' = ap_world s ∧
  ap_service s' = ap_service s ∧ ap_runtime s' = ap_runtime s ∧ ap_tasks s' = ap_tasks s ∧
  ap_jobs s' = ap_jobs s ∧ ap_limiter s' = (allow (hr_ticks r) (_client_key r) (ap_limiter s)).2.
Proof.
  unfold admitted. rewrite handler_bind_ok. intros ([] & s1 & H1 & H). apply handler_bind_ok in H as ([] & s2 & H2 & H3).
  assert (authenticated r (ap_keys s) ∧ ∃ k, s1 = with_keys k s) as [Ha [k ->]].
  { clear -H1. unfold _require_api_key in H1. unfold authenticated.
    destruct (is_enabled (ap_keys s)); cbn [negb] in H1.
    - destruct (hr_api_key r) as [[|c key]|]; [done| |done]. unfold authenticate in H1.
      destruct (dict_get (sha256_hex (String c key)) (ap_keys s)) as [rec|] eqn:E; [|done].
      injection H1 as <-. eauto 10.
    - injection H1 as <-. split; [done|]. exists (ap_keys s). by destruct s. }
  unfold check_rate in H2. cbn [with_keys ap_limiter] in H2.
  destruct (allow (hr_ticks r) (_client_key r) (ap_limiter s)) as [res l]. cbn [fst snd].
  destruct (allowed res); [|done]. injection H2 as <-. injection H3 as -> <-. repeat split; done || exact Ha.
Qed.
End handlers.

Section replies.
Context {W : Type}.

Lemma admitted_intro r (s : application (W:=W)) payload :
  authenticated r (ap_keys s) → allowed (allow (hr_ticks r) (_client_key r) (ap_limiter s)).1 = true →
  _load_json_payload r = inl payload → ∃ s', admitted r s = (inl payload, s').
Proof.
  intros Ha Hl Hp. unfold admitted.
  assert (∃ k, _require_api_key r s = (inl tt, with_keys k s)) as [k Hk].
  { unfold _require_api_key, authenticated in *. destruct (is_enabled (ap_keys s)); cbn [negb].
    - destruct (Ha eq_refl) as (key & rec & -> & Hne & Hg). destruct key as [|c key]; [done|].
      unfold authenticate. rewrite Hg. eauto.
    - exists (ap_keys s). by destruct s. }
  exists (mkApplication (allow (hr_ticks r) (_client_key r) (ap_limiter s)).2 (ap_queue s) k (ap_runtime s) (ap_tasks s)
    (ap_jobs s) (ap_service s) (ap_training s) (ap_world s)).
  unfold mbind, handler_bind. rewrite Hk. unfold check_rate. cbn [with_keys ap_limiter].
  destruct (allow (hr_ticks r) (_client_key r) (ap_limiter s)) as [res l]. cbn [fst snd] in *.
  rewrite Hl. unfold ends. rewrite Hp. reflexivity.
Qed.

(** What a slot costs. *)
Lemma acquire_iff g : (acquire g).1 = Ok tt ↔ _current g < _max g.
Proof. unfold acquire. destruct (Z.leb_spec (_max g) (_current g)); cbn [fst]; split; done || lia. Qed.

(** When [/calculate] answers with the calculation [p], leaving the services in [w]. *)
Record calculated (coerce_int : pyval → option Z)
    (calculate_and_persist : list (string * pyval) → W → result PersistedCalculationResponse * W)
    (r : http_request) (s : application (W:=W)) (p : PersistedCalculationResponse) (w : W) : Prop := {
  ca_key : authenticated r (ap_keys s);
  ca_rate : allowed (allow (hr_ticks r) (_client_key r) (ap_limiter s)).1 = true;
  ca_slot : _current (ap_queue s) < _max (ap_queue s);
  ca_service : ap_service s = true;
  ca_persisted : ∃ payload q, _load_json_payload r = inl payload ∧ model_validate coerce_int payload = Ok q ∧
    calculate_and_persist (model_dump q) (ap_world s) = (Ok p, w) }.

Definition reply_of (p : PersistedCalculationResponse) : calculate_reply :=
  mkCalculateReply p (integrity_hash (integrity (pc_response p))) "persisted".

Lemma calculate_sound coerce_int cp r (s : application (W:=W)) reply s' :
  calculate coerce_int cp r s = (inl reply, s') →
  ∃ p, calculated coerce_int cp r s p (ap_world s') ∧ reply = reply_of p ∧
    ap_runtime s' = record_response (hr_now r) (pc_response p) (audit_hash_of p) "ok" (ap_runtime s).
Proof.
  unfold calculate. intros (payload & s1 & H1 & H)%handler_bind_ok.
  apply admitted_ok in H1 as (Ha & Hr & Hp & Hq & Hw & Hs & Hrt & _).
  apply try_except_ok, guarded_ok in H as (s2 & s3 & Hg & H & -> & ->).
  apply handler_bind_ok in H as (q & s4 & H4 & H). unfold lift_result in H4.
  destruct (model_validate coerce_int payload) as [q'|e] eqn:Eq; [|done]. injection H4 as <- <-.
  apply handler_bind_ok in H as ([] & s5 & H5 & H). unfold _service_or_503 in H5. cbn [ap_service] in H5.
  destruct (ap_service s1) eqn:Es; [|done]. injection H5 as <-.
  apply handler_bind_ok in H as (p & s6 & H6 & H). unfold in_world in H6. cbn [ap_world] in H6.
  destruct (cp (model_dump q') (ap_world s1)) as [[p'|e] w] eqn:Ep; [|done].
  apply (f_equal fst) in H6 as Hp'. apply (f_equal snd) in H6 as Hs6. cbn [fst snd] in Hp', Hs6.
  injection Hp' as <-. subst s6. clear H6.
  apply handler_bind_ok in H as ([] & s7 & H7 & H). unfold record_persisted, on_runtime in H7.
  apply (f_equal snd) in H7. cbn [snd] in H7. subst s7. unfold ends in H.
  apply (f_equal fst) in H as Hre. apply (f_equal snd) in H as Hst. cbn [fst snd] in Hre, Hst. subst s3. clear H.
  exists p'. cbn [ap_world ap_runtime]. rewrite <-Hrt. split; [|split; [|reflexivity]].
  - split; [exact Ha|exact Hr| |congruence|].
    + apply acquire_iff. by rewrite <-Hq.
    + exists payload, q'. rewrite <-Hw. done.
  - apply (f_equal (fun x => match x with inl y => Some y | inr _ => None end)) in Hre. by injection Hre as <-.
Qed.

Lemma calculate_complete coerce_int cp r (s : application (W:=W)) p w :
  calculated coerce_int cp r s p w → ∃ s', calculate coerce_int cp r s = (inl (reply_of p), s').
Proof.
  intros [Ha Hr Hslot Hs (payload & q & Hp & Hv & Hc)].
  destruct (admitted_intro r s payload Ha Hr Hp) as [s1 H1]. pose proof H1 as Hs1.
  apply admitted_ok in Hs1 as (_ & _ & _ & Hq & Hw & Hs1 & _). apply acquire_iff in Hslot. rewrite <-Hq in Hslot.
  destruct (acquire (ap_queue s1)) as [x g] eqn:Eg. cbn [fst] in Hslot. subst x.
  eexists. unfold calculate. apply handler_bind_ok. exists payload, s1. split; [exact H1|]. apply try_except_ok.
  unfold guarded. rewrite Eg.
  unfold mbind, handler_bind, lift_result. rewrite Hv. unfold _service_or_503. cbn [ap_service].
  rewrite Hs1, Hs. unfold in_world. cbn [ap_world]. rewrite Hw, Hc. reflexivity.
Qed.
End replies.

(** C27: [/calculate] answers exactly the requests that have a registered key when
    keys are enforced, that the rate limiter lets through, that find a free
    slot and a configured database, and whose payload validates and is
    calculated and persisted by the service.  The answer is the service's, its
    evidence is kept, and the runtime's snapshot is updated with it. *)
Theorem calculate_answers {W : Type} coerce_int cp r (s : application (W:=W)) :
  (∀ reply s', calculate coerce_int cp r s = (inl reply, s') →
    ∃ p, calculated coerce_int cp r s p (ap_world s') ∧ reply = reply_of p ∧
      ap_runtime s' = record_response (hr_now r) (pc_response p) (audit_hash_of p) "ok" (ap_runtime s)) ∧
  (∀ p w, calculated coerce_int cp r s p w → ∃ s', calculate coerce_int cp r s = (inl (reply_of p), s')).
Proof. split; [apply calculate_sound|apply calculate_complete]. Qed.

(** ** Errors *)

Definition http_statuses : list Z := [400; 401; 409; 413; 429; 500; 503].

(** A handler returns the slot it took; what it raises is an [HTTPException] of
    a known status, unless it comes from reading the body. *)
Definition contained {W A} (r : http_request) (m : handler (W:=W) A) : Prop := ∀ s,
  0 ≤ _current (ap_queue s) →
  _current (ap_queue (m s).2) = _current (ap_queue s) ∧
  match (m s).1 with
  | inl _ => True
  | inr (HttpException st _) => st ∈ http_statuses
  | inr (Escaped e) => _load_json_payload r = inr (Escaped e)
  end.

(** The same of the part that runs after the body is read. *)
Definition wrapped {W A} (m : handler (W:=W) A) : Prop := ∀ s,
  0 ≤ _current (ap_queue s) →
  _current (ap_queue (m s).2) = _current (ap_queue s) ∧
  match (m s).1 with inl _ => True | inr (HttpException st _) => st ∈ http_statuses | inr (Escaped _) => False end.

Section errors.
Context {W : Type}.

Lemma load_statuses r st d : _load_json_payload r = inr (HttpException st d) → st ∈ http_statuses.
Proof.
  unfold _load_json_payload. intros H. assert (st = 413 ∨ st = 400) as [->| ->]; [|set_solver..].
  repeat (case_match; try discriminate H); injection H as <- _; auto.
Qed.

Lemma admitted_errors r (s : application (W:=W)) :
  match (admitted r s).1 with
  | inl _ => True
  | inr (HttpException st _) => st ∈ http_statuses
  | inr (Escaped e) => _load_json_payload r = inr (Escaped e)
  end.
Proof.
  unfold admitted, mbind, handler_bind, _require_api_key, check_rate, ends.
  destruct (negb (is_enabled (ap_keys s))) eqn:En.
  2: { destruct (hr_api_key r) as [[|c k]|]; [set_solver| |set_solver].
       destruct (authenticate (hr_today r) (String c k) (ap_keys s)) as [[rec|] ks]; [|set_solver].
       destruct (allow _ _ _) as [res l]. destruct (allowed res); [|set_solver]. cbn [fst].
       destruct (_load_json_payload r) as [?|[st d|e]] eqn:E; [done|by eapply load_statuses|done]. }
  destruct (allow _ _ _) as [res l]. destruct (allowed res); [|set_solver]. cbn [fst].
  destruct (_load_json_payload r) as [?|[st d|e]] eqn:E; [done|by eapply load_statuses|done].
Qed.

Lemma contained_admitted {A} r (k : list (string * pyval) → handler (W:=W) A) :
  (∀ payload, wrapped (k payload)) → contained r (admitted r ≫= k).
Proof.
  intros Hk s H0. pose proof (keeps_admitted r s) as Hq. pose proof (admitted_errors r s) as He.
  unfold mbind at 1 2, handler_bind. destruct (admitted r s) as [[payload|o] s1]; cbn [fst snd] in *.
  - specialize (Hk payload s1). rewrite Hq in Hk. specialize (Hk H0) as [H1 H2]. split; [exact H1|].
    by destruct (k payload s1) as [[?|[]] ?].
  - by rewrite Hq.
Qed.

(** The statuses of the [except] clauses. *)
Definition clauses_known (f : option exn → Z * string) : Prop := ∀ e, (f e).1 ∈ http_statuses.

Lemma persist_errors_known fb : clauses_known (persist_errors fb).
Proof. intros [[[] m]|]; cbn; set_solver. Qed.
Lemma prove_errors_known : clauses_known prove_errors.
Proof. intros [[[] m]|]; cbn; set_solver. Qed.

Definition raises_known {A} (m : handler (W:=W) A) : Prop := ∀ s,
  match (m s).1 with inr (HttpException st _) => st ∈ http_statuses | _ => True end.

Lemma try_wrapped {A} thr f (m : handler (W:=W) A) :
  clauses_known f → raises_known m →
  (∀ s, 0 ≤ _current (ap_queue s) → _current (ap_queue (m s).2) = _current (ap_queue s)) → wrapped (try_except thr f m).
Proof.
  intros Hf Hr Hd s H0. specialize (Hr s). specialize (Hd s H0). unfold try_except.
  destruct (m s) as [[a|[st d|e]] s1]; cbn [fst snd] in *; [done| |].
  - destruct thr; [done|]. specialize (Hf None). by destruct (f None).
  - specialize (Hf (Some e)). by destruct (f (Some e)).
Qed.

Lemma known_bind {A B} (m : handler (W:=W) A) (f : A → handler B) :
  raises_known m → (∀ a, raises_known (f a)) → raises_known (m ≫= f).
Proof.
  intros Hm Hf s. unfold mbind, handler_bind. specialize (Hm s). destruct (m s) as [[a|o] s1]; [|exact Hm]. apply Hf.
Qed.

Lemma known_service : raises_known _service_or_503.
Proof. intros s. unfold _service_or_503. destruct (ap_service s); cbn; set_solver. Qed.
Lemma known_lift {A} (x : result A) : raises_known (lift_result x).
Proof. by intros s; destruct x. Qed.
Lemma known_in_world {A} (f : W → result A * W) : raises_known (in_world f).
Proof. intros s. unfold in_world. by destruct (f (ap_world s)) as [[a|e] w]. Qed.
Lemma known_runtime f : raises_known (on_runtime f).
Proof. done. Qed.
Lemma known_ok {A} (a : A) : raises_known (ends (inl a)).
Proof. done. Qed.
Lemma known_submit ch r w th : raises_known (submit ch r w th).
Proof. intros s. unfold submit. by destruct (submit_check _ _ _ _ _ _ _ _) as [[id [j|]]|e]. Qed.

Lemma known_guarded {A} (m : handler (W:=W) A) : raises_known m → raises_known (guarded m).
Proof.
  intros Hm s. unfold guarded. destruct (acquire (ap_queue s)) as [[[]|e] g]; [|done].
  match goal with |- context [m ?s0] => pose proof (Hm s0) as H; by destruct (m s0) as [x s1] end.
Qed.

Lemma depth_bind {A B} (m : handler (W:=W) A) (f : A → handler B) :
  (∀ s, 0 ≤ _current (ap_queue s) → _current (ap_queue (m s).2) = _current (ap_queue s)) →
  (∀ a, keeps_queue (f a)) →
  ∀ s, 0 ≤ _current (ap_queue s) → _current (ap_queue ((m ≫= f) s).2) = _current (ap_queue s).
Proof.
  intros Hm Hf s H0. specialize (Hm s H0). unfold mbind, handler_bind. destruct (m s) as [[a|o] s1]; [|exact Hm].
  by rewrite (Hf a s1).
Qed.
End errors.

#[local] Hint Resolve known_bind known_service known_lift known_in_world known_runtime known_ok known_submit
  known_guarded persist_errors_known prove_errors_known : keeps.

(** C26: whatever happens to a [/calculate], [/prove], [/run] or [/verify] request,
    the slot it took is given back, and what the client sees is a reply or an
    [HTTPException] of one of seven statuses; the only exceptions that leave a
    handler are those of reading the body. *)
Theorem requests_contained {W : Type} coerce_int rules ch cp vp r :
  contained r (calculate (W:=W) coerce_int cp r) ∧ contained r (prove (W:=W) coerce_int rules ch r) ∧
  contained r (run (W:=W) cp r) ∧ contained r (verify (W:=W) coerce_int vp r).
Proof.
  split; [|split; [|split]]; apply contained_admitted; intros payload.
  - unfold record_persisted. apply try_wrapped; [auto with keeps|auto 12 with keeps|]. intros s. apply guarded_depth.
    auto 12 with keeps.
  - apply try_wrapped; [auto with keeps|auto 10 with keeps|]. intros s. apply guarded_depth.
    auto 10 with keeps.
  - destruct payload as [|p payload]; [intros s _; cbn; split; [done|set_solver]|].
    apply try_wrapped; [auto with keeps|unfold record_persisted; auto 10 with keeps|]. apply depth_bind.
    + intros s. apply guarded_depth. auto with keeps.
    + intros a. unfold record_persisted. auto with keeps.
  - intros s H0. unfold verify_body_. assert (keeps_queue (check_persisted (W:=W) coerce_int vp payload)) as Hk.
    { unfold check_persisted. auto with keeps. }
    specialize (Hk s). destruct (check_persisted coerce_int vp payload s) as [[v|o] s1]; cbn [fst snd] in *; by rewrite Hk.
Qed.

(** ** Floats *)

Definition float_refusal : exn := Exn SecurityViolation "Floating point values are not allowed".

Lemma unit_fmap_error {A} (x : result A) e : (fun _ => tt) <$> x = Raise e → x = Raise e.
Proof. destruct x; [done|]. cbn. by intros [= ->]. Qed.

Lemma guard_str_error s : guard_str s ≠ Raise float_refusal.
Proof. unfold guard_str. by repeat case_match. Qed.

Lemma walk_items {A} (f : A → result unit) l n m :
  (∀ x, x ∈ l → f x ≠ Raise float_refusal) → m ≠ float_refusal →
  (if Z.of_nat n >? MAX_COLLECTION_ITEMS then Raise m else (fun _ => tt) <$> traverse Datatypes.id (map f l)) ≠
    Raise float_refusal.
Proof.
  intros Hf Hm H. case_match; [congruence|]. apply unit_fmap_error in H. rewrite traverse_map in H.
  apply traverse_raise_inv in H as (x & Hx & H). by apply (Hf x).
Qed.

Lemma walk_float_free v : float_free v = true → walk v ≠ Raise float_refusal.
Proof.
  induction v as [|b|z|t|d|t|t|t|s|l IH|l IH|l IH|l IH|l] using pyval_rect_nested; cbn [float_free walk]; intros Hf;
    try done; try rewrite forallb_forall in Hf; try rewrite Forall_forall in IH.
  - apply guard_str_error.
  - apply walk_items; [|done]. intros p Hp H. apply bind_raise in H as [H|(u & _ & H)]; [by apply guard_str_error in H|].
    apply list_elem_of_In in Hp as Hin. by apply (IH p Hp (Hf p Hin)).
  - apply walk_items; [|done]. intros x Hx. apply list_elem_of_In in Hx as Hin. by apply IH, Hf.
  - apply walk_items; [|done]. intros x Hx. apply list_elem_of_In in Hx as Hin. by apply IH, Hf.
  - apply walk_items; [|done]. intros x _. apply guard_str_error.
Qed.

Lemma guards_float v : float_free v = false → enforce_payload_guards v = Raise float_error.
Proof.
  intros Hf. unfold enforce_payload_guards, canonical_payload. rewrite canonicalize_cases, Hf. reflexivity.
Qed.

(** The guards' refusal of floats is unreachable.  Serializing comes first and
    raises a [TypeError], so that a body with [NaN] or [Infinity] is not
    refused with a 400: the exception leaves the handler. *)
Theorem float_refusal_unreachable (r : http_request) (text : string) (j : json) (p : list (string * pyval)) :
  0 < hr_body_bytes r ≤ MAX_REQUEST_BYTES → hr_body_text r = Some text → json_loads text = Some j →
  to_payload j = Ok (PDict p) →
  enforce_payload_guards (PDict p) ≠ Raise float_refusal ∧
  (float_free (PDict p) = false → _load_json_payload r = inr (Escaped float_error)).
Proof.
  intros Hb Ht Hj Hp. split.
  - intros H. destruct (float_free (PDict p)) eqn:Hf; [|by rewrite guards_float in H].
    unfold enforce_payload_guards in H. rewrite canonical_payload_free in H by done. cbn [mbind result_bind] in H.
    case_match; [discriminate H|]. by apply walk_float_free in H.
  - intros Hf. unfold _load_json_payload. rewrite Ht, Hj, Hp, guards_float by done.
    destruct (Z.gtb_spec (hr_body_bytes r) MAX_REQUEST_BYTES); [lia|].
    destruct (Z.eqb_spec (hr_body_bytes r) 0); [lia|]. reflexivity.
Qed.

(** ** A missing database *)

(** Without a database, a valid request gets a different answer from every
    route: 503 from [/calculate], 500 from [/run], whose last [except] clause
    also catches the [HTTPException], and a 200 that says the evidence is
    invalid from [/verify]. *)
Theorem missing_database {W : Type} coerce_int cp vp r (s s1 : application (W:=W)) payload q d q' :
  ap_service s = false → _current (ap_queue s) < _max (ap_queue s) →
  admitted r s = (inl payload, s1) → payload ≠ [] →
  (model_validate coerce_int payload = Ok q →
    (calculate coerce_int cp r s).1 = inr (HttpException 503 "Database evidence repository is not configured")) ∧
  (run cp r s).1 = inr (HttpException 500 "Unable to run deterministic calculation") ∧
  (payload = [("request", PDict d)] → model_validate coerce_int d = Ok q' →
    (verify coerce_int vp r s).1 = inl (inr
      "Unable to verify persisted evidence: 503: Database evidence repository is not configured")).
Proof.
  intros Hs Hc Ha Hne. pose proof Ha as H. apply admitted_ok in H as (_ & _ & _ & Hq & _ & Hs1 & _).
  rewrite Hs in Hs1. apply acquire_iff in Hc. rewrite <-Hq in Hc.
  destruct (acquire (ap_queue s1)) as [x g] eqn:Eg. cbn [fst] in Hc. subst x.
  split; [|split].
  - intros Hv. unfold calculate, mbind, handler_bind. rewrite Ha. unfold try_except, guarded. rewrite Eg.
    unfold lift_result. rewrite Hv. unfold _service_or_503. cbn [ap_service]. rewrite Hs1. reflexivity.
  - unfold run, mbind, handler_bind. rewrite Ha. destruct payload as [|kv payload]; [done|].
    unfold try_except, guarded. rewrite Eg. unfold _service_or_503. cbn [ap_service]. rewrite Hs1. reflexivity.
  - intros -> Hv. unfold verify, mbind, handler_bind. rewrite Ha. unfold verify_body_, check_persisted, mbind, handler_bind.
    change (verification_request coerce_int [("request", PDict d)]) with (model_validate coerce_int d).
    unfold lift_result. rewrite Hv.
    unfold _service_or_503. rewrite Hs1. reflexivity.
Qed.

(** ** Proving *)

Section proving.
Context {W : Type}.

(** What a [/prove] answer comes from. *)
Lemma prove_submits coerce_int rules ch r (s s' : application (W:=W)) reply :
  prove coerce_int rules ch r s = (inl reply, s') →
  ∃ w (s1 s2 : application (W:=W)), submit ch r w (pr_trace_hash reply) s1 = (inl (pr_task_id reply), s2) ∧
    ap_tasks s1 = ap_tasks s ∧ ap_jobs s1 = ap_jobs s ∧ ap_tasks s2 = ap_tasks s' ∧ ap_jobs s2 = ap_jobs s'.
Proof.
  unfold prove. intros (payload & s1 & H1 & H)%handler_bind_ok.
  apply admitted_ok in H1 as (_ & _ & _ & _ & _ & _ & _ & Ht & Hj & _).
  apply try_except_ok, guarded_ok in H as (s2 & s3 & _ & H & -> & ->). rewrite <-Ht, <-Hj. clear Ht Hj.
  apply handler_bind_ok in H as ([] & s4 & H4 & H). unfold _service_or_503 in H4. cbn [ap_service] in H4.
  destruct (ap_service s1); [|done]. injection H4 as <-.
  apply handler_bind_ok in H as (packet & s5 & H5 & H). unfold lift_result in H5.
  destruct (build_trace_packet coerce_int rules payload "backend_integration" 1) as [packet'|e]; [|done].
  injection H5 as -> <-.
  apply handler_bind_ok in H as (id & s6 & H6 & H). unfold ends in H. injection H as <- <-.
  cbn [pr_task_id pr_trace_hash ap_tasks ap_jobs]. exists (witness_artifact packet). eexists _, s6.
  split; [exact H6|]. done.
Qed.

Lemma submit_task ch r w th (s s' : application (W:=W)) id :
  submit ch r w th s = (inl id, s') →
  (is_active (get_task id (ap_tasks s)) = true ∧ ap_tasks s' = ap_tasks s ∧ ap_jobs s' = ap_jobs s) ∨
  (is_active (get_task id (ap_tasks s)) = false ∧ ∃ j, ap_tasks s' = ap_tasks s ++ [jb_task j] ∧
     ap_jobs s' = ap_jobs s ++ [j] ∧ pt_trace_hash (jb_task j) = th ∧ pt_status (jb_task j) = Pending ∧
     pt_task_id (jb_task j) = id).
Proof.
  unfold submit, submit_check, get_task. destruct (proof_task_id _ _ _ _ _) as [id'|e]; [|done]. cbn [mbind result_bind].
  destruct (is_active (_latest_for id' (ap_tasks s))) eqn:Ea; intros H.
  - injection H as <- <-. auto.
  - apply (f_equal fst) in H as Hid. apply (f_equal snd) in H as Hs'. cbn [fst snd] in Hid, Hs'. clear H.
    injection Hid as <-. subst s'. right. split; [exact Ea|]. eexists. repeat split; reflexivity.
Qed.
End proving.

(** A request that [/prove] accepts can be polled at once: its task is in the
    queue under the name returned and has not failed.  A request repeated
    while its task is alive adds none; otherwise one job is added, pending,
    for the trace hash of the answer. *)
Theorem proving_can_be_polled {W : Type} coerce_int rules ch r (s s' : application (W:=W)) reply :
  prove coerce_int rules ch r s = (inl reply, s') →
  (∃ t, get_task (pr_task_id reply) (ap_tasks s') = Some t ∧ pt_status t ≠ Failed) ∧
  (is_active (get_task (pr_task_id reply) (ap_tasks s)) = true → ap_jobs s' = ap_jobs s) ∧
  (is_active (get_task (pr_task_id reply) (ap_tasks s)) = false →
    ∃ j, ap_tasks s' = ap_tasks s ++ [jb_task j] ∧ ap_jobs s' = ap_jobs s ++ [j] ∧
      pt_trace_hash (jb_task j) = pr_trace_hash reply ∧ pt_status (jb_task j) = Pending).
Proof.
  intros (w & s1 & s2 & H & Ht & Hj & Ht' & Hj')%prove_submits. apply submit_task in H as [(Ha & H1 & H2)|(Ha & j & H1 & H2 & H3 & H4 & H5)];
    rewrite Ht in *; rewrite Hj in *; rewrite Ht' in *; rewrite Hj' in *; rewrite Ha.
  - split; [|split; done]. rewrite H1. unfold is_active in Ha.
    destruct (get_task (pr_task_id reply) (ap_tasks s)) as [t|]; [|done]. exists t. split; [done|].
    intros Hf. by rewrite bool_decide_eq_true_2 in Ha.
  - split; [|split; [done|]]; [|intros _; exists j; done]. exists (jb_task j). rewrite H1. unfold get_task.
    rewrite latest_snoc, H5, String.eqb_refl, H4. done.
Qed.

(** ** Witnesses *)

Definition sample_http (j : json) : http_request :=
  let text := json_print j in
  mkHttpRequest (Some "10.0.0.1") None (Z.of_nat (String.length text)) (Some text) (1700000000 * SECOND) "2024-01-01"
    "2024-01-01T00:00:00+00:00".

Definition sample_application (service : bool) : application (W:=unit) :=
  mkApplication (mkRateLimiter 60 60 ∅) (mkGuard 200 0 0 0) [] new_controller [] [] service false tt.

Definition reference_json : json :=
  JObj [("hs_code", JStr "8507600000"); ("country_of_origin", JStr "CN"); ("customs_value", JFloat "1200.00");
        ("freight", JFloat "150.00"); ("insurance", JFloat "25.00"); ("quantity", JInt 2); ("shipping_mode", JStr "ocean")].

Definition no_service {A} : list (string * pyval) → unit → result A * unit :=
  fun _ w => (raise RepositoryUnavailableError "unavailable", w).

Example float_refusal_unreachable_witness :
  let j := JObj [("a", JFloat "NaN")] in
  enforce_payload_guards (PDict [("a", PFloat "NaN")]) ≠ Raise float_refusal ∧
  (float_free (PDict [("a", PFloat "NaN")]) = false → _load_json_payload (sample_http j) = inr (Escaped float_error)).
Proof.
  apply (float_refusal_unreachable (sample_http (JObj [("a", JFloat "NaN")])) (json_print (JObj [("a", JFloat "NaN")]))
    (JObj [("a", JFloat "NaN")])); [vm_compute; split; congruence|reflexivity|vm_compute; reflexivity|vm_compute; reflexivity].
Defined.

Example missing_database_witness :
  let s := sample_application false in
  let r := sample_http reference_json in
  (calculate coerce_plain no_service r s).1 =
    inr (HttpException 503 "Database evidence repository is not configured") ∧
  (run no_service r s).1 = inr (HttpException 500 "Unable to run deterministic calculation").
Proof.
  destruct (admitted (sample_http reference_json) (sample_application false)) as [[payload|o] s1] eqn:E;
    [|exfalso; vm_compute in E; discriminate E].
  destruct (model_validate coerce_plain payload) as [q|e] eqn:Eq;
    [|exfalso; vm_compute in E; injection E as <- <-; vm_compute in Eq; discriminate Eq].
  assert (payload ≠ []) as Hne by (intros ->; vm_compute in E; discriminate E).
  destruct (missing_database coerce_plain no_service no_service (sample_http reference_json) (sample_application false)
    s1 payload q [] q eq_refl eq_refl E Hne) as (H1 & H2 & _).
  split; [exact (H1 Eq)|exact H2].
Defined.

Example proving_can_be_polled_witness :
  match prove coerce_plain TARIFF_RULES "c" (sample_http reference_json) (sample_application true) with
  | (inl reply, s') => ∃ t, get_task (pr_task_id reply) (ap_tasks s') = Some t ∧ pt_status t ≠ Failed
  | _ => False
  end.
Proof.
  destruct (prove coerce_plain TARIFF_RULES "c" (sample_http reference_json) (sample_application true))
    as [[reply|o] s'] eqn:E; [|vm_compute in E; discriminate E].
  destruct (proving_can_be_polled coerce_plain TARIFF_RULES "c" _ _ _ _ E) as (H & _). exact H.
Defined.
