(* ===== verification/OtherCircuits.v ===== *)
(** * The other circuits (zk/circuits/, zk/witness/)

    Besides the landed cost, three circuits have a blueprint and a generator of
    wire assignments: sanctions screening, drug dosage, and the classification
    of contract clauses.  Each generator's module repeats the conversions of
    zk/witness/generator.py, which are those of Plonk here. *)
From S2P Require Export PlonkProps Tasks.

Local Open Scope Z_scope.

(** ** Blueprints *)

Definition aml_circuit_blueprint : CircuitBlueprint :=
  mkBlueprint "aml_sanctions_screening_v1"
    "Privacy-preserving AML/sanctions screening circuit that proves a name was screened and cleared without revealing the name."
    ["sanctions_root"; "screening_result"; "screening_id"] ["name"; "name_normalized"; "screening_timestamp"] "Plonk"
    [constraint_spec "canonical_name_hash" "Hash the private name to produce a deterministic name_hash binding."
       ["name"; "name_normalized"] ["name_hash"];
     constraint_spec "name_hash_commitment" "Bind name_hash to a public commitment preventing substitution."
       ["name_hash"] ["name_hash_commitment"];
     constraint_spec "sanctions_set_membership" "Check name_hash against the sanctions list Merkle root."
       ["name_hash"; "sanctions_root"] ["membership_result"];
     constraint_spec "result_binding" "Bind the screening result to the proof." ["membership_result"] ["screening_result"];
     constraint_spec "cleared_flag" "Assert screening_result is 0 if cleared, or record flag if hit."
       ["screening_result"] ["cleared_flag"];
     constraint_spec "audit_timestamp_hash" "Bind current timestamp hash to the proof for replay protection."
       ["screening_timestamp"] ["timestamp_hash"];
     constraint_spec "screening_id_hash" "Produce unique screening_id from name_hash, sanctions_root, and timestamp."
       ["name_hash"; "sanctions_root"; "timestamp_hash"] ["screening_id"]].

Definition dosage_circuit_blueprint : CircuitBlueprint :=
  mkBlueprint "drug_dosage_verification_v1"
    "Healthcare circuit that proves a drug dosage recommendation was computed correctly using FDA-approved formulas without revealing patient identity."
    ["fda_dataset_hash"; "recommended_dose_mg"; "dose_frequency_hours"; "patient_hash"]
    ["patient_weight_kg"; "creatinine_clearance_ml_min"; "patient_age_years"; "drug_id"] "Plonk"
    [constraint_spec "patient_hash" "Hash private patient identifiers to produce patient_hash for PHI binding."
       ["patient_weight_kg"; "creatinine_clearance_ml_min"; "patient_age_years"] ["patient_hash"];
     constraint_spec "renal_adjustment_factor" "Compute creatinine clearance-based dose adjustment factor."
       ["creatinine_clearance_ml_min"] ["adjustment_factor"];
     constraint_spec "weight_based_dose" "Compute weight-adjusted base dose using standard dosing table."
       ["patient_weight_kg"] ["base_dose_mg"];
     constraint_spec "age_adjustment" "Apply age-based dose modifier." ["patient_age_years"] ["age_factor"];
     constraint_spec "adjusted_dose" "Apply renal and age adjustments to base dose."
       ["base_dose_mg"; "adjustment_factor"; "age_factor"] ["adjusted_dose_mg"];
     constraint_spec "dosing_bounds_check" "Verify result is within FDA-approved dose bounds."
       ["adjusted_dose_mg"] ["bounds_valid"];
     constraint_spec "fda_dataset_commitment" "Bind to signed FDA dataset hash for integrity."
       ["fda_dataset_hash"] ["dataset_binding"];
     constraint_spec "final_dose_hash" "Produce final recommended_dose_mg and hash for integrity."
       ["adjusted_dose_mg"; "dataset_binding"] ["recommended_dose_mg"]].

Definition clause_circuit_blueprint : CircuitBlueprint :=
  mkBlueprint "contract_clause_classification_v1"
    "ZK circuit for proving AI-based contract clause classification without revealing clause text. Proves classification was computed by applying a committed ruleset hash against a committed clause hash."
    ["ruleset_id_hash"; "ai_id"; "classification_result"; "audit_entry_hash"]
    ["clause_text"; "clause_id"; "model_raw_output"] "Plonk"
    [constraint_spec "clause_hash_binding"
       "Hash private clause_text to produce clause_hash, binding the clause to the proof." ["clause_text"] ["clause_hash"];
     constraint_spec "ruleset_commitment"
       "Bind to a specific committed ruleset hash (GDPR_ART9, HIPAA_PHI, SOX_DISCLOSURE, etc.)."
       ["ruleset_id_hash"] ["ruleset_id_hash"];
     constraint_spec "model_output_hash"
       "Hash the AI model's raw classification output to prevent post-hoc modification."
       ["model_raw_output"] ["model_output_hash"];
     constraint_spec "classification_encoding"
       "Encode classification result as field element: HIGH_RISK=3, MEDIUM_RISK=2, LOW_RISK=1, COMPLIANT=0."
       ["classification_result"] ["classification_value"];
     constraint_spec "risk_threshold_check" "Verify that classification_value is within the valid range [0, 3]."
       ["classification_value"] ["risk_check_valid"];
     constraint_spec "ai_id_binding" "Bind the AI model's AI-ID to the proof to prove which model classified the clause."
       ["ai_id"] ["ai_id"];
     constraint_spec "audit_chain_hash" "Bind to an audit chain entry hash for immutable record-keeping."
       ["audit_entry_hash"] ["audit_entry_hash"]].

(** ** Rows *)

(** [verify_gate_constraints] of an assignment of [mult] products and [add] sums. *)
Definition verify_rows (mult add : nat) (a : PlonkAssignment) : result (list bool) :=
  m ← traverse (check_gate true a) (seq 0 mult);
  s ← traverse (check_gate false a) (seq mult add);
  Ok (m ++ s).

Definition aml_verify_gate_constraints : PlonkAssignment → result (list bool) := verify_rows 4 3.
Definition dosage_verify_gate_constraints : PlonkAssignment → result (list bool) := verify_rows 5 3.
Definition clause_verify_gate_constraints : PlonkAssignment → result (list bool) := verify_rows 4 3.

(** [to_fixed_point(int(hex[:16], 16))] *)
Definition prefix_fixed_point (hex_value : string) : result Z :=
  z ← limb_at hex_value 0; to_fixed_point (PInt z).

(** ** zk/witness/aml_witness_generator.py *)

Record AMLWitnessInput := mkAMLInput {
  aml_name : string;
  aml_name_normalized : string;
  aml_sanctions_root : string;
  aml_screening_timestamp : string;
  aml_expected_result : Z }.

Definition aml_wires (name root membership cleared stamp sid : Z) : list (string * Z) :=
  [("name_hash_fp", name); ("sanctions_root_fp", root); ("membership_result_fp", membership);
   ("screening_result_fp", membership); ("cleared_flag_fp", cleared); ("timestamp_hash_fp", stamp);
   ("screening_id_fp", sid); ("one_fp", 1); ("zero_fp", 0)].

Definition build_aml_assignment (w : AMLWitnessInput) : result PlonkAssignment :=
  let name_hash_str := sha256_hex (aml_name w +:+ aml_name_normalized w) in
  name ← prefix_fixed_point name_hash_str;
  root ← prefix_fixed_point (aml_sanctions_root w);
  let timestamp_hash_str := sha256_hex (aml_screening_timestamp w) in
  stamp ← prefix_fixed_point timestamp_hash_str;
  membership ← to_fixed_point (PInt (aml_expected_result w));
  let screening := membership in
  let cleared := (1 - membership) mod FIELD_ORDER in
  let screening_id_str := sha256_hex (name_hash_str +:+ aml_sanctions_root w +:+ timestamp_hash_str) in
  sid ← prefix_fixed_point screening_id_str;
  pih ← canonical_public_inputs_hash
          [("sanctions_root", aml_sanctions_root w); ("screening_result", str_of_Z (aml_expected_result w));
           ("screening_id", screening_id_str)];
  Ok (mkAssignmentCols
        [name; name; membership; screening; screening; stamp; name]
        [root; 1; 1; 1; 0; 0; root]
        [membership; name; screening; screening; cleared; stamp; sid]
        (aml_wires name root membership cleared stamp sid) pih).

(** ** zk/witness/drug_dosage_witness_generator.py *)

Section dosage.
Context {F : Type} `{!PyFloat F}.

(** [min(1.0, x)] and [max(0.1, x)]: the first argument unless the second is
    below, or above, it. *)
Definition compute_renal_adjustment_factor (creatinine_clearance_ml_min : F) : F :=
  let ratio := fdiv creatinine_clearance_ml_min (flit 900 1) in
  let adjustment := if fltb ratio (flit 10 1) then ratio else flit 10 1 in
  if fltb (flit 1 1) adjustment then adjustment else flit 1 1.

Definition compute_age_adjustment_factor (patient_age_years : F) : F :=
  if fltb patient_age_years (flit 18 0) then flit 5 1
  else if fltb (flit 65 0) patient_age_years then flit 85 2
  else flit 10 1.

Definition compute_weight_based_dose (patient_weight_kg : F) : F := fmul (flit 150 1) patient_weight_kg.

Record DrugDosageWitnessInput := mkDosageInput {
  dd_patient_weight_kg : F;
  dd_creatinine_clearance_ml_min : F;
  dd_patient_age_years : F;
  dd_fda_dataset_hash : string;
  dd_drug_id : string;
  dd_dose_frequency_hours : Z }.

(** [to_fixed_point(x)] of a float goes by [str(x)]. *)
Definition float_fixed_point (x : F) : result Z := to_fixed_point (PStr (frepr x)).

Definition dosage_wires (weight creatinine adjustment base age adjusted patient dataset : Z) : list (string * Z) :=
  [("weight_fp", weight); ("creatinine_fp", creatinine); ("adjustment_factor_fp", adjustment);
   ("base_dose_fp", base); ("age_factor_fp", age); ("adjusted_dose_fp", adjusted); ("patient_hash_fp", patient);
   ("fda_dataset_hash_fp", dataset); ("dataset_binding_fp", dataset); ("recommended_dose_fp", adjusted);
   ("one_fp", 1); ("zero_fp", 0)].

Definition build_drug_dosage_assignment (w : DrugDosageWitnessInput) : result PlonkAssignment :=
  let adjustment_factor := compute_renal_adjustment_factor (dd_creatinine_clearance_ml_min w) in
  let age_factor := compute_age_adjustment_factor (dd_patient_age_years w) in
  let base_dose := compute_weight_based_dose (dd_patient_weight_kg w) in
  let adjusted_dose := fmul (fmul base_dose adjustment_factor) age_factor in
  weight ← float_fixed_point (dd_patient_weight_kg w);
  creatinine ← float_fixed_point (dd_creatinine_clearance_ml_min w);
  adjustment ← float_fixed_point adjustment_factor;
  base ← float_fixed_point base_dose;
  age ← float_fixed_point age_factor;
  adjusted ← float_fixed_point adjusted_dose;
  dataset ← prefix_fixed_point (dd_fda_dataset_hash w);
  _ ← to_fixed_point (PInt (dd_dose_frequency_hours w));
  let patient := (weight * creatinine) mod FIELD_ORDER in
  per_kg ← float_fixed_point (flit 150 1);
  let patient_hash_str := sha256_hex (frepr (dd_patient_weight_kg w) +:+ frepr (dd_creatinine_clearance_ml_min w) +:+
                                      frepr (dd_patient_age_years w)) in
  pih ← canonical_public_inputs_hash
          [("fda_dataset_hash", dd_fda_dataset_hash w); ("recommended_dose_mg", frepr adjusted_dose);
           ("dose_frequency_hours", str_of_Z (dd_dose_frequency_hours w)); ("patient_hash", patient_hash_str)];
  ninety ← float_fixed_point (flit 900 1);
  Ok (mkAssignmentCols
        [weight; creatinine; weight; age; base; adjusted; dataset; adjusted]
        [creatinine; ninety; per_kg; 1; adjustment; 0; 0; dataset]
        [patient; adjustment; base; age; adjusted; adjusted; dataset; adjusted]
        (dosage_wires weight creatinine adjustment base age adjusted patient dataset) pih).
End dosage.

Arguments DrugDosageWitnessInput : clear implicits.

(** ** zk/witness/contract_clause_witness_generator.py *)

Definition CLASSIFICATION_ENCODING : list (string * Z) :=
  [("COMPLIANT", 0); ("LOW_RISK", 1); ("MEDIUM_RISK", 2); ("HIGH_RISK", 3)].

Record ContractClauseWitnessInput := mkClauseInput {
  cc_clause_text : string;
  cc_clause_id : string;
  cc_model_raw_output : string;
  cc_classification_result : string;
  cc_ruleset_id_hash : string;
  cc_ai_id : string;
  cc_audit_entry_hash : string }.

(** The four limbs of a hash are a tuple; its first two are used. *)
Definition limb (l : list Z) (i : nat) : Z := nth i l 0.

Definition clause_columns (clause model ruleset audit : list Z) (code : Z) (pih : string) : PlonkAssignment :=
  let value := (code * FIXED_POINT_SCALE) mod FIELD_ORDER in
  let product_0 := (limb clause 0 * limb model 0) mod FIELD_ORDER in
  let product_1 := (limb ruleset 0 * value) mod FIELD_ORDER in
  let product_2 := (limb clause 1 * limb model 1) mod FIELD_ORDER in
  let product_3 := limb audit 0 mod FIELD_ORDER in
  let sum_01 := (product_0 + product_1) mod FIELD_ORDER in
  let sum_23 := (product_2 + product_3) mod FIELD_ORDER in
  let final := (sum_01 + sum_23) mod FIELD_ORDER in
  mkAssignmentCols
    [limb clause 0; limb ruleset 0; limb clause 1; limb audit 0; product_0; product_2; sum_01]
    [limb model 0; value; limb model 1; 1; product_1; product_3; sum_23]
    [product_0; product_1; product_2; product_3; sum_01; sum_23; final]
    [("clause_text", limb clause 0); ("clause_hash", limb clause 0); ("model_raw_output", limb model 0);
     ("model_output_hash", limb model 0); ("classification_code", code); ("classification_value_fp", value);
     ("ruleset_id_hash", limb ruleset 0); ("ai_id", limb audit 0); ("audit_entry_hash", limb audit 0);
     ("product_0_fp", product_0); ("product_1_fp", product_1); ("product_2_fp", product_2);
     ("product_3_fp", product_3); ("sum_01_fp", sum_01); ("sum_23_fp", sum_23);
     ("final_proof_element_fp", final); ("one_fp", 1)]
    pih.

(** [build_instance_values] *)
Definition clause_instance_values (classification_value_fp : Z) (trace_hash circuit_hash public_inputs_hash : string)
    : result (list Z) :=
  t ← hash_hex_to_limbs trace_hash;
  c ← hash_hex_to_limbs circuit_hash;
  p ← hash_hex_to_limbs public_inputs_hash;
  Ok (classification_value_fp :: t ++ c ++ p).

Definition build_contract_clause_assignment (w : ContractClauseWitnessInput) : result PlonkAssignment :=
  match dict_get (cc_classification_result w) CLASSIFICATION_ENCODING with
  | None => raise ValueError "Invalid classification_result: {}. Must be one of: {}"
  | Some classification_code =>
      clause ← hash_hex_to_limbs (sha256_hex (cc_clause_text w));
      model ← hash_hex_to_limbs (sha256_hex (cc_model_raw_output w));
      ruleset ← hash_hex_to_limbs (cc_ruleset_id_hash w);
      audit ← hash_hex_to_limbs (cc_audit_entry_hash w);
      pih ← canonical_public_inputs_hash
              [("ruleset_id_hash", cc_ruleset_id_hash w); ("ai_id", cc_ai_id w);
               ("classification_result", cc_classification_result w); ("audit_entry_hash", cc_audit_entry_hash w)];
      Ok (clause_columns clause model ruleset audit classification_code pih)
  end.

(** ** Fixed point of integers *)

Lemma to_fixed_point_int z :
  0 <= z < 10 ^ 22 → to_fixed_point (PInt z) = Ok ((z * 10 ^ 6) mod FIELD_ORDER).
Proof.
  intros Hz. assert (PREC = 10 ^ 22 * 10 ^ 6) as HP by reflexivity.
  unfold to_fixed_point. cbn [py_str mbind option_bind].
  rewrite decimal_of_int_text by (lia || apply small_exp_ok; lia).
  unfold fixed_point_of, scale_decimal, dec_mul, decimal_of_int.
  change (FIXED_POINT_SCALE <? 0) with false. change (Z.abs FIXED_POINT_SCALE) with (10 ^ 6).
  unfold context_round. destruct (Z.ltb_spec (z * 10 ^ 6) PREC); [|lia]. cbn [mbind result_bind].
  unfold to_integral_half_up. change (0 + 0 >=? 0) with true. cbn iota.
  unfold int_of_decimal. change (0 + 0 >=? 0) with true. cbn iota. cbn [mbind result_bind xorb signed].
  change (0 + 0) with 0. by rewrite Z.pow_0_r, Z.mul_1_r.
Qed.

Lemma prefix_fixed_point_hash s :
  hash_wf s → ∃ z, 0 <= z < 2 ^ 64 ∧ limb_at s 0 = Ok z ∧
    prefix_fixed_point s = Ok ((z * 10 ^ 6) mod FIELD_ORDER).
Proof.
  intros Hs. destruct (limb_value s 0 Hs ltac:(lia)) as (E & Hl & Hlow).
  pose proof (hex_num_bounds 0 _ ltac:(lia) Hlow) as Hb. rewrite Hl in Hb. change (Z.of_nat 16) with 16 in Hb.
  eexists. split; [exact Hb|]. split; [exact E|]. unfold prefix_fixed_point. rewrite E. cbn [mbind result_bind].
  apply to_fixed_point_int. assert (2 ^ 64 < 10 ^ 22) by reflexivity. change (2 ^ 64) with ((0 + 1) * 16 ^ 16) in H. lia.
Qed.

(** ** Rows that always hold *)

Lemma row_product x y : (x * y - (x * y) mod FIELD_ORDER) mod FIELD_ORDER =? 0 = true.
Proof. apply mod_zero_iff. rewrite mod_eq_mod. apply mod_eq_refl_eq. lia. Qed.
Lemma row_sum x y : (x + y - (x + y) mod FIELD_ORDER) mod FIELD_ORDER =? 0 = true.
Proof. apply mod_zero_iff. rewrite mod_eq_mod. apply mod_eq_refl_eq. lia. Qed.
Lemma row_copy x : (x * 1 - x) mod FIELD_ORDER =? 0 = true.
Proof. apply mod_zero_iff, mod_eq_refl_eq. lia. Qed.
Lemma row_copy_mod x : (x * 1 - x mod FIELD_ORDER) mod FIELD_ORDER =? 0 = true.
Proof. apply mod_zero_iff. rewrite mod_eq_mod. apply mod_eq_refl_eq. lia. Qed.
Lemma row_zero x : (x + 0 - x) mod FIELD_ORDER =? 0 = true.
Proof. apply mod_zero_iff, mod_eq_refl_eq. lia. Qed.

Lemma row_add_self x z :
  0 <= z < 2 ^ 64 → ((x + (z * 10 ^ 6) mod FIELD_ORDER - x) mod FIELD_ORDER =? 0) = (z =? 0).
Proof.
  intros Hz. replace (x + (z * 10 ^ 6) mod FIELD_ORDER - x) with ((z * 10 ^ 6) mod FIELD_ORDER) by lia.
  assert (2 ^ 64 * 10 ^ 6 < FIELD_ORDER) by reflexivity.
  rewrite Z.mod_mod by done. rewrite Z.mod_small by lia.
  destruct (Z.eqb_spec z 0) as [->|Hn]; [done|]. apply Z.eqb_neq. lia.
Qed.

Lemma row_flag r :
  r = 0 ∨ r = 1 →
  let m := (r * 10 ^ 6) mod FIELD_ORDER in (m + 0 - (1 - m) mod FIELD_ORDER) mod FIELD_ORDER =? 0 = false.
Proof. by intros [-> | ->]. Qed.

(** ** Sanctions screening *)

(** No screening satisfies the circuit.  For a well-formed root and the
    results 0 and 1 an assignment is built, but its row for the cleared flag
    adds 0 to the screening result and claims one minus that result, so that
    it fails whatever the name, the list and the outcome. *)
Theorem aml_assignment_unsatisfiable (w : AMLWitnessInput) :
  hash_wf (aml_sanctions_root w) → aml_expected_result w = 0 ∨ aml_expected_result w = 1 →
  ∃ a g0 g6, build_aml_assignment w = Ok a ∧
    aml_verify_gate_constraints a = Ok [g0; true; true; true; false; true; g6].
Proof.
  intros Hroot Hr. unfold build_aml_assignment.
  set (nh := sha256_hex (aml_name w +:+ aml_name_normalized w)). set (th := sha256_hex (aml_screening_timestamp w)).
  set (sid := sha256_hex (nh +:+ aml_sanctions_root w +:+ th)).
  destruct (prefix_fixed_point_hash nh) as (n & _ & _ & ->); [apply sha256_hex_wf|].
  destruct (prefix_fixed_point_hash (aml_sanctions_root w) Hroot) as (r & _ & _ & ->).
  destruct (prefix_fixed_point_hash th) as (t & _ & _ & ->); [apply sha256_hex_wf|].
  destruct (prefix_fixed_point_hash sid) as (i & _ & _ & ->); [apply sha256_hex_wf|].
  unfold canonical_public_inputs_hash. rewrite hash_payload_free by apply str_dict_free.
  cbn [mbind result_bind]. rewrite to_fixed_point_int by (destruct Hr as [-> | ->]; lia). cbn [mbind result_bind].
  eexists _, _, _. split; [reflexivity|].
  unfold aml_verify_gate_constraints, verify_rows, check_gate, col_at.
  cbn [seq traverse a_col b_col c_col lookup list_lookup mbind result_bind app].
  rewrite !row_copy, !row_zero, row_flag by done. reflexivity.
Qed.

(** ** Drug dosage *)

Section dosage.
Context {F : Type} `{!PyFloat F}.

(** The dosage circuit is satisfied only under a dataset hash that starts
    with sixteen zeros.  Of an assignment that is built, the rows of the
    patient binding, the age factor, the bounds and the dataset hold always;
    the last row claims that adding the dataset's limb to the adjusted dose
    leaves it unchanged, and holds exactly when that limb is 0. *)
Theorem dosage_assignment_rows (w : DrugDosageWitnessInput F) (a : PlonkAssignment) :
  hash_wf (dd_fda_dataset_hash w) → build_drug_dosage_assignment w = Ok a →
  ∃ g1 g2 g4 z, limb_at (dd_fda_dataset_hash w) 0 = Ok z ∧
    dosage_verify_gate_constraints a = Ok [true; g1; g2; true; g4; true; true; z =? 0].
Proof.
  intros Hh. destruct (prefix_fixed_point_hash _ Hh) as (z & Hz & Hl & Hp).
  unfold build_drug_dosage_assignment. cbv zeta.
  intros H. repeat (apply bind_ok in H as (? & ? & H)). rewrite Hp in *. simplify_eq.
  eexists _, _, _, z. split; [exact Hl|].
  unfold dosage_verify_gate_constraints, verify_rows, check_gate, col_at.
  cbn [seq traverse a_col b_col c_col lookup list_lookup mbind result_bind app].
  rewrite row_product, row_copy, !row_zero, row_add_self by done. reflexivity.
Qed.
End dosage.

(** ** Contract clauses *)

Lemma clause_rows clause model ruleset audit code pih :
  clause_verify_gate_constraints (clause_columns clause model ruleset audit code pih) = Ok (repeat true 7).
Proof.
  unfold clause_verify_gate_constraints, verify_rows, check_gate, col_at, clause_columns.
  cbn [seq traverse a_col b_col c_col lookup list_lookup mbind result_bind app].
  rewrite !row_product, !row_sum, row_copy_mod. reflexivity.
Qed.

Definition with_identity (clause_id ai_id : string) (w : ContractClauseWitnessInput) : ContractClauseWitnessInput :=
  mkClauseInput (cc_clause_text w) clause_id (cc_model_raw_output w) (cc_classification_result w)
    (cc_ruleset_id_hash w) ai_id (cc_audit_entry_hash w).

(** A classification gets an assignment exactly when it is one of the four,
    and its ruleset and audit entry are given by hashes; the assignment then
    satisfies all seven rows.  But the identity of the model is on no wire: the
    columns and the wires are the same for every [ai_id] and [clause_id]. *)
Theorem clause_assignment (w : ContractClauseWitnessInput) (clause_id ai_id : string) :
  hash_wf (cc_ruleset_id_hash w) → hash_wf (cc_audit_entry_hash w) →
  match dict_get (cc_classification_result w) CLASSIFICATION_ENCODING with
  | None => ∃ m, build_contract_clause_assignment w = raise ValueError m
  | Some code =>
      ∃ a a', build_contract_clause_assignment w = Ok a ∧ clause_verify_gate_constraints a = Ok (repeat true 7) ∧
        dict_get "classification_code" (wire_map a) = Some code ∧
        build_contract_clause_assignment (with_identity clause_id ai_id w) = Ok a' ∧
        a_col a' = a_col a ∧ b_col a' = b_col a ∧ c_col a' = c_col a ∧ wire_map a' = wire_map a
  end.
Proof.
  intros Hr Ha. unfold build_contract_clause_assignment, with_identity, canonical_public_inputs_hash.
  cbn [cc_classification_result cc_clause_text cc_model_raw_output cc_ruleset_id_hash cc_audit_entry_hash cc_ai_id].
  destruct (dict_get (cc_classification_result w) CLASSIFICATION_ENCODING) as [code|]; [|eauto].
  rewrite !hash_payload_free by apply str_dict_free.
  destruct (limbs_total (sha256_hex (cc_clause_text w))) as (l1 & -> & _); [apply sha256_hex_wf|].
  destruct (limbs_total (sha256_hex (cc_model_raw_output w))) as (l2 & -> & _); [apply sha256_hex_wf|].
  destruct (limbs_total _ Hr) as (l3 & -> & _), (limbs_total _ Ha) as (l4 & -> & _). cbn [mbind result_bind].
  eexists _, _. split; [reflexivity|]. split; [apply clause_rows|]. split; [reflexivity|]. split; [reflexivity|].
  split_and!; reflexivity.
Qed.

(** ** Examples *)

Definition sample_aml : AMLWitnessInput :=
  mkAMLInput "John Smith" "john smith" (sha256_hex "sanctions") "2026-04-04T12:00:00Z" 0.

Example aml_assignment_unsatisfiable_witness :
  ∃ a g0 g6, build_aml_assignment sample_aml = Ok a ∧
    aml_verify_gate_constraints a = Ok [g0; true; true; true; false; true; g6].
Proof. apply (aml_assignment_unsatisfiable sample_aml); [apply sha256_hex_wf|by left]. Defined.

Definition sample_dosage : DrugDosageWitnessInput (Z * positive) :=
  mkDosageInput (70, 1%positive) (90, 1%positive) (45, 1%positive) (sha256_hex "fda") "amoxicillin_250mg" 8.

Example dosage_assignment_rows_witness :
  match build_drug_dosage_assignment sample_dosage with
  | Ok a => ∃ g1 g2 g4 z, limb_at (sha256_hex "fda") 0 = Ok z ∧
      dosage_verify_gate_constraints a = Ok [true; g1; g2; true; g4; true; true; z =? 0]
  | Raise _ => False
  end.
Proof.
  destruct (build_drug_dosage_assignment sample_dosage) as [a|e] eqn:E; [|vm_compute in E; discriminate E].
  apply (dosage_assignment_rows sample_dosage a); [apply sha256_hex_wf|exact E].
Defined.

Definition sample_clause : ContractClauseWitnessInput :=
  mkClauseInput "The Service is provided on an as-is basis." "CLAUSE_1" "CLASSIFICATION: COMPLIANT" "COMPLIANT"
    (sha256_hex "ruleset") (sha256_hex "model") (sha256_hex "audit").

Example clause_assignment_witness :
  ∃ a a', build_contract_clause_assignment sample_clause = Ok a ∧
    clause_verify_gate_constraints a = Ok (repeat true 7) ∧ dict_get "classification_code" (wire_map a) = Some 0 ∧
    build_contract_clause_assignment (with_identity "CLAUSE_2" "another model" sample_clause) = Ok a' ∧
    a_col a' = a_col a ∧ b_col a' = b_col a ∧ c_col a' = c_col a ∧ wire_map a' = wire_map a.
Proof. apply (clause_assignment sample_clause "CLAUSE_2" "another model"); apply sha256_hex_wf. Defined.
