(* ===== verification/Tee.v ===== *)
(** * Attested inferences (zk/tee/)

    Outside an enclave only the simulated attestation exists: hashes of the
    model, the texts and a description of the runtime, combined by SHA-256.
    The builder wraps one in a bundle, which is read here by the verifier of
    proof bundles as well.  The identifier and the time of a bundle are
    arguments. *)
From S2P Require Export Schemas VerifierAgree.

(** ** zk/tee/attestation.py *)

Inductive TEEMode := INTEL_TDX | AMD_SEV_SNP | SIMULATION.

Definition tee_mode_value (m : TEEMode) : string :=
  match m with INTEL_TDX => "intel_tdx" | AMD_SEV_SNP => "amd_sev_snp" | SIMULATION => "simulation" end.

Record TEEAttestation := mkAttestation {
  ta_tee_mode : TEEMode;
  ta_model_hash : string;
  ta_input_hash : string;
  ta_output_hash : string;
  ta_runtime_hash : string;
  ta_attestation_report_bytes : string;
  ta_attestation_report_hash : string;
  ta_is_simulation : bool;
  ta_simulation_warning : option string }.

Definition runtime_descriptor (model_id : string) : string :=
  "model_id=" +:+ model_id +:+ ",python_runtime=3.11,platform=x86_64".

Definition attestation_payload (model_hash input_hash output_hash runtime_hash : string) : string :=
  model_hash +:+ "|" +:+ input_hash +:+ "|" +:+ output_hash +:+ "|" +:+ runtime_hash +:+ "|SIMULATION_MODE".

Definition attest (mode : TEEMode) (model_id model_hash input_text output_text : string) : result TEEAttestation :=
  match mode with
  | INTEL_TDX =>
      raise NotImplementedError "Intel TDX attestation is only available when running inside a TDX enclave. Use TEEMode.SIMULATION for development or run this code inside a TDX-enabled environment."
  | AMD_SEV_SNP =>
      raise NotImplementedError "AMD SEV-SNP attestation is only available when running inside a SEV-SNP enclave. Use TEEMode.SIMULATION for development or run this code inside a SEV-SNP-enabled environment."
  | SIMULATION =>
      let input_hash := sha256_hex input_text in
      let output_hash := sha256_hex output_text in
      let runtime_hash := sha256_hex (runtime_descriptor model_id) in
      let report := sha256_hex (attestation_payload model_hash input_hash output_hash runtime_hash) in
      Ok (mkAttestation mode model_hash input_hash output_hash runtime_hash report (sha256_hex report) true
            (Some "SIMULATION MODE: not hardware-attested"))
  end.

Definition tee_proof_system (m : TEEMode) : string :=
  match m with
  | INTEL_TDX => "tee-intel-tdx" | AMD_SEV_SNP => "tee-amd-sev-snp" | SIMULATION => "sha256-deterministic"
  end.

(** The fields shared by [to_vrl_proof] and the bundle. *)
Definition proof_entries (a : TEEAttestation) : list (string * json) :=
  [("proof_system", JStr (tee_proof_system (ta_tee_mode a))); ("tee_mode", JStr (tee_mode_value (ta_tee_mode a)));
   ("model_hash", JStr (ta_model_hash a)); ("input_hash", JStr (ta_input_hash a));
   ("output_hash", JStr (ta_output_hash a)); ("runtime_hash", JStr (ta_runtime_hash a));
   ("attestation_report_bytes", JStr (ta_attestation_report_bytes a));
   ("attestation_report_hash", JStr (ta_attestation_report_hash a)); ("is_simulation", JBool (ta_is_simulation a))].

(** [if x: d['simulation_warning'] = x] *)
Definition warning_entry (a : TEEAttestation) : list (string * json) :=
  match ta_simulation_warning a with
  | None | Some "" => []
  | Some w => [("simulation_warning", JStr w)]
  end.

Definition to_vrl_proof (a : TEEAttestation) : list (string * json) := proof_entries a ++ warning_entry a.

(** ** zk/tee/vrl_tee_bundle_builder.py *)

Record tee_request := mkTeeRequest {
  tr_model_id : string;
  tr_model_version : string;
  tr_provider_id : string;
  tr_input_text : string;
  tr_output_text : string }.

Definition model_metadata (q : tee_request) : list (string * string) :=
  [("model_id", tr_model_id q); ("model_version", tr_model_version q); ("provider_id", tr_provider_id q)].

Definition integrity_components (a : TEEAttestation) : list (string * string) :=
  [("model_hash", ta_model_hash a); ("input_hash", ta_input_hash a); ("output_hash", ta_output_hash a);
   ("runtime_hash", ta_runtime_hash a); ("attestation_report_hash", ta_attestation_report_hash a)].

Definition tee_public_inputs (q : tee_request) (ai_id : string) (a : TEEAttestation) : list (string * json) :=
  [("ai_id", JStr ai_id); ("model_id", JStr (tr_model_id q)); ("model_version", JStr (tr_model_version q));
   ("provider_id", JStr (tr_provider_id q)); ("input_hash", JStr (ta_input_hash a));
   ("output_hash", JStr (ta_output_hash a)); ("tee_mode", JStr (tee_mode_value (ta_tee_mode a)))].

Definition tee_metadata (q : tee_request) (circuit_id : string) (a : TEEAttestation) : list (string * json) :=
  [("circuit_id", JStr circuit_id);
   ("proof_system", get_or (JStr "sha256-deterministic") "proof_system" (to_vrl_proof a));
   ("backend", JStr "tee-attestation-pipeline"); ("model_id", JStr (tr_model_id q));
   ("model_version", JStr (tr_model_version q)); ("provider_id", JStr (tr_provider_id q));
   ("tee_mode", JStr (tee_mode_value (ta_tee_mode a)))].

(** [if jurisdictions: bundle['jurisdictions'] = jurisdictions] *)
Definition jurisdictions_entry (jurisdictions : option (list string)) : list (string * json) :=
  match jurisdictions with
  | None | Some [] => []
  | Some l => [("jurisdictions", JList (map JStr l))]
  end.

Definition build_tee_proof_bundle (bundle_id now circuit_id : string) (jurisdictions : option (list string))
    (mode : TEEMode) (q : tee_request) : result (list (string * json)) :=
  model_hash ← hash_payload (str_dict (model_metadata q));
  attestation ← attest mode (tr_model_id q) model_hash (tr_input_text q) (tr_output_text q);
  ai_id ← hash_payload (str_dict (model_metadata q ++ [("runtime_hash", ta_runtime_hash attestation)]));
  integrity_hash ← hash_payload (str_dict (integrity_components attestation));
  Ok ([("version", JStr "1.0.0"); ("bundle_id", JStr bundle_id); ("proof", JObj (proof_entries attestation));
       ("public_inputs", JObj (tee_public_inputs q ai_id attestation));
       ("metadata", JObj (tee_metadata q circuit_id attestation)); ("integrity_hash", JStr integrity_hash);
       ("created_at", JStr now)] ++ warning_entry attestation ++ jurisdictions_entry jurisdictions).

(** ** What is built *)

(** The simulated attestation of a request, and its hash. *)
Definition simulated (q : tee_request) : TEEAttestation :=
  let model_hash := payload_hash (str_dict (model_metadata q)) in
  let input_hash := sha256_hex (tr_input_text q) in
  let output_hash := sha256_hex (tr_output_text q) in
  let runtime_hash := sha256_hex (runtime_descriptor (tr_model_id q)) in
  let report := sha256_hex (attestation_payload model_hash input_hash output_hash runtime_hash) in
  mkAttestation SIMULATION model_hash input_hash output_hash runtime_hash report (sha256_hex report) true
    (Some "SIMULATION MODE: not hardware-attested").

Definition tee_integrity_hash (q : tee_request) : string := payload_hash (str_dict (integrity_components (simulated q))).

Lemma tee_bundle_built id now circuit js q :
  ∃ ai_id rest, build_tee_proof_bundle id now circuit js SIMULATION q =
    Ok ([("version", JStr "1.0.0"); ("bundle_id", JStr id); ("proof", JObj (proof_entries (simulated q)));
         ("public_inputs", JObj (tee_public_inputs q ai_id (simulated q)));
         ("metadata", JObj (tee_metadata q circuit (simulated q))); ("integrity_hash", JStr (tee_integrity_hash q));
         ("created_at", JStr now)] ++ rest) ∧
    rest = warning_entry (simulated q) ++ jurisdictions_entry js.
Proof.
  unfold build_tee_proof_bundle. rewrite !hash_payload_free by apply str_dict_free. cbn [mbind result_bind].
  unfold attest. cbn [mbind result_bind]. rewrite !hash_payload_free by apply str_dict_free. cbn [mbind result_bind].
  eexists _, _. split; reflexivity.
Qed.

(** The bundles of attested inferences are not proof bundles.  In simulation
    a bundle is built for every request, labelled as a simulation; but it has
    no [vrl_version], so that the standalone verifier answers
    UNSUPPORTED_VERSION and the SDK cannot read it.  In the two hardware modes
    no bundle is built. *)
Theorem tee_bundles_unsupported (REG : CircuitRegistry) id now circuit js q :
  (∃ b, build_tee_proof_bundle id now circuit js SIMULATION q = Ok b ∧
     dict_get "simulation_warning" b = Some (JStr "SIMULATION MODE: not hardware-attested") ∧
     (∃ r, Standalone.verify (JObj b) = Ok r ∧ Standalone.vr_status r = UNSUPPORTED_VERSION ∧
        Standalone.vr_is_valid r = false) ∧
     bundle_from_dict (JObj b) = raise ValueError "Missing required bundle fields: {}") ∧
  ∀ mode, mode ≠ SIMULATION → ∃ m, build_tee_proof_bundle id now circuit js mode q = raise NotImplementedError m.
Proof.
  split.
  - destruct (tee_bundle_built id now circuit js q) as (ai_id & rest & E & Er). eexists. split; [exact E|]. subst rest.
    split; [reflexivity|].
    split; [|by destruct js as [[|j js]|]].
    destruct js as [[|j js]|]; (eexists; split; [reflexivity|split; reflexivity]).
  - intros mode Hm. unfold build_tee_proof_bundle. rewrite hash_payload_free by apply str_dict_free.
    cbn [mbind result_bind]. destruct mode; [by eexists|by eexists|done].
Qed.

(** ** What the integrity hash binds *)

(** The texts that are hashed for a request. *)
Definition payload_text (l : list (string * string)) : string := json_print (canonical_form (str_dict l)).

Definition tee_texts (q : tee_request) : list string :=
  [payload_text (integrity_components (simulated q)); payload_text (model_metadata q); tr_input_text q; tr_output_text q].

(** Two requests hash different texts to the same digest. *)
Definition tee_forgery (q q' : tee_request) : Prop :=
  ∃ i x y, tee_texts q !! i = Some x ∧ tee_texts q' !! i = Some y ∧ collision x y.

Lemma integrity_components_inj a a' :
  payload_text (integrity_components a) = payload_text (integrity_components a') →
  ta_model_hash a = ta_model_hash a' ∧ ta_input_hash a = ta_input_hash a' ∧ ta_output_hash a = ta_output_hash a'.
Proof. intros H. apply canonical_payload_inj in H; [|done|done]. by injection H. Qed.

Lemma model_metadata_inj q q' :
  payload_text (model_metadata q) = payload_text (model_metadata q') →
  tr_model_id q = tr_model_id q' ∧ tr_model_version q = tr_model_version q' ∧ tr_provider_id q = tr_provider_id q'.
Proof. intros H. apply canonical_payload_inj in H; [|done|done]. by injection H. Qed.

Lemma digest_step q q' i x y :
  tee_texts q !! i = Some x → tee_texts q' !! i = Some y → sha256_hex x = sha256_hex y → x = y ∨ tee_forgery q q'.
Proof. intros Hx Hy [->|H]%sha256_hex_inj_or_collision; [by left|right]. by exists i, x, y. Qed.

(** The integrity hash of a simulated bundle binds the model, its version, its
    provider and both texts: two requests under one integrity hash are the
    same request, or SHA-256 collides on texts of theirs. *)
Theorem tee_integrity_binding id id' now now' circuit circuit' js js' (q q' : tee_request) b b' :
  build_tee_proof_bundle id now circuit js SIMULATION q = Ok b →
  build_tee_proof_bundle id' now' circuit' js' SIMULATION q' = Ok b' →
  dict_get "integrity_hash" b = dict_get "integrity_hash" b' → q = q' ∨ tee_forgery q q'.
Proof.
  destruct (tee_bundle_built id now circuit js q) as (a & r & -> & _),
    (tee_bundle_built id' now' circuit' js' q') as (a' & r' & -> & _).
  intros [= <-] [= <-]. cbn [app dict_get String.eqb Ascii.eqb Bool.eqb]. intros [= H].
  destruct (digest_step q q' 0 _ _ eq_refl eq_refl H) as [H0|]; [|by right].
  apply integrity_components_inj in H0 as (Hm & Hi & Ho).
  destruct (digest_step q q' 1 _ _ eq_refl eq_refl Hm) as [H1|]; [|by right].
  destruct (digest_step q q' 2 _ _ eq_refl eq_refl Hi) as [H2|]; [|by right].
  destruct (digest_step q q' 3 _ _ eq_refl eq_refl Ho) as [H3|]; [|by right].
  apply model_metadata_inj in H1 as (? & ? & ?). left. destruct q, q'. cbn in *. congruence.
Qed.

Definition sample_tee : tee_request :=
  mkTeeRequest "llama-3-70b-instruct" "3.0.0" "meta" "What is the standard dosage of amoxicillin?"
    "The standard adult dose is 250-500mg every 8 hours.".

Example tee_integrity_binding_witness :
  ∃ b b', build_tee_proof_bundle "1" "t" "c" None SIMULATION sample_tee = Ok b ∧
    build_tee_proof_bundle "2" "u" "d" (Some ["US"]) SIMULATION sample_tee = Ok b' ∧
    (sample_tee = sample_tee ∨ tee_forgery sample_tee sample_tee).
Proof.
  destruct (tee_bundle_built "1" "t" "c" None sample_tee) as (a & r & E & _),
    (tee_bundle_built "2" "u" "d" (Some ["US"]) sample_tee) as (a' & r' & E' & _).
  eexists _, _. split; [exact E|]. split; [exact E'|].
  apply (tee_integrity_binding "1" "2" "t" "u" "c" "d" None (Some ["US"]) sample_tee sample_tee _ _ E E'). reflexivity.
Defined.
