(* ===== verification/Tables.v ===== *)
(** * The tables of the service (app/db/repository.py,
      app/services/evidence_service.py)

    The four tables with the rows the statements read and write, the joins that
    give evidence back, and the service over them: [calculate_and_persist] from
    its payload to its response, and what the other methods read.  One
    transaction runs at a time here; their interleavings are EvidenceLog's, and
    the repeated attempts after conflicts are Persist's.  A JSONB column gives
    back the value that was written; the order of its keys, which PostgreSQL
    does not keep, is seen neither by canonical texts nor by lookups. *)
From S2P Require Import EvidenceLog ArtifactGraph.
From S2P Require Export Routes.

Local Open Scope Z_scope.

(** ** The tables *)

(** Rows in the order they were inserted; the sequence of [audit_log.id]. *)
Record tables := mkTables {
  tb_requests : list RequestRecord;
  tb_results : list ResultRecord;
  tb_proofs : list ProofRecord;
  tb_audit : list AuditEventRecord;
  tb_next_id : Z }.

Definition empty_tables : tables := mkTables [] [] [] [] 1.

(** A statement returns or raises; what it wrote is visible to the next one. *)
Definition statement (A : Type) : Type := tables → result A * tables.

#[global] Instance statement_ret : MRet statement := fun A a t => (Ok a, t).
#[global] Instance statement_bind : MBind statement := fun A B f m t =>
  match m t with (Ok a, t) => f a t | (Raise e, t) => (Raise e, t) end.

Definition pure_result {A} (r : result A) : statement A := fun t => (r, t).

(** [async with repository.transaction()]: an exception rolls back, but the
    sequence keeps its numbers. *)
Definition rolled_back (before after : tables) : tables :=
  mkTables (tb_requests before) (tb_results before) (tb_proofs before) (tb_audit before) (tb_next_id after).

Definition transaction {A} (m : statement A) : statement A := fun t =>
  match m t with
  | (Ok a, t') => (Ok a, t')
  | (Raise e, t') => (Raise e, rolled_back t t')
  end.

(** ** Statements *)

Definition fetch_latest (chain_id : Z) : statement string := fun t =>
  (Ok (fetch_latest_audit_hash_for_chain chain_id (tb_audit t)), t).

Definition check_duplicate (input_hash : string) : statement bool := fun t =>
  (Ok (bool_decide (input_hash ∈ map rq_input_hash (tb_requests t))), t).

(** The primary keys and the unique constraints of the three tables. *)
Definition violates_unique (rq : RequestRecord) (rs : ResultRecord) (pf : ProofRecord) (t : tables) : bool :=
  bool_decide (rq_id rq ∈ map rq_id (tb_requests t)) ||
  bool_decide (rq_input_hash rq ∈ map rq_input_hash (tb_requests t)) ||
  bool_decide (rs_id rs ∈ map rs_id (tb_results t)) ||
  bool_decide (rq_id rq ∈ map rs_request_id (tb_results t)) ||
  bool_decide (pf_id pf ∈ map pf_id (tb_proofs t)) ||
  bool_decide (rq_id rq ∈ map pf_request_id (tb_proofs t)).

(** [SELECT .. FROM req]: the request's identifier goes to the other rows. *)
Definition result_row (rq : RequestRecord) (rs : ResultRecord) : ResultRecord :=
  mkResultRecord (rs_id rs) (rq_id rq) (rs_output_hash rs) (rs_raw_output rs) (rs_created_at rs).

Definition proof_row (rq : RequestRecord) (pf : ProofRecord) : ProofRecord :=
  mkProofRecord (pf_id pf) (rq_id rq) (pf_trace_hash pf) (pf_final_proof pf) (pf_integrity_hash pf)
    (pf_proof_system pf) (pf_circuit_hash pf) (pf_verification_key_hash pf) (pf_proof_bundle pf)
    (pf_proof_verified pf) (pf_created_at pf).

Definition insert_records_batch (rq : RequestRecord) (rs : ResultRecord) (pf : ProofRecord) : statement unit := fun t =>
  if violates_unique rq rs pf t then (raise DuplicateInputHashError "Duplicate input hash detected: {}", t)
  else (Ok tt, mkTables (tb_requests t ++ [rq]) (tb_results t ++ [result_row rq rs])
                 (tb_proofs t ++ [proof_row rq pf]) (tb_audit t) (tb_next_id t)).

(** [record.model_copy(update={'id': ..})] *)
Definition with_id (i : Z) (r : AuditEventRecord) : AuditEventRecord :=
  mkAuditEvent (Some i) (chain_id r) (event_type r) (reference_id r) (event_payload r) (prev_hash r)
    (current_hash r) (created_at r).

Definition insert_audit_event (record : AuditEventRecord) : statement AuditEventRecord := fun t =>
  let row := with_id (tb_next_id t) record in
  (Ok row, mkTables (tb_requests t) (tb_results t) (tb_proofs t) (tb_audit t ++ [row]) (tb_next_id t + 1)).

(** ** Queries *)

(** The lateral join: the latest event of a request. *)
Definition latest_event (request_id : string) (t : tables) : option AuditEventRecord :=
  last (isort id_leb (filter (fun a => reference_id a = Some request_id) (tb_audit t))).

(** The rows of [FETCH_BUNDLE_SQL] that a request takes part in. *)
Definition rows_of_request (t : tables) (r : RequestRecord) : list PersistedEvidenceBundle :=
  s ← filter (fun s => rs_request_id s = rq_id r) (tb_results t);
  p ← filter (fun p => pf_request_id p = rq_id r) (tb_proofs t);
  [mkEvidence r s p (latest_event (rq_id r) t)].

Definition evidence_rows (input_hash : string) (t : tables) : list PersistedEvidenceBundle :=
  filter (fun r => rq_input_hash r = input_hash) (tb_requests t) ≫= rows_of_request t.

(** [fetchrow]: the first row, if there is one. *)
Definition fetch_evidence (input_hash : string) (t : tables) : option PersistedEvidenceBundle :=
  head (evidence_rows input_hash t).

Definition fetch_chain (t : tables) : list AuditEventRecord := isort chain_id_leb (tb_audit t).

#[global] Instance tables_repository (t : tables) : Repository := {
  fetch_by_input_hash h := Ok (fetch_evidence h t);
  Evidence.fetch_audit_chain := Ok (fetch_chain t) }.

(** [ORDER BY p.created_at ASC, p.id ASC] *)
Definition datetime_leb (a b : datetime) : bool :=
  then_by Z.eqb Z.leb (dt_year a) (dt_year b)
  (then_by Z.eqb Z.leb (dt_month a) (dt_month b)
  (then_by Z.eqb Z.leb (dt_day a) (dt_day b)
  (then_by Z.eqb Z.leb (dt_hour a) (dt_hour b)
  (then_by Z.eqb Z.leb (dt_minute a) (dt_minute b)
  (then_by Z.eqb Z.leb (dt_second a) (dt_second b) (dt_microsecond a <=? dt_microsecond b)))))).

Definition candidate_leb (e f : PersistedEvidenceBundle) : bool :=
  let p := ev_proof e in
  let q := ev_proof f in
  then_by (fun a b => bool_decide (a = b)) datetime_leb (pf_created_at p) (pf_created_at q)
    (str_leb (pf_id p) (pf_id q)).

(** The routes keep the limit positive. *)
Definition fetch_training_candidates (limit : Z) (t : tables) : list PersistedEvidenceBundle :=
  take (Z.to_nat limit)
    (isort candidate_leb
       (filter (fun e => pf_proof_verified (ev_proof e) = true ∧ pf_proof_system (ev_proof e) = "plonk")
          (tb_requests t ≫= rows_of_request t))).

(** ** The service over its tables *)

Section service.
Context `{BK : Backend} {F : Type} `{!PyFloat F}.
Context (coerce_int : pyval → option Z) (rules : list TariffRule)
  (validate_response : pyval → result CalculationResponse).

(** What a call can change: the tables, the key log and the metrics. *)
Record world := mkWorld { wd_tables : tables; wd_keys : key_log; wd_metrics : ChainMetrics (F:=F) }.

Definition service (A : Type) : Type := world → result A * world.

#[global] Instance service_ret : MRet service := fun A a w => (Ok a, w).
#[global] Instance service_bind : MBind service := fun A B f m w =>
  match m w with (Ok a, w) => f a w | (Raise e, w) => (Raise e, w) end.

Definition known {A} (r : result A) : service A := fun w => (r, w).

Definition on_tables {A} (m : statement A) : service A := fun w =>
  let '(r, t) := m (wd_tables w) in (r, mkWorld t (wd_keys w) (wd_metrics w)).

Definition on_keys {A} (m : logged A) : service A := fun w =>
  let '(r, k) := m (wd_keys w) in (r, mkWorld (wd_tables w) k (wd_metrics w)).

Definition on_metrics (f : ChainMetrics → result (ChainMetrics (F:=F))) : service unit := fun w =>
  match f (wd_metrics w) with
  | Ok m => (Ok tt, mkWorld (wd_tables w) (wd_keys w) m)
  | Raise e => (Raise e, w)
  end.

(** The readings of one call: the key log's clock, [utc_now()] for the records
    and for a failure event, and the wait for the lock. *)
Record readings := mkReadings {
  rd_now : string; rd_created_at : datetime; rd_failed_at : datetime; rd_lock_wait : F }.

Section call.
Context (c : readings).

Definition persisted_event (rq : RequestRecord) (rs : ResultRecord) (pf : ProofRecord) : list (string * pyval) :=
  [("request_id", PStr (rq_id rq)); ("result_id", PStr (rs_id rs)); ("proof_id", PStr (pf_id pf));
   ("input_hash", PStr (rq_input_hash rq)); ("output_hash", PStr (rs_output_hash rs));
   ("trace_hash", PStr (pf_trace_hash pf)); ("integrity_hash", PStr (pf_integrity_hash pf))].

(** The other two payloads: the input hash and a reason. *)
Definition reason_event (input_hash reason : string) : list (string * pyval) :=
  [("input_hash", PStr input_hash); ("reason", PStr reason)].

(** The body of the transaction: a response, or the duplicate to raise after
    the commit. *)
Definition persist_body (x : computed) (chain : Z) : statement (exn + PersistedCalculationResponse) :=
  let '(rq, rs, pf) := computed_records (rd_created_at c) x in
  prev ← fetch_latest chain;
  is_duplicate ← check_duplicate (rq_input_hash rq);
  if (is_duplicate : bool) then
    duplicate_audit ← pure_result (build_audit_event "calculation_rejected_duplicate" (Some (rq_id rq))
      (reason_event (rq_input_hash rq) "duplicate_input_hash") prev (rd_created_at c) chain None);
    _ ← insert_audit_event duplicate_audit;
    pure_result (Ok (inl duplicate_error))
  else
    _ ← insert_records_batch rq rs pf;
    audit_record ← pure_result (build_audit_event "calculation_persisted" (Some (rq_id rq))
      (persisted_event rq rs pf) prev (rd_created_at c) chain None);
    inserted_audit ← insert_audit_event audit_record;
    expected_current_hash ← pure_result (compute_audit_hash prev (event_type audit_record)
      (reference_id audit_record) (event_payload audit_record) (created_at audit_record));
    same ← pure_result (constant_time_equal (current_hash inserted_audit) expected_current_hash);
    if negb same then pure_result (Raise integrity_error)
    else
      let response := mkPersisted (cm_response x) (mkEvidence rq rs pf (Some inserted_audit)) in
      _ ← pure_result (build_verified_training_record (pc_response response) (pc_evidence response) (cm_proof x)
            (w_witness_hash (witness_artifact (cm_packet x))) (cm_verification_key_hash x) (cm_bundle x));
      pure_result (Ok (inr response)).

Definition _log_failure_event (reference input_hash reason : string) (chain : Z) : statement unit :=
  transaction
    (prev ← fetch_latest chain;
     failure_event ← pure_result (build_audit_event "calculation_persist_failed" (Some reference)
       (reason_event input_hash reason) prev (rd_failed_at c) chain None);
     _ ← insert_audit_event failure_event;
     pure_result (Ok tt)).

(** The [except] clauses: no exception of these statements is a conflict that
    would be retried. *)
Definition log_failures {A} (rq : RequestRecord) (chain : Z) (m : service A) : service A := fun w =>
  match m w with
  | (Ok a, w) => (Ok a, w)
  | (Raise e, w) =>
      if bool_decide (exn_cls e = DuplicateInputHashError) then (Raise e, w)
      else
        (_ ← on_metrics (record_error chain);
         _ ← on_tables (_log_failure_event (rq_id rq) (rq_input_hash rq) (exn_msg e) chain);
         known (Raise e)) w
  end.

(** After the transaction. *)
Definition settle_persist (chain : Z) (outcome : exn + PersistedCalculationResponse)
    : service PersistedCalculationResponse :=
  match outcome with
  | inl e => _ ← on_metrics (record_duplicate chain); known (Raise e)
  | inr response => _ ← on_metrics (record_success chain); known (Ok response)
  end.

Definition calculate_and_persist (request_payload : list (string * pyval)) : service PersistedCalculationResponse :=
  x ← on_keys (compute_phase coerce_int rules (rd_now c) request_payload);
  let rq := (computed_records (rd_created_at c) x).1.1 in
  chain ← known (chain_id_for_input (rq_input_hash rq));
  _ ← on_metrics (record_request chain);
  log_failures rq chain
    (_ ← on_metrics (record_lock_wait_ms chain (rd_lock_wait c));
     outcome ← on_tables (transaction (persist_body x chain));
     settle_persist chain outcome).
End call.

Definition verify_stored (now : string) (request_payload : list (string * pyval))
    : service PersistedVerificationResponse := fun w =>
  on_keys (verify_persisted coerce_int rules validate_response now (Some (tables_repository (wd_tables w)))
             request_payload) w.

Definition export_stored (now : string) (exported_at : datetime) (limit : Z) : service VerifiedDatasetExport := fun w =>
  on_keys (export_dataset coerce_int rules validate_response now exported_at
             (Some (fun limit => Ok (fetch_training_candidates limit (wd_tables w)))) limit) w.
End service.

Arguments world : clear implicits.
Arguments readings : clear implicits.
