(* ===== verification/TablesProps.v ===== *)
(** * What the tables hold (app/db/repository.py,
      app/services/evidence_service.py)

    Every transaction on the tables is a run of the transactions of
    EvidenceLog, so that the tables inherit its audit log; their keys are
    unique and their references resolve; evidence, once it is stored, stays as
    it is; and so a calculation that was persisted verifies ever after. *)
From stdpp Require Export relations.
From S2P Require Import EvidenceLog.
From S2P Require Export Tables.

Local Open Scope Z_scope.

(** ** Events *)

Lemma build_with_id ty ref payload prev t c i r :
  build_audit_event ty ref payload prev t c None = Ok r →
  build_audit_event ty ref payload prev t c (Some i) = Ok (with_id i r).
Proof. unfold build_audit_event. intros (h & -> & H)%bind_ok. by injection H as <-. Qed.

Lemma with_id_links prev i r : links_to prev r → links_to prev (with_id i r).
Proof. done. Qed.

Lemma linked_expected prev l r : linked prev l → r ∈ l → expected_hash r = Ok (current_hash r).
Proof.
  revert prev. induction l as [|x l IH]; intros prev; [by intros _ ?%elem_of_nil|]. intros [[_ Hx] Hl] [->|Hr]%elem_of_cons;
    [done|by eapply IH].
Qed.

(** A table of the log: its audit rows and the request hashes. *)
Definition log_of (t : tables) : system :=
  mkSystem (map rq_input_hash (tb_requests t)) (tb_audit t) (tb_next_id t) ∅ ∅ [].

(** Appending an event. *)
Definition with_event (r : AuditEventRecord) (t : tables) : tables :=
  mkTables (tb_requests t) (tb_results t) (tb_proofs t) (tb_audit t ++ [with_id (tb_next_id t) r]) (tb_next_id t + 1).

Definition with_batch (rq : RequestRecord) (rs : ResultRecord) (pf : ProofRecord) (t : tables) : tables :=
  mkTables (tb_requests t ++ [rq]) (tb_results t ++ [result_row rq rs]) (tb_proofs t ++ [proof_row rq pf])
    (tb_audit t) (tb_next_id t).

Definition next_taken (t : tables) : tables :=
  mkTables (tb_requests t) (tb_results t) (tb_proofs t) (tb_audit t) (tb_next_id t + 1).

(** ** One session of the log *)

Section session.
Context (rows : list AuditEventRecord) (rs : list string) (n : Z) (j : EvidenceLog.job) (c : Z).
Context (Hc : chain_id_for_input (j_input_hash j) = Ok c).

#[local] Notation latest := (fetch_latest_audit_hash_for_chain c rows).
#[local] Notation key := (chain_id_to_lock_key c).

(** Session 0 alone, holding the lock of its partition. *)
Definition alone (p : phase) (n : Z) : system :=
  mkSystem rs rows n {[key := 0%nat]} {[0%nat := mkSession j c p]} [].

Lemma set_alone p p' n' : set_phase 0 (mkSession j c p) p' (alone p n') = alone p' n'.
Proof. unfold set_phase, alone. cbn. by rewrite insert_singleton_eq. Qed.

Lemma close_alone p n' rs' rows' :
  close 0 (mkSession j c p) rs' rows' [] (alone p n') = mkSystem (rs ++ rs') (rows ++ rows') n' ∅ ∅ [].
Proof.
  unfold close, EvidenceLog.release, alone. cbn. rewrite lookup_singleton_eq, decide_True by done.
  by rewrite !delete_singleton_eq.
Qed.

Lemma run_fetched :
  run_all [(0%nat, Begin j); (0%nat, AcquireLock); (0%nat, FetchLatest)] (mkSystem rs rows n ∅ ∅ []) =
  Some (alone (Fetched latest) n).
Proof using Hc.
  unfold run_all, EvidenceLog.run. cbn [sessions]. rewrite lookup_empty, Hc. cbn [mbind option_bind sessions locks].
  rewrite lookup_insert_eq. cbn [s_phase s_chain]. rewrite lookup_empty. cbn [mbind option_bind sessions].
  unfold set_phase. cbn [sessions requests audit_log next_id locks failures s_job s_chain].
  rewrite lookup_insert_eq. cbn [mbind option_bind s_phase s_chain s_job].
  by rewrite !insert_insert_eq.
Qed.

Lemma session_alone p n' : sessions (alone p n') !! 0%nat = Some (mkSession j c p).
Proof. apply lookup_singleton_eq. Qed.

Ltac runs := unfold EvidenceLog.run; rewrite session_alone; cbn [s_phase s_job s_chain].

Lemma run_checked :
  j_kind j = Persist →
  EvidenceLog.run 0 CheckDuplicate (alone (Fetched latest) n) =
  Some (alone (Checked latest (bool_decide (j_input_hash j ∈ rs))) n).
Proof. intros Hk. runs. by rewrite Hk, set_alone. Qed.

Lemma run_batched prev :
  j_input_hash j ∉ rs → EvidenceLog.run 0 InsertBatch (alone (Checked prev false) n) = Some (alone (Batched prev) n).
Proof. intros Hn. runs. cbn [alone requests]. by rewrite bool_decide_eq_false_2, set_alone by done. Qed.

Lemma run_audited p ty payload prev request row n' :
  event_of (mkSession j c p) = Some (ty, payload, prev, request) →
  build_audit_event ty (Some (j_request_id j)) payload prev (j_created_at j) c None = Ok row →
  EvidenceLog.run 0 InsertAudit (alone p n') = Some (alone (Audited (with_id n' row) request) (n' + 1)).
Proof.
  intros He Hb. runs. unfold EvidenceLog.insert_audit_event. rewrite He. cbn [mbind option_bind s_job s_chain].
  pose proof (build_audit_event_links _ _ _ _ _ _ _ _ Hb) as [Hl _].
  cbn [alone next_id]. rewrite (build_with_id _ _ _ _ _ _ n' _ Hb), (links_to_checked _ _ (with_id_links _ n' _ Hl)).
  assert (take_id (alone p n') = alone p (n' + 1)) as -> by done.
  destruct request; by rewrite set_alone.
Qed.

Lemma run_commit row request n' :
  EvidenceLog.run 0 Commit (alone (Audited row request) n') =
  Some (mkSystem (rs ++ match request with Some h => [h] | None => [] end) (rows ++ [row]) n' ∅ ∅ []).
Proof. runs. by rewrite close_alone. Qed.

Lemma run_rollback p n' : EvidenceLog.run 0 Rollback (alone p n') = Some (mkSystem rs rows n' ∅ ∅ []).
Proof. runs. unfold rollback. by rewrite close_alone, !app_nil_r. Qed.
End session.

(** ** The transactions *)

Section transactions.
Context `{BK : Backend} {F : Type} `{!PyFloat F} (c : readings F) (t : tables) (chain : Z).

#[local] Notation latest := (fetch_latest_audit_hash_for_chain chain (tb_audit t)).

Lemma rolled_back_id : rolled_back t t = t.
Proof. by destruct t. Qed.

(** Every string payload makes an event. *)
Lemma event_total ty ref payload prev created :
  float_free (PDict payload) = true →
  ∃ row, build_audit_event ty ref payload prev created chain None = Ok row ∧ links_to prev row ∧
         chain_id row = chain ∧ reference_id row = ref ∧ event_type row = ty ∧ event_payload row = payload.
Proof.
  intros Hf. destruct (build_total ty ref payload prev created chain None Hf) as (row & Hb & Hl & Hi & _ & Ht & Hp).
  exists row. split; [exact Hb|]. split; [exact Hl|]. split; [exact Hi|]. split; [|done].
  unfold build_audit_event in Hb. apply bind_ok in Hb as (h & _ & E). by injection E as <-.
Qed.

(** What an event holds, and that it is a link. *)
Definition event_row (row : AuditEventRecord) (ty ref : string) (payload : list (string * pyval)) (created : datetime)
    : Prop :=
  build_audit_event ty (Some ref) payload latest created chain None = Ok row ∧ links_to latest row ∧
  chain_id row = chain ∧ reference_id row = Some ref ∧ event_type row = ty ∧ event_payload row = payload.

Section persist.
Context (x : computed) (rq : RequestRecord) (rs : ResultRecord) (pf : ProofRecord).
Context (Hx : computed_records (rd_created_at c) x = (rq, rs, pf)).

Lemma persist_duplicate :
  rq_input_hash rq ∈ map rq_input_hash (tb_requests t) →
  ∃ row, event_row row "calculation_rejected_duplicate" (rq_id rq)
           (reason_event (rq_input_hash rq) "duplicate_input_hash") (rd_created_at c) ∧
    transaction (persist_body c x chain) t = (Ok (inl duplicate_error), with_event row t).
Proof using Hx.
  intros Hd. destruct (event_total "calculation_rejected_duplicate" (Some (rq_id rq))
    (reason_event (rq_input_hash rq) "duplicate_input_hash") latest (rd_created_at c) eq_refl) as (row & Hb & H).
  exists row. split; [done|]. unfold transaction, persist_body. rewrite Hx.
  unfold mbind, statement_bind, fetch_latest, check_duplicate. rewrite bool_decide_eq_true_2 by done.
  unfold pure_result. rewrite Hb. reflexivity.
Qed.

Lemma persist_taken :
  rq_input_hash rq ∉ map rq_input_hash (tb_requests t) → violates_unique rq rs pf t = true →
  transaction (persist_body c x chain) t = (Raise duplicate_error, t).
Proof using Hx.
  intros Hd Hv. unfold transaction, persist_body. rewrite Hx.
  unfold mbind, statement_bind, fetch_latest, check_duplicate. rewrite bool_decide_eq_false_2 by done.
  unfold insert_records_batch. rewrite Hv. by rewrite rolled_back_id.
Qed.

Lemma violates_known : violates_unique rq rs pf t = false → rq_input_hash rq ∉ map rq_input_hash (tb_requests t).
Proof. unfold violates_unique. rewrite !orb_false_iff, !bool_decide_eq_false. tauto. Qed.

Definition training_record_of_persisted (row : AuditEventRecord) : result VerifiedTrainingRecord :=
  build_verified_training_record (cm_response x) (mkEvidence rq rs pf (Some (with_id (tb_next_id t) row)))
    (cm_proof x) (w_witness_hash (witness_artifact (cm_packet x))) (cm_verification_key_hash x) (cm_bundle x).

Lemma persist_stored :
  violates_unique rq rs pf t = false →
  ∃ row, event_row row "calculation_persisted" (rq_id rq) (persisted_event rq rs pf) (rd_created_at c) ∧
    transaction (persist_body c x chain) t =
      match training_record_of_persisted row with
      | Ok _ => (Ok (inr (mkPersisted (cm_response x) (mkEvidence rq rs pf (Some (with_id (tb_next_id t) row))))),
                 with_event row (with_batch rq rs pf t))
      | Raise e => (Raise e, next_taken t)
      end.
Proof using Hx.
  intros Hv. destruct (event_total "calculation_persisted" (Some (rq_id rq)) (persisted_event rq rs pf)
    latest (rd_created_at c) eq_refl) as (row & Hb & Hl & H).
  exists row. split; [done|]. unfold transaction, persist_body. rewrite Hx.
  unfold mbind, statement_bind, fetch_latest, check_duplicate. rewrite bool_decide_eq_false_2 by by apply violates_known.
  unfold insert_records_batch. rewrite Hv. unfold pure_result. rewrite Hb. unfold insert_audit_event. cbn [tb_next_id].
  pose proof (links_to_checked _ _ Hl) as Hs. unfold expected_hash in Hs. apply bind_ok in Hs as (h & Hh & Hs).
  pose proof Hl as [Hp _]. rewrite Hp in Hh. rewrite Hh. cbn [with_id current_hash]. rewrite Hs. cbn [negb].
  cbn [pc_response pc_evidence]. fold (training_record_of_persisted row).
  destruct (training_record_of_persisted row); reflexivity.
Qed.
End persist.

Lemma failure_logged reference input_hash reason :
  ∃ row, event_row row "calculation_persist_failed" reference (reason_event input_hash reason) (rd_failed_at c) ∧
    _log_failure_event c reference input_hash reason chain t = (Ok tt, with_event row t).
Proof.
  destruct (event_total "calculation_persist_failed" (Some reference) (reason_event input_hash reason) latest
    (rd_failed_at c) eq_refl) as (row & Hb & H).
  exists row. split; [done|]. unfold _log_failure_event, transaction, mbind, statement_bind, fetch_latest, pure_result.
  rewrite Hb. reflexivity.
Qed.
End transactions.

(** ** The tables refine the log *)

Section steps.
Context `{BK : Backend} {F : Type} `{!PyFloat F}.

(** A transaction of the service, in the partition of its input hash. *)
Inductive db_step (t : tables) : tables → Prop :=
  | step_persist (c : readings F) x chain :
      chain_id_for_input (rq_input_hash (computed_records (rd_created_at c) x).1.1) = Ok chain →
      db_step t (transaction (persist_body c x chain) t).2
  | step_failure (c : readings F) reference input_hash reason chain :
      chain_id_for_input input_hash = Ok chain →
      db_step t (_log_failure_event c reference input_hash reason chain t).2.

(** What the service can have stored. *)
Definition stored (t : tables) : Prop := rtc db_step empty_tables t.

Definition job_of (rq : RequestRecord) (rs : ResultRecord) (pf : ProofRecord) (created : datetime) : EvidenceLog.job :=
  EvidenceLog.mkJob Persist (rq_input_hash rq) (rq_id rq) (rs_id rs) (pf_id pf) (rs_output_hash rs) (pf_trace_hash pf)
    (pf_integrity_hash pf) created.

(** The rows a transaction leaves behind. *)
Inductive moves (t : tables) : tables → Prop :=
  | moves_not : moves t t
  | moves_id : moves t (next_taken t)
  | moves_event chain row ty ref payload created :
      event_row t chain row ty ref payload created → moves t (with_event row t)
  | moves_batch chain row rq rs pf created :
      rq_id rq = deterministic_request_id (rq_input_hash rq) → violates_unique rq rs pf t = false →
      event_row t chain row "calculation_persisted" (rq_id rq) (persisted_event rq rs pf) created →
      moves t (with_event row (with_batch rq rs pf t)).

Lemma records_request_id created x rq rs pf :
  computed_records created x = (rq, rs, pf) → rq_id rq = deterministic_request_id (rq_input_hash rq).
Proof. intros H. apply (f_equal (fun r => r.1.1)) in H. cbn in H. by subst rq. Qed.

Lemma db_step_moves t t' : db_step t t' → moves t t'.
Proof.
  intros [c x chain _|c reference h reason chain _].
  - destruct (computed_records (rd_created_at c) x) as [[rq rs] pf] eqn:Hx.
    destruct (decide (rq_input_hash rq ∈ map rq_input_hash (tb_requests t))) as [Hd|Hd].
    + destruct (persist_duplicate c t chain x rq rs pf Hx Hd) as (row & Hr & ->). by eapply moves_event.
    + destruct (violates_unique rq rs pf t) eqn:Hv.
      * rewrite (persist_taken c t chain x rq rs pf Hx Hd Hv). apply moves_not.
      * destruct (persist_stored c t chain x rq rs pf Hx Hv) as (row & Hr & ->).
        destruct (training_record_of_persisted _ _ _ _ _ _); [|apply moves_id].
        eapply moves_batch; [by eapply records_request_id|done..].
  - destruct (failure_logged c t chain reference h reason) as (row & Hr & ->). by eapply moves_event.
Qed.

#[local] Notation start := [(0%nat, AcquireLock); (0%nat, FetchLatest)].

Lemma run_event rows rs n j c p prev ty payload request row :
  chain_id_for_input (j_input_hash j) = Ok c →
  event_of (mkSession j c p) = Some (ty, payload, prev, request) →
  build_audit_event ty (Some (j_request_id j)) payload prev (j_created_at j) c None = Ok row →
  run_all [(0%nat, InsertAudit); (0%nat, Commit)] (alone rows rs j c p n) =
  Some (mkSystem (rs ++ match request with Some h => [h] | None => [] end) (rows ++ [with_id n row]) (n + 1) ∅ ∅ []).
Proof.
  intros Hc He Hb. cbn [run_all]. rewrite (run_audited _ _ _ _ _ _ _ _ _ _ _ He Hb). cbn [mbind option_bind].
  by rewrite run_commit.
Qed.

Lemma steps_then l k s s1 s2 : run_all l s = Some s1 → run_all k s1 = Some s2 → run_all (l ++ k) s = Some s2.
Proof. intros H. by rewrite run_all_app, H. Qed.

Lemma persist_refines (c : readings F) x chain t :
  let '(rq, rs, pf) := computed_records (rd_created_at c) x in
  chain_id_for_input (rq_input_hash rq) = Ok chain →
  ∃ l, run_all l (log_of t) = Some (log_of (transaction (persist_body c x chain) t).2).
Proof.
  destruct (computed_records (rd_created_at c) x) as [[rq rs] pf] eqn:Hx. intros Hc.
  set (j := job_of rq rs pf (rd_created_at c)).
  pose proof (run_fetched (tb_audit t) (map rq_input_hash (tb_requests t)) (tb_next_id t) j chain Hc) as Hf.
  pose proof (run_checked (tb_audit t) (map rq_input_hash (tb_requests t)) (tb_next_id t) j chain eq_refl) as Hk.
  assert (j_input_hash j = rq_input_hash rq) as Ej by done. rewrite Ej in Hk.
  destruct (decide (rq_input_hash rq ∈ map rq_input_hash (tb_requests t))) as [Hd|Hd].
  - destruct (persist_duplicate c t chain x rq rs pf Hx Hd) as (row & (Hb & _) & ->).
    rewrite bool_decide_eq_true_2 in Hk by done. eexists. eapply steps_then; [exact Hf|].
    eapply (steps_then [(0%nat, CheckDuplicate)]); [cbn [run_all]; rewrite Hk; reflexivity|]. unfold log_of. cbn [with_event snd].
    (etrans; [eapply run_event; [exact Hc|reflexivity|exact Hb]|by rewrite app_nil_r]).
  - rewrite bool_decide_eq_false_2 in Hk by done.
    destruct (violates_unique rq rs pf t) eqn:Hv.
    + rewrite (persist_taken c t chain x rq rs pf Hx Hd Hv). eexists. eapply steps_then; [exact Hf|].
      apply (steps_then [] [(0%nat, Rollback)] _ _ _ eq_refl). cbn [run_all]. by rewrite run_rollback.
    + destruct (persist_stored c t chain x rq rs pf Hx Hv) as (row & (Hb & _) & ->).
      pose proof (run_batched (tb_audit t) (map rq_input_hash (tb_requests t)) (tb_next_id t) j chain
        (fetch_latest_audit_hash_for_chain chain (tb_audit t)) Hd) as Hi.
      destruct (training_record_of_persisted t x rq rs pf row) as [r|e]; cbn [snd];
        (eexists; eapply steps_then; [exact Hf|];
         eapply (steps_then [(0%nat, CheckDuplicate)]); [cbn [run_all]; rewrite Hk; reflexivity|];
         eapply (steps_then [(0%nat, InsertBatch)]); [cbn [run_all]; rewrite Hi; reflexivity|]).
      * unfold log_of. cbn [with_event with_batch tb_requests tb_audit tb_next_id]. rewrite map_app.
        etrans; [eapply run_event; [exact Hc|reflexivity|exact Hb]|reflexivity].
      * eapply (steps_then [(0%nat, InsertAudit)] [(0%nat, Rollback)]);
          [cbn [run_all]; erewrite run_audited; [reflexivity|reflexivity|exact Hb]|cbn [run_all]; by rewrite run_rollback].
Qed.

Lemma failure_refines (c : readings F) reference h reason chain t :
  chain_id_for_input h = Ok chain →
  ∃ l, run_all l (log_of t) = Some (log_of (_log_failure_event c reference h reason chain t).2).
Proof.
  intros Hc. destruct (failure_logged c t chain reference h reason) as (row & (Hb & _) & ->).
  set (j := EvidenceLog.mkJob (LogFailure reason) h reference "" "" "" "" "" (rd_failed_at c)).
  eexists. eapply steps_then; [exact (run_fetched (tb_audit t) (map rq_input_hash (tb_requests t)) (tb_next_id t) j chain Hc)|].
  unfold log_of. cbn [with_event snd]. (etrans; [eapply run_event; [exact Hc|reflexivity|exact Hb]|by rewrite app_nil_r]).
Qed.

Lemma db_step_refines t t' : db_step t t' → ∃ l, run_all l (log_of t) = Some (log_of t').
Proof.
  intros [c x chain Hc|c reference h reason chain Hc].
  - pose proof (persist_refines c x chain t) as H.
    destruct (computed_records (rd_created_at c) x) as [[rq rs] pf]. by apply H.
  - by apply failure_refines.
Qed.

Lemma stored_reachable t : stored t → EvidenceLog.reachable (log_of t).
Proof.
  revert t. unfold stored. apply rtc_ind_r; [apply EvidenceLog.reach_initial|]. intros t1 t2 _ Hs IH.
  destruct (db_step_refines t1 t2 Hs) as [l Hl]. by eapply EvidenceLog.run_all_reachable.
Qed.
End steps.

(** ** Keys and references *)

(** Unique keys; identifiers of requests derived from their hashes; and the
    results and proofs are those of the requests, in the same order. *)
Record tables_ok (t : tables) : Prop := mkTablesOk {
  ok_ids : NoDup (map rq_id (tb_requests t));
  ok_hashes : NoDup (map rq_input_hash (tb_requests t));
  ok_derived : Forall (fun r => rq_id r = deterministic_request_id (rq_input_hash r)) (tb_requests t);
  ok_result_ids : NoDup (map rs_id (tb_results t));
  ok_proof_ids : NoDup (map pf_id (tb_proofs t));
  ok_results : map rs_request_id (tb_results t) = map rq_id (tb_requests t);
  ok_proofs : map pf_request_id (tb_proofs t) = map rq_id (tb_requests t) }.

Lemma empty_ok : tables_ok empty_tables.
Proof. split; simpl; try done; constructor. Qed.

Lemma NoDup_map_snoc {A} (f : A → string) l x : NoDup (map f l) → f x ∉ map f l → NoDup (map f (l ++ [x])).
Proof.
  intros Hl Hx. rewrite map_app. apply NoDup_app. split; [done|]. split; [|apply NoDup_singleton].
  intros y Hy ->%list_elem_of_singleton. done.
Qed.

Lemma moves_ok t t' : moves t t' → tables_ok t → tables_ok t'.
Proof.
  intros Hm Hok. destruct Hm as [| |chain row ty ref payload created _|chain row rq rs pf created Hid Hv _];
    [done|by destruct Hok..|]. destruct Hok as [H1 H2 H7 H3 H4 H5 H6].
  unfold violates_unique in Hv. rewrite !orb_false_iff, !bool_decide_eq_false in Hv.
  destruct Hv as (((((V1 & V2) & V3) & V4) & V5) & V6).
  split; cbn [with_event with_batch tb_requests tb_results tb_proofs]; try by apply NoDup_map_snoc.
  - apply Forall_app. split; [done|by constructor].
  - rewrite !map_app, H5. done.
  - rewrite !map_app, H6. done.
Qed.

(** No row is changed or removed. *)
Record grows (t t' : tables) : Prop := mkGrows {
  gr_requests : tb_requests t `prefix_of` tb_requests t';
  gr_results : tb_results t `prefix_of` tb_results t';
  gr_proofs : tb_proofs t `prefix_of` tb_proofs t';
  gr_audit : tb_audit t `prefix_of` tb_audit t' }.

#[global] Instance grows_preorder : PreOrder grows.
Proof.
  split; [by intros t|]. intros t1 t2 t3 [A1 A2 A3 A4] [B1 B2 B3 B4].
  split; [exact (transitivity A1 B1)|exact (transitivity A2 B2)|exact (transitivity A3 B3)|exact (transitivity A4 B4)].
Qed.

Lemma moves_grows t t' : moves t t' → grows t t'.
Proof.
  intros [| |chain row ty ref payload created _|chain row rq rs pf created _ _]; split;
    cbn [with_event with_batch next_taken tb_requests tb_results tb_proofs tb_audit]; try done; by eexists.
Qed.

(** ** Evidence *)

Lemma filter_key {A} (f : A → string) l x :
  NoDup (map f l) → x ∈ l → filter (fun y => f y = f x) l = [x].
Proof.
  induction l as [|y l IH]; simpl; [by intros _ ?%elem_of_nil|]. intros [Hy Hl]%NoDup_cons Hx. rewrite filter_cons.
  apply elem_of_cons in Hx as [->|Hx].
  - rewrite decide_True by done. f_equal. apply filter_none. intros z Hz E. apply Hy. rewrite <-E.
    apply elem_of_map. eauto.
  - rewrite decide_False; [by apply IH|]. intros E. apply Hy. rewrite E. apply elem_of_map. eauto.
Qed.

Lemma filter_nokey {A} (f : A → string) l k : k ∉ map f l → filter (fun y => f y = k) l = [].
Proof. intros H. apply filter_none. intros y Hy <-. apply H, elem_of_map. eauto. Qed.

(** The rows of one request, in the three tables. *)
Definition in_tables (t : tables) (r : RequestRecord) (s : ResultRecord) (p : ProofRecord) : Prop :=
  r ∈ tb_requests t ∧ s ∈ tb_results t ∧ p ∈ tb_proofs t ∧ rs_request_id s = rq_id r ∧ pf_request_id p = rq_id r.

Lemma rows_of_stored t r s p :
  tables_ok t → in_tables t r s p → rows_of_request t r = [mkEvidence r s p (latest_event (rq_id r) t)].
Proof.
  intros Hok (Hr & Hs & Hp & Es & Ep). unfold rows_of_request.
  rewrite <-Es, (filter_key rs_request_id (tb_results t) s); [|rewrite ok_results; [by apply ok_ids|done]|done].
  rewrite Es, <-Ep, (filter_key pf_request_id (tb_proofs t) p); [|rewrite ok_proofs; [by apply ok_ids|done]|done].
  by rewrite Ep.
Qed.

Lemma fetch_stored t r s p :
  tables_ok t → in_tables t r s p →
  evidence_rows (rq_input_hash r) t = [mkEvidence r s p (latest_event (rq_id r) t)].
Proof.
  intros Hok Hin. unfold evidence_rows. rewrite (filter_key rq_input_hash); [|by apply ok_hashes|apply Hin].
  cbn. by rewrite (rows_of_stored t r s p Hok Hin).
Qed.

Lemma fetched_in_tables t h e :
  fetch_evidence h t = Some e →
  in_tables t (ev_request e) (ev_result e) (ev_proof e) ∧ rq_input_hash (ev_request e) = h ∧
  ev_audit_log e = latest_event (rq_id (ev_request e)) t.
Proof.
  unfold fetch_evidence. intros (l & Hl)%head_Some. assert (e ∈ evidence_rows h t) as He by (rewrite Hl; set_solver).
  unfold evidence_rows, rows_of_request in He.
  apply list_elem_of_bind in He as (r & He & [Hh Hr]%list_elem_of_filter).
  apply list_elem_of_bind in He as (s & He & [Es Hs]%list_elem_of_filter).
  apply list_elem_of_bind in He as (p & He & [Ep Hp]%list_elem_of_filter).
  apply list_elem_of_singleton in He as ->. split; [by split_and!|]. done.
Qed.

(** Every known input hash has evidence. *)
Lemma known_in_tables t r :
  tables_ok t → r ∈ tb_requests t → ∃ s p, in_tables t r s p.
Proof.
  intros Hok Hr. assert (rq_id r ∈ map rq_id (tb_requests t)) as Hid by (apply elem_of_map; eauto).
  pose proof Hid as Hid'. rewrite <-(ok_results t Hok) in Hid. rewrite <-(ok_proofs t Hok) in Hid'.
  apply elem_of_map in Hid as (s & Es & Hs). apply elem_of_map in Hid' as (p & Ep & Hp). exists s, p. by split_and!.
Qed.

Lemma in_tables_grows t t' r s p : grows t t' → in_tables t r s p → in_tables t' r s p.
Proof.
  intros [G1 G2 G3 _] (Hr & Hs & Hp & H). split_and!; [..|apply H|apply H];
    [destruct G1 as [k ->]|destruct G2 as [k ->]|destruct G3 as [k ->]]; set_solver.
Qed.

(** Stored evidence stays; only the latest event can change. *)
Lemma evidence_stays t t' h e :
  tables_ok t' → grows t t' → fetch_evidence h t = Some e →
  fetch_evidence h t' = Some (mkEvidence (ev_request e) (ev_result e) (ev_proof e)
                                (latest_event (rq_id (ev_request e)) t')).
Proof.
  intros Hok Hg (Hin & <- & _)%fetched_in_tables. unfold fetch_evidence.
  by rewrite (fetch_stored t' _ _ _ Hok (in_tables_grows _ _ _ _ _ Hg Hin)).
Qed.

(** ** What the service can have stored *)

Lemma insert_sorted_snoc {A} (leb : A → A → bool) x l m :
  leb x m = true → insert_sorted leb x (l ++ [m]) = insert_sorted leb x l ++ [m].
Proof.
  intros Hx. induction l as [|y l IH]; cbn; [by rewrite Hx|]. destruct (leb x y); [done|]. by rewrite IH.
Qed.

Lemma isort_snoc_max {A} (leb : A → A → bool) l m :
  (∀ x, x ∈ l → leb x m = true) → isort leb (l ++ [m]) = isort leb l ++ [m].
Proof.
  induction l as [|x l IH]; intros H; cbn; [done|]. rewrite IH by set_solver. apply insert_sorted_snoc. set_solver.
Qed.

Section stored.
Context `{BK : Backend} {F : Type} `{!PyFloat F}.
#[local] Notation db_step := (db_step (F:=F)).
#[local] Notation stored := (stored (F:=F)).

Lemma steps_grow t t' : rtc db_step t t' → grows t t' ∧ (tables_ok t → tables_ok t').
Proof.
  induction 1 as [|t1 t2 t3 H _ [Hg Hok]]; [done|]. apply db_step_moves in H. split.
  - etrans; [by apply moves_grows|exact Hg].
  - intros H1. apply Hok. by eapply moves_ok.
Qed.

Lemma stored_ok t : stored t → tables_ok t.
Proof. intros H. apply (steps_grow _ _ H), empty_ok. Qed.

Lemma stored_inv t : stored t → inv (log_of t).
Proof. intros H. by apply reachable_inv, (stored_reachable (F:=F)). Qed.

Lemma stored_event t a : stored t → a ∈ tb_audit t → expected_hash a = Ok (current_hash a).
Proof.
  intros H Ha. eapply linked_expected; [exact (inv_linked _ (stored_inv t H) (chain_id a))|].
  apply list_elem_of_filter. split; [reflexivity|exact Ha].
Qed.

Lemma latest_event_in i t a : latest_event i t = Some a → a ∈ tb_audit t ∧ reference_id a = Some i.
Proof.
  unfold latest_event. intros H. apply last_Some in H as [l Hl].
  assert (a ∈ isort id_leb (filter (fun a => reference_id a = Some i) (tb_audit t))) as Ha by (rewrite Hl; set_solver).
  rewrite elem_of_isort in Ha. apply list_elem_of_filter in Ha. tauto.
Qed.

Lemma stored_chain_valid t :
  stored t → ∃ r, verify_audit_chain (fetch_chain t) = Ok r ∧ status r = VALID ∧ checked_rows r = length (tb_audit t).
Proof.
  intros H. pose proof (stored_inv t H) as Hi.
  assert (∀ c, linked ZERO_HASH (chain_of c (fetch_chain t))) as Hl.
  { intros c. pose proof (chain_of_fetched (log_of t) c Hi) as E. unfold fetch_chain. unfold EvidenceLog.fetch_audit_chain in E.
    cbn [log_of audit_log] in E. rewrite E. exact (inv_linked _ Hi c). }
  epose proof (proj2 (verify_audit_chain_valid (fetch_chain t) _) (conj Hl eq_refl)) as [Hv Hs].
  eexists. split; [exact Hv|]. split; [exact Hs|]. apply length_isort.
Qed.

(** The rows have distinct identifiers, below the next. *)
Lemma stored_ids t a : stored t → a ∈ tb_audit t → row_id a < tb_next_id t.
Proof. intros H Ha. exact (inv_next _ (stored_inv t H) a Ha). Qed.

(** A new event of a request is its latest. *)
Lemma latest_event_new t row i :
  stored t → reference_id row = Some i → latest_event i (with_event row t) = Some (with_id (tb_next_id t) row).
Proof.
  intros H Hr. unfold latest_event. cbn [with_event tb_audit]. rewrite filter_app, (filter_cons_True _ (with_id _ row)) by done.
  cbn [filter list_filter]. rewrite isort_snoc_max; [apply last_snoc|].
  intros x [_ Hx]%list_elem_of_filter. pose proof (stored_ids t x H Hx). unfold id_leb.
  change (row_id (with_id (tb_next_id t) row)) with (tb_next_id t). lia.
Qed.
End stored.
