(* ===== verification/ServiceProps.v ===== *)
(** * The evidence service end to end (app/services/evidence_service.py)

    A call of [calculate_and_persist], whatever becomes of it, is a run of the
    log's statements; how it ends in every case; and what was persisted is
    verified ever after, over the tables as later calls leave them. *)
From S2P Require Import EvidenceLog.
From S2P Require Export TablesProps.

Local Open Scope Z_scope.

(** ** Metrics *)

Section metrics.
Context {F : Type} `{!PyFloat F}.

(** One counter per partition. *)
Definition metrics_ok (m : ChainMetrics (F:=F)) : Prop :=
  length (_requests m) = PARTITIONS ∧ length (_successes m) = PARTITIONS ∧ length (_duplicates m) = PARTITIONS ∧
  length (_errors m) = PARTITIONS ∧ length (_lock_wait_ms m) = PARTITIONS.

Lemma reset_ok : metrics_ok reset.
Proof. by split_and!. Qed.

Lemma chain_range h c : chain_id_for_input h = Ok c → 0 ≤ c < Z.of_nat PARTITIONS.
Proof.
  unfold chain_id_for_input. destruct (int_of_hex h) as [n|]; [|done]. intros [= <-].
  apply Z.mod_pos_bound. done.
Qed.

Lemma py_update_total {A} (f : A → A) i l :
  0 ≤ i < Z.of_nat (length l) → ∃ l', py_update f i l = Ok l' ∧ length l' = length l.
Proof.
  intros H. unfold py_update, py_position.
  replace ((0 <=? i) && (i <? Z.of_nat (length l))) with true by lia. eexists. split; [done|]. apply length_alter.
Qed.

Lemma py_update_length {A} (f : A → A) i l l' : py_update f i l = Ok l' → length l' = length l.
Proof. unfold py_update. destruct (py_position (length l) i); [|done]. intros [= <-]. apply length_alter. Qed.

(** Recording in a partition succeeds. *)
Definition records_ok (f : ChainMetrics (F:=F) → result (ChainMetrics (F:=F))) : Prop :=
  ∀ m, metrics_ok m → ∃ m', f m = Ok m' ∧ metrics_ok m'.

Ltac records :=
  let m := fresh in intros m (? & ? & ? & ? & ?);
  match goal with
  | |- context [py_update ?f ?i ?l] =>
      let E := fresh in destruct (py_update_total f i l) as (? & E & ?); [lia|]; rewrite E
  end; eexists; (split; [reflexivity|]); split_and!; cbn; congruence.

Lemma recorded c ms : 0 ≤ c < Z.of_nat PARTITIONS →
  records_ok (record_request c) ∧ records_ok (record_success c) ∧ records_ok (record_duplicate c) ∧
  records_ok (record_error c) ∧ records_ok (record_lock_wait_ms c ms).
Proof.
  intros Hc. unfold record_request, record_success, record_duplicate, record_error, record_lock_wait_ms.
  split_and!; records.
Qed.
End metrics.

(** ** Every call is a run of transactions *)

Section calls.
Context `{BK : Backend} {F : Type} `{!PyFloat F}.
Context (coerce_int : pyval → option Z) (rules : list TariffRule)
  (validate_response : pyval → result CalculationResponse).
#[local] Notation db_step := (db_step (F:=F)).
#[local] Notation service := (service (F:=F)).

(** What [m] does to the tables is transactions. *)
Definition transacts {A} (m : service A) : Prop := ∀ w, rtc db_step (wd_tables w) (wd_tables (m w).2).

Lemma transacts_bind {A B} (m : service A) (f : A → service B) :
  transacts m → (∀ a, transacts (f a)) → transacts (m ≫= f).
Proof.
  intros Hm Hf w. unfold mbind, service_bind. specialize (Hm w). destruct (m w) as [[a|e] w1]; [|exact Hm].
  etrans; [exact Hm|apply Hf].
Qed.

Lemma transacts_known {A B} (r : result A) (f : A → service B) :
  (∀ a, r = Ok a → transacts (f a)) → transacts (known r ≫= f).
Proof. intros Hf w. unfold mbind, service_bind, known. destruct r as [a|e]; [by apply Hf|done]. Qed.

Lemma transacts_end {A} (r : result A) : transacts (known r).
Proof. by intros w. Qed.

Lemma transacts_keys {A} (m : logged A) : transacts (on_keys m).
Proof. intros w. unfold on_keys. by destruct (m (wd_keys w)). Qed.

Lemma transacts_metrics f : transacts (on_metrics f).
Proof. intros w. unfold on_metrics. by destruct (f (wd_metrics w)). Qed.

Lemma transacts_tables {A} (m : statement A) : (∀ t, db_step t (m t).2) → transacts (on_tables m).
Proof.
  intros Hm w. unfold on_tables. specialize (Hm (wd_tables w)). destruct (m (wd_tables w)) as [r t].
  by apply rtc_once.
Qed.

Lemma transacts_failures {A} c rq chain (m : service A) :
  chain_id_for_input (rq_input_hash rq) = Ok chain → transacts m → transacts (log_failures c rq chain m).
Proof.
  intros Hc Hm w. unfold log_failures. specialize (Hm w). destruct (m w) as [[a|e] w1]; [exact Hm|].
  case_bool_decide; [exact Hm|]. etrans; [exact Hm|].
  apply transacts_bind; [apply transacts_metrics|intros _].
  apply transacts_bind; [|intros _; apply transacts_end]. apply transacts_tables. intros t. by eapply step_failure.
Qed.

Lemma call_transacts c value : transacts (calculate_and_persist coerce_int rules c value).
Proof.
  unfold calculate_and_persist. apply transacts_bind; [apply transacts_keys|]. intros x.
  apply transacts_known. intros chain Hc. apply transacts_bind; [apply transacts_metrics|intros _].
  apply transacts_failures; [exact Hc|]. apply transacts_bind; [apply transacts_metrics|intros _].
  apply transacts_bind.
  - apply transacts_tables. intros t. by apply step_persist.
  - intros [e|p]; apply transacts_bind; apply transacts_metrics || (intros _; apply transacts_end).
Qed.

Lemma runs_compose t t' : rtc db_step t t' → ∃ l, run_all l (log_of t) = Some (log_of t').
Proof.
  induction 1 as [t|t1 t2 t3 H _ (l & Hl)]; [by exists []|]. destruct (db_step_refines _ _ H) as [k Hk].
  exists (k ++ l). by rewrite run_all_app, Hk.
Qed.

(** C8: a call of [calculate_and_persist] refines the concurrent log.  Whatever
    payload, clock and state it is called in, and however it ends, the request
    hashes, audit rows and identifiers it leaves in the tables are those of a
    run of the statements of EvidenceLog: one transaction that commits or is
    rolled back, and perhaps one that logs the failure. *)
Theorem service_refines_log c value w :
  ∃ l, run_all l (log_of (wd_tables w)) =
       Some (log_of (wd_tables (calculate_and_persist coerce_int rules c value w).2)).
Proof. apply runs_compose, call_transacts. Qed.
End calls.

(** ** Metrics over a call *)

Section metrics_kept.
Context `{BK : Backend} {F : Type} `{!PyFloat F}.
#[local] Notation service := (service (F:=F)).

Definition keeps_metrics {A} (m : service A) : Prop :=
  ∀ w, metrics_ok (wd_metrics w) → metrics_ok (wd_metrics (m w).2).

Lemma kept_bind {A B} (m : service A) (f : A → service B) :
  keeps_metrics m → (∀ a, keeps_metrics (f a)) → keeps_metrics (m ≫= f).
Proof.
  intros Hm Hf w Hw. unfold mbind, service_bind. specialize (Hm w Hw). destruct (m w) as [[a|e] w1]; [by apply Hf|exact Hm].
Qed.

Lemma kept_known {A} (r : result A) : keeps_metrics (known r).
Proof. by intros w. Qed.
Lemma kept_keys {A} (m : logged A) : keeps_metrics (on_keys m).
Proof. intros w Hw. unfold on_keys. by destruct (m (wd_keys w)). Qed.
Lemma kept_tables {A} (m : statement A) : keeps_metrics (on_tables m).
Proof. intros w Hw. unfold on_tables. by destruct (m (wd_tables w)). Qed.

Lemma kept_metrics (f : ChainMetrics (F:=F) → result (ChainMetrics (F:=F))) :
  (∀ m m', f m = Ok m' → metrics_ok m → metrics_ok m') → keeps_metrics (on_metrics f).
Proof. intros Hf w Hw. unfold on_metrics. destruct (f (wd_metrics w)) as [m'|e] eqn:E; [by eapply Hf|exact Hw]. Qed.

Ltac kept_records := apply kept_metrics; intros m m' H (? & ? & ? & ? & ?);
  apply bind_ok in H as (l & Hl%py_update_length & H); injection H as <-; split_and!; cbn; congruence.

Lemma kept_recorders c ms :
  keeps_metrics (on_metrics (record_request c)) ∧ keeps_metrics (on_metrics (record_success c)) ∧
  keeps_metrics (on_metrics (record_duplicate c)) ∧ keeps_metrics (on_metrics (record_error c)) ∧
  keeps_metrics (on_metrics (record_lock_wait_ms c ms)).
Proof.
  unfold record_request, record_success, record_duplicate, record_error, record_lock_wait_ms. split_and!; kept_records.
Qed.

Lemma kept_failures {A} c rq chain (m : service A) : keeps_metrics m → keeps_metrics (log_failures c rq chain m).
Proof.
  intros Hm w Hw. unfold log_failures. specialize (Hm w Hw). destruct (m w) as [[a|e] w1]; [exact Hm|].
  case_bool_decide; [exact Hm|].
  apply kept_bind; [apply (kept_recorders chain (rd_lock_wait c))|intros _|exact Hm].
  apply kept_bind; [apply kept_tables|intros _; apply kept_known].
Qed.

Lemma call_keeps_metrics coerce_int rules c value : keeps_metrics (calculate_and_persist coerce_int rules c value).
Proof.
  unfold calculate_and_persist. apply kept_bind; [apply kept_keys|intros x]. apply kept_bind; [apply kept_known|intros chain].
  destruct (kept_recorders chain (rd_lock_wait c)) as (H1 & H2 & H3 & _ & H5).
  apply kept_bind; [exact H1|intros _]. apply kept_failures. apply kept_bind; [exact H5|intros _].
  apply kept_bind; [apply kept_tables|]. intros [e|p]; (apply kept_bind; [assumption|intros _; apply kept_known]).
Qed.
End metrics_kept.

(** ** How a call ends *)

Section outcomes.
Context `{BK : Backend} {F : Type} `{!PyFloat F}.
Context (coerce_int : pyval → option Z) (rules : list TariffRule).
Context (c : readings F) (value : list (string * pyval)) (w : world F) (x : computed) (k : key_log) (chain : Z).
Context (rq : RequestRecord) (rs : ResultRecord) (pf : ProofRecord).
Context (Hphase : compute_phase coerce_int rules (rd_now c) value (wd_keys w) = (Ok x, k)).
Context (Hx : computed_records (rd_created_at c) x = (rq, rs, pf)).
Context (Hc : chain_id_for_input (rq_input_hash rq) = Ok chain) (Hm : metrics_ok (wd_metrics w)).

(** After the first phase: the transaction, between two counters. *)
Lemma call_begun :
  ∃ m, metrics_ok m ∧
    calculate_and_persist coerce_int rules c value w =
    log_failures c rq chain
      (outcome ← on_tables (transaction (persist_body c x chain)); settle_persist chain outcome)
      (mkWorld (wd_tables w) k m).
Proof using All.
  destruct (recorded chain (rd_lock_wait c) (chain_range _ _ Hc)) as (H1 & _ & _ & _ & H5).
  destruct (H1 _ Hm) as (m1 & E1 & Hm1). destruct (H5 _ Hm1) as (m2 & E2 & Hm2). exists m2. split; [exact Hm2|].
  unfold calculate_and_persist, mbind, service_bind, on_keys. rewrite Hphase, Hx. cbn [fst]. unfold known.
  rewrite Hc. unfold on_metrics. cbn [wd_metrics]. rewrite E1. unfold log_failures. cbn [wd_metrics]. rewrite E2.
  reflexivity.
Qed.

Lemma call_duplicate :
  rq_input_hash rq ∈ map rq_input_hash (tb_requests (wd_tables w)) →
  ∃ row m, event_row (wd_tables w) chain row "calculation_rejected_duplicate" (rq_id rq)
             (reason_event (rq_input_hash rq) "duplicate_input_hash") (rd_created_at c) ∧ metrics_ok m ∧
    calculate_and_persist coerce_int rules c value w = (Raise duplicate_error, mkWorld (with_event row (wd_tables w)) k m).
Proof using All.
  intros Hd. destruct call_begun as (m & Hm' & ->).
  destruct (persist_duplicate c (wd_tables w) chain x rq rs pf Hx Hd) as (row & Hr & E).
  destruct (recorded chain (rd_lock_wait c) (chain_range _ _ Hc)) as (_ & _ & H3 & _).
  destruct (H3 _ Hm') as (m' & E3 & Hm3). exists row, m'. split; [exact Hr|]. split; [exact Hm3|].
  unfold log_failures, mbind, service_bind, on_tables. cbn [wd_tables]. rewrite E. unfold settle_persist, mbind, service_bind.
  unfold on_metrics. cbn [wd_metrics]. rewrite E3. reflexivity.
Qed.

Lemma call_taken :
  rq_input_hash rq ∉ map rq_input_hash (tb_requests (wd_tables w)) → violates_unique rq rs pf (wd_tables w) = true →
  ∃ m, metrics_ok m ∧
    calculate_and_persist coerce_int rules c value w = (Raise duplicate_error, mkWorld (wd_tables w) k m).
Proof using All.
  intros Hd Hv. destruct call_begun as (m & Hm' & ->). exists m. split; [exact Hm'|].
  unfold log_failures, mbind, service_bind, on_tables. cbn [wd_tables].
  rewrite (persist_taken c (wd_tables w) chain x rq rs pf Hx Hd Hv). reflexivity.
Qed.

Lemma call_stored :
  violates_unique rq rs pf (wd_tables w) = false →
  (∀ row, ∃ r, training_record_of_persisted (wd_tables w) x rq rs pf row = Ok r) →
  ∃ row m, event_row (wd_tables w) chain row "calculation_persisted" (rq_id rq) (persisted_event rq rs pf)
             (rd_created_at c) ∧ metrics_ok m ∧
    calculate_and_persist coerce_int rules c value w =
    (Ok (mkPersisted (cm_response x) (mkEvidence rq rs pf (Some (with_id (tb_next_id (wd_tables w)) row)))),
     mkWorld (with_event row (with_batch rq rs pf (wd_tables w))) k m).
Proof using All.
  intros Hv Htr. destruct call_begun as (m & Hm' & ->).
  destruct (persist_stored c (wd_tables w) chain x rq rs pf Hx Hv) as (row & Hr & E).
  destruct (Htr row) as [r Er]. rewrite Er in E.
  destruct (recorded chain (rd_lock_wait c) (chain_range _ _ Hc)) as (_ & H2 & _).
  destruct (H2 _ Hm') as (m' & E2 & Hm2). exists row, m'. split; [exact Hr|]. split; [exact Hm2|].
  unfold log_failures, mbind, service_bind, on_tables. cbn [wd_tables]. rewrite E. unfold settle_persist, mbind, service_bind.
  unfold on_metrics. cbn [wd_metrics]. rewrite E2. reflexivity.
Qed.
End outcomes.

Lemma training_record_total response e p wh vk d l :
  dict_get "proof" d = Some (PDict l) → ∃ r, build_verified_training_record response e p wh vk d = Ok r.
Proof.
  intros H. unfold build_verified_training_record. rewrite H, hash_payload_free by reflexivity. by eexists.
Qed.

(** ** Honest calculations *)

Section honest.
Context `{BK : Backend} {F : Type} `{!PyFloat F} (HB : complete_backend BK).
Context (coerce_int : pyval → option Z) (validate_response : pyval → result CalculationResponse).
Context (Hz : ∀ z, coerce_int (PInt z) = Some z).
Context (q : ImportCalculationRequest) (rule : TariffRule).
Context (Hq : valid_request q = true) (Hr : rule ∈ TARIFF_RULES) (Hhs : hs_code q = hs_prefix rule).
Context (Hb : in_range q) (Hl : landed_of q rule < CENTS_LIMIT).
#[local] Notation response := (expected_response q rule).
Context (Hjson : validate_response (PDict (dump_response_json response)) = Ok response).
Context (Hpy : validate_response (dump_response response) = Ok response).
#[local] Notation h := (input_hash (integrity response)).
#[local] Notation db_step := (db_step (F:=F)).
#[local] Notation stored := (stored (F:=F)).

(** No row has an identifier that belongs to the request. *)
Definition unused (t : tables) : Prop :=
  let i := deterministic_request_id h in
  h ∉ map rq_input_hash (tb_requests t) ∧ i ∉ map rq_id (tb_requests t) ∧
  deterministic_result_id i (output_hash (integrity response)) ∉ map rs_id (tb_results t) ∧
  ∀ f, deterministic_proof_id i f ∉ map pf_id (tb_proofs t).

(** The verification of an honest calculation. *)
Definition expected_verification : CoreVerifier.VerificationResult :=
  mkVerification VALID "Proof recomputed successfully" h (output_hash (integrity response))
    (trace_hash (integrity response)) (integrity_hash (integrity response)).

Lemma unused_no_violation t created p d vk :
  tables_ok t → unused t →
  let '(rq, rs, pf) := _build_records q response created p d vk in violates_unique rq rs pf t = false.
Proof.
  intros Hok (U1 & U2 & U3 & U4). unfold _build_records, violates_unique.
  cbn [rq_id rq_input_hash rs_id pf_id]. rewrite (ok_results t Hok), (ok_proofs t Hok).
  rewrite !bool_decide_eq_false_2 by auto. reflexivity.
Qed.

(** Evidence of the calculation, as its records are stored, verifies over
    whatever the tables become. *)
Lemma stored_verifies t created p d vk now value k (m : ChainMetrics (F:=F)) :
  valid_artifact (AProof p) → plonk_accepts p → is_ascii (p_proof_blob_hex p) = true →
  bundle_accepts coerce_int TARIFF_RULES d → dict_get "proof" d = Some (PDict (_canonical_proof_payload p)) →
  let '(rq, rs, pf) := _build_records q response created p d vk in
  stored t → in_tables t rq rs pf → model_validate coerce_int value = Ok q →
  ∃ a r w', verify_stored coerce_int TARIFF_RULES validate_response now value (mkWorld t k m) =
      (Ok (mkPersistedVerification expected_verification (Some (mkEvidence rq rs pf a)) r), w') ∧ status r = VALID.
Proof using Hz Hq Hr Hhs Hb Hjson Hpy.
  intros Hvp Hp Hasc Hd Hpd.
  destruct (_build_records q response created p d vk) as [[rq rs] pf] eqn:Er. intros Ht Hin Hv.
  set (a := latest_event (rq_id rq) t).
  assert (match a with None => True | Some a => expected_hash a = Ok (current_hash a) end) as Ha.
  { destruct a as [a'|] eqn:Ea; [|done]. apply (stored_event (F:=F) t); [exact Ht|]. exact (proj1 (latest_event_in _ _ _ Ea)). }
  pose proof (kept_accepted coerce_int validate_response Hz q rule created Hq Hr Hhs Hb Hjson Hpy p d vk a
    Hvp Hp Hasc Hd Hpd Ha) as Hacc. rewrite Er in Hacc.
  destruct (stored_chain_valid (F:=F) t Ht) as (r & Hr' & Hs & _).
  assert (fetch_evidence h t = Some (mkEvidence rq rs pf a)) as Hf.
  { pose proof (f_equal (fun z => rq_input_hash z.1.1) Er) as Eh. cbn [_build_records fst rq_input_hash] in Eh. rewrite Eh.
    unfold fetch_evidence. by rewrite (fetch_stored t rq rs pf (stored_ok (F:=F) t Ht) Hin). }
  pose proof (calculate_expected coerce_int q rule Hz Hq Hr Hhs Hb) as Hresp.
  destruct (accepted_verifies coerce_int TARIFF_RULES validate_response now (tables_repository t) value k
    expected_verification q response (mkEvidence rq rs pf a) (fetch_chain t) r Hv Hresp (f_equal Ok Hf) eq_refl Hr' Hs Hacc)
    as (st' & E & _).
  exists a, r, (mkWorld t st' m). split; [|exact Hs]. unfold verify_stored, on_keys. cbn [wd_keys wd_tables wd_metrics].
  by rewrite E.
Qed.

(** The call stores the records, and they stay. *)
Lemma honest_call_stores c value (w : world F) :
  payload_decimals_wf value → model_validate coerce_int value = Ok q →
  stored (wd_tables w) → metrics_ok (wd_metrics w) → unused (wd_tables w) →
  ∃ p d vk rq rs pf a w', _build_records q response (rd_created_at c) p d vk = (rq, rs, pf) ∧
    calculate_and_persist coerce_int TARIFF_RULES c value w =
      (Ok (mkPersisted response (mkEvidence rq rs pf (Some a))), w') ∧
    rtc db_step (wd_tables w) (wd_tables w') ∧ in_tables (wd_tables w') rq rs pf ∧
    valid_artifact (AProof p) ∧ plonk_accepts p ∧ is_ascii (p_proof_blob_hex p) = true ∧
    bundle_accepts coerce_int TARIFF_RULES d ∧ dict_get "proof" d = Some (PDict (_canonical_proof_payload p)).
Proof using All.
  intros Hwf Hv Hst Hm Hu.
  destruct (phase_computed HB coerce_int validate_response Hz q rule (rd_created_at c) Hq Hr Hhs Hb Hl Hjson Hpy (rd_now c) value
    (wd_keys w) Hwf Hv) as (pk & p & d & vk & k & Ephase & Hvp & Hp & Hasc & Hd & Hpd).
  destruct (partition_total coerce_int Hz q rule Hq Hr Hhs Hb) as [chain Hc].
  pose proof (unused_no_violation (wd_tables w) (rd_created_at c) p d vk (stored_ok (F:=F) _ Hst) Hu) as Hvi.
  destruct (_build_records q response (rd_created_at c) p d vk) as [[rq rs] pf] eqn:Er.
  assert (rq_input_hash rq = h) as Eh by (symmetry; exact (f_equal (fun z => rq_input_hash z.1.1) Er)).
  assert (rs_request_id rs = rq_id rq ∧ pf_request_id pf = rq_id rq) as [Es Ep].
  { pose proof (f_equal (fun z => (rq_id z.1.1, rs_request_id z.1.2, pf_request_id z.2)) Er) as E.
    cbn in E. by injection E as <- <- <-. }
  destruct (call_stored coerce_int TARIFF_RULES c value w (mkComputed q response pk p d vk) k chain rq rs pf Ephase Er
    ltac:(by rewrite Eh) Hm Hvi) as (row & m & _ & _ & E).
  { intros row. unfold training_record_of_persisted. by eapply training_record_total. }
  exists p, d, vk, rq, rs, pf, (with_id (tb_next_id (wd_tables w)) row). eexists.
  split; [exact Er|]. split; [exact E|]. split.
  { pose proof (call_transacts coerce_int TARIFF_RULES c value w) as Ht. by rewrite E in Ht. }
  split; [|auto 10]. cbn [wd_tables]. unfold in_tables. cbn [with_event with_batch tb_requests tb_results tb_proofs].
  assert (result_row rq rs = rs) as -> by (unfold result_row; rewrite <-Es; by destruct rs).
  assert (proof_row rq pf = pf) as -> by (unfold proof_row; rewrite <-Ep; by destruct pf).
  split_and!; [set_solver..|exact Es|exact Ep].
Qed.
End honest.

(** What was calculated and persisted verifies ever after.  With a complete
    backend and a validation of responses that reads back their dumps, a call of [calculate_and_persist] on an honest payload, over
    tables the service has stored and in which nothing is kept for the request,
    returns the engine's response with its evidence.  After any later
    transactions of the service, duplicates and failures included, and whatever
    the key log by then, [verify_persisted] answers the same payload, or any
    other that validates to the same request, with VALID, the evidence that was
    returned but for its latest event, and a VALID audit chain. *)
Theorem calculate_then_verify `{BK : Backend} {F : Type} `{!PyFloat F} coerce_int validate_response value q rule
    (c : readings F) (w : world F) :
  complete_backend BK →
  (∀ z, coerce_int (PInt z) = Some z) → payload_decimals_wf value →
  model_validate coerce_int value = Ok q → rule ∈ TARIFF_RULES → hs_code q = hs_prefix rule →
  in_range q → landed_of q rule < CENTS_LIMIT →
  let response := expected_response q rule in
  validate_response (PDict (dump_response_json response)) = Ok response →
  validate_response (dump_response response) = Ok response →
  stored (F:=F) (wd_tables w) → metrics_ok (wd_metrics w) → unused q rule (wd_tables w) →
  ∃ e w', calculate_and_persist coerce_int TARIFF_RULES c value w = (Ok (mkPersisted response e), w') ∧
    ∀ t now value' k (m : ChainMetrics (F:=F)), rtc (db_step (F:=F)) (wd_tables w') t → model_validate coerce_int value' = Ok q →
      ∃ a r w'', verify_stored coerce_int TARIFF_RULES validate_response now value' (mkWorld t k m) =
          (Ok (mkPersistedVerification (expected_verification q rule)
                 (Some (mkEvidence (ev_request e) (ev_result e) (ev_proof e) a)) r), w'') ∧ status r = VALID.
Proof.
  intros HB Hz Hwf Hv Hr Hhs Hb Hl response Hjson Hpy Hst Hm Hu.
  destruct (validated_valid _ _ _ Hwf Hv) as [Hq _].
  destruct (honest_call_stores HB coerce_int validate_response Hz q rule Hq Hr Hhs Hb Hl Hjson Hpy c value w Hwf Hv
    Hst Hm Hu) as (p & d & vk & rq & rs & pf & a & w' & Er & E & Hsteps & Hin & Hvp & Hp & Hasc & Hd & Hpd).
  exists (mkEvidence rq rs pf (Some a)), w'. split; [exact E|]. intros t now value' k m Ht Hv'.
  pose proof (stored_verifies coerce_int validate_response Hz q rule Hq Hr Hhs Hb Hjson Hpy t (rd_created_at c)
    p d vk now value' k m Hvp Hp Hasc Hd Hpd) as H. fold response in H, Er. rewrite Er in H. apply H.
  - unfold stored. etrans; [exact Hst|]. by etrans.
  - destruct (steps_grow _ _ Ht) as [Hg _]. by eapply in_tables_grows.
  - exact Hv'.
Qed.

(** ** Repeated requests *)

(** A request that is known is rejected, and the rejection becomes the audit
    event of the evidence.  Asked again for an honest calculation whose input
    hash is in the tables, [calculate_and_persist] raises
    [DuplicateInputHashError] after it has committed one event and nothing else;
    since the event refers to the same request, the evidence comes back with
    the rejection in the place of the event that recorded it. *)
Theorem repeat_is_rejected `{BK : Backend} {F : Type} `{!PyFloat F} coerce_int validate_response value q rule
    (c : readings F) (w : world F) :
  complete_backend BK →
  (∀ z, coerce_int (PInt z) = Some z) → payload_decimals_wf value →
  model_validate coerce_int value = Ok q → rule ∈ TARIFF_RULES → hs_code q = hs_prefix rule →
  in_range q → landed_of q rule < CENTS_LIMIT →
  let response := expected_response q rule in
  let h := input_hash (integrity response) in
  validate_response (PDict (dump_response_json response)) = Ok response →
  validate_response (dump_response response) = Ok response →
  stored (F:=F) (wd_tables w) → metrics_ok (wd_metrics w) → h ∈ map rq_input_hash (tb_requests (wd_tables w)) →
  ∃ row w', calculate_and_persist coerce_int TARIFF_RULES c value w = (Raise duplicate_error, w') ∧
    wd_tables w' = with_event row (wd_tables w) ∧ event_type row = "calculation_rejected_duplicate" ∧
    ∃ e, fetch_evidence h (wd_tables w) = Some e ∧
      fetch_evidence h (wd_tables w') =
      Some (mkEvidence (ev_request e) (ev_result e) (ev_proof e) (Some (with_id (tb_next_id (wd_tables w)) row))).
Proof.
  intros HB Hz Hwf Hv Hr Hhs Hb Hl response h Hjson Hpy Hst Hm Hk.
  destruct (validated_valid _ _ _ Hwf Hv) as [Hq _].
  destruct (phase_computed HB coerce_int validate_response Hz q rule (rd_created_at c) Hq Hr Hhs Hb Hl Hjson Hpy
    (rd_now c) value (wd_keys w) Hwf Hv) as (pk & p & d & vk & k & Ephase & _).
  destruct (partition_total coerce_int Hz q rule Hq Hr Hhs Hb) as [chain Hc].
  destruct (computed_records (rd_created_at c) (mkComputed q (expected_response q rule) pk p d vk)) as [[rq rs] pf] eqn:Er.
  assert (rq_input_hash rq = h) as Eh by (symmetry; exact (f_equal (fun z => rq_input_hash z.1.1) Er)).
  destruct (call_duplicate coerce_int TARIFF_RULES c value w _ k chain rq rs pf Ephase Er ltac:(by rewrite Eh) Hm
    ltac:(by rewrite Eh)) as (row & m & (_ & _ & _ & Href & Hty & _) & _ & E).
  exists row. eexists. split; [exact E|]. cbn [wd_tables]. split; [done|]. split; [exact Hty|].
  pose proof (stored_ok (F:=F) _ Hst) as Hok. apply elem_of_map in Hk as (r & Hh & Hr0).
  destruct (known_in_tables _ r Hok Hr0) as (s & pr & Hin).
  assert (fetch_evidence h (wd_tables w) = Some (mkEvidence r s pr (latest_event (rq_id r) (wd_tables w)))) as Hf.
  { rewrite Hh. unfold fetch_evidence. by rewrite (fetch_stored _ r s pr Hok Hin). }
  eexists. split; [exact Hf|]. cbn [ev_request ev_result ev_proof].
  assert (rq_id rq = rq_id r) as Eid.
  { rewrite (records_request_id _ _ _ _ _ Er), Eh, Hh. symmetry. pose proof (ok_derived _ Hok) as Hd.
    rewrite Forall_forall in Hd. by apply Hd. }
  rewrite <-(latest_event_new (F:=F) (wd_tables w) row (rq_id r)); [|exact Hst|by rewrite <-Eid].
  refine (evidence_stays (wd_tables w) (with_event row (wd_tables w)) h _ _ _ Hf); [by destruct Hok|].
  split; cbn [with_event tb_requests tb_results tb_proofs tb_audit]; try done. by eexists.
Qed.

(** Evidence is append only.  Once the tables hold evidence for an input hash,
    the join finds exactly one row for it, with the same three records, after
    whatever transactions of the service; its event is the latest that refers
    to the request. *)
Theorem evidence_append_only {F : Type} `{!PyFloat F} t t' h e :
  stored (F:=F) t → rtc (db_step (F:=F)) t t' → fetch_evidence h t = Some e →
  evidence_rows h t' = [mkEvidence (ev_request e) (ev_result e) (ev_proof e)
                          (latest_event (rq_id (ev_request e)) t')].
Proof.
  intros Hst Ht He. destruct (steps_grow _ _ Ht) as [Hg Hok]. apply fetched_in_tables in He as (Hin & <- & _).
  apply fetch_stored; [by apply Hok, (stored_ok (F:=F))|by eapply in_tables_grows].
Qed.

(** ** Examples *)

#[local] Notation ratio := (Z * positive)%type.

Definition sample_readings : readings ratio := mkReadings "t0" sample_time sample_time (0, 1%positive).
Definition empty_world : world ratio := mkWorld empty_tables empty_log reset.

#[export] Instance world_inhabited : Inhabited (world ratio) := populate empty_world.

(** The reference request, calculated over empty tables. *)
Definition sample_call : result PersistedCalculationResponse * world ratio :=
  calculate_and_persist (BK:=digest_backend) (F:=ratio) coerce_plain TARIFF_RULES sample_readings REFERENCE_REQUEST empty_world.

Lemma empty_stored : stored (F:=ratio) empty_tables.
Proof. apply rtc_refl. Qed.

Lemma empty_unused : unused sample_request sample_rule empty_tables.
Proof. unfold unused. cbn [empty_tables tb_requests tb_results tb_proofs map]. split_and!; [..|intros f]; apply not_elem_of_nil. Qed.

Example calculate_then_verify_witness :
  let response := expected_response sample_request sample_rule in
  ∃ e w', sample_call = (Ok (mkPersisted response e), w') ∧
    ∀ t now value' k (m : ChainMetrics (F:=ratio)), rtc (db_step (F:=ratio)) (wd_tables w') t →
      model_validate coerce_plain value' = Ok sample_request →
      ∃ a r w'', verify_stored (BK:=digest_backend) (F:=ratio) coerce_plain TARIFF_RULES (accept_one sample_response) now value'
          (mkWorld t k m) =
          (Ok (mkPersistedVerification (expected_verification sample_request sample_rule)
                 (Some (mkEvidence (ev_request e) (ev_result e) (ev_proof e) a)) r), w'') ∧ status r = VALID.
Proof.
  apply (calculate_then_verify coerce_plain (accept_one sample_response) REFERENCE_REQUEST sample_request sample_rule);
    [exact digest_backend_complete|reflexivity|exact reference_decimals_wf
    |vm_compute; reflexivity|apply sample_rule_in|reflexivity| |vm_compute; reflexivity|vm_compute; reflexivity
    |vm_compute; reflexivity|exact empty_stored|exact reset_ok|exact empty_unused].
  unfold in_range, CENTS_LIMIT. vm_compute. done.
Defined.

(** The tables after the call, and what they hold. *)
Definition sample_tables : tables := wd_tables sample_call.2.

Lemma sample_stored : stored (F:=ratio) sample_tables.
Proof. unfold stored, sample_tables, sample_call. exact (call_transacts (BK:=digest_backend) (F:=ratio) coerce_plain TARIFF_RULES sample_readings REFERENCE_REQUEST empty_world). Qed.

Definition stored_evidence : PersistedEvidenceBundle :=
  default no_evidence (fetch_evidence (input_hash (integrity sample_response)) sample_tables).

(** The tables after the same call again. *)
Definition repeated_tables : tables :=
  wd_tables (calculate_and_persist (BK:=digest_backend) (F:=ratio) coerce_plain TARIFF_RULES sample_readings
               REFERENCE_REQUEST sample_call.2).2.

Lemma repeated_steps : rtc (db_step (F:=ratio)) sample_tables repeated_tables.
Proof.
  unfold sample_tables, repeated_tables. generalize sample_call. intros w.
  exact (call_transacts (BK:=digest_backend) (F:=ratio) coerce_plain TARIFF_RULES sample_readings REFERENCE_REQUEST w.2).
Qed.

Example evidence_append_only_witness :
  let e := stored_evidence in
  evidence_rows (input_hash (integrity sample_response)) repeated_tables =
  [mkEvidence (ev_request e) (ev_result e) (ev_proof e) (latest_event (rq_id (ev_request e)) repeated_tables)].
Proof.
  refine (evidence_append_only (F:=ratio) sample_tables repeated_tables (input_hash (integrity sample_response))
    stored_evidence sample_stored repeated_steps _).
  vm_compute. reflexivity.
Defined.

Example repeat_is_rejected_witness :
  let response := expected_response sample_request sample_rule in
  let h := input_hash (integrity response) in
  let w := sample_call.2 in
  ∃ row w', calculate_and_persist (BK:=digest_backend) (F:=ratio) coerce_plain TARIFF_RULES sample_readings REFERENCE_REQUEST w =
      (Raise duplicate_error, w') ∧
    wd_tables w' = with_event row (wd_tables w) ∧ event_type row = "calculation_rejected_duplicate" ∧
    ∃ e, fetch_evidence h (wd_tables w) = Some e ∧
      fetch_evidence h (wd_tables w') =
      Some (mkEvidence (ev_request e) (ev_result e) (ev_proof e) (Some (with_id (tb_next_id (wd_tables w)) row))).
Proof.
  apply (repeat_is_rejected coerce_plain (accept_one sample_response) REFERENCE_REQUEST sample_request sample_rule);
    [exact digest_backend_complete|reflexivity|exact reference_decimals_wf
    |vm_compute; reflexivity|apply sample_rule_in|reflexivity| |vm_compute; reflexivity|vm_compute; reflexivity
    |vm_compute; reflexivity|exact sample_stored| |].
  - unfold in_range, CENTS_LIMIT. vm_compute. done.
  - vm_compute. split_and!; reflexivity.
  - apply (bool_decide_unpack _). vm_compute. exact I.
Defined.
