(* ===== verification/Deployment.v ===== *)
(** * The deployed service: its routes over its tables

    [serve] runs any handler of api/routes.py against the evidence service over
    its tables; a history is any sequence of requests, with whatever the proof
    queue's worker and the runtime thread do between them.  What a POST to
    /calculate has answered, a POST to /verify confirms after any history. *)
From S2P Require Import EvidenceProps RoutesProps.
From S2P Require Export Routes Tables ServiceProps.

Local Open Scope Z_scope.

(** ** What handlers do to the world *)

Section within.
Context {W : Type} (R : relation W) `{!PreOrder R}.

(** [m] moves the world along [R] and leaves the configuration. *)
Definition within {A} (m : handler (W:=W) A) : Prop := ∀ s,
  R (ap_world s) (ap_world (m s).2) ∧ ap_service (m s).2 = ap_service s.

Lemma within_bind {A B} (m : handler (W:=W) A) (f : A → handler B) :
  within m → (∀ a, within (f a)) → within (m ≫= f).
Proof using All.
  intros Hm Hf s. unfold mbind, handler_bind. destruct (Hm s) as [H1 H2]. destruct (m s) as [[a|o] s1]; [|done].
  destruct (Hf a s1) as [H3 H4]. split; [by etrans|]. cbn [snd] in H2. congruence.
Qed.

(** A handler that answers from the state, or changes another part of it. *)
Lemma within_elsewhere {A} (m : handler (W:=W) A) :
  (∀ s, ap_world (m s).2 = ap_world s ∧ ap_service (m s).2 = ap_service s) → within m.
Proof using All. intros H s. by destruct (H s) as [-> ->]. Qed.

Lemma within_ends {A} (x : A + outcome) : within (ends x).
Proof using All. by apply within_elsewhere. Qed.
Lemma within_raise {A} st d : within (http_raise (A:=A) st d).
Proof using All. by apply within_elsewhere. Qed.
Lemma within_lift {A} (r : result A) : within (lift_result r).
Proof using All. apply within_elsewhere. intros s. by destruct r. Qed.
Lemma within_service : within _service_or_503.
Proof using All. apply within_elsewhere. intros s. unfold _service_or_503. by destruct (ap_service s) eqn:E. Qed.
Lemma within_training : within _training_service_or_503.
Proof using All. apply within_elsewhere. intros s. unfold _training_service_or_503. by destruct (ap_training s). Qed.
Lemma within_runtime f : within (on_runtime f).
Proof using All. by apply within_elsewhere. Qed.

Lemma within_submit ch r w th : within (submit ch r w th).
Proof using All.
  apply within_elsewhere. intros s. unfold submit. by destruct (submit_check _ _ _ _ _ _ _ _) as [[id [j|]]|e].
Qed.

Lemma within_api_key r : within (_require_api_key r).
Proof using All.
  apply within_elsewhere. intros s. unfold _require_api_key. destruct (negb _); [done|].
  destruct (hr_api_key r) as [[|c k]|]; [done| |done].
  by destruct (authenticate (hr_today r) (String c k) (ap_keys s)) as [[rec|] ks].
Qed.

Lemma within_rate r : within (check_rate r).
Proof using All.
  apply within_elsewhere. intros s. unfold check_rate. destruct (allow _ _ _) as [res l]. by destruct (allowed res).
Qed.

Lemma within_in_world {A} (f : W → result A * W) : (∀ w, R w (f w).2) → within (in_world f).
Proof using All.
  intros Hf s. unfold in_world. specialize (Hf (ap_world s)). by destruct (f (ap_world s)) as [[a|e] w].
Qed.

Lemma within_try {A} thr f (m : handler (W:=W) A) : within m → within (try_except thr f m).
Proof using All.
  intros Hm s. specialize (Hm s). unfold try_except. destruct (m s) as [[a|[st d|e]] s1]; [exact Hm| |].
  - destruct thr; [exact Hm|]. by destruct (f None).
  - by destruct (f (Some e)).
Qed.

Lemma within_guarded {A} (m : handler (W:=W) A) : within m → within (guarded m).
Proof using All.
  intros Hm s. unfold guarded. destruct (acquire (ap_queue s)) as [[u|e] g]; [|by split].
  match goal with |- context [m ?s0] => destruct (Hm s0) as [H1 H2]; destruct (m s0) as [x s1] end. by split.
Qed.
End within.

#[local] Hint Resolve within_bind within_ends within_raise within_lift within_service within_training within_runtime
  within_submit within_api_key within_rate within_in_world within_try within_guarded : within.

Lemma within_admitted {W} (R : relation W) `{!PreOrder R} r : within R (admitted r).
Proof. unfold admitted. auto 8 with within. Qed.

#[local] Hint Resolve within_admitted : within.

(** ** Serving requests *)

Section deployment.
Context `{BK : Backend} {F : Type} `{!PyFloat F}.
Context (coerce_int : pyval → option Z) (validate_response : pyval → result CalculationResponse) (circuit : string).

Inductive endpoint :=
  | PostCalculate | PostRun | PostVerify | PostProve | PostStart | PostStop
  | GetProof (task_id : string) | GetDataset (limit : Z) | GetMoat (limit : Z)
  | GetHealth | GetStatus | GetDashboard | GetMetrics.

#[local] Notation app := (application (W:=world F)).

Definition post_calculate (c : readings F) : http_request → handler (W:=world F) calculate_reply :=
  calculate coerce_int (calculate_and_persist coerce_int TARIFF_RULES c).

Definition post_run (c : readings F) : http_request → handler (W:=world F) PersistedCalculationResponse :=
  Routes.run (calculate_and_persist coerce_int TARIFF_RULES c).

Definition post_verify (c : readings F) : http_request → handler (W:=world F) verify_reply :=
  Routes.verify coerce_int (verify_stored coerce_int TARIFF_RULES validate_response (rd_now c)).

Definition export (c : readings F) (limit : Z) : world F → result VerifiedDatasetExport * world F :=
  export_stored coerce_int TARIFF_RULES validate_response (rd_now c) (rd_created_at c) limit.

Definition audit_chain_of (w : world F) : result AuditChainVerificationResult :=
  service_audit_chain (Some (tables_repository (wd_tables w))).

(** What a request leaves behind. *)
Definition serve (c : readings F) (e : endpoint) (r : http_request) (s : app) : app :=
  match e with
  | PostCalculate => (post_calculate c r s).2
  | PostRun => (post_run c r s).2
  | PostVerify => (post_verify c r s).2
  | PostProve => (prove coerce_int TARIFF_RULES circuit r s).2
  | PostStart => (start_route s).2
  | PostStop => (stop_route s).2
  | GetProof id => (get_proof id r s).2
  | GetDataset limit => (training_dataset (export c) limit r s).2
  | GetMoat limit => (training_moat (F:=F) (export c) (rd_created_at c) limit r s).2
  | GetHealth => (healthz s).2
  | GetStatus => (status_route s).2
  | GetDashboard => (dashboard_route audit_chain_of s).2
  | GetMetrics => (metrics_route (wd_metrics (ap_world s)) s).2
  end.

(** A request is served, or another thread works on what is not the service's:
    the jobs of the proof queue, the runtime controller, the counters. *)
Inductive served (s : app) : app → Prop :=
  | served_request c e r : served s (serve c e r s)
  | served_elsewhere s' : ap_world s' = ap_world s → ap_service s' = ap_service s → served s s'.

#[local] Notation db_step := (db_step (F:=F)).
#[local] Notation stored := (stored (F:=F)).

(** Transactions on the tables; the metrics keep one counter per partition. *)
Definition tables_move (w w' : world F) : Prop :=
  rtc db_step (wd_tables w) (wd_tables w') ∧ (metrics_ok (wd_metrics w) → metrics_ok (wd_metrics w')).

#[local] Instance tables_move_preorder : PreOrder tables_move.
Proof.
  split; [intros w; split; [apply rtc_refl|done]|]. intros w1 w2 w3 [H1 H2] [H3 H4]. split; [|by auto].
  eapply rtc_trans; [exact H1|exact H3].
Qed.

Lemma keys_move {A} (m : logged A) w : tables_move w (on_keys m w).2.
Proof. split; [apply (transacts_keys m)|]. unfold on_keys. by destruct (m (wd_keys w)). Qed.

Lemma verify_stored_moves now value w :
  tables_move w (verify_stored (F:=F) coerce_int TARIFF_RULES validate_response now value w).2.
Proof. apply keys_move. Qed.

Lemma export_moves c limit w : tables_move w (export c limit w).2.
Proof. apply keys_move. Qed.

Lemma call_moves c value w : tables_move w (calculate_and_persist (F:=F) coerce_int TARIFF_RULES c value w).2.
Proof. split; [apply call_transacts|apply call_keeps_metrics]. Qed.

#[local] Hint Resolve tables_move_preorder verify_stored_moves export_moves call_moves : within.

Lemma post_calculate_within c r : within tables_move (post_calculate c r).
Proof. unfold post_calculate, calculate, record_persisted. auto 12 with within. Qed.

Lemma post_run_within c r : within tables_move (post_run c r).
Proof.
  unfold post_run, Routes.run, record_persisted. apply within_bind; [apply _|auto with within|].
  intros [|p l]; auto 12 with within.
Qed.

Lemma post_verify_within c r : within tables_move (post_verify c r).
Proof.
  unfold post_verify, Routes.verify. apply within_bind; [apply _|auto with within|]. intros payload s.
  unfold verify_body_. assert (within tables_move (check_persisted coerce_int
    (verify_stored coerce_int TARIFF_RULES validate_response (rd_now c)) payload)) as H
    by (unfold check_persisted; auto 8 with within).
  specialize (H s). by destruct (check_persisted _ _ payload s) as [[v|o] s1].
Qed.

Lemma serve_within c e r s :
  tables_move (ap_world s) (ap_world (serve c e r s)) ∧ ap_service (serve c e r s) = ap_service s.
Proof.
  destruct e; unfold serve; try by split.
  - apply post_calculate_within.
  - apply post_run_within.
  - apply post_verify_within.
  - apply (within_bind tables_move); [auto with within|]. intros p. apply within_try; [apply _|].
    apply within_guarded, within_bind; [apply _|apply _|auto with within|]. intros u.
    apply within_bind; [apply _|auto with within|]. intros packet. cbv zeta. auto with within.
  - unfold start_route, _service_or_503, mbind, handler_bind. destruct (ap_service s) eqn:E; cbn; by split.
  - apply (within_bind tables_move); [auto with within|]. intros u. apply within_elsewhere; [apply _|]. intros s'.
    unfold read_task. by destruct (get_task _ _).
  - unfold training_dataset, check_limit. apply (within_bind tables_move); [auto with within|]. intros u.
    apply within_bind; [apply _|by case_match; auto with within|]. auto 12 with within.
  - unfold training_moat, check_limit. apply (within_bind tables_move); [auto with within|]. intros u.
    apply within_bind; [apply _|by case_match; auto with within|]. auto 12 with within.
  - unfold dashboard_route. destruct (ap_service s) eqn:E; [|by split]. by destruct (audit_chain_of _).
Qed.

Lemma history_moves s s' : rtc served s s' →
  tables_move (ap_world s) (ap_world s') ∧ ap_service s' = ap_service s.
Proof.
  induction 1 as [s|s1 s2 s3 H _ [IH1 IH2]]; [done|]. destruct H as [c e r|s' Hw Hs].
  - destruct (serve_within c e r s1) as [H1 H2]. split; [by etrans|congruence].
  - rewrite Hw in IH1. split; [done|congruence].
Qed.

Lemma history_stored s s' : rtc served s s' → stored (wd_tables (ap_world s)) → metrics_ok (wd_metrics (ap_world s)) →
  stored (wd_tables (ap_world s')) ∧ metrics_ok (wd_metrics (ap_world s')).
Proof.
  intros Hh Hst Hm. destruct (history_moves s s' Hh) as [[Ht Hk] _]. split; [|by apply Hk].
  eapply rtc_trans; [exact Hst|exact Ht].
Qed.

Lemma served_again c e r s : rtc served s (serve c e r (serve c e r s)).
Proof. apply rtc_l with (serve c e r s); [apply served_request|]. apply rtc_once, served_request. Qed.

(** ** Payloads *)

Lemma loaded_value j v : to_payload j = Ok v → ∀ d, v = PDecimal d → decimal_wf d = true.
Proof.
  destruct j; cbn [to_payload]; intros H d ->; try done.
  - unfold float_payload in H. case_bool_decide; [done|]. destruct (decimal_of_string _) eqn:E; [|done].
    injection H as <-. by eapply decimal_of_string_wf.
  - by apply fmap_ok in H as (l' & _ & H).
  - by apply fmap_ok in H as (l' & _ & H).
Qed.

Lemma loaded_decimals_wf r payload : _load_json_payload r = inl payload → payload_decimals_wf payload.
Proof.
  unfold _load_json_payload. intros H k d Hk.
  repeat (case_match; try discriminate H); injection H as <-; [done|]. simplify_eq.
  match goal with E : to_payload ?j = Ok (PDict ?l) |- _ => revert E; rename l into p; rename j into j0 end.
  destruct j0; cbn [to_payload]; intros E; try done; [|by apply fmap_ok in E as (? & _ & ?)|].
  - unfold float_payload in E. case_bool_decide; [done|]. by destruct (decimal_of_string _).
  - apply fmap_ok in E as (p' & E & [= ->]). apply traverse_ok in E.
    apply dict_get_Some_elem in Hk. apply list_elem_of_lookup in Hk as [i Hi].
    eapply Forall2_lookup_r in E as (x & Hx & E); [|exact Hi]. rewrite list_lookup_fmap in Hx.
    apply fmap_Some in Hx as ([k' j] & _ & ->). apply bind_ok in E as (v & Ev & [= -> ->]). by eapply loaded_value.
Qed.

(** ** Answers *)

(** The key, the rate limit, the body and the database let a request through. *)
Record admissible (r : http_request) (s : app) (payload : list (string * pyval)) : Prop := {
  ad_key : authenticated r (ap_keys s);
  ad_rate : allowed (allow (hr_ticks r) (_client_key r) (ap_limiter s)).1 = true;
  ad_payload : _load_json_payload r = inl payload;
  ad_service : ap_service s = true }.

Lemma post_verify_answers c r s payload q v w :
  admissible r s payload → verification_request coerce_int payload = Ok q →
  verify_stored coerce_int TARIFF_RULES validate_response (rd_now c) (model_dump q) (ap_world s) = (Ok v, w) →
  ∃ s', post_verify c r s = (inl (inl v), s').
Proof.
  intros [Ha Hl Hp Hs] Hq Hv. destruct (admitted_intro r s payload Ha Hl Hp) as [s1 H1]. pose proof H1 as H2.
  apply admitted_ok in H2 as (_ & _ & _ & _ & Hw & Hs1 & _).
  eexists. unfold post_verify, Routes.verify. apply handler_bind_ok. exists payload, s1. split; [exact H1|].
  unfold verify_body_, check_persisted, mbind, handler_bind, lift_result. rewrite Hq. unfold _service_or_503.
  rewrite Hs1, Hs. unfold in_world. rewrite Hw, Hv. reflexivity.
Qed.

Lemma post_calculate_answers c r s payload q p w :
  admissible r s payload → _current (ap_queue s) < _max (ap_queue s) → model_validate coerce_int payload = Ok q →
  calculate_and_persist coerce_int TARIFF_RULES c (model_dump q) (ap_world s) = (Ok p, w) →
  ∃ s', post_calculate c r s = (inl (reply_of p), s') ∧ ap_world s' = w ∧ ap_service s' = true.
Proof.
  intros [Ha Hl Hp Hs] Hslot Hq Hc.
  destruct (calculate_complete coerce_int (calculate_and_persist coerce_int TARIFF_RULES c) r s p w) as [s' E].
  { split; try done. by exists payload, q. }
  exists s'. split; [exact E|]. destruct (post_calculate_within c r s) as [_ Hs'].
  unfold post_calculate in Hs'. rewrite E in Hs'. cbn [snd] in Hs'. split; [|congruence].
  apply calculate_sound in E as (p' & [_ _ _ _ (payload' & q' & Hp' & Hq' & Hc')] & _ & _).
  assert (payload' = payload) as -> by congruence. assert (q' = q) as -> by congruence.
  rewrite Hc in Hc'. exact (eq_sym (f_equal snd Hc')).
Qed.

(** What the service raises becomes the status that the clauses of [calculate]
    give it. *)
Lemma post_calculate_raises c r s payload q e w :
  admissible r s payload → _current (ap_queue s) < _max (ap_queue s) → model_validate coerce_int payload = Ok q →
  calculate_and_persist coerce_int TARIFF_RULES c (model_dump q) (ap_world s) = (Raise e, w) →
  let '(st, d) := persist_errors "Unable to calculate landed cost" (Some e) in
  ∃ s', post_calculate c r s = (inr (HttpException st d), s') ∧ ap_world s' = w.
Proof.
  intros [Ha Hl Hp Hs] Hslot Hq Hc. destruct (persist_errors _ (Some e)) as [st d] eqn:Ee.
  destruct (admitted_intro r s payload Ha Hl Hp) as [s1 H1]. pose proof H1 as H2.
  apply admitted_ok in H2 as (_ & _ & _ & Hqu & Hw & Hs1 & _). apply acquire_iff in Hslot. rewrite <-Hqu in Hslot.
  destruct (acquire (ap_queue s1)) as [x g] eqn:Eg. cbn [fst] in Hslot. subst x.
  unfold post_calculate, calculate. unfold mbind at 1, handler_bind at 1. rewrite H1.
  unfold try_except, guarded. rewrite Eg. unfold mbind, handler_bind, lift_result. rewrite Hq.
  unfold _service_or_503. cbn [ap_service]. rewrite Hs1, Hs. unfold in_world. cbn [ap_world]. rewrite Hw, Hc, Ee.
  eexists. split; [reflexivity|]. done.
Qed.
End deployment.

Arguments admissible {F} r s payload.

(** ** What was answered stays true *)

(** C9: what the deployed service has answered, it confirms.  With a complete
    backend and a validation of responses that reads back their dumps, over
    tables the service has stored, an admissible POST to /calculate, with a slot
    of the guard free, of an honest request that nothing is kept for is answered
    with the engine's response.  (Admissible: the caller passes the API key and
    the rate limit, the body is a payload, the service is there.  Honest: for a
    listed code, with amounts of at most 10^22 cents and a landed cost below
    that.)  Then let any
    requests be served, whatever their bodies and answers, with whatever the
    proof queue and the runtime thread do in between: an admissible POST to
    /verify of the same request is answered VALID, with the evidence of the
    first answer, but for its latest event, and a VALID audit chain. *)
Theorem posted_calculations_verify `{BK : Backend} {F : Type} `{!PyFloat F} coerce_int validate_response circuit q rule
    (c : readings F) r payload (s : application (W:=world F)) :
  complete_backend BK → (∀ z, coerce_int (PInt z) = Some z) →
  rule ∈ TARIFF_RULES → hs_code q = hs_prefix rule → in_range q → landed_of q rule < CENTS_LIMIT →
  let response := expected_response q rule in
  validate_response (PDict (dump_response_json response)) = Ok response →
  validate_response (dump_response response) = Ok response →
  admissible r s payload → _current (ap_queue s) < _max (ap_queue s) → model_validate coerce_int payload = Ok q →
  stored (F:=F) (wd_tables (ap_world s)) → metrics_ok (wd_metrics (ap_world s)) →
  unused q rule (wd_tables (ap_world s)) →
  ∃ e s1, post_calculate coerce_int c r s = (inl (reply_of (mkPersisted response e)), s1) ∧
    ∀ s2 c2 r2 payload2, rtc (served coerce_int validate_response circuit) s1 s2 → admissible r2 s2 payload2 →
      verification_request coerce_int payload2 = Ok q →
      ∃ a chain s3, post_verify coerce_int validate_response c2 r2 s2 =
          (inl (inl (mkPersistedVerification (expected_verification q rule)
             (Some (mkEvidence (ev_request e) (ev_result e) (ev_proof e) a)) chain)), s3) ∧ status chain = VALID.
Proof.
  intros HB Hz Hr Hhs Hb Hl response Hjson Hpy Had Hslot Hv Hst Hm Hu.
  pose proof (loaded_decimals_wf r payload (ad_payload _ _ _ Had)) as Hwf.
  destruct (validated_valid _ _ _ Hwf Hv) as [Hq _].
  assert (model_validate coerce_int (model_dump q) = Ok q) as Hd by (by apply revalidate).
  destruct (honest_call_stores HB coerce_int validate_response Hz q rule Hq Hr Hhs Hb Hl Hjson Hpy c (model_dump q)
    (ap_world s) (dump_decimals_wf q Hq) Hd Hst Hm Hu)
    as (p & d & vk & rq & rs & pf & a & w & Er & E & Hsteps & Hin & Hvp & Hp & Hasc & Hbd & Hpd).
  destruct (post_calculate_answers coerce_int c r s payload q _ w Had Hslot Hv E) as (s1 & E1 & Hw & _).
  exists (mkEvidence rq rs pf (Some a)), s1. split; [exact E1|]. intros s2 c2 r2 payload2 Hh Had2 Hv2.
  destruct (history_moves coerce_int validate_response circuit s1 s2 Hh) as [[Ht _] _]. rewrite <-Hw in Hsteps, Hin.
  pose proof (stored_verifies coerce_int validate_response Hz q rule Hq Hr Hhs Hb Hjson Hpy (wd_tables (ap_world s2))
    (rd_created_at c) p d vk (rd_now c2) (model_dump q) (wd_keys (ap_world s2)) (wd_metrics (ap_world s2))
    Hvp Hp Hasc Hbd Hpd) as H. fold response in H, Er. rewrite Er in H.
  destruct H as (a2 & chain & w2 & E2 & Hs).
  - unfold stored. eapply rtc_trans; [exact Hst|]. eapply rtc_trans; [exact Hsteps|exact Ht].
  - destruct (steps_grow _ _ Ht) as [Hg _]. by eapply in_tables_grows.
  - exact Hd.
  - assert (mkWorld (wd_tables (ap_world s2)) (wd_keys (ap_world s2)) (wd_metrics (ap_world s2)) = ap_world s2) as Ew
      by (by destruct (ap_world s2)).
    rewrite Ew in E2. destruct (post_verify_answers coerce_int validate_response c2 r2 s2 payload2 q _ w2 Had2 Hv2 E2)
      as [s3 E3]. exists a2, chain, s3. split; [exact E3|exact Hs].
Qed.

(** C10: a request is persisted once.  With a complete backend and a validation
    of responses that reads back their dumps, when the input hash of an honest
    request is in tables the service has stored and any requests have been served
    since, an admissible POST to /calculate of it, with a slot of the guard free,
    is answered 409; nothing is stored for
    it again, and its rejection is the one event that is logged. *)
Theorem known_requests_conflict `{BK : Backend} {F : Type} `{!PyFloat F} coerce_int validate_response circuit q rule
    (c : readings F) r payload (s0 s : application (W:=world F)) :
  complete_backend BK → (∀ z, coerce_int (PInt z) = Some z) →
  rule ∈ TARIFF_RULES → hs_code q = hs_prefix rule → in_range q → landed_of q rule < CENTS_LIMIT →
  let response := expected_response q rule in
  validate_response (PDict (dump_response_json response)) = Ok response →
  validate_response (dump_response response) = Ok response →
  stored (F:=F) (wd_tables (ap_world s0)) → metrics_ok (wd_metrics (ap_world s0)) →
  input_hash (integrity response) ∈ map rq_input_hash (tb_requests (wd_tables (ap_world s0))) →
  rtc (served coerce_int validate_response circuit) s0 s →
  admissible r s payload → _current (ap_queue s) < _max (ap_queue s) → model_validate coerce_int payload = Ok q →
  ∃ row s', post_calculate coerce_int c r s = (inr (HttpException 409 (exn_msg EvidenceLog.duplicate_error)), s') ∧
    wd_tables (ap_world s') = with_event row (wd_tables (ap_world s)) ∧
    event_type row = "calculation_rejected_duplicate".
Proof.
  intros HB Hz Hr Hhs Hb Hl response Hjson Hpy Hst Hm Hk Hh Had Hslot Hv.
  pose proof (loaded_decimals_wf r payload (ad_payload _ _ _ Had)) as Hwf.
  destruct (validated_valid _ _ _ Hwf Hv) as [Hq _].
  assert (model_validate coerce_int (model_dump q) = Ok q) as Hd by (by apply revalidate).
  destruct (history_moves coerce_int validate_response circuit s0 s Hh) as [[Ht Hmm] _].
  destruct (repeat_is_rejected coerce_int validate_response (model_dump q) q rule c (ap_world s) HB Hz
    (dump_decimals_wf q Hq) Hd Hr Hhs Hb Hl Hjson Hpy) as (row & w & E & Hrow & Hty & _).
  - unfold stored. eapply rtc_trans; [exact Hst|exact Ht].
  - exact (Hmm Hm).
  - destruct (steps_grow _ _ Ht) as [[Hg _ _ _] _]. destruct Hg as [l Hg]. rewrite Hg, map_app. set_solver.
  - destruct (post_calculate_raises coerce_int c r s payload q _ w Had Hslot Hv E) as (s' & E' & Hw).
    exists row, s'. split; [exact E'|]. by rewrite Hw.
Qed.

(** C11: the audit chain is never broken.  Whatever requests a deployment over
    empty tables has served, the dashboard shows the verification of its audit
    chain as VALID, with every event of the log checked. *)
Theorem dashboard_always_valid `{BK : Backend} {F : Type} `{!PyFloat F} coerce_int validate_response circuit
    (s0 s : application (W:=world F)) :
  wd_tables (ap_world s0) = empty_tables → ap_service s0 = true →
  rtc (served coerce_int validate_response circuit) s0 s →
  ∃ d chain, dashboard_route audit_chain_of s = (inl (d, Some chain), s) ∧ status chain = VALID ∧
    checked_rows chain = length (tb_audit (wd_tables (ap_world s))).
Proof.
  intros He Hs0 Hh. destruct (history_moves coerce_int validate_response circuit s0 s Hh) as [[Ht _] Hs].
  rewrite He in Ht.
  destruct (stored_chain_valid (F:=F) (wd_tables (ap_world s)) Ht) as (chain & Hc & Hv & Hn).
  assert (audit_chain_of (ap_world s) = Ok chain) as E by exact Hc.
  eexists _, chain. unfold dashboard_route. rewrite Hs, Hs0, E. auto.
Qed.

(** ** Example *)

#[local] Notation ratio := (Z * positive)%type.

(** The service over empty tables, open to every caller. *)
Definition empty_application : application (W:=world ratio) :=
  mkApplication (mkRateLimiter 60 60 ∅) (mkGuard 200 0 0 0) [] new_controller [] [] true true empty_world.

Definition reference_payload : list (string * pyval) :=
  match _load_json_payload (sample_http reference_json) with inl p => p | inr _ => [] end.

Lemma reference_admissible : admissible (sample_http reference_json) empty_application reference_payload.
Proof. split; [by intros H|vm_compute; reflexivity|vm_compute; reflexivity|reflexivity]. Qed.

Example posted_calculations_verify_witness :
  let response := expected_response sample_request sample_rule in
  let validate := accept_one sample_response in
  ∃ e s1, post_calculate (BK:=toy_backend) (F:=ratio) coerce_plain sample_readings (sample_http reference_json)
            empty_application = (inl (reply_of (mkPersisted response e)), s1) ∧
    ∀ s2 c2 r2 payload2, rtc (served (BK:=toy_backend) (F:=ratio) coerce_plain validate "circuit") s1 s2 →
      admissible r2 s2 payload2 → verification_request coerce_plain payload2 = Ok sample_request →
      ∃ a chain s3, post_verify (BK:=toy_backend) (F:=ratio) coerce_plain validate c2 r2 s2 =
          (inl (inl (mkPersistedVerification (expected_verification sample_request sample_rule)
             (Some (mkEvidence (ev_request e) (ev_result e) (ev_proof e) a)) chain)), s3) ∧ status chain = VALID.
Proof.
  apply (posted_calculations_verify (BK:=toy_backend) coerce_plain (accept_one sample_response) "circuit" sample_request sample_rule
    sample_readings (sample_http reference_json) reference_payload);
    [exact (rust_backend_complete "keys" toy_disk)|reflexivity|apply sample_rule_in|reflexivity|
    |vm_compute; reflexivity|vm_compute; reflexivity|vm_compute; reflexivity|exact reference_admissible|reflexivity
    |vm_compute; reflexivity|exact empty_stored|exact reset_ok|exact empty_unused].
  unfold in_range, CENTS_LIMIT. vm_compute. done.
Defined.

Definition posted_application : application (W:=world ratio) :=
  serve (BK:=digest_backend) (F:=ratio) coerce_plain (accept_one sample_response) "circuit" sample_readings
    PostCalculate (sample_http reference_json) empty_application.

#[local] Notation sample_served := (served (BK:=digest_backend) (F:=ratio) coerce_plain (accept_one sample_response) "circuit").

Lemma posted_history : rtc sample_served empty_application posted_application.
Proof. exact (rtc_once _ _ (served_request _ _ _ empty_application sample_readings PostCalculate (sample_http reference_json))). Qed.

Lemma posted_stored :
  stored (F:=ratio) (wd_tables (ap_world posted_application)) ∧ metrics_ok (wd_metrics (ap_world posted_application)).
Proof. exact (history_stored _ _ _ _ _ posted_history empty_stored reset_ok). Qed.

(** What a repeated request has to find, as one check. *)
Definition finds (h : string) (r : http_request) (s : application (W:=world ratio)) : bool :=
  bool_decide (h ∈ map rq_input_hash (tb_requests (wd_tables (ap_world s)))) && negb (is_enabled (ap_keys s)) &&
  allowed (allow (hr_ticks r) (_client_key r) (ap_limiter s)).1 && ap_service s &&
  (_current (ap_queue s) <? _max (ap_queue s)).

Lemma finds_facts h r s payload : finds h r s = true → _load_json_payload r = inl payload →
  h ∈ map rq_input_hash (tb_requests (wd_tables (ap_world s))) ∧ admissible r s payload ∧
  _current (ap_queue s) < _max (ap_queue s).
Proof.
  unfold finds. rewrite !andb_true_iff, bool_decide_eq_true, negb_true_iff, Z.ltb_lt.
  intros ((((H1 & H2) & H3) & H4) & H5) Hp. split; [done|]. split; [|done]. split; try done.
  intros H. congruence.
Qed.

Lemma posted_checks :
  finds (input_hash (integrity sample_response)) (sample_http reference_json) posted_application = true.
Proof. vm_compute. reflexivity. Qed.

Lemma reference_loads : _load_json_payload (sample_http reference_json) = inl reference_payload.
Proof. vm_compute. reflexivity. Qed.

Lemma posted_facts :
  input_hash (integrity sample_response) ∈ map rq_input_hash (tb_requests (wd_tables (ap_world posted_application))) ∧
  admissible (sample_http reference_json) posted_application reference_payload ∧
  _current (ap_queue posted_application) < _max (ap_queue posted_application).
Proof. exact (finds_facts _ _ _ _ posted_checks reference_loads). Qed.

Example known_requests_conflict_witness :
  ∃ row s', post_calculate (BK:=digest_backend) (F:=ratio) coerce_plain sample_readings (sample_http reference_json)
      posted_application = (inr (HttpException 409 (exn_msg EvidenceLog.duplicate_error)), s') ∧
    wd_tables (ap_world s') = with_event row (wd_tables (ap_world posted_application)) ∧
    event_type row = "calculation_rejected_duplicate".
Proof.
  refine (known_requests_conflict (BK:=digest_backend) (F:=ratio) coerce_plain (accept_one sample_response) "circuit"
    sample_request sample_rule sample_readings (sample_http reference_json) reference_payload posted_application
    posted_application digest_backend_complete (fun z => eq_refl) sample_rule_in
    eq_refl _ _ _ _ (proj1 posted_stored) (proj2 posted_stored) (proj1 posted_facts) (rtc_refl _ _)
    (proj1 (proj2 posted_facts)) (proj2 (proj2 posted_facts)) _); try (vm_compute; reflexivity).
  unfold in_range, CENTS_LIMIT. vm_compute. done.
Defined.

(** The same deployment after the request has been posted twice. *)
Definition busy_application : application (W:=world ratio) :=
  let post := serve (BK:=digest_backend) (F:=ratio) coerce_plain (accept_one sample_response) "circuit" sample_readings
    PostCalculate (sample_http reference_json) in
  post (post empty_application).

Lemma busy_history :
  rtc (served (BK:=digest_backend) (F:=ratio) coerce_plain (accept_one sample_response) "circuit")
    empty_application busy_application.
Proof. exact (served_again _ _ _ sample_readings PostCalculate (sample_http reference_json) empty_application). Qed.

Example dashboard_always_valid_witness :
  ∃ d chain, dashboard_route audit_chain_of busy_application = (inl (d, Some chain), busy_application) ∧
    status chain = VALID ∧ checked_rows chain = length (tb_audit (wd_tables (ap_world busy_application))).
Proof. exact (dashboard_always_valid _ _ _ empty_application busy_application eq_refl eq_refl busy_history). Defined.
