(* ===== verification/Bridge.v ===== *)
(** * The bridge to the native backend (zk/rust_bridge.py)

    Finding or building the binary, running one of its commands on a payload,
    and the log of failures.  The host is an interface: which files there are,
    and what a process prints and leaves on the disk; everything the module
    decides with these answers is here. *)
From S2P Require Export ServerCanonical.

Local Open Scope Z_scope.

(** The module's constants, and the environment it reads them from. *)
Record config := mkConfig {
  is_nt : bool;                    (** [os.name == 'nt'] *)
  PROJECT_ROOT : string;
  RUST_BACKEND_DIR : string;
  manifest_path : string;          (** [RUST_BACKEND_DIR / 'Cargo.toml'] *)
  TARGET_BIN : string;
  CARGO : string;
  VSWHERE : string;
  FALLBACK_VCVARS : string;
  vcvars_under : string → string;  (** [Path(..) / 'VC' / 'Auxiliary' / 'Build' / 'vcvars64.bat'] *)
  old_path : string;               (** [os.environ.get('PATH', '')] *)
  pathsep : string;
  cargo_parent : string }.

(** [subprocess.CompletedProcess] *)
Record completed := mkCompleted { returncode : Z; out : string; err : string }.

(** A command line: its program and arguments, and the text the shell runs. *)
Inductive command_line :=
  | Argv (argv : list string)
  | Shell (text : string).

Record request := mkRequest {
  rq_command : command_line;
  rq_input : option string;
  rq_path : option string;        (** PATH of [env], when it is given *)
  rq_cwd : option string }.

Section bridge.
Context (cfg : config).

(** The disk, of which only the presence of files matters, and the failures. *)
Record host := mkHost { files : list string; FAILURE_LOG : list string }.

Definition exists_ (path : string) (h : host) : bool := bool_decide (path ∈ files h).

(** [subprocess.run]: it may raise ([TimeoutExpired], [OSError]), and it may
    change the disk. *)
Context (subprocess_run : request → list string → result completed * list string).

Definition bridge (A : Type) : Type := host → result A * host.

#[global] Instance bridge_ret : MRet bridge := fun A a h => (Ok a, h).
#[global] Instance bridge_bind : MBind bridge := fun A B f m h =>
  match m h with (Ok a, h) => f a h | (Raise e, h) => (Raise e, h) end.

Definition known {A} (r : result A) : bridge A := fun h => (r, h).

Definition spawn (r : request) : bridge completed := fun h =>
  let '(x, fs) := subprocess_run r (files h) in (x, mkHost fs (FAILURE_LOG h)).

Definition path_exists (path : string) : bridge bool := fun h => (Ok (exists_ path h), h).

Definition _env_with_cargo : string := cargo_parent cfg +:+ pathsep cfg +:+ old_path cfg.

(** [x or y] on texts. *)
Definition or_text (x y : string) : string := if bool_decide (x = "") then y else x.

Definition vswhere_request : request :=
  mkRequest (Argv [VSWHERE cfg; "-latest"; "-products"; "*"; "-requires";
    "Microsoft.VisualStudio.Component.VC.Tools.x86.x64"; "-property"; "installationPath"]) None None None.

Definition fallback_vcvars : bridge (option string) :=
  found ← path_exists (FALLBACK_VCVARS cfg);
  known (Ok (if (found : bool) then Some (FALLBACK_VCVARS cfg) else None)).

(** The candidate that vswhere names, if it is there. *)
Definition named_vcvars (result : completed) : bridge (option string) :=
  let installation_path := str_strip (out result) in
  if (returncode result =? 0) && negb (bool_decide (installation_path = "")) then
    let candidate := vcvars_under cfg installation_path in
    found ← path_exists candidate;
    if (found : bool) then known (Ok (Some candidate)) else fallback_vcvars
  else fallback_vcvars.

Definition _find_vcvars64 : bridge (option string) :=
  if negb (is_nt cfg) then known (Ok None)
  else
    has_vswhere ← path_exists (VSWHERE cfg);
    if (has_vswhere : bool) then result ← spawn vswhere_request; named_vcvars result
    else fallback_vcvars.

Definition in_backend_dir (c : command_line) : request :=
  mkRequest c None (Some _env_with_cargo) (Some (RUST_BACKEND_DIR cfg)).

Definition cargo_build : request :=
  in_backend_dir (Argv [CARGO cfg; "build"; "--release"; "--manifest-path"; manifest_path cfg]).

Definition quoted (s : string) : string := String QUOTE (s +:+ String QUOTE "").

Definition shell_build (vcvars : string) : request :=
  in_backend_dir (Shell ("call " +:+ quoted vcvars +:+ " && " +:+ quoted (CARGO cfg) +:+
    " build --release --manifest-path " +:+ quoted (manifest_path cfg))).

Definition build_request : bridge request :=
  vcvars64 ← _find_vcvars64;
  known (Ok (match vcvars64 with Some v => shell_build v | None => cargo_build end)).

(** What is left to do once there is no binary but a toolchain. *)
Definition build_binary : bridge string :=
  r ← build_request;
  result ← spawn r;
  if negb (returncode result =? 0) then
    known (raise RuntimeError ("Rust backend build failed: " +:+ or_text (str_strip (err result)) (str_strip (out result))))
  else
    built ← path_exists (TARGET_BIN cfg);
    if (built : bool) then known (Ok (TARGET_BIN cfg))
    else known (raise RuntimeError "Rust backend build succeeded but the binary was not created").

Definition ensure_backend_binary : bridge string :=
  built ← path_exists (TARGET_BIN cfg);
  if (built : bool) then known (Ok (TARGET_BIN cfg))
  else
    toolchain ← path_exists (CARGO cfg);
    if (toolchain : bool) then build_binary
    else known (raise RuntimeError ("Rust toolchain is not installed. Expected cargo at " +:+ CARGO cfg)).

(** [payload.get(key, '')] *)
Definition or_empty (key : string) (payload : list (string * pyval)) : pyval :=
  default (PStr "") (dict_get key payload).

Definition failure_record (recorded_at stage : string) (payload : list (string * pyval)) (error : string) : pyval :=
  PDict [("recorded_at", PStr recorded_at); ("stage", PStr stage); ("input_hash", or_empty "input_hash" payload);
         ("trace_hash", or_empty "trace_hash" payload); ("circuit_hash", or_empty "circuit_hash" payload);
         ("error", PStr error)].

Definition _append_failure (recorded_at stage : string) (payload : list (string * pyval)) (error : string)
    : bridge unit := fun h =>
  match canonical_payload (failure_record recorded_at stage payload error) with
  | Ok line => (Ok tt, mkHost (files h) (FAILURE_LOG h ++ [line]))
  | Raise e => (Raise e, h)
  end.

(** A failure is written down before it is raised. *)
Definition fails {A} (recorded_at command : string) (payload : list (string * pyval)) (error message : string) : bridge A :=
  _ ← _append_failure recorded_at command payload error;
  known (raise RuntimeError message).

Definition backend_request (binary command text : string) : request :=
  mkRequest (Argv [binary; command]) (Some text) (Some _env_with_cargo) (Some (PROJECT_ROOT cfg)).

Definition exit_error (r : completed) : string :=
  or_text (str_strip (err r)) (or_text (str_strip (out r)) ("backend exited with code " +:+ str_of_Z (returncode r))).

(** What the answer of the process becomes. *)
Definition read_answer (now command : string) (payload : list (string * pyval)) (r : completed) : bridge json :=
  if negb (returncode r =? 0) then fails now command payload (exit_error r) (exit_error r)
  else
    match json_loads (out r) with
    | Some response => known (Ok response)
    | None => fails now command payload "invalid backend JSON: {}" "Rust backend returned invalid JSON"
    end.

Definition run_backend (now command : string) (payload : list (string * pyval)) : bridge json := fun h =>
  match ensure_backend_binary h with
  | (Raise e, h) =>
      let error := "native Halo2 backend unavailable: " +:+ exn_msg e in
      fails now command payload error error h
  | (Ok binary, h) =>
      (text ← known (canonical_payload (PDict payload));
       answer ← spawn (backend_request binary command text);
       read_answer now command payload answer) h
  end.

(** ** The binary *)

#[local] Notation bin := (TARGET_BIN cfg).

Lemma bridge_ok {A B} (m : bridge A) (f : A → bridge B) h b h' :
  (m ≫= f) h = (Ok b, h') ↔ ∃ a h1, m h = (Ok a, h1) ∧ f a h1 = (Ok b, h').
Proof. unfold mbind, bridge_bind. destruct (m h) as [[a|e] h1]; naive_solver. Qed.

(** [m] does not touch the log of failures. *)
Definition quiet {A} (m : bridge A) : Prop := ∀ h, FAILURE_LOG (m h).2 = FAILURE_LOG h.

Lemma quiet_bind {A B} (m : bridge A) (f : A → bridge B) : quiet m → (∀ a, quiet (f a)) → quiet (m ≫= f).
Proof.
  intros Hm Hf h. unfold mbind, bridge_bind. specialize (Hm h). destruct (m h) as [[a|e] h1]; [|exact Hm].
  rewrite (Hf a h1). exact Hm.
Qed.

Lemma quiet_known {A} (r : result A) : quiet (known r).
Proof. done. Qed.
Lemma quiet_exists path : quiet (path_exists path).
Proof. done. Qed.
Lemma quiet_spawn r : quiet (spawn r).
Proof using Type. intros h. unfold spawn. by destruct (subprocess_run r (files h)). Qed.

#[local] Hint Resolve quiet_bind quiet_known quiet_exists quiet_spawn : quiet.

Lemma quiet_fallback : quiet fallback_vcvars.
Proof using Type. unfold fallback_vcvars. auto with quiet. Qed.

#[local] Hint Resolve quiet_fallback : quiet.

Lemma quiet_named r : quiet (named_vcvars r).
Proof using Type. unfold named_vcvars. case_match; [|auto with quiet]. apply quiet_bind; [auto with quiet|]. intros []; auto with quiet. Qed.

#[local] Hint Resolve quiet_named : quiet.

Lemma quiet_vcvars : quiet _find_vcvars64.
Proof using Type.
  unfold _find_vcvars64. destruct (is_nt cfg); cbn [negb]; [|auto with quiet].
  apply quiet_bind; [auto with quiet|]. intros []; auto with quiet.
Qed.

#[local] Hint Resolve quiet_vcvars : quiet.

Lemma quiet_build : quiet build_binary.
Proof using Type.
  unfold build_binary, build_request. apply quiet_bind; [auto with quiet|]. intros r.
  apply quiet_bind; [auto with quiet|]. intros result. case_match; [auto with quiet|].
  apply quiet_bind; [auto with quiet|]. intros []; auto with quiet.
Qed.

Lemma quiet_ensure : quiet ensure_backend_binary.
Proof using Type.
  unfold ensure_backend_binary. apply quiet_bind; [auto with quiet|]. intros [|]; [auto with quiet|].
  apply quiet_bind; [auto with quiet|]. intros []; [apply quiet_build|auto with quiet].
Qed.

Lemma built_exists h b h' : build_binary h = (Ok b, h') → b = bin ∧ exists_ bin h' = true.
Proof using Type.
  unfold build_binary. intros (r & h1 & _ & H)%bridge_ok. apply bridge_ok in H as (x & h2 & _ & H).
  destruct (negb _); [done|]. apply bridge_ok in H as (found & h3 & E & H).
  injection E as <- <-. destruct (exists_ bin h2) eqn:Ex; [|done]. by injection H as <- <-.
Qed.

(** The binary is used as it is when it is there, is built at most once
    otherwise, and without a toolchain nothing is run; whenever a path comes
    back it is the binary's, which is on the disk then.  No failure is logged
    here. *)
Theorem backend_binary_ready h :
  (exists_ bin h = true → ensure_backend_binary h = (Ok bin, h)) ∧
  (exists_ bin h = false → exists_ (CARGO cfg) h = false →
     ∃ m, ensure_backend_binary h = (raise RuntimeError m, h)) ∧
  (∀ b h', ensure_backend_binary h = (Ok b, h') → b = bin ∧ exists_ bin h' = true) ∧
  FAILURE_LOG (ensure_backend_binary h).2 = FAILURE_LOG h.
Proof using Type.
  split; [|split; [|split; [|apply quiet_ensure]]].
  - intros E. unfold ensure_backend_binary, mbind, bridge_bind, path_exists. by rewrite E.
  - intros E1 E2. unfold ensure_backend_binary, mbind, bridge_bind, path_exists. rewrite E1, E2. by eexists.
  - intros b h'. unfold ensure_backend_binary. intros (found & h1 & E & H)%bridge_ok. injection E as <- <-.
    destruct (exists_ bin h) eqn:Eb; [by injection H as <- <-|].
    apply bridge_ok in H as (tool & h2 & E & H). injection E as <- <-.
    destruct (exists_ (CARGO cfg) h); [by eapply built_exists|done].
Qed.

(** ** Answers *)

(** How a command ends: with the JSON that the process printed; with a failure
    that is raised and written down, one line; or with what the payload or the
    process raised, which is not written down. *)
Inductive answer (now command : string) (payload : list (string * pyval)) (h : host) : result json * host → Prop :=
  | answered text r fs h1 j :
      ensure_backend_binary h = (Ok bin, h1) → canonical_payload (PDict payload) = Ok text →
      subprocess_run (backend_request bin command text) (files h1) = (Ok r, fs) →
      returncode r = 0 → json_loads (out r) = Some j →
      answer now command payload h (Ok j, mkHost fs (FAILURE_LOG h))
  | failed error message line fs :
      canonical_payload (failure_record now command payload error) = Ok line →
      answer now command payload h (raise RuntimeError message, mkHost fs (FAILURE_LOG h ++ [line]))
  | escaped text fs h1 e :
      ensure_backend_binary h = (Ok bin, h1) → canonical_payload (PDict payload) = Ok text →
      subprocess_run (backend_request bin command text) (files h1) = (Raise e, fs) →
      answer now command payload h (Raise e, mkHost fs (FAILURE_LOG h)).

Lemma fails_line {A} now command payload error message h :
  float_free (PDict payload) = true → ∃ line,
    canonical_payload (failure_record now command payload error) = Ok line ∧
    fails (A:=A) now command payload error message h =
      (raise RuntimeError message, mkHost (files h) (FAILURE_LOG h ++ [line])).
Proof using Type.
  intros Hf. assert (∀ k, float_free (or_empty k payload) = true) as Hk.
  { intros k. unfold or_empty. destruct (dict_get k payload) as [v|] eqn:E; [|done]. apply dict_get_Some_elem in E.
    cbn [float_free] in Hf. rewrite forallb_forall in Hf. by apply (Hf (k, v)), list_elem_of_In. }
  pose proof (canonical_payload_free (failure_record now command payload error)) as Hc.
  unfold failure_record in Hc at 1. cbn [float_free forallb snd] in Hc. rewrite !Hk in Hc. specialize (Hc eq_refl).
  eexists. split; [exact Hc|]. unfold fails, mbind, bridge_bind, _append_failure. rewrite Hc. reflexivity.
Qed.

(** A run that ends in [fails]. *)
Ltac writes_line := match goal with
  | Hf : float_free (PDict ?p) = true |- context [fails ?n ?c ?p ?e ?m ?s] =>
      destruct (fails_line (A:=json) n c p e m s Hf) as (line & Hl & ->); cbn [files FAILURE_LOG];
      try match goal with Hq : FAILURE_LOG _ = _ |- _ => rewrite Hq end; by eapply failed
  end.

(** C38: every run of a command on a payload without floats is one of three: the
    process exited with 0 and printed JSON, which is returned; a
    [RuntimeError] is raised after exactly one line, with its stage and the
    hashes of the payload, was appended to the log of failures; or the process
    itself could not be waited for (a time-out), which leaves as it is and is
    not written down. *)
Theorem run_backend_answers now command payload h :
  float_free (PDict payload) = true → answer now command payload h (run_backend now command payload h).
Proof using Type.
  intros Hf. unfold run_backend. destruct (backend_binary_ready h) as (_ & _ & Hb & Hq).
  destruct (ensure_backend_binary h) as [[binary|e] h1] eqn:E; cbn [snd] in Hq.
  - destruct (Hb binary h1 eq_refl) as [-> _]. rewrite (canonical_payload_free _ Hf).
    pose proof (canonical_payload_free _ Hf) as Ht. set (text := json_print _) in *.
    unfold mbind, bridge_bind, known, spawn.
    destruct (subprocess_run (backend_request bin command text) (files h1)) as [[r|e] fs] eqn:Es; rewrite Hq;
      [|by eapply escaped].
    unfold read_answer. destruct (Z.eqb_spec (returncode r) 0) as [Hr|Hr]; cbn [negb].
    + destruct (json_loads (out r)) as [j|] eqn:Ej; [by eapply answered|].
      writes_line.
    + writes_line.
  - writes_line.
Qed.

(** The process reads the payload back from its input, and the service its
    answer: a binary that prints a value gets it through. *)
Theorem backend_exchange now command payload h r fs j :
  pyval_wf (PDict payload) = true → json_wf j = true → exists_ bin h = true →
  returncode r = 0 → out r = json_print j →
  (∀ text, json_loads text = Some (canonical_form (PDict payload)) →
     subprocess_run (backend_request bin command text) (files h) = (Ok r, fs)) →
  run_backend now command payload h = (Ok j, mkHost fs (FAILURE_LOG h)).
Proof using Type.
  intros Hp Hj Hb Hr Ho Hs. destruct (backend_binary_ready h) as (E & _). unfold run_backend. rewrite (E Hb).
  rewrite (canonical_payload_free _ (pyval_wf_float_free _ Hp)). unfold mbind, bridge_bind, known, spawn.
  rewrite Hs by apply json_loads_print, canonical_form_wf, Hp.
  unfold read_answer. rewrite Hr, Ho, json_loads_print by exact Hj. reflexivity.
Qed.
End bridge.

(** [public_inputs_hash] *)
Definition public_inputs_hash (public_inputs : list (string * string)) : result string :=
  hash_payload (PDict (map (fun p => (p.1, PStr p.2)) (isort key_leb public_inputs))).

(** ** Example *)

Definition sample_config : config :=
  mkConfig false "/srv/vrl" "/srv/vrl/zk/rust_backend" "/srv/vrl/zk/rust_backend/Cargo.toml"
    "/srv/vrl/zk/rust_backend/target/release/vrl_halo2_backend" "/root/.cargo/bin/cargo" "vswhere.exe" "vcvars64.bat"
    (fun p => p) "/usr/bin" ":" "/root/.cargo/bin".

(** A build that works, and a binary that refuses everything but [compile]. *)
Definition sample_process (r : request) (fs : list string) : result completed * list string :=
  match rq_command r with
  | Argv (program :: command :: _) =>
      if bool_decide (program = CARGO sample_config) then (Ok (mkCompleted 0 "" ""), TARGET_BIN sample_config :: fs)
      else if bool_decide (command = "compile") then (Ok (mkCompleted 0 (default "" (rq_input r)) ""), fs)
      else (Ok (mkCompleted 2 "" " unknown command "), fs)
  | _ => (raise RuntimeError "no such file", fs)
  end.

Definition sample_host : host := mkHost [CARGO sample_config] [].

Example echoes_compile :
  (run_backend sample_config sample_process "t0" "compile" [("circuit_hash", PStr "c")] sample_host).1 =
  Ok (JObj [("circuit_hash", JStr "c")]).
Proof. vm_compute. reflexivity. Qed.

Example run_backend_answers_witness :
  let payload := [("circuit_hash", PStr "c"); ("trace_hash", PStr "t")] in
  answer sample_config sample_process "t0" "prove" payload sample_host
    (run_backend sample_config sample_process "t0" "prove" payload sample_host).
Proof. apply (run_backend_answers sample_config sample_process "t0" "prove"); reflexivity. Defined.
