(* ===== verification/Startup.v ===== *)
(** * Start-up (app/main.py, app/db/connection.py)

    From the environment to an application that serves requests: the settings
    of the database, the TLS context, the attempts to open a pool, the
    module-level guards of the routes, and the lifespan that wires them.  The
    pool is asyncpg's: opening one is an interface, with the number of the
    attempt as an argument. *)
From S2P Require Import Guards Plonk.
From S2P Require Export Routes.

Local Open Scope Z_scope.

(** [os.environ] *)
Definition environment : Type := list (string * string).

(** [os.getenv(key)] and [os.getenv(key, default)] *)
Definition getenv (key : string) (env : environment) : option string := dict_get key env.
Definition getenv_or (key dflt : string) (env : environment) : string := default dflt (getenv key env).

Definition int_env (key dflt : string) (env : environment) : result Z := py_int (PStr (getenv_or key dflt env)).

Section startup.
Context {F P W : Type} (float_of_text : string → result F).

Definition float_env (key dflt : string) (env : environment) : result F := float_of_text (getenv_or key dflt env).

Record DatabaseSettings := mkDatabaseSettings {
  db_url : string;
  min_pool_size : Z;
  max_pool_size : Z;
  command_timeout_seconds : F;
  connect_timeout_seconds : F;
  retry_attempts : Z;
  retry_backoff_seconds : F;
  require_tls : bool;
  ssl_ca_file : option string;
  statement_timeout_ms : Z;
  lock_timeout_ms : Z }.

(** [x or None] on texts. *)
Definition or_none (x : option string) : option string :=
  match x with Some "" | None => None | Some s => Some s end.

Definition from_env (env : environment) : result (option DatabaseSettings) :=
  match or_none (getenv "VRL_DATABASE_URL" env) with
  | None => Ok None
  | Some url =>
      min_size ← int_env "VRL_DB_MIN_POOL_SIZE" "1" env;
      max_size ← int_env "VRL_DB_MAX_POOL_SIZE" "20" env;
      command ← float_env "VRL_DB_COMMAND_TIMEOUT_SECONDS" "5" env;
      connect ← float_env "VRL_DB_CONNECT_TIMEOUT_SECONDS" "5" env;
      retries ← int_env "VRL_DB_RETRY_ATTEMPTS" "3" env;
      backoff ← float_env "VRL_DB_RETRY_BACKOFF_SECONDS" "0.25" env;
      let tls := bool_decide (str_lower (getenv_or "VRL_DB_REQUIRE_TLS" "true" env) = "true") in
      let ca := or_none (getenv "VRL_DB_SSL_CA" env) in
      statement ← int_env "VRL_DB_STATEMENT_TIMEOUT_MS" "5000" env;
      lock ← int_env "VRL_DB_LOCK_TIMEOUT_MS" "5000" env;
      Ok (Some (mkDatabaseSettings url min_size max_size command connect retries backoff tls ca statement lock))
  end.

(** ** TLS *)

(** [ssl.create_default_context(..)], with the authorities added to it. *)
Record SSLContext := mkSSLContext { check_hostname : bool; cert_required : bool; extra_ca : option string }.

(** [context.load_verify_locations(cafile=..)] may raise. *)
Context (load_verify_locations : string → result unit).

(** [TLSEnforcementError] is a [RuntimeError]. *)
Definition tls_error : exn :=
  Exn RuntimeError "TLS is required (VRL_DB_REQUIRE_TLS=true by default). Set VRL_ALLOW_PLAINTEXT=true only in local development.".

Definition _ssl_context (env : environment) (settings : DatabaseSettings) : result (option SSLContext) :=
  if negb (require_tls settings) then
    if bool_decide (str_lower (getenv_or "VRL_ALLOW_PLAINTEXT" "false" env) = "true") then Ok None else Raise tls_error
  else
    match ssl_ca_file settings with
    | None => Ok (Some (mkSSLContext true true None))
    | Some ca => _ ← load_verify_locations ca; Ok (Some (mkSSLContext true true (Some ca)))
    end.

(** ** The pool *)

Record pool_request := mkPoolRequest {
  pl_dsn : string; pl_min_size : Z; pl_max_size : Z; pl_command_timeout : F; pl_timeout : F;
  pl_ssl : option SSLContext; pl_server_settings : list (string * string) }.

(** [asyncpg.create_pool(..)], at an attempt. *)
Context (open_pool : Z → pool_request → result P).

Definition request_of (settings : DatabaseSettings) (ssl_context : option SSLContext) : pool_request :=
  mkPoolRequest (db_url settings) (min_pool_size settings) (max_pool_size settings) (command_timeout_seconds settings)
    (connect_timeout_seconds settings) ssl_context
    [("statement_timeout", str_of_Z (statement_timeout_ms settings)); ("lock_timeout", str_of_Z (lock_timeout_ms settings))].

(** [for attempt in range(1, retry_attempts + 1)], over the attempts left; the
    result, and what was asked of asyncpg. *)
Fixpoint try_pool (r : pool_request) (retries : Z) (attempts : list Z) : result P * list pool_request :=
  match attempts with
  | [] => (raise RuntimeError "Unable to create database pool", [])
  | attempt :: attempts =>
      match open_pool attempt r with
      | Ok pool => (Ok pool, [r])
      | Raise e =>
          if attempt =? retries then (Raise e, [r])
          else let '(x, asked) := try_pool r retries attempts in (x, r :: asked)
      end
  end.

Definition create_pool (env : environment) (settings : DatabaseSettings) : result P * list pool_request :=
  match _ssl_context env settings with
  | Raise e => (Raise e, [])
  | Ok ssl_context => try_pool (request_of settings ssl_context) (retry_attempts settings) (seqZ 1 (retry_attempts settings))
  end.

(** ** The application *)

(** The lifespan up to [yield]: the pool, if there is a database. *)
Definition lifespan_pool (env : environment) : result (option P) * list pool_request :=
  match from_env env with
  | Raise e => (Raise e, [])
  | Ok settings =>
      let runtime_mode := str_lower (str_strip (getenv_or "VRL_ENV" "development" env)) in
      match settings with
      | None =>
          if bool_decide (runtime_mode = "production") then
            (raise RuntimeError "VRL_DATABASE_URL is required when VRL_ENV=production", [])
          else (Ok None, [])
      | Some settings => let '(pool, asked) := create_pool env settings in (Some <$> pool, asked)
      end
  end.

(** What importing the modules builds: the limiter, the guard and the keys. *)
Definition rate_limiter (env : environment) : result RateLimiter :=
  limit ← int_env "VRL_API_RATE_LIMIT" "60" env;
  window_seconds ← int_env "VRL_API_RATE_LIMIT_WINDOW_SECONDS" "60" env;
  RateLimiter_init limit window_seconds.

Definition queue_guard (env : environment) : result QueueDepthGuard :=
  max_in_flight ← int_env "VRL_MAX_IN_FLIGHT" "200" env;
  QueueDepthGuard_init max_in_flight.

(** The application once it serves, over the tables it finds.  The training
    service is there even without a repository, and then raises. *)
Definition lifespan (today : string) (world : W) (env : environment) : result (application (W:=W)) * list pool_request :=
  let keys := ApiKeyStore_init today (getenv_or "VRL_API_KEYS" "" env) in
  match (l ← rate_limiter env; g ← queue_guard env; Ok (l, g)) with
  | Raise e => (Raise e, [])
  | Ok (limiter, guard) =>
      let '(pool, asked) := lifespan_pool env in
      ((fun pool : option P => mkApplication limiter guard keys (Runtime.stop new_controller) [] []
          (bool_decide (is_Some pool)) true world) <$> pool, asked)
  end.

(** After [yield]. *)
Definition shutdown (s : application (W:=W)) : application (W:=W) :=
  mkApplication (ap_limiter s) (ap_queue s) (ap_keys s) (Runtime.stop (ap_runtime s)) (ap_tasks s) (ap_jobs s)
    (ap_service s) (ap_training s) (ap_world s).

(** ** Pools *)

(** The first attempt that works, or the error of the last. *)
Lemma try_pool_spec r k n attempts :
  0 ≤ k → attempts = seqZ (n - k + 1) k →
  let '(x, asked) := try_pool r n attempts in
  Forall (fun r' => r' = r) asked ∧
  match x with
  | Ok pool => ∃ i, n - k < i ≤ n ∧ open_pool i r = Ok pool ∧
      (∀ j, n - k < j < i → ∃ e, open_pool j r = Raise e) ∧ Z.of_nat (length asked) = i - (n - k)
  | Raise e => (∀ j, n - k < j ≤ n → ∃ e', open_pool j r = Raise e') ∧ Z.of_nat (length asked) = k ∧
      (0 < k → open_pool n r = Raise e)
  end.
Proof using Type.
  intros Hk. revert attempts. pattern k. apply natlike_ind; [| |exact Hk]; clear k Hk.
  - intros attempts ->. cbn. split; [done|]. split; [lia|]. split; [done|lia].
  - intros k Hk IH attempts ->. rewrite seqZ_cons by lia. cbn [try_pool].
    replace (n - Z.succ k + 1) with (n - k) by lia. rewrite Z.pred_succ. specialize (IH _ eq_refl).
    destruct (open_pool (n - k) r) as [pool|e] eqn:E.
    + split; [by repeat constructor|]. exists (n - k). split; [lia|]. split; [done|]. split; [lia|]. cbn. lia.
    + destruct (Z.eqb_spec (n - k) n) as [Hn|Hn].
      * split; [by repeat constructor|]. replace n with (n - k) at 2 by lia. split; [|split].
        -- intros j Hj. exists e. rewrite <-E. f_equal. lia.
        -- cbn. lia.
        -- intros _. rewrite <-E. f_equal. lia.
      * replace (Z.succ (n - k)) with (n - k + 1) by lia.
        destruct (try_pool r n (seqZ (n - k + 1) k)) as [x asked]. destruct IH as [Hall IH].
        split; [by constructor|]. destruct x as [pool|e'].
        -- destruct IH as (i & Hi & Ho & Hbefore & Hlen). exists i. split; [lia|]. split; [done|]. split.
           ++ intros j Hj. destruct (decide (j = n - k)) as [->|]; [by exists e|]. apply Hbefore. lia.
           ++ cbn [length]. lia.
        -- destruct IH as (Hbefore & Hlen & Hlast). split; [|split].
           ++ intros j Hj. destruct (decide (j = n - k)) as [->|]; [by exists e|]. apply Hbefore. lia.
           ++ cbn [length]. lia.
           ++ intros _. apply Hlast. lia.
Qed.

Lemma settings_tls env settings :
  from_env env = Ok (Some settings) →
  require_tls settings = bool_decide (str_lower (getenv_or "VRL_DB_REQUIRE_TLS" "true" env) = "true").
Proof using Type.
  unfold from_env. destruct (or_none _) as [url|]; [|done]. intros H.
  repeat (apply bind_ok in H as (? & _ & H)). by injection H as <-.
Qed.

(** Whether asyncpg was asked for an encrypted connection, or may be asked for
    a plain one. *)
Definition encrypted (env : environment) (r : pool_request) : Prop :=
  match pl_ssl r with
  | Some c => check_hostname c = true ∧ cert_required c = true
  | None => str_lower (getenv_or "VRL_DB_REQUIRE_TLS" "true" env) ≠ "true" ∧
      str_lower (getenv_or "VRL_ALLOW_PLAINTEXT" "false" env) = "true"
  end.

Lemma context_encrypted env settings c :
  from_env env = Ok (Some settings) → _ssl_context env settings = Ok c → encrypted env (request_of settings c).
Proof using Type.
  intros Hs%settings_tls. unfold _ssl_context, encrypted. cbn [request_of pl_ssl]. rewrite Hs.
  case_bool_decide as Ht; cbn [negb]; intros H.
  - destruct (ssl_ca_file settings); [apply bind_ok in H as (_ & _ & H)|]; by injection H as <-.
  - case_bool_decide as Hp; [|done]. by injection H as <-.
Qed.

Lemma created_encrypted env settings :
  from_env env = Ok (Some settings) → Forall (encrypted env) (create_pool env settings).2.
Proof using Type.
  intros Hs. unfold create_pool. destruct (_ssl_context env settings) as [c|e] eqn:Ec; [|constructor].
  pose proof (context_encrypted _ _ _ Hs Ec) as He. destruct (decide (0 ≤ retry_attempts settings)) as [Hr|Hr].
  - pose proof (try_pool_spec (request_of settings c) (retry_attempts settings) (retry_attempts settings)
      (seqZ 1 (retry_attempts settings)) Hr) as H. rewrite Z.sub_diag in H. specialize (H eq_refl).
    destruct (try_pool _ _ _) as [x asked]. destruct H as [H _]. cbn [snd].
    eapply Forall_impl; [exact H|]. by intros r ->.
  - by rewrite seqZ_nil by lia.
Qed.

Lemma from_env_url env : from_env env = Ok None ↔ or_none (getenv "VRL_DATABASE_URL" env) = None.
Proof using Type.
  unfold from_env. destruct (or_none _) as [url|]; [|done]. split; [|done]. intros H.
  by repeat (apply bind_ok in H as (? & _ & H)).
Qed.

Lemma created_asked env settings pool : (create_pool env settings).1 = Ok pool → (create_pool env settings).2 ≠ [].
Proof using Type.
  unfold create_pool. destruct (_ssl_context env settings) as [c|e]; [|done].
  destruct (seqZ 1 (retry_attempts settings)) as [|a l]; cbn [try_pool]; [done|].
  destruct (open_pool a _) as [p|e]; [done|]. case_match; [done|]. by destruct (try_pool _ _ l).
Qed.

(** The pool of the lifespan: what was asked for, and when there is one. *)
Lemma lifespan_pool_spec env :
  let '(x, asked) := lifespan_pool env in
  Forall (encrypted env) asked ∧
  ∀ pool, x = Ok pool →
    (is_Some pool ↔ or_none (getenv "VRL_DATABASE_URL" env) ≠ None) ∧
    (str_lower (str_strip (getenv_or "VRL_ENV" "development" env)) = "production" → is_Some pool) ∧
    (is_Some pool → asked ≠ []).
Proof using Type.
  unfold lifespan_pool. pose proof (from_env_url env) as Hurl. destruct (from_env env) as [[settings|]|e] eqn:Es.
  - pose proof (created_encrypted env settings Es) as He. pose proof (created_asked env settings) as Ha.
    destruct (create_pool env settings) as [[pool|e] asked]; (split; [exact He|]); intros pl Hpl; [|done].
    injection Hpl as <-. split; [|by eauto]. split; [|by eauto]. intros _ Hu. apply Hurl in Hu. congruence.
  - case_bool_decide; (split; [constructor|]); intros pool Hp; [done|]. injection Hp as <-.
    split; [|split; [done|by intros []]]. split; [by intros []|]. intros Hu. destruct Hu. by apply Hurl.
  - by split; [constructor|].
Qed.

(** C37: the database is never reached in the clear by default.  Whatever the
    environment and however often a pool is asked for, every request to asyncpg
    carries a context that checks certificate and host name, unless the
    environment both gives up VRL_DB_REQUIRE_TLS and sets VRL_ALLOW_PLAINTEXT;
    and an application that starts with VRL_ENV=production has its database. *)
Theorem pools_are_encrypted today (world : W) env :
  let '(x, asked) := lifespan today world env in
  Forall (encrypted env) asked ∧
  ∀ s, x = Ok s →
    (ap_service s = true ↔ or_none (getenv "VRL_DATABASE_URL" env) ≠ None) ∧
    (str_lower (str_strip (getenv_or "VRL_ENV" "development" env)) = "production" → ap_service s = true) ∧
    (ap_service s = true → asked ≠ []) ∧ 0 < _limit (ap_limiter s) ∧ 0 < _max (ap_queue s).
Proof using Type.
  unfold lifespan. destruct (l ← rate_limiter env; g ← queue_guard env; Ok (l, g)) as [[l g]|e] eqn:Elg;
    [|by split; [constructor|]].
  apply bind_ok in Elg as (l' & Hl & Elg). apply bind_ok in Elg as (g' & Hg & [= -> ->]).
  unfold rate_limiter in Hl. apply bind_ok in Hl as (n & _ & Hl). apply bind_ok in Hl as (m & _ & Hl).
  apply init_inv in Hl as (Hn & _ & Hl & _). unfold queue_guard in Hg. apply bind_ok in Hg as (k & _ & Hg).
  assert (0 < _max g) as Hk by (unfold QueueDepthGuard_init in Hg; case_match; [done|]; injection Hg as <-; cbn; lia).
  pose proof (lifespan_pool_spec env) as Hp. destruct (lifespan_pool env) as [x asked]. destruct Hp as [He Hp].
  split; [exact He|]. intros s Hs. destruct x as [pool|e]; [|done]. injection Hs as <-. cbn [ap_service ap_limiter ap_queue].
  rewrite !bool_decide_eq_true. destruct (Hp pool eq_refl) as (H1 & H2 & H3). rewrite Hl. auto.
Qed.
End startup.

(** ** Example *)

Definition sample_env (more : environment) : environment := ("VRL_DATABASE_URL", "postgresql://db/vrl") :: more.

(** The third attempt works. *)
Definition third_time (attempt : Z) (r : pool_request (F:=string)) : result string :=
  if attempt =? 3 then Ok (pl_dsn r) else raise RuntimeError "connection refused".

Definition boot (env : environment) : result (application (W:=unit)) * list (pool_request (F:=string)) :=
  lifespan Ok (fun _ => Ok tt) third_time "2024-01-01" tt env.

Example boots_after_retries : is_ok (boot (sample_env [])).1 = true ∧ length (boot (sample_env [])).2 = 3%nat.
Proof. by vm_compute. Qed.

Example refuses_plain_by_default : (boot (sample_env [("VRL_DB_REQUIRE_TLS", "false")])).1 = Raise tls_error.
Proof. reflexivity. Qed.

Example production_without_database : is_ok (boot [("VRL_ENV", " Production ")]).1 = false.
Proof. reflexivity. Qed.
