(* ===== verification/TestVectors.v ===== *)
(** * Test vectors of the other circuits (zk/witness/<circuit>_test_vectors.py)

    The vectors the repository ships for the three circuits, as data and
    functions, evaluated against the builders they are vectors of. *)
From S2P Require Import Tasks.
From S2P Require Export OtherCircuits.

Local Open Scope Z_scope.

(** ** zk/witness/contract_clause_test_vectors.py *)

(** A vector and the dictionary returned with it. *)
Record vector := mkVector {
  tv_input : ContractClauseWitnessInput;
  tv_name : string;
  tv_classification : string;
  tv_encoding : Z;
  tv_gate_count : nat;
  tv_all_gates_valid : bool }.

(** What each function does with its input; [None] when the assertion or the
    builder raises. *)
Definition checked_vector (w : ContractClauseWitnessInput) (name : string) (encoding : Z) : option vector :=
  match (a ← build_contract_clause_assignment w; clause_verify_gate_constraints a) with
  | Ok gates =>
      if bool_decide (gates = repeat true 7) then
        Some (mkVector w name (cc_classification_result w) encoding 7 (forallb Datatypes.id gates))
      else None
  | Raise _ => None
  end.

Definition test_vector_gdpr_special_category_high_risk : option vector :=
  checked_vector
    (mkClauseInput
       "The Processor may collect, store, and process health information, genetic data, and medical history as part of the service without explicit user consent per record."
       "CLAUSE_GDPR_ART9_001"
       "CLASSIFICATION: HIGH_RISK | REASONING: Clause involves special category data (health, genetic) under GDPR Article 9. Processing without explicit consent per record is prohibited."
       "HIGH_RISK" (sha256_hex "GDPR_ARTICLE_9_SPECIAL_CATEGORY_DATA_RULESET")
       (sha256_hex "gpt-4-legal-classifier-v2.1") (sha256_hex "AUDIT_2026-04-04_GDPR_CLASSIFICATION_001"))
    "GDPR Special Category (HIGH_RISK)" 3.

Definition test_vector_commercial_term_compliant : option vector :=
  checked_vector
    (mkClauseInput
       "The Service is provided on an as-is basis with 99.5% uptime SLA. Standard maintenance windows are excluded from SLA calculations."
       "CLAUSE_SLA_COMMERCIAL_001"
       "CLASSIFICATION: COMPLIANT | REASONING: Clause contains standard SLA and service terms that are commonly accepted and do not trigger compliance risks."
       "COMPLIANT" (sha256_hex "COMMERCIAL_TERMS_RULESET")
       (sha256_hex "gpt-4-legal-classifier-v2.1") (sha256_hex "AUDIT_2026-04-04_COMMERCIAL_CLASSIFICATION_001"))
    "Commercial SLA Term (COMPLIANT)" 0.

Definition test_vector_data_sharing_medium_risk : option vector :=
  checked_vector
    (mkClauseInput
       "The Processor may share pseudonymized data with selected third-party partners for analytics and research purposes. Data sharing partners must execute a DPA, but the specific safeguards for re-identification risk are not detailed."
       "CLAUSE_DATA_SHARING_003"
       "CLASSIFICATION: MEDIUM_RISK | REASONING: Clause permits third-party data sharing with DPA requirement but lacks specificity on re-identification safeguards and audit controls. Requires clarification for full compliance."
       "MEDIUM_RISK" (sha256_hex "DATA_SHARING_AND_THIRD_PARTY_RULESET")
       (sha256_hex "gpt-4-legal-classifier-v2.1") (sha256_hex "AUDIT_2026-04-04_DATA_SHARING_CLASSIFICATION_001"))
    "Ambiguous Data Sharing (MEDIUM_RISK)" 2.

Definition generate_all_test_vectors : option (list vector) :=
  v1 ← test_vector_gdpr_special_category_high_risk;
  v2 ← test_vector_commercial_term_compliant;
  v3 ← test_vector_data_sharing_medium_risk;
  Some [v1; v2; v3].

(** ** zk/witness/aml_test_vectors.py *)

Definition aml_root : string := "0123456789abcdef0123456789abcdef0123456789abcdef0123456789abcdef".

(** The input of each vector, and the flag it expects. *)
Definition get_test_vectors : list (string * AMLWitnessInput * bool) :=
  [("cleared_name_standard", mkAMLInput "John Smith" "john smith" aml_root "2026-04-04T12:00:00Z" 0, true);
   ("flagged_name_sanctions_hit", mkAMLInput "Osama Bin Laden" "osama bin laden" aml_root "2026-04-04T12:00:00Z" 1, false);
   ("edge_case_empty_name", mkAMLInput "" "" aml_root "2026-04-04T12:00:00Z" 0, true)].

(** ** zk/witness/drug_dosage_test_vectors.py *)

Section dosage.
Context {F : Type} `{!PyFloat F}.

Record dosage_vector := mkDosageVector {
  dv_name : string;
  dv_input : DrugDosageWitnessInput F;
  dv_adjustment_factor : F;
  dv_age_factor : F;
  dv_base_dose_mg : F;
  dv_adjusted_dose_mg : F }.

Definition dosage_test_vectors : list dosage_vector :=
  [mkDosageVector "normal_renal_function_adult"
     (mkDosageInput (flit 700 1) (flit 900 1) (flit 45 0) aml_root "amoxicillin_250mg" 8)
     (flit 10 1) (flit 10 1) (flit 10500 1) (flit 10500 1);
   mkDosageVector "impaired_renal_function_dose_reduction"
     (mkDosageInput (flit 700 1) (flit 300 1) (flit 70 0) aml_root "amoxicillin_250mg" 12)
     (flit 3333 4) (flit 85 2) (flit 10500 1) (flit 2985 1);
   mkDosageVector "pediatric_weight_adjustment"
     (mkDosageInput (flit 250 1) (flit 850 1) (flit 12 0) aml_root "amoxicillin_125mg" 8)
     (flit 9444 4) (flit 5 1) (flit 3750 1) (flit 1770 1)].

(** The dose the builder computes for an input. *)
Definition adjusted_dose (w : DrugDosageWitnessInput F) : F :=
  fmul (fmul (compute_weight_based_dose (dd_patient_weight_kg w))
          (compute_renal_adjustment_factor (dd_creatinine_clearance_ml_min w)))
       (compute_age_adjustment_factor (dd_patient_age_years w)).
End dosage.

(** ** What the vectors show *)

(** Every vector of the clause circuit passes: the builder accepts the
    classification, all seven rows hold, and the encoding it states is the
    circuit's. *)
Theorem clause_vectors_pass :
  ∃ vs, generate_all_test_vectors = Some vs ∧
    Forall (fun v => tv_all_gates_valid v = true ∧
      dict_get (tv_classification v) CLASSIFICATION_ENCODING = Some (tv_encoding v)) vs.
Proof. eexists. split; [vm_compute; reflexivity|]. repeat constructor. Qed.

(** No vector of the sanctions circuit does: an assignment is built for each,
    and its fifth row fails. *)
Theorem aml_vectors_fail :
  Forall (fun v => ∃ a g0 g6, build_aml_assignment v.1.2 = Ok a ∧
    aml_verify_gate_constraints a = Ok [g0; true; true; true; false; true; g6]) get_test_vectors.
Proof. repeat constructor; eexists _, _, _; (split; [vm_compute; reflexivity|vm_compute; reflexivity]). Qed.

(** Equal as fractions. *)
Definition same_ratio (p q : Z * positive) : bool := p.1 * Zpos q.2 =? q.1 * Zpos p.2.

(** In exact arithmetic the dose of the second dosage vector is 297.5 mg, where
    the vector expects 298.5 mg, and that of the third is 177 1/12 mg, where it
    expects 177 mg; the first is as stated. *)
Theorem dosage_vectors_expect :
  map (fun v => same_ratio (adjusted_dose (dv_input v)) (dv_adjusted_dose_mg v)) (dosage_test_vectors (F:=Z * positive)) =
    [true; false; false] ∧
  Forall2 (fun v x => same_ratio (adjusted_dose (dv_input v)) x = true) (dosage_test_vectors (F:=Z * positive))
    [(1050, 1%positive); (595, 2%positive); (2125, 12%positive)].
Proof. split; [vm_compute; reflexivity|]. repeat constructor; vm_compute; reflexivity. Qed.
