(* ===== verification/Lookup.v ===== *)
(** * Circuit registry look-up (registry/tools/lookup.py)

    The registry is the JSON list of its file; a query is the parsed command
    line.  The result of a run is its exit status and what it has to show: the
    text laid out for one circuit is left to the circuit itself, while the
    table is here line by line.  The fields that are compared and measured are
    texts, as in registry/schema/circuit.schema.json; anything else in their
    place raises. *)
From S2P Require Export PyObj Canonical.

Local Open Scope Z_scope.

(** ** Registry *)

(** [c[k]], where a text is needed. *)
Definition text_field (k : string) (c : json) : result string :=
  v ← py_index k c;
  match v with JStr s => Ok s | _ => raise TypeError "{} is not a text" end.

(** The file: absent, not JSON, or the list of its circuits. *)
Inductive loaded :=
  | Missing
  | Unreadable
  | Circuits (circuits : list json).

Definition load (text : option string) : result loaded :=
  match text with
  | None => Ok Missing
  | Some text =>
      match json_loads text with
      | None => Ok Unreadable
      | Some data =>
          d ← as_dict data;
          circuits ← py_iter (get_or (JList []) "circuits" d);
          Ok (Circuits circuits)
      end
  end.

Fixpoint get_circuit (circuit_id : string) (circuits : list json) : result (option json) :=
  match circuits with
  | [] => Ok None
  | c :: circuits =>
      v ← py_index "circuit_id" c;
      if is_str circuit_id v then Ok (Some c) else get_circuit circuit_id circuits
  end.

(** [[c for c in results if c[k] == value]] *)
Fixpoint where_is (k value : string) (results : list json) : result (list json) :=
  match results with
  | [] => Ok []
  | c :: results =>
      v ← py_index k c;
      rest ← where_is k value results;
      Ok (if is_str value v then c :: rest else rest)
  end.

(** A filter that is absent or empty filters nothing. *)
Definition filtered (k : string) (value : option string) (results : list json) : result (list json) :=
  match value with
  | None | Some "" => Ok results
  | Some value => where_is k value results
  end.

(** [sorted(results, key=lambda c: c['circuit_id'])] *)
Definition by_id (results : list json) : result (list json) :=
  keyed ← traverse (fun c => k ← text_field "circuit_id" c; Ok (k, c)) results;
  Ok (map snd (isort key_leb keyed)).

Definition list_circuits (domain tier : option string) (circuits : list json) : result (list json) :=
  results ← filtered "domain" domain circuits;
  results ← filtered "certification_tier" tier results;
  by_id results.

(** [sorted(set(c[k] for c in self.circuits))] *)
Definition values_of (k : string) (circuits : list json) : result (list string) :=
  values ← traverse (text_field k) circuits;
  Ok (isort String.leb (remove_dups values)).

Definition get_domains : list json → result (list string) := values_of "domain".
Definition get_tiers : list json → result (list string) := values_of "certification_tier".

(** ** The table *)

Definition spaces (n : nat) : string := str_join "" (repeat " " n).

(** [f'{s:<{n}}'] *)
Definition pad_right (n : nat) (s : string) : string := s +:+ spaces (n - String.length s).

Record row := mkRow { rw_id : string; rw_domain : string; rw_tier : string; rw_description : string }.

Definition row_of (c : json) : result row :=
  i ← text_field "circuit_id" c;
  d ← text_field "domain" c;
  t ← text_field "certification_tier" c;
  x ← text_field "description" c;
  Ok (mkRow i d t x).

Definition width (least : nat) (column : row → string) (rows : list row) : nat :=
  foldr Nat.max least (map (fun r => String.length (column r)) rows).

Definition shortened (s : string) : string := if (50 <? String.length s)%nat then str_take 50 s +:+ "..." else s.

Definition print_circuits_table (circuits : list json) : result (list string) :=
  match circuits with
  | [] => Ok ["No circuits found."]
  | _ =>
      rows ← traverse row_of circuits;
      let col_id := width 15 rw_id rows in
      let col_domain := width 8 rw_domain rows in
      let col_tier := width 14 rw_tier rows in
      let line i d t x := pad_right col_id i +:+ " " +:+ pad_right col_domain d +:+ " " +:+ pad_right col_tier t +:+ " " +:+ x in
      Ok ([""; line "Circuit ID" "Domain" "Tier" "Description"; str_join "" (repeat "-" 100)] ++
          map (fun r => line (rw_id r) (rw_domain r) (rw_tier r) (shortened (rw_description r))) rows ++ [""])
  end.

(** ** The command *)

Record arguments := mkArguments {
  ar_circuit_id : option string;
  ar_list : bool;
  ar_domain : option string;
  ar_tier : option string;
  ar_json : bool }.

(** What is shown: a value with [json.dumps(.., indent=2)], a table, the
    details of a circuit, the table after the message that it was not found,
    an error message, or the help. *)
Inductive shown :=
  | AsJson (value : json)
  | Table (lines : list string)
  | Detail (circuit : json)
  | NotFound (circuit_id : string) (lines : list string)
  | Error (message : string)
  | Help.

Definition list_command (args : arguments) (registry : list json) : result (Z * shown) :=
  circuits ← list_circuits (ar_domain args) (ar_tier args) registry;
  output ← (if ar_json args then Ok (AsJson (JList circuits)) else Table <$> print_circuits_table circuits);
  Ok (if bool_decide (circuits = []) then 1 else 0, output).

(** [if not circuit]: nothing, or an empty object. *)
Definition lookup_command (args : arguments) (circuit_id : string) (registry : list json) : result (Z * shown) :=
  circuit ← get_circuit circuit_id registry;
  let circuit := default JNull circuit in
  if truthy circuit then Ok (0, if ar_json args then AsJson circuit else Detail circuit)
  else
    all ← list_circuits None None registry;
    lines ← print_circuits_table all;
    Ok (1, NotFound circuit_id lines).

Definition main (file : option string) (args : arguments) : result (Z * shown) :=
  registry ← load file;
  match registry with
  | Missing => Ok (1, Error "Registry file not found at {}")
  | Unreadable => Ok (1, Error "Invalid JSON in registry file: {}")
  | Circuits registry =>
      if ar_list args then list_command args registry
      else
        match ar_circuit_id args with
        | None | Some "" => Ok (0, Help)
        | Some circuit_id => lookup_command args circuit_id registry
        end
  end.

(** ** Queries *)

(** An entry with its four texts. *)
Definition entry_ok (c : json) : Prop := is_ok (row_of c) = true.

Definition text_of (k : string) (c : json) : string := match text_field k c with Ok s => s | Raise _ => "" end.

Lemma entry_fields c : entry_ok c → ∀ k, k ∈ ["circuit_id"; "domain"; "certification_tier"; "description"] →
  py_index k c = Ok (JStr (text_of k c)) ∧ text_field k c = Ok (text_of k c).
Proof.
  unfold entry_ok, row_of. intros H k Hk.
  assert (text_field k c = Ok (text_of k c)) as E.
  { unfold text_of. destruct (text_field k c) as [s|e] eqn:Ek; [done|].
    repeat (apply elem_of_cons in Hk as [->|Hk]; [rewrite Ek in H; by repeat destruct (text_field _ _)|]).
    by apply not_elem_of_nil in Hk. }
  split; [|exact E]. unfold text_field in E. apply bind_ok in E as (v & Ev & E). rewrite Ev.
  destruct v; try done. injection E as ->. done.
Qed.

(** The entries that pass a filter. *)
Definition passes (k : string) (value : option string) (c : json) : Prop :=
  match value with None | Some "" => True | Some v => text_of k c = v end.

#[global] Instance passes_dec k value c : Decision (passes k value c).
Proof. unfold passes. destruct value as [[|a v]|]; apply _. Defined.

Lemma where_is_spec k v cs :
  k ∈ ["circuit_id"; "domain"; "certification_tier"; "description"] → Forall entry_ok cs →
  where_is k v cs = Ok (filter (fun c => text_of k c = v) cs).
Proof.
  intros Hk. induction 1 as [|c cs Hc Hcs IH]; [done|]. cbn [where_is].
  destruct (entry_fields c Hc k Hk) as [-> _]. cbn [mbind result_bind]. rewrite IH. cbn [mbind result_bind is_str].
  rewrite filter_cons. destruct (String.eqb_spec (text_of k c) v) as [E|E]; destruct (decide (text_of k c = v)); done.
Qed.

Lemma filtered_spec k value cs :
  k ∈ ["circuit_id"; "domain"; "certification_tier"; "description"] → Forall entry_ok cs →
  filtered k value cs = Ok (filter (passes k value) cs).
Proof.
  intros Hk Hcs. assert (filter (fun _ => True) cs = cs) as Et.
  { clear. induction cs as [|c cs IH]; [done|]. rewrite filter_cons_True by done. by rewrite IH. }
  unfold filtered, passes. destruct value as [[|a v]|]; [by rewrite <-Et at 1| |by rewrite <-Et at 1].
  by rewrite where_is_spec.
Qed.

Definition id_leb (c d : json) : bool := String.leb (text_of "circuit_id" c) (text_of "circuit_id" d).

Lemma by_id_spec cs : Forall entry_ok cs → by_id cs = Ok (isort id_leb cs).
Proof.
  intros H. unfold by_id. rewrite (traverse_total _ (fun c => (text_of "circuit_id" c, c))).
  - cbn [mbind result_bind]. rewrite (isort_map id_leb key_leb) by done. by rewrite map_map, map_id.
  - intros c Hc. rewrite Forall_forall in H. destruct (entry_fields c (H c Hc) "circuit_id") as [_ ->]; [set_solver|done].
Qed.

Lemma entries_sublist P `{!∀ c, Decision (P c)} cs : Forall entry_ok cs → Forall entry_ok (filter P cs).
Proof. rewrite !Forall_forall. intros Hcs c [_ Hc]%list_elem_of_filter. by apply Hcs. Qed.

Lemma table_total cs : Forall entry_ok cs → ∃ lines, print_circuits_table cs = Ok lines.
Proof.
  intros H. unfold print_circuits_table. destruct cs as [|c cs]; [eauto|].
  assert (∃ rows, traverse row_of (c :: cs) = Ok rows) as [rows ->]; [|eauto].
  exists (map (fun c => @ok_default _ (populate (mkRow "" "" "" "")) (row_of c)) (c :: cs)).
  apply traverse_total. intros x Hx. rewrite Forall_forall in H. specialize (H x Hx). unfold entry_ok in H.
  unfold ok_default. by destruct (row_of x).
Qed.

(** Listing: the entries that pass both filters, each once, in the order of
    their identifiers. *)
Theorem listed_circuits domain tier cs : Forall entry_ok cs →
  ∃ l, list_circuits domain tier cs = Ok l ∧
    l ≡ₚ filter (fun c => passes "domain" domain c ∧ passes "certification_tier" tier c) cs ∧
    StronglySorted (fun c d => id_leb c d = true) l.
Proof.
  intros H. unfold list_circuits. rewrite filtered_spec by (done || set_solver). cbn [mbind result_bind].
  rewrite filtered_spec by (set_solver || by apply entries_sublist). cbn [mbind result_bind].
  rewrite by_id_spec by (by do 2 apply entries_sublist). eexists. split; [done|]. split.
  - rewrite isort_perm, list_filter_filter. erewrite list_filter_iff; [reflexivity|]. cbn. tauto.
  - apply isort_sorted; unfold id_leb; [intros ???; apply str_leb_trans|intros ??; apply String.leb_total].
Qed.

(** Looking up: the first entry with the identifier is shown with status 0;
    when there is none the whole table is, with status 1. *)
Theorem looked_up_circuit args i cs : Forall entry_ok cs →
  match list_find (fun c => text_of "circuit_id" c = i) cs with
  | Some (_, c) => lookup_command args i cs = Ok (0, if ar_json args then AsJson c else Detail c)
  | None => ∃ lines, lookup_command args i cs = Ok (1, NotFound i lines)
  end.
Proof.
  intros H. unfold lookup_command.
  assert (get_circuit i cs = Ok (snd <$> list_find (fun c => text_of "circuit_id" c = i) cs)) as ->.
  { clear args. induction H as [|c cs Hc Hcs IH]; [done|]. cbn [get_circuit list_find].
    destruct (entry_fields c Hc "circuit_id") as [-> _]; [set_solver|]. cbn [mbind result_bind is_str].
    destruct (String.eqb_spec (text_of "circuit_id" c) i); destruct (decide (text_of "circuit_id" c = i)); try done.
    rewrite IH. by destruct (list_find _ cs) as [[j d]|]. }
  destruct (list_find _ cs) as [[j c]|] eqn:E; cbn [mbind result_bind fmap option_fmap option_map snd from_option].
  - unfold id. assert (truthy c = true) as ->; [|done]. apply list_find_Some in E as (Hj & _).
    rewrite Forall_lookup in H. destruct (entry_fields c (H j c Hj) "circuit_id") as [Hc _]; [set_solver|].
    destruct c as [| | | | | |[|p l]]; done.
  - cbn [truthy]. destruct (listed_circuits None None cs H) as (l & -> & Hp & _). cbn [mbind result_bind].
    destruct (table_total l) as [lines ->]; [|by eexists]. rewrite Hp. by apply entries_sublist.
Qed.

(** ** Example *)

Definition sample_entry (i d t : string) : json :=
  JObj [("circuit_id", JStr i); ("domain", JStr d); ("certification_tier", JStr t); ("description", JStr "A circuit")].

Definition sample_registry : string :=
  json_print (JObj [("circuits", JList [sample_entry "trade/b@1.0.0" "trade" "REVIEWED";
    sample_entry "trade/a@1.0.0" "trade" "CERTIFIED"; sample_entry "finance/c@1.0.0" "finance" "REVIEWED"])]).

Example lists_trade :
  main (Some sample_registry) (mkArguments None true (Some "trade") None true) =
  Ok (0, AsJson (JList [sample_entry "trade/a@1.0.0" "trade" "CERTIFIED"; sample_entry "trade/b@1.0.0" "trade" "REVIEWED"])).
Proof. vm_compute. reflexivity. Qed.

Example finds_nothing :
  fst <$> main (Some sample_registry) (mkArguments (Some "trade/z@1.0.0") false None None false) = Ok 1.
Proof. vm_compute. reflexivity. Qed.
