(* ===== verification/MemoryFiles.v ===== *)
(** * The files of the shared memory (memory/shared_memory.py)

    [flush] writes each of the four lists to a temporary file and moves it over
    the old one; [_load_all] reads them back when the memory is built.  A file
    holds the list that [json.dump] wrote to it, or a beginning of its text,
    which [json.loads] cannot read.  A process may be killed between any two
    system calls, and writing may fail. *)
From S2P Require Export SharedMemory.

(** ** Files *)

(** What a file holds: a list, written to its end, or less. *)
Inductive content (A : Type) := Whole (entries : list A) | Torn.
Arguments Whole {A} entries.
Arguments Torn {A}.

(** One of the four files, and the temporary files left next to it. *)
Record slot (A : Type) := mkSlot { at_path : option (content A); temporaries : list (content A) }.
Arguments mkSlot {A} _ _.
Arguments at_path {A} _.
Arguments temporaries {A} _.

(** [_load]: no file, and a file that cannot be read, are an empty list. *)
Definition _load {A} (s : slot A) : list A :=
  match at_path s with Some (Whole l) => l | Some Torn | None => [] end.

(** ** Saving *)

(** The system calls of [_save], in order: [mkstemp], the writes, of which each
    leaves the text unfinished but the last, and [os.replace]; or, when a write
    fails, [os.unlink], which may fail as well. *)
Inductive save_state := Begin | Writing | Written | Replaced | Failing | Failed.

Inductive save_step {A} (data : list A) : save_state * slot A → save_state * slot A → Prop :=
  | save_mkstemp p ts : save_step data (Begin, mkSlot p ts) (Writing, mkSlot p (Torn :: ts))
  | save_mkstemp_fails s : save_step data (Begin, s) (Failed, s)
  | save_write s : save_step data (Writing, s) (Writing, s)
  | save_finish p t ts : save_step data (Writing, mkSlot p (t :: ts)) (Written, mkSlot p (Whole data :: ts))
  | save_write_fails s : save_step data (Writing, s) (Failing, s)
  | save_replace p t ts : save_step data (Written, mkSlot p (t :: ts)) (Replaced, mkSlot (Some t) ts)
  | save_replace_fails s : save_step data (Written, s) (Failing, s)
  | save_unlink p t ts : save_step data (Failing, mkSlot p (t :: ts)) (Failed, mkSlot p ts)
  | save_unlink_fails s : save_step data (Failing, s) (Failed, s).

(** ** Flushing *)

Record disk := mkDisk {
  strategy_file : slot StrategyEntry;
  circuit_file : slot CircuitEntry;
  vuln_file : slot VulnerabilityEntry;
  performance_file : slot PerformanceEntry }.

Definition _load_all (d : disk) : SharedMemory :=
  mkMemory (_load (strategy_file d)) (_load (circuit_file d)) (_load (vuln_file d)) (_load (performance_file d)).

(** Which file is being saved, and how far; the files are saved in order, and
    an exception ends the flush. *)
Inductive flush_state := Saving (file : nat) (at_ : save_state) | Flushed | Raised.

Inductive flush_step (m : SharedMemory) : flush_state * disk → flush_state * disk → Prop :=
  | flush_strategy x y f f' c v p : save_step (_strategy m) (x, f) (y, f') →
      flush_step m (Saving 0 x, mkDisk f c v p) (Saving 0 y, mkDisk f' c v p)
  | flush_circuits x y s f f' v p : save_step (_circuits m) (x, f) (y, f') →
      flush_step m (Saving 1 x, mkDisk s f v p) (Saving 1 y, mkDisk s f' v p)
  | flush_vulns x y s c f f' p : save_step (_vulns m) (x, f) (y, f') →
      flush_step m (Saving 2 x, mkDisk s c f p) (Saving 2 y, mkDisk s c f' p)
  | flush_performance x y s c v f f' : save_step (_performance m) (x, f) (y, f') →
      flush_step m (Saving 3 x, mkDisk s c v f) (Saving 3 y, mkDisk s c v f')
  | flush_next n d : (n < 3)%nat → flush_step m (Saving n Replaced, d) (Saving (S n) Begin, d)
  | flush_done d : flush_step m (Saving 3 Replaced, d) (Flushed, d)
  | flush_raises n d : flush_step m (Saving n Failed, d) (Raised, d).

(** ** Saving is atomic *)

Definition replaced (x : save_state) : bool := match x with Replaced => true | _ => false end.

(** A file that is moved into place has been written to its end. *)
Definition complete {A} (data : list A) (x : save_state) (s : slot A) : Prop :=
  match x with Written => head (temporaries s) = Some (Whole data) | _ => True end.

(** A step leaves the file as it is, or is the last and puts the data there. *)
Lemma save_effect {A} (data : list A) x s y s' :
  save_step data (x, s) (y, s') → complete data x s →
  complete data y s' ∧ replaced x = false ∧
  at_path s' = (if replaced y then Some (Whole data) else at_path s).
Proof. intros H. inversion H; subst; cbn; naive_solver. Qed.

(** The first [n] files hold what the memory has, the others what they held. *)
Definition flushed_to (m : SharedMemory) (d0 : disk) (n : nat) (d : disk) : Prop :=
  at_path (strategy_file d) = (if (0 <? n)%nat then Some (Whole (_strategy m)) else at_path (strategy_file d0)) ∧
  at_path (circuit_file d) = (if (1 <? n)%nat then Some (Whole (_circuits m)) else at_path (circuit_file d0)) ∧
  at_path (vuln_file d) = (if (2 <? n)%nat then Some (Whole (_vulns m)) else at_path (vuln_file d0)) ∧
  at_path (performance_file d) = (if (3 <? n)%nat then Some (Whole (_performance m)) else at_path (performance_file d0)).

Definition unsaved_complete (m : SharedMemory) (x : flush_state) (d : disk) : Prop :=
  match x with
  | Saving 0 st => complete (_strategy m) st (strategy_file d)
  | Saving 1 st => complete (_circuits m) st (circuit_file d)
  | Saving 2 st => complete (_vulns m) st (vuln_file d)
  | Saving 3 st => complete (_performance m) st (performance_file d)
  | _ => True
  end.

(** A flush of [m] that began on [d0]: how many files it has saved. *)
Definition flushing (m : SharedMemory) (d0 : disk) (x : flush_state * disk) : Prop :=
  unsaved_complete m x.1 x.2 ∧ ∃ n, flushed_to m d0 n x.2 ∧
    match x.1 with
    | Saving k st => (k < 4)%nat ∧ n = (if replaced st then S k else k)
    | Flushed => n = 4%nat
    | Raised => (n < 4)%nat
    end.

Lemma flushing_begin m d : flushing m d (Saving 0 Begin, d).
Proof. split; [done|]. exists 0%nat. repeat split. lia. Qed.

Lemma flushing_step m d0 x y : flush_step m x y → flushing m d0 x → flushing m d0 y.
Proof.
  intros H [Hc (n & Hf & Hp)].
  destruct H as [x y f f' c v p Hs|x y s f f' v p Hs|x y s c f f' p Hs|x y s c v f f' Hs|k d Hk|d|k d];
    cbn [unsaved_complete fst snd strategy_file circuit_file vuln_file performance_file] in *;
    try (destruct Hp as [Hk Hp]; apply save_effect in Hs; [|exact Hc]; destruct Hs as (Hc' & Hx & He); rewrite Hx in Hp;
      subst n; split; [exact Hc'|]; eexists; split; [|split; [exact Hk|reflexivity]];
      destruct Hf as (F1 & F2 & F3 & F4); unfold flushed_to; cbn in *; rewrite ?He; destruct (replaced y); cbn; auto).
  - split; [by destruct k as [|[|[|[|k]]]]|]. exists n. split; [exact Hf|]. cbn in *. lia.
  - split; [done|]. exists n. split; [exact Hf|]. cbn in *. lia.
  - split; [done|]. exists n. split; [exact Hf|]. cbn in *. lia.
Qed.

Lemma flushing_run m d0 x : rtc (flush_step m) (Saving 0 Begin, d0) x → flushing m d0 x.
Proof.
  intros H. assert (∀ y z, rtc (flush_step m) y z → flushing m d0 y → flushing m d0 z) as Hr.
  { induction 1 as [|y1 y2 y3 Hs _ IH]; [done|]. intros Hy. by apply IH, (flushing_step m d0 y1). }
  by apply (Hr _ _ H), flushing_begin.
Qed.

(** The memory after the first [n] files of [m] are saved over [old]. *)
Definition mixed (n : nat) (m old : SharedMemory) : SharedMemory :=
  mkMemory (if (0 <? n)%nat then _strategy m else _strategy old) (if (1 <? n)%nat then _circuits m else _circuits old)
    (if (2 <? n)%nat then _vulns m else _vulns old) (if (3 <? n)%nat then _performance m else _performance old).

Lemma load_flushed m d0 n d : flushed_to m d0 n d → _load_all d = mixed n m (_load_all d0).
Proof.
  intros (F1 & F2 & F3 & F4). unfold _load_all, mixed, _load. rewrite F1, F2, F3, F4.
  cbn [_strategy _circuits _vulns _performance]. by do 4 (case_match; try lia).
Qed.

(** C36: a flush is atomic file by file.  Wherever the process is killed, and
    whichever system call fails, a memory loaded from the disk has in each list
    all of what was flushed or all of what was there before, the lists that are
    new being the first ones; a flush that ends without an exception has saved
    all four, and one that raises has not. *)
Theorem flush_atomic m d0 x d :
  rtc (flush_step m) (Saving 0 Begin, d0) (x, d) →
  ∃ n, (n ≤ 4)%nat ∧ _load_all d = mixed n m (_load_all d0) ∧ (x = Flushed → _load_all d = m) ∧ (x = Raised → (n < 4)%nat).
Proof.
  intros [_ (n & Hf & Hx)]%flushing_run. cbn [fst snd] in *. pose proof (load_flushed _ _ _ _ Hf) as Hl. exists n.
  split; [destruct x; case_match || idtac; lia|]. split; [exact Hl|]. split; [|by intros ->].
  intros ->. subst n. rewrite Hl. by destruct m.
Qed.

(** The calls of a save that goes through, for the file that [g] puts on the
    disk. *)
Lemma save_completes {A} m n (data : list A) (g : slot A → disk) :
  (∀ x y f f', save_step data (x, f) (y, f') → flush_step m (Saving n x, g f) (Saving n y, g f')) →
  ∀ s, rtc (flush_step m) (Saving n Begin, g s) (Saving n Replaced, g (mkSlot (Some (Whole data)) (temporaries s))).
Proof.
  intros Hg [p ts]. eapply rtc_l; [apply Hg, save_mkstemp|]. eapply rtc_l; [apply Hg, save_finish|].
  apply rtc_once, Hg, save_replace.
Qed.

(** Round trip: a flush can always go through, and a memory loaded afterwards
    is the one that was flushed. *)
Theorem flush_then_load m d0 :
  ∃ d, rtc (flush_step m) (Saving 0 Begin, d0) (Flushed, d) ∧ _load_all d = m.
Proof.
  assert (∃ d, rtc (flush_step m) (Saving 0 Begin, d0) (Flushed, d)) as [d H].
  { destruct d0 as [s c v p].
    set (s' := mkSlot (Some (Whole (_strategy m))) (temporaries s)). set (c' := mkSlot (Some (Whole (_circuits m))) (temporaries c)).
    set (v' := mkSlot (Some (Whole (_vulns m))) (temporaries v)). set (p' := mkSlot (Some (Whole (_performance m))) (temporaries p)).
    exists (mkDisk s' c' v' p').
    etrans; [apply (save_completes m 0 (_strategy m) (fun f => mkDisk f c v p)); intros; by apply flush_strategy|].
    eapply rtc_l; [apply flush_next; lia|].
    etrans; [apply (save_completes m 1 (_circuits m) (fun f => mkDisk s' f v p)); intros; by apply flush_circuits|].
    eapply rtc_l; [apply flush_next; lia|].
    etrans; [apply (save_completes m 2 (_vulns m) (fun f => mkDisk s' c' f p)); intros; by apply flush_vulns|].
    eapply rtc_l; [apply flush_next; lia|].
    etrans; [apply (save_completes m 3 (_performance m) (fun f => mkDisk s' c' v' f)); intros; by apply flush_performance|].
    apply rtc_once, flush_done. }
  exists d. split; [exact H|]. apply flushing_run in H as [_ (n & Hf & Hn)]. cbn [fst snd] in *. subst n.
  rewrite (load_flushed _ _ _ _ Hf). by destruct m.
Qed.

(** ** Example *)

Definition sample_memory : SharedMemory :=
  mkMemory [mkStrategy "s_1_0" "trade" "success" "retry" "" 1 "agent" 1 []] [] []
    [mkPerformance "p_agent_1" "agent" 1 3 0 "1.5" "0.9" 1].

Definition empty_disk : disk := mkDisk (mkSlot None []) (mkSlot None []) (mkSlot None []) (mkSlot None []).

(** The process is killed while it writes the second file. *)
Definition interrupted : disk :=
  mkDisk (mkSlot (Some (Whole (_strategy sample_memory))) []) (mkSlot None [Torn]) (mkSlot None []) (mkSlot None []).

Lemma interrupted_run : rtc (flush_step sample_memory) (Saving 0 Begin, empty_disk) (Saving 1 Writing, interrupted).
Proof.
  eapply rtc_l; [apply flush_strategy, save_mkstemp|]. eapply rtc_l; [apply flush_strategy, save_finish|].
  eapply rtc_l; [apply flush_strategy, save_replace|]. eapply rtc_l; [apply flush_next; lia|].
  apply rtc_once, flush_circuits, save_mkstemp.
Qed.

Example flush_atomic_witness :
  ∃ n, (n ≤ 4)%nat ∧ _load_all interrupted = mixed n sample_memory (_load_all empty_disk) ∧
    (Saving 1 Writing = Flushed → _load_all interrupted = sample_memory) ∧ (Saving 1 Writing = Raised → (n < 4)%nat).
Proof. exact (flush_atomic sample_memory empty_disk (Saving 1 Writing) interrupted interrupted_run). Defined.
